(* ===== verification/_CoqProject ===== *)
-Q . S2P
Prelude.v
SqlScan.v
Policy.v
Startup.v
Config.v
Session.v
Query.v
SessionState.v
Plan.v
Topology.v
ServerList.v
PoolConn.v
Reader.v
ReaderSafety.v
ReaderAcquire.v
CapacityQueue.v
ServerPool.v
PoolSafety.v
Reservations.v
PoolOperations.v
SelectedServer.v
PoolTraces.v
ReaderWorker.v
ReservationLedger.v
ReservationProtocol.v
ReservationSafety.v
Wrap.v
Flow.v
Result.v
Dispatch.v
ReadYourWrites.v
Failure.v
Redispatch.v
Ledger.v
LedgerStage.v
RetrySafety.v
RetryRoute.v
RetrySplit.v
RetryBound.v
QueryResult.v
WrapState.v
Notices.v
Consume.v
ConsumeSafety.v
Transparent.v
