(* ===== verification/Prelude.v ===== *)
(** * Polar Proxy: verification of the PolarDB session-consistency core

    Polar Proxy is a ProxySQL fork whose own logic routes PostgreSQL statements
    of a session between the writer and the readers of a PolarDB group without
    losing read-your-writes consistency.  A backend appends its WAL position
    (LSN) to ReadyForQuery; the proxy remembers the highest position a session
    wrote or observed, together with the writer hostgroup and epoch (the "writer
    scope") it belongs to, and sends a later read to a reader only behind a wait
    for that position.  This library models that core and proves that the
    promise is kept.

    *** The program's parts and the files that model them

    One statement passes through observe, collect, plan, report and execute
    (lib/PgSQL_PolarDB_Flow.cpp), then reader selection and the wait wrapper
    (lib/PgSQL_PolarDB_Wrap.cpp, lib/PgSQL_PolarDB_Split.cpp); its response
    passes through process_result and request end (lib/PgSQL_PolarDB_Flow.cpp,
    lib/PgSQL_Session.cpp); the hostgroup manager keeps the shared positions and
    epochs (lib/PgSQL_HostGroups_Manager.cpp, lib/PgSQL_PolarDB_Topology.cpp).

    - [Prelude]: machine integers with explicit wrap-around, C strings, record
      update [r <| f := v |>], the closure [steps] with invariant induction, the
      tactics [case_if], [bool_to_prop], [enum_cases], [simpl_upd] and the hint
      database [polar].
    - [SqlScan]: the word scanner and statement classifiers of
      lib/PgSQL_PolarDB_Protocol.cpp.  Its theorems compare the scanner with the
      list of bare words of the statement.
    - [Policy], [Startup], [Config]: the enumerations, startup profiles, reuse
      keys, identities, profile table and settings of include/PgSQL_PolarDB.h.
      Theorems: text round trips, token and key faithfulness, well-formed
      configurations.
    - [Session], [Query]: positions, wait specifications, the transaction-split
      state machine, route plans and per-request state of
      include/PgSQL_PolarDB.h.  Theorems: the state machine invariant, the client
      position decision, the byte cap, exact resets.
    - [SessionState]: the PolarDB members of PgSQL_Session
      (include/PgSQL_Session.h) as the record [PgSQL_Session], isolation
      tracking and the temporary transaction reader
      (lib/PgSQL_PolarDB_Consistency.cpp, lib/PgSQL_PolarDB_Split.cpp).
    - [Plan]: [polardb_plan] against the class [LsnSource], what the planner
      asks the hostgroup manager.  [read_policy] is the abstract specification
      of a plan; [plan_refines_read_policy] is the refinement.
    - [Topology]: hostgroups, servers, pairing, the shared group, replay and
      epoch cells, monitor and ReadyForQuery updates, worker coalescing, epoch
      refresh.  [hgm_step] is the machine of all cache operations, [hgm_inv] its
      invariant, and the hostgroup manager is an instance of [LsnSource].
    - [ServerList]: server-list snapshots, shared ownership, retirement and
      reclamation; [lists_step] is the machine, use-after-free is the question.
    - [PoolConn]: a pooled backend connection, its session variables and reuse
      keys, the request for one, classification for reuse and the decision to
      keep it (lib/PgSQL_PolarDB_ReaderPool_Connections.cpp, parts of
      lib/PgSQL_Connection.cpp and lib/PgSQL_Variables.cpp).
    - [Reader]: reader selection and acquisition
      (lib/PgSQL_PolarDB_ReaderPool.cpp): candidates, the rotation of two
      readers, random sampling, power of two choices, capacity walks, creation
      on the selected server, and the check of a reader already held.  The
      program runs in the state monad [St] over a [world] (random stream,
      selection sequences, session, pools).
    - [ReaderSafety], [ReaderAcquire]: a calculus of postconditions for these
      programs and, with it, what an acquisition promises: the connection is on
      an eligible reader, an eligible reader is never given up, a full group
      was really found full, and the rotation is exact.
    - [CapacityQueue]: the requests of workers for reader capacity that a
      hostgroup keeps (class PgSQL_HGC), three indexes over list nodes, as a
      refinement of one list in the order of arrival.
    - [ServerPool]: the pool of one server (PgSQL_SrvC and PgSQL_SrvConnList of
      lib/PgSQL_HostGroups_Manager.cpp) in the monad [PM] of operations under the
      pool lock; connection objects are a heap, [None] is a failed assertion.
      [PoolSafety] has its invariant [pool_wf] and the list operations,
      [Reservations] returning, reserving, taking and cancelling, described by
      the map of claims (token to worker), [PoolOperations] acquisition, creation
      and housekeeping, [SelectedServer] the acquisition from the server a request
      selected, with creation under the throttle of its hostgroup, [PoolTraces]
      all of them as one type [server_op].
    - [ReaderWorker]: the reservation, retention and wakes of a worker
      (lib/PgSQL_PolarDB_ReaderPool_Worker.cpp, parts of lib/PgSQL_Thread.cpp)
      over a [reader_system] of servers, queues and workers, monad [SM].
      [ReservationLedger] is the abstract state, a map from a live token to its
      worker and place; [ReservationProtocol] is the step relation of all
      threads, [protocol_step], with the simulation of every step by the ledger;
      [ReservationSafety] has what follows for every reachable state: one holder
      for a claim, no forgotten waiter, no failed assertion, consistent pools,
      and the loops over wakes, which are runs and end.
    - [Wrap]: the SET wrappers, their packet and their installation, read back by
      a small parser of SET statements.
    - [Flow]: policy snapshot, manual routes, query cache decision, writer scope
      capture and rebinding, observation and collection.  The query cache never
      answers what the planner would make wait.
    - [Result]: positioned, zero and missing payloads, the client's position,
      deferred extended-protocol frames, the end of waits and requests.  The
      record [proxy] is one session with the manager and its worker.
    - [Dispatch]: transaction wait and split readers, [polardb_execute] and the
      whole pipeline [polardb_route_query].  [read_protected] says of the state
      after it, without the plan, what protects a read on the reader hostgroup.
    - [ReadYourWrites]: every operation above as [session_step], the memory of
      an acknowledged write as an invariant of the steps, and the session
      guarantee [read_your_writes].
    - [Failure], [Redispatch]: lib/PgSQL_PolarDB_Failure.cpp.  The first has the
      snapshot of a failed request, its classification and the recovery the
      configured actions select; the second the release of connections, the
      retry on another reader or on a writer and the failure stage, in a
      [retry_world] where packets and connections have explicit owners.
    - [Ledger], [LedgerStage], [RetrySafety], [RetryRoute], [RetrySplit],
      [RetryBound]: what the failure stage promises.  Every packet ends with one
      owner or is freed once; the client is written to only when the error is
      forwarded; a retried read keeps its consistency target, unless its wrapper
      was never sent and moves with it, and its transaction; a statement is
      retried at most twice.
    - [QueryResult]: the buffer PgSQL_Query_Result of lib/PgSQL_Protocol.cpp,
      every message copied into it and its hand-over to the client, with a
      parser of message frames: what comes out is the messages put in, in order
      but for an error packet built while others are still in the buffer.
    - [WrapState]: the countdown of wrapper results on a connection
      (include/PgSQL_Connection.h) as a machine [wrap_step] with its shapes
      [wrap_wf].
    - [Notices]: lib/PgSQL_PolarDB_Notices.cpp.  Packets, the session's queue
      and the wait-timeout handler; the queue refines a log of notices.
    - [Consume]: one simple query on a backend connection, from dispatch to its
      last result (lib/PgSQL_Connection.cpp, lib/PgSQL_Session.cpp): wrapper
      results dropped, errors, notices, streamed output.  [ConsumeSafety] shows
      what a query keeps: a timeout counted once, split XIDs marked until they
      are cleared, the number of results skipped.  [Transparent] is a simulation:
      a query behind wrapper SETs runs like the query alone.

    *** Correspondence

    Definitions carry the names of the C++ functions and fields (fields behind a
    two-letter prefix).  A member function is a function from the old object to
    the new one; out-parameters are results; a null pointer is [None]; enums are
    inductive types with their integer encodings; unsigned 64-bit positions are
    integers in [Z] with range predicates where a bound matters.  Shared atomic
    cells belong to the writer hostgroup and are read through the topology
    snapshot, as the shared pointers of the source are.  Time is an argument.

    *** Parameters

    inet_pton is a function argument of the identity definitions.  What the
    reader pool answers (a stream, a connection, whether its position was
    reached) is the argument [reader_env] of the dispatch definitions.  The
    connection pool of one server, the worker's cache of connections and the
    removal of a connection are the operations of the class [ServerPool]; the
    random numbers are a list in the [world].  No law is assumed of any of them.
    An acquisition reads the settings, the clock, the snapshot and the live
    fields of the servers as one [reader_context].  The failure stage takes the
    manager, the writer a pool gives, the reader it acquires, the allocator and
    the command parser from [retry_env].  A query takes libpq's own error, the
    names of error codes, the answer of a send, the payload of ReadyForQuery, the
    clock and the settings from [query_env], and what libpq reports afterwards is
    a list of [query_op]; the theorems hold for every list.  The pool of a server
    takes the random start of a search, the throttle, the settings and the object
    operator new gives from [get_settings]; creation on a selected server takes
    generations, weight, latencies, clock and the hostgroup's counter from
    [creation_view]; the outcomes of pipe writes are a
    function.  [op_ready] has what the callers of a server's operations guarantee.

    *** Fuel

    The word scanner of [SqlScan] uses fuel: every scanner step consumes a
    character, the length of the text plus one is given, and the equivalence
    theorems hold for every text, so running out is excluded by proof.  The
    readers of frames ([QueryResult]) and of notices ([Notices]) use the length
    of their input; their round trips show it is enough.  The sixteen attempts
    of the pool loops in [Reader] are the source's limit.  The loops of
    [ServerPool] over a list have its length as fuel, which is enough because a
    turn moves on or removes a connection.  The routing loop of [ReaderWorker]
    has explicit fuel; [routing_loop_ends] shows that one turn more than there
    are workers is enough.

    *** Not modelled

    Counters, traces, profile timers and debug fault injection; socket I/O and
    the states of data streams; the choice of a server in a hostgroup outside
    the reader pool, dropping all idle connections, background warmup, the worker
    cache of connections and the order in which a worker revisits its waiting
    sessions; the SQL reload that builds a topology; the result loop of the extended protocol, its pauses and
    its byte statistics; the MySQL side, the administration interface, the
    monitor's network I/O, clustering and plugins.  Interleavings are modelled at
    the granularity of the locks: one cache update, one epoch refresh, one
    snapshot operation, one operation of a server's pool with the request queue
    it calls into, or the queueing of one wake is one step; a worker exchanges
    its wake flag and swaps its queue in two.  A wake that could not be queued is
    remembered ([px_refused]): the worker that waits for it keeps its reservation
    until its session cancels it. *)

From Stdlib Require Import ZArith Ascii String List Bool Lia.
From stdpp Require Import base tactics list gmap strings.

Declare Scope polar_scope.
Delimit Scope polar_scope with polar.

(** ** Machine integers

    A C++ integer is a [Z].  Unsigned types carry the range predicates below;
    the wrap-around of an arithmetic operation is written where the source can
    overflow. *)

Open Scope Z_scope.

Definition U64_MODULUS : Z := 18446744073709551616.
Definition U32_MODULUS : Z := 4294967296.
Definition UINT32_MAX : Z := 4294967295.
Definition UINT64_MAX : Z := 18446744073709551615.

Definition wrap64 (x : Z) : Z := x mod U64_MODULUS.
Definition wrap32 (x : Z) : Z := x mod U32_MODULUS.

Definition is_u64 (x : Z) : Prop := 0 <= x < U64_MODULUS.
Definition is_u32 (x : Z) : Prop := 0 <= x < U32_MODULUS.
Definition is_i32 (x : Z) : Prop := -2147483648 <= x < 2147483648.

Lemma wrap64_range x : is_u64 (wrap64 x).
Proof. unfold is_u64, wrap64, U64_MODULUS. apply Z.mod_pos_bound. lia. Qed.

Lemma wrap32_range x : is_u32 (wrap32 x).
Proof. unfold is_u32, wrap32, U32_MODULUS. apply Z.mod_pos_bound. lia. Qed.

Lemma wrap64_id x : is_u64 x -> wrap64 x = x.
Proof. unfold is_u64, wrap64. intros. by apply Z.mod_small. Qed.

Lemma wrap32_id x : is_u32 x -> wrap32 x = x.
Proof. unfold is_u32, wrap32. intros. by apply Z.mod_small. Qed.

(** Packing a field below a shifted word is addition. *)
Lemma lor_shiftl_add a b n :
  0 <= n -> 0 <= b < 2 ^ n -> Z.lor (Z.shiftl a n) b = a * 2 ^ n + b.
Proof.
  intros Hn Hb. rewrite <- Z.shiftl_mul_pow2, <- Z.add_lor_land by done.
  enough (Z.land (Z.shiftl a n) b = 0) as -> by lia.
  destruct (Z.eq_dec b 0) as [->|]; [apply Z.land_0_r|].
  apply Z.bits_inj'; intros i Hi. rewrite Z.land_spec, Z.bits_0.
  destruct (Z.lt_ge_cases i n).
  - by rewrite Z.shiftl_spec_low.
  - rewrite (Z.bits_above_log2 b i), andb_false_r; [done|lia|].
    apply Z.log2_lt_pow2; [lia|]. eapply Z.lt_le_trans; [apply Hb|].
    by apply Z.pow_le_mono_r.
Qed.

(** ** Boolean equality in conditions

    The code compares enumerators with [==]; the model decides the equality. *)

Notation "x '==' y" := (bool_decide (x = y)) (at level 70) : polar_scope.
Notation "x '!=' y" := (negb (bool_decide (x = y))) (at level 70) : polar_scope.
Open Scope polar_scope.

Lemma beq_true {A} `{EqDecision A} (x y : A) : (x == y) = true <-> x = y.
Proof. apply bool_decide_eq_true. Qed.

Lemma beq_false {A} `{EqDecision A} (x y : A) : (x == y) = false <-> x <> y.
Proof. apply bool_decide_eq_false. Qed.

Lemma beq_refl {A} `{EqDecision A} (x : A) : (x == x) = true.
Proof. by apply bool_decide_eq_true. Qed.

(** ** C strings

    [const char*] is [cstr]: [None] is the null pointer and [Some s] a
    NUL-terminated text whose characters before the terminator are [s]. *)

Definition cstr : Type := option string.

Definition code (c : ascii) : Z := Z.of_nat (nat_of_ascii c).

Definition in_range (lo hi n : Z) : bool := (lo <=? n) && (n <=? hi).

(** The C-locale character classes and case mapping of <cctype>. *)
Definition isspace (c : ascii) : bool :=
  (code c =? 32) || in_range 9 13 (code c).

Definition isupper (c : ascii) : bool := in_range 65 90 (code c).

Definition isalnum (c : ascii) : bool :=
  in_range 48 57 (code c) || in_range 65 90 (code c) || in_range 97 122 (code c).

Definition tolower (c : ascii) : ascii :=
  if isupper c then ascii_of_nat (nat_of_ascii c + 32) else c.

Fixpoint lower (s : string) : string :=
  match s with
  | EmptyString => EmptyString
  | String c r => String (tolower c) (lower r)
  end.

(** [strcasecmp(a, b) == 0] *)
Fixpoint strcaseeq (a b : string) : bool :=
  match a, b with
  | EmptyString, EmptyString => true
  | String x a', String y b' => Ascii.eqb (tolower x) (tolower y) && strcaseeq a' b'
  | _, _ => false
  end.

Lemma strcaseeq_spec a b : strcaseeq a b = true <-> lower a = lower b.
Proof.
  revert b; induction a as [|x a IH]; intros [|y b]; cbn; try done.
  rewrite andb_true_iff, Ascii.eqb_eq, IH. split; [intros [-> ->]|intros [=]]; done.
Qed.

Lemma strcaseeq_refl a : strcaseeq a a = true.
Proof. by apply strcaseeq_spec. Qed.

Lemma strcaseeq_lower_l a b : strcaseeq (lower a) b = strcaseeq a b.
Proof.
  assert (Hc : forall c, tolower (tolower c) = tolower c)
    by (intros [[] [] [] [] [] [] [] []]; reflexivity).
  revert b; induction a as [|x a IH]; intros [|y b]; cbn; try done.
  by rewrite Hc, IH.
Qed.

Lemma strcaseeq_congr a b w : strcaseeq a b = true -> strcaseeq a w = strcaseeq b w.
Proof.
  intros H%strcaseeq_spec. rewrite <- (strcaseeq_lower_l a), <- (strcaseeq_lower_l b).
  by rewrite H.
Qed.

Lemma strcaseeq_empty a b :
  strcaseeq a b = true -> bool_decide (a = EmptyString) = bool_decide (b = EmptyString).
Proof. destruct a, b; cbn; done. Qed.

(** ** Functional record update

    [r <| f := v |>] is [r] with field [f] replaced; the instances are derived
    by [derive_update] from the projection. *)

Class Update {R F : Type} (proj : R -> F) : Type := update : (F -> F) -> R -> R.

Arguments update {R F} proj {_} _ _.

#[warnings="-postfix-notation-not-level-1"]
Notation "r <| f := v |>" := (update f (fun _ => v) r)
  (at level 12, f at next level, v at level 200, left associativity,
   format "r  <|  f  :=  v  |>") : polar_scope.

Ltac derive_update :=
  lazymatch goal with
  | |- Update ?p =>
      unfold Update; let f := fresh "f" in let r := fresh "r" in
      intros f r; destruct r eqn:?;
      match goal with
      | H : r = ?c |- _ =>
          let a := eval cbn in (p c) in
          lazymatch eval pattern a in c with
          | ?h _ => exact (h (f a))
          end
      end
  end.

(** Read a field through an update, whatever the updated record is. *)
Ltac read_update p q f r I :=
  first
    [ let E := fresh in
      assert (E : p (@update _ _ q I f r) = f (q r)) by (clear; by destruct r);
      rewrite E; clear E
    | let E := fresh in
      assert (E : p (@update _ _ q I f r) = p r) by (clear; by destruct r);
      rewrite E; clear E ].

Ltac simpl_upd :=
  repeat (match goal with
  | |- context [?p (@update ?R ?F ?q ?I ?f ?r)] =>
      lazymatch type of p with R -> _ => read_update p q f r I end
  end; cbn beta).

(** ** Reachability *)

Section Closure.
Context {A : Type} (R : A -> A -> Prop).

Inductive steps : A -> A -> Prop :=
| steps_refl a : steps a a
| steps_next a b c : steps a b -> R b c -> steps a c.

Lemma steps_invariant (P : A -> Prop) :
  (forall a b, P a -> R a b -> P b) -> forall a b, steps a b -> P a -> P b.
Proof. intros Hpres a b Hs Ha. induction Hs; eauto. Qed.

End Closure.

(** ** Tactics *)

Create HintDb polar.

(** Case analysis on every boolean test that blocks reduction of the goal. *)
Ltac case_if :=
  match goal with
  | |- context [if ?b then _ else _] =>
      lazymatch b with
      | context [if _ then _ else _] => fail
      | _ => let E := fresh "E" in destruct b eqn:E
      end
  end.

Ltac case_if_in H :=
  match type of H with
  | context [if ?b then _ else _] =>
      lazymatch b with
      | context [if _ then _ else _] => fail
      | _ => let E := fresh "E" in destruct b eqn:E
      end
  end.

(** Turn boolean facts into propositions that [lia] and [congruence] use. *)
Ltac bool_to_prop :=
  repeat match goal with
  | H : bool_decide _ = true |- _ => apply bool_decide_eq_true in H
  | H : bool_decide _ = false |- _ => apply bool_decide_eq_false in H
  | H : _ && _ = true |- _ => apply andb_true_iff in H; destruct H
  | H : _ || _ = false |- _ => apply orb_false_iff in H; destruct H
  | H : negb _ = true |- _ => apply negb_true_iff in H
  | H : negb _ = false |- _ => apply negb_false_iff in H
  | H : (_ =? _) = true |- _ => apply Z.eqb_eq in H
  | H : (_ =? _) = false |- _ => apply Z.eqb_neq in H
  | H : (_ <? _) = true |- _ => apply Z.ltb_lt in H
  | H : (_ <? _) = false |- _ => apply Z.ltb_ge in H
  | H : (_ <=? _) = true |- _ => apply Z.leb_le in H
  | H : (_ <=? _) = false |- _ => apply Z.leb_gt in H
  end.

(** Decide a statement over finite enumerations by running every case. *)
Ltac enum_cases :=
  intros;
  repeat match goal with
  | x : ?T |- _ =>
      lazymatch T with
      | Z => fail | nat => fail | string => fail | bool => destruct x
      | _ => is_var x; lazymatch type of T with Set => destruct x end
      end
  end.
