(* ===== verification/SqlScan.v ===== *)
(** * SQL text classification

    The small word scanner and the read/write classification of
    lib/PgSQL_PolarDB_Protocol.cpp, with the keyword helpers of
    include/PgSQL_PolarDB.h.  A cursor into a NUL-terminated text is the text
    from the cursor to the terminator. *)

From S2P Require Import Prelude.
From Stdlib Require Import ZArith Ascii String List Bool Lia.
From stdpp Require Import base tactics list gmap strings.

Open Scope Z_scope.
Open Scope polar_scope.

(** ** Characters *)

Definition polardb_ascii_space (c : ascii) : bool :=
  (code c =? 32) || (code c =? 9) || (code c =? 10) || (code c =? 13).

Definition polardb_ascii_lower (c : ascii) : ascii :=
  if in_range 65 90 (code c) then ascii_of_nat (nat_of_ascii c - 65 + 97) else c.

Definition polardb_is_ident_char (c : ascii) : bool :=
  in_range 65 90 (code c) || in_range 97 122 (code c) || in_range 48 57 (code c) ||
  (code c =? 95).

Definition is_char (c : ascii) (n : Z) : bool := code c =? n.

Definition SQUOTE : Z := 39.
Definition DQUOTE : Z := 34.
Definition BACKSLASH : Z := 92.
Definition DOLLAR : Z := 36.
Definition SLASH : Z := 47.
Definition STAR : Z := 42.
Definition DASH : Z := 45.

Fixpoint polardb_skip_leading_space (query : string) : string :=
  match query with
  | EmptyString => EmptyString
  | String c r => if polardb_ascii_space c then polardb_skip_leading_space r else query
  end.

(** The two character loops of [polardb_token_equals]. *)
Fixpoint polardb_token_equals (token word : string) : bool :=
  match token, word with
  | EmptyString, EmptyString => true
  | String a t, String b w =>
      Ascii.eqb (polardb_ascii_lower a) (polardb_ascii_lower b) && polardb_token_equals t w
  | _, _ => false
  end.

(** The text after a case-insensitive prefix. *)
Fixpoint after_prefix (query word : string) : option string :=
  match word, query with
  | EmptyString, _ => Some query
  | String b w, String a q =>
      if Ascii.eqb (polardb_ascii_lower a) (polardb_ascii_lower b)
      then after_prefix q w else None
  | String _ _, EmptyString => None
  end.

Definition polardb_starts_with_keyword (query : cstr) (word : string) : bool :=
  match query with
  | None => false
  | Some query =>
      match after_prefix (polardb_skip_leading_space query) word with
      | None => false
      | Some EmptyString => true
      | Some (String c _) => negb (polardb_is_ident_char c)
      end
  end.

(** ** Skipping quoted text and comments *)

Fixpoint single_quoted_body (backslash_escapes : bool) (p : string) : string :=
  match p with
  | EmptyString => EmptyString
  | String c r =>
      match r with
      | String d r' =>
          if backslash_escapes && is_char c BACKSLASH
          then single_quoted_body backslash_escapes r'
          else if is_char c SQUOTE
          then if is_char d SQUOTE then single_quoted_body backslash_escapes r' else r
          else single_quoted_body backslash_escapes r
      | EmptyString => EmptyString
      end
  end.

(** The cursor is at the opening quote. *)
Definition polardb_skip_single_quoted (p : string) (backslash_escapes : bool) : string :=
  match p with EmptyString => p | String _ r => single_quoted_body backslash_escapes r end.

Fixpoint double_quoted_body (p : string) : string :=
  match p with
  | EmptyString => EmptyString
  | String c r =>
      if is_char c DQUOTE
      then match r with
           | String d r' => if is_char d DQUOTE then double_quoted_body r' else r
           | EmptyString => r
           end
      else double_quoted_body r
  end.

Definition polardb_skip_double_quoted (p : string) : string :=
  match p with EmptyString => p | String _ r => double_quoted_body r end.

Fixpoint line_comment_body (p : string) : string :=
  match p with
  | EmptyString => EmptyString
  | String c r => if is_char c 10 || is_char c 13 then p else line_comment_body r
  end.

Definition polardb_skip_line_comment (p : string) : string :=
  match p with String _ (String _ r) => line_comment_body r | _ => EmptyString end.

Fixpoint block_comment_body (p : string) : string :=
  match p with
  | EmptyString => EmptyString
  | String c r =>
      match r with
      | String d r' => if is_char c STAR && is_char d SLASH then r' else block_comment_body r
      | EmptyString => EmptyString
      end
  end.

Definition polardb_skip_block_comment (p : string) : string :=
  match p with String _ (String _ r) => block_comment_body r | _ => EmptyString end.

(** The identifier characters at the cursor and the text after them. *)
Fixpoint take_ident (p : string) : string * string :=
  match p with
  | EmptyString => (EmptyString, EmptyString)
  | String c r =>
      if polardb_is_ident_char c
      then let '(t, rest) := take_ident r in (String c t, rest)
      else (EmptyString, p)
  end.

(** The text after an exact prefix. *)
Fixpoint strip_exact (delim p : string) : option string :=
  match delim, p with
  | EmptyString, _ => Some p
  | String a d, String b r => if Ascii.eqb a b then strip_exact d r else None
  | String _ _, EmptyString => None
  end.

Fixpoint dollar_body (delim p : string) : string :=
  match p with
  | EmptyString => EmptyString
  | String c r =>
      if is_char c DOLLAR
      then match strip_exact delim p with Some after => after | None => dollar_body delim r end
      else dollar_body delim r
  end.

Definition polardb_skip_dollar_quoted (p : string) : string :=
  match p with
  | EmptyString => p
  | String c r =>
      if negb (is_char c DOLLAR) then p
      else
        let '(tag, rest) := take_ident r in
        match rest with
        | String d body =>
            if is_char d DOLLAR
            then dollar_body (String c (tag +:+ String d EmptyString)) body
            else p
        | EmptyString => p
        end
  end.

(** ** The word scanner *)

(** One turn of the scanning loop: a word and the text after it, or the cursor
    the loop continues from. *)
Definition scan_step (p : string) : (string * string) + string :=
  match p with
  | EmptyString => inr EmptyString
  | String c r =>
      let d := match r with String d _ => Some d | EmptyString => None end in
      let next_is n := match d with Some d => is_char d n | None => false end in
      if polardb_ascii_space c then inr r
      else if is_char c DASH && next_is DASH then inr (polardb_skip_line_comment p)
      else if is_char c SLASH && next_is STAR then inr (polardb_skip_block_comment p)
      else if (is_char c 101 || is_char c 69) && next_is SQUOTE
      then inr (polardb_skip_single_quoted r true)
      else if is_char c SQUOTE then inr (polardb_skip_single_quoted p false)
      else if is_char c DQUOTE then inr (polardb_skip_double_quoted p)
      else
        let after_dollar := polardb_skip_dollar_quoted p in
        if is_char c DOLLAR && negb (after_dollar == p) then inr after_dollar
        else if polardb_is_ident_char c then inl (take_ident p)
        else inr r
  end.

Fixpoint next_sql_word (fuel : nat) (p : string) : option string * string :=
  match fuel, p with
  | O, _ | _, EmptyString => (None, p)
  | S fuel, _ =>
      match scan_step p with
      | inl (token, rest) => (Some token, rest)
      | inr p => next_sql_word fuel p
      end
  end.

Definition polardb_next_sql_word (p : string) : option string * string :=
  next_sql_word (String.length p) p.

Definition token_is (token : option string) (w : string) : bool :=
  match token with Some t => polardb_token_equals t w | None => false end.

(** The clause after a FOR at cursor [p]. *)
Definition locking_tail (p : string) : bool :=
  let '(next, lookahead) := polardb_next_sql_word p in
  if token_is next "update" || token_is next "share" then true
  else if token_is next "no"
  then
    let '(key, lookahead) := polardb_next_sql_word lookahead in
    let '(update, _) := polardb_next_sql_word lookahead in
    token_is key "key" && token_is update "update"
  else if token_is next "key"
  then let '(share, _) := polardb_next_sql_word lookahead in token_is share "share"
  else false.

Fixpoint locking_loop (fuel : nat) (p : string) : bool :=
  match fuel with
  | O => false
  | S fuel =>
      let '(token, p) := polardb_next_sql_word p in
      match token with
      | None => false
      | Some t =>
          if polardb_token_equals t "for"
          then
            match fst (polardb_next_sql_word p) with
            | None => false
            | Some _ => if locking_tail p then true else locking_loop fuel p
            end
          else locking_loop fuel p
      end
  end.

Definition polardb_select_has_locking_for_clause (query : cstr) : bool :=
  match query with
  | None => false
  | Some q => locking_loop (S (String.length q)) q
  end.

(** ** Read and write classification *)

(** [PGSQL_QUERY_command], with the commands no decision distinguishes in one
    constructor. *)
Inductive pgsql_command :=
| PGSQL_QUERY_SELECT | PGSQL_QUERY_SHOW | PGSQL_QUERY_EXPLAIN
| PGSQL_QUERY_UNKNOWN | PGSQL_QUERY__UNINITIALIZED | PGSQL_QUERY___NONE
| PGSQL_QUERY_BEGIN | PGSQL_QUERY_COMMIT | PGSQL_QUERY_ROLLBACK | PGSQL_QUERY_ABORT
| PGSQL_QUERY_SAVEPOINT | PGSQL_QUERY_ROLLBACK_TO_SAVEPOINT | PGSQL_QUERY_RELEASE_SAVEPOINT
| PGSQL_QUERY_SET | PGSQL_QUERY_RESET
| PGSQL_QUERY_other (n : Z).

#[global] Instance pgsql_command_eq_dec : EqDecision pgsql_command.
Proof. solve_decision. Defined.

Definition starts_as_read (query : cstr) : bool :=
  polardb_starts_with_keyword query "select" || polardb_starts_with_keyword query "show" ||
  polardb_starts_with_keyword query "explain".

Definition is_write_query (query : cstr) : bool :=
  match query with
  | None => false
  | Some _ =>
      if starts_as_read query
      then polardb_starts_with_keyword query "select" &&
           polardb_select_has_locking_for_clause query
      else true
  end.

Definition is_txn_split_safe_read (query : cstr) : bool :=
  polardb_starts_with_keyword query "select" &&
  negb (polardb_select_has_locking_for_clause query).

Definition is_txn_split_safe_select (is_top_level_select : bool) (query : cstr) : bool :=
  is_top_level_select && negb (polardb_select_has_locking_for_clause query).

Definition is_locking_select_query (query : cstr) : bool :=
  polardb_select_has_locking_for_clause query.

Definition is_write_query_cmd (query : cstr) (command_type : pgsql_command) : bool :=
  match command_type with
  | PGSQL_QUERY_SELECT => polardb_select_has_locking_for_clause query
  | PGSQL_QUERY_SHOW | PGSQL_QUERY_EXPLAIN => false
  | PGSQL_QUERY_UNKNOWN | PGSQL_QUERY__UNINITIALIZED | PGSQL_QUERY___NONE =>
      is_write_query query
  | _ => true
  end.

Definition should_advance_session_write_lsn (query : cstr) : bool :=
  match query with
  | None => false
  | Some _ => negb (starts_as_read query)
  end.

Definition should_advance_session_write_lsn_cmd (query : cstr) (command_type : pgsql_command)
  : bool :=
  match command_type with
  | PGSQL_QUERY_SELECT | PGSQL_QUERY_SHOW | PGSQL_QUERY_EXPLAIN => false
  | PGSQL_QUERY_UNKNOWN | PGSQL_QUERY__UNINITIALIZED | PGSQL_QUERY___NONE =>
      should_advance_session_write_lsn query
  | _ => true
  end.

(** ** Keyword helpers of the header *)

Fixpoint skip_sql_space (query : string) : string :=
  match query with
  | EmptyString => EmptyString
  | String c r => if isspace c then skip_sql_space r else query
  end.

Fixpoint strip_prefix_nocase (query keyword : string) : option string :=
  match keyword, query with
  | EmptyString, _ => Some query
  | String b w, String a q =>
      if Ascii.eqb (tolower a) (tolower b) then strip_prefix_nocase q w else None
  | String _ _, EmptyString => None
  end.

Definition polardb_starts_with_sql_keyword (query : cstr) (keyword : cstr) : bool :=
  match query, keyword with
  | Some query, Some keyword =>
      if keyword == EmptyString then false
      else
        match strip_prefix_nocase (skip_sql_space query) keyword with
        | None => false
        | Some EmptyString => true
        | Some (String next _) => isspace next || is_char next 59
        end
  | _, _ => false
  end.

Definition safe_zero_keywords : list string :=
  ["SET"; "RESET"; "DISCARD"; "BEGIN"; "START"; "COMMIT"; "END"; "ROLLBACK"; "SAVEPOINT";
   "RELEASE"; "DEALLOCATE"; "CLOSE"]%string.

Definition polardb_zero_lsn_payload_can_skip_wait_target (query : cstr) : bool :=
  existsb (fun keyword => polardb_starts_with_sql_keyword query (Some keyword))
    safe_zero_keywords.

(** ** Multi-statement buffers

    The buffer is [query_len] bytes and includes the wire terminator. *)

Definition SEMICOLON : Z := 59.

Fixpoint drop_while {A} (f : A -> bool) (l : list A) : list A :=
  match l with [] => [] | x :: r => if f x then drop_while f r else l end.

Definition nul_or_space (c : ascii) : bool := (code c =? 0) || isspace c.

Definition drop_one_semicolon (l : list ascii) : list ascii :=
  match l with
  | c :: r => if is_char c SEMICOLON then r else l
  | [] => []
  end.

Definition polardb_query_has_multiple_statements (query : option (list ascii)) : bool :=
  match query with
  | None => false
  | Some buffer =>
      let from_begin := drop_while isspace buffer in
      let to_end := drop_one_semicolon (drop_while nul_or_space (rev from_begin)) in
      existsb (fun c => is_char c SEMICOLON) to_end
  end.

(** ** Progress of the scanner *)

#[local] Abbreviation len := String.length.

Lemma single_quoted_len esc p : (len (single_quoted_body esc p) <= len p)%nat.
Proof.
  assert (H : forall n p, (len p <= n)%nat -> (len (single_quoted_body esc p) <= len p)%nat).
  { induction n as [|n IH]; intros [|c [|d r]] Hl; cbn in *; try lia.
    pose proof (IH r ltac:(lia)). pose proof (IH (String d r) ltac:(cbn; lia)) as H2. cbn in H2.
    repeat case_if; cbn in *; try lia. }
  by eapply H.
Qed.

Lemma double_quoted_len p : (len (double_quoted_body p) <= len p)%nat.
Proof.
  assert (H : forall n p, (len p <= n)%nat -> (len (double_quoted_body p) <= len p)%nat).
  { induction n as [|n IH]; intros [|c r] Hl; cbn in *; try lia.
    pose proof (IH r ltac:(lia)). case_if; [|lia]. destruct r as [|d r']; [cbn; lia|].
    cbn in *. pose proof (IH r' ltac:(lia)). case_if; cbn; lia. }
  by eapply H.
Qed.

Lemma line_comment_len p : (len (line_comment_body p) <= len p)%nat.
Proof. induction p as [|c r IH]; cbn; [lia|]. case_if; cbn; lia. Qed.

Lemma block_comment_len p : (len (block_comment_body p) <= len p)%nat.
Proof.
  induction p as [|c r IH]; cbn; [lia|]. destruct r as [|d r']; [cbn; lia|].
  case_if; cbn in *; lia.
Qed.

Lemma take_ident_len p : (len (fst (take_ident p)) + len (snd (take_ident p)) = len p)%nat.
Proof.
  induction p as [|c r IH]; cbn; [done|]. case_if; [|done].
  destruct (take_ident r); cbn in *. lia.
Qed.

Lemma strip_exact_len d p r : strip_exact d p = Some r -> (len r <= len p)%nat.
Proof.
  revert p; induction d as [|a d IH]; intros p; [by intros [= ->]|].
  destruct p as [|b p]; cbn; [done|]. case_if; [|done]. intros H%IH. lia.
Qed.

Lemma dollar_body_len d p : (len (dollar_body d p) <= len p)%nat.
Proof.
  induction p as [|c r IH]; cbn [dollar_body]; [done|].
  destruct (is_char c DOLLAR); [|cbn; lia].
  destruct (strip_exact d (String c r)) eqn:E; [by apply strip_exact_len in E|cbn; lia].
Qed.

Lemma skip_dollar_len p :
  polardb_skip_dollar_quoted p = p \/ (len (polardb_skip_dollar_quoted p) < len p)%nat.
Proof.
  destruct p as [|c r]; [by left|]. cbn [polardb_skip_dollar_quoted].
  destruct (negb (is_char c DOLLAR)); [by left|].
  pose proof (take_ident_len r) as Ht. destruct (take_ident r) as [tag [|d body]]; [by left|].
  destruct (is_char d DOLLAR); [|by left]. right. cbn [fst snd String.length] in *.
  pose proof (dollar_body_len (String c (tag +:+ String d EmptyString)) body). lia.
Qed.

(** Every turn of the scanner consumes input, and a reported word is the
    nonempty run of identifier characters it consumed. *)
Lemma scan_step_progress p :
  p <> EmptyString ->
  match scan_step p with
  | inl (t, rest) => t <> EmptyString /\ (len rest < len p)%nat
  | inr rest => (len rest < len p)%nat
  end.
Proof.
  destruct p as [|c r]; [done|intros _]. unfold scan_step. cbn zeta.
  repeat match goal with |- context [if ?b then _ else _] => destruct b eqn:? end;
    try (cbn; lia); bool_to_prop.
  - destruct r as [|d r]; [done|]. cbn. pose proof (line_comment_len r). lia.
  - destruct r as [|d r]; [done|]. cbn. pose proof (block_comment_len r). lia.
  - destruct r as [|d r]; [done|]. cbn. pose proof (single_quoted_len true r). lia.
  - cbn. pose proof (single_quoted_len false r). lia.
  - cbn. pose proof (double_quoted_len r). lia.
  - destruct (skip_dollar_len (String c r)); [congruence|done].
  - pose proof (take_ident_len (String c r)) as Ht. cbn [take_ident] in *.
    match goal with H : polardb_is_ident_char c = true |- _ => rewrite H in * end.
    destruct (take_ident r) as [t rest]. cbn in *. split; [done|lia].
Qed.

Lemma next_word_fuel n p q : (len p <= n)%nat -> q = next_sql_word n p ->
  next_sql_word (len p) p = q.
Proof.
  intros Hl ->. assert (H : forall n m p, (len p <= n)%nat -> (len p <= m)%nat ->
    next_sql_word n p = next_sql_word m p).
  { clear. induction n as [|n IH]; intros m p Hn Hm.
    - destruct p; cbn in *; [|lia]. by destruct m.
    - destruct m as [|m]; [destruct p; cbn in *; [done|lia]|].
      destruct p as [|c r]; [done|]. cbn [next_sql_word].
      pose proof (scan_step_progress (String c r) ltac:(done)) as Hp.
      destruct (scan_step (String c r)) as [[t rest]|rest]; [done|].
      cbn [String.length] in *. apply IH; lia. }
  by apply H.
Qed.

(** The scanner as its own recursion, free of fuel. *)
Lemma next_word_unfold p :
  p <> EmptyString ->
  polardb_next_sql_word p =
    match scan_step p with
    | inl (t, rest) => (Some t, rest)
    | inr rest => polardb_next_sql_word rest
    end.
Proof.
  intros Hp. pose proof (scan_step_progress p Hp) as Hs. unfold polardb_next_sql_word.
  destruct p as [|c r]; [done|]. cbn [String.length next_sql_word].
  destruct (scan_step (String c r)) as [[t rest]|rest]; [done|].
  symmetry. eapply next_word_fuel; [|reflexivity]. cbn in Hs. lia.
Qed.

Lemma next_word_shrinks n : forall p t rest, (len p <= n)%nat ->
  polardb_next_sql_word p = (Some t, rest) -> (len rest < len p)%nat /\ t <> EmptyString.
Proof.
  induction n as [|n IH]; intros p t rest Hn; destruct p as [|c r]; try done; [cbn in Hn; lia|].
  rewrite next_word_unfold by done.
  pose proof (scan_step_progress (String c r) ltac:(done)) as Hs.
  destruct (scan_step (String c r)) as [[t' rest']|rest'];
    [intros [= <- <-]; by destruct Hs|].
  intros H. cbn [String.length] in *. apply IH in H as [? ?]; [|lia]. split; [lia|done].
Qed.

(** ** The words of a statement *)

Fixpoint words_fuel (fuel : nat) (p : string) : list string :=
  match fuel with
  | O => []
  | S fuel =>
      match polardb_next_sql_word p with
      | (Some t, rest) => t :: words_fuel fuel rest
      | (None, _) => []
      end
  end.

Definition sql_words (p : string) : list string := words_fuel (S (len p)) p.

Lemma words_fuel_enough n m p :
  (len p < n)%nat -> (len p < m)%nat -> words_fuel n p = words_fuel m p.
Proof.
  revert m p. induction n as [|n IH]; intros m p Hn Hm; [lia|]. destruct m as [|m]; [lia|]. cbn.
  destruct (polardb_next_sql_word p) as [[t|] rest] eqn:E; [|done].
  apply (next_word_shrinks _ _ _ _ (Nat.le_refl _)) in E as [? _]. f_equal. apply IH; lia.
Qed.

Lemma sql_words_unfold p :
  sql_words p =
    match polardb_next_sql_word p with
    | (Some t, rest) => t :: sql_words rest
    | (None, _) => []
    end.
Proof.
  unfold sql_words at 1. cbn [words_fuel].
  destruct (polardb_next_sql_word p) as [[t|] rest] eqn:E; [|done].
  apply (next_word_shrinks _ _ _ _ (Nat.le_refl _)) in E as [? _].
  f_equal. unfold sql_words. apply words_fuel_enough; lia.
Qed.

(** The four row-locking clauses, as words. *)
Definition locking_clauses : list (list string) :=
  [["for"; "update"]; ["for"; "share"]; ["for"; "no"; "key"; "update"];
   ["for"; "key"; "share"]]%string.

Definition words_match (ws clause : list string) : Prop :=
  Forall2 (fun w c => polardb_token_equals w c = true) ws clause.

Definition has_locking_clause (ws : list string) : Prop :=
  exists before clause_words after clause,
    ws = before ++ clause_words ++ after /\ clause ∈ locking_clauses /\
    words_match clause_words clause.

(** ** Theorems *)

Lemma words_nil p rest : polardb_next_sql_word p = (None, rest) -> sql_words p = [].
Proof. intros H. by rewrite sql_words_unfold, H. Qed.

(** A clause at the head of the word list, decided on the words. *)
Definition clause_at_head (ws : list string) : bool :=
  match ws with
  | f :: rest =>
      polardb_token_equals f "for" &&
      match rest with
      | n :: rest =>
          polardb_token_equals n "update" || polardb_token_equals n "share" ||
          match rest with
          | k :: rest =>
              (polardb_token_equals n "no" && polardb_token_equals k "key" &&
               match rest with u :: _ => polardb_token_equals u "update" | [] => false end) ||
              (polardb_token_equals n "key" && polardb_token_equals k "share")
          | [] => false
          end
      | [] => false
      end
  | [] => false
  end.

Fixpoint clause_somewhere (ws : list string) : bool :=
  clause_at_head ws || match ws with [] => false | _ :: r => clause_somewhere r end.

(** A word equals at most one of the clause keywords. *)
Lemma token_equals_spec t w :
  polardb_token_equals t w = true <->
  (polardb_ascii_lower <$> list_ascii_of_string t) =
  (polardb_ascii_lower <$> list_ascii_of_string w).
Proof.
  revert w; induction t as [|a t IH]; intros [|b w]; cbn; try done.
  rewrite andb_true_iff, Ascii.eqb_eq, IH. split; [intros [-> ->]|intros [=]]; done.
Qed.

Lemma token_exclusive t a b :
  (polardb_ascii_lower <$> list_ascii_of_string a) <>
    (polardb_ascii_lower <$> list_ascii_of_string b) ->
  polardb_token_equals t a = true -> polardb_token_equals t b = false.
Proof.
  intros Hne Ha. destruct (polardb_token_equals t b) eqn:E; [|done].
  apply token_equals_spec in Ha, E. congruence.
Qed.

Lemma locking_tail_words p f :
  polardb_token_equals f "for" = true ->
  locking_tail p = clause_at_head (f :: sql_words p).
Proof.
  intros Hf. unfold locking_tail, clause_at_head. rewrite Hf, sql_words_unfold.
  destruct (polardb_next_sql_word p) as [[n|] l1]; [|done]. cbn [token_is andb].
  destruct (polardb_token_equals n "update" || polardb_token_equals n "share"); [done|].
  cbn [orb]. rewrite sql_words_unfold.
  destruct (polardb_next_sql_word l1) as [[k|] l2] eqn:E1.
  - destruct (polardb_token_equals n "no") eqn:Hno.
    + rewrite (token_exclusive n "no" "key") by done. cbn [orb andb]. rewrite orb_false_r.
      rewrite sql_words_unfold. destruct (polardb_next_sql_word l2) as [[u|] ?]; done.
    + cbn [orb andb]. by destruct (polardb_token_equals n "key").
  - cbn [token_is andb]. destruct (polardb_next_sql_word l2). by repeat case_if.
Qed.

Lemma locking_loop_words n p :
  (len p < n)%nat -> locking_loop n p = clause_somewhere (sql_words p).
Proof.
  revert p. induction n as [|n IH]; intros p Hn; [lia|]. cbn [locking_loop].
  rewrite sql_words_unfold. destruct (polardb_next_sql_word p) as [[t|] rest] eqn:E; [|done].
  apply (next_word_shrinks _ _ _ _ (Nat.le_refl _)) in E as [? _].
  cbn [clause_somewhere]. rewrite IH by lia.
  destruct (polardb_token_equals t "for") eqn:Hf.
  - rewrite (locking_tail_words rest t Hf).
    destruct (polardb_next_sql_word rest) as [[t'|] rest'] eqn:E'; cbn [fst].
    + by case_if.
    + rewrite (words_nil _ _ E'). cbn. by rewrite andb_false_r.
  - unfold clause_at_head. by rewrite Hf.
Qed.

Lemma clause_at_head_spec ws :
  clause_at_head ws = true <->
  exists cw after clause, ws = cw ++ after /\ clause ∈ locking_clauses /\ words_match cw clause.
Proof.
  split.
  - intros H. destruct ws as [|f [|n ws]]; cbn in H; try done; [by rewrite andb_false_r in H|].
    apply andb_true_iff in H as [Hf [[Hu|Hs]%orb_true_iff|Hk]%orb_true_iff].
    + exists [f; n], ws, ["for"; "update"]%string. repeat constructor; done.
    + exists [f; n], ws, ["for"; "share"]%string. repeat constructor; done.
    + destruct ws as [|k ws]; [done|]. apply orb_true_iff in Hk as [Hk|Hk]; bool_to_prop.
      * destruct ws as [|u ws]; [done|].
        exists [f; n; k; u], ws, ["for"; "no"; "key"; "update"]%string. repeat constructor; done.
      * exists [f; n; k], ws, ["for"; "key"; "share"]%string. repeat constructor; done.
  - intros (cw&after&clause&->&Hin&Hm). unfold locking_clauses in Hin.
    repeat (apply elem_of_cons in Hin as [->|Hin]); [..|by apply elem_of_nil in Hin];
      repeat (match goal with
        | H : words_match _ (_ :: _) |- _ => apply Forall2_cons_inv_r in H as (?&?&?&?&->)
        | H : words_match _ [] |- _ => apply Forall2_nil_inv_r in H as ->
        | H : Forall2 _ _ (_ :: _) |- _ => apply Forall2_cons_inv_r in H as (?&?&?&?&->)
        | H : Forall2 _ _ [] |- _ => apply Forall2_nil_inv_r in H as ->
        end); cbn; repeat match goal with H : polardb_token_equals _ _ = true |- _ => rewrite H; clear H end;
      rewrite ?orb_true_r; done.
Qed.

Lemma clause_somewhere_spec ws : clause_somewhere ws = true <-> has_locking_clause ws.
Proof.
  induction ws as [|w ws IH].
  - split; [done|]. intros (b&cw&a&c&Hws&Hc&Hm). symmetry in Hws.
    apply app_eq_nil in Hws as [_ [-> _]%app_eq_nil]. apply Forall2_nil_inv_l in Hm as ->.
    by vm_compute in Hc; set_solver.
  - cbn [clause_somewhere]. rewrite orb_true_iff, clause_at_head_spec, IH. split.
    + intros [(cw&a&c&->&?&?)|(b&cw&a&c&->&?&?)]; [by exists [], cw, a, c|by exists (w :: b), cw, a, c].
    + intros ([|x b]&cw&a&c&Hws&Hc&Hm); [left; by exists cw, a, c|right].
      injection Hws as <- ->. by exists b, cw, a, c.
Qed.

(** Locking-clause detection is exact on the scanned words.  For every
    statement text the scanner terminates and reports a locking clause exactly
    when FOR UPDATE, FOR SHARE, FOR NO KEY UPDATE or FOR KEY SHARE occurs, in
    any letter case, as consecutive bare words of the statement, at whatever
    depth. *)
Theorem locking_clause_detection_exact q :
  polardb_select_has_locking_for_clause (Some q) = true <-> has_locking_clause (sql_words q).
Proof.
  cbn [polardb_select_has_locking_for_clause].
  rewrite locking_loop_words by lia. apply clause_somewhere_spec.
Qed.

(** The classifications agree.  A statement that advances the session write
    position is always a write; a statement accepted for a transaction split
    is a read without a locking clause; and a classified SELECT is a write
    exactly when it has one. *)
Theorem classifications_agree q cmd :
  (should_advance_session_write_lsn_cmd (Some q) cmd = true ->
     is_write_query_cmd (Some q) cmd = true) /\
  (is_txn_split_safe_read (Some q) = true ->
     is_write_query (Some q) = false /\ ~ has_locking_clause (sql_words q)) /\
  (is_txn_split_safe_select true (Some q) = true <-> ~ has_locking_clause (sql_words q)) /\
  (is_write_query_cmd (Some q) PGSQL_QUERY_SELECT = true <-> has_locking_clause (sql_words q)).
Proof.
  assert (polardb_select_has_locking_for_clause (Some q) = true <-> has_locking_clause (sql_words q))
    as Hl by (cbn [polardb_select_has_locking_for_clause];
              rewrite locking_loop_words by lia; apply clause_somewhere_spec).
  repeat split.
  - destruct cmd; cbn [should_advance_session_write_lsn_cmd is_write_query_cmd]; try done;
      unfold should_advance_session_write_lsn, is_write_query;
      destruct (starts_as_read (Some q)); done.
  - unfold is_txn_split_safe_read in H. bool_to_prop. unfold is_write_query, starts_as_read.
    rewrite H, H0. done.
  - unfold is_txn_split_safe_read in H. bool_to_prop. rewrite <- Hl. congruence.
  - unfold is_txn_split_safe_select. rewrite <- Hl. cbn [andb]. intros H. bool_to_prop. congruence.
  - unfold is_txn_split_safe_select. rewrite <- Hl. intros H. cbn [andb].
    by destruct (polardb_select_has_locking_for_clause (Some q)).
  - apply Hl.
  - apply Hl.
Qed.

Definition no_semicolon (l : list ascii) : Prop := Forall (fun c => is_char c SEMICOLON = false) l.

(** One statement: text without separators, at most one final semicolon, then
    only terminators and space. *)
Definition single_statement (buffer : list ascii) : Prop :=
  exists body semi trail, buffer = body ++ semi ++ trail /\ no_semicolon body /\
    (semi = [] \/ semi = [";"%char]) /\ Forall (fun c => nul_or_space c = true) trail.

Lemma drop_while_split {A} (f : A -> bool) l :
  exists pre, l = pre ++ drop_while f l /\ Forall (fun x => f x = true) pre /\
    match drop_while f l with [] => True | x :: _ => f x = false end.
Proof.
  induction l as [|x l (pre&Hl&Hp&Hd)]; [by exists []|]. cbn. destruct (f x) eqn:E.
  - exists (x :: pre). cbn. split; [by f_equal|]. split; [by constructor|done].
  - by exists [].
Qed.

Lemma drop_while_app {A} (f : A -> bool) a b :
  Forall (fun x => f x = true) a -> drop_while f (a ++ b) = drop_while f b.
Proof. induction 1 as [|x a Hx _ IH]; [done|]. cbn. by rewrite Hx. Qed.

Lemma no_semicolon_existsb l : existsb (fun c => is_char c SEMICOLON) l = false <-> no_semicolon l.
Proof.
  unfold no_semicolon. induction l as [|c l IH]; cbn; [by split|].
  rewrite orb_false_iff, IH, Forall_cons. done.
Qed.

Lemma no_semicolon_drop f l : no_semicolon l -> no_semicolon (drop_while f l).
Proof.
  intros H. destruct (drop_while_split f l) as (pre&Hl&_). rewrite Hl in H.
  by apply Forall_app in H as [_ ?].
Qed.

Lemma space_not_semicolon c : nul_or_space c = true -> is_char c SEMICOLON = false.
Proof.
  unfold nul_or_space, isspace, is_char, in_range, SEMICOLON.
  intros H. apply Z.eqb_neq. intros Hc. rewrite Hc in H. done.
Qed.

Lemma trailing_scan l :
  existsb (fun c => is_char c SEMICOLON)
    (drop_one_semicolon (drop_while nul_or_space (rev l))) = false <-> single_statement l.
Proof.
  rewrite no_semicolon_existsb. split.
  - intros H. destruct (drop_while_split nul_or_space (rev l)) as (pre&Hl&Hpre&_).
    remember (drop_while nul_or_space (rev l)) as d eqn:Hd. clear Hd.
    assert (l = rev d ++ rev pre) as -> by (rewrite <- rev_app_distr, <- Hl; by rewrite rev_involutive).
    assert (Forall (fun c => nul_or_space c = true) (rev pre)) by by apply Forall_rev.
    destruct d as [|c d]; cbn [drop_one_semicolon] in H.
    + exists [], [], (rev pre). repeat split; auto using Forall_nil_2.
    + destruct (is_char c SEMICOLON) eqn:Hc.
      * exists (rev d), [";"%char], (rev pre). cbn. rewrite <- app_assoc. repeat split; auto.
        -- cbn. do 2 f_equal. unfold is_char, SEMICOLON in Hc. apply Z.eqb_eq in Hc.
           unfold code in Hc. rewrite <- (ascii_nat_embedding c).
           by replace (nat_of_ascii c) with 59%nat by lia.
        -- by apply Forall_rev.
      * exists (rev (c :: d)), [], (rev pre). repeat split; auto. by apply Forall_rev.
  - intros (body&semi&trail&->&Hb&Hs&Ht). rewrite !rev_app_distr, <- app_assoc, drop_while_app
      by by apply Forall_rev.
    apply Forall_rev in Hb. change (no_semicolon (rev body)) in Hb.
    destruct Hs as [->| ->]; cbn [rev app].
    + pose proof (no_semicolon_drop nul_or_space _ Hb) as Hd.
      destruct (drop_while nul_or_space (rev body)) as [|c d]; [done|]. cbn.
      case_if; [|done]. by apply Forall_cons in Hd as [_ ?].
    + done.
Qed.

(** The multi-statement test is exact: a buffer is reported as several
    statements exactly when it is not one separator-free text followed by at
    most one semicolon and then only terminators and white space. *)
Theorem multi_statement_exact buffer :
  polardb_query_has_multiple_statements (Some buffer) = false <-> single_statement buffer.
Proof.
  cbn [polardb_query_has_multiple_statements]. cbn zeta. rewrite trailing_scan.
  destruct (drop_while_split isspace buffer) as (pre&Hl&Hpre&Hhd).
  set (d := drop_while isspace buffer) in *. clearbody d. subst buffer.
  assert (no_semicolon pre) as Hnp.
  { eapply Forall_impl; [exact Hpre|]. intros c Hc. apply space_not_semicolon.
    unfold nul_or_space. by rewrite Hc, orb_true_r. }
  split.
  - intros (body&semi&trail&->&Hb&?&?). exists (pre ++ body), semi, trail.
    rewrite <- app_assoc. repeat split; auto. by apply Forall_app.
  - revert d Hhd. clear Hnp. induction Hpre as [|c pre Hc _ IH]; intros d Hhd Hs; [done|].
    apply IH; [done|]. destruct Hs as (body&semi&trail&Heq&Hb&Hsemi&Ht).
    destruct body as [|b body]; cbn in Heq.
    + destruct Hsemi as [->| ->]; cbn in Heq; [|injection Heq as -> _; done].
      destruct trail as [|t trail]; [done|]. injection Heq as <- Heq. apply Forall_cons in Ht as [_ Ht].
      exists [], [], trail. repeat split; auto using Forall_nil_2.
    + injection Heq as <- Heq. apply Forall_cons in Hb as [_ Hb]. by exists body, semi, trail.
Qed.

(** The scanner does not nest block comments: PostgreSQL reads the whole
    quoted run below as one comment and then sees a locking clause, while here
    the comment ends early, a string literal opens, and the clause is lost. *)
Example nested_comment_hides_locking_clause :
  polardb_select_has_locking_for_clause
    (Some "select a from t /* x /* y */ ' */ for update"%string) = false /\
  is_write_query (Some "select a from t /* x /* y */ ' */ for update"%string) = false.
Proof. split; vm_compute; reflexivity. Qed.

(** A dollar sign inside an identifier is taken for a dollar quote. *)
Example dollar_identifier_hides_locking_clause :
  polardb_select_has_locking_for_clause (Some "select a$x$ from t for update"%string) = false.
Proof. vm_compute; reflexivity. Qed.
