(* ===== verification/Policy.v ===== *)
(** * Policy vocabulary of the PolarDB routing core

    The enumerations of include/PgSQL_PolarDB.h, their integer and textual
    encodings, the policy-validity rules and the three-tier resolution of
    settings.  Each setting that administrators write as text is an instance of
    the [SettingCodec] interface, against which the generic print/parse laws are
    proved. *)

From S2P Require Import Prelude.
From Stdlib Require Import ZArith Ascii String List Bool Lia.
From stdpp Require Import base tactics list gmap strings.

Open Scope Z_scope.
Open Scope polar_scope.

(** ** Enumerations *)

Inductive PolarDB_RfqLsnPayloadState :=
| Payload_MISSING | Payload_ZERO | Payload_POSITIONED.

Inductive PolarDB_NodeType :=
| Node_UNKNOWN | Node_PRIMARY | Node_REPLICA | Node_STANDBY.

Inductive PolarDB_WaitType := WaitType_NONE | WaitType_LSN.

Inductive PolarDB_WaitMode := WaitMode_BEST_EFFORT | WaitMode_STRICT.

Inductive PolarDB_MissingLsnAction :=
| MissingLsn_PRIMARY | MissingLsn_WARNING | MissingLsn_ERROR.

Inductive PolarDB_LsnWaitTimeoutAction :=
| LsnTimeout_WARNING | LsnTimeout_PRIMARY | LsnTimeout_ERROR | LsnTimeout_DISCONNECT.

Inductive PolarDB_ReplicaLossAction :=
| ReplicaLoss_REPLICA_THEN_PRIMARY | ReplicaLoss_REPLICA_THEN_ERROR
| ReplicaLoss_PRIMARY | ReplicaLoss_ERROR | ReplicaLoss_DISCONNECT.

Inductive PolarDB_ReplicaErrorAction :=
| ReplicaError_PRIMARY | ReplicaError_ERROR | ReplicaError_DISCONNECT.

Inductive PolarDB_ProxyProtocol :=
| Protocol_OFF | Protocol_LEGACY | Protocol_V15 | Protocol_V15_WAIT.

Inductive PolarDB_ConsistencyMode :=
| Mode_OFF | Mode_SESSION_LSN | Mode_GLOBAL_LSN | Mode_EVENTUAL | Mode_PRIMARY_ONLY.

Inductive PolarDB_ReadTarget := ReadTarget_PRIMARY | ReadTarget_REPLICA.

Inductive PolarDB_ReadFallbackAction := Fallback_PRIMARY | Fallback_ERROR.

Inductive PolarDB_TxnSplitWarmupMode :=
| Warmup_OFF | Warmup_DEMAND | Warmup_BEGIN | Warmup_BOTH.

Inductive PolarDB_ProxyIdentityMode := IdentityMode_CLIENT | IdentityMode_PROXY.

Inductive PolarDB_CommonFailureOutcome :=
| Outcome_UNRECOGNIZED | Outcome_PRIMARY | Outcome_WARNING | Outcome_ERROR
| Outcome_DISCONNECT.

#[global] Instance RfqLsnPayloadState_eq_dec : EqDecision PolarDB_RfqLsnPayloadState.
Proof. solve_decision. Defined.
#[global] Instance NodeType_eq_dec : EqDecision PolarDB_NodeType.
Proof. solve_decision. Defined.
#[global] Instance WaitType_eq_dec : EqDecision PolarDB_WaitType.
Proof. solve_decision. Defined.
#[global] Instance WaitMode_eq_dec : EqDecision PolarDB_WaitMode.
Proof. solve_decision. Defined.
#[global] Instance MissingLsnAction_eq_dec : EqDecision PolarDB_MissingLsnAction.
Proof. solve_decision. Defined.
#[global] Instance LsnWaitTimeoutAction_eq_dec : EqDecision PolarDB_LsnWaitTimeoutAction.
Proof. solve_decision. Defined.
#[global] Instance ReplicaLossAction_eq_dec : EqDecision PolarDB_ReplicaLossAction.
Proof. solve_decision. Defined.
#[global] Instance ReplicaErrorAction_eq_dec : EqDecision PolarDB_ReplicaErrorAction.
Proof. solve_decision. Defined.
#[global] Instance ProxyProtocol_eq_dec : EqDecision PolarDB_ProxyProtocol.
Proof. solve_decision. Defined.
#[global] Instance ConsistencyMode_eq_dec : EqDecision PolarDB_ConsistencyMode.
Proof. solve_decision. Defined.
#[global] Instance ReadTarget_eq_dec : EqDecision PolarDB_ReadTarget.
Proof. solve_decision. Defined.
#[global] Instance ReadFallbackAction_eq_dec : EqDecision PolarDB_ReadFallbackAction.
Proof. solve_decision. Defined.
#[global] Instance TxnSplitWarmupMode_eq_dec : EqDecision PolarDB_TxnSplitWarmupMode.
Proof. solve_decision. Defined.
#[global] Instance ProxyIdentityMode_eq_dec : EqDecision PolarDB_ProxyIdentityMode.
Proof. solve_decision. Defined.
#[global] Instance CommonFailureOutcome_eq_dec : EqDecision PolarDB_CommonFailureOutcome.
Proof. solve_decision. Defined.

(** ** Integer encodings: the [static_cast<int>] of each enumerator and the
    decoding switch of each setting *)

Definition missing_lsn_to_int (a : PolarDB_MissingLsnAction) : Z :=
  match a with MissingLsn_PRIMARY => 0 | MissingLsn_WARNING => 1 | MissingLsn_ERROR => 2 end.

Definition polardb_missing_lsn_action_from_int (v : Z) : PolarDB_MissingLsnAction :=
  if v =? missing_lsn_to_int MissingLsn_WARNING then MissingLsn_WARNING
  else if v =? missing_lsn_to_int MissingLsn_ERROR then MissingLsn_ERROR
  else MissingLsn_PRIMARY.

Definition lsn_timeout_to_int (a : PolarDB_LsnWaitTimeoutAction) : Z :=
  match a with
  | LsnTimeout_WARNING => 0 | LsnTimeout_PRIMARY => 1
  | LsnTimeout_ERROR => 2 | LsnTimeout_DISCONNECT => 3
  end.

Definition polardb_lsn_wait_timeout_action_from_int (v : Z) : PolarDB_LsnWaitTimeoutAction :=
  if v =? lsn_timeout_to_int LsnTimeout_WARNING then LsnTimeout_WARNING
  else if v =? lsn_timeout_to_int LsnTimeout_PRIMARY then LsnTimeout_PRIMARY
  else if v =? lsn_timeout_to_int LsnTimeout_DISCONNECT then LsnTimeout_DISCONNECT
  else LsnTimeout_ERROR.

Definition polardb_lsn_wait_timeout_action_name (a : PolarDB_LsnWaitTimeoutAction) : string :=
  match a with
  | LsnTimeout_WARNING => "warning" | LsnTimeout_PRIMARY => "primary"
  | LsnTimeout_ERROR => "error" | LsnTimeout_DISCONNECT => "disconnect"
  end.

Definition polardb_wait_mode_for_timeout_action (a : PolarDB_LsnWaitTimeoutAction)
  : PolarDB_WaitMode :=
  if a == LsnTimeout_WARNING then WaitMode_BEST_EFFORT else WaitMode_STRICT.

Definition polardb_timeout_action_allows_global_lsn (a : PolarDB_LsnWaitTimeoutAction) : bool :=
  a != LsnTimeout_WARNING.

Definition polardb_transaction_split_timeout_action
    (a : PolarDB_LsnWaitTimeoutAction) (allow_primary_fallback : bool)
  : PolarDB_LsnWaitTimeoutAction :=
  if a != LsnTimeout_WARNING then a
  else if allow_primary_fallback then LsnTimeout_PRIMARY else LsnTimeout_ERROR.

Definition replica_loss_to_int (a : PolarDB_ReplicaLossAction) : Z :=
  match a with
  | ReplicaLoss_REPLICA_THEN_PRIMARY => 0 | ReplicaLoss_REPLICA_THEN_ERROR => 1
  | ReplicaLoss_PRIMARY => 2 | ReplicaLoss_ERROR => 3 | ReplicaLoss_DISCONNECT => 4
  end.

Definition polardb_replica_loss_action_from_int (v : Z) : PolarDB_ReplicaLossAction :=
  if v =? replica_loss_to_int ReplicaLoss_REPLICA_THEN_PRIMARY
  then ReplicaLoss_REPLICA_THEN_PRIMARY
  else if v =? replica_loss_to_int ReplicaLoss_REPLICA_THEN_ERROR
  then ReplicaLoss_REPLICA_THEN_ERROR
  else if v =? replica_loss_to_int ReplicaLoss_PRIMARY then ReplicaLoss_PRIMARY
  else if v =? replica_loss_to_int ReplicaLoss_DISCONNECT then ReplicaLoss_DISCONNECT
  else ReplicaLoss_ERROR.

Definition replica_error_to_int (a : PolarDB_ReplicaErrorAction) : Z :=
  match a with
  | ReplicaError_PRIMARY => 0 | ReplicaError_ERROR => 1 | ReplicaError_DISCONNECT => 2
  end.

Definition polardb_replica_error_action_from_int (v : Z) : PolarDB_ReplicaErrorAction :=
  if v =? replica_error_to_int ReplicaError_PRIMARY then ReplicaError_PRIMARY
  else if v =? replica_error_to_int ReplicaError_DISCONNECT then ReplicaError_DISCONNECT
  else ReplicaError_ERROR.

Definition protocol_to_int (p : PolarDB_ProxyProtocol) : Z :=
  match p with
  | Protocol_OFF => 0 | Protocol_LEGACY => 1 | Protocol_V15 => 2 | Protocol_V15_WAIT => 3
  end.

Definition polardb_proxy_protocol_from_int (v : Z) : PolarDB_ProxyProtocol :=
  if v =? protocol_to_int Protocol_V15_WAIT then Protocol_V15_WAIT
  else if v =? protocol_to_int Protocol_V15 then Protocol_V15
  else if v =? protocol_to_int Protocol_LEGACY then Protocol_LEGACY
  else Protocol_OFF.

Definition polardb_proxy_protocol_config_name (p : PolarDB_ProxyProtocol) : string :=
  match p with
  | Protocol_OFF => "off" | Protocol_LEGACY => "legacy"
  | Protocol_V15 => "v15" | Protocol_V15_WAIT => "v15_wait"
  end.

Definition mode_to_int (m : PolarDB_ConsistencyMode) : Z :=
  match m with
  | Mode_OFF => 0 | Mode_SESSION_LSN => 1 | Mode_GLOBAL_LSN => 2
  | Mode_EVENTUAL => 3 | Mode_PRIMARY_ONLY => 4
  end.

(** The source asserts [v >= 0]; callers resolve the -1 marker first. *)
Definition polardb_consistency_from_int (v : Z) : PolarDB_ConsistencyMode :=
  if v =? mode_to_int Mode_SESSION_LSN then Mode_SESSION_LSN
  else if v =? mode_to_int Mode_GLOBAL_LSN then Mode_GLOBAL_LSN
  else if v =? mode_to_int Mode_EVENTUAL then Mode_EVENTUAL
  else if v =? mode_to_int Mode_PRIMARY_ONLY then Mode_PRIMARY_ONLY
  else Mode_OFF.

Definition polardb_consistency_mode_uses_lsn_wait (m : PolarDB_ConsistencyMode) : bool :=
  (m == Mode_SESSION_LSN) || (m == Mode_GLOBAL_LSN).

Definition polardb_consistency_mode_disallows_degraded_reader
    (m : PolarDB_ConsistencyMode) : bool :=
  m == Mode_GLOBAL_LSN.

Definition polardb_consistency_mode_name (m : PolarDB_ConsistencyMode) : string :=
  match m with
  | Mode_OFF => "off" | Mode_EVENTUAL => "eventual" | Mode_SESSION_LSN => "session_lsn"
  | Mode_GLOBAL_LSN => "global_lsn" | Mode_PRIMARY_ONLY => "primary"
  end.

Definition read_target_to_int (t : PolarDB_ReadTarget) : Z :=
  match t with ReadTarget_PRIMARY => 0 | ReadTarget_REPLICA => 1 end.

Definition polardb_read_target_from_int (v : Z) : PolarDB_ReadTarget :=
  if v =? read_target_to_int ReadTarget_REPLICA then ReadTarget_REPLICA
  else ReadTarget_PRIMARY.

Definition polardb_read_target_name (t : PolarDB_ReadTarget) : string :=
  if t == ReadTarget_PRIMARY then "primary" else "replica".

Definition fallback_to_int (a : PolarDB_ReadFallbackAction) : Z :=
  match a with Fallback_PRIMARY => 0 | Fallback_ERROR => 1 end.

Definition polardb_read_fallback_action_from_int (v : Z) : PolarDB_ReadFallbackAction :=
  if v =? fallback_to_int Fallback_ERROR then Fallback_ERROR else Fallback_PRIMARY.

Definition polardb_read_fallback_action_name (a : PolarDB_ReadFallbackAction) : string :=
  if a == Fallback_ERROR then "error" else "primary".

Definition identity_mode_to_int (m : PolarDB_ProxyIdentityMode) : Z :=
  match m with IdentityMode_CLIENT => 0 | IdentityMode_PROXY => 1 end.

Definition polardb_proxy_identity_mode_name (mode : Z) : string :=
  if mode =? identity_mode_to_int IdentityMode_PROXY then "proxy" else "client".

Definition polardb_proxy_identity_mode_uses_client_identity (mode : Z) : bool :=
  mode =? identity_mode_to_int IdentityMode_CLIENT.

Definition warmup_to_int (m : PolarDB_TxnSplitWarmupMode) : Z :=
  match m with Warmup_OFF => 0 | Warmup_DEMAND => 1 | Warmup_BEGIN => 2 | Warmup_BOTH => 3 end.

Definition polardb_txn_split_warmup_mode_name (mode : Z) : string :=
  if mode =? warmup_to_int Warmup_OFF then "off"
  else if mode =? warmup_to_int Warmup_DEMAND then "demand"
  else if mode =? warmup_to_int Warmup_BEGIN then "begin"
  else if mode =? warmup_to_int Warmup_BOTH then "both"
  else "default".

Definition polardb_missing_lsn_action_name (a : PolarDB_MissingLsnAction) : string :=
  match a with
  | MissingLsn_PRIMARY => "primary" | MissingLsn_WARNING => "warning"
  | MissingLsn_ERROR => "error"
  end.

Definition polardb_replica_error_action_name (a : PolarDB_ReplicaErrorAction) : string :=
  match a with
  | ReplicaError_PRIMARY => "primary" | ReplicaError_ERROR => "error"
  | ReplicaError_DISCONNECT => "disconnect"
  end.

Definition polardb_replica_loss_action_name (a : PolarDB_ReplicaLossAction) : string :=
  match a with
  | ReplicaLoss_REPLICA_THEN_PRIMARY => "replica_then_primary"
  | ReplicaLoss_REPLICA_THEN_ERROR => "replica_then_error"
  | ReplicaLoss_PRIMARY => "primary" | ReplicaLoss_ERROR => "error"
  | ReplicaLoss_DISCONNECT => "disconnect"
  end.

(** ** Parsing of configured words *)

(** [!value || value[0] == '\0' || strcasecmp(value, "default") == 0] *)
Definition unset_or_default (value : cstr) : bool :=
  match value with
  | None => true
  | Some s => (s == EmptyString) || strcaseeq s "default"
  end.

Definition word_is (value : cstr) (w : string) : bool :=
  match value with Some s => strcaseeq s w | None => false end.

Definition polardb_consistency_mode_from_string (value : cstr) (default_value : Z) : Z :=
  if unset_or_default value then default_value
  else if word_is value "off" then mode_to_int Mode_OFF
  else if word_is value "session_lsn" then mode_to_int Mode_SESSION_LSN
  else if word_is value "global_lsn" then mode_to_int Mode_GLOBAL_LSN
  else if word_is value "eventual" then mode_to_int Mode_EVENTUAL
  else default_value.

Definition polardb_hostgroup_consistency_mode_from_string (value : cstr) (default_value : Z) : Z :=
  if word_is value "primary" then mode_to_int Mode_PRIMARY_ONLY
  else polardb_consistency_mode_from_string value default_value.

Definition polardb_read_target_from_string (value : cstr) (default_value : Z) : Z :=
  if unset_or_default value then default_value
  else if word_is value "primary" then read_target_to_int ReadTarget_PRIMARY
  else if word_is value "replica" then read_target_to_int ReadTarget_REPLICA
  else default_value.

Definition polardb_read_fallback_action_from_string (value : cstr) (default_value : Z) : Z :=
  if unset_or_default value then default_value
  else if word_is value "primary" then fallback_to_int Fallback_PRIMARY
  else if word_is value "error" then fallback_to_int Fallback_ERROR
  else default_value.

Definition polardb_proxy_identity_mode_from_string (value : cstr) (default_value : Z) : Z :=
  if unset_or_default value then default_value
  else if word_is value "client" then identity_mode_to_int IdentityMode_CLIENT
  else if word_is value "proxy" then identity_mode_to_int IdentityMode_PROXY
  else default_value.

Definition polardb_txn_split_warmup_mode_from_string (value : cstr) (default_value : Z) : Z :=
  if unset_or_default value then default_value
  else if word_is value "off" then warmup_to_int Warmup_OFF
  else if word_is value "demand" || word_is value "lazy" then warmup_to_int Warmup_DEMAND
  else if word_is value "begin" || word_is value "transaction_begin"
  then warmup_to_int Warmup_BEGIN
  else if word_is value "both" then warmup_to_int Warmup_BOTH
  else default_value.

Definition polardb_proxy_protocol_from_string (value : cstr) (default_value : Z) : Z :=
  if unset_or_default value then default_value
  else if word_is value "off" then protocol_to_int Protocol_OFF
  else if word_is value "legacy" then protocol_to_int Protocol_LEGACY
  else if word_is value "v15" then protocol_to_int Protocol_V15
  else if word_is value "v15_wait" then protocol_to_int Protocol_V15_WAIT
  else default_value.

Definition polardb_common_failure_outcome_from_string (value : cstr)
  : PolarDB_CommonFailureOutcome :=
  match value with
  | None => Outcome_UNRECOGNIZED
  | Some _ =>
      if word_is value "primary" then Outcome_PRIMARY
      else if word_is value "warning" then Outcome_WARNING
      else if word_is value "error" then Outcome_ERROR
      else if word_is value "disconnect" then Outcome_DISCONNECT
      else Outcome_UNRECOGNIZED
  end.

Definition polardb_missing_lsn_action_from_string (value : cstr) (default_value : Z) : Z :=
  match value with
  | None => default_value
  | Some _ =>
      match polardb_common_failure_outcome_from_string value with
      | Outcome_PRIMARY => missing_lsn_to_int MissingLsn_PRIMARY
      | Outcome_WARNING => missing_lsn_to_int MissingLsn_WARNING
      | Outcome_ERROR => missing_lsn_to_int MissingLsn_ERROR
      | _ => default_value
      end
  end.

Definition polardb_lsn_wait_timeout_action_from_string (value : cstr) (default_value : Z) : Z :=
  match value with
  | None => default_value
  | Some _ =>
      match polardb_common_failure_outcome_from_string value with
      | Outcome_WARNING => lsn_timeout_to_int LsnTimeout_WARNING
      | Outcome_PRIMARY => lsn_timeout_to_int LsnTimeout_PRIMARY
      | Outcome_ERROR => lsn_timeout_to_int LsnTimeout_ERROR
      | Outcome_DISCONNECT => lsn_timeout_to_int LsnTimeout_DISCONNECT
      | Outcome_UNRECOGNIZED => default_value
      end
  end.

Definition polardb_replica_loss_action_from_string (value : cstr) (default_value : Z) : Z :=
  match value with
  | None => default_value
  | Some _ =>
      if word_is value "replica_then_primary"
      then replica_loss_to_int ReplicaLoss_REPLICA_THEN_PRIMARY
      else if word_is value "replica_then_error"
      then replica_loss_to_int ReplicaLoss_REPLICA_THEN_ERROR
      else match polardb_common_failure_outcome_from_string value with
           | Outcome_PRIMARY => replica_loss_to_int ReplicaLoss_PRIMARY
           | Outcome_ERROR => replica_loss_to_int ReplicaLoss_ERROR
           | Outcome_DISCONNECT => replica_loss_to_int ReplicaLoss_DISCONNECT
           | _ => default_value
           end
  end.

Definition polardb_replica_error_action_from_string (value : cstr) (default_value : Z) : Z :=
  match value with
  | None => default_value
  | Some _ =>
      match polardb_common_failure_outcome_from_string value with
      | Outcome_PRIMARY => replica_error_to_int ReplicaError_PRIMARY
      | Outcome_ERROR => replica_error_to_int ReplicaError_ERROR
      | Outcome_DISCONNECT => replica_error_to_int ReplicaError_DISCONNECT
      | _ => default_value
      end
  end.

(** ** Validity of a policy and resolution of settings *)

Definition polardb_consistency_policy_error (mode : PolarDB_ConsistencyMode)
    (missing_lsn_action : PolarDB_MissingLsnAction)
    (timeout_action : PolarDB_LsnWaitTimeoutAction) : cstr :=
  if mode != Mode_GLOBAL_LSN then None
  else if missing_lsn_action == MissingLsn_WARNING
  then Some "global_lsn cannot use a reader without an LSN target"
  else if negb (polardb_timeout_action_allows_global_lsn timeout_action)
  then Some "global_lsn cannot return stale data after an LSN wait timeout"
  else None.

Definition polardb_hostgroup_lsn_source_error (mode : PolarDB_ConsistencyMode)
    (protocol : PolarDB_ProxyProtocol) : cstr :=
  if (mode == Mode_SESSION_LSN) && (protocol == Protocol_OFF)
  then Some "session_lsn requires proxy_protocol v15_wait, v15, or legacy"
  else None.

Definition POLARDB_DEFAULT_WAIT_TIMEOUT_MS : Z := 1000.

(** [(uint32_t)hg_timeout_ms] is the identity on the positive branch. *)
Definition polardb_resolve_wait_timeout_ms (hg_timeout_ms global_timeout_ms : Z) : Z :=
  if 0 <? hg_timeout_ms then wrap32 hg_timeout_ms
  else if hg_timeout_ms =? 0 then 0
  else if 0 <=? global_timeout_ms then wrap32 global_timeout_ms
  else POLARDB_DEFAULT_WAIT_TIMEOUT_MS.

Definition polardb_resolve_consistency_mode
    (session_override hg_consistency_mode global_mode : Z) : Z :=
  if 0 <=? session_override then session_override
  else if 0 <=? hg_consistency_mode then hg_consistency_mode
  else global_mode.

Definition polardb_consistency_mode_or_off (effective_consistency_mode : Z)
  : PolarDB_ConsistencyMode :=
  if 0 <=? effective_consistency_mode
  then polardb_consistency_from_int effective_consistency_mode
  else Mode_OFF.

(** LSN payload classification of a ReadyForQuery. *)
Definition polardb_rfq_lsn_payload_state (payload_present : bool) (lsn : Z)
  : PolarDB_RfqLsnPayloadState :=
  if negb payload_present then Payload_MISSING
  else if lsn =? 0 then Payload_ZERO else Payload_POSITIONED.

(** ** The interface of a textual setting

    What the configuration code relies on for every administrator-visible
    setting: the integer encoding is faithful, each public value is accepted
    under its own name in any letter case, and parsing yields either the default
    or the encoding of a public value. *)

Class SettingCodec (A : Type) : Type := {
  codec_to_int : A -> Z;
  codec_from_int : Z -> A;
  codec_name : A -> string;
  codec_parse : cstr -> Z -> Z;
  codec_public : A -> bool;
  codec_to_int_nonneg : forall a, 0 <= codec_to_int a;
  codec_from_to : forall a, codec_from_int (codec_to_int a) = a;
  codec_parse_name : forall a s d,
    codec_public a = true -> strcaseeq s (codec_name a) = true ->
    codec_parse (Some s) d = codec_to_int a;
  codec_parse_range : forall v d,
    codec_parse v d = d \/ exists a, codec_public a = true /\ codec_parse v d = codec_to_int a
}.

Section CodecLaws.
Context {A : Type} {C : SettingCodec A}.

Lemma codec_roundtrip a s d :
  codec_public a = true -> strcaseeq s (codec_name a) = true ->
  codec_from_int (codec_parse (Some s) d) = a.
Proof. intros Hp Hs. rewrite (codec_parse_name a s d Hp Hs). apply codec_from_to. Qed.

(** A parse with default -1 is negative exactly when it was refused, which is
    how the configuration code recognizes an invalid word. *)
Lemma codec_parse_refused v :
  codec_parse v (-1) < 0 <-> codec_parse v (-1) = -1.
Proof.
  destruct (codec_parse_range v (-1)) as [->|(a & _ & ->)]; [lia|].
  pose proof (codec_to_int_nonneg a). lia.
Qed.

Lemma codec_parse_accepted v :
  0 <= codec_parse v (-1) -> exists a, codec_public a = true /\ codec_parse v (-1) = codec_to_int a.
Proof. destruct (codec_parse_range v (-1)) as [H|H]; [lia|done]. Qed.

End CodecLaws.

Ltac codec_parse_name_tac :=
  let a := fresh "a" in let s := fresh "s" in let d := fresh "d" in
  let Hp := fresh "Hp" in let Hs := fresh "Hs" in
  intros a s d Hp Hs; destruct a; try discriminate Hp;
  cbn [codec_name] in Hs;
  unfold unset_or_default, word_is, polardb_common_failure_outcome_from_string, word_is;
  repeat rewrite (strcaseeq_congr _ _ _ Hs);
  try rewrite (strcaseeq_empty _ _ Hs); reflexivity.

Ltac codec_parse_range_tac :=
  let s := fresh "s" in let d := fresh "d" in
  intros [s|] d; [|by left];
  unfold polardb_common_failure_outcome_from_string, unset_or_default, word_is;
  cbn beta iota;
  repeat (case_if; cbn beta iota);
  first [by left | right; eexists; split; [|reflexivity]; reflexivity].

#[global] Instance missing_lsn_codec : SettingCodec PolarDB_MissingLsnAction.
Proof.
  refine {| codec_to_int := missing_lsn_to_int;
    codec_from_int := polardb_missing_lsn_action_from_int;
    codec_name := polardb_missing_lsn_action_name;
    codec_parse := polardb_missing_lsn_action_from_string;
    codec_public := fun _ => true |}.
  - by intros [].
  - by intros [].
  - unfold polardb_missing_lsn_action_from_string. codec_parse_name_tac.
  - unfold polardb_missing_lsn_action_from_string. codec_parse_range_tac.
Defined.

#[global] Instance lsn_timeout_codec : SettingCodec PolarDB_LsnWaitTimeoutAction.
Proof.
  refine {| codec_to_int := lsn_timeout_to_int;
    codec_from_int := polardb_lsn_wait_timeout_action_from_int;
    codec_name := polardb_lsn_wait_timeout_action_name;
    codec_parse := polardb_lsn_wait_timeout_action_from_string;
    codec_public := fun _ => true |}.
  - by intros [].
  - by intros [].
  - unfold polardb_lsn_wait_timeout_action_from_string. codec_parse_name_tac.
  - unfold polardb_lsn_wait_timeout_action_from_string. codec_parse_range_tac.
Defined.

#[global] Instance replica_loss_codec : SettingCodec PolarDB_ReplicaLossAction.
Proof.
  refine {| codec_to_int := replica_loss_to_int;
    codec_from_int := polardb_replica_loss_action_from_int;
    codec_name := polardb_replica_loss_action_name;
    codec_parse := polardb_replica_loss_action_from_string;
    codec_public := fun _ => true |}.
  - by intros [].
  - by intros [].
  - unfold polardb_replica_loss_action_from_string. codec_parse_name_tac.
  - unfold polardb_replica_loss_action_from_string. codec_parse_range_tac.
Defined.

#[global] Instance replica_error_codec : SettingCodec PolarDB_ReplicaErrorAction.
Proof.
  refine {| codec_to_int := replica_error_to_int;
    codec_from_int := polardb_replica_error_action_from_int;
    codec_name := polardb_replica_error_action_name;
    codec_parse := polardb_replica_error_action_from_string;
    codec_public := fun _ => true |}.
  - by intros [].
  - by intros [].
  - unfold polardb_replica_error_action_from_string. codec_parse_name_tac.
  - unfold polardb_replica_error_action_from_string. codec_parse_range_tac.
Defined.

#[global] Instance proxy_protocol_codec : SettingCodec PolarDB_ProxyProtocol.
Proof.
  refine {| codec_to_int := protocol_to_int;
    codec_from_int := polardb_proxy_protocol_from_int;
    codec_name := polardb_proxy_protocol_config_name;
    codec_parse := polardb_proxy_protocol_from_string;
    codec_public := fun _ => true |}.
  - by intros [].
  - by intros [].
  - unfold polardb_proxy_protocol_from_string. codec_parse_name_tac.
  - unfold polardb_proxy_protocol_from_string. codec_parse_range_tac.
Defined.

#[global] Instance read_target_codec : SettingCodec PolarDB_ReadTarget.
Proof.
  refine {| codec_to_int := read_target_to_int;
    codec_from_int := polardb_read_target_from_int;
    codec_name := polardb_read_target_name;
    codec_parse := polardb_read_target_from_string;
    codec_public := fun _ => true |}.
  - by intros [].
  - by intros [].
  - unfold polardb_read_target_from_string. codec_parse_name_tac.
  - unfold polardb_read_target_from_string. codec_parse_range_tac.
Defined.

#[global] Instance read_fallback_codec : SettingCodec PolarDB_ReadFallbackAction.
Proof.
  refine {| codec_to_int := fallback_to_int;
    codec_from_int := polardb_read_fallback_action_from_int;
    codec_name := polardb_read_fallback_action_name;
    codec_parse := polardb_read_fallback_action_from_string;
    codec_public := fun _ => true |}.
  - by intros [].
  - by intros [].
  - unfold polardb_read_fallback_action_from_string. codec_parse_name_tac.
  - unfold polardb_read_fallback_action_from_string. codec_parse_range_tac.
Defined.

(** PRIMARY_ONLY is not a public global value: only hostgroup rows may name it. *)
#[global] Instance consistency_mode_codec : SettingCodec PolarDB_ConsistencyMode.
Proof.
  refine {| codec_to_int := mode_to_int;
    codec_from_int := polardb_consistency_from_int;
    codec_name := polardb_consistency_mode_name;
    codec_parse := polardb_consistency_mode_from_string;
    codec_public := fun m => m != Mode_PRIMARY_ONLY |}.
  - by intros [].
  - by intros [].
  - unfold polardb_consistency_mode_from_string. codec_parse_name_tac.
  - unfold polardb_consistency_mode_from_string. codec_parse_range_tac.
Defined.

(** The per-hostgroup parser is a codec for the same enumeration in which every
    mode is public.  It is not an instance, so that the global parser is the one
    found by resolution. *)
Definition hostgroup_mode_codec : SettingCodec PolarDB_ConsistencyMode.
Proof.
  refine {| codec_to_int := mode_to_int;
    codec_from_int := polardb_consistency_from_int;
    codec_name := polardb_consistency_mode_name;
    codec_parse := polardb_hostgroup_consistency_mode_from_string;
    codec_public := fun _ => true |}.
  - by intros [].
  - by intros [].
  - unfold polardb_hostgroup_consistency_mode_from_string, polardb_consistency_mode_from_string.
    codec_parse_name_tac.
  - unfold polardb_hostgroup_consistency_mode_from_string, polardb_consistency_mode_from_string.
    codec_parse_range_tac.
Defined.

(** ** Theorems *)

(** Every policy setting survives being written as text and read back: for
    each of the eight settings, any spelling of a value's name that differs only
    in letter case parses, whatever the default, to an integer that decodes to
    exactly that value; [primary] as a consistency mode is accepted by the
    hostgroup parser and refused (left at the default) by the global one. *)
Theorem settings_text_roundtrip (s : string) (d : Z) :
  (forall a, strcaseeq s (polardb_missing_lsn_action_name a) = true ->
     polardb_missing_lsn_action_from_int (polardb_missing_lsn_action_from_string (Some s) d) = a) /\
  (forall a, strcaseeq s (polardb_lsn_wait_timeout_action_name a) = true ->
     polardb_lsn_wait_timeout_action_from_int
       (polardb_lsn_wait_timeout_action_from_string (Some s) d) = a) /\
  (forall a, strcaseeq s (polardb_replica_loss_action_name a) = true ->
     polardb_replica_loss_action_from_int
       (polardb_replica_loss_action_from_string (Some s) d) = a) /\
  (forall a, strcaseeq s (polardb_replica_error_action_name a) = true ->
     polardb_replica_error_action_from_int
       (polardb_replica_error_action_from_string (Some s) d) = a) /\
  (forall a, strcaseeq s (polardb_proxy_protocol_config_name a) = true ->
     polardb_proxy_protocol_from_int (polardb_proxy_protocol_from_string (Some s) d) = a) /\
  (forall a, strcaseeq s (polardb_read_target_name a) = true ->
     polardb_read_target_from_int (polardb_read_target_from_string (Some s) d) = a) /\
  (forall a, strcaseeq s (polardb_read_fallback_action_name a) = true ->
     polardb_read_fallback_action_from_int
       (polardb_read_fallback_action_from_string (Some s) d) = a) /\
  (forall a, strcaseeq s (polardb_consistency_mode_name a) = true ->
     polardb_consistency_from_int
       (polardb_hostgroup_consistency_mode_from_string (Some s) d) = a /\
     polardb_consistency_mode_from_string (Some s) d =
       (if a == Mode_PRIMARY_ONLY then d else mode_to_int a)).
Proof.
  split_and!; intros a Hs.
  1-7: exact (codec_roundtrip a s d eq_refl Hs).
  split; [exact (codec_roundtrip (C:=hostgroup_mode_codec) a s d eq_refl Hs)|].
  unfold polardb_consistency_mode_from_string, unset_or_default, word_is.
  rewrite (strcaseeq_empty _ _ Hs), !(strcaseeq_congr _ _ _ Hs). by destruct a.
Qed.

(** A policy is rejected exactly when it is GLOBAL_LSN and may knowingly
    return a result without the global guarantee, either through the missing-LSN
    action or through the wait-timeout action. *)
Theorem global_lsn_policy_valid_iff mode missing timeout :
  polardb_consistency_policy_error mode missing timeout <> None <->
  mode = Mode_GLOBAL_LSN /\
  (missing = MissingLsn_WARNING \/
   polardb_wait_mode_for_timeout_action timeout = WaitMode_BEST_EFFORT).
Proof. destruct mode, missing, timeout; cbv; intuition congruence. Qed.

(** The resolved wait timeout is always a concrete unsigned 32-bit number;
    it is 0 (wait without limit) only when the hostgroup asks for 0, or inherits
    a global 0, and a hostgroup value that is set always wins. *)
Theorem wait_timeout_resolution (hg glob : Z) :
  is_i32 hg -> is_i32 glob ->
  is_u32 (polardb_resolve_wait_timeout_ms hg glob) /\
  (0 <= hg -> polardb_resolve_wait_timeout_ms hg glob = hg) /\
  (polardb_resolve_wait_timeout_ms hg glob = 0 <-> hg = 0 \/ (hg < 0 /\ glob = 0)).
Proof.
  unfold is_i32, is_u32, polardb_resolve_wait_timeout_ms, POLARDB_DEFAULT_WAIT_TIMEOUT_MS,
    wrap32, U32_MODULUS.
  intros Hh Hg.
  repeat case_if; bool_to_prop; rewrite ?Z.mod_small by lia; lia.
Qed.

Lemma wait_timeout_resolution_witness :
  is_u32 (polardb_resolve_wait_timeout_ms (-1) 250) /\
  polardb_resolve_wait_timeout_ms (-1) 250 = 250.
Proof.
  split; [|reflexivity].
  apply (wait_timeout_resolution (-1) 250); unfold is_i32; lia.
Defined.
