(* ===== verification/Startup.v ===== *)
(** * Startup profiles and pool compatibility

    What the proxy requests from a PolarDB backend in the startup packet
    ([PolarDB_StartupProfile]), the generation token pooled connections are
    matched on, the FNV-1a pool keys and the startup identities, from
    include/PgSQL_PolarDB.h. *)

From S2P Require Import Prelude Policy.
From Stdlib Require Import ZArith Ascii String List Bool Lia.
From stdpp Require Import base tactics list gmap strings.

Open Scope Z_scope.
Open Scope polar_scope.

(** ** Startup profile *)

Definition REQUEST_RFQ_LSN : Z := 1.
Definition REQUEST_RFQ_CSN : Z := 2.
Definition REQUEST_RFQ_XID : Z := 4.
Definition REQUEST_EXTENDED_WAIT : Z := 8.

Record PolarDB_StartupProfile := mkStartupProfile {
  sp_protocol : PolarDB_ProxyProtocol;
  sp_request_bits : Z
}.

#[global] Instance StartupProfile_eq_dec : EqDecision PolarDB_StartupProfile.
Proof. solve_decision. Defined.

Definition from_protocol (protocol : PolarDB_ProxyProtocol) : PolarDB_StartupProfile :=
  let bits :=
    if (protocol == Protocol_LEGACY) || (protocol == Protocol_V15) ||
       (protocol == Protocol_V15_WAIT)
    then Z.lor REQUEST_RFQ_LSN REQUEST_RFQ_XID else 0 in
  let bits :=
    if protocol == Protocol_V15_WAIT then Z.lor bits REQUEST_EXTENDED_WAIT else bits in
  mkStartupProfile protocol bits.

Definition requests (p : PolarDB_StartupProfile) (bit : Z) : bool :=
  negb (Z.land (sp_request_bits p) bit =? 0).

Definition requests_rfq_lsn (p : PolarDB_StartupProfile) : bool :=
  requests p REQUEST_RFQ_LSN.

Definition request_rfq_xid (p : PolarDB_StartupProfile) : PolarDB_StartupProfile :=
  if sp_protocol p != Protocol_OFF
  then mkStartupProfile (sp_protocol p) (Z.lor (sp_request_bits p) REQUEST_RFQ_XID)
  else p.

Definition requests_rfq_xid (p : PolarDB_StartupProfile) : bool :=
  requests p REQUEST_RFQ_XID.

Definition requests_extended_wait (p : PolarDB_StartupProfile) : bool :=
  requests p REQUEST_EXTENDED_WAIT.

Definition emits_startup_params (p : PolarDB_StartupProfile) : bool :=
  (sp_protocol p != Protocol_OFF) && negb (sp_request_bits p =? 0).

(** The packed token: protocol in bits 31..24, identity mode in bits 23..22,
    request bits in bits 21..0.  [identity_mode] is an [int] cast to 32 bits. *)
Definition generation (p : PolarDB_StartupProfile) (identity_mode : Z) : Z :=
  let identity_bits :=
    if emits_startup_params p then Z.land (wrap32 identity_mode) 3 else 0 in
  Z.lor (Z.lor (Z.shiftl (protocol_to_int (sp_protocol p)) 24)
               (Z.shiftl identity_bits 22))
        (Z.land (sp_request_bits p) 4194303).

Definition polardb_startup_profile_compatible_for_reuse
    (pooled requested : PolarDB_StartupProfile) : bool :=
  (sp_protocol pooled == sp_protocol requested) &&
  (sp_request_bits pooled =? sp_request_bits requested).

Definition polardb_startup_profile_matches_request_generation
    (pooled : PolarDB_StartupProfile) (pooled_generation : Z)
    (requested : PolarDB_StartupProfile) (requested_identity_mode : Z) : bool :=
  (pooled_generation =? generation requested requested_identity_mode) &&
  polardb_startup_profile_compatible_for_reuse pooled requested.

Definition polardb_startup_profile_requests_rfq_lsn_xid (p : PolarDB_StartupProfile) : bool :=
  requests_rfq_lsn p && requests_rfq_xid p.

(** ** Pool segregation *)

Inductive PolarDB_PoolProfile := PoolProfile_BASE | PoolProfile_RFQ.

#[global] Instance PoolProfile_eq_dec : EqDecision PolarDB_PoolProfile.
Proof. solve_decision. Defined.

Record PolarDB_PoolKey := mkPoolKey {
  pk_auth_hash : Z;
  pk_startup_identity_hash : Z;
  pk_startup_options_hash : Z
}.

Definition pool_key_empty (k : PolarDB_PoolKey) : bool :=
  (pk_auth_hash k =? 0) && (pk_startup_identity_hash k =? 0) &&
  (pk_startup_options_hash k =? 0).

Definition pool_key_eq (a b : PolarDB_PoolKey) : bool :=
  (pk_auth_hash a =? pk_auth_hash b) &&
  (pk_startup_identity_hash a =? pk_startup_identity_hash b) &&
  (pk_startup_options_hash a =? pk_startup_options_hash b).

Definition polardb_pool_profile_from_startup_profile (p : PolarDB_StartupProfile)
  : PolarDB_PoolProfile :=
  if emits_startup_params p then PoolProfile_RFQ else PoolProfile_BASE.

Definition polardb_pool_profile_matches_startup_profile
    (pooled : PolarDB_StartupProfile) (expected : PolarDB_PoolProfile) : bool :=
  polardb_pool_profile_from_startup_profile pooled == expected.

Record PolarDB_PoolRequest := mkPoolRequest {
  pr_key : PolarDB_PoolKey;
  pr_startup_profile : PolarDB_StartupProfile;
  pr_startup_identity_mode : Z;
  pr_expected_profile : PolarDB_PoolProfile;
  pr_only_pooled : bool
}.

Definition ready_for_matching (r : PolarDB_PoolRequest) : bool :=
  (0 <=? pr_startup_identity_mode r) && negb (pool_key_empty (pr_key r)).

Definition polardb_pool_startup_profile_compatible_for_reuse
    (pooled : PolarDB_StartupProfile) (request : PolarDB_PoolRequest) : bool :=
  polardb_pool_profile_matches_startup_profile pooled (pr_expected_profile request) &&
  polardb_startup_profile_compatible_for_reuse pooled (pr_startup_profile request).

Definition polardb_startup_parameter_consumed_by_proxy (key_lowercase : string) : bool :=
  (key_lowercase == "_polar_send_lsn") ||
  (key_lowercase == "_polar_proxy_send_lsn") ||
  (key_lowercase == "_polar_send_xact") ||
  (key_lowercase == "_polar_proxy_send_xact") ||
  (key_lowercase == "_polar_origin_client_ip") ||
  (key_lowercase == "_polar_origin_client_port") ||
  (key_lowercase == "_polar_proxy_client_host") ||
  (key_lowercase == "_polar_proxy_client_port").

(** ** FNV-1a pool hashing *)

Definition FNV_PRIME : Z := 1099511628211.
Definition FNV_SEED : Z := 1469598103934665603.

Definition hash_step (hash byte : Z) : Z := wrap64 (Z.lxor hash byte * FNV_PRIME).

Definition polardb_pool_hash_bytes (hash : Z) (bytes : list Z) : Z :=
  fold_left hash_step bytes hash.

(** The object representation of an [n]-byte integer, low byte first. *)
Fixpoint le_bytes (n : nat) (v : Z) : list Z :=
  match n with
  | O => []
  | S n' => (v mod 256) :: le_bytes n' (v / 256)
  end.

Definition string_bytes (s : string) : list Z := code <$> list_ascii_of_string s.

Definition polardb_pool_hash_u64 (hash value : Z) : Z :=
  polardb_pool_hash_bytes hash (le_bytes 8 (wrap64 value)).

Definition polardb_pool_hash_i32 (hash value : Z) : Z :=
  polardb_pool_hash_bytes hash (le_bytes 4 (wrap32 value)).

Definition polardb_pool_hash_string (hash : Z) (value : string) : Z :=
  let hash := polardb_pool_hash_u64 hash (Z.of_nat (String.length value)) in
  polardb_pool_hash_bytes hash (string_bytes value).

Definition polardb_pool_hash_cstr (hash : Z) (value : cstr) : Z :=
  let s := default EmptyString value in
  let len := Z.of_nat (String.length s) in
  let hash := polardb_pool_hash_u64 hash len in
  if negb (len =? 0) then polardb_pool_hash_bytes hash (string_bytes s) else hash.

(** ** Startup identity *)

Inductive PolarDB_StartupIdentitySource :=
| IdentitySource_NONE | IdentitySource_CLIENT | IdentitySource_LISTENER_PROXY
| IdentitySource_CONFIGURED_FALLBACK.

#[global] Instance StartupIdentitySource_eq_dec : EqDecision PolarDB_StartupIdentitySource.
Proof. solve_decision. Defined.

Definition identity_source_to_int (s : PolarDB_StartupIdentitySource) : Z :=
  match s with
  | IdentitySource_NONE => 0 | IdentitySource_CLIENT => 1
  | IdentitySource_LISTENER_PROXY => 2 | IdentitySource_CONFIGURED_FALLBACK => 3
  end.

Record PolarDB_StartupIdentity := mkStartupIdentity {
  si_host : string;
  si_port : Z;
  si_source : PolarDB_StartupIdentitySource
}.

#[global] Instance StartupIdentity_eq_dec : EqDecision PolarDB_StartupIdentity.
Proof. solve_decision. Defined.

Definition empty_identity : PolarDB_StartupIdentity :=
  mkStartupIdentity "" 0 IdentitySource_NONE.

Record PolarDB_StartupClientContext := mkStartupClient {
  sclient_identity : PolarDB_StartupIdentity;
  sclient_frontend_ssl : bool;
  sclient_ssl_version : string;
  sclient_ssl_cipher : string;
  sclient_has_proxy_session : bool;
  sclient_proxy_session_id : Z;
  sclient_proxy_cancel_key : Z
}.

Definition empty_client : PolarDB_StartupClientContext :=
  mkStartupClient empty_identity false "" "" false 0 0.

Definition compatible_for_reuse (a b : PolarDB_StartupClientContext) : bool :=
  (si_source (sclient_identity a) == si_source (sclient_identity b)) &&
  (si_host (sclient_identity a) == si_host (sclient_identity b)) &&
  (si_port (sclient_identity a) =? si_port (sclient_identity b)) &&
  Bool.eqb (sclient_frontend_ssl a) (sclient_frontend_ssl b) &&
  (sclient_ssl_version a == sclient_ssl_version b) &&
  (sclient_ssl_cipher a == sclient_ssl_cipher b) &&
  Bool.eqb (sclient_has_proxy_session a) (sclient_has_proxy_session b) &&
  (sclient_proxy_session_id a =? sclient_proxy_session_id b) &&
  (sclient_proxy_cancel_key a =? sclient_proxy_cancel_key b).

Definition bool_to_u64 (b : bool) : Z := if b then 1 else 0.

Definition polardb_startup_client_reuse_key (c : PolarDB_StartupClientContext) : Z :=
  let hash := FNV_SEED in
  let hash := polardb_pool_hash_string hash (si_host (sclient_identity c)) in
  let hash := polardb_pool_hash_i32 hash
    (identity_source_to_int (si_source (sclient_identity c))) in
  let hash := polardb_pool_hash_i32 hash (si_port (sclient_identity c)) in
  let hash := polardb_pool_hash_u64 hash (bool_to_u64 (sclient_frontend_ssl c)) in
  let hash := polardb_pool_hash_string hash (sclient_ssl_version c) in
  let hash := polardb_pool_hash_string hash (sclient_ssl_cipher c) in
  let hash := polardb_pool_hash_u64 hash (bool_to_u64 (sclient_has_proxy_session c)) in
  let hash := polardb_pool_hash_u64 hash (sclient_proxy_session_id c) in
  let hash := polardb_pool_hash_u64 hash (sclient_proxy_cancel_key c) in
  if negb (hash =? 0) then hash else 1.

Definition polardb_startup_client_compatible_for_warmup
    (pooled requested : PolarDB_StartupClientContext) : bool :=
  compatible_for_reuse pooled requested.

(** *** Address checks

    [inet_pton] is the operating system's address parser: [pton4 h] is the
    IPv4 address in network order as a 32-bit number, [pton6 h] the sixteen
    bytes of an IPv6 address, each [None] when the text is not such an
    address; [ntop] prints a socket address. *)

Record sockaddr := mkSockaddr {
  sa_family_inet : option bool;  (* Some true = AF_INET, Some false = AF_INET6 *)
  sa_text : option string;       (* the text inet_ntop gives, None when it fails *)
  sa_port : Z                    (* the port in host order *)
}.

Section Identity.
Context (pton4 : string -> option Z) (pton6 : string -> option (list Z)).

Definition byte_is_zero (b : list Z) (i : nat) : bool := nth i b 0 =? 0.

Definition IN6_IS_ADDR_UNSPECIFIED (b : list Z) : bool :=
  forallb (byte_is_zero b) (seq 0 16).

Definition IN6_IS_ADDR_V4MAPPED (b : list Z) : bool :=
  forallb (byte_is_zero b) (seq 0 10) && (nth 10%nat b 0 =? 255) && (nth 11%nat b 0 =? 255).

Definition polardb_identity_host_is_wildcard (host : cstr) : bool :=
  match host with
  | None => true
  | Some h =>
      if h == EmptyString then true
      else match pton4 h with
      | Some addr4 => addr4 =? 0
      | None =>
          match pton6 h with
          | Some addr6 =>
              if IN6_IS_ADDR_UNSPECIFIED addr6 then true
              else IN6_IS_ADDR_V4MAPPED addr6 &&
                byte_is_zero addr6 12 && byte_is_zero addr6 13 &&
                byte_is_zero addr6 14 && byte_is_zero addr6 15
          | None => false
          end
      end
  end.

Definition polardb_identity_host_is_ip (host : cstr) : bool :=
  match host with
  | None => false
  | Some h =>
      if h == EmptyString then false
      else match pton4 h with
      | Some _ => true
      | None => match pton6 h with Some _ => true | None => false end
      end
  end.

Definition identity_valid (i : PolarDB_StartupIdentity) (reject_wildcard : bool) : bool :=
  if (si_host i == EmptyString) || (si_port i <=? 0) || (65535 <? si_port i) then false
  else if negb (polardb_identity_host_is_ip (Some (si_host i))) then false
  else negb reject_wildcard || negb (polardb_identity_host_is_wildcard (Some (si_host i))).

Definition polardb_identity_config_valid (host : cstr) (port : Z)
    (allow_incomplete_port : bool) : bool :=
  match host with
  | None => true
  | Some h =>
      if h == EmptyString then true
      else if negb (polardb_identity_host_is_ip host) then false
      else if allow_incomplete_port && (port =? 0)
      then negb (polardb_identity_host_is_wildcard host)
      else identity_valid (mkStartupIdentity h port IdentitySource_NONE) true
  end.

(** The out-parameter and the result: [(identity, ok)]. *)
Definition polardb_startup_identity_from_sockaddr (addr : option sockaddr)
    (source : PolarDB_StartupIdentitySource) : PolarDB_StartupIdentity * bool :=
  match addr with
  | None => (empty_identity, false)
  | Some a =>
      match sa_family_inet a, sa_text a with
      | Some _, Some buf =>
          let resolved := mkStartupIdentity buf (sa_port a) source in
          if negb (identity_valid resolved false) then (empty_identity, false)
          else (resolved, true)
      | _, _ => (empty_identity, false)
      end
  end.

(** The endpoints of a client data stream, and the two runtime settings the
    identity code reads. *)
Record client_stream := mkClientStream {
  cs_addr : cstr; cs_port : Z;
  cs_proxy_addr : cstr; cs_proxy_port : Z;
  cs_client_addr : option sockaddr
}.

Definition identity_of (host : cstr) (port : Z) (source : PolarDB_StartupIdentitySource)
  : PolarDB_StartupIdentity :=
  mkStartupIdentity (default EmptyString host) port source.

Definition polardb_proxy_identity_from_client_stream (client_myds : option client_stream)
    (fallback_host : cstr) (fallback_port : Z) : PolarDB_StartupIdentity * bool :=
  let fallback := identity_of fallback_host fallback_port IdentitySource_CONFIGURED_FALLBACK in
  match client_myds with
  | Some ds =>
      let listener := identity_of (cs_proxy_addr ds) (cs_proxy_port ds)
                        IdentitySource_LISTENER_PROXY in
      if identity_valid listener true then (listener, true)
      else (fallback, identity_valid fallback true)
  | None => (fallback, identity_valid fallback true)
  end.

Definition polardb_startup_client_from_session (client_myds : option client_stream)
    (identity_mode : Z) (fallback_host : cstr) (fallback_port : Z)
  : PolarDB_StartupClientContext * bool :=
  let with_identity i := mkStartupClient i false "" "" false 0 0 in
  match client_myds with
  | None => (empty_client, false)
  | Some ds =>
      let identity := identity_of (cs_addr ds) (cs_port ds) IdentitySource_CLIENT in
      if polardb_proxy_identity_mode_uses_client_identity identity_mode then
        if identity_valid identity false then (with_identity identity, true)
        else match polardb_startup_identity_from_sockaddr (cs_client_addr ds)
                     IdentitySource_CLIENT with
             | (i, true) => (with_identity i, true)
             | (_, false) => (empty_client, false)
             end
      else match polardb_proxy_identity_from_client_stream (Some ds)
                   fallback_host fallback_port with
           | (i, true) => (with_identity i, true)
           | (_, false) => (empty_client, false)
           end
  end.

End Identity.

(** ** Lemmas *)

Lemma protocol_to_int_inj a b : protocol_to_int a = protocol_to_int b -> a = b.
Proof. by destruct a, b. Qed.

Lemma protocol_to_int_range a : 0 <= protocol_to_int a < 4.
Proof. destruct a; cbn; lia. Qed.

Definition identity_bits_of (p : PolarDB_StartupProfile) (mode : Z) : Z :=
  if emits_startup_params p then Z.land (wrap32 mode) 3 else 0.

Lemma identity_bits_range p mode : 0 <= identity_bits_of p mode < 4.
Proof.
  unfold identity_bits_of. case_if; [|lia].
  change 3 with (Z.ones 2). rewrite Z.land_ones by lia. apply Z.mod_pos_bound. lia.
Qed.

(** The token as a mixed-radix number. *)
Lemma generation_value p mode :
  generation p mode =
    protocol_to_int (sp_protocol p) * 16777216 +
    identity_bits_of p mode * 4194304 + sp_request_bits p mod 4194304.
Proof.
  unfold generation. fold (identity_bits_of p mode).
  pose proof (identity_bits_range p mode).
  change 4194303 with (Z.ones 22). rewrite Z.land_ones by lia.
  change (2 ^ 22) with 4194304.
  pose proof (Z.mod_pos_bound (sp_request_bits p) 4194304).
  rewrite <- Z.lor_assoc, (lor_shiftl_add (identity_bits_of p mode)) by lia.
  rewrite lor_shiftl_add by lia. lia.
Qed.

Lemma hash_step_range h b : is_u64 (hash_step h b).
Proof. apply wrap64_range. Qed.

Lemma hash_bytes_range bytes h : is_u64 h -> is_u64 (polardb_pool_hash_bytes h bytes).
Proof.
  unfold polardb_pool_hash_bytes. revert h.
  induction bytes as [|b bs IH]; intros h Hh; [done|]. apply IH, hash_step_range.
Qed.

Lemma hash_u64_range h v : is_u64 h -> is_u64 (polardb_pool_hash_u64 h v).
Proof. apply hash_bytes_range. Qed.

Lemma identity_bits_small p k :
  0 <= k < 4 -> identity_bits_of p k = if emits_startup_params p then k else 0.
Proof.
  intros Hk. unfold identity_bits_of, wrap32, U32_MODULUS. rewrite Z.mod_small by lia.
  change 3 with (Z.ones 2). by rewrite Z.land_ones, Z.mod_small by lia.
Qed.

Lemma generation_eq_iff p q m n :
  0 <= sp_request_bits p < 4194304 -> 0 <= sp_request_bits q < 4194304 ->
  0 <= m < 4 -> 0 <= n < 4 ->
  generation p m = generation q n <-> p = q /\ (emits_startup_params p = true -> m = n).
Proof.
  intros Hp Hq Hm Hn. rewrite !generation_value, !(Z.mod_small (sp_request_bits _)) by lia.
  pose proof (identity_bits_range p m). pose proof (identity_bits_range q n). split.
  - intros E.
    assert (sp_protocol p = sp_protocol q) by (apply protocol_to_int_inj; lia).
    assert (sp_request_bits p = sp_request_bits q) by lia.
    assert (p = q) as -> by (destruct p, q; cbn in *; congruence).
    split; [done|]. intros He. rewrite !identity_bits_small, He in E by lia. lia.
  - intros [-> He]. rewrite !identity_bits_small by lia.
    destruct (emits_startup_params q); [|done]. by rewrite He.
Qed.

(** ** Theorems *)

(** The 32-bit startup generation token is faithful.  For profiles whose
    request bits fit the 22-bit field (every profile built by [from_protocol]
    does), equal tokens mean the same protocol, the same request bits and, when
    startup parameters are sent, the same identity mode; so a pooled connection
    whose stored token matches was opened with the requested startup packet. *)
Theorem generation_token_faithful p q m n :
  0 <= sp_request_bits p < 4194304 -> 0 <= sp_request_bits q < 4194304 ->
  0 <= m < 4 -> 0 <= n < 4 ->
  is_u32 (generation p m) /\
  (generation p m = generation q n <->
   p = q /\ (emits_startup_params p = true -> m = n)).
Proof.
  intros Hp Hq Hm Hn. split; [|by apply generation_eq_iff].
  rewrite generation_value, (Z.mod_small (sp_request_bits _)) by lia.
  pose proof (protocol_to_int_range (sp_protocol p)).
  pose proof (identity_bits_range p m). unfold is_u32, U32_MODULUS. lia.
Qed.

Lemma generation_token_faithful_witness :
  generation (from_protocol Protocol_V15) 1 <> generation (from_protocol Protocol_V15_WAIT) 1.
Proof.
  intros E.
  destruct (generation_token_faithful (from_protocol Protocol_V15)
           (from_protocol Protocol_V15_WAIT) 1 1) as [_ [H _]];
    [vm_compute; by split..|].
  destruct (H E) as [H' _]. discriminate H'.
Defined.

(** The startup-client reuse key agrees with the reuse comparison: it is a
    non-zero 64-bit number (0 stays free for "not computed"), and two contexts
    that [compatible_for_reuse] accepts always have the same key, so no
    compatible pooled connection is missed by key. *)
Theorem reuse_key_sound a b :
  polardb_startup_client_reuse_key a <> 0 /\
  is_u64 (polardb_startup_client_reuse_key a) /\
  (compatible_for_reuse a b = true ->
   polardb_startup_client_reuse_key a = polardb_startup_client_reuse_key b).
Proof.
  split_and!.
  - unfold polardb_startup_client_reuse_key. case_if; bool_to_prop; lia.
  - unfold polardb_startup_client_reuse_key. case_if; [|by split].
    repeat apply hash_bytes_range. by split.
  - unfold compatible_for_reuse. destruct a as [[] ? ? ? ? ? ?], b as [[] ? ? ? ? ? ?]; cbn.
    intros. bool_to_prop.
    repeat match goal with H : Bool.eqb _ _ = true |- _ => apply eqb_prop in H end.
    by subst.
Qed.

Lemma ipv4_only_valid pton4 pton6 i r :
  identity_valid pton4 pton6 i r = true ->
  0 < si_port i <= 65535 /\ polardb_identity_host_is_ip pton4 pton6 (Some (si_host i)) = true.
Proof.
  unfold identity_valid. case_if; [done|]. case_if; [done|]. intros _. bool_to_prop.
  split; [lia|done].
Qed.

(** The identity advertised for a session is always usable: whenever an
    identity is produced it is a literal IP address with a port in 1..65535, and
    outside client-identity mode it is never a wildcard address; when none is
    produced the context is the empty one, so no rejected identity escapes. *)
Theorem session_identity_usable pton4 pton6 ds mode fh fp c ok :
  polardb_startup_client_from_session pton4 pton6 ds mode fh fp = (c, ok) ->
  if ok
  then 0 < si_port (sclient_identity c) <= 65535 /\
       polardb_identity_host_is_ip pton4 pton6 (Some (si_host (sclient_identity c))) = true /\
       (mode <> identity_mode_to_int IdentityMode_CLIENT ->
        polardb_identity_host_is_wildcard pton4 pton6
          (Some (si_host (sclient_identity c))) = false)
  else c = empty_client.
Proof.
  assert (Hw : forall i, identity_valid pton4 pton6 i true = true ->
    polardb_identity_host_is_wildcard pton4 pton6 (Some (si_host i)) = false).
  { intros i. unfold identity_valid. case_if; [done|]. case_if; [done|].
    cbn [negb orb]. by intros ?%negb_true_iff. }
  unfold polardb_startup_client_from_session, polardb_proxy_identity_from_client_stream,
    polardb_startup_identity_from_sockaddr, polardb_proxy_identity_mode_uses_client_identity.
  intros H. destruct ds as [ds|]; [|by simplify_eq].
  destruct (mode =? _) eqn:Em.
  - apply Z.eqb_eq in Em. repeat first [case_match | progress simplify_eq]; try done; cbn in *;
      bool_to_prop; match goal with
      | H : identity_valid _ _ _ _ = true |- _ => apply ipv4_only_valid in H
      end; naive_solver.
  - repeat first [case_match | progress simplify_eq]; try done; cbn in *;
      match goal with
      | H : identity_valid _ _ _ true = true |- _ =>
          pose proof (Hw _ H); apply ipv4_only_valid in H
      end; naive_solver.
Qed.

Definition sample_pton4 (h : string) : option Z :=
  if h == "10.0.0.7" then Some 117440522 else if h == "0.0.0.0" then Some 0 else None.

Lemma session_identity_usable_witness :
  let ds := mkClientStream (Some "app") 5000 (Some "0.0.0.0") 6133 None in
  polardb_startup_client_from_session sample_pton4 (fun _ => None) (Some ds) 1
    (Some "10.0.0.7") 6133 =
    (mkStartupClient (mkStartupIdentity "10.0.0.7" 6133 IdentitySource_CONFIGURED_FALLBACK)
       false "" "" false 0 0, true) /\
  polardb_identity_host_is_ip sample_pton4 (fun _ => None) (Some "10.0.0.7") = true.
Proof.
  split; [vm_compute; reflexivity|].
  pose proof (session_identity_usable sample_pton4 (fun _ => None)
    (Some (mkClientStream (Some "app") 5000 (Some "0.0.0.0") 6133 None)) 1
    (Some "10.0.0.7") 6133
    (mkStartupClient (mkStartupIdentity "10.0.0.7" 6133 IdentitySource_CONFIGURED_FALLBACK)
       false "" "" false 0 0) true ltac:(vm_compute; reflexivity)) as (_ & H & _).
  exact H.
Defined.
