(* ===== verification/Config.v ===== *)
(** * Global policy configuration

    The profile presets, the parsed global configuration and the administrative
    update of one setting, from include/PgSQL_PolarDB.h. *)

From S2P Require Import Prelude Policy Startup.
From Stdlib Require Import ZArith Ascii String List Bool Lia.
From stdpp Require Import base tactics list gmap strings.

Open Scope Z_scope.
Open Scope polar_scope.

Inductive PolarDB_Profile :=
| Profile_OFF | Profile_EVENTUAL | Profile_SESSION_WARNING | Profile_SESSION_FALLBACK
| Profile_SESSION_ERROR | Profile_GLOBAL_FALLBACK | Profile_GLOBAL_ERROR | Profile_CUSTOM.

#[global] Instance Profile_eq_dec : EqDecision PolarDB_Profile.
Proof. solve_decision. Defined.

Definition profile_to_int (p : PolarDB_Profile) : Z :=
  match p with
  | Profile_OFF => 0 | Profile_EVENTUAL => 1 | Profile_SESSION_WARNING => 2
  | Profile_SESSION_FALLBACK => 3 | Profile_SESSION_ERROR => 4
  | Profile_GLOBAL_FALLBACK => 5 | Profile_GLOBAL_ERROR => 6 | Profile_CUSTOM => 7
  end.

Record PolarDB_ProfileDefinition := mkProfileDefinition {
  pd_profile : PolarDB_Profile;
  pd_name : string;
  pd_consistency : PolarDB_ConsistencyMode;
  pd_read_target : PolarDB_ReadTarget;
  pd_read_fallback : PolarDB_ReadFallbackAction;
  pd_missing_lsn : PolarDB_MissingLsnAction;
  pd_lsn_timeout : PolarDB_LsnWaitTimeoutAction;
  pd_replica_error : PolarDB_ReplicaErrorAction;
  pd_replica_loss : PolarDB_ReplicaLossAction;
  pd_rfq_protocol : PolarDB_ProxyProtocol;
  pd_monitor_lsn_updates : bool;
  pd_split_warmup : bool
}.

Definition POLARDB_DEFAULT_PROFILE_DEFINITION : PolarDB_ProfileDefinition :=
  mkProfileDefinition Profile_SESSION_FALLBACK "session_fallback" Mode_SESSION_LSN
    ReadTarget_REPLICA Fallback_PRIMARY MissingLsn_PRIMARY LsnTimeout_PRIMARY
    ReplicaError_PRIMARY ReplicaLoss_REPLICA_THEN_PRIMARY Protocol_V15 true true.

Record PolarDB_StartupConfigValue := mkStartupConfig {
  scfg_generation : Z;
  scfg_proxy_protocol : PolarDB_ProxyProtocol;
  scfg_identity_mode : PolarDB_ProxyIdentityMode;
  scfg_configured_identity : PolarDB_StartupIdentity
}.

Record PolarDB_ParsedGlobalConfigValue := mkGlobalConfig {
  gc_profile : Z;
  gc_consistency_mode : Z;
  gc_read_target : Z;
  gc_read_fallback_action : Z;
  gc_missing_lsn_action : Z;
  gc_lsn_wait_timeout_action : Z;
  gc_replica_loss_action : Z;
  gc_replica_error_action : Z;
  gc_lsn_wait_timeout_ms : Z;
  gc_split_warmup_max_connections_per_request : Z;
  gc_monitor_lsn_updates : bool;
  gc_split_warmup : bool;
  gc_startup : PolarDB_StartupConfigValue
}.

#[global] Instance upd_scfg_proxy_protocol : Update scfg_proxy_protocol.
Proof. derive_update. Defined.
#[global] Instance upd_gc_profile : Update gc_profile.
Proof. derive_update. Defined.
#[global] Instance upd_gc_consistency_mode : Update gc_consistency_mode.
Proof. derive_update. Defined.
#[global] Instance upd_gc_read_target : Update gc_read_target.
Proof. derive_update. Defined.
#[global] Instance upd_gc_read_fallback_action : Update gc_read_fallback_action.
Proof. derive_update. Defined.
#[global] Instance upd_gc_missing_lsn_action : Update gc_missing_lsn_action.
Proof. derive_update. Defined.
#[global] Instance upd_gc_lsn_wait_timeout_action : Update gc_lsn_wait_timeout_action.
Proof. derive_update. Defined.
#[global] Instance upd_gc_replica_loss_action : Update gc_replica_loss_action.
Proof. derive_update. Defined.
#[global] Instance upd_gc_replica_error_action : Update gc_replica_error_action.
Proof. derive_update. Defined.
#[global] Instance upd_gc_monitor_lsn_updates : Update gc_monitor_lsn_updates.
Proof. derive_update. Defined.
#[global] Instance upd_gc_split_warmup : Update gc_split_warmup.
Proof. derive_update. Defined.
#[global] Instance upd_gc_startup : Update gc_startup.
Proof. derive_update. Defined.

Definition default_startup_config : PolarDB_StartupConfigValue :=
  mkStartupConfig 1 Protocol_V15 IdentityMode_PROXY empty_identity.

Definition default_global_config : PolarDB_ParsedGlobalConfigValue :=
  let d := POLARDB_DEFAULT_PROFILE_DEFINITION in
  mkGlobalConfig (profile_to_int (pd_profile d)) (mode_to_int (pd_consistency d))
    (read_target_to_int (pd_read_target d)) (fallback_to_int (pd_read_fallback d))
    (missing_lsn_to_int (pd_missing_lsn d)) (lsn_timeout_to_int (pd_lsn_timeout d))
    (replica_loss_to_int (pd_replica_loss d)) (replica_error_to_int (pd_replica_error d))
    1000 1 (pd_monitor_lsn_updates d) (pd_split_warmup d) default_startup_config.

(** ** Profile presets *)

Definition polardb_profile_definitions : list PolarDB_ProfileDefinition := [
  mkProfileDefinition Profile_OFF "off" Mode_OFF ReadTarget_PRIMARY Fallback_PRIMARY
    MissingLsn_PRIMARY LsnTimeout_PRIMARY ReplicaError_PRIMARY
    ReplicaLoss_REPLICA_THEN_PRIMARY Protocol_OFF false false;
  mkProfileDefinition Profile_EVENTUAL "eventual" Mode_EVENTUAL ReadTarget_REPLICA
    Fallback_PRIMARY MissingLsn_PRIMARY LsnTimeout_PRIMARY ReplicaError_PRIMARY
    ReplicaLoss_REPLICA_THEN_PRIMARY Protocol_OFF false false;
  mkProfileDefinition Profile_SESSION_WARNING "session_warning" Mode_SESSION_LSN
    ReadTarget_REPLICA Fallback_PRIMARY MissingLsn_WARNING LsnTimeout_WARNING
    ReplicaError_PRIMARY ReplicaLoss_REPLICA_THEN_PRIMARY Protocol_V15 true true;
  POLARDB_DEFAULT_PROFILE_DEFINITION;
  mkProfileDefinition Profile_SESSION_ERROR "session_error" Mode_SESSION_LSN
    ReadTarget_REPLICA Fallback_ERROR MissingLsn_ERROR LsnTimeout_ERROR
    ReplicaError_ERROR ReplicaLoss_REPLICA_THEN_ERROR Protocol_V15 true true;
  mkProfileDefinition Profile_GLOBAL_FALLBACK "global_fallback" Mode_GLOBAL_LSN
    ReadTarget_REPLICA Fallback_PRIMARY MissingLsn_PRIMARY LsnTimeout_PRIMARY
    ReplicaError_PRIMARY ReplicaLoss_REPLICA_THEN_PRIMARY Protocol_V15 true true;
  mkProfileDefinition Profile_GLOBAL_ERROR "global_error" Mode_GLOBAL_LSN
    ReadTarget_REPLICA Fallback_ERROR MissingLsn_ERROR LsnTimeout_ERROR
    ReplicaError_ERROR ReplicaLoss_REPLICA_THEN_ERROR Protocol_V15 true true
].

Definition polardb_profile_from_string (value : cstr) (default_value : Z) : Z :=
  if unset_or_default value then default_value
  else if word_is value "custom" then profile_to_int Profile_CUSTOM
  else match List.find (fun d => word_is value (pd_name d)) polardb_profile_definitions with
       | Some d => profile_to_int (pd_profile d)
       | None => default_value
       end.

Definition polardb_profile_from_int (value : Z) : PolarDB_Profile :=
  if value =? profile_to_int Profile_CUSTOM then Profile_CUSTOM
  else match List.find (fun d => value =? profile_to_int (pd_profile d))
               polardb_profile_definitions with
       | Some d => pd_profile d
       | None => Profile_CUSTOM
       end.

Definition polardb_profile_name (p : PolarDB_Profile) : string :=
  match List.find (fun d => p == pd_profile d) polardb_profile_definitions with
  | Some d => pd_name d
  | None => "custom"
  end.

Definition polardb_profile_is_named (p : PolarDB_Profile) : bool := p != Profile_CUSTOM.

Definition polardb_profile_definition (p : PolarDB_Profile) : option PolarDB_ProfileDefinition :=
  List.find (fun d => pd_profile d == p) polardb_profile_definitions.

(** The updated configuration and whether the profile was found. *)
Definition polardb_apply_profile (profile : PolarDB_Profile)
    (config : PolarDB_ParsedGlobalConfigValue) : PolarDB_ParsedGlobalConfigValue * bool :=
  match polardb_profile_definition profile with
  | None => (config, false)
  | Some d =>
      (config <| gc_profile := profile_to_int profile |>
         <| gc_consistency_mode := mode_to_int (pd_consistency d) |>
         <| gc_read_target := read_target_to_int (pd_read_target d) |>
         <| gc_read_fallback_action := fallback_to_int (pd_read_fallback d) |>
         <| gc_missing_lsn_action := missing_lsn_to_int (pd_missing_lsn d) |>
         <| gc_lsn_wait_timeout_action := lsn_timeout_to_int (pd_lsn_timeout d) |>
         <| gc_replica_error_action := replica_error_to_int (pd_replica_error d) |>
         <| gc_replica_loss_action := replica_loss_to_int (pd_replica_loss d) |>
         <| gc_monitor_lsn_updates := pd_monitor_lsn_updates d |>
         <| gc_split_warmup := pd_split_warmup d |>
         <| gc_startup :=
              (gc_startup config) <| scfg_proxy_protocol := pd_rfq_protocol d |> |>, true)
  end.

Definition polardb_same_profile_owned_settings (lhs rhs : PolarDB_ParsedGlobalConfigValue)
  : bool :=
  (gc_consistency_mode lhs =? gc_consistency_mode rhs) &&
  (gc_read_target lhs =? gc_read_target rhs) &&
  (gc_read_fallback_action lhs =? gc_read_fallback_action rhs) &&
  (gc_missing_lsn_action lhs =? gc_missing_lsn_action rhs) &&
  (gc_lsn_wait_timeout_action lhs =? gc_lsn_wait_timeout_action rhs) &&
  (gc_replica_error_action lhs =? gc_replica_error_action rhs) &&
  (gc_replica_loss_action lhs =? gc_replica_loss_action rhs) &&
  Bool.eqb (gc_monitor_lsn_updates lhs) (gc_monitor_lsn_updates rhs) &&
  Bool.eqb (gc_split_warmup lhs) (gc_split_warmup rhs) &&
  (scfg_proxy_protocol (gc_startup lhs) == scfg_proxy_protocol (gc_startup rhs)).

Definition polardb_config_matches_profile (config : PolarDB_ParsedGlobalConfigValue)
    (profile : PolarDB_Profile) : bool :=
  let '(expected, found) := polardb_apply_profile profile config in
  found && polardb_same_profile_owned_settings config expected.

(** ** Administrative update of one setting *)

Inductive PolarDB_ProfileSettingKey :=
| Key_PROFILE | Key_CONSISTENCY_MODE | Key_READ_TARGET | Key_READ_FALLBACK
| Key_MISSING_LSN | Key_LSN_TIMEOUT | Key_REPLICA_ERROR | Key_REPLICA_LOSS
| Key_PROXY_PROTOCOL | Key_MONITOR_LSN_UPDATES | Key_SPLIT_WARMUP.

#[global] Instance ProfileSettingKey_eq_dec : EqDecision PolarDB_ProfileSettingKey.
Proof. solve_decision. Defined.

Record PolarDB_ProfileSettingDefinition := mkSettingDefinition {
  psd_key : PolarDB_ProfileSettingKey;
  psd_name : string;
  psd_allowed_values : string
}.

Definition polardb_profile_settings : list PolarDB_ProfileSettingDefinition := [
  mkSettingDefinition Key_PROFILE "polardb_profile"
    "off, eventual, session_warning, session_fallback, session_error, global_fallback, global_error, custom";
  mkSettingDefinition Key_CONSISTENCY_MODE "polardb_consistency_mode"
    "off, eventual, session_lsn, global_lsn";
  mkSettingDefinition Key_READ_TARGET "polardb_read_target" "primary, replica";
  mkSettingDefinition Key_READ_FALLBACK "polardb_action_read_fallback" "primary, error";
  mkSettingDefinition Key_MISSING_LSN "polardb_action_missing_lsn" "primary, warning, error";
  mkSettingDefinition Key_LSN_TIMEOUT "polardb_action_lsn_timeout"
    "warning, primary, error, disconnect";
  mkSettingDefinition Key_REPLICA_ERROR "polardb_action_replica_error"
    "primary, error, disconnect";
  mkSettingDefinition Key_REPLICA_LOSS "polardb_action_replica_loss"
    "replica_then_primary, replica_then_error, primary, error, disconnect";
  mkSettingDefinition Key_PROXY_PROTOCOL "polardb_proxy_protocol" "v15_wait, v15, legacy, off";
  mkSettingDefinition Key_MONITOR_LSN_UPDATES "polardb_monitor_lsn_updates" "true, false";
  mkSettingDefinition Key_SPLIT_WARMUP "polardb_lazy_warmup_split" "true, false"
].

Definition polardb_find_profile_setting (name : cstr) : option PolarDB_ProfileSettingDefinition :=
  match name with
  | None => None
  | Some _ => List.find (fun st => word_is name (psd_name st)) polardb_profile_settings
  end.

Definition polardb_profile_owns_setting (name : cstr) : bool :=
  match polardb_find_profile_setting name with Some _ => true | None => false end.

Definition polardb_profile_setting_allowed_values (name : cstr) : string :=
  match polardb_find_profile_setting name with
  | Some st => psd_allowed_values st
  | None => ""
  end.

Inductive PolarDB_ProfileSettingResult :=
| Setting_NOT_PROFILE_SETTING | Setting_UPDATED | Setting_INVALID.

#[global] Instance ProfileSettingResult_eq_dec : EqDecision PolarDB_ProfileSettingResult.
Proof. solve_decision. Defined.

Definition polardb_parse_profile_bool (value : cstr) : option bool :=
  match value with
  | None => None
  | Some s =>
      if strcaseeq s "true" || (s == "1") then Some true
      else if strcaseeq s "false" || (s == "0") then Some false
      else None
  end.

(** Store an accepted integer ([parsed >= 0]) through [store]. *)
Definition store_parsed (parsed : Z)
    (store : PolarDB_ParsedGlobalConfigValue -> PolarDB_ParsedGlobalConfigValue)
    (config : PolarDB_ParsedGlobalConfigValue)
  : PolarDB_ParsedGlobalConfigValue * PolarDB_ProfileSettingResult :=
  if 0 <=? parsed then (store config, Setting_UPDATED) else (config, Setting_INVALID).

Definition store_bool (parsed : option bool)
    (store : bool -> PolarDB_ParsedGlobalConfigValue -> PolarDB_ParsedGlobalConfigValue)
    (config : PolarDB_ParsedGlobalConfigValue)
  : PolarDB_ParsedGlobalConfigValue * PolarDB_ProfileSettingResult :=
  match parsed with
  | Some enabled => (store enabled config, Setting_UPDATED)
  | None => (config, Setting_INVALID)
  end.

Definition update_profile_key (config : PolarDB_ParsedGlobalConfigValue) (value : cstr)
  : PolarDB_ParsedGlobalConfigValue * PolarDB_ProfileSettingResult :=
  let parsed := polardb_profile_from_string value (-1) in
  if parsed <? 0 then (config, Setting_INVALID)
  else
    let profile := polardb_profile_from_int parsed in
    if profile == Profile_CUSTOM then (config <| gc_profile := parsed |>, Setting_UPDATED)
    else match polardb_apply_profile profile config with
         | (config', true) => (config', Setting_UPDATED)
         | (config', false) => (config', Setting_INVALID)
         end.

Definition polardb_update_profile_setting (config : PolarDB_ParsedGlobalConfigValue)
    (name value : cstr) : PolarDB_ParsedGlobalConfigValue * PolarDB_ProfileSettingResult :=
  match polardb_find_profile_setting name with
  | None => (config, Setting_NOT_PROFILE_SETTING)
  | Some setting =>
      match psd_key setting with
      | Key_PROFILE => update_profile_key config value
      | Key_CONSISTENCY_MODE =>
          let v := polardb_consistency_mode_from_string value (-1) in
          store_parsed v (fun c => c <| gc_consistency_mode := v |>) config
      | Key_READ_TARGET =>
          let v := polardb_read_target_from_string value (-1) in
          store_parsed v (fun c => c <| gc_read_target := v |>) config
      | Key_READ_FALLBACK =>
          let v := polardb_read_fallback_action_from_string value (-1) in
          store_parsed v (fun c => c <| gc_read_fallback_action := v |>) config
      | Key_MISSING_LSN =>
          let v := polardb_missing_lsn_action_from_string value (-1) in
          store_parsed v (fun c => c <| gc_missing_lsn_action := v |>) config
      | Key_LSN_TIMEOUT =>
          let v := polardb_lsn_wait_timeout_action_from_string value (-1) in
          store_parsed v (fun c => c <| gc_lsn_wait_timeout_action := v |>) config
      | Key_REPLICA_ERROR =>
          let v := polardb_replica_error_action_from_string value (-1) in
          store_parsed v (fun c => c <| gc_replica_error_action := v |>) config
      | Key_REPLICA_LOSS =>
          let v := polardb_replica_loss_action_from_string value (-1) in
          store_parsed v (fun c => c <| gc_replica_loss_action := v |>) config
      | Key_PROXY_PROTOCOL =>
          let v := polardb_proxy_protocol_from_string value (-1) in
          store_parsed v (fun c => c <| gc_startup := (gc_startup c)
            <| scfg_proxy_protocol := polardb_proxy_protocol_from_int v |> |>) config
      | Key_MONITOR_LSN_UPDATES =>
          store_bool (polardb_parse_profile_bool value)
            (fun b c => c <| gc_monitor_lsn_updates := b |>) config
      | Key_SPLIT_WARMUP =>
          store_bool (polardb_parse_profile_bool value)
            (fun b c => c <| gc_split_warmup := b |>) config
      end
  end.

Definition polardb_global_policy_error (config : PolarDB_ParsedGlobalConfigValue) : cstr :=
  let mode := polardb_consistency_from_int (gc_consistency_mode config) in
  match polardb_consistency_policy_error mode
          (polardb_missing_lsn_action_from_int (gc_missing_lsn_action config))
          (polardb_lsn_wait_timeout_action_from_int (gc_lsn_wait_timeout_action config)) with
  | Some error => Some error
  | None =>
      let profile := polardb_profile_from_int (gc_profile config) in
      if polardb_profile_is_named profile &&
         negb (polardb_config_matches_profile config profile)
      then Some "a named PolarDB profile must match its complete policy bundle"
      else None
  end.

Definition polardb_same_startup_config_inputs (lhs rhs : PolarDB_StartupConfigValue) : bool :=
  (scfg_proxy_protocol lhs == scfg_proxy_protocol rhs) &&
  (scfg_identity_mode lhs == scfg_identity_mode rhs) &&
  (si_host (scfg_configured_identity lhs) == si_host (scfg_configured_identity rhs)) &&
  (si_port (scfg_configured_identity lhs) =? si_port (scfg_configured_identity rhs)).

(** ** Well-formed configurations *)

(** [v] encodes a value that administrators may write for setting [A]. *)
Definition encodes (A : Type) `{SettingCodec A} (v : Z) : Prop :=
  exists a : A, codec_public a = true /\ v = codec_to_int a.

Record config_wf (c : PolarDB_ParsedGlobalConfigValue) : Prop := {
  wf_profile : exists p, gc_profile c = profile_to_int p;
  wf_consistency : encodes PolarDB_ConsistencyMode (gc_consistency_mode c);
  wf_read_target : encodes PolarDB_ReadTarget (gc_read_target c);
  wf_fallback : encodes PolarDB_ReadFallbackAction (gc_read_fallback_action c);
  wf_missing : encodes PolarDB_MissingLsnAction (gc_missing_lsn_action c);
  wf_timeout : encodes PolarDB_LsnWaitTimeoutAction (gc_lsn_wait_timeout_action c);
  wf_loss : encodes PolarDB_ReplicaLossAction (gc_replica_loss_action c);
  wf_error : encodes PolarDB_ReplicaErrorAction (gc_replica_error_action c)
}.

Lemma encodes_parsed (A : Type) `{SettingCodec A} v :
  0 <= codec_parse v (-1) -> encodes A (codec_parse v (-1)).
Proof. intros (a & Ha & E)%codec_parse_accepted. by exists a. Qed.

#[export] Hint Resolve encodes_parsed : polar.

Lemma default_config_wf : config_wf default_global_config.
Proof.
  constructor; cbn.
  - by exists Profile_SESSION_FALLBACK.
  - by exists Mode_SESSION_LSN.
  - by exists ReadTarget_REPLICA.
  - by exists Fallback_PRIMARY.
  - by exists MissingLsn_PRIMARY.
  - by exists LsnTimeout_PRIMARY.
  - by exists ReplicaLoss_REPLICA_THEN_PRIMARY.
  - by exists ReplicaError_PRIMARY.
Qed.

Lemma profile_from_string_range v d :
  polardb_profile_from_string v d = d \/
  exists p, polardb_profile_from_string v d = profile_to_int p.
Proof.
  unfold polardb_profile_from_string. repeat case_if; eauto.
  case_match; eauto.
Qed.

Lemma profile_from_to p : polardb_profile_from_int (profile_to_int p) = p.
Proof. by destruct p. Qed.

Lemma apply_profile_public p d : polardb_profile_definition p = Some d ->
  pd_profile d = p /\ pd_consistency d <> Mode_PRIMARY_ONLY.
Proof. destruct p; cbn; intros [= <-]; done. Qed.

Lemma apply_profile_wf p c : config_wf c -> config_wf (fst (polardb_apply_profile p c)).
Proof.
  intros []. unfold polardb_apply_profile.
  destruct (polardb_profile_definition p) as [d|] eqn:Hd; [|by constructor].
  destruct (apply_profile_public _ _ Hd) as [_ Hm].
  destruct c; constructor; cbn; try (by eexists; split).
  exists (pd_consistency d). split; [|done]. cbn. apply negb_true_iff. by apply beq_false.
Qed.

Lemma update_profile_key_wf c v : config_wf c -> config_wf (fst (update_profile_key c v)).
Proof.
  intros Hwf. unfold update_profile_key. case_if; [done|].
  case_if; [|pose proof (apply_profile_wf (polardb_profile_from_int
    (polardb_profile_from_string v (-1))) c Hwf); by case_match; case_match].
  destruct (profile_from_string_range v (-1)) as [E1|[p E1]]; bool_to_prop; [lia|].
  destruct Hwf, c. constructor; cbn in *; try done. by exists p.
Qed.

Lemma store_parsed_wf c v f :
  config_wf c -> (0 <= v -> config_wf (f c)) -> config_wf (fst (store_parsed v f c)).
Proof. intros Hc Hf. unfold store_parsed. case_if; bool_to_prop; cbn; auto. Qed.

Ltac update_field_wf :=
  apply store_parsed_wf; [done|]; intros;
  match goal with H : config_wf _ |- _ => destruct H end;
  match goal with c : PolarDB_ParsedGlobalConfigValue |- _ => destruct c end;
  constructor; cbn in *; try done; by apply encodes_parsed.

(** ** Theorems *)

(** Applying any named profile yields a configuration the policy check
    accepts: the profile is found, the resulting bundle matches it, no policy
    error is reported and the LSN source rule holds for it, while the settings a
    profile does not own (wait timeout, warmup bound, startup generation and
    identity) keep their values. *)
Theorem named_profile_applies_cleanly p c :
  polardb_profile_is_named p = true ->
  let r := polardb_apply_profile p c in
  snd r = true /\
  polardb_config_matches_profile (fst r) p = true /\
  polardb_global_policy_error (fst r) = None /\
  polardb_hostgroup_lsn_source_error
    (polardb_consistency_from_int (gc_consistency_mode (fst r)))
    (scfg_proxy_protocol (gc_startup (fst r))) = None /\
  gc_lsn_wait_timeout_ms (fst r) = gc_lsn_wait_timeout_ms c /\
  gc_split_warmup_max_connections_per_request (fst r) =
    gc_split_warmup_max_connections_per_request c /\
  scfg_generation (gc_startup (fst r)) = scfg_generation (gc_startup c) /\
  scfg_identity_mode (gc_startup (fst r)) = scfg_identity_mode (gc_startup c) /\
  scfg_configured_identity (gc_startup (fst r)) = scfg_configured_identity (gc_startup c).
Proof.
  destruct p; try done; intros _; destruct c as [????????????[]]; cbn; split_and!; reflexivity.
Qed.

Lemma named_profile_applies_cleanly_witness :
  polardb_global_policy_error
    (fst (polardb_apply_profile Profile_GLOBAL_ERROR default_global_config)) = None.
Proof.
  exact (proj1 (proj2 (proj2
    (named_profile_applies_cleanly Profile_GLOBAL_ERROR default_global_config eq_refl)))).
Defined.

(** Every administrative update keeps the configuration well formed, on
    every setting name and every value text: each stored integer still encodes a
    value of its setting.  A refused or unknown update changes nothing at all. *)
Theorem update_setting_preserves_wf c name value :
  config_wf c ->
  let r := polardb_update_profile_setting c name value in
  config_wf (fst r) /\ (snd r <> Setting_UPDATED -> fst r = c).
Proof.
  intros Hwf. cbn zeta. split.
  - unfold polardb_update_profile_setting.
    destruct (polardb_find_profile_setting name) as [st|]; [|done].
    destruct (psd_key st).
    + by apply update_profile_key_wf.
    + apply store_parsed_wf; [done|]; intros; destruct Hwf, c;
        constructor; cbn in *; try done; by apply encodes_parsed.
    + update_field_wf.
    + update_field_wf.
    + update_field_wf.
    + update_field_wf.
    + update_field_wf.
    + update_field_wf.
    + apply store_parsed_wf; [done|]; intros. destruct Hwf, c. by constructor.
    + unfold store_bool. case_match; [|done]. destruct Hwf, c. by constructor.
    + unfold store_bool. case_match; [|done]. destruct Hwf, c. by constructor.
  - unfold polardb_update_profile_setting, store_parsed, store_bool, update_profile_key.
    destruct (polardb_find_profile_setting name) as [st|]; [|done].
    destruct (psd_key st); repeat case_match; try done.
    match goal with H : polardb_apply_profile _ _ = (_, false) |- _ =>
      unfold polardb_apply_profile in H; case_match; by simplify_eq end.
Qed.

Lemma update_setting_preserves_wf_witness :
  fst (polardb_update_profile_setting default_global_config
         (Some "polardb_action_lsn_timeout") (Some "sometimes")) = default_global_config.
Proof.
  refine (proj2 (update_setting_preserves_wf default_global_config
    (Some "polardb_action_lsn_timeout") (Some "sometimes") _) _).
  - apply default_config_wf.
  - vm_compute. discriminate.
Defined.

(** A configuration that names a profile and passes the policy check is
    exactly that profile's bundle: re-applying the profile changes nothing, so
    no individual setting can drift under a named profile. *)
Theorem accepted_named_config_is_the_bundle c :
  config_wf c ->
  polardb_global_policy_error c = None ->
  polardb_profile_from_int (gc_profile c) <> Profile_CUSTOM ->
  polardb_apply_profile (polardb_profile_from_int (gc_profile c)) c = (c, true).
Proof.
  intros [[p Hp] _ _ _ _ _ _ _] Herr Hn. rewrite Hp, profile_from_to in *.
  unfold polardb_global_policy_error in Herr. case_match; [done|].
  rewrite Hp, profile_from_to in Herr.
  assert (Hm : polardb_config_matches_profile c p = true).
  { destruct (polardb_config_matches_profile c p); [done|].
    unfold polardb_profile_is_named in Herr. destruct (p == Profile_CUSTOM) eqn:Ep; [|done].
    exfalso. apply Hn. by apply beq_true. }
  unfold polardb_config_matches_profile in Hm. unfold polardb_apply_profile in *.
  destruct (polardb_profile_definition p) as [d|]; [|done].
  cbn [andb] in Hm. unfold polardb_same_profile_owned_settings in Hm.
  destruct c as [????????????[]]; cbn in *. bool_to_prop.
  repeat match goal with H : Bool.eqb _ _ = true |- _ => apply eqb_prop in H end.
  by subst.
Qed.

Lemma accepted_named_config_is_the_bundle_witness :
  polardb_apply_profile Profile_SESSION_FALLBACK default_global_config =
    (default_global_config, true).
Proof.
  refine (accepted_named_config_is_the_bundle default_global_config _ _ _).
  - apply default_config_wf.
  - vm_compute. reflexivity.
  - vm_compute. discriminate.
Defined.
