(* ===== verification/Session.v ===== *)
(** * Session-scoped consistency state

    The value types of include/PgSQL_PolarDB.h that a session carries: the
    writer scope, the session LSN positions, the client ReadyForQuery decision,
    the transaction-split state machine, the wait payloads and the per-query
    state with its different resets. *)

From S2P Require Import Prelude Policy.
From Stdlib Require Import ZArith Ascii String List Bool Lia.
From stdpp Require Import base tactics list gmap strings.

Open Scope Z_scope.
Open Scope polar_scope.

(** ** Writer scope *)

Record PolarDB_WriterScope := mkScope { ws_hg : Z; ws_epoch : Z }.

#[global] Instance WriterScope_eq_dec : EqDecision PolarDB_WriterScope.
Proof. solve_decision. Defined.

Definition no_scope : PolarDB_WriterScope := mkScope (-1) 0.

Definition scope_valid (s : PolarDB_WriterScope) : bool := 0 <=? ws_hg s.

Definition scope_matches (s current : PolarDB_WriterScope) : bool :=
  scope_valid s && scope_valid current && (ws_hg s =? ws_hg current) &&
  (ws_epoch s =? ws_epoch current).

Definition polardb_backend_is_writer_hostgroup (is_polardb_hostgroup : bool)
    (backend_hostgroup writer_hostgroup : Z) : bool :=
  is_polardb_hostgroup && (0 <=? backend_hostgroup) && (0 <=? writer_hostgroup) &&
  (backend_hostgroup =? writer_hostgroup).

(** ** Session LSN positions *)

Record PolarDB_SessionConsistency := mkConsistency {
  sc_write_lsn : Z;
  sc_observed_lsn : Z;
  sc_write_unknown : bool;
  sc_observed_unknown : bool;
  sc_writer_scope : PolarDB_WriterScope
}.

#[global] Instance upd_sc_write_lsn : Update sc_write_lsn.
Proof. derive_update. Defined.
#[global] Instance upd_sc_observed_lsn : Update sc_observed_lsn.
Proof. derive_update. Defined.
#[global] Instance upd_sc_write_unknown : Update sc_write_unknown.
Proof. derive_update. Defined.
#[global] Instance upd_sc_observed_unknown : Update sc_observed_unknown.
Proof. derive_update. Defined.
#[global] Instance upd_sc_writer_scope : Update sc_writer_scope.
Proof. derive_update. Defined.

Definition empty_consistency : PolarDB_SessionConsistency :=
  mkConsistency 0 0 false false no_scope.

Definition has_lsn_state (s : PolarDB_SessionConsistency) : bool :=
  negb (sc_write_lsn s =? 0) || negb (sc_observed_lsn s =? 0) ||
  sc_write_unknown s || sc_observed_unknown s.

Definition target (s : PolarDB_SessionConsistency) : Z :=
  if sc_observed_lsn s <? sc_write_lsn s then sc_write_lsn s else sc_observed_lsn s.

(** The value and the [group_lsn_unknown] out-parameter. *)
Definition polardb_target_with_global_lsn (local_target_lsn group_lsn : Z) : Z * bool :=
  if group_lsn =? 0 then (0, true)
  else ((if group_lsn <? local_target_lsn then local_target_lsn else group_lsn), false).

Definition target_with_global_lsn (s : PolarDB_SessionConsistency) (group_lsn : Z) : Z * bool :=
  polardb_target_with_global_lsn (target s) group_lsn.

Definition reset_lsn_state (s : PolarDB_SessionConsistency) : PolarDB_SessionConsistency :=
  mkConsistency 0 0 false false (sc_writer_scope s).

(** ** Client ReadyForQuery *)

Record PolarDB_ClientRfqDecision := mkRfqDecision {
  crd_include_lsn : bool;
  crd_lsn : Z;
  crd_raised_to_target : bool;
  crd_raised_by_writer : bool;
  crd_raised_by_wait : bool
}.

Definition polardb_client_rfq_decision (client_requested_lsn backend_payload_present : bool)
    (backend_lsn session_target : Z) (session_lsn_is_baseline response_from_writer : bool)
    (confirmed_read_target completed_wait_target : Z) : PolarDB_ClientRfqDecision :=
  if negb client_requested_lsn || negb backend_payload_present
  then mkRfqDecision false 0 false false false
  else
    let lsn :=
      if session_lsn_is_baseline && response_from_writer && (0 <? session_target)
      then session_target else backend_lsn in
    let required_target := 0 in
    let required_target :=
      if response_from_writer && (required_target <? session_target)
      then session_target else required_target in
    let required_target :=
      if required_target <? confirmed_read_target
      then confirmed_read_target else required_target in
    let lsn := if lsn <? required_target then required_target else lsn in
    if backend_lsn <? lsn
    then mkRfqDecision true lsn true
           (response_from_writer && (session_target =? lsn))
           ((0 <? completed_wait_target) && (completed_wait_target =? required_target))
    else mkRfqDecision true lsn false false false.

(** [transaction_xids] is a possibly null C string. *)
Definition polardb_rfq_is_prewrite_split_candidate (transaction_status : ascii)
    (transaction_xids : cstr) (splittable wal_pending : bool) : bool :=
  Ascii.eqb transaction_status "T" && splittable && negb wal_pending &&
  match transaction_xids with Some s => s == EmptyString | None => false end.

(** ** Transaction-split state machine *)

Inductive PolarDB_TransactionSplitStage :=
| Stage_NONE | Stage_TXN_ON_PRIMARY | Stage_TXN_SPLITTABLE | Stage_TXN_SPLIT_READ_ACTIVE.

#[global] Instance TransactionSplitStage_eq_dec : EqDecision PolarDB_TransactionSplitStage.
Proof. solve_decision. Defined.

(** The split snapshot of a routing decision copies every field of this record
    (its XID list by reference), so one type serves both. *)
Record PolarDB_TransactionSplitState := mkSplit {
  ts_stage : PolarDB_TransactionSplitStage;
  ts_xids : string;
  ts_primary_lsn : Z;
  ts_splittable : bool;
  ts_wal_pending : bool;
  ts_failed : bool;
  ts_blocked : bool;
  ts_was_splittable : bool;
  ts_did_split : bool
}.

#[global] Instance upd_ts_stage : Update ts_stage.
Proof. derive_update. Defined.
#[global] Instance upd_ts_blocked : Update ts_blocked.
Proof. derive_update. Defined.
#[global] Instance upd_ts_was_splittable : Update ts_was_splittable.
Proof. derive_update. Defined.
#[global] Instance upd_ts_did_split : Update ts_did_split.
Proof. derive_update. Defined.

Definition split_reset : PolarDB_TransactionSplitState :=
  mkSplit Stage_NONE "" 0 false false false false false false.

Definition split_active (t : PolarDB_TransactionSplitState) : bool :=
  ts_stage t != Stage_NONE.

Definition has_backend_evidence (t : PolarDB_TransactionSplitState) : bool :=
  (ts_xids t != EmptyString) || negb (ts_primary_lsn t =? 0) || ts_splittable t ||
  ts_wal_pending t.

Definition begin_split_read (t : PolarDB_TransactionSplitState) : PolarDB_TransactionSplitState :=
  t <| ts_stage := Stage_TXN_SPLIT_READ_ACTIVE |> <| ts_blocked := false |>
    <| ts_was_splittable := true |>.

Definition complete_split_read (t : PolarDB_TransactionSplitState)
  : PolarDB_TransactionSplitState :=
  t <| ts_stage := Stage_TXN_SPLITTABLE |> <| ts_was_splittable := true |>
    <| ts_did_split := true |>.

Definition fail_split_read (t : PolarDB_TransactionSplitState) : PolarDB_TransactionSplitState :=
  t <| ts_stage := Stage_TXN_ON_PRIMARY |> <| ts_blocked := true |>.

Definition observe_primary_rfq (transaction_status : ascii) (rfq_xids : cstr)
    (rfq_splittable rfq_wal_pending : bool) (rfq_primary_lsn : Z) (split_enabled : bool)
    (t : PolarDB_TransactionSplitState) : PolarDB_TransactionSplitState :=
  let is_T := Ascii.eqb transaction_status "T" in
  let is_E := Ascii.eqb transaction_status "E" in
  if negb split_enabled then split_reset
  else if Ascii.eqb transaction_status "I" then split_reset
  else if negb is_T && negb is_E then t
  else
    let stage := if ts_stage t == Stage_NONE then Stage_TXN_ON_PRIMARY else ts_stage t in
    let primary_lsn :=
      if ts_primary_lsn t <? rfq_primary_lsn then rfq_primary_lsn else ts_primary_lsn t in
    let xids := match rfq_xids with Some x => x | None => ts_xids t end in
    let splittable := if is_E then false else rfq_splittable in
    let failed := is_E in
    if ts_blocked t || is_E
    then mkSplit Stage_TXN_ON_PRIMARY xids primary_lsn splittable rfq_wal_pending failed
           (ts_blocked t) (ts_was_splittable t) (ts_did_split t)
    else if splittable && negb rfq_wal_pending && (xids != EmptyString)
    then mkSplit Stage_TXN_SPLITTABLE xids primary_lsn splittable rfq_wal_pending failed
           (ts_blocked t) true (ts_did_split t)
    else
      let stage := if stage == Stage_TXN_SPLITTABLE then Stage_TXN_ON_PRIMARY else stage in
      mkSplit stage xids primary_lsn splittable rfq_wal_pending failed
        (ts_blocked t) (ts_was_splittable t) (ts_did_split t).

Definition polardb_transaction_split_snapshot (t : PolarDB_TransactionSplitState)
  : PolarDB_TransactionSplitState :=
  mkSplit (ts_stage t) (ts_xids t) (ts_primary_lsn t) (ts_splittable t) (ts_wal_pending t)
    (ts_failed t) (ts_blocked t) (ts_was_splittable t) (ts_did_split t).

(** ** Wait payloads *)

Record PolarDB_WaitSpec := mkWaitSpec {
  wsp_type : PolarDB_WaitType;
  wsp_target : Z;
  wsp_timeout_ms : Z;
  wsp_mode : PolarDB_WaitMode
}.

#[global] Instance WaitSpec_eq_dec : EqDecision PolarDB_WaitSpec.
Proof. solve_decision. Defined.

Definition no_wait : PolarDB_WaitSpec :=
  mkWaitSpec WaitType_NONE 0 POLARDB_DEFAULT_WAIT_TIMEOUT_MS WaitMode_BEST_EFFORT.

Definition has_wait (w : PolarDB_WaitSpec) : bool := wsp_type w != WaitType_NONE.

Definition from_lsn (lsn timeout_ms : Z) (mode : PolarDB_WaitMode) : PolarDB_WaitSpec :=
  if 0 <? lsn then mkWaitSpec WaitType_LSN lsn timeout_ms mode
  else mkWaitSpec WaitType_NONE 0 timeout_ms mode.

Inductive PolarDB_Query_ConsistencyRouteHint := RouteHint_NONE | RouteHint_REPLICA.

Record PolarDB_Query_WaitPlan := mkWaitPlan {
  wp_spec : PolarDB_WaitSpec;
  wp_route_hint : PolarDB_Query_ConsistencyRouteHint
}.

Definition build_consistency (mode : PolarDB_ConsistencyMode) (session_lsn wait_timeout_ms : Z)
    (wait_mode : PolarDB_WaitMode) (prefer_replica : bool) : PolarDB_Query_WaitPlan :=
  let hint := if prefer_replica then RouteHint_REPLICA else RouteHint_NONE in
  match mode with
  | Mode_SESSION_LSN | Mode_GLOBAL_LSN =>
      mkWaitPlan (from_lsn session_lsn wait_timeout_ms wait_mode) hint
  | Mode_OFF | Mode_EVENTUAL | Mode_PRIMARY_ONLY =>
      mkWaitPlan (mkWaitSpec WaitType_NONE 0 wait_timeout_ms wait_mode) hint
  end.

Inductive PolarDB_WaitStage := WaitStage_IDLE | WaitStage_WAITING.

#[global] Instance WaitStage_eq_dec : EqDecision PolarDB_WaitStage.
Proof. solve_decision. Defined.

Record PolarDB_Query_WaitState := mkWaitState {
  wst_spec : PolarDB_WaitSpec;
  wst_wait_stage : PolarDB_WaitStage;
  wst_wrapper_stmts : Z;
  wst_wait_started_at_us : Z;
  wst_wrapper_finalized : bool;
  wst_timeout_error : bool;
  wst_fallback_writer_hg : Z
}.

Definition idle_wait : PolarDB_Query_WaitState :=
  mkWaitState no_wait WaitStage_IDLE 0 0 false false (-1).

Definition prepare_from_spec (wait_spec : PolarDB_WaitSpec) : PolarDB_Query_WaitState :=
  mkWaitState wait_spec WaitStage_IDLE 0 0 false false (-1).

(** ** Wrapper error accounting *)

Record PolarDB_WrapperErrorAccounting := mkAccounting {
  wea_mark_wrapper_failed : bool;
  wea_mark_timeout_error : bool;
  wea_account_wait_timeout : bool
}.

Definition polardb_wrapper_error_accounting
    (query_was_wrapped wait_active lsn_timeout consuming_wrapper_set : bool)
  : PolarDB_WrapperErrorAccounting :=
  if negb query_was_wrapped then mkAccounting false false false
  else mkAccounting consuming_wrapper_set lsn_timeout (lsn_timeout && wait_active).

Definition polardb_should_handle_wait_timeout_result
    (query_result wait_active timeout_error wrapper_finalized consistency_wait
     result_started : bool) : bool :=
  query_result && wait_active && timeout_error && wrapper_finalized && consistency_wait &&
  negb result_started.

Definition polardb_extended_wait_retry_packet_ready
    (extended_query wait_required retry_packet_present : bool) : bool :=
  extended_query && wait_required && retry_packet_present.

(** ** Theorems *)

Lemma target_is_max s : target s = Z.max (sc_write_lsn s) (sc_observed_lsn s).
Proof. unfold target. case_if; bool_to_prop; lia. Qed.

Lemma global_target_spec local group :
  polardb_target_with_global_lsn local group =
    if bool_decide (group = 0) then (0, true) else (Z.max local group, false).
Proof.
  unfold polardb_target_with_global_lsn.
  repeat case_if; repeat case_bool_decide; bool_to_prop; try lia; f_equal; lia.
Qed.

(** The LSN put into a client's ReadyForQuery is present exactly when the
    client asked for it and the backend supplied a payload.  It is never below
    the confirmed read target, on a writer response never below the session
    target, and never below the backend's own position unless the response
    ends a read-only writer transaction that keeps the session baseline.  It is
    never fabricated: it is the backend's LSN, the session target of a writer
    response or the confirmed read target; and "raised" is reported exactly
    when it exceeds the backend's position. *)
Theorem client_rfq_lsn_sound asked payload backend session baseline from_writer confirmed waited :
  let d := polardb_client_rfq_decision asked payload backend session baseline from_writer
             confirmed waited in
  crd_include_lsn d = asked && payload /\
  (crd_include_lsn d = true ->
    (0 < confirmed -> confirmed <= crd_lsn d) /\
    (from_writer = true -> 0 < session -> session <= crd_lsn d) /\
    (baseline && from_writer && (0 <? session) = false -> backend <= crd_lsn d) /\
    (0 <= backend -> crd_lsn d = backend \/ (crd_lsn d = session /\ from_writer = true) \/
       crd_lsn d = confirmed) /\
    (crd_raised_to_target d = true <-> backend < crd_lsn d)) /\
  (crd_include_lsn d = false -> crd_lsn d = 0).
Proof.
  cbn zeta. unfold polardb_client_rfq_decision.
  destruct asked, payload; cbn [andb orb negb]; try by cbn.
  split; [by repeat case_if|]. split; [|by repeat case_if].
  intros _. destruct from_writer, baseline; cbn [andb orb negb];
    repeat case_if; cbn; bool_to_prop; try lia.
Qed.
