(* ===== verification/Query.v ===== *)
(** * Per-query routing state

    The values that the collect, plan and execute stages of
    lib/PgSQL_PolarDB_Flow.cpp exchange, from include/PgSQL_PolarDB.h: the
    reader plan, the routing context, the route plan with its factories, the
    transaction-split gate, the per-query state with its resets and the
    deferred extended-protocol evidence. *)

From S2P Require Import Prelude Policy Config Session.
From Stdlib Require Import ZArith Ascii String List Bool Lia.
From stdpp Require Import base tactics list gmap strings.

Open Scope Z_scope.
Open Scope polar_scope.

(** ** Reader plan *)

Record PolarDB_Query_ReaderPlan := mkReaderPlan {
  rd_group_lsn : Z;
  rd_max_lag_bytes : Z;
  rd_fallback_writer_hg : Z;
  rd_missing_lsn_action : Z;
  rd_lsn_wait_timeout_action : Z;
  rd_read_target : Z;
  rd_read_fallback_action : Z;
  rd_replica_loss_action : Z;
  rd_replica_error_action : Z;
  rd_consistency_mode : PolarDB_ConsistencyMode;
  rd_allow_reader_without_target : bool;
  rd_require_replica : bool
}.

#[global] Instance ReaderPlan_eq_dec : EqDecision PolarDB_Query_ReaderPlan.
Proof. solve_decision. Defined.

#[global] Instance upd_rd_group_lsn : Update rd_group_lsn.
Proof. derive_update. Defined.
#[global] Instance upd_rd_max_lag_bytes : Update rd_max_lag_bytes.
Proof. derive_update. Defined.
#[global] Instance upd_rd_fallback_writer_hg : Update rd_fallback_writer_hg.
Proof. derive_update. Defined.
#[global] Instance upd_rd_lsn_wait_timeout_action : Update rd_lsn_wait_timeout_action.
Proof. derive_update. Defined.
#[global] Instance upd_rd_consistency_mode : Update rd_consistency_mode.
Proof. derive_update. Defined.
#[global] Instance upd_rd_allow_reader_without_target : Update rd_allow_reader_without_target.
Proof. derive_update. Defined.
#[global] Instance upd_rd_require_replica : Update rd_require_replica.
Proof. derive_update. Defined.

Definition empty_reader_plan : PolarDB_Query_ReaderPlan :=
  mkReaderPlan 0 (-1) (-1)
    (missing_lsn_to_int MissingLsn_PRIMARY) (lsn_timeout_to_int LsnTimeout_PRIMARY)
    (read_target_to_int ReadTarget_PRIMARY) (fallback_to_int Fallback_PRIMARY)
    (replica_loss_to_int ReplicaLoss_REPLICA_THEN_PRIMARY)
    (replica_error_to_int ReplicaError_PRIMARY)
    Mode_OFF true false.

Definition lag_cap_enabled (r : PolarDB_Query_ReaderPlan) : bool := 0 <? rd_max_lag_bytes r.

(** The subtraction is the unsigned 64-bit one of the source. *)
Definition within_byte_cap (r : PolarDB_Query_ReaderPlan) (replica_lsn : Z) : bool :=
  if rd_max_lag_bytes r <=? 0 then true
  else if (rd_group_lsn r =? 0) || (replica_lsn =? 0) then false
  else if rd_group_lsn r <=? replica_lsn then true
  else wrap64 (rd_group_lsn r - replica_lsn) <=? rd_max_lag_bytes r.

(** ** Routing context *)

Record PolarDB_Query_RouteCtx := mkRouteCtx {
  rc_writer_scope : PolarDB_WriterScope;
  rc_session : PolarDB_SessionConsistency;
  rc_transaction_split : PolarDB_TransactionSplitState;
  rc_wait_timeout_ms : Z;
  rc_reader_hg : Z;
  rc_effective_consistency_mode : Z;
  rc_read_target : Z;
  rc_read_fallback_action : Z;
  rc_lsn_wait_timeout_action : Z;
  rc_missing_lsn_action : Z;
  rc_replica_loss_action : Z;
  rc_replica_error_action : Z;
  rc_max_lag_bytes : Z;
  rc_is_polar_hg : bool;
  rc_replica_eligible : bool;
  rc_is_multi_statement : bool;
  rc_is_extended_protocol : bool;
  rc_in_transaction : bool;
  rc_txn_split_enabled : bool;
  rc_is_txn_split_safe_read : bool;
  rc_is_txn_split_locking_read : bool;
  rc_txn_reader_wait_isolation_read_committed : bool;
  rc_txn_reader_wait_local_state_clean : bool;
  rc_force_primary_hint : bool;
  rc_txn_force_writer_after_reader_failure : bool;
  rc_txn_writer_hg : Z
}.

(** ** Route plan *)

Inductive RouteAction :=
| PASSTHROUGH | REPLICA_WITH_WAIT | FORCE_PRIMARY | REPLICA_TXN_SPLIT | RETURN_ERROR.

Inductive RouteActionReason :=
| RAR_NONE | EXTENDED_PROTOCOL | IN_TRANSACTION | MULTI_STATEMENT | READ_TARGET_PRIMARY
| HINT_PRIMARY | WRITE_LSN_UNKNOWN | OBSERVED_LSN_UNKNOWN | GROUP_LSN_UNKNOWN
| INVALID_POLICY | READER_RFQ_UNAVAILABLE | READ_FALLBACK_ERROR
| READER_FAILURE_FORCE_WRITER | WAL_PENDING | SPLIT_BLOCKED | SPLIT_NOT_SELECT
| SPLIT_LOCKING_READ | SPLIT_WRITE_LSN_UNKNOWN | SPLIT_OBSERVED_LSN_UNKNOWN | NO_TXN_LSN
| INVARIANT_VIOLATION | HG_SPLIT_DISABLED.

#[global] Instance RouteAction_eq_dec : EqDecision RouteAction.
Proof. solve_decision. Defined.
#[global] Instance RouteActionReason_eq_dec : EqDecision RouteActionReason.
Proof. solve_decision. Defined.

Definition polardb_route_action_reason_name (reason : RouteActionReason) : string :=
  match reason with
  | RAR_NONE => "none"
  | EXTENDED_PROTOCOL => "extended_protocol"
  | IN_TRANSACTION => "in_transaction"
  | MULTI_STATEMENT => "multi_statement"
  | READ_TARGET_PRIMARY => "read_target_primary"
  | HINT_PRIMARY => "hint_primary"
  | WRITE_LSN_UNKNOWN => "write_lsn_unknown"
  | OBSERVED_LSN_UNKNOWN => "observed_lsn_unknown"
  | GROUP_LSN_UNKNOWN => "group_lsn_unknown"
  | INVALID_POLICY => "invalid_policy"
  | READER_RFQ_UNAVAILABLE => "reader_rfq_unavailable"
  | READ_FALLBACK_ERROR => "read_fallback_error"
  | READER_FAILURE_FORCE_WRITER => "reader_failure_force_writer"
  | WAL_PENDING => "wal_pending"
  | SPLIT_BLOCKED => "split_blocked"
  | SPLIT_NOT_SELECT => "split_not_select"
  | SPLIT_LOCKING_READ => "split_locking_read"
  | SPLIT_WRITE_LSN_UNKNOWN => "split_write_lsn_unknown"
  | SPLIT_OBSERVED_LSN_UNKNOWN => "split_observed_lsn_unknown"
  | NO_TXN_LSN => "no_txn_lsn"
  | INVARIANT_VIOLATION => "invariant_violation"
  | HG_SPLIT_DISABLED => "hg_split_disabled"
  end.

Record PolarDB_Query_RoutePlan := mkPlan {
  pl_wait_spec : PolarDB_WaitSpec;
  pl_reader : PolarDB_Query_ReaderPlan;
  pl_txn_xids : string;
  pl_target_hg : Z;
  pl_action : RouteAction;
  pl_action_reason : RouteActionReason;
  pl_split_reason : RouteActionReason;
  pl_degraded_rfq_route : bool;
  pl_txn_wait_read : bool;
  pl_split_checked : bool
}.

#[global] Instance upd_pl_wait_spec : Update pl_wait_spec.
Proof. derive_update. Defined.
#[global] Instance upd_pl_reader : Update pl_reader.
Proof. derive_update. Defined.
#[global] Instance upd_pl_txn_xids : Update pl_txn_xids.
Proof. derive_update. Defined.
#[global] Instance upd_pl_target_hg : Update pl_target_hg.
Proof. derive_update. Defined.
#[global] Instance upd_pl_action : Update pl_action.
Proof. derive_update. Defined.
#[global] Instance upd_pl_action_reason : Update pl_action_reason.
Proof. derive_update. Defined.
#[global] Instance upd_pl_split_reason : Update pl_split_reason.
Proof. derive_update. Defined.
#[global] Instance upd_pl_degraded_rfq_route : Update pl_degraded_rfq_route.
Proof. derive_update. Defined.
#[global] Instance upd_pl_txn_wait_read : Update pl_txn_wait_read.
Proof. derive_update. Defined.
#[global] Instance upd_pl_split_checked : Update pl_split_checked.
Proof. derive_update. Defined.

Definition empty_plan : PolarDB_Query_RoutePlan :=
  mkPlan no_wait empty_reader_plan "" (-1) PASSTHROUGH RAR_NONE RAR_NONE false false false.

Definition force_primary (writer_hg : Z) (reason : RouteActionReason)
  : PolarDB_Query_RoutePlan :=
  empty_plan <| pl_action := FORCE_PRIMARY |> <| pl_target_hg := writer_hg |>
    <| pl_action_reason := reason |>.

Definition replica_txn_split (reader_hg writer_hg : Z) (wait_spec : PolarDB_WaitSpec)
    (txn_xids : string) : PolarDB_Query_RoutePlan :=
  empty_plan <| pl_action := REPLICA_TXN_SPLIT |> <| pl_target_hg := reader_hg |>
    <| pl_wait_spec := wait_spec |> <| pl_txn_xids := txn_xids |>
    <| pl_reader := empty_reader_plan <| rd_fallback_writer_hg := writer_hg |>
                      <| rd_require_replica := true |> |>.

Definition missing_lsn (reason : RouteActionReason)
    (missing_lsn_action read_fallback_action writer_hg reader_hg : Z)
    (allow_reader_without_target : bool) : PolarDB_Query_RoutePlan :=
  let plan := empty_plan <| pl_action_reason := reason |> in
  let action := polardb_missing_lsn_action_from_int missing_lsn_action in
  if action == MissingLsn_ERROR then plan <| pl_action := RETURN_ERROR |>
  else if (action == MissingLsn_WARNING) && allow_reader_without_target
  then plan <| pl_action := PASSTHROUGH |> <| pl_target_hg := reader_hg |>
         <| pl_degraded_rfq_route := true |>
  else if (action == MissingLsn_PRIMARY) ||
          (polardb_read_fallback_action_from_int read_fallback_action == Fallback_PRIMARY)
  then plan <| pl_action := FORCE_PRIMARY |> <| pl_target_hg := writer_hg |>
  else plan <| pl_action := RETURN_ERROR |>.

(** ** Transaction-split gate and primary-required shapes *)

Definition wal_pending_replica_confirmed (t : PolarDB_TransactionSplitState)
    (max_replica_replay_lsn : Z) : bool :=
  ts_wal_pending t &&
  ((ts_stage t == Stage_TXN_ON_PRIMARY) || (ts_stage t == Stage_TXN_SPLITTABLE)) &&
  negb (ts_failed t) && negb (ts_blocked t) && (ts_xids t != EmptyString) &&
  negb (ts_primary_lsn t =? 0) && (ts_primary_lsn t <=? max_replica_replay_lsn).

Definition polardb_txn_split_rejection_reason (txn_split_enabled : bool)
    (t : PolarDB_TransactionSplitState)
    (write_lsn_unknown observed_lsn_unknown is_multi_statement is_extended_protocol
     is_txn_split_safe_read is_txn_split_locking_read : bool)
    (max_replica_replay_lsn : Z) : RouteActionReason :=
  let confirmed := wal_pending_replica_confirmed t max_replica_replay_lsn in
  if negb txn_split_enabled then HG_SPLIT_DISABLED
  else if is_multi_statement then MULTI_STATEMENT
  else if is_extended_protocol then EXTENDED_PROTOCOL
  else if is_txn_split_locking_read then SPLIT_LOCKING_READ
  else if negb is_txn_split_safe_read then SPLIT_NOT_SELECT
  else if write_lsn_unknown then SPLIT_WRITE_LSN_UNKNOWN
  else if observed_lsn_unknown then SPLIT_OBSERVED_LSN_UNKNOWN
  else if ts_blocked t then SPLIT_BLOCKED
  else if ts_failed t then IN_TRANSACTION
  else if ts_wal_pending t && negb confirmed then WAL_PENDING
  else if (ts_stage t != Stage_TXN_SPLITTABLE) && negb confirmed then IN_TRANSACTION
  else if ts_xids t == EmptyString then INVARIANT_VIOLATION
  else if ts_primary_lsn t =? 0 then NO_TXN_LSN
  else RAR_NONE.

Definition polardb_writer_required_reason
    (in_transaction is_multi_statement is_locking_select : bool) : RouteActionReason :=
  if in_transaction then IN_TRANSACTION
  else if is_multi_statement then MULTI_STATEMENT
  else if is_locking_select then SPLIT_LOCKING_READ
  else RAR_NONE.

(** ** Per-query state *)

Inductive PolarDB_Query_WrapperKind :=
| Wrapper_NONE | Wrapper_CONSISTENCY_WAIT | Wrapper_TXN_SPLIT_WAIT
| Wrapper_TXN_SPLIT_XIDS_RESET | Wrapper_EXTENDED_WAIT.

#[global] Instance WrapperKind_eq_dec : EqDecision PolarDB_Query_WrapperKind.
Proof. solve_decision. Defined.

Record PolarDB_QueryState := mkQueryState {
  qs_request_writer_scope : PolarDB_WriterScope;
  qs_reader_plan : PolarDB_Query_ReaderPlan;
  qs_reader_wait_spec : PolarDB_WaitSpec;
  qs_wait : PolarDB_Query_WaitState;
  qs_original_query : string;
  qs_wrapped_query_buf : string;
  qs_effective_consistency_mode : Z;
  qs_reader_retry_attempts : Z;
  qs_dispatch_wrapper_stmts : Z;
  qs_profile_enabled : bool;
  qs_txn_split_enabled : bool;
  qs_backend_isolation_status_needed : bool;
  qs_keep_session_lsn : bool;
  qs_wait_bypass_target : Z;
  qs_dispatch_wrapper_kind : PolarDB_Query_WrapperKind
}.

#[global] Instance upd_qs_request_writer_scope : Update qs_request_writer_scope.
Proof. derive_update. Defined.
#[global] Instance upd_qs_reader_plan : Update qs_reader_plan.
Proof. derive_update. Defined.
#[global] Instance upd_qs_reader_wait_spec : Update qs_reader_wait_spec.
Proof. derive_update. Defined.
#[global] Instance upd_qs_wait : Update qs_wait.
Proof. derive_update. Defined.
#[global] Instance upd_qs_original_query : Update qs_original_query.
Proof. derive_update. Defined.
#[global] Instance upd_qs_wrapped_query_buf : Update qs_wrapped_query_buf.
Proof. derive_update. Defined.
#[global] Instance upd_qs_effective_consistency_mode : Update qs_effective_consistency_mode.
Proof. derive_update. Defined.
#[global] Instance upd_qs_reader_retry_attempts : Update qs_reader_retry_attempts.
Proof. derive_update. Defined.
#[global] Instance upd_qs_dispatch_wrapper_stmts : Update qs_dispatch_wrapper_stmts.
Proof. derive_update. Defined.
#[global] Instance upd_qs_profile_enabled : Update qs_profile_enabled.
Proof. derive_update. Defined.
#[global] Instance upd_qs_txn_split_enabled : Update qs_txn_split_enabled.
Proof. derive_update. Defined.
#[global] Instance upd_qs_backend_isolation_status_needed :
  Update qs_backend_isolation_status_needed.
Proof. derive_update. Defined.
#[global] Instance upd_qs_keep_session_lsn : Update qs_keep_session_lsn.
Proof. derive_update. Defined.
#[global] Instance upd_qs_wait_bypass_target : Update qs_wait_bypass_target.
Proof. derive_update. Defined.
#[global] Instance upd_qs_dispatch_wrapper_kind : Update qs_dispatch_wrapper_kind.
Proof. derive_update. Defined.

Definition empty_query : PolarDB_QueryState :=
  mkQueryState no_scope empty_reader_plan no_wait idle_wait "" "" (mode_to_int Mode_OFF) 0 0
    false false false false 0 Wrapper_NONE.

Definition data_path_enabled (q : PolarDB_QueryState) : bool :=
  qs_profile_enabled q &&
  (polardb_consistency_from_int (qs_effective_consistency_mode q) != Mode_OFF).

Definition reset_reader_plan (q : PolarDB_QueryState) : PolarDB_QueryState :=
  q <| qs_reader_plan := empty_reader_plan |> <| qs_reader_wait_spec := no_wait |>.

Definition reset_wait (q : PolarDB_QueryState) : PolarDB_QueryState :=
  q <| qs_wait := idle_wait |>.

Definition begin_wait (spec : PolarDB_WaitSpec) (started_at_us fallback_writer_hg : Z)
    (q : PolarDB_QueryState) : PolarDB_QueryState :=
  let w := prepare_from_spec spec in
  q <| qs_wait_bypass_target := 0 |>
    <| qs_wait := mkWaitState (wst_spec w) WaitStage_WAITING (wst_wrapper_stmts w)
                    started_at_us (wst_wrapper_finalized w) (wst_timeout_error w)
                    fallback_writer_hg |>.

Definition mark_wait_satisfied (tgt : Z) (q : PolarDB_QueryState) : PolarDB_QueryState :=
  reset_wait q <| qs_wait_bypass_target := tgt |>.

Definition clear_reader_route (q : PolarDB_QueryState) : PolarDB_QueryState :=
  reset_wait (reset_reader_plan q) <| qs_wait_bypass_target := 0 |>.

Definition reset_dispatch_wrapper (q : PolarDB_QueryState) : PolarDB_QueryState :=
  q <| qs_dispatch_wrapper_stmts := 0 |> <| qs_dispatch_wrapper_kind := Wrapper_NONE |>.

Definition reset_for_new_query (q : PolarDB_QueryState) : PolarDB_QueryState :=
  reset_dispatch_wrapper
    (clear_reader_route q <| qs_request_writer_scope := no_scope |>
      <| qs_original_query := "" |> <| qs_wrapped_query_buf := "" |>
      <| qs_effective_consistency_mode := mode_to_int Mode_OFF |>
      <| qs_reader_retry_attempts := 0 |> <| qs_profile_enabled := false |>
      <| qs_txn_split_enabled := false |> <| qs_backend_isolation_status_needed := false |>
      <| qs_keep_session_lsn := false |>).

Definition reset_between_extended_messages (q : PolarDB_QueryState) : PolarDB_QueryState :=
  reset_for_new_query q
    <| qs_request_writer_scope := qs_request_writer_scope q |>
    <| qs_reader_plan := qs_reader_plan q |>
    <| qs_reader_wait_spec := qs_reader_wait_spec q |>
    <| qs_wait_bypass_target := qs_wait_bypass_target q |>
    <| qs_effective_consistency_mode := qs_effective_consistency_mode q |>
    <| qs_profile_enabled := qs_profile_enabled q |>
    <| qs_txn_split_enabled := qs_txn_split_enabled q |>
    <| qs_backend_isolation_status_needed := qs_backend_isolation_status_needed q |>.

(** ** Deferred extended-protocol evidence *)

Record PolarDB_RfqEvidence := mkEvidence {
  ev_writer_scope : PolarDB_WriterScope;
  ev_lsn : Z;
  ev_backend_hostgroup : Z;
  ev_valid : bool;
  ev_payload_present : bool;
  ev_keep_session_lsn_candidate : bool
}.

Definition empty_evidence : PolarDB_RfqEvidence := mkEvidence no_scope 0 (-1) false false false.

Record PolarDB_ExtendedRfqState := mkExtRfq {
  xr_writer_scope : PolarDB_WriterScope;
  xr_rfq_evidence : PolarDB_RfqEvidence;
  xr_confirmed_read_target : Z;
  xr_effective_consistency_mode : Z;
  xr_pending : bool;
  xr_publication_pending : bool;
  xr_saw_write : bool;
  xr_can_preserve_session_lsn : bool;
  xr_profile_enabled : bool;
  xr_scope_consistent : bool
}.

Definition empty_ext_rfq : PolarDB_ExtendedRfqState :=
  mkExtRfq no_scope empty_evidence 0 (mode_to_int Mode_OFF) false false false true false true.

(** ** Theorems *)

(** The reader byte cap.  With the cap disabled every reader passes; with it
    enabled a reader passes exactly when both LSN samples are known and the
    reader is at or ahead of the group position or behind it by at most the
    cap, so the unsigned subtraction never wraps. *)
Theorem byte_cap_is_bounded_lag r lsn :
  is_u64 (rd_group_lsn r) -> is_u64 lsn ->
  within_byte_cap r lsn = true <->
  rd_max_lag_bytes r <= 0 \/
  (rd_group_lsn r <> 0 /\ lsn <> 0 /\ rd_group_lsn r - lsn <= rd_max_lag_bytes r).
Proof.
  intros Hg Hl. unfold within_byte_cap.
  repeat case_if; bool_to_prop;
    try match goal with H : _ || _ = true |- _ =>
      apply orb_true_iff in H; rewrite !Z.eqb_eq in H end;
    try (split; intros; try lia; done).
  rewrite Z.leb_le, wrap64_id by (unfold is_u64 in *; lia). lia.
Qed.

Definition sample_reader_plan : PolarDB_Query_ReaderPlan :=
  empty_reader_plan <| rd_group_lsn := 5000 |> <| rd_max_lag_bytes := 1024 |>.

Lemma byte_cap_is_bounded_lag_witness :
  within_byte_cap sample_reader_plan 4100 = true /\
  within_byte_cap sample_reader_plan 3900 = false.
Proof.
  split.
  - apply (byte_cap_is_bounded_lag sample_reader_plan 4100);
      [split; vm_compute; congruence..|]. right. vm_compute. repeat split; congruence.
  - reflexivity.
Defined.

(** The transaction-split state machine as the session drives it: a primary
    ReadyForQuery is observed only while no split read is active (the active
    backend is then the reader, whose responses are not a primary source), a
    split read begins only when the gate gives no rejection reason, completes
    only while active, and may fail or be torn down at any time.  The flag says
    whether the step ends the transaction's split knowledge. *)
Inductive split_step : bool -> PolarDB_TransactionSplitState ->
    PolarDB_TransactionSplitState -> Prop :=
| step_observe t status xids splittable wal lsn :
    ts_stage t <> Stage_TXN_SPLIT_READ_ACTIVE -> status <> "I"%char ->
    split_step false t (observe_primary_rfq status xids splittable wal lsn true t)
| step_begin t wu ou multi ext safe locking replay :
    polardb_txn_split_rejection_reason true t wu ou multi ext safe locking replay = RAR_NONE ->
    split_step false t (begin_split_read t)
| step_complete t :
    ts_stage t = Stage_TXN_SPLIT_READ_ACTIVE ->
    split_step false t (complete_split_read t)
| step_fail t : split_step false t (fail_split_read t)
| step_idle t xids splittable wal lsn enabled :
    split_step true t (observe_primary_rfq "I" xids splittable wal lsn enabled t)
| step_disabled t status xids splittable wal lsn :
    split_step true t (observe_primary_rfq status xids splittable wal lsn false t)
| step_teardown t : split_step true t split_reset.

Record split_wf (t : PolarDB_TransactionSplitState) : Prop := {
  wf_none : ts_stage t = Stage_NONE -> t = split_reset;
  wf_blocked : ts_blocked t = true -> ts_stage t = Stage_TXN_ON_PRIMARY;
  wf_failed : ts_failed t = true -> ts_stage t = Stage_TXN_ON_PRIMARY;
  wf_split : ts_stage t = Stage_TXN_SPLITTABLE \/ ts_stage t = Stage_TXN_SPLIT_READ_ACTIVE ->
    ts_was_splittable t = true /\ ts_xids t <> EmptyString;
  wf_active : ts_stage t = Stage_TXN_SPLIT_READ_ACTIVE -> ts_primary_lsn t <> 0;
  wf_did : ts_did_split t = true -> ts_was_splittable t = true
}.

Lemma split_reset_wf : split_wf split_reset.
Proof. split; cbn; try done. by intros [?|?]. Qed.

(** What an accepted split gate establishes. *)
Lemma split_gate_accepts en t wu ou multi ext safe locking replay :
  polardb_txn_split_rejection_reason en t wu ou multi ext safe locking replay = RAR_NONE ->
  en = true /\ multi = false /\ ext = false /\ locking = false /\ safe = true /\ wu = false /\
  ou = false /\ ts_blocked t = false /\ ts_failed t = false /\ ts_xids t <> EmptyString /\
  ts_primary_lsn t <> 0 /\
  (ts_wal_pending t = true -> ts_primary_lsn t <= replay) /\
  (ts_wal_pending t = false -> ts_stage t = Stage_TXN_SPLITTABLE).
Proof.
  unfold polardb_txn_split_rejection_reason. intros H. cbn zeta in H.
  destruct en, multi, ext, locking, safe, wu, ou, (ts_blocked t) eqn:Hb, (ts_failed t) eqn:Hf;
    cbn [negb] in H; try discriminate.
  unfold wal_pending_replica_confirmed in H. rewrite Hb, Hf in H.
  destruct (ts_wal_pending t) eqn:Hw; cbn [andb negb] in H; rewrite ?andb_true_r in H;
    repeat case_if_in H; try discriminate; bool_to_prop; repeat split; intros; try done; try lia.
Qed.

Lemma observe_wf status xids splittable wal lsn t :
  split_wf t -> ts_stage t <> Stage_TXN_SPLIT_READ_ACTIVE ->
  split_wf (observe_primary_rfq status xids splittable wal lsn true t).
Proof.
  intros Hwf Hact. unfold observe_primary_rfq. cbn [negb].
  destruct (Ascii.eqb status "I"); [apply split_reset_wf|].
  destruct (Ascii.eqb status "T"), (Ascii.eqb status "E"); cbn [negb andb orb];
    try done; rewrite ?orb_true_r, ?orb_false_r.
  1,3: split; cbn; try done; try (by intros [?|?]); apply Hwf.
  destruct (ts_blocked t) eqn:Hb; [split; cbn; try done; try (by intros [?|?]); apply Hwf|].
  destruct (splittable && negb wal && _) eqn:Hs; bool_to_prop.
  - split; cbn; try done.
  - split; cbn; try done; destruct (ts_stage t) eqn:Hst; cbn; try done;
      try (by intros [?|?]); apply Hwf.
Qed.

Lemma split_step_wf b t t' : split_step b t t' -> split_wf t -> split_wf t'.
Proof.
  intros Hs Hwf. destruct Hs as [t ? ? ? ? ? Hst _|t ? ? ? ? ? ? ? Hgate|t Hst|t|t ? ? ? ? en
    |t st ? ? ? ?|t].
  - by apply observe_wf.
  - apply split_gate_accepts in Hgate as (_&_&_&_&_&_&_&Hb&Hf&Hx&Hp&_).
    destruct t; cbn in *; subst; split; cbn; done.
  - destruct Hwf as [? Wb Wf Ws Wa ?]. destruct t; cbn in *; subst. split; cbn in *; try done.
    + intros ->. by specialize (Wb eq_refl).
    + intros ->. by specialize (Wf eq_refl).
    + intros _. split; [done|]. apply Ws. by right.
  - destruct t, Hwf; split; cbn in *; try done. by intros [?|?].
  - unfold observe_primary_rfq. destruct en; apply split_reset_wf.
  - unfold observe_primary_rfq. apply split_reset_wf.
  - apply split_reset_wf.
Qed.

(** In every state the session can reach, transaction-split state is well
    formed: stage NONE carries no evidence at all, a blocked or failed
    transaction is on the primary, a splittable or actively split transaction
    has its XIDs and was recorded as splittable, and an active split read has a
    nonzero primary LSN to wait for. *)
Theorem split_machine_invariant t :
  steps (fun a b => exists l, split_step l a b) split_reset t -> split_wf t.
Proof.
  intros Hs. eapply steps_invariant; [|exact Hs|apply split_reset_wf].
  intros a b Ha [l Hl]. by eapply split_step_wf.
Qed.

Definition sample_splittable : PolarDB_TransactionSplitState :=
  observe_primary_rfq "T" (Some "701,702"%string) true false 900 true split_reset.

Definition sample_split_run : PolarDB_TransactionSplitState :=
  begin_split_read sample_splittable.

Lemma split_machine_invariant_witness :
  ts_stage sample_split_run = Stage_TXN_SPLIT_READ_ACTIVE /\ split_wf sample_split_run.
Proof.
  split; [reflexivity|]. apply split_machine_invariant.
  apply (steps_next _ _ sample_splittable); [eapply steps_next; [apply steps_refl|]|].
  - exists false. apply step_observe; vm_compute; congruence.
  - exists false. apply (step_begin _ false false false false true false 0). reflexivity.
Defined.

(** Once a split read has failed in a transaction, every later state of
    that transaction is still blocked, and the gate rejects every further
    split read until the transaction ends or is torn down. *)
Theorem failed_split_blocks_transaction t t' wu ou multi ext safe locking replay :
  ts_blocked t = true -> steps (split_step false) t t' ->
  ts_blocked t' = true /\
  polardb_txn_split_rejection_reason true t' wu ou multi ext safe locking replay <> RAR_NONE.
Proof.
  intros Hb Hs. assert (ts_blocked t' = true) as Hb'.
  { revert Hs Hb. apply (steps_invariant _ (fun t => ts_blocked t = true)).
    intros a b Ha Hab. inversion Hab; subst.
    - unfold observe_primary_rfq. cbn [negb]. rewrite Ha.
      destruct (Ascii.eqb_spec status "I"); [done|]. by repeat case_if.
    - apply split_gate_accepts in H. destruct H as (_&_&_&_&_&_&_&H&_). congruence.
    - by destruct a.
    - by destruct a. }
  split; [done|]. intros H. apply split_gate_accepts in H as (_&_&_&_&_&_&_&H&_). congruence.
Qed.

Lemma failed_split_blocks_transaction_witness :
  ts_blocked (observe_primary_rfq "T" (Some "701"%string) true false 950 true
    (fail_split_read sample_split_run)) = true.
Proof.
  apply (failed_split_blocks_transaction (fail_split_read sample_split_run) _
           false false false false true false 0); [reflexivity|].
  eapply steps_next; [apply steps_refl|]. apply step_observe; vm_compute; congruence.
Defined.

(** The two query resets.  A new query starts from the pristine state
    whatever preceded it; between the messages of one extended-protocol frame
    exactly the route and response policy survive, no wait stays armed and no
    wrapper metadata is left, so the pending Execute keeps its plan but nothing
    is dispatched twice. *)
Theorem query_resets_are_exact q :
  reset_for_new_query q = empty_query /\
  (let r := reset_between_extended_messages q in
   qs_reader_plan r = qs_reader_plan q /\ qs_reader_wait_spec r = qs_reader_wait_spec q /\
   qs_request_writer_scope r = qs_request_writer_scope q /\
   qs_wait_bypass_target r = qs_wait_bypass_target q /\
   data_path_enabled r = data_path_enabled q /\
   qs_wait r = idle_wait /\ qs_dispatch_wrapper_kind r = Wrapper_NONE /\
   qs_dispatch_wrapper_stmts r = 0 /\ qs_reader_retry_attempts r = 0 /\
   qs_keep_session_lsn r = false /\
   reset_between_extended_messages r = r).
Proof. destruct q. repeat split. Qed.
