(* ===== verification/SessionState.v ===== *)
(** * The PolarDB part of a session

    The state that include/PgSQL_Session.h adds to a frontend session, the
    helpers of lib/PgSQL_PolarDB_Consistency.cpp that change it, and the
    temporary transaction reader of lib/PgSQL_PolarDB_Split.cpp. *)

From S2P Require Import Prelude SqlScan Policy Config Session Query.
From Stdlib Require Import ZArith Ascii String List Bool Lia.
From stdpp Require Import base tactics list gmap strings.

Open Scope Z_scope.
Open Scope polar_scope.

(** ** Data *)

Definition UNREGISTERED_ACTIVATION_GENERATION : Z := UINT64_MAX.

Record PolarDB_SessionConfig := mkSessionConfig {
  cf_is_polardb_enabled : bool;
  cf_activation_generation : Z;
  cf_session_consistency_mode : Z;
  cf_txn_split_warmup_mode : Z;
  cf_default_read_committed : bool;
  cf_backend_default_seen : bool
}.

#[global] Instance upd_cf_is_polardb_enabled : Update cf_is_polardb_enabled.
Proof. derive_update. Defined.
#[global] Instance upd_cf_activation_generation : Update cf_activation_generation.
Proof. derive_update. Defined.
#[global] Instance upd_cf_session_consistency_mode : Update cf_session_consistency_mode.
Proof. derive_update. Defined.
#[global] Instance upd_cf_txn_split_warmup_mode : Update cf_txn_split_warmup_mode.
Proof. derive_update. Defined.
#[global] Instance upd_cf_default_read_committed : Update cf_default_read_committed.
Proof. derive_update. Defined.
#[global] Instance upd_cf_backend_default_seen : Update cf_backend_default_seen.
Proof. derive_update. Defined.

Definition default_session_config : PolarDB_SessionConfig :=
  mkSessionConfig false UNREGISTERED_ACTIVATION_GENERATION (-1) (-1) true false.

Record PolarDB_TxnReaderWaitSafetyState := mkSafety {
  sf_non_read_committed : bool;
  sf_local_state_changed : bool
}.

#[global] Instance upd_sf_non_read_committed : Update sf_non_read_committed.
Proof. derive_update. Defined.
#[global] Instance upd_sf_local_state_changed : Update sf_local_state_changed.
Proof. derive_update. Defined.

Definition safety_clear : PolarDB_TxnReaderWaitSafetyState := mkSafety false false.

Inductive PolarDB_ReaderFailureRoute :=
| FailureRoute_NONE | FailureRoute_FORCE_WRITER | FailureRoute_SKIP_READER.

#[global] Instance ReaderFailureRoute_eq_dec : EqDecision PolarDB_ReaderFailureRoute.
Proof. solve_decision. Defined.

Record PolarDB_TxnReaderFailureState := mkFailure {
  fl_route : PolarDB_ReaderFailureRoute;
  fl_writer_hg : Z;
  fl_reader_hg : Z;
  fl_reader_address : string;
  fl_reader_port : Z
}.

Definition failure_clear : PolarDB_TxnReaderFailureState :=
  mkFailure FailureRoute_NONE (-1) (-1) "" (-1).

Definition failure_active (f : PolarDB_TxnReaderFailureState) : bool :=
  fl_route f != FailureRoute_NONE.

Definition forced_writer_hg (f : PolarDB_TxnReaderFailureState) : Z :=
  if (fl_route f == FailureRoute_FORCE_WRITER) && (0 <=? fl_writer_hg f)
  then fl_writer_hg f else -1.

(** The skipped endpoint, when it applies to the target hostgroup. *)
Definition matches_skipped_reader (f : PolarDB_TxnReaderFailureState) (target_hg : Z)
  : option (string * Z) :=
  if (fl_route f == FailureRoute_SKIP_READER) && (fl_reader_hg f =? target_hg) &&
     (fl_reader_address f != EmptyString) && (0 <=? fl_reader_port f)
  then Some (fl_reader_address f, fl_reader_port f) else None.

Definition set_force_writer (hg : Z) : PolarDB_TxnReaderFailureState :=
  mkFailure FailureRoute_FORCE_WRITER hg (-1) "" (-1).

Definition set_reader_skip (hg : Z) (address : string) (port : Z)
  : PolarDB_TxnReaderFailureState :=
  mkFailure FailureRoute_SKIP_READER (-1) hg address port.

(** A heap block: its address and its bytes. *)
Record packet := mkPacket { pk_ptr : Z; pk_bytes : list ascii }.

(** [PtrSize_t]: a null pointer or the block it owns. *)
Definition PtrSize_t : Type := option packet.

(** A backend is identified by its hostgroup, as [find_or_create_backend] does. *)
Record PolarDB_TxnReaderState := mkTxnReader {
  tr_backend : option Z;
  tr_connected : bool;
  tr_primary_backend : option Z;
  tr_split_active : bool;
  tr_wait_read_active : bool;
  tr_wait_timeout_error : bool;
  tr_wrapped_query : string;
  tr_original_pkt : PtrSize_t;
  tr_wait_spec : PolarDB_WaitSpec;
  tr_writer_scope : PolarDB_WriterScope;
  tr_rfq_writer_scope : PolarDB_WriterScope;
  tr_read_start_us : Z;
  tr_wait_start_us : Z
}.

#[global] Instance upd_tr_backend : Update tr_backend.
Proof. derive_update. Defined.
#[global] Instance upd_tr_connected : Update tr_connected.
Proof. derive_update. Defined.
#[global] Instance upd_tr_primary_backend : Update tr_primary_backend.
Proof. derive_update. Defined.
#[global] Instance upd_tr_split_active : Update tr_split_active.
Proof. derive_update. Defined.
#[global] Instance upd_tr_wait_read_active : Update tr_wait_read_active.
Proof. derive_update. Defined.
#[global] Instance upd_tr_wait_timeout_error : Update tr_wait_timeout_error.
Proof. derive_update. Defined.
#[global] Instance upd_tr_wrapped_query : Update tr_wrapped_query.
Proof. derive_update. Defined.
#[global] Instance upd_tr_original_pkt : Update tr_original_pkt.
Proof. derive_update. Defined.
#[global] Instance upd_tr_wait_spec : Update tr_wait_spec.
Proof. derive_update. Defined.
#[global] Instance upd_tr_writer_scope : Update tr_writer_scope.
Proof. derive_update. Defined.
#[global] Instance upd_tr_rfq_writer_scope : Update tr_rfq_writer_scope.
Proof. derive_update. Defined.
#[global] Instance upd_tr_read_start_us : Update tr_read_start_us.
Proof. derive_update. Defined.
#[global] Instance upd_tr_wait_start_us : Update tr_wait_start_us.
Proof. derive_update. Defined.

Definition empty_txn_reader : PolarDB_TxnReaderState :=
  mkTxnReader None false None false false false "" None no_wait no_scope no_scope 0 0.

Definition txn_reader_active (r : PolarDB_TxnReaderState) : bool :=
  tr_split_active r || tr_wait_read_active r.

Definition clear_request_state (r : PolarDB_TxnReaderState) : PolarDB_TxnReaderState :=
  mkTxnReader (tr_backend r) (tr_connected r) None false false false "" None no_wait no_scope
    (tr_rfq_writer_scope r) 0 0.

Definition clear_backend (r : PolarDB_TxnReaderState) : PolarDB_TxnReaderState :=
  r <| tr_backend := None |> <| tr_connected := false |> <| tr_rfq_writer_scope := no_scope |>.

Record PgSQL_Session := mkSession {
  ss_consistency : PolarDB_SessionConsistency;
  ss_split : PolarDB_TransactionSplitState;
  ss_query : PolarDB_QueryState;
  ss_ext : PolarDB_ExtendedRfqState;
  ss_config : PolarDB_SessionConfig;
  ss_safety : PolarDB_TxnReaderWaitSafetyState;
  ss_has_no_write_xids : bool;
  ss_failure : PolarDB_TxnReaderFailureState;
  ss_reader : PolarDB_TxnReaderState;
  ss_degraded_warning_sent : bool;
  ss_client_rfq_lsn_requested : bool;
  ss_wait_disabled : bool;
  ss_mybe : option Z;
  ss_current_hg : Z;
  ss_persistent_hg : Z;
  ss_locked_hg : Z;
  ss_in_transaction : bool;
  ss_extended : bool;
  ss_query_text : option string;
  ss_query_cmd : pgsql_command
}.

#[global] Instance upd_ss_consistency : Update ss_consistency.
Proof. derive_update. Defined.
#[global] Instance upd_ss_split : Update ss_split.
Proof. derive_update. Defined.
#[global] Instance upd_ss_query : Update ss_query.
Proof. derive_update. Defined.
#[global] Instance upd_ss_ext : Update ss_ext.
Proof. derive_update. Defined.
#[global] Instance upd_ss_config : Update ss_config.
Proof. derive_update. Defined.
#[global] Instance upd_ss_safety : Update ss_safety.
Proof. derive_update. Defined.
#[global] Instance upd_ss_has_no_write_xids : Update ss_has_no_write_xids.
Proof. derive_update. Defined.
#[global] Instance upd_ss_failure : Update ss_failure.
Proof. derive_update. Defined.
#[global] Instance upd_ss_reader : Update ss_reader.
Proof. derive_update. Defined.
#[global] Instance upd_ss_degraded_warning_sent : Update ss_degraded_warning_sent.
Proof. derive_update. Defined.
#[global] Instance upd_ss_mybe : Update ss_mybe.
Proof. derive_update. Defined.
#[global] Instance upd_ss_current_hg : Update ss_current_hg.
Proof. derive_update. Defined.
#[global] Instance upd_ss_in_transaction : Update ss_in_transaction.
Proof. derive_update. Defined.
#[global] Instance upd_ss_wait_disabled : Update ss_wait_disabled.
Proof. derive_update. Defined.
#[global] Instance upd_ss_client_rfq_lsn_requested : Update ss_client_rfq_lsn_requested.
Proof. derive_update. Defined.
#[global] Instance upd_ss_locked_hg : Update ss_locked_hg.
Proof. derive_update. Defined.
#[global] Instance upd_ss_extended : Update ss_extended.
Proof. derive_update. Defined.
#[global] Instance upd_ss_query_text : Update ss_query_text.
Proof. derive_update. Defined.
#[global] Instance upd_ss_query_cmd : Update ss_query_cmd.
Proof. derive_update. Defined.

(** A new frontend session. *)
Definition new_session : PgSQL_Session :=
  mkSession empty_consistency split_reset empty_query empty_ext_rfq default_session_config
    safety_clear false failure_clear empty_txn_reader false false false None (-1) (-1) (-1)
    false false None PGSQL_QUERY___NONE.

(** ** Session settings *)

Definition polardb_set_session_consistency_mode (mode : Z) (s : PgSQL_Session) : PgSQL_Session :=
  s <| ss_config := ss_config s <| cf_session_consistency_mode := mode |> |>.

Definition polardb_set_txn_split_warmup_mode (mode : Z) (s : PgSQL_Session) : PgSQL_Session :=
  s <| ss_config := ss_config s <| cf_txn_split_warmup_mode := mode |> |>.

Definition polardb_effective_txn_split_warmup_mode (s : PgSQL_Session) : Z :=
  if 0 <=? cf_txn_split_warmup_mode (ss_config s) then cf_txn_split_warmup_mode (ss_config s)
  else warmup_to_int Warmup_DEMAND.

(** ** Transaction isolation *)

(** Letters and digits, lower-cased. *)
Fixpoint normalize_chars (l : list ascii) : list ascii :=
  match l with
  | [] => []
  | c :: r => if isalnum c then tolower c :: normalize_chars r else normalize_chars r
  end.

Definition chars (s : string) : list ascii := list_ascii_of_string s.

Definition polardb_value_is_read_committed (raw : cstr) : bool :=
  match raw with
  | None | Some EmptyString => false
  | Some v => bool_decide (normalize_chars (chars v) = chars "readcommitted")
  end.

Section UserAttributes.

(** nlohmann::json: [None] when parsing or the typed access throws, otherwise
    the value of the "default-transaction_isolation" key if present. *)
Context (json_default_isolation : string -> option (option string)).

Definition polardb_apply_user_attributes (attributes : cstr) (s : PgSQL_Session)
  : PgSQL_Session :=
  let read_committed :=
    match attributes with
    | None | Some EmptyString => true
    | Some a =>
        match json_default_isolation a with
        | Some (Some value) => polardb_value_is_read_committed (Some value)
        | Some None => true
        | None => false
        end
    end in
  s <| ss_config := ss_config s <| cf_default_read_committed := read_committed |>
                                <| cf_backend_default_seen := false |> |>.

End UserAttributes.

Definition polardb_note_txn_non_read_committed (s : PgSQL_Session) : PgSQL_Session :=
  s <| ss_safety := ss_safety s <| sf_non_read_committed := true |> |>.

Definition polardb_note_txn_local_state_change (s : PgSQL_Session) : PgSQL_Session :=
  s <| ss_safety := ss_safety s <| sf_local_state_changed := true |> |>.

Definition polardb_txn_wait_uses_read_committed (s : PgSQL_Session) : bool :=
  if sf_non_read_committed (ss_safety s) then false
  else cf_default_read_committed (ss_config s).

(** What the response path reads of a backend connection at ReadyForQuery. *)
Record rfq_connection := mkRfqConn {
  rq_status : ascii;
  rq_xids : cstr;
  rq_splittable : bool;
  rq_wal_pending : bool;
  rq_lsn : Z;
  rq_payload_present : bool;
  rq_hostgroup : option Z;
  rq_srv : option (Z * nat);
  rq_default_isolation : cstr;
  rq_current_isolation : cstr;
  rq_in_transaction : bool;
  rq_result_error : bool;
  rq_multi_statement : bool;
  rq_wrapper_set_succeeded : bool
}.

Definition polardb_apply_backend_isolation_status (conn : option rfq_connection)
    (s : PgSQL_Session) : PgSQL_Session :=
  match conn with
  | None => s
  | Some conn =>
      let s :=
        match rq_default_isolation conn with
        | None | Some EmptyString => s
        | Some v =>
            s <| ss_config := ss_config s <| cf_backend_default_seen := true |>
                   <| cf_default_read_committed := polardb_value_is_read_committed (Some v) |> |>
        end in
      match rq_current_isolation conn with
      | None | Some EmptyString => s
      | Some v =>
          if rq_in_transaction conn && negb (polardb_value_is_read_committed (Some v))
          then polardb_note_txn_non_read_committed s else s
      end
  end.

(** ** The temporary transaction reader *)

Definition polardb_reset_txn_reader_request (s : PgSQL_Session) : PgSQL_Session :=
  let s :=
    match tr_primary_backend (ss_reader s) with
    | Some be => s <| ss_mybe := Some be |>
    | None => s
    end in
  s <| ss_reader := clear_request_state (ss_reader s) |>
    <| ss_query := reset_dispatch_wrapper (reset_reader_plan (ss_query s)) |>.

Definition polardb_release_txn_reader_backend (s : PgSQL_Session) : PgSQL_Session :=
  match tr_backend (ss_reader s) with
  | None => s
  | Some _ =>
      let s :=
        if txn_reader_active (ss_reader s) ||
           match tr_primary_backend (ss_reader s) with Some _ => true | None => false end
        then polardb_reset_txn_reader_request s else s in
      s <| ss_reader := clear_backend (ss_reader s) |>
  end.

(** Whether a released reader connection goes back to the pool.  [normalized]
    is the recovery of a connection that ended its query. *)
Definition released_reader_is_reusable (want_reuse conn_reusable conn_idle normalized
    conn_active_txn : bool) : bool :=
  want_reuse && conn_reusable && (conn_idle || (want_reuse && normalized)) &&
  negb conn_active_txn.

Definition polardb_teardown_transaction_reader_state (s : PgSQL_Session) : PgSQL_Session :=
  polardb_release_txn_reader_backend s
    <| ss_split := split_reset |> <| ss_failure := failure_clear |>
    <| ss_safety := safety_clear |>.

Definition polardb_release_txn_wait_read (s : PgSQL_Session) : PgSQL_Session :=
  if negb (tr_wait_read_active (ss_reader s)) &&
     match tr_primary_backend (ss_reader s) with Some _ => false | None => true end
  then s else polardb_release_txn_reader_backend s.

Definition polardb_reconcile_txn_wait_read_end (s : PgSQL_Session) : PgSQL_Session :=
  if negb (tr_wait_read_active (ss_reader s)) then s else polardb_release_txn_wait_read s.

Definition polardb_reconcile_txn_wait_read_request_entry (s : PgSQL_Session) : PgSQL_Session :=
  if negb (tr_wait_read_active (ss_reader s)) then s
  else polardb_reconcile_txn_wait_read_end s.

Definition polardb_begin_txn_reader_read (reader_hg : Z) (scope : PolarDB_WriterScope)
    (now_us : Z) (s : PgSQL_Session) : PgSQL_Session :=
  s <| ss_reader := ss_reader s <| tr_backend := Some reader_hg |> <| tr_connected := true |>
         <| tr_primary_backend := ss_mybe s |> <| tr_writer_scope := scope |>
         <| tr_read_start_us := now_us |> <| tr_wait_timeout_error := false |> |>
    <| ss_mybe := Some reader_hg |>.

Definition polardb_begin_txn_wait_read (reader_hg : Z) (scope : PolarDB_WriterScope)
    (now_us : Z) (s : PgSQL_Session) : PgSQL_Session :=
  let s := polardb_begin_txn_reader_read reader_hg scope now_us s in
  s <| ss_reader := ss_reader s <| tr_wait_read_active := true |> |>.

Definition polardb_begin_txn_split_read (reader_hg : Z) (pkt : PtrSize_t) (wrapped_query : string)
    (wait_spec : PolarDB_WaitSpec) (reader_plan : PolarDB_Query_ReaderPlan)
    (scope : PolarDB_WriterScope) (wrapper_stmts : Z) (wait_bypassed : bool) (now_us : Z)
    (s : PgSQL_Session) : PgSQL_Session :=
  let s := polardb_begin_txn_reader_read reader_hg scope now_us s in
  s <| ss_reader := ss_reader s <| tr_wrapped_query := wrapped_query |>
         <| tr_wait_spec := wait_spec |> <| tr_original_pkt := pkt |>
         <| tr_split_active := true |>
         <| tr_wait_start_us := if wait_bypassed then 0 else tr_read_start_us (ss_reader s) |> |>
    <| ss_split := begin_split_read (ss_split s) |>
    <| ss_query := ss_query s <| qs_reader_plan := reader_plan |>
         <| qs_dispatch_wrapper_stmts := wrapper_stmts |>
         <| qs_dispatch_wrapper_kind := Wrapper_TXN_SPLIT_WAIT |> |>.

(** [reader_conn_positioned]: the completed reader is connected and its last
    ReadyForQuery carried a nonzero LSN. *)
Definition polardb_finish_txn_reader_read (split_success split_error : bool)
    (reader_conn_positioned : bool) (s : PgSQL_Session) : PgSQL_Session :=
  if negb (tr_split_active (ss_reader s)) && negb (tr_wait_read_active (ss_reader s)) then s
  else
    let rfq_scope :=
      if negb split_error && scope_valid (tr_writer_scope (ss_reader s)) &&
         reader_conn_positioned
      then tr_writer_scope (ss_reader s) else no_scope in
    let s := s <| ss_reader := ss_reader s <| tr_rfq_writer_scope := rfq_scope |> |> in
    let s := polardb_reset_txn_reader_request s in
    if split_success then s <| ss_split := complete_split_read (ss_split s) |>
    else if split_error then s <| ss_split := fail_split_read (ss_split s) |>
    else s.

Definition polardb_complete_txn_split_read (positioned : bool) (s : PgSQL_Session)
  : PgSQL_Session :=
  if negb (tr_split_active (ss_reader s)) then s
  else polardb_finish_txn_reader_read true false positioned s.

Definition polardb_complete_txn_wait_read (positioned : bool) (s : PgSQL_Session)
  : PgSQL_Session :=
  if negb (tr_wait_read_active (ss_reader s)) then s
  else polardb_finish_txn_reader_read false false positioned s.

Definition polardb_abort_txn_split_read (positioned : bool) (s : PgSQL_Session)
  : PgSQL_Session :=
  polardb_finish_txn_reader_read false true positioned s.

(** ** Observation of a primary ReadyForQuery *)

Definition polardb_observe_transaction_split (conn : option rfq_connection) (primary_lsn : Z)
    (split_enabled primary_source : bool) (s : PgSQL_Session) : PgSQL_Session :=
  match conn with
  | None => s
  | Some conn =>
      if negb primary_source then s
      else
        let s := s <| ss_has_no_write_xids :=
          polardb_rfq_is_prewrite_split_candidate (rq_status conn) (rq_xids conn)
            (rq_splittable conn) (rq_wal_pending conn) |> in
        if negb split_enabled then polardb_teardown_transaction_reader_state s
        else if Ascii.eqb (rq_status conn) "I" then polardb_teardown_transaction_reader_state s
        else
          s <| ss_split :=
            observe_primary_rfq (rq_status conn) (rq_xids conn) (rq_splittable conn)
              (rq_wal_pending conn) primary_lsn split_enabled (ss_split s) |>
  end.

(** ** Theorems *)

(** Everything a reader request leaves behind is gone. *)
Definition reader_request_clean (s : PgSQL_Session) : Prop :=
  txn_reader_active (ss_reader s) = false /\ tr_primary_backend (ss_reader s) = None /\
  tr_original_pkt (ss_reader s) = None /\ tr_wrapped_query (ss_reader s) = EmptyString /\
  qs_reader_plan (ss_query s) = empty_reader_plan /\
  qs_reader_wait_spec (ss_query s) = no_wait /\
  qs_dispatch_wrapper_kind (ss_query s) = Wrapper_NONE /\
  qs_dispatch_wrapper_stmts (ss_query s) = 0.

Lemma finish_restores be ok err pos s :
  tr_primary_backend (ss_reader s) = Some be -> txn_reader_active (ss_reader s) = true ->
  let s' := polardb_finish_txn_reader_read ok err pos s in
  ss_mybe s' = Some be /\ reader_request_clean s' /\ ss_consistency s' = ss_consistency s.
Proof.
  intros Hbe Hact. cbn zeta. unfold polardb_finish_txn_reader_read.
  unfold txn_reader_active in Hact.
  replace (negb (tr_split_active (ss_reader s)) && negb (tr_wait_read_active (ss_reader s)))
    with false by (rewrite <- negb_orb, Hact; done).
  cbn zeta. unfold polardb_reset_txn_reader_request.
  match goal with |- context [if ?c then tr_writer_scope _ else no_scope] => generalize c end.
  intros c. destruct s as [? ? q ? ? ? ? ? [] ? ? ? ? ? ? ? ? ? ? ?]. destruct q. cbn in *. subst.
  destruct ok, err, c; cbn; repeat split.
Qed.

Lemma finish_split_outcome ok err pos s :
  txn_reader_active (ss_reader s) = true ->
  ss_split (polardb_finish_txn_reader_read ok err pos s) =
  if ok then complete_split_read (ss_split s)
  else if err then fail_split_read (ss_split s) else ss_split s.
Proof.
  unfold txn_reader_active, polardb_finish_txn_reader_read. intros H.
  replace (negb (tr_split_active (ss_reader s)) && negb (tr_wait_read_active (ss_reader s)))
    with false by (rewrite <- negb_orb, H; done).
  cbn zeta. unfold polardb_reset_txn_reader_request.
  destruct s as [? ? q ? ? ? ? ? [] ? ? ? ? ? ? ? ? ? ? ?]. cbn.
  destruct tr_primary_backend0, ok, err; reflexivity.
Qed.

Lemma release_restores be s :
  tr_primary_backend (ss_reader s) = Some be -> tr_backend (ss_reader s) <> None ->
  let s' := polardb_release_txn_reader_backend s in
  ss_mybe s' = Some be /\ reader_request_clean s' /\ tr_backend (ss_reader s') = None /\
  ss_consistency s' = ss_consistency s.
Proof.
  intros Hbe Hb. cbn zeta. unfold polardb_release_txn_reader_backend.
  destruct s as [? ? q ? ? ? ? ? [] ? ? ? ? ? ? ? ? ? ? ?]. destruct q. cbn in *. subst.
  destruct tr_backend0; [|done]. rewrite orb_true_r. by repeat split.
Qed.

(** A temporary transaction reader is always given back.  While a split or
    wait read runs the session uses the reader and remembers the primary;
    whichever way the read ends (success, error, release, teardown) the
    primary backend is the active one again, no packet, wrapper or reader plan
    stays behind, and the session's LSN state is untouched.  A successful split
    leaves the transaction splittable, a failed one blocks it. *)
Theorem txn_reader_read_restores_primary be s reader_hg pkt wq ws rp scope n bypass now :
  ss_mybe s = Some be ->
  let wait := polardb_begin_txn_wait_read reader_hg scope now s in
  let split := polardb_begin_txn_split_read reader_hg pkt wq ws rp scope n bypass now s in
  forall started, started = wait \/ started = split ->
  ss_mybe started = Some reader_hg /\
  (forall ok err pos, let s' := polardb_finish_txn_reader_read ok err pos started in
     ss_mybe s' = Some be /\ reader_request_clean s' /\
     ss_consistency s' = ss_consistency s /\
     (ok = true -> ts_stage (ss_split s') = Stage_TXN_SPLITTABLE /\
                   ts_did_split (ss_split s') = true) /\
     (ok = false -> err = true -> ts_stage (ss_split s') = Stage_TXN_ON_PRIMARY /\
                   ts_blocked (ss_split s') = true)) /\
  (let s' := polardb_teardown_transaction_reader_state started in
   ss_mybe s' = Some be /\ reader_request_clean s' /\ tr_backend (ss_reader s') = None /\
   ss_split s' = split_reset /\ ss_consistency s' = ss_consistency s).
Proof.
  intros Hbe wait split started Hst.
  assert (ss_mybe started = Some reader_hg /\ tr_primary_backend (ss_reader started) = Some be /\
    txn_reader_active (ss_reader started) = true /\ tr_backend (ss_reader started) <> None /\
    ss_consistency started = ss_consistency s) as (H1&H2&H3&H4&H5).
  { destruct s as [? ? q ? ? ? ? ? [] ? ? ? ? ? ? ? ? ? ? ?]. destruct q. cbn in *.
    destruct Hst as [->| ->]; cbn; repeat split; try done.
    unfold txn_reader_active; cbn. by rewrite orb_true_r. }
  split; [done|]. split.
  - intros ok err pos s'. destruct (finish_restores be ok err pos started H2 H3) as (?&?&?).
    split; [done|]. split; [done|]. split; [by etransitivity|].
    subst s'. split; [intros ->|intros -> ->];
      rewrite (finish_split_outcome _ _ _ _ H3); by destruct (ss_split started).
  - destruct (release_restores be started H2 H4) as (?&?&?&?).
    unfold polardb_teardown_transaction_reader_state.
    destruct (polardb_release_txn_reader_backend started).
    split; [done|]. split; [done|]. split; [done|]. split; [done|]. cbn in *. congruence.
Qed.

Definition sample_split_session : PgSQL_Session :=
  new_session <| ss_mybe := Some 10 |> <| ss_split := sample_splittable |>.

Lemma txn_reader_read_restores_primary_witness :
  ss_mybe (polardb_abort_txn_split_read false
    (polardb_begin_txn_split_read 20 None "" no_wait empty_reader_plan (mkScope 10 1) 1 false 5
       sample_split_session)) = Some 10.
Proof.
  apply (txn_reader_read_restores_primary 10 sample_split_session 20 None "" no_wait
    empty_reader_plan (mkScope 10 1) 1 false 5 eq_refl _ (or_intror eq_refl)).
Defined.
