(* ===== verification/Plan.v ===== *)
(** * The route planner

    [polardb_plan] of lib/PgSQL_PolarDB_Flow.cpp: the deterministic decision
    from a routing context to a route plan.  The planner reads two cached
    observations of the hostgroup manager; they are the operations of the
    [LsnSource] interface, which the topology model implements.  The body is
    cut where the source changes stage: placement, explicit transactions, and
    the LSN wait target. *)

From S2P Require Import Prelude Policy Config Session Query.
From Stdlib Require Import ZArith Ascii String List Bool Lia.
From stdpp Require Import base tactics list gmap strings.

Open Scope Z_scope.
Open Scope polar_scope.

(** What the planner uses of the hostgroup manager. *)
Class LsnSource (M : Type) := {
  get_polardb_group_lsn : M -> Z -> Z;
  get_polardb_max_replica_replay_lsn : M -> PolarDB_WriterScope -> Z;
  source_ok : M -> Prop;
  group_lsn_u64 m hg : source_ok m -> is_u64 (get_polardb_group_lsn m hg);
  replay_lsn_u64 m s : source_ok m -> is_u64 (get_polardb_max_replica_replay_lsn m s)
}.

Section Planner.
Context {M : Type} `{LsnSource M}.

(** [pgsql_thread___polardb_max_reader_lsn_gap_bytes] *)
Context (max_reader_lsn_gap_bytes : Z).

Definition polardb_attach_reader_lag_cap (hgm : M) (ctx : PolarDB_Query_RouteCtx)
    (plan : PolarDB_Query_RoutePlan) : PolarDB_Query_RoutePlan :=
  let max_lag :=
    if 0 <=? rc_max_lag_bytes ctx then rc_max_lag_bytes ctx else max_reader_lsn_gap_bytes in
  if max_lag <=? 0 then plan
  else
    let group_lsn := get_polardb_group_lsn hgm (ws_hg (rc_writer_scope ctx)) in
    plan <| pl_reader := pl_reader plan <| rd_group_lsn := group_lsn |>
                           <| rd_max_lag_bytes := max_lag |> |>.

(** The lambda of the same name. *)
Definition snapshot_reader_policy (ctx : PolarDB_Query_RouteCtx)
    (plan : PolarDB_Query_RoutePlan) : PolarDB_Query_RoutePlan :=
  let r := pl_reader plan in
  plan <| pl_reader :=
    mkReaderPlan (rd_group_lsn r) (rd_max_lag_bytes r)
      (ws_hg (rc_writer_scope ctx)) (rc_missing_lsn_action ctx)
      (rc_lsn_wait_timeout_action ctx) (rc_read_target ctx) (rc_read_fallback_action ctx)
      (rc_replica_loss_action ctx) (rc_replica_error_action ctx)
      (rd_consistency_mode r) (rd_allow_reader_without_target r) (rd_require_replica r) |>.

Definition plan_mode (ctx : PolarDB_Query_RouteCtx) : PolarDB_ConsistencyMode :=
  if 0 <=? rc_effective_consistency_mode ctx
  then polardb_consistency_from_int (rc_effective_consistency_mode ctx) else Mode_OFF.

Definition plan_timeout_action (ctx : PolarDB_Query_RouteCtx) : PolarDB_LsnWaitTimeoutAction :=
  polardb_lsn_wait_timeout_action_from_int (rc_lsn_wait_timeout_action ctx).

Definition plan_wait_mode (ctx : PolarDB_Query_RouteCtx) : PolarDB_WaitMode :=
  polardb_wait_mode_for_timeout_action (plan_timeout_action ctx).

Definition plan_writer_hg (ctx : PolarDB_Query_RouteCtx) : Z := ws_hg (rc_writer_scope ctx).

(** The missing-LSN factory at the context's policy, with the policy snapshot
    that every caller takes after it. *)
Definition plan_missing_lsn (ctx : PolarDB_Query_RouteCtx) (reason : RouteActionReason)
    (allow_reader_without_target split_checked : bool) : PolarDB_Query_RoutePlan :=
  snapshot_reader_policy ctx
    (missing_lsn reason (rc_missing_lsn_action ctx) (rc_read_fallback_action ctx)
       (plan_writer_hg ctx) (rc_reader_hg ctx) allow_reader_without_target
       <| pl_split_checked := split_checked |>).

(** The XID-import split read of an explicit transaction. *)
Definition plan_txn_split_read (hgm : M) (ctx : PolarDB_Query_RouteCtx)
  : PolarDB_Query_RoutePlan :=
  let mode := plan_mode ctx in
  let t := rc_transaction_split ctx in
  let '(split_target_lsn, group_lsn_unknown) :=
    if mode == Mode_GLOBAL_LSN
    then polardb_target_with_global_lsn (ts_primary_lsn t)
           (get_polardb_group_lsn hgm (plan_writer_hg ctx))
    else (ts_primary_lsn t, false) in
  if group_lsn_unknown then plan_missing_lsn ctx GROUP_LSN_UNKNOWN false true
  else
    let split_wait :=
      mkWaitSpec WaitType_LSN split_target_lsn (rc_wait_timeout_ms ctx) (plan_wait_mode ctx) in
    let plan :=
      snapshot_reader_policy ctx
        (replica_txn_split (rc_reader_hg ctx) (plan_writer_hg ctx) split_wait (ts_xids t)
           <| pl_split_checked := true |>) in
    let reader :=
      pl_reader plan <| rd_consistency_mode := mode |>
        <| rd_lsn_wait_timeout_action :=
             lsn_timeout_to_int
               (polardb_transaction_split_timeout_action (plan_timeout_action ctx)
                  (polardb_read_fallback_action_from_int (rc_read_fallback_action ctx)
                     == Fallback_PRIMARY)) |>
        <| rd_allow_reader_without_target := false |> in
    polardb_attach_reader_lag_cap hgm ctx (plan <| pl_reader := reader |>).

(** The explicit-transaction stage: [inl] is a returned plan, [inr] continues
    with the pre-write reader wait. *)
Definition plan_transaction_stage (hgm : M) (ctx : PolarDB_Query_RouteCtx)
    (plan : PolarDB_Query_RoutePlan) : PolarDB_Query_RoutePlan + PolarDB_Query_RoutePlan :=
  let t := rc_transaction_split ctx in
  let max_replica_replay_lsn :=
    if negb (rc_is_extended_protocol ctx) && ts_wal_pending t &&
       negb (ts_primary_lsn t =? 0)
    then get_polardb_max_replica_replay_lsn hgm (rc_writer_scope ctx) else 0 in
  let split_reason :=
    polardb_txn_split_rejection_reason (rc_txn_split_enabled ctx) t
      (sc_write_unknown (rc_session ctx)) (sc_observed_unknown (rc_session ctx))
      (rc_is_multi_statement ctx) (rc_is_extended_protocol ctx)
      (rc_is_txn_split_safe_read ctx) (rc_is_txn_split_locking_read ctx)
      max_replica_replay_lsn in
  let plan := plan <| pl_split_checked := true |> <| pl_split_reason := split_reason |> in
  if (split_reason == IN_TRANSACTION) && rc_txn_split_enabled ctx &&
     (ts_stage t == Stage_TXN_ON_PRIMARY) && ts_splittable t && (ts_xids t == EmptyString) &&
     rc_is_txn_split_safe_read ctx
  then
    if rc_txn_reader_wait_isolation_read_committed ctx &&
       rc_txn_reader_wait_local_state_clean ctx
    then inr (plan <| pl_split_reason := RAR_NONE |> <| pl_target_hg := rc_reader_hg ctx |>)
    else inl (force_primary (plan_writer_hg ctx) IN_TRANSACTION <| pl_split_checked := true |>)
  else if split_reason != RAR_NONE
  then inl (force_primary (plan_writer_hg ctx) split_reason
              <| pl_split_checked := true |> <| pl_split_reason := split_reason |>)
  else inl (plan_txn_split_read hgm ctx).

Definition plan_allow_degraded (ctx : PolarDB_Query_RouteCtx) : bool :=
  negb (rc_is_extended_protocol ctx) &&
  negb (polardb_consistency_mode_disallows_degraded_reader (plan_mode ctx)).

(** Unsafe shapes, unknown positions and the wait target. *)
Definition plan_lsn_stage (hgm : M) (ctx : PolarDB_Query_RouteCtx)
    (allow_transaction_wait_read : bool) (plan : PolarDB_Query_RoutePlan)
  : PolarDB_Query_RoutePlan :=
  let mode := plan_mode ctx in
  let required_reason :=
    polardb_writer_required_reason
      (rc_in_transaction ctx && negb allow_transaction_wait_read)
      (rc_is_multi_statement ctx) (rc_is_txn_split_locking_read ctx) in
  if required_reason != RAR_NONE then force_primary (plan_writer_hg ctx) required_reason
  else if sc_write_unknown (rc_session ctx)
  then plan_missing_lsn ctx WRITE_LSN_UNKNOWN (plan_allow_degraded ctx)
         allow_transaction_wait_read
  else if sc_observed_unknown (rc_session ctx)
  then plan_missing_lsn ctx OBSERVED_LSN_UNKNOWN (plan_allow_degraded ctx)
         allow_transaction_wait_read
  else
    let global_lsn_mode := mode == Mode_GLOBAL_LSN in
    let group_lsn :=
      if global_lsn_mode then get_polardb_group_lsn hgm (plan_writer_hg ctx) else 0 in
    let '(session_lsn, group_lsn_unknown) :=
      if global_lsn_mode then target_with_global_lsn (rc_session ctx) group_lsn
      else (target (rc_session ctx), false) in
    if group_lsn_unknown
    then plan_missing_lsn ctx GROUP_LSN_UNKNOWN false allow_transaction_wait_read
    else
      let wait_plan :=
        build_consistency mode session_lsn (rc_wait_timeout_ms ctx) (plan_wait_mode ctx) true in
      if negb (has_wait (wp_spec wait_plan))
      then plan <| pl_action := PASSTHROUGH |> <| pl_target_hg := rc_reader_hg ctx |>
             <| pl_reader := pl_reader plan <| rd_consistency_mode := mode |> |>
             <| pl_txn_wait_read := allow_transaction_wait_read |>
      else
        let plan := polardb_attach_reader_lag_cap hgm ctx plan in
        plan <| pl_action := REPLICA_WITH_WAIT |> <| pl_target_hg := rc_reader_hg ctx |>
          <| pl_wait_spec := wp_spec wait_plan |>
          <| pl_txn_wait_read := allow_transaction_wait_read |>
          <| pl_reader := pl_reader plan <| rd_consistency_mode := mode |>
               <| rd_allow_reader_without_target := plan_allow_degraded ctx |> |>.

(** The LSN modes, after placement has chosen a reader. *)
Definition plan_lsn_mode (hgm : M) (ctx : PolarDB_Query_RouteCtx)
    (plan : PolarDB_Query_RoutePlan) : PolarDB_Query_RoutePlan :=
  match polardb_consistency_policy_error (plan_mode ctx)
          (polardb_missing_lsn_action_from_int (rc_missing_lsn_action ctx))
          (plan_timeout_action ctx) with
  | Some _ => plan <| pl_action := RETURN_ERROR |> <| pl_action_reason := INVALID_POLICY |>
  | None =>
      if rc_in_transaction ctx
      then match plan_transaction_stage hgm ctx plan with
           | inl returned => returned
           | inr plan => plan_lsn_stage hgm ctx true plan
           end
      else plan_lsn_stage hgm ctx false plan
  end.

Definition polardb_plan (hgm : M) (ctx : PolarDB_Query_RouteCtx) : PolarDB_Query_RoutePlan :=
  let plan := empty_plan in
  if negb (rc_is_polar_hg ctx) then plan <| pl_action := PASSTHROUGH |>
  else if negb (rc_replica_eligible ctx)
  then plan <| pl_action := PASSTHROUGH |> <| pl_target_hg := plan_writer_hg ctx |>
  else if rc_txn_force_writer_after_reader_failure ctx && (0 <=? rc_txn_writer_hg ctx)
  then force_primary (rc_txn_writer_hg ctx) READER_FAILURE_FORCE_WRITER
  else if rc_force_primary_hint ctx then force_primary (plan_writer_hg ctx) HINT_PRIMARY
  else
    let mode := plan_mode ctx in
    if polardb_read_target_from_int (rc_read_target ctx) == ReadTarget_PRIMARY
    then force_primary (plan_writer_hg ctx) READ_TARGET_PRIMARY
    else if mode == Mode_PRIMARY_ONLY
    then force_primary (plan_writer_hg ctx) READ_TARGET_PRIMARY
    else if mode == Mode_OFF
    then plan <| pl_action := PASSTHROUGH |> <| pl_target_hg := -1 |>
           <| pl_reader := pl_reader plan <| rd_consistency_mode := mode |> |>
    else if rc_reader_hg ctx <? 0
    then
      if polardb_read_fallback_action_from_int (rc_read_fallback_action ctx) == Fallback_ERROR
      then plan <| pl_action := RETURN_ERROR |> <| pl_action_reason := READ_FALLBACK_ERROR |>
      else plan <| pl_target_hg := plan_writer_hg ctx |>
    else
      let plan := snapshot_reader_policy ctx plan in
      if mode == Mode_EVENTUAL
      then
        if rc_in_transaction ctx then force_primary (plan_writer_hg ctx) IN_TRANSACTION
        else plan <| pl_action := PASSTHROUGH |> <| pl_target_hg := rc_reader_hg ctx |>
               <| pl_reader := pl_reader plan <| rd_consistency_mode := mode |> |>
      else plan_lsn_mode hgm ctx plan.

(** ** The read policy the planner implements *)

(** The position a read must not precede. *)
Definition required_lsn (hgm : M) (ctx : PolarDB_Query_RouteCtx) : Z :=
  let session := Z.max (sc_write_lsn (rc_session ctx)) (sc_observed_lsn (rc_session ctx)) in
  match plan_mode ctx with
  | Mode_GLOBAL_LSN => Z.max session (get_polardb_group_lsn hgm (plan_writer_hg ctx))
  | _ => session
  end.

(** The position a split read of an open transaction must not precede. *)
Definition required_split_lsn (hgm : M) (ctx : PolarDB_Query_RouteCtx) : Z :=
  let own := ts_primary_lsn (rc_transaction_split ctx) in
  match plan_mode ctx with
  | Mode_GLOBAL_LSN => Z.max own (get_polardb_group_lsn hgm (plan_writer_hg ctx))
  | _ => own
  end.

(** Placement lets the query leave the writer at all. *)
Record reader_placement (ctx : PolarDB_Query_RouteCtx) : Prop := {
  rp_polar : rc_is_polar_hg ctx = true;
  rp_eligible : rc_replica_eligible ctx = true;
  rp_no_failure :
    rc_txn_force_writer_after_reader_failure ctx && (0 <=? rc_txn_writer_hg ctx) = false;
  rp_no_hint : rc_force_primary_hint ctx = false;
  rp_target : polardb_read_target_from_int (rc_read_target ctx) = ReadTarget_REPLICA;
  rp_reader : 0 <= rc_reader_hg ctx
}.

(** The query is outside a transaction, or inside one that has not written. *)
Definition txn_permits_wait_read (ctx : PolarDB_Query_RouteCtx) : Prop :=
  rc_in_transaction ctx = true ->
  let t := rc_transaction_split ctx in
  rc_txn_split_enabled ctx = true /\ ts_stage t = Stage_TXN_ON_PRIMARY /\
  ts_splittable t = true /\ ts_xids t = EmptyString /\
  rc_is_extended_protocol ctx = false /\
  rc_is_txn_split_safe_read ctx = true /\
  rc_txn_reader_wait_isolation_read_committed ctx = true /\
  rc_txn_reader_wait_local_state_clean ctx = true.

(** The conditions shared by every LSN-mode read outside a split. *)
Record lsn_read (ctx : PolarDB_Query_RouteCtx) : Prop := {
  lr_placement : reader_placement ctx;
  lr_mode : polardb_consistency_mode_uses_lsn_wait (plan_mode ctx) = true;
  lr_single : rc_is_multi_statement ctx = false;
  lr_nonlocking : rc_is_txn_split_locking_read ctx = false;
  lr_txn : txn_permits_wait_read ctx
}.

Definition session_unknown (ctx : PolarDB_Query_RouteCtx) : bool :=
  sc_write_unknown (rc_session ctx) || sc_observed_unknown (rc_session ctx).

Definition error_configured (ctx : PolarDB_Query_RouteCtx) : Prop :=
  polardb_read_fallback_action_from_int (rc_read_fallback_action ctx) = Fallback_ERROR \/
  polardb_missing_lsn_action_from_int (rc_missing_lsn_action ctx) = MissingLsn_ERROR \/
  polardb_consistency_policy_error (plan_mode ctx)
    (polardb_missing_lsn_action_from_int (rc_missing_lsn_action ctx))
    (plan_timeout_action ctx) <> None.

Inductive read_policy (hgm : M) (ctx : PolarDB_Query_RouteCtx) :
    PolarDB_Query_RoutePlan -> Prop :=
| policy_default p :
    rc_is_polar_hg ctx = false \/ plan_mode ctx = Mode_OFF ->
    pl_action p = PASSTHROUGH -> pl_target_hg p = -1 -> pl_wait_spec p = no_wait ->
    read_policy hgm ctx p
| policy_writer p :
    pl_action p = FORCE_PRIMARY \/ pl_action p = PASSTHROUGH ->
    pl_target_hg p = plan_writer_hg ctx -> pl_wait_spec p = no_wait ->
    pl_degraded_rfq_route p = false -> pl_txn_wait_read p = false ->
    read_policy hgm ctx p
| policy_failed_reader p :
    rc_txn_force_writer_after_reader_failure ctx = true ->
    pl_action p = FORCE_PRIMARY -> pl_target_hg p = rc_txn_writer_hg ctx ->
    pl_wait_spec p = no_wait ->
    read_policy hgm ctx p
| policy_error p :
    pl_action p = RETURN_ERROR -> error_configured ctx ->
    read_policy hgm ctx p
| policy_eventual p :
    reader_placement ctx -> plan_mode ctx = Mode_EVENTUAL -> rc_in_transaction ctx = false ->
    pl_action p = PASSTHROUGH -> pl_target_hg p = rc_reader_hg ctx ->
    pl_wait_spec p = no_wait ->
    read_policy hgm ctx p
| policy_no_obligation p :
    lsn_read ctx -> session_unknown ctx = false ->
    plan_mode ctx = Mode_SESSION_LSN -> required_lsn hgm ctx = 0 ->
    pl_action p = PASSTHROUGH -> pl_target_hg p = rc_reader_hg ctx ->
    pl_txn_wait_read p = rc_in_transaction ctx ->
    read_policy hgm ctx p
| policy_wait p :
    lsn_read ctx -> session_unknown ctx = false -> 0 < required_lsn hgm ctx ->
    (plan_mode ctx = Mode_GLOBAL_LSN ->
       get_polardb_group_lsn hgm (plan_writer_hg ctx) <> 0) ->
    pl_action p = REPLICA_WITH_WAIT -> pl_target_hg p = rc_reader_hg ctx ->
    pl_wait_spec p =
      mkWaitSpec WaitType_LSN (required_lsn hgm ctx) (rc_wait_timeout_ms ctx)
        (plan_wait_mode ctx) ->
    pl_txn_wait_read p = rc_in_transaction ctx ->
    rd_fallback_writer_hg (pl_reader p) = plan_writer_hg ctx ->
    read_policy hgm ctx p
| policy_degraded p :
    lsn_read ctx -> session_unknown ctx = true ->
    polardb_missing_lsn_action_from_int (rc_missing_lsn_action ctx) = MissingLsn_WARNING ->
    plan_mode ctx = Mode_SESSION_LSN -> rc_is_extended_protocol ctx = false ->
    rc_in_transaction ctx = false ->
    pl_action p = PASSTHROUGH -> pl_target_hg p = rc_reader_hg ctx ->
    pl_degraded_rfq_route p = true ->
    read_policy hgm ctx p
| policy_split p :
    reader_placement ctx -> polardb_consistency_mode_uses_lsn_wait (plan_mode ctx) = true ->
    rc_in_transaction ctx = true -> session_unknown ctx = false ->
    rc_is_multi_statement ctx = false -> rc_is_extended_protocol ctx = false ->
    rc_is_txn_split_safe_read ctx = true -> rc_is_txn_split_locking_read ctx = false ->
    rc_txn_split_enabled ctx = true ->
    ts_xids (rc_transaction_split ctx) <> EmptyString ->
    ts_primary_lsn (rc_transaction_split ctx) <> 0 ->
    ts_blocked (rc_transaction_split ctx) = false ->
    (plan_mode ctx = Mode_GLOBAL_LSN ->
       get_polardb_group_lsn hgm (plan_writer_hg ctx) <> 0) ->
    (ts_wal_pending (rc_transaction_split ctx) = true ->
       ts_primary_lsn (rc_transaction_split ctx) <=
         get_polardb_max_replica_replay_lsn hgm (rc_writer_scope ctx)) ->
    pl_action p = REPLICA_TXN_SPLIT -> pl_target_hg p = rc_reader_hg ctx ->
    pl_txn_xids p = ts_xids (rc_transaction_split ctx) ->
    pl_wait_spec p =
      mkWaitSpec WaitType_LSN (required_split_lsn hgm ctx) (rc_wait_timeout_ms ctx)
        (plan_wait_mode ctx) ->
    rd_require_replica (pl_reader p) = true ->
    rd_allow_reader_without_target (pl_reader p) = false ->
    read_policy hgm ctx p.

(** Positions that the session and the split state really hold. *)
Record ctx_wf (ctx : PolarDB_Query_RouteCtx) : Prop := {
  cw_write : 0 <= sc_write_lsn (rc_session ctx);
  cw_observed : 0 <= sc_observed_lsn (rc_session ctx);
  cw_primary : 0 <= ts_primary_lsn (rc_transaction_split ctx)
}.

Lemma attach_lag_cap_fields hgm ctx p :
  let p' := polardb_attach_reader_lag_cap hgm ctx p in
  pl_action p' = pl_action p /\ pl_target_hg p' = pl_target_hg p /\
  pl_wait_spec p' = pl_wait_spec p /\ pl_txn_xids p' = pl_txn_xids p /\
  rd_require_replica (pl_reader p') = rd_require_replica (pl_reader p) /\
  rd_allow_reader_without_target (pl_reader p') =
    rd_allow_reader_without_target (pl_reader p) /\
  rd_fallback_writer_hg (pl_reader p') = rd_fallback_writer_hg (pl_reader p).
Proof.
  unfold polardb_attach_reader_lag_cap. destruct p as [? [] ? ? ? ? ? ? ? ?].
  cbn zeta. repeat case_if; repeat split.
Qed.

(** The missing-LSN factory ends in an error only when one is configured,
    degrades only when degrading is allowed and configured, and otherwise
    stays on the writer. *)
Lemma plan_missing_lsn_cases hgm ctx reason allow checked :
  let p := plan_missing_lsn ctx reason allow checked in
  read_policy hgm ctx p \/
  (allow = true /\
   polardb_missing_lsn_action_from_int (rc_missing_lsn_action ctx) = MissingLsn_WARNING /\
   pl_action p = PASSTHROUGH /\ pl_target_hg p = rc_reader_hg ctx /\
   pl_degraded_rfq_route p = true).
Proof.
  cbn zeta. unfold plan_missing_lsn, missing_lsn.
  destruct (polardb_missing_lsn_action_from_int _) eqn:Hm, allow,
    (polardb_read_fallback_action_from_int _) eqn:Hf; cbn;
    try (by right);
    left; first
      [ apply policy_error; cbn; [done|]; unfold error_configured; rewrite Hm, Hf; tauto
      | by apply policy_writer; cbn; auto ].
Qed.

Lemma lsn_mode_cases m :
  polardb_consistency_mode_uses_lsn_wait m = true -> m = Mode_SESSION_LSN \/ m = Mode_GLOBAL_LSN.
Proof. destruct m; cbn; auto; discriminate. Qed.

Lemma required_lsn_session hgm ctx :
  plan_mode ctx = Mode_SESSION_LSN -> required_lsn hgm ctx = target (rc_session ctx).
Proof. unfold required_lsn. intros ->. by rewrite target_is_max. Qed.

Lemma required_lsn_global hgm ctx :
  plan_mode ctx = Mode_GLOBAL_LSN ->
  required_lsn hgm ctx =
    Z.max (target (rc_session ctx)) (get_polardb_group_lsn hgm (plan_writer_hg ctx)).
Proof. unfold required_lsn. intros ->. by rewrite target_is_max. Qed.

(** The tail of the LSN stage once the target is known. *)
Lemma wait_stage_policy hgm ctx plan allow sl :
  lsn_read ctx -> session_unknown ctx = false -> sl = required_lsn hgm ctx -> 0 <= sl ->
  (sl = 0 -> plan_mode ctx = Mode_SESSION_LSN) ->
  (plan_mode ctx = Mode_GLOBAL_LSN -> get_polardb_group_lsn hgm (plan_writer_hg ctx) <> 0) ->
  allow = rc_in_transaction ctx ->
  rd_fallback_writer_hg (pl_reader plan) = plan_writer_hg ctx ->
  read_policy hgm ctx
    (let wait_plan :=
       build_consistency (plan_mode ctx) sl (rc_wait_timeout_ms ctx) (plan_wait_mode ctx) true in
     if negb (has_wait (wp_spec wait_plan))
     then plan <| pl_action := PASSTHROUGH |> <| pl_target_hg := rc_reader_hg ctx |>
            <| pl_reader := pl_reader plan <| rd_consistency_mode := plan_mode ctx |> |>
            <| pl_txn_wait_read := allow |>
     else
       let plan := polardb_attach_reader_lag_cap hgm ctx plan in
       plan <| pl_action := REPLICA_WITH_WAIT |> <| pl_target_hg := rc_reader_hg ctx |>
         <| pl_wait_spec := wp_spec wait_plan |>
         <| pl_txn_wait_read := allow |>
         <| pl_reader := pl_reader plan <| rd_consistency_mode := plan_mode ctx |>
              <| rd_allow_reader_without_target := plan_allow_degraded ctx |> |>).
Proof.
  intros Hr Hu -> Hnn Hz Hg -> Hf. cbn zeta.
  assert (wp_spec (build_consistency (plan_mode ctx) (required_lsn hgm ctx)
    (rc_wait_timeout_ms ctx) (plan_wait_mode ctx) true) =
    from_lsn (required_lsn hgm ctx) (rc_wait_timeout_ms ctx) (plan_wait_mode ctx)) as ->
    by (destruct Hr as [_ Hm _ _ _]; destruct (lsn_mode_cases _ Hm) as [-> | ->]; done).
  unfold from_lsn. destruct (0 <? required_lsn hgm ctx) eqn:Hlt; bool_to_prop; cbn.
  - pose proof (attach_lag_cap_fields hgm ctx plan) as (_&_&_&_&_&_&Hfb).
    revert Hfb. generalize (polardb_attach_reader_lag_cap hgm ctx plan). intros p Hfb.
    destruct p as [? [] ? ? ? ? ? ? ? ?]. cbn in *.
    apply policy_wait; cbn; auto; etransitivity; eauto.
  - assert (required_lsn hgm ctx = 0) as H0 by lia.
    destruct plan. apply policy_no_obligation; cbn; auto.
Qed.

Lemma lsn_stage_policy hgm ctx allow plan :
  ctx_wf ctx -> source_ok hgm -> reader_placement ctx ->
  polardb_consistency_mode_uses_lsn_wait (plan_mode ctx) = true ->
  allow = rc_in_transaction ctx -> txn_permits_wait_read ctx ->
  (allow = true -> session_unknown ctx = false) ->
  rd_fallback_writer_hg (pl_reader plan) = plan_writer_hg ctx ->
  read_policy hgm ctx (plan_lsn_stage hgm ctx allow plan).
Proof.
  intros Hwf Hok Hp Hm Ha Ht Hu Hf. unfold plan_lsn_stage, polardb_writer_required_reason.
  assert (rc_in_transaction ctx && negb allow = false) as ->
    by (subst allow; by destruct (rc_in_transaction ctx)).
  destruct (rc_is_multi_statement ctx) eqn:Hms; [by apply policy_writer; auto|].
  destruct (rc_is_txn_split_locking_read ctx) eqn:Hlk; [by apply policy_writer; auto|].
  cbn [negb bool_decide]. rewrite bool_decide_true by done. cbn [negb].
  assert (lsn_read ctx) as Hr by by split.
  assert (Hdeg : session_unknown ctx = true -> forall reason,
    read_policy hgm ctx (plan_missing_lsn ctx reason (plan_allow_degraded ctx) allow)).
  { intros Hun reason.
    destruct (plan_missing_lsn_cases hgm ctx reason (plan_allow_degraded ctx) allow)
      as [|(Had&?&?&?&?)]; [done|].
    apply andb_true_iff in Had as [Hx%negb_true_iff Hd%negb_true_iff].
    apply policy_degraded; auto.
    - destruct (lsn_mode_cases _ Hm) as [|Hg]; [done|]. by rewrite Hg in Hd.
    - destruct (rc_in_transaction ctx); [|done]. subst allow. rewrite Hu in Hun by done. done. }
  destruct (sc_write_unknown (rc_session ctx)) eqn:Hwu;
    [apply Hdeg; unfold session_unknown; by rewrite Hwu|].
  destruct (sc_observed_unknown (rc_session ctx)) eqn:Hou;
    [apply Hdeg; unfold session_unknown; rewrite Hou; apply orb_true_r|].
  assert (session_unknown ctx = false) as Hun by (unfold session_unknown; by rewrite Hwu, Hou).
  destruct Hwf as [Hw Ho _]. pose proof (target_is_max (rc_session ctx)) as Hmax.
  destruct (lsn_mode_cases _ Hm) as [Hmode|Hmode].
  - rewrite (bool_decide_false (plan_mode ctx = Mode_GLOBAL_LSN)) by congruence.
    cbn beta iota. apply wait_stage_policy; auto; try congruence;
      [by rewrite required_lsn_session|lia].
  - rewrite (bool_decide_true (plan_mode ctx = Mode_GLOBAL_LSN)) by done.
    unfold target_with_global_lsn. rewrite global_target_spec.
    destruct (bool_decide_reflect (get_polardb_group_lsn hgm (plan_writer_hg ctx) = 0)) as [H0|H0].
    + cbn beta iota.
      destruct (plan_missing_lsn_cases hgm ctx GROUP_LSN_UNKNOWN false allow) as [|[? _]]; done.
    + pose proof (group_lsn_u64 hgm (plan_writer_hg ctx) Hok) as [Hgn _].
      cbn beta iota. apply wait_stage_policy; auto; [by rewrite required_lsn_global|lia|lia].
Qed.

Lemma split_read_policy hgm ctx replay :
  ctx_wf ctx -> reader_placement ctx ->
  polardb_consistency_mode_uses_lsn_wait (plan_mode ctx) = true ->
  rc_in_transaction ctx = true ->
  replay = (if negb (rc_is_extended_protocol ctx) &&
               ts_wal_pending (rc_transaction_split ctx) &&
               negb (ts_primary_lsn (rc_transaction_split ctx) =? 0)
            then get_polardb_max_replica_replay_lsn hgm (rc_writer_scope ctx) else 0) ->
  polardb_txn_split_rejection_reason (rc_txn_split_enabled ctx) (rc_transaction_split ctx)
    (sc_write_unknown (rc_session ctx)) (sc_observed_unknown (rc_session ctx))
    (rc_is_multi_statement ctx) (rc_is_extended_protocol ctx)
    (rc_is_txn_split_safe_read ctx) (rc_is_txn_split_locking_read ctx) replay = RAR_NONE ->
  read_policy hgm ctx (plan_txn_split_read hgm ctx).
Proof.
  intros Hwf Hp Hm Hin Hreplay Hgate.
  apply split_gate_accepts in Hgate
    as (Hen&Hms&Hx&Hlk&Hsf&Hwu&Hou&Hbl&Hfl&Hxid&Hpl&Hwal&_).
  assert (session_unknown ctx = false) as Hun by (unfold session_unknown; by rewrite Hwu, Hou).
  assert (Hwal' : ts_wal_pending (rc_transaction_split ctx) = true ->
    ts_primary_lsn (rc_transaction_split ctx) <=
      get_polardb_max_replica_replay_lsn hgm (rc_writer_scope ctx)).
  { intros Hw. specialize (Hwal Hw). rewrite Hx, Hw in Hreplay. cbn in Hreplay.
    apply Z.eqb_neq in Hpl. rewrite Hpl in Hreplay. cbn in Hreplay. lia. }
  unfold plan_txn_split_read. rewrite global_target_spec.
  assert (forall lsn, lsn = required_split_lsn hgm ctx ->
    (plan_mode ctx = Mode_GLOBAL_LSN -> get_polardb_group_lsn hgm (plan_writer_hg ctx) <> 0) ->
    forall r,
    rd_require_replica r = true -> rd_allow_reader_without_target r = false ->
    read_policy hgm ctx (polardb_attach_reader_lag_cap hgm ctx
      (snapshot_reader_policy ctx
        (replica_txn_split (rc_reader_hg ctx) (plan_writer_hg ctx)
           (mkWaitSpec WaitType_LSN lsn (rc_wait_timeout_ms ctx) (plan_wait_mode ctx))
           (ts_xids (rc_transaction_split ctx)) <| pl_split_checked := true |>)
         <| pl_reader := r |>))) as Hsplit.
  { intros lsn -> Hg r Hr1 Hr2.
    match goal with |- read_policy _ _ (polardb_attach_reader_lag_cap _ _ ?q) =>
      pose proof (attach_lag_cap_fields hgm ctx q) as (Ha&Ht&Hw&Hxi&Hrq&Hal&_) end.
    by apply policy_split; rewrite ?Ha, ?Ht, ?Hw, ?Hxi, ?Hrq, ?Hal; auto. }
  destruct (lsn_mode_cases _ Hm) as [Hmode|Hmode].
  - rewrite (bool_decide_false (plan_mode ctx = Mode_GLOBAL_LSN)) by congruence.
    apply Hsplit; try done; [|congruence]. unfold required_split_lsn. by rewrite Hmode.
  - rewrite (bool_decide_true (plan_mode ctx = Mode_GLOBAL_LSN)) by done.
    destruct (bool_decide_reflect (get_polardb_group_lsn hgm (plan_writer_hg ctx) = 0)).
    + cbn beta iota.
      destruct (plan_missing_lsn_cases hgm ctx GROUP_LSN_UNKNOWN false true) as [|[? _]]; done.
    + apply Hsplit; try done. unfold required_split_lsn. by rewrite Hmode.
Qed.

Lemma lsn_mode_policy hgm ctx plan :
  ctx_wf ctx -> source_ok hgm -> reader_placement ctx ->
  polardb_consistency_mode_uses_lsn_wait (plan_mode ctx) = true ->
  rd_fallback_writer_hg (pl_reader plan) = plan_writer_hg ctx ->
  read_policy hgm ctx (plan_lsn_mode hgm ctx plan).
Proof.
  intros Hwf Hok Hp Hm Hf. unfold plan_lsn_mode.
  destruct (polardb_consistency_policy_error _ _ _) eqn:Hpe.
  { destruct plan. apply policy_error; [done|]. right; right. by rewrite Hpe. }
  destruct (rc_in_transaction ctx) eqn:Hin.
  2:{ apply lsn_stage_policy; auto; try done. unfold txn_permits_wait_read. congruence. }
  unfold plan_transaction_stage.
  match goal with |- context [if _ && ts_wal_pending _ && _ then ?a else 0] =>
    remember (if negb (rc_is_extended_protocol ctx) &&
      ts_wal_pending (rc_transaction_split ctx) &&
      negb (ts_primary_lsn (rc_transaction_split ctx) =? 0) then a else 0) as replay eqn:Hrep end.
  destruct (polardb_txn_split_rejection_reason _ _ _ _ _ _ _ _ _) eqn:Hgate;
    cbn [bool_decide negb andb];
    rewrite ?(bool_decide_false (_ = IN_TRANSACTION)), ?(bool_decide_false (_ = RAR_NONE))
      by discriminate; cbn [negb andb];
    try (by apply policy_writer; auto).
  { rewrite bool_decide_true by done. cbn [negb]. by eapply split_read_policy. }
  rewrite bool_decide_true by done. cbn [andb].
  destruct (rc_txn_split_enabled ctx && _ && _ && _ && _) eqn:Hpre;
    [|by apply policy_writer; auto].
  destruct (rc_txn_reader_wait_isolation_read_committed ctx && _) eqn:Hiso;
    [|by apply policy_writer; auto].
  bool_to_prop. apply lsn_stage_policy; auto.
  - intros _. unfold polardb_txn_split_rejection_reason in Hgate.
    destruct (rc_is_extended_protocol ctx); [by repeat case_if_in Hgate|]. by repeat split.
  - intros _. unfold polardb_txn_split_rejection_reason in Hgate. unfold session_unknown.
    destruct (sc_write_unknown _), (sc_observed_unknown _); try done; by repeat case_if_in Hgate.
  - by destruct plan as [? [] ? ? ? ? ? ? ? ?].
Qed.

Lemma plan_policy hgm ctx :
  ctx_wf ctx -> source_ok hgm -> read_policy hgm ctx (polardb_plan hgm ctx).
Proof.
  intros Hwf Hok. unfold polardb_plan.
  destruct (rc_is_polar_hg ctx) eqn:?; [|by apply policy_default; auto].
  destruct (rc_replica_eligible ctx) eqn:?; [|by apply policy_writer; auto].
  destruct (rc_txn_force_writer_after_reader_failure ctx && _) eqn:Hfail.
  { bool_to_prop. by apply policy_failed_reader. }
  destruct (rc_force_primary_hint ctx) eqn:?; [by apply policy_writer; auto|].
  cbn [negb]. cbn zeta.
  destruct (polardb_read_target_from_int (rc_read_target ctx)) eqn:?;
    [by apply policy_writer; auto|].
  rewrite (bool_decide_false (ReadTarget_REPLICA = ReadTarget_PRIMARY)) by done.
  destruct (bool_decide_reflect (plan_mode ctx = Mode_PRIMARY_ONLY));
    [by apply policy_writer; auto|].
  destruct (bool_decide_reflect (plan_mode ctx = Mode_OFF)); [by apply policy_default; auto|].
  destruct (rc_reader_hg ctx <? 0) eqn:?; bool_to_prop.
  { case_bool_decide; [by apply policy_error; [|left]|by apply policy_writer; auto]. }
  assert (reader_placement ctx) as Hp by by split.
  destruct (bool_decide_reflect (plan_mode ctx = Mode_EVENTUAL)).
  { destruct (rc_in_transaction ctx) eqn:?;
      [by apply policy_writer; auto|by apply policy_eventual]. }
  apply lsn_mode_policy; auto. by destruct (plan_mode ctx).
Qed.

(** C26: Refinement of the read policy.  Whatever context it is given, the
    planner returns a plan the abstract policy allows: the caller's default or
    the writer, an error only where one is configured, an eventual read, a
    read with no obligation, a wait read on exactly the required position, a
    flagged degraded read, or a split read with complete evidence. *)
Theorem plan_refines_read_policy hgm ctx :
  ctx_wf ctx -> source_ok hgm -> read_policy hgm ctx (polardb_plan hgm ctx).
Proof. apply plan_policy. Qed.

Lemma global_plan_timeout_strict hgm ctx :
  plan_mode ctx = Mode_GLOBAL_LSN ->
  pl_action (polardb_plan hgm ctx) = REPLICA_WITH_WAIT \/
  pl_action (polardb_plan hgm ctx) = REPLICA_TXN_SPLIT ->
  plan_wait_mode ctx = WaitMode_STRICT.
Proof.
  intros Hm Ha. destruct (plan_wait_mode ctx) eqn:Hw; [|done]. exfalso. revert Ha.
  unfold polardb_plan. rewrite Hm. cbn [bool_decide].
  repeat (case_if; [cbn; by intros [?|?]|]).
  case_if; [case_if; cbn; by intros [?|?]|]. case_if; [bool_to_prop; discriminate|].
  unfold plan_lsn_mode. rewrite Hm. unfold plan_wait_mode in Hw.
  destruct (plan_timeout_action ctx) eqn:Ht; try discriminate.
  destruct (polardb_missing_lsn_action_from_int _); cbn; by intros [?|?].
Qed.

(** A GLOBAL_LSN read is never weakened.  If the planner sends it to the
    reader hostgroup then the group position is known, the plan carries a
    strict LSN wait at or beyond it, and the route is not a degraded one. *)
Theorem global_reads_are_strict hgm ctx :
  let p := polardb_plan hgm ctx in
  ctx_wf ctx -> source_ok hgm -> plan_mode ctx = Mode_GLOBAL_LSN ->
  rc_reader_hg ctx <> plan_writer_hg ctx -> rc_reader_hg ctx <> rc_txn_writer_hg ctx ->
  0 <= rc_reader_hg ctx -> rc_is_polar_hg ctx = true ->
  pl_target_hg p = rc_reader_hg ctx -> pl_action p <> RETURN_ERROR ->
  get_polardb_group_lsn hgm (plan_writer_hg ctx) <> 0 /\
  wsp_type (pl_wait_spec p) = WaitType_LSN /\
  wsp_mode (pl_wait_spec p) = WaitMode_STRICT /\
  get_polardb_group_lsn hgm (plan_writer_hg ctx) <= wsp_target (pl_wait_spec p) /\
  (rc_in_transaction ctx = false ->
     target (rc_session ctx) <= wsp_target (pl_wait_spec p)) /\
  (pl_action p = REPLICA_WITH_WAIT \/ pl_action p = REPLICA_TXN_SPLIT).
Proof.
  cbn zeta. intros Hwf Hok Hm Hrw Hrt Hr Hpol Ht Hne.
  pose proof (global_plan_timeout_strict hgm ctx Hm) as Hstrict.
  destruct (plan_policy hgm ctx Hwf Hok)
    as [p ? ? Hp ?|p ? Hp ? ? ?|p ? ? Hp ?|p Hp ?|p ? ? ? ? ? ?|p ? ? ? ? ? ? ?
       |p ? ? ? ? Ha Hp Hw ? ?|p ? ? ? ? ? ? ? ? ?|p ? ? ? ? ? ? ? ? ? ? ? ? ? ? Ha Hp ? Hw ? ?];
    try congruence; try lia.
  - rewrite Hw. cbn. rewrite (required_lsn_global hgm ctx Hm).
    repeat split; auto; try lia.
  - rewrite Hw. cbn. unfold required_split_lsn. rewrite Hm.
    repeat split; auto; try lia; try congruence.
Qed.

(** In the LSN modes an unsafe query shape never leaves the writer: a
    multi-statement buffer, a locking SELECT, or a statement of a transaction
    in which a previous split read failed is planned for the writer hostgroup
    (or, for a recorded reader failure, that writer), or ends in a configured
    error. *)
Theorem unsafe_shapes_stay_on_writer hgm ctx :
  let p := polardb_plan hgm ctx in
  ctx_wf ctx -> source_ok hgm ->
  rc_is_polar_hg ctx = true -> polardb_consistency_mode_uses_lsn_wait (plan_mode ctx) = true ->
  rc_is_multi_statement ctx = true \/ rc_is_txn_split_locking_read ctx = true \/
    (rc_in_transaction ctx = true /\ ts_blocked (rc_transaction_split ctx) = true /\
     ts_xids (rc_transaction_split ctx) <> EmptyString) ->
  pl_wait_spec p = no_wait /\ pl_target_hg p = plan_writer_hg ctx \/
  pl_action p = FORCE_PRIMARY /\ pl_target_hg p = rc_txn_writer_hg ctx \/
  pl_action p = RETURN_ERROR /\ error_configured ctx.
Proof.
  cbn zeta. intros Hwf Hok Hpol Hm Hbad.
  destruct (plan_policy hgm ctx Hwf Hok) as [p [?|Hm'] ? Hp ?|p ? Hp ? ? ?|p ? ? Hp ?|p Hp ?
    |p ? Hm' ? ? ? ?|p [? ? ? ? Ht] ? ? ? ? ? ?|p [? ? ? ? Ht] ? ? ? Ha Hp Hw ? ?
    |p [? ? ? ? Ht] ? ? ? ? ? ? ? ?|p ? ? ? ? ? ? ? ? ? ? ? ? ? ? Ha Hp ? Hw ? ?]; auto;
    try (rewrite Hm' in Hm; discriminate); try congruence;
    exfalso; destruct Hbad as [?|[?|(Hin&?&?)]]; try congruence;
    specialize (Ht Hin) as (?&?&?&?&?); congruence.
Qed.

End Planner.

(** ** Witnesses

    A source pinned to one observation of each kind. *)

Record pinned_source := mkPinned { pin_group : Z; pin_replay : Z }.

#[global, refine] Instance pinned_lsn_source : LsnSource pinned_source := {
  get_polardb_group_lsn m _ := pin_group m;
  get_polardb_max_replica_replay_lsn m _ := pin_replay m;
  source_ok m := is_u64 (pin_group m) /\ is_u64 (pin_replay m)
}.
Proof. all: by intros ? ? []. Defined.

Definition sample_session : PolarDB_SessionConsistency :=
  mkConsistency 800 750 false false (mkScope 10 1).

Definition sample_ctx (mode : PolarDB_ConsistencyMode) (multi : bool)
  : PolarDB_Query_RouteCtx :=
  mkRouteCtx (mkScope 10 1) sample_session split_reset 1000 20 (mode_to_int mode)
    (read_target_to_int ReadTarget_REPLICA) (fallback_to_int Fallback_PRIMARY)
    (lsn_timeout_to_int LsnTimeout_PRIMARY) (missing_lsn_to_int MissingLsn_PRIMARY)
    (replica_loss_to_int ReplicaLoss_REPLICA_THEN_PRIMARY)
    (replica_error_to_int ReplicaError_PRIMARY) (-1)
    true true multi false false false false false true true false false (-1).

Definition sample_source : pinned_source := mkPinned 900 850.

Lemma sample_source_ok : source_ok sample_source.
Proof. vm_compute. repeat split; congruence. Qed.

Lemma sample_ctx_wf m b : ctx_wf (sample_ctx m b).
Proof. split; cbn; lia. Qed.

Lemma plan_refines_read_policy_witness :
  let ctx := sample_ctx Mode_SESSION_LSN false in
  pl_wait_spec (polardb_plan 0 sample_source ctx) =
    mkWaitSpec WaitType_LSN 800 1000 WaitMode_STRICT /\
  read_policy sample_source ctx (polardb_plan 0 sample_source ctx).
Proof.
  split; [vm_compute; reflexivity|].
  apply plan_refines_read_policy; [apply sample_ctx_wf|apply sample_source_ok].
Defined.

Lemma global_reads_are_strict_witness :
  let p := polardb_plan 0 sample_source (sample_ctx Mode_GLOBAL_LSN false) in
  wsp_mode (pl_wait_spec p) = WaitMode_STRICT /\ 900 <= wsp_target (pl_wait_spec p).
Proof.
  pose proof (global_reads_are_strict 0 sample_source (sample_ctx Mode_GLOBAL_LSN false)
    (sample_ctx_wf _ _) sample_source_ok) as H.
  destruct H as (_ & _ & H1 & H2 & _); try (vm_compute; congruence).
  split; [exact H1|exact H2].
Defined.

Lemma unsafe_shapes_stay_on_writer_witness :
  let p := polardb_plan 0 sample_source (sample_ctx Mode_SESSION_LSN true) in
  pl_wait_spec p = no_wait /\ pl_target_hg p = 10 \/
  pl_action p = FORCE_PRIMARY /\ pl_target_hg p = -1 \/
  pl_action p = RETURN_ERROR /\ error_configured (sample_ctx Mode_SESSION_LSN true).
Proof.
  apply (unsafe_shapes_stay_on_writer 0 sample_source (sample_ctx Mode_SESSION_LSN true)
    (sample_ctx_wf _ _) sample_source_ok); [reflexivity|reflexivity|by left].
Defined.
