(* ===== verification/Topology.v ===== *)
(** * Topology and LSN caches of the hostgroup manager

    The PolarDB part of lib/PgSQL_HostGroups_Manager.cpp and
    lib/PgSQL_PolarDB_Topology.cpp: per-server LSN caches, the shared group
    cells of each writer hostgroup (group LSN, replica replay maximum, writer
    epoch), the monitor and ReadyForQuery updates, and writer-epoch refresh.

    Atomic cells are plain fields: every update of one cell is a
    compare-and-swap to the maximum or a store under the write lock, so an
    execution is a sequence of the operations below; the direct
    ReadyForQuery update, which checks the epoch, waits for the server guard
    and checks again, is cut into those two steps so that other operations can
    come between them. *)

From S2P Require Import Prelude Policy Session Query Plan.
From Stdlib Require Import ZArith Ascii String List Bool Lia.
From stdpp Require Import base tactics list gmap strings pretty.

Open Scope Z_scope.
Open Scope polar_scope.

(** ** Data *)

Inductive MySerStatus :=
| SERVER_ONLINE | SERVER_SHUNNED | SERVER_OFFLINE_SOFT | SERVER_OFFLINE_HARD
| SERVER_SHUNNED_REPLICATION_LAG.

#[global] Instance MySerStatus_eq_dec : EqDecision MySerStatus.
Proof. solve_decision. Defined.

Record PgSQL_SrvC := mkSrv {
  srv_instance_id : Z;
  srv_address : string;
  srv_port : Z;
  srv_status : MySerStatus;
  srv_lsn : Z;
  srv_lsn_updated_at : Z
}.

#[global] Instance upd_srv_lsn : Update srv_lsn.
Proof. derive_update. Defined.
#[global] Instance upd_srv_lsn_updated_at : Update srv_lsn_updated_at.
Proof. derive_update. Defined.

(** [PgSQL_HGC::repl_config]; the three shared cells are its last fields. *)
Record repl_config := mkRepl {
  rg_configured : bool;
  rg_reader_hostgroup : Z;
  rg_writer_identity : string;
  rg_writer_identity_initialized : bool;
  rg_group_lsn : Z;
  rg_max_replica_replay_lsn : Z;
  rg_writer_epoch : Z
}.

#[global] Instance upd_rg_configured : Update rg_configured.
Proof. derive_update. Defined.
#[global] Instance upd_rg_reader_hostgroup : Update rg_reader_hostgroup.
Proof. derive_update. Defined.
#[global] Instance upd_rg_writer_identity : Update rg_writer_identity.
Proof. derive_update. Defined.
#[global] Instance upd_rg_writer_identity_initialized : Update rg_writer_identity_initialized.
Proof. derive_update. Defined.
#[global] Instance upd_rg_group_lsn : Update rg_group_lsn.
Proof. derive_update. Defined.
#[global] Instance upd_rg_max_replica_replay_lsn : Update rg_max_replica_replay_lsn.
Proof. derive_update. Defined.
#[global] Instance upd_rg_writer_epoch : Update rg_writer_epoch.
Proof. derive_update. Defined.

Record PgSQL_HGC := mkHGC { hgc_servers : list PgSQL_SrvC; hgc_repl : repl_config }.

#[global] Instance upd_hgc_servers : Update hgc_servers.
Proof. derive_update. Defined.
#[global] Instance upd_hgc_repl : Update hgc_repl.
Proof. derive_update. Defined.

Record PolarDB_HG_Policy := mkPolicy {
  hp_txn_split_enabled : bool;
  hp_consistency_mode : Z;
  hp_lsn_wait_timeout_ms : Z;
  hp_max_lag_bytes : Z;
  hp_proxy_protocol : Z
}.

Definition empty_policy : PolarDB_HG_Policy := mkPolicy false (-1) (-1) (-1) (-1).

Record PolarDB_HG_Config := mkHgConfig {
  hc_is_polardb_hostgroup : bool;
  hc_writer_hostgroup : Z;
  hc_reader_hostgroup : Z;
  hc_policy : PolarDB_HG_Policy;
  hc_writer_epoch : Z
}.

#[global] Instance upd_hc_writer_epoch : Update hc_writer_epoch.
Proof. derive_update. Defined.

Definition empty_hg_config : PolarDB_HG_Config := mkHgConfig false (-1) (-1) empty_policy 0.

(** A snapshot entry holds the plain configuration; its three shared pointers
    are those of the writer hostgroup the configuration names. *)
Record PgSQL_HostGroups_Manager := mkHGM {
  hgm_polardb_active : bool;
  hgm_hostgroups : gmap Z PgSQL_HGC;
  hgm_reader_to_writer : gmap Z Z;
  hgm_writer_to_reader : gmap Z Z;
  hgm_topology_snapshot : option (gmap Z PolarDB_HG_Config);
  hgm_topology_generation : Z
}.

#[global] Instance upd_hgm_polardb_active : Update hgm_polardb_active.
Proof. derive_update. Defined.
#[global] Instance upd_hgm_hostgroups : Update hgm_hostgroups.
Proof. derive_update. Defined.
#[global] Instance upd_hgm_reader_to_writer : Update hgm_reader_to_writer.
Proof. derive_update. Defined.
#[global] Instance upd_hgm_writer_to_reader : Update hgm_writer_to_reader.
Proof. derive_update. Defined.
#[global] Instance upd_hgm_topology_snapshot : Update hgm_topology_snapshot.
Proof. derive_update. Defined.
#[global] Instance upd_hgm_topology_generation : Update hgm_topology_generation.
Proof. derive_update. Defined.

Definition MyHGC_find (m : PgSQL_HostGroups_Manager) (hid : Z) : option PgSQL_HGC :=
  hgm_hostgroups m !! hid.

Definition repl_of (m : PgSQL_HostGroups_Manager) (w : Z) : option repl_config :=
  hgc_repl <$> MyHGC_find m w.

(** ** Snapshot lookups *)

Definition polardb_config_from_snapshot (m : PgSQL_HostGroups_Manager)
    (snapshot : option (gmap Z PolarDB_HG_Config)) (hostgroup_id : Z) : PolarDB_HG_Config :=
  match snapshot with
  | None => empty_hg_config
  | Some by_hostgroup =>
      match by_hostgroup !! hostgroup_id with
      | None => empty_hg_config
      | Some config =>
          match repl_of m (hc_writer_hostgroup config) with
          | Some r => config <| hc_writer_epoch := rg_writer_epoch r |>
          | None => config
          end
      end
  end.

Definition get_active_polardb_hg_config (m : PgSQL_HostGroups_Manager) (hostgroup_id : Z)
  : PolarDB_HG_Config :=
  polardb_config_from_snapshot m (hgm_topology_snapshot m) hostgroup_id.

Definition get_polardb_hg_config (m : PgSQL_HostGroups_Manager) (hostgroup_id : Z)
  : PolarDB_HG_Config :=
  if negb (hgm_polardb_active m) then empty_hg_config
  else get_active_polardb_hg_config m hostgroup_id.

Definition snapshot_config (m : PgSQL_HostGroups_Manager) (hostgroup_id : Z)
  : option PolarDB_HG_Config :=
  if negb (hgm_polardb_active m) then None
  else s ← hgm_topology_snapshot m; s !! hostgroup_id.

Definition is_polardb_hostgroup (m : PgSQL_HostGroups_Manager) (hostgroup_id : Z) : bool :=
  match snapshot_config m hostgroup_id with Some _ => true | None => false end.

Definition get_writer_hostgroup_for_reader (m : PgSQL_HostGroups_Manager) (hid : Z) : Z :=
  match snapshot_config m hid with Some c => hc_writer_hostgroup c | None => -1 end.

Definition get_reader_hostgroup_for_writer (m : PgSQL_HostGroups_Manager) (hid : Z) : Z :=
  match snapshot_config m hid with Some c => hc_reader_hostgroup c | None => -1 end.

Definition get_polardb_hg_policy (m : PgSQL_HostGroups_Manager) (hid : Z) : PolarDB_HG_Policy :=
  match snapshot_config m hid with Some c => hc_policy c | None => empty_policy end.

Definition polardb_has_effective_global_lsn (m : PgSQL_HostGroups_Manager)
    (global_consistency_mode : Z) : bool :=
  match hgm_topology_snapshot m with
  | None => false
  | Some s =>
      existsb (fun '(hid, config) =>
        hc_is_polardb_hostgroup config && (hid =? wrap32 (hc_writer_hostgroup config)) &&
        ((if 0 <=? hp_consistency_mode (hc_policy config)
          then hp_consistency_mode (hc_policy config) else global_consistency_mode)
         =? mode_to_int Mode_GLOBAL_LSN)) (map_to_list s)
  end.

(** The hostgroup id argument is unsigned. *)
Definition hgm_group_lsn (m : PgSQL_HostGroups_Manager) (writer_hostgroup_id : Z) : Z :=
  match snapshot_config m (wrap32 writer_hostgroup_id) with
  | None => 0
  | Some config =>
      match repl_of m (hc_writer_hostgroup config) with
      | Some r => rg_group_lsn r
      | None => 0
      end
  end.

Definition hgm_max_replica_replay_lsn (m : PgSQL_HostGroups_Manager)
    (writer_scope : PolarDB_WriterScope) : Z :=
  if negb (scope_valid writer_scope) then 0
  else
    match snapshot_config m (wrap32 (ws_hg writer_scope)) with
    | None => 0
    | Some config =>
        match repl_of m (hc_writer_hostgroup config) with
        | None => 0
        | Some r =>
            if rg_writer_epoch r =? ws_epoch writer_scope
            then rg_max_replica_replay_lsn r else 0
        end
    end.

(** ** Cache updates *)

(** [polardb_atomic_max_u64]: the stored value and whether it changed. *)
Definition polardb_atomic_max_u64 (cur value : Z) : Z * bool :=
  if cur <? value then (value, true) else (cur, false).

Definition polardb_advance_lsn (srv : PgSQL_SrvC) (lsn observed_at_us : Z)
  : PgSQL_SrvC * bool :=
  if lsn =? 0 then (srv, false)
  else
    let '(v, advanced) := polardb_atomic_max_u64 (srv_lsn srv) lsn in
    (srv <| srv_lsn := v |> <| srv_lsn_updated_at := observed_at_us |>, advanced).

Definition is_reader (node_type : PolarDB_NodeType) : bool :=
  (node_type == Node_REPLICA) || (node_type == Node_STANDBY).

Definition upd_hostgroup (hid : Z) (f : PgSQL_HGC -> PgSQL_HGC)
    (m : PgSQL_HostGroups_Manager) : PgSQL_HostGroups_Manager :=
  m <| hgm_hostgroups := alter f hid (hgm_hostgroups m) |>.

(** The writer hostgroup whose cells an observation in [hid] feeds. *)
Definition cell_owner (m : PgSQL_HostGroups_Manager) (hid : Z) : option Z :=
  match hgm_reader_to_writer m !! hid with
  | Some w => match MyHGC_find m w with Some _ => Some w | None => None end
  | None => match hgm_writer_to_reader m !! hid with Some _ => Some hid | None => None end
  end.

Definition raise_group_lsn (lsn : Z) (g : PgSQL_HGC) : PgSQL_HGC :=
  g <| hgc_repl := hgc_repl g
         <| rg_group_lsn := fst (polardb_atomic_max_u64 (rg_group_lsn (hgc_repl g)) lsn) |> |>.

Definition raise_replay_lsn (lsn : Z) (g : PgSQL_HGC) : PgSQL_HGC :=
  g <| hgc_repl := hgc_repl g
         <| rg_max_replica_replay_lsn :=
              fst (polardb_atomic_max_u64 (rg_max_replica_replay_lsn (hgc_repl g)) lsn) |> |>.

Definition server_is (hostname : string) (port : Z) (s : PgSQL_SrvC) : bool :=
  (srv_address s == hostname) && (srv_port s =? port).

Definition monitor_hit (hostname : string) (port : Z) (s : PgSQL_SrvC) : bool :=
  server_is hostname port s && (srv_status s == SERVER_ONLINE).

(** One iteration of the outer loop: the matching ONLINE servers of the
    hostgroup advance and feed the pair's cells.  The cell updates of several
    matching servers carry the same LSN, so one maximum covers them. *)
Definition monitor_update_hostgroup (hostname : string) (port lsn : Z)
    (node_type : PolarDB_NodeType) (now_us : Z)
    (m : PgSQL_HostGroups_Manager) (hid : Z) : PgSQL_HostGroups_Manager :=
  match MyHGC_find m hid with
  | None => m
  | Some hgc =>
      let advance s :=
        if monitor_hit hostname port s then fst (polardb_advance_lsn s lsn now_us) else s in
      let m' := upd_hostgroup hid (fun g => g <| hgc_servers := advance <$> hgc_servers g |>) m in
      if existsb (monitor_hit hostname port) (hgc_servers hgc)
      then
        match cell_owner m hid with
        | None => m'
        | Some w =>
            let m'' := upd_hostgroup w (raise_group_lsn lsn) m' in
            if is_reader node_type then upd_hostgroup w (raise_replay_lsn lsn) m'' else m''
        end
      else m'
  end.

Definition polardb_update_server_lsn_from_monitor (m : PgSQL_HostGroups_Manager)
    (hostname : cstr) (port lsn : Z) (node_type : PolarDB_NodeType) (now_us : Z)
  : PgSQL_HostGroups_Manager * bool :=
  if negb (hgm_polardb_active m) then (m, false)
  else
    match hostname with
    | None => (m, false)
    | Some hostname =>
        (foldl (monitor_update_hostgroup hostname port lsn node_type now_us) m
           (map_to_list (hgm_hostgroups m)).*1,
         existsb (fun '(_, hgc) =>
           existsb (fun s => monitor_hit hostname port s &&
                             snd (polardb_advance_lsn s lsn now_us)) (hgc_servers hgc))
           (map_to_list (hgm_hostgroups m)))
    end.

(** *** Direct ReadyForQuery observations *)

(** A pointer to a live server object: its hostgroup and position there. *)
Definition srv_handle : Type := Z * nat.

Definition deref (m : PgSQL_HostGroups_Manager) (h : srv_handle) : option PgSQL_SrvC :=
  g ← MyHGC_find m (fst h); hgc_servers g !! snd h.

Record PolarDB_PassLsnUpdate := mkPassUpdate {
  pu_server_instance_id : Z;
  pu_writer_scope : PolarDB_WriterScope;
  pu_max_lsn : Z;
  pu_last_updated_at_us : Z
}.

(** The worker's per-pass coalescing cache. *)
Record worker_pass := mkPass { wk_active : bool; wk_updates : list PolarDB_PassLsnUpdate }.

Definition POLARDB_LSN_PASS_CACHE_CAPACITY : nat := 16.
Definition POLARDB_LSN_UPDATE_MAX_DELAY_US : Z := 1000.

Fixpoint track_scan (entries : list PolarDB_PassLsnUpdate) (server_instance_id lsn : Z)
    (scope : PolarDB_WriterScope) (observed_at_us : Z)
  : option (list PolarDB_PassLsnUpdate * bool) :=
  match entries with
  | [] => None
  | e :: rest =>
      if negb (pu_server_instance_id e =? server_instance_id) || negb (scope_matches (pu_writer_scope e) scope)
      then
        match track_scan rest server_instance_id lsn scope observed_at_us with
        | Some (rest', b) => Some (e :: rest', b)
        | None => None
        end
      else
        let higher_lsn := pu_max_lsn e <? lsn in
        let refresh_due :=
          (observed_at_us <? pu_last_updated_at_us e) ||
          (POLARDB_LSN_UPDATE_MAX_DELAY_US <=?
             wrap64 (observed_at_us - pu_last_updated_at_us e)) in
        if negb higher_lsn && negb refresh_due then Some (e :: rest, false)
        else
          Some (mkPassUpdate (pu_server_instance_id e) (pu_writer_scope e)
                  (if higher_lsn then lsn else pu_max_lsn e) observed_at_us :: rest, true)
  end.

Definition polardb_track_server_lsn_update (w : worker_pass) (server : option PgSQL_SrvC)
    (lsn : Z) (scope : PolarDB_WriterScope) (observed_at_us : Z) : worker_pass * bool :=
  match server with
  | None => (w, true)
  | Some server =>
      if negb (wk_active w) || (lsn =? 0) || negb (scope_valid scope) then (w, true)
      else
        match track_scan (wk_updates w) (srv_instance_id server) lsn scope observed_at_us with
        | Some (entries, b) => (mkPass (wk_active w) entries, b)
        | None =>
            if (POLARDB_LSN_PASS_CACHE_CAPACITY <=? length (wk_updates w))%nat then (w, true)
            else (mkPass (wk_active w)
                    (wk_updates w ++ [mkPassUpdate (srv_instance_id server) scope lsn observed_at_us]), true)
        end
  end.

(** The checks before the server guard is taken; the result is the backend's
    snapshot entry. *)
Definition rfq_precheck (m : PgSQL_HostGroups_Manager) (srv : option srv_handle)
    (backend_hostgroup_id lsn : Z) (request_scope : PolarDB_WriterScope)
  : option PolarDB_HG_Config :=
  if negb (hgm_polardb_active m) then None
  else if match srv with None => true | Some _ => false end || (lsn =? 0) then None
  else if negb (scope_valid request_scope) then None
  else
    config ← snapshot_config m backend_hostgroup_id;
    r ← repl_of m (hc_writer_hostgroup config);
    if scope_matches request_scope (mkScope (hc_writer_hostgroup config) (rg_writer_epoch r))
    then Some config else None.

(** The guarded section: the epoch is checked again, then both caches move. *)
Definition rfq_commit (m : PgSQL_HostGroups_Manager) (srv : srv_handle)
    (backend_config : PolarDB_HG_Config) (lsn : Z) (request_scope : PolarDB_WriterScope)
    (now_us : Z) : PgSQL_HostGroups_Manager * bool :=
  let w := hc_writer_hostgroup backend_config in
  match repl_of m w with
  | None => (m, false)
  | Some r =>
      if negb (scope_matches request_scope (mkScope w (rg_writer_epoch r))) then (m, false)
      else
        let m' := upd_hostgroup (fst srv)
          (fun g => g <| hgc_servers :=
             alter (fun s => fst (polardb_advance_lsn s lsn now_us)) (snd srv) (hgc_servers g) |>)
          m in
        (upd_hostgroup w (raise_group_lsn lsn) m', true)
  end.

(** [worker] is null for callers outside a worker thread. *)
Definition polardb_accept_rfq_server_lsn (m : PgSQL_HostGroups_Manager)
    (srv : option srv_handle) (backend_hostgroup_id lsn : Z)
    (request_scope : PolarDB_WriterScope) (worker : option worker_pass) (now_us : Z)
  : PgSQL_HostGroups_Manager * option worker_pass * bool :=
  match rfq_precheck m srv backend_hostgroup_id lsn request_scope, srv with
  | Some config, Some handle =>
      let '(worker, update_cache) :=
        match worker with
        | None => (None, true)
        | Some w =>
            let '(w, b) := polardb_track_server_lsn_update w (deref m handle) lsn request_scope now_us in
            (Some w, b)
        end in
      if update_cache
      then let '(m, ok) := rfq_commit m handle config lsn request_scope now_us in (m, worker, ok)
      else (m, worker, true)
  | _, _ => (m, worker, false)
  end.

(** *** Writer epoch *)

Fixpoint insert_sorted (x : string) (l : list string) : list string :=
  match l with
  | [] => [x]
  | y :: r => if String.leb x y then x :: l else y :: insert_sorted x r
  end.

Fixpoint sort_strings (l : list string) : list string :=
  match l with [] => [] | x :: r => insert_sorted x (sort_strings r) end.

Definition tab : string := String (ascii_of_nat 9) EmptyString.
Definition newline : string := String (ascii_of_nat 10) EmptyString.

Definition server_identity (s : PgSQL_SrvC) : string :=
  (srv_address s +:+ tab +:+ pretty (srv_port s))%string.

Definition writer_identities (hgc : PgSQL_HGC) : list string :=
  server_identity <$>
    List.filter (fun s => srv_status s != SERVER_OFFLINE_HARD) (hgc_servers hgc).

Definition join_lines (l : list string) : string :=
  foldr (fun line acc => (line +:+ newline +:+ acc)%string) EmptyString l.

Definition polardb_writer_identity (m : PgSQL_HostGroups_Manager) (hid : Z) : string :=
  match MyHGC_find m hid with
  | None => EmptyString
  | Some hgc => join_lines (sort_strings (writer_identities hgc))
  end.

(** [polardb_reset_server_lsn_cache] on each server of the hostgroup. *)
Definition reset_server_lsn_cache (s : PgSQL_SrvC) : PgSQL_SrvC :=
  s <| srv_lsn := 0 |> <| srv_lsn_updated_at := 0 |>.

Definition polardb_reset_lsn_cache_for_hostgroup (hid : Z)
    (m : PgSQL_HostGroups_Manager) : PgSQL_HostGroups_Manager :=
  upd_hostgroup hid (fun g => g <| hgc_servers := reset_server_lsn_cache <$> hgc_servers g |>) m.

Definition upd_repl (w : Z) (f : repl_config -> repl_config) (m : PgSQL_HostGroups_Manager)
  : PgSQL_HostGroups_Manager :=
  upd_hostgroup w (fun g => g <| hgc_repl := f (hgc_repl g) |>) m.

Definition polardb_refresh_writer_epoch (w : Z) (m : PgSQL_HostGroups_Manager)
  : PgSQL_HostGroups_Manager :=
  match repl_of m w with
  | None => m
  | Some r =>
      if negb (rg_configured r) then m
      else
        let current_identity := polardb_writer_identity m w in
        if negb (rg_writer_identity_initialized r)
        then upd_repl w (fun r => r <| rg_writer_identity := current_identity |>
                                    <| rg_writer_identity_initialized := true |>) m
        else if current_identity == rg_writer_identity r then m
        else
          let m := upd_repl w (fun r => r <| rg_writer_identity := current_identity |>
                     <| rg_group_lsn := 0 |> <| rg_max_replica_replay_lsn := 0 |>) m in
          let m := polardb_reset_lsn_cache_for_hostgroup w m in
          let m := if rg_reader_hostgroup r =? w then m
                   else polardb_reset_lsn_cache_for_hostgroup (rg_reader_hostgroup r) m in
          upd_repl w (fun r => r <| rg_writer_epoch := wrap64 (rg_writer_epoch r + 1) |>) m
  end.

Definition polardb_refresh_all_writer_epochs (m : PgSQL_HostGroups_Manager)
  : PgSQL_HostGroups_Manager :=
  foldl (fun m w => polardb_refresh_writer_epoch w m) m
    (map_to_list (hgm_writer_to_reader m)).*1.

(** ** Invariants *)

Definition cells_ok (r : repl_config) : Prop :=
  0 <= rg_max_replica_replay_lsn r <= rg_group_lsn r /\ is_u64 (rg_group_lsn r) /\
  is_u64 (rg_writer_epoch r).

(** The pairing that one reload installs. *)
Record pairing_ok (m : PgSQL_HostGroups_Manager) : Prop := {
  po_reader r w : hgm_reader_to_writer m !! r = Some w -> hgm_writer_to_reader m !! w = Some r;
  po_writer w r : hgm_writer_to_reader m !! w = Some r ->
    hgm_reader_to_writer m !! r = Some w /\
    (hgm_reader_to_writer m !! w = None \/ r = w) /\
    exists g, MyHGC_find m w = Some g /\ rg_reader_hostgroup (hgc_repl g) = r
}.

Definition servers_bounded (m : PgSQL_HostGroups_Manager) : Prop :=
  forall h w g gw s, cell_owner m h = Some w -> MyHGC_find m h = Some g ->
    MyHGC_find m w = Some gw -> s ∈ hgc_servers g ->
    0 <= srv_lsn s <= rg_group_lsn (hgc_repl gw).

Record hgm_inv (m : PgSQL_HostGroups_Manager) : Prop := {
  hi_pairing : pairing_ok m;
  hi_cells w g : MyHGC_find m w = Some g -> cells_ok (hgc_repl g);
  hi_servers : servers_bounded m
}.

Lemma find_upd_hostgroup h f m h' :
  MyHGC_find (upd_hostgroup h f m) h' =
    if bool_decide (h = h') then f <$> MyHGC_find m h' else MyHGC_find m h'.
Proof.
  unfold MyHGC_find, upd_hostgroup. destruct m; cbn. case_bool_decide; subst.
  - apply lookup_alter_eq.
  - by apply lookup_alter_ne.
Qed.

Lemma upd_hostgroup_maps h f m :
  hgm_reader_to_writer (upd_hostgroup h f m) = hgm_reader_to_writer m /\
  hgm_writer_to_reader (upd_hostgroup h f m) = hgm_writer_to_reader m.
Proof. by destruct m. Qed.

Lemma cell_owner_upd h f m h' : cell_owner (upd_hostgroup h f m) h' = cell_owner m h'.
Proof.
  unfold cell_owner. destruct (upd_hostgroup_maps h f m) as [-> ->].
  destruct (hgm_reader_to_writer m !! h') as [w|]; [|done].
  rewrite find_upd_hostgroup. case_bool_decide; [|done]. by destruct (MyHGC_find m w).
Qed.

Lemma pairing_upd h f m :
  (forall g, rg_reader_hostgroup (hgc_repl (f g)) = rg_reader_hostgroup (hgc_repl g)) ->
  pairing_ok m -> pairing_ok (upd_hostgroup h f m).
Proof.
  intros Hf [Hr Hw]. destruct (upd_hostgroup_maps h f m) as [E1 E2].
  split; rewrite E1, E2; [done|]. intros w r Hwr. destruct (Hw w r Hwr) as (?&?&g&Hg&?).
  repeat split; [done..|]. rewrite find_upd_hostgroup. case_bool_decide; [|eauto].
  exists (f g). rewrite Hg. split; [done|]. by rewrite Hf.
Qed.

Lemma owner_shape m h w :
  pairing_ok m -> cell_owner m h = Some w -> h = w \/ hgm_writer_to_reader m !! w = Some h.
Proof.
  intros [Hr _]. unfold cell_owner. destruct (hgm_reader_to_writer m !! h) eqn:E.
  - destruct (MyHGC_find m z); [|done]. intros [= ->]. right. by apply Hr.
  - destruct (hgm_writer_to_reader m !! h); [|done]. intros [= ->]. by left.
Qed.

Lemma atomic_max_spec cur v : fst (polardb_atomic_max_u64 cur v) = Z.max cur v.
Proof. unfold polardb_atomic_max_u64. case_if; cbn; bool_to_prop; lia. Qed.

Lemma advance_lsn_spec s lsn now :
  0 <= srv_lsn s -> 0 <= lsn ->
  srv_lsn (fst (polardb_advance_lsn s lsn now)) = Z.max (srv_lsn s) lsn.
Proof.
  intros ? ?. unfold polardb_advance_lsn. case_if; bool_to_prop; [cbn; lia|].
  unfold polardb_atomic_max_u64. destruct s; cbn in *. case_if; cbn; bool_to_prop; lia.
Qed.

(** Advancing some servers of [h] to at most [lsn] together with the cells of
    the pair keeps the invariant, whichever the direction of the update. *)
Lemma observation_inv m h w lsn (replay : bool) (T : list PgSQL_SrvC -> list PgSQL_SrvC) :
  hgm_inv m -> is_u64 lsn -> cell_owner m h = Some w ->
  (forall l s', s' ∈ T l -> exists s, s ∈ l /\
     (srv_lsn s' = srv_lsn s \/ (0 <= srv_lsn s -> srv_lsn s' = Z.max (srv_lsn s) lsn))) ->
  let m1 := upd_hostgroup h (fun g => g <| hgc_servers := T (hgc_servers g) |>) m in
  let m2 := upd_hostgroup w (raise_group_lsn lsn) m1 in
  hgm_inv (if replay then upd_hostgroup w (raise_replay_lsn lsn) m2 else m2).
Proof.
  intros [Hp Hc Hs] Hlsn Ho HT. cbn zeta.
  set (F := fun (k : Z) (g : PgSQL_HGC) => (if bool_decide (w = k)
     then (if replay then raise_replay_lsn lsn else id) ∘ raise_group_lsn lsn else id)
     ((if bool_decide (h = k) then fun g : PgSQL_HGC => g <| hgc_servers := T (hgc_servers g) |> else id) g)).
  match goal with |- hgm_inv ?x => set (m' := x) end.
  assert (pairing_ok m') as Hp'
    by (subst m'; destruct replay; repeat (apply pairing_upd; [by intros [? []]|]); done).
  assert (forall k, cell_owner m' k = cell_owner m k) as Ho'
    by (intros; subst m'; destruct replay; by rewrite !cell_owner_upd).
  assert (forall k, MyHGC_find m' k = F k <$> MyHGC_find m k) as HF.
  { intros k. subst F m'. destruct replay; rewrite !find_upd_hostgroup;
      destruct (MyHGC_find m k); repeat case_bool_decide; done. }
  unfold is_u64 in Hlsn.
  split; [done| |].
  - intros k g'. rewrite HF. destruct (MyHGC_find m k) as [g|] eqn:E; [|done].
    intros [= <-]. apply Hc in E as (?&?&?). subst F. cbn.
    destruct g as [l []]; unfold cells_ok, is_u64, raise_group_lsn, raise_replay_lsn in *.
    destruct replay; repeat case_bool_decide; cbn in *; rewrite ?atomic_max_spec; lia.
  - intros k w' g' gw' s'. rewrite Ho', !HF. intros Hok.
    destruct (MyHGC_find m k) as [g|] eqn:E; [|done].
    destruct (MyHGC_find m w') as [gw|] eqn:Ew; [|done].
    intros [= <-] [= <-] Hin.
    assert (hgc_servers (F k g) = if bool_decide (h = k) then T (hgc_servers g) else hgc_servers g)
      as Hsv by (subst F; destruct g as [? []], replay; repeat case_bool_decide; done).
    assert (rg_group_lsn (hgc_repl gw) <= rg_group_lsn (hgc_repl (F w' gw)) /\
      (w = w' -> lsn <= rg_group_lsn (hgc_repl (F w' gw)))) as [Hge Hl].
    { subst F; destruct gw as [? []]; unfold raise_group_lsn, raise_replay_lsn.
      destruct replay; repeat case_bool_decide; cbn; rewrite ?atomic_max_spec; split; intros; try lia;
        congruence. }
    rewrite Hsv in Hin. case_bool_decide as Hhk.
    + subst k. destruct (HT _ _ Hin) as (s&Hs'&Hval).
      specialize (Hs h w' g gw s Hok E Ew Hs'). assert (w = w') as Hww by congruence.
      specialize (Hl Hww). lia.
    + specialize (Hs k w' g gw s' Hok E Ew Hin). lia.
Qed.

Lemma monitor_hostgroup_inv host port lsn node now m h :
  is_u64 lsn -> hgm_inv m -> hgm_inv (monitor_update_hostgroup host port lsn node now m h).
Proof.
  intros Hl Hi. unfold monitor_update_hostgroup. destruct (MyHGC_find m h) as [g|] eqn:E; [|done].
  set (adv := fun s : PgSQL_SrvC =>
    if monitor_hit host port s then fst (polardb_advance_lsn s lsn now) else s).
  assert (Hadv : forall (l : list PgSQL_SrvC) s', s' ∈ adv <$> l -> exists s, s ∈ l /\
    (srv_lsn s' = srv_lsn s \/ (0 <= srv_lsn s -> srv_lsn s' = Z.max (srv_lsn s) lsn))).
  { intros l s' (s&->&Hin)%list_elem_of_fmap. exists s. split; [done|]. subst adv. cbn beta.
    case_if; [|by left]. right. intros. apply advance_lsn_spec; [done|apply Hl]. }
  destruct (cell_owner m h) as [w|] eqn:Ho.
  - destruct (existsb _ _) eqn:Hex.
    + pose proof (observation_inv m h w lsn (is_reader node) (fmap adv) Hi Hl Ho Hadv) as H.
      cbn zeta in H. destruct (is_reader node); exact H.
    + cbn zeta. assert (upd_hostgroup h (fun g => g <| hgc_servers := adv <$> hgc_servers g |>) m = m)
        as ->; [|done].
      destruct m as [? hgs ? ? ? ?]. unfold upd_hostgroup, MyHGC_find in *. cbn in *. f_equal.
      apply map_eq. intros k. destruct (decide (k = h)) as [->|];
        [|by rewrite lookup_alter_ne]. rewrite lookup_alter_eq, E. cbn. f_equal. destruct g as [l ?].
      cbn in *. unfold update, upd_hgc_servers. f_equal. clear -Hex. subst adv.
      induction l as [|s l IH]; cbn in *; [done|]. apply orb_false_iff in Hex as [Hs Hex].
      rewrite Hs, IH; done.
  - assert (hgm_inv (upd_hostgroup h (fun g => g <| hgc_servers := adv <$> hgc_servers g |>) m)).
    { destruct Hi as [Hp Hc Hs]. split.
      - apply pairing_upd; [by intros []|done].
      - intros k g'. rewrite find_upd_hostgroup. case_bool_decide; [|apply Hc]. subst.
        rewrite E. intros [= <-]. apply Hc in E. by destruct g.
      - intros k w g' gw s. rewrite cell_owner_upd, !find_upd_hostgroup. intros Hok.
        assert (h <> k) by congruence. rewrite (bool_decide_false (h = k)) by done.
        intros Hk Hw Hin. case_bool_decide; [|by eapply Hs]. subst.
        rewrite E in Hw. injection Hw as <-. destruct g as [l r]. exact (Hs k w g' (mkHGC l r) s Hok Hk E Hin). }
    destruct (existsb _ _); done.
Qed.

Lemma monitor_inv m host port lsn node now :
  is_u64 lsn -> hgm_inv m ->
  hgm_inv (fst (polardb_update_server_lsn_from_monitor m host port lsn node now)).
Proof.
  intros Hl Hi. unfold polardb_update_server_lsn_from_monitor.
  destruct (hgm_polardb_active m); [|done]. destruct host as [host|]; [|done]. cbn.
  generalize ((map_to_list (hgm_hostgroups m)).*1). intros l. revert m Hi.
  induction l as [|h l IH]; intros m Hi; [done|]. cbn. apply IH. by apply monitor_hostgroup_inv.
Qed.

Lemma rfq_commit_inv m srv config lsn scope now :
  is_u64 lsn -> hgm_inv m -> cell_owner m (fst srv) = Some (hc_writer_hostgroup config) ->
  hgm_inv (fst (rfq_commit m srv config lsn scope now)).
Proof.
  intros Hl Hi Ho. unfold rfq_commit. destruct (repl_of m _); [|done]. case_if; [done|].
  apply (observation_inv m _ _ lsn false
    (alter (fun s => fst (polardb_advance_lsn s lsn now)) (snd srv)) Hi Hl Ho).
  intros l s' Hin. apply list_elem_of_lookup in Hin as [i Hi'].
  rewrite list_lookup_alter in Hi'.
  destruct (decide (snd srv = i)) as [->|Hne].
  - destruct (l !! i) as [s|] eqn:Es; [|done]. injection Hi' as <-.
    exists s. split; [by eapply list_elem_of_lookup_2|]. right. intros.
    apply advance_lsn_spec; [done|apply Hl].
  - exists s'. split; [by eapply list_elem_of_lookup_2|]. by left.
Qed.

(** *** Epoch refresh *)

Definition resets_epoch (m : PgSQL_HostGroups_Manager) (w : Z) (r : repl_config) : bool :=
  rg_configured r && rg_writer_identity_initialized r &&
  (polardb_writer_identity m w != rg_writer_identity r).

(** The hostgroup [k] of a pair [w] whose identity changed, after the reset. *)
Definition reset_hgc (m : PgSQL_HostGroups_Manager) (w reader k : Z) (g : PgSQL_HGC) : PgSQL_HGC :=
  mkHGC (if bool_decide (k = w \/ k = reader)
         then reset_server_lsn_cache <$> hgc_servers g else hgc_servers g)
    (if bool_decide (k = w)
     then mkRepl (rg_configured (hgc_repl g)) (rg_reader_hostgroup (hgc_repl g))
            (polardb_writer_identity m w) (rg_writer_identity_initialized (hgc_repl g)) 0 0
            (wrap64 (rg_writer_epoch (hgc_repl g) + 1))
     else hgc_repl g).

Lemma refresh_find m w r k :
  repl_of m w = Some r -> resets_epoch m w r = true ->
  MyHGC_find (polardb_refresh_writer_epoch w m) k =
    reset_hgc m w (rg_reader_hostgroup r) k <$> MyHGC_find m k.
Proof.
  intros Hr Hre. unfold polardb_refresh_writer_epoch. rewrite Hr.
  unfold resets_epoch in Hre. bool_to_prop. rewrite H, H1. cbn [negb].
  rewrite (bool_decide_false (polardb_writer_identity m w = _)) by done.
  unfold upd_repl, polardb_reset_lsn_cache_for_hostgroup, reset_hgc.
  cbn zeta. generalize (polardb_writer_identity m w). intros ident.
  destruct (rg_reader_hostgroup r =? w) eqn:Erw; bool_to_prop;
    rewrite !find_upd_hostgroup; destruct (MyHGC_find m k) as [[l []]|];
    repeat case_bool_decide; subst; cbn; try done; naive_solver.
Qed.

Lemma refresh_keeps m w k g :
  MyHGC_find m k = Some g ->
  (forall r, repl_of m w = Some r -> resets_epoch m w r = false) ->
  exists g', MyHGC_find (polardb_refresh_writer_epoch w m) k = Some g' /\
    hgc_servers g' = hgc_servers g /\
    rg_reader_hostgroup (hgc_repl g') = rg_reader_hostgroup (hgc_repl g) /\
    rg_group_lsn (hgc_repl g') = rg_group_lsn (hgc_repl g) /\
    rg_max_replica_replay_lsn (hgc_repl g') = rg_max_replica_replay_lsn (hgc_repl g) /\
    rg_writer_epoch (hgc_repl g') = rg_writer_epoch (hgc_repl g).
Proof.
  intros Hg Hno. unfold polardb_refresh_writer_epoch.
  destruct (repl_of m w) as [r|] eqn:Hr; [|by exists g].
  specialize (Hno r eq_refl). unfold resets_epoch in Hno.
  destruct (rg_configured r); [|by exists g]. cbn [negb].
  destruct (rg_writer_identity_initialized r); cbn [negb].
  - cbn [andb] in Hno. bool_to_prop. rewrite bool_decide_true by done. by exists g.
  - unfold upd_repl. rewrite find_upd_hostgroup, Hg.
    destruct (bool_decide_reflect (w = k)); [|by exists g]. eexists. split; [reflexivity|]. by destruct g as [? []].
Qed.

Lemma refresh_maps w m :
  hgm_reader_to_writer (polardb_refresh_writer_epoch w m) = hgm_reader_to_writer m /\
  hgm_writer_to_reader (polardb_refresh_writer_epoch w m) = hgm_writer_to_reader m.
Proof.
  unfold polardb_refresh_writer_epoch, upd_repl, polardb_reset_lsn_cache_for_hostgroup.
  destruct (repl_of m w); [|done]. cbn zeta. repeat case_if; destruct m; done.
Qed.

Lemma refresh_none w m k :
  MyHGC_find m k = None -> MyHGC_find (polardb_refresh_writer_epoch w m) k = None.
Proof.
  intros Hn. unfold polardb_refresh_writer_epoch, upd_repl,
    polardb_reset_lsn_cache_for_hostgroup. destruct (repl_of m w); [|done]. cbn zeta.
  repeat case_if; rewrite ?find_upd_hostgroup, Hn; repeat case_bool_decide; done.
Qed.

(** The refresh as one pointwise effect. *)
Lemma refresh_cases m w :
  (exists r, repl_of m w = Some r /\ resets_epoch m w r = true) \/
  (forall r, repl_of m w = Some r -> resets_epoch m w r = false).
Proof.
  destruct (repl_of m w) as [r|]; [|by right].
  destruct (resets_epoch m w r) eqn:?; [left; eauto|right; by intros ? [= <-]].
Qed.

Lemma refresh_pairing w m : pairing_ok m -> pairing_ok (polardb_refresh_writer_epoch w m).
Proof.
  intros [Hr Hw]. destruct (refresh_maps w m) as [E1 E2]. split; rewrite E1, E2; [done|].
  intros w' r' Hw'. destruct (Hw w' r' Hw') as (?&?&g&Hg&?). repeat split; [done..|].
  destruct (refresh_cases m w) as [(r&Hre&Hres)|Hno].
  - rewrite (refresh_find _ _ _ _ Hre Hres), Hg. eexists. split; [reflexivity|].
    unfold reset_hgc. cbn. by case_bool_decide.
  - destruct (refresh_keeps m w w' g Hg Hno) as (g'&?&?&E&?). exists g'. by rewrite E.
Qed.

Lemma refresh_owner w m k : cell_owner (polardb_refresh_writer_epoch w m) k = cell_owner m k.
Proof.
  unfold cell_owner. destruct (refresh_maps w m) as [-> ->].
  destruct (hgm_reader_to_writer m !! k) as [w'|]; [|done].
  destruct (MyHGC_find m w') as [g|] eqn:Hg.
  - destruct (refresh_cases m w) as [(r&Hre&Hres)|Hno].
    + by rewrite (refresh_find _ _ _ _ Hre Hres), Hg.
    + by destruct (refresh_keeps m w w' g Hg Hno) as (g'&->&_).
  - by rewrite (refresh_none w m w' Hg).
Qed.

Lemma refresh_inv w m : hgm_inv m -> hgm_inv (polardb_refresh_writer_epoch w m).
Proof.
  intros [Hp Hc Hs]. split; [by apply refresh_pairing| |].
  - intros k g'. destruct (MyHGC_find m k) as [g|] eqn:Hg; [|by rewrite refresh_none].
    destruct (refresh_cases m w) as [(r&Hre&Hres)|Hno].
    + rewrite (refresh_find _ _ _ _ Hre Hres), Hg. intros [= <-]. unfold reset_hgc.
      cbn. case_bool_decide; [|by eapply Hc].
      repeat split; cbn; try lia; apply wrap64_range.
    + destruct (refresh_keeps m w k g Hg Hno) as (g1&->&_&_&E1&E2&E3). intros [= <-].
      unfold cells_ok. rewrite E1, E2, E3. by eapply Hc.
  - intros k w' g' gw' s. rewrite refresh_owner. intros Ho.
    destruct (MyHGC_find m k) as [g|] eqn:Hg; [|by rewrite refresh_none].
    destruct (MyHGC_find m w') as [gw|] eqn:Hgw; [|by rewrite (refresh_none w m w')].
    destruct (refresh_cases m w) as [(r&Hre&Hres)|Hno].
    + rewrite !(refresh_find _ _ _ _ Hre Hres), Hg, Hgw. intros [= <-] [= <-].
      unfold reset_hgc. cbn [hgc_servers hgc_repl]. pose proof (Hc _ _ Hgw) as ((?&?)&?&_).
      destruct (bool_decide_reflect (w' = w)) as [->|Hne].
      * assert (k = w \/ k = rg_reader_hostgroup r) as Hk.
        { destruct (owner_shape m k w Hp Ho) as [|Hwr]; [by left|right].
          destruct (po_writer _ Hp _ _ Hwr) as (_&_&g2&Hg2&<-).
          unfold repl_of in Hre. rewrite Hg2 in Hre. by injection Hre as <-. }
        rewrite (bool_decide_true (k = w \/ _)) by done.
        intros (s0&->&_)%list_elem_of_fmap. by destruct s0.
      * case_bool_decide; intros Hin; [|by eapply Hs].
        apply list_elem_of_fmap in Hin as (s0&->&_). destruct s0; cbn. lia.
    + destruct (refresh_keeps m w k g Hg Hno) as (g1&->&Es&_).
      destruct (refresh_keeps m w w' gw Hgw Hno) as (g2&->&_&_&E1&_).
      intros [= <-] [= <-]. rewrite Es, E1. by eapply Hs.
Qed.

(** ** The cache machine

    What happens to the caches between two reloads of the pairing: monitor
    observations, guarded ReadyForQuery commits (from a precheck at any earlier
    moment), writer-epoch refreshes, and changes of a hostgroup's servers that
    bring no LSN of their own. *)
Inductive hgm_step (m : PgSQL_HostGroups_Manager) : PgSQL_HostGroups_Manager -> Prop :=
| hgm_monitor host port lsn node now :
    is_u64 lsn ->
    hgm_step m (fst (polardb_update_server_lsn_from_monitor m host port lsn node now))
| hgm_rfq srv config lsn scope now :
    is_u64 lsn -> cell_owner m (fst srv) = Some (hc_writer_hostgroup config) ->
    hgm_step m (fst (rfq_commit m srv config lsn scope now))
| hgm_refresh w :
    (forall r, repl_of m w = Some r -> rg_writer_epoch r < UINT64_MAX) ->
    hgm_step m (polardb_refresh_writer_epoch w m)
| hgm_servers_change h servers :
    (forall g s, MyHGC_find m h = Some g -> s ∈ servers ->
       srv_lsn s = 0 \/ exists s0, s0 ∈ hgc_servers g /\ srv_lsn s = srv_lsn s0) ->
    hgm_step m (upd_hostgroup h (fun g => g <| hgc_servers := servers |>) m).

Lemma servers_change_inv m h servers :
  hgm_inv m ->
  (forall g s, MyHGC_find m h = Some g -> s ∈ servers ->
     srv_lsn s = 0 \/ exists s0, s0 ∈ hgc_servers g /\ srv_lsn s = srv_lsn s0) ->
  hgm_inv (upd_hostgroup h (fun g => g <| hgc_servers := servers |>) m).
Proof.
  intros [Hp Hc Hs] Hsrc. split.
  - apply pairing_upd; [by intros []|done].
  - intros k g. rewrite find_upd_hostgroup. case_bool_decide; [|apply Hc].
    destruct (MyHGC_find m k) as [g0|] eqn:E; [|done]. intros [= <-]. apply Hc in E. by destruct g0.
  - intros k w g gw s. rewrite cell_owner_upd, !find_upd_hostgroup. intros Ho Hk Hw Hin.
    assert (exists gw0, MyHGC_find m w = Some gw0 /\ hgc_repl gw = hgc_repl gw0) as (gw0&Hw0&->).
    { destruct (bool_decide_reflect (h = w)); [|by eauto].
      destruct (MyHGC_find m w) as [[]|]; [|done]. injection Hw as <-. eauto. }
    destruct (bool_decide_reflect (h = k)); [|by eapply Hs]. subst. destruct (MyHGC_find m k) as [g0|] eqn:E; [|done].
    injection Hk as <-. destruct g0 as [l0 r0].
    destruct (Hsrc _ s eq_refl Hin) as [->|(s0&Hs0&->)]; [|by eapply Hs].
    destruct (Hc _ _ Hw0) as ((?&?)&?&_). lia.
Qed.

Lemma hgm_step_inv m m' : hgm_step m m' -> hgm_inv m -> hgm_inv m'.
Proof.
  intros [ | | |] Hi; eauto using monitor_inv, rfq_commit_inv, refresh_inv, servers_change_inv.
Qed.

(** Cells that only move forward. *)
Definition cells_forward (m m' : PgSQL_HostGroups_Manager) : Prop :=
  forall w g, MyHGC_find m w = Some g -> exists g', MyHGC_find m' w = Some g' /\
    rg_writer_epoch (hgc_repl g') = rg_writer_epoch (hgc_repl g) /\
    rg_group_lsn (hgc_repl g) <= rg_group_lsn (hgc_repl g') /\
    rg_max_replica_replay_lsn (hgc_repl g) <= rg_max_replica_replay_lsn (hgc_repl g').

Lemma cells_forward_refl m : cells_forward m m.
Proof. intros w g ?. eexists; repeat split; eauto; lia. Qed.

Lemma cells_forward_trans a b c : cells_forward a b -> cells_forward b c -> cells_forward a c.
Proof.
  intros H1 H2 w g Hg. destruct (H1 w g Hg) as (g1&Hg1&?&?&?).
  destruct (H2 w g1 Hg1) as (g2&Hg2&?&?&?). exists g2. repeat split; [done|congruence|lia|lia].
Qed.

Lemma cells_forward_upd h f m :
  (forall g, rg_writer_epoch (hgc_repl (f g)) = rg_writer_epoch (hgc_repl g) /\
     rg_group_lsn (hgc_repl g) <= rg_group_lsn (hgc_repl (f g)) /\
     rg_max_replica_replay_lsn (hgc_repl g) <= rg_max_replica_replay_lsn (hgc_repl (f g))) ->
  cells_forward m (upd_hostgroup h f m).
Proof.
  intros Hf w g Hg. rewrite find_upd_hostgroup, Hg. destruct (Hf g) as (?&?&?).
  case_bool_decide; eexists; (split; [reflexivity|]); repeat split; auto; lia.
Qed.

Lemma raise_group_forward h lsn m : cells_forward m (upd_hostgroup h (raise_group_lsn lsn) m).
Proof.
  apply cells_forward_upd. intros [? []]. unfold raise_group_lsn. cbn. rewrite atomic_max_spec. lia.
Qed.

Lemma raise_replay_forward h lsn m : cells_forward m (upd_hostgroup h (raise_replay_lsn lsn) m).
Proof.
  apply cells_forward_upd. intros [? []]. unfold raise_replay_lsn. cbn. rewrite atomic_max_spec. lia.
Qed.

Lemma set_servers_forward h f m :
  cells_forward m (upd_hostgroup h (fun g => g <| hgc_servers := f g |>) m).
Proof. apply cells_forward_upd. intros []. cbn. lia. Qed.

#[local] Hint Resolve cells_forward_refl raise_group_forward raise_replay_forward
  set_servers_forward : polar.

Lemma monitor_forward m host port lsn node now :
  cells_forward m (fst (polardb_update_server_lsn_from_monitor m host port lsn node now)).
Proof.
  unfold polardb_update_server_lsn_from_monitor. destruct (hgm_polardb_active m);
    [|cbn; auto with polar]. destruct host as [host|]; [|cbn; auto with polar]. cbn.
  generalize ((map_to_list (hgm_hostgroups m)).*1). intros l. revert m.
  induction l as [|h l IH]; intros m; cbn; [auto with polar|].
  eapply cells_forward_trans; [|apply IH]. unfold monitor_update_hostgroup.
  destruct (MyHGC_find m h); [|auto with polar]. cbn zeta.
  destruct (existsb _ _); [|auto with polar]. destruct (cell_owner m h); [|auto with polar].
  destruct (is_reader node).
  - eapply cells_forward_trans; [|apply raise_replay_forward].
    eapply cells_forward_trans; [|apply raise_group_forward]. auto with polar.
  - eapply cells_forward_trans; [|apply raise_group_forward]. auto with polar.
Qed.

Lemma rfq_commit_forward m srv config lsn scope now :
  cells_forward m (fst (rfq_commit m srv config lsn scope now)).
Proof.
  unfold rfq_commit. destruct (repl_of m _); [|auto with polar]. cbn zeta.
  case_if; [auto with polar|]. cbn.
  eapply cells_forward_trans; [|apply raise_group_forward]. auto with polar.
Qed.

(** One step moves the cells of a pair forward within the epoch, or opens the
    next epoch with empty cells. *)
Definition cells_step (r r' : repl_config) : Prop :=
  (rg_writer_epoch r' = rg_writer_epoch r /\ rg_group_lsn r <= rg_group_lsn r' /\
   rg_max_replica_replay_lsn r <= rg_max_replica_replay_lsn r') \/
  rg_writer_epoch r < rg_writer_epoch r'.

Lemma hgm_step_cells m m' w g :
  hgm_inv m -> hgm_step m m' -> MyHGC_find m w = Some g ->
  exists g', MyHGC_find m' w = Some g' /\ cells_step (hgc_repl g) (hgc_repl g').
Proof.
  intros Hi Hs Hg. assert (Hfwd : cells_forward m m' -> exists g', MyHGC_find m' w = Some g' /\
    cells_step (hgc_repl g) (hgc_repl g')).
  { intros Hf. destruct (Hf w g Hg) as (g'&?&?&?&?). exists g'. split; [done|]. by left. }
  destruct Hs as [host port lsn node now _|srv config lsn scope now _ _|w' Hmax|h servers _].
  - apply Hfwd, monitor_forward.
  - apply Hfwd, rfq_commit_forward.
  - destruct (refresh_cases m w') as [(r&Hre&Hres)|Hno].
    + rewrite (refresh_find _ _ _ _ Hre Hres), Hg. eexists. split; [reflexivity|].
      unfold reset_hgc, cells_step. cbn. destruct (bool_decide_reflect (w = w')) as [->|];
        [|left; lia]. right. cbn. specialize (Hmax r Hre).
      unfold repl_of in Hre. rewrite Hg in Hre. injection Hre as <-.
      destruct (hi_cells _ Hi _ _ Hg) as (_&_&He). unfold is_u64, UINT64_MAX, U64_MODULUS in *.
      rewrite wrap64_id by (unfold is_u64, U64_MODULUS; lia). lia.
    + destruct (refresh_keeps m w' w g Hg Hno) as (g'&?&_&_&?&?&?). exists g'. split; [done|].
      left. lia.
  - apply Hfwd, (set_servers_forward _ (fun _ => servers)).
Qed.

(** C28: The LSN caches stay coherent.  In every state the cache machine reaches
    from a coherent one, the cells of every writer hostgroup are 64-bit values
    with replica replay at most the group LSN, and no server of the pair
    caches a position beyond its group LSN. *)
Theorem lsn_cache_invariant m m' : steps hgm_step m m' -> hgm_inv m -> hgm_inv m'.
Proof. apply steps_invariant. intros a b Ha Hab. by eapply hgm_step_inv. Qed.

(** One timeline per epoch.  Along every run of the cache machine a pair's
    writer epoch never decreases, and as long as it is unchanged its group LSN
    and replica-replay maximum never move back: a position that vanishes from
    the cache is always announced by a new epoch. *)
Theorem epoch_timeline_monotone m m' w g :
  hgm_inv m -> steps hgm_step m m' -> MyHGC_find m w = Some g ->
  exists g', MyHGC_find m' w = Some g' /\
    rg_writer_epoch (hgc_repl g) <= rg_writer_epoch (hgc_repl g') /\
    (rg_writer_epoch (hgc_repl g') = rg_writer_epoch (hgc_repl g) ->
       rg_group_lsn (hgc_repl g) <= rg_group_lsn (hgc_repl g') /\
       rg_max_replica_replay_lsn (hgc_repl g) <= rg_max_replica_replay_lsn (hgc_repl g')).
Proof.
  intros Hi Hs Hg. induction Hs as [m|m b c Hmb IH Hbc]; [exists g; repeat split; auto; lia|].
  destruct (IH Hi Hg) as (g1&Hg1&He1&Hm1).
  assert (hgm_inv b) as Hb
    by (eapply steps_invariant; [|exact Hmb|done]; intros; by eapply hgm_step_inv).
  destruct (hgm_step_cells b c w g1 Hb Hbc Hg1) as (g2&Hg2&[(?&?&?)|?]);
    exists g2; repeat split; try done; try lia; intros; specialize (Hm1 ltac:(lia)); lia.
Qed.

(** An observation of another writer epoch never reaches a cache.  A
    ReadyForQuery position is refused, and nothing changes, when the request's
    scope is not the backend's current writer and epoch, whether the mismatch
    is there at the first check or appears before the guarded commit. *)
Theorem stale_rfq_is_refused m srv backend_hg lsn scope worker now :
  (forall config r, snapshot_config m backend_hg = Some config ->
     repl_of m (hc_writer_hostgroup config) = Some r ->
     scope <> mkScope (hc_writer_hostgroup config) (rg_writer_epoch r)) ->
  polardb_accept_rfq_server_lsn m srv backend_hg lsn scope worker now = (m, worker, false) /\
  (forall config r handle, repl_of m (hc_writer_hostgroup config) = Some r ->
     scope <> mkScope (hc_writer_hostgroup config) (rg_writer_epoch r) ->
     rfq_commit m handle config lsn scope now = (m, false)).
Proof.
  assert (Hm : forall h e, scope <> mkScope h e -> scope_matches scope (mkScope h e) = false).
  { intros h e Hne. destruct (scope_matches scope _) eqn:E; [|done]. exfalso. apply Hne.
    unfold scope_matches in E. destruct scope. cbn in *. bool_to_prop. by subst. }
  intros Hstale. split.
  - unfold polardb_accept_rfq_server_lsn.
    enough (rfq_precheck m srv backend_hg lsn scope = None) as -> by done.
    unfold rfq_precheck. destruct (negb (hgm_polardb_active m)); [done|].
    destruct (_ || _); [done|]. destruct (negb (scope_valid scope)); [done|].
    destruct (snapshot_config m backend_hg) as [config|] eqn:Hc; [|done]. cbn.
    destruct (repl_of m _) as [r|] eqn:Hr; [|done]. cbn. by rewrite Hm by eauto.
  - intros config r handle Hr Hne. unfold rfq_commit. rewrite Hr, Hm by done. done.
Qed.

(** The hostgroup manager implements the planner's interface: from a
    coherent cache both observations are 64-bit positions, a stale writer
    scope proves no replay at all, and a proven replay position never exceeds
    the group LSN. *)
Theorem replay_proof_is_scoped m scope :
  hgm_inv m ->
  (forall config r, snapshot_config m (wrap32 (ws_hg scope)) = Some config ->
     repl_of m (hc_writer_hostgroup config) = Some r ->
     rg_writer_epoch r <> ws_epoch scope -> hgm_max_replica_replay_lsn m scope = 0) /\
  0 <= hgm_max_replica_replay_lsn m scope <= hgm_group_lsn m (ws_hg scope) /\
  is_u64 (hgm_group_lsn m (ws_hg scope)).
Proof.
  intros Hi. unfold hgm_max_replica_replay_lsn, hgm_group_lsn. split.
  - intros config r -> -> Hne. apply Z.eqb_neq in Hne. rewrite Hne. by case_if.
  - destruct (snapshot_config m _) as [config|]; [|by case_if; vm_compute].
    destruct (repl_of m _) as [r|] eqn:Hr; [|by case_if; vm_compute].
    assert (cells_ok r) as (Hc1&Hc2&_).
    { unfold repl_of in Hr. destruct (MyHGC_find m _) as [g|] eqn:Hg; [|done].
      injection Hr as <-. by eapply (hi_cells _ Hi). }
    split; [|done]. unfold is_u64 in Hc2. repeat case_if; lia.
Qed.

Lemma hgm_group_lsn_u64 m hg : hgm_inv m -> is_u64 (hgm_group_lsn m hg).
Proof.
  intros Hi. unfold hgm_group_lsn. destruct (snapshot_config m _) as [config|]; [|by vm_compute].
  unfold repl_of. destruct (MyHGC_find m _) as [g|] eqn:Hg; [|by vm_compute]. cbn.
  by apply (hi_cells _ Hi _ _ Hg).
Qed.

Lemma hgm_replay_u64 m s : hgm_inv m -> is_u64 (hgm_max_replica_replay_lsn m s).
Proof.
  intros Hi. unfold hgm_max_replica_replay_lsn. case_if; [by vm_compute|].
  destruct (snapshot_config m _) as [config|]; [|by vm_compute].
  unfold repl_of. destruct (MyHGC_find m _) as [g|] eqn:Hg; [|by vm_compute]. cbn.
  case_if; [|by vm_compute]. destruct (hi_cells _ Hi _ _ Hg) as (?&?&_).
  unfold is_u64 in *. lia.
Qed.

#[global] Instance hgm_lsn_source : LsnSource PgSQL_HostGroups_Manager := {
  get_polardb_group_lsn := hgm_group_lsn;
  get_polardb_max_replica_replay_lsn := hgm_max_replica_replay_lsn;
  source_ok := hgm_inv;
  group_lsn_u64 := hgm_group_lsn_u64;
  replay_lsn_u64 := hgm_replay_u64
}.

(** ** Witnesses

    Writer hostgroup 10 paired with reader hostgroup 20, one server each. *)

Definition sample_repl : repl_config := mkRepl true 20 "" false 900 850 3.

Definition sample_srv (id : Z) (host : string) (lsn : Z) : PgSQL_SrvC :=
  mkSrv id host 5432 SERVER_ONLINE lsn 1.

Definition sample_hg_config : PolarDB_HG_Config :=
  mkHgConfig true 10 20 empty_policy 0.

Definition sample_hgm : PgSQL_HostGroups_Manager :=
  mkHGM true
    (<[10 := mkHGC [sample_srv 1 "w" 900] sample_repl]>
      (<[20 := mkHGC [sample_srv 2 "r" 850] (mkRepl false 0 "" false 0 0 0)]> ∅))
    {[20 := 10]} {[10 := 20]}
    (Some (<[10 := sample_hg_config]> {[20 := sample_hg_config]})) 1.

Lemma sample_find w g :
  MyHGC_find sample_hgm w = Some g ->
  (w = 10 /\ g = mkHGC [sample_srv 1 "w" 900] sample_repl) \/
  (w = 20 /\ g = mkHGC [sample_srv 2 "r" 850] (mkRepl false 0 "" false 0 0 0)).
Proof.
  unfold MyHGC_find. cbn. rewrite !lookup_insert_Some, lookup_empty. naive_solver.
Qed.

Lemma sample_hgm_inv : hgm_inv sample_hgm.
Proof.
  split.
  - split; cbn; intros ? ?; rewrite lookup_singleton_Some; intros [<- <-].
    + by vm_compute.
    + split; [done|]. split; [by left|]. by eexists.
  - intros w g [[-> ->]|[-> ->]]%sample_find; vm_compute; repeat split; congruence.
  - intros h w g gw s Ho Hh Hw Hin.
    apply sample_find in Hh as [[-> ->]|[-> ->]]; vm_compute in Ho; injection Ho as <-;
      vm_compute in Hw; injection Hw as <-; apply list_elem_of_singleton in Hin as ->; cbn; lia.
Qed.

Definition sample_hgm_advanced : PgSQL_HostGroups_Manager :=
  fst (rfq_commit sample_hgm (10, 0%nat) sample_hg_config 1000 (mkScope 10 3) 5).

Lemma sample_hgm_run : steps hgm_step sample_hgm sample_hgm_advanced.
Proof.
  eapply steps_next; [apply steps_refl|]. apply hgm_rfq; [vm_compute; split; congruence|].
  by vm_compute.
Qed.

Lemma lsn_cache_invariant_witness :
  hgm_group_lsn sample_hgm_advanced 10 = 1000 /\ hgm_inv sample_hgm_advanced.
Proof.
  split; [reflexivity|].
  apply (lsn_cache_invariant sample_hgm); [apply sample_hgm_run|apply sample_hgm_inv].
Defined.

Lemma epoch_timeline_monotone_witness :
  exists g', MyHGC_find sample_hgm_advanced 10 = Some g' /\ 3 <= rg_writer_epoch (hgc_repl g').
Proof.
  destruct (epoch_timeline_monotone sample_hgm sample_hgm_advanced 10
    (mkHGC [sample_srv 1 "w" 900] sample_repl) sample_hgm_inv sample_hgm_run eq_refl)
    as (g'&H1&H2&_).
  exists g'. split; [exact H1|exact H2].
Defined.

Lemma stale_rfq_is_refused_witness :
  polardb_accept_rfq_server_lsn sample_hgm (Some (10, 0%nat)) 10 5000 (mkScope 10 2) None 9 =
    (sample_hgm, None, false).
Proof.
  apply (stale_rfq_is_refused sample_hgm (Some (10, 0%nat)) 10 5000 (mkScope 10 2) None 9).
  intros config r Hc Hr. vm_compute in Hc. injection Hc as <-. vm_compute in Hr.
  injection Hr as <-. vm_compute. congruence.
Defined.

Lemma replay_proof_is_scoped_witness :
  0 <= hgm_max_replica_replay_lsn sample_hgm (mkScope 10 3) <= hgm_group_lsn sample_hgm 10.
Proof. apply (replay_proof_is_scoped sample_hgm (mkScope 10 3) sample_hgm_inv). Defined.
