(* ===== verification/ServerList.v ===== *)
(** * Server-list snapshots and deferred reclamation

    Query threads read hostgroup servers through immutable snapshots that hold
    raw server pointers (lib/PgSQL_PolarDB_Topology.cpp).  A server removed
    from its hostgroup is retired, not deleted; it is reclaimed once no
    snapshot that can name it is held any more.  This file models the shared
    snapshot, the retired lists and the holders (thread caches and
    connections), and proves that no holder ever reaches a deleted server. *)

From S2P Require Import Prelude Policy Startup Config Session Query Plan.
From S2P Require Import Topology.
From Stdlib Require Import ZArith Ascii String List Bool Lia.
From stdpp Require Import base tactics list gmap strings.

Open Scope Z_scope.
Open Scope polar_scope.

(** ** Data *)

(** A server pointer is the identity of the object it points to. *)
Definition srv_id : Type := Z.

Record PolarDB_ServerSnapshotEntry := mkEntry {
  en_srv : srv_id;
  en_weight : Z;
  en_max_connections : Z;
  en_max_latency_us : Z
}.

Record PolarDB_ServerListSnapshot := mkSnapshot {
  sn_generation : Z;
  sn_by_hostgroup : gmap Z (list PolarDB_ServerSnapshotEntry)
}.

(** [sl_holders] are the shared_ptr copies outside the manager: thread-local
    caches and connections; the manager's own references are [sl_snapshot] and
    [sl_retired_snapshots]. *)
Record server_lists := mkLists {
  sl_hostgroups : gmap Z (list PolarDB_ServerSnapshotEntry);
  sl_generation : Z;
  sl_snapshot : option PolarDB_ServerListSnapshot;
  sl_retired_snapshots : list PolarDB_ServerListSnapshot;
  sl_retired_servers : list (srv_id * Z);
  sl_holders : gmap Z PolarDB_ServerListSnapshot;
  sl_deleted : list srv_id
}.

#[global] Instance upd_sl_hostgroups : Update sl_hostgroups.
Proof. derive_update. Defined.
#[global] Instance upd_sl_generation : Update sl_generation.
Proof. derive_update. Defined.
#[global] Instance upd_sl_snapshot : Update sl_snapshot.
Proof. derive_update. Defined.
#[global] Instance upd_sl_retired_snapshots : Update sl_retired_snapshots.
Proof. derive_update. Defined.
#[global] Instance upd_sl_retired_servers : Update sl_retired_servers.
Proof. derive_update. Defined.
#[global] Instance upd_sl_holders : Update sl_holders.
Proof. derive_update. Defined.
#[global] Instance upd_sl_deleted : Update sl_deleted.
Proof. derive_update. Defined.

(** Generations identify snapshots, so a shared_ptr's external owners are the
    holders of the same generation. *)
Definition has_holder (s : server_lists) (snap : PolarDB_ServerListSnapshot) : bool :=
  existsb (fun '(_, h) => sn_generation h =? sn_generation snap) (map_to_list (sl_holders s)).

(** ** Operations *)

Definition polardb_prune_retired_server_snapshots (s : server_lists) : server_lists :=
  s <| sl_retired_snapshots := List.filter (has_holder s) (sl_retired_snapshots s) |>.

Definition oldest_generation (l : list PolarDB_ServerListSnapshot) : Z :=
  foldr (fun snap acc => Z.min (sn_generation snap) acc) UINT64_MAX l.

(** The servers that may be deleted and the lists without them. *)
Definition polardb_detach_reclaimable_retired_servers (s : server_lists)
  : server_lists * list srv_id :=
  let s := polardb_prune_retired_server_snapshots s in
  let oldest_active_generation := oldest_generation (sl_retired_snapshots s) in
  let delete_before_generation :=
    if oldest_active_generation =? UINT64_MAX then sl_generation s + 1
    else oldest_active_generation in
  let reclaimable '(_, g) := g <? delete_before_generation in
  (s <| sl_retired_servers := List.filter (fun e => negb (reclaimable e)) (sl_retired_servers s) |>,
   (List.filter reclaimable (sl_retired_servers s)).*1).

Definition polardb_retire_server (srv : option srv_id) (s : server_lists) : server_lists :=
  match srv with
  | None => s
  | Some srv =>
      s <| sl_retired_servers := sl_retired_servers s ++ [(srv, sl_generation s)] |>
  end.

Definition polardb_update_server_list_snapshot (s : server_lists) : server_lists :=
  let next := mkSnapshot (sl_generation s + 1) (sl_hostgroups s) in
  let retired :=
    match sl_snapshot s with
    | Some old => sl_retired_snapshots s ++ [old]
    | None => sl_retired_snapshots s
    end in
  polardb_prune_retired_server_snapshots
    (s <| sl_retired_snapshots := retired |> <| sl_snapshot := Some next |>
       <| sl_generation := sn_generation next |>).

(** [get_polardb_server_list_snapshot] of holder [t]: reload when the shared
    generation moved. *)
Definition get_polardb_server_list_snapshot (t : Z) (s : server_lists) : server_lists :=
  let cached_generation :=
    match sl_holders s !! t with Some h => sn_generation h | None => UINT64_MAX end in
  if cached_generation =? sl_generation s then s
  else
    match sl_snapshot s with
    | Some snap => s <| sl_holders := <[t := snap]> (sl_holders s) |>
    | None => s <| sl_holders := delete t (sl_holders s) |>
    end.

(** [purge_pgsql_servers_table]: under both locks, the OFFLINE_HARD servers
    without live connections leave their hostgroups, are retired, and a new
    snapshot is published when anything changed. *)
Definition purge_servers (gone : srv_id -> bool) (s : server_lists) : server_lists :=
  let entries := (map_to_list (sl_hostgroups s)).*2 in
  let removed := List.filter gone (en_srv <$> concat entries) in
  let s' := s <| sl_hostgroups :=
    (fun l => List.filter (fun e => negb (gone (en_srv e))) l) <$> sl_hostgroups s |> in
  let s' := foldl (fun s x => polardb_retire_server (Some x) s) s' removed in
  match removed with [] => s' | _ => polardb_update_server_list_snapshot s' end.

Definition polardb_server_list_snapshot_generation
    (snapshot : option PolarDB_ServerListSnapshot) : Z :=
  match snapshot with Some snap => sn_generation snap | None => 0 end.

(** Maintenance: reclaim and then delete outside the locks. *)
Definition reclaim (s : server_lists) : server_lists :=
  let '(s, dead) := polardb_detach_reclaimable_retired_servers s in
  s <| sl_deleted := sl_deleted s ++ dead |>.

(** [polardb_clear_snapshots_for_shutdown] after every other holder is gone;
    [None] is abort(). *)
Definition polardb_clear_snapshots_for_shutdown (s : server_lists) : option server_lists :=
  let current := sl_snapshot s in
  let s := s <| sl_snapshot := None |> <| sl_generation := sl_generation s + 1 |> in
  if match current with Some snap => has_holder s snap | None => false end then None
  else if existsb (has_holder s) (sl_retired_snapshots s) then None
  else Some (s <| sl_retired_snapshots := [] |> <| sl_retired_servers := [] |>
               <| sl_deleted := sl_deleted s ++ (sl_retired_servers s).*1 |>).

(** ** Selection helpers over a snapshot *)

(** What the checks read of a live server: status and open capacity. *)
Record server_facts := mkFacts { sf_status : MySerStatus; sf_can_add : bool }.

Definition polardb_hostgroup_has_usable_server (facts : srv_id -> server_facts)
    (snapshot : option PolarDB_ServerListSnapshot) (hostgroup_id : Z) : bool :=
  match snapshot with
  | None => false
  | Some snap =>
      match sn_by_hostgroup snap !! hostgroup_id with
      | None => false
      | Some servers =>
          existsb (fun e =>
            (0 <? en_weight e) && (0 <? en_max_connections e) &&
            (sf_status (facts (en_srv e)) == SERVER_ONLINE) && sf_can_add (facts (en_srv e)))
            servers
      end
  end.

(** The part of a pooled connection that reuse compares. *)
Record pooled_connection := mkPooled {
  pc_startup_settings_set : bool;
  pc_startup_config_generation : Z;
  pc_startup_identity_mode : Z;
  pc_startup_profile_generation : Z;
  pc_startup_profile : PolarDB_StartupProfile;
  pc_startup_client : PolarDB_StartupClientContext;
  pc_parent : option srv_id
}.

Definition polardb_startup_profile_for_config (config : PolarDB_HG_Config)
    (fallback_proxy_protocol : Z) (profile_off : bool) : PolarDB_StartupProfile :=
  if negb (hc_is_polardb_hostgroup config) || profile_off then from_protocol Protocol_OFF
  else
    let protocol :=
      if 0 <=? hp_proxy_protocol (hc_policy config)
      then hp_proxy_protocol (hc_policy config) else fallback_proxy_protocol in
    from_protocol (polardb_proxy_protocol_from_int protocol).

Definition parent_is_current (facts : srv_id -> server_facts)
    (current_servers : option PolarDB_ServerListSnapshot) (expected_hostgroup_id : Z)
    (parent : option srv_id) : bool :=
  match current_servers, parent with
  | Some snap, Some parent =>
      match sn_by_hostgroup snap !! expected_hostgroup_id with
      | None => false
      | Some servers =>
          match List.find (fun e => en_srv e =? parent) servers with
          | Some e =>
              (0 <? en_weight e) && (0 <? en_max_connections e) &&
              (sf_status (facts parent) == SERVER_ONLINE)
          | None => false
          end
      end
  | _, _ => false
  end.

(** [global_config] is [None] while the thread handler does not exist. *)
Definition polardb_reader_connection_is_current (m : PgSQL_HostGroups_Manager)
    (facts : srv_id -> server_facts) (global_config : option PolarDB_ParsedGlobalConfigValue)
    (current_servers : option PolarDB_ServerListSnapshot) (conn : option pooled_connection)
    (expected_hostgroup_id : Z) : bool :=
  match conn with
  | None => false
  | Some conn =>
  if negb (pc_startup_settings_set conn) then true
  else
  match global_config with
  | None => false
  | Some gc =>
  let startup := gc_startup gc in
  if negb (pc_startup_config_generation conn =? scfg_generation startup) then false
  else
  let identity_mode := identity_mode_to_int (scfg_identity_mode startup) in
  if negb (pc_startup_identity_mode conn =? identity_mode) ||
     negb (pc_startup_profile_generation conn =? generation (pc_startup_profile conn) identity_mode)
  then false
  else
  let hg_config := get_polardb_hg_config m expected_hostgroup_id in
  if negb (hc_is_polardb_hostgroup hg_config) then false
  else
  let profile_off := polardb_profile_from_int (gc_profile gc) == Profile_OFF in
  let protocol :=
    if profile_off then protocol_to_int Protocol_OFF
    else if 0 <=? hp_proxy_protocol (hc_policy hg_config)
         then hp_proxy_protocol (hc_policy hg_config)
         else protocol_to_int (scfg_proxy_protocol startup) in
  let current_profile := from_protocol (polardb_proxy_protocol_from_int protocol) in
  if negb (polardb_startup_profile_compatible_for_reuse (pc_startup_profile conn) current_profile)
  then false
  else
  let installed := sclient_identity (pc_startup_client conn) in
  if emits_startup_params (pc_startup_profile conn) &&
     ((si_source installed == IdentitySource_NONE) ||
      negb (bool_decide (si_source installed = IdentitySource_CLIENT) ==
            polardb_proxy_identity_mode_uses_client_identity identity_mode))
  then false
  else if (si_source installed == IdentitySource_CONFIGURED_FALLBACK) &&
          (negb (si_host installed == si_host (scfg_configured_identity startup)) ||
           negb (si_port installed =? si_port (scfg_configured_identity startup)))
  then false
  else parent_is_current facts current_servers expected_hostgroup_id (pc_parent conn)
  end
  end.

(** ** Reclamation safety *)

Definition lists_name (hgs : gmap Z (list PolarDB_ServerSnapshotEntry)) (x : srv_id) : Prop :=
  exists h l e, hgs !! h = Some l /\ e ∈ l /\ en_srv e = x.

Definition names (snap : PolarDB_ServerListSnapshot) (x : srv_id) : Prop :=
  lists_name (sn_by_hostgroup snap) x.

(** The snapshots somebody may still reach. *)
Definition live (s : server_lists) (snap : PolarDB_ServerListSnapshot) : Prop :=
  sl_snapshot s = Some snap \/ snap ∈ sl_retired_snapshots s.

(** [slack] is 1 inside a locked section that has retired servers and not yet
    published, 0 outside. *)
Record lists_inv (slack : Z) (s : server_lists) : Prop := {
  li_bound : 0 <= sl_generation s < UINT64_MAX;
  li_current snap : sl_snapshot s = Some snap -> sn_generation snap = sl_generation s;
  li_past snap : snap ∈ sl_retired_snapshots s -> sn_generation snap < sl_generation s;
  li_held t h : sl_holders s !! t = Some h -> live s h;
  li_retired x g : (x, g) ∈ sl_retired_servers s -> g < sl_generation s + slack /\
    ~ lists_name (sl_hostgroups s) x /\
    forall snap, live s snap -> names snap x -> sn_generation snap <= g;
  li_deleted x : x ∈ sl_deleted s -> ~ lists_name (sl_hostgroups s) x /\
    forall snap, live s snap -> ~ names snap x
}.

Lemma list_filter_elem {A} (f : A -> bool) l x : x ∈ List.filter f l <-> f x = true /\ x ∈ l.
Proof. rewrite !list_elem_of_In, List.filter_In. tauto. Qed.

Lemma holder_is_seen s t h :
  sl_holders s !! t = Some h -> has_holder s h = true.
Proof.
  intros Ht. unfold has_holder. apply existsb_exists. exists (t, h).
  split; [by apply list_elem_of_In, elem_of_map_to_list|]. by apply Z.eqb_eq.
Qed.

Lemma prune_inv k s : lists_inv k s -> lists_inv k (polardb_prune_retired_server_snapshots s).
Proof.
  intros [Hb Hc Hp Hh Hr Hd]. unfold polardb_prune_retired_server_snapshots.
  destruct s as [hgs gen cur rs rv hold del]; cbn in *.
  set (s0 := mkLists hgs gen cur rs rv hold del) in *.
  assert (Hsub : forall snap, live (mkLists hgs gen cur (List.filter (has_holder s0) rs) rv hold del)
    snap -> live s0 snap).
  { intros snap [?|Hin]; [by left|right]. by apply list_filter_elem in Hin as [_ ?]. }
  split; cbn; auto.
  - intros snap [_ Hin]%list_filter_elem. by apply Hp.
  - intros t h Ht. destruct (Hh t h Ht) as [?|Hin]; [by left|right]. cbn in *.
    apply list_filter_elem. split; [|done]. by eapply holder_is_seen.
  - intros x g Hx. destruct (Hr x g Hx) as (?&?&?). eauto.
  - intros x Hx. destruct (Hd x Hx) as (?&?). eauto.
Qed.

Lemma oldest_lower snap l : snap ∈ l -> oldest_generation l <= sn_generation snap.
Proof.
  induction l as [|a l IH]; [by intros ?%elem_of_nil|].
  unfold oldest_generation in *. cbn [foldr].
  intros [->|Hin]%elem_of_cons; [lia|]. specialize (IH Hin). lia.
Qed.

Lemma reclaim_inv s : lists_inv 0 s -> lists_inv 0 (reclaim s).
Proof.
  intros Hi%prune_inv. unfold reclaim, polardb_detach_reclaimable_retired_servers.
  set (p := polardb_prune_retired_server_snapshots s) in *. clearbody p.
  set (before := if _ =? UINT64_MAX then _ else _).
  assert (Hbefore : forall x g, (x, g) ∈ sl_retired_servers p -> g < before ->
    forall snap, live p snap -> ~ names snap x).
  { intros x g Hx Hlt snap Hl Hn. destruct (li_retired _ _ Hi x g Hx) as (Hg&_&Hle).
    specialize (Hle snap Hl Hn). destruct Hl as [Hl|Hl].
    - rewrite (li_current _ _ Hi snap Hl) in Hle. lia.
    - subst before. pose proof (oldest_lower snap _ Hl). pose proof (li_past _ _ Hi _ Hl).
      pose proof (li_bound _ _ Hi). case_if_in Hlt; bool_to_prop; lia. }
  destruct p as [hgs gen cur rs rv hold del]; destruct Hi as [Hb Hc Hp Hh Hr Hd]; cbn in *.
  split; cbn; auto.
  - intros x g [_ Hx]%list_filter_elem. exact (Hr x g Hx).
  - intros x [Hx|Hx]%elem_of_app; [exact (Hd x Hx)|].
    apply list_elem_of_fmap in Hx as ([x' g]&->&Hx). apply list_filter_elem in Hx as [Hlt Hx].
    bool_to_prop. split; [by apply (Hr x' g Hx)|]. exact (Hbefore x' g Hx Hlt).
Qed.

Lemma publish_inv s :
  lists_inv 1 s -> sl_generation s + 1 < UINT64_MAX ->
  lists_inv 0 (polardb_update_server_list_snapshot s).
Proof.
  intros [Hb Hc Hp Hh Hr Hd] Hmax. apply prune_inv.
  destruct s as [hgs gen cur rs rv hold del]; cbn in *.
  set (rs' := match cur with Some old => rs ++ [old] | None => rs end).
  assert (Hlive : forall snap, live (mkLists hgs (gen + 1) (Some (mkSnapshot (gen + 1) hgs)) rs'
    rv hold del) snap -> snap = mkSnapshot (gen + 1) hgs \/
    live (mkLists hgs gen cur rs rv hold del) snap).
  { intros snap [[= <-]|Hin]; [by left|right]. cbn in Hin. subst rs'. destruct cur as [old|];
      [|by right]. apply elem_of_app in Hin as [?|Hx%list_elem_of_singleton];
      [by right|subst; by left]. }
  assert (Hold : forall snap, live (mkLists hgs gen cur rs rv hold del) snap -> snap ∈ rs').
  { intros snap [Hl|Hl]; cbn in Hl; subst rs'; [subst cur; apply elem_of_app; right; by left|].
    destruct cur; [apply elem_of_app; by left|done]. }
  split; cbn; auto; try lia.
  - by intros snap [= <-].
  - intros snap Hin. subst rs'. destruct cur as [old|].
    + apply elem_of_app in Hin as [Hin|Hx%list_elem_of_singleton];
        [specialize (Hp snap Hin); lia|]. subst snap. rewrite (Hc old eq_refl). lia.
    + specialize (Hp snap Hin). lia.
  - intros t h Ht. right. apply Hold. eauto.
  - intros x g Hx. destruct (Hr x g Hx) as (?&Hnl&Hle). split; [lia|].
    split; [done|]. intros snap Hl Hn. destruct (Hlive snap Hl) as [->|Hl']; [by destruct Hnl|].
    by apply Hle.
  - intros x Hx. destruct (Hd x Hx) as (Hnl&Hno). split; [done|].
    intros snap Hl Hn. destruct (Hlive snap Hl) as [->|Hl']; [by destruct Hnl|]. by apply (Hno snap).
Qed.

Lemma retire_all l s :
  foldl (fun s x => polardb_retire_server (Some x) s) s l =
    s <| sl_retired_servers := sl_retired_servers s ++ ((fun x => (x, sl_generation s)) <$> l) |>.
Proof.
  revert s. induction l as [|x l IH]; intros s; cbn.
  - destruct s; cbn. unfold update, upd_sl_retired_servers. by rewrite app_nil_r.
  - rewrite IH. destruct s; cbn. unfold update, upd_sl_retired_servers. cbn.
    by rewrite <- app_assoc.
Qed.

Lemma live_generation s snap k : lists_inv k s -> live s snap -> sn_generation snap <= sl_generation s.
Proof.
  intros Hi [H|H]; [by rewrite (li_current _ _ Hi _ H)|]. pose proof (li_past _ _ Hi _ H). lia.
Qed.

Lemma filtered_names gone (hgs : gmap Z (list PolarDB_ServerSnapshotEntry)) x :
  lists_name ((fun l => List.filter (fun e => negb (gone (en_srv e))) l) <$> hgs) x ->
  gone x = false /\ lists_name hgs x.
Proof.
  intros (h&l'&e&Hl&He&<-). rewrite lookup_fmap in Hl.
  destruct (hgs !! h) as [l|] eqn:E; [|done]. injection Hl as <-.
  apply list_filter_elem in He as [Hg He]. bool_to_prop. split; [done|]. by exists h, l, e.
Qed.

Lemma purge_inv gone s :
  lists_inv 0 s -> sl_generation s + 1 < UINT64_MAX -> lists_inv 0 (purge_servers gone s).
Proof.
  intros Hi Hmax. unfold purge_servers. rewrite retire_all.
  set (removed := List.filter gone _).
  pose proof (fun snap => live_generation s snap 0 Hi) as Hlg.
  destruct s as [hgs gen cur rs rv hold del]; destruct Hi as [Hb Hc Hp Hh Hr Hd]; cbn in *.
  set (hgs' := _ <$> hgs) in *. set (s1 := mkLists hgs' gen cur rs _ hold del).
  assert (lists_inv 1 s1) as H1.
  { split; cbn; auto.
    - intros x g [Hx|Hx]%elem_of_app.
      + destruct (Hr x g Hx) as (?&Hnl&?). split; [lia|]. split; [|done].
        by intros [_ ?]%filtered_names.
      + apply list_elem_of_fmap in Hx as (x'&[= -> ->]&Hx). split; [lia|].
        apply list_filter_elem in Hx as [Hgone _]. split; [|by intros; apply Hlg].
        intros [? _]%filtered_names. congruence.
    - intros x Hx. destruct (Hd x Hx) as (Hnl&?). split; [|done].
      by intros [_ ?]%filtered_names. }
  destruct removed as [|x0 removed'] eqn:Erem; [|by apply (publish_inv s1)].
  subst s1. rewrite app_nil_r. split; cbn; auto.
  - intros x g Hx. destruct (Hr x g Hx) as (?&?&?). repeat split; auto.
    by intros [_ ?]%filtered_names.
  - intros x Hx. destruct (Hd x Hx) as (?&?). split; auto. by intros [_ ?]%filtered_names.
Qed.

(** What happens to the server lists: servers are purged, or a reload publishes
    hostgroups whose servers were linked before or are new objects; threads
    take, share and drop snapshots; maintenance reclaims. *)
Inductive lists_step (s : server_lists) : server_lists -> Prop :=
| ls_purge gone : sl_generation s + 1 < UINT64_MAX -> lists_step s (purge_servers gone s)
| ls_publish hgs :
    sl_generation s + 1 < UINT64_MAX ->
    (forall x, lists_name hgs x -> lists_name (sl_hostgroups s) x \/
       ((x ∉ (sl_retired_servers s).*1) /\ (x ∉ sl_deleted s))) ->
    lists_step s (polardb_update_server_list_snapshot (s <| sl_hostgroups := hgs |>))
| ls_get t : lists_step s (get_polardb_server_list_snapshot t s)
| ls_share t u h : sl_holders s !! u = Some h ->
    lists_step s (s <| sl_holders := <[t := h]> (sl_holders s) |>)
| ls_drop t : lists_step s (s <| sl_holders := delete t (sl_holders s) |>)
| ls_reclaim : lists_step s (reclaim s).

Lemma holders_inv k s hold :
  lists_inv k s -> (forall t h, hold !! t = Some h -> live s h) ->
  lists_inv k (s <| sl_holders := hold |>).
Proof. intros [Hb Hc Hp Hh Hr Hd] Hl. destruct s. by split. Qed.

Lemma lists_step_inv s s' : lists_step s s' -> lists_inv 0 s -> lists_inv 0 s'.
Proof.
  intros Hs Hi. destruct Hs as [gone Hmax|hgs Hmax Hnew|t|t u h Hu|t|].
  - by apply purge_inv.
  - apply publish_inv; [|by destruct s]. destruct s as [hgs0 gen cur rs rv hold del].
    destruct Hi as [Hb Hc Hp Hh Hr Hd]. cbn in *. split; cbn; auto.
    + intros x g Hx. destruct (Hr x g Hx) as (?&Hnl&?). split; [lia|]. split; [|done].
      intros Hn. destruct (Hnew x Hn) as [|[Hx' _]]; [done|]. apply Hx'.
      apply list_elem_of_fmap. by exists (x, g).
    + intros x Hx. destruct (Hd x Hx) as (?&?). split; [|done].
      intros Hn. destruct (Hnew x Hn) as [|[_ Hx']]; done.
  - unfold get_polardb_server_list_snapshot. cbn zeta. case_if; [done|].
    destruct (sl_snapshot s) as [snap|] eqn:Hsn; apply holders_inv; auto.
    + intros t' h [[<- <-]|[_ Ht]]%lookup_insert_Some; [by left|]. by eapply (li_held _ _ Hi).
    + intros t' h [_ Ht]%lookup_delete_Some. by eapply (li_held _ _ Hi).
  - apply holders_inv; [done|]. intros t' h' [[<- <-]|[_ Ht]]%lookup_insert_Some;
      by eapply (li_held _ _ Hi).
  - apply holders_inv; [done|]. intros t' h' [_ Ht]%lookup_delete_Some. by eapply (li_held _ _ Hi).
  - by apply reclaim_inv.
Qed.

Definition initial_lists : server_lists := mkLists ∅ 1 (Some (mkSnapshot 1 ∅)) [] [] ∅ [].

Lemma initial_lists_inv : lists_inv 0 initial_lists.
Proof.
  split; cbn; try done; try set_solver; by intros snap [= <-].
Qed.

(** C30: No use after free.  In every state reachable from start-up, a server
    that has been deleted is named neither by the shared snapshot nor by any
    snapshot a thread or connection still holds, however long it held it. *)
Theorem held_snapshots_name_no_deleted_server s :
  steps lists_step initial_lists s ->
  forall x, x ∈ sl_deleted s ->
    (forall t h, sl_holders s !! t = Some h -> ~ names h x) /\
    (forall snap, sl_snapshot s = Some snap -> ~ names snap x).
Proof.
  intros Hs x Hx. assert (lists_inv 0 s) as Hi.
  { eapply steps_invariant; [|exact Hs|apply initial_lists_inv].
    intros a b Ha Hab. by eapply lists_step_inv. }
  destruct (li_deleted _ _ Hi x Hx) as [_ Hno]. split.
  - intros t h Ht. apply Hno. by apply (li_held _ _ Hi t).
  - intros snap Hsn. apply Hno. by left.
Qed.

(** Two servers are published, a thread takes the snapshot, one server is
    purged and reclaimed after the thread refreshed. *)
Definition sample_lists : gmap Z (list PolarDB_ServerSnapshotEntry) :=
  {[20 := [mkEntry 7 1 100 0; mkEntry 8 1 100 0]]}.

Definition sample_published : server_lists :=
  polardb_update_server_list_snapshot (initial_lists <| sl_hostgroups := sample_lists |>).
Definition sample_purged : server_lists :=
  purge_servers (fun x => x =? 8) (get_polardb_server_list_snapshot 1 sample_published).
Definition sample_reclaimed : server_lists :=
  reclaim (get_polardb_server_list_snapshot 1 sample_purged).

Lemma sample_reclaimed_reachable : steps lists_step initial_lists sample_reclaimed.
Proof.
  eapply steps_next; [|apply ls_reclaim]. eapply steps_next; [|apply ls_get].
  eapply steps_next; [|apply ls_purge; by vm_compute].
  eapply steps_next; [|apply ls_get]. eapply steps_next; [apply steps_refl|].
  apply ls_publish; [by vm_compute|]. intros x _. right. cbn. set_solver.
Qed.

Lemma held_snapshots_name_no_deleted_server_witness :
  sl_deleted (reclaim sample_purged) = [] /\ sl_deleted sample_reclaimed = [8] /\
  forall t h, sl_holders sample_reclaimed !! t = Some h -> ~ names h 8.
Proof.
  split; [by vm_compute|]. split; [by vm_compute|].
  apply (held_snapshots_name_no_deleted_server sample_reclaimed sample_reclaimed_reachable 8).
  vm_compute. left.
Defined.
