(* ===== verification/PoolConn.v ===== *)
(** * Reuse and return of pooled backend connections

    lib/PgSQL_PolarDB_ReaderPool_Connections.cpp: the pool key a request asks
    for, the classification of a pooled connection against it, and where a
    finished connection goes; with the comparison of tracked session variables
    of lib/PgSQL_Connection.cpp on which the classification rests. *)

From S2P Require Import Prelude Policy Startup Topology ServerList.
From Stdlib Require Import ZArith String List Bool Sorted Lia.
From stdpp Require Import base tactics list gmap strings.

Open Scope Z_scope.
Open Scope polar_scope.

(** ** Data *)

(** [PGSQL_NAME_LAST_LOW_WM] and [PGSQL_NAME_LAST_HIGH_WM] of
    [pgsql_variable_name]; the low watermark is itself not a variable. *)
Definition PGSQL_NAME_LAST_LOW_WM : nat := 5.
Definition PGSQL_NAME_LAST_HIGH_WM : nat := 20.

Record PgSQL_Connection_userinfo := mkUserinfo {
  ui_hash : Z; ui_username : cstr; ui_dbname : cstr
}.

(** What reuse reads of a connection, on the client or on the backend side.
    [cn_id] is its address. *)
Record PgSQL_Connection := mkConnection {
  cn_id : Z;
  cn_parent : option srv_id;
  cn_idle : bool;                    (** async_state_machine == ASYNC_IDLE *)
  cn_connected : bool;
  cn_settings_set : bool;
  cn_profile : PolarDB_StartupProfile;
  cn_profile_generation : Z;
  cn_identity_mode : Z;
  cn_config_generation : Z;
  cn_startup_client : PolarDB_StartupClientContext;
  cn_pool_key : PolarDB_PoolKey;
  cn_xids_dirty : bool;
  cn_userinfo : option PgSQL_Connection_userinfo;
  cn_var_hash : list Z;
  cn_dynamic_variables_idx : list nat;
  cn_largest_query_length : Z;
  cn_num_backend_stmts : Z;
  cn_server_snapshot : option PolarDB_ServerListSnapshot
}.

#[global] Instance upd_cn_pool_key : Update cn_pool_key.
Proof. derive_update. Defined.
#[global] Instance upd_cn_var_hash : Update cn_var_hash.
Proof. derive_update. Defined.
#[global] Instance upd_cn_dynamic_variables_idx : Update cn_dynamic_variables_idx.
Proof. derive_update. Defined.
#[global] Instance upd_cn_profile : Update cn_profile.
Proof. derive_update. Defined.
#[global] Instance upd_cn_profile_generation : Update cn_profile_generation.
Proof. derive_update. Defined.
#[global] Instance upd_cn_identity_mode : Update cn_identity_mode.
Proof. derive_update. Defined.
#[global] Instance upd_cn_config_generation : Update cn_config_generation.
Proof. derive_update. Defined.
#[global] Instance upd_cn_startup_client : Update cn_startup_client.
Proof. derive_update. Defined.
#[global] Instance upd_cn_settings_set : Update cn_settings_set.
Proof. derive_update. Defined.
#[global] Instance upd_cn_server_snapshot : Update cn_server_snapshot.
Proof. derive_update. Defined.

Definition no_pool_key : PolarDB_PoolKey := mkPoolKey 0 0 0.

Definition var_hash (c : PgSQL_Connection) (i : nat) : Z := nth i (cn_var_hash c) 0.

Inductive PolarDB_PoolReuseState :=
| Reuse_EXACT | Reuse_NEEDS_RESET | Reuse_NEEDS_VARIABLE_UPDATE | Reuse_BAD_CONTEXT
| Reuse_PROFILE_MISMATCH | Reuse_AUTH_MISMATCH | Reuse_IDENTITY_MISMATCH
| Reuse_SESSION_STATE_MISMATCH.

#[global] Instance PoolReuseState_eq_dec : EqDecision PolarDB_PoolReuseState.
Proof. solve_decision. Defined.

Inductive PolarDB_ReaderPoolRejectReason :=
| Reject_NONE | Reject_BAD_CONTEXT | Reject_PROFILE | Reject_AUTH | Reject_IDENTITY
| Reject_SESSION_STATE.

Inductive PolarDB_ReaderLocalReturn :=
| USE_SHARED_POOL | USE_SHARED_POOL_REUSE_CHECKED | KEEP_WITH_WORKER | REMOVE_CONNECTION.

#[global] Instance ReaderLocalReturn_eq_dec : EqDecision PolarDB_ReaderLocalReturn.
Proof. solve_decision. Defined.

Inductive PolarDB_ReaderConnectionReturnStatus :=
| Return_RETURNABLE | Return_NOT_MANAGED | Return_OFFLINE | Return_CLIENT_IDENTITY
| Return_UNUSABLE | Return_EMPTY_KEY.

#[global] Instance ReaderConnectionReturnStatus_eq_dec :
  EqDecision PolarDB_ReaderConnectionReturnStatus.
Proof. solve_decision. Defined.

Definition polardb_reader_uses_shared_pool (decision : PolarDB_ReaderLocalReturn) : bool :=
  (decision == USE_SHARED_POOL) || (decision == USE_SHARED_POOL_REUSE_CHECKED).

(** The four words of the exact-match key of the shared pool. *)
Record PgSQL_PoolMatchKey := mkMatchKey {
  mk_generation : Z; mk_auth : Z; mk_identity : Z; mk_options : Z
}.

#[global] Instance PoolMatchKey_eq_dec : EqDecision PgSQL_PoolMatchKey.
Proof. solve_decision. Defined.

Definition no_match_key : PgSQL_PoolMatchKey := mkMatchKey 0 0 0 0.

Definition match_key_empty (k : PgSQL_PoolMatchKey) : bool :=
  (mk_generation k =? 0) && (mk_auth k =? 0) && (mk_identity k =? 0) && (mk_options k =? 0).

Definition pgsql_pool_match_key (profile_generation : Z) (pool_key : PolarDB_PoolKey)
  : PgSQL_PoolMatchKey :=
  mkMatchKey profile_generation (pk_auth_hash pool_key) (pk_startup_identity_hash pool_key)
    (pk_startup_options_hash pool_key).

Definition polardb_core_pool_match_key_for_conn (conn : option PgSQL_Connection)
  : PgSQL_PoolMatchKey :=
  match conn with
  | Some c => pgsql_pool_match_key (cn_profile_generation c) (cn_pool_key c)
  | None => no_match_key
  end.

Definition polardb_core_pool_match_key_for_request (request : PolarDB_PoolRequest)
  : PgSQL_PoolMatchKey :=
  if negb (ready_for_matching request) then no_match_key
  else pgsql_pool_match_key
         (generation (pr_startup_profile request) (pr_startup_identity_mode request))
         (pr_key request).

(** ** Tracked session variables *)

Definition reorder_dynamic_variables_idx (c : PgSQL_Connection) : PgSQL_Connection :=
  c <| cn_pool_key := no_pool_key |>
    <| cn_dynamic_variables_idx :=
         List.filter (fun i => negb (var_hash c i =? 0))
           (seq (S PGSQL_NAME_LAST_LOW_WM)
                (PGSQL_NAME_LAST_HIGH_WM - S PGSQL_NAME_LAST_LOW_WM)) |>.

(** [client_set_hash_and_value] and [client_reset_value]; the text of the value
    is not kept. *)
Definition client_set_hash_and_value (c : PgSQL_Connection) (idx : nat) (hash : Z)
  : PgSQL_Connection :=
  c <| cn_var_hash := <[idx := hash]> (cn_var_hash c) |> <| cn_pool_key := no_pool_key |>.

Definition client_reset_value (c : PgSQL_Connection) (idx : nat) (reorder : bool)
  : PgSQL_Connection :=
  if negb (var_hash c idx =? 0) then
    let c := c <| cn_var_hash := <[idx := 0]> (cn_var_hash c) |>
               <| cn_pool_key := no_pool_key |> in
    if reorder && (PGSQL_NAME_LAST_LOW_WM <? idx)%nat
    then reorder_dynamic_variables_idx c else c
  else c.

Definition client_set_value (c : PgSQL_Connection) (idx : nat) (hash : Z) (reorder : bool)
  : PgSQL_Connection :=
  let c := c <| cn_var_hash := <[idx := hash]> (cn_var_hash c) |>
             <| cn_pool_key := no_pool_key |> in
  if reorder && (PGSQL_NAME_LAST_LOW_WM <? idx)%nat
  then reorder_dynamic_variables_idx c else c.

(** The inner [while] of both scans: skip the indexes below [bound]. *)
Fixpoint skip_below (bound : nat) (l : list nat) : list nat :=
  match l with
  | x :: l' => if (x <? bound)%nat then skip_below bound l' else l
  | [] => []
  end.

(** A backend variable the client does not have. *)
Fixpoint has_extra_variable (client server : list nat) : bool :=
  match server with
  | [] => false
  | s :: server' =>
      match skip_below s client with
      | c :: client' => if (c =? s)%nat then has_extra_variable (c :: client') server' else true
      | [] => true
      end
  end.

Definition requires_RESETTING_CONNECTION (conn client_conn : PgSQL_Connection) : bool :=
  if existsb (fun i => (var_hash client_conn i =? 0) && negb (var_hash conn i =? 0))
       (seq 0 PGSQL_NAME_LAST_LOW_WM) then true
  else if (length (cn_dynamic_variables_idx client_conn) <?
           length (cn_dynamic_variables_idx conn))%nat then true
  else has_extra_variable (cn_dynamic_variables_idx client_conn)
         (cn_dynamic_variables_idx conn).

(** The loop over the client's dynamic variables; the two counters are
    [unsigned int]. *)
Fixpoint match_dynamic (conn client_conn : PgSQL_Connection) (client server : list nat)
    (ret not_matching : Z) : Z * Z :=
  match client with
  | [] => (ret, not_matching)
  | c :: client' =>
      match server with
      | [] => (ret, not_matching)
      | _ =>
          let server' := skip_below c server in
          match server' with
          | s :: _ =>
              if (s =? c)%nat && (var_hash conn s =? var_hash client_conn c)
              then match_dynamic conn client_conn client' server' (wrap32 (ret + 1))
                     (wrap32 (not_matching - 2))
              else match_dynamic conn client_conn client' server' ret not_matching
          | [] => match_dynamic conn client_conn client' [] ret not_matching
          end
      end
  end.

Definition match_low (conn client_conn : PgSQL_Connection) (acc : Z * Z) (i : nat) : Z * Z :=
  if negb (var_hash client_conn i =? 0) then
    if var_hash conn i =? var_hash client_conn i then (wrap32 (fst acc + 1), snd acc)
    else (fst acc, wrap32 (snd acc + 1))
  else acc.

(** The result and the [not_matching] out-parameter, which enters as 0. *)
Definition number_of_matching_session_variables (conn client_conn : PgSQL_Connection) : Z * Z :=
  let acc := fold_left (match_low conn client_conn) (seq 0 PGSQL_NAME_LAST_LOW_WM) (0, 0) in
  let not_matching :=
    wrap32 (wrap32 (snd acc + Z.of_nat (length (cn_dynamic_variables_idx client_conn))) +
            Z.of_nat (length (cn_dynamic_variables_idx conn))) in
  match_dynamic conn client_conn (cn_dynamic_variables_idx client_conn)
    (cn_dynamic_variables_idx conn) (fst acc) not_matching.

(** Both connections have user data; the names are compared only when the
    hashes differ. *)
Definition has_same_connection_options (conn client_conn : PgSQL_Connection_userinfo) : bool :=
  if negb (ui_hash conn =? ui_hash client_conn) then
    (ui_username conn == ui_username client_conn) && (ui_dbname conn == ui_dbname client_conn)
  else true.

(** ** Pool keys *)

Definition polardb_pool_auth_reuse_key_strings (username dbname : cstr) : Z :=
  match username, dbname with
  | Some _, Some _ =>
      polardb_pool_hash_cstr (polardb_pool_hash_cstr FNV_SEED username) dbname
  | _, _ => 0
  end.

Definition polardb_pool_auth_reuse_key (userinfo : option PgSQL_Connection_userinfo) : Z :=
  match userinfo with
  | Some u => polardb_pool_auth_reuse_key_strings (ui_username u) (ui_dbname u)
  | None => 0
  end.

Definition polardb_pool_session_options_reuse_key (conn : option PgSQL_Connection) : Z :=
  match conn with
  | None => 0
  | Some c =>
      let hash := fold_left (fun h i => polardb_pool_hash_u64 h (var_hash c i))
                    (seq 0 PGSQL_NAME_LAST_LOW_WM) FNV_SEED in
      let hash := polardb_pool_hash_u64 hash
                    (Z.of_nat (length (cn_dynamic_variables_idx c))) in
      let hash := fold_left
        (fun h i => polardb_pool_hash_u64 (polardb_pool_hash_u64 h (Z.of_nat i)) (var_hash c i))
        (cn_dynamic_variables_idx c) hash in
      if negb (hash =? 0) then hash else 1
  end.

Definition polardb_pool_key_for_connection_profile (c : PgSQL_Connection)
    (profile : PolarDB_PoolProfile) : PolarDB_PoolKey :=
  mkPoolKey (polardb_pool_auth_reuse_key (cn_userinfo c))
    (if profile == PoolProfile_RFQ
     then polardb_startup_client_reuse_key (cn_startup_client c) else 0)
    (polardb_pool_session_options_reuse_key (Some c)).

(** [polardb_ensure_pool_key(conn, profile)] fills an empty key only. *)
Definition ensure_pool_key_for (profile : PolarDB_PoolProfile) (c : PgSQL_Connection)
  : PgSQL_Connection :=
  if negb (pool_key_empty (cn_pool_key c)) then c
  else c <| cn_pool_key := polardb_pool_key_for_connection_profile c profile |>.

Definition polardb_ensure_pool_key (c : PgSQL_Connection) : PgSQL_Connection :=
  ensure_pool_key_for (polardb_pool_profile_from_startup_profile (cn_profile c)) c.

(** The session a connection is asked for: its client stream, its client
    connection, and the two identity cache fields of its route state. *)
Record pool_session := mkPoolSession {
  ps_stream : option client_stream;
  ps_client : option PgSQL_Connection;
  ps_identity_hash : Z;
  ps_identity_mode : Z
}.

#[global] Instance upd_ps_client : Update ps_client.
Proof. derive_update. Defined.
#[global] Instance upd_ps_identity_hash : Update ps_identity_hash.
Proof. derive_update. Defined.
#[global] Instance upd_ps_identity_mode : Update ps_identity_mode.
Proof. derive_update. Defined.

(** The worker's identity settings. *)
Record identity_settings := mkIdentitySettings {
  is_mode : Z;                     (** polardb_proxy_identity_mode *)
  is_fallback_host : cstr;
  is_fallback_port : Z
}.

Section Session.
Context (pton4 : string -> option Z) (pton6 : string -> option (list Z)).
Context (ids : identity_settings).

Definition startup_client_of (sess : pool_session) : PolarDB_StartupClientContext * bool :=
  polardb_startup_client_from_session pton4 pton6 (ps_stream sess) (is_mode ids)
    (is_fallback_host ids) (is_fallback_port ids).

(** The auth part of the key and the session with its cache filled. *)
Definition request_auth_hash (sess : pool_session) : Z * pool_session :=
  match ps_client sess with
  | Some c =>
      if negb (pk_auth_hash (cn_pool_key c) =? 0) then (pk_auth_hash (cn_pool_key c), sess)
      else
        let h := polardb_pool_auth_reuse_key (cn_userinfo c) in
        let k := cn_pool_key c in
        (h, sess <| ps_client := Some (c <| cn_pool_key :=
              mkPoolKey h (pk_startup_identity_hash k) (pk_startup_options_hash k) |>) |>)
  | None => (polardb_pool_auth_reuse_key None, sess)
  end.

Definition request_options_hash (sess : pool_session) : Z * pool_session :=
  match ps_client sess with
  | Some c =>
      if negb (pk_startup_options_hash (cn_pool_key c) =? 0)
      then (pk_startup_options_hash (cn_pool_key c), sess)
      else
        let h := polardb_pool_session_options_reuse_key (Some c) in
        let k := cn_pool_key c in
        (h, sess <| ps_client := Some (c <| cn_pool_key :=
              mkPoolKey (pk_auth_hash k) (pk_startup_identity_hash k) h |>) |>)
  | None => (polardb_pool_session_options_reuse_key None, sess)
  end.

Definition request_identity_hash (expected_profile : PolarDB_PoolProfile) (sess : pool_session)
  : Z * pool_session :=
  if expected_profile == PoolProfile_RFQ then
    if (ps_identity_mode sess =? is_mode ids) && negb (ps_identity_hash sess =? 0)
    then (ps_identity_hash sess, sess)
    else match startup_client_of sess with
         | (client, true) =>
             let h := polardb_startup_client_reuse_key client in
             (h, sess <| ps_identity_hash := h |> <| ps_identity_mode := is_mode ids |>)
         | (_, false) => (0, sess)
         end
  else (0, sess).

Definition polardb_prepare_pool_request_for_session (startup_profile : PolarDB_StartupProfile)
    (only_pooled require_rfq_profile : bool) (sess : pool_session)
  : PolarDB_PoolRequest * pool_session :=
  let expected_profile :=
    if require_rfq_profile then PoolProfile_RFQ
    else polardb_pool_profile_from_startup_profile startup_profile in
  let '(auth, sess) := request_auth_hash sess in
  let '(options, sess) := request_options_hash sess in
  let '(client_identity, sess) := request_identity_hash expected_profile sess in
  (mkPoolRequest (mkPoolKey auth client_identity options) startup_profile (is_mode ids)
     expected_profile only_pooled, sess).

(** ** Classification *)

Definition polardb_identity_mode_matches (conn : PgSQL_Connection)
    (pool_request : PolarDB_PoolRequest) : bool :=
  if negb (pr_expected_profile pool_request == PoolProfile_RFQ) then true
  else cn_identity_mode conn =? pr_startup_identity_mode pool_request.

Definition conn_profile_matches_request (conn : PgSQL_Connection)
    (pool_request : PolarDB_PoolRequest) : bool :=
  polardb_startup_profile_matches_request_generation (cn_profile conn)
    (cn_profile_generation conn) (pr_startup_profile pool_request)
    (pr_startup_identity_mode pool_request).

Definition polardb_connection_startup_settings_match (conn : option PgSQL_Connection)
    (startup_profile : PolarDB_StartupProfile)
    (startup_client : option PolarDB_StartupClientContext)
    (current_startup_generation current_identity_mode : Z) : bool :=
  match conn with
  | None => false
  | Some c =>
      if negb (cn_settings_set c) ||
         negb (polardb_startup_profile_matches_request_generation (cn_profile c)
                 (cn_profile_generation c) startup_profile current_identity_mode)
      then false
      else if negb (emits_startup_params startup_profile) then true
      else (cn_config_generation c =? current_startup_generation) &&
           match startup_client with
           | Some sc => compatible_for_reuse (cn_startup_client c) sc
           | None => false
           end
  end.

(** The cached-key comparisons, in the order of the source. *)
Definition classify_cached_key (conn_key : PolarDB_PoolKey) (pool_request : PolarDB_PoolRequest)
  : option PolarDB_PoolReuseState :=
  let key := pr_key pool_request in
  if pool_key_empty conn_key then None
  else if negb (pk_auth_hash key =? 0) && negb (pk_auth_hash conn_key =? pk_auth_hash key)
  then Some Reuse_AUTH_MISMATCH
  else if (pr_expected_profile pool_request == PoolProfile_RFQ) &&
          negb (pk_startup_identity_hash key =? 0) &&
          negb (pk_startup_identity_hash conn_key =? pk_startup_identity_hash key)
  then Some Reuse_IDENTITY_MISMATCH
  else if negb (pk_startup_options_hash key =? 0) &&
          negb (pk_startup_options_hash conn_key =? pk_startup_options_hash key)
  then Some Reuse_SESSION_STATE_MISMATCH
  else None.

(** The full comparison, once the cached key did not settle the question: the
    state, the number of matching variables and the connection, whose key the
    last branch fills. *)
Definition classify_full (conn client_conn : PgSQL_Connection) (ui cui : PgSQL_Connection_userinfo)
    (sess : pool_session) (pool_request : PolarDB_PoolRequest)
  : PolarDB_PoolReuseState * Z * PgSQL_Connection :=
  let key := pr_key pool_request in
  let conn_key := cn_pool_key conn in
  if negb (has_same_connection_options ui cui) then (Reuse_AUTH_MISMATCH, 0, conn)
  else
  let rfq := pr_expected_profile pool_request == PoolProfile_RFQ in
  let cached_identity_match :=
    rfq && negb (pool_key_empty conn_key) && negb (pk_startup_identity_hash key =? 0) &&
    (pk_startup_identity_hash conn_key =? pk_startup_identity_hash key) in
  let identity_ok :=
    negb (rfq && negb cached_identity_match) ||
    match startup_client_of sess with
    | (required, true) =>
        polardb_startup_client_compatible_for_warmup (cn_startup_client conn) required
    | (_, false) => false
    end in
  if negb identity_ok then (Reuse_IDENTITY_MISMATCH, 0, conn)
  else if requires_RESETTING_CONNECTION conn client_conn then (Reuse_NEEDS_RESET, 0, conn)
  else
  let '(matching, not_matching) := number_of_matching_session_variables conn client_conn in
  if negb (not_matching =? 0) then (Reuse_NEEDS_VARIABLE_UPDATE, matching, conn)
  else (Reuse_EXACT, matching, ensure_pool_key_for (pr_expected_profile pool_request) conn).

(** [facts] is the live status of a server.  A backend connection always has
    user data by the time it is pooled; the model reads its absence as a bad
    context. *)
Definition polardb_classify_pool_conn_for_reuse (facts : srv_id -> server_facts)
    (conn : PgSQL_Connection) (sess : pool_session) (pool_request : PolarDB_PoolRequest)
  : PolarDB_PoolReuseState * Z * PgSQL_Connection :=
  match cn_parent conn, ps_stream sess, ps_client sess with
  | Some srv, Some _, Some client_conn =>
      match cn_userinfo conn, cn_userinfo client_conn with
      | Some ui, Some cui =>
          if negb (cn_idle conn) || negb (ready_for_matching pool_request)
          then (Reuse_BAD_CONTEXT, 0, conn)
          else if (sf_status (facts srv) != SERVER_ONLINE) ||
                  negb (conn_profile_matches_request conn pool_request)
          then (Reuse_PROFILE_MISMATCH, 0, conn)
          else if negb (polardb_identity_mode_matches conn pool_request)
          then (Reuse_IDENTITY_MISMATCH, 0, conn)
          else if negb (cn_connected conn) then (Reuse_BAD_CONTEXT, 0, conn)
          else match classify_cached_key (cn_pool_key conn) pool_request with
          | Some st => (st, 0, conn)
          | None =>
              if cn_xids_dirty conn then (Reuse_SESSION_STATE_MISMATCH, 0, conn)
              else if negb (pool_key_empty (cn_pool_key conn)) &&
                      negb (pool_key_empty (pr_key pool_request)) &&
                      pool_key_eq (cn_pool_key conn) (pr_key pool_request)
              then if negb (has_same_connection_options ui cui)
                   then (Reuse_AUTH_MISMATCH, 0, conn) else (Reuse_EXACT, 0, conn)
              else classify_full conn client_conn ui cui sess pool_request
          end
      | _, _ => (Reuse_BAD_CONTEXT, 0, conn)
      end
  | _, _, _ => (Reuse_BAD_CONTEXT, 0, conn)
  end.

Definition polardb_reader_pool_reject_reason_from_reuse_state (state : PolarDB_PoolReuseState)
  : PolarDB_ReaderPoolRejectReason :=
  match state with
  | Reuse_BAD_CONTEXT => Reject_BAD_CONTEXT
  | Reuse_PROFILE_MISMATCH => Reject_PROFILE
  | Reuse_AUTH_MISMATCH => Reject_AUTH
  | Reuse_IDENTITY_MISMATCH => Reject_IDENTITY
  | Reuse_NEEDS_RESET | Reuse_NEEDS_VARIABLE_UPDATE | Reuse_SESSION_STATE_MISMATCH =>
      Reject_SESSION_STATE
  | Reuse_EXACT => Reject_NONE
  end.

(** The verdict, the reason and the connection. *)
Definition polardb_reader_pool_conn_usable (facts : srv_id -> server_facts)
    (conn : PgSQL_Connection) (sess : pool_session) (pool_request : PolarDB_PoolRequest)
  : bool * PolarDB_ReaderPoolRejectReason * PgSQL_Connection :=
  match polardb_classify_pool_conn_for_reuse facts conn sess pool_request with
  | (st, _, conn') =>
      (st == Reuse_EXACT, polardb_reader_pool_reject_reason_from_reuse_state st, conn')
  end.

End Session.

(** ** Returning a connection *)

Definition polardb_reader_pool_conn_can_remain_pooled (conn : PgSQL_Connection) : bool :=
  if negb (emits_startup_params (cn_profile conn)) then true
  else cn_identity_mode conn =? identity_mode_to_int IdentityMode_PROXY.

(** The thread handler's limits; [None] while it does not exist. *)
Record pool_limits := mkLimits { lm_query_length : Z; lm_stmts : Z }.

(** [hid] is the hostgroup the server belongs to, [None] for a server that was
    detached from its hostgroup. *)
Definition polardb_pool_return_state (m : PgSQL_HostGroups_Manager) (proxy_protocol : Z)
    (profile_off : bool) (limits : option pool_limits) (hid : option Z) (srv : srv_id)
    (conn : PgSQL_Connection) : PolarDB_PoolReuseState :=
  if negb (bool_decide (cn_parent conn = Some srv)) || negb (cn_idle conn)
  then Reuse_BAD_CONTEXT
  else match hid with
  | None => Reuse_BAD_CONTEXT
  | Some hid =>
      let profile := polardb_startup_profile_for_config (get_polardb_hg_config m hid)
                       proxy_protocol profile_off in
      if negb (polardb_startup_profile_matches_request_generation (cn_profile conn)
                 (cn_profile_generation conn) profile (cn_identity_mode conn))
      then Reuse_PROFILE_MISMATCH
      else if negb (cn_connected conn) then Reuse_BAD_CONTEXT
      else match limits with
      | None => Reuse_SESSION_STATE_MISMATCH
      | Some l =>
          if cn_xids_dirty conn || (wrap32 (lm_query_length l) <? cn_largest_query_length conn) ||
             (wrap32 (lm_stmts l) <? cn_num_backend_stmts conn)
          then Reuse_SESSION_STATE_MISMATCH else Reuse_EXACT
      end
  end.

Section Return.
Context (m : PgSQL_HostGroups_Manager) (proxy_protocol : Z) (profile_off : bool).
Context (limits : option pool_limits) (facts : srv_id -> server_facts).
Context (hostgroup_of : srv_id -> option Z).

(** Status, match key and the connection with its key filled. *)
Definition connection_return_decision (conn : PgSQL_Connection)
  : PolarDB_ReaderConnectionReturnStatus * PgSQL_PoolMatchKey * PgSQL_Connection :=
  match cn_parent conn with
  | None => (Return_NOT_MANAGED, no_match_key, conn)
  | Some srv =>
      match hostgroup_of srv with
      | None => (Return_NOT_MANAGED, no_match_key, conn)
      | Some hid =>
          if negb (is_polardb_hostgroup m hid) then (Return_NOT_MANAGED, no_match_key, conn)
          else if sf_status (facts srv) != SERVER_ONLINE
          then (Return_OFFLINE, no_match_key, conn)
          else if negb (polardb_reader_pool_conn_can_remain_pooled conn)
          then (Return_CLIENT_IDENTITY, no_match_key, conn)
          else if polardb_pool_return_state m proxy_protocol profile_off limits (Some hid) srv conn
                  != Reuse_EXACT
          then (Return_UNUSABLE, no_match_key, conn)
          else
            let conn := polardb_ensure_pool_key conn in
            let key := polardb_core_pool_match_key_for_conn (Some conn) in
            (if match_key_empty key then Return_EMPTY_KEY else Return_RETURNABLE, key, conn)
      end
  end.

(** [pending] answers [has_matching_reader_pool_capacity_request] for the
    other workers.  Action, status and connection. *)
Definition local_return_decision (pending : srv_id -> PgSQL_PoolMatchKey -> bool)
    (conn : PgSQL_Connection)
  : PolarDB_ReaderLocalReturn * PolarDB_ReaderConnectionReturnStatus * PgSQL_Connection :=
  let unmanaged := (USE_SHARED_POOL, Return_NOT_MANAGED, conn) in
  match cn_parent conn with
  | None => unmanaged
  | Some srv =>
      if pool_key_empty (cn_pool_key conn) then unmanaged
      else match hostgroup_of srv with
      | None => unmanaged
      | Some hid =>
          let cfg := get_polardb_hg_config m hid in
          if negb (hc_is_polardb_hostgroup cfg) ||
             (negb (hc_reader_hostgroup cfg =? hid) && negb (hc_writer_hostgroup cfg =? hid))
          then unmanaged
          else match connection_return_decision conn with
          | (st, key, conn') =>
              if negb (bool_decide (st = Return_RETURNABLE)) then (REMOVE_CONNECTION, st, conn')
              else if negb (pending srv key) then (KEEP_WITH_WORKER, st, conn')
              else (USE_SHARED_POOL_REUSE_CHECKED, st, conn')
          end
      end
  end.

End Return.

(** ** Lemmas *)

(** *** The two scans over ordered index lists *)

Definition increasing (l : list nat) : Prop := Sorted.StronglySorted Nat.lt l.

Lemma increasing_nodup l : increasing l -> List.NoDup l.
Proof.
  induction 1 as [|x l Hl IH Hx]; constructor; [|done].
  rewrite List.Forall_forall in Hx. intros Hin.
  specialize (Hx x Hin). lia.
Qed.

Lemma increasing_seq n k : increasing (seq n k).
Proof.
  revert n. induction k as [|k IH]; intros n; cbn; constructor; [apply IH|].
  rewrite List.Forall_forall. intros y Hy. apply in_seq in Hy. lia.
Qed.

Lemma increasing_filter f l : increasing l -> increasing (List.filter f l).
Proof.
  induction 1 as [|x l Hl IH Hx]; cbn; [constructor|]. case_if; [|done].
  constructor; [done|]. rewrite List.Forall_forall in *. intros y Hy.
  apply filter_In in Hy. apply Hx, Hy.
Qed.

Lemma skip_below_spec b l :
  increasing l ->
  increasing (skip_below b l) /\
  forall x, In x (skip_below b l) <-> In x l /\ (b <= x)%nat.
Proof.
  induction 1 as [|y l Hl IH Hy]; [split; [constructor|cbn; naive_solver]|].
  cbn [skip_below]. destruct (Nat.ltb_spec y b) as [Hlt|Hge].
  - destruct IH as [IHs IHm]. split; [done|]. intros x. rewrite IHm. cbn. split.
    + tauto.
    + intros [[->|Hx] Hb]; [lia|tauto].
  - split; [by constructor|]. intros x. split; [|tauto]. intros Hx. split; [done|].
    destruct Hx as [->|Hx]; [lia|]. rewrite List.Forall_forall in Hy.
    specialize (Hy x Hx). lia.
Qed.

(** The head of the skipped list decides membership of the bound. *)
Lemma skip_below_head b l :
  increasing l ->
  In b l <-> match skip_below b l with c :: _ => c = b | [] => False end.
Proof.
  intros Hl. destruct (skip_below_spec b l Hl) as [Hs Hm]. split.
  - intros Hb. assert (Hin : In b (skip_below b l)) by (apply Hm; split; [done|lia]).
    destruct (skip_below b l) as [|c r] eqn:E; [done|].
    assert (Hc : (b <= c)%nat) by (apply (Hm c); by left).
    destruct Hin as [->|Hin]; [done|]. inversion Hs as [|? ? ? Hf]; subst.
    rewrite List.Forall_forall in Hf. specialize (Hf b Hin). lia.
  - destruct (skip_below b l) as [|c r]; [done|]. intros ->. apply (Hm b). by left.
Qed.

Lemma has_extra_variable_spec client server :
  increasing client -> increasing server ->
  has_extra_variable client server = false <-> (forall s, In s server -> In s client).
Proof.
  intros Hc Hs. revert client Hc. induction Hs as [|s server Hs IH Hf]; intros client Hc.
  { cbn. intuition. }
  cbn [has_extra_variable]. pose proof (skip_below_spec s client Hc) as [Hc' Hm].
  pose proof (skip_below_head s client Hc) as Hh. rewrite List.Forall_forall in Hf.
  destruct (skip_below s client) as [|c r] eqn:E.
  { split; [done|]. intros H. destruct (proj1 Hh (H s (or_introl eq_refl))). }
  destruct (Nat.eqb_spec c s) as [->|Hne].
  - rewrite (IH (s :: r) Hc'). split.
    + intros H x [->|Hx]; [apply (Hm x); by left|]. apply (Hm x), H, Hx.
    + intros H x Hx. apply Hm. split; [apply H; by right|]. specialize (Hf x Hx). lia.
  - split; [done|]. intros H. exfalso. apply Hne, Hh, H. by left.
Qed.

Section Scan.
Context (conn client_conn : PgSQL_Connection).

(** A client variable the backend has with the same value. *)
Definition agrees (server : list nat) (c : nat) : bool :=
  existsb (Nat.eqb c) server && (var_hash conn c =? var_hash client_conn c).

Lemma agrees_spec server c :
  agrees server c = true <-> In c server /\ var_hash conn c = var_hash client_conn c.
Proof.
  unfold agrees. rewrite andb_true_iff, existsb_exists, Z.eqb_eq. split.
  - intros [[x [Hx E]] H]. apply Nat.eqb_eq in E. by subst.
  - intros [H1 H2]. split; [|done]. exists c. split; [done|apply Nat.eqb_refl].
Qed.

Lemma agrees_ext server server' c :
  (In c server <-> In c server') -> agrees server c = agrees server' c.
Proof.
  intros H. apply eq_true_iff_eq. rewrite !agrees_spec. tauto.
Qed.

Lemma match_dynamic_count client server ret nm :
  increasing client -> increasing server ->
  2 * Z.of_nat (length (List.filter (agrees server) client)) <= nm < U32_MODULUS ->
  snd (match_dynamic conn client_conn client server ret nm) =
    nm - 2 * Z.of_nat (length (List.filter (agrees server) client)).
Proof.
  intros Hc. revert server ret nm. induction Hc as [|c client Hc IH Hf]; intros server ret nm Hs Hn.
  { cbn. lia. }
  pose proof (skip_below_spec c server Hs) as [Hs' Hm].
  pose proof (skip_below_head c server Hs) as Hh. rewrite List.Forall_forall in Hf.
  assert (Hext : List.filter (agrees server) client =
                 List.filter (agrees (skip_below c server)) client).
  { apply filter_ext_in. intros x Hx. apply agrees_ext. rewrite Hm.
    specialize (Hf x Hx). intuition lia. }
  assert (Hnone : forall l, List.filter (agrees []) l = []) by (by induction l).
  cbn [match_dynamic List.filter] in *. destruct server as [|s0 server0].
  { cbn [agrees existsb andb] in *. rewrite Hnone in *. cbn in *. lia. }
  set (server := s0 :: server0) in *.
  destruct (agrees server c) eqn:Ea.
  - apply agrees_spec in Ea as [Hin Heq]. apply Hh in Hin.
    destruct (skip_below c server) as [|s r] eqn:E; [done|]. subst s.
    rewrite Nat.eqb_refl, Heq, Z.eqb_refl. cbn [andb]. cbn [length] in *.
    rewrite Hext in *. unfold wrap32. rewrite (Z.mod_small (nm - 2)) by lia.
    rewrite IH by (done || lia). lia.
  - assert (Hno : forall s r, skip_below c server = s :: r ->
      (s =? c)%nat && (var_hash conn s =? var_hash client_conn c) = false).
    { intros s r E. rewrite E in Hh. destruct (Nat.eqb_spec s c) as [->|]; [|done]. cbn.
      apply Z.eqb_neq. intros Heq. apply not_true_iff_false in Ea. apply Ea, agrees_spec.
      split; [by apply Hh|done]. }
    rewrite Hext in *. destruct (skip_below c server) as [|s r] eqn:E.
    + apply IH; [constructor|done].
    + rewrite (Hno s r eq_refl). by apply IH.
Qed.

End Scan.

(** [reorder_dynamic_variables_idx] ran since the last change of a variable. *)
Definition variables_indexed (c : PgSQL_Connection) : Prop :=
  cn_dynamic_variables_idx c = cn_dynamic_variables_idx (reorder_dynamic_variables_idx c).

(** The tracked variables have the same value hashes on both connections. *)
Definition same_variables (a b : PgSQL_Connection) : Prop :=
  forall i, (i < PGSQL_NAME_LAST_HIGH_WM)%nat -> i <> PGSQL_NAME_LAST_LOW_WM ->
    var_hash a i = var_hash b i.

Lemma indexed_increasing c : variables_indexed c -> increasing (cn_dynamic_variables_idx c).
Proof.
  intros ->. unfold reorder_dynamic_variables_idx. simpl_upd.
  apply increasing_filter, increasing_seq.
Qed.

Lemma indexed_in c i :
  variables_indexed c ->
  In i (cn_dynamic_variables_idx c) <->
  (PGSQL_NAME_LAST_LOW_WM < i < PGSQL_NAME_LAST_HIGH_WM)%nat /\ var_hash c i <> 0.
Proof.
  intros H. rewrite H. unfold reorder_dynamic_variables_idx. simpl_upd.
  rewrite filter_In, in_seq, negb_true_iff, Z.eqb_neq.
  unfold PGSQL_NAME_LAST_LOW_WM, PGSQL_NAME_LAST_HIGH_WM. split; intros [? ?]; split; (done || lia).
Qed.

Lemma indexed_length c : variables_indexed c -> (length (cn_dynamic_variables_idx c) <= 14)%nat.
Proof.
  intros H. rewrite <- (length_seq 14 6). apply NoDup_incl_length.
  - by apply increasing_nodup, indexed_increasing.
  - intros i Hi. apply (indexed_in c i H) in Hi as [Hi _]. apply in_seq.
    unfold PGSQL_NAME_LAST_LOW_WM, PGSQL_NAME_LAST_HIGH_WM in Hi. lia.
Qed.

(** *** The low variables *)

Definition low_agree (conn client : PgSQL_Connection) (i : nat) : Prop :=
  var_hash client i <> 0 -> var_hash conn i = var_hash client i.

Lemma match_low_count conn client l r n :
  0 <= n -> n + Z.of_nat (length l) < U32_MODULUS ->
  n <= snd (fold_left (match_low conn client) l (r, n)) <= n + Z.of_nat (length l) /\
  (snd (fold_left (match_low conn client) l (r, n)) = n <->
   forall i, In i l -> low_agree conn client i).
Proof.
  revert r n. induction l as [|i l IH]; intros r n Hn Hb.
  { cbn. split; [lia|naive_solver]. }
  cbn [fold_left length] in *.
  remember (match_low conn client (r, n) i) as acc eqn:Ea.
  unfold match_low in Ea. cbn [fst snd] in Ea. revert Ea.
  destruct (Z.eqb_spec (var_hash client i) 0) as [Ez|Enz]; cbn [negb].
  - intros ->. destruct (IH r n) as [H1 H2]; [lia..|]. split; [lia|]. rewrite H2.
    unfold low_agree. cbn. naive_solver.
  - destruct (Z.eqb_spec (var_hash conn i) (var_hash client i)) as [Ee|Ene].
    + intros ->. destruct (IH (wrap32 (r + 1)) n) as [H1 H2]; [lia..|]. split; [lia|]. rewrite H2.
      unfold low_agree. cbn. naive_solver.
    + rewrite (wrap32_id (n + 1)) by (unfold is_u32; lia). intros ->.
      destruct (IH r (n + 1)) as [H1 H2]; [lia..|]. split; [lia|]. split; [lia|].
      intros H. exfalso. apply Ene, (H i); [by left|done].
Qed.

Lemma low_extra_spec conn client :
  existsb (fun i => (var_hash client i =? 0) && negb (var_hash conn i =? 0))
    (seq 0 PGSQL_NAME_LAST_LOW_WM) = false <->
  forall i, (i < PGSQL_NAME_LAST_LOW_WM)%nat -> var_hash client i = 0 -> var_hash conn i = 0.
Proof.
  rewrite <- not_true_iff_false, existsb_exists. split.
  - intros H i Hi Hc. destruct (Z.eq_dec (var_hash conn i) 0); [done|]. exfalso. apply H.
    exists i. rewrite in_seq, Hc, andb_true_iff, negb_true_iff, Z.eqb_neq. split; [lia|done].
  - intros H [i [Hi Hb]]. apply in_seq in Hi. bool_to_prop.
    match goal with Hc : _ <> 0 |- _ => apply Hc end. apply H; [lia|done].
Qed.

Lemma filter_all {A} (f : A -> bool) l :
  (length (List.filter f l) <= length l)%nat /\
  (length (List.filter f l) = length l <-> forall x, In x l -> f x = true).
Proof.
  induction l as [|x l [IH1 IH2]]; [cbn; naive_solver|].
  cbn. destruct (f x) eqn:E; cbn; (split; [lia|]).
  - rewrite <- Nat.succ_inj_wd in IH2. rewrite IH2. naive_solver.
  - split; [lia|]. intros H. rewrite H in E; [done|by left].
Qed.

Lemma agreeing_le_server conn client_conn client server :
  increasing client ->
  (length (List.filter (agrees conn client_conn server) client) <= length server)%nat.
Proof.
  intros Hc. apply NoDup_incl_length.
  - by apply increasing_nodup, increasing_filter.
  - intros i Hi. apply filter_In in Hi as [_ Hi]. by apply agrees_spec in Hi as [? _].
Qed.

Lemma not_matching_value conn client :
  variables_indexed conn -> variables_indexed client ->
  let k := length (List.filter (agrees conn client (cn_dynamic_variables_idx conn))
                     (cn_dynamic_variables_idx client)) in
  let low := snd (fold_left (match_low conn client) (seq 0 PGSQL_NAME_LAST_LOW_WM) (0, 0)) in
  snd (number_of_matching_session_variables conn client) =
    low + Z.of_nat (length (cn_dynamic_variables_idx client)) +
    Z.of_nat (length (cn_dynamic_variables_idx conn)) - 2 * Z.of_nat k.
Proof.
  intros Hi Hj k low. unfold number_of_matching_session_variables.
  pose proof (indexed_length conn Hi). pose proof (indexed_length client Hj).
  pose proof (agreeing_le_server conn client _ (cn_dynamic_variables_idx conn)
                (indexed_increasing client Hj)) as Hk.
  destruct (filter_all (agrees conn client (cn_dynamic_variables_idx conn))
              (cn_dynamic_variables_idx client)) as [Hk' _].
  destruct (match_low_count conn client (seq 0 PGSQL_NAME_LAST_LOW_WM) 0 0) as [Hlow _];
    [lia|by vm_compute|]. rewrite length_seq in Hlow. fold low in Hlow |- *.
  fold k in Hk, Hk'. unfold PGSQL_NAME_LAST_LOW_WM in *.
  rewrite (wrap32_id (low + _)), wrap32_id by (unfold is_u32, U32_MODULUS; lia).
  rewrite match_dynamic_count; fold k; [lia|by apply indexed_increasing..|].
  unfold U32_MODULUS. lia.
Qed.

(** What the count says, whichever way the comparison came out. *)
Lemma not_matching_zero conn client :
  variables_indexed conn -> variables_indexed client ->
  snd (number_of_matching_session_variables conn client) = 0 <->
  (forall i, (i < PGSQL_NAME_LAST_LOW_WM)%nat -> low_agree conn client i) /\
  length (cn_dynamic_variables_idx conn) = length (cn_dynamic_variables_idx client) /\
  (forall i, In i (cn_dynamic_variables_idx client) ->
     In i (cn_dynamic_variables_idx conn) /\ var_hash conn i = var_hash client i).
Proof.
  intros Hi Hj. rewrite not_matching_value by done.
  set (lc := cn_dynamic_variables_idx client). set (ls := cn_dynamic_variables_idx conn).
  pose proof (agreeing_le_server conn client lc ls (indexed_increasing client Hj)) as Hk.
  destruct (filter_all (agrees conn client ls) lc) as [Hk' Hall].
  destruct (match_low_count conn client (seq 0 PGSQL_NAME_LAST_LOW_WM) 0 0) as [Hlow Hlow0];
    [lia|by vm_compute|].
  set (low := snd (fold_left _ _ _)) in *.
  set (k := length (List.filter (agrees conn client ls) lc)) in *. split.
  - intros Hz. assert (Hkc : k = length lc) by lia. assert (Hl0 : low = 0) by lia.
    rewrite Hlow0 in Hl0. rewrite Hall in Hkc. split; [|split; [lia|]].
    + intros i Hx. apply Hl0, in_seq. lia.
    + intros i Hx. by apply agrees_spec, Hkc.
  - intros (Hl & Hlen & Hd). assert (low = 0).
    { apply Hlow0. intros i Hx. apply in_seq in Hx. apply Hl. lia. }
    assert (k = length lc) by (apply Hall; intros i Hx; by apply agrees_spec, Hd). lia.
Qed.

Lemma accepted_same_variables conn client :
  variables_indexed conn -> variables_indexed client ->
  requires_RESETTING_CONNECTION conn client = false ->
  snd (number_of_matching_session_variables conn client) = 0 ->
  same_variables conn client.
Proof.
  intros Hi Hj Hr Hz. apply not_matching_zero in Hz as (Hl & Hlen & Hd); [|done..].
  unfold requires_RESETTING_CONNECTION in Hr. case_if_in Hr; [done|].
  rewrite low_extra_spec in E. case_if_in Hr; [done|].
  rewrite has_extra_variable_spec in Hr by (by apply indexed_increasing).
  intros i Hb Hne. destruct (Z.eq_dec (var_hash client i) 0) as [Ez|Enz];
    destruct (Nat.lt_ge_cases i PGSQL_NAME_LAST_LOW_WM) as [Hlt|Hge].
  - rewrite Ez. by apply E.
  - destruct (Z.eq_dec (var_hash conn i) 0) as [|Enz']; [congruence|]. exfalso.
    assert (Hin : In i (cn_dynamic_variables_idx conn)) by (apply indexed_in; [done|lia]).
    apply Hr, indexed_in in Hin; naive_solver.
  - by apply Hl.
  - apply Hd, indexed_in; [done|lia].
Qed.

Lemma same_variables_accepted conn client :
  variables_indexed conn -> variables_indexed client -> same_variables conn client ->
  requires_RESETTING_CONNECTION conn client = false /\
  snd (number_of_matching_session_variables conn client) = 0.
Proof.
  intros Hi Hj Hs.
  assert (Hsub : forall i, In i (cn_dynamic_variables_idx conn) <->
                           In i (cn_dynamic_variables_idx client)).
  { intros i. rewrite !indexed_in by done. split; intros [Hb Hv]; (split; [done|]);
      [rewrite <- (Hs i) by lia|rewrite (Hs i) by lia]; done. }
  assert (Hlen : length (cn_dynamic_variables_idx conn) =
                 length (cn_dynamic_variables_idx client)).
  { apply Nat.le_antisymm; apply NoDup_incl_length;
      try (by apply increasing_nodup, indexed_increasing); intros i Hx; by apply Hsub. }
  assert (Hlow : forall i, (i < PGSQL_NAME_LAST_LOW_WM)%nat -> var_hash conn i = var_hash client i).
  { intros i Hx. apply Hs; unfold PGSQL_NAME_LAST_LOW_WM, PGSQL_NAME_LAST_HIGH_WM in *; lia. }
  split.
  - unfold requires_RESETTING_CONNECTION. rewrite (proj2 (low_extra_spec conn client)).
    + rewrite Hlen, Nat.ltb_irrefl.
      apply has_extra_variable_spec; [by apply indexed_increasing..|]. intros i Hx. by apply Hsub.
    + intros i Hx Hc. by rewrite Hlow.
  - apply not_matching_zero; [done..|]. split; [intros i Hx _; by apply Hlow|].
    split; [done|]. intros i Hx. split; [by apply Hsub|].
    apply (indexed_in client i Hj) in Hx as [Hb _]. apply Hs; lia.
Qed.

(** The comparison of session variables behind an exact reuse is exact.
    For connections whose index of dynamic variables is current, a backend
    connection needs no reset and has no variable that differs precisely when
    every tracked variable has the same value hash on both sides; the unsigned
    counter never wraps. *)
Theorem variable_comparison_exact conn client :
  variables_indexed conn -> variables_indexed client ->
  requires_RESETTING_CONNECTION conn client = false /\
  snd (number_of_matching_session_variables conn client) = 0 <->
  same_variables conn client.
Proof.
  intros Hi Hj. split.
  - intros [Hr Hz]. by apply accepted_same_variables.
  - by apply same_variables_accepted.
Qed.

Definition sample_connection : PgSQL_Connection :=
  mkConnection 1 (Some 7) true true true (from_protocol Protocol_V15)
    (generation (from_protocol Protocol_V15) 1) 1 3
    (mkStartupClient (mkStartupIdentity "10.0.0.9" 6133 IdentitySource_LISTENER_PROXY)
       false "" "" false 0 0)
    no_pool_key false (Some (mkUserinfo 11 (Some "app") (Some "shop")))
    [5; 5; 5; 5; 5; 0; 0; 9; 0; 0; 0; 0; 0; 0; 0; 0; 0; 0; 4; 0] [7%nat; 18%nat] 100 2 None.

Lemma variable_comparison_exact_witness :
  same_variables sample_connection (reorder_dynamic_variables_idx sample_connection).
Proof.
  apply variable_comparison_exact; [reflexivity|reflexivity|].
  split; vm_compute; reflexivity.
Defined.

(** *** Classification *)

(** The same user and database: by name, or by the 64-bit hash over user name,
    password and database that each user data carries. *)
Definition same_user (a b : PgSQL_Connection_userinfo) : Prop :=
  (ui_username a = ui_username b /\ ui_dbname a = ui_dbname b) \/ ui_hash a = ui_hash b.

(** The pool key of a connection is not computed yet, or is the key of its own
    user, startup identity and variables. *)
Definition own_key (c : PgSQL_Connection) : Prop :=
  pool_key_empty (cn_pool_key c) = true \/
  cn_pool_key c =
    polardb_pool_key_for_connection_profile c
      (polardb_pool_profile_from_startup_profile (cn_profile c)).

(** What an exactly reusable connection is, for a session and a request.  The
    identity and the variables are established in one of three ways: the whole
    keys are equal, the (computed, hence non-zero) identity hashes are equal, or
    the startup contexts and the variables are compared themselves. *)
Record reusable_for (pton4 : string -> option Z) (pton6 : string -> option (list Z))
    (ids : identity_settings) (facts : srv_id -> server_facts) (conn : PgSQL_Connection)
    (sess : pool_session) (req : PolarDB_PoolRequest) : Prop := {
  ru_online : exists srv, cn_parent conn = Some srv /\ sf_status (facts srv) = SERVER_ONLINE;
  ru_live : cn_idle conn = true /\ cn_connected conn = true /\ cn_xids_dirty conn = false;
  ru_profile : cn_profile conn = pr_startup_profile req /\
    cn_profile_generation conn =
      generation (pr_startup_profile req) (pr_startup_identity_mode req);
  ru_identity_mode : pr_expected_profile req = PoolProfile_RFQ ->
    cn_identity_mode conn = pr_startup_identity_mode req;
  ru_identity : pr_expected_profile req = PoolProfile_RFQ ->
    cn_pool_key conn = pr_key req \/
    (pk_startup_identity_hash (pr_key req) <> 0 /\
     pk_startup_identity_hash (cn_pool_key conn) = pk_startup_identity_hash (pr_key req)) \/
    exists c, startup_client_of pton4 pton6 ids sess = (c, true) /\
      compatible_for_reuse (cn_startup_client conn) c = true;
  ru_session : exists client ui cui, ps_client sess = Some client /\
    cn_userinfo conn = Some ui /\ cn_userinfo client = Some cui /\ same_user ui cui /\
    (variables_indexed conn -> variables_indexed client ->
     (cn_pool_key conn = pr_key req /\ pool_key_empty (pr_key req) = false) \/
     same_variables conn client)
}.

(** The connection and the session themselves agree, keys aside: on the 64-bit
    hash of the startup identity, where the profile carries one, and on the
    64-bit hash of all tracked variables. *)
Definition agrees_with_session (pton4 : string -> option Z) (pton6 : string -> option (list Z))
    (ids : identity_settings) (conn : PgSQL_Connection) (sess : pool_session)
    (req : PolarDB_PoolRequest) : Prop :=
  (pr_expected_profile req = PoolProfile_RFQ ->
   exists c, startup_client_of pton4 pton6 ids sess = (c, true) /\
     polardb_startup_client_reuse_key (cn_startup_client conn) =
       polardb_startup_client_reuse_key c) /\
  polardb_pool_session_options_reuse_key (Some conn) =
    polardb_pool_session_options_reuse_key (ps_client sess).

Lemma pool_key_eq_spec a b : pool_key_eq a b = true <-> a = b.
Proof.
  unfold pool_key_eq. rewrite !andb_true_iff, !Z.eqb_eq. destruct a, b; cbn.
  split; [intros [[-> ->] ->]; done|by intros [= -> -> ->]].
Qed.

Lemma profile_compatible_eq a b :
  polardb_startup_profile_compatible_for_reuse a b = true <-> a = b.
Proof.
  unfold polardb_startup_profile_compatible_for_reuse.
  rewrite andb_true_iff, bool_decide_eq_true, Z.eqb_eq. destruct a, b; cbn.
  split; [by intros [-> ->]|by intros [= -> ->]].
Qed.

Lemma conn_profile_matches_spec conn req :
  conn_profile_matches_request conn req = true <->
  cn_profile conn = pr_startup_profile req /\
  cn_profile_generation conn = generation (pr_startup_profile req) (pr_startup_identity_mode req).
Proof.
  unfold conn_profile_matches_request, polardb_startup_profile_matches_request_generation.
  rewrite andb_true_iff, Z.eqb_eq, profile_compatible_eq. tauto.
Qed.

Lemma identity_mode_matches_spec conn req :
  polardb_identity_mode_matches conn req = true <->
  (pr_expected_profile req = PoolProfile_RFQ ->
   cn_identity_mode conn = pr_startup_identity_mode req).
Proof.
  unfold polardb_identity_mode_matches. destruct (bool_decide_reflect
    (pr_expected_profile req = PoolProfile_RFQ)); cbn; rewrite ?Z.eqb_eq; naive_solver.
Qed.

Lemma cached_key_not_exact k req : classify_cached_key k req <> Some Reuse_EXACT.
Proof. unfold classify_cached_key. by repeat case_if. Qed.

Lemma same_options_spec ui cui : has_same_connection_options ui cui = true -> same_user ui cui.
Proof.
  unfold has_same_connection_options, same_user. case_if; bool_to_prop; [|by right].
  intros H. bool_to_prop. by left.
Qed.

(** The full comparison accepts only what the session can use. *)
Lemma classify_full_exact pton4 pton6 ids conn client ui cui sess req n conn' :
  classify_full pton4 pton6 ids conn client ui cui sess req = (Reuse_EXACT, n, conn') ->
  same_user ui cui /\
  (pr_expected_profile req = PoolProfile_RFQ ->
   (pk_startup_identity_hash (pr_key req) <> 0 /\
    pk_startup_identity_hash (cn_pool_key conn) = pk_startup_identity_hash (pr_key req)) \/
   exists c, startup_client_of pton4 pton6 ids sess = (c, true) /\
     compatible_for_reuse (cn_startup_client conn) c = true) /\
  (variables_indexed conn -> variables_indexed client -> same_variables conn client) /\
  conn' = ensure_pool_key_for (pr_expected_profile req) conn.
Proof.
  unfold classify_full. intros H. case_if_in H; [done|]. bool_to_prop.
  split; [by apply same_options_spec|].
  match type of H with (if ?b then _ else _) = _ => destruct b eqn:E0 end; [done|].
  apply negb_false_iff in E0. case_if_in H; [done|].
  destruct (number_of_matching_session_variables conn client) as [mt nm] eqn:En.
  case_if_in H; [done|]. bool_to_prop. injection H as _ <-. split; [|split; [|done]].
  - intros Hrfq. rewrite bool_decide_true in E0 by done. cbn [andb] in E0.
    apply orb_true_iff in E0 as [E0|E0].
    + bool_to_prop. by left.
    + right. destruct (startup_client_of pton4 pton6 ids sess) as [c [|]]; [|done].
      by exists c.
  - intros Hi Hj. apply accepted_same_variables; [done..|]. by rewrite En.
Qed.

Lemma ensure_pool_key_only_key p c :
  exists k, ensure_pool_key_for p c = c <| cn_pool_key := k |>.
Proof.
  unfold ensure_pool_key_for. case_if; [|by eexists]. exists (cn_pool_key c). by destruct c.
Qed.

(** What an exact classification establishes, and what becomes of the key. *)
Lemma exact_reuse_cases pton4 pton6 ids facts conn sess req n conn' :
  polardb_classify_pool_conn_for_reuse pton4 pton6 ids facts conn sess req =
    (Reuse_EXACT, n, conn') ->
  reusable_for pton4 pton6 ids facts conn sess req /\
  (conn' = conn \/ conn' = ensure_pool_key_for (pr_expected_profile req) conn).
Proof.
  unfold polardb_classify_pool_conn_for_reuse.
  destruct (cn_parent conn) as [srv|] eqn:Ep; [|done].
  destruct (ps_stream sess); [|done]. destruct (ps_client sess) as [client|] eqn:Ec; [|done].
  destruct (cn_userinfo conn) as [ui|] eqn:Eu; [|done].
  destruct (cn_userinfo client) as [cui|] eqn:Ecu; [|done].
  repeat (case_if; [done|]). destruct (classify_cached_key _ _) as [st|] eqn:Ek.
  { intros [= -> _ _]. by apply cached_key_not_exact in Ek. }
  case_if; [done|]. bool_to_prop.
  assert (Hm := proj1 (conn_profile_matches_spec _ _) ltac:(eassumption)).
  assert (Hi := proj1 (identity_mode_matches_spec _ _) ltac:(eassumption)).
  case_if.
  - case_if; [done|]. bool_to_prop. intros [= _ <-].
    match goal with H : pool_key_eq _ _ = true |- _ => apply pool_key_eq_spec in H end.
    match goal with H : has_same_connection_options _ _ = true |- _ =>
      apply same_options_spec in H end.
    split; [|by left]. constructor; eauto 12.
  - intros Hf. apply classify_full_exact in Hf as (Hs & Hid & Hv & ->).
    split; [|by right]. constructor; eauto 15.
Qed.

Lemma options_key_nonzero c : polardb_pool_session_options_reuse_key (Some c) <> 0.
Proof. unfold polardb_pool_session_options_reuse_key. case_if; bool_to_prop; lia. Qed.

Lemma ensure_own_key p c :
  own_key c -> p = polardb_pool_profile_from_startup_profile (cn_profile c) ->
  own_key (ensure_pool_key_for p c).
Proof.
  unfold ensure_pool_key_for. intros Ho ->. case_if; [done|]. right. by destruct c.
Qed.

Lemma same_variables_same_key conn client :
  variables_indexed conn -> variables_indexed client -> same_variables conn client ->
  polardb_pool_session_options_reuse_key (Some conn) =
  polardb_pool_session_options_reuse_key (Some client).
Proof.
  intros Hi Hj Hs.
  assert (Hidx : cn_dynamic_variables_idx conn = cn_dynamic_variables_idx client).
  { rewrite Hi, Hj. unfold reorder_dynamic_variables_idx. simpl_upd.
    apply filter_ext_in. intros i Hx. apply in_seq in Hx. f_equal. f_equal.
    apply Hs; unfold PGSQL_NAME_LAST_LOW_WM, PGSQL_NAME_LAST_HIGH_WM in *; lia. }
  assert (Hfold : forall (f : Z -> nat -> Z -> Z) l h,
    (forall i, In i l -> var_hash conn i = var_hash client i) ->
    fold_left (fun h i => f h i (var_hash conn i)) l h =
    fold_left (fun h i => f h i (var_hash client i)) l h).
  { intros f l. induction l as [|i l IH]; intros h Hl; [done|]. cbn [fold_left].
    rewrite (Hl i) by (by left). apply IH. intros j Hx. apply Hl. by right. }
  unfold polardb_pool_session_options_reuse_key. cbn zeta.
  rewrite (Hfold (fun h _ v => polardb_pool_hash_u64 h v)).
  2: { intros i Hx. apply in_seq in Hx.
       apply Hs; unfold PGSQL_NAME_LAST_LOW_WM, PGSQL_NAME_LAST_HIGH_WM in *; lia. }
  rewrite Hidx, (Hfold (fun h i v => polardb_pool_hash_u64 (polardb_pool_hash_u64 h (Z.of_nat i)) v));
    [done|].
  intros i Hx. apply (indexed_in client i Hj) in Hx as [Hb _]. apply Hs; lia.
Qed.

(** The key of a request, computed from scratch. *)
Definition fresh_key (pton4 : string -> option Z) (pton6 : string -> option (list Z))
    (ids : identity_settings) (profile : PolarDB_PoolProfile) (sess : pool_session)
  : PolarDB_PoolKey :=
  mkPoolKey (polardb_pool_auth_reuse_key (c ← ps_client sess; cn_userinfo c))
    (if profile == PoolProfile_RFQ
     then match startup_client_of pton4 pton6 ids sess with
          | (c, true) => polardb_startup_client_reuse_key c
          | (_, false) => 0
          end
     else 0)
    (polardb_pool_session_options_reuse_key (ps_client sess)).

(** Once the identity hash of a fresh request is the one of a connection's own
    key, the identities have the same hash. *)
Lemma own_identity_agrees pton4 pton6 ids conn sess req :
  own_key conn -> pool_key_empty (cn_pool_key conn) = false ->
  polardb_pool_profile_from_startup_profile (cn_profile conn) = PoolProfile_RFQ ->
  pr_expected_profile req = PoolProfile_RFQ ->
  pr_key req = fresh_key pton4 pton6 ids PoolProfile_RFQ sess ->
  pk_startup_identity_hash (cn_pool_key conn) = pk_startup_identity_hash (pr_key req) ->
  exists c, startup_client_of pton4 pton6 ids sess = (c, true) /\
    polardb_startup_client_reuse_key (cn_startup_client conn) = polardb_startup_client_reuse_key c.
Proof.
  intros [Ho|Ho] Hne Hp He Hk; [congruence|]. rewrite Ho, Hk, Hp.
  unfold polardb_pool_key_for_connection_profile, fresh_key. cbn [pk_startup_identity_hash].
  rewrite bool_decide_true by done.
  destruct (startup_client_of pton4 pton6 ids sess) as [c [|]]; intros E; [by exists c|].
  destruct (reuse_key_sound (cn_startup_client conn) c) as [Hz _]. congruence.
Qed.

Lemma reusable_agrees pton4 pton6 ids facts conn sess req :
  reusable_for pton4 pton6 ids facts conn sess req ->
  own_key conn -> variables_indexed conn ->
  (forall client, ps_client sess = Some client -> variables_indexed client) ->
  pr_expected_profile req = polardb_pool_profile_from_startup_profile (pr_startup_profile req) ->
  pr_key req = fresh_key pton4 pton6 ids (pr_expected_profile req) sess ->
  agrees_with_session pton4 pton6 ids conn sess req.
Proof.
  intros [_ _ [Hpf _] _ Hid (client & ui & cui & Hc & _ & _ & _ & Hv)] Ho Hi Hj Hex Hk.
  rewrite <- Hpf in Hex. split.
  - intros Hr. specialize (Hid Hr). rewrite Hr in Hk. rewrite Hex in Hr.
    assert (Hne : pk_startup_identity_hash (cn_pool_key conn) <> 0 ->
                  pool_key_empty (cn_pool_key conn) = false).
    { unfold pool_key_empty. rewrite !andb_false_iff, !Z.eqb_neq. tauto. }
    destruct Hid as [He|[[Hnz He]|(c & Hs & Hcomp)]].
    + destruct (pool_key_empty (cn_pool_key conn)) eqn:Ee;
        [|apply (own_identity_agrees _ _ _ _ _ req); congruence].
      revert Ee. rewrite He, Hk. unfold fresh_key, pool_key_empty. cbn.
      rewrite Hc. pose proof (options_key_nonzero client).
      rewrite !andb_true_iff, !Z.eqb_eq. naive_solver.
    + apply (own_identity_agrees _ _ _ _ _ req); try congruence. apply Hne. congruence.
    + exists c. split; [done|]. by apply reuse_key_sound.
  - rewrite Hc. destruct (Hv Hi (Hj client Hc)) as [[He Hne]|Hs];
      [|by apply same_variables_same_key; auto].
    destruct Ho as [Ho|Ho]; [congruence|]. rewrite He, Hk in Ho.
    unfold fresh_key, polardb_pool_key_for_connection_profile in Ho. rewrite Hc in Ho. congruence.
Qed.

(** C24: a pooled connection is handed out unchanged only to a session it fits.
    A connection classified as exactly reusable belongs to an online server, is
    idle, connected and free of split XIDs, was opened with the requested
    startup profile, token and identity mode, and has the session's user and
    database, by name or by the 64-bit hash over both and the password.  Its
    startup identity, where the profile carries one, and its tracked variables
    were accepted because the whole pool key is the request's, because the two
    identity hashes are equal and not zero, or because they were compared
    themselves.  If the connection's key is its own or empty, the request is
    consistent with its profile and carries the session's fresh key, and both
    variable indexes are current, then connection and session agree on the
    64-bit hashes of the identity and of the tracked variables themselves.
    Classification changes nothing of the connection but an empty pool key. *)
Theorem exact_reuse_sound pton4 pton6 ids facts conn sess req n conn' :
  polardb_classify_pool_conn_for_reuse pton4 pton6 ids facts conn sess req =
    (Reuse_EXACT, n, conn') ->
  reusable_for pton4 pton6 ids facts conn sess req /\
  (own_key conn -> variables_indexed conn ->
   (forall client, ps_client sess = Some client -> variables_indexed client) ->
   pr_expected_profile req = polardb_pool_profile_from_startup_profile (pr_startup_profile req) ->
   pr_key req = fresh_key pton4 pton6 ids (pr_expected_profile req) sess ->
   agrees_with_session pton4 pton6 ids conn sess req /\ own_key conn') /\
  exists k, conn' = conn <| cn_pool_key := k |> /\
    (pool_key_empty (cn_pool_key conn) = false -> k = cn_pool_key conn).
Proof.
  intros H. apply exact_reuse_cases in H as [Hr Hc]. split; [done|]. split.
  - intros Ho Hi Hj Hex Hk. split; [by apply (reusable_agrees _ _ _ facts)|].
    destruct Hc as [->| ->]; [done|]. apply ensure_own_key; [done|].
    by rewrite Hex, (proj1 (ru_profile _ _ _ _ _ _ _ Hr)).
  - destruct Hc as [->| ->]; [exists (cn_pool_key conn); by destruct conn|].
    unfold ensure_pool_key_for. destruct (pool_key_empty (cn_pool_key conn)) eqn:Ee; cbn [negb].
    + eexists. by split.
    + exists (cn_pool_key conn). by destruct conn.
Qed.

Definition sample_facts (_ : srv_id) : server_facts := mkFacts SERVER_ONLINE true.
Definition sample_ids : identity_settings := mkIdentitySettings 1 None 0.
Definition sample_pool_session : pool_session :=
  mkPoolSession (Some (mkClientStream (Some "192.0.2.4") 50000 (Some "10.0.0.9") 6133 None))
    (Some (reorder_dynamic_variables_idx sample_connection)) 0 (-1).
Definition sample_pton (h : string) : option Z := if h == "10.0.0.9" then Some 7 else None.
Definition sample_request : PolarDB_PoolRequest * pool_session :=
  polardb_prepare_pool_request_for_session sample_pton (fun _ => None) sample_ids
    (from_protocol Protocol_V15) false true sample_pool_session.

Lemma exact_reuse_sound_witness :
  reusable_for sample_pton (fun _ => None) sample_ids sample_facts sample_connection
    (snd sample_request) (fst sample_request) /\
  agrees_with_session sample_pton (fun _ => None) sample_ids sample_connection
    (snd sample_request) (fst sample_request).
Proof.
  destruct (exact_reuse_sound sample_pton (fun _ => None) sample_ids sample_facts
    sample_connection (snd sample_request) (fst sample_request) 7
    (ensure_pool_key_for (pr_expected_profile (fst sample_request)) sample_connection))
    as (Hr & Ha & _).
  - vm_compute. reflexivity.
  - split; [exact Hr|]. apply Ha.
    + left. reflexivity.
    + reflexivity.
    + intros client. vm_compute. intros E. injection E as <-. reflexivity.
    + vm_compute. reflexivity.
    + vm_compute. reflexivity.
Defined.

(** *** Preparing a request *)

(** The cached fields of the session are either empty or current. *)
Record caches_current (pton4 : string -> option Z) (pton6 : string -> option (list Z))
    (ids : identity_settings) (sess : pool_session) : Prop := {
  cc_auth : forall c, ps_client sess = Some c -> pk_auth_hash (cn_pool_key c) <> 0 ->
    pk_auth_hash (cn_pool_key c) = polardb_pool_auth_reuse_key (cn_userinfo c);
  cc_options : forall c, ps_client sess = Some c -> pk_startup_options_hash (cn_pool_key c) <> 0 ->
    pk_startup_options_hash (cn_pool_key c) = polardb_pool_session_options_reuse_key (Some c);
  cc_identity : ps_identity_mode sess = is_mode ids -> ps_identity_hash sess <> 0 ->
    exists c, startup_client_of pton4 pton6 ids sess = (c, true) /\
      ps_identity_hash sess = polardb_startup_client_reuse_key c
}.

Section Prepare.
Context (pton4 : string -> option Z) (pton6 : string -> option (list Z)).
Context (ids : identity_settings).

Lemma options_key_ignores_key c k :
  polardb_pool_session_options_reuse_key (Some (c <| cn_pool_key := k |>)) =
  polardb_pool_session_options_reuse_key (Some c).
Proof. by destruct c. Qed.

#[local] Opaque polardb_pool_session_options_reuse_key polardb_pool_auth_reuse_key.
#[local] Opaque polardb_startup_client_reuse_key startup_client_of.

(** Caching on the client connection what a fresh computation gives. *)
Lemma cache_client_key sess c k :
  caches_current pton4 pton6 ids sess -> ps_client sess = Some c ->
  (pk_auth_hash k <> 0 -> pk_auth_hash k = polardb_pool_auth_reuse_key (cn_userinfo c)) ->
  (pk_startup_options_hash k <> 0 ->
   pk_startup_options_hash k = polardb_pool_session_options_reuse_key (Some c)) ->
  let sess' := sess <| ps_client := Some (c <| cn_pool_key := k |>) |> in
  caches_current pton4 pton6 ids sess' /\
  forall p, fresh_key pton4 pton6 ids p sess' = fresh_key pton4 pton6 ids p sess.
Proof.
  intros [_ _ H3] Hc Ha Ho sess'. destruct sess as [st cl ih im]. cbn in Hc. subst cl. split.
  - constructor; [| |exact H3]; intros c' [= <-].
    + by destruct c.
    + rewrite options_key_ignores_key. by destruct c.
  - intros p. unfold fresh_key. subst sess'. cbn. rewrite options_key_ignores_key.
    by destruct c.
Qed.

Lemma request_auth_hash_fresh sess h sess' :
  caches_current pton4 pton6 ids sess -> request_auth_hash sess = (h, sess') ->
  caches_current pton4 pton6 ids sess' /\
  h = polardb_pool_auth_reuse_key (c ← ps_client sess; cn_userinfo c) /\
  forall p, fresh_key pton4 pton6 ids p sess' = fresh_key pton4 pton6 ids p sess.
Proof.
  intros Hc. unfold request_auth_hash. destruct (ps_client sess) as [c|] eqn:Ec.
  2: { by intros [= <- <-]. }
  pose proof (cc_options _ _ _ _ Hc c Ec). case_if; intros [= <- <-]; bool_to_prop.
  - split; [done|]. split; [|done]. by apply (cc_auth _ _ _ _ Hc).
  - destruct (cache_client_key sess c (mkPoolKey (polardb_pool_auth_reuse_key (cn_userinfo c))
      (pk_startup_identity_hash (cn_pool_key c)) (pk_startup_options_hash (cn_pool_key c))));
      done.
Qed.

Lemma request_options_hash_fresh sess h sess' :
  caches_current pton4 pton6 ids sess -> request_options_hash sess = (h, sess') ->
  caches_current pton4 pton6 ids sess' /\
  h = polardb_pool_session_options_reuse_key (ps_client sess) /\
  forall p, fresh_key pton4 pton6 ids p sess' = fresh_key pton4 pton6 ids p sess.
Proof.
  intros Hc. unfold request_options_hash. destruct (ps_client sess) as [c|] eqn:Ec.
  2: { by intros [= <- <-]. }
  pose proof (cc_auth _ _ _ _ Hc c Ec). case_if; intros [= <- <-]; bool_to_prop.
  - split; [done|]. split; [|done]. by apply (cc_options _ _ _ _ Hc).
  - destruct (cache_client_key sess c (mkPoolKey (pk_auth_hash (cn_pool_key c))
      (pk_startup_identity_hash (cn_pool_key c))
      (polardb_pool_session_options_reuse_key (Some c)))); done.
Qed.

Lemma request_identity_hash_fresh p sess h sess' :
  caches_current pton4 pton6 ids sess ->
  request_identity_hash pton4 pton6 ids p sess = (h, sess') ->
  caches_current pton4 pton6 ids sess' /\
  h = pk_startup_identity_hash (fresh_key pton4 pton6 ids p sess).
Proof.
  intros Hc. unfold request_identity_hash, fresh_key. cbn.
  case_if; [|by intros [= <- <-]]. case_if.
  - intros [= <- <-]. bool_to_prop. split; [done|].
    destruct (cc_identity _ _ _ _ Hc) as (c & -> & ->); done.
  - destruct (startup_client_of pton4 pton6 ids sess) as [c [|]] eqn:Es; intros [= <- <-];
      (split; [|done]); [|done].
    destruct Hc as [H1 H2 _], sess. constructor; [done|done|]. intros _ _. by exists c.
Qed.

Lemma prepare_caches profile only_pooled rfq sess req sess' :
  caches_current pton4 pton6 ids sess ->
  polardb_prepare_pool_request_for_session pton4 pton6 ids profile only_pooled rfq sess =
    (req, sess') ->
  pr_key req = fresh_key pton4 pton6 ids (pr_expected_profile req) sess /\
  caches_current pton4 pton6 ids sess'.
Proof.
  intros Hc. unfold polardb_prepare_pool_request_for_session.
  destruct (request_auth_hash sess) as [a s1] eqn:E1.
  destruct (request_auth_hash_fresh _ _ _ Hc E1) as (Hc1 & Ha & Hk1).
  destruct (request_options_hash s1) as [o s2] eqn:E2.
  destruct (request_options_hash_fresh _ _ _ Hc1 E2) as (Hc2 & Ho & Hk2).
  destruct (request_identity_hash _ _ _ _ s2) as [i s3] eqn:E3.
  destruct (request_identity_hash_fresh _ _ _ _ Hc2 E3) as (Hc3 & Hi).
  intros [= <- <-]. cbn. split; [|done]. set (p := if rfq then _ else _) in *.
  rewrite Hk2, Hk1 in Hi. rewrite Hi, Ha, Ho.
  assert (E := f_equal pk_startup_options_hash (Hk1 p)). cbn in E. rewrite E. done.
Qed.

(** The operations on the client connection and the cached hashes. *)
Inductive cache_step (sess : pool_session) : pool_session -> Prop :=
| cache_set_hash c idx h : ps_client sess = Some c ->
    cache_step sess (sess <| ps_client := Some (client_set_hash_and_value c idx h) |>)
| cache_set_value c idx h reorder : ps_client sess = Some c ->
    cache_step sess (sess <| ps_client := Some (client_set_value c idx h reorder) |>)
| cache_reset_value c idx reorder : ps_client sess = Some c ->
    cache_step sess (sess <| ps_client := Some (client_reset_value c idx reorder) |>)
| cache_reorder c : ps_client sess = Some c ->
    cache_step sess (sess <| ps_client := Some (reorder_dynamic_variables_idx c) |>)
| cache_prepare profile only_pooled rfq :
    cache_step sess
      (snd (polardb_prepare_pool_request_for_session pton4 pton6 ids profile only_pooled rfq sess)).

(** A change of a variable clears the cached key of the client connection. *)
Lemma cleared_key_current sess c :
  caches_current pton4 pton6 ids sess -> cn_pool_key c = no_pool_key ->
  caches_current pton4 pton6 ids (sess <| ps_client := Some c |>).
Proof.
  intros [_ _ H3] Hk. destruct sess. constructor; [| |exact H3];
    intros c' [= <-]; rewrite Hk; by intros [].
Qed.

Lemma reset_value_key c idx reorder :
  client_reset_value c idx reorder = c \/
  cn_pool_key (client_reset_value c idx reorder) = no_pool_key.
Proof.
  unfold client_reset_value. destruct (negb _); [|by left]. right.
  destruct (reorder && _); by destruct c.
Qed.

Lemma cache_step_current sess sess' :
  caches_current pton4 pton6 ids sess -> cache_step sess sess' ->
  caches_current pton4 pton6 ids sess'.
Proof.
  intros Hc [c idx h Hs|c idx h r Hs|c idx r Hs|c Hs|profile po rfq].
  - apply cleared_key_current; [done|by destruct c].
  - apply cleared_key_current; [done|]. unfold client_set_value.
    destruct (r && _); by destruct c.
  - destruct (reset_value_key c idx r) as [->|Hk]; [|by apply cleared_key_current].
    destruct sess; cbn in Hs; by subst.
  - apply cleared_key_current; [done|by destruct c].
  - destruct (polardb_prepare_pool_request_for_session _ _ _ _ _ _ _) as [req s'] eqn:E.
    by apply prepare_caches in E as [_ ?].
Qed.

(** C40: the hashes cached on a session never change the key a request asks for.
    After any sequence of variable changes and earlier requests of a session
    whose cached hashes started out empty or current, under the same identity
    settings, a prepared request carries exactly the key computed from the session's user,
    tracked variables and startup identity. *)
Theorem prepared_request_key_is_fresh sess0 sess profile only_pooled rfq :
  caches_current pton4 pton6 ids sess0 -> steps cache_step sess0 sess ->
  let req := fst (polardb_prepare_pool_request_for_session pton4 pton6 ids profile
                    only_pooled rfq sess) in
  pr_key req = fresh_key pton4 pton6 ids (pr_expected_profile req) sess.
Proof.
  intros Hc Hs req. apply (steps_invariant cache_step) with (P := caches_current pton4 pton6 ids)
    in Hs; [|apply cache_step_current|done].
  subst req. destruct (polardb_prepare_pool_request_for_session _ _ _ _ _ _ _) as [req s'] eqn:E.
  by apply prepare_caches in E as [? _].
Qed.

End Prepare.

Lemma prepared_request_key_is_fresh_witness :
  pr_key (fst sample_request) =
    fresh_key sample_pton (fun _ => None) sample_ids PoolProfile_RFQ sample_pool_session.
Proof.
  refine (prepared_request_key_is_fresh sample_pton (fun _ => None) sample_ids
    sample_pool_session sample_pool_session (from_protocol Protocol_V15) false true _
    (steps_refl _ _)).
  constructor; cbn.
  - intros c [= <-] H. by destruct H.
  - intros c [= <-] H. by destruct H.
  - intros [=].
Defined.

(** *** The return path *)

Section ReturnLemmas.
Context (m : PgSQL_HostGroups_Manager) (proto : Z) (off : bool).
Context (limits : option pool_limits) (facts : srv_id -> server_facts).
Context (hostgroup_of : srv_id -> option Z).

(** What the shared pool and the worker caches may hold. *)
Record poolable (conn : PgSQL_Connection) : Prop := {
  po_online : exists srv hid, cn_parent conn = Some srv /\ hostgroup_of srv = Some hid /\
    is_polardb_hostgroup m hid = true /\ sf_status (facts srv) = SERVER_ONLINE /\
    (let profile := polardb_startup_profile_for_config (get_polardb_hg_config m hid) proto off in
     cn_profile conn = profile /\
     cn_profile_generation conn = generation profile (cn_identity_mode conn));
  po_clean : cn_idle conn = true /\ cn_connected conn = true /\ cn_xids_dirty conn = false;
  po_limits : exists lim, limits = Some lim /\
    cn_largest_query_length conn <= wrap32 (lm_query_length lim) /\
    cn_num_backend_stmts conn <= wrap32 (lm_stmts lim);
  po_no_client_identity : emits_startup_params (cn_profile conn) = true ->
    cn_identity_mode conn = identity_mode_to_int IdentityMode_PROXY
}.

(** The connection has a pool key and belongs to a server of a configured
    reader or writer hostgroup. *)
Definition managed (conn : PgSQL_Connection) : Prop :=
  pool_key_empty (cn_pool_key conn) = false /\
  exists srv hid, cn_parent conn = Some srv /\ hostgroup_of srv = Some hid /\
    (let cfg := get_polardb_hg_config m hid in
     hc_is_polardb_hostgroup cfg = true /\
     (hc_reader_hostgroup cfg = hid \/ hc_writer_hostgroup cfg = hid)).

Lemma return_state_exact hid srv conn :
  polardb_pool_return_state m proto off limits (Some hid) srv conn = Reuse_EXACT <->
  cn_parent conn = Some srv /\
  (let profile := polardb_startup_profile_for_config (get_polardb_hg_config m hid) proto off in
   cn_profile conn = profile /\
   cn_profile_generation conn = generation profile (cn_identity_mode conn)) /\
  (cn_idle conn = true /\ cn_connected conn = true /\ cn_xids_dirty conn = false) /\
  exists lim, limits = Some lim /\
    cn_largest_query_length conn <= wrap32 (lm_query_length lim) /\
    cn_num_backend_stmts conn <= wrap32 (lm_stmts lim).
Proof.
  unfold polardb_pool_return_state, polardb_startup_profile_matches_request_generation.
  cbn zeta. split.
  - intros H. case_if_in H; [done|]. case_if_in H; [done|]. case_if_in H; [done|].
    destruct limits as [lim|]; [|done]. case_if_in H; [done|]. bool_to_prop.
    rewrite <- profile_compatible_eq. split_and!; try done. exists lim. split_and!; done || lia.
  - intros (Hp & (Hpr & Hg) & (-> & -> & ->) & lim & -> & Hq & Hs).
    rewrite (bool_decide_true _ Hp), (proj2 (profile_compatible_eq _ _) Hpr), Hg, Z.eqb_refl.
    cbn. rewrite (proj2 (Z.ltb_ge _ _) Hq), (proj2 (Z.ltb_ge _ _) Hs). done.
Qed.

Lemma remain_pooled_spec conn :
  polardb_reader_pool_conn_can_remain_pooled conn = true <->
  (emits_startup_params (cn_profile conn) = true ->
   cn_identity_mode conn = identity_mode_to_int IdentityMode_PROXY).
Proof.
  unfold polardb_reader_pool_conn_can_remain_pooled.
  destruct (emits_startup_params (cn_profile conn)); cbn [negb]; rewrite ?Z.eqb_eq; naive_solver.
Qed.

Lemma returnable_poolable conn key conn' :
  connection_return_decision m proto off limits facts hostgroup_of conn =
    (Return_RETURNABLE, key, conn') ->
  poolable conn /\ match_key_empty key = false /\ conn' = polardb_ensure_pool_key conn /\
  key = polardb_core_pool_match_key_for_conn (Some conn').
Proof.
  unfold connection_return_decision. destruct (cn_parent conn) as [srv|] eqn:Ep; [|done].
  destruct (hostgroup_of srv) as [hid|] eqn:Eh; [|done].
  do 4 (case_if; [done|]).
  destruct (match_key_empty _) eqn:Ee; [done|]. intros [= <- <-].
  bool_to_prop. split; [|done].
  match goal with H : polardb_pool_return_state _ _ _ _ _ _ _ = _ |- _ =>
    apply return_state_exact in H as (_ & Hp & Hc & Hl) end.
  constructor; [by exists srv, hid|done|done|]. by apply remain_pooled_spec.
Qed.

Lemma ensure_filled_key conn :
  pool_key_empty (cn_pool_key conn) = false -> polardb_ensure_pool_key conn = conn.
Proof. intros Ek. unfold polardb_ensure_pool_key, ensure_pool_key_for. by rewrite Ek. Qed.

Lemma decision_keeps conn st key c :
  pool_key_empty (cn_pool_key conn) = false ->
  connection_return_decision m proto off limits facts hostgroup_of conn = (st, key, c) -> c = conn.
Proof.
  intros Ek. unfold connection_return_decision. rewrite ensure_filled_key by done.
  repeat (case_match || case_if); naive_solver.
Qed.

(** A poolable connection with a key passes the return checks. *)
Lemma poolable_returnable conn :
  poolable conn -> pool_key_empty (cn_pool_key conn) = false ->
  connection_return_decision m proto off limits facts hostgroup_of conn =
    (Return_RETURNABLE, polardb_core_pool_match_key_for_conn (Some conn), conn).
Proof.
  intros [(srv & hid & Hp & Hh & Hm & Hon & Hpr) Hc Hl Hi] Hk.
  unfold connection_return_decision. rewrite Hp, Hh, Hm, (proj2 (remain_pooled_spec _) Hi).
  rewrite (proj2 (return_state_exact hid srv conn)) by done.
  rewrite !bool_decide_true by done. cbn [negb]. rewrite ensure_filled_key by done.
  unfold match_key_empty, polardb_core_pool_match_key_for_conn, pgsql_pool_match_key in *.
  unfold pool_key_empty in Hk. cbn. case_if; [|done]. bool_to_prop.
  rewrite !andb_false_iff, !Z.eqb_neq in Hk. tauto.
Qed.

Lemma managed_spec cfg hid :
  negb (hc_is_polardb_hostgroup cfg) ||
    (negb (hc_reader_hostgroup cfg =? hid) && negb (hc_writer_hostgroup cfg =? hid)) = false <->
  hc_is_polardb_hostgroup cfg = true /\
  (hc_reader_hostgroup cfg = hid \/ hc_writer_hostgroup cfg = hid).
Proof.
  rewrite orb_false_iff, andb_false_iff, !negb_false_iff, !Z.eqb_eq. done.
Qed.

(** What each of the four decisions says of the connection. *)
Definition decision_means (pending : srv_id -> PgSQL_PoolMatchKey -> bool)
    (conn : PgSQL_Connection) (act : PolarDB_ReaderLocalReturn)
    (st : PolarDB_ReaderConnectionReturnStatus) : Prop :=
  let awaited := exists srv, cn_parent conn = Some srv /\
    pending srv (polardb_core_pool_match_key_for_conn (Some conn)) = true in
  match act with
  | USE_SHARED_POOL => ~ managed conn /\ st = Return_NOT_MANAGED
  | REMOVE_CONNECTION => managed conn /\ ~ poolable conn /\ st <> Return_RETURNABLE
  | KEEP_WITH_WORKER => managed conn /\ poolable conn /\ st = Return_RETURNABLE /\ ~ awaited
  | USE_SHARED_POOL_REUSE_CHECKED =>
      managed conn /\ poolable conn /\ st = Return_RETURNABLE /\ awaited
  end.

(** C25: no connection that speaks for one client is kept for others.  The four
    decisions of [local_return_decision] on a finished connection are exact.  A
    connection without a pool key, or on a server outside the configured reader
    and writer hostgroups, is left unchecked to the generic return path
    (USE_SHARED_POOL).  Any other is removed precisely when it is not poolable,
    handed to the shared pool as checked when it is and another worker waits for
    its match key, and kept by its worker otherwise.  Poolable is a clean, idle
    connection to an online server of a managed hostgroup, opened with that
    hostgroup's current startup profile, whose longest query and number of
    prepared statements are inside the configured limits, and whose identity,
    if its startup packet carried one, is the proxy's own.  The decision
    changes nothing of the connection. *)
Theorem kept_connection_is_poolable pending conn act st conn' :
  local_return_decision m proto off limits facts hostgroup_of pending conn = (act, st, conn') ->
  conn' = conn /\ decision_means pending conn act st.
Proof.
  unfold local_return_decision. destruct (cn_parent conn) as [srv|] eqn:Ep.
  2: { intros [= <- <- <-]. split; [done|]. split; [|done]. intros (_ & s & h & ? & _). congruence. }
  destruct (pool_key_empty (cn_pool_key conn)) eqn:Ek.
  { intros [= <- <- <-]. split; [done|]. split; [|done]. intros (? & _). congruence. }
  destruct (hostgroup_of srv) as [hid|] eqn:Eh.
  2: { intros [= <- <- <-]. split; [done|]. split; [|done]. intros (_ & s & h & ? & ? & _). congruence. }
  pose proof (managed_spec (get_polardb_hg_config m hid) hid) as Hms.
  destruct (negb _ || _).
  { intros [= <- <- <-]. split; [done|]. split; [|done].
    intros (_ & s & h & Hs & Hh & Hm). assert (s = srv) as -> by congruence.
    assert (h = hid) as -> by congruence. by apply Hms in Hm. }
  assert (Hm : managed conn).
  { split; [done|]. exists srv, hid. split_and!; try done; by apply Hms. }
  destruct (connection_return_decision m proto off limits facts hostgroup_of conn)
    as [[st0 key] c0] eqn:Er.
  case_if; bool_to_prop.
  - intros [= <- <- <-]. split; [|split_and!; [done| |done]].
    + by rewrite (decision_keeps conn st0 key c0).
    + intros Hp. rewrite (poolable_returnable conn Hp Ek) in Er. congruence.
  - subst st0. apply returnable_poolable in Er as (Hp & _ & -> & ->).
    rewrite (ensure_filled_key conn Ek).
    case_if; intros [= <- <- <-]; bool_to_prop; (split; [done|split_and!; try done]).
    + intros (s & Hs & Hw). congruence.
    + by exists srv.
Qed.

End ReturnLemmas.

Lemma from_protocol_bits p : 0 <= sp_request_bits (from_protocol p) < 4194304.
Proof. destruct p; vm_compute; split; congruence. Qed.

Lemma profile_for_config_bits cfg proto off :
  0 <= sp_request_bits (polardb_startup_profile_for_config cfg proto off) < 4194304.
Proof. unfold polardb_startup_profile_for_config. case_if; apply from_protocol_bits. Qed.

Lemma cached_key_equal k req :
  k = pr_key req -> classify_cached_key k req = None.
Proof.
  intros ->. unfold classify_cached_key. rewrite !Z.eqb_refl, !andb_false_r. by case_if.
Qed.

(** The request key that finds a connection is the connection's own. *)
Lemma match_key_parts req conn key :
  polardb_core_pool_match_key_for_request req = key -> match_key_empty key = false ->
  key = polardb_core_pool_match_key_for_conn (Some conn) ->
  ready_for_matching req = true /\ cn_pool_key conn = pr_key req /\
  cn_profile_generation conn = generation (pr_startup_profile req) (pr_startup_identity_mode req).
Proof.
  unfold polardb_core_pool_match_key_for_request. case_if; [by intros <-|].
  intros <- _ [= H1 H2 H3 H4]. bool_to_prop. split; [done|]. split; [|done].
  destruct (cn_pool_key conn), (pr_key req). cbn in *. congruence.
Qed.

(** What is put into the pool is found there.  A connection returned to the
    shared pool under a match key is classified as exactly reusable, without a
    comparison of variables, by every request with that match key whose session
    has the same user and database. *)
Theorem returned_connection_is_found m proto off limits facts hostgroup_of conn key conn'
    pton4 pton6 ids sess client ui cui req :
  connection_return_decision m proto off limits facts hostgroup_of conn =
    (Return_RETURNABLE, key, conn') ->
  polardb_core_pool_match_key_for_request req = key ->
  ps_stream sess <> None -> ps_client sess = Some client ->
  cn_userinfo conn = Some ui -> cn_userinfo client = Some cui ->
  has_same_connection_options ui cui = true ->
  0 <= cn_identity_mode conn < 4 -> 0 <= pr_startup_identity_mode req < 4 ->
  0 <= sp_request_bits (pr_startup_profile req) < 4194304 ->
  pr_expected_profile req = polardb_pool_profile_from_startup_profile (pr_startup_profile req) ->
  polardb_classify_pool_conn_for_reuse pton4 pton6 ids facts conn' sess req =
    (Reuse_EXACT, 0, conn').
Proof.
  intros Hr Hq Hst Hcl Hu Hcu Hsame Hm1 Hm2 Hb Hexp.
  apply returnable_poolable in Hr as (Hp & Hne & -> & Hkey).
  destruct (match_key_parts _ _ _ Hq Hne Hkey) as (Hready & Hk & Hg).
  destruct (ensure_pool_key_only_key (polardb_pool_profile_from_startup_profile (cn_profile conn))
              conn) as [k Hupd].
  fold (polardb_ensure_pool_key conn) in Hupd. rewrite Hupd in *.
  destruct Hp as [(srv & hid & Hpar & _ & _ & Hon & Hprof & Hgen) (Hidle & Hconn & Hx) _ _].
  assert (Hc : cn_profile (conn <| cn_pool_key := k |>) = pr_startup_profile req /\
    (emits_startup_params (pr_startup_profile req) = true ->
     cn_identity_mode conn = pr_startup_identity_mode req)).
  { revert Hg. simpl_upd. rewrite Hgen, Hprof. intros Hg.
    apply generation_eq_iff in Hg as [Hg He]; [|apply profile_for_config_bits|done..].
    rewrite <- Hg. done. }
  destruct Hc as [Hprof' Hmode]. unfold polardb_classify_pool_conn_for_reuse.
  destruct (ps_stream sess); [|done]. rewrite Hcl, cached_key_equal by done.
  rewrite (proj2 (conn_profile_matches_spec _ _) (conj Hprof' Hg)).
  rewrite (proj2 (identity_mode_matches_spec _ _)).
  2: { rewrite Hexp. unfold polardb_pool_profile_from_startup_profile. simpl_upd.
       case_if; [|done]. intros _. by apply Hmode. }
  rewrite Hk. simpl_upd. rewrite Hpar, Hu, Hcu, Hidle, Hready, Hconn, Hx, Hsame, Hon.
  rewrite bool_decide_true by done.
  assert (pool_key_empty (pr_key req) = false) as ->.
  { unfold ready_for_matching in Hready. by bool_to_prop. }
  by rewrite (proj2 (pool_key_eq_spec _ _) eq_refl).
Qed.

Definition sample_home (_ : srv_id) : option Z := Some 20.

Definition sample_keyed : PgSQL_Connection := polardb_ensure_pool_key sample_connection.

Lemma kept_connection_is_poolable_witness :
  managed sample_hgm sample_home sample_keyed /\
  poolable sample_hgm 2 false (Some (mkLimits 1000 10)) sample_facts sample_home sample_keyed.
Proof.
  destruct (kept_connection_is_poolable sample_hgm 2 false (Some (mkLimits 1000 10))
    sample_facts sample_home (fun _ _ => false) sample_keyed KEEP_WITH_WORKER
    Return_RETURNABLE sample_keyed) as (_ & Hm & Hp & _); [|by split].
  vm_compute. reflexivity.
Defined.

Lemma returned_connection_is_found_witness :
  polardb_classify_pool_conn_for_reuse sample_pton (fun _ => None) sample_ids sample_facts
    sample_keyed (snd sample_request) (fst sample_request) = (Reuse_EXACT, 0, sample_keyed).
Proof.
  eapply (returned_connection_is_found sample_hgm 2 false (Some (mkLimits 1000 10))
    sample_facts sample_home sample_connection
    (polardb_core_pool_match_key_for_conn (Some sample_keyed)) sample_keyed);
    lazymatch goal with
    | |- _ <> _ => discriminate
    | |- _ <= _ < _ => split; vm_compute; congruence
    | |- _ => vm_compute; reflexivity
    end.
Defined.
