(* ===== verification/Reader.v ===== *)
(** * Reader selection and acquisition

    lib/PgSQL_PolarDB_ReaderPool.cpp: from the configured servers of a reader
    hostgroup to a connection, with the status vocabulary and the freshness
    rules of include/PgSQL_PolarDB.h.  The connection pool of one server is an
    interface ([ServerPool]): what is proved here holds for every pool. *)

From S2P Require Import Prelude Policy Startup Session Query Topology.
From S2P Require Import ServerList PoolConn.
From Stdlib Require Import ZArith String List Bool Permutation Lia.
From stdpp Require Import base tactics list gmap strings.

Open Scope Z_scope.
Open Scope polar_scope.

(** ** Status vocabulary *)

Inductive PolarDB_ReaderStatus :=
| ACQUIRED | READER_UNAVAILABLE | READER_BUSY | READER_GROUP_BUSY
| RETRY_AFTER_CONFIG_CHANGE | RFQ_UNAVAILABLE | GROUP_LSN_UNKNOWN | READER_LSN_UNKNOWN
| READER_LSN_STALE | READER_LAG_EXCEEDED.

#[global] Instance ReaderStatus_eq_dec : EqDecision PolarDB_ReaderStatus.
Proof. solve_decision. Defined.

Definition polardb_reader_status_priority (status : PolarDB_ReaderStatus) : Z :=
  match status with
  | RFQ_UNAVAILABLE => 80
  | GROUP_LSN_UNKNOWN => 70
  | READER_LSN_UNKNOWN => 60
  | READER_LSN_STALE => 50
  | READER_LAG_EXCEEDED => 40
  | READER_BUSY => 30
  | READER_GROUP_BUSY => 30
  | RETRY_AFTER_CONFIG_CHANGE => 20
  | READER_UNAVAILABLE => 10
  | ACQUIRED => 0
  end.

Definition polardb_reader_status_prefer (current next : PolarDB_ReaderStatus)
  : PolarDB_ReaderStatus :=
  if polardb_reader_status_priority current <? polardb_reader_status_priority next
  then next else current.

Definition polardb_reader_status_redirects_to_writer (status : PolarDB_ReaderStatus) : bool :=
  match status with
  | GROUP_LSN_UNKNOWN | READER_LSN_UNKNOWN | READER_LSN_STALE | READER_LAG_EXCEEDED => true
  | _ => false
  end.

Definition polardb_reader_status_split_warmup_can_help (status : PolarDB_ReaderStatus) : bool :=
  match status with
  | READER_UNAVAILABLE | READER_BUSY | READER_GROUP_BUSY | RFQ_UNAVAILABLE => true
  | _ => false
  end.

Inductive PolarDB_ReaderAcquireAction := RETRY_READER | USE_PRIMARY | RETURN_ERROR.

Definition polardb_reader_acquire_action (fallback : PolarDB_ReadFallbackAction)
    (status : PolarDB_ReaderStatus) : PolarDB_ReaderAcquireAction :=
  if (status == READER_BUSY) || (status == READER_GROUP_BUSY) ||
     (status == RETRY_AFTER_CONFIG_CHANGE) || (status == RFQ_UNAVAILABLE) ||
     (status == ACQUIRED)
  then RETRY_READER
  else if fallback == Fallback_ERROR then RETURN_ERROR else USE_PRIMARY.

(** *** Capacity retries *)

Definition polardb_reader_capacity_scope_is_blocked (blocked_scopes : list Z) (scope_hash : Z)
  : bool := existsb (Z.eqb scope_hash) blocked_scopes.

Definition polardb_record_reader_group_busy_scope (blocked_scopes : list Z) (scope_hash : Z)
    (status : PolarDB_ReaderStatus) : list Z :=
  if (status == READER_GROUP_BUSY) &&
     negb (polardb_reader_capacity_scope_is_blocked blocked_scopes scope_hash)
  then blocked_scopes ++ [scope_hash] else blocked_scopes.

Definition polardb_reader_capacity_retry_delay_us (delay_ms : Z) : Z :=
  wrap64 ((if 0 <? delay_ms then delay_ms else 1) * 1000).

Definition polardb_reader_capacity_retry_timeout_us (retry_at_us now_us current_timeout_us : Z)
  : Z :=
  let remaining := if now_us <? retry_at_us then wrap64 (retry_at_us - now_us) else 1000 in
  let remaining := Z.max remaining 1000 in
  let candidate := wrap32 (Z.min remaining UINT32_MAX) in
  if (current_timeout_us =? 0) || (candidate <? current_timeout_us)
  then candidate else current_timeout_us.

Inductive PolarDB_ReaderOwnership :=
| Ownership_NONE | Ownership_LOCAL | Ownership_ACTIVE | Ownership_RESERVATION.

#[global] Instance ReaderOwnership_eq_dec : EqDecision PolarDB_ReaderOwnership.
Proof. solve_decision. Defined.

Definition polardb_reader_pool_capacity_request_should_register
    (status : PolarDB_ReaderStatus) (ownership : PolarDB_ReaderOwnership) : bool :=
  (status == READER_GROUP_BUSY) && (ownership == Ownership_NONE).

(** ** Freshness of a cached position *)

Definition POLARDB_LSN_FRESHNESS_MS_DEFAULT : Z := 5000.
Definition POLARDB_LSN_FRESHNESS_WAIT_FRACTION_DIVISOR : Z := 4.

Record PolarDB_ReaderLsnSample := mkSample { sm_lsn : Z; sm_fresh : bool }.

Definition polardb_lsn_cache_is_fresh (updated_at_us now_us freshness_ms : Z) : bool :=
  if updated_at_us =? 0 then false
  else if now_us <? updated_at_us then true
  else wrap64 (now_us - updated_at_us) <=? wrap64 (freshness_ms * 1000).

(** The allowance and whether it was clamped. *)
Definition polardb_effective_lsn_freshness_ms
    (configured_freshness_ms wait_timeout_ms max_lag_bytes lag_cap_freshness_ms : Z) : Z * bool :=
  let effective :=
    if 0 <? configured_freshness_ms then wrap32 configured_freshness_ms
    else POLARDB_LSN_FRESHNESS_MS_DEFAULT in
  if (max_lag_bytes <=? 0) || (wait_timeout_ms =? 0) then (effective, false)
  else
    let wait_fraction_ms := wait_timeout_ms / POLARDB_LSN_FRESHNESS_WAIT_FRACTION_DIVISOR in
    let wait_fraction_ms := if wait_fraction_ms =? 0 then 1 else wait_fraction_ms in
    let wait_fraction_ms :=
      if (0 <? lag_cap_freshness_ms) && (wrap32 lag_cap_freshness_ms <? wait_fraction_ms)
      then wrap32 lag_cap_freshness_ms else wait_fraction_ms in
    if wait_fraction_ms <? effective then (wait_fraction_ms, true) else (effective, false).

Definition polardb_reader_lsn_in_best_behind_range (reader_lsn best_lsn range_bytes : Z) : bool :=
  if (reader_lsn =? 0) || (best_lsn =? 0) then false
  else if reader_lsn =? best_lsn then true
  else if (range_bytes <=? 0) || (best_lsn <? reader_lsn) then false
  else wrap64 (best_lsn - reader_lsn) <=? range_bytes.

(** ** Servers and candidates *)

(** The live fields of a server that selection reads. *)
Record reader_server := mkReaderServer {
  rs_facts : server_facts;
  rs_address : string;
  rs_port : Z;
  rs_latency_us : Z;
  rs_used : Z;                      (** pool_used_count_value *)
  rs_lsn : Z;
  rs_lsn_updated_at : Z
}.

Definition polardb_sample_lsn (s : reader_server) (now_us freshness_ms : Z)
  : PolarDB_ReaderLsnSample :=
  mkSample (rs_lsn s) (polardb_lsn_cache_is_fresh (rs_lsn_updated_at s) now_us freshness_ms).

(** The settings of the worker and what it reads besides the pool; one
    acquisition sees one value of each. *)
Record reader_context := mkReaderContext {
  rx_hgm : PgSQL_HostGroups_Manager;
  rx_live : srv_id -> reader_server;
  rx_home : srv_id -> option Z;     (** the hostgroup the server belongs to *)
  rx_snapshot : option PolarDB_ServerListSnapshot;
  rx_has_selection_start : bool;
  rx_now_us : Z;
  rx_ids : identity_settings;
  rx_proxy_protocol : Z;
  rx_profile_off : bool;
  rx_startup_config_generation : Z;
  rx_lsn_max_age_ms : Z;
  rx_lag_cap_freshness_ms : Z;
  rx_prefer_freshest : bool;
  rx_prefer_less_loaded : bool;
  rx_lag_range_bytes : Z;
  rx_default_max_latency_ms : Z;
  rx_warmup_mode : Z                (** polardb_effective_txn_split_warmup_mode *)
}.

(** The request: hostgroup, plan, wait, and the flags of the call.
    [rq_exclude] is the endpoint to avoid. *)
Record reader_request := mkReaderRequest {
  rq_hid : Z;
  rq_plan : PolarDB_Query_ReaderPlan;
  rq_wait : PolarDB_WaitSpec;
  rq_only_pooled : bool;
  rq_exclude_address : cstr;
  rq_exclude_port : Z;
  rq_confirm_capacity : bool
}.

Record PolarDB_ReaderNode := mkNode {
  nd_srv : srv_id;
  nd_lsn : Z;
  nd_weight : Z;
  nd_max_connections : Z;
  nd_active_count : Z;
  nd_lsn_fresh : bool;
  nd_target_reached : bool
}.

#[global] Instance upd_nd_active_count : Update nd_active_count.
Proof. derive_update. Defined.

Definition polardb_reader_normalized_load_compare (lhs rhs : PolarDB_ReaderNode) : Z :=
  let lhs_load := wrap64 (nd_active_count lhs * nd_weight rhs) in
  let rhs_load := wrap64 (nd_active_count rhs * nd_weight lhs) in
  if lhs_load <? rhs_load then -1 else if rhs_load <? lhs_load then 1 else 0.

Section Candidates.
Context (cx : reader_context).

Definition live_facts (srv : srv_id) : server_facts := rs_facts (rx_live cx srv).

Definition pgsql_srv_latency_limit_us (configured_max_latency_us : Z) : Z :=
  if negb (configured_max_latency_us =? 0) then configured_max_latency_us
  else wrap32 (rx_default_max_latency_ms cx * 1000).

Definition pgsql_srv_latency_allowed (current_latency_us configured_max_latency_us : Z) : bool :=
  let max_latency_us := pgsql_srv_latency_limit_us configured_max_latency_us in
  if max_latency_us =? 0 then true else current_latency_us <? max_latency_us.

Definition polardb_reader_is_candidate (e : PolarDB_ServerSnapshotEntry) : bool :=
  (sf_status (live_facts (en_srv e)) == SERVER_ONLINE) && (0 <? en_weight e) &&
  pgsql_srv_latency_allowed (rs_latency_us (rx_live cx (en_srv e))) (en_max_latency_us e) &&
  (0 <? en_max_connections e).

Definition polardb_find_writer_server_list (hg_config : PolarDB_HG_Config)
    (snapshot : PolarDB_ServerListSnapshot) : option (list PolarDB_ServerSnapshotEntry) :=
  if hc_writer_hostgroup hg_config <? 0 then None
  else sn_by_hostgroup snapshot !! hc_writer_hostgroup hg_config.

(** The scan over the writers; [writer_known] is the flag so far. *)
Fixpoint known_replica_scan (server : reader_server) (writers : list PolarDB_ServerSnapshotEntry)
    (writer_known : bool) : bool :=
  match writers with
  | [] => writer_known
  | e :: writers' =>
      let writer := rx_live cx (en_srv e) in
      if sf_status (rs_facts writer) == SERVER_OFFLINE_HARD
      then known_replica_scan server writers' writer_known
      else if (rs_port writer =? rs_port server) && (rs_address writer == rs_address server)
      then false
      else known_replica_scan server writers' true
  end.

Definition polardb_reader_endpoint_is_known_replica
    (writers : option (list PolarDB_ServerSnapshotEntry)) (srv : srv_id) : bool :=
  match writers with
  | None => false
  | Some ws => known_replica_scan (rx_live cx srv) ws false
  end.

Definition endpoint_excluded (exclude_address : cstr) (exclude_port : Z) (srv : srv_id) : bool :=
  match exclude_address with
  | None => false
  | Some a =>
      (a != EmptyString) && (0 <=? exclude_port) &&
      (rs_address (rx_live cx srv) == a) && (rs_port (rx_live cx srv) =? exclude_port)
  end.

Definition polardb_request_can_sample_pair (lag_cap only_pooled confirm_capacity : bool)
    (exclude_address : cstr) (exclude_port : Z) : bool :=
  negb lag_cap && negb only_pooled && negb confirm_capacity &&
  match exclude_address with
  | None => true
  | Some a => (a == EmptyString) || (exclude_port <? 0)
  end.

Definition polardb_request_can_skip_busy_pool
    (has_wait_target lag_cap only_pooled confirm_capacity : bool)
    (exclude_address : cstr) (exclude_port : Z) : bool :=
  negb has_wait_target &&
  polardb_request_can_sample_pair lag_cap only_pooled confirm_capacity
    exclude_address exclude_port.

Definition fresh_ms_for (rq : reader_request) : Z :=
  fst (polardb_effective_lsn_freshness_ms (rx_lsn_max_age_ms cx) (wsp_timeout_ms (rq_wait rq))
         (rd_max_lag_bytes (rq_plan rq)) (rx_lag_cap_freshness_ms cx)).

(** *** The check of a server that is already chosen *)

Definition server_meets_lag_policy (srv : srv_id) (plan : PolarDB_Query_ReaderPlan)
    (wait_spec : PolarDB_WaitSpec) (now_us : Z) : bool :=
  if negb (lag_cap_enabled plan) then true
  else if rd_group_lsn plan =? 0 then false
  else
    let fresh_ms := fst (polardb_effective_lsn_freshness_ms (rx_lsn_max_age_ms cx)
      (wsp_timeout_ms wait_spec) (rd_max_lag_bytes plan) (rx_lag_cap_freshness_ms cx)) in
    let sample := polardb_sample_lsn (rx_live cx srv) now_us fresh_ms in
    negb (sm_lsn sample =? 0) && sm_fresh sample && within_byte_cap plan (sm_lsn sample).

Definition resolve_reader_server_snapshot (hostgroup_id : Z) (srv : srv_id)
    (exclude_address : cstr) (exclude_port : Z) : option PolarDB_ServerListSnapshot :=
  if endpoint_excluded exclude_address exclude_port srv then None
  else
    snapshot ← rx_snapshot cx;
    servers ← sn_by_hostgroup snapshot !! hostgroup_id;
    current ← List.find (fun e => en_srv e =? srv) servers;
    if polardb_reader_is_candidate current then Some snapshot else None.

(** The verdict, and the snapshot that keeps the server valid. *)
Definition server_can_serve_request (hostgroup_id : Z) (srv : srv_id)
    (plan : PolarDB_Query_ReaderPlan) (wait_spec : PolarDB_WaitSpec)
    (exclude_address : cstr) (exclude_port : Z) : option PolarDB_ServerListSnapshot :=
  match resolve_reader_server_snapshot hostgroup_id srv exclude_address exclude_port with
  | None => None
  | Some snapshot =>
      let hg_config := get_polardb_hg_config (rx_hgm cx) hostgroup_id in
      if rd_require_replica plan &&
         (negb (hc_is_polardb_hostgroup hg_config) ||
          negb (polardb_reader_endpoint_is_known_replica
                  (polardb_find_writer_server_list hg_config snapshot) srv))
      then None
      else
        let now_us := if lag_cap_enabled plan then rx_now_us cx else 0 in
        if negb (server_meets_lag_policy srv plan wait_spec now_us) then None
        else Some snapshot
  end.

(** *** Evaluating one candidate *)

(** [lag_allows_reader]: the verdict and the merged filter status. *)
Definition lag_allows_reader (plan : PolarDB_Query_ReaderPlan) (lsn : Z) (fresh : bool)
    (filter_status : PolarDB_ReaderStatus) : bool * PolarDB_ReaderStatus :=
  if negb (lag_cap_enabled plan) then (true, filter_status)
  else if lsn =? 0 then
    (false, polardb_reader_status_prefer filter_status READER_LSN_UNKNOWN)
  else if negb fresh then
    (false, polardb_reader_status_prefer filter_status READER_LSN_STALE)
  else if negb (within_byte_cap plan lsn) then
    (false, polardb_reader_status_prefer filter_status READER_LAG_EXCEEDED)
  else (true, filter_status).

Definition evaluate_reader (rq : reader_request)
    (writers : option (list PolarDB_ServerSnapshotEntry)) (e : PolarDB_ServerSnapshotEntry)
    (filter_status : PolarDB_ReaderStatus) : option PolarDB_ReaderNode * PolarDB_ReaderStatus :=
  let srv := en_srv e in
  let wait := has_wait (rq_wait rq) in
  if negb (polardb_reader_is_candidate e) ||
     negb (negb (rd_require_replica (rq_plan rq)) ||
           polardb_reader_endpoint_is_known_replica writers srv) ||
     endpoint_excluded (rq_exclude_address rq) (rq_exclude_port rq) srv
  then (None, filter_status)
  else
    let sample :=
      if wait || lag_cap_enabled (rq_plan rq)
      then polardb_sample_lsn (rx_live cx srv) (rx_now_us cx) (fresh_ms_for rq)
      else mkSample 0 false in
    match lag_allows_reader (rq_plan rq) (sm_lsn sample) (sm_fresh sample) filter_status with
    | (false, st) => (None, st)
    | (true, st) =>
        (Some (mkNode srv (sm_lsn sample) (wrap32 (en_weight e))
                 (wrap32 (en_max_connections e)) 0 (sm_fresh sample)
                 (sm_fresh sample && wait && (wsp_target (rq_wait rq) <=? sm_lsn sample))), st)
    end.

End Candidates.

(** ** The connection pool of one server *)

Inductive PgSQL_PoolGetSource := Source_NONE | Source_EXACT_MATCH | Source_RESET | Source_CREATED.

#[global] Instance PoolGetSource_eq_dec : EqDecision PgSQL_PoolGetSource.
Proof. solve_decision. Defined.

(** The flag set [PgSQL_PoolGetMode]. *)
Record PgSQL_PoolGetMode := mkMode {
  md_exact_match : bool; md_reset : bool; md_create : bool; md_skip_busy : bool
}.

Record PgSQL_PoolGetResult := mkGet {
  gr_conn : option PgSQL_Connection;
  gr_source : PgSQL_PoolGetSource;
  gr_server_saturated : bool;
  gr_retry_after_config_change : bool;
  gr_pool_busy : bool
}.

Definition empty_get : PgSQL_PoolGetResult := mkGet None Source_NONE false false false.

(** What acquisition asks of the pools: the worker's cached connections
    ([polardb_take_local_reader_connection]), the shared pool of one server
    ([get_connection_from_selected_server], whose last two arguments are the
    expected generations, 0 for unchecked), and the removal of a connection it
    destroys ([remove_used_connection] and [delete]). *)
Class ServerPool (P : Type) := {
  take_local : srv_id -> Z -> PolarDB_PoolKey -> P -> option PgSQL_Connection * P;
  get_from_selected : srv_id -> Z -> PgSQL_PoolMatchKey -> PgSQL_PoolGetMode -> Z -> Z -> Z ->
    P -> PgSQL_PoolGetResult * P;
  drop_connection : srv_id -> PgSQL_Connection -> P -> P
}.

(** ** The worker during one acquisition *)

(** The selection sequences of a worker, with the start counter of the server
    list. *)
Record selection_state := mkSelection {
  sq_generation : option Z;         (** None until initialised *)
  sq_sequences : list (Z * Z);      (** hostgroup and next sequence *)
  sq_start : Z
}.

Fixpoint next_in_sequences (hostgroup_id : Z) (l : list (Z * Z)) : option (Z * list (Z * Z)) :=
  match l with
  | [] => None
  | (hg, next) :: l' =>
      if hg =? hostgroup_id then Some (next, (hg, wrap64 (next + 1)) :: l')
      else match next_in_sequences hostgroup_id l' with
           | Some (n, l'') => Some (n, (hg, next) :: l'')
           | None => None
           end
  end.

Definition polardb_next_reader_selection_sequence (hostgroup_id server_list_generation : Z)
    (s : selection_state) : Z * selection_state :=
  let s :=
    if bool_decide (sq_generation s = Some server_list_generation) then s
    else mkSelection (Some server_list_generation) [] (sq_start s) in
  match next_in_sequences hostgroup_id (sq_sequences s) with
  | Some (n, l) => (n, mkSelection (sq_generation s) l (sq_start s))
  | None =>
      let first := sq_start s in
      (first, mkSelection (sq_generation s)
                (sq_sequences s ++ [(hostgroup_id, wrap64 (first + 1))]) (wrap64 (first + 1)))
  end.

(** The configured ratio of two readers, slot by slot. *)
Definition weighted_index (sequence weight0 weight1 : Z) : Z :=
  let weight_sum := wrap64 (weight0 + weight1) in
  if negb (weight0 =? weight1) && negb (weight_sum =? 0) then
    let slot := sequence mod weight_sum in
    let before := slot * weight1 / weight_sum in
    let after := (slot + 1) * weight1 / weight_sum in
    if before <? after then 1 else 0
  else Z.land sequence 1.

Record world (P : Type) := mkWorld {
  wd_rand : list Z;                 (** the values rand_fast() will give *)
  wd_seq : selection_state;
  wd_session : pool_session;
  wd_pool : P
}.
Arguments mkWorld {P}.
Arguments wd_rand {P}.
Arguments wd_seq {P}.
Arguments wd_session {P}.
Arguments wd_pool {P}.

Definition St (W A : Type) : Type := W -> A * W.

#[global] Instance St_ret {W} : MRet (St W) := fun A a w => (a, w).
#[global] Instance St_bind {W} : MBind (St W) :=
  fun A B f m w => let '(a, w) := m w in f a w.

Section Worker.
Context {P : Type} `{ServerPool P}.

Definition on_pool {A} (f : P -> A * P) : St (world P) A := fun w =>
  let '(a, p) := f (wd_pool w) in (a, mkWorld (wd_rand w) (wd_seq w) (wd_session w) p).

Definition rand_fast : St (world P) Z := fun w =>
  match wd_rand w with
  | [] => (0, w)
  | x :: l => (wrap32 x, mkWorld l (wd_seq w) (wd_session w) (wd_pool w))
  end.

Definition next_sequence (hostgroup_id generation : Z) : St (world P) Z := fun w =>
  let '(n, s) := polardb_next_reader_selection_sequence hostgroup_id generation (wd_seq w) in
  (n, mkWorld (wd_rand w) s (wd_session w) (wd_pool w)).

Definition on_session {A} (f : pool_session -> A * pool_session) : St (world P) A := fun w =>
  let '(a, s) := f (wd_session w) in (a, mkWorld (wd_rand w) (wd_seq w) s (wd_pool w)).

Definition polardb_reader_select_weighted_index (hostgroup_id generation weight0 weight1 : Z)
  : St (world P) Z :=
  sequence ← next_sequence hostgroup_id generation;
  mret (weighted_index sequence weight0 weight1).

(** The scan of [polardb_reader_pool_pick_weighted_node]; the last node when
    the sum is not reached. *)
Fixpoint weighted_scan (k running_sum : Z) (j last : nat) (nodes : list PolarDB_ReaderNode) : nat :=
  match nodes with
  | [] => last
  | n :: nodes' =>
      let running_sum := wrap64 (running_sum + nd_weight n) in
      if k <=? running_sum then j else weighted_scan k running_sum (S j) last nodes'
  end.

Definition polardb_reader_pool_pick_weighted_node (nodes : list PolarDB_ReaderNode)
    (weight_sum : Z) : St (world P) (option nat) :=
  if (length nodes =? 0)%nat || (weight_sum =? 0) then mret None
  else
    high ← rand_fast;
    low ← rand_fast;
    let random_value := Z.lor (Z.shiftl high 32) low in
    let k := wrap64 (random_value mod weight_sum + 1) in
    mret (Some (weighted_scan k 0 0 (length nodes - 1) nodes)).

End Worker.

(** ** Taking a connection *)

Definition POLARDB_READER_POOL_SERVER_POP_SCAN_LIMIT : nat := 16.

Record PolarDB_ReaderResult := mkResult {
  rr_conn : option PgSQL_Connection;
  rr_srv : option srv_id;
  rr_selected_pool_miss_server : option srv_id;
  rr_selected_server_snapshot : option PolarDB_ServerListSnapshot;
  rr_status : PolarDB_ReaderStatus;
  rr_wait_bypass_allowed : bool;
  rr_server_saturated : bool;
  rr_selected_reader_lsn : Z;
  rr_best_considered_reader_lsn : Z;
  rr_selected_reader_lsn_fresh : bool;
  rr_best_considered_reader_lsn_fresh : bool;
  rr_retry_scope_hash : Z;
  rr_reservation_profile_generation : Z;
  rr_reservation_pool_key : PolarDB_PoolKey
}.

Definition empty_result : PolarDB_ReaderResult :=
  mkResult None None None None READER_UNAVAILABLE false false 0 0 false false 0 0 no_pool_key.

#[global] Instance upd_rr_conn : Update rr_conn.
Proof. derive_update. Defined.
#[global] Instance upd_rr_srv : Update rr_srv.
Proof. derive_update. Defined.
#[global] Instance upd_rr_selected_pool_miss_server : Update rr_selected_pool_miss_server.
Proof. derive_update. Defined.
#[global] Instance upd_rr_selected_server_snapshot : Update rr_selected_server_snapshot.
Proof. derive_update. Defined.
#[global] Instance upd_rr_status : Update rr_status.
Proof. derive_update. Defined.
#[global] Instance upd_rr_wait_bypass_allowed : Update rr_wait_bypass_allowed.
Proof. derive_update. Defined.
#[global] Instance upd_rr_server_saturated : Update rr_server_saturated.
Proof. derive_update. Defined.
#[global] Instance upd_rr_selected_reader_lsn : Update rr_selected_reader_lsn.
Proof. derive_update. Defined.
#[global] Instance upd_rr_best_considered_reader_lsn : Update rr_best_considered_reader_lsn.
Proof. derive_update. Defined.
#[global] Instance upd_rr_selected_reader_lsn_fresh : Update rr_selected_reader_lsn_fresh.
Proof. derive_update. Defined.
#[global] Instance upd_rr_best_fresh : Update rr_best_considered_reader_lsn_fresh.
Proof. derive_update. Defined.
#[global] Instance upd_rr_retry_scope_hash : Update rr_retry_scope_hash.
Proof. derive_update. Defined.
#[global] Instance upd_rr_reservation_generation : Update rr_reservation_profile_generation.
Proof. derive_update. Defined.
#[global] Instance upd_rr_reservation_pool_key : Update rr_reservation_pool_key.
Proof. derive_update. Defined.

Definition acquired (r : PolarDB_ReaderResult) : bool :=
  (rr_status r == ACQUIRED) && bool_decide (is_Some (rr_conn r)).

Definition wait_type_to_int (t : PolarDB_WaitType) : Z :=
  match t with WaitType_NONE => 0 | WaitType_LSN => 2 end.

Definition polardb_reader_retry_scope_hash (rq : reader_request) (req : PolarDB_PoolRequest) : Z :=
  let key := polardb_core_pool_match_key_for_request req in
  let plan := rq_plan rq in
  let hash := polardb_pool_hash_u64 FNV_SEED (rq_hid rq) in
  let hash := fold_left polardb_pool_hash_u64
    [mk_generation key; mk_auth key; mk_identity key; mk_options key] hash in
  let hash := polardb_pool_hash_u64 hash (rd_group_lsn plan) in
  let hash := polardb_pool_hash_i32 hash (rd_max_lag_bytes plan) in
  let hash := polardb_pool_hash_u64 hash (if rd_require_replica plan then 1 else 0) in
  let hash := polardb_pool_hash_u64 hash (wsp_target (rq_wait rq)) in
  let hash := polardb_pool_hash_i32 hash (wait_type_to_int (wsp_type (rq_wait rq))) in
  let hash := polardb_pool_hash_i32 hash (rq_exclude_port rq) in
  let hash := polardb_pool_hash_cstr hash (rq_exclude_address rq) in
  if hash =? 0 then 1 else hash.

Definition polardb_set_reader_retry_identity (rq : reader_request) (req : PolarDB_PoolRequest)
    (result : PolarDB_ReaderResult) : PolarDB_ReaderResult :=
  if (rr_status result != READER_BUSY) && (rr_status result != READER_GROUP_BUSY) then result
  else
    result
      <| rr_retry_scope_hash := polardb_reader_retry_scope_hash rq req |>
      <| rr_reservation_profile_generation :=
           generation (pr_startup_profile req) (pr_startup_identity_mode req) |>
      <| rr_reservation_pool_key := pr_key req |>.

Definition polardb_merge_reader_lsn_observation (result : PolarDB_ReaderResult)
    (node : PolarDB_ReaderNode) : PolarDB_ReaderResult :=
  let result :=
    if bool_decide (rr_srv result = Some (nd_srv node)) then
      result <| rr_selected_reader_lsn := nd_lsn node |>
             <| rr_selected_reader_lsn_fresh := nd_lsn_fresh node |>
    else result in
  if nd_lsn_fresh node &&
     (negb (rr_best_considered_reader_lsn_fresh result) ||
      (rr_best_considered_reader_lsn result <? nd_lsn node))
  then result <| rr_best_considered_reader_lsn := nd_lsn node |>
              <| rr_best_considered_reader_lsn_fresh := true |>
  else result.

Section Acquire.
Context (pton4 : string -> option Z) (pton6 : string -> option (list Z)).
Context (cx : reader_context).
Context {P : Type} `{ServerPool P}.

Definition usable (sess : pool_session) (req : PolarDB_PoolRequest) (conn : PgSQL_Connection)
  : bool * PgSQL_Connection :=
  match polardb_reader_pool_conn_usable pton4 pton6 (rx_ids cx) (live_facts cx) conn sess req with
  | (ok, _, conn') => (ok, conn')
  end.

(** A connection that still has to be opened, or one that a reset or a variable
    update makes fit. *)
Definition acceptable (sess : pool_session) (req : PolarDB_PoolRequest) (conn : PgSQL_Connection)
  : bool * PgSQL_Connection :=
  if negb (cn_connected conn) then (true, conn)
  else match polardb_classify_pool_conn_for_reuse pton4 pton6 (rx_ids cx) (live_facts cx)
               conn sess req with
       | (st, _, conn') =>
           ((st == Reuse_EXACT) || (st == Reuse_NEEDS_RESET) ||
            (st == Reuse_NEEDS_VARIABLE_UPDATE), conn')
       end.

Definition discard (srv : srv_id) (conn : PgSQL_Connection) : St (world P) () :=
  on_pool (fun p => ((), drop_connection srv conn p)).

(** The loop over the worker's cached connections. *)
Fixpoint take_local_usable (sess : pool_session) (req : PolarDB_PoolRequest) (srv : srv_id)
    (attempts : nat) : St (world P) (option PgSQL_Connection) :=
  match attempts with
  | O => mret None
  | S attempts' =>
      got ← on_pool (take_local srv
              (generation (pr_startup_profile req) (pr_startup_identity_mode req)) (pr_key req));
      match got with
      | None => mret None
      | Some conn =>
          match usable sess req conn with
          | (true, conn') => mret (Some conn')
          | (false, conn') =>
              _ ← discard srv conn';
              take_local_usable sess req srv attempts'
          end
      end
  end.

(** The loop over the shared pool of the server. *)
Fixpoint take_shared_usable (sess : pool_session) (req : PolarDB_PoolRequest) (srv hid : Z)
    (mode : PgSQL_PoolGetMode) (max_connections : Z) (attempts : nat)
  : St (world P) PgSQL_PoolGetResult :=
  match attempts with
  | O => mret empty_get
  | S attempts' =>
      got ← on_pool (get_from_selected srv hid (polardb_core_pool_match_key_for_request req)
                       mode max_connections 0 0);
      match gr_conn got with
      | None =>
          if gr_pool_busy got then mret (mkGet None Source_NONE false false true)
          else mret (mkGet None Source_NONE (gr_server_saturated got) false false)
      | Some conn =>
          let '(ok, conn') :=
            if gr_source got == Source_EXACT_MATCH then usable sess req conn
            else acceptable sess req conn in
          if ok then mret (mkGet (Some conn') (gr_source got) (gr_server_saturated got)
                             (gr_retry_after_config_change got) (gr_pool_busy got))
          else
            _ ← discard srv conn';
            take_shared_usable sess req srv hid mode max_connections attempts'
      end
  end.

Definition polardb_reader_pool_get_from_server (srv : srv_id) (sess : pool_session)
    (req : PolarDB_PoolRequest) (selected_max_connections : Z)
    (skip_busy_pool skip_local_reuse : bool) : St (world P) PgSQL_PoolGetResult :=
  match rx_home cx srv with
  | None => mret empty_get
  | Some hid =>
      if negb (ready_for_matching req) then mret empty_get
      else
        local ← (if negb skip_local_reuse
                 then take_local_usable sess req srv POLARDB_READER_POOL_SERVER_POP_SCAN_LIMIT
                 else mret None);
        match local with
        | Some conn => mret (mkGet (Some conn) Source_EXACT_MATCH false false false)
        | None =>
            take_shared_usable sess req srv hid
              (mkMode true (negb (pr_only_pooled req)) false skip_busy_pool)
              (if pr_only_pooled req then 0 else selected_max_connections)
              POLARDB_READER_POOL_SERVER_POP_SCAN_LIMIT
        end
  end.

(** The result and the server that served it. *)
Definition polardb_reader_acquire_with_alternate (selected : PolarDB_ReaderNode)
    (alternate : option PolarDB_ReaderNode) (sess : pool_session) (req : PolarDB_PoolRequest)
  : St (world P) (PgSQL_PoolGetResult * srv_id) :=
  let get n skip_busy skip_local :=
    polardb_reader_pool_get_from_server (nd_srv n) sess req (nd_max_connections n)
      skip_busy skip_local in
  let blocking := (r ← get selected false false; mret (r, nd_srv selected)) in
  match alternate with
  | None => blocking
  | Some alt =>
      if nd_srv alt =? nd_srv selected then blocking
      else
        r ← get selected true false;
        if negb (gr_pool_busy r) then mret (r, nd_srv selected)
        else
          ra ← get alt true false;
          match gr_conn ra with
          | Some _ => mret (ra, nd_srv alt)
          | None => r ← get selected false true; mret (r, nd_srv selected)
          end
  end.

(** [try_node]: whether it served, and the updated result. *)
Definition try_node (nodes : list PolarDB_ReaderNode) (selected : nat)
    (alternate : option nat) (sess : pool_session) (req : PolarDB_PoolRequest)
    (first_attempt_is_additional : bool) (idx : nat) (result : PolarDB_ReaderResult)
  : St (world P) (bool * PolarDB_ReaderResult) :=
  match nodes !! idx with
  | None => mret (false, result)
  | Some node =>
      let additional := first_attempt_is_additional || negb (idx =? selected)%nat in
      let busy_alternate :=
        match alternate with
        | Some a => if (a =? idx)%nat then None else nodes !! a
        | None => None
        end in
      '(got, server) ← polardb_reader_acquire_with_alternate node busy_alternate sess req;
      let result :=
        if pr_only_pooled req && negb additional && bool_decide (gr_conn got = None) &&
           negb (gr_pool_busy got)
        then result <| rr_selected_pool_miss_server := Some (nd_srv node) |> else result in
      match gr_conn got with
      | None =>
          mret (false,
            if negb (pr_only_pooled req)
            then result <| rr_server_saturated := gr_server_saturated got |> else result)
      | Some conn =>
          mret (true, result <| rr_conn := Some conn |> <| rr_srv := Some server |>
                             <| rr_status := ACQUIRED |>)
      end
  end.

(** The walk of a pooled-only request over the remaining nodes. *)
Fixpoint walk_pooled (try : nat -> PolarDB_ReaderResult -> St (world P) (bool * PolarDB_ReaderResult))
    (idxs : list nat) (result : PolarDB_ReaderResult) : St (world P) PolarDB_ReaderResult :=
  match idxs with
  | [] => mret result
  | i :: idxs' =>
      '(ok, result) ← try i result;
      if ok : bool then mret result else walk_pooled try idxs' result
  end.

(** The capacity walk: the result and whether every node was saturated. *)
Fixpoint walk_capacity (nodes : list PolarDB_ReaderNode)
    (try : nat -> PolarDB_ReaderResult -> St (world P) (bool * PolarDB_ReaderResult))
    (idxs : list nat) (result : PolarDB_ReaderResult) : St (world P) (PolarDB_ReaderResult * bool) :=
  match idxs with
  | [] => mret (result, true)
  | i :: idxs' =>
      '(ok, result) ← try i result;
      if ok : bool then mret (result, false)
      else if negb (rr_server_saturated result)
      then mret (result <| rr_srv := nd_srv <$> nodes !! i |>, false)
      else walk_capacity nodes try idxs' result
  end.

Definition round_robin_after (selected num_nodes : nat) : list nat :=
  map (fun offset => (selected + offset) mod num_nodes)%nat (seq 1 (num_nodes - 1)).

Definition polardb_take_conn_from_reader_nodes (nodes : list PolarDB_ReaderNode)
    (selected_idx busy_alternate_idx : option nat) (sess : pool_session)
    (req : PolarDB_PoolRequest) (confirm_reader_group_capacity first_attempt_is_additional : bool)
  : St (world P) PolarDB_ReaderResult :=
  let num_nodes := length nodes in
  match selected_idx with
  | None => mret empty_result
  | Some selected =>
      match nodes !! selected with
      | None => mret empty_result
      | Some node =>
          let result := empty_result <| rr_srv := Some (nd_srv node) |> in
          let alternate :=
            match busy_alternate_idx with
            | Some a => if (a <? num_nodes)%nat && negb (a =? selected)%nat then Some a else None
            | None => None
            end in
          let try := try_node nodes selected alternate sess req first_attempt_is_additional in
          '(_, result) ← try selected result;
          if negb (acquired result) && pr_only_pooled req then
            walk_pooled try (round_robin_after selected num_nodes) result
          else if negb (acquired result) && confirm_reader_group_capacity &&
                  rr_server_saturated result then
            '(result, group_saturated) ←
               walk_capacity nodes try (round_robin_after selected num_nodes) result;
            mret (if negb (acquired result) && group_saturated
                  then result <| rr_status := READER_GROUP_BUSY |> else result)
          else mret result
      end
  end.

Definition load_active (nodes : list PolarDB_ReaderNode) (i : nat) : list PolarDB_ReaderNode :=
  match nodes !! i with
  | Some n => <[i := n <| nd_active_count := rs_used (rx_live cx (nd_srv n)) |>]> nodes
  | None => nodes
  end.

(** The order of two loaded nodes; nodes that are not there compare equal. *)
Definition load_order_of (nodes : list PolarDB_ReaderNode) (i j : nat) : Z :=
  match nodes !! i, nodes !! j with
  | Some a, Some b => polardb_reader_normalized_load_compare a b
  | _, _ => 0
  end.

(** The second candidate of the two choices: another draw, moved off the first
    when they coincide. *)
Definition pick_second (nodes : list PolarDB_ReaderNode) (weight_sum : Z) (first : nat)
  : St (world P) (option nat) :=
  second ← polardb_reader_pool_pick_weighted_node nodes weight_sum;
  if bool_decide (second = Some first) then
    r ← rand_fast;
    mret (Some ((first + 1 + Z.to_nat (r mod Z.of_nat (length nodes - 1)))
                  mod length nodes)%nat)
  else mret second.

(** Nodes with the loaded counts, selected index and busy alternate. *)
Definition power_of_two_choices (nodes : list PolarDB_ReaderNode) (weight_sum : Z)
    (pair_preselected avoid_busy_pool : bool)
  : St (world P) (list PolarDB_ReaderNode * option nat * option nat) :=
  let num_nodes := length nodes in
  let compare_preselected_pair := pair_preselected && (num_nodes =? 2)%nat in
  first_idx ← (if (1 <? num_nodes)%nat && negb compare_preselected_pair
               then polardb_reader_pool_pick_weighted_node nodes weight_sum
               else mret (Some 0%nat));
  match first_idx with
  | Some first =>
      if (1 <? num_nodes)%nat then
        second_idx ← (if compare_preselected_pair then mret (Some 1%nat)
                      else pick_second nodes weight_sum first);
        match second_idx with
        | Some second =>
            let nodes := load_active (load_active nodes first) second in
            let load_order := load_order_of nodes second first in
            take_second ← (if negb (load_order =? 0) then mret (load_order <? 0)
                           else r ← rand_fast; mret (Z.land r 1 =? 0));
            let selected := if take_second : bool then second else first in
            mret (nodes, Some selected,
                  if avoid_busy_pool
                  then Some (if (selected =? first)%nat then second else first) else None)
        | None => mret (nodes, Some first, None)
        end
      else mret (nodes, Some first, None)
  | None => mret (nodes, None, None)
  end.

Definition polardb_get_conn_from_reader_nodes (nodes : list PolarDB_ReaderNode) (weight_sum : Z)
    (sess : pool_session) (req : PolarDB_PoolRequest)
    (pair_preselected confirm_reader_group_capacity avoid_busy_pool
     first_attempt_is_additional : bool) : St (world P) PolarDB_ReaderResult :=
  if (length nodes =? 0)%nat || (weight_sum =? 0) then mret empty_result
  else
    '(nodes, selected, alternate) ←
       power_of_two_choices nodes weight_sum pair_preselected avoid_busy_pool;
    polardb_take_conn_from_reader_nodes nodes selected alternate sess req
      confirm_reader_group_capacity first_attempt_is_additional.

(** ** Building the candidates *)

Definition reached_count (nodes : list PolarDB_ReaderNode) : nat :=
  length (List.filter nd_target_reached nodes).

Definition add_weight (sum : Z) (n : PolarDB_ReaderNode) : Z := wrap64 (sum + nd_weight n).

Definition weight_of (nodes : list PolarDB_ReaderNode) : Z := fold_left add_weight nodes 0.

(** The choice between two candidates of a read that requires an LSN. *)
Definition polardb_reader_pool_refine_two_by_lsn_target (selected other : PolarDB_ReaderNode)
    (has_wait_target : bool) : nat :=
  if negb has_wait_target then 0%nat
  else if negb (Bool.eqb (nd_target_reached other) (nd_target_reached selected))
  then if nd_target_reached other then 1%nat else 0%nat
  else if nd_target_reached selected || negb (nd_lsn_fresh selected) || negb (nd_lsn_fresh other)
  then 0%nat
  else
    let load n :=
      if rx_prefer_less_loaded cx
      then n <| nd_active_count := rs_used (rx_live cx (nd_srv n)) |> else n in
    let selected := load selected in
    let other := load other in
    if rx_prefer_freshest cx then
      if nd_lsn other =? nd_lsn selected then 0%nat
      else
        let best_lsn := Z.max (nd_lsn other) (nd_lsn selected) in
        let range := rx_lag_range_bytes cx in
        if polardb_reader_lsn_in_best_behind_range (nd_lsn other) best_lsn range &&
           negb (polardb_reader_lsn_in_best_behind_range (nd_lsn selected) best_lsn range)
        then 1%nat else 0%nat
    else if negb (rx_prefer_less_loaded cx) || (nd_lsn other <=? nd_lsn selected) then 0%nat
    else if polardb_reader_normalized_load_compare other selected <? 0 then 1%nat else 0%nat.

(** Everything the second half of an acquisition reads from the first. *)
Record candidates := mkCandidates {
  cd_nodes : list PolarDB_ReaderNode;
  cd_weight_sum : Z;
  cd_ready_weight_sum : Z;
  cd_sampled_pair : bool;
  cd_filter_status : PolarDB_ReaderStatus
}.

Definition option_list {A} (o : option A) : list A := match o with Some a => [a] | None => [] end.

Section Request.
Context (rq : reader_request) (writers : option (list PolarDB_ServerSnapshotEntry)).

Definition wait_target : bool := has_wait (rq_wait rq).

Definition evaluate (e : PolarDB_ServerSnapshotEntry) (st : PolarDB_ReaderStatus)
  : option PolarDB_ReaderNode * PolarDB_ReaderStatus := evaluate_reader cx rq writers e st.

Definition weight_or_zero (e : PolarDB_ServerSnapshotEntry) : Z :=
  if 0 <? en_weight e then wrap64 (en_weight e) else 0.

(** The two-reader policy: the nodes, whether the first was usable, the peer
    that was not looked at, and whether a busy pool may be avoided. *)
Record two_readers := mkTwo {
  tw_nodes : list PolarDB_ReaderNode;
  tw_first_ok : bool;
  tw_unseen_peer : option PolarDB_ServerSnapshotEntry;
  tw_avoid_busy_pool : bool;
  tw_filter_status : PolarDB_ReaderStatus
}.

Definition two_reader_candidates (e0 e1 : PolarDB_ServerSnapshotEntry) (generation : Z)
  : St (world P) two_readers :=
  let weight0 := weight_or_zero e0 in
  let weight1 := weight_or_zero e1 in
  first_server_idx ←
    polardb_reader_select_weighted_index (rq_hid rq) generation weight0 weight1;
  let '(first_entry, peer_entry) := if first_server_idx =? 0 then (e0, e1) else (e1, e0) in
  let avoid_busy_pool :=
    (weight0 =? weight1) &&
    polardb_request_can_skip_busy_pool wait_target (lag_cap_enabled (rq_plan rq))
      (rq_only_pooled rq) (rq_confirm_capacity rq) (rq_exclude_address rq)
      (rq_exclude_port rq) in
  let '(first, st) := evaluate first_entry READER_UNAVAILABLE in
  let first_ok := bool_decide (is_Some first) in
  let first_reached := match first with Some n => nd_target_reached n | None => false end in
  mret
    (if avoid_busy_pool || rq_confirm_capacity rq || negb first_ok ||
        (wait_target && negb first_reached)
     then
       let '(peer, st) := evaluate peer_entry st in
       mkTwo (option_list first ++ option_list peer) first_ok None avoid_busy_pool st
     else mkTwo (option_list first) first_ok (Some peer_entry) avoid_busy_pool st).

(** One full or partial scan, in the given order; [seen] are the evaluations
    already made. *)
Fixpoint scan_servers (servers : list PolarDB_ServerSnapshotEntry)
    (seen : list (nat * option PolarDB_ReaderNode)) (idxs : list nat)
    (st : PolarDB_ReaderStatus) : list PolarDB_ReaderNode * PolarDB_ReaderStatus :=
  match idxs with
  | [] => ([], st)
  | i :: idxs' =>
      let '(node, st) :=
        match List.find (fun s => (fst s =? i)%nat) seen with
        | Some (_, n) => (n, st)
        | None => match servers !! i with
                  | Some e => evaluate e st
                  | None => (None, st)
                  end
        end in
      let '(nodes, st) := scan_servers servers seen idxs' st in
      (option_list node ++ nodes, st)
  end.

Definition equal_positive_weights (servers : list PolarDB_ServerSnapshotEntry) : option Z :=
  match servers with
  | [] => None
  | e :: rest =>
      let common := if 0 <? en_weight e then wrap32 (en_weight e) else 0 in
      if (0 <? common) &&
         forallb (fun e' => (0 <? en_weight e') && (wrap32 (en_weight e') =? common)) rest
      then Some common else None
  end.

(** The random pair: the two evaluations with their indexes, and the status. *)
Definition sample_two (servers : list PolarDB_ServerSnapshotEntry)
  : St (world P) (list (nat * option PolarDB_ReaderNode) * PolarDB_ReaderStatus) :=
  let n := length servers in
  r0 ← rand_fast;
  r1 ← rand_fast;
  let i0 := Z.to_nat (r0 mod Z.of_nat n) in
  let i1 := ((i0 + 1 + Z.to_nat (r1 mod Z.of_nat (n - 1))) mod n)%nat in
  let eval i st := match servers !! i with Some e => evaluate e st | None => (None, st) end in
  let '(n0, st) := eval i0 READER_UNAVAILABLE in
  let '(n1, st) := eval i1 st in
  mret ([(i0, n0); (i1, n1)], st).

(** The pair as the whole candidate set, when it already answers the request. *)
Definition pair_suffices (seen : list (nat * option PolarDB_ReaderNode))
  : option (PolarDB_ReaderNode * PolarDB_ReaderNode) :=
  match seen with
  | [(_, Some a); (_, Some b)] =>
      if negb wait_target || (nd_target_reached a && nd_target_reached b)
      then Some (a, b) else None
  | _ => None
  end.

Definition full_scan (servers : list PolarDB_ServerSnapshotEntry)
    (seen : list (nat * option PolarDB_ReaderNode)) (st : PolarDB_ReaderStatus)
  : St (world P) candidates :=
  let n := length servers in
  scan_start ← (if (2 <? n)%nat then r ← rand_fast; mret (Z.to_nat (r mod Z.of_nat n))
                else mret 0%nat);
  let '(nodes, st) :=
    scan_servers servers seen (map (fun k => (scan_start + k) mod n)%nat (seq 0 n)) st in
  mret (mkCandidates nodes (weight_of nodes)
          (weight_of (List.filter nd_target_reached nodes)) false st).

Definition general_candidates (servers : list PolarDB_ServerSnapshotEntry)
  : St (world P) candidates :=
  let can_sample :=
    (2 <? length servers)%nat &&
    polardb_request_can_sample_pair (lag_cap_enabled (rq_plan rq)) (rq_only_pooled rq)
      (rq_confirm_capacity rq) (rq_exclude_address rq) (rq_exclude_port rq) in
  match (if can_sample then equal_positive_weights servers else None) with
  | Some common_weight =>
      '(seen, st) ← sample_two servers;
      match pair_suffices seen with
      | Some (a, b) =>
          let ready := (if nd_target_reached a then 1 else 0) +
                       (if nd_target_reached b then 1 else 0) in
          mret (mkCandidates [a; b] (wrap64 (common_weight * 2))
                  (wrap64 (common_weight * ready)) true st)
      | None => full_scan servers seen st
      end
  | None => full_scan servers [] READER_UNAVAILABLE
  end.

(** The in-place partition that moves the ready nodes to the front. *)
Definition swap_nodes (i j : nat) (nodes : list PolarDB_ReaderNode) : list PolarDB_ReaderNode :=
  match nodes !! i, nodes !! j with
  | Some a, Some b => <[j := a]> (<[i := b]> nodes)
  | _, _ => nodes
  end.

Definition partition_step (acc : list PolarDB_ReaderNode * nat) (n : nat)
  : list PolarDB_ReaderNode * nat :=
  match fst acc !! n with
  | Some node =>
      if nd_target_reached node then (swap_nodes (snd acc) n (fst acc), S (snd acc)) else acc
  | None => acc
  end.

Definition partition_ready (nodes : list PolarDB_ReaderNode) : list PolarDB_ReaderNode :=
  fst (fold_left partition_step (seq 0 (length nodes)) (nodes, 0%nat)).

(** ** One acquisition *)

(** The node the two-reader policy asks first. *)
Definition select_of_two (nodes : list PolarDB_ReaderNode) : option nat :=
  match nodes with
  | [a; b] => Some (polardb_reader_pool_refine_two_by_lsn_target a b wait_target)
  | [_] => Some 0%nat
  | _ => None
  end.

(** The two-reader half: the result without diagnostics, the nodes considered
    and the filter status. *)
Definition acquire_two (snapshot : PolarDB_ServerListSnapshot)
    (e0 e1 : PolarDB_ServerSnapshotEntry) (sess : pool_session) (req : PolarDB_PoolRequest)
  : St (world P) (PolarDB_ReaderResult * list PolarDB_ReaderNode * PolarDB_ReaderStatus) :=
  two ← two_reader_candidates e0 e1 (sn_generation snapshot);
  let nodes := tw_nodes two in
  let selected := select_of_two nodes in
  let alternate :=
    if tw_avoid_busy_pool two && (length nodes =? 2)%nat
    then (fun i => (1 - i)%nat) <$> selected else None in
  result ← polardb_take_conn_from_reader_nodes nodes selected alternate sess req
             (rq_confirm_capacity rq) false;
  '(result, nodes, st) ←
    (match tw_unseen_peer two with
     | Some peer_entry =>
         if negb (acquired result) && rq_only_pooled rq && tw_first_ok two then
           let '(peer, st) := evaluate peer_entry (tw_filter_status two) in
           match peer with
           | Some n =>
               fallback ← polardb_take_conn_from_reader_nodes [n] (Some 0%nat) None sess req
                            false true;
               let fallback := fallback <| rr_selected_pool_miss_server :=
                                 rr_selected_pool_miss_server result |> in
               mret (if acquired fallback then fallback else result, nodes ++ [n], st)
           | None => mret (result, nodes, st)
           end
         else mret (result, nodes, tw_filter_status two)
     | None => mret (result, nodes, tw_filter_status two)
     end);
  let result := result <| rr_selected_server_snapshot := Some snapshot |> in
  let result :=
    if acquired result then
      match List.find (fun n => bool_decide (rr_srv result = Some (nd_srv n))) nodes with
      | Some n => result <| rr_wait_bypass_allowed := nd_target_reached n |>
      | None => result
      end
    else result in
  mret (result, nodes, st).

(** The attempt on the readers that already reached the target. *)
Definition acquire_preferred (cd : candidates) (nodes : list PolarDB_ReaderNode)
    (snapshot : PolarDB_ServerListSnapshot) (sess : pool_session) (req : PolarDB_PoolRequest)
  : St (world P) PolarDB_ReaderResult :=
  let ready := reached_count (cd_nodes cd) in
  let result := empty_result <| rr_selected_server_snapshot := Some snapshot |>
                             <| rr_status := cd_filter_status cd |> in
  if wait_target && (0 <? ready)%nat && (0 <? cd_ready_weight_sum cd) then
    preferred ← polardb_get_conn_from_reader_nodes (take ready nodes) (cd_ready_weight_sum cd)
                  sess req false (rq_confirm_capacity rq)
                  (cd_sampled_pair cd && (ready =? 2)%nat) false;
    mret (if acquired preferred
          then preferred <| rr_selected_server_snapshot := Some snapshot |>
                         <| rr_wait_bypass_allowed := true |>
          else result <| rr_srv := rr_srv preferred |>
                      <| rr_selected_pool_miss_server := rr_selected_pool_miss_server preferred |>
                      <| rr_server_saturated := rr_server_saturated preferred |>
                      <| rr_status := rr_status preferred |>)
  else mret result.

(** What a fallback attempt makes of the result so far. *)
Definition merge_fallback (snapshot : PolarDB_ServerListSnapshot)
    (result fallback : PolarDB_ReaderResult) : PolarDB_ReaderResult :=
  let fallback :=
    if bool_decide (rr_selected_pool_miss_server fallback = None)
    then fallback <| rr_selected_pool_miss_server := rr_selected_pool_miss_server result |>
    else fallback in
  let adopt := result <| rr_srv := rr_srv fallback |>
                      <| rr_server_saturated := rr_server_saturated fallback |>
                      <| rr_status := rr_status fallback |> in
  if acquired fallback
  then fallback <| rr_selected_server_snapshot := Some snapshot |>
                <| rr_wait_bypass_allowed := false |>
  else if bool_decide (rr_srv fallback = None) then result
  else if negb (rq_confirm_capacity rq) || (rr_status fallback != READER_GROUP_BUSY) then adopt
  else if rr_status result != READER_GROUP_BUSY then adopt
  else result.

(** The attempt on the other readers, unless the request can create on the
    preferred one. *)
Definition acquire_fallback (cd : candidates) (nodes : list PolarDB_ReaderNode)
    (snapshot : PolarDB_ServerListSnapshot) (sess : pool_session) (req : PolarDB_PoolRequest)
    (result : PolarDB_ReaderResult) : St (world P) PolarDB_ReaderResult :=
  let ready := reached_count (cd_nodes cd) in
  let preferred_attempted := wait_target && (0 <? ready)%nat in
  let preferred_can_create :=
    rq_confirm_capacity rq && bool_decide (is_Some (rr_srv result)) &&
    negb (rr_server_saturated result) && (rr_status result != READER_GROUP_BUSY) in
  if negb (acquired result) && negb preferred_can_create then
    fallback ← polardb_get_conn_from_reader_nodes
      (if preferred_attempted then drop ready nodes else nodes)
      (if preferred_attempted
       then wrap64 (cd_weight_sum cd - cd_ready_weight_sum cd) else cd_weight_sum cd)
      sess req (cd_sampled_pair cd) (rq_confirm_capacity rq) (cd_sampled_pair cd)
      preferred_attempted;
    mret (merge_fallback snapshot result fallback)
  else mret result.

Definition acquire_general (snapshot : PolarDB_ServerListSnapshot)
    (servers : list PolarDB_ServerSnapshotEntry) (sess : pool_session)
    (req : PolarDB_PoolRequest)
  : St (world P) (PolarDB_ReaderResult * list PolarDB_ReaderNode * PolarDB_ReaderStatus) :=
  cd ← general_candidates servers;
  let nodes :=
    if wait_target && (0 <? reached_count (cd_nodes cd))%nat
    then partition_ready (cd_nodes cd) else cd_nodes cd in
  preferred ← acquire_preferred cd nodes snapshot sess req;
  result ← acquire_fallback cd nodes snapshot sess req preferred;
  mret (result, nodes, cd_filter_status cd).

(** The diagnostics and the final status. *)
Definition finish_result (req : PolarDB_PoolRequest) (nodes : list PolarDB_ReaderNode)
    (filter_status : PolarDB_ReaderStatus) (result : PolarDB_ReaderResult)
  : PolarDB_ReaderResult :=
  let result :=
    if wait_target then
      fold_left polardb_merge_reader_lsn_observation nodes
        (result <| rr_selected_reader_lsn := 0 |> <| rr_best_considered_reader_lsn := 0 |>
                <| rr_selected_reader_lsn_fresh := false |>
                <| rr_best_considered_reader_lsn_fresh := false |>)
    else result in
  if acquired result then result
  else
    let result :=
      if rr_status result != READER_GROUP_BUSY then
        result <| rr_status :=
          if bool_decide (is_Some (rr_srv result)) then
            if rq_only_pooled rq then RFQ_UNAVAILABLE
            else if rr_server_saturated result then READER_BUSY else READER_UNAVAILABLE
          else filter_status |>
      else result in
    polardb_set_reader_retry_identity rq req result.

End Request.

Definition polardb_try_acquire_reader_connection (rq : reader_request)
  : St (world P) PolarDB_ReaderResult :=
  let hg_config := get_polardb_hg_config (rx_hgm cx) (rq_hid rq) in
  if negb (hc_is_polardb_hostgroup hg_config) then mret empty_result
  else
    let profile := polardb_startup_profile_for_config hg_config (rx_proxy_protocol cx)
                     (rx_profile_off cx) in
    if has_wait (rq_wait rq) && negb (requests_rfq_lsn profile)
    then mret (empty_result <| rr_status := RFQ_UNAVAILABLE |>)
    else if lag_cap_enabled (rq_plan rq) && (rd_group_lsn (rq_plan rq) =? 0)
    then mret (empty_result <| rr_status := GROUP_LSN_UNKNOWN |>)
    else
      '(req, sess) ← on_session (fun s =>
         let '(req, s') := polardb_prepare_pool_request_for_session pton4 pton6 (rx_ids cx)
           profile (rq_only_pooled rq) (negb (wsp_target (rq_wait rq) =? 0)) s in
         ((req, s'), s'));
      match rx_snapshot cx with
      | None => mret empty_result
      | Some snapshot =>
          match sn_by_hostgroup snapshot !! rq_hid rq with
          | None | Some [] => mret empty_result
          | Some servers =>
              let writers :=
                if rd_require_replica (rq_plan rq)
                then polardb_find_writer_server_list hg_config snapshot else None in
              '(result, nodes, st) ←
                match servers, rx_has_selection_start cx with
                | [e0; e1], true => acquire_two rq writers snapshot e0 e1 sess req
                | _, _ => acquire_general rq writers snapshot servers sess req
                end;
              mret (finish_result rq req nodes st result)
          end
      end.

(** ** Creation on the selected server *)

Definition set_polardb_startup_settings (profile : PolarDB_StartupProfile) (identity_mode : Z)
    (startup_config_generation : Z) (startup_client : PolarDB_StartupClientContext)
    (conn : PgSQL_Connection) : PgSQL_Connection :=
  conn <| cn_profile := profile |> <| cn_identity_mode := identity_mode |>
       <| cn_profile_generation := generation profile identity_mode |>
       <| cn_config_generation := startup_config_generation |>
       <| cn_startup_client := startup_client |> <| cn_settings_set := true |>.

Inductive creation_outcome :=
| Creation_RETRY
| Creation_NONE
| Creation_CONN (conn : PgSQL_Connection) (created : bool).

Fixpoint create_on_selected (selected : srv_id) (hid : Z) (sess : pool_session)
    (req : PolarDB_PoolRequest) (list_generation : Z) (attempts : nat)
  : St (world P) creation_outcome :=
  match attempts with
  | O => mret Creation_NONE
  | S attempts' =>
      got ← on_pool (get_from_selected selected hid (polardb_core_pool_match_key_for_request req)
                       (mkMode true true true false) 0 list_generation
                       (rx_startup_config_generation cx));
      if gr_retry_after_config_change got then mret Creation_RETRY
      else match gr_conn got with
      | None => mret Creation_NONE
      | Some conn =>
          if gr_source got == Source_CREATED then mret (Creation_CONN conn true)
          else match usable sess req conn with
               | (true, conn') => mret (Creation_CONN conn' false)
               | (false, conn') =>
                   _ ← discard selected conn';
                   create_on_selected selected hid sess req list_generation attempts'
               end
      end
  end.

(** The connection takes over the snapshot that keeps its server valid. *)
Definition attach_snapshot (r : PolarDB_ReaderResult) : PolarDB_ReaderResult :=
  r <| rr_conn := (fun c => c <| cn_server_snapshot := rr_selected_server_snapshot r |>)
                    <$> rr_conn r |>
    <| rr_selected_server_snapshot := None |>.

(** The server a demand warmup is requested for after a pooled-only hit. *)
Definition pool_miss_warmup (rq : reader_request) (r : PolarDB_ReaderResult) : option srv_id :=
  if rq_only_pooled rq &&
     ((rx_warmup_mode cx =? warmup_to_int Warmup_DEMAND) ||
      (rx_warmup_mode cx =? warmup_to_int Warmup_BOTH))
  then rr_selected_pool_miss_server r else None.

Definition polardb_acquire_reader_connection (rq : reader_request)
  : St (world P) (PolarDB_ReaderResult * option srv_id) :=
  result ← polardb_try_acquire_reader_connection rq;
  if acquired result then mret (attach_snapshot result, pool_miss_warmup rq result)
  else if (rr_status result == READER_BUSY) || (rr_status result == READER_GROUP_BUSY) ||
          (rr_status result == RFQ_UNAVAILABLE) ||
          polardb_reader_status_redirects_to_writer (rr_status result) || rq_only_pooled rq
  then mret (result, None)
  else match rr_srv result with
  | None => mret (result, None)
  | Some selected =>
      let profile := polardb_startup_profile_for_config
        (get_polardb_hg_config (rx_hgm cx) (rq_hid rq)) (rx_proxy_protocol cx)
        (rx_profile_off cx) in
      '(req, sess) ← on_session (fun s =>
         let '(req, s') := polardb_prepare_pool_request_for_session pton4 pton6 (rx_ids cx)
           profile false (negb (wsp_target (rq_wait rq) =? 0)) s in
         ((req, s'), s'));
      let list_generation :=
        polardb_server_list_snapshot_generation (rr_selected_server_snapshot result) in
      outcome ← create_on_selected selected (rq_hid rq) sess req list_generation
                  POLARDB_READER_POOL_SERVER_POP_SCAN_LIMIT;
      match outcome with
      | Creation_RETRY =>
          mret (result <| rr_status := RETRY_AFTER_CONFIG_CHANGE |>, None)
      | Creation_NONE =>
          mret (polardb_set_reader_retry_identity rq req
                  (result <| rr_status := READER_BUSY |>), None)
      | Creation_CONN conn created =>
          let result := attach_snapshot (result <| rr_conn := Some conn |>) in
          let install c :=
            if created : bool then
              set_polardb_startup_settings profile (pr_startup_identity_mode req)
                (rx_startup_config_generation cx)
                (fst (startup_client_of pton4 pton6 (rx_ids cx) sess)) c
            else c in
          mret (result <| rr_conn := install <$> rr_conn result |>
                       <| rr_srv := Some selected |> <| rr_status := ACQUIRED |>
                       <| rr_wait_bypass_allowed := false |>, None)
      end
  end.

End Acquire.

(** ** Lemmas: candidates *)

Section CandidateLemmas.
Context (cx : reader_context) (rq : reader_request).
Context (writers : option (list PolarDB_ServerSnapshotEntry)).

Definition lag_ok (srv : srv_id) : Prop :=
  lag_cap_enabled (rq_plan rq) = true ->
  let sample := polardb_sample_lsn (rx_live cx srv) (rx_now_us cx) (fresh_ms_for cx rq) in
  sm_lsn sample <> 0 /\ sm_fresh sample = true /\
  within_byte_cap (rq_plan rq) (sm_lsn sample) = true.

(** A server the request may be sent to. *)
Record eligible (e : PolarDB_ServerSnapshotEntry) : Prop := {
  el_candidate : polardb_reader_is_candidate cx e = true;
  el_replica : rd_require_replica (rq_plan rq) = true ->
    polardb_reader_endpoint_is_known_replica cx writers (en_srv e) = true;
  el_not_excluded :
    endpoint_excluded cx (rq_exclude_address rq) (rq_exclude_port rq) (en_srv e) = false;
  el_lag : lag_ok (en_srv e)
}.

(** A server whose trusted position has reached the wait target. *)
Definition target_reached (srv : srv_id) : Prop :=
  has_wait (rq_wait rq) = true /\
  let sample := polardb_sample_lsn (rx_live cx srv) (rx_now_us cx) (fresh_ms_for cx rq) in
  sm_fresh sample = true /\ wsp_target (rq_wait rq) <= sm_lsn sample.

(** A node stands for a listed server: the same facts, whatever its count. *)
Record node_for (e : PolarDB_ServerSnapshotEntry) (n : PolarDB_ReaderNode) : Prop := {
  nf_srv : nd_srv n = en_srv e;
  nf_weight : nd_weight n = wrap32 (en_weight e);
  nf_reached : nd_target_reached n = true <-> target_reached (en_srv e)
}.

Lemma lag_allows_spec lsn fresh st :
  fst (lag_allows_reader (rq_plan rq) lsn fresh st) = true <->
  (lag_cap_enabled (rq_plan rq) = true ->
   lsn <> 0 /\ fresh = true /\ within_byte_cap (rq_plan rq) lsn = true).
Proof.
  unfold lag_allows_reader. destruct (lag_cap_enabled _); cbn; [|naive_solver].
  destruct (Z.eqb_spec lsn 0); cbn; [naive_solver|].
  destruct fresh; cbn; [|naive_solver]. destruct (within_byte_cap _ _); cbn; naive_solver.
Qed.

Definition sample_of (srv : srv_id) : PolarDB_ReaderLsnSample :=
  if has_wait (rq_wait rq) || lag_cap_enabled (rq_plan rq)
  then polardb_sample_lsn (rx_live cx srv) (rx_now_us cx) (fresh_ms_for cx rq)
  else mkSample 0 false.

Lemma sample_lag srv :
  lag_cap_enabled (rq_plan rq) = true ->
  sample_of srv = polardb_sample_lsn (rx_live cx srv) (rx_now_us cx) (fresh_ms_for cx rq).
Proof. intros Hl. unfold sample_of. by rewrite Hl, orb_true_r. Qed.

Lemma sample_reached srv :
  sm_fresh (sample_of srv) && has_wait (rq_wait rq) &&
    (wsp_target (rq_wait rq) <=? sm_lsn (sample_of srv)) = true <-> target_reached srv.
Proof.
  unfold sample_of, target_reached. destruct (has_wait (rq_wait rq)); cbn [orb andb].
  - rewrite !andb_true_iff, Z.leb_le. tauto.
  - rewrite andb_false_r. naive_solver.
Qed.

Lemma skip_test_spec e :
  negb (polardb_reader_is_candidate cx e) ||
  negb (negb (rd_require_replica (rq_plan rq)) ||
        polardb_reader_endpoint_is_known_replica cx writers (en_srv e)) ||
  endpoint_excluded cx (rq_exclude_address rq) (rq_exclude_port rq) (en_srv e) = false <->
  polardb_reader_is_candidate cx e = true /\
  (rd_require_replica (rq_plan rq) = true ->
   polardb_reader_endpoint_is_known_replica cx writers (en_srv e) = true) /\
  endpoint_excluded cx (rq_exclude_address rq) (rq_exclude_port rq) (en_srv e) = false.
Proof.
  destruct (polardb_reader_is_candidate cx e), (rd_require_replica _),
    (polardb_reader_endpoint_is_known_replica _ _ _), (endpoint_excluded _ _ _ _); cbn; naive_solver.
Qed.

(** Evaluation gives a node exactly for the eligible servers. *)
Lemma evaluate_spec e st :
  match fst (evaluate_reader cx rq writers e st) with
  | Some n => eligible e /\ node_for e n
  | None => ~ eligible e
  end.
Proof.
  unfold evaluate_reader. cbn zeta. fold (sample_of (en_srv e)).
  destruct (_ || _ || _) eqn:Eskip.
  { cbn. intros [H1 H2 H3 _]. rewrite (proj2 (skip_test_spec e)) in Eskip; done. }
  apply skip_test_spec in Eskip as (H1 & H2 & H3).
  pose proof (lag_allows_spec (sm_lsn (sample_of (en_srv e))) (sm_fresh (sample_of (en_srv e))) st)
    as Hl.
  destruct (lag_allows_reader _ _ _ _) as [[|] st']; cbn [fst] in *.
  - split.
    + constructor; [done..|]. intros Hc. rewrite <- sample_lag by done. by apply Hl.
    + constructor; cbn; [done..|]. apply sample_reached.
  - intros [_ _ _ Hlag]. enough (false = true) by done. apply Hl.
    intros Hc. rewrite sample_lag by done. by apply Hlag.
Qed.

Lemma evaluate_some e n st st' :
  evaluate_reader cx rq writers e st = (Some n, st') -> eligible e /\ node_for e n.
Proof. intros H. pose proof (evaluate_spec e st) as Hs. by rewrite H in Hs. Qed.

Lemma evaluate_none e st st' :
  evaluate_reader cx rq writers e st = (None, st') -> ~ eligible e.
Proof. intros H. pose proof (evaluate_spec e st) as Hs. by rewrite H in Hs. Qed.

End CandidateLemmas.
