(* ===== verification/ReaderSafety.v ===== *)
(** * What an acquired reader guarantees

    Theorems about lib/PgSQL_PolarDB_ReaderPool.cpp, proved with
    postconditions of the acquisition steps, for every connection pool and
    every outcome of the random draws. *)

From S2P Require Import Prelude Policy Startup Session Query Topology.
From S2P Require Import ServerList PoolConn Reader.
From Stdlib Require Import ZArith String List Bool Permutation Lia.
From stdpp Require Import base tactics list gmap strings.

Open Scope Z_scope.
Open Scope polar_scope.

(** ** Runs and postconditions

    [said_full s p] reads off a pool [p] that the pool of [s] once answered
    that it is at its limit.  A pool without such a record has the constant
    true predicate ([unrecorded]); a pool that keeps its answers has a
    meaningful one ([recorded]). *)

Class FullRecord (P : Type) `{ServerPool P} (said_full : srv_id -> P -> Prop) := {
  full_after_get : forall s s' hid key mode max g1 g2 p,
    said_full s p -> said_full s (snd (get_from_selected s' hid key mode max g1 g2 p));
  full_answer : forall s hid key mode max g1 g2 p,
    let '(g, p') := get_from_selected s hid key mode max g1 g2 p in
    gr_conn g = None -> gr_server_saturated g = true -> said_full s p';
  full_after_local : forall s s' g k p, said_full s p -> said_full s (snd (take_local s' g k p));
  full_after_drop : forall s s' c p, said_full s p -> said_full s (drop_connection s' c p)
}.

#[global] Instance unrecorded (P : Type) `{ServerPool P} : FullRecord P (fun _ _ => True).
Proof. constructor; [done| |done|done]. intros. by case_match. Qed.

(** A pool with the list of its answers. *)
#[global] Instance recording (P : Type) `{ServerPool P}
  : ServerPool (P * list (srv_id * PgSQL_PoolGetResult)) := {|
  take_local := fun s g k p =>
    let '(c, p') := take_local s g k (fst p) in (c, (p', snd p));
  get_from_selected := fun s hid key mode max g1 g2 p =>
    let '(g, p') := get_from_selected s hid key mode max g1 g2 (fst p) in
    (g, (p', (s, g) :: snd p));
  drop_connection := fun s c p => (drop_connection s c (fst p), snd p)
|}.

Definition answered_full {P} (s : srv_id) (p : P * list (srv_id * PgSQL_PoolGetResult)) : Prop :=
  exists g, In (s, g) (snd p) /\ gr_conn g = None /\ gr_server_saturated g = true.

#[global] Instance recorded (P : Type) `{ServerPool P}
  : FullRecord (P * list (srv_id * PgSQL_PoolGetResult)) answered_full.
Proof.
  constructor.
  - intros s s' hid key mode max g1 g2 p (g & Hg & Hc). cbn.
    destruct (get_from_selected _ _ _ _ _ _ _ (fst p)). exists g. split; [by right|done].
  - intros s hid key mode max g1 g2 p. cbn.
    destruct (get_from_selected _ _ _ _ _ _ _ (fst p)) as [g p'].
    intros Hc Hs. exists g. split; [by left|done].
  - intros s s' g k p Hp. cbn. by destruct (take_local _ _ _ (fst p)).
  - done.
Qed.

(** A program made of growing steps grows, by the two structural rules. *)
Create HintDb grows.

Ltac grow_with ret bind :=
  repeat first
    [ progress intros | progress cbv zeta | solve [auto with grows nocore]
    | match goal with
      | |- _ (mret _) => apply ret
      | |- _ (_ ≫= _) => apply bind
      | |- _ (match ?x with _ => _ end) => destruct x
      end ].

Section Acquire.
Context (pton4 : string -> option Z) (pton6 : string -> option (list Z)).
Context (cx : reader_context).
Context {P : Type} `{ServerPool P}.

(** [reported_full]: what the record says at the end of the run. *)
Context (said_full : srv_id -> P -> Prop) `{Hrecord : !FullRecord P said_full}.
Context (reported_full : srv_id -> Prop).

(** The record never shrinks. *)
Class Grows {A} (m : St (world P) A) : Prop :=
  grows_run : forall w s, said_full s (wd_pool w) -> said_full s (wd_pool (snd (m w))).

(** Every run of [m], from any state, ends with a value in [Q], provided the
    servers recorded as full by then are among [reported_full]. *)
Definition post {A} (m : St (world P) A) (Q : A -> Prop) : Prop :=
  forall w, (forall s, said_full s (wd_pool (snd (m w))) -> reported_full s) -> Q (fst (m w)).

Lemma post_ret {A} (a : A) (Q : A -> Prop) : Q a -> post (mret a) Q.
Proof. by intros Ha w. Qed.

Lemma post_bind {A B} (m : St (world P) A) (k : A -> St (world P) B)
    (R : A -> Prop) (Q : B -> Prop) :
  (forall a, Grows (k a)) -> post m R -> (forall a, R a -> post (k a) Q) -> post (m ≫= k) Q.
Proof.
  intros Hk Hm Hq w. unfold mbind, St_bind. specialize (Hm w).
  destruct (m w) as [a w'] eqn:E. cbn in *. intros Hf. apply Hq; [|done].
  apply Hm. intros s Hs. apply Hf. by apply Hk.
Qed.

Lemma post_any {A B} (m : St (world P) A) (k : A -> St (world P) B) (Q : B -> Prop) :
  (forall a, post (k a) Q) -> post (m ≫= k) Q.
Proof.
  intros Hk w. unfold mbind, St_bind. destruct (m w) as [a w']. by apply Hk.
Qed.

Lemma post_weaken {A} (m : St (world P) A) (Q R : A -> Prop) :
  post m Q -> (forall a, Q a -> R a) -> post m R.
Proof. intros H1 H2 w Hw. by apply H2, H1. Qed.

Lemma post_and {A} (m : St (world P) A) (Q R : A -> Prop) :
  post m Q -> post m R -> post m (fun a => Q a /\ R a).
Proof. intros H1 H2 w Hw. split; auto. Qed.

(** A step that does not depend on the record. *)
Lemma post_pure {A} (m : St (world P) A) (Q : A -> Prop) : (forall w, Q (fst (m w))) -> post m Q.
Proof. intros Hq w _. apply Hq. Qed.

(** *** The steps grow the record *)

Lemma grows_ret {A} (a : A) : Grows (mret a).
Proof. by intros w s. Qed.

Lemma grows_bind {A B} (m : St (world P) A) (k : A -> St (world P) B) :
  Grows m -> (forall a, Grows (k a)) -> Grows (m ≫= k).
Proof.
  intros Hm Hk w s Hs. unfold mbind, St_bind. specialize (Hm w s Hs).
  destruct (m w) as [a w']. by apply Hk.
Qed.

Lemma grows_get srv hid key mode max g1 g2 :
  Grows (on_pool (get_from_selected srv hid key mode max g1 g2)).
Proof.
  intros w s Hs. unfold on_pool.
  pose proof (full_after_get s srv hid key mode max g1 g2 (wd_pool w) Hs) as Hx.
  by destruct (get_from_selected _ _ _ _ _ _ _ _).
Qed.
#[local] Hint Resolve grows_get : grows.

Lemma grows_local srv g k : Grows (on_pool (take_local srv g k)).
Proof.
  intros w s Hs. unfold on_pool. pose proof (full_after_local s srv g k (wd_pool w) Hs) as Hx.
  by destruct (take_local _ _ _ _).
Qed.
#[local] Hint Resolve grows_local : grows.

Lemma grows_discard srv c : Grows (discard (P := P) srv c).
Proof. intros w s Hs. by apply full_after_drop. Qed.
#[local] Hint Resolve grows_discard : grows.

Lemma grows_rand : Grows (rand_fast (P := P)).
Proof. intros w s Hs. unfold rand_fast. by destruct (wd_rand w). Qed.
#[local] Hint Resolve grows_rand : grows.

Lemma grows_next hid g : Grows (next_sequence (P := P) hid g).
Proof.
  intros w s Hs. unfold next_sequence. by destruct (polardb_next_reader_selection_sequence _ _ _).
Qed.
#[local] Hint Resolve grows_next : grows.

Lemma grows_session {A} (f : pool_session -> A * pool_session) :
  Grows (on_session (P := P) f).
Proof. intros w s Hs. unfold on_session. by destruct (f (wd_session w)). Qed.
#[local] Hint Resolve grows_session : grows.

Ltac grow := grow_with grows_ret grows_bind.
Ltac grow_loop l := induction l; cbn; grow.

Lemma grows_take_local sess req srv n :
  Grows (take_local_usable pton4 pton6 cx (P := P) sess req srv n).
Proof. grow_loop n. Qed.
#[local] Hint Resolve grows_take_local : grows.

Lemma grows_take_shared sess req srv hid mode max n :
  Grows (take_shared_usable pton4 pton6 cx (P := P) sess req srv hid mode max n).
Proof. grow_loop n. Qed.
#[local] Hint Resolve grows_take_shared : grows.

Lemma grows_from_server srv sess req max sb sl :
  Grows (polardb_reader_pool_get_from_server pton4 pton6 cx (P := P) srv sess req max sb sl).
Proof. unfold polardb_reader_pool_get_from_server. grow. Qed.
#[local] Hint Resolve grows_from_server : grows.

Lemma grows_with_alternate n alt sess req :
  Grows (polardb_reader_acquire_with_alternate pton4 pton6 cx (P := P) n alt sess req).
Proof. unfold polardb_reader_acquire_with_alternate. grow. Qed.
#[local] Hint Resolve grows_with_alternate : grows.

Lemma grows_try nodes selected alternate sess req add idx r :
  Grows (try_node pton4 pton6 cx (P := P) nodes selected alternate sess req add idx r).
Proof. unfold try_node. grow. Qed.
#[local] Hint Resolve grows_try : grows.

Lemma grows_walk_pooled try idxs r :
  (forall i r, Grows (try i r)) -> Grows (walk_pooled (P := P) try idxs r).
Proof. intros Ht. revert r. grow_loop idxs. Qed.
#[local] Hint Resolve grows_walk_pooled : grows.

Lemma grows_walk_capacity nodes try idxs r :
  (forall i r, Grows (try i r)) -> Grows (walk_capacity (P := P) nodes try idxs r).
Proof. intros Ht. revert r. grow_loop idxs. Qed.
#[local] Hint Resolve grows_walk_capacity : grows.

Lemma grows_take_conn nodes selected alternate sess req confirm add :
  Grows (polardb_take_conn_from_reader_nodes pton4 pton6 cx (P := P) nodes selected alternate
           sess req confirm add).
Proof. unfold polardb_take_conn_from_reader_nodes. grow. Qed.
#[local] Hint Resolve grows_take_conn : grows.

Lemma grows_pick nodes ws :
  Grows (polardb_reader_pool_pick_weighted_node (P := P) nodes ws).
Proof. unfold polardb_reader_pool_pick_weighted_node. grow. Qed.
#[local] Hint Resolve grows_pick : grows.

Lemma grows_pick_second nodes ws first : Grows (pick_second (P := P) nodes ws first).
Proof. unfold pick_second. grow. Qed.
#[local] Hint Resolve grows_pick_second : grows.

Lemma grows_two_choices nodes ws pre avoid :
  Grows (power_of_two_choices cx (P := P) nodes ws pre avoid).
Proof. unfold power_of_two_choices. grow. Qed.
#[local] Hint Resolve grows_two_choices : grows.

Lemma grows_get_conn nodes ws sess req pre confirm avoid add :
  Grows (polardb_get_conn_from_reader_nodes pton4 pton6 cx (P := P) nodes ws sess req
           pre confirm avoid add).
Proof. unfold polardb_get_conn_from_reader_nodes. grow. Qed.
#[local] Hint Resolve grows_get_conn : grows.

Lemma grows_two_candidates rq writers e0 e1 g :
  Grows (two_reader_candidates cx (P := P) rq writers e0 e1 g).
Proof. unfold two_reader_candidates, polardb_reader_select_weighted_index. grow. Qed.
#[local] Hint Resolve grows_two_candidates : grows.

Lemma grows_general_candidates rq writers servers :
  Grows (general_candidates cx (P := P) rq writers servers).
Proof. unfold general_candidates, full_scan, sample_two. grow. Qed.
#[local] Hint Resolve grows_general_candidates : grows.

Lemma grows_two rq writers snapshot e0 e1 sess req :
  Grows (acquire_two pton4 pton6 cx (P := P) rq writers snapshot e0 e1 sess req).
Proof. unfold acquire_two. grow. Qed.
#[local] Hint Resolve grows_two : grows.

Lemma grows_preferred rq cd nodes snapshot sess req :
  Grows (acquire_preferred pton4 pton6 cx (P := P) rq cd nodes snapshot sess req).
Proof. unfold acquire_preferred. grow. Qed.
#[local] Hint Resolve grows_preferred : grows.

Lemma grows_fallback rq cd nodes snapshot sess req r :
  Grows (acquire_fallback pton4 pton6 cx (P := P) rq cd nodes snapshot sess req r).
Proof. unfold acquire_fallback. grow. Qed.
#[local] Hint Resolve grows_fallback : grows.

Lemma grows_general rq writers snapshot servers sess req :
  Grows (acquire_general pton4 pton6 cx (P := P) rq writers snapshot servers sess req).
Proof. unfold acquire_general. grow. Qed.
#[local] Hint Resolve grows_general : grows.

Lemma grows_full_scan rq writers servers seen st :
  Grows (full_scan cx (P := P) rq writers servers seen st).
Proof. unfold full_scan. grow. Qed.
#[local] Hint Resolve grows_full_scan : grows.

Lemma grows_create selected hid sess req g n :
  Grows (create_on_selected pton4 pton6 cx (P := P) selected hid sess req g n).
Proof. grow_loop n. Qed.
#[local] Hint Resolve grows_create : grows.

Lemma grows_try_acquire rq :
  Grows (polardb_try_acquire_reader_connection pton4 pton6 cx (P := P) rq).
Proof. unfold polardb_try_acquire_reader_connection. grow. Qed.
#[local] Hint Resolve grows_try_acquire : grows.

(** ** Taking a connection from one server *)

(** A connection that went through the classification of the pool. *)
Definition fits (sess : pool_session) (req : PolarDB_PoolRequest) (c : PgSQL_Connection) : Prop :=
  exists c0, usable pton4 pton6 cx sess req c0 = (true, c) \/
             acceptable pton4 pton6 cx sess req c0 = (true, c).

Definition get_ok (srv : srv_id) (sess : pool_session) (req : PolarDB_PoolRequest)
    (g : PgSQL_PoolGetResult) : Prop :=
  match gr_conn g with
  | Some c => fits sess req c
  | None => gr_server_saturated g = true -> reported_full srv
  end.

Lemma get_selected_post srv hid key mode max g1 g2 :
  post (on_pool (get_from_selected srv hid key mode max g1 g2))
    (fun g => gr_conn g = None -> gr_server_saturated g = true -> reported_full srv).
Proof.
  intros w. unfold on_pool. pose proof (full_answer srv hid key mode max g1 g2 (wd_pool w)) as Hx.
  destruct (get_from_selected _ _ _ _ _ _ _ _). cbn. auto.
Qed.

Lemma take_local_usable_post sess req srv attempts :
  post (take_local_usable pton4 pton6 cx (P := P) sess req srv attempts)
    (fun o => forall c, o = Some c -> fits sess req c).
Proof.
  induction attempts as [|n IH]; cbn [take_local_usable]; [by apply post_ret|].
  apply post_any. intros [c0|]; [|by apply post_ret].
  destruct (usable pton4 pton6 cx sess req c0) as [[|] c1] eqn:Eu.
  - apply post_ret. intros c [= <-]. exists c0. by left.
  - by apply post_any.
Qed.

Lemma take_shared_usable_post sess req srv hid mode max attempts :
  post (take_shared_usable pton4 pton6 cx (P := P) sess req srv hid mode max attempts)
    (get_ok srv sess req).
Proof.
  induction attempts as [|n IH]; cbn [take_shared_usable]; [by apply post_ret|].
  apply post_bind with (R := fun g => gr_conn g = None -> gr_server_saturated g = true ->
                                      reported_full srv).
  { grow. }
  { apply get_selected_post. }
  intros g Hg. destruct (gr_conn g) as [c0|] eqn:Ec.
  - destruct (if gr_source g == Source_EXACT_MATCH then _ else _) as [ok c1] eqn:Eo.
    destruct ok; [|by apply post_any].
    apply post_ret. unfold get_ok. cbn. exists c0. case_if_in Eo; [by left|by right].
  - case_if; apply post_ret; unfold get_ok; cbn; [done|auto].
Qed.

Lemma get_from_server_post srv sess req max sb sl :
  post (polardb_reader_pool_get_from_server pton4 pton6 cx (P := P) srv sess req max sb sl)
    (get_ok srv sess req).
Proof.
  unfold polardb_reader_pool_get_from_server.
  destruct (rx_home cx srv) as [hid|]; [|by apply post_ret].
  case_if; [by apply post_ret|].
  apply post_bind with (R := fun o => forall c, o = Some c -> fits sess req c).
  { grow. }
  { case_if; [apply take_local_usable_post|by apply post_ret]. }
  intros [c|] Hc; [apply post_ret; by apply Hc|apply take_shared_usable_post].
Qed.

Lemma acquire_with_alternate_post n alt sess req :
  post (polardb_reader_acquire_with_alternate pton4 pton6 cx (P := P) n alt sess req)
    (fun '(g, s) => get_ok s sess req g /\
       (s = nd_srv n \/ is_Some (gr_conn g) /\ exists a, alt = Some a /\ s = nd_srv a)).
Proof.
  unfold polardb_reader_acquire_with_alternate.
  assert (Hb : forall sb sl, post
    (r ← polardb_reader_pool_get_from_server pton4 pton6 cx (P := P) (nd_srv n) sess req
           (nd_max_connections n) sb sl; mret (r, nd_srv n))
    (fun '(g, s) => get_ok s sess req g /\
       (s = nd_srv n \/ is_Some (gr_conn g) /\ exists a, alt = Some a /\ s = nd_srv a))).
  { intros sb sl. eapply post_bind; [grow|apply get_from_server_post|]. intros g Hg.
    apply post_ret. auto. }
  destruct alt as [a|]; [|apply Hb]. case_if; [apply Hb|].
  eapply post_bind; [grow|apply get_from_server_post|]. intros g Hg.
  case_if; [apply post_ret; auto|].
  eapply post_bind; [grow|apply get_from_server_post|]. intros ga Hga.
  destruct (gr_conn ga) eqn:Ea; [|apply Hb].
  apply post_ret. split; [done|]. right. split; [by rewrite Ea|by exists a].
Qed.

(** *** One node of a candidate set *)

Lemma lookup_In {A} (l : list A) i x : l !! i = Some x -> In x l.
Proof. intros Hl. by apply list_elem_of_In, (list_elem_of_lookup_2 _ i). Qed.

Definition from_nodes (nodes : list PolarDB_ReaderNode) (s : srv_id) : Prop :=
  exists n, In n nodes /\ nd_srv n = s.

Record try_ok (nodes : list PolarDB_ReaderNode) (idx : nat) (sess : pool_session)
    (req : PolarDB_PoolRequest) (before : PolarDB_ReaderResult)
    (ok : bool) (after : PolarDB_ReaderResult) : Prop := {
  to_bypass : rr_wait_bypass_allowed after = rr_wait_bypass_allowed before;
  to_served : ok = true ->
    rr_status after = ACQUIRED /\
    (exists c, rr_conn after = Some c /\ fits sess req c) /\
    (exists s, rr_srv after = Some s /\ from_nodes nodes s);
  to_missed : ok = false ->
    rr_status after = rr_status before /\ rr_conn after = rr_conn before /\
    rr_srv after = rr_srv before /\
    (pr_only_pooled req = true -> rr_server_saturated after = rr_server_saturated before) /\
    (pr_only_pooled req = false -> rr_server_saturated after = true ->
     exists n, nodes !! idx = Some n /\ reported_full (nd_srv n))
}.

Lemma try_node_post nodes selected alternate sess req add idx result :
  (idx < length nodes)%nat ->
  post (try_node pton4 pton6 cx (P := P) nodes selected alternate sess req add idx result)
    (fun '(ok, r) => try_ok nodes idx sess req result ok r).
Proof.
  intros Hidx. unfold try_node.
  destruct (nodes !! idx) as [n|] eqn:En; [|apply lookup_ge_None in En; lia].
  assert (Hn : In n nodes) by (by eapply lookup_In).
  eapply post_bind; [grow|apply acquire_with_alternate_post|]. intros [g s] [Hg Hs].
  set (r1 := if pr_only_pooled req && _ && _ && _ then _ else result).
  assert (Hr1 : rr_wait_bypass_allowed r1 = rr_wait_bypass_allowed result /\
    rr_status r1 = rr_status result /\ rr_conn r1 = rr_conn result /\
    rr_srv r1 = rr_srv result /\ rr_server_saturated r1 = rr_server_saturated result).
  { subst r1. case_if; by destruct result. }
  clearbody r1. destruct Hr1 as (H1 & H2 & H3 & H4 & H5).
  destruct (gr_conn g) as [c|] eqn:Ec; apply post_ret; unfold get_ok in Hg; rewrite Ec in Hg.
  - constructor; [by destruct r1; cbn in *|intros _|done].
    split; [by destruct r1|]. split; [exists c; by destruct r1|].
    exists s. split; [by destruct r1|].
    destruct Hs as [->|(_ & a & Ha & ->)]; [by exists n|].
    exists a. split; [|done]. destruct alternate as [i|]; [|done].
    case_if_in Ha; [done|]. by eapply lookup_In.
  - assert (s = nd_srv n) as -> by (destruct Hs as [|[[? ?] _]]; done).
    destruct (pr_only_pooled req) eqn:Ep; cbn [negb].
    + constructor; [done|done|]. intros _. by rewrite H2, H3, H4, H5, Ep.
    + constructor; [by destruct r1|done|]. intros _. destruct r1; cbn in *. subst.
      split; [done|]. split; [done|]. split; [done|]. split; [by rewrite Ep|].
      intros _ Hsat. exists n. split; [done|]. by apply Hg.
Qed.

(** *** The walks over the remaining nodes *)

Section Nodes.
Context (nodes : list PolarDB_ReaderNode) (sess : pool_session) (req : PolarDB_PoolRequest).

(** A result that names a server of the set but has no connection yet. *)
Record pending (r : PolarDB_ReaderResult) : Prop := {
  pe_conn : rr_conn r = None;
  pe_status : rr_status r = READER_UNAVAILABLE;
  pe_bypass : rr_wait_bypass_allowed r = false;
  pe_srv : exists s, rr_srv r = Some s /\ from_nodes nodes s;
  pe_pooled : pr_only_pooled req = true -> rr_server_saturated r = false
}.

Record served (r : PolarDB_ReaderResult) : Prop := {
  se_conn : exists c, rr_conn r = Some c /\ fits sess req c;
  se_status : rr_status r = ACQUIRED;
  se_bypass : rr_wait_bypass_allowed r = false;
  se_srv : exists s, rr_srv r = Some s /\ from_nodes nodes s
}.

Lemma pending_not_acquired r : pending r -> acquired r = false.
Proof. intros [H1 H2 _ _ _]. unfold acquired. by rewrite H2. Qed.

Lemma served_acquired r : served r -> acquired r = true.
Proof.
  intros [(c & Hc & _) H2 _ _]. unfold acquired. rewrite H2, Hc.
  by rewrite !bool_decide_true by eauto.
Qed.

Lemma try_from_pending idx r ok r' :
  pending r -> try_ok nodes idx sess req r ok r' ->
  if ok then served r'
  else pending r' /\
       (pr_only_pooled req = false -> rr_server_saturated r' = true ->
        exists n, nodes !! idx = Some n /\ reported_full (nd_srv n)).
Proof.
  intros [P1 P2 P3 P4 P5] [H1 H2 H3]. destruct ok.
  - destruct (H2 eq_refl) as (Hs & Hc & Hv). constructor; [done|done|congruence|done].
  - destruct (H3 eq_refl) as (Hs & Hc & Hv & Hp & Hf). split; [|done].
    constructor; [congruence..| |]; [by rewrite Hv|]. intros Ho. rewrite Hp; auto.
Qed.

Context (selected : nat) (alternate : option nat) (add : bool).

Notation try := (try_node pton4 pton6 cx (P := P) nodes selected alternate sess req add).

Lemma walk_pooled_post idxs r :
  pending r -> (forall i, In i idxs -> (i < length nodes)%nat) ->
  post (walk_pooled try idxs r) (fun r' => served r' \/ pending r').
Proof.
  revert r. induction idxs as [|i idxs IH]; intros r Hr Hi; cbn [walk_pooled].
  { apply post_ret. by right. }
  eapply post_bind; [grow|apply try_node_post, Hi; by left|]. intros [ok r'] Ht.
  apply (try_from_pending i r ok r' Hr) in Ht. destruct ok.
  - apply post_ret. by left.
  - apply IH; [by destruct Ht|]. intros j Hj. apply Hi. by right.
Qed.

Lemma walk_capacity_post idxs r :
  pr_only_pooled req = false -> pending r ->
  (forall i, In i idxs -> (i < length nodes)%nat) ->
  post (walk_capacity nodes try idxs r)
    (fun '(r', all) =>
       served r' \/
       pending r' /\
       (all = false -> rr_server_saturated r' = false) /\
       (all = true -> forall i, In i idxs ->
          exists n, nodes !! i = Some n /\ reported_full (nd_srv n))).
Proof.
  intros Ho. revert r. induction idxs as [|i idxs IH]; intros r Hr Hi; cbn [walk_capacity].
  { apply post_ret. right. by split. }
  eapply post_bind; [grow|apply try_node_post, Hi; by left|]. intros [ok r'] Ht.
  apply (try_from_pending i r ok r' Hr) in Ht. destruct ok; [apply post_ret; by left|].
  destruct Ht as [Hr' Hf]. destruct (rr_server_saturated r') eqn:Es; cbn [negb].
  - eapply post_weaken; [apply IH; [done|intros j Hj; apply Hi; by right]|].
    intros [r2 all] [Hs|(Hp & H1 & H2)]; [by left|]. right. split; [done|]. split; [done|].
    intros Ha j [<-|Hj]; [by apply Hf|by apply H2].
  - apply post_ret. right. assert (Hi' : (i < length nodes)%nat) by (apply Hi; by left).
    apply lookup_lt_is_Some in Hi' as [n Hn].
    split; [|split; [by destruct r'|done]]. destruct Hr' as [P1 P2 P3 P4 P5].
    rewrite Hn. constructor; [by destruct r'..| |by destruct r'].
    exists (nd_srv n). split; [by destruct r'|]. exists n. split; [by eapply lookup_In|done].
Qed.

End Nodes.

Lemma round_robin_bound selected n i :
  (selected < n)%nat -> In i (round_robin_after selected n) -> (i < n)%nat.
Proof.
  intros Hs Hi. unfold round_robin_after in Hi. apply in_map_iff in Hi as (k & <- & _).
  apply Nat.mod_upper_bound. lia.
Qed.

Lemma round_robin_covers selected n i :
  (selected < n)%nat -> (i < n)%nat -> i = selected \/ In i (round_robin_after selected n).
Proof.
  intros Hs Hi. destruct (Nat.eq_dec i selected) as [|Hne]; [by left|right].
  unfold round_robin_after. apply in_map_iff.
  destruct (Nat.lt_ge_cases selected i).
  - exists (i - selected)%nat. rewrite in_seq. split; [|lia].
    replace (selected + (i - selected))%nat with i by lia. by apply Nat.mod_small.
  - exists (n + i - selected)%nat. rewrite in_seq. split; [|lia].
    replace (selected + (n + i - selected))%nat with (i + 1 * n)%nat by lia.
    rewrite Nat.Div0.mod_add. by apply Nat.mod_small.
Qed.

(** *** A candidate set *)

(** What asking a set of nodes can end in. *)
Inductive take_outcome (nodes : list PolarDB_ReaderNode) (sess : pool_session)
    (req : PolarDB_PoolRequest) (confirm : bool) (r : PolarDB_ReaderResult) : Prop :=
| take_empty : r = empty_result -> take_outcome nodes sess req confirm r
| take_served : served nodes sess req r -> take_outcome nodes sess req confirm r
| take_pending : pending nodes req r ->
    (confirm = true -> rr_server_saturated r = false) -> take_outcome nodes sess req confirm r
| take_busy r0 : pending nodes req r0 -> r = r0 <| rr_status := READER_GROUP_BUSY |> ->
    confirm = true -> (forall n, In n nodes -> reported_full (nd_srv n)) ->
    take_outcome nodes sess req confirm r.

Lemma take_conn_post nodes selected alternate sess req confirm add :
  post (polardb_take_conn_from_reader_nodes pton4 pton6 cx (P := P) nodes selected alternate
          sess req confirm add)
    (fun r => take_outcome nodes sess req confirm r /\
       (r = empty_result -> forall i, selected = Some i -> (length nodes <= i)%nat)).
Proof.
  unfold polardb_take_conn_from_reader_nodes.
  destruct selected as [i|]; [|apply post_ret; split; [by constructor|done]].
  destruct (nodes !! i) as [n|] eqn:En.
  2: { apply post_ret. split; [by constructor|]. intros _ j [= <-]. by apply lookup_ge_None. }
  assert (Hi : (i < length nodes)%nat) by (by eapply lookup_lt_Some).
  set (r0 := empty_result <| rr_srv := Some (nd_srv n) |>).
  assert (Hr0 : pending nodes req r0).
  { constructor; [done..| |done]. exists (nd_srv n). split; [done|]. exists n.
    split; [by eapply lookup_In|done]. }
  assert (Hne : forall r, served nodes sess req r -> r <> empty_result)
    by (by intros r [_ ? _ _] ->).
  assert (Hne' : forall r, pending nodes req r -> r <> empty_result)
    by (by intros r [_ _ _ (? & ? & _) _] ->).
  set (alt := match alternate with Some a => _ | None => None end).
  eapply post_bind; [grow|by apply try_node_post|]. intros [ok r] Ht.
  apply (try_from_pending nodes sess req i r0 ok r Hr0) in Ht. destruct ok.
  { rewrite (served_acquired nodes sess req r Ht). cbn. apply post_ret.
    split; [by apply take_served|]. by intros ?%Hne. }
  destruct Ht as [Hr Hf]. rewrite (pending_not_acquired nodes req r Hr). cbn [negb andb].
  pose proof (fun j => round_robin_bound i (length nodes) j Hi) as Hbound.
  destruct (pr_only_pooled req) eqn:Eo.
  { eapply post_weaken; [by apply walk_pooled_post|]. intros r' [Hs|Hp].
    - split; [by apply take_served|]. by intros ?%Hne.
    - split; [apply take_pending; [done|]|by intros ?%Hne']. intros _. by apply Hp. }
  case_if.
  - bool_to_prop. eapply post_bind; [grow|by apply walk_capacity_post|].
    intros [r' all] [Hs|(Hp & Hone & Hall)]; apply post_ret.
    + rewrite (served_acquired nodes sess req r' Hs). cbn.
      split; [by apply take_served|]. by intros ?%Hne.
    + rewrite (pending_not_acquired nodes req r' Hp). destruct all; cbn.
      * split; [|by intros Hx; destruct r'].
        eapply take_busy; [done|done|done|]. intros m Hm.
        apply list_elem_of_In, list_elem_of_lookup in Hm as [j Hj].
        destruct (round_robin_covers i (length nodes) j) as [->|Hin];
          [done|by eapply lookup_lt_Some|..].
        -- destruct Hf as (n' & Hn' & Hfull); [done|done|]. congruence.
        -- destruct (Hall eq_refl j Hin) as (n' & Hn' & Hfull). congruence.
      * split; [apply take_pending; [done|auto]|by intros ?%Hne'].
  - apply post_ret. split; [|by intros ?%Hne']. apply take_pending; [done|].
    intros ->. by destruct (rr_server_saturated r).
Qed.

(** *** Two choices *)

Lemma same_servers_from nodes nodes' s :
  map nd_srv nodes' = map nd_srv nodes -> from_nodes nodes' s -> from_nodes nodes s.
Proof.
  intros Hm (n & Hn & <-). apply (in_map nd_srv) in Hn. rewrite Hm in Hn.
  apply in_map_iff in Hn as (n' & ? & ?). by exists n'.
Qed.

Lemma take_outcome_same nodes nodes' sess req confirm r :
  map nd_srv nodes' = map nd_srv nodes ->
  take_outcome nodes' sess req confirm r -> take_outcome nodes sess req confirm r.
Proof.
  intros Hm Ht.
  assert (Hs : forall x, (exists s, rr_srv x = Some s /\ from_nodes nodes' s) ->
                         (exists s, rr_srv x = Some s /\ from_nodes nodes s)).
  { intros x (s & Hs & Hf). exists s. split; [done|]. by eapply same_servers_from. }
  destruct Ht as [?|[? ? ? ?]|[? ? ? ? ?] ?|r0 [? ? ? ? ?] ? ? Hf].
  - by apply take_empty.
  - apply take_served. constructor; auto.
  - apply take_pending; [constructor; auto|done].
  - eapply (take_busy _ _ _ _ _ r0); [constructor; auto|done|done|].
    intros n Hn. destruct (same_servers_from nodes' nodes (nd_srv n)) as (n' & Hn' & <-);
      [done|by exists n|]. by apply Hf.
Qed.

Lemma load_active_servers nodes i : map nd_srv (load_active cx nodes i) = map nd_srv nodes.
Proof.
  unfold load_active. destruct (nodes !! i) as [n|] eqn:En; [|done].
  change (nd_srv <$> <[i := n <| nd_active_count := rs_used (rx_live cx (nd_srv n)) |>]> nodes
          = nd_srv <$> nodes).
  rewrite list_fmap_insert. apply list_insert_id.
  by rewrite list_lookup_fmap, En; destruct n.
Qed.

Lemma weighted_scan_bound k s j last nodes :
  (j + length nodes <= S last)%nat -> (weighted_scan k s j last nodes <= last)%nat.
Proof.
  revert s j. induction nodes as [|n nodes IH]; intros s j Hb; cbn in *; [lia|].
  case_if; [lia|]. apply IH. lia.
Qed.

Lemma pick_weighted_post nodes weight_sum :
  post (polardb_reader_pool_pick_weighted_node (P := P) nodes weight_sum)
    (fun o => nodes <> [] -> weight_sum <> 0 -> exists i, o = Some i /\ (i < length nodes)%nat).
Proof.
  unfold polardb_reader_pool_pick_weighted_node. case_if.
  { apply post_ret. intros Hn Hw. apply orb_true_iff in E as [E|E].
    - apply Nat.eqb_eq, length_zero_iff_nil in E. done.
    - by apply Z.eqb_eq in E. }
  do 2 (apply post_any; intros ?). apply post_ret. intros Hn Hw. eexists. split; [done|].
  assert (0 < length nodes)%nat by (destruct nodes; cbn; [done|lia]).
  match goal with |- (weighted_scan ?k ?s ?j ?l ?ns < _)%nat =>
    pose proof (weighted_scan_bound k s j l ns) end. lia.
Qed.

Lemma pick_second_post nodes weight_sum first :
  post (pick_second (P := P) nodes weight_sum first)
    (fun o => nodes <> [] -> weight_sum <> 0 -> exists i, o = Some i /\ (i < length nodes)%nat).
Proof.
  unfold pick_second. eapply post_bind; [grow|apply pick_weighted_post|]. intros o Ho.
  case_if; [|by apply post_ret]. apply post_any. intros r. apply post_ret. intros Hn _.
  eexists. split; [done|]. apply Nat.mod_upper_bound. by destruct nodes.
Qed.

Lemma power_of_two_post nodes weight_sum pre avoid :
  post (power_of_two_choices cx (P := P) nodes weight_sum pre avoid)
    (fun '(nodes', sel, _) => map nd_srv nodes' = map nd_srv nodes /\
       (nodes <> [] -> weight_sum <> 0 -> exists i, sel = Some i /\ (i < length nodes')%nat)).
Proof.
  unfold power_of_two_choices.
  assert (Hlen : forall nodes' : list PolarDB_ReaderNode,
    map nd_srv nodes' = map nd_srv nodes -> length nodes' = length nodes).
  { intros nodes' Hm. apply (f_equal length) in Hm. by rewrite !length_map in Hm. }
  apply post_bind with (R := fun o => nodes <> [] -> weight_sum <> 0 ->
    exists i, o = Some i /\ (i < length nodes)%nat).
  { grow. }
  { case_if; [apply pick_weighted_post|]. apply post_ret. intros Hn _. exists 0%nat.
    split; [done|]. destruct nodes; cbn; [done|lia]. }
  intros [f|] Hf; [|by apply post_ret]. case_if; [|by apply post_ret].
  apply post_bind with (R := fun o => nodes <> [] -> weight_sum <> 0 ->
    exists i, o = Some i /\ (i < length nodes)%nat).
  { grow. }
  { case_if; [|apply pick_second_post]. apply post_ret. intros _ _. exists 1%nat.
    apply andb_true_iff in E0 as [_ E0]. apply Nat.eqb_eq in E0. split; [done|lia]. }
  intros [s|] Hs; [|by apply post_ret]. apply post_any. intros take2. apply post_ret.
  rewrite !load_active_servers. split; [done|]. intros Hn Hw.
  rewrite (Hlen (load_active _ _ _)) by (by rewrite !load_active_servers).
  destruct (Hf Hn Hw) as (i & [= <-] & Hi), (Hs Hn Hw) as (j & [= <-] & Hj).
  destruct take2; eexists; (split; [done|lia]).
Qed.

Lemma get_conn_post nodes weight_sum sess req pre confirm avoid add :
  post (polardb_get_conn_from_reader_nodes pton4 pton6 cx (P := P) nodes weight_sum sess req
          pre confirm avoid add)
    (fun r => take_outcome nodes sess req confirm r /\
       (r = empty_result -> nodes = [] \/ weight_sum = 0)).
Proof.
  unfold polardb_get_conn_from_reader_nodes. case_if.
  { apply post_ret. split; [by constructor|]. intros _. apply orb_true_iff in E as [E|E].
    - left. by apply length_zero_iff_nil, Nat.eqb_eq.
    - right. by apply Z.eqb_eq. }
  eapply post_bind; [grow|apply power_of_two_post|]. intros [[nodes' sel] alt] [Hm Hsel].
  eapply post_weaken; [apply take_conn_post|]. intros r [Ht He].
  split; [by eapply take_outcome_same|]. intros Hr. specialize (He Hr).
  apply orb_false_iff in E as [E1 E2]. apply Nat.eqb_neq in E1. apply Z.eqb_neq in E2.
  destruct Hsel as (i & -> & Hi); [by destruct nodes|done|]. specialize (He i eq_refl). lia.
Qed.

(** ** The in-place partition *)

(** After [n] steps: a permutation whose first [k] nodes reached the target and
    whose nodes up to [n] beyond them did not. *)
Record partition_inv (nodes : list PolarDB_ReaderNode) (n : nat)
    (acc : list PolarDB_ReaderNode * nat) : Prop := {
  pi_perm : fst acc ≡ₚ nodes;
  pi_le : (snd acc <= n)%nat;
  pi_ready : forall i m, (i < snd acc)%nat -> fst acc !! i = Some m -> nd_target_reached m = true;
  pi_rest : forall i m, (snd acc <= i < n)%nat -> fst acc !! i = Some m ->
    nd_target_reached m = false
}.

Lemma partition_step_inv nodes n acc :
  (n < length nodes)%nat -> partition_inv nodes n acc ->
  partition_inv nodes (S n) (partition_step acc n).
Proof.
  intros Hn [Hp Hle Hr Hs]. unfold partition_step. destruct acc as [l k]. cbn [fst snd] in *.
  assert (Hlen : length l = length nodes) by (by apply Permutation_length).
  destruct (l !! n) as [m|] eqn:Em; [|apply lookup_ge_None in Em; lia].
  destruct (nd_target_reached m) eqn:Ereach.
  - destruct (lookup_lt_is_Some_2 l k) as [a Ha]; [lia|].
    unfold swap_nodes. rewrite Ha, Em. split; cbn [fst snd].
    + by rewrite Permutation_insert_swap.
    + lia.
    + intros i x Hi. destruct (decide (i = n)) as [->|Hin].
      * rewrite list_lookup_insert_eq by (rewrite length_insert; lia).
        assert (n = k) as -> by lia. naive_solver.
      * rewrite list_lookup_insert_ne by done. destruct (decide (i = k)) as [->|Hik].
        -- rewrite list_lookup_insert_eq by lia. naive_solver.
        -- rewrite list_lookup_insert_ne by done. apply Hr. lia.
    + intros i x Hi. destruct (decide (i = n)) as [->|Hin].
      * rewrite list_lookup_insert_eq by (rewrite length_insert; lia). intros [= <-].
        apply (Hs k); [lia|done].
      * rewrite !list_lookup_insert_ne by lia. apply Hs. lia.
  - split; cbn [fst snd]; [done|lia|done|]. intros i x Hi Hx.
    destruct (decide (i = n)) as [->|]; [congruence|]. apply (Hs i); [lia|done].
Qed.

Lemma partition_loop nodes n :
  (n <= length nodes)%nat ->
  partition_inv nodes n (fold_left partition_step (seq 0 n) (nodes, 0%nat)).
Proof.
  induction n as [|n IH]; intros Hn; [by split; cbn; [|lia|lia|lia]|].
  rewrite seq_S, fold_left_app. apply partition_step_inv; [lia|]. apply IH. lia.
Qed.

Lemma filter_none {A} (f : A -> bool) l :
  (forall i x, l !! i = Some x -> f x = false) -> List.filter f l = [].
Proof.
  induction l as [|x l IH]; intros Hf; [done|]. cbn. rewrite (Hf 0%nat x eq_refl).
  apply IH. intros i y Hy. by apply (Hf (S i)).
Qed.

Lemma filter_every {A} (f : A -> bool) l :
  (forall i x, l !! i = Some x -> f x = true) -> List.filter f l = l.
Proof.
  induction l as [|x l IH]; intros Hf; [done|]. cbn. rewrite (Hf 0%nat x eq_refl).
  f_equal. apply IH. intros i y Hy. by apply (Hf (S i)).
Qed.

Lemma reached_count_perm l l' : l ≡ₚ l' -> reached_count l = reached_count l'.
Proof.
  unfold reached_count. induction 1; cbn; [done| | |congruence].
  - destruct (nd_target_reached x); cbn; congruence.
  - by destruct (nd_target_reached x), (nd_target_reached y).
Qed.

Lemma partition_ready_spec nodes :
  partition_ready nodes ≡ₚ nodes /\
  (forall m, In m (take (reached_count nodes) (partition_ready nodes)) ->
     nd_target_reached m = true).
Proof.
  unfold partition_ready.
  pose proof (partition_loop nodes (length nodes) (le_n _)) as [Hp Hle Hr Hs].
  set (acc := fold_left _ _ _) in *. destruct acc as [l k]. cbn [fst snd] in *.
  split; [done|].
  assert (Hk : reached_count nodes = k).
  { rewrite <- (reached_count_perm _ _ Hp). unfold reached_count.
    pose proof (Permutation_length Hp) as Hlen.
    rewrite <- (take_drop k l), List.filter_app, length_app.
    rewrite filter_every, filter_none.
    - rewrite length_take. cbn. lia.
    - intros i x Hx. rewrite lookup_drop in Hx. apply (Hs (k + i)%nat); [|done].
      apply lookup_lt_Some in Hx. lia.
    - intros i x Hx. apply lookup_take_Some in Hx as [Hx Hi]. by apply (Hr i). }
  rewrite Hk. intros m Hm. apply list_elem_of_In, list_elem_of_lookup in Hm as [i Hi].
  apply lookup_take_Some in Hi as [Hi Hlt]. by apply (Hr i).
Qed.

(** ** The candidate sets *)

Section Request.
Context (rq : reader_request) (writers : option (list PolarDB_ServerSnapshotEntry)).
Context (servers : list PolarDB_ServerSnapshotEntry).

(** Every node stands for an eligible listed server. *)
Definition sound_nodes (nodes : list PolarDB_ReaderNode) : Prop :=
  forall n, In n nodes -> exists e, In e servers /\ eligible cx rq writers e /\ node_for cx rq e n.

(** Every eligible server among [es] has a node. *)
Definition complete_for (es : list PolarDB_ServerSnapshotEntry)
    (nodes : list PolarDB_ReaderNode) : Prop :=
  forall e, In e es -> eligible cx rq writers e -> exists n, In n nodes /\ node_for cx rq e n.

(** An evaluation that was made. *)
Definition evaluated (e : PolarDB_ServerSnapshotEntry) (o : option PolarDB_ReaderNode) : Prop :=
  match o with
  | Some n => eligible cx rq writers e /\ node_for cx rq e n
  | None => ~ eligible cx rq writers e
  end.

Lemma evaluate_evaluated e st : evaluated e (fst (evaluate cx rq writers e st)).
Proof.
  pose proof (evaluate_spec cx rq writers e st) as He. unfold evaluated, evaluate.
  by destruct (fst _).
Qed.

Definition seen_ok (seen : list (nat * option PolarDB_ReaderNode)) : Prop :=
  forall i o, In (i, o) seen -> exists e, servers !! i = Some e /\ evaluated e o.

Lemma scan_servers_spec seen idxs st :
  seen_ok seen ->
  let nodes := fst (scan_servers cx rq writers servers seen idxs st) in
  sound_nodes nodes /\
  (forall i e, In i idxs -> servers !! i = Some e -> eligible cx rq writers e ->
     exists n, In n nodes /\ node_for cx rq e n).
Proof.
  intros Hseen. revert st. induction idxs as [|i idxs IH]; intros st; cbn [scan_servers].
  { cbn. split; [by intros n []|by intros i e []]. }
  set (ev := match List.find _ _ with Some (_, n) => _ | None => _ end).
  assert (Hev : match servers !! i with
                | Some e => evaluated e (fst ev)
                | None => fst ev = None
                end).
  { subst ev. destruct (List.find _ seen) as [[j o]|] eqn:Ef.
    - apply find_some in Ef as [Hin Hj]. cbn in Hj. apply Nat.eqb_eq in Hj as ->.
      destruct (Hseen i o Hin) as (e & -> & He). done.
    - destruct (servers !! i) as [e|]; [apply evaluate_evaluated|done]. }
  clearbody ev. destruct ev as [o st']. cbn [fst] in Hev.
  specialize (IH st'). destruct (scan_servers _ _ _ _ _ _ st') as [rest st'']. cbn [fst] in *.
  destruct IH as [IH1 IH2]. split.
  - intros n [Hn|Hn]%in_app_iff; [|by apply IH1]. destruct o as [n0|]; [|done].
    destruct Hn as [->|[]]. destruct (servers !! i) as [e|] eqn:Ee; [|done].
    exists e. split; [by eapply lookup_In|done].
  - intros j e [<-|Hj] Hje Hel.
    + rewrite Hje in Hev. destruct o as [n|]; [|done]. exists n. split; [by left|]. by destruct Hev.
    + destruct (IH2 j e Hj Hje Hel) as (n & Hn & Hf). exists n.
      split; [apply in_app_iff; by right|done].
Qed.

Lemma scan_servers_length seen idxs st :
  (length (fst (scan_servers cx rq writers servers seen idxs st)) <= length idxs)%nat.
Proof.
  revert st. induction idxs as [|i idxs IH]; intros st; cbn [scan_servers]; [done|].
  destruct (match List.find _ _ with Some (_, n) => _ | None => _ end) as [o st'].
  specialize (IH st'). destruct (scan_servers _ _ _ _ _ _ st'). cbn [fst] in *.
  rewrite length_app. destruct o; cbn; lia.
Qed.

(** *** Weights *)

(** Weights of the configured range, for a list that fits the counter. *)
Definition weights_sane : Prop :=
  (forall e, In e servers -> en_weight e < U32_MODULUS) /\
  Z.of_nat (length servers) < U32_MODULUS.

Lemma candidate_weight e : eligible cx rq writers e -> 0 < en_weight e.
Proof.
  intros [Hc _ _ _]. unfold polardb_reader_is_candidate in Hc. by bool_to_prop.
Qed.

Lemma sound_weights nodes :
  weights_sane -> sound_nodes nodes -> forall n, In n nodes -> 0 < nd_weight n < U32_MODULUS.
Proof.
  intros [Hw _] Hs n Hn. destruct (Hs n Hn) as (e & He & Hel & [_ Hwt _]).
  pose proof (candidate_weight e Hel). rewrite Hwt, wrap32_id; [split; auto|].
  unfold is_u32. split; [lia|auto].
Qed.

Lemma weight_of_positive nodes acc :
  (forall n, In n nodes -> 0 < nd_weight n < U32_MODULUS) ->
  0 <= acc -> acc + Z.of_nat (length nodes) * U32_MODULUS < U64_MODULUS ->
  acc + Z.of_nat (length nodes) <= fold_left add_weight nodes acc <=
    acc + Z.of_nat (length nodes) * U32_MODULUS.
Proof.
  revert acc. induction nodes as [|n nodes IH]; intros acc Hw Ha Hb; [cbn; lia|].
  cbn [fold_left length] in *. pose proof (Hw n (or_introl eq_refl)).
  rewrite Nat2Z.inj_succ in *.
  assert (add_weight acc n = acc + nd_weight n) as ->.
  { apply wrap64_id. unfold is_u64, U64_MODULUS, U32_MODULUS in *. lia. }
  assert (Hw' : forall m, In m nodes -> 0 < nd_weight m < U32_MODULUS)
    by (intros m Hm; apply Hw; by right).
  specialize (IH (acc + nd_weight n) Hw'). unfold U64_MODULUS, U32_MODULUS in *. lia.
Qed.

Lemma weight_of_nonzero nodes :
  weights_sane -> sound_nodes nodes -> (length nodes <= length servers)%nat -> nodes <> [] ->
  0 < weight_of nodes.
Proof.
  intros Hsane Hs Hl Hn. pose proof (sound_weights nodes Hsane Hs) as Hw.
  destruct Hsane as [_ Hlen]. unfold weight_of.
  pose proof (weight_of_positive nodes 0 Hw) as Hp.
  destruct nodes as [|n nodes]; [done|]. cbn [length] in *. unfold U32_MODULUS, U64_MODULUS in *. lia.
Qed.

Lemma sound_filter f nodes : sound_nodes nodes -> sound_nodes (List.filter f nodes).
Proof. intros Hs n Hn. apply filter_In in Hn as [Hn _]. by apply Hs. Qed.

Lemma weight_of_filter f nodes acc1 acc2 :
  (forall n, In n nodes -> 0 < nd_weight n < U32_MODULUS) ->
  0 <= acc2 <= acc1 -> acc1 + Z.of_nat (length nodes) * U32_MODULUS < U64_MODULUS ->
  acc1 - acc2 + (Z.of_nat (length nodes) - Z.of_nat (length (List.filter f nodes))) <=
  fold_left add_weight nodes acc1 - fold_left add_weight (List.filter f nodes) acc2.
Proof.
  revert acc1 acc2. induction nodes as [|n nodes IH]; intros acc1 acc2 Hw Ha Hb; [cbn; lia|].
  pose proof (Hw n (or_introl eq_refl)).
  assert (Hw' : forall m, In m nodes -> 0 < nd_weight m < U32_MODULUS)
    by (intros m Hm; apply Hw; by right).
  cbn [List.filter fold_left length] in *. rewrite Nat2Z.inj_succ in *.
  assert (Hadd : forall a, 0 <= a <= acc1 -> add_weight a n = a + nd_weight n).
  { intros a Hx. apply wrap64_id. unfold is_u64, U64_MODULUS, U32_MODULUS in *. lia. }
  rewrite (Hadd acc1) by lia.
  destruct (f n); cbn [fold_left length]; [rewrite (Hadd acc2), Nat2Z.inj_succ by lia|].
  - specialize (IH (acc1 + nd_weight n) (acc2 + nd_weight n) Hw').
    unfold U64_MODULUS, U32_MODULUS in *. lia.
  - specialize (IH (acc1 + nd_weight n) acc2 Hw'). unfold U64_MODULUS, U32_MODULUS in *. lia.
Qed.

(** *** The general candidate set *)

(** The statuses a filter leaves. *)
Definition filter_ok (st : PolarDB_ReaderStatus) : Prop :=
  st = READER_UNAVAILABLE \/ st = READER_LSN_UNKNOWN \/ st = READER_LSN_STALE \/
  st = READER_LAG_EXCEEDED.

Lemma prefer_filter_ok a b :
  filter_ok a -> filter_ok b -> filter_ok (polardb_reader_status_prefer a b).
Proof. unfold polardb_reader_status_prefer. by case_if. Qed.

Lemma lag_filter plan lsn fresh st :
  filter_ok st -> filter_ok (snd (lag_allows_reader plan lsn fresh st)).
Proof.
  intros Hst. unfold lag_allows_reader.
  repeat case_if; try done; (apply prefer_filter_ok; [done|unfold filter_ok; tauto]).
Qed.

Lemma evaluate_filter e st :
  filter_ok st -> filter_ok (snd (evaluate cx rq writers e st)).
Proof.
  intros Hst. unfold evaluate, evaluate_reader. case_if; [done|]. cbn zeta.
  match goal with |- context [lag_allows_reader ?p ?l ?f st] =>
    pose proof (lag_filter p l f st Hst); destruct (lag_allows_reader p l f st) as [[|] ?] end;
    done.
Qed.

Lemma scan_filter seen idxs st :
  filter_ok st -> filter_ok (snd (scan_servers cx rq writers servers seen idxs st)).
Proof.
  revert st. induction idxs as [|i idxs IH]; intros st Hst; cbn [scan_servers]; [done|].
  destruct (match List.find _ _ with Some (_, n) => _ | None => _ end) as [o st'] eqn:E.
  assert (Hst' : filter_ok st').
  { destruct (List.find _ _) as [[j n]|]; [by injection E as _ <-|].
    destruct (servers !! i) as [e|]; [|by injection E as _ <-].
    pose proof (evaluate_filter e st Hst) as He. by rewrite E in He. }
  specialize (IH st' Hst'). by destruct (scan_servers _ _ _ _ _ _ st').
Qed.

Lemma full_scan_post seen st :
  seen_ok seen -> filter_ok st ->
  post (full_scan cx (P := P) rq writers servers seen st)
    (fun cd => sound_nodes (cd_nodes cd) /\ complete_for servers (cd_nodes cd) /\
       (length (cd_nodes cd) <= length servers)%nat /\ filter_ok (cd_filter_status cd) /\
       cd_sampled_pair cd = false /\ cd_weight_sum cd = weight_of (cd_nodes cd) /\
       cd_ready_weight_sum cd = weight_of (List.filter nd_target_reached (cd_nodes cd))).
Proof.
  intros Hseen Hst. unfold full_scan. apply post_any. intros start.
  set (idxs := map _ _).
  pose proof (scan_servers_spec seen idxs st Hseen) as Hsc. cbn zeta in Hsc.
  pose proof (scan_servers_length seen idxs st) as Hlen.
  pose proof (scan_filter seen idxs st Hst) as Hfo.
  destruct (scan_servers _ _ _ _ _ _ _) as [nodes st'] eqn:Es. cbn [fst snd] in Hsc, Hlen, Hfo.
  apply post_ret. cbn. split; [apply Hsc|].
  split; [|split; [|split; [done|done]]]; [|subst idxs; by rewrite length_map, length_seq in Hlen].
  intros e He Hel. apply list_elem_of_In, list_elem_of_lookup in He as [i Hi].
  apply (proj2 Hsc i e); [|done|done]. apply in_map_iff.
  assert (Hlt : (i < length servers)%nat) by (by eapply lookup_lt_Some).
  set (n := length servers) in *.
  exists ((i + (n - start mod n)) mod n)%nat. split.
  - pose proof (Nat.mod_upper_bound start n). rewrite Nat.Div0.add_mod_idemp_r.
    rewrite <- Nat.Div0.add_mod_idemp_l.
    replace (start mod n + (i + (n - start mod n)))%nat with (i + 1 * n)%nat by lia.
    rewrite Nat.Div0.mod_add. by apply Nat.mod_small.
  - apply in_seq. pose proof (Nat.mod_upper_bound (i + (n - start mod n)) n). lia.
Qed.

Record candidates_ok (cd : candidates) : Prop := {
  ck_sound : sound_nodes (cd_nodes cd);
  ck_complete : rq_confirm_capacity rq = true -> complete_for servers (cd_nodes cd);
  ck_nonempty : (exists e, In e servers /\ eligible cx rq writers e) -> cd_nodes cd <> [];
  ck_weight : weights_sane -> cd_nodes cd <> [] -> cd_weight_sum cd <> 0;
  ck_ready_weight : weights_sane -> (0 < reached_count (cd_nodes cd))%nat ->
    0 < cd_ready_weight_sum cd;
  ck_rest_weight : weights_sane -> rq_confirm_capacity rq = true ->
    (reached_count (cd_nodes cd) < length (cd_nodes cd))%nat ->
    wrap64 (cd_weight_sum cd - cd_ready_weight_sum cd) <> 0;
  ck_filter : filter_ok (cd_filter_status cd)
}.

Lemma sample_two_post :
  (2 < length servers)%nat ->
  post (sample_two cx (P := P) rq writers servers) 
    (fun '(seen, st) => seen_ok seen /\ filter_ok st).
Proof.
  intros Hlen. unfold sample_two. do 2 (apply post_any; intros ?).
  assert (Hev : forall i st, (i < length servers)%nat ->
    exists e, servers !! i = Some e /\
      evaluated e (fst (match servers !! i with
                        | Some e => evaluate cx rq writers e st | None => (None, st) end))).
  { intros i st Hi. apply lookup_lt_is_Some in Hi as [e He]. exists e. rewrite He.
    split; [done|apply evaluate_evaluated]. }
  set (i0 := Z.to_nat _). set (i1 := ((i0 + 1 + _) mod length servers)%nat).
  assert (H0 : (i0 < length servers)%nat).
  { subst i0. pose proof (Z.mod_pos_bound a (Z.of_nat (length servers))). lia. }
  assert (H1 : (i1 < length servers)%nat) by (apply Nat.mod_upper_bound; lia).
  destruct (Hev i0 READER_UNAVAILABLE H0) as (e0 & He0 & Hv0).
  destruct (match servers !! i0 with Some e => _ | None => _ end) as [n0 st0] eqn:E0.
  destruct (Hev i1 st0 H1) as (e1 & He1 & Hv1).
  destruct (match servers !! i1 with Some e => _ | None => _ end) as [n1 st1] eqn:E1.
  assert (Hf : forall i st r, filter_ok st ->
    match servers !! i with Some e => evaluate cx rq writers e st | None => (None, st) end = r ->
    filter_ok (snd r)).
  { intros i st r Hst <-. destruct (servers !! i); [by apply evaluate_filter|done]. }
  apply (Hf _ _ _ ltac:(by left)) in E0. apply (Hf _ _ _ E0) in E1.
  apply post_ret. split; [|done]. intros i o [[= <- <-]|[[= <- <-]|[]]]; eauto.
Qed.

Lemma full_scan_ok seen st :
  seen_ok seen -> filter_ok st ->
  post (full_scan cx (P := P) rq writers servers seen st) candidates_ok.
Proof.
  intros Hseen Hst. eapply post_weaken; [by apply full_scan_post|].
  intros cd (Hs & Hc & Hl & Hf & _ & Hw & Hr). constructor; [done|done| | | | |done].
  - intros (e & He & Hel) Hn. destruct (Hc e He Hel) as (n & Hin & _). by rewrite Hn in Hin.
  - intros Hsane Hn. rewrite Hw. pose proof (weight_of_nonzero _ Hsane Hs Hl Hn). lia.
  - intros Hsane Hk. rewrite Hr. apply weight_of_nonzero; [done|by apply sound_filter| |].
    + pose proof (filter_length_le nd_target_reached (cd_nodes cd)). lia.
    + intros Hn. unfold reached_count in Hk. rewrite Hn in Hk. cbn in Hk. lia.
  - intros Hsane _ Hlt. rewrite Hw, Hr. pose proof (sound_weights _ Hsane Hs) as Hws.
    pose proof (weight_of_filter nd_target_reached (cd_nodes cd) 0 0 Hws) as Hd.
    pose proof (weight_of_positive (cd_nodes cd) 0 Hws) as Hp1.
    pose proof (weight_of_positive _ 0 (sound_weights _ Hsane (sound_filter nd_target_reached _ Hs))) as Hp2.
    pose proof (filter_length_le nd_target_reached (cd_nodes cd)).
    unfold weight_of, reached_count in *. destruct Hsane as [_ Hlen].
    rewrite wrap64_id; unfold is_u64, U64_MODULUS, U32_MODULUS in *; lia.
Qed.

Lemma equal_weights_spec w :
  equal_positive_weights servers = Some w -> 0 < w < U32_MODULUS.
Proof.
  unfold equal_positive_weights. destruct servers as [|e rest]; [done|].
  destruct (_ && _) eqn:E; [|done]. apply andb_true_iff in E as [E _]. apply Z.ltb_lt in E.
  intros [= <-]. split; [done|]. case_if; [apply wrap32_range|done].
Qed.

Lemma general_candidates_post :
  post (general_candidates cx (P := P) rq writers servers) candidates_ok.
Proof.
  unfold general_candidates.
  set (can := (2 <? length servers)%nat && _). destruct can eqn:Ecan.
  2: { apply full_scan_ok; [by intros i o []|by left]. }
  destruct (equal_positive_weights servers) as [w|] eqn:Ew.
  2: { apply full_scan_ok; [by intros i o []|by left]. }
  subst can. apply andb_true_iff in Ecan as [Elen Epair]. apply Nat.ltb_lt in Elen.
  eapply post_bind; [grow|by apply sample_two_post|]. intros [seen st] [Hseen Hst].
  destruct (pair_suffices rq seen) as [[a b]|] eqn:Ep; [|by apply full_scan_ok].
  apply equal_weights_spec in Ew. apply post_ret.
  unfold pair_suffices in Ep. destruct seen as [|[i0 [n0|]] [|[i1 [n1|]] [|]]]; try done.
  case_if_in Ep; [|done]. injection Ep as <- <-.
  assert (Hs : sound_nodes [n0; n1]).
  { intros n [<-|[<-|[]]].
    - destruct (Hseen i0 (Some n0)) as (e & He & Hv); [by left|].
      exists e. split; [by eapply lookup_In|done].
    - destruct (Hseen i1 (Some n1)) as (e & He & Hv); [by right; left|].
      exists e. split; [by eapply lookup_In|done]. }
  assert (Hnc : rq_confirm_capacity rq = true -> False).
  { intros Hc. unfold polardb_request_can_sample_pair in Epair. rewrite Hc in Epair.
    by rewrite andb_false_r in Epair. }
  constructor; cbn [cd_nodes cd_weight_sum cd_ready_weight_sum cd_filter_status];
    [done|by intros ?%Hnc|done| | |by intros _ ?%Hnc|done].
  - intros _ _. unfold wrap64. rewrite Z.mod_small; unfold U64_MODULUS, U32_MODULUS in *; lia.
  - intros _. unfold reached_count. cbn.
    destruct (nd_target_reached n0), (nd_target_reached n1); cbn; intros Hk; try lia;
      rewrite wrap64_id; unfold is_u64, U64_MODULUS, U32_MODULUS in *; lia.
Qed.

(** ** One acquisition over the listed servers *)

Definition eligible_server (s : srv_id) : Prop :=
  exists e, In e servers /\ eligible cx rq writers e /\ en_srv e = s.

Definition every_reader_full : Prop :=
  rq_confirm_capacity rq = true /\ forall s, eligible_server s -> reported_full s.

Record attempt_ok (sess : pool_session) (req : PolarDB_PoolRequest) (r : PolarDB_ReaderResult)
  : Prop := {
  ao_srv : forall s, rr_srv r = Some s -> eligible_server s;
  ao_acquired : acquired r = true ->
    is_Some (rr_srv r) /\ exists c, rr_conn r = Some c /\ fits sess req c;
  ao_bypass : rr_wait_bypass_allowed r = true ->
    acquired r = true /\ exists s, rr_srv r = Some s /\ target_reached cx rq s;
  ao_busy : weights_sane -> rr_status r = READER_GROUP_BUSY -> every_reader_full;
  ao_live : weights_sane -> (exists s, eligible_server s) -> is_Some (rr_srv r);
  ao_named : rr_status r = READER_GROUP_BUSY -> is_Some (rr_srv r)
}.

(** A result without a connection, naming at most a server of the set. *)
Record unserved (nodes : list PolarDB_ReaderNode) (r : PolarDB_ReaderResult) : Prop := {
  un_conn : rr_conn r = None;
  un_bypass : rr_wait_bypass_allowed r = false;
  un_srv : forall s, rr_srv r = Some s -> from_nodes nodes s
}.

Lemma unserved_not_acquired nodes r : unserved nodes r -> acquired r = false.
Proof.
  intros [H1 _ _]. unfold acquired. rewrite H1.
  by rewrite (bool_decide_false (is_Some None)), andb_false_r by (by intros [? ?]).
Qed.

Lemma from_sound nodes s : sound_nodes nodes -> from_nodes nodes s -> eligible_server s.
Proof.
  intros Hs (n & Hn & <-). destruct (Hs n Hn) as (e & He & Hel & [Hsrv _ _]).
  exists e. by rewrite Hsrv.
Qed.

Lemma from_incl nodes nodes' s :
  (forall n, In n nodes -> In n nodes') -> from_nodes nodes s -> from_nodes nodes' s.
Proof. intros Hi (n & Hn & <-). exists n. auto. Qed.

(** The attempt on the ready prefix. *)
Inductive preferred_outcome (cd : candidates) (ready_nodes : list PolarDB_ReaderNode)
    (sess : pool_session) (req : PolarDB_PoolRequest) (r : PolarDB_ReaderResult) : Prop :=
| preferred_none : unserved [] r -> rr_status r = cd_filter_status cd ->
    rr_server_saturated r = false ->
    wait_target rq && (0 <? reached_count (cd_nodes cd))%nat &&
      (0 <? cd_ready_weight_sum cd) = false ->
    preferred_outcome cd ready_nodes sess req r
| preferred_served : acquired r = true -> rr_wait_bypass_allowed r = true ->
    (exists s, rr_srv r = Some s /\ from_nodes ready_nodes s) ->
    (exists c, rr_conn r = Some c /\ fits sess req c) -> wait_target rq = true ->
    preferred_outcome cd ready_nodes sess req r
| preferred_pending : unserved ready_nodes r -> is_Some (rr_srv r) ->
    rr_status r = READER_UNAVAILABLE ->
    (rq_confirm_capacity rq = true -> rr_server_saturated r = false) ->
    preferred_outcome cd ready_nodes sess req r
| preferred_busy : unserved ready_nodes r -> is_Some (rr_srv r) ->
    rr_status r = READER_GROUP_BUSY -> rq_confirm_capacity rq = true ->
    (forall n, In n ready_nodes -> reported_full (nd_srv n)) -> wait_target rq = true ->
    preferred_outcome cd ready_nodes sess req r.

Lemma acquire_preferred_post cd nodes snapshot sess req :
  length nodes = length (cd_nodes cd) ->
  post (acquire_preferred pton4 pton6 cx (P := P) rq cd nodes snapshot sess req)
    (preferred_outcome cd (take (reached_count (cd_nodes cd)) nodes) sess req).
Proof.
  intros Hlen. unfold acquire_preferred. case_if.
  2: { apply post_ret. by apply preferred_none. }
  apply andb_true_iff in E as [E Hwt]. apply andb_true_iff in E as [Hwait Hk].
  apply Nat.ltb_lt in Hk. apply Z.ltb_lt in Hwt.
  eapply post_bind; [grow|apply get_conn_post|]. intros p [Hp Hne]. apply post_ret.
  pose proof (filter_length_le nd_target_reached (cd_nodes cd)).
  destruct Hp as [->|Hs|Hpe Hsat|r0 Hpe -> Hc Hf].
  - exfalso. destruct (Hne eq_refl) as [Hn|]; [|lia]. apply (f_equal length) in Hn.
    rewrite length_take in Hn. unfold reached_count in *. cbn in Hn. lia.
  - rewrite (served_acquired _ _ _ p Hs). destruct Hs as [Hc Hst Hb Hv].
    apply preferred_served; [|by destruct p|by destruct p|by destruct p|done].
    destruct Hc as (c & Hc & _). destruct p; cbn in *. subst.
    unfold acquired. cbn. by rewrite bool_decide_true by eauto.
  - rewrite (pending_not_acquired _ _ p Hpe). destruct Hpe as [Hc Hst Hb (s & Hv & Hfn) _].
    destruct p; cbn in *. subst. apply preferred_pending; [|by eexists|done|done].
    constructor; [done|done|]. by intros ? [= <-].
  - destruct Hpe as [Hcn Hst Hb (s & Hv & Hfn) _]. destruct r0; cbn in *. subst.
    unfold acquired. cbn. apply preferred_busy; [|by eexists|done|done|done|done].
    constructor; [done|done|]. by intros ? [= <-].
Qed.

(** What the fallback set makes of a result. *)
Lemma merge_unserved nodes rest sess req snapshot r fb :
  (forall n, In n rest -> In n nodes) -> unserved nodes r -> (rr_status r = READER_GROUP_BUSY -> is_Some (rr_srv r)) ->
  take_outcome rest sess req (rq_confirm_capacity rq) fb ->
  let m := merge_fallback rq snapshot r fb in
  served rest sess req fb /\ acquired m = true /\ rr_wait_bypass_allowed m = false /\
    rr_srv m = rr_srv fb /\ rr_conn m = rr_conn fb \/
  unserved nodes m /\
    (is_Some (rr_srv r) -> is_Some (rr_srv m)) /\
    (fb <> empty_result -> is_Some (rr_srv m)) /\
    (rr_status m = READER_GROUP_BUSY -> is_Some (rr_srv m)) /\
    (rr_status m = READER_GROUP_BUSY ->
     rr_status r = READER_GROUP_BUSY /\ (fb = empty_result \/ forall n, In n rest -> reported_full (nd_srv n)) \/
     rr_status r <> READER_GROUP_BUSY /\ rq_confirm_capacity rq = true /\
       forall n, In n rest -> reported_full (nd_srv n)).
Proof.
  intros Hin Hr Hrb Hfb. cbn zeta. unfold merge_fallback.
  set (fb' := if bool_decide (rr_selected_pool_miss_server fb = None) then _ else fb).
  assert (Hfb' : rr_conn fb' = rr_conn fb /\ rr_srv fb' = rr_srv fb /\
    rr_status fb' = rr_status fb /\ acquired fb' = acquired fb).
  { subst fb'. unfold acquired. case_if; by destruct fb. }
  destruct Hfb' as (Ec & Es & Est & Ea). destruct Hr as [Hc Hb Hv].
  destruct Hfb as [->|Hse|Hpe Hsat|r0 Hpe -> Hcf Hf].
  - right. rewrite Ea. change (acquired empty_result) with false. cbn match.
    rewrite Es, bool_decide_true by done. split; [by constructor|]. split; [done|].
    split; [done|]. split; [done|]. intros Hbusy. left. split; [done|by left].
  - left. rewrite Ea, (served_acquired _ _ _ fb Hse). cbn match. split; [done|].
    pose proof (served_acquired _ _ _ fb Hse) as Hacq.
    unfold acquired in *. destruct fb'; cbn in *. subst. auto.
  - right. rewrite Ea, (pending_not_acquired _ _ fb Hpe). cbn match.
    destruct Hpe as [Pc Ps Pb (s & Pv & Pf) _].
    rewrite Es, Pv, bool_decide_false by done. rewrite Est, Ps, orb_true_r. cbn match.
    destruct r; cbn in *. split; [constructor; [done|done|intros ? [= <-]; by eapply from_incl]|].
    split; [by eexists|]. split; [by eexists|]. split; done.
  - right. destruct Hpe as [Pc Ps Pb (s & Pv & Pf) _].
    assert (Ha : acquired (r0 <| rr_status := READER_GROUP_BUSY |>) = false) by (by destruct r0).
    rewrite Ea, Ha. cbn match. destruct r0; cbn in *. subst.
    rewrite Es, bool_decide_false by done. rewrite Est, Hcf. cbn [negb orb].
    rewrite bool_decide_true by done. cbn [negb].
    destruct (bool_decide_reflect (rr_status r = READER_GROUP_BUSY)) as [Hg|Hg]; cbn [negb].
    + split; [by constructor|]. split; [done|]. split; [intros _; by apply Hrb|].
      split; [done|intros _; left; auto].
    + destruct r; cbn in *. split; [constructor; [done|done|intros ? [= <-]; by eapply from_incl]|].
      do 3 (split; [by eexists|]). intros _. right. auto.
Qed.

Lemma target_from_node nodes s :
  sound_nodes nodes -> (exists n, In n nodes /\ nd_srv n = s /\ nd_target_reached n = true) ->
  target_reached cx rq s.
Proof.
  intros Hs (n & Hn & <- & Hr). destruct (Hs n Hn) as (e & _ & _ & [-> _ Hreach]).
  by apply Hreach.
Qed.

Lemma complete_server cd s :
  candidates_ok cd -> rq_confirm_capacity rq = true -> eligible_server s ->
  exists n, In n (cd_nodes cd) /\ nd_srv n = s.
Proof.
  intros Hok Hc (e & He & Hel & <-). destruct (ck_complete cd Hok Hc e He Hel) as (n & Hn & [? _ _]).
  by exists n.
Qed.

(** A set whose two halves were asked. *)
Lemma both_halves_full cd nodes k :
  candidates_ok cd -> nodes ≡ₚ cd_nodes cd -> rq_confirm_capacity rq = true ->
  (forall n, In n (take k nodes) -> reported_full (nd_srv n)) ->
  (forall n, In n (drop k nodes) -> reported_full (nd_srv n)) ->
  every_reader_full.
Proof.
  intros Hok Hp Hc H1 H2. split; [done|]. intros s Hs.
  destruct (complete_server cd s Hok Hc Hs) as (n & Hn & <-).
  apply (Permutation_in n (Permutation_sym Hp)) in Hn.
  rewrite <- (take_drop k nodes) in Hn. apply in_app_iff in Hn as [Hn|Hn]; auto.
Qed.

Lemma in_take {A} k (l : list A) x : In x (take k l) -> In x l.
Proof. intros Hx. rewrite <- (take_drop k l). apply in_app_iff. by left. Qed.

Lemma in_drop {A} k (l : list A) x : In x (drop k l) -> In x l.
Proof. intros Hx. rewrite <- (take_drop k l). apply in_app_iff. by right. Qed.

Lemma served_attempt_ok nodes sess req r fb :
  sound_nodes nodes -> served nodes sess req fb -> acquired r = true ->
  rr_wait_bypass_allowed r = false -> rr_srv r = rr_srv fb -> rr_conn r = rr_conn fb ->
  attempt_ok sess req r.
Proof.
  intros Hs [(c & Hc & Hf) _ _ (s & Hv & Hn)] Ha Hb Es Ec. rewrite Hv in Es. rewrite Hc in Ec.
  constructor.
  - rewrite Es. intros ? [= <-]. by eapply from_sound.
  - intros _. rewrite Es. split; [by eexists|]. by exists c.
  - by rewrite Hb.
  - intros _ Hst. unfold acquired in Ha. by rewrite Hst in Ha.
  - intros _ _. rewrite Es. by eexists.
  - intros _. rewrite Es. by eexists.
Qed.

Lemma unserved_attempt_ok nodes sess req r :
  sound_nodes nodes -> unserved nodes r ->
  (weights_sane -> rr_status r = READER_GROUP_BUSY -> every_reader_full) ->
  (weights_sane -> (exists s, eligible_server s) -> is_Some (rr_srv r)) ->
  (rr_status r = READER_GROUP_BUSY -> is_Some (rr_srv r)) ->
  attempt_ok sess req r.
Proof.
  intros Hs Hu Hb Hl Hn. pose proof (unserved_not_acquired nodes r Hu) as Ha.
  destruct Hu as [Hc Hby Hv]. constructor; [|by rewrite Ha|by rewrite Hby|done..].
  intros s Hsv. eapply from_sound; eauto.
Qed.

(** The second half, for each way the first one ended. *)
Section Halves.
Context (cd : candidates) (sess : pool_session) (req : PolarDB_PoolRequest).
Context (snapshot : PolarDB_ServerListSnapshot) (Hok : candidates_ok cd).

Let k := reached_count (cd_nodes cd).
Let att := wait_target rq && (0 <? k)%nat.
Let nodes := if att then partition_ready (cd_nodes cd) else cd_nodes cd.
Let rest := if att then drop k nodes else nodes.
Let w := if att then wrap64 (cd_weight_sum cd - cd_ready_weight_sum cd) else cd_weight_sum cd.

Notation fallback := (acquire_fallback pton4 pton6 cx (P := P) rq cd nodes snapshot sess req).

Lemma nodes_perm : nodes ≡ₚ cd_nodes cd.
Proof. destruct (partition_ready_spec (cd_nodes cd)). subst nodes. by destruct att. Qed.

Lemma nodes_sound : sound_nodes nodes.
Proof. intros n Hn. apply (ck_sound cd Hok). by apply (Permutation_in n nodes_perm). Qed.

Lemma rest_incl n : In n rest -> In n nodes.
Proof. subst rest. destruct att; [by apply in_drop|done]. Qed.

Lemma rest_sound : sound_nodes rest.
Proof. intros n Hn. by apply nodes_sound, rest_incl. Qed.

Lemma prefix_incl s : from_nodes (take k nodes) s -> from_nodes nodes s.
Proof. apply from_incl, in_take. Qed.

Lemma prefix_attempted s : wait_target rq = true -> from_nodes (take k nodes) s -> att = true.
Proof.
  intros Hwait (n & Hn & _). subst att. rewrite Hwait. apply Nat.ltb_lt.
  destruct k; [done|lia].
Qed.

Lemma unserved_incl r : unserved (take k nodes) r -> unserved nodes r.
Proof. intros [? ? Hv]. constructor; [done|done|]. intros s Hs. by apply prefix_incl, Hv. Qed.

(** The fallback as one step, once it is known to be tried. *)
Lemma fallback_post r (Q : PolarDB_ReaderResult -> Prop) :
  (forall fb, take_outcome rest sess req (rq_confirm_capacity rq) fb ->
     (fb = empty_result -> rest = [] \/ w = 0) -> Q (merge_fallback rq snapshot r fb)) ->
  (acquired r = true \/
   rq_confirm_capacity rq && bool_decide (is_Some (rr_srv r)) &&
     negb (rr_server_saturated r) && (rr_status r != READER_GROUP_BUSY) = true -> Q r) ->
  post (fallback r) Q.
Proof.
  intros Hf Hn. unfold acquire_fallback. fold k. fold att. case_if.
  - eapply post_bind; [grow|apply get_conn_post|]. fold rest w. intros fb [H1 H2].
    apply post_ret. by apply Hf.
  - apply post_ret, Hn. destruct (acquired r); [by left|right]. by apply negb_false_iff in E.
Qed.

Lemma merge_attempt_ok r fb :
  unserved nodes r -> (rr_status r = READER_GROUP_BUSY -> is_Some (rr_srv r)) ->
  take_outcome rest sess req (rq_confirm_capacity rq) fb ->
  (weights_sane ->
   (rr_status r = READER_GROUP_BUSY /\
      (fb = empty_result \/ forall n, In n rest -> reported_full (nd_srv n)) \/
    rr_status r <> READER_GROUP_BUSY /\ rq_confirm_capacity rq = true /\
      forall n, In n rest -> reported_full (nd_srv n)) -> every_reader_full) ->
  (weights_sane -> (exists s, eligible_server s) -> is_Some (rr_srv r) \/ fb <> empty_result) ->
  attempt_ok sess req (merge_fallback rq snapshot r fb).
Proof.
  intros Hu Hrb Hfb Hbusy Hlive.
  destruct (merge_unserved nodes rest sess req snapshot r fb rest_incl Hu Hrb Hfb)
    as [(Hse & Ha & Hb & Es & Ec)|(Hm & Hkeep & Hnew & Hnm & Hg)].
  - eapply (served_attempt_ok rest); eauto using rest_sound.
  - apply (unserved_attempt_ok nodes); [apply nodes_sound|done|auto| |done].
    intros Hs He. destruct (Hlive Hs He); auto.
Qed.

Lemma fallback_after_none r :
  unserved [] r -> rr_status r = cd_filter_status cd ->
  wait_target rq && (0 <? k)%nat && (0 <? cd_ready_weight_sum cd) = false ->
  post (fallback r) (attempt_ok sess req).
Proof.
  intros [Hc Hb Hv] Hst Hno.
  assert (Hnone : rr_srv r = None).
  { destruct (rr_srv r) as [s|]; [|done]. by destruct (Hv s eq_refl) as (? & [] & _). }
  assert (Hu : unserved nodes r) by (constructor; [done|done|by rewrite Hnone]).
  assert (Hng : rr_status r <> READER_GROUP_BUSY).
  { rewrite Hst. destruct (ck_filter cd Hok) as [-> |[-> |[-> | ->]]]; done. }
  assert (Hnot : weights_sane -> att = false).
  { intros Hsane. subst att. destruct (wait_target rq); [|done]. cbn [andb] in *.
    destruct (Nat.ltb_spec 0 k) as [Hk|]; [|done]. cbn [andb] in Hno.
    pose proof (ck_ready_weight cd Hok Hsane Hk). apply Z.ltb_ge in Hno. lia. }
  apply fallback_post.
  - intros fb Hfb Hemp. apply merge_attempt_ok; [done|done|done| |].
    + intros Hsane [[? _]|(_ & Hcf & Hf)]; [done|].
      apply (both_halves_full cd nodes 0); [done|apply nodes_perm|done|by intros n []|].
      intros n Hn. apply Hf. subst rest. by rewrite (Hnot Hsane).
    + intros Hsane (s & e & He & Hel & _). right. intros Hx.
      assert (Hne : cd_nodes cd <> []) by (apply (ck_nonempty cd Hok); by exists e).
      specialize (Hemp Hx). subst rest w nodes. rewrite (Hnot Hsane) in Hemp.
      destruct Hemp as [|Hz]; [done|]. by apply (ck_weight cd Hok Hsane Hne).
  - rewrite (unserved_not_acquired _ _ Hu), Hnone.
    rewrite (bool_decide_false (is_Some None)), andb_false_r by (by intros [? ?]).
    by intros [?|?].
Qed.

Lemma fallback_after_served r :
  acquired r = true -> (exists s, rr_srv r = Some s /\ from_nodes (take k nodes) s) ->
  (exists c, rr_conn r = Some c /\ fits sess req c) -> wait_target rq = true ->
  post (fallback r) (attempt_ok sess req).
Proof.
  intros Ha (s & Hv & Hn) Hc Hwait. pose proof (prefix_attempted s Hwait Hn) as Hatt.
  unfold acquire_fallback. rewrite Ha. apply post_ret. constructor.
  - rewrite Hv. intros ? [= <-]. eapply from_sound; [apply nodes_sound|by apply prefix_incl].
  - intros _. rewrite Hv. split; [by eexists|done].
  - intros _. split; [done|]. exists s. split; [done|].
    apply (target_from_node nodes); [apply nodes_sound|].
    destruct Hn as (n & Hn & <-). exists n. split; [by eapply in_take|]. split; [done|].
    apply (proj2 (partition_ready_spec (cd_nodes cd))). subst nodes. by rewrite Hatt in Hn.
  - intros _ Hst. unfold acquired in Ha. by rewrite Hst in Ha.
  - intros _ _. rewrite Hv. by eexists.
  - intros _. rewrite Hv. by eexists.
Qed.

Lemma fallback_after_pending r :
  unserved (take k nodes) r -> is_Some (rr_srv r) -> rr_status r = READER_UNAVAILABLE ->
  (rq_confirm_capacity rq = true -> rr_server_saturated r = false) ->
  post (fallback r) (attempt_ok sess req).
Proof.
  intros Hu%unserved_incl Hsome Hst Hsat.
  assert (Hrb : rr_status r = READER_GROUP_BUSY -> False) by congruence.
  unfold acquire_fallback. rewrite (unserved_not_acquired _ _ Hu), Hst, bool_decide_true by done.
  destruct (rq_confirm_capacity rq) eqn:Ec.
  { rewrite (Hsat eq_refl). apply post_ret.
    apply (unserved_attempt_ok nodes); [apply nodes_sound|done|by intros _ ?%Hrb|done|done]. }
  eapply post_bind; [grow|apply get_conn_post|]. fold k. fold att rest w. intros fb [Hfb _].
  apply post_ret, merge_attempt_ok; [done|by intros ?%Hrb|by rewrite Ec| |by left].
  intros _ [[Hx _]|(_ & ? & _)]; [by destruct (Hrb Hx)|congruence].
Qed.

Lemma fallback_after_busy r :
  unserved (take k nodes) r -> is_Some (rr_srv r) -> rr_status r = READER_GROUP_BUSY ->
  rq_confirm_capacity rq = true ->
  (forall n, In n (take k nodes) -> reported_full (nd_srv n)) -> wait_target rq = true ->
  post (fallback r) (attempt_ok sess req).
Proof.
  intros Hu [s Hs] Hst Hconf Hfull Hwait.
  assert (Hatt : att = true) by (eapply (prefix_attempted s), (un_srv _ _ Hu); done).
  apply unserved_incl in Hu. assert (Hsome : is_Some (rr_srv r)) by (by exists s).
  apply fallback_post.
  - intros fb Hfb Hemp. apply merge_attempt_ok; [done|done|done| |by left].
    intros Hsane Hcase. apply (both_halves_full cd nodes k); [done|apply nodes_perm|done|done|].
    assert (Hr : rest = drop k nodes) by (subst rest; by rewrite Hatt). rewrite <- Hr.
    destruct Hcase as [[_ [Hx|Hf]]|(_ & _ & Hf)]; [|done|done].
    destruct (Hemp Hx) as [->|Hz]; [by intros n []|]. intros n Hn. exfalso.
    subst w. rewrite Hatt in Hz. revert Hz. apply (ck_rest_weight cd Hok Hsane Hconf). fold k.
    rewrite <- (Permutation_length nodes_perm).
    destruct (Nat.lt_ge_cases k (length nodes)); [done|]. by rewrite Hr, drop_ge in Hn.
  - rewrite (unserved_not_acquired _ _ Hu), Hst, (bool_decide_true (READER_GROUP_BUSY = _)) by done.
    cbn [negb]. rewrite andb_false_r. by intros [?|?].
Qed.

End Halves.

Lemma acquire_general_post snapshot sess req :
  post (acquire_general pton4 pton6 cx (P := P) rq writers snapshot servers sess req)
    (fun '(r, _, st) => attempt_ok sess req r /\ filter_ok st).
Proof.
  unfold acquire_general. eapply post_bind; [grow|apply general_candidates_post|]. intros cd Hok.
  eapply post_bind; [grow|apply acquire_preferred_post, Permutation_length, nodes_perm|].
  intros r0 Hr0. eapply post_bind with (R := attempt_ok sess req).
  { grow. }
  - destruct Hr0; eauto using fallback_after_none, fallback_after_served,
      fallback_after_pending, fallback_after_busy.
  - intros r Hr. apply post_ret. split; [done|apply (ck_filter cd Hok)].
Qed.

End Request.

(** ** The two-reader policy *)

Section TwoReaders.
Context (rq : reader_request) (writers : option (list PolarDB_ServerSnapshotEntry)).
Context (e0 e1 : PolarDB_ServerSnapshotEntry).
Notation servers := [e0; e1].
Notation sound := (sound_nodes rq writers servers).
Notation elig := (eligible_server rq writers servers).

Record two_ok (t : two_readers) : Prop := {
  tk_sound : sound (tw_nodes t);
  tk_length : (length (tw_nodes t) <= 2)%nat;
  tk_complete : tw_unseen_peer t = None -> forall s, elig s -> from_nodes (tw_nodes t) s;
  tk_peer : forall e, tw_unseen_peer t = Some e ->
    rq_confirm_capacity rq = false /\ In e servers /\ tw_nodes t <> [];
  tk_filter : filter_ok (tw_filter_status t)
}.

Lemma evaluated_nodes e o :
  In e servers -> evaluated rq writers e o -> sound (option_list o).
Proof. intros He Hv n Hn. destruct o as [m|]; [|done]. destruct Hn as [->|[]]. by exists e. Qed.

Lemma sound_app l l' : sound l -> sound l' -> sound (l ++ l').
Proof. intros H1 H2 n [Hn|Hn]%in_app_iff; [by apply H1|by apply H2]. Qed.

Lemma evaluated_complete e o :
  evaluated rq writers e o -> eligible cx rq writers e ->
  from_nodes (option_list o) (en_srv e).
Proof.
  intros Hv Hel. destruct o as [n|]; [|done]. destruct Hv as [_ [Hs _ _]].
  exists n. split; [by left|done].
Qed.

Lemma two_reader_post gen :
  post (two_reader_candidates cx (P := P) rq writers e0 e1 gen) two_ok.
Proof.
  unfold two_reader_candidates. apply post_any. intros idx.
  destruct (if idx =? 0 then (e0, e1) else (e1, e0)) as [ef ep] eqn:Eo.
  assert (Hin : In ef servers /\ In ep servers /\ forall e, In e servers -> e = ef \/ e = ep).
  { case_if_in Eo; injection Eo as <- <-; cbn; naive_solver. }
  destruct Hin as (Hf & Hp & Hall).
  pose proof (evaluate_evaluated rq writers ef READER_UNAVAILABLE) as Hvf.
  pose proof (evaluate_filter rq writers ef READER_UNAVAILABLE ltac:(by left)) as Hff.
  destruct (evaluate cx rq writers ef READER_UNAVAILABLE) as [first st]. cbn [fst snd] in *.
  apply post_ret. case_if.
  - pose proof (evaluate_evaluated rq writers ep st) as Hvp.
    pose proof (evaluate_filter rq writers ep st Hff) as Hfp.
    destruct (evaluate cx rq writers ep st) as [peer st']. cbn [fst snd] in *.
    constructor; cbn; [| | |done|done].
    + apply sound_app; [by apply (evaluated_nodes ef)|by apply (evaluated_nodes ep)].
    + by destruct first, peer; cbn; lia.
    + intros _ s (e & He & Hel & <-). destruct (Hall e He) as [-> | ->].
      * eapply from_incl; [|by apply evaluated_complete]. intros n Hn. apply in_app_iff. by left.
      * eapply from_incl; [|by apply evaluated_complete]. intros n Hn. apply in_app_iff. by right.
  - apply orb_false_iff in E as [E _]. apply orb_false_iff in E as [E E3].
    apply orb_false_iff in E as [_ E2]. constructor; cbn; [| |done| |done].
    + by apply (evaluated_nodes ef).
    + by destruct first; cbn; lia.
    + intros e [= <-]. split; [done|]. split; [done|]. by destruct first.
Qed.

Lemma refine_two_bound a b wait :
  (polardb_reader_pool_refine_two_by_lsn_target cx a b wait < 2)%nat.
Proof. unfold polardb_reader_pool_refine_two_by_lsn_target. repeat case_if; lia. Qed.

(** The index the policy selects is in range unless no reader is left. *)
Lemma select_of_two_bound nodes :
  (length nodes <= 2)%nat -> nodes <> [] ->
  exists j, select_of_two cx rq nodes = Some j /\ (j < length nodes)%nat.
Proof.
  intros Hl Hn. destruct nodes as [|a [|b [|]]]; [done| | |cbn in Hl; lia].
  - exists 0%nat. split; [done|cbn; lia].
  - eexists. split; [done|]. apply refine_two_bound.
Qed.

Notation ok := (attempt_ok rq writers servers).

(** The last steps of the two-reader half. *)
Definition two_finish (snapshot : PolarDB_ServerListSnapshot) (nodes : list PolarDB_ReaderNode)
    (r : PolarDB_ReaderResult) : PolarDB_ReaderResult :=
  let r := r <| rr_selected_server_snapshot := Some snapshot |> in
  if acquired r then
    match List.find (fun n => bool_decide (rr_srv r = Some (nd_srv n))) nodes with
    | Some n => r <| rr_wait_bypass_allowed := nd_target_reached n |>
    | None => r
    end
  else r.

Lemma two_finish_ok sess req snapshot nodes r :
  sound nodes -> ok sess req r -> rr_wait_bypass_allowed r = false ->
  ok sess req (two_finish snapshot nodes r).
Proof.
  intros Hs [H1 H2 _ H4 H5 H6] Hb. unfold two_finish.
  set (r1 := r <| rr_selected_server_snapshot := Some snapshot |>).
  assert (Hr1 : ok sess req r1).
  { subst r1. destruct r; cbn in *. constructor; cbn in *; [done|done|by rewrite Hb|done..]. }
  case_if; [|done]. destruct (List.find _ nodes) as [n|] eqn:Ef; [|done].
  apply find_some in Ef as [Hn Hd]. apply bool_decide_eq_true in Hd.
  subst r1. destruct r as [c v pm sn st by0 sat l1 l2 f1 f2 h g k].
  destruct Hr1 as [R1 R2 _ R4 R5 R6]. cbn in *. constructor; cbn in *; [done|done| |done..].
  intros Hreach. split; [done|]. exists (nd_srv n). split; [done|].
  apply (target_from_node rq writers servers nodes); [done|]. by exists n.
Qed.

Lemma take_two_ok t sess req r :
  two_ok t -> take_outcome (tw_nodes t) sess req (rq_confirm_capacity rq) r ->
  (r = empty_result -> tw_nodes t = []) ->
  ok sess req r /\ rr_wait_bypass_allowed r = false.
Proof.
  intros Ht Hr Hemp. pose proof (tk_sound t Ht) as Hs.
  destruct Hr as [Hx|Hse|Hpe Hsat|r0 Hpe -> Hc Hf].
  - split; [|by subst]. subst r. specialize (Hemp eq_refl).
    assert (Hu : unserved [] empty_result) by (by constructor).
    apply (unserved_attempt_ok rq writers servers []); [by intros n []|done|done| |done].
    intros _ (s & Hel). destruct (tw_unseen_peer t) as [e|] eqn:Ep.
    + by destruct (tk_peer t Ht e Ep) as (_ & _ & ?).
    + destruct (tk_complete t Ht Ep s Hel) as (n & Hn & _). by rewrite Hemp in Hn.
  - split; [|apply Hse]. eapply (served_attempt_ok rq writers servers); try done.
    + by eapply served_acquired.
    + apply Hse.
  - split; [|apply Hpe]. destruct Hpe as [Hc Hst Hb (s & Hv & Hfn) _].
    apply (unserved_attempt_ok rq writers servers (tw_nodes t)); [done| |congruence| |congruence].
    + constructor; [done|done|]. rewrite Hv. by intros ? [= <-].
    + intros _ _. rewrite Hv. by eexists.
  - destruct Hpe as [Hcn Hst Hb (s & Hv & Hfn) _]. destruct r0; cbn in *. subst.
    split; [|done].
    apply (unserved_attempt_ok rq writers servers (tw_nodes t)); [done| | | |].
    + constructor; cbn; [done|done|]. by intros ? [= <-].
    + intros _ _. split; [done|]. intros x Hx. destruct (tw_unseen_peer t) as [e|] eqn:Ep.
      * destruct (tk_peer t Ht e Ep) as (? & _). congruence.
      * destruct (tk_complete t Ht Ep x Hx) as (n & Hn & <-). by apply Hf.
    + intros _ _. by eexists.
    + intros _. by eexists.
Qed.

(** The peer asked by a pooled-only request when the first reader missed. *)
Lemma ask_peer_ok t sess req r add :
  two_ok t -> ok sess req r /\ rr_wait_bypass_allowed r = false ->
  post
    (match tw_unseen_peer t with
     | Some peer_entry =>
         if negb (acquired r) && rq_only_pooled rq && tw_first_ok t then
           let '(peer, st) := evaluate cx rq writers peer_entry (tw_filter_status t) in
           match peer with
           | Some n =>
               fallback ← polardb_take_conn_from_reader_nodes pton4 pton6 cx (P := P) [n]
                            (Some 0%nat) None sess req false add;
               let fallback := fallback <| rr_selected_pool_miss_server :=
                                 rr_selected_pool_miss_server r |> in
               mret (if acquired fallback then fallback else r, tw_nodes t ++ [n], st)
           | None => mret (r, tw_nodes t, st)
           end
         else mret (r, tw_nodes t, tw_filter_status t)
     | None => mret (r, tw_nodes t, tw_filter_status t)
     end)
    (fun '(r', nodes, st) => ok sess req r' /\ rr_wait_bypass_allowed r' = false /\
       sound nodes /\ filter_ok st).
Proof.
  intros Ht [Hr Hb]. pose proof (tk_sound t Ht) as Hs. pose proof (tk_filter t Ht) as Hfil.
  destruct (tw_unseen_peer t) as [e|] eqn:Ep; [|by apply post_ret].
  destruct (tk_peer t Ht e Ep) as (_ & He & _). case_if; [|by apply post_ret].
  pose proof (evaluate_evaluated rq writers e (tw_filter_status t)) as Hv.
  pose proof (evaluate_filter rq writers e _ Hfil) as Hf.
  destruct (evaluate cx rq writers e _) as [[n|] st]; cbn [fst snd] in *; [|by apply post_ret].
  assert (Hsn : sound (tw_nodes t ++ [n])).
  { apply sound_app; [done|]. by apply (evaluated_nodes e (Some n)). }
  eapply post_bind; [grow|apply take_conn_post|]. intros fb [Hfb _]. apply post_ret.
  set (fb' := fb <| rr_selected_pool_miss_server := _ |>).
  destruct (acquired fb') eqn:Ea; [|done].
  assert (Hse : served [n] sess req fb).
  { assert (Hx : acquired fb = true) by (subst fb'; by destruct fb).
    destruct Hfb as [->|?|Hpe _|r0 Hpe -> _ _]; [done|done| |].
    - by rewrite (pending_not_acquired _ _ _ Hpe) in Hx.
    - by destruct r0. }
  split; [|split; [|done]]; [|subst fb'; by destruct fb, Hse].
  eapply (served_attempt_ok rq writers servers [n] sess req fb' fb);
    [by apply (evaluated_nodes e (Some n))|done|done|by subst fb'; destruct fb, Hse
    |by subst fb'; destruct fb|by subst fb'; destruct fb].
Qed.

Lemma acquire_two_post snapshot sess req :
  post (acquire_two pton4 pton6 cx (P := P) rq writers snapshot e0 e1 sess req)
    (fun '(r, _, st) => ok sess req r /\ filter_ok st).
Proof.
  unfold acquire_two. eapply post_bind; [grow|apply two_reader_post|]. intros t Ht.
  eapply post_bind; [grow|apply take_conn_post|]. intros r [Hr Hemp].
  eapply post_bind; [grow| |].
  - apply ask_peer_ok; [done|]. apply (take_two_ok t); [done|done|]. intros Hx.
    destruct (decide (tw_nodes t = [])) as [|Hne]; [done|]. exfalso.
    destruct (select_of_two_bound (tw_nodes t) (tk_length t Ht) Hne) as (j & Hj & Hlt).
    specialize (Hemp Hx j Hj). lia.
  - intros [[r' nodes] st] (Hok & Hb & Hs & Hf). apply post_ret. split; [|done].
    by apply (two_finish_ok sess req snapshot nodes r').
Qed.

End TwoReaders.

(** ** The finished result *)

(** The fields the diagnostics do not touch. *)
Definition same_outcome (a b : PolarDB_ReaderResult) : Prop :=
  rr_conn a = rr_conn b /\ rr_srv a = rr_srv b /\ rr_status a = rr_status b /\
  rr_wait_bypass_allowed a = rr_wait_bypass_allowed b /\
  rr_selected_server_snapshot a = rr_selected_server_snapshot b /\
  rr_server_saturated a = rr_server_saturated b.

Lemma merge_observation_outcome r n :
  same_outcome (polardb_merge_reader_lsn_observation r n) r.
Proof. unfold polardb_merge_reader_lsn_observation, same_outcome. by repeat case_if; destruct r. Qed.

Lemma observations_outcome nodes r :
  same_outcome (fold_left polardb_merge_reader_lsn_observation nodes r) r.
Proof.
  revert r. induction nodes as [|n nodes IH]; intros r; [done|]. cbn [fold_left].
  destruct (IH (polardb_merge_reader_lsn_observation r n)) as (H1 & H2 & H3 & H4 & H5 & H6).
  destruct (merge_observation_outcome r n) as (G1 & G2 & G3 & G4 & G5 & G6).
  unfold same_outcome. rewrite H1, H2, H3, H4, H5, H6. done.
Qed.

Lemma retry_identity_outcome rq req r : same_outcome (polardb_set_reader_retry_identity rq req r) r.
Proof. unfold polardb_set_reader_retry_identity, same_outcome. case_if; by destruct r. Qed.

Lemma same_outcome_acquired a b : same_outcome a b -> acquired a = acquired b.
Proof. intros (H1 & _ & H3 & _). unfold acquired. by rewrite H1, H3. Qed.

(** The status a result ends with when no reader served it. *)
Definition final_status (rq : reader_request) (st : PolarDB_ReaderStatus)
    (r : PolarDB_ReaderResult) : PolarDB_ReaderStatus :=
  if rr_status r == READER_GROUP_BUSY then READER_GROUP_BUSY
  else if bool_decide (is_Some (rr_srv r)) then
    if rq_only_pooled rq then RFQ_UNAVAILABLE
    else if rr_server_saturated r then READER_BUSY else READER_UNAVAILABLE
  else st.

Lemma finish_result_spec rq req nodes st r :
  let f := finish_result rq req nodes st r in
  rr_conn f = rr_conn r /\ rr_srv f = rr_srv r /\
  rr_wait_bypass_allowed f = rr_wait_bypass_allowed r /\
  rr_selected_server_snapshot f = rr_selected_server_snapshot r /\
  rr_status f = if acquired r then rr_status r else final_status rq st r.
Proof.
  cbn zeta. unfold finish_result.
  set (r1 := if wait_target rq then _ else r).
  assert (H1 : same_outcome r1 r).
  { subst r1. destruct (wait_target rq); [|done].
    match goal with |- same_outcome (fold_left _ nodes ?x) r =>
      destruct (observations_outcome nodes x) as (? & ? & ? & ? & ? & ?) end.
    by destruct r. }
  clearbody r1. rewrite (same_outcome_acquired _ _ H1).
  destruct H1 as (E1 & E2 & E3 & E4 & E5 & E6).
  destruct (acquired r); [by rewrite E1, E2, E3, E4, E5|].
  match goal with |- context [polardb_set_reader_retry_identity rq req ?x] =>
    destruct (retry_identity_outcome rq req x) as (F1 & F2 & F3 & F4 & F5 & F6) end.
  rewrite F1, F2, F3, F4, F5. unfold final_status. rewrite <- E1, <- E2, <- E3, <- E4, <- E5, <- E6.
  destruct (bool_decide (rr_status r1 = READER_GROUP_BUSY)) eqn:Eg; cbn [negb].
  - apply bool_decide_eq_true in Eg. done.
  - by destruct r1.
Qed.

Lemma final_status_unserved rq st r :
  filter_ok st -> final_status rq st r <> ACQUIRED.
Proof.
  intros Hf. unfold final_status. repeat case_if; try done.
  destruct Hf as [-> |[-> |[-> | ->]]]; done.
Qed.

Lemma finish_attempt_ok rq writers servers sess req nodes st r :
  attempt_ok rq writers servers sess req r -> filter_ok st ->
  attempt_ok rq writers servers sess req (finish_result rq req nodes st r).
Proof.
  intros [H1 H2 H3 H4 H5 H6] Hf.
  destruct (finish_result_spec rq req nodes st r) as (F1 & F2 & F3 & _ & F5).
  assert (Ha : acquired (finish_result rq req nodes st r) = acquired r).
  { unfold acquired at 1. rewrite F1, F5. destruct (acquired r) eqn:Ea.
    - unfold acquired in Ea. done.
    - rewrite bool_decide_false by (by apply final_status_unserved). done. }
  assert (Hbusy : rr_status (finish_result rq req nodes st r) = READER_GROUP_BUSY ->
                  rr_status r = READER_GROUP_BUSY).
  { intros Hst. rewrite F5 in Hst. destruct (acquired r); [done|].
    unfold final_status in Hst.
    destruct (bool_decide_reflect (rr_status r = READER_GROUP_BUSY)); [done|].
    repeat case_if_in Hst; try done. destruct Hf as [-> |[-> |[-> | ->]]]; done. }
  constructor; rewrite ?F1, ?F2, ?F3, ?Ha; [done|done|done|auto|done|auto].
Qed.

(** *** The snapshot travels with the result *)

Lemma general_snapshot rq writers servers snapshot sess req :
  post (acquire_general pton4 pton6 cx (P := P) rq writers snapshot servers sess req)
    (fun '(r, _, _) => rr_selected_server_snapshot r = Some snapshot).
Proof.
  unfold acquire_general. apply post_any. intros cd.
  apply post_bind with (R := fun r => rr_selected_server_snapshot r = Some snapshot).
  { grow. }
  { unfold acquire_preferred. case_if; [|by apply post_ret].
    apply post_any. intros p. apply post_ret. case_if; [by destruct p|done]. }
  intros r Hr. apply post_bind with (R := fun r => rr_selected_server_snapshot r = Some snapshot).
  { grow. }
  { unfold acquire_fallback. case_if; [|by apply post_ret].
    apply post_any. intros fb. apply post_ret. unfold merge_fallback.
    set (fb' := if bool_decide (rr_selected_pool_miss_server fb = None) then _ else fb).
    clearbody fb'. repeat case_if; try done; by destruct r, fb'. }
  intros r' Hr'. by apply post_ret.
Qed.

Lemma two_snapshot rq writers e0 e1 snapshot sess req :
  post (acquire_two pton4 pton6 cx (P := P) rq writers snapshot e0 e1 sess req)
    (fun '(r, _, _) => rr_selected_server_snapshot r = Some snapshot).
Proof.
  unfold acquire_two. apply post_any. intros t. apply post_any. intros r0.
  apply post_any. intros [[r nodes] st]. apply post_ret.
  change (rr_selected_server_snapshot (two_finish snapshot nodes r) = Some snapshot).
  unfold two_finish. case_if; [|by destruct r].
  destruct (List.find _ nodes); by destruct r.
Qed.

(** ** The whole acquisition *)

Definition config_of (rq : reader_request) : PolarDB_HG_Config :=
  get_polardb_hg_config (rx_hgm cx) (rq_hid rq).

Definition profile_of (rq : reader_request) : PolarDB_StartupProfile :=
  polardb_startup_profile_for_config (config_of rq) (rx_proxy_protocol cx) (rx_profile_off cx).

Definition writers_of (rq : reader_request) (snapshot : PolarDB_ServerListSnapshot)
  : option (list PolarDB_ServerSnapshotEntry) :=
  if rd_require_replica (rq_plan rq)
  then polardb_find_writer_server_list (config_of rq) snapshot else None.

(** The server list the request selects from. *)
Definition listed (rq : reader_request) (snapshot : PolarDB_ServerListSnapshot)
    (servers : list PolarDB_ServerSnapshotEntry) : Prop :=
  rx_snapshot cx = Some snapshot /\ sn_by_hostgroup snapshot !! rq_hid rq = Some servers.

(** A connection the session can use: it still has to be opened, or it was
    opened with the startup profile and token the request needs. *)
Definition suits (rq : reader_request) (c : PgSQL_Connection) : Prop :=
  cn_connected c = false \/
  cn_profile c = profile_of rq /\
  cn_profile_generation c = generation (profile_of rq) (is_mode (rx_ids cx)).

Lemma classify_full_conn conn cl ui cui sess req :
  exists k, snd (classify_full pton4 pton6 (rx_ids cx) conn cl ui cui sess req) =
            conn <| cn_pool_key := k |>.
Proof.
  assert (Hid : exists k, conn = conn <| cn_pool_key := k |>)
    by (exists (cn_pool_key conn); by destruct conn).
  unfold classify_full. cbn zeta. destruct (negb (has_same_connection_options ui cui)); [done|].
  match goal with |- context [if ?b then (Reuse_IDENTITY_MISMATCH, _, _) else _] => destruct b end;
    [done|].
  destruct (requires_RESETTING_CONNECTION conn cl); [done|].
  destruct (number_of_matching_session_variables conn cl) as [mt nm].
  destruct (negb (nm =? 0)); [done|]. apply ensure_pool_key_only_key.
Qed.

Lemma classify_recoverable conn sess req st n conn' :
  polardb_classify_pool_conn_for_reuse pton4 pton6 (rx_ids cx) (live_facts cx) conn sess req =
    (st, n, conn') ->
  st = Reuse_EXACT \/ st = Reuse_NEEDS_RESET \/ st = Reuse_NEEDS_VARIABLE_UPDATE ->
  conn_profile_matches_request conn req = true /\ exists k, conn' = conn <| cn_pool_key := k |>.
Proof.
  assert (Hid : exists k, conn = conn <| cn_pool_key := k |>)
    by (exists (cn_pool_key conn); by destruct conn).
  assert (Hbad : forall x, ~ (x = Reuse_EXACT \/ x = Reuse_NEEDS_RESET \/
    x = Reuse_NEEDS_VARIABLE_UPDATE) -> (x, 0, conn) = (st, n, conn') ->
    (st = Reuse_EXACT \/ st = Reuse_NEEDS_RESET \/ st = Reuse_NEEDS_VARIABLE_UPDATE) -> False)
    by (intros x Hx [= -> _ _] Hy; by apply Hx).
  unfold polardb_classify_pool_conn_for_reuse. intros Hcl Hst.
  destruct (cn_parent conn); [|by destruct (Hbad _ ltac:(naive_solver) Hcl Hst)].
  destruct (ps_stream sess); [|by destruct (Hbad _ ltac:(naive_solver) Hcl Hst)].
  destruct (ps_client sess) as [cl|]; [|by destruct (Hbad _ ltac:(naive_solver) Hcl Hst)].
  destruct (cn_userinfo conn); [|by destruct (Hbad _ ltac:(naive_solver) Hcl Hst)].
  destruct (cn_userinfo cl); [|by destruct (Hbad _ ltac:(naive_solver) Hcl Hst)].
  case_if_in Hcl; [by destruct (Hbad _ ltac:(naive_solver) Hcl Hst)|].
  case_if_in Hcl; [by destruct (Hbad _ ltac:(naive_solver) Hcl Hst)|].
  bool_to_prop. split; [done|]. revert Hcl. clear - Hid.
  destruct (classify_cached_key (cn_pool_key conn) req) as [st0|].
  { repeat case_if; by intros [= _ _ <-]. }
  repeat case_if; try (intros [= _ _ <-]; done).
  destruct (classify_full_conn conn cl p p0 sess req) as [k Hk]. intros Hf.
  exists k. by rewrite <- Hk, Hf.
Qed.

Lemma fits_profile sess req c :
  fits sess req c -> cn_connected c = false \/ conn_profile_matches_request c req = true.
Proof.
  intros [c0 [Hu|Ha]].
  - right. unfold usable, polardb_reader_pool_conn_usable in Hu.
    destruct (polardb_classify_pool_conn_for_reuse _ _ _ _ _ _ _) as [[st n] c1] eqn:Ec.
    injection Hu as Hu <-. apply bool_decide_eq_true in Hu.
    apply classify_recoverable in Ec as [Hp [k ->]]; [|by left]. by destruct c0.
  - unfold acceptable in Ha. case_if_in Ha.
    + left. injection Ha as <-. by apply negb_true_iff in E.
    + right. destruct (polardb_classify_pool_conn_for_reuse _ _ _ _ _ _ _) as [[st n] c1] eqn:Ec.
      injection Ha as Ha <-. rewrite !orb_true_iff, !bool_decide_eq_true in Ha.
      apply classify_recoverable in Ec as [Hp [k ->]]; [by destruct c0|tauto].
Qed.

Lemma fits_suits rq sess req c :
  pr_startup_profile req = profile_of rq -> pr_startup_identity_mode req = is_mode (rx_ids cx) ->
  fits sess req c -> suits rq c.
Proof.
  intros Hp Hm Hf. destruct (fits_profile sess req c Hf) as [|Hc]; [by left|].
  apply conn_profile_matches_spec in Hc. right. by rewrite <- Hp, <- Hm.
Qed.

Lemma prepared_request_profile profile only_pooled rfq s :
  let req := fst (polardb_prepare_pool_request_for_session pton4 pton6 (rx_ids cx) profile
                    only_pooled rfq s) in
  pr_startup_profile req = profile /\ pr_startup_identity_mode req = is_mode (rx_ids cx).
Proof.
  cbn zeta. unfold polardb_prepare_pool_request_for_session.
  destruct (request_auth_hash s) as [a s1]. destruct (request_options_hash s1) as [o s2].
  by destruct (request_identity_hash _ _ _ _ s2).
Qed.

(** A result that stopped before any server was looked at. *)
Definition stopped_early (rq : reader_request) (r : PolarDB_ReaderResult) : Prop :=
  rr_srv r = None /\ rr_conn r = None /\ rr_wait_bypass_allowed r = false /\
  (hc_is_polardb_hostgroup (config_of rq) = false /\ rr_status r = READER_UNAVAILABLE \/
   has_wait (rq_wait rq) = true /\ requests_rfq_lsn (profile_of rq) = false /\
     rr_status r = RFQ_UNAVAILABLE \/
   lag_cap_enabled (rq_plan rq) = true /\ rd_group_lsn (rq_plan rq) = 0 /\
     rr_status r = GROUP_LSN_UNKNOWN \/
   (forall snapshot servers, listed rq snapshot servers -> servers = []) /\
     rr_status r = READER_UNAVAILABLE).

(** A result over the listed servers. *)
Definition attempted (rq : reader_request) (r : PolarDB_ReaderResult) : Prop :=
  exists snapshot servers sess req,
    listed rq snapshot servers /\
    attempt_ok rq (writers_of rq snapshot) servers sess req r /\
    rr_selected_server_snapshot r = Some snapshot /\
    pr_startup_profile req = profile_of rq /\
    pr_startup_identity_mode req = is_mode (rx_ids cx) /\
    (acquired r = false ->
     rr_status r = READER_GROUP_BUSY \/
     is_Some (rr_srv r) /\
       rr_status r = (if rq_only_pooled rq then RFQ_UNAVAILABLE
                      else if rr_server_saturated r then READER_BUSY else READER_UNAVAILABLE) \/
     rr_srv r = None /\ filter_ok (rr_status r)).

Lemma finish_unserved_status rq req nodes st r :
  filter_ok st -> acquired r = false ->
  let f := finish_result rq req nodes st r in
  rr_server_saturated f = rr_server_saturated r ->
  rr_status f = READER_GROUP_BUSY \/
  is_Some (rr_srv f) /\
    rr_status f = (if rq_only_pooled rq then RFQ_UNAVAILABLE
                   else if rr_server_saturated f then READER_BUSY else READER_UNAVAILABLE) \/
  rr_srv f = None /\ filter_ok (rr_status f).
Proof.
  intros Hf Ha. cbn zeta.
  destruct (finish_result_spec rq req nodes st r) as (_ & F2 & _ & _ & F5). intros Hsat.
  rewrite F5, Ha, F2, Hsat. unfold final_status. case_if; [by left|right].
  destruct (rr_srv r) as [s|]; [left|right].
  - rewrite (bool_decide_true (is_Some _)) by (by eexists). split; [by eexists|done].
  - by rewrite (bool_decide_false (is_Some None)) by (by intros [? ?]).
Qed.

Lemma finish_saturated rq req nodes st r :
  rr_server_saturated (finish_result rq req nodes st r) = rr_server_saturated r.
Proof.
  unfold finish_result. set (r1 := if wait_target rq then _ else r).
  assert (H1 : rr_server_saturated r1 = rr_server_saturated r).
  { subst r1. destruct (wait_target rq); [|done].
    match goal with |- rr_server_saturated (fold_left _ nodes ?x) = _ =>
      destruct (observations_outcome nodes x) as (_ & _ & _ & _ & _ & ->) end. by destruct r. }
  clearbody r1. case_if; [done|].
  match goal with |- context [polardb_set_reader_retry_identity rq req ?x] =>
    destruct (retry_identity_outcome rq req x) as (_ & _ & _ & _ & _ & ->) end.
  case_if; by destruct r1.
Qed.

Lemma try_acquire_post rq :
  post (polardb_try_acquire_reader_connection pton4 pton6 cx (P := P) rq)
    (fun r => stopped_early rq r \/ attempted rq r).
Proof.
  unfold polardb_try_acquire_reader_connection. fold (config_of rq). fold (profile_of rq).
  case_if.
  { apply post_ret. left. split; [done|]. split; [done|]. split; [done|]. left.
    by apply negb_true_iff in E. }
  case_if.
  { apply post_ret. left. bool_to_prop. do 3 (split; [done|]). right. left. by bool_to_prop. }
  case_if.
  { apply post_ret. left. bool_to_prop. do 3 (split; [done|]). right. right. left. done. }
  apply post_bind with (R := fun '(req, _) =>
    pr_startup_profile req = profile_of rq /\
    pr_startup_identity_mode req = is_mode (rx_ids cx)).
  { grow. }
  { apply post_pure. intros w. unfold on_session.
    pose proof (prepared_request_profile (profile_of rq) (rq_only_pooled rq)
      (negb (wsp_target (rq_wait rq) =? 0)) (wd_session w)) as Hp. cbn zeta in Hp.
    by destruct (polardb_prepare_pool_request_for_session _ _ _ _ _ _ _). }
  intros [req sess] [Hprof Hmode].
  destruct (rx_snapshot cx) as [snapshot|] eqn:Esn.
  2: { apply post_ret. left. do 3 (split; [done|]). do 3 right. split; [|done].
       intros ? ? [Hx _]. congruence. }
  destruct (sn_by_hostgroup snapshot !! rq_hid rq) as [servers|] eqn:Ehg.
  2: { apply post_ret. left. do 3 (split; [done|]). do 3 right. split; [|done].
       intros ? ? [Hx Hy]. congruence. }
  assert (Hl : listed rq snapshot servers) by done.
  destruct servers as [|e0 rest] eqn:Eserv.
  { apply post_ret. left. do 3 (split; [done|]). do 3 right. split; [|done].
    intros ? ? [Hx Hy]. congruence. }
  fold (writers_of rq snapshot).
  assert (Hattempt : post
    (match e0 :: rest, rx_has_selection_start cx with
     | [e0; e1], true =>
         acquire_two pton4 pton6 cx (P := P) rq (writers_of rq snapshot) snapshot e0 e1 sess req
     | _, _ => acquire_general pton4 pton6 cx rq (writers_of rq snapshot) snapshot (e0 :: rest)
                 sess req
     end)
    (fun a => (fun '(r, _, st) => attempt_ok rq (writers_of rq snapshot) (e0 :: rest) sess req r /\
       filter_ok st) a /\ (fun '(r, _, _) => rr_selected_server_snapshot r = Some snapshot) a)).
  { destruct rest as [|e1 [|e2 rest]], (rx_has_selection_start cx);
      apply post_and; auto using acquire_general_post, acquire_two_post, general_snapshot,
        two_snapshot. }
  eapply post_bind; [grow|exact Hattempt|]. intros [[r nodes] st] [[Hok Hfil] Hsnap].
  apply post_ret. right. exists snapshot, (e0 :: rest), sess, req.
  split; [done|]. split; [by apply finish_attempt_ok|].
  destruct (finish_result_spec rq req nodes st r) as (F1 & F2 & F3 & F4 & F5).
  split; [by rewrite F4|]. split; [done|]. split; [done|]. intros Ha.
  apply finish_unserved_status; [done| |apply finish_saturated].
  destruct (acquired r) eqn:Er; [|done]. unfold acquired in Ha. rewrite F1, F5 in Ha.
  unfold acquired in Er. congruence.
Qed.
End Acquire.

#[export] Hint Resolve grows_get grows_local grows_discard grows_rand grows_next grows_session
  grows_take_local grows_take_shared grows_from_server grows_with_alternate grows_try
  grows_walk_pooled grows_walk_capacity grows_take_conn grows_pick grows_pick_second
  grows_two_choices grows_get_conn grows_two_candidates grows_general_candidates grows_two
  grows_preferred grows_fallback grows_general grows_full_scan grows_create grows_try_acquire : grows.

Ltac grow := grow_with grows_ret grows_bind.
