(* ===== verification/ReaderAcquire.v ===== *)
(** * The contract of a reader acquisition

    What [polardb_acquire_reader_connection] of
    lib/PgSQL_PolarDB_ReaderPool.cpp promises to the route pipeline: which
    server it names, which connection it hands out, what each status means,
    and how two readers share the work.  Proved for every connection pool and
    every outcome of the random draws, from the postconditions of
    ReaderSafety. *)

From S2P Require Import Prelude Policy Startup Session Query Topology.
From S2P Require Import ServerList PoolConn Reader ReaderSafety.
From Stdlib Require Import ZArith String List Bool Permutation Lia.
From stdpp Require Import base tactics list gmap strings.

Open Scope Z_scope.
Open Scope polar_scope.

(** ** The final result *)

Section Contract.
Context (pton4 : string -> option Z) (pton6 : string -> option (list Z)).
Context (cx : reader_context).
Context {P : Type} `{pool : ServerPool P}.
Context (said_full : srv_id -> P -> Prop) `{Hrecord : !FullRecord P said_full}.
Context (reported_full : srv_id -> Prop).
Context (rq : reader_request).

#[local] Abbreviation post := (post said_full reported_full).
#[local] Abbreviation attempt_ok := (attempt_ok pton4 pton6 cx reported_full).

#[local] Notation "'eligible_in' snapshot servers s" :=
  (eligible_server cx rq (writers_of cx rq snapshot) servers s)
  (at level 10, snapshot at level 9, servers at level 9, s at level 9).

(** The status of a result that names a reader but has no connection. *)
Definition waits_for_reader (r : PolarDB_ReaderResult) : Prop :=
  rr_status r = READER_BUSY \/ rr_status r = READER_GROUP_BUSY \/
  rr_status r = RETRY_AFTER_CONFIG_CHANGE \/
  (rr_status r = RFQ_UNAVAILABLE /\ rq_only_pooled rq = true).

(** What holds of a result over a listed set of servers. *)
Record concluded (snapshot : PolarDB_ServerListSnapshot)
    (servers : list PolarDB_ServerSnapshotEntry) (r : PolarDB_ReaderResult) : Prop := {
  co_srv : forall s, rr_srv r = Some s -> eligible_in snapshot servers s;
  co_acquired : acquired r = true ->
    is_Some (rr_srv r) /\
    exists c, rr_conn r = Some c /\ suits cx rq c /\ cn_server_snapshot c = Some snapshot;
  co_bypass : rr_wait_bypass_allowed r = true ->
    acquired r = true /\ exists s, rr_srv r = Some s /\ target_reached cx rq s;
  co_busy : weights_sane servers -> rr_status r = READER_GROUP_BUSY ->
    every_reader_full cx reported_full rq (writers_of cx rq snapshot) servers;
  co_live : weights_sane servers -> (exists s, eligible_in snapshot servers s) ->
    acquired r = true \/ waits_for_reader r;
  co_none : rr_srv r = None -> filter_ok (rr_status r)
}.

Definition concludes (r : PolarDB_ReaderResult) : Prop :=
  stopped_early cx rq r \/
  exists snapshot servers, listed cx rq snapshot servers /\ concluded snapshot servers r.

Lemma create_on_selected_post selected hid sess req g n :
  post (create_on_selected pton4 pton6 cx (P := P) selected hid sess req g n)
    (fun o => forall c created, o = Creation_CONN c created ->
       created = true \/ fits pton4 pton6 cx sess req c).
Proof.
  induction n as [|n IH]; cbn [create_on_selected]; [by apply post_ret|].
  apply post_any. intros got. case_if; [by apply post_ret|].
  destruct (gr_conn got) as [c0|]; [|by apply post_ret]. case_if.
  - apply post_ret. intros c created [= <- <-]. by left.
  - destruct (usable pton4 pton6 cx sess req c0) as [[|] c1] eqn:Eu.
    + apply post_ret. intros c created [= <- <-]. right. exists c0. by left.
    + by apply post_any.
Qed.

Lemma suits_snapshot c o :
  suits cx rq c -> suits cx rq (c <| cn_server_snapshot := o |>).
Proof. by destruct c. Qed.

(** The status decides whether a result without a new connection is final. *)
Lemma pending_concluded snapshot servers sess req r st :
  attempt_ok rq (writers_of cx rq snapshot) servers sess req r ->
  acquired r = false -> st <> ACQUIRED ->
  (st = READER_GROUP_BUSY -> rr_status r = READER_GROUP_BUSY) ->
  (is_Some (rr_srv r) -> waits_for_reader (r <| rr_status := st |>)) ->
  (rr_srv r = None -> filter_ok st) ->
  concluded snapshot servers (r <| rr_status := st |>).
Proof.
  intros [H1 H2 H3 H4 H5 H6] Ha Hst Hb Hw Hf.
  assert (Hn : acquired (r <| rr_status := st |>) = false).
  { unfold acquired. cbn. by rewrite bool_decide_false by (by destruct r). }
  constructor.
  - intros s. destruct r; apply H1.
  - congruence.
  - intros Hx. assert (rr_wait_bypass_allowed r = true) as Hy by (by destruct r).
    destruct (H3 Hy) as [? _]. congruence.
  - intros Hs Hx. apply H4; [done|]. apply Hb. by destruct r.
  - intros Hs He. right. apply Hw. by apply H5.
  - intros Hx. destruct r; by apply Hf.
Qed.

Lemma same_concluded snapshot servers sess req r :
  attempt_ok rq (writers_of cx rq snapshot) servers sess req r ->
  acquired r = false -> rr_status r <> ACQUIRED ->
  (is_Some (rr_srv r) -> waits_for_reader r) ->
  (rr_srv r = None -> filter_ok (rr_status r)) -> concluded snapshot servers r.
Proof.
  intros H1 H2 H3 H4 H5.
  assert (Hr : r <| rr_status := rr_status r |> = r) by (by destruct r).
  rewrite <- Hr. eapply pending_concluded; [done..| |done]. by rewrite Hr.
Qed.

(** A served result takes the snapshot over. *)
Lemma served_concluded snapshot servers sess req r :
  attempt_ok rq (writers_of cx rq snapshot) servers sess req r ->
  acquired r = true -> rr_selected_server_snapshot r = Some snapshot ->
  pr_startup_profile req = profile_of cx rq -> pr_startup_identity_mode req = is_mode (rx_ids cx) ->
  concluded snapshot servers (attach_snapshot r).
Proof.
  intros [H1 H2 H3 H4 H5 H6] Ha Hs Hp Hm. destruct (H2 Ha) as [Hsrv (c & Hc & Hf)].
  assert (Hst : rr_status r = ACQUIRED).
  { unfold acquired in Ha. by apply andb_true_iff in Ha as [?%bool_decide_eq_true _]. }
  assert (Ha' : acquired (attach_snapshot r) = true).
  { unfold acquired, attach_snapshot. destruct r. cbn in *. subst.
    by rewrite !bool_decide_true by (by eexists). }
  constructor.
  - intros s. destruct r; apply H1.
  - intros _. split; [by destruct r|].
    exists (c <| cn_server_snapshot := Some snapshot |>).
    split; [destruct r; cbn in *; by rewrite Hc, Hs|].
    split; [apply suits_snapshot; by eapply fits_suits|by destruct c].
  - intros Hb. split; [done|]. assert (rr_wait_bypass_allowed r = true) as Hy by (by destruct r).
    destruct (H3 Hy) as [_ (s & Hx & Ht)]. exists s. by destruct r.
  - intros _ Hb. assert (rr_status r = READER_GROUP_BUSY) by (by destruct r). congruence.
  - intros _ _. by left.
  - intros Hn. assert (rr_srv r = None) as Hy by (by destruct r).
    rewrite Hy in Hsrv. by destruct Hsrv.
Qed.

Lemma same_outcome_concluded snapshot servers a b :
  same_outcome a b -> concluded snapshot servers b -> concluded snapshot servers a.
Proof.
  intros Hs [C1 C2 C3 C4 C5 C6]. pose proof (same_outcome_acquired a b Hs) as Hacq.
  destruct Hs as (F1 & F2 & F3 & F4 & F5 & F6).
  constructor; unfold waits_for_reader in *; rewrite ?Hacq, ?F1, ?F2, ?F3, ?F4; assumption.
Qed.

Lemma acquire_concludes :
  post (polardb_acquire_reader_connection pton4 pton6 cx (P := P) rq)
    (fun '(r, _) => concludes r).
Proof.
  unfold polardb_acquire_reader_connection.
  eapply post_bind; [grow|by apply try_acquire_post|]. intros r [He|Hat].
  { assert (acquired r = false) as -> by
      (destruct He as (_ & Hc & _); unfold acquired; rewrite Hc;
       by rewrite (bool_decide_false (is_Some None)), andb_false_r by (by intros [? ?])).
    assert (rr_srv r = None) as -> by (by destruct He).
    case_if; apply post_ret; by left. }
  destruct Hat as (snapshot & servers & sess & req & Hl & Hok & Hsn & Hp & Hm & Hun).
  destruct (acquired r) eqn:Ea.
  { apply post_ret. right. exists snapshot, servers. split; [done|]. by eapply served_concluded. }
  specialize (Hun eq_refl).
  assert (Hnone : rr_srv r = None -> filter_ok (rr_status r)).
  { intros Hn. destruct Hok as [_ _ _ _ _ Hnm]. rewrite Hn in Hnm, Hun.
    destruct Hun as [Hx|[[[? ?] _]|[_ ?]]]; [destruct (Hnm Hx) as [? ?]|..]; done. }
  assert (Hst : rr_status r <> ACQUIRED).
  { destruct Hun as [-> |[[_ ->]|[_ [-> |[-> |[-> | ->]]]]]]; by repeat case_if. }
  case_if.
  { apply post_ret. right. exists snapshot, servers. split; [done|].
    eapply same_concluded; [done..| |done]. intros Hsome. unfold waits_for_reader.
    destruct Hun as [-> |[[_ Hs]|[Hn _]]]; [tauto| |by rewrite Hn in Hsome; destruct Hsome].
    rewrite Hs in *. destruct (rq_only_pooled rq) eqn:Eo; [tauto|].
    destruct (rr_server_saturated r); [tauto|]. done. }
  destruct (rr_srv r) as [selected|] eqn:Esrv.
  2: { apply post_ret. right. exists snapshot, servers. split; [done|].
       eapply same_concluded; [done..| |by rewrite Esrv]. rewrite Esrv. by intros [? ?]. }
  fold (config_of cx rq). fold (profile_of cx rq).
  apply post_bind with (R := fun '(req, _) =>
    pr_startup_profile req = profile_of cx rq /\
    pr_startup_identity_mode req = is_mode (rx_ids cx)).
  { grow. }
  { apply post_pure. intros w. unfold on_session.
    pose proof (prepared_request_profile pton4 pton6 cx (profile_of cx rq) false
      (negb (wsp_target (rq_wait rq) =? 0)) (wd_session w)) as Hp'. cbn zeta in Hp'.
    by destruct (polardb_prepare_pool_request_for_session _ _ _ _ _ _ _). }
  intros [req' sess'] [Hp' Hm'].
  eapply post_bind; [grow|apply create_on_selected_post|]. intros out Hout.
  assert (Hpend : forall st, st <> ACQUIRED -> st <> READER_GROUP_BUSY ->
    waits_for_reader (r <| rr_status := st |>) ->
    concluded snapshot servers (r <| rr_status := st |>)).
  { intros st H1 H2 H3. eapply pending_concluded; [done..|done| |by rewrite Esrv]. auto. }
  destruct out as [| |conn created]; apply post_ret; right; exists snapshot, servers;
    (split; [done|]).
  - apply Hpend; [done..|]. unfold waits_for_reader. destruct r; cbn. tauto.
  - set (rb := r <| rr_status := READER_BUSY |>).
    assert (Hrb : concluded snapshot servers rb).
    { apply Hpend; [done..|]. unfold waits_for_reader. destruct r; cbn. tauto. }
    eapply same_outcome_concluded; [apply retry_identity_outcome|done].
  - destruct Hok as [O1 O2 O3 O4 O5 O6].
    constructor.
    + intros s Hs. assert (selected = s) as -> by (destruct r; cbn in Hs; congruence).
      by apply O1.
    + intros _. split; [eexists; by destruct r|].
      destruct created.
      * eexists. split; [by destruct r|]. split; [|by destruct r, conn; cbn in *; subst].
        right. rewrite <- Hm'. by destruct r, conn.
      * eexists. split; [by destruct r|]. split; [|by destruct r, conn; cbn in *; subst].
        apply suits_snapshot. destruct (Hout conn false eq_refl) as [|Hf]; [done|].
        by eapply fits_suits.
    + by destruct r.
    + by destruct r.
    + intros _ _. left. by destruct r.
    + by destruct r.
Qed.

Lemma stopped_not_acquired r : stopped_early cx rq r -> acquired r = false.
Proof.
  intros (_ & Hc & _). unfold acquired. rewrite Hc.
  by rewrite (bool_decide_false (is_Some None)), andb_false_r by (by intros [? ?]).
Qed.

End Contract.

(** ** The contract *)

Section Theorems.
Context (pton4 : string -> option Z) (pton6 : string -> option (list Z)).
Context (cx : reader_context) (rq : reader_request).

#[local] Notation "'eligible_in' snapshot servers s" :=
  (eligible_server cx rq (writers_of cx rq snapshot) servers s)
  (at level 10, snapshot at level 9, servers at level 9, s at level 9).
#[local] Notation acquire P := (polardb_acquire_reader_connection pton4 pton6 cx (P := P) rq).

(** What every run concludes, for a pool without a record. *)
Lemma run_concludes {P} `{ServerPool P} w r warm w' :
  acquire P w = (r, warm, w') -> concludes cx (fun _ => True) rq r.
Proof.
  intros Hrun. pose proof (acquire_concludes pton4 pton6 cx (fun _ (_ : P) => True)
    (fun _ => True) rq w (fun _ _ => I)) as Hc. by rewrite Hrun in Hc.
Qed.

(** C3: A reader connection is handed out only for a server the request may
    use, in the snapshot it selected from: configured, online and usable, a
    known replica of the writer list when the plan requires one, not the
    excluded endpoint, and inside the lag cap by a trusted position.  The
    connection still has to be opened or carries the startup profile the
    request needs, it holds the snapshot that keeps the server valid, and the
    wait may be skipped only when the server's trusted position has reached the
    wait target. *)
Theorem acquired_reader_is_eligible {P} `{ServerPool P} w r warm w' :
  acquire P w = (r, warm, w') -> acquired r = true ->
  exists snapshot servers s c,
    listed cx rq snapshot servers /\
    rr_srv r = Some s /\ eligible_in snapshot servers s /\
    rr_conn r = Some c /\ suits cx rq c /\ cn_server_snapshot c = Some snapshot /\
    (rr_wait_bypass_allowed r = true -> target_reached cx rq s).
Proof.
  intros Hrun Ha. pose proof (run_concludes w r warm w' Hrun) as Hc.
  destruct Hc as [Hs%stopped_not_acquired|(snapshot & servers & Hl & [C1 C2 C3 _ _ _])];
    [congruence|].
  destruct (C2 Ha) as [[s Hs] (c & Hc & Hsuit & Hsn)].
  exists snapshot, servers, s, c. repeat (split; [by auto|]).
  intros Hb. destruct (C3 Hb) as [_ (s' & Hs' & Ht)]. by simplify_eq.
Qed.

(** C5: The group-busy status, which registers the request as a waiter for
    capacity, is exhaustive: it is given only when the request asked for the
    confirmation, at least one reader of the list is eligible, and during this
    very acquisition the pool of every eligible reader answered, without a
    connection, that it is at its limit.  The run is over a pool that keeps its
    answers. *)
Theorem group_busy_is_exhaustive {P} `{ServerPool P} w r warm w' :
  acquire (P * list (srv_id * PgSQL_PoolGetResult)) w = (r, warm, w') ->
  snd (wd_pool w) = [] -> rr_status r = READER_GROUP_BUSY ->
  exists snapshot servers, listed cx rq snapshot servers /\
    (weights_sane servers ->
     rq_confirm_capacity rq = true /\ (exists s, eligible_in snapshot servers s) /\
     forall s, eligible_in snapshot servers s -> answered_full s (wd_pool w')).
Proof.
  intros Hrun _ Hb.
  pose proof (acquire_concludes pton4 pton6 cx answered_full
    (fun s => answered_full s (wd_pool w')) rq w) as Hc.
  rewrite Hrun in Hc. specialize (Hc (fun _ Hx => Hx)).
  destruct Hc as [(_ & _ & _ & He)|(snapshot & servers & Hl & [C1 _ _ C4 _ C6])].
  { by destruct He as [[_ ?]|[(_ & _ & ?)|[(_ & _ & ?)|[_ ?]]]]; congruence. }
  exists snapshot, servers. split; [done|]. intros Hs. destruct (C4 Hs Hb) as [Hcf Hall].
  split; [done|]. split; [|done]. destruct (rr_srv r) as [s|] eqn:Es; [exists s; auto|].
  rewrite Hb in C6. by destruct (C6 eq_refl) as [|[|[|]]].
Qed.

Lemma retry_statuses fallback r :
  acquired r = true \/ waits_for_reader rq r ->
  polardb_reader_acquire_action fallback (rr_status r) = RETRY_READER.
Proof.
  intros [Ha|[-> |[-> |[-> |[-> _]]]]]; [|done..].
  unfold acquired in Ha. by apply andb_true_iff in Ha as [->%bool_decide_eq_true _].
Qed.

Lemma filter_statuses fallback st :
  filter_ok st -> polardb_reader_acquire_action fallback st <> RETRY_READER.
Proof. intros [-> |[-> |[-> | ->]]]; by destruct fallback. Qed.

(** C4: The request goes on trying readers exactly when there is a reader for
    it: over a list of servers with 32-bit weights, in a PolarDB hostgroup,
    when the inputs the request depends on are there, the status makes the
    caller retry a reader if and only if some listed server is eligible, and
    then the request has a connection or a status that waits for one.  Filters,
    draws, busy pools and failed creations never turn it into a redirect or an
    error. *)
Theorem eligible_reader_is_never_abandoned {P} `{ServerPool P} snapshot servers w r warm w' fallback :
  acquire P w = (r, warm, w') -> listed cx rq snapshot servers -> weights_sane servers ->
  hc_is_polardb_hostgroup (config_of cx rq) = true ->
  (has_wait (rq_wait rq) = true -> requests_rfq_lsn (profile_of cx rq) = true) ->
  (lag_cap_enabled (rq_plan rq) = true -> rd_group_lsn (rq_plan rq) <> 0) ->
  (polardb_reader_acquire_action fallback (rr_status r) = RETRY_READER <->
   exists s, eligible_in snapshot servers s) /\
  ((exists s, eligible_in snapshot servers s) -> acquired r = true \/ waits_for_reader rq r).
Proof.
  intros Hrun Hl Hsane Hpg Hrfq Hlag. pose proof (run_concludes w r warm w' Hrun) as Hc.
  destruct Hc as [(_ & _ & _ & He)|(snapshot' & servers' & Hl' & [C1 C2 _ _ C5 C6])].
  - destruct He as [[? _]|[(? & ? & _)|[(? & ? & _)|[Hempty Hst]]]];
      [congruence|naive_solver congruence|naive_solver|].
    assert (Hno : ~ exists s, eligible_in snapshot servers s).
    { intros (s & e & Hin & _). by rewrite (Hempty _ _ Hl) in Hin. }
    split; [|by intros ?%Hno]. split; [|by intros ?%Hno]. rewrite Hst.
    intros ?%filter_statuses; [done|by left].
  - destruct Hl as [Hl1 Hl2], Hl' as [Hl1' Hl2']. simplify_eq.
    split; [|by apply C5]. split; [|intros; by apply retry_statuses, C5].
    intros Hret. destruct (rr_srv r) as [s|] eqn:Es; [exists s; auto|].
    by destruct (filter_statuses fallback (rr_status r) (C6 eq_refl)).
Qed.

End Theorems.

(** ** The check of a retained reader *)

Section Retained.
Context (cx : reader_context) (rq : reader_request).

Lemma lag_policy_spec srv :
  (lag_cap_enabled (rq_plan rq) = true -> rd_group_lsn (rq_plan rq) <> 0) ->
  server_meets_lag_policy cx srv (rq_plan rq) (rq_wait rq)
    (if lag_cap_enabled (rq_plan rq) then rx_now_us cx else 0) = true <->
  lag_ok cx rq srv.
Proof.
  unfold server_meets_lag_policy, lag_ok, fresh_ms_for. intros Hg.
  destruct (lag_cap_enabled (rq_plan rq)) eqn:El; cbn [negb]; [|split; [discriminate|done]].
  rewrite (proj2 (Z.eqb_neq _ _) (Hg eq_refl)). cbn zeta.
  rewrite !andb_true_iff, negb_true_iff, Z.eqb_neq. split; [tauto|].
  intros Ha. specialize (Ha eq_refl). tauto.
Qed.

Lemma find_listed (servers : list PolarDB_ServerSnapshotEntry) e :
  NoDup (map en_srv servers) -> In e servers ->
  List.find (fun e' => en_srv e' =? en_srv e) servers = Some e.
Proof.
  induction servers as [|x servers IH]; [done|]. cbn. intros Hnd [->|Hin].
  - by rewrite Z.eqb_refl.
  - apply NoDup_cons in Hnd as [Hx Hnd]. destruct (Z.eqb_spec (en_srv x) (en_srv e)) as [Heq|].
    + exfalso. apply Hx. rewrite Heq. by apply list_elem_of_In, in_map.
    + by apply IH.
Qed.

(** The check that lets a request go back to the reader it holds agrees with
    the selection: over a list that names each server once, it accepts a
    server, and returns the snapshot that keeps it valid, exactly when the
    selection would find that server eligible now. *)
Theorem retained_reader_check_agrees snapshot servers srv :
  listed cx rq snapshot servers -> NoDup (map en_srv servers) ->
  (lag_cap_enabled (rq_plan rq) = true -> rd_group_lsn (rq_plan rq) <> 0) ->
  (rd_require_replica (rq_plan rq) = true -> hc_is_polardb_hostgroup (config_of cx rq) = true) ->
  server_can_serve_request cx (rq_hid rq) srv (rq_plan rq) (rq_wait rq)
    (rq_exclude_address rq) (rq_exclude_port rq) = Some snapshot <->
  eligible_server cx rq (writers_of cx rq snapshot) servers srv.
Proof.
  intros [Hsn Hhg] Hnd Hlag Hpg.
  unfold server_can_serve_request, resolve_reader_server_snapshot.
  rewrite Hsn. cbn. rewrite Hhg. cbn.
  pose proof (lag_policy_spec srv Hlag) as Hpol. fold (config_of cx rq). split.
  - destruct (endpoint_excluded _ _ _ srv) eqn:Eex; [done|].
    destruct (List.find _ servers) as [e|] eqn:Ef; cbn; [|done].
    apply find_some in Ef as [Hin He]. apply Z.eqb_eq in He as <-.
    destruct (polardb_reader_is_candidate cx e) eqn:Ec; [|done].
    destruct (rd_require_replica (rq_plan rq) && _) eqn:E; [done|].
    destruct (server_meets_lag_policy _ _ _ _ _) eqn:E0; [|done].
    intros _. exists e. split; [done|]. split; [|done]. constructor; [done| |done|by apply Hpol].
    intros Hreq. rewrite Hreq in E. unfold writers_of. rewrite Hreq.
    rewrite (Hpg Hreq) in E. cbn in E. by apply negb_false_iff in E.
  - intros (e & Hin & [H1 H2 H3 H4] & <-). rewrite H3, find_listed by done. cbn. rewrite H1.
    rewrite (proj2 Hpol H4). cbn [negb].
    destruct (rd_require_replica (rq_plan rq)) eqn:Er; [|done]. cbn [andb].
    unfold writers_of in H2. rewrite Er in H2. by rewrite (Hpg eq_refl), H2.
Qed.

End Retained.

(** ** The rotation between two readers *)

Section Rotation.
Context (hid generation weight0 weight1 : Z).

(** [n] selections in a row by one worker. *)
Fixpoint selections (n : nat) (s : selection_state) : list Z :=
  match n with
  | O => []
  | S n' =>
      let '(sequence, s') := polardb_next_reader_selection_sequence hid generation s in
      weighted_index sequence weight0 weight1 :: selections n' s'
  end.

(** The next sequence value of the hostgroup is [n]. *)
Definition next_is (s : selection_state) (n : Z) : Prop :=
  sq_generation s = Some generation /\
  exists l, next_in_sequences hid (sq_sequences s) = Some (n, l).

Lemma next_in_sequences_next l n l' :
  next_in_sequences hid l = Some (n, l') ->
  exists l'', next_in_sequences hid l' = Some (wrap64 (n + 1), l'').
Proof.
  revert l'. induction l as [|[hg x] l IH]; cbn; [done|]. intros l'.
  destruct (Z.eqb_spec hg hid) as [->|Hne].
  - intros [= -> <-]. cbn. rewrite Z.eqb_refl. by eexists.
  - destruct (next_in_sequences hid l) as [[m r]|]; [|done]. intros [= -> <-].
    destruct (IH r eq_refl) as [l'' Hl]. cbn. rewrite (proj2 (Z.eqb_neq _ _) Hne), Hl. by eexists.
Qed.

Lemma next_in_sequences_fresh l x :
  next_in_sequences hid l = None ->
  exists l', next_in_sequences hid (l ++ [(hid, x)]) = Some (x, l').
Proof.
  induction l as [|[hg y] l IH]; cbn; [rewrite Z.eqb_refl; by eexists|].
  destruct (hg =? hid); [done|]. destruct (next_in_sequences hid l) as [[]|]; [done|].
  intros _. destruct (IH eq_refl) as [l' ->]. by eexists.
Qed.

Lemma selection_after s :
  next_is (snd (polardb_next_reader_selection_sequence hid generation s))
          (wrap64 (fst (polardb_next_reader_selection_sequence hid generation s) + 1)).
Proof.
  unfold polardb_next_reader_selection_sequence.
  set (s0 := if bool_decide (sq_generation s = Some generation) then _ else _).
  assert (Hs0 : sq_generation s0 = Some generation).
  { subst s0. by destruct (bool_decide_reflect (sq_generation s = Some generation)). }
  clearbody s0. destruct (next_in_sequences hid (sq_sequences s0)) as [[n l]|] eqn:E; cbn.
  - split; [done|]. by eapply next_in_sequences_next.
  - split; [done|]. by apply next_in_sequences_fresh.
Qed.

Lemma selection_is s n :
  next_is s n -> fst (polardb_next_reader_selection_sequence hid generation s) = n.
Proof.
  intros [Hg [l Hl]]. unfold polardb_next_reader_selection_sequence.
  by rewrite Hg, bool_decide_true, Hl by done.
Qed.

(** A run uses consecutive sequence values. *)
Lemma selections_consecutive n s first :
  next_is s first -> 0 <= first -> first + Z.of_nat n <= U64_MODULUS ->
  selections n s =
    map (fun k => weighted_index (first + Z.of_nat k) weight0 weight1) (seq 0 n).
Proof.
  revert s first. induction n as [|n IH]; intros s first Hs H0 Hb; [done|].
  cbn [selections seq map]. pose proof (selection_after s) as Ha.
  rewrite (selection_is s first Hs) in Ha.
  pose proof (selection_is s first Hs) as Hf.
  destruct (polardb_next_reader_selection_sequence hid generation s) as [x s'] eqn:E.
  cbn [fst snd] in *. subst x. f_equal; [f_equal; lia|].
  destruct n as [|n]; [done|]. assert (Hw : wrap64 (first + 1) = first + 1).
  { apply wrap64_id. unfold is_u64. lia. }
  rewrite Hw in Ha. rewrite (IH s' (first + 1) Ha) by lia.
  rewrite <- seq_shift, map_map. apply map_ext. intros k. f_equal. lia.
Qed.

(** The points at which reader 1 has received its share. *)
Definition share (n : Z) : Z := n * weight1 / (weight0 + weight1).

Lemma share_period n q :
  0 < weight0 + weight1 -> share (n + q * (weight0 + weight1)) = share n + q * weight1.
Proof.
  intros Hw. unfold share.
  replace ((n + q * (weight0 + weight1)) * weight1)
    with (n * weight1 + q * weight1 * (weight0 + weight1)) by ring.
  by rewrite Z.div_add by lia.
Qed.

Lemma share_step n :
  0 <= weight0 -> 0 <= weight1 -> 0 < weight0 + weight1 ->
  share n <= share (n + 1) <= share n + 1.
Proof.
  intros H0 H1 Hw. unfold share. split.
  - apply Z.div_le_mono; [lia|]. nia.
  - rewrite <- (Z.div_add (n * weight1) 1) by lia. apply Z.div_le_mono; nia.
Qed.

Lemma weighted_index_share n :
  0 <= weight0 -> 0 <= weight1 -> weight0 <> weight1 -> weight0 + weight1 < U64_MODULUS ->
  0 <= n -> weighted_index n weight0 weight1 = share (n + 1) - share n.
Proof.
  intros H0 H1 Hne Hlt Hn. assert (Hw : 0 < weight0 + weight1) by lia.
  unfold weighted_index. rewrite wrap64_id by (unfold is_u64; lia).
  rewrite !(proj2 (Z.eqb_neq _ _)) by lia. cbn [negb andb]. cbn zeta.
  fold (share (n mod (weight0 + weight1))). fold (share (n mod (weight0 + weight1) + 1)).
  set (W := weight0 + weight1) in *.
  pose proof (share_period (n mod W) (n / W) Hw) as P1.
  pose proof (share_period (n mod W + 1) (n / W) Hw) as P2.
  pose proof (share_step (n mod W) H0 H1 Hw) as Hst. fold W in P1, P2.
  pose proof (Z.div_mod n W ltac:(lia)) as Hdm.
  replace (n mod W + n / W * W) with n in P1 by lia.
  replace (n mod W + 1 + n / W * W) with (n + 1) in P2 by lia.
  destruct (Z.ltb_spec (share (n mod W)) (share (n mod W + 1))); lia.
Qed.

Lemma share_sum n first :
  fold_right Z.add 0 (map (fun k => share (first + Z.of_nat k + 1) - share (first + Z.of_nat k))
                        (seq 0 n))
  = share (first + Z.of_nat n) - share first.
Proof.
  revert first. induction n as [|n IH]; intros first; [cbn; rewrite Z.add_0_r; lia|].
  cbn [seq map fold_right]. rewrite <- seq_shift, map_map.
  rewrite (map_ext _ (fun k => share (first + 1 + Z.of_nat k + 1) - share (first + 1 + Z.of_nat k))).
  - rewrite IH. replace (first + Z.of_nat 0) with first by lia.
    replace (first + 1 + Z.of_nat n) with (first + Z.of_nat (S n)) by lia. lia.
  - intros k. replace (first + Z.of_nat (S k)) with (first + 1 + Z.of_nat k) by lia. done.
Qed.

(** Two readers of different weights share the selections exactly: whatever
    the worker's state was before, in any [weight0 + weight1] selections that
    follow its next one, the second reader is chosen exactly [weight1] times,
    so the first one exactly [weight0] times, as long as the 64-bit sequence
    does not wrap inside the window. *)
Theorem weighted_rotation_exact s :
  0 <= weight0 -> 0 <= weight1 -> weight0 <> weight1 -> weight0 + weight1 < U64_MODULUS ->
  let '(last, s') := polardb_next_reader_selection_sequence hid generation s in
  0 <= last -> last + 1 + (weight0 + weight1) <= U64_MODULUS ->
  let chosen := selections (Z.to_nat (weight0 + weight1)) s' in
  Forall (fun i => i = 0 \/ i = 1) chosen /\
  fold_right Z.add 0 chosen = weight1 /\
  Z.of_nat (length chosen) - fold_right Z.add 0 chosen = weight0.
Proof.
  intros H0 H1 Hne Hlt. pose proof (selection_after s) as Ha.
  destruct (polardb_next_reader_selection_sequence hid generation s) as [last s'].
  cbn [fst snd] in Ha. intros Hl Hb. rewrite wrap64_id in Ha by (unfold is_u64; lia).
  assert (Hw : 0 < weight0 + weight1) by lia. cbn zeta.
  rewrite (selections_consecutive _ s' (last + 1)) by (done || lia).
  rewrite (map_ext_in _ (fun k => share (last + 1 + Z.of_nat k + 1) - share (last + 1 + Z.of_nat k)))
    by (intros k _; apply weighted_index_share; lia).
  split.
  - apply Forall_forall. intros x Hx. apply list_elem_of_In, in_map_iff in Hx as (k & <- & _).
    pose proof (share_step (last + 1 + Z.of_nat k) H0 H1 Hw). lia.
  - rewrite share_sum, Z2Nat.id by lia.
    replace (last + 1 + (weight0 + weight1)) with (last + 1 + 1 * (weight0 + weight1)) by lia.
    rewrite share_period by done. rewrite length_map, length_seq, Z2Nat.id by lia. lia.
Qed.

End Rotation.

(** ** Witnesses *)

(** One free connection slot per server, and nothing cached. *)
Record slot_pool := mkSlots { sp_slots : list (srv_id * nat) }.

Fixpoint take_slot (s : srv_id) (l : list (srv_id * nat)) : option (list (srv_id * nat)) :=
  match l with
  | [] => None
  | (s', n) :: l' =>
      if s' =? s then
        match n with O => None | S n' => Some ((s', n') :: l') end
      else match take_slot s l' with Some r => Some ((s', n) :: r) | None => None end
  end.

(** A connection that still has to be opened. *)
Definition unopened (s : srv_id) : PgSQL_Connection :=
  mkConnection 40 (Some s) false false false (from_protocol Protocol_OFF) 0 0 0
    (mkStartupClient (mkStartupIdentity "" 0 IdentitySource_LISTENER_PROXY) false "" "" false 0 0)
    no_pool_key false None [] [] 0 0 None.

#[global] Instance slots_pool : ServerPool slot_pool := {|
  take_local := fun _ _ _ p => (None, p);
  get_from_selected := fun s _ _ mode _ _ _ p =>
    match take_slot s (sp_slots p) with
    | Some l =>
        if md_create mode then (mkGet (Some (unopened s)) Source_CREATED false false false, mkSlots l)
        else (mkGet None Source_NONE false false false, p)
    | None => (mkGet None Source_NONE true false false, p)
    end;
  drop_connection := fun _ _ p => p
|}.

Definition sample_live (s : srv_id) : reader_server :=
  mkReaderServer (mkFacts SERVER_ONLINE true)
    (if s =? 1 then "w" else if s =? 2 then "r1" else "r2") 5432 1000 3
    (if s =? 2 then 700 else 950) 90000.

Definition sample_reader_lists : PolarDB_ServerListSnapshot :=
  mkSnapshot 6 (<[10 := [mkEntry 1 1 100 0]]>
                  {[20 := [mkEntry 2 1 100 0; mkEntry 3 2 100 0]]}).

Definition sample_context : reader_context :=
  mkReaderContext sample_hgm sample_live (fun s => Some (if s =? 1 then 10 else 20))
    (Some sample_reader_lists) true 100000 sample_ids (protocol_to_int Protocol_V15) false 3
    0 0 false false 0 500 (warmup_to_int Warmup_OFF).

Definition sample_reader_request (confirm : bool) : reader_request :=
  mkReaderRequest 20
    (empty_reader_plan <| rd_require_replica := true |> <| rd_group_lsn := 1000 |>
                       <| rd_max_lag_bytes := 100 |>)
    (mkWaitSpec WaitType_LSN 900 100 WaitMode_STRICT) false None 0 confirm.

Definition sample_world {P} (p : P) : world P :=
  mkWorld [11; 7; 5; 3; 2; 9] (mkSelection None [] 4) sample_pool_session p.

#[local] Notation sample_run confirm w :=
  (polardb_acquire_reader_connection sample_pton (fun _ => None) sample_context
     (sample_reader_request confirm) w).

Lemma run_parts {A B C} (x : A * B * C) : x = (fst (fst x), snd (fst x), snd x).
Proof. by destruct x as [[? ?] ?]. Qed.

Definition sample_readers : list PolarDB_ServerSnapshotEntry := [mkEntry 2 1 100 0; mkEntry 3 2 100 0].

Lemma sample_listed b : listed sample_context (sample_reader_request b) sample_reader_lists sample_readers.
Proof. by split; vm_compute. Qed.

Lemma sample_weights : weights_sane sample_readers.
Proof. split; [intros e [<-|[<-|[]]]; by vm_compute|by vm_compute]. Qed.

Definition with_slot : world slot_pool := sample_world (mkSlots [(2, 1%nat); (3, 1%nat)]).
Definition without_slot : world (slot_pool * list (srv_id * PgSQL_PoolGetResult)) :=
  sample_world (mkSlots [(2, 1%nat); (3, 0%nat)], []).

Lemma with_slot_acquired : acquired (fst (fst (sample_run false with_slot))) = true.
Proof. by vm_compute. Qed.

Lemma without_slot_busy :
  rr_status (fst (fst (sample_run true without_slot))) = READER_GROUP_BUSY.
Proof. by vm_compute. Qed.

Lemma acquired_reader_is_eligible_witness :
  eligible_server sample_context (sample_reader_request false)
    (writers_of sample_context (sample_reader_request false) sample_reader_lists) sample_readers 3.
Proof.
  destruct (acquired_reader_is_eligible sample_pton (fun _ => None) sample_context
    (sample_reader_request false) with_slot _ _ _
    (run_parts (sample_run false with_slot)) with_slot_acquired)
    as (sn & servers & s & c & [H1 H2] & Hs & He & _).
  vm_compute in H1. injection H1 as <-. vm_compute in H2. injection H2 as <-.
  vm_compute in Hs. injection Hs as <-. exact He.
Defined.

Lemma group_busy_is_exhaustive_witness :
  answered_full 3 (wd_pool (snd (sample_run true without_slot))).
Proof.
  destruct (group_busy_is_exhaustive sample_pton (fun _ => None) sample_context
    (sample_reader_request true) without_slot _ _ _
    (run_parts (sample_run true without_slot)) eq_refl without_slot_busy)
    as (sn & servers & [H1 H2] & Hall).
  vm_compute in H1. injection H1 as <-. vm_compute in H2. injection H2 as <-.
  destruct (Hall sample_weights) as (_ & _ & Hf). apply Hf.
  exists (mkEntry 3 2 100 0). split; [by right; left|]. split; [|done].
  constructor; [by vm_compute|by vm_compute|by vm_compute|].
  intros _. vm_compute. split; [discriminate|by split].
Defined.

Lemma eligible_reader_is_never_abandoned_witness :
  polardb_reader_acquire_action Fallback_ERROR (rr_status (fst (fst (sample_run true without_slot)))) =
    RETRY_READER.
Proof.
  apply (eligible_reader_is_never_abandoned sample_pton (fun _ => None) sample_context
    (sample_reader_request true) sample_reader_lists sample_readers
    without_slot _ _ _ Fallback_ERROR
    (run_parts (sample_run true without_slot)) (sample_listed true) sample_weights);
    [by vm_compute|by vm_compute|by vm_compute|].
  exists 3, (mkEntry 3 2 100 0). split; [by right; left|]. split; [|done].
  constructor; [by vm_compute|by vm_compute|by vm_compute|].
  intros _. vm_compute. split; [discriminate|by split].
Defined.

Lemma retained_reader_check_agrees_witness :
  ~ eligible_server sample_context (sample_reader_request false)
      (writers_of sample_context (sample_reader_request false) sample_reader_lists) sample_readers 2.
Proof.
  intros Hel. apply (retained_reader_check_agrees sample_context (sample_reader_request false)
    sample_reader_lists sample_readers 2 (sample_listed false)) in Hel.
  - vm_compute in Hel. discriminate.
  - apply NoDup_ListNoDup. repeat constructor; cbn; intuition discriminate.
  - by vm_compute.
  - by vm_compute.
Defined.

Lemma weighted_rotation_exact_witness :
  fold_right Z.add 0 (selections 20 6 1 3 4 (mkSelection (Some 6) [(20, 17)] 0)) = 3.
Proof.
  refine (proj1 (proj2 (weighted_rotation_exact 20 6 1 3 (mkSelection (Some 6) [(20, 16)] 0)
    _ _ _ _ _ _))); by vm_compute.
Defined.
