(* ===== verification/CapacityQueue.v ===== *)
(** * The queue of unmet reader capacity of a hostgroup

    A worker whose waiting session finds every reader at its limit queues one
    request on the hostgroup (class PgSQL_HGC of
    lib/PgSQL_HostGroups_Manager.cpp).  A returning connection takes the oldest
    request it may serve.  The source keeps the requests in one list per match
    key and finds them through two more indexes; it aborts when the three
    disagree.  The theorem: from the empty queue nothing aborts, and every
    operation answers what one list in the order of arrival answers. *)

From S2P Require Import Prelude Session Query ServerList PoolConn Reader ReaderAcquire.
From Stdlib Require Import ZArith Ascii String List Bool Lia.
From stdpp Require Import base tactics list gmap strings.

Open Scope Z_scope.
Open Scope polar_scope.

#[global] Instance PoolMatchKey_countable : Countable PgSQL_PoolMatchKey.
Proof.
  refine (inj_countable'
    (fun k => (mk_generation k, mk_auth k, mk_identity k, mk_options k))
    (fun '(a, b, c, d) => mkMatchKey a b c d) _).
  by intros [].
Defined.

(** ** Data *)

Record PolarDB_ReaderPoolCapacityRequest := mkRequest {
  cr_worker_index : Z;
  cr_token : Z;
  cr_scope_hash : Z;
  cr_match_key : PgSQL_PoolMatchKey;
  cr_reader_plan : PolarDB_Query_ReaderPlan;
  cr_wait_spec : PolarDB_WaitSpec
}.

(** An iterator is the address of a list node; [cq_nodes] is what the nodes
    hold, [cq_next] the address of the next node. *)
Abbreviation node := Z (only parsing).

Record capacity_queue := mkQueue {
  cq_nodes : gmap node PolarDB_ReaderPoolCapacityRequest;
  cq_next : node;
  cq_by_key : gmap PgSQL_PoolMatchKey (list node);
  cq_by_worker : gmap Z node;
  cq_by_token : gmap Z node;
  cq_count : Z                        (** the unsigned counter of the fast check *)
}.

Definition empty_queue : capacity_queue := mkQueue ∅ 0 ∅ ∅ ∅ 0.

(** ** Operations *)

(** The entries of the list of [key], in order; an absent list has none. *)
Definition bucket_entries (q : capacity_queue) (key : PgSQL_PoolMatchKey)
  : list (node * PolarDB_ReaderPoolCapacityRequest) :=
  omap (fun n => pair n <$> cq_nodes q !! n) (default [] (cq_by_key q !! key)).

Definition has_reader_pool_capacity_request_fast (q : capacity_queue) : bool :=
  negb (cq_count q =? 0).

(** The first entry of another worker: whether there is one, and whether its
    check needs the time. *)
Definition has_reader_pool_capacity_request_candidate_unlocked (q : capacity_queue)
    (key : PgSQL_PoolMatchKey) (excluded_worker_index : Z) : bool * bool :=
  match List.find (fun e => negb (cr_worker_index (snd e) =? excluded_worker_index))
          (bucket_entries q key) with
  | Some e => (true, lag_cap_enabled (cr_reader_plan (snd e)))
  | None => (false, false)
  end.

(** The check of one request against a server, and the time it read; 0 is a time
    that was not read yet. *)
Definition reader_pool_capacity_request_matches_server_unlocked (cx : reader_context)
    (request : PolarDB_ReaderPoolCapacityRequest) (server : srv_id)
    (excluded_worker_index now_us : Z) : bool * Z :=
  if cr_worker_index request =? excluded_worker_index then (false, now_us)
  else
    let now_us := if lag_cap_enabled (cr_reader_plan request) && (now_us =? 0)
                  then rx_now_us cx else now_us in
    (server_meets_lag_policy cx server (cr_reader_plan request) (cr_wait_spec request) now_us,
     now_us).

(** std::find_if with the check above, which carries the time along. *)
Fixpoint find_matching_request (cx : reader_context) (server : srv_id)
    (excluded_worker_index now_us : Z)
    (entries : list (node * PolarDB_ReaderPoolCapacityRequest))
  : option (node * PolarDB_ReaderPoolCapacityRequest) :=
  match entries with
  | [] => None
  | e :: rest =>
      let '(ok, now_us) := reader_pool_capacity_request_matches_server_unlocked cx (snd e)
                             server excluded_worker_index now_us in
      if ok then Some e else find_matching_request cx server excluded_worker_index now_us rest
  end.

(** [None] is abort(). *)
Definition erase_capacity_request_or_abort_unlocked (q : capacity_queue) (request : node)
  : option capacity_queue :=
  entry ← cq_nodes q !! request;
  let key := cr_match_key entry in
  bucket ← cq_by_key q !! key;
  worker ← cq_by_worker q !! cr_worker_index entry;
  token ← cq_by_token q !! cr_token entry;
  if (worker =? request) && (token =? request) && negb (cq_count q =? 0) &&
     (Z.of_nat (size (cq_by_worker q)) =? cq_count q) &&
     (Z.of_nat (size (cq_by_token q)) =? cq_count q)
  then
    let rest := filter (fun n => n <> request) bucket in
    Some (mkQueue (delete request (cq_nodes q)) (cq_next q)
            (match rest with
             | [] => delete key (cq_by_key q)
             | _ => <[key := rest]> (cq_by_key q)
             end)
            (delete (cr_worker_index entry) (cq_by_worker q))
            (delete (cr_token entry) (cq_by_token q))
            (wrap32 (cq_count q - 1)))
  else None.

Definition register_reader_pool_capacity_request (r : PolarDB_ReaderPoolCapacityRequest)
    (q : capacity_queue) : bool * capacity_queue :=
  if (cr_worker_index r =? UINT32_MAX) || (cr_token r =? 0) || (cr_scope_hash r =? 0) ||
     match_key_empty (cr_match_key r)
  then (false, q)
  else if rd_require_replica (cr_reader_plan r) then (false, q)
  else if cq_by_token q !! cr_token r != None then (false, q)
  else if cq_by_worker q !! cr_worker_index r != None then (false, q)
  else
    let n := cq_next q in
    (true,
     mkQueue (<[n := r]> (cq_nodes q)) (n + 1)
       (<[cr_match_key r := default [] (cq_by_key q !! cr_match_key r) ++ [n]]> (cq_by_key q))
       (<[cr_worker_index r := n]> (cq_by_worker q))
       (<[cr_token r := n]> (cq_by_token q))
       (wrap32 (cq_count q + 1))).

(** The snapshot that names [server] as a reader of hostgroup [hid], and the time
    the scan starts with; [None] when the scan cannot find anything. *)
Definition prepare_request_scan (cx : reader_context) (hid : Z) (server : option srv_id)
    (key : PgSQL_PoolMatchKey) (excluded_worker_index : Z) (q : capacity_queue)
  : option (srv_id * PolarDB_ServerListSnapshot * Z) :=
  srv ← server;
  if match_key_empty key || negb (has_reader_pool_capacity_request_fast q) then None
  else
    match has_reader_pool_capacity_request_candidate_unlocked q key excluded_worker_index with
    | (false, _) => None
    | (true, lag_time_needed) =>
        snapshot ← resolve_reader_server_snapshot cx hid srv None (-1);
        Some (srv, snapshot, if lag_time_needed then rx_now_us cx else 0)
    end.

(** The request and the snapshot, and the queue without it. *)
Definition take_matching_reader_pool_capacity_request (cx : reader_context) (hid : Z)
    (server : option srv_id) (key : PgSQL_PoolMatchKey) (excluded_worker_index : Z)
    (q : capacity_queue)
  : option (option (PolarDB_ReaderPoolCapacityRequest * PolarDB_ServerListSnapshot)
            * capacity_queue) :=
  match prepare_request_scan cx hid server key excluded_worker_index q with
  | None => Some (None, q)
  | Some (srv, snapshot, now_us) =>
      match find_matching_request cx srv excluded_worker_index now_us (bucket_entries q key) with
      | None => Some (None, q)
      | Some (n, selected) =>
          q' ← erase_capacity_request_or_abort_unlocked q n;
          Some (Some (selected, snapshot), q')
      end
  end.

(** The request of a worker, when it has this token. *)
Definition request_of_worker (worker_index token : Z) (q : capacity_queue) : option node :=
  n ← cq_by_worker q !! worker_index;
  r ← cq_nodes q !! n;
  if cr_token r =? token then Some n else None.

Definition cancel_reader_pool_capacity_request (worker_index token : Z) (q : capacity_queue)
  : option (bool * capacity_queue) :=
  match request_of_worker worker_index token q with
  | None => Some (false, q)
  | Some n => q' ← erase_capacity_request_or_abort_unlocked q n; Some (true, q')
  end.

Definition has_reader_pool_capacity_request (worker_index token : Z) (q : capacity_queue) : bool :=
  request_of_worker worker_index token q != None.

Definition has_matching_reader_pool_capacity_request (cx : reader_context) (hid : Z)
    (server : option srv_id) (key : PgSQL_PoolMatchKey) (excluded_worker_index : Z)
    (q : capacity_queue) : bool :=
  match prepare_request_scan cx hid server key excluded_worker_index q with
  | None => false
  | Some (srv, _, now_us) =>
      find_matching_request cx srv excluded_worker_index now_us (bucket_entries q key) != None
  end.

Definition has_reader_pool_capacity_request_for_another_worker (key : PgSQL_PoolMatchKey)
    (excluded_worker_index : Z) (q : capacity_queue) : bool :=
  if match_key_empty key || negb (has_reader_pool_capacity_request_fast q) then false
  else fst (has_reader_pool_capacity_request_candidate_unlocked q key excluded_worker_index).

Definition reader_pool_capacity_request_count (q : capacity_queue) : Z :=
  Z.of_nat (size (cq_by_worker q)).

(** ** What the queue promises: one list in the order of arrival *)

Definition request_fits (cx : reader_context) (server : srv_id) (excluded_worker_index : Z)
    (r : PolarDB_ReaderPoolCapacityRequest) : bool :=
  negb (cr_worker_index r =? excluded_worker_index) &&
  server_meets_lag_policy cx server (cr_reader_plan r) (cr_wait_spec r) (rx_now_us cx).

Inductive request_op :=
| Register (r : PolarDB_ReaderPoolCapacityRequest)
| TakeMatching (cx : reader_context) (hid : Z) (server : option srv_id)
    (key : PgSQL_PoolMatchKey) (excluded_worker_index : Z)
| Cancel (worker_index token : Z)
| Has (worker_index token : Z)
| HasMatching (cx : reader_context) (hid : Z) (server : option srv_id)
    (key : PgSQL_PoolMatchKey) (excluded_worker_index : Z)
| HasForAnother (key : PgSQL_PoolMatchKey) (excluded_worker_index : Z)
| CountRequests.

Inductive request_answer :=
| Verdict (b : bool)
| Taken (t : option (PolarDB_ReaderPoolCapacityRequest * PolarDB_ServerListSnapshot))
| Total (n : Z).

Definition queue_step (o : request_op) (q : capacity_queue)
  : option (request_answer * capacity_queue) :=
  match o with
  | Register r => let '(b, q) := register_reader_pool_capacity_request r q in Some (Verdict b, q)
  | TakeMatching cx hid server key ex =>
      '(t, q) ← take_matching_reader_pool_capacity_request cx hid server key ex q;
      Some (Taken t, q)
  | Cancel w t => '(b, q) ← cancel_reader_pool_capacity_request w t q; Some (Verdict b, q)
  | Has w t => Some (Verdict (has_reader_pool_capacity_request w t q), q)
  | HasMatching cx hid server key ex =>
      Some (Verdict (has_matching_reader_pool_capacity_request cx hid server key ex q), q)
  | HasForAnother key ex =>
      Some (Verdict (has_reader_pool_capacity_request_for_another_worker key ex q), q)
  | CountRequests => Some (Total (reader_pool_capacity_request_count q), q)
  end.

Section Fifo.
Implicit Types l : list PolarDB_ReaderPoolCapacityRequest.

Definition fifo_admits (r : PolarDB_ReaderPoolCapacityRequest) l : bool :=
  (cr_worker_index r != UINT32_MAX) && (cr_token r != 0) && (cr_scope_hash r != 0) &&
  negb (match_key_empty (cr_match_key r)) && negb (rd_require_replica (cr_reader_plan r)) &&
  negb (existsb (fun e => cr_token e =? cr_token r) l) &&
  negb (existsb (fun e => cr_worker_index e =? cr_worker_index r) l).

Definition fifo_owned (worker_index token : Z) l : bool :=
  existsb (fun e => (cr_worker_index e =? worker_index) && (cr_token e =? token)) l.

Definition fifo_without (token : Z) l : list PolarDB_ReaderPoolCapacityRequest :=
  filter (fun e => cr_token e <> token) l.

Definition fifo_first (cx : reader_context) (hid : Z) (server : option srv_id)
    (key : PgSQL_PoolMatchKey) (ex : Z) l
  : option (PolarDB_ReaderPoolCapacityRequest * PolarDB_ServerListSnapshot) :=
  srv ← server;
  if match_key_empty key then None
  else
    snapshot ← resolve_reader_server_snapshot cx hid srv None (-1);
    r ← List.find (fun e => (cr_match_key e == key) && request_fits cx srv ex e) l;
    Some (r, snapshot).

Definition fifo_step (o : request_op) l
  : request_answer * list PolarDB_ReaderPoolCapacityRequest :=
  match o with
  | Register r => if fifo_admits r l then (Verdict true, l ++ [r]) else (Verdict false, l)
  | TakeMatching cx hid server key ex =>
      match fifo_first cx hid server key ex l with
      | Some (r, s) => (Taken (Some (r, s)), fifo_without (cr_token r) l)
      | None => (Taken None, l)
      end
  | Cancel w t =>
      if fifo_owned w t l then (Verdict true, fifo_without t l) else (Verdict false, l)
  | Has w t => (Verdict (fifo_owned w t l), l)
  | HasMatching cx hid server key ex =>
      (Verdict (fifo_first cx hid server key ex l != None), l)
  | HasForAnother key ex =>
      (Verdict (existsb (fun e => (cr_match_key e == key) && negb (match_key_empty key) &&
                                  negb (cr_worker_index e =? ex)) l), l)
  | CountRequests => (Total (Z.of_nat (length l)), l)
  end.

End Fifo.

Fixpoint run_queue (ops : list request_op) (q : capacity_queue)
  : option (list request_answer * capacity_queue) :=
  match ops with
  | [] => Some ([], q)
  | o :: ops =>
      '(a, q) ← queue_step o q;
      '(answers, q) ← run_queue ops q;
      Some (a :: answers, q)
  end.

Fixpoint run_fifo (ops : list request_op) (l : list PolarDB_ReaderPoolCapacityRequest)
  : list request_answer * list PolarDB_ReaderPoolCapacityRequest :=
  match ops with
  | [] => ([], l)
  | o :: ops =>
      let '(a, l) := fifo_step o l in
      let '(answers, l) := run_fifo ops l in
      (a :: answers, l)
  end.

(** A worker index is an unsigned 32-bit integer. *)
Definition op_sized (o : request_op) : Prop :=
  match o with Register r => is_u32 (cr_worker_index r) | _ => True end.

(** ** The representation *)

Definition entry : Type := node * PolarDB_ReaderPoolCapacityRequest.

(** The nodes of the list [l] that belong to [key]. *)
Definition nodes_of (key : PgSQL_PoolMatchKey) (l : list entry) : list node :=
  (filter (fun e => cr_match_key e.2 = key) l).*1.

Record represents (q : capacity_queue) (l : list entry) : Prop := {
  rp_nodup : NoDup l.*1;
  rp_nodes n r : cq_nodes q !! n = Some r <-> (n, r) ∈ l;
  rp_next n r : (n, r) ∈ l -> n < cq_next q;
  rp_key key : cq_by_key q !! key =
    match nodes_of key l with [] => None | b => Some b end;
  rp_worker w n : cq_by_worker q !! w = Some n <-> exists r, (n, r) ∈ l /\ cr_worker_index r = w;
  rp_token t n : cq_by_token q !! t = Some n <-> exists r, (n, r) ∈ l /\ cr_token r = t;
  rp_workers : size (cq_by_worker q) = length l;
  rp_tokens : size (cq_by_token q) = length l;
  rp_count : cq_count q = Z.of_nat (length l);
  rp_sized n r : (n, r) ∈ l -> is_u32 (cr_worker_index r) /\ cr_worker_index r <> UINT32_MAX
}.

Lemma represents_empty : represents empty_queue [].
Proof.
  split; simpl; try done.
  - constructor.
  - intros. rewrite lookup_empty. set_solver.
  - intros. set_solver.
  - intros. rewrite lookup_empty. split; [done | intros (? & ? & ?); set_solver].
  - intros. rewrite lookup_empty. split; [done | intros (? & ? & ?); set_solver].
  - intros. set_solver.
Qed.

(** There are fewer entries than worker indexes, so the counter never wraps. *)
Lemma represents_bound q l : represents q l -> Z.of_nat (length l) < U32_MODULUS.
Proof.
  intros R. rewrite <-(rp_workers _ _ R).
  assert (Hs : dom (cq_by_worker q) ⊆ (list_to_set (seqZ 0 UINT32_MAX) : gset Z)).
  { intros w (n & Hn)%elem_of_dom. apply (rp_worker _ _ R) in Hn as (r & Hr & <-).
    destruct (rp_sized _ _ R _ _ Hr) as [Hu Hne]. apply elem_of_list_to_set, elem_of_seqZ.
    unfold is_u32, U32_MODULUS, UINT32_MAX in *. lia. }
  apply subseteq_size in Hs. rewrite size_dom in Hs.
  rewrite size_list_to_set in Hs by apply NoDup_seqZ.
  rewrite length_seqZ in Hs. unfold UINT32_MAX, U32_MODULUS in *. lia.
Qed.

Lemma filter_keeps {A} (P : A -> Prop) `{forall x, Decision (P x)} (l : list A) :
  (forall x, x ∈ l -> P x) -> filter P l = l.
Proof.
  induction l as [|x l IH]; intros Hl; [done |]. rewrite filter_cons_True.
  - f_equal. apply IH. intros y Hy. by apply Hl, list_elem_of_further.
  - apply Hl, list_elem_of_here.
Qed.

Lemma filter_ext {A} (P Q : A -> Prop) `{forall x, Decision (P x)} `{forall x, Decision (Q x)}
    (l : list A) :
  (forall x, x ∈ l -> (P x <-> Q x)) -> filter P l = filter Q l.
Proof.
  induction l as [|x l IH]; intros Hl; [done |].
  assert (Hx := Hl x (list_elem_of_here _ _)). rewrite !filter_cons, IH.
  - destruct (decide (P x)), (decide (Q x)); tauto.
  - intros y Hy. by apply Hl, list_elem_of_further.
Qed.

Lemma filter_map {A B} (f : A -> B) (P : B -> Prop) `{forall x, Decision (P x)} (l : list A) :
  filter P (f <$> l) = f <$> filter (fun x => P (f x)) l.
Proof.
  induction l as [|x l IH]; [done |]. cbn [fmap list_fmap].
  rewrite !filter_cons. by destruct (decide (P (f x))); rewrite IH.
Qed.

Lemma nodup_fst_eq {A B} (l : list (A * B)) (x : A) (y y' : B) :
  NoDup l.*1 -> (x, y) ∈ l -> (x, y') ∈ l -> y = y'.
Proof.
  induction l as [|[a b] l IH]; [by intros _ ?%elem_of_nil |].
  cbn. intros [Ha Hl]%NoDup_cons. rewrite !elem_of_cons.
  assert (Hx : forall z, (a, z) ∈ l -> False).
  { intros z Hz. apply Ha. apply list_elem_of_fmap. by exists (a, z). }
  intros [?|?] [?|?]; simplify_eq; try done; try (by exfalso; eauto). by apply IH.
Qed.

Section Represented.
Context (q : capacity_queue) (l : list entry) (R : represents q l).

Lemma entries_of_key key :
  bucket_entries q key = filter (fun e => cr_match_key e.2 = key) l.
Proof.
  unfold bucket_entries. rewrite (rp_key _ _ R).
  transitivity (omap (fun n => pair n <$> cq_nodes q !! n) (nodes_of key l)).
  { by destruct (nodes_of key l). }
  unfold nodes_of.
  assert (Hin : forall e, e ∈ filter (fun e : entry => cr_match_key e.2 = key) l ->
                  cq_nodes q !! e.1 = Some e.2).
  { intros [n r] [_ H]%list_elem_of_filter. by apply (rp_nodes _ _ R). }
  induction (filter _ l) as [|e l' IH]; [done |]. cbn.
  rewrite (Hin e) by apply list_elem_of_here. cbn.
  rewrite IH by (intros; apply Hin; by apply list_elem_of_further). by destruct e.
Qed.

Lemma same_token n n' r r' :
  (n, r) ∈ l -> (n', r') ∈ l -> cr_token r = cr_token r' -> n = n' /\ r = r'.
Proof.
  intros H H' He.
  assert (cq_by_token q !! cr_token r = Some n) as E by (apply (rp_token _ _ R); eauto).
  assert (cq_by_token q !! cr_token r = Some n') as E'.
  { apply (rp_token _ _ R). exists r'. by rewrite He. }
  assert (n = n') as <- by congruence. split; [done |].
  exact (nodup_fst_eq _ _ _ _ (rp_nodup _ _ R) H H').
Qed.

Lemma same_worker n n' r r' :
  (n, r) ∈ l -> (n', r') ∈ l -> cr_worker_index r = cr_worker_index r' -> n = n' /\ r = r'.
Proof.
  intros H H' He.
  assert (cq_by_worker q !! cr_worker_index r = Some n) as E by (apply (rp_worker _ _ R); eauto).
  assert (cq_by_worker q !! cr_worker_index r = Some n') as E'.
  { apply (rp_worker _ _ R). exists r'. by rewrite He. }
  assert (n = n') as <- by congruence. split; [done |].
  exact (nodup_fst_eq _ _ _ _ (rp_nodup _ _ R) H H').
Qed.

(** Erasing an entry, in the entries and in the requests. *)
Definition erased (n : node) : list entry := filter (fun e => e.1 <> n) l.

Lemma erased_in n e : e ∈ erased n <-> e ∈ l /\ e.1 <> n.
Proof. unfold erased. rewrite list_elem_of_filter. tauto. Qed.

Lemma erased_requests n r :
  (n, r) ∈ l -> (erased n).*2 = fifo_without (cr_token r) l.*2.
Proof.
  intros H. unfold erased, fifo_without. rewrite filter_map. f_equal.
  assert (Hl : forall e, e ∈ l -> (e.1 <> n <-> cr_token e.2 <> cr_token r)).
  { intros [n' r'] H'. cbn. split; intros Hne E; apply Hne.
    - by destruct (same_token _ _ _ _ H' H E).
    - subst. by rewrite (nodup_fst_eq _ _ _ _ (rp_nodup _ _ R) H H'). }
  apply filter_ext, Hl.
Qed.

Lemma erased_length n r : (n, r) ∈ l -> S (length (erased n)) = length l.
Proof.
  intros H. assert (Hn := rp_nodup _ _ R). unfold erased. clear R.
  revert n r H Hn. induction l as [|[n' r'] l' IH]; intros n r H Hn; [by apply elem_of_nil in H |].
  cbn in Hn. apply NoDup_cons in Hn as [Hn' Hl']. rewrite filter_cons. cbn.
  apply elem_of_cons in H as [H|H].
  - simplify_eq. rewrite decide_False by tauto. f_equal.
    rewrite filter_keeps; [done |].
    intros [m s] Hm <-. apply Hn'. apply list_elem_of_fmap. by exists (m, s).
  - rewrite decide_True.
    + cbn. f_equal. by apply (IH n r).
    + intros ->. apply Hn'. apply list_elem_of_fmap. by exists (n, r).
Qed.

Lemma nodes_of_erased key n : nodes_of key (erased n) = filter (fun m => m <> n) (nodes_of key l).
Proof.
  unfold nodes_of, erased. rewrite filter_map. f_equal.
  rewrite !list_filter_filter. apply list_filter_iff. intros e. tauto.
Qed.

Lemma nodes_of_other key n r :
  (n, r) ∈ l -> cr_match_key r <> key -> nodes_of key (erased n) = nodes_of key l.
Proof.
  intros H Hk. rewrite nodes_of_erased. apply filter_keeps.
  intros m (e & -> & [He Hin]%list_elem_of_filter)%list_elem_of_fmap E.
  destruct e as [m s]. cbn in *. subst m.
  rewrite (nodup_fst_eq _ _ _ _ (rp_nodup _ _ R) H Hin) in Hk. done.
Qed.

End Represented.

(** ** Each operation keeps the representation *)

Lemma size_is_length q l :
  represents q l ->
  (Z.of_nat (size (cq_by_worker q)) =? cq_count q) &&
  (Z.of_nat (size (cq_by_token q)) =? cq_count q) = true.
Proof.
  intros R. rewrite (rp_workers _ _ R), (rp_tokens _ _ R), (rp_count _ _ R).
  by rewrite !Z.eqb_refl.
Qed.

Lemma index_delete (q : capacity_queue) (l : list entry) (R : represents q l)
    (index : gmap Z node) (f : PolarDB_ReaderPoolCapacityRequest -> Z) n r :
  (forall x m, index !! x = Some m <-> exists s, (m, s) ∈ l /\ f s = x) ->
  (n, r) ∈ l ->
  forall x m, delete (f r) index !! x = Some m <-> exists s, (m, s) ∈ erased l n /\ f s = x.
Proof.
  intros Hi H x m. rewrite lookup_delete_Some, Hi. setoid_rewrite erased_in. split.
  - intros (Hne & s & Hs & <-). exists s. split; [split; [done |] | done].
    cbn. intros ->. apply Hne. f_equal. exact (nodup_fst_eq _ _ _ _ (rp_nodup _ _ R) H Hs).
  - intros (s & [Hs Hm] & <-). split; [| by exists s].
    cbn in Hm. intros E. apply Hm.
    assert (index !! f r = Some n) as E1 by (apply Hi; by exists r).
    assert (index !! f r = Some m) as E2 by (apply Hi; exists s; by split).
    congruence.
Qed.

Lemma erase_represents q l n r :
  represents q l -> (n, r) ∈ l ->
  exists q', erase_capacity_request_or_abort_unlocked q n = Some q' /\
             represents q' (erased l n).
Proof.
  intros R H. unfold erase_capacity_request_or_abort_unlocked.
  assert (Hd := represents_bound _ _ R).
  assert (Hlen := erased_length _ _ R _ _ H).
  rewrite (proj2 (rp_nodes _ _ R n r) H). cbn.
  assert (Hb : cq_by_key q !! cr_match_key r = Some (nodes_of (cr_match_key r) l)).
  { rewrite (rp_key _ _ R).
    assert (n ∈ nodes_of (cr_match_key r) l) as Hn.
    { apply list_elem_of_fmap. exists (n, r). split; [done |]. by apply list_elem_of_filter. }
    destruct (nodes_of _ l); [by apply elem_of_nil in Hn | done]. }
  rewrite Hb. cbn.
  rewrite (proj2 (rp_worker _ _ R (cr_worker_index r) n)) by eauto. cbn.
  rewrite (proj2 (rp_token _ _ R (cr_token r) n)) by eauto. cbn.
  rewrite !Z.eqb_refl. cbn -[Z.eqb].
  rewrite <-andb_assoc, (size_is_length _ _ R), (rp_count _ _ R).
  rewrite (proj2 (Z.eqb_neq _ _)) by lia. cbn -[Z.eqb].
  eexists. split; [done |]. rewrite <-nodes_of_erased.
  split; cbn.
  - unfold erased. apply (sublist_NoDup _ l.*1); [apply (rp_nodup _ _ R) |].
    apply fmap_sublist, sublist_filter.
  - intros m s. rewrite lookup_delete_Some, erased_in, (rp_nodes _ _ R). cbn.
    split; intros [? ?]; split; congruence.
  - intros m s [Hm _]%erased_in. exact (rp_next _ _ R _ _ Hm).
  - intros key. destruct (decide (key = cr_match_key r)) as [->|Hk].
    + destruct (nodes_of (cr_match_key r) (erased l n)); by simpl_map.
    + rewrite (nodes_of_other _ _ R key n r H (not_eq_sym Hk)), <-(rp_key _ _ R).
      destruct (nodes_of (cr_match_key r) (erased l n)); by simpl_map.
  - apply (index_delete q l R _ _ _ _ (rp_worker _ _ R) H).
  - apply (index_delete q l R _ _ _ _ (rp_token _ _ R) H).
  - rewrite map_size_delete_Some, (rp_workers _ _ R); [lia |].
    exists n. apply (rp_worker _ _ R). by exists r.
  - rewrite map_size_delete_Some, (rp_tokens _ _ R); [lia |].
    exists n. apply (rp_token _ _ R). by exists r.
  - rewrite wrap32_id; [lia |]. unfold is_u32. lia.
  - intros m s [Hm _]%erased_in. exact (rp_sized _ _ R _ _ Hm).
Qed.

Lemma index_insert (l : list entry) (index : gmap Z node)
    (f : PolarDB_ReaderPoolCapacityRequest -> Z) n r :
  (forall x m, index !! x = Some m <-> exists s, (m, s) ∈ l /\ f s = x) ->
  index !! f r = None ->
  forall x m, <[f r := n]> index !! x = Some m <-> exists s, (m, s) ∈ l ++ [(n, r)] /\ f s = x.
Proof.
  intros Hi Hnone x m. rewrite lookup_insert_Some, Hi.
  setoid_rewrite elem_of_app. setoid_rewrite list_elem_of_singleton. split.
  - intros [[<- <-] | (Hne & s & Hs & <-)]; eauto.
  - intros (s & [Hs | E] & <-); [| left; by simplify_eq].
    right. split; [| by exists s]. intros E.
    enough (index !! f r = Some m) by congruence. apply Hi. by exists s.
Qed.

Lemma nodes_of_app key l n r :
  nodes_of key (l ++ [(n, r)]) =
  nodes_of key l ++ (if decide (cr_match_key r = key) then [n] else []).
Proof.
  unfold nodes_of. rewrite filter_app, fmap_app. f_equal. rewrite filter_cons. cbn [snd].
  by destruct (decide (cr_match_key r = key)).
Qed.

Lemma register_represents q l r :
  represents q l -> is_u32 (cr_worker_index r) -> cr_worker_index r <> UINT32_MAX ->
  cq_by_token q !! cr_token r = None -> cq_by_worker q !! cr_worker_index r = None ->
  let n := cq_next q in
  represents
    (mkQueue (<[n := r]> (cq_nodes q)) (n + 1)
       (<[cr_match_key r := default [] (cq_by_key q !! cr_match_key r) ++ [n]]> (cq_by_key q))
       (<[cr_worker_index r := n]> (cq_by_worker q)) (<[cr_token r := n]> (cq_by_token q))
       (wrap32 (cq_count q + 1)))
    (l ++ [(n, r)]).
Proof.
  intros R Hu Hne Ht Hw n.
  assert (Hfresh : forall s, (n, s) ∈ l -> False).
  { intros s Hs. apply (rp_next _ _ R) in Hs. unfold n in *. lia. }
  match goal with |- represents ?q' _ => set (q1 := q') end.
  assert (R0 : Z.of_nat (length (l ++ [(n, r)])) < U32_MODULUS -> represents q1 (l ++ [(n, r)])).
  { intros Hbound. split; cbn.
    - rewrite fmap_app. apply NoDup_app. split; [apply (rp_nodup _ _ R) |]. split.
      + intros m ([m' s] & -> & Hm)%list_elem_of_fmap E%list_elem_of_singleton.
        cbn in E. subst m'. exact (Hfresh _ Hm).
      + apply NoDup_singleton.
    - intros m s. rewrite lookup_insert_Some, elem_of_app, list_elem_of_singleton,
        (rp_nodes _ _ R). split.
      + intros [[<- <-] | [_ ?]]; eauto.
      + intros [Hm | Hm]; [| left; by simplify_eq]. right. split; [| done].
        intros E. subst m. by apply (Hfresh s).
    - intros m s [Hm | [= -> ->]%list_elem_of_singleton]%elem_of_app.
      + apply (rp_next _ _ R) in Hm. unfold n. lia.
      + unfold n. lia.
    - intros key. rewrite nodes_of_app.
      destruct (decide (cr_match_key r = key)) as [<-|Hk].
      + rewrite lookup_insert_eq, (rp_key _ _ R). by destruct (nodes_of _ l).
      + rewrite lookup_insert_ne, (rp_key _ _ R), app_nil_r by done. done.
    - apply index_insert; [apply (rp_worker _ _ R) | done].
    - apply index_insert; [apply (rp_token _ _ R) | done].
    - rewrite map_size_insert_None, length_app, (rp_workers _ _ R) by done. cbn. lia.
    - rewrite map_size_insert_None, length_app, (rp_tokens _ _ R) by done. cbn. lia.
    - rewrite length_app in *. cbn in *. rewrite (rp_count _ _ R), wrap32_id; [lia |].
      unfold is_u32. lia.
    - intros m s [Hm | [= -> ->]%list_elem_of_singleton]%elem_of_app; [| done].
      exact (rp_sized _ _ R _ _ Hm). }
  apply R0. rewrite length_app. cbn.
  assert (Hs : dom (<[cr_worker_index r := n]> (cq_by_worker q)) ⊆
                 (list_to_set (seqZ 0 UINT32_MAX) : gset Z)).
  { intros w. rewrite dom_insert_L, elem_of_union, elem_of_singleton, elem_of_list_to_set,
      elem_of_seqZ. unfold is_u32, U32_MODULUS, UINT32_MAX in *.
    intros [-> | (m & (s & Hs & <-)%(rp_worker _ _ R))%elem_of_dom]; [lia |].
    destruct (rp_sized _ _ R _ _ Hs). unfold is_u32, U32_MODULUS, UINT32_MAX in *. lia. }
  apply subseteq_size in Hs. rewrite size_dom, map_size_insert_None in Hs by done.
  rewrite size_list_to_set, length_seqZ, (rp_workers _ _ R) in Hs by apply NoDup_seqZ.
  unfold UINT32_MAX, U32_MODULUS in *. lia.
Qed.

#[local] Arguments resolve_reader_server_snapshot : simpl never.

(** ** Lookups *)

Section Lookups.
Context (q : capacity_queue) (l : list entry) (R : represents q l).

Lemma worker_free w :
  cq_by_worker q !! w = None <-> existsb (fun e => cr_worker_index e =? w) l.*2 = false.
Proof.
  rewrite <-not_true_iff_false, existsb_exists, eq_None_not_Some. split; intros Hn H; apply Hn.
  - destruct H as (r & ([n r'] & -> & H)%list_elem_of_In%list_elem_of_fmap & E%Z.eqb_eq).
    exists n. apply (rp_worker _ _ R). by exists r'.
  - destruct H as (n & (r & H & <-)%(rp_worker _ _ R)). exists r. split; [| apply Z.eqb_refl].
    apply list_elem_of_In, list_elem_of_fmap. by exists (n, r).
Qed.

Lemma token_free t :
  cq_by_token q !! t = None <-> existsb (fun e => cr_token e =? t) l.*2 = false.
Proof.
  rewrite <-not_true_iff_false, existsb_exists, eq_None_not_Some. split; intros Hn H; apply Hn.
  - destruct H as (r & ([n r'] & -> & H)%list_elem_of_In%list_elem_of_fmap & E%Z.eqb_eq).
    exists n. apply (rp_token _ _ R). by exists r'.
  - destruct H as (n & (r & H & <-)%(rp_token _ _ R)). exists r. split; [| apply Z.eqb_refl].
    apply list_elem_of_In, list_elem_of_fmap. by exists (n, r).
Qed.

Lemma request_of_worker_spec w t :
  match request_of_worker w t q with
  | Some n => exists r, (n, r) ∈ l /\ cr_worker_index r = w /\ cr_token r = t
  | None => fifo_owned w t l.*2 = false
  end.
Proof.
  unfold request_of_worker.
  destruct (cq_by_worker q !! w) as [n|] eqn:E; cbn.
  - apply (rp_worker _ _ R) in E as (r & Hr & Hw).
    rewrite (proj2 (rp_nodes _ _ R n r) Hr). cbn.
    destruct (Z.eqb_spec (cr_token r) t) as [Ht|Ht]; [by exists r |].
    apply not_true_iff_false. unfold fifo_owned. rewrite existsb_exists.
    intros (r' & ([n' r''] & -> & H)%list_elem_of_In%list_elem_of_fmap & [E1 E2]%andb_prop).
    apply Z.eqb_eq in E1, E2. cbn in *.
    destruct (same_worker _ _ R _ _ _ _ Hr H) as [_ <-]; congruence.
  - apply worker_free in E. apply not_true_iff_false. unfold fifo_owned.
    rewrite existsb_exists. intros (r & Hr & [E1 _]%andb_prop).
    apply not_true_iff_false in E. apply E. apply existsb_exists. eauto.
Qed.

(** The scan with its lazily read time is the scan with the time read. *)
Lemma find_matching_request_spec cx srv ex now_us es :
  now_us = 0 \/ now_us = rx_now_us cx ->
  find_matching_request cx srv ex now_us es =
  List.find (fun e => request_fits cx srv ex (snd e)) es.
Proof.
  revert now_us. induction es as [|[n r] es IH]; intros now_us Hnow; [done |].
  cbn. unfold reader_pool_capacity_request_matches_server_unlocked, request_fits.
  destruct (cr_worker_index r =? ex); cbn; [by apply IH |].
  assert (Hp : forall t, lag_cap_enabled (cr_reader_plan r) = false ->
            server_meets_lag_policy cx srv (cr_reader_plan r) (cr_wait_spec r) t =
            server_meets_lag_policy cx srv (cr_reader_plan r) (cr_wait_spec r) (rx_now_us cx)).
  { intros t Hl. unfold server_meets_lag_policy. by rewrite Hl. }
  destruct (lag_cap_enabled (cr_reader_plan r)) eqn:Hl; cbn.
  - replace (if now_us =? 0 then rx_now_us cx else now_us) with (rx_now_us cx).
    + destruct (server_meets_lag_policy _ _ _ _ _); [done | apply IH; by right].
    + destruct (Z.eqb_spec now_us 0); [done | by destruct Hnow].
  - rewrite Hp by done. destruct (server_meets_lag_policy _ _ _ _ _); [done | by apply IH].
Qed.

Lemma candidate_spec key ex :
  fst (has_reader_pool_capacity_request_candidate_unlocked q key ex) =
  existsb (fun e => (cr_match_key e == key) && negb (cr_worker_index e =? ex)) l.*2.
Proof.
  unfold has_reader_pool_capacity_request_candidate_unlocked.
  rewrite (entries_of_key _ _ R). clear R.
  induction l as [|e l' IH]; [done |]. rewrite filter_cons, fmap_cons. cbn [existsb List.find].
  destruct (decide (cr_match_key e.2 = key)) as [->|Hk].
  - rewrite (proj2 (beq_true _ _) eq_refl). cbn.
    by destruct (cr_worker_index e.2 =? ex).
  - by rewrite (proj2 (beq_false _ _) Hk).
Qed.

(** The first entry of the key that fits is the first request that has the key
    and fits. *)
Lemma find_in_bucket key (P : PolarDB_ReaderPoolCapacityRequest -> bool) :
  snd <$> List.find (fun e => P (snd e)) (bucket_entries q key) =
  List.find (fun r => (cr_match_key r == key) && P r) l.*2.
Proof.
  rewrite (entries_of_key _ _ R). clear R.
  induction l as [|e l' IH]; [done |]. rewrite filter_cons, fmap_cons. cbn [existsb List.find].
  destruct (decide (cr_match_key e.2 = key)) as [->|Hk].
  - rewrite (proj2 (beq_true _ _) eq_refl). cbn. by destruct (P e.2).
  - by rewrite (proj2 (beq_false _ _) Hk).
Qed.

Lemma find_in_bucket_entry key P e :
  List.find P (bucket_entries q key) = Some e -> e ∈ l.
Proof.
  intros [He _]%find_some. apply list_elem_of_In in He.
  rewrite (entries_of_key _ _ R) in He. by apply list_elem_of_filter in He as [_ ?].
Qed.

(** A scan finds the first request in the order of arrival. *)
Lemma scan_spec cx hid server key ex :
  match prepare_request_scan cx hid server key ex q with
  | None => fifo_first cx hid server key ex l.*2 = None
  | Some (srv, snapshot, now_us) =>
      fifo_first cx hid server key ex l.*2 =
      (fun e => (snd e, snapshot)) <$>
        find_matching_request cx srv ex now_us (bucket_entries q key)
  end.
Proof.
  unfold prepare_request_scan, fifo_first. destruct server as [srv|]; [| done]. cbn.
  destruct (match_key_empty key) eqn:Hk; [done |]. cbn.
  unfold has_reader_pool_capacity_request_fast. rewrite (rp_count _ _ R).
  destruct (Z.eqb_spec (Z.of_nat (length l)) 0) as [Hl|Hl]; cbn.
  { assert (l = []) as -> by (destruct l; [done | by cbn in Hl]).
    by destruct (resolve_reader_server_snapshot cx hid srv None (-1)). }
  assert (Hc := candidate_spec key ex).
  destruct (has_reader_pool_capacity_request_candidate_unlocked q key ex) as [[] lag];
    cbn in Hc |- *.
  - destruct (resolve_reader_server_snapshot cx hid srv None (-1)) as [snapshot|]; [| done]. cbn.
    rewrite find_matching_request_spec by (destruct lag; tauto).
    rewrite <-(find_in_bucket key (request_fits cx srv ex)).
    by destruct (List.find _ (bucket_entries q key)).
  - destruct (resolve_reader_server_snapshot cx hid srv None (-1)) as [snapshot|]; [| done]. cbn.
    destruct (List.find _ l.*2) as [r|] eqn:Hf; [| done].
    apply find_some in Hf as [Hin Hr]. exfalso. symmetry in Hc.
    apply not_true_iff_false in Hc. apply Hc, existsb_exists. exists r. split; [done |].
    unfold request_fits in Hr. apply andb_prop in Hr as [-> [-> _]%andb_prop]. done.
Qed.

End Lookups.

Lemma scan_time cx hid server key ex q srv snapshot now_us :
  prepare_request_scan cx hid server key ex q = Some (srv, snapshot, now_us) ->
  now_us = 0 \/ now_us = rx_now_us cx.
Proof.
  unfold prepare_request_scan. destruct server as [srv'|]; [| done]. cbn.
  destruct (_ || _); [done |].
  destruct (has_reader_pool_capacity_request_candidate_unlocked _ _ _) as [[] lag]; [| done].
  destruct (resolve_reader_server_snapshot cx hid srv' None (-1)); [| done]. cbn.
  intros [= _ _ <-]. destruct lag; tauto.
Qed.

(** ** Each operation against the list *)

Lemma take_refines q l cx hid server key ex :
  represents q l ->
  exists q', take_matching_reader_pool_capacity_request cx hid server key ex q =
               Some (fifo_first cx hid server key ex l.*2, q') /\
    match fifo_first cx hid server key ex l.*2 with
    | Some (r, _) => exists n, (n, r) ∈ l /\ represents q' (erased l n)
    | None => q' = q
    end.
Proof.
  intros R. unfold take_matching_reader_pool_capacity_request.
  assert (Hscan := scan_spec q l R cx hid server key ex).
  destruct (prepare_request_scan _ _ _ _ _ _) as [[[srv snapshot] now_us]|] eqn:Hp.
  2: { rewrite Hscan. eauto. }
  rewrite Hscan. destruct (find_matching_request _ _ _ _ _) as [[n r]|] eqn:Hf; cbn; [| eauto].
  rewrite find_matching_request_spec in Hf by (by eapply scan_time).
  apply (find_in_bucket_entry _ _ R) in Hf.
  destruct (erase_represents _ _ _ _ R Hf) as (q' & -> & R'). cbn. eauto.
Qed.

Lemma cancel_refines q l w t :
  represents q l ->
  exists q', cancel_reader_pool_capacity_request w t q = Some (fifo_owned w t l.*2, q') /\
    if fifo_owned w t l.*2
    then exists n r, (n, r) ∈ l /\ cr_worker_index r = w /\ cr_token r = t /\
                     represents q' (erased l n)
    else q' = q.
Proof.
  intros R. unfold cancel_reader_pool_capacity_request.
  assert (Hs := request_of_worker_spec _ _ R w t).
  destruct (request_of_worker w t q) as [n|].
  - destruct Hs as (r & Hr & Hw & Ht).
    destruct (erase_represents _ _ _ _ R Hr) as (q' & -> & R'). cbn.
    assert (fifo_owned w t l.*2 = true) as ->; [| by exists q'; split; [| exists n, r]].
    apply existsb_exists. exists r. rewrite Hw, Ht, !Z.eqb_refl. split; [| done].
    apply list_elem_of_In, list_elem_of_fmap. by exists (n, r).
  - rewrite Hs. eauto.
Qed.

Lemma has_refines q l w t :
  represents q l -> has_reader_pool_capacity_request w t q = fifo_owned w t l.*2.
Proof.
  intros R. unfold has_reader_pool_capacity_request.
  assert (Hs := request_of_worker_spec _ _ R w t).
  destruct (request_of_worker w t q) as [n|]; [| by rewrite Hs].
  destruct Hs as (r & Hr & <- & <-). symmetry. apply existsb_exists. exists r.
  rewrite !Z.eqb_refl. split; [| done].
  apply list_elem_of_In, list_elem_of_fmap. by exists (n, r).
Qed.

Lemma has_matching_refines q l cx hid server key ex :
  represents q l ->
  has_matching_reader_pool_capacity_request cx hid server key ex q =
  (fifo_first cx hid server key ex l.*2 != None).
Proof.
  intros R. unfold has_matching_reader_pool_capacity_request.
  assert (Hscan := scan_spec q l R cx hid server key ex).
  destruct (prepare_request_scan _ _ _ _ _ _) as [[[srv snapshot] now_us]|]; rewrite Hscan.
  - by destruct (find_matching_request _ _ _ _ _).
  - done.
Qed.

Lemma has_another_refines q l key ex :
  represents q l ->
  has_reader_pool_capacity_request_for_another_worker key ex q =
  existsb (fun e => (cr_match_key e == key) && negb (match_key_empty key) &&
                    negb (cr_worker_index e =? ex)) l.*2.
Proof.
  intros R. unfold has_reader_pool_capacity_request_for_another_worker.
  destruct (match_key_empty key) eqn:Hk; cbn.
  { symmetry. apply not_true_iff_false. rewrite existsb_exists.
    intros (r & _ & H). by rewrite andb_false_r in H. }
  transitivity (existsb (fun e => (cr_match_key e == key) && negb (cr_worker_index e =? ex)) l.*2).
  - unfold has_reader_pool_capacity_request_fast. rewrite (rp_count _ _ R).
    destruct (Z.eqb_spec (Z.of_nat (length l)) 0) as [Hl|_]; cbn.
    + by destruct l.
    + apply (candidate_spec _ _ R).
  - clear R. induction l as [|e l IH]; [done |]. cbn.
    by rewrite IH, andb_true_r.
Qed.

(** The verdict of the guards is the admission of the list. *)
Lemma register_refines q l r :
  represents q l -> is_u32 (cr_worker_index r) ->
  exists q', register_reader_pool_capacity_request r q = (fifo_admits r l.*2, q') /\
    if fifo_admits r l.*2 then represents q' (l ++ [(cq_next q, r)]) else q' = q.
Proof.
  intros R Hu. unfold register_reader_pool_capacity_request, fifo_admits.
  assert (Hz : forall x y : Z, (x != y) = negb (x =? y)).
  { intros x y. destruct (Z.eqb_spec x y) as [E|E].
    - by rewrite (proj2 (beq_true _ _) E).
    - by rewrite (proj2 (beq_false _ _) E). }
  rewrite !Hz.
  destruct (cr_worker_index r =? UINT32_MAX) eqn:Hw; cbn; [eauto |].
  destruct (cr_token r =? 0); cbn; [eauto |].
  destruct (cr_scope_hash r =? 0); cbn; [eauto |].
  destruct (match_key_empty (cr_match_key r)); cbn; [eauto |].
  destruct (rd_require_replica (cr_reader_plan r)); cbn; [eauto |].
  assert (Ht := token_free _ _ R (cr_token r)).
  assert (Hi := worker_free _ _ R (cr_worker_index r)).
  destruct (existsb (fun e => cr_token e =? cr_token r) l.*2); cbn.
  { rewrite bool_decide_eq_false_2; [eauto | by intros ?%Ht]. }
  rewrite bool_decide_eq_true_2 by (by apply Ht). cbn.
  destruct (existsb (fun e => cr_worker_index e =? cr_worker_index r) l.*2); cbn.
  { rewrite bool_decide_eq_false_2; [eauto | by intros ?%Hi]. }
  rewrite bool_decide_eq_true_2 by (by apply Hi). cbn.
  eexists. split; [done |]. apply register_represents; try done.
  - by apply Z.eqb_neq.
  - by apply Ht.
  - by apply Hi.
Qed.

Lemma queue_step_refines o q l :
  op_sized o -> represents q l ->
  exists q' l', queue_step o q = Some (fst (fifo_step o l.*2), q') /\
                snd (fifo_step o l.*2) = l'.*2 /\ represents q' l'.
Proof.
  intros Ho R. destruct o as [r|cx hid server key ex|w t|w t|cx hid server key ex|key ex|]; cbn.
  - destruct (register_refines _ _ _ R Ho) as (q' & -> & H).
    destruct (fifo_admits r l.*2); cbn.
    + eexists _, _. split; [done |]. split; [| done]. by rewrite fmap_app.
    + subst. by exists q, l.
  - destruct (take_refines _ _ cx hid server key ex R) as (q' & -> & H).
    destruct (fifo_first _ _ _ _ _ _) as [[r s]|]; cbn.
    + destruct H as (n & Hn & R'). exists q', (erased l n). split; [done |].
      split; [| done]. symmetry. by apply (erased_requests _ _ R).
    + subst. by exists q, l.
  - destruct (cancel_refines _ _ w t R) as (q' & -> & H).
    destruct (fifo_owned w t l.*2); cbn.
    + destruct H as (n & r & Hn & _ & <- & R'). exists q', (erased l n). split; [done |].
      split; [| done]. symmetry. by apply (erased_requests _ _ R).
    + subst. by exists q, l.
  - rewrite (has_refines _ _ _ _ R). by exists q, l.
  - rewrite (has_matching_refines _ _ _ _ _ _ _ R). by exists q, l.
  - rewrite (has_another_refines _ _ _ _ R). by exists q, l.
  - exists q, l. split; [| done]. unfold reader_pool_capacity_request_count.
    by rewrite (rp_workers _ _ R), length_fmap.
Qed.

Lemma run_refines ops q l :
  Forall op_sized ops -> represents q l ->
  exists q', run_queue ops q = Some (fst (run_fifo ops l.*2), q').
Proof.
  revert q l. induction ops as [|o ops IH]; intros q l Hs R; [by exists q |].
  apply Forall_cons in Hs as [Ho Hs]. cbn.
  destruct (queue_step_refines o q l Ho R) as (q' & l' & -> & Hl & R'). cbn.
  destruct (fifo_step o l.*2) as [a k]. cbn in Hl. subst k.
  destruct (IH q' l' Hs R') as (q'' & ->). cbn.
  destruct (run_fifo ops l'.*2) as [answers k]. by exists q''.
Qed.

(** C19: From the empty queue, whatever workers register, take, cancel and ask,
    nothing aborts, and every answer is the one of a single list kept in the
    order of arrival: a returning connection gets the oldest request it may
    serve, a request is given out once, a worker and a token have at most one. *)
Theorem capacity_queue_refines_fifo ops :
  Forall op_sized ops ->
  exists q', run_queue ops empty_queue = Some (fst (run_fifo ops []), q').
Proof. intros Hs. exact (run_refines ops empty_queue [] Hs represents_empty). Qed.

Definition sample_key : PgSQL_PoolMatchKey := mkMatchKey 7 1 2 3.
Definition sample_wait_request (worker token : Z) (cap : bool) : PolarDB_ReaderPoolCapacityRequest :=
  let plan := rq_plan (sample_reader_request true) in
  mkRequest worker token 99 sample_key
    (plan <| rd_require_replica := false |> <| rd_max_lag_bytes := if cap then 1 else 0 |>
          <| rd_group_lsn := 900000 |>)
    no_wait.
Definition sample_requests : list request_op :=
  [Register (sample_wait_request 1 11 true); Register (sample_wait_request 2 12 false);
   Register (sample_wait_request 3 13 false); Register (sample_wait_request 3 14 false);
   HasMatching sample_context 20 (Some 2) sample_key 2;
   TakeMatching sample_context 20 (Some 2) sample_key 9; Cancel 3 14; Cancel 3 13;
   TakeMatching sample_context 20 (Some 2) sample_key 9; CountRequests].

(** The lag-limited request of worker 1 is passed over. *)
Example sample_requests_answers :
  map (fun a => match a with
                | Verdict b => if b then 1 else 0
                | Taken None => -1
                | Taken (Some (r, _)) => cr_token r
                | Total n => n
                end) (fst (run_fifo sample_requests [])) = [1; 1; 1; 0; 1; 12; 0; 1; -1; 1].
Proof. vm_compute. reflexivity. Qed.

Lemma capacity_queue_refines_fifo_witness :
  exists q, run_queue sample_requests empty_queue = Some (fst (run_fifo sample_requests []), q).
Proof.
  apply capacity_queue_refines_fifo. unfold sample_requests.
  repeat (apply Forall_cons; split; [vm_compute; try done; by split |]). apply Forall_nil. done.
Defined.
