(* ===== verification/ServerPool.v ===== *)
(** * The connection pool of one server

    A server (class PgSQL_SrvC) keeps its connections in a FREE and a USED list
    (PgSQL_SrvConnList, lib/PgSQL_HostGroups_Manager.cpp).  Each list mirrors
    the match key of every position; the FREE list also indexes its keyed
    connections by key.  A returning connection may be reserved for the request
    of a worker: it stays in FREE without a key until that worker takes or
    cancels the reservation.  Here are the lists and every operation of the
    server on them; PoolSafety has what they keep. *)

From S2P Require Import Prelude Policy Startup Session Query Topology.
From S2P Require Import ServerList PoolConn Reader ReaderAcquire CapacityQueue.
From Stdlib Require Import ZArith Ascii String List Bool Lia.
From stdpp Require Import base tactics list gmap strings.

Open Scope Z_scope.
Open Scope polar_scope.

(** ** Data *)

(** The address of a connection object. *)
Definition conn_id : Type := Z.

(** A connection object with the fields the pool keeps in it. *)
Record pool_conn := mkPoolConn {
  pc_conn : PgSQL_Connection;
  pc_position : Z;                    (** polardb_core_pool_position *)
  pc_trim_pending : bool;             (** polardb_idle_trim_pending *)
  pc_exact : bool;                    (** polardb_exact_pool_connection *)
  pc_ping_inflight : bool;            (** polardb_idle_ping_inflight *)
  pc_last_time_used : Z;
  pc_creation_time : Z
}.

#[global] Instance upd_pc_conn : Update pc_conn.
Proof. derive_update. Defined.
#[global] Instance upd_pc_position : Update pc_position.
Proof. derive_update. Defined.
#[global] Instance upd_pc_trim_pending : Update pc_trim_pending.
Proof. derive_update. Defined.
#[global] Instance upd_pc_exact : Update pc_exact.
Proof. derive_update. Defined.
#[global] Instance upd_pc_ping_inflight : Update pc_ping_inflight.
Proof. derive_update. Defined.

Record PgSQL_SrvConnList := mkConnList {
  cl_conns : list conn_id;
  cl_matching_by_key : gmap PgSQL_PoolMatchKey (list conn_id);
  cl_match_keys : list PgSQL_PoolMatchKey;   (** match_keys_by_position *)
  cl_empty_buckets : Z                       (** empty_match_bucket_count *)
}.

#[global] Instance upd_cl_conns : Update cl_conns.
Proof. derive_update. Defined.
#[global] Instance upd_cl_matching_by_key : Update cl_matching_by_key.
Proof. derive_update. Defined.
#[global] Instance upd_cl_match_keys : Update cl_match_keys.
Proof. derive_update. Defined.
#[global] Instance upd_cl_empty_buckets : Update cl_empty_buckets.
Proof. derive_update. Defined.

Definition empty_conn_list : PgSQL_SrvConnList := mkConnList [] ∅ [] 0.

Inductive ReaderReservationEndReason :=
| End_NONE | End_ACQUIRED | End_RELEASED | End_EXPLICIT_REMOVE | End_CREATE_EVICT
| End_IDLE_TRIM | End_MAX_AGE | End_SERVER_OFFLINE | End_POOL_DROP | End_INVALID_FREE_STATE.

#[global] Instance ReservationEndReason_eq_dec : EqDecision ReaderReservationEndReason.
Proof. solve_decision. Defined.

Definition polardb_reader_pool_reservation_reason_is_retirement
    (reason : ReaderReservationEndReason) : bool :=
  (reason != End_NONE) && (reason != End_ACQUIRED) && (reason != End_RELEASED).

Record PolarDB_ReaderPoolConnectionReservation := mkReservation {
  rv_worker_index : Z;
  rv_token : Z;
  rv_conn : conn_id;
  rv_match_key : PgSQL_PoolMatchKey
}.

Record PolarDB_ReaderPoolReservationRetired := mkRetired {
  rt_worker_index : Z;
  rt_reason : ReaderReservationEndReason
}.

(** The wake for the worker a reservation was made for. *)
Record PolarDB_ReaderPoolReservationWake := mkWake {
  wk_worker_index : Z;
  wk_token : Z;
  wk_server : srv_id;
  wk_snapshot : PolarDB_ServerListSnapshot
}.

Record PgSQL_SrvC := mkSrvC {
  sv_id : srv_id;
  sv_hid : Z;                         (** myhgc->hid *)
  sv_status : MySerStatus;
  sv_max_connections : Z;             (** int64_t *)
  sv_free : PgSQL_SrvConnList;        (** ConnectionsFree *)
  sv_used : PgSQL_SrvConnList;        (** ConnectionsUsed *)
  sv_free_count : Z;                  (** pool_free_count *)
  sv_used_count : Z;                  (** pool_used_count *)
  sv_reservations : gmap Z PolarDB_ReaderPoolConnectionReservation;
  sv_token_by_connection : gmap conn_id Z;
  sv_retired : gmap Z PolarDB_ReaderPoolReservationRetired;
  sv_idle_ping_count : Z
}.

#[global] Instance upd_sv_status : Update sv_status.
Proof. derive_update. Defined.
#[global] Instance upd_sv_free : Update sv_free.
Proof. derive_update. Defined.
#[global] Instance upd_sv_used : Update sv_used.
Proof. derive_update. Defined.
#[global] Instance upd_sv_free_count : Update sv_free_count.
Proof. derive_update. Defined.
#[global] Instance upd_sv_used_count : Update sv_used_count.
Proof. derive_update. Defined.
#[global] Instance upd_sv_reservations : Update sv_reservations.
Proof. derive_update. Defined.
#[global] Instance upd_sv_token_by_connection : Update sv_token_by_connection.
Proof. derive_update. Defined.
#[global] Instance upd_sv_retired : Update sv_retired.
Proof. derive_update. Defined.
#[global] Instance upd_sv_idle_ping_count : Update sv_idle_ping_count.
Proof. derive_update. Defined.

(** The state an operation sees under the pool lock: the server, the connection
    objects whose parent it is, and the request queue of its hostgroup. *)
Record pool := mkPool {
  pl_heap : gmap conn_id pool_conn;
  pl_srv : PgSQL_SrvC;
  pl_queue : capacity_queue
}.

#[global] Instance upd_pl_heap : Update pl_heap.
Proof. derive_update. Defined.
#[global] Instance upd_pl_srv : Update pl_srv.
Proof. derive_update. Defined.
#[global] Instance upd_pl_queue : Update pl_queue.
Proof. derive_update. Defined.

(** ** State with assertions

    [None] is a failed assertion, an abort, or the use of a connection object
    that is not there. *)

Definition PM (A : Type) : Type := pool -> option (A * pool).

#[global] Instance PM_ret : MRet PM := fun A a p => Some (a, p).
#[global] Instance PM_bind : MBind PM := fun A B f m p =>
  match m p with
  | Some (a, p') => f a p'
  | None => None
  end.

#[global] Instance PM_fmap : FMap PM := fun A B f m p =>
  match m p with
  | Some (a, p') => Some (f a, p')
  | None => None
  end.

Definition gets {A} (f : pool -> A) : PM A := fun p => Some (f p, p).
Definition modify (f : pool -> pool) : PM () := fun p => Some ((), f p).
Definition check (b : bool) : PM () := fun p => if b then Some ((), p) else None.

Definition fail {A} : PM A := fun _ => None.

Definition with_server (f : PgSQL_SrvC -> PgSQL_SrvC) : PM () :=
  modify (fun p => p <| pl_srv := f (pl_srv p) |>).
Definition server {A} (f : PgSQL_SrvC -> A) : PM A := gets (fun p => f (pl_srv p)).

(** The list [used_list] selects. *)
Definition the_list (used_list : bool) (s : PgSQL_SrvC) : PgSQL_SrvConnList :=
  if used_list then sv_used s else sv_free s.
Definition with_list (used_list : bool) (f : PgSQL_SrvConnList -> PgSQL_SrvConnList) : PM () :=
  with_server (fun s => if used_list then s <| sv_used := f (sv_used s) |>
                        else s <| sv_free := f (sv_free s) |>).
Definition read_list {A} (used_list : bool) (f : PgSQL_SrvConnList -> A) : PM A :=
  server (fun s => f (the_list used_list s)).

Definition whole_list (used_list : bool) : PM PgSQL_SrvConnList := server (the_list used_list).

Definition deref {A} (f : pool_conn -> A) (c : conn_id) : PM A := fun p =>
  o ← pl_heap p !! c; Some (f o, p).
Definition with_conn (f : pool_conn -> pool_conn) (c : conn_id) : PM () := fun p =>
  o ← pl_heap p !! c; Some ((), p <| pl_heap := <[c := f o]> (pl_heap p) |>).

Definition with_queue {A} (f : capacity_queue -> option (A * capacity_queue)) : PM A := fun p =>
  '(a, q) ← f (pl_queue p); Some (a, p <| pl_queue := q |>).

(** conns->len, stored in the counter of the list after each change. *)
Definition store_count (used_list : bool) : PM () :=
  n ← read_list used_list (fun l => Z.of_nat (length (cl_conns l)));
  with_server (fun s => if used_list then s <| sv_used_count := n |>
                        else s <| sv_free_count := n |>).

(** [remove_index_fast]: the last element takes the place of the removed one. *)
Definition remove_index_fast {A} (i : nat) (l : list A) : list A :=
  match last l with
  | None => []
  | Some x => take (length l - 1) (<[i := x]> l)
  end.

Fixpoint index_of (c : conn_id) (l : list conn_id) : option nat :=
  match l with
  | [] => None
  | x :: l => if x =? c then Some 0%nat else S <$> index_of c l
  end.

(** ** The lists *)

(** The remembered position when it is right, otherwise a scan that corrects it. *)
Definition find_idx (used_list : bool) (c : conn_id) : PM (option nat) :=
  position ← deref pc_position c;
  conns ← read_list used_list cl_conns;
  if (0 <=? position) && (conns !! Z.to_nat position == Some c)
  then mret (Some (Z.to_nat position))
  else
    match index_of c conns with
    | Some i =>
        with_conn (fun o => o <| pc_position := Z.of_nat i |>) c;;
        mret (Some i)
    | None => mret None
    end.

Definition polardb_connection_reserved_unlocked (c : conn_id) (s : PgSQL_SrvC) : bool :=
  sv_token_by_connection s !! c != None.

(** The positions of the connections, written into the objects in order. *)
Fixpoint set_positions (i : Z) (conns : list conn_id) : PM () :=
  match conns with
  | [] => mret ()
  | c :: conns =>
      with_conn (fun o => o <| pc_position := i |>) c;;
      set_positions (i + 1) conns
  end.

(** The keys under which the index has an unreserved [c], with repetition. *)
Definition indexed_keys (s : PgSQL_SrvC) (c : conn_id) : list PgSQL_PoolMatchKey :=
  if polardb_connection_reserved_unlocked c s then []
  else
    flat_map (fun '(key, bucket) =>
                if match_key_empty key then [] else map (fun _ => key) (filter (.= c) bucket))
      (map_to_list (cl_matching_by_key (sv_free s))).

(** Only a connection indexed once keeps its key; a connection listed twice has
    it at its first position. *)
Definition repaired_key (s : PgSQL_SrvC) (i : nat) (c : conn_id) : PgSQL_PoolMatchKey :=
  if index_of c (cl_conns (sv_free s)) == Some i then
    match indexed_keys s c with
    | [key] => key
    | _ => no_match_key
    end
  else no_match_key.

Definition push_bucket (m : gmap PgSQL_PoolMatchKey (list conn_id)) (key : PgSQL_PoolMatchKey)
    (c : conn_id) : gmap PgSQL_PoolMatchKey (list conn_id) :=
  <[key := default [] (m !! key) ++ [c]]> m.

Definition rebuild_free_match_index_unlocked : PM () :=
  conns ← read_list false cl_conns;
  set_positions 0 conns;;
  keys ← server (fun s => imap (repaired_key s) conns);
  with_list false (fun l =>
    l <| cl_empty_buckets := 0 |> <| cl_match_keys := keys |>
      <| cl_matching_by_key :=
           fold_left (fun m '(c, key) => if match_key_empty key then m else push_bucket m key c)
             (zip conns keys) ∅ |>).

(** An emptied bucket stays while fewer empty ones are kept than the server may
    have connections. *)
Definition limit_empty_match_buckets_unlocked (key : PgSQL_PoolMatchKey) : PM () :=
  max_connections ← server sv_max_connections;
  count ← read_list false cl_empty_buckets;
  let limit := if 0 <? max_connections then max_connections else 0 in
  if count <? limit
  then with_list false (fun l => l <| cl_empty_buckets := cl_empty_buckets l + 1 |>)
  else with_list false (fun l =>
         l <| cl_matching_by_key := delete key (cl_matching_by_key l) |>).

(** The bucket of [key] became [rest]. *)
Definition put_bucket (key : PgSQL_PoolMatchKey) (rest : list conn_id) : PM () :=
  with_list false (fun l =>
    l <| cl_matching_by_key := <[key := rest]> (cl_matching_by_key l) |>);;
  if rest == [] then limit_empty_match_buckets_unlocked key else mret ().

Definition prune_empty_match_buckets_unlocked : PM () :=
  l ← whole_list false;
  if cl_empty_buckets l =? 0 then mret ()
  else
    let kept := filter (fun kb => kb.2 <> []) (cl_matching_by_key l) in
    check (Z.of_nat (size (cl_matching_by_key l)) - Z.of_nat (size kept)
             =? cl_empty_buckets l);;
    with_list false (fun l => l <| cl_matching_by_key := kept |> <| cl_empty_buckets := 0 |>).

Definition keys_match_conns (l : PgSQL_SrvConnList) : bool :=
  (length (cl_match_keys l) =? length (cl_conns l))%nat.

Definition ensure_match_index_consistent_unlocked (used_list : bool) : PM () :=
  l ← whole_list used_list;
  if keys_match_conns l then mret ()
  else if negb used_list then
    rebuild_free_match_index_unlocked;;
    l ← whole_list false;
    check (keys_match_conns l)
  else
    set_positions 0 (cl_conns l);;
    with_list true (fun l =>
      l <| cl_matching_by_key := ∅ |>
        <| cl_match_keys := resize (length (cl_conns l)) no_match_key (cl_match_keys l) |>).

Definition polardb_finish_idle_trim_unlocked (c : conn_id) : PM bool :=
  pending ← deref pc_trim_pending c;
  if negb pending then mret false
  else with_conn (fun o => o <| pc_trim_pending := false |>) c;; mret true.

Definition unindex_unlocked (c : conn_id) : PM () :=
  ensure_match_index_consistent_unlocked false;;
  position ← find_idx false c;
  l ← whole_list false;
  match i ← position; cl_match_keys l !! i with
  | None => mret ()
  | Some key =>
      if match_key_empty key then mret ()
      else
        match cl_matching_by_key l !! key with
        | None => mret ()
        | Some bucket =>
            match index_of c bucket with
            | None => mret ()
            | Some i => put_bucket key (remove_index_fast i bucket)
            end
        end
  end.

Definition add_to_bucket (key : PgSQL_PoolMatchKey) (c : conn_id) : PM () :=
  l ← whole_list false;
  (if cl_matching_by_key l !! key == Some [] then
     check (0 <? cl_empty_buckets l);;
     with_list false (fun l => l <| cl_empty_buckets := cl_empty_buckets l - 1 |>)
   else mret ());;
  with_list false (fun l =>
    l <| cl_matching_by_key := push_bucket (cl_matching_by_key l) key c |>).

(** An absent key and the empty key both leave the connection keyless. *)
Definition add_unlocked (used_list : bool) (c : conn_id) (key : option PgSQL_PoolMatchKey)
  : PM () :=
  ensure_match_index_consistent_unlocked used_list;;
  polardb_finish_idle_trim_unlocked c;;
  len ← read_list used_list (fun l => Z.of_nat (length (cl_conns l)));
  with_conn (fun o => o <| pc_position := len |>) c;;
  let key := default no_match_key key in
  with_list used_list (fun l =>
    l <| cl_conns := cl_conns l ++ [c] |> <| cl_match_keys := cl_match_keys l ++ [key] |>);;
  (if match_key_empty key then mret () else with_conn (fun o => o <| pc_exact := true |>) c);;
  store_count used_list;;
  if match_key_empty key || used_list then mret () else add_to_bucket key c.

Definition find_match_key_unlocked (used_list : bool) (c : conn_id)
  : PM (option PgSQL_PoolMatchKey) :=
  l ← whole_list used_list;
  check (keys_match_conns l);;
  position ← find_idx used_list c;
  mret (i ← position; key ← cl_match_keys l !! i;
        if match_key_empty key then None else Some key).

(** The connection at [index], taken out of the list; its index entry and its
    reservation are gone already. *)
Definition remove_unindexed_unlocked (used_list : bool) (index : nat) : PM (option conn_id) :=
  l ← whole_list used_list;
  match cl_conns l !! index, last (cl_conns l) with
  | Some c, Some last_conn =>
      check (keys_match_conns l);;
      with_list used_list (fun l => l <| cl_conns := remove_index_fast index (cl_conns l) |>);;
      (if used_list then mret false else polardb_finish_idle_trim_unlocked c);;
      with_conn (fun o => o <| pc_position := UINT32_MAX |>) c;;
      (if (index <? length (cl_conns l) - 1)%nat
       then with_conn (fun o => o <| pc_position := Z.of_nat index |>) last_conn else mret ());;
      with_list used_list (fun l =>
        l <| cl_match_keys := remove_index_fast index (cl_match_keys l) |>);;
      l' ← whole_list used_list;
      check (keys_match_conns l');;
      store_count used_list;;
      mret (Some c)
  | _, _ => mret None
  end.

(** emplace: an entry that is there stays. *)
Definition emplace `{Countable K} {A} (k : K) (a : A) (m : gmap K A) : gmap K A :=
  match m !! k with
  | Some _ => m
  | None => <[k := a]> m
  end.

Definition polardb_forget_reserved_connection_unlocked (c : conn_id)
    (reason : ReaderReservationEndReason) : PM () :=
  with_server (fun s =>
    match sv_token_by_connection s !! c with
    | None => s
    | Some token =>
        let s1 :=
          match sv_reservations s !! token with
          | Some reservation =>
              if polardb_reader_pool_reservation_reason_is_retirement reason
              then s <| sv_retired := emplace token
                          (mkRetired (rv_worker_index reservation) reason) (sv_retired s) |>
              else s
          | None => s
          end in
        s1 <| sv_reservations := delete token (sv_reservations s) |>
           <| sv_token_by_connection := delete c (sv_token_by_connection s) |>
    end).

Definition polardb_retire_reservations_unlocked (reason : ReaderReservationEndReason) : PM () :=
  with_server (fun s =>
    (if polardb_reader_pool_reservation_reason_is_retirement reason
     then s <| sv_retired :=
                 map_fold (fun token r m => emplace token (mkRetired (rv_worker_index r) reason) m)
                   (sv_retired s) (sv_reservations s) |>
     else s) <| sv_reservations := ∅ |> <| sv_token_by_connection := ∅ |>).

Definition remove_unlocked (used_list : bool) (index : nat)
    (reason : ReaderReservationEndReason) : PM (option conn_id) :=
  conns ← read_list used_list cl_conns;
  match conns !! index with
  | None => mret None
  | Some c =>
      (if used_list then ensure_match_index_consistent_unlocked true
       else unindex_unlocked c;; polardb_forget_reserved_connection_unlocked c reason);;
      remove_unindexed_unlocked used_list index
  end.

(** One attempt of [remove_matching_unlocked]; [None] asks for another. *)
Definition try_remove_matching (key : PgSQL_PoolMatchKey) : PM (option (option conn_id)) :=
  ensure_match_index_consistent_unlocked false;;
  l ← whole_list false;
  match bucket ← cl_matching_by_key l !! key; c ← last bucket; Some (bucket, c) with
  | None => mret (Some None)
  | Some (bucket, c) =>
      position ← find_idx false c;
      match i ← position; k ← cl_match_keys l !! i; if k == key then Some i else None with
      | Some i =>
          put_bucket key (removelast bucket);;
          Some <$> remove_unindexed_unlocked false i
      | None =>
          rebuild_free_match_index_unlocked;;
          mret None
      end
  end.

Definition remove_matching_unlocked (key : PgSQL_PoolMatchKey) : PM (option conn_id) :=
  r ← try_remove_matching key;
  match r with
  | Some c => mret c
  | None => r ← try_remove_matching key; mret (default None r)
  end.

(** [while (conns->len)]: the connection at position 0, as often as there are
    connections. *)
Fixpoint detach_loop (used_list : bool) (fuel : nat) (reason : ReaderReservationEndReason)
  : PM (list conn_id) :=
  match fuel with
  | O => mret []
  | S fuel =>
      len ← read_list used_list (fun l => length (cl_conns l));
      if (len =? 0)%nat then mret []
      else
        c ← remove_unlocked used_list 0 reason;
        rest ← detach_loop used_list fuel reason;
        mret (option_list c ++ rest)
  end.

Definition detach_all_unlocked (used_list : bool) (reason : ReaderReservationEndReason)
  : PM (list conn_id) :=
  len ← read_list used_list (fun l => length (cl_conns l));
  detached ← detach_loop used_list len reason;
  (if used_list then mret ()
   else prune_empty_match_buckets_unlocked;; polardb_retire_reservations_unlocked reason);;
  mret detached.

(** ** Reservations *)

(** Keep [c] in FREE without a key, for the worker of [selected]. *)
Definition reserve_reader_pool_connection_unlocked (c : conn_id)
    (selected : PolarDB_ReaderPoolCapacityRequest) (snapshot : PolarDB_ServerListSnapshot)
  : PM PolarDB_ReaderPoolReservationWake :=
  with_conn (fun o => o <| pc_conn := pc_conn o <| cn_server_snapshot := Some snapshot |> |>) c;;
  add_unlocked false c None;;
  let reservation := mkReservation (cr_worker_index selected) (cr_token selected) c
                       (cr_match_key selected) in
  with_server (fun s =>
    s <| sv_reservations := emplace (cr_token selected) reservation (sv_reservations s) |>
      <| sv_token_by_connection := emplace c (cr_token selected) (sv_token_by_connection s) |>);;
  id ← server sv_id;
  mret (mkWake (cr_worker_index selected) (cr_token selected) id snapshot).

Section Server.
Context (cx : reader_context).

Definition take_request (key : PgSQL_PoolMatchKey) (excluded_worker_index : Z)
  : PM (option (PolarDB_ReaderPoolCapacityRequest * PolarDB_ServerListSnapshot)) :=
  hid ← server sv_hid;
  id ← server sv_id;
  with_queue
    (take_matching_reader_pool_capacity_request cx hid (Some id) key excluded_worker_index).

(** Whether the connection was stored, and the wake when it became a reservation. *)
Definition store_matching_free_connection_unlocked (c : conn_id) (key : PgSQL_PoolMatchKey)
    (excluded_worker_index : Z) : PM (bool * option PolarDB_ReaderPoolReservationWake) :=
  status ← server sv_status;
  if status != SERVER_ONLINE then mret (false, None)
  else
    with_conn (fun o => o <| pc_conn := pc_conn o <| cn_server_snapshot := None |> |>) c;;
    selected ← take_request key excluded_worker_index;
    match selected with
    | None => add_unlocked false c (Some key);; mret (true, None)
    | Some (request, snapshot) =>
        wake ← reserve_reader_pool_connection_unlocked c request snapshot;
        mret (true, Some wake)
    end.

Definition add_matching_connection (c : conn_id) (key : PgSQL_PoolMatchKey)
  : PM (bool * option PolarDB_ReaderPoolReservationWake) :=
  status ← server sv_status;
  if status != SERVER_ONLINE then mret (false, None)
  else store_matching_free_connection_unlocked c key UINT32_MAX.

Definition add_used_matching_connection (c : conn_id) (key : PgSQL_PoolMatchKey) : PM bool :=
  status ← server sv_status;
  if status != SERVER_ONLINE then mret false
  else add_unlocked true c (Some key);; mret true.

Inductive ServerReturnStatus :=
| Return_NOT_IN_USED_LIST | Return_SERVER_NOT_ONLINE | Return_STORE_FAILED | Return_STORED.

Definition return_matching_connection (c : conn_id) (key : PgSQL_PoolMatchKey)
    (excluded_worker_index : Z)
  : PM (ServerReturnStatus * option PolarDB_ReaderPoolReservationWake) :=
  index ← find_idx true c;
  match index with
  | None => mret (Return_NOT_IN_USED_LIST, None)
  | Some i =>
      remove_unlocked true i End_EXPLICIT_REMOVE;;
      status ← server sv_status;
      if status != SERVER_ONLINE then mret (Return_SERVER_NOT_ONLINE, None)
      else
        '(stored, wake) ← store_matching_free_connection_unlocked c key excluded_worker_index;
        mret ((if stored : bool then Return_STORED else Return_STORE_FAILED), wake)
  end.

Inductive PolarDB_ReaderRemoteReservationResult :=
| Remote_CONNECTION_INVALID | Remote_NO_REMOTE_REQUEST | Remote_CONNECTION_RESERVED.

Definition reserve_matching_used_connection (c : conn_id) (key : PgSQL_PoolMatchKey)
    (returning_worker_index : Z)
  : PM (PolarDB_ReaderRemoteReservationResult * option PolarDB_ReaderPoolReservationWake) :=
  if match_key_empty key || (returning_worker_index =? UINT32_MAX)
  then mret (Remote_CONNECTION_INVALID, None)
  else
    index ← find_idx true c;
    status ← server sv_status;
    match index with
    | Some i =>
        if status != SERVER_ONLINE then mret (Remote_CONNECTION_INVALID, None)
        else
          selected ← take_request key returning_worker_index;
          match selected with
          | None => mret (Remote_NO_REMOTE_REQUEST, None)
          | Some (request, snapshot) =>
              with_conn (fun o =>
                o <| pc_conn := pc_conn o <| cn_server_snapshot := None |> |>) c;;
              remove_unlocked true i End_EXPLICIT_REMOVE;;
              wake ← reserve_reader_pool_connection_unlocked c request snapshot;
              mret (Remote_CONNECTION_RESERVED, Some wake)
          end
    | None => mret (Remote_CONNECTION_INVALID, None)
    end.

Inductive ReaderTakeStatus :=
| Take_MISSING | Take_PENDING
| Take_RETIRED (reason : ReaderReservationEndReason)
| Take_ACQUIRED (c : conn_id).

(** The part of a take after no reservation could be handed over. *)
Definition take_without_reservation (worker_index token : Z) : PM ReaderTakeStatus :=
  pending ← gets (fun p => has_reader_pool_capacity_request worker_index token (pl_queue p));
  if pending : bool then mret Take_PENDING
  else
    retired ← server (fun s => sv_retired s !! token);
    match retired with
    | Some r =>
        if rt_worker_index r =? worker_index then
          with_server (fun s => s <| sv_retired := delete token (sv_retired s) |>);;
          mret (Take_RETIRED (rt_reason r))
        else mret Take_MISSING
    | None => mret Take_MISSING
    end.

(** The reservation of this worker under [token]. *)
Definition own_reservation (worker_index token : Z)
  : PM (option PolarDB_ReaderPoolConnectionReservation) :=
  server (fun s =>
    r ← sv_reservations s !! token;
    if rv_worker_index r =? worker_index then Some r else None).

Definition take_reader_pool_reservation (worker_index token : Z) : PM ReaderTakeStatus :=
  reservation ← own_reservation worker_index token;
  match reservation with
  | None => take_without_reservation worker_index token
  | Some selected =>
      index ← find_idx false (rv_conn selected);
      status ← server sv_status;
      match index with
      | Some i =>
          if status != SERVER_ONLINE then
            polardb_forget_reserved_connection_unlocked (rv_conn selected) End_SERVER_OFFLINE;;
            take_without_reservation worker_index token
          else
            c ← remove_unlocked false i End_ACQUIRED;
            match c with
            | None => fail
            | Some c =>
                add_unlocked true c (Some (rv_match_key selected));;
                mret (Take_ACQUIRED c)
            end
      | None =>
          polardb_forget_reserved_connection_unlocked (rv_conn selected)
            (if status != SERVER_ONLINE then End_SERVER_OFFLINE else End_INVALID_FREE_STATE);;
          take_without_reservation worker_index token
      end
  end.

Inductive ReaderCancelStatus :=
| Cancel_MISSING | Cancel_REQUEST_CANCELLED | Cancel_RETIRED_RECORD_CLEARED
| Cancel_CONNECTION_RETURNED | Cancel_CONNECTION_NOT_FREE.

Definition cancel_reader_pool_reservation (worker_index token : Z)
  : PM (ReaderCancelStatus * option PolarDB_ReaderPoolReservationWake) :=
  cancelled ← with_queue (cancel_reader_pool_capacity_request worker_index token);
  if cancelled : bool then mret (Cancel_REQUEST_CANCELLED, None)
  else
    reservation ← own_reservation worker_index token;
    match reservation with
    | None =>
        retired ← server (fun s => sv_retired s !! token);
        match retired with
        | Some r =>
            if rt_worker_index r =? worker_index then
              with_server (fun s => s <| sv_retired := delete token (sv_retired s) |>);;
              mret (Cancel_RETIRED_RECORD_CLEARED, None)
            else mret (Cancel_MISSING, None)
        | None => mret (Cancel_MISSING, None)
        end
    | Some selected =>
        index ← find_idx false (rv_conn selected);
        match index with
        | None =>
            polardb_forget_reserved_connection_unlocked (rv_conn selected) End_RELEASED;;
            mret (Cancel_CONNECTION_NOT_FREE, None)
        | Some i =>
            c ← remove_unlocked false i End_RELEASED;
            match c with
            | None => fail
            | Some c =>
                status ← server sv_status;
                if status == SERVER_ONLINE then
                  '(stored, wake) ← store_matching_free_connection_unlocked c
                                      (rv_match_key selected) UINT32_MAX;
                  check stored;;
                  mret (Cancel_CONNECTION_RETURNED, wake)
                else
                  with_conn (fun o =>
                    o <| pc_conn := pc_conn o <| cn_server_snapshot := None |> |>) c;;
                  add_unlocked false c (Some (rv_match_key selected));;
                  mret (Cancel_CONNECTION_RETURNED, None)
            end
        end
    end.

End Server.

(** ** Acquisition from FREE *)

Definition take_matching_connection (key : PgSQL_PoolMatchKey) : PM (option conn_id) :=
  status ← server sv_status;
  if status != SERVER_ONLINE then mret None
  else
    c ← remove_matching_unlocked key;
    match c with
    | None => mret None
    | Some c => add_unlocked true c (Some key);; mret (Some c)
    end.

(** The compatibility search: position, quality and number of matching variables
    of the best connection so far. *)
Record search := mkSearch { se_idx : nat; se_quality : Z; se_matching : Z }.

(** The settings of the worker and of the hostgroup the search and the creation
    of a connection read: [gt_config] is the hostgroup in the thread's topology
    when PolarDB is active. *)
Record get_settings := mkGetSettings {
  gt_warming : bool;
  gt_free_connections_pct : Z;
  gt_config : option PolarDB_HG_Config;
  gt_proxy_protocol : Z;
  gt_profile_off : bool;
  gt_startup_generation : Z;
  gt_ids : identity_settings;
  gt_rand : Z;                        (** rand_fast() *)
  gt_throttled : bool;                (** pgsql_connection_creation_throttled_unlocked *)
  gt_new : conn_id * pool_conn        (** the object operator new gives *)
}.

Section Search.
Context (client_conn : PgSQL_Connection)
  (startup_profile : option PolarDB_StartupProfile)
  (startup_client : option PolarDB_StartupClientContext)
  (has_reader_pool_reservations : bool) (gs : get_settings) (s : PgSQL_SrvC)
  (heap : gmap conn_id pool_conn).

Definition search_skips (c : conn_id) (conn : PgSQL_Connection) : bool :=
  (has_reader_pool_reservations && polardb_connection_reserved_unlocked c s) ||
  match startup_profile with
  | Some profile =>
      negb (polardb_connection_startup_settings_match (Some conn) profile startup_client
              (gt_startup_generation gs) (is_mode (gt_ids gs)))
  | None => cn_settings_set conn && emits_startup_params (cn_profile conn)
  end.

Definition same_options (conn : PgSQL_Connection) : bool :=
  match cn_userinfo conn, cn_userinfo client_conn with
  | Some ui, Some cui => has_same_connection_options ui cui
  | _, _ => false
  end.

Fixpoint get_random_MyConn_inner_search (l : list (nat * conn_id)) (b : search) : search :=
  match l with
  | [] => b
  | (k, c) :: l =>
      match heap !! c with
      | None => get_random_MyConn_inner_search l b
      | Some o =>
          let conn := pc_conn o in
          if search_skips c conn then get_random_MyConn_inner_search l b
          else if same_options conn then
            let b := if se_quality b =? 0 then mkSearch k 1 (se_matching b) else b in
            if requires_RESETTING_CONNECTION conn client_conn
            then get_random_MyConn_inner_search l b
            else
              let b := if se_quality b =? 1 then mkSearch k 2 (se_matching b) else b in
              let '(cnt_match, not_match) :=
                number_of_matching_session_variables conn client_conn in
              if not_match =? 0 then mkSearch k 3 cnt_match
              else if se_matching b <? cnt_match
              then get_random_MyConn_inner_search l (mkSearch k (se_quality b) cnt_match)
              else get_random_MyConn_inner_search l b
          else get_random_MyConn_inner_search l b
      end
  end.

End Search.

(** *** Making room *)

(** Remove up to [remaining] unreserved FREE connections, from [index] on. *)
Fixpoint evict_loop (fuel index remaining : nat) : PM (list conn_id * nat) :=
  match fuel, remaining with
  | _, O | O, _ => mret ([], remaining)
  | S fuel, S rest =>
      conns ← read_list false cl_conns;
      match conns !! index with
      | None => mret ([], remaining)
      | Some c =>
          reserved ← server (polardb_connection_reserved_unlocked c);
          if reserved : bool then evict_loop fuel (S index) remaining
          else
            removed ← remove_unlocked false index End_CREATE_EVICT;
            '(deleted, remaining) ← evict_loop fuel index rest;
            mret (option_list removed ++ deleted, remaining)
      end
  end.

(** The verdict and the connections to delete. *)
Definition evict_unreserved_free_for_create (preferred_count required_count : Z)
  : PM (bool * list conn_id) :=
  if (preferred_count =? 0) && (required_count =? 0) then mret (true, [])
  else if preferred_count <? required_count then mret (false, [])
  else
    conns ← read_list false cl_conns;
    s ← server (fun s => s);
    let evictable := Z.of_nat (length (filter (fun c =>
                       polardb_connection_reserved_unlocked c s = false) conns)) in
    if evictable <? required_count then mret (false, [])
    else
      '(deleted, remaining) ←
         evict_loop (length conns) 0 (Z.to_nat (Z.min preferred_count evictable));
      mret ((remaining =? 0)%nat, deleted).

(** active() and total() of the server's counters. *)
Definition pool_active (s : PgSQL_SrvC) : Z := sv_used_count s.
Definition pool_total (s : PgSQL_SrvC) : Z := wrap32 (sv_used_count s + sv_free_count s).

Definition polardb_make_room_for_classic_connection_unlocked (preferred_classic_evict : Z)
  : PM (bool * list conn_id) :=
  s ← server (fun s => s);
  if sv_max_connections s <=? 0 then mret (false, [])
  else
    let max_connections := wrap32 (sv_max_connections s) in
    if max_connections <=? pool_active s then mret (false, [])
    else
      let required_free := if max_connections <=? pool_total s
                           then wrap32 (pool_total s - max_connections + 1) else 0 in
      let classic_to_evict := Z.max preferred_classic_evict required_free in
      '(made, deleted) ← evict_unreserved_free_for_create classic_to_evict required_free;
      if negb made then mret (false, deleted)
      else
        s ← server (fun s => s);
        mret ((pool_active s <? max_connections) && (pool_total s <? max_connections), deleted).

Definition calculate_eviction_count (conns_free conns_used max_connections : Z) : Z :=
  if conns_free <? 1 then 0
  else
    let pct_max_connections := wrap32 (3 * max_connections) / 4 in
    let total := wrap32 (conns_free + conns_used) in
    if pct_max_connections <=? total
    then (let count := wrap32 (total - pct_max_connections) in if count =? 0 then 1 else count)
    else 0.

Record ConnectionPoolDecision := mkDecision {
  dc_create_new_connection : bool;
  dc_evict_connections : bool;
  dc_num_to_evict : Z;
  dc_needs_warming : bool
}.

Definition evaluate_pool_state (conns_free conns_used max_connections
    connection_quality_level : Z) (connection_warming : bool) (free_connections_pct : Z)
  : ConnectionPoolDecision :=
  if connection_warming &&
     (wrap32 (conns_free + conns_used) <?
      wrap32 (wrap32 free_connections_pct * max_connections) / 100)
  then mkDecision true false 0 true
  else if connection_quality_level =? 0 then
    let n := calculate_eviction_count conns_free conns_used max_connections in
    mkDecision true (0 <? n) n false
  else if connection_quality_level =? 1 then
    mkDecision ((conns_free <? conns_used) &&
                (wrap32 (conns_free / 2 + conns_used / 2) <? max_connections)) false 0 false
  else if (connection_quality_level =? 2) || (connection_quality_level =? 3) then
    mkDecision false false 0 false
  else mkDecision true false 0 false.

(** [new]: the address was free. *)
Definition pgsql_create_backend_connection_unlocked (gs : get_settings) : PM conn_id := fun p =>
  let '(c, o) := gt_new gs in
  match pl_heap p !! c with
  | Some _ => None
  | None =>
      Some (c, p <| pl_heap :=
                      <[c := o <| pc_position := UINT32_MAX |> <| pc_trim_pending := false |>
                               <| pc_exact := false |> <| pc_ping_inflight := false |>]>
                        (pl_heap p) |>)
  end.

(** Evict when needed, then create; the connections to delete are kept in both
    cases. *)
Definition create_with_room (gs : get_settings) (preferred : Z)
  : PM (option conn_id * list conn_id) :=
  '(room, deleted) ← polardb_make_room_for_classic_connection_unlocked preferred;
  if negb room then mret (None, deleted)
  else c ← pgsql_create_backend_connection_unlocked gs; mret (Some c, deleted).

Section GetRandom.
Context (pton4 : string -> option Z) (pton6 : string -> option (list Z)).
Context (gs : get_settings).

Definition needs_warming (s : PgSQL_SrvC) : bool :=
  gt_warming gs &&
  (pool_total s <?
   wrap32 (Z.quot (wrap32 (gt_free_connections_pct gs) * sv_max_connections s) 100)).

Definition search_startup_profile : option PolarDB_StartupProfile :=
  (fun cfg => polardb_startup_profile_for_config cfg (gt_proxy_protocol gs) (gt_profile_off gs))
    <$> gt_config gs.

Definition search_startup_client (sess : pool_session) : option PolarDB_StartupClientContext :=
  profile ← search_startup_profile;
  if emits_startup_params profile then
    match startup_client_of pton4 pton6 (gt_ids gs) sess with
    | (client, true) => Some client
    | (_, false) => None
    end
  else None.

(** Both halves of the search, around the random start. *)
Definition search_pool (sess : pool_session) (client_conn : PgSQL_Connection) (i : nat)
    (p : pool) : search :=
  let s := pl_srv p in
  let indexed := imap pair (cl_conns (sv_free s)) in
  let run := get_random_MyConn_inner_search client_conn search_startup_profile
               (search_startup_client sess)
               (negb (bool_decide (sv_token_by_connection s = ∅))) gs s (pl_heap p) in
  let b := run (drop i indexed) (mkSearch 0 0 0) in
  if se_quality b =? 3 then b else run (take i indexed) b.

(** [get_random_MyConn_unlocked] of the FREE list: the connection and the
    connections to delete. *)
Definition get_random_MyConn_unlocked (sess : option pool_session)
    (ff only_pooled exact_only : bool) : PM (option conn_id * list conn_id) :=
  s ← server (fun s => s);
  let l := length (cl_conns (sv_free s)) in
  if only_pooled && (l =? 0)%nat then mret (None, [])
  else if negb (l =? 0)%nat && negb ff && negb (needs_warming s) then
    let i := Z.to_nat (gt_rand gs mod Z.of_nat l) in
    match sess ≫= (fun x => _ ← ps_stream x; c ← ps_client x; _ ← cn_userinfo c; Some (x, c)) with
    | None => c ← remove_unlocked false i End_EXPLICIT_REMOVE; mret (c, [])
    | Some (sess, client_conn) =>
        b ← gets (search_pool sess client_conn i);
        let found := c ← remove_unlocked false (se_idx b) End_EXPLICIT_REMOVE; mret (c, []) in
        if exact_only then if se_quality b =? 3 then found else mret (None, [])
        else
          let decision := evaluate_pool_state (sv_free_count s) (sv_used_count s)
                            (wrap32 (sv_max_connections s)) (se_quality b) false 0 in
          if se_quality b =? 0 then
            if only_pooled then mret (None, [])
            else create_with_room gs
                   (if dc_evict_connections decision then dc_num_to_evict decision else 0)
          else if se_quality b =? 1 then
            if only_pooled then found
            else if dc_create_new_connection decision then create_with_room gs 0
            else found
          else found
    end
  else if only_pooled then mret (None, [])
  else if gt_throttled gs then mret (None, [])
  else create_with_room gs 0.

(** *** Taking a connection for a request *)

Record pool_get := mkPoolGet {
  pg_conn : option conn_id;
  pg_source : PgSQL_PoolGetSource;
  pg_server_saturated : bool;
  pg_retry_after_config_change : bool;
  pg_pool_busy : bool
}.

Definition no_get : pool_get := mkPoolGet None Source_NONE false false false.

(** The connection and its source; the object stays keyless in USED. *)
Definition take_reusable_connection_unlocked (sess : option pool_session)
    (key : PgSQL_PoolMatchKey) (mode : PgSQL_PoolGetMode)
  : PM (option conn_id * PgSQL_PoolGetSource) :=
  exact ← (if md_exact_match mode then remove_matching_unlocked key else mret None);
  match exact with
  | Some c => add_unlocked true c None;; mret (Some c, Source_EXACT_MATCH)
  | None =>
      if md_reset mode then
        '(c, _) ← get_random_MyConn_unlocked sess false true false;
        match c with
        | Some c => add_unlocked true c None;; mret (Some c, Source_RESET)
        | None => mret (None, Source_NONE)
        end
      else mret (None, Source_NONE)
  end.

(** [locked]: another thread holds the pool lock when it is only tried. *)
Definition take_existing_connection (sess : option pool_session) (key : PgSQL_PoolMatchKey)
    (mode : PgSQL_PoolGetMode) (selected_max_connections : Z) (locked : bool) : PM pool_get :=
  if md_skip_busy mode && locked then mret (mkPoolGet None Source_NONE false false true)
  else
    status ← server sv_status;
    if status != SERVER_ONLINE then mret no_get
    else
      '(c, source) ← take_reusable_connection_unlocked sess key mode;
      s ← server (fun s => s);
      let used := sv_used_count s in
      let free := sv_free_count s in
      let reserved_free := Z.of_nat (size (sv_reservations s)) in
      let all_free_reserved := (0 <? free) && (reserved_free =? free) in
      let saturated :=
        (c == None) && (0 <? selected_max_connections) &&
        ((selected_max_connections <=? used) ||
         (all_free_reserved && (selected_max_connections <=? used + free))) in
      mret (mkPoolGet c source saturated false false).

End GetRandom.

(** ** Housekeeping *)

Definition take_free_connection_for_ping (c : conn_id) (max_last_time_used : Z)
  : PM (option conn_id) :=
  status ← server sv_status;
  if status != SERVER_ONLINE then mret None
  else
    ensure_match_index_consistent_unlocked false;;
    index ← find_idx false c;
    reserved ← server (polardb_connection_reserved_unlocked c);
    last_time_used ← deref pc_last_time_used c;
    match index with
    | None => mret None
    | Some i =>
        if (last_time_used =? 0) || (max_last_time_used <=? last_time_used) || reserved
        then mret None
        else
          key ← find_match_key_unlocked false c;
          selected ← remove_unlocked false i End_ACQUIRED;
          match selected with
          | None => mret None
          | Some c =>
              add_unlocked true c key;;
              inflight ← deref pc_ping_inflight c;
              (if inflight : bool then mret ()
               else
                 with_conn (fun o => o <| pc_ping_inflight := true |>) c;;
                 with_server (fun s =>
                   s <| sv_idle_ping_count := wrap32 (sv_idle_ping_count s + 1) |>));;
              mret (Some c)
          end
    end.

Definition polardb_finish_idle_ping (c : conn_id) : PM bool :=
  inflight ← deref pc_ping_inflight c;
  if negb inflight then mret false
  else
    with_conn (fun o => o <| pc_ping_inflight := false |>) c;;
    count ← server sv_idle_ping_count;
    check (negb (count =? 0));;
    with_server (fun s => s <| sv_idle_ping_count := count - 1 |>);;
    mret true.

(** The first loop of the trim: connections deferred by an earlier pass go while
    there are more than [max_free]. *)
Fixpoint trim_loop (fuel index : nat) (max_free : Z) : PM (list conn_id) :=
  match fuel with
  | O => mret []
  | S fuel =>
      conns ← read_list false cl_conns;
      if Z.of_nat (length conns) <=? max_free then mret []
      else
        match conns !! index with
        | None => mret []
        | Some c =>
            pending ← deref pc_trim_pending c;
            if negb pending then trim_loop fuel (S index) max_free
            else
              removed ← remove_unlocked false index End_IDLE_TRIM;
              rest ← trim_loop fuel index max_free;
              mret (option_list removed ++ rest)
        end
  end.

(** The number of marks taken back. *)
Fixpoint retain_loop (conns : list conn_id) : PM Z :=
  match conns with
  | [] => mret 0
  | c :: conns =>
      finished ← polardb_finish_idle_trim_unlocked c;
      n ← retain_loop conns;
      mret ((if finished : bool then 1 else 0) + n)
  end.

(** The number of connections marked. *)
Fixpoint defer_loop (conns : list conn_id) (excess : Z) : PM Z :=
  match conns with
  | [] => mret 0
  | c :: conns =>
      if excess <=? 0 then mret 0
      else
        pending ← deref pc_trim_pending c;
        if pending : bool then defer_loop conns excess
        else
          with_conn (fun o => o <| pc_trim_pending := true |>) c;;
          n ← defer_loop conns (excess - 1);
          mret (1 + n)
  end.

Record PolarDB_IdleTrimResult := mkTrimResult {
  tr_deferred : Z; tr_cancelled : Z; tr_destroyed : Z
}.

Definition polardb_trim_free_connections_to_max_unlocked (max_free : Z)
  : PM (PolarDB_IdleTrimResult * list conn_id) :=
  conns ← read_list false cl_conns;
  deleted ← trim_loop (length conns) 0 max_free;
  conns ← read_list false cl_conns;
  let len := Z.of_nat (length conns) in
  cancelled ← (if len <=? max_free then retain_loop conns else mret 0);
  deferred ← defer_loop conns (if max_free <? len then len - max_free else 0);
  mret (mkTrimResult deferred cancelled (Z.of_nat (length deleted)), deleted).

Definition remove_used_connection (c : conn_id) : PM bool :=
  index ← find_idx true c;
  match index with
  | None => mret false
  | Some i => remove_unlocked true i End_EXPLICIT_REMOVE;; mret true
  end.

Definition remove_free_connection (c : conn_id) : PM bool :=
  index ← find_idx false c;
  match index with
  | None => mret false
  | Some i => remove_unlocked false i End_EXPLICIT_REMOVE;; mret true
  end.

Definition used_connection_match_key (c : conn_id) : PM (option PgSQL_PoolMatchKey) :=
  ensure_match_index_consistent_unlocked true;;
  find_match_key_unlocked true c.

Definition matching_connection_count (key : PgSQL_PoolMatchKey) : PM Z :=
  ensure_match_index_consistent_unlocked false;;
  read_list false (fun l => Z.of_nat (length (default [] (cl_matching_by_key l !! key)))).

Definition reader_pool_reservation_count : PM Z :=
  server (fun s => Z.of_nat (size (sv_reservations s))).

(** The connections of a server taken offline for good are deleted. *)
Definition set_status (new_status : MySerStatus) : PM (list conn_id) :=
  with_server (fun s => s <| sv_status := new_status |>);;
  if new_status == SERVER_OFFLINE_HARD
  then detach_all_unlocked false End_SERVER_OFFLINE
  else mret [].

Inductive push_outcome := Push_FREE | Push_DELETED | Push_LOOSE.

(** The generic return of [push_MyConn_to_pool] under the pool lock.  Without the
    thread handler the connection leaves USED and goes nowhere. *)
Definition push_generic (c : conn_id) (limits : option pool_limits) : PM push_outcome :=
  with_conn (fun o => o <| pc_conn := pc_conn o <| cn_server_snapshot := None |> |>) c;;
  index ← find_idx true c;
  match index with
  | None => mret Push_DELETED
  | Some i =>
      remove_unlocked true i End_EXPLICIT_REMOVE;;
      status ← server sv_status;
      conn ← deref pc_conn c;
      match limits with
      | None => mret Push_LOOSE
      | Some lim =>
          if wrap32 (lm_query_length lim) <? cn_largest_query_length conn then mret Push_DELETED
          else if (status == SERVER_ONLINE) && cn_idle conn then
            if wrap32 (lm_stmts lim) <? cn_num_backend_stmts conn then mret Push_DELETED
            else add_unlocked false c None;; mret Push_FREE
          else mret Push_DELETED
      end
  end.

(** The destructor of a connection object, as far as the pool goes. *)
Definition delete_connection (c : conn_id) : PM () :=
  polardb_finish_idle_ping c;;
  modify (fun p => p <| pl_heap := delete c (pl_heap p) |>).

(** The connection leaves USED and is deleted. *)
Definition destroy_MyConn_from_pool (c : conn_id) : PM () :=
  polardb_finish_idle_ping c;;
  remove_used_connection c;;
  delete_connection c.
