(* ===== verification/PoolSafety.v ===== *)
(** * What the connection pool of a server keeps

    The lists of [ServerPool] and their indexes describe each other in every
    reachable state, so no assertion of the source fails, the index is never
    rebuilt, and a reserved connection leaves FREE only through its own worker
    or with a record of why it went. *)

From S2P Require Import Prelude Policy Startup Session Query Topology.
From S2P Require Import ServerList PoolConn Reader ReaderAcquire CapacityQueue ServerPool.
From Stdlib Require Import ZArith Ascii String List Bool Lia.
From stdpp Require Import base tactics list gmap strings.

Open Scope Z_scope.
Open Scope polar_scope.

(** ** Lists *)

Section FastRemoval.
Context {A : Type}.
Implicit Types (l : list A) (x y : A).

Lemma remove_index_fast_split l1 x l2 :
  remove_index_fast (length l1) (l1 ++ x :: l2) =
  match last l2 with
  | None => l1
  | Some y => l1 ++ y :: take (length l2 - 1) l2
  end.
Proof.
  unfold remove_index_fast. rewrite last_app_cons, last_cons.
  rewrite length_app. cbn [length].
  destruct (last l2) as [y|] eqn:Hl.
  - rewrite insert_app_r_alt by lia. rewrite Nat.sub_diag. cbn.
    destruct l2 as [|z l2]; [done |]. cbn [length].
    rewrite take_app_ge by lia. f_equal.
    replace (length l1 + S (S (length l2)) - 1 - length l1)%nat with (S (length l2)) by lia.
    cbn. do 2 f_equal. lia.
  - apply last_None in Hl. subst. cbn. rewrite insert_app_r_alt by lia.
    rewrite Nat.sub_diag. cbn.
    replace (length l1 + 1 - 1)%nat with (length l1) by lia. by rewrite take_app_length.
Qed.

Lemma take_removelast l y : last l = Some y -> l = take (length l - 1) l ++ [y].
Proof.
  intros (l' & ->)%last_Some. rewrite length_app. cbn.
  replace (length l' + 1 - 1)%nat with (length l') by lia. by rewrite take_app_length.
Qed.

Lemma remove_index_fast_perm i l x :
  l !! i = Some x -> l ≡ₚ x :: remove_index_fast i l.
Proof.
  intros H. apply list_elem_of_split_length in H as (l1 & l2 & -> & ->).
  rewrite remove_index_fast_split.
  destruct (last l2) as [y|] eqn:Hl.
  - rewrite (take_removelast _ _ Hl) at 1. solve_Permutation.
  - apply last_None in Hl. subst. solve_Permutation.
Qed.

Lemma remove_index_fast_length i l x :
  l !! i = Some x -> length l = S (length (remove_index_fast i l)).
Proof. intros H. by rewrite (remove_index_fast_perm i l x H) at 1. Qed.

Lemma remove_index_fast_lookup i l x j :
  l !! i = Some x -> (j < length l - 1)%nat ->
  remove_index_fast i l !! j = if decide (j = i) then last l else l !! j.
Proof.
  intros Hx Hj. unfold remove_index_fast.
  assert (Hi := lookup_lt_Some _ _ _ Hx).
  destruct (last l) as [y|] eqn:Hl; [| apply last_None in Hl; subst; cbn in *; lia].
  rewrite lookup_take_lt by done. destruct (decide (j = i)) as [->|Hne].
  - by rewrite list_lookup_insert_eq.
  - by rewrite list_lookup_insert_ne.
Qed.

Lemma remove_index_fast_in i l x y :
  NoDup l -> l !! i = Some x -> y ∈ remove_index_fast i l <-> y ∈ l /\ y <> x.
Proof.
  intros Hn Hx. assert (Hp := remove_index_fast_perm i l x Hx).
  rewrite Hp in Hn. apply NoDup_cons in Hn as [Hx' _].
  rewrite Hp at 2. rewrite elem_of_cons. split; [intros H; split; [by right |] | tauto].
  by intros ->.
Qed.

(** What is before the removed element stays; the rest loses only it. *)
Lemma remove_index_fast_parts i l x :
  l !! i = Some x ->
  take i (remove_index_fast i l) = take i l /\
  drop i l ≡ₚ x :: drop i (remove_index_fast i l).
Proof.
  intros H. apply list_elem_of_split_length in H as (l1 & l2 & -> & ->).
  rewrite remove_index_fast_split, take_app_length, drop_app_length.
  destruct (last l2) as [y|] eqn:Hl.
  - rewrite take_app_length, drop_app_length. split; [done |].
    rewrite (take_removelast _ _ Hl) at 1. solve_Permutation.
  - apply last_None in Hl. subst. by rewrite take_ge, drop_ge by lia.
Qed.

Lemma remove_index_fast_nodup i l x : NoDup l -> l !! i = Some x -> NoDup (remove_index_fast i l).
Proof.
  intros Hn Hx. rewrite (remove_index_fast_perm i l x Hx) in Hn.
  by apply NoDup_cons in Hn as [_ ?].
Qed.

End FastRemoval.

Lemma remove_index_fast_zip {A B} i (a : list A) (b : list B) :
  length a = length b -> (i < length a)%nat ->
  zip (remove_index_fast i a) (remove_index_fast i b) = remove_index_fast i (zip a b).
Proof.
  intros Hl Hi.
  destruct (lookup_lt_is_Some_2 a i Hi) as [x Hx].
  destruct (lookup_lt_is_Some_2 b i) as [y Hy]; [by rewrite <-Hl |].
  assert (Hz : zip a b !! i = Some (x, y)) by (apply lookup_zip_Some; by split).
  assert (Ha := remove_index_fast_length _ _ _ Hx).
  assert (Hb := remove_index_fast_length _ _ _ Hy).
  assert (Hzl := remove_index_fast_length _ _ _ Hz).
  rewrite length_zip in Hzl.
  apply list_eq. intros j. destruct (decide (j < length a - 1)%nat) as [Hj|Hj].
  - rewrite (remove_index_fast_lookup i (zip a b) (x, y)) by (try done; rewrite length_zip; lia).
    apply option_eq. intros [u v]. rewrite lookup_zip_Some.
    rewrite (remove_index_fast_lookup i a x), (remove_index_fast_lookup i b y) by (done || lia).
    destruct (decide (j = i)); [| by rewrite lookup_zip_Some].
    rewrite !last_lookup, length_zip, lookup_zip_Some.
    replace (Nat.min (length a) (length b)) with (length a) by lia. by rewrite Hl.
  - rewrite !lookup_ge_None_2; [done | | rewrite length_zip]; lia.
Qed.

Lemma index_of_lookup c l i : index_of c l = Some i -> l !! i = Some c.
Proof.
  revert i. induction l as [|x l IH]; intros i; cbn; [done |].
  destruct (Z.eqb_spec x c) as [->|_]; [by intros [= <-] |].
  destruct (index_of c l); [| done]. intros [= <-]. by apply IH.
Qed.

Lemma index_of_None c l : index_of c l = None <-> c ∉ l.
Proof.
  induction l as [|x l IH]; cbn; [split; [intros _ ?%elem_of_nil; done | done] |].
  rewrite not_elem_of_cons. destruct (Z.eqb_spec x c) as [->|Hx]; [by split; [| intros []] |].
  rewrite <-IH. destruct (index_of c l); cbn; intuition congruence.
Qed.

Lemma index_of_nodup c l i : NoDup l -> l !! i = Some c -> index_of c l = Some i.
Proof.
  intros Hn Hi. destruct (index_of c l) as [j|] eqn:E.
  - apply index_of_lookup in E. f_equal. exact (NoDup_lookup _ _ _ _ Hn E Hi).
  - apply index_of_None in E. destruct E. by apply list_elem_of_lookup_2 in Hi.
Qed.

Implicit Types (heap : gmap conn_id pool_conn) (m : gmap PgSQL_PoolMatchKey (list conn_id)).

(** ** The state of a pool *)

Definition slots (l : PgSQL_SrvConnList) : list (conn_id * PgSQL_PoolMatchKey) :=
  zip (cl_conns l) (cl_match_keys l).

Definition free_slots (p : pool) := slots (sv_free (pl_srv p)).
Definition used_slots (p : pool) := slots (sv_used (pl_srv p)).

Record list_ok (heap : gmap conn_id pool_conn) (l : PgSQL_SrvConnList) : Prop := {
  lo_keys : length (cl_match_keys l) = length (cl_conns l);
  lo_nodup : NoDup (cl_conns l);
  lo_position i c : cl_conns l !! i = Some c ->
    exists o, heap !! c = Some o /\ pc_position o = Z.of_nat i
}.

(** The number of kept empty buckets. *)
Definition count_empty (m : gmap PgSQL_PoolMatchKey (list conn_id)) : nat :=
  size (filter (fun kb => kb.2 = []) m).

(** The index holds the connections of [R] under their keys. *)
Record index_ok (R : conn_id -> PgSQL_PoolMatchKey -> Prop)
    (m : gmap PgSQL_PoolMatchKey (list conn_id)) (empty : Z) : Prop := {
  io_bucket k b : m !! k = Some b ->
    match_key_empty k = false /\ NoDup b /\ forall c, c ∈ b <-> R c k;
  io_found c k : R c k -> match_key_empty k = false -> exists b, m !! k = Some b;
  io_empty : empty = Z.of_nat (count_empty m)
}.

Record reservations_ok (R : conn_id -> PgSQL_PoolMatchKey -> Prop) (s : PgSQL_SrvC) : Prop := {
  ro_token t r : sv_reservations s !! t = Some r ->
    rv_token r = t /\ sv_token_by_connection s !! rv_conn r = Some t;
  ro_conn c t : sv_token_by_connection s !! c = Some t ->
    (exists r, sv_reservations s !! t = Some r /\ rv_conn r = c) /\ R c no_match_key
}.

(** The FREE connections with their keys, but for one on its way out. *)
Definition keyed (p : pool) (x : option conn_id) (c : conn_id) (k : PgSQL_PoolMatchKey) : Prop :=
  (c, k) ∈ free_slots p /\ x <> Some c.

Definition pings (p : pool) : gmap conn_id bool := pc_ping_inflight <$> pl_heap p.

(** [x] is a FREE connection already out of the index and of the reservations. *)
Record pool_wf (x : option conn_id) (p : pool) : Prop := {
  pw_free : list_ok (pl_heap p) (sv_free (pl_srv p));
  pw_used : list_ok (pl_heap p) (sv_used (pl_srv p));
  pw_disjoint c : c ∈ cl_conns (sv_free (pl_srv p)) -> c ∈ cl_conns (sv_used (pl_srv p)) -> False;
  pw_index : index_ok (keyed p x) (cl_matching_by_key (sv_free (pl_srv p)))
               (cl_empty_buckets (sv_free (pl_srv p)));
  pw_reservations : reservations_ok (keyed p x) (pl_srv p);
  pw_free_count : sv_free_count (pl_srv p) = Z.of_nat (length (cl_conns (sv_free (pl_srv p))));
  pw_used_count : sv_used_count (pl_srv p) = Z.of_nat (length (cl_conns (sv_used (pl_srv p))));
  pw_pending c o : pl_heap p !! c = Some o -> pc_trim_pending o = true ->
    c ∈ cl_conns (sv_free (pl_srv p));
  pw_pings : sv_idle_ping_count (pl_srv p) =
    Z.of_nat (size (filter (fun cb => cb.2 = true) (pings p)))
}.

Definition pool_ok (p : pool) : Prop := pool_wf None p.

(** What the list operations leave alone. *)
Definition core (p : pool) :=
  (sv_id (pl_srv p), sv_hid (pl_srv p), sv_status (pl_srv p), sv_max_connections (pl_srv p),
   sv_idle_ping_count (pl_srv p), pl_queue p, pings p).

Definition records (p : pool) :=
  (sv_reservations (pl_srv p), sv_token_by_connection (pl_srv p), sv_retired (pl_srv p)).

Definition in_pool (p : pool) (c : conn_id) : Prop :=
  c ∈ cl_conns (sv_free (pl_srv p)) \/ c ∈ cl_conns (sv_used (pl_srv p)).

(** ** Running an operation

    On a state in constructor form the monad computes away; what is left are the
    lookups and the tests. *)

Ltac run :=
  cbv beta iota zeta delta
    [mbind PM_bind mret PM_ret fmap PM_fmap option_bind gets modify server with_server
     read_list whole_list with_list the_list with_conn deref store_count check fail negb andb orb update
     upd_pl_heap upd_pl_srv upd_pl_queue
     upd_sv_status upd_sv_free upd_sv_used upd_sv_free_count upd_sv_used_count
     upd_sv_reservations upd_sv_token_by_connection upd_sv_retired upd_sv_idle_ping_count
     upd_cl_conns upd_cl_matching_by_key upd_cl_match_keys upd_cl_empty_buckets
     upd_pc_conn upd_pc_position upd_pc_trim_pending upd_pc_exact upd_pc_ping_inflight
     pl_heap pl_srv pl_queue sv_id sv_hid sv_status sv_max_connections sv_free sv_used
     sv_free_count sv_used_count sv_reservations sv_token_by_connection sv_retired
     sv_idle_ping_count cl_conns cl_matching_by_key cl_match_keys cl_empty_buckets
     pc_conn pc_position pc_trim_pending pc_exact pc_ping_inflight pc_last_time_used
     pc_creation_time].

Ltac run_in H :=
  cbv beta iota zeta delta
    [the_list slots free_slots used_slots keyed pings core records in_pool update
     upd_pl_heap upd_pl_srv upd_pl_queue
     upd_sv_status upd_sv_free upd_sv_used upd_sv_free_count upd_sv_used_count
     upd_sv_reservations upd_sv_token_by_connection upd_sv_retired upd_sv_idle_ping_count
     upd_cl_conns upd_cl_matching_by_key upd_cl_match_keys upd_cl_empty_buckets
     upd_pc_conn upd_pc_position upd_pc_trim_pending upd_pc_exact upd_pc_ping_inflight
     pl_heap pl_srv pl_queue sv_id sv_hid sv_status sv_max_connections sv_free sv_used
     sv_free_count sv_used_count sv_reservations sv_token_by_connection sv_retired
     sv_idle_ping_count cl_conns cl_matching_by_key cl_match_keys cl_empty_buckets
     pc_conn pc_position pc_trim_pending pc_exact pc_ping_inflight pc_last_time_used
     pc_creation_time] in H.

Lemma bind_run {A B} (m : PM A) (f : A -> PM B) p a p' :
  m p = Some (a, p') -> (m ≫= f) p = f a p'.
Proof. intros H. unfold mbind, PM_bind. by rewrite H. Qed.

(** The state in constructor form. *)
Ltac split_pool p :=
  destruct p as [heap [id hid st mx [fc fm fk fe] [uc um uk ue] fn un rs tk rt pn] q].

Lemma finish_idle_trim_run c p o :
  pl_heap p !! c = Some o ->
  polardb_finish_idle_trim_unlocked c p =
  Some (pc_trim_pending o, p <| pl_heap := <[c := o <| pc_trim_pending := false |>]> (pl_heap p) |>).
Proof.
  intros H. unfold polardb_finish_idle_trim_unlocked. split_pool p. run.
  run_in H. rewrite H. destruct o as [? ? pending ? ? ? ?]. destruct pending; [by rewrite H |].
  by rewrite insert_id.
Qed.

Lemma pw_list x p u : pool_wf x p -> list_ok (pl_heap p) (the_list u (pl_srv p)).
Proof. intros W. destruct u; [apply (pw_used _ _ W) | apply (pw_free _ _ W)]. Qed.

Lemma find_idx_run u c p o :
  list_ok (pl_heap p) (the_list u (pl_srv p)) -> pl_heap p !! c = Some o ->
  find_idx u c p = Some (index_of c (cl_conns (the_list u (pl_srv p))), p).
Proof.
  intros L H. unfold find_idx, mbind, PM_bind, deref, read_list, server, gets. rewrite H. cbn.
  set (l := the_list u (pl_srv p)) in *.
  destruct ((0 <=? pc_position o) && (cl_conns l !! Z.to_nat (pc_position o) == Some c)) eqn:E.
  - apply andb_prop in E as [_ E]. apply (proj1 (beq_true _ _)) in E.
    by rewrite (index_of_nodup _ _ _ (lo_nodup _ _ L) E).
  - destruct (index_of c (cl_conns l)) as [i|] eqn:Hi; [| done].
    apply index_of_lookup in Hi. exfalso.
    destruct (lo_position _ _ L _ _ Hi) as (o' & Ho & Hp).
    assert (o' = o) as -> by congruence. rewrite Hp, Nat2Z.id in E.
    rewrite (proj2 (beq_true _ _) Hi) in E.
    rewrite (proj2 (Z.leb_le _ _)) in E by lia. done.
Qed.

Lemma ensure_run x u p :
  pool_wf x p -> ensure_match_index_consistent_unlocked u p = Some ((), p).
Proof.
  intros W. unfold ensure_match_index_consistent_unlocked, mbind, PM_bind, whole_list, server, gets.
  cbn. unfold keys_match_conns. by rewrite (lo_keys _ _ (pw_list _ _ u W)), Nat.eqb_refl.
Qed.

Lemma list_ok_heap heap heap' l :
  list_ok heap l ->
  (forall c, c ∈ cl_conns l -> pc_position <$> heap' !! c = pc_position <$> heap !! c) ->
  list_ok heap' l.
Proof.
  intros L Hh. split; [apply (lo_keys _ _ L) | apply (lo_nodup _ _ L) |].
  intros i c Hc. destruct (lo_position _ _ L _ _ Hc) as (o & Ho & Hp).
  assert (E := Hh c (list_elem_of_lookup_2 _ _ _ Hc)). rewrite Ho in E. cbn in E.
  destruct (heap' !! c) as [o'|]; [| done]. injection E as E. exists o'. split; [done | lia].
Qed.

(** An object outside the list does not matter to it. *)
Lemma list_ok_other heap l c o :
  list_ok heap l -> c ∉ cl_conns l -> list_ok (<[c := o]> heap) l.
Proof.
  intros L Hc. apply (list_ok_heap heap); [done |]. intros d Hd.
  by rewrite lookup_insert_ne by (intros ->; done).
Qed.

Lemma list_ok_push heap l c o k m e :
  list_ok heap l -> c ∉ cl_conns l -> pc_position o = Z.of_nat (length (cl_conns l)) ->
  list_ok (<[c := o]> heap) (mkConnList (cl_conns l ++ [c]) m (cl_match_keys l ++ [k]) e).
Proof.
  intros L Hc Hp. split; cbn.
  - by rewrite !length_app, (lo_keys _ _ L).
  - apply NoDup_app. split; [apply (lo_nodup _ _ L) |]. split; [| apply NoDup_singleton].
    intros d Hd ->%list_elem_of_singleton. done.
  - intros i d [Hd | [Hi Hd]]%lookup_app_Some.
    + assert (d <> c) by (intros ->; apply Hc; by eapply list_elem_of_lookup_2).
      rewrite lookup_insert_ne by done. exact (lo_position _ _ L _ _ Hd).
    + apply list_lookup_singleton_Some in Hd as [Hi' <-]. exists o.
      rewrite lookup_insert_eq. split; [done | lia].
Qed.

Lemma slots_push l c k m e :
  length (cl_match_keys l) = length (cl_conns l) ->
  slots (mkConnList (cl_conns l ++ [c]) m (cl_match_keys l ++ [k]) e) = slots l ++ [(c, k)].
Proof. intros H. unfold slots. cbn. by rewrite zip_with_app by done. Qed.

Lemma slots_conn heap l c k : list_ok heap l -> (c, k) ∈ slots l -> c ∈ cl_conns l.
Proof.
  intros L H. unfold slots in H. apply elem_of_zip_l in H. done.
Qed.

Lemma conn_slot heap l c : list_ok heap l -> c ∈ cl_conns l -> exists k, (c, k) ∈ slots l.
Proof.
  intros L (i & Hi)%list_elem_of_lookup.
  destruct (lookup_lt_is_Some_2 (cl_match_keys l) i) as [k Hk].
  { rewrite (lo_keys _ _ L). by eapply lookup_lt_Some. }
  exists k. apply list_elem_of_lookup. exists i. by apply lookup_zip_Some.
Qed.

(** ** The index *)

Lemma count_empty_insert m k b :
  (count_empty (<[k := b]> m) + (if decide (m !! k = Some []) then 1 else 0) =
   count_empty m + (if decide (b = []) then 1 else 0))%nat.
Proof.
  assert (Hd : forall m', m' !! k = None ->
            count_empty (<[k := b]> m') = (count_empty m' + if decide (b = []) then 1 else 0)%nat).
  { intros m' Hm'. unfold count_empty. rewrite map_filter_insert. cbn.
    destruct (decide (b = [])) as [Hb|Hb].
    - rewrite map_size_insert_None; [lia |].
      apply map_lookup_filter_None. by left.
    - rewrite delete_id by done. lia. }
  destruct (m !! k) as [b0|] eqn:Hk.
  - rewrite <-(insert_delete_eq m k b), Hd by apply lookup_delete_eq.
    rewrite <-(insert_id m k b0) at 2 by done.
    rewrite <-(insert_delete_eq m k b0).
    unfold count_empty at 2. rewrite map_filter_insert. cbn.
    destruct (decide (Some b0 = Some [])) as [Hb|Hb], (decide (b0 = [])) as [Hb'|Hb'];
      try congruence.
    + rewrite map_size_insert_None; [unfold count_empty; lia |].
      apply map_lookup_filter_None. left. apply lookup_delete_eq.
    + rewrite delete_delete_eq. unfold count_empty. lia.
  - rewrite Hd by done. rewrite (decide_False (P := None = Some [])) by done. lia.
Qed.

Lemma count_empty_delete m k :
  (count_empty (delete k m) + (if decide (m !! k = Some []) then 1 else 0) = count_empty m)%nat.
Proof.
  destruct (m !! k) as [b|] eqn:Hk.
  - assert (H := count_empty_insert (delete k m) k b).
    rewrite insert_delete_eq, insert_id, lookup_delete_eq in H by done.
    rewrite (decide_False (P := None = Some [])) in H by done.
    destruct (decide (Some b = Some [])), (decide (b = [])); try congruence; lia.
  - rewrite delete_id by done. rewrite (decide_False (P := None = Some [])) by done. lia.
Qed.

Section Index.
Context (R : conn_id -> PgSQL_PoolMatchKey -> Prop).
Context (m : gmap PgSQL_PoolMatchKey (list conn_id)) (e : Z) (I : index_ok R m e).

Lemma index_ext (R' : conn_id -> PgSQL_PoolMatchKey -> Prop) :
  (forall c k, match_key_empty k = false -> (R c k <-> R' c k)) -> index_ok R' m e.
Proof.
  intros HR. split; [| | apply (io_empty _ _ _ I)].
  - intros k b Hb. destruct (io_bucket _ _ _ I _ _ Hb) as (Hk & Hn & Hc).
    split; [done |]. split; [done |]. intros c. by rewrite Hc, HR.
  - intros c k Hc Hk. apply (io_found _ _ _ I c k); [by apply HR | done].
Qed.

Lemma index_push c k :
  match_key_empty k = false -> (forall k', ~ R c k') ->
  let e' := if m !! k == Some [] then e - 1 else e in
  index_ok (fun d k' => R d k' \/ (d = c /\ k' = k)) (push_bucket m k c) e' /\
  (m !! k = Some [] -> 0 < e).
Proof.
  intros Hk Hc e'. unfold push_bucket.
  assert (Hcount := count_empty_insert m k (default [] (m !! k) ++ [c])).
  rewrite (decide_False (P := _ ++ _ = [])) in Hcount by (by destruct (default [] (m !! k))).
  assert (He := io_empty _ _ _ I). split.
  - split.
    + intros k' b [[<- <-] | [Hne Hb]]%lookup_insert_Some.
      * split; [done |]. destruct (m !! k) as [b|] eqn:Hb; cbn.
        -- destruct (io_bucket _ _ _ I _ _ Hb) as (_ & Hn & Hin). split.
           ++ apply NoDup_app. split; [done |]. split; [| apply NoDup_singleton].
              intros d Hd ->%list_elem_of_singleton. by apply (Hc k), Hin.
           ++ intros d. rewrite elem_of_app, list_elem_of_singleton, Hin. naive_solver.
        -- split; [apply NoDup_singleton |]. intros d. rewrite list_elem_of_singleton.
           split; [naive_solver |]. intros [Hd | [-> _]]; [| done].
           destruct (io_found _ _ _ I _ _ Hd Hk) as (b & Hb'). congruence.
      * destruct (io_bucket _ _ _ I _ _ Hb) as (Hk' & Hn & Hin).
        split; [done |]. split; [done |]. intros d. rewrite Hin. naive_solver.
    + intros d k' Hd Hk'. destruct (decide (k' = k)) as [->|Hne].
      * rewrite lookup_insert_eq. by eexists.
      * rewrite lookup_insert_ne by done. apply (io_found _ _ _ I d); [naive_solver | done].
    + unfold e'. destruct (decide (m !! k = Some [])) as [Hb|Hb].
      * rewrite (proj2 (beq_true _ _) Hb). lia.
      * rewrite (proj2 (beq_false _ _) Hb). lia.
  - intros Hb. rewrite decide_True in Hcount by done. lia.
Qed.

Lemma index_pop c k b b' :
  m !! k = Some b -> (forall k', R c k' -> k' = k) -> NoDup b' ->
  (forall d, d ∈ b' <-> d ∈ b /\ d <> c) -> b <> [] ->
  let R' d k' := R d k' /\ d <> c in
  (b' <> [] -> index_ok R' (<[k := b']> m) e) /\
  (b' = [] -> index_ok R' (<[k := b']> m) (e + 1) /\ index_ok R' (delete k m) e).
Proof.
  intros Hb Hfun Hn Hin Hne R'.
  destruct (io_bucket _ _ _ I _ _ Hb) as (Hk & _ & Hbin).
  assert (Hcount := count_empty_insert m k b'). assert (He := io_empty _ _ _ I).
  rewrite (decide_False (P := m !! k = Some [])) in Hcount by congruence.
  assert (Hother : forall d k', k' <> k -> (R d k' <-> R' d k')).
  { intros d k' Hk'. unfold R'. split; [| tauto]. intros H. split; [done |].
    intros ->. by apply Hk', Hfun. }
  assert (Hins : forall e', e' = Z.of_nat (count_empty (<[k := b']> m)) ->
            index_ok R' (<[k := b']> m) e').
  { intros e' He'. split; [| | done].
    - intros k' b0 [[<- <-] | [Hne' Hb0]]%lookup_insert_Some.
      + split; [done |]. split; [done |]. intros d. by rewrite Hin, Hbin.
      + destruct (io_bucket _ _ _ I _ _ Hb0) as (Hk' & Hn' & Hin').
        split; [done |]. split; [done |]. intros d. by rewrite Hin', Hother.
    - intros d k' [Hd _] Hk'. destruct (decide (k' = k)) as [->|Hne'].
      + rewrite lookup_insert_eq. by eexists.
      + rewrite lookup_insert_ne by done. by apply (io_found _ _ _ I d). }
  split.
  - intros Hb'. apply Hins. rewrite (decide_False (P := b' = [])) in Hcount by done. lia.
  - intros ->. rewrite (decide_True (P := @nil conn_id = [])) in Hcount by done.
    split; [apply Hins; lia |]. split.
    + intros k' b0 [Hne' Hb0]%lookup_delete_Some.
      destruct (io_bucket _ _ _ I _ _ Hb0) as (Hk' & Hn' & Hin').
      split; [done |]. split; [done |]. intros d. by rewrite Hin', Hother.
    + intros d k' [Hd Hdc] Hk'. destruct (decide (k' = k)) as [->|Hne'].
      * exfalso. apply (not_elem_of_nil d). apply Hin. by rewrite Hbin.
      * rewrite lookup_delete_ne by done. by apply (io_found _ _ _ I d).
    + assert (Hd := count_empty_delete m k).
      rewrite (decide_False (P := m !! k = Some [])) in Hd by congruence. lia.
Qed.

End Index.

(** ** Adding a connection *)

Lemma match_key_empty_spec k : match_key_empty k = true <-> k = no_match_key.
Proof.
  destruct k as [a b c d]. unfold match_key_empty, no_match_key. cbn.
  rewrite !andb_true_iff, !Z.eqb_eq. split; [naive_solver | by intros [= -> -> -> ->]].
Qed.

Lemma pings_insert (heap : gmap conn_id pool_conn) c o o' :
  heap !! c = Some o -> pc_ping_inflight o' = pc_ping_inflight o ->
  pc_ping_inflight <$> <[c := o']> heap = pc_ping_inflight <$> heap.
Proof.
  intros Hc Ho. rewrite fmap_insert, Ho. apply insert_id. by rewrite lookup_fmap, Hc.
Qed.

(** The object of a connection after it was added at the end of a list of
    [len] connections. *)
Definition added_conn (len : nat) (k : PgSQL_PoolMatchKey) (o : pool_conn) : pool_conn :=
  mkPoolConn (pc_conn o) (Z.of_nat len) false (if match_key_empty k then pc_exact o else true)
    (pc_ping_inflight o) (pc_last_time_used o) (pc_creation_time o).

Lemma add_used_run x p c key o :
  pool_wf x p -> pl_heap p !! c = Some o ->
  let k := default no_match_key key in
  add_unlocked true c key p = Some ((),
    p <| pl_heap := <[c := added_conn (length (cl_conns (sv_used (pl_srv p)))) k o]> (pl_heap p) |>
      <| pl_srv := pl_srv p
           <| sv_used := mkConnList (cl_conns (sv_used (pl_srv p)) ++ [c])
                           (cl_matching_by_key (sv_used (pl_srv p)))
                           (cl_match_keys (sv_used (pl_srv p)) ++ [k])
                           (cl_empty_buckets (sv_used (pl_srv p))) |>
           <| sv_used_count := Z.of_nat (length (cl_conns (sv_used (pl_srv p)) ++ [c])) |> |>).
Proof.
  intros W Hc k. unfold add_unlocked, mbind, PM_bind.
  rewrite (ensure_run _ true _ W), (finish_idle_trim_run _ _ _ Hc).
  split_pool p. destruct o. run_in Hc. run. rewrite lookup_insert_eq.
  fold k. unfold added_conn. destruct (match_key_empty k) eqn:Hk; run;
    rewrite ?lookup_insert_eq; run; by rewrite ?insert_insert_eq.
Qed.

Lemma in_pool_free x p c k : pool_wf x p -> (c, k) ∈ free_slots p -> in_pool p c.
Proof. intros W H. left. by apply (slots_conn _ _ _ _ (pw_free _ _ W)) in H. Qed.

Lemma reservations_ext (R R' : conn_id -> PgSQL_PoolMatchKey -> Prop) s s' :
  reservations_ok R s -> sv_reservations s' = sv_reservations s ->
  sv_token_by_connection s' = sv_token_by_connection s ->
  (forall c t, sv_token_by_connection s !! c = Some t -> R c no_match_key -> R' c no_match_key) ->
  reservations_ok R' s'.
Proof.
  intros O Hr Ht HR. split.
  - intros t r. rewrite Hr, Ht. apply (ro_token _ _ O).
  - intros c t Hc. rewrite Ht in Hc. rewrite Hr.
    destruct (ro_conn _ _ O _ _ Hc) as [H1 H2]. split; [done |]. by eapply HR.
Qed.

Lemma pending_added heap (l : list conn_id) c n k o :
  (forall d o, heap !! d = Some o -> pc_trim_pending o = true -> d ∈ l) ->
  forall d o', <[c := added_conn n k o]> heap !! d = Some o' -> pc_trim_pending o' = true -> d ∈ l.
Proof.
  intros H d o' [[_ <-] | [_ Hd]]%lookup_insert_Some Ho; [done | by apply (H d o')].
Qed.

Lemma add_used_wf x p c key o :
  pool_wf x p -> pl_heap p !! c = Some o -> ~ in_pool p c ->
  exists p', add_unlocked true c key p = Some ((), p') /\ pool_wf x p' /\
    core p' = core p /\ records p' = records p /\ free_slots p' = free_slots p /\
    used_slots p' = used_slots p ++ [(c, default no_match_key key)].
Proof.
  intros W Hc Hout. eexists. split; [exact (add_used_run _ _ _ key _ W Hc) |].
  destruct W as [Lf Lu Hd I Rs Cf Cu Pn Pg]. split_pool p. set (k := default no_match_key key).
  unfold in_pool in Hout. run_in Lf. run_in Lu. run_in Hout. run. split.
  - split; run; try done.
    + apply list_ok_other; [exact Lf | tauto].
    + apply (list_ok_push heap (mkConnList uc um uk ue)); [exact Lu | tauto | done].
    + intros d Hf. rewrite elem_of_app, list_elem_of_singleton. intros [Hu | ->]; [| tauto].
      exact (Hd d Hf Hu).
    + by eapply reservations_ext.
    + apply pending_added. exact Pn.
    + etransitivity; [exact Pg |]. unfold pings. cbn [pl_heap].
      by erewrite (pings_insert heap).
  - split; [| split; [| split]]; try done.
    + unfold core, pings. cbn [pl_heap]. by erewrite (pings_insert heap).
    + apply (slots_push (mkConnList uc um uk ue)). exact (lo_keys _ _ Lu).
Qed.

(** The FREE list with [c] added under [k]. *)
Definition pushed_free (l : PgSQL_SrvConnList) (c : conn_id) (k : PgSQL_PoolMatchKey)
  : PgSQL_SrvConnList :=
  mkConnList (cl_conns l ++ [c])
    (if match_key_empty k then cl_matching_by_key l else push_bucket (cl_matching_by_key l) k c)
    (cl_match_keys l ++ [k])
    (if match_key_empty k then cl_empty_buckets l
     else if cl_matching_by_key l !! k == Some [] then cl_empty_buckets l - 1
     else cl_empty_buckets l).

Lemma index_push_ok x p c k :
  pool_wf x p -> ~ in_pool p c ->
  index_ok (fun d k' => keyed p x d k' \/ (d = c /\ k' = k))
    (cl_matching_by_key (pushed_free (sv_free (pl_srv p)) c k))
    (cl_empty_buckets (pushed_free (sv_free (pl_srv p)) c k)) /\
  (match_key_empty k = false ->
   cl_matching_by_key (sv_free (pl_srv p)) !! k = Some [] ->
   0 < cl_empty_buckets (sv_free (pl_srv p))).
Proof.
  intros W Hout. unfold pushed_free. cbn. destruct (match_key_empty k) eqn:Hk.
  - split; [| done]. apply (index_ext (keyed p x)); [apply (pw_index _ _ W) |].
    intros d k' Hk'. split; [tauto |]. intros [H | [_ ->]]; [done | congruence].
  - assert (Hc : forall k', ~ keyed p x c k').
    { intros k' [Hs _]. apply Hout. by apply (in_pool_free x p c k'). }
    destruct (index_push _ _ _ (pw_index _ _ W) c k Hk Hc). by split.
Qed.

Lemma add_free_run x p c key o :
  pool_wf x p -> pl_heap p !! c = Some o -> ~ in_pool p c ->
  let k := default no_match_key key in
  add_unlocked false c key p = Some ((),
    p <| pl_heap := <[c := added_conn (length (cl_conns (sv_free (pl_srv p)))) k o]> (pl_heap p) |>
      <| pl_srv := pl_srv p <| sv_free := pushed_free (sv_free (pl_srv p)) c k |>
           <| sv_free_count := Z.of_nat (length (cl_conns (sv_free (pl_srv p)) ++ [c])) |> |>).
Proof.
  intros W Hc Hout k. unfold add_unlocked, add_to_bucket, mbind, PM_bind.
  destruct (index_push_ok _ _ _ k W Hout) as [_ He].
  rewrite (ensure_run _ false _ W), (finish_idle_trim_run _ _ _ Hc).
  split_pool p. destruct o. run_in Hc. run_in He. run. rewrite lookup_insert_eq.
  fold k. unfold added_conn, pushed_free. destruct (match_key_empty k) eqn:Hk; run;
    rewrite ?lookup_insert_eq; run; rewrite ?insert_insert_eq; [done |].
  destruct (fm !! k == Some []) eqn:Hb; [| done].
  rewrite (proj2 (Z.ltb_lt _ _)); [done |]. apply He; [done |].
  by apply (proj1 (beq_true _ _)).
Qed.

Lemma add_free_wf p c key o :
  pool_wf None p -> pl_heap p !! c = Some o -> ~ in_pool p c ->
  exists p', add_unlocked false c key p = Some ((), p') /\ pool_wf None p' /\
    core p' = core p /\ records p' = records p /\ used_slots p' = used_slots p /\
    free_slots p' = free_slots p ++ [(c, default no_match_key key)].
Proof.
  intros W Hc Hout. eexists. split; [exact (add_free_run _ _ _ key _ W Hc Hout) |].
  set (k := default no_match_key key).
  destruct (index_push_ok _ _ _ k W Hout) as [Ip _].
  destruct W as [Lf Lu Hd I Rs Cf Cu Pn Pg]. split_pool p.
  unfold in_pool in Hout. run_in Lf. run_in Lu. run_in Hout.
  assert (Hs : slots (pushed_free (mkConnList fc fm fk fe) c k) = zip fc fk ++ [(c, k)]).
  { apply (slots_push (mkConnList fc fm fk fe)). exact (lo_keys _ _ Lf). }
  run. split.
  - split; run; try done.
    + apply (list_ok_push heap (mkConnList fc fm fk fe)); [exact Lf | tauto | done].
    + apply list_ok_other; [exact Lu | tauto].
    + unfold pushed_free. run. intros d. rewrite elem_of_app, list_elem_of_singleton.
      intros [Hf | ->]; [| tauto]. exact (Hd d Hf).
    + eapply index_ext; [exact Ip |]. intros d k' _. unfold keyed, free_slots.
      cbn [pl_srv sv_free]. rewrite Hs, elem_of_app, list_elem_of_singleton.
      unfold slots. cbn. naive_solver.
    + eapply reservations_ext; try done. intros d t _ [Hin Hx]. split; [| done].
      unfold free_slots. cbn [pl_srv sv_free]. rewrite Hs. apply elem_of_app. by left.
    + unfold pushed_free. run. intros d o' Ho Hp. apply elem_of_app. left. revert d o' Ho Hp.
      apply pending_added. exact Pn.
    + etransitivity; [exact Pg |]. unfold pings. cbn [pl_heap].
      by erewrite (pings_insert heap).
  - split; [| split; [| split]]; try done.
    unfold core, pings. cbn [pl_heap]. by erewrite (pings_insert heap).
Qed.

(** ** Taking a connection out of the indexes *)

Lemma slot_fun heap l c k k' : list_ok heap l -> (c, k) ∈ slots l -> (c, k') ∈ slots l -> k = k'.
Proof.
  intros L (i & [Hi Hk]%lookup_zip_Some)%list_elem_of_lookup
    (j & [Hj Hk']%lookup_zip_Some)%list_elem_of_lookup.
  assert (i = j) as <- by exact (NoDup_lookup _ _ _ _ (lo_nodup _ _ L) Hi Hj). congruence.
Qed.

(** The pool with another index. *)
Definition reindexed (p : pool) m (e : Z) : pool :=
  p <| pl_srv := pl_srv p <| sv_free :=
         mkConnList (cl_conns (sv_free (pl_srv p))) m (cl_match_keys (sv_free (pl_srv p))) e |> |>.

Lemma reindexed_same p :
  reindexed p (cl_matching_by_key (sv_free (pl_srv p))) (cl_empty_buckets (sv_free (pl_srv p))) = p.
Proof. by split_pool p. Qed.

Lemma put_bucket_run p c k b rest :
  pool_wf None p -> cl_matching_by_key (sv_free (pl_srv p)) !! k = Some b -> (c, k) ∈ free_slots p ->
  b ≡ₚ c :: rest ->
  exists m e, put_bucket k rest p = Some ((), reindexed p m e) /\
              index_ok (keyed p (Some c)) m e.
Proof.
  intros W Hb Hc Hp.
  destruct (io_bucket _ _ _ (pw_index _ _ W) _ _ Hb) as (Hk & Hn & Hin).
  assert (Hfun : forall k', keyed p None c k' -> k' = k).
  { intros k' [Hk' _]. exact (slot_fun _ _ _ _ _ (pw_free _ _ W) Hk' Hc). }
  rewrite Hp in Hn. apply NoDup_cons in Hn as [Hc' Hn].
  destruct (index_pop _ _ _ (pw_index _ _ W) c k b rest Hb Hfun Hn) as [Hne He].
  { intros d. rewrite Hp, elem_of_cons. split; [| tauto]. intros Hd. split; [tauto |].
    by intros ->. }
  { intros ->. by apply Permutation_nil_cons in Hp. }
  assert (Hext : forall m e, index_ok (fun d k' => keyed p None d k' /\ d <> c) m e ->
            index_ok (keyed p (Some c)) m e).
  { intros m e Hi. apply (index_ext _ _ _ Hi). intros d k' _. unfold keyed. naive_solver. }
  unfold put_bucket, limit_empty_match_buckets_unlocked. clear Hfun W Hp Hin.
  destruct (rest == []) eqn:E.
  - apply bool_decide_eq_true in E. destruct (He E) as [H1 H2].
    split_pool p. run_in H1. run_in H2. run. unfold reindexed. run.
    destruct (fe <? (if 0 <? mx then mx else 0)); run.
    + eexists _, _. split; [done |]. by apply Hext.
    + eexists _, _. split; [done |]. rewrite delete_insert_eq. by apply Hext.
  - apply bool_decide_eq_false in E.
    split_pool p. run. unfold reindexed. run. eexists _, _. split; [done |]. by apply Hext, Hne.
Qed.

Lemma unindex_run p c o :
  pool_wf None p -> pl_heap p !! c = Some o -> c ∈ cl_conns (sv_free (pl_srv p)) ->
  exists m e, unindex_unlocked c p = Some ((), reindexed p m e) /\
              index_ok (keyed p (Some c)) m e.
Proof.
  intros W Hc Hin. unfold unindex_unlocked, mbind at 1 2, PM_bind.
  rewrite (ensure_run _ false _ W), (find_idx_run false c p o (pw_free _ _ W) Hc).
  unfold mbind at 1, PM_bind, whole_list, server, gets. cbn [the_list].
  destruct (index_of c (cl_conns (sv_free (pl_srv p)))) as [i|] eqn:Hi.
  2: { by apply index_of_None in Hi. }
  apply index_of_lookup in Hi. cbn [mbind option_bind].
  destruct (lookup_lt_is_Some_2 (cl_match_keys (sv_free (pl_srv p))) i) as [k Hk].
  { rewrite (lo_keys _ _ (pw_free _ _ W)). by eapply lookup_lt_Some. }
  assert (Hs : (c, k) ∈ free_slots p).
  { apply list_elem_of_lookup. exists i. by apply lookup_zip_Some. }
  rewrite Hk. destruct (match_key_empty k) eqn:Hke.
  - eexists _, _. rewrite reindexed_same. split; [done |].
    apply (index_ext _ _ _ (pw_index _ _ W)). intros d k' Hk'. unfold keyed.
    split; [| naive_solver]. intros [Hd _]. split; [done |]. intros [= ->].
    rewrite (slot_fun _ _ _ _ _ (pw_free _ _ W) Hd Hs) in Hk'. congruence.
  - destruct (io_found _ _ _ (pw_index _ _ W) c k) as [b Hb]; [by split | done |].
    rewrite Hb. destruct (io_bucket _ _ _ (pw_index _ _ W) _ _ Hb) as (_ & _ & Hbin).
    destruct (index_of c b) as [j|] eqn:Hj.
    + apply (put_bucket_run p c k b (remove_index_fast j b) W Hb Hs).
      apply remove_index_fast_perm. by apply index_of_lookup.
    + apply index_of_None in Hj. destruct Hj. apply Hbin. by split.
Qed.

(** ** Dropping a reservation *)

(** The lists of two pools agree. *)
Definition same_lists (p p1 : pool) : Prop :=
  core p1 = core p /\ pl_heap p1 = pl_heap p /\
  sv_free (pl_srv p1) = sv_free (pl_srv p) /\ sv_used (pl_srv p1) = sv_used (pl_srv p) /\
  sv_free_count (pl_srv p1) = sv_free_count (pl_srv p) /\
  sv_used_count (pl_srv p1) = sv_used_count (pl_srv p).

Definition forgotten (c : conn_id) (reason : ReaderReservationEndReason) (p : pool) : pool :=
  match polardb_forget_reserved_connection_unlocked c reason p with
  | Some (_, p') => p'
  | None => p
  end.

Lemma forget_run c reason p :
  polardb_forget_reserved_connection_unlocked c reason p = Some ((), forgotten c reason p).
Proof. done. Qed.

Lemma forgotten_records c reason p :
  records (forgotten c reason p) =
  match sv_token_by_connection (pl_srv p) !! c with
  | None => records p
  | Some t =>
      (delete t (sv_reservations (pl_srv p)), delete c (sv_token_by_connection (pl_srv p)),
       match sv_reservations (pl_srv p) !! t with
       | Some r =>
           if polardb_reader_pool_reservation_reason_is_retirement reason
           then emplace t (mkRetired (rv_worker_index r) reason) (sv_retired (pl_srv p))
           else sv_retired (pl_srv p)
       | None => sv_retired (pl_srv p)
       end)
  end.
Proof.
  unfold forgotten, polardb_forget_reserved_connection_unlocked, records. split_pool p. run.
  destruct (tk !! c) as [t|]; [| done]. destruct (rs !! t); [| done].
  by destruct (polardb_reader_pool_reservation_reason_is_retirement reason).
Qed.

Lemma forgotten_rest c reason p : same_lists p (forgotten c reason p).
Proof.
  unfold same_lists, forgotten, polardb_forget_reserved_connection_unlocked, core. split_pool p. run.
  destruct (tk !! c) as [t|]; [| done]. destruct (rs !! t); [| done].
  by destruct (polardb_reader_pool_reservation_reason_is_retirement reason).
Qed.

Lemma forgotten_ok c reason p :
  reservations_ok (keyed p None) (pl_srv p) ->
  reservations_ok (keyed p (Some c)) (pl_srv (forgotten c reason p)).
Proof.
  intros O. assert (E := forgotten_records c reason p). unfold records in E.
  destruct (sv_token_by_connection (pl_srv p) !! c) as [t|] eqn:Ht; injection E as E1 E2 _.
  - destruct (ro_conn _ _ O _ _ Ht) as [(r0 & Hr0 & Hc0) _].
    split; rewrite E1, E2.
    + intros t' r [Hne Hr]%lookup_delete_Some. destruct (ro_token _ _ O _ _ Hr) as [H1 H2].
      split; [done |]. rewrite lookup_delete_ne; [done |]. congruence.
    + intros d t' [Hne Hd]%lookup_delete_Some.
      destruct (ro_conn _ _ O _ _ Hd) as [(r & Hr & Hrd) [Hs _]]. split.
      * exists r. split; [| done]. rewrite lookup_delete_ne; [done |]. congruence.
      * split; [done | congruence].
  - split; rewrite E1, E2.
    + apply (ro_token _ _ O).
    + intros d t' Hd. destruct (ro_conn _ _ O _ _ Hd) as [H1 [Hs _]].
      split; [done |]. split; [done | congruence].
Qed.

(** ** Removing a connection *)

(** The objects after [c] left the list [conns] at [i]: the last connection took
    its place. *)
Definition removed_heap heap (conns : list conn_id) (i : nat) (c : conn_id) (o : pool_conn)
    (pending : bool) : gmap conn_id pool_conn :=
  let h := <[c := mkPoolConn (pc_conn o) UINT32_MAX pending (pc_exact o) (pc_ping_inflight o)
                    (pc_last_time_used o) (pc_creation_time o)]> heap in
  match last conns, (i <? length conns - 1)%nat with
  | Some d, true =>
      match h !! d with
      | Some od => <[d := od <| pc_position := Z.of_nat i |>]> h
      | None => h
      end
  | _, _ => h
  end.

Lemma removed_heap_other heap conns i c o pending d :
  d <> c -> d ∉ conns -> removed_heap heap conns i c o pending !! d = heap !! d.
Proof.
  intros Hc Hd. unfold removed_heap. destruct (last conns) as [e|] eqn:He.
  - assert (d <> e). { intros ->. apply Hd. by apply last_Some_elem_of. }
    destruct (i <? length conns - 1)%nat; [| by rewrite lookup_insert_ne].
    destruct (<[c := _]> heap !! e); by rewrite ?lookup_insert_ne by done.
  - by rewrite lookup_insert_ne.
Qed.

Lemma removed_heap_self heap conns i c o pending :
  NoDup conns -> conns !! i = Some c ->
  exists o', removed_heap heap conns i c o pending !! c = Some o' /\ pc_trim_pending o' = pending /\
             pc_ping_inflight o' = pc_ping_inflight o /\ pc_conn o' = pc_conn o.
Proof.
  intros Hn Hi. unfold removed_heap.
  destruct (last conns) as [e|] eqn:He; [| rewrite lookup_insert_eq; by eexists].
  destruct (i <? length conns - 1)%nat eqn:Hl; [| rewrite lookup_insert_eq; by eexists].
  apply Nat.ltb_lt in Hl. rewrite last_lookup in He.
  assert (c <> e).
  { intros ->. assert (Hq := NoDup_lookup _ _ _ _ Hn Hi He). lia. }
  destruct (<[c := _]> heap !! e);
    rewrite ?lookup_insert_ne by done; rewrite lookup_insert_eq; by eexists.
Qed.

(** What the pool reads of the other objects besides their position. *)
Lemma removed_heap_fields heap conns i c o pending {A} (f : pool_conn -> A) d :
  (forall o n, f (o <| pc_position := n |>) = f o) -> d <> c ->
  f <$> removed_heap heap conns i c o pending !! d = f <$> heap !! d.
Proof.
  intros Hf Hd. unfold removed_heap.
  destruct (last conns) as [e|]; [| by rewrite lookup_insert_ne].
  destruct (i <? length conns - 1)%nat; [| by rewrite lookup_insert_ne].
  destruct (<[c := _]> heap !! e) as [oe|] eqn:He; [| by rewrite lookup_insert_ne].
  destruct (decide (d = e)) as [->|Hde].
  - rewrite lookup_insert_eq. rewrite lookup_insert_ne in He by done. rewrite He. cbn. by rewrite Hf.
  - by rewrite !lookup_insert_ne.
Qed.

Lemma removed_heap_pings heap conns i c o pending :
  NoDup conns -> conns !! i = Some c -> heap !! c = Some o ->
  pc_ping_inflight <$> removed_heap heap conns i c o pending = pc_ping_inflight <$> heap.
Proof.
  intros Hn Hi Ho. apply map_eq. intros d. rewrite !lookup_fmap.
  destruct (decide (d = c)) as [->|Hd].
  - destruct (removed_heap_self heap conns i c o pending Hn Hi) as (o' & -> & _ & Hp & _).
    rewrite Ho. cbn. by rewrite Hp.
  - apply removed_heap_fields; [by intros [] | done].
Qed.

Lemma list_ok_removed heap l i c o pending m e :
  list_ok heap l -> cl_conns l !! i = Some c -> heap !! c = Some o ->
  list_ok (removed_heap heap (cl_conns l) i c o pending)
    (mkConnList (remove_index_fast i (cl_conns l)) m (remove_index_fast i (cl_match_keys l)) e).
Proof.
  intros L Hi Ho.
  assert (Hn := lo_nodup _ _ L). assert (Hk := lo_keys _ _ L).
  assert (Hlt := lookup_lt_Some _ _ _ Hi).
  destruct (lookup_lt_is_Some_2 (cl_match_keys l) i) as [k Hki]; [lia |].
  assert (Hl1 := remove_index_fast_length _ _ _ Hi).
  assert (Hl2 := remove_index_fast_length _ _ _ Hki).
  split; cbn; [lia | by eapply remove_index_fast_nodup |].
  intros j d Hj. assert (Hjl := lookup_lt_Some _ _ _ Hj).
  rewrite (remove_index_fast_lookup i _ c) in Hj by (done || lia).
  unfold removed_heap.
  destruct (decide (j = i)) as [->|Hji].
  - rewrite Hj. rewrite (proj2 (Nat.ltb_lt _ _)) by lia.
    rewrite last_lookup in Hj. assert (Hdc : d <> c).
    { intros ->. assert (Hq := NoDup_lookup _ _ _ _ Hn Hi Hj). lia. }
    destruct (lo_position _ _ L _ _ Hj) as (od & Hod & _).
    rewrite lookup_insert_ne by done. rewrite Hod, lookup_insert_eq.
    eexists. split; [done |]. by destruct od.
  - destruct (lo_position _ _ L _ _ Hj) as (od & Hod & Hpos).
    assert (Hdc : d <> c).
    { intros ->. assert (Hq := NoDup_lookup _ _ _ _ Hn Hi Hj). lia. }
    destruct (last (cl_conns l)) as [e'|] eqn:He.
    2: { exists od. by rewrite lookup_insert_ne. }
    rewrite last_lookup in He. assert (Hde : d <> e').
    { intros ->. assert (Hq := NoDup_lookup _ _ _ _ Hn He Hj). lia. }
    exists od. split; [| done]. destruct (i <? length (cl_conns l) - 1)%nat.
    + destruct (<[c := _]> heap !! e'); by rewrite !lookup_insert_ne by done.
    + by rewrite lookup_insert_ne.
Qed.

Definition removed_from (u : bool) (i : nat) (c : conn_id) (o : pool_conn) (p : pool) : pool :=
  let l := the_list u (pl_srv p) in
  let l' := mkConnList (remove_index_fast i (cl_conns l)) (cl_matching_by_key l)
              (remove_index_fast i (cl_match_keys l)) (cl_empty_buckets l) in
  let n := Z.of_nat (length (remove_index_fast i (cl_conns l))) in
  p <| pl_heap := removed_heap (pl_heap p) (cl_conns l) i c o
                    (if u then pc_trim_pending o else false) |>
    <| pl_srv := if u then pl_srv p <| sv_used := l' |> <| sv_used_count := n |>
                 else pl_srv p <| sv_free := l' |> <| sv_free_count := n |> |>.

Lemma remove_unindexed_run x u i c o p :
  pool_wf x p -> cl_conns (the_list u (pl_srv p)) !! i = Some c -> pl_heap p !! c = Some o ->
  remove_unindexed_unlocked u i p = Some (Some c, removed_from u i c o p).
Proof.
  intros W Hi Hc. assert (L := pw_list _ _ u W).
  assert (Hn := lo_nodup _ _ L). assert (Hk := lo_keys _ _ L).
  assert (Hlt := lookup_lt_Some _ _ _ Hi).
  destruct (lookup_lt_is_Some_2 (cl_match_keys (the_list u (pl_srv p))) i) as [k Hki]; [lia |].
  assert (Hl1 := remove_index_fast_length _ _ _ Hi).
  assert (Hl2 := remove_index_fast_length _ _ _ Hki).
  destruct (last (cl_conns (the_list u (pl_srv p)))) as [d|] eqn:Hd.
  2: { apply last_None in Hd. by rewrite Hd in Hi. }
  assert (Hdpos := Hd). rewrite last_lookup in Hdpos.
  destruct (lo_position _ _ L _ _ Hdpos) as (od & Hod & _).
  assert (Hfin := finish_idle_trim_run c
    (p <| pl_srv := pl_srv p <| sv_free := sv_free (pl_srv p)
       <| cl_conns := remove_index_fast i (cl_conns (sv_free (pl_srv p))) |> |> |>) o).
  unfold remove_unindexed_unlocked, mbind at 1, PM_bind, whole_list, server, gets.
  rewrite Hi, Hd. unfold keys_match_conns, removed_from, removed_heap. rewrite Hd.
  assert (Hcd : (i <? length (cl_conns (the_list u (pl_srv p))) - 1)%nat = true -> d <> c).
  { intros Hlt'%Nat.ltb_lt ->. assert (Hq := NoDup_lookup _ _ _ _ Hn Hi Hdpos). lia. }
  revert Hcd. destruct u; cbn [the_list] in *.
  - clear Hfin. split_pool p. run_in Hc. run_in Hod. run_in Hk. run_in Hl1.
    run_in Hl2. destruct o. run. rewrite Hk, Nat.eqb_refl, Hc. run.
    destruct (i <? length uc - 1)%nat; intros Hcd.
    + specialize (Hcd eq_refl). rewrite lookup_insert_ne, Hod by congruence. run.
      rewrite (proj2 (Nat.eqb_eq _ _)) by lia. done.
    + run. rewrite (proj2 (Nat.eqb_eq _ _)) by lia. done.
  - split_pool p. run_in Hc. run_in Hod. run_in Hk. run_in Hl1.
    run_in Hl2. run_in Hfin. specialize (Hfin Hc). destruct o. run.
    rewrite Hk, Nat.eqb_refl. run_in Hfin. rewrite Hfin. run. rewrite lookup_insert_eq. run.
    rewrite insert_insert_eq. destruct (i <? length fc - 1)%nat; intros Hcd.
    + specialize (Hcd eq_refl). rewrite !lookup_insert_ne, Hod by congruence. run.
      rewrite (proj2 (Nat.eqb_eq _ _)) by lia. done.
    + run. rewrite (proj2 (Nat.eqb_eq _ _)) by lia. done.
Qed.

Definition slots_of (u : bool) (p : pool) : list (conn_id * PgSQL_PoolMatchKey) :=
  slots (the_list u (pl_srv p)).

(** [c] left the list [u] and is in no list. *)
Record took (u : bool) (c : conn_id) (p p' : pool) : Prop := {
  tk_core : core p' = core p;
  tk_slots : exists k, slots_of u p ≡ₚ (c, k) :: slots_of u p';
  tk_other : slots_of (negb u) p' = slots_of (negb u) p;
  tk_out : ~ in_pool p' c;
  tk_object : exists o, pl_heap p' !! c = Some o
}.

Lemma removed_slots heap l i c :
  list_ok heap l -> cl_conns l !! i = Some c ->
  exists k, slots l !! i = Some (c, k) /\
    zip (remove_index_fast i (cl_conns l)) (remove_index_fast i (cl_match_keys l)) =
    remove_index_fast i (slots l).
Proof.
  intros L Hi. assert (Hlt := lookup_lt_Some _ _ _ Hi).
  destruct (lookup_lt_is_Some_2 (cl_match_keys l) i) as [k Hk]; [by rewrite (lo_keys _ _ L) |].
  exists k. split; [by apply lookup_zip_Some |].
  apply remove_index_fast_zip; [by rewrite (lo_keys _ _ L) | done].
Qed.

Lemma nodup_slots heap l : list_ok heap l -> NoDup (slots l).
Proof.
  intros L. apply NoDup_fmap_1 with (f := fst). unfold slots.
  rewrite fst_zip; [apply (lo_nodup _ _ L) | by rewrite (lo_keys _ _ L)].
Qed.

Lemma removed_core u i c o p :
  NoDup (cl_conns (the_list u (pl_srv p))) -> cl_conns (the_list u (pl_srv p)) !! i = Some c ->
  pl_heap p !! c = Some o -> core (removed_from u i c o p) = core p.
Proof.
  intros Hn Hi Ho. unfold core, pings.
  replace (pl_heap (removed_from u i c o p)) with
    (removed_heap (pl_heap p) (cl_conns (the_list u (pl_srv p))) i c o
       (if u then pc_trim_pending o else false)) by (by destruct p).
  rewrite removed_heap_pings by done. split_pool p. by destruct u.
Qed.

Lemma removed_free_parts i c o p :
  let p' := removed_from false i c o p in
  let l := sv_free (pl_srv p) in
  pl_heap p' = removed_heap (pl_heap p) (cl_conns l) i c o false /\
  sv_free (pl_srv p') = mkConnList (remove_index_fast i (cl_conns l)) (cl_matching_by_key l)
    (remove_index_fast i (cl_match_keys l)) (cl_empty_buckets l) /\
  sv_used (pl_srv p') = sv_used (pl_srv p) /\
  sv_free_count (pl_srv p') = Z.of_nat (length (remove_index_fast i (cl_conns l))) /\
  sv_used_count (pl_srv p') = sv_used_count (pl_srv p) /\
  records p' = records p /\ sv_idle_ping_count (pl_srv p') = sv_idle_ping_count (pl_srv p).
Proof. by split_pool p. Qed.

Lemma removed_used_parts i c o p :
  let p' := removed_from true i c o p in
  let l := sv_used (pl_srv p) in
  pl_heap p' = removed_heap (pl_heap p) (cl_conns l) i c o (pc_trim_pending o) /\
  sv_used (pl_srv p') = mkConnList (remove_index_fast i (cl_conns l)) (cl_matching_by_key l)
    (remove_index_fast i (cl_match_keys l)) (cl_empty_buckets l) /\
  sv_free (pl_srv p') = sv_free (pl_srv p) /\
  sv_used_count (pl_srv p') = Z.of_nat (length (remove_index_fast i (cl_conns l))) /\
  sv_free_count (pl_srv p') = sv_free_count (pl_srv p) /\
  records p' = records p /\ sv_idle_ping_count (pl_srv p') = sv_idle_ping_count (pl_srv p).
Proof. by split_pool p. Qed.

Lemma remove_free_wf i c o p :
  pool_wf (Some c) p -> cl_conns (sv_free (pl_srv p)) !! i = Some c -> pl_heap p !! c = Some o ->
  pool_wf None (removed_from false i c o p) /\ took false c p (removed_from false i c o p) /\
  records (removed_from false i c o p) = records p.
Proof.
  intros W Hi Ho. assert (Hcore := removed_core false i c o p (lo_nodup _ _ (pw_free _ _ W)) Hi Ho).
  destruct (removed_slots _ _ _ _ (pw_free _ _ W) Hi) as (k & Hk & Hz).
  assert (Hnd := nodup_slots _ _ (pw_free _ _ W)).
  assert (Hself := removed_heap_self (pl_heap p) (cl_conns (sv_free (pl_srv p))) i c o false
                     (lo_nodup _ _ (pw_free _ _ W)) Hi).
  assert (Hsl : free_slots (removed_from false i c o p) = remove_index_fast i (free_slots p)).
  { unfold free_slots at 2. rewrite <-Hz. by split_pool p. }
  assert (Hin : forall d k', (d, k') ∈ free_slots (removed_from false i c o p) <->
                  keyed p (Some c) d k').
  { intros d k'. rewrite Hsl, (remove_index_fast_in i _ (c, k)) by done. unfold keyed.
    split; [intros [H Hne]; split; [done |] | intros [H Hne]; split; [done |]].
    - intros [= ->]. apply Hne. f_equal.
      apply list_elem_of_lookup_2 in Hk.
      exact (slot_fun _ _ _ _ _ (pw_free _ _ W) H Hk).
    - intros [= -> _]. done. }
  assert (Hcu : c ∉ cl_conns (sv_used (pl_srv p))).
  { intros H. apply (pw_disjoint _ _ W c); [| done]. by eapply list_elem_of_lookup_2. }
  assert (Hcf : c ∉ remove_index_fast i (cl_conns (sv_free (pl_srv p)))).
  { rewrite (remove_index_fast_in i _ c); [tauto | apply (lo_nodup _ _ (pw_free _ _ W)) | done]. }
  assert (Hsub : forall d, d ∈ remove_index_fast i (cl_conns (sv_free (pl_srv p))) ->
                   d ∈ cl_conns (sv_free (pl_srv p))).
  { intros d. rewrite (remove_index_fast_in i _ c);
      [tauto | apply (lo_nodup _ _ (pw_free _ _ W)) | done]. }
  destruct (removed_free_parts i c o p) as (Eh & Ef & Eu & Efc & Euc & Er & Ep).
  assert (Hpings : pings (removed_from false i c o p) = pings p).
  { unfold core in Hcore. by injection Hcore. }
  split; [| split].
  - destruct W as [Lf Lu Hd I Rs Cf Cu Pn Pg]. split.
    + rewrite Eh, Ef. exact (list_ok_removed _ _ _ _ _ false _ _ Lf Hi Ho).
    + rewrite Eh, Eu. apply (list_ok_heap (pl_heap p)); [done |].
      intros d Hdu. rewrite removed_heap_other; [done | congruence |].
      intros H. exact (Hd d H Hdu).
    + rewrite Ef, Eu. intros d Hf. exact (Hd d (Hsub d Hf)).
    + rewrite Ef. apply (index_ext (keyed p (Some c))); [exact I |].
      intros d k' _. unfold keyed at 2. rewrite Hin. naive_solver.
    + unfold records in Er. injection Er as Er1 Er2 _.
      apply (reservations_ext _ _ _ _ Rs Er1 Er2).
      intros d t _ H. split; [by apply Hin | done].
    + by rewrite Efc, Ef.
    + by rewrite Euc, Eu.
    + rewrite Eh, Ef. intros d od Hdo Hpend. cbn.
      destruct (decide (d = c)) as [->|Hdc].
      { destruct Hself as (o' & Ho' & Hp & _). congruence. }
      apply (remove_index_fast_in i _ c); [apply (lo_nodup _ _ Lf) | done |].
      split; [| done].
      assert (Hf := removed_heap_fields (pl_heap p) (cl_conns (sv_free (pl_srv p))) i c o false
                      pc_trim_pending d (fun o n => ltac:(by destruct o)) Hdc).
      rewrite Hdo in Hf. destruct (pl_heap p !! d) as [od'|] eqn:Hd'; [| done].
      cbn in Hf. injection Hf as Hf. apply (Pn d od' Hd'). congruence.
    + by rewrite Hpings, Ep.
  - split.
    + done.
    + exists k. change (free_slots p ≡ₚ (c, k) :: free_slots (removed_from false i c o p)).
      rewrite Hsl. by apply remove_index_fast_perm.
    + unfold slots_of. cbn. by rewrite Eu.
    + unfold in_pool. rewrite Ef, Eu. cbn. tauto.
    + rewrite Eh. destruct Hself as (o' & Ho' & _). eauto.
  - done.
Qed.

Lemma remove_used_wf x i c o p :
  pool_wf x p -> cl_conns (sv_used (pl_srv p)) !! i = Some c -> pl_heap p !! c = Some o ->
  pool_wf x (removed_from true i c o p) /\ took true c p (removed_from true i c o p) /\
  records (removed_from true i c o p) = records p.
Proof.
  intros W Hi Ho. assert (Hcore := removed_core true i c o p (lo_nodup _ _ (pw_used _ _ W)) Hi Ho).
  destruct (removed_slots _ _ _ _ (pw_used _ _ W) Hi) as (k & Hk & Hz).
  assert (Hself := removed_heap_self (pl_heap p) (cl_conns (sv_used (pl_srv p))) i c o
                     (pc_trim_pending o) (lo_nodup _ _ (pw_used _ _ W)) Hi).
  assert (Hcf : c ∉ cl_conns (sv_free (pl_srv p))).
  { intros H. apply (pw_disjoint _ _ W c); [done |]. by eapply list_elem_of_lookup_2. }
  assert (Hcu : c ∉ remove_index_fast i (cl_conns (sv_used (pl_srv p)))).
  { rewrite (remove_index_fast_in i _ c); [tauto | apply (lo_nodup _ _ (pw_used _ _ W)) | done]. }
  assert (Hsub : forall d, d ∈ remove_index_fast i (cl_conns (sv_used (pl_srv p))) ->
                   d ∈ cl_conns (sv_used (pl_srv p))).
  { intros d. rewrite (remove_index_fast_in i _ c);
      [tauto | apply (lo_nodup _ _ (pw_used _ _ W)) | done]. }
  destruct (removed_used_parts i c o p) as (Eh & Eu & Ef & Euc & Efc & Er & Ep).
  assert (Hpings : pings (removed_from true i c o p) = pings p).
  { unfold core in Hcore. by injection Hcore. }
  assert (Hkeyed : forall d k', keyed (removed_from true i c o p) x d k' <-> keyed p x d k').
  { intros d k'. unfold keyed, free_slots. by rewrite Ef. }
  split; [| split].
  - destruct W as [Lf Lu Hd I Rs Cf Cu Pn Pg]. split.
    + rewrite Eh, Ef. apply (list_ok_heap (pl_heap p)); [done |].
      intros d Hdf. rewrite removed_heap_other; [done | congruence |].
      intros H. exact (Hd d Hdf H).
    + rewrite Eh, Eu. exact (list_ok_removed _ _ _ _ _ _ _ _ Lu Hi Ho).
    + rewrite Ef, Eu. intros d Hf Hu. exact (Hd d Hf (Hsub d Hu)).
    + rewrite Ef. apply (index_ext (keyed p x)); [exact I |]. intros d k' _. by rewrite Hkeyed.
    + unfold records in Er. injection Er as Er1 Er2 _.
      apply (reservations_ext _ _ _ _ Rs Er1 Er2). intros d t _ H. by apply Hkeyed.
    + by rewrite Efc, Ef.
    + by rewrite Euc, Eu.
    + rewrite Eh, Ef. intros d od Hdo Hpend.
      destruct (decide (d = c)) as [->|Hdc].
      { destruct Hself as (o' & Ho' & Hp & _). apply (Pn c o Ho). congruence. }
      assert (Hf := removed_heap_fields (pl_heap p) (cl_conns (sv_used (pl_srv p))) i c o
                      (pc_trim_pending o) pc_trim_pending d (fun o n => ltac:(by destruct o)) Hdc).
      rewrite Hdo in Hf. destruct (pl_heap p !! d) as [od'|] eqn:Hd'; [| done].
      cbn in Hf. injection Hf as Hf. apply (Pn d od' Hd'). congruence.
    + by rewrite Hpings, Ep.
  - split.
    + done.
    + exists k. unfold slots_of. cbn [the_list]. rewrite Eu. unfold slots at 2.
      cbn [cl_conns cl_match_keys]. rewrite Hz. by apply remove_index_fast_perm.
    + unfold slots_of. cbn. by rewrite Ef.
    + unfold in_pool. rewrite Ef, Eu. cbn. tauto.
    + rewrite Eh. destruct Hself as (o' & Ho' & _). eauto.
  - done.
Qed.

Lemma conn_object x u p i c :
  pool_wf x p -> cl_conns (the_list u (pl_srv p)) !! i = Some c -> exists o, pl_heap p !! c = Some o.
Proof. intros W Hi. destruct (lo_position _ _ (pw_list _ _ u W) _ _ Hi) as (o & Ho & _). eauto. Qed.

(** [remove_unlocked] of USED. *)
Lemma remove_used_spec reason i c p :
  pool_ok p -> cl_conns (sv_used (pl_srv p)) !! i = Some c ->
  exists p', remove_unlocked true i reason p = Some (Some c, p') /\ pool_ok p' /\
    took true c p p' /\ records p' = records p.
Proof.
  intros W Hi. destruct (conn_object _ true _ _ _ W Hi) as (o & Ho).
  unfold remove_unlocked, mbind, PM_bind, read_list, server, gets. cbn [the_list]. rewrite Hi.
  rewrite (ensure_run _ true _ W), (remove_unindexed_run None true i c o p W Hi Ho).
  eexists. split; [done |]. by apply remove_used_wf.
Qed.

Lemma reindexed_parts p m e :
  pl_heap (reindexed p m e) = pl_heap p /\
  sv_free (pl_srv (reindexed p m e)) =
    mkConnList (cl_conns (sv_free (pl_srv p))) m (cl_match_keys (sv_free (pl_srv p))) e /\
  sv_used (pl_srv (reindexed p m e)) = sv_used (pl_srv p) /\
  sv_free_count (pl_srv (reindexed p m e)) = sv_free_count (pl_srv p) /\
  sv_used_count (pl_srv (reindexed p m e)) = sv_used_count (pl_srv p) /\
  records (reindexed p m e) = records p /\ core (reindexed p m e) = core p.
Proof. by split_pool p. Qed.

(** With the index and the reservations rid of [c], the pool waits for its
    removal. *)
Lemma reindexed_wf p p1 m e c :
  pool_wf None p -> same_lists p p1 -> index_ok (keyed p (Some c)) m e ->
  reservations_ok (keyed p (Some c)) (pl_srv p1) ->
  pool_wf (Some c) (reindexed p1 m e).
Proof.
  intros [Lf Lu Hd _ _ Cf Cu Pn Pg] (Ec & Eh & Ef & Eu & Efc & Euc) I Rs.
  destruct (reindexed_parts p1 m e) as (Eh' & Ef' & Eu' & Efc' & Euc' & Er' & Ec').
  unfold core in Ec, Ec'. injection Ec as _ _ _ _ Ep _ Epn.
  injection Ec' as _ _ _ _ Ep' _ Epn'.
  split; rewrite ?Eh', ?Ef', ?Eu', ?Efc', ?Euc', ?Eh, ?Ef, ?Eu, ?Efc, ?Euc; try done.
  - destruct Lf. by split.
  - apply (index_ext _ _ _ I). intros d k _. unfold keyed, free_slots. rewrite Ef'. cbn.
    by rewrite Ef.
  - unfold records in Er'. injection Er' as Er1 Er2 _.
    apply (reservations_ext _ _ _ _ Rs Er1 Er2). intros d t _ [H Hx]. split; [| done].
    unfold free_slots. rewrite Ef'. cbn. by rewrite Ef.
  - by rewrite Ep', Epn', Ep, Epn.
Qed.

Lemma forgotten_reindexed c reason p m e :
  forgotten c reason (reindexed p m e) = reindexed (forgotten c reason p) m e.
Proof.
  unfold forgotten, polardb_forget_reserved_connection_unlocked, reindexed. split_pool p. run.
  destruct (tk !! c) as [t|]; [| done]. destruct (rs !! t); [| done].
  by destruct (polardb_reader_pool_reservation_reason_is_retirement reason).
Qed.

Lemma took_core u c p p1 p' :
  core p1 = core p -> slots_of false p1 = slots_of false p -> slots_of true p1 = slots_of true p ->
  took u c p1 p' -> took u c p p'.
Proof.
  intros Hc Hf Hu [Tc Ts To Tn Tb]. split; try done.
  - congruence.
  - destruct u; [rewrite <-Hu | rewrite <-Hf]; exact Ts.
  - destruct u; cbn in *; congruence.
Qed.

(** [remove_unlocked] of FREE ends the reservation of the connection. *)
Lemma remove_free_spec reason i c p :
  pool_ok p -> cl_conns (sv_free (pl_srv p)) !! i = Some c ->
  exists p', remove_unlocked false i reason p = Some (Some c, p') /\ pool_ok p' /\
    took false c p p' /\ records p' = records (forgotten c reason p).
Proof.
  intros W Hi. destruct (conn_object _ false _ _ _ W Hi) as (o & Ho).
  unfold remove_unlocked, mbind, PM_bind, read_list, server, gets. cbn [the_list]. rewrite Hi.
  destruct (unindex_run p c o W Ho (list_elem_of_lookup_2 _ _ _ Hi)) as (m & e & -> & I).
  rewrite forget_run, forgotten_reindexed.
  assert (S := forgotten_rest c reason p). assert (Rs := forgotten_ok c reason p
    (pw_reservations _ _ W)). set (p1 := forgotten c reason p) in *.
  assert (W1 := reindexed_wf p p1 m e c W S I Rs). destruct S as (Ec & Eh & Ef & Eu & _ & _).
  destruct (reindexed_parts p1 m e) as (Eh' & Ef' & Eu' & _ & _ & Er' & Ec').
  assert (Hi' : cl_conns (the_list false (pl_srv (reindexed p1 m e))) !! i = Some c).
  { cbn [the_list]. rewrite Ef', Ef. done. }
  assert (Ho' : pl_heap (reindexed p1 m e) !! c = Some o) by (rewrite Eh', Eh; done).
  rewrite (remove_unindexed_run _ false i c o _ W1 Hi' Ho').
  destruct (remove_free_wf i c o _ W1 Hi' Ho') as (W2 & T & Er2).
  eexists. split; [done |]. split; [done |]. split; [| congruence].
  apply (took_core _ _ _ _ _ (eq_trans Ec' Ec)) in T; [done | |]; unfold slots_of; cbn [the_list].
  - by rewrite Ef', Ef.
  - by rewrite Eu', Eu.
Qed.

(** The last connection takes the place of the removed one. *)
Lemma removed_free_list reason i c r p p' :
  pool_ok p -> cl_conns (sv_free (pl_srv p)) !! i = Some c ->
  remove_unlocked false i reason p = Some (r, p') ->
  cl_conns (sv_free (pl_srv p')) = remove_index_fast i (cl_conns (sv_free (pl_srv p))).
Proof.
  intros W Hi. destruct (conn_object _ false _ _ _ W Hi) as (o & Ho).
  unfold remove_unlocked, mbind, PM_bind, read_list, server, gets. cbn [the_list]. rewrite Hi.
  destruct (unindex_run p c o W Ho (list_elem_of_lookup_2 _ _ _ Hi)) as (m & e & -> & I).
  rewrite forget_run, forgotten_reindexed.
  assert (S := forgotten_rest c reason p). assert (Rs := forgotten_ok c reason p
    (pw_reservations _ _ W)). set (p1 := forgotten c reason p) in *.
  assert (W1 := reindexed_wf p p1 m e c W S I Rs). destruct S as (Ec & Eh & Ef & _).
  destruct (reindexed_parts p1 m e) as (Eh' & Ef' & _).
  rewrite (remove_unindexed_run _ false i c o _ W1); [| cbn [the_list]; by rewrite Ef', Ef |
    by rewrite Eh', Eh].
  intros [= <- <-]. unfold removed_from. cbn [the_list]. rewrite Ef', Ef.
  by destruct (reindexed p1 m e) as [h [] q].
Qed.

Lemma removelast_perm (b : list conn_id) c : last b = Some c -> b ≡ₚ c :: removelast b.
Proof.
  intros (b' & ->)%last_Some. rewrite removelast_last. solve_Permutation.
Qed.

(** A connection with a key is not reserved. *)
Lemma keyed_not_reserved p c k :
  pool_ok p -> (c, k) ∈ free_slots p -> match_key_empty k = false ->
  sv_token_by_connection (pl_srv p) !! c = None.
Proof.
  intros W Hs Hk. destruct (sv_token_by_connection (pl_srv p) !! c) as [t|] eqn:Ht; [| done].
  destruct (ro_conn _ _ (pw_reservations _ _ W) _ _ Ht) as [_ [H _]].
  rewrite (slot_fun _ _ _ _ _ (pw_free _ _ W) Hs H) in Hk. done.
Qed.

(** The first attempt is right: the index needs no repair. *)
Lemma try_remove_matching_spec key p :
  pool_ok p ->
  (exists c p', try_remove_matching key p = Some (Some (Some c), p') /\ pool_ok p' /\
     took false c p p' /\ records p' = records p /\ (c, key) ∈ free_slots p /\
     match_key_empty key = false) \/
  (try_remove_matching key p = Some (Some None, p) /\
   forall c, (c, key) ∈ free_slots p -> match_key_empty key = true).
Proof.
  intros W. unfold try_remove_matching.
  rewrite (bind_run _ _ _ _ _ (ensure_run _ false _ W)).
  rewrite (bind_run (whole_list false) _ p _ p eq_refl). cbn [the_list].
  destruct (cl_matching_by_key (sv_free (pl_srv p)) !! key) as [b|] eqn:Hb; cbn [mbind option_bind].
  2: { right. split; [done |]. intros c Hc. apply not_false_iff_true. intros Hk.
       destruct (io_found _ _ _ (pw_index _ _ W) c key) as [b Hb']; [by split | done | congruence]. }
  destruct (io_bucket _ _ _ (pw_index _ _ W) _ _ Hb) as (Hk & Hn & Hin).
  destruct (last b) as [c|] eqn:Hl; cbn [mbind option_bind].
  2: { apply last_None in Hl. subst. right. split; [done |]. intros c Hc. exfalso.
       apply (not_elem_of_nil c). apply Hin. by split. }
  left. assert (Hc : c ∈ b) by (by apply last_Some_elem_of).
  apply Hin in Hc as [Hs _].
  assert (Hs' := Hs). apply list_elem_of_lookup in Hs' as (i & [Hi Hki]%lookup_zip_Some).
  destruct (conn_object _ false _ _ _ W Hi) as (o & Ho).
  rewrite (bind_run _ _ _ _ _ (find_idx_run false c p o (pw_free _ _ W) Ho)). cbn [the_list].
  rewrite (index_of_nodup _ _ _ (lo_nodup _ _ (pw_free _ _ W)) Hi). cbn [mbind option_bind].
  rewrite Hki. cbn [mbind option_bind]. rewrite (proj2 (beq_true _ _) eq_refl).
  destruct (put_bucket_run p c key b (removelast b) W Hb Hs (removelast_perm _ _ Hl))
    as (m & e & Hput & I).
  rewrite (bind_run _ _ _ _ _ Hput).
  assert (Hres := keyed_not_reserved _ _ _ W Hs Hk).
  assert (W1 : pool_wf (Some c) (reindexed p m e)).
  { apply (reindexed_wf p p); [done | done | done |].
    assert (Rs := forgotten_ok c End_NONE p (pw_reservations _ _ W)).
    replace (forgotten c End_NONE p) with p in Rs; [done |].
    unfold forgotten, polardb_forget_reserved_connection_unlocked. clear - Hres.
    split_pool p. run_in Hres. run. by rewrite Hres. }
  destruct (reindexed_parts p m e) as (Eh' & Ef' & Eu' & _ & _ & Er' & Ec').
  assert (Hi' : cl_conns (the_list false (pl_srv (reindexed p m e))) !! i = Some c).
  { cbn [the_list]. by rewrite Ef'. }
  assert (Ho' : pl_heap (reindexed p m e) !! c = Some o) by (rewrite Eh'; done).
  unfold fmap, PM_fmap. rewrite (remove_unindexed_run _ false i c o _ W1 Hi' Ho').
  destruct (remove_free_wf i c o _ W1 Hi' Ho') as (W2 & T & Er2).
  eexists _, _. split; [done |]. split; [done |]. split; [| split; [congruence | done]].
  apply (took_core _ _ _ _ _ Ec') in T; [done | |]; unfold slots_of; cbn [the_list].
  - by rewrite Ef'.
  - by rewrite Eu'.
Qed.

Lemma remove_matching_spec key p :
  pool_ok p ->
  (exists c p', remove_matching_unlocked key p = Some (Some c, p') /\ pool_ok p' /\
     took false c p p' /\ records p' = records p /\ (c, key) ∈ free_slots p /\
     match_key_empty key = false) \/
  (remove_matching_unlocked key p = Some (None, p) /\
   forall c, (c, key) ∈ free_slots p -> match_key_empty key = true).
Proof.
  intros W. unfold remove_matching_unlocked.
  destruct (try_remove_matching_spec key p W) as [(c & p' & H & Hp) | [H Hp]];
    rewrite (bind_run _ _ _ _ _ H); [left | right; by split].
  exists c, p'. by split.
Qed.
