(* ===== verification/Reservations.v ===== *)
(** * Reservations of reader connections

    The operations of a server that reserve, hand over, retire and cancel, and
    those that evict, trim and drop, on top of [PoolSafety]: none of them fails,
    each keeps the pool in order, and the claims of workers on the server change
    only as the operation announces. *)

From S2P Require Import Prelude Policy Startup Session Query Topology.
From S2P Require Import ServerList PoolConn Reader ReaderAcquire CapacityQueue ServerPool.
From S2P Require Import PoolSafety.
From Stdlib Require Import ZArith Ascii String List Bool Lia.
From stdpp Require Import base tactics list gmap strings.

Open Scope Z_scope.
Open Scope polar_scope.

(** ** Claims

    A worker has a claim on a server while its reservation, or the record of a
    reservation that was retired, is there under its token. *)

Definition claims_of (s : PgSQL_SrvC) : gmap Z Z :=
  (rv_worker_index <$> sv_reservations s) ∪ (rt_worker_index <$> sv_retired s).

Definition claims (p : pool) : gmap Z Z := claims_of (pl_srv p).

Record server_ok (p : pool) : Prop := {
  so_pool : pool_ok p;
  so_apart t r : sv_reservations (pl_srv p) !! t = Some r -> sv_retired (pl_srv p) !! t = None
}.

Lemma claims_lookup p t w :
  claims p !! t = Some w <->
  (exists r, sv_reservations (pl_srv p) !! t = Some r /\ rv_worker_index r = w) \/
  (sv_reservations (pl_srv p) !! t = None /\
   exists r, sv_retired (pl_srv p) !! t = Some r /\ rt_worker_index r = w).
Proof.
  unfold claims, claims_of. rewrite lookup_union_Some_raw, !lookup_fmap.
  destruct (sv_reservations (pl_srv p) !! t) as [r|], (sv_retired (pl_srv p) !! t) as [r'|];
    cbn; naive_solver.
Qed.

Lemma claims_none p t :
  claims p !! t = None <->
  sv_reservations (pl_srv p) !! t = None /\ sv_retired (pl_srv p) !! t = None.
Proof.
  unfold claims, claims_of. rewrite lookup_union_None, !lookup_fmap.
  destruct (sv_reservations (pl_srv p) !! t), (sv_retired (pl_srv p) !! t); naive_solver.
Qed.

Lemma claims_records p p' : records p' = records p -> claims p' = claims p.
Proof. unfold records, claims, claims_of. by intros [= -> _ ->]. Qed.

Lemma apart_records p p' :
  records p' = records p ->
  (forall t r, sv_reservations (pl_srv p) !! t = Some r -> sv_retired (pl_srv p) !! t = None) ->
  forall t r, sv_reservations (pl_srv p') !! t = Some r -> sv_retired (pl_srv p') !! t = None.
Proof. unfold records. intros [= -> _ ->]. tauto. Qed.

(** What became of the reservation of a connection that left FREE. *)
Lemma forgotten_claims c reason p :
  server_ok p ->
  (forall t r, sv_reservations (pl_srv (forgotten c reason p)) !! t = Some r ->
               sv_retired (pl_srv (forgotten c reason p)) !! t = None) /\
  claims (forgotten c reason p) =
    match sv_token_by_connection (pl_srv p) !! c with
    | Some t =>
        if polardb_reader_pool_reservation_reason_is_retirement reason then claims p
        else delete t (claims p)
    | None => claims p
    end.
Proof.
  intros [W A]. assert (E := forgotten_records c reason p).
  destruct (sv_token_by_connection (pl_srv p) !! c) as [t|] eqn:Ht.
  2: { split; [by apply (apart_records p) | by apply claims_records]. }
  destruct (ro_conn _ _ (pw_reservations _ _ W) _ _ Ht) as [(r & Hr & _) _].
  rewrite Hr in E. assert (Hret := A _ _ Hr).
  unfold records in E. injection E as E1 _ E3.
  unfold claims, claims_of. rewrite E1, E3. clear E1 E3.
  destruct (polardb_reader_pool_reservation_reason_is_retirement reason).
  - unfold emplace. rewrite Hret. split.
    + intros t' r' [Hne Hr']%lookup_delete_Some. rewrite lookup_insert_ne by done. by eapply A.
    + apply map_eq. intros t'. rewrite !lookup_union, !lookup_fmap.
      destruct (decide (t' = t)) as [->|Hne].
      * by rewrite lookup_delete_eq, lookup_insert_eq, Hr, Hret.
      * by rewrite lookup_delete_ne, lookup_insert_ne by done.
  - split.
    + intros t' r' [Hne Hr']%lookup_delete_Some. by eapply A.
    + apply map_eq. intros t'. destruct (decide (t' = t)) as [->|Hne].
      * rewrite lookup_delete_eq, lookup_union, !lookup_fmap, lookup_delete_eq, Hret. done.
      * rewrite lookup_delete_ne by done. rewrite !lookup_union, !lookup_fmap.
        by rewrite lookup_delete_ne by done.
Qed.

(** ** Storing a connection *)

Definition with_q (q : capacity_queue) (p : pool) : pool := p <| pl_queue := q |>.

(** The object of [c] with another connection value in it. *)
Definition set_conn_value (c : conn_id) (o : pool_conn) (v : PgSQL_Connection) (p : pool) : pool :=
  p <| pl_heap := <[c := o <| pc_conn := v |>]> (pl_heap p) |>.

Lemma set_conn_value_run c o (f : PgSQL_Connection -> PgSQL_Connection) p :
  pl_heap p !! c = Some o ->
  with_conn (fun o => o <| pc_conn := f (pc_conn o) |>) c p =
  Some ((), set_conn_value c o (f (pc_conn o)) p).
Proof. intros H. unfold with_conn. by rewrite H. Qed.

Lemma set_conn_value_parts c o v p :
  pl_heap p !! c = Some o ->
  pl_srv (set_conn_value c o v p) = pl_srv p /\ core (set_conn_value c o v p) = core p /\
  exists o', pl_heap (set_conn_value c o v p) !! c = Some o'.
Proof.
  intros H. split; [by destruct p |]. split.
  - unfold core, pings. replace (pl_heap (set_conn_value c o v p)) with
      (<[c := o <| pc_conn := v |>]> (pl_heap p)) by (by destruct p).
    rewrite (pings_insert _ c o) by (done || by destruct o). by destruct p.
  - exists (o <| pc_conn := v |>). destruct p as [heap s q].
    change (<[c := o <| pc_conn := v |>]> heap !! c = Some (o <| pc_conn := v |>)).
    apply lookup_insert_eq.
Qed.

Lemma pool_wf_same x p p' :
  pool_wf x p -> pl_srv p' = pl_srv p -> pings p' = pings p ->
  (forall c, pc_position <$> pl_heap p' !! c = pc_position <$> pl_heap p !! c) ->
  (forall c, pc_trim_pending <$> pl_heap p' !! c = pc_trim_pending <$> pl_heap p !! c) ->
  pool_wf x p'.
Proof.
  intros [Lf Lu Hd I Rs Cf Cu Pn Pg] Hs Hp Hpos Hpend.
  assert (Hk : forall d k, keyed p' x d k <-> keyed p x d k).
  { intros d k. unfold keyed, free_slots. by rewrite Hs. }
  split; rewrite ?Hs; try done.
  - by apply (list_ok_heap (pl_heap p)).
  - by apply (list_ok_heap (pl_heap p)).
  - apply (index_ext _ _ _ I). intros d k _. by rewrite Hk.
  - apply (reservations_ext _ _ _ _ Rs); [done.. |].
    intros d t _ H. by apply Hk.
  - intros c o Ho Ht. assert (E := Hpend c). rewrite Ho in E.
    destruct (pl_heap p !! c) as [o'|] eqn:Ho'; [| done]. cbn in E. injection E as E.
    apply (Pn c o' Ho'). congruence.
  - by rewrite Hp.
Qed.

Lemma set_conn_value_wf x c o v p :
  pool_wf x p -> pl_heap p !! c = Some o -> pool_wf x (set_conn_value c o v p).
Proof.
  intros W H. destruct (set_conn_value_parts c o v p H) as (Es & Ec & _).
  assert (Hh : pl_heap (set_conn_value c o v p) = <[c := o <| pc_conn := v |>]> (pl_heap p))
    by (by destruct p).
  apply (pool_wf_same x p); [done | done | | |].
  - unfold core in Ec. by injection Ec.
  - intros d. rewrite Hh, lookup_insert. case_decide; [subst; rewrite H; by destruct o | done].
  - intros d. rewrite Hh, lookup_insert. case_decide; [subst; rewrite H; by destruct o | done].
Qed.

Lemma with_q_wf x q p : pool_wf x p -> pool_wf x (with_q q p).
Proof. intros W. by apply (pool_wf_same x p); [done | destruct p..]. Qed.

Lemma with_q_parts q p :
  pl_srv (with_q q p) = pl_srv p /\ pl_heap (with_q q p) = pl_heap p /\ pl_queue (with_q q p) = q.
Proof. by destruct p. Qed.

Lemma core_with_q q p p1 : core p1 = core p -> core (with_q q p1) = core (with_q q p).
Proof.
  unfold core, pings. destruct (with_q_parts q p) as (-> & -> & ->).
  destruct (with_q_parts q p1) as (-> & -> & ->). intros [=]. congruence.
Qed.

Lemma not_in_pool_token p c :
  pool_ok p -> ~ in_pool p c -> sv_token_by_connection (pl_srv p) !! c = None.
Proof.
  intros W Hout. destruct (sv_token_by_connection (pl_srv p) !! c) as [t|] eqn:Ht; [| done].
  destruct (ro_conn _ _ (pw_reservations _ _ W) _ _ Ht) as [_ [H _]].
  destruct Hout. by eapply in_pool_free.
Qed.

(** The records with a reservation of [c] for the request [r]. *)
Definition reserved (c : conn_id) (r : PolarDB_ReaderPoolCapacityRequest) (p : pool) : pool :=
  p <| pl_srv := pl_srv p
       <| sv_reservations := emplace (cr_token r)
            (mkReservation (cr_worker_index r) (cr_token r) c (cr_match_key r))
            (sv_reservations (pl_srv p)) |>
       <| sv_token_by_connection := emplace c (cr_token r) (sv_token_by_connection (pl_srv p)) |> |>.

Lemma reserved_parts c r p :
  pl_heap (reserved c r p) = pl_heap p /\ core (reserved c r p) = core p /\
  sv_free (pl_srv (reserved c r p)) = sv_free (pl_srv p) /\
  sv_used (pl_srv (reserved c r p)) = sv_used (pl_srv p) /\
  sv_free_count (pl_srv (reserved c r p)) = sv_free_count (pl_srv p) /\
  sv_used_count (pl_srv (reserved c r p)) = sv_used_count (pl_srv p) /\
  sv_retired (pl_srv (reserved c r p)) = sv_retired (pl_srv p).
Proof. by split_pool p. Qed.

Lemma reserved_ok c r p :
  server_ok p -> sv_token_by_connection (pl_srv p) !! c = None -> (c, no_match_key) ∈ free_slots p ->
  claims p !! cr_token r = None ->
  server_ok (reserved c r p) /\
  claims (reserved c r p) = <[cr_token r := cr_worker_index r]> (claims p) /\
  sv_reservations (pl_srv (reserved c r p)) !! cr_token r =
    Some (mkReservation (cr_worker_index r) (cr_token r) c (cr_match_key r)).
Proof.
  intros [W A] Hc Hs [Hr Hret]%claims_none.
  destruct (reserved_parts c r p) as (Eh & Ec & Ef & Eu & Efc & Euc & Ert).
  set (rv := mkReservation (cr_worker_index r) (cr_token r) c (cr_match_key r)).
  assert (E1 : sv_reservations (pl_srv (reserved c r p)) =
                 <[cr_token r := rv]> (sv_reservations (pl_srv p))).
  { transitivity (emplace (cr_token r) rv (sv_reservations (pl_srv p))); [by split_pool p |].
    unfold emplace. by rewrite Hr. }
  assert (E2 : sv_token_by_connection (pl_srv (reserved c r p)) =
                 <[c := cr_token r]> (sv_token_by_connection (pl_srv p))).
  { transitivity (emplace c (cr_token r) (sv_token_by_connection (pl_srv p)));
      [by split_pool p |]. unfold emplace. by rewrite Hc. }
  assert (Hk : forall d k, keyed (reserved c r p) None d k <-> keyed p None d k).
  { intros d k. unfold keyed, free_slots. by rewrite Ef. }
  split; [split | split].
  - unfold core in Ec. injection Ec as _ _ _ _ Ep _ Epn.
    destruct W as [Lf Lu Hd I Rs Cf Cu Pn Pg].
    split; rewrite ?Eh, ?Ef, ?Eu, ?Efc, ?Euc; try done.
    + apply (index_ext _ _ _ I). intros d k _. by rewrite Hk.
    + split; rewrite E1, E2.
      * intros t r' [[<- <-] | [Hne Hr']]%lookup_insert_Some.
        -- split; [done | apply lookup_insert_eq].
        -- destruct (ro_token _ _ Rs _ _ Hr') as [H1 H2]. split; [done |].
           rewrite lookup_insert_ne; [done | congruence].
      * intros d t [[<- <-] | [Hne Hd']]%lookup_insert_Some.
        -- split; [exists rv; by rewrite lookup_insert_eq | by apply Hk].
        -- destruct (ro_conn _ _ Rs _ _ Hd') as [(r' & Hr' & Hrd) Hkd].
           split; [| by apply Hk]. exists r'. split; [| done].
           rewrite lookup_insert_ne; [done | congruence].
    + by rewrite Ep, Epn.
  - intros t r'. rewrite E1, Ert. intros [[<- <-] | [Hne Hr']]%lookup_insert_Some; [done |].
    by eapply A.
  - unfold claims, claims_of. rewrite E1, Ert, fmap_insert. by rewrite insert_union_l.
  - rewrite E1. apply lookup_insert_eq.
Qed.

Lemma reserve_spec c r snapshot p o :
  server_ok p -> pl_heap p !! c = Some o -> ~ in_pool p c -> claims p !! cr_token r = None ->
  exists p', reserve_reader_pool_connection_unlocked c r snapshot p =
    Some (mkWake (cr_worker_index r) (cr_token r) (sv_id (pl_srv p)) snapshot, p') /\
    server_ok p' /\ core p' = core p /\ used_slots p' = used_slots p /\
    free_slots p' = free_slots p ++ [(c, no_match_key)] /\
    claims p' = <[cr_token r := cr_worker_index r]> (claims p) /\
    sv_reservations (pl_srv p') !! cr_token r =
      Some (mkReservation (cr_worker_index r) (cr_token r) c (cr_match_key r)).
Proof.
  intros [W A] Ho Hout Hfree. unfold reserve_reader_pool_connection_unlocked.
  rewrite (bind_run _ _ _ _ _
    (set_conn_value_run c o (fun v => v <| cn_server_snapshot := Some snapshot |>) p Ho)).
  set (v := pc_conn o <| cn_server_snapshot := Some snapshot |>).
  destruct (set_conn_value_parts c o v p Ho) as (Es & Ec1 & o1 & Ho1).
  assert (W1 := set_conn_value_wf None c o v p W Ho).
  set (p1 := set_conn_value c o v p) in *.
  assert (Hout1 : ~ in_pool p1 c) by (unfold in_pool; by rewrite Es).
  destruct (add_free_wf p1 c None o1 W1 Ho1 Hout1) as (p2 & Hadd & W2 & Ec2 & Er2 & Eu2 & Ef2).
  rewrite (bind_run _ _ _ _ _ Hadd). cbn [from_option default] in Ef2.
  assert (Er : records p2 = records p) by (unfold records in *; congruence).
  assert (Htok : sv_token_by_connection (pl_srv p2) !! c = None).
  { unfold records in Er. injection Er as _ -> _. by apply not_in_pool_token. }
  destruct (reserved_ok c r p2) as (S3 & Ec3 & Er3).
  { split; [done | by apply (apart_records p)]. }
  { done. }
  { rewrite Ef2. apply elem_of_app. right. by apply list_elem_of_singleton. }
  { by rewrite (claims_records _ _ Er). }
  destruct (reserved_parts c r p2) as (_ & Ecr & Efr & Eur & _).
  rewrite (bind_run _ _ p2 () (reserved c r p2) eq_refl).
  rewrite (bind_run (server sv_id) _ _ (sv_id (pl_srv p)) (reserved c r p2)).
  2: { unfold server, gets. f_equal. f_equal. unfold core in *.
       assert (E : core (reserved c r p2) = core p) by (unfold core; congruence).
       unfold core in E. by injection E. }
  exists (reserved c r p2). split; [done |]. split; [done |].
  split; [congruence |]. split; [unfold used_slots in *; rewrite Eur; congruence |].
  split; [unfold free_slots in *; rewrite Efr, Ef2; by rewrite Es |].
  split; [by rewrite Ec3, (claims_records _ _ Er) | done].
Qed.

(** ** The outcome of storing a connection *)

Section Store.
Context (cx : reader_context).

(** The request and the snapshot the queue [l] has for a connection of [p]. *)
Definition offer (p : pool) (key : PgSQL_PoolMatchKey) (ex : Z) (l : list entry)
  : option (PolarDB_ReaderPoolCapacityRequest * PolarDB_ServerListSnapshot) :=
  fifo_first cx (sv_hid (pl_srv p)) (Some (sv_id (pl_srv p))) key ex l.*2.

(** [c] went into FREE under [key], or was reserved for the oldest request it may
    serve, which left the queue. *)
Record stored (c : conn_id) (key : PgSQL_PoolMatchKey) (ex : Z) (l : list entry)
    (p p' : pool) (wake : option PolarDB_ReaderPoolReservationWake) : Prop := {
  sd_ok : server_ok p';
  sd_core : core p' = core (with_q (pl_queue p') p);
  sd_used : used_slots p' = used_slots p;
  sd_case :
    match offer p key ex l with
    | None =>
        wake = None /\ pl_queue p' = pl_queue p /\ claims p' = claims p /\
        free_slots p' = free_slots p ++ [(c, key)]
    | Some (r, snapshot) =>
        wake = Some (mkWake (cr_worker_index r) (cr_token r) (sv_id (pl_srv p)) snapshot) /\
        (exists n, (n, r) ∈ l /\ represents (pl_queue p') (erased l n)) /\
        claims p' = <[cr_token r := cr_worker_index r]> (claims p) /\
        free_slots p' = free_slots p ++ [(c, no_match_key)]
    end
}.

(** The tokens of the queue have no claim here. *)
Definition tokens_free (l : list entry) (p : pool) : Prop :=
  forall n r, (n, r) ∈ l -> claims p !! cr_token r = None.

Lemma take_request_run key ex p l :
  represents (pl_queue p) l ->
  exists q', take_request cx key ex p = Some (offer p key ex l, with_q q' p) /\
    match offer p key ex l with
    | Some (r, _) => exists n, (n, r) ∈ l /\ represents q' (erased l n)
    | None => q' = pl_queue p
    end.
Proof.
  intros R. unfold take_request.
  rewrite (bind_run (server sv_hid) _ p _ p eq_refl), (bind_run (server sv_id) _ p _ p eq_refl).
  destruct (take_refines _ _ cx (sv_hid (pl_srv p)) (Some (sv_id (pl_srv p))) key ex R)
    as (q' & Hq & H).
  exists q'. unfold with_queue. rewrite Hq. by split.
Qed.

Lemma store_spec c key ex p o l :
  server_ok p -> pl_heap p !! c = Some o -> ~ in_pool p c ->
  represents (pl_queue p) l -> tokens_free l p -> sv_status (pl_srv p) = SERVER_ONLINE ->
  exists p' wake, store_matching_free_connection_unlocked cx c key ex p = Some ((true, wake), p') /\
    stored c key ex l p p' wake.
Proof.
  intros [W A] Ho Hout R Hfree Hon. unfold store_matching_free_connection_unlocked.
  rewrite (bind_run (server sv_status) _ p _ p eq_refl). rewrite Hon.
  change (SERVER_ONLINE != SERVER_ONLINE) with false. cbv iota.
  rewrite (bind_run _ _ _ _ _
    (set_conn_value_run c o (fun v => v <| cn_server_snapshot := None |>) p Ho)).
  set (v := pc_conn o <| cn_server_snapshot := None |>).
  destruct (set_conn_value_parts c o v p Ho) as (Es & Ec1 & o1 & Ho1).
  assert (W1 := set_conn_value_wf None c o v p W Ho).
  assert (Eq1 : pl_queue (set_conn_value c o v p) = pl_queue p) by (by destruct p).
  set (p1 := set_conn_value c o v p) in *.
  assert (R1 : represents (pl_queue p1) l) by (by rewrite Eq1).
  destruct (take_request_run key ex p1 l R1) as (q' & Htake & Hcase).
  rewrite (bind_run _ _ _ _ _ Htake).
  assert (Eo : offer p1 key ex l = offer p key ex l) by (unfold offer; by rewrite Es).
  rewrite Eo in *. clear Eo Htake.
  assert (W2 := with_q_wf None q' p1 W1).
  destruct (with_q_parts q' p1) as (Es2 & Eh2 & Eq2).
  assert (Hout2 : ~ in_pool (with_q q' p1) c) by (unfold in_pool; rewrite Es2, Es; done).
  assert (Ho2 : pl_heap (with_q q' p1) !! c = Some o1) by (by rewrite Eh2).
  assert (Er2 : records (with_q q' p1) = records p) by (unfold records; by rewrite Es2, Es).
  assert (Hcore : forall p3, core p3 = core (with_q q' p1) ->
            core p3 = core (with_q (pl_queue p3) p)).
  { intros p3 E. assert (Eq3 : pl_queue p3 = q').
    { unfold core in E. rewrite Eq2 in E. by injection E. }
    rewrite Eq3, E. by apply core_with_q. }
  destruct (offer p key ex l) as [[r snapshot]|] eqn:Eoff.
  - destruct Hcase as (n & Hn & R').
    destruct (reserve_spec c r snapshot (with_q q' p1) o1) as
      (p3 & Hres & S3 & Ec3 & Eu3 & Ef3 & Ecl3 & _).
    { split; [done | by apply (apart_records p)]. }
    { done. } { done. }
    { rewrite (claims_records _ _ Er2). by eapply Hfree. }
    rewrite (bind_run _ _ _ _ _ Hres). eexists p3, _. split; [done |].
    assert (Eq3 : pl_queue p3 = q').
    { unfold core in Ec3. rewrite Eq2 in Ec3. by injection Ec3. }
    split; [done | by apply Hcore | unfold used_slots in *; by rewrite Eu3, Es2, Es |].
    rewrite Eoff. split; [by rewrite Es2, Es |]. split; [exists n; by rewrite Eq3 |].
    split; [by rewrite Ecl3, (claims_records _ _ Er2) |].
    unfold free_slots in *. by rewrite Ef3, Es2, Es.
  - subst q'.
    destruct (add_free_wf (with_q (pl_queue p1) p1) c (Some key) o1 W2 Ho2 Hout2)
      as (p3 & Hadd & W3 & Ec3 & Er3 & Eu3 & Ef3).
    rewrite (bind_run _ _ _ _ _ Hadd). eexists p3, _. split; [done |].
    assert (Eq3 : pl_queue p3 = pl_queue p).
    { unfold core in Ec3. rewrite Eq2, Eq1 in Ec3. by injection Ec3. }
    split; [split; [done |] | by apply Hcore | unfold used_slots in *; by rewrite Eu3, Es2, Es |].
    { apply (apart_records p); [congruence | done]. }
    rewrite Eoff. split; [done |]. split; [done |].
    split; [apply claims_records; congruence |].
    unfold free_slots in *. by rewrite Ef3, Es2, Es.
Qed.

End Store.

(** ** Operations that leave the claims alone *)

Record quiet (p p' : pool) : Prop := {
  qt_ok : server_ok p';
  qt_claims : claims p' = claims p;
  qt_queue : pl_queue p' = pl_queue p;
  qt_id : sv_id (pl_srv p') = sv_id (pl_srv p);
  qt_hid : sv_hid (pl_srv p') = sv_hid (pl_srv p)
}.

Lemma quiet_refl p : server_ok p -> quiet p p.
Proof. by split. Qed.

Lemma quiet_trans p p1 p2 : quiet p p1 -> quiet p1 p2 -> quiet p p2.
Proof. intros [] []. split; congruence. Qed.

Lemma quiet_core p p' :
  server_ok p -> pool_ok p' -> core p' = core p -> records p' = records p -> quiet p p'.
Proof.
  intros [W A] W' Ec Er. unfold core in Ec. injection Ec as H1 H2 _ _ _ H3 _.
  split; try done; [split; [done | by apply (apart_records p)] | by apply claims_records].
Qed.

#[local] Hint Resolve quiet_refl : core.

Definition retires (reason : ReaderReservationEndReason) : Prop :=
  polardb_reader_pool_reservation_reason_is_retirement reason = true.

Definition is_reserved (p : pool) (c : conn_id) : Prop :=
  sv_token_by_connection (pl_srv p) !! c <> None.

Lemma remove_free_quiet reason i c p :
  server_ok p -> cl_conns (sv_free (pl_srv p)) !! i = Some c ->
  retires reason \/ ~ is_reserved p c ->
  exists p', remove_unlocked false i reason p = Some (Some c, p') /\ quiet p p' /\
    took false c p p'.
Proof.
  intros S Hi Hr. destruct (remove_free_spec reason i c p (so_pool _ S) Hi)
    as (p' & Hrun & W' & T & Er).
  destruct (forgotten_claims c reason p S) as [A Hc].
  exists p'. split; [done |]. split; [| done].
  assert (Ec := tk_core _ _ _ _ T). unfold core in Ec. injection Ec as H1 H2 _ _ _ H3 _.
  split; try done.
  - split; [done |]. by apply (apart_records (forgotten c reason p)).
  - rewrite (claims_records _ _ Er), Hc. unfold is_reserved, retires in Hr.
    destruct (sv_token_by_connection (pl_srv p) !! c); [| done].
    destruct Hr as [-> | []]; done.
Qed.

Lemma remove_used_quiet reason i c p :
  server_ok p -> cl_conns (sv_used (pl_srv p)) !! i = Some c ->
  exists p', remove_unlocked true i reason p = Some (Some c, p') /\ quiet p p' /\
    took true c p p' /\ records p' = records p.
Proof.
  intros S Hi. destruct (remove_used_spec reason i c p (so_pool _ S) Hi)
    as (p' & Hrun & W' & T & Er).
  exists p'. split; [done |]. split; [| done]. apply quiet_core; [done.. | | done].
  by apply (tk_core _ _ _ _ T).
Qed.

Lemma add_used_quiet p c key :
  server_ok p -> (exists o, pl_heap p !! c = Some o) -> ~ in_pool p c ->
  exists p', add_unlocked true c key p = Some ((), p') /\ quiet p p' /\ core p' = core p /\
    records p' = records p /\ free_slots p' = free_slots p /\
    used_slots p' = used_slots p ++ [(c, default no_match_key key)].
Proof.
  intros S [o Ho] Hout.
  destruct (add_used_wf None p c key o (so_pool _ S) Ho Hout) as (p' & H & W' & Ec & Er & Ef & Eu).
  exists p'. split; [done |]. split; [by apply quiet_core | done].
Qed.

Lemma add_free_quiet p c key :
  server_ok p -> (exists o, pl_heap p !! c = Some o) -> ~ in_pool p c ->
  exists p', add_unlocked false c key p = Some ((), p') /\ quiet p p' /\ core p' = core p /\
    records p' = records p /\ used_slots p' = used_slots p /\
    free_slots p' = free_slots p ++ [(c, default no_match_key key)].
Proof.
  intros S [o Ho] Hout.
  destruct (add_free_wf p c key o (so_pool _ S) Ho Hout) as (p' & H & W' & Ec & Er & Ef & Eu).
  exists p'. split; [done |]. split; [by apply quiet_core | done].
Qed.

(** *** Lookups *)

Lemma find_spec u c p :
  server_ok p -> (exists o, pl_heap p !! c = Some o) ->
  find_idx u c p = Some (index_of c (cl_conns (the_list u (pl_srv p))), p).
Proof. intros S [o Ho]. apply (find_idx_run u c p o); [by apply (pw_list None), so_pool | done]. Qed.

Lemma took_length u c p p' :
  server_ok p -> server_ok p' -> took u c p p' ->
  length (cl_conns (the_list u (pl_srv p))) = S (length (cl_conns (the_list u (pl_srv p')))).
Proof.
  intros S S' T. destruct (tk_slots _ _ _ _ T) as [k Hp].
  assert (L := lo_keys _ _ (pw_list _ _ u (so_pool _ S))).
  assert (L' := lo_keys _ _ (pw_list _ _ u (so_pool _ S'))).
  apply Permutation_length in Hp. cbn in Hp. unfold slots_of, slots in Hp.
  rewrite !length_zip in Hp. lia.
Qed.

Lemma slots_conns p u : server_ok p -> (slots_of u p).*1 = cl_conns (the_list u (pl_srv p)).
Proof.
  intros S. apply fst_zip. by rewrite (lo_keys _ _ (pw_list _ _ u (so_pool _ S))).
Qed.

Lemma took_conns u c p p' :
  server_ok p -> server_ok p' -> took u c p p' ->
  cl_conns (the_list u (pl_srv p)) ≡ₚ c :: cl_conns (the_list u (pl_srv p')).
Proof.
  intros S S' T. destruct (tk_slots _ _ _ _ T) as [k Hp].
  rewrite <-!slots_conns by done. by rewrite Hp.
Qed.

(** *** Emptying FREE *)

Lemma detach_loop_spec reason fuel p :
  retires reason -> server_ok p -> length (cl_conns (sv_free (pl_srv p))) = fuel ->
  exists ds p', detach_loop false fuel reason p = Some (ds, p') /\ quiet p p' /\
    core p' = core p /\ cl_conns (sv_free (pl_srv p')) = [] /\ used_slots p' = used_slots p /\
    ds ≡ₚ cl_conns (sv_free (pl_srv p)).
Proof.
  intros Hr. revert p. induction fuel as [|fuel IH]; intros p S Hl.
  - exists [], p. apply nil_length_inv in Hl. rewrite Hl. by split; [| split; [auto |]].
  - cbn [detach_loop]. rewrite (bind_run (read_list false _) _ p _ p eq_refl). cbn [the_list].
    rewrite Hl. cbn [Nat.eqb].
    destruct (cl_conns (sv_free (pl_srv p))) as [|c conns] eqn:Hc; [done |].
    destruct (remove_free_quiet reason 0 c p S) as (p1 & H1 & Q1 & T1); [by rewrite Hc | by left |].
    rewrite (bind_run _ _ _ _ _ H1).
    assert (S1 := qt_ok _ _ Q1). assert (Hlen := took_length _ _ _ _ S S1 T1).
    cbn [the_list] in Hlen. rewrite Hc in Hlen.
    destruct (IH p1 S1) as (ds & p2 & H2 & Q2 & Ec2 & He & Hu & Hp).
    { cbn in Hl, Hlen. lia. }
    rewrite (bind_run _ _ _ _ _ H2). exists (c :: ds), p2. split; [done |].
    split; [by eapply quiet_trans |].
    split; [by rewrite Ec2, (tk_core _ _ _ _ T1) |]. split; [done |]. split.
    + rewrite Hu. exact (tk_other _ _ _ _ T1).
    + rewrite Hp. assert (Hp1 := took_conns _ _ _ _ S S1 T1). cbn [the_list] in Hp1.
      by rewrite <-Hc, Hp1.
Qed.

Lemma count_kept m :
  (size m = size (filter (fun kb => kb.2 <> []) m) + count_empty m)%nat.
Proof.
  unfold count_empty. induction m as [|k b m Hk IH] using map_ind; [done |].
  rewrite map_size_insert_None, !map_filter_insert by done. cbn.
  destruct (decide (b <> [])) as [Hb|Hb], (decide (b = [])) as [Hb'|Hb']; try tauto.
  - rewrite map_size_insert_None, delete_id by (done || apply map_lookup_filter_None; by left). lia.
  - rewrite map_size_insert_None, delete_id by (done || apply map_lookup_filter_None; by left). lia.
Qed.

Lemma prune_index R m e :
  index_ok R m e -> index_ok R (filter (fun kb => kb.2 <> []) m) 0.
Proof.
  intros I. split.
  - intros k b [Hb _]%map_lookup_filter_Some. exact (io_bucket _ _ _ I _ _ Hb).
  - intros c k Hc Hk. destruct (io_found _ _ _ I c k Hc Hk) as [b Hb]. exists b.
    apply map_lookup_filter_Some. split; [done |]. cbn. intros ->.
    destruct (io_bucket _ _ _ I _ _ Hb) as (_ & _ & H). apply (not_elem_of_nil c), H. done.
  - unfold count_empty. assert (H : filter (fun kb : _ * list conn_id => kb.2 = [])
      (filter (fun kb => kb.2 <> []) m) = ∅).
    { apply map_empty. intros k. apply map_lookup_filter_None. right.
      intros b [_ Hb]%map_lookup_filter_Some. done. }
    rewrite H. by rewrite map_size_empty.
Qed.

Lemma prune_spec p :
  server_ok p ->
  exists m, prune_empty_match_buckets_unlocked p = Some ((), reindexed p m 0) /\
    server_ok (reindexed p m 0) /\ quiet p (reindexed p m 0).
Proof.
  intros S. assert (W := so_pool _ S). assert (I := pw_index _ _ W).
  unfold prune_empty_match_buckets_unlocked.
  rewrite (bind_run (whole_list false) _ p _ p eq_refl). cbn [the_list].
  assert (Hq : forall m, index_ok (keyed p None) m 0 -> quiet p (reindexed p m 0)).
  { intros m Im. destruct (reindexed_parts p m 0) as (Eh & Ef & Eu & Efc & Euc & Er & Ec).
    apply quiet_core; [done | | done | done].
    destruct W as [Lf Lu Hd _ Rs Cf Cu Pn Pg]. unfold core in Ec. injection Ec as _ _ _ _ Ep _ Epn.
    assert (Hk : forall d k, keyed (reindexed p m 0) None d k <-> keyed p None d k).
    { intros d k. unfold keyed, free_slots. by rewrite Ef. }
    split; rewrite ?Eh, ?Ef, ?Eu, ?Efc, ?Euc; try done.
    - destruct Lf. by split.
    - apply (index_ext _ _ _ Im). intros d k _. by rewrite Hk.
    - unfold records in Er. injection Er as Er1 Er2 _.
      apply (reservations_ext _ _ _ _ Rs Er1 Er2). intros d t _ H. by apply Hk.
    - by rewrite Ep, Epn. }
  destruct (Z.eqb_spec (cl_empty_buckets (sv_free (pl_srv p))) 0) as [E|E].
  - exists (cl_matching_by_key (sv_free (pl_srv p))). rewrite <-E, reindexed_same.
    split; [done |]. split; [done | auto].
  - set (m := filter (fun kb => kb.2 <> []) (cl_matching_by_key (sv_free (pl_srv p)))).
    exists m. assert (Im := prune_index _ _ _ I). fold m in Im.
    split; [| split; [exact (qt_ok _ _ (Hq m Im)) | by apply Hq]].
    assert (Hc := count_kept (cl_matching_by_key (sv_free (pl_srv p)))). fold m in Hc.
    assert (He := io_empty _ _ _ I).
    rewrite (bind_run (check _) _ p () p).
    + by split_pool p.
    + unfold check. rewrite (proj2 (Z.eqb_eq _ _)); [done | lia].
Qed.

Lemma no_free_no_reservation p :
  server_ok p -> cl_conns (sv_free (pl_srv p)) = [] ->
  sv_reservations (pl_srv p) = ∅ /\ sv_token_by_connection (pl_srv p) = ∅.
Proof.
  intros S He. assert (Hn : sv_token_by_connection (pl_srv p) = ∅).
  { apply map_empty. intros c.
    destruct (sv_token_by_connection (pl_srv p) !! c) as [t|] eqn:Ht; [| done].
    destruct (ro_conn _ _ (pw_reservations _ _ (so_pool _ S)) _ _ Ht) as [_ [H _]].
    apply (slots_conn _ _ _ _ (pw_free _ _ (so_pool _ S))) in H. rewrite He in H.
    by apply not_elem_of_nil in H. }
  split; [| done]. apply map_empty. intros t.
  destruct (sv_reservations (pl_srv p) !! t) as [r|] eqn:Hr; [| done].
  destruct (ro_token _ _ (pw_reservations _ _ (so_pool _ S)) _ _ Hr) as [_ H].
  by rewrite Hn, lookup_empty in H.
Qed.

Lemma retire_none_run reason p :
  sv_reservations (pl_srv p) = ∅ -> sv_token_by_connection (pl_srv p) = ∅ ->
  polardb_retire_reservations_unlocked reason p = Some ((), p).
Proof.
  intros H1 H2. unfold polardb_retire_reservations_unlocked. split_pool p. run_in H1. run_in H2.
  subst. run. by destruct (polardb_reader_pool_reservation_reason_is_retirement reason).
Qed.

(** All FREE connections are detached, their reservations retired. *)
Lemma detach_all_spec reason p :
  retires reason -> server_ok p ->
  exists ds p', detach_all_unlocked false reason p = Some (ds, p') /\ quiet p p' /\
    core p' = core p /\ cl_conns (sv_free (pl_srv p')) = [] /\
    sv_reservations (pl_srv p') = ∅ /\ used_slots p' = used_slots p /\
    ds ≡ₚ cl_conns (sv_free (pl_srv p)).
Proof.
  intros Hr S. unfold detach_all_unlocked.
  rewrite (bind_run (read_list false _) _ p _ p eq_refl). cbn [the_list].
  destruct (detach_loop_spec reason _ p Hr S eq_refl) as (ds & p1 & H1 & Q1 & Ec & He & Hu & Hp).
  rewrite (bind_run _ _ _ _ _ H1).
  destruct (prune_spec p1 (qt_ok _ _ Q1)) as (m & H2 & S2 & Q2).
  destruct (reindexed_parts p1 m 0) as (_ & Ef & Eu & _ & _ & Er & Ec2).
  assert (He2 : cl_conns (sv_free (pl_srv (reindexed p1 m 0))) = []) by (by rewrite Ef).
  destruct (no_free_no_reservation _ S2 He2) as [Hn1 Hn2].
  rewrite (bind_run _ _ p1 () (reindexed p1 m 0)).
  2: { rewrite (bind_run _ _ _ _ _ H2). by apply retire_none_run. }
  exists ds, (reindexed p1 m 0). split; [done |]. split; [by eapply quiet_trans |].
  split; [congruence |]. split; [done |]. split; [done |]. split; [| done].
  unfold used_slots in *. by rewrite Eu.
Qed.

Definition known (p : pool) (c : conn_id) : Prop := exists o, pl_heap p !! c = Some o.

Lemma took_known u c p p' : took u c p p' -> known p' c /\ ~ in_pool p' c.
Proof. intros T. split; [exact (tk_object _ _ _ _ T) | exact (tk_out _ _ _ _ T)]. Qed.

Lemma took_queue u c p p' : took u c p p' -> pl_queue p' = pl_queue p /\
  sv_status (pl_srv p') = sv_status (pl_srv p).
Proof. intros T. assert (E := tk_core _ _ _ _ T). unfold core in E. by injection E. Qed.

Lemma status_test s : {s = SERVER_ONLINE /\ (s != SERVER_ONLINE) = false} +
                      {s <> SERVER_ONLINE /\ (s != SERVER_ONLINE) = true}.
Proof.
  destruct (decide (s = SERVER_ONLINE)) as [->|H]; [left | right]; (split; [done |]).
  - done.
  - by rewrite (proj2 (beq_false _ _) H).
Qed.

(** ** Returning *)

Section Operations.
Context (cx : reader_context).
Implicit Types l : list entry.

(** What an operation of another worker may do to the claims: nothing, or one
    more for the request it took. *)
Inductive effect l (p p' : pool) : option PolarDB_ReaderPoolReservationWake -> Prop :=
| ef_quiet : quiet p p' -> effect l p p' None
| ef_stored c key ex p1 wake :
    quiet p p1 -> stored cx c key ex l p1 p' wake -> effect l p p' wake.

Lemma tokens_free_quiet l p p' : quiet p p' -> tokens_free l p -> tokens_free l p'.
Proof. intros Q F n r H. rewrite (qt_claims _ _ Q). by eapply F. Qed.

Lemma return_spec c key ex l p :
  server_ok p -> known p c -> represents (pl_queue p) l -> tokens_free l p ->
  exists st wake p', return_matching_connection cx c key ex p = Some ((st, wake), p') /\
    effect l p p' wake /\
    match st with
    | Return_NOT_IN_USED_LIST => p' = p /\ c ∉ cl_conns (sv_used (pl_srv p))
    | Return_SERVER_NOT_ONLINE =>
        sv_status (pl_srv p) <> SERVER_ONLINE /\ took true c p p' /\ wake = None
    | Return_STORED =>
        sv_status (pl_srv p) = SERVER_ONLINE /\
        exists p1, took true c p p1 /\ stored cx c key ex l p1 p' wake
    | Return_STORE_FAILED => False
    end.
Proof.
  intros S Hk R F. unfold return_matching_connection.
  rewrite (bind_run _ _ _ _ _ (find_spec true c p S Hk)). cbn [the_list].
  destruct (index_of c (cl_conns (sv_used (pl_srv p)))) as [i|] eqn:Hi.
  2: { apply index_of_None in Hi. eexists _, _, p. split; [done |]. split; [| done].
       by apply ef_quiet, quiet_refl. }
  apply index_of_lookup in Hi.
  destruct (remove_used_quiet End_EXPLICIT_REMOVE i c p S Hi) as (p1 & H1 & Q1 & T1 & _).
  rewrite (bind_run _ _ _ _ _ H1). rewrite (bind_run (server sv_status) _ p1 _ p1 eq_refl).
  destruct (took_queue _ _ _ _ T1) as [Eq Est].
  destruct (status_test (sv_status (pl_srv p1))) as [[Hon ->] | [Hon ->]].
  - destruct (took_known _ _ _ _ T1) as [[o Ho] Hout].
    assert (R1 : represents (pl_queue p1) l) by (by rewrite Eq).
    destruct (store_spec cx c key ex p1 o l (qt_ok _ _ Q1) Ho Hout R1
      (tokens_free_quiet _ _ _ Q1 F) Hon) as (p' & wake & H2 & St).
    rewrite (bind_run _ _ _ _ _ H2). eexists _, _, p'. split; [done |].
    split; [by eapply ef_stored |]. split; [congruence |]. by exists p1.
  - eexists _, _, p1. split; [done |]. split; [by apply ef_quiet |]. split; [congruence | done].
Qed.

Lemma reserve_used_spec c key w l p :
  server_ok p -> known p c -> represents (pl_queue p) l -> tokens_free l p ->
  exists st wake p', reserve_matching_used_connection cx c key w p = Some ((st, wake), p') /\
    server_ok p' /\
    match st with
    | Remote_CONNECTION_INVALID => p' = p /\ wake = None
    | Remote_NO_REMOTE_REQUEST => p' = p /\ wake = None /\ offer cx p key w l = None
    | Remote_CONNECTION_RESERVED =>
        exists r snapshot n, offer cx p key w l = Some (r, snapshot) /\ (n, r) ∈ l /\
          wake = Some (mkWake (cr_worker_index r) (cr_token r) (sv_id (pl_srv p)) snapshot) /\
          represents (pl_queue p') (erased l n) /\
          claims p' = <[cr_token r := cr_worker_index r]> (claims p) /\
          sv_id (pl_srv p') = sv_id (pl_srv p) /\ sv_hid (pl_srv p') = sv_hid (pl_srv p)
    end.
Proof.
  intros S Hk R F. unfold reserve_matching_used_connection.
  destruct (match_key_empty key || (w =? UINT32_MAX)); [by eexists _, _, p |].
  rewrite (bind_run _ _ _ _ _ (find_spec true c p S Hk)). cbn [the_list].
  rewrite (bind_run (server sv_status) _ p _ p eq_refl).
  destruct (index_of c (cl_conns (sv_used (pl_srv p)))) as [i|] eqn:Hi; [| by eexists _, _, p].
  destruct (status_test (sv_status (pl_srv p))) as [[Hon ->] | [Hon ->]]; [| by eexists _, _, p].
  destruct (take_request_run cx key w p l R) as (q' & Htake & Hcase).
  rewrite (bind_run _ _ _ _ _ Htake).
  destruct (offer cx p key w l) as [[r snapshot]|] eqn:Eo.
  2: { subst q'. exists Remote_NO_REMOTE_REQUEST, None, p. split; [by destruct p | done]. }
  destruct Hcase as (n & Hn & R'). apply index_of_lookup in Hi. destruct Hk as [o Ho].
  destruct (with_q_parts q' p) as (Es & Eh & Eq).
  assert (Ho1 : pl_heap (with_q q' p) !! c = Some o) by (by rewrite Eh).
  rewrite (bind_run _ _ _ _ _
    (set_conn_value_run c o (fun v => v <| cn_server_snapshot := None |>) (with_q q' p) Ho1)).
  set (v := pc_conn o <| cn_server_snapshot := None |>).
  destruct (set_conn_value_parts c o v _ Ho1) as (Es1 & Ec1 & _).
  assert (W1 := set_conn_value_wf None c o v _ (with_q_wf None q' p (so_pool _ S)) Ho1).
  assert (Eq1 : pl_queue (set_conn_value c o v (with_q q' p)) = q') by (by destruct p).
  set (p1 := set_conn_value c o v (with_q q' p)) in *.
  assert (Es2 : pl_srv p1 = pl_srv p) by (by rewrite Es1, Es).
  assert (S1 : server_ok p1).
  { split; [done |]. apply (apart_records p); [| apply (so_apart _ S)].
    unfold records. by rewrite Es2. }
  assert (Hi1 : cl_conns (sv_used (pl_srv p1)) !! i = Some c) by (by rewrite Es2).
  destruct (remove_used_quiet End_EXPLICIT_REMOVE i c p1 S1 Hi1) as (p2 & H2 & Q2 & T2 & _).
  rewrite (bind_run _ _ _ _ _ H2).
  destruct (took_known _ _ _ _ T2) as [[o2 Ho2] Hout2].
  assert (Ecl : claims p1 = claims p) by (unfold claims; by rewrite Es2).
  destruct (reserve_spec c r snapshot p2 o2 (qt_ok _ _ Q2) Ho2 Hout2)
    as (p3 & H3 & S3 & Ec3 & _ & _ & Ecl3 & _).
  { rewrite (qt_claims _ _ Q2), Ecl. by eapply F. }
  rewrite (bind_run _ _ _ _ _ H3).
  assert (Eid : sv_id (pl_srv p2) = sv_id (pl_srv p)) by (by rewrite (qt_id _ _ Q2), Es2).
  assert (Ehid : sv_hid (pl_srv p2) = sv_hid (pl_srv p)) by (by rewrite (qt_hid _ _ Q2), Es2).
  eexists _, _, p3. split; [done |]. split; [done |].
  unfold core in Ec3. injection Ec3 as E1 E2 _ _ _ E3 _.
  exists r, snapshot, n. split; [done |]. split; [done |]. split; [by rewrite Eid |].
  split; [by rewrite E3, (qt_queue _ _ Q2), Eq1 |].
  split; [by rewrite Ecl3, (qt_claims _ _ Q2), Ecl |]. by rewrite E1, E2.
Qed.

(** ** Taking a reservation *)

Lemma same_lists_wf x p p' :
  pool_wf x p -> same_lists p p' -> reservations_ok (keyed p x) (pl_srv p') -> pool_wf x p'.
Proof.
  intros [Lf Lu Hd I _ Cf Cu Pn Pg] (Ec & Eh & Ef & Eu & Efc & Euc) Rs.
  unfold core in Ec. injection Ec as _ _ _ _ Ep _ Epn.
  assert (Hk : forall d k, keyed p' x d k <-> keyed p x d k).
  { intros d k. unfold keyed, free_slots. by rewrite Ef. }
  split; rewrite ?Eh, ?Ef, ?Eu, ?Efc, ?Euc; try done.
  - apply (index_ext _ _ _ I). intros d k _. by rewrite Hk.
  - apply (reservations_ext _ _ _ _ Rs); [done | done |]. intros d t _ H. by apply Hk.
  - by rewrite Ep, Epn.
Qed.

Lemma forgotten_wf c reason p : pool_ok p -> pool_ok (forgotten c reason p).
Proof.
  intros W. apply (same_lists_wf None p); [done | apply forgotten_rest |].
  apply (reservations_ext _ _ _ _ (forgotten_ok c reason p (pw_reservations _ _ W))); [done.. |].
  intros d t _ [H _]. by split.
Qed.

Lemma own_reservation_run w t p :
  own_reservation w t p =
  Some (r ← sv_reservations (pl_srv p) !! t;
        if rv_worker_index r =? w then Some r else None, p).
Proof. done. Qed.

Lemma reserved_position p t r :
  server_ok p -> sv_reservations (pl_srv p) !! t = Some r ->
  rv_token r = t /\ sv_token_by_connection (pl_srv p) !! rv_conn r = Some t /\
  (rv_conn r, no_match_key) ∈ free_slots p /\
  exists i, index_of (rv_conn r) (cl_conns (sv_free (pl_srv p))) = Some i /\
            cl_conns (sv_free (pl_srv p)) !! i = Some (rv_conn r) /\ known p (rv_conn r).
Proof.
  intros S Hr. destruct (ro_token _ _ (pw_reservations _ _ (so_pool _ S)) _ _ Hr) as [Ht Hc].
  destruct (ro_conn _ _ (pw_reservations _ _ (so_pool _ S)) _ _ Hc) as [_ [Hs _]].
  split; [done |]. split; [done |]. split; [done |].
  assert (Hin := slots_conn _ _ _ _ (pw_free _ _ (so_pool _ S)) Hs).
  apply list_elem_of_lookup in Hin as [i Hi]. exists i.
  split; [exact (index_of_nodup _ _ _ (lo_nodup _ _ (pw_free _ _ (so_pool _ S))) Hi) |].
  split; [done |]. exact (conn_object None false p i _ (so_pool _ S) Hi).
Qed.

(** The retired record of a token is dropped. *)
Definition cleared (t : Z) (p : pool) : pool :=
  p <| pl_srv := pl_srv p <| sv_retired := delete t (sv_retired (pl_srv p)) |> |>.

Lemma cleared_used t p : used_slots (cleared t p) = used_slots p.
Proof. by split_pool p. Qed.

Lemma cleared_spec t p :
  server_ok p -> sv_reservations (pl_srv p) !! t = None ->
  server_ok (cleared t p) /\ claims (cleared t p) = delete t (claims p) /\
  core (cleared t p) = core p /\ pl_queue (cleared t p) = pl_queue p /\
  sv_free (pl_srv (cleared t p)) = sv_free (pl_srv p) /\
  sv_used (pl_srv (cleared t p)) = sv_used (pl_srv p).
Proof.
  intros [W A] Hr.
  assert (Er : sv_reservations (pl_srv (cleared t p)) = sv_reservations (pl_srv p) /\
               sv_token_by_connection (pl_srv (cleared t p)) = sv_token_by_connection (pl_srv p) /\
               sv_retired (pl_srv (cleared t p)) = delete t (sv_retired (pl_srv p)))
    by (by split_pool p).
  destruct Er as (E1 & E3 & E2). split; [split |].
  - apply (same_lists_wf None p); [done | by split_pool p |].
    by apply (reservations_ext _ _ _ _ (pw_reservations _ _ W)).
  - intros t' r. rewrite E1, E2. intros H. apply lookup_delete_None. right. by eapply A.
  - split; [| by split_pool p]. unfold claims, claims_of. rewrite E1, E2.
    rewrite fmap_delete, delete_union. f_equal. symmetry. apply delete_id.
    by rewrite lookup_fmap, Hr.
Qed.

(** The answer to the holder of a claim on [t]: the reserved connection while the
    server is online, otherwise the reason it went. *)
Definition take_outcome (t : Z) (s : PgSQL_SrvC) : ReaderTakeStatus :=
  match sv_reservations s !! t with
  | Some r => if sv_status s == SERVER_ONLINE then Take_ACQUIRED (rv_conn r)
              else Take_RETIRED End_SERVER_OFFLINE
  | None => match sv_retired s !! t with
            | Some r => Take_RETIRED (rt_reason r)
            | None => Take_MISSING
            end
  end.

(** The connection that goes to USED, with its key. *)
Definition take_slot (t : Z) (s : PgSQL_SrvC) : list (conn_id * PgSQL_PoolMatchKey) :=
  match sv_reservations s !! t with
  | Some r => if sv_status s == SERVER_ONLINE then [(rv_conn r, rv_match_key r)] else []
  | None => []
  end.

(** A claim is always answered: with its connection, or with the reason it went. *)
Lemma take_claim_spec w t l p :
  server_ok p -> represents (pl_queue p) l -> fifo_owned w t l.*2 = false ->
  claims p !! t = Some w ->
  exists p', take_reader_pool_reservation w t p = Some (take_outcome t (pl_srv p), p') /\
    server_ok p' /\ claims p' = delete t (claims p) /\ core p' = core p /\
    used_slots p' = used_slots p ++ take_slot t (pl_srv p).
Proof.
  intros S R Hq Hcl. unfold take_reader_pool_reservation.
  rewrite (bind_run _ _ _ _ _ (own_reservation_run w t p)).
  assert (Hclear : forall p1, server_ok p1 -> pl_queue p1 = pl_queue p ->
            sv_reservations (pl_srv p1) !! t = None ->
            forall r, sv_retired (pl_srv p1) !! t = Some r -> rt_worker_index r = w ->
            take_without_reservation w t p1 = Some (Take_RETIRED (rt_reason r), cleared t p1)).
  { intros p1 S1 Eq Hn r Hr Hw. unfold take_without_reservation.
    rewrite (bind_run (gets _) _ p1 _ p1 eq_refl). rewrite Eq, (has_refines _ _ w t R), Hq.
    rewrite (bind_run (server _) _ p1 _ p1 eq_refl), Hr, Hw, Z.eqb_refl. done. }
  apply claims_lookup in Hcl as [(r & Hr & Hw) | (Hn & r & Hr & Hw)].
  - unfold take_outcome, take_slot.
    rewrite Hr. cbn [mbind option_bind]. rewrite Hw, Z.eqb_refl.
    destruct (reserved_position p t r S Hr) as (Ht & Htok & Hs & i & Hi & Hil & Hk).
    rewrite (bind_run _ _ _ _ _ (find_spec false (rv_conn r) p S Hk)). cbn [the_list].
    rewrite (bind_run (server sv_status) _ p _ p eq_refl). rewrite Hi.
    destruct (status_test (sv_status (pl_srv p))) as [[Hon ->] | [Hon ->]];
      [rewrite Hon; change (SERVER_ONLINE == SERVER_ONLINE) with true |
       rewrite (proj2 (beq_false _ _) Hon)].
    + destruct (remove_free_spec End_ACQUIRED i (rv_conn r) p (so_pool _ S) Hil)
        as (p1 & H1 & W1 & T1 & Er1).
      rewrite (bind_run _ _ _ _ _ H1).
      destruct (forgotten_claims (rv_conn r) End_ACQUIRED p S) as [A Hc]. rewrite Htok in Hc.
      assert (S1 : server_ok p1) by (split; [done | by apply (apart_records _ _ Er1)]).
      destruct (took_known _ _ _ _ T1) as [Hk1 Hout1].
      destruct (add_used_quiet p1 (rv_conn r) (Some (rv_match_key r)) S1 Hk1 Hout1)
        as (p2 & H2 & Q2 & Ec2 & _ & _ & Eu2).
      rewrite (bind_run _ _ _ _ _ H2). exists p2. split; [done |].
      split; [apply (qt_ok _ _ Q2) |].
      split; [by rewrite (qt_claims _ _ Q2), (claims_records _ _ Er1), Hc |].
      split; [by rewrite Ec2, (tk_core _ _ _ _ T1) |].
      rewrite Eu2. f_equal. exact (tk_other _ _ _ _ T1).
    + rewrite (bind_run _ _ _ _ _ (forget_run _ End_SERVER_OFFLINE p)).
      destruct (forgotten_claims (rv_conn r) End_SERVER_OFFLINE p S) as [A Hc].
      rewrite Htok in Hc. assert (Ef := forgotten_records (rv_conn r) End_SERVER_OFFLINE p).
      destruct (forgotten_rest (rv_conn r) End_SERVER_OFFLINE p) as (Ecr & _ & _ & Eu & _).
      assert (W1 := forgotten_wf (rv_conn r) End_SERVER_OFFLINE p (so_pool _ S)).
      set (p1 := forgotten (rv_conn r) End_SERVER_OFFLINE p) in *. clearbody p1.
      rewrite Htok, Hr in Ef. unfold records, emplace in Ef.
      rewrite (so_apart _ S _ _ Hr) in Ef. injection Ef as E1 E2 E3.
      assert (S1 : server_ok p1) by by split.
      assert (Hn1 : sv_reservations (pl_srv p1) !! t = None)
        by (rewrite E1; apply lookup_delete_eq).
      rewrite (Hclear p1 S1) with (r := mkRetired w End_SERVER_OFFLINE); try done.
      * destruct (cleared_spec t p1 S1 Hn1) as (S2 & Ec2 & Ecr2 & _).
        eexists. split; [done |]. split; [done |]. split; [by rewrite Ec2, Hc |].
        split; [congruence |]. rewrite cleared_used, app_nil_r. unfold used_slots. by rewrite Eu.
      * unfold core in Ecr. by injection Ecr.
      * rewrite E3, Hw. apply lookup_insert_eq.
  - unfold take_outcome, take_slot. rewrite Hn, Hr. cbn [mbind option_bind]. rewrite (Hclear p S eq_refl Hn r Hr Hw).
    destruct (cleared_spec t p S Hn) as (S2 & Ec2 & Ecr2 & _).
    eexists. split; [done |]. split; [done |]. split; [done |]. split; [done |].
    by rewrite cleared_used, app_nil_r.
Qed.

(** *** Cancelling *)

Lemma set_conn_value_quiet c o v p :
  server_ok p -> pl_heap p !! c = Some o -> quiet p (set_conn_value c o v p).
Proof.
  intros S Ho. destruct (set_conn_value_parts c o v p Ho) as (Es & Ec & _).
  apply quiet_core; [done | by apply set_conn_value_wf, Ho; apply so_pool | done |].
  unfold records. by rewrite Es.
Qed.

(** The reservation ends and its connection is kept by the caller. *)
Lemma remove_claimed_spec reason t r i p :
  server_ok p -> sv_reservations (pl_srv p) !! t = Some r ->
  sv_token_by_connection (pl_srv p) !! rv_conn r = Some t ->
  cl_conns (sv_free (pl_srv p)) !! i = Some (rv_conn r) ->
  polardb_reader_pool_reservation_reason_is_retirement reason = false ->
  exists p', remove_unlocked false i reason p = Some (Some (rv_conn r), p') /\ server_ok p' /\
    claims p' = delete t (claims p) /\ took false (rv_conn r) p p'.
Proof.
  intros S Hr Htok Hi Hreason.
  destruct (remove_free_spec reason i (rv_conn r) p (so_pool _ S) Hi) as (p' & H & W & T & Er).
  destruct (forgotten_claims (rv_conn r) reason p S) as [A Hc]. rewrite Htok, Hreason in Hc.
  exists p'. split; [done |]. split; [split; [done | by apply (apart_records _ _ Er)] |].
  split; [by rewrite (claims_records _ _ Er) | done].
Qed.

(** What a cancellation by [w] of its token [t] does. *)
Definition cancel_case (w t : Z) l (p p' : pool) (st : ReaderCancelStatus)
    (wake : option PolarDB_ReaderPoolReservationWake) : Prop :=
  if fifo_owned w t l.*2 then
    st = Cancel_REQUEST_CANCELLED /\ wake = None /\
    exists n r, (n, r) ∈ l /\ cr_worker_index r = w /\ cr_token r = t /\
      p' = with_q (pl_queue p') p /\ represents (pl_queue p') (erased l n)
  else if decide (claims p !! t = Some w) then
    (st = Cancel_RETIRED_RECORD_CLEARED \/ st = Cancel_CONNECTION_RETURNED) /\
    exists p1, server_ok p1 /\ claims p1 = delete t (claims p) /\ core p1 = core p /\
      effect l p1 p' wake
  else st = Cancel_MISSING /\ wake = None /\ p' = p.

Lemma cancel_spec w t l p :
  server_ok p -> represents (pl_queue p) l -> tokens_free l p ->
  exists st wake p', cancel_reader_pool_reservation cx w t p = Some ((st, wake), p') /\
    cancel_case w t l p p' st wake.
Proof.
  intros S R F. unfold cancel_reader_pool_reservation, cancel_case.
  destruct (cancel_refines _ _ w t R) as (q' & Hq & Hcase).
  assert (H : with_queue (cancel_reader_pool_capacity_request w t) p =
              Some (fifo_owned w t l.*2, with_q q' p)) by (unfold with_queue; by rewrite Hq).
  rewrite (bind_run _ _ _ _ _ H). clear H Hq.
  destruct (fifo_owned w t l.*2) eqn:Ho.
  { destruct Hcase as (n & r & Hn & Hw & Ht & R'). eexists _, _, _. split; [done |].
    split; [done |]. split; [done |]. exists n, r. destruct (with_q_parts q' p) as (_ & _ & ->).
    done. }
  subst q'. replace (with_q (pl_queue p) p) with p by (by destruct p).
  rewrite (bind_run _ _ _ _ _ (own_reservation_run w t p)).
  destruct (sv_reservations (pl_srv p) !! t) as [r|] eqn:Hr; cbn [mbind option_bind].
  - assert (Hcl : claims p !! t = Some (rv_worker_index r)).
    { apply claims_lookup. left. by exists r. }
    destruct (Z.eqb_spec (rv_worker_index r) w) as [Hw|Hw].
    2: { rewrite (bind_run (server _) _ p _ p eq_refl), (so_apart _ S _ _ Hr).
         destruct (decide (claims p !! t = Some w)); [congruence |].
         by exists Cancel_MISSING, None, p. }
    destruct (decide (claims p !! t = Some w)); [| congruence].
    destruct (reserved_position p t r S Hr) as (Ht & Htok & Hs & i & Hi & Hil & Hk).
    rewrite (bind_run _ _ _ _ _ (find_spec false (rv_conn r) p S Hk)). cbn [the_list].
    rewrite Hi.
    destruct (remove_claimed_spec End_RELEASED t r i p S Hr Htok Hil eq_refl)
      as (p1 & H1 & S1 & Ecl & T).
    rewrite (bind_run _ _ _ _ _ H1), (bind_run (server sv_status) _ p1 _ p1 eq_refl).
    destruct (took_known _ _ _ _ T) as [[o1 Ho1] Hout].
    assert (R1 : represents (pl_queue p1) l) by (by rewrite (proj1 (took_queue _ _ _ _ T))).
    assert (Ec := tk_core _ _ _ _ T).
    destruct (status_test (sv_status (pl_srv p1))) as [[Hon _] | [Hon E]].
    + rewrite (proj2 (beq_true _ _) Hon).
      destruct (store_spec cx (rv_conn r) (rv_match_key r) UINT32_MAX p1 o1 l S1 Ho1 Hout R1)
        as (p2 & wake & H2 & St); [| done |].
      { intros n x Hx. rewrite Ecl. apply lookup_delete_None. right. by eapply F. }
      rewrite (bind_run _ _ _ _ _ H2). eexists _, _, p2. split; [done |].
      split; [by right |]. exists p1. split; [done |]. split; [done |]. split; [done |].
      eapply ef_stored; [by apply quiet_refl | done].
    + rewrite (proj2 (beq_false _ _) Hon).
      rewrite (bind_run _ _ _ _ _ (set_conn_value_run _ o1
        (fun v => v <| cn_server_snapshot := None |>) p1 Ho1)).
      set (v := pc_conn o1 <| cn_server_snapshot := None |>).
      assert (Q2 := set_conn_value_quiet _ _ v _ S1 Ho1).
      destruct (set_conn_value_parts _ _ v _ Ho1) as (Es & _ & o2 & Ho2).
      destruct (add_free_quiet (set_conn_value (rv_conn r) o1 v p1) (rv_conn r)
        (Some (rv_match_key r)) (qt_ok _ _ Q2)) as (p2 & H2 & Q3 & _).
      { by exists o2. }
      { unfold in_pool. by rewrite Es. }
      rewrite (bind_run _ _ _ _ _ H2). eexists _, _, p2. split; [done |].
      split; [by right |]. exists p1. split; [done |]. split; [done |]. split; [done |].
      apply ef_quiet. by eapply quiet_trans.
  - rewrite (bind_run (server _) _ p _ p eq_refl).
    assert (Hcl : claims p !! t = rt_worker_index <$> sv_retired (pl_srv p) !! t).
    { unfold claims, claims_of. rewrite lookup_union, !lookup_fmap, Hr.
      by destruct (sv_retired (pl_srv p) !! t). }
    destruct (sv_retired (pl_srv p) !! t) as [r|] eqn:Hrt.
    2: { destruct (decide (claims p !! t = Some w)); [by rewrite Hcl in * |].
         by exists Cancel_MISSING, None, p. }
    cbn in Hcl. destruct (Z.eqb_spec (rt_worker_index r) w) as [Hw|Hw].
    2: { destruct (decide (claims p !! t = Some w)); [congruence |].
         by exists Cancel_MISSING, None, p. }
    destruct (decide (claims p !! t = Some w)); [| congruence].
    destruct (cleared_spec t p S Hr) as (S1 & Ecl & Ec & _).
    eexists _, _, (cleared t p). split; [done |]. split; [by left |].
    exists (cleared t p). split; [done |]. split; [done |]. split; [done |].
    by apply ef_quiet, quiet_refl.
Qed.

End Operations.
