(* ===== verification/PoolOperations.v ===== *)
(** * The operations of a server's pool

    Every operation of [ServerPool] runs without a failed assertion and keeps
    the pool in order.  Ordinary acquisition, eviction and idle pings do not
    touch a reserved connection; a reserved one is only removed together with a
    record of why. *)

From S2P Require Import Prelude Policy Startup Session Query Topology.
From S2P Require Import ServerList PoolConn Reader ReaderAcquire CapacityQueue ServerPool.
From S2P Require Import PoolSafety Reservations.
From Stdlib Require Import ZArith Ascii String List Bool Lia.
From stdpp Require Import base tactics list gmap strings.

Open Scope Z_scope.
Open Scope polar_scope.

(** ** Operations that leave the reservations alone *)

(** What no operation on the lists changes. *)
Definition frame (p : pool) :=
  (sv_id (pl_srv p), sv_hid (pl_srv p), sv_status (pl_srv p), sv_max_connections (pl_srv p),
   pl_queue p).

Record calm (p p' : pool) : Prop := {
  cm_ok : server_ok p';
  cm_records : records p' = records p;
  cm_frame : frame p' = frame p;
  cm_known c : known p c -> known p' c
}.

Lemma calm_refl p : server_ok p -> calm p p.
Proof. by split. Qed.

Lemma calm_trans p p1 p2 : calm p p1 -> calm p1 p2 -> calm p p2.
Proof. intros [] []. split; try congruence. auto. Qed.

#[local] Hint Resolve calm_refl : core.

Lemma calm_quiet p p' : calm p p' -> quiet p p'.
Proof.
  intros [S Er Ef K]. unfold frame in Ef. injection Ef as H1 H2 _ _ H5.
  split; try done. by apply claims_records.
Qed.

Lemma calm_reserved p p' c : calm p p' -> is_reserved p' c <-> is_reserved p c.
Proof.
  intros C. assert (E := cm_records _ _ C). unfold records in E. injection E as _ E _.
  unfold is_reserved. by rewrite E.
Qed.

Lemma core_frame p p' : core p' = core p -> frame p' = frame p.
Proof. unfold core, frame. intros [=]. congruence. Qed.

Lemma core_known p p' c : core p' = core p -> known p c -> known p' c.
Proof.
  unfold core, pings. intros [= _ _ _ _ _ _ E] [o Ho].
  assert (H : (pc_ping_inflight <$> pl_heap p') !! c = Some (pc_ping_inflight o)).
  { by rewrite E, lookup_fmap, Ho. }
  rewrite lookup_fmap in H. apply fmap_Some in H as (o' & Ho' & _). by exists o'.
Qed.

Lemma calm_core p p' :
  server_ok p -> pool_ok p' -> core p' = core p -> records p' = records p -> calm p p'.
Proof.
  intros [W A] W' Ec Er. split; [| done | by apply core_frame | intros c; by apply core_known].
  split; [done | by apply (apart_records p)].
Qed.

Lemma reserved_dec p c : {is_reserved p c} + {~ is_reserved p c}.
Proof.
  unfold is_reserved. destruct (sv_token_by_connection (pl_srv p) !! c); [by left | right].
  by intros H.
Qed.

Lemma reserved_test p c :
  polardb_connection_reserved_unlocked c (pl_srv p) = true <-> is_reserved p c.
Proof.
  unfold polardb_connection_reserved_unlocked, is_reserved.
  destruct (sv_token_by_connection (pl_srv p) !! c); by split.
Qed.

Lemma unreserved_test p c :
  polardb_connection_reserved_unlocked c (pl_srv p) = false <-> ~ is_reserved p c.
Proof. rewrite <-reserved_test. by rewrite not_true_iff_false. Qed.

Lemma took_in_pool u c p p' d :
  server_ok p -> server_ok p' -> took u c p p' -> in_pool p' d -> in_pool p d.
Proof.
  intros S S' T. assert (Hp := took_conns _ _ _ _ S S' T).
  assert (Ho : cl_conns (the_list (negb u) (pl_srv p')) = cl_conns (the_list (negb u) (pl_srv p))).
  { rewrite <-!slots_conns by done. by rewrite (tk_other _ _ _ _ T). }
  unfold in_pool. destruct u; cbn [the_list negb] in *; rewrite Ho, Hp, !elem_of_cons; tauto.
Qed.

(** *** Taking an unreserved connection out, putting one in *)

Lemma remove_unreserved u reason i c p :
  server_ok p -> cl_conns (the_list u (pl_srv p)) !! i = Some c -> ~ is_reserved p c ->
  exists p', remove_unlocked u i reason p = Some (Some c, p') /\ calm p p' /\ took u c p p'.
Proof.
  intros S Hi Hr. destruct u; cbn [the_list] in Hi.
  - destruct (remove_used_spec reason i c p (so_pool _ S) Hi) as (p' & H & W & T & Er).
    exists p'. split; [done |]. split; [| done]. by apply calm_core; [| | apply (tk_core _ _ _ _ T) |].
  - destruct (remove_free_spec reason i c p (so_pool _ S) Hi) as (p' & H & W & T & Er).
    exists p'. split; [done |]. split; [| done].
    apply calm_core; [done.. | apply (tk_core _ _ _ _ T) |]. rewrite Er, forgotten_records.
    unfold is_reserved in Hr. destruct (sv_token_by_connection (pl_srv p) !! c); [| done].
    by destruct Hr.
Qed.

Lemma used_not_reserved p c :
  server_ok p -> c ∈ cl_conns (sv_used (pl_srv p)) -> ~ is_reserved p c.
Proof.
  intros S Hu Hr. unfold is_reserved in Hr.
  destruct (sv_token_by_connection (pl_srv p) !! c) as [t|] eqn:Ht; [| done].
  destruct (ro_conn _ _ (pw_reservations _ _ (so_pool _ S)) _ _ Ht) as [_ [H _]].
  apply (slots_conn _ _ _ _ (pw_free _ _ (so_pool _ S))) in H.
  exact (pw_disjoint _ _ (so_pool _ S) c H Hu).
Qed.

Lemma out_not_reserved p c : server_ok p -> ~ in_pool p c -> ~ is_reserved p c.
Proof. intros S Hout Hr. apply Hr. by apply not_in_pool_token; [apply so_pool |]. Qed.

Lemma remove_used_calm reason i c p :
  server_ok p -> cl_conns (sv_used (pl_srv p)) !! i = Some c ->
  exists p', remove_unlocked true i reason p = Some (Some c, p') /\ calm p p' /\ took true c p p'.
Proof.
  intros S Hi. apply remove_unreserved; [done.. |].
  apply used_not_reserved; [done |]. by eapply list_elem_of_lookup_2.
Qed.

(** [c] is the last connection of the list [u] now, under [k]. *)
Definition put (u : bool) (c : conn_id) (k : PgSQL_PoolMatchKey) (p p' : pool) : Prop :=
  slots_of u p' = slots_of u p ++ [(c, k)] /\ slots_of (negb u) p' = slots_of (negb u) p.

Lemma add_calm u p c key :
  server_ok p -> known p c -> ~ in_pool p c ->
  exists p', add_unlocked u c key p = Some ((), p') /\ calm p p' /\
    put u c (default no_match_key key) p p' /\ core p' = core p.
Proof.
  intros S [o Ho] Hout. destruct u.
  - destruct (add_used_wf None p c key o (so_pool _ S) Ho Hout) as (p' & H & W & Ec & Er & Ef & Eu).
    exists p'. split; [done |]. split; [by apply calm_core | by split].
  - destruct (add_free_wf p c key o (so_pool _ S) Ho Hout) as (p' & H & W & Ec & Er & Ef & Eu).
    exists p'. split; [done |]. split; [by apply calm_core | by split].
Qed.

Lemma put_conns u c k p p' :
  server_ok p -> server_ok p' -> put u c k p p' ->
  cl_conns (the_list u (pl_srv p')) = cl_conns (the_list u (pl_srv p)) ++ [c].
Proof. intros S S' [H _]. rewrite <-!slots_conns by done. by rewrite H, fmap_app. Qed.

Lemma put_in u c k p p' :
  server_ok p -> server_ok p' -> put u c k p p' -> c ∈ cl_conns (the_list u (pl_srv p')).
Proof.
  intros S S' H. rewrite (put_conns _ _ _ _ _ S S' H). apply elem_of_app. right.
  by apply list_elem_of_singleton.
Qed.

(** Another value in an object that the lists do not look at. *)
Lemma set_conn_value_calm c o v p :
  server_ok p -> pl_heap p !! c = Some o -> calm p (set_conn_value c o v p).
Proof.
  intros S Ho. destruct (set_conn_value_parts c o v p Ho) as (Es & Ec & _).
  apply calm_core; [done | by apply set_conn_value_wf, Ho; apply so_pool | done |].
  unfold records. by rewrite Es.
Qed.

(** ** Acquisition by key *)

Lemma remove_matching_calm key p :
  server_ok p ->
  exists r p', remove_matching_unlocked key p = Some (r, p') /\ calm p p' /\
    match r with
    | Some c => took false c p p' /\ (c, key) ∈ free_slots p /\ ~ is_reserved p c
    | None => p' = p /\ forall c, (c, key) ∈ free_slots p -> match_key_empty key = true
    end.
Proof.
  intros S. destruct (remove_matching_spec key p (so_pool _ S))
    as [(c & p' & H & W & T & Er & Hs & Hk) | [H Hn]].
  - exists (Some c), p'. split; [done |].
    split; [apply calm_core; [done.. | apply (tk_core _ _ _ _ T) | done] |].
    split; [done |]. split; [done |]. intros Hr. apply Hr.
    by apply (keyed_not_reserved p c key); [apply so_pool | |].
  - exists None, p. by split; [| split; [auto |]].
Qed.

(** The connection is one of FREE that nobody reserved, and is in USED now. *)
Definition gained (c : conn_id) (p p' : pool) : Prop :=
  c ∈ cl_conns (sv_free (pl_srv p)) /\ ~ is_reserved p c /\ c ∈ cl_conns (sv_used (pl_srv p')).

Lemma took_from u c p p' :
  server_ok p -> server_ok p' -> took u c p p' -> c ∈ cl_conns (the_list u (pl_srv p)).
Proof. intros S S' T. rewrite (took_conns _ _ _ _ S S' T). by apply list_elem_of_here. Qed.

(** A connection out of FREE that goes to USED. *)
Lemma to_used c key p p1 :
  server_ok p -> ~ is_reserved p c -> calm p p1 -> took false c p p1 ->
  exists p', add_unlocked true c key p1 = Some ((), p') /\ calm p p' /\ gained c p p' /\
    (c, default no_match_key key) ∈ used_slots p' /\ core p' = core p.
Proof.
  intros S Hr C T. assert (S1 := cm_ok _ _ C). destruct (took_known _ _ _ _ T) as [Hk Hout].
  destruct (add_calm true p1 c key S1 Hk Hout) as (p' & H & C' & P & Ec).
  exists p'. split; [done |]. split; [by eapply calm_trans |]. split; [| split].
  - split; [exact (took_from _ _ _ _ S S1 T) |]. split; [done |].
    exact (put_in _ _ _ _ _ S1 (cm_ok _ _ C') P).
  - destruct P as [P _]. unfold slots_of in P. cbn [the_list] in P. unfold used_slots.
    rewrite P. apply elem_of_app. right. by apply list_elem_of_singleton.
  - by rewrite Ec, (tk_core _ _ _ _ T).
Qed.

Lemma take_matching_run key p :
  server_ok p ->
  exists r p', take_matching_connection key p = Some (r, p') /\ calm p p' /\
    match r with
    | Some c => gained c p p' /\ (c, key) ∈ free_slots p /\ (c, key) ∈ used_slots p' /\
                sv_status (pl_srv p) = SERVER_ONLINE
    | None => p' = p /\ (sv_status (pl_srv p) = SERVER_ONLINE -> match_key_empty key = false ->
                         forall c, (c, key) ∉ free_slots p)
    end.
Proof.
  intros S. unfold take_matching_connection.
  rewrite (bind_run (server sv_status) _ p _ p eq_refl).
  destruct (status_test (sv_status (pl_srv p))) as [[Hon ->] | [Hon ->]].
  2: { exists None, p. by split; [| split; [auto |]]. }
  destruct (remove_matching_calm key p S) as ([c|] & p1 & H & C & Hc);
    rewrite (bind_run _ _ _ _ _ H).
  - destruct Hc as (T & Hs & Hr). destruct (to_used c (Some key) p p1 S Hr C T)
      as (p2 & H2 & C2 & G & Hu & _).
    rewrite (bind_run _ _ _ _ _ H2). by exists (Some c), p2.
  - destruct Hc as [-> Hn]. exists None, p. split; [done |]. split; [auto |]. split; [done |].
    intros _ Hk c Hc. rewrite (Hn c Hc) in Hk. done.
Qed.

(** ** Making room *)

(** Connections that left FREE and wait to be deleted. *)
Definition evicted (ds : list conn_id) (p p' : pool) : Prop :=
  Forall (fun c => c ∈ cl_conns (sv_free (pl_srv p)) /\ ~ is_reserved p c /\
                   known p' c /\ ~ in_pool p' c) ds.

Lemma evicted_nil p p' : evicted [] p p'.
Proof. by apply Forall_nil. Qed.

#[local] Hint Resolve evicted_nil : core.

Lemma evicted_cons c ds p p1 p' :
  server_ok p -> calm p p1 -> took false c p p1 -> ~ is_reserved p c ->
  calm p1 p' -> (forall d, in_pool p' d -> in_pool p1 d) -> evicted ds p1 p' ->
  evicted (c :: ds) p p'.
Proof.
  intros S C T Hr C' Hin E. assert (S1 := cm_ok _ _ C).
  destruct (took_known _ _ _ _ T) as [Hk Hout]. apply Forall_cons. split.
  - split; [exact (took_from _ _ _ _ S S1 T) |]. split; [done |].
    split; [by apply (cm_known _ _ C') | auto].
  - eapply Forall_impl; [exact E |]. intros d (Hd & Hdr & Hdk & Hdo).
    assert (Hp := took_conns _ _ _ _ S S1 T). cbn [the_list] in Hp.
    split; [rewrite Hp; by apply list_elem_of_further |].
    split; [by rewrite <-(calm_reserved _ _ _ C) | done].
Qed.

(** The number of connections still to evict is what it was less those evicted;
    the loop stops short only at the end of the list. *)
Lemma evict_loop_run fuel index remaining p :
  server_ok p ->
  exists ds left p', evict_loop fuel index remaining p = Some ((ds, left), p') /\
    calm p p' /\ (length ds + left = remaining)%nat /\ evicted ds p p' /\
    (forall d, in_pool p' d -> in_pool p d) /\ (forall d, known p' d -> known p d).
Proof.
  revert index remaining p. induction fuel as [|fuel IH]; intros index remaining p S.
  { exists [], remaining, p. destruct remaining; (split; [done |]); auto. }
  destruct remaining as [|rest]; [by exists [], 0%nat, p; split; [| auto] |]. cbn [evict_loop].
  rewrite (bind_run (read_list false _) _ p _ p eq_refl). cbn [the_list].
  destruct (cl_conns (sv_free (pl_srv p)) !! index) as [c|] eqn:Hc.
  2: { exists [], (Datatypes.S rest), p. split; [done |]. auto. }
  rewrite (bind_run (server _) _ p _ p eq_refl).
  destruct (polardb_connection_reserved_unlocked c (pl_srv p)) eqn:Hr; [by apply IH |].
  apply unreserved_test in Hr.
  destruct (remove_unreserved false End_CREATE_EVICT index c p S Hc Hr) as (p1 & H1 & C1 & T1).
  rewrite (bind_run _ _ _ _ _ H1). assert (S1 := cm_ok _ _ C1).
  destruct (IH index rest p1 S1) as (ds & left & p2 & H2 & C2 & Hl & E & Hin & Hk).
  rewrite (bind_run _ _ _ _ _ H2). exists (c :: ds), left, p2. split; [done |].
  split; [by eapply calm_trans |]. split; [cbn; lia |].
  split; [by eapply evicted_cons |]. split; intros d Hd.
  - apply (took_in_pool _ _ _ _ _ S S1 T1). auto.
  - apply (core_known p1); [symmetry; apply (tk_core _ _ _ _ T1) | auto].
Qed.

(** What making room leaves, whether it succeeded or not. *)
Record cleared_room (p p' : pool) (ds : list conn_id) : Prop := {
  cr_calm : calm p p';
  cr_evicted : evicted ds p p';
  cr_in d : in_pool p' d -> in_pool p d;
  cr_known d : known p' d -> known p d
}.

Lemma cleared_room_refl p : server_ok p -> cleared_room p p [].
Proof. intros S. by split; [auto | auto | |]. Qed.

#[local] Hint Resolve cleared_room_refl : core.

Lemma evict_run preferred required p :
  server_ok p ->
  exists b ds p', evict_unreserved_free_for_create preferred required p = Some ((b, ds), p') /\
    cleared_room p p' ds.
Proof.
  intros S. unfold evict_unreserved_free_for_create.
  destruct ((preferred =? 0) && (required =? 0)); [exists true, [], p; auto |].
  destruct (preferred <? required); [exists false, [], p; auto |].
  rewrite (bind_run (read_list false _) _ p _ p eq_refl), (bind_run (server _) _ p _ p eq_refl).
  cbn [the_list]. destruct (_ <? required); [exists false, [], p; auto |].
  match goal with |- context [evict_loop ?f ?i ?r] =>
    destruct (evict_loop_run f i r p S) as (ds & left & p' & H & C & _ & E & Hin & Hk) end.
  rewrite (bind_run _ _ _ _ _ H). by exists (left =? 0)%nat, ds, p'.
Qed.

(** There is room for one connection more. *)
Definition has_room (p : pool) : Prop :=
  pool_active (pl_srv p) < wrap32 (sv_max_connections (pl_srv p)) /\
  pool_total (pl_srv p) < wrap32 (sv_max_connections (pl_srv p)).

Lemma make_room_run preferred p :
  server_ok p ->
  exists b ds p', polardb_make_room_for_classic_connection_unlocked preferred p =
      Some ((b, ds), p') /\ cleared_room p p' ds /\ (b = true -> has_room p').
Proof.
  intros S. unfold polardb_make_room_for_classic_connection_unlocked.
  rewrite (bind_run (server _) _ p _ p eq_refl).
  destruct (_ <=? 0); [by exists false, [], p; split; [| split; [auto |]] |].
  destruct (_ <=? pool_active _); [by exists false, [], p; split; [| split; [auto |]] |].
  match goal with |- context [evict_unreserved_free_for_create ?a ?b] =>
    destruct (evict_run a b p S) as (made & ds & p' & H & C) end.
  rewrite (bind_run _ _ _ _ _ H). destruct made; cbn [negb].
  2: { by exists false, ds, p'. }
  rewrite (bind_run (server _) _ p' _ p' eq_refl).
  eexists _, ds, p'. split; [done |]. split; [done |].
  assert (E := cm_frame _ _ (cr_calm _ _ _ C)). unfold frame in E. injection E as _ _ _ Em _.
  intros [H1%Z.ltb_lt H2%Z.ltb_lt]%andb_prop. unfold has_room. by rewrite Em.
Qed.

(** *** Creating a connection *)

(** An object at a new address. *)
Definition fresh_object (o : pool_conn) : pool_conn :=
  o <| pc_position := UINT32_MAX |> <| pc_trim_pending := false |>
    <| pc_exact := false |> <| pc_ping_inflight := false |>.

Lemma not_known p c : pl_heap p !! c = None -> ~ known p c.
Proof. intros H [o Ho]. congruence. Qed.

Lemma in_pool_known p c : server_ok p -> in_pool p c -> known p c.
Proof.
  intros S [(i & Hi)%list_elem_of_lookup | (i & Hi)%list_elem_of_lookup].
  - exact (conn_object None false p i c (so_pool _ S) Hi).
  - exact (conn_object None true p i c (so_pool _ S) Hi).
Qed.

Lemma new_object_wf c o p :
  pool_ok p -> pl_heap p !! c = None -> ~ in_pool p c ->
  pool_ok (p <| pl_heap := <[c := fresh_object o]> (pl_heap p) |>).
Proof.
  intros [Lf Lu Hd I Rs Cf Cu Pn Pg] Hc Hout. unfold in_pool in Hout. split_pool p.
  run_in Hc. run_in Lf. run_in Lu. run_in Hout. run. split; run; try done.
  - apply list_ok_other; [done | tauto].
  - apply list_ok_other; [done | tauto].
  - intros d o' [[_ <-] | [_ Ho]]%lookup_insert_Some; [by destruct o | by apply (Pn d)].
  - etransitivity; [exact Pg |]. unfold pings. cbn [pl_heap]. rewrite fmap_insert.
    rewrite map_filter_insert_False by (by destruct o).
    rewrite delete_id; [done |]. by rewrite lookup_fmap, Hc.
Qed.

Lemma create_run gs p :
  server_ok p -> pl_heap p !! (gt_new gs).1 = None ->
  exists p', pgsql_create_backend_connection_unlocked gs p = Some ((gt_new gs).1, p') /\
    calm p p' /\ known p' (gt_new gs).1 /\ ~ in_pool p' (gt_new gs).1 /\
    pl_srv p' = pl_srv p /\ forall d, known p' d -> d = (gt_new gs).1 \/ known p d.
Proof.
  intros S Hc. unfold pgsql_create_backend_connection_unlocked.
  destruct (gt_new gs) as [c o]. cbn [fst] in *. rewrite Hc.
  assert (Hout : ~ in_pool p c).
  { intros H. exact (not_known _ _ Hc (in_pool_known _ _ S H)). }
  fold (fresh_object o). set (p' := p <| pl_heap := _ |>). exists p'. split; [done |].
  assert (Es : pl_srv p' = pl_srv p) by (by destruct p).
  assert (Eh : pl_heap p' = <[c := fresh_object o]> (pl_heap p)) by (by destruct p).
  split; [split |].
  - split; [by apply new_object_wf; [apply so_pool | |] |].
    intros t r. rewrite Es. by apply so_apart.
  - unfold records. by rewrite Es.
  - unfold frame. rewrite Es. by destruct p.
  - intros d [od Hd]. exists od. rewrite Eh, lookup_insert_ne; [done | congruence].
  - split; [exists (fresh_object o); rewrite Eh; apply lookup_insert_eq |].
    unfold in_pool. rewrite Es. split; [done |]. split; [done |].
    intros d [od Hd]. rewrite Eh in Hd. apply lookup_insert_Some in Hd as [[<- _] | [_ Hd]];
      [by left | right; by exists od].
Qed.

Lemma evicted_later ds p p1 p' :
  evicted ds p p1 -> calm p1 p' -> pl_srv p' = pl_srv p1 -> evicted ds p p'.
Proof.
  intros E C Es. eapply Forall_impl; [exact E |]. intros d (? & ? & ? & Hout).
  split; [done |]. split; [done |]. split; [by apply (cm_known _ _ C) |].
  unfold in_pool in *. by rewrite Es.
Qed.

(** The connection created is new, and there was room for it. *)
Lemma create_with_room_run gs preferred p :
  server_ok p -> pl_heap p !! (gt_new gs).1 = None ->
  exists r ds p', create_with_room gs preferred p = Some ((r, ds), p') /\ calm p p' /\
    evicted ds p p' /\ (forall d, known p' d -> d = (gt_new gs).1 \/ known p d) /\
    match r with
    | Some c => c = (gt_new gs).1 /\ known p' c /\ ~ in_pool p' c /\ has_room p'
    | None => True
    end.
Proof.
  intros S Hc. unfold create_with_room.
  destruct (make_room_run preferred p S) as (b & ds & p1 & H1 & C1 & Hroom).
  rewrite (bind_run _ _ _ _ _ H1). destruct b; cbn [negb].
  2: { exists None, ds, p1. split; [done |]. split; [apply C1 |]. split; [apply C1 |].
       split; [| done]. intros d Hd. right. by apply (cr_known _ _ _ C1). }
  assert (Hc1 : pl_heap p1 !! (gt_new gs).1 = None).
  { destruct (pl_heap p1 !! _) as [o|] eqn:Ho; [| done].
    destruct (cr_known _ _ _ C1 (gt_new gs).1) as [o' Ho']; [by exists o | congruence]. }
  destruct (create_run gs p1 (cm_ok _ _ (cr_calm _ _ _ C1)) Hc1) as (p2 & H2 & C2 & Hk & Hout & Es & Hold).
  rewrite (bind_run _ _ _ _ _ H2). exists (Some (gt_new gs).1), ds, p2. split; [done |].
  split; [eapply calm_trans; [apply C1 | done] |].
  split; [by apply (evicted_later _ _ _ _ (cr_evicted _ _ _ C1)) |].
  split; [intros d [-> | Hd]%Hold; [by left | right; by apply (cr_known _ _ _ C1)] |].
  split; [done |]. split; [done |]. split; [done |]. unfold has_room in *. rewrite Es. auto.
Qed.

(** ** The compatibility search *)

Section Search.
Context (pton4 : string -> option Z) (pton6 : string -> option (list Z)).
Context (gs : get_settings).

(** The search has found nothing yet, or an unreserved connection of FREE. *)
Definition found_ok (p : pool) (b : search) : Prop :=
  se_quality b = 0 \/
  exists c, cl_conns (sv_free (pl_srv p)) !! se_idx b = Some c /\ ~ is_reserved p c /\
            1 <= se_quality b <= 3.

Lemma inner_search_ok client_conn profile client p l b :
  Forall (fun kc => cl_conns (sv_free (pl_srv p)) !! kc.1 = Some kc.2) l ->
  found_ok p b ->
  found_ok p (get_random_MyConn_inner_search client_conn profile client
    (negb (bool_decide (sv_token_by_connection (pl_srv p) = ∅))) gs (pl_srv p) (pl_heap p) l b).
Proof.
  revert b. induction l as [|[k c] l IH]; intros b Hl Hb; [done |].
  apply Forall_cons in Hl as [Hk Hl]. cbn [fst snd] in Hk. cbn [get_random_MyConn_inner_search].
  destruct (pl_heap p !! c) as [o|]; [| by apply IH].
  destruct (search_skips _ _ _ _ _ _ _) eqn:Hskip; [by apply IH |].
  destruct (same_options _ _); [| by apply IH].
  assert (Hr : ~ is_reserved p c).
  { unfold search_skips in Hskip. apply orb_false_iff in Hskip as [Hskip _].
    apply andb_false_iff in Hskip as [Hn | Hn]; [| by apply unreserved_test].
    apply negb_false_iff, bool_decide_eq_true in Hn. unfold is_reserved. rewrite Hn.
    rewrite lookup_empty. tauto. }
  assert (Hnew : forall q m, 1 <= q <= 3 -> found_ok p (mkSearch k q m)).
  { intros q m Hq. right. exists c. by cbn. }
  set (b1 := if se_quality b =? 0 then mkSearch k 1 (se_matching b) else b).
  assert (Hb1 : found_ok p b1 /\ 1 <= se_quality b1 <= 3).
  { unfold b1. destruct (Z.eqb_spec (se_quality b) 0) as [E|E].
    - split; [apply Hnew |]; cbn; lia.
    - destruct Hb as [| (d & Hd)]; [done |]. split; [right; by exists d | naive_solver]. }
  clearbody b1. destruct (requires_RESETTING_CONNECTION _ _); [apply IH; [done | apply Hb1] |].
  set (b2 := if se_quality b1 =? 1 then mkSearch k 2 (se_matching b1) else b1).
  assert (Hb2 : found_ok p b2 /\ 1 <= se_quality b2 <= 3).
  { unfold b2. destruct (se_quality b1 =? 1); [split; [apply Hnew |]; cbn; lia | done]. }
  clearbody b2. destruct (number_of_matching_session_variables _ _) as [cnt not_match].
  destruct (not_match =? 0); [apply Hnew; lia |].
  destruct (se_matching b2 <? cnt); apply IH; try done; [| apply Hb2].
  apply Hnew, Hb2.
Qed.

Lemma search_pool_ok sess client_conn i p : found_ok p (search_pool pton4 pton6 gs sess client_conn i p).
Proof.
  unfold search_pool.
  assert (Hin : Forall (fun kc => cl_conns (sv_free (pl_srv p)) !! kc.1 = Some kc.2)
                  (imap pair (cl_conns (sv_free (pl_srv p))))).
  { apply Forall_lookup. intros j [k c] H. rewrite list_lookup_imap in H.
    apply fmap_Some in H as (d & Hd & [= <- <-]). done. }
  set (l := imap pair _) in *.
  assert (H0 : found_ok p (mkSearch 0 0 0)) by (by left).
  assert (H1 := inner_search_ok client_conn (search_startup_profile gs)
    (search_startup_client pton4 pton6 gs sess) p (drop i l) _ (Forall_drop _ i l Hin) H0).
  cbv zeta. destruct (_ =? 3); [done |].
  by apply inner_search_ok; [apply Forall_take |].
Qed.

End Search.

(** ** Acquisition by compatibility *)

Section Acquire.
Context (pton4 : string -> option Z) (pton6 : string -> option (list Z)).
Context (gs : get_settings).

(** The session with its client connection, when the search can run for it. *)
Definition session_client (sess : option pool_session) : option (pool_session * PgSQL_Connection) :=
  sess ≫= (fun x => _ ← ps_stream x; c ← ps_client x; _ ← cn_userinfo c; Some (x, c)).

(** The outcome of an acquisition: the connection is in no list; unless the
    session has no client, no reserved connection was touched. *)
Record drawn (sess : option pool_session) (p p' : pool) (r : option conn_id) : Prop := {
  dr_quiet : quiet p p';
  dr_status : sv_status (pl_srv p') = sv_status (pl_srv p);
  dr_calm : session_client sess <> None -> calm p p';
  dr_conn c : r = Some c ->
    known p' c /\ ~ in_pool p' c /\ (session_client sess <> None -> ~ is_reserved p c)
}.

Lemma frame_status p p' : frame p' = frame p -> sv_status (pl_srv p') = sv_status (pl_srv p).
Proof. unfold frame. intros [=]. congruence. Qed.

Lemma drawn_calm sess p p' r :
  calm p p' -> (forall c, r = Some c -> known p' c /\ ~ in_pool p' c /\ ~ is_reserved p c) ->
  drawn sess p p' r.
Proof.
  intros C H. split; [by apply calm_quiet | by apply frame_status, C | done |].
  intros c E. destruct (H c E) as (? & ? & ?). auto.
Qed.

Lemma drawn_none sess p : server_ok p -> drawn sess p p None.
Proof. intros S. by apply drawn_calm; [auto |]. Qed.

#[local] Hint Resolve drawn_none : core.

Lemma drawn_found sess i c p :
  server_ok p -> cl_conns (sv_free (pl_srv p)) !! i = Some c -> ~ is_reserved p c ->
  exists p', (c ← remove_unlocked false i End_EXPLICIT_REMOVE; mret (c, @nil conn_id)) p =
      Some ((Some c, []), p') /\ drawn sess p p' (Some c).
Proof.
  intros S Hi Hr.
  destruct (remove_unreserved false End_EXPLICIT_REMOVE i c p S Hi Hr) as (p' & H & C & T).
  rewrite (bind_run _ _ _ _ _ H). exists p'. split; [done |].
  apply drawn_calm; [done |]. intros d [= <-]. destruct (took_known _ _ _ _ T). done.
Qed.

Lemma drawn_created sess preferred p :
  server_ok p -> pl_heap p !! (gt_new gs).1 = None ->
  exists r ds p', create_with_room gs preferred p = Some ((r, ds), p') /\ drawn sess p p' r.
Proof.
  intros S Hnew. destruct (create_with_room_run gs preferred p S Hnew)
    as (r & ds & p' & H & C & _ & _ & Hr).
  exists r, ds, p'. split; [done |]. apply drawn_calm; [done |]. intros c ->.
  destruct Hr as (-> & Hk & Hout & _). split; [done |]. split; [done |].
  apply out_not_reserved; [done |]. intros Hin.
  exact (not_known _ _ Hnew (in_pool_known _ _ S Hin)).
Qed.

(** Without a client the connection at the random position goes, reserved or not. *)
Lemma drawn_blind sess i c p :
  session_client sess = None -> server_ok p -> cl_conns (sv_free (pl_srv p)) !! i = Some c ->
  exists p', (c ← remove_unlocked false i End_EXPLICIT_REMOVE; mret (c, @nil conn_id)) p =
      Some ((Some c, []), p') /\ drawn sess p p' (Some c).
Proof.
  intros Hsess S Hi. destruct (remove_free_quiet End_EXPLICIT_REMOVE i c p S Hi) as (p' & H & Q & T).
  { by left. }
  rewrite (bind_run _ _ _ _ _ H). exists p'. split; [done |].
  split; [done | by apply (took_queue _ _ _ _ T) | done |].
  intros d [= <-]. destruct (took_known _ _ _ _ T). done.
Qed.

Lemma get_random_run sess ff only_pooled exact_only p :
  server_ok p -> pl_heap p !! (gt_new gs).1 = None ->
  exists r ds p', get_random_MyConn_unlocked pton4 pton6 gs sess ff only_pooled exact_only p =
      Some ((r, ds), p') /\ drawn sess p p' r.
Proof.
  intros S Hnew. unfold get_random_MyConn_unlocked. fold (session_client sess).
  rewrite (bind_run (server _) _ p _ p eq_refl). cbv zeta.
  assert (Hnone : forall A : Prop, A -> exists r ds p',
            Some ((@None conn_id, @nil conn_id), p) = Some ((r, ds), p') /\ drawn sess p p' r).
  { intros A _. exists None, [], p. split; [done | by apply drawn_none]. }
  destruct (only_pooled && _); [by apply (Hnone True) |].
  destruct (length (cl_conns (sv_free (pl_srv p))) =? 0)%nat eqn:Hl.
  { cbn [negb andb]. destruct only_pooled; [by apply (Hnone True) |].
    destruct (gt_throttled gs); [by apply (Hnone True) | by apply drawn_created]. }
  cbn [negb andb]. destruct (negb ff && negb (needs_warming gs (pl_srv p))).
  2: { destruct only_pooled; [by apply (Hnone True) |].
       destruct (gt_throttled gs); [by apply (Hnone True) | by apply drawn_created]. }
  apply Nat.eqb_neq in Hl.
  set (i := Z.to_nat (gt_rand gs mod Z.of_nat (length (cl_conns (sv_free (pl_srv p)))))).
  destruct (session_client sess) as [[x client_conn]|] eqn:Hsess.
  2: { destruct (lookup_lt_is_Some_2 (cl_conns (sv_free (pl_srv p))) i) as [c Hc].
       { unfold i. assert (H := Z.mod_pos_bound (gt_rand gs)
           (Z.of_nat (length (cl_conns (sv_free (pl_srv p)))))). lia. }
       destruct (drawn_blind sess i c p Hsess S Hc) as (p' & H & D). by exists (Some c), [], p'. }
  rewrite (bind_run (gets _) _ p _ p eq_refl).
  assert (Hb := search_pool_ok pton4 pton6 gs x client_conn i p).
  set (b := search_pool pton4 pton6 gs x client_conn i p) in *. clearbody b i.
  assert (Hfound : se_quality b <> 0 -> exists r ds p',
            (c ← remove_unlocked false (se_idx b) End_EXPLICIT_REMOVE; mret (c, @nil conn_id)) p =
            Some ((r, ds), p') /\ drawn sess p p' r).
  { intros Hq. destruct Hb as [| (c & Hc & Hr & _)]; [done |].
    destruct (drawn_found sess _ c p S Hc Hr) as (p' & H & D). by exists (Some c), [], p'. }
  destruct exact_only.
  { destruct (Z.eqb_spec (se_quality b) 3); [apply Hfound; lia | by apply (Hnone True)]. }
  destruct (Z.eqb_spec (se_quality b) 0).
  { destruct only_pooled; [by apply (Hnone True) | by apply drawn_created]. }
  destruct (Z.eqb_spec (se_quality b) 1); [| by apply Hfound].
  destruct only_pooled; [by apply Hfound |].
  destruct (dc_create_new_connection _); [by apply drawn_created | by apply Hfound].
Qed.

(** *** For a request *)

(** The connection, if any, is in USED now; a session with a client gets one
    that was in FREE and that nobody reserved, and touches no reservation. *)
Record given (sess : option pool_session) (p p' : pool) (r : option conn_id) : Prop := {
  gv_quiet : quiet p p';
  gv_calm : session_client sess <> None -> calm p p';
  gv_conn c : r = Some c -> c ∈ cl_conns (sv_used (pl_srv p')) /\
    (session_client sess <> None -> ~ is_reserved p c)
}.

Lemma given_none sess p : server_ok p -> given sess p p None.
Proof. by split; [apply quiet_refl | auto |]. Qed.

Lemma given_used sess c p p1 :
  server_ok p -> drawn sess p p1 (Some c) ->
  exists p', add_unlocked true c None p1 = Some ((), p') /\ given sess p p' (Some c).
Proof.
  intros S [Q Est C Hc]. destruct (Hc c eq_refl) as (Hk & Hout & Hr).
  destruct (add_calm true p1 c None (qt_ok _ _ Q) Hk Hout) as (p' & H & C' & P & _).
  exists p'. split; [done |]. split.
  - eapply quiet_trans; [done | by apply calm_quiet].
  - intros Hs. eapply calm_trans; [by apply C | done].
  - intros d [= <-]. split; [| done]. exact (put_in _ _ _ _ _ (qt_ok _ _ Q) (cm_ok _ _ C') P).
Qed.

Lemma take_reusable_run sess key mode p :
  server_ok p -> pl_heap p !! (gt_new gs).1 = None ->
  exists r source p', take_reusable_connection_unlocked pton4 pton6 gs sess key mode p =
      Some ((r, source), p') /\ given sess p p' r.
Proof.
  intros S Hnew. unfold take_reusable_connection_unlocked.
  assert (Hexact : exists r p1,
    (if md_exact_match mode then remove_matching_unlocked key else mret None) p = Some (r, p1) /\
    match r with Some c => drawn sess p p1 (Some c) | None => p1 = p end).
  { destruct (md_exact_match mode); [| by exists None, p].
    destruct (remove_matching_calm key p S) as (r & p1 & H & C & Hr). exists r, p1.
    split; [done |]. destruct r as [c|]; [| by destruct Hr as [-> _]].
    destruct Hr as (T & _ & Hr). apply drawn_calm; [done |]. intros d [= <-].
    destruct (took_known _ _ _ _ T). done. }
  destruct Hexact as ([c|] & p1 & H & Hr); rewrite (bind_run _ _ _ _ _ H).
  - destruct (given_used sess c p p1 S Hr) as (p2 & H2 & G).
    rewrite (bind_run _ _ _ _ _ H2). by exists (Some c), Source_EXACT_MATCH, p2.
  - subst p1. destruct (md_reset mode).
    2: { exists None, Source_NONE, p. split; [done | by apply given_none]. }
    destruct (get_random_run sess false true false p S Hnew) as (r & ds & p2 & H2 & D).
    rewrite (bind_run _ _ _ _ _ H2). destruct r as [c|].
    + destruct (given_used sess c p p2 S D) as (p3 & H3 & G).
      rewrite (bind_run _ _ _ _ _ H3). by exists (Some c), Source_RESET, p3.
    + exists None, Source_NONE, p2. split; [done |]. destruct D. by split.
Qed.

Lemma take_existing_run sess key mode max_connections locked p :
  server_ok p -> pl_heap p !! (gt_new gs).1 = None ->
  exists g p', take_existing_connection pton4 pton6 gs sess key mode max_connections locked p =
      Some (g, p') /\ given sess p p' (pg_conn g).
Proof.
  intros S Hnew. unfold take_existing_connection.
  destruct (md_skip_busy mode && locked).
  { eexists _, p. split; [done | by apply given_none]. }
  rewrite (bind_run (server sv_status) _ p _ p eq_refl).
  destruct (status_test (sv_status (pl_srv p))) as [[Hon ->] | [Hon ->]].
  2: { eexists _, p. split; [done | by apply given_none]. }
  destruct (take_reusable_run sess key mode p S Hnew) as (r & source & p' & H & G).
  rewrite (bind_run _ _ _ _ _ H), (bind_run (server _) _ p' _ p' eq_refl). cbv zeta.
  eexists _, p'. split; [done |]. exact G.
Qed.

End Acquire.

(** ** Idle pings and trims *)

Definition in_flight (m : gmap conn_id bool) : nat := size (filter (fun cb => cb.2 = true) m).

Lemma in_flight_on m c : m !! c = Some false -> in_flight (<[c := true]> m) = S (in_flight m).
Proof.
  intros H. unfold in_flight. rewrite map_filter_insert_True by done.
  apply map_size_insert_None, map_lookup_filter_None. right. intros b Hb. cbn. congruence.
Qed.

Lemma in_flight_off m c : m !! c = Some true -> in_flight m = S (in_flight (<[c := false]> m)).
Proof.
  intros H. rewrite <-(in_flight_on (<[c := false]> m) c) by apply lookup_insert_eq.
  by rewrite insert_insert_eq, insert_id.
Qed.

(** The object of [c] with its ping flag, and the count of pings. *)
Definition flagged (c : conn_id) (o : pool_conn) (b : bool) (n : Z) (p : pool) : pool :=
  p <| pl_heap := <[c := o <| pc_ping_inflight := b |>]> (pl_heap p) |>
    <| pl_srv := pl_srv p <| sv_idle_ping_count := n |> |>.

Lemma flagged_calm c o b n p :
  server_ok p -> pl_heap p !! c = Some o -> n = Z.of_nat (in_flight (<[c := b]> (pings p))) ->
  calm p (flagged c o b n p).
Proof.
  intros [W A] Ho Hn. set (p' := flagged c o b n p).
  assert (E : pl_heap p' = <[c := o <| pc_ping_inflight := b |>]> (pl_heap p) /\
              sv_free (pl_srv p') = sv_free (pl_srv p) /\
              sv_used (pl_srv p') = sv_used (pl_srv p) /\
              sv_free_count (pl_srv p') = sv_free_count (pl_srv p) /\
              sv_used_count (pl_srv p') = sv_used_count (pl_srv p) /\
              records p' = records p /\ frame p' = frame p /\ sv_idle_ping_count (pl_srv p') = n)
    by (unfold p'; by split_pool p).
  destruct E as (Eh & Ef & Eu & Efc & Euc & Er & Efr & En).
  assert (Hf : forall A (f : pool_conn -> A) d,
            (forall o b, f (o <| pc_ping_inflight := b |>) = f o) ->
            f <$> pl_heap p' !! d = f <$> pl_heap p !! d).
  { intros B f d Hfo. rewrite Eh, lookup_insert. case_decide; [subst; rewrite Ho; cbn; by rewrite Hfo | done]. }
  split; [split; [| by apply (apart_records p)] | done | done |].
  - destruct W as [Lf Lu Hd I Rs Cf Cu Pn Pg].
    assert (Hk : forall d k, keyed p' None d k <-> keyed p None d k).
    { intros d k. unfold keyed, free_slots. by rewrite Ef. }
    unfold records in Er. injection Er as E1 E2 _.
    split; rewrite ?Ef, ?Eu, ?Efc, ?Euc; try done.
    + apply (list_ok_heap (pl_heap p)); [done |]. intros d _. apply Hf. by intros [].
    + apply (list_ok_heap (pl_heap p)); [done |]. intros d _. apply Hf. by intros [].
    + apply (index_ext _ _ _ I). intros d k _. by rewrite Hk.
    + apply (reservations_ext _ _ _ _ Rs); [done | done |]. intros d t _ H. by apply Hk.
    + intros d od Hdo Ht. assert (H := Hf _ pc_trim_pending d ltac:(by intros [])).
      rewrite Hdo in H. destruct (pl_heap p !! d) as [od'|] eqn:Hd'; [| done].
      cbn in H. injection H as H. apply (Pn d od' Hd'). congruence.
    + rewrite En, Hn. unfold pings. rewrite Eh, fmap_insert. unfold in_flight. by destruct o.
  - intros d [od Hd]. unfold known. rewrite Eh, lookup_insert.
    case_decide; eauto.
Qed.

Lemma find_match_key_run u c p :
  server_ok p -> known p c ->
  exists key, find_match_key_unlocked u c p = Some (key, p).
Proof.
  intros S Hk. unfold find_match_key_unlocked.
  rewrite (bind_run (whole_list u) _ p _ p eq_refl).
  assert (E : check (keys_match_conns (the_list u (pl_srv p))) p = Some ((), p)).
  { unfold check, keys_match_conns. by rewrite (lo_keys _ _ (pw_list _ _ u (so_pool _ S))), Nat.eqb_refl. }
  rewrite (bind_run _ _ _ _ _ E), (bind_run _ _ _ _ _ (find_spec u c p S Hk)). by eexists.
Qed.

Lemma deref_run {A} (f : pool_conn -> A) c o p :
  pl_heap p !! c = Some o -> deref f c p = Some (f o, p).
Proof. intros H. unfold deref. by rewrite H. Qed.

(** A reserved connection is not pinged. *)
Lemma ping_run c max_last_time_used p :
  server_ok p -> known p c -> Z.of_nat (size (pl_heap p)) < U32_MODULUS ->
  exists r p', take_free_connection_for_ping c max_last_time_used p = Some (r, p') /\ calm p p' /\
    match r with
    | Some d => d = c /\ gained c p p'
    | None => p' = p
    end.
Proof.
  intros S [o Ho] Hsize. unfold take_free_connection_for_ping.
  assert (Hnone : exists r p', Some (@None conn_id, p) = Some (r, p') /\ calm p p' /\
    match r with Some d => d = c /\ gained c p p' | None => p' = p end).
  { exists None, p. auto. }
  rewrite (bind_run (server sv_status) _ p _ p eq_refl).
  destruct (status_test (sv_status (pl_srv p))) as [[Hon ->] | [Hon ->]]; [| done].
  rewrite (bind_run _ _ _ _ _ (ensure_run _ false _ (so_pool _ S))).
  rewrite (bind_run _ _ _ _ _ (find_spec false c p S (ex_intro _ o Ho))). cbn [the_list].
  rewrite (bind_run (server _) _ p _ p eq_refl), (bind_run _ _ _ _ _ (deref_run _ _ _ _ Ho)).
  destruct (index_of c (cl_conns (sv_free (pl_srv p)))) as [i|] eqn:Hi; [| done].
  apply index_of_lookup in Hi.
  destruct (polardb_connection_reserved_unlocked c (pl_srv p)) eqn:Hr;
    rewrite ?orb_true_r, ?orb_false_r; [done |].
  destruct (_ || _); [done |]. apply unreserved_test in Hr.
  destruct (find_match_key_run false c p S (ex_intro _ o Ho)) as (key & Hkey).
  rewrite (bind_run _ _ _ _ _ Hkey).
  destruct (remove_unreserved false End_ACQUIRED i c p S Hi Hr) as (p1 & H1 & C1 & T1).
  rewrite (bind_run _ _ _ _ _ H1).
  destruct (to_used c key p p1 S Hr C1 T1) as (p2 & H2 & C2 & G & _ & Ec2).
  rewrite (bind_run _ _ _ _ _ H2). assert (S2 := cm_ok _ _ C2).
  destruct (cm_known _ _ C2 c (ex_intro _ o Ho)) as [o2 Ho2].
  rewrite (bind_run _ _ _ _ _ (deref_run _ _ _ _ Ho2)).
  destruct (pc_ping_inflight o2) eqn:Hf.
  { rewrite (bind_run _ _ p2 () p2 eq_refl). by exists (Some c), p2. }
  assert (Hp2 : pings p2 !! c = Some false).
  { unfold pings. rewrite lookup_fmap, Ho2. cbn. congruence. }
  assert (Hon2 := in_flight_on _ _ Hp2).
  assert (Hle : (in_flight (<[c := true]> (pings p2)) <= size (pl_heap p))%nat).
  { transitivity (size (<[c := true]> (pings p2))); [by apply map_subseteq_size, map_filter_subseteq |].
    rewrite map_size_insert_Some by eauto. unfold core in Ec2. injection Ec2 as _ _ _ _ _ _ E.
    rewrite E. unfold pings. by rewrite map_size_fmap. }
  assert (Hc2 : sv_idle_ping_count (pl_srv p2) = Z.of_nat (in_flight (pings p2))).
  { apply (pw_pings _ _ (so_pool _ S2)). }
  exists (Some c), (flagged c o2 true (wrap32 (sv_idle_ping_count (pl_srv p2) + 1)) p2).
  split; [unfold mbind, PM_bind, with_conn; rewrite Ho2; by split_pool p2 |].
  split; [| split; [done |]].
  - eapply calm_trans; [exact C2 |]. apply flagged_calm; [done.. |].
    rewrite Hc2, Hon2, wrap32_id; [lia |]. unfold is_u32. lia.
  - destruct G as (? & ? & ?). split; [done |]. split; [done |]. by split_pool p2.
Qed.

(** Ending a ping; the assertion on the count holds. *)
Lemma finish_ping_run c p :
  server_ok p -> known p c ->
  exists b p', polardb_finish_idle_ping c p = Some (b, p') /\ calm p p' /\
    pings p' !! c = Some false /\ sv_free (pl_srv p') = sv_free (pl_srv p) /\
    sv_used (pl_srv p') = sv_used (pl_srv p) /\ forall d, known p' d -> known p d.
Proof.
  intros S [o Ho]. unfold polardb_finish_idle_ping.
  rewrite (bind_run _ _ _ _ _ (deref_run pc_ping_inflight _ _ _ Ho)).
  assert (Hp : pings p !! c = Some (pc_ping_inflight o)).
  { unfold pings. by rewrite lookup_fmap, Ho. }
  destruct (pc_ping_inflight o) eqn:Hf; cbn [negb]; [| by exists false, p; auto 10].
  assert (Hoff := in_flight_off _ _ Hp).
  assert (Hc : sv_idle_ping_count (pl_srv p) = Z.of_nat (in_flight (pings p))).
  { apply (pw_pings _ _ (so_pool _ S)). }
  exists true, (flagged c o false (sv_idle_ping_count (pl_srv p) - 1) p).
  split.
  - unfold with_conn. unfold mbind at 1, PM_bind. rewrite Ho.
    assert (Hz : (sv_idle_ping_count (pl_srv p) =? 0) = false) by (apply Z.eqb_neq; lia).
    clear - Hz. split_pool p. run_in Hz. run. by rewrite Hz.
  - split; [apply flagged_calm; [done.. | lia] |].
    unfold pings. replace (pl_heap (flagged c o false _ p)) with
      (<[c := o <| pc_ping_inflight := false |>]> (pl_heap p)) by (by destruct p).
    rewrite lookup_fmap, lookup_insert_eq. split; [by destruct o |].
    split; [by split_pool p |]. split; [by split_pool p |]. intros d [od Hd].
    replace (pl_heap (flagged c o false _ p)) with
      (<[c := o <| pc_ping_inflight := false |>]> (pl_heap p)) in Hd by (by destruct p).
    apply lookup_insert_Some in Hd as [[<- _] | [_ Hd]]; [by exists o | by exists od].
Qed.

(** *** Trims *)

Definition set_pending (c : conn_id) (o : pool_conn) (b : bool) (p : pool) : pool :=
  p <| pl_heap := <[c := o <| pc_trim_pending := b |>]> (pl_heap p) |>.

Lemma set_pending_calm c o b p :
  server_ok p -> pl_heap p !! c = Some o ->
  (b = true -> c ∈ cl_conns (sv_free (pl_srv p))) ->
  calm p (set_pending c o b p) /\ pl_srv (set_pending c o b p) = pl_srv p.
Proof.
  intros [W A] Ho Hb. set (p' := set_pending c o b p).
  assert (Es : pl_srv p' = pl_srv p) by (by destruct p).
  assert (Eh : pl_heap p' = <[c := o <| pc_trim_pending := b |>]> (pl_heap p)) by (by destruct p).
  assert (Hk : forall d k, keyed p' None d k <-> keyed p None d k).
  { intros d k. unfold keyed, free_slots. by rewrite Es. }
  assert (Hpos : forall d, pc_position <$> pl_heap p' !! d = pc_position <$> pl_heap p !! d).
  { intros d. rewrite Eh, lookup_insert. case_decide; [subst; rewrite Ho; by destruct o | done]. }
  assert (Ep : pings p' = pings p).
  { unfold pings. rewrite Eh. apply (pings_insert _ c o); [done | by destruct o]. }
  split; [| done]. apply calm_core; [by split | | | unfold records; by rewrite Es].
  - destruct W as [Lf Lu Hd I Rs Cf Cu Pn Pg]. split; rewrite ?Es; try done.
    + by apply (list_ok_heap (pl_heap p)).
    + by apply (list_ok_heap (pl_heap p)).
    + apply (index_ext _ _ _ I). intros d k _. by rewrite Hk.
    + apply (reservations_ext _ _ _ _ Rs); [done | done |]. intros d t _ H. by apply Hk.
    + intros d od. rewrite Eh. intros [[<- <-] | [_ Hdo]]%lookup_insert_Some; [| by apply Pn].
      intros H. apply Hb. by destruct o.
    + by rewrite Ep.
  - unfold core. rewrite Ep, Es. by destruct p.
Qed.

Lemma trim_loop_run fuel index max_free p :
  server_ok p ->
  exists ds p', trim_loop fuel index max_free p = Some (ds, p') /\ quiet p p'.
Proof.
  revert index p. induction fuel as [|fuel IH]; intros index p S.
  { exists [], p. split; [done | by apply quiet_refl]. }
  cbn [trim_loop]. rewrite (bind_run (read_list false _) _ p _ p eq_refl). cbn [the_list].
  destruct (_ <=? max_free); [exists [], p; split; [done | by apply quiet_refl] |].
  destruct (cl_conns (sv_free (pl_srv p)) !! index) as [c|] eqn:Hc.
  2: { exists [], p. split; [done | by apply quiet_refl]. }
  destruct (conn_object None false p index c (so_pool _ S) Hc) as [o Ho].
  rewrite (bind_run _ _ _ _ _ (deref_run _ _ _ _ Ho)).
  destruct (pc_trim_pending o); cbn [negb]; [| by apply IH].
  destruct (remove_free_quiet End_IDLE_TRIM index c p S Hc) as (p1 & H1 & Q1 & _); [by left |].
  rewrite (bind_run _ _ _ _ _ H1).
  destruct (IH index p1 (qt_ok _ _ Q1)) as (ds & p2 & H2 & Q2).
  rewrite (bind_run _ _ _ _ _ H2). eexists _, p2. split; [done |]. by eapply quiet_trans.
Qed.

(** FREE is the same list in a state with other marks. *)
Definition remarked (p p' : pool) : Prop := calm p p' /\ pl_srv p' = pl_srv p.

Lemma remarked_refl p : server_ok p -> remarked p p.
Proof. by split; [apply calm_refl |]. Qed.

Lemma remarked_trans p p1 p2 : remarked p p1 -> remarked p1 p2 -> remarked p p2.
Proof. intros [C E] [C' E']. split; [by eapply calm_trans | congruence]. Qed.

Lemma retain_loop_run conns p :
  server_ok p -> Forall (known p) conns ->
  exists n p', retain_loop conns p = Some (n, p') /\ remarked p p'.
Proof.
  revert p. induction conns as [|c conns IH]; intros p S Hk.
  { exists 0, p. split; [done | by apply remarked_refl]. }
  apply Forall_cons in Hk as [[o Ho] Hk]. cbn [retain_loop].
  rewrite (bind_run _ _ _ _ _ (finish_idle_trim_run _ _ _ Ho)).
  fold (set_pending c o false p).
  destruct (set_pending_calm c o false p S Ho) as [C1 E1]; [done |].
  destruct (IH (set_pending c o false p) (cm_ok _ _ C1)) as (n & p2 & H2 & R2).
  { eapply Forall_impl; [exact Hk | apply (cm_known _ _ C1)]. }
  rewrite (bind_run _ _ _ _ _ H2). eexists _, p2. split; [done |].
  by eapply remarked_trans; [split |].
Qed.

Lemma defer_loop_run conns excess p :
  server_ok p -> Forall (fun c => c ∈ cl_conns (sv_free (pl_srv p))) conns ->
  exists n p', defer_loop conns excess p = Some (n, p') /\ remarked p p'.
Proof.
  revert excess p. induction conns as [|c conns IH]; intros excess p S Hk.
  { exists 0, p. split; [done | by apply remarked_refl]. }
  apply Forall_cons in Hk as [Hc Hk]. cbn [defer_loop].
  destruct (excess <=? 0); [exists 0, p; split; [done | by apply remarked_refl] |].
  destruct (in_pool_known p c S (or_introl Hc)) as [o Ho].
  rewrite (bind_run _ _ _ _ _ (deref_run _ _ _ _ Ho)).
  destruct (pc_trim_pending o); [by apply IH |].
  destruct (set_pending_calm c o true p S Ho (fun _ => Hc)) as [C1 E1].
  assert (H1 : with_conn (fun o => o <| pc_trim_pending := true |>) c p =
               Some ((), set_pending c o true p)) by (unfold with_conn; by rewrite Ho).
  rewrite (bind_run _ _ _ _ _ H1).
  destruct (IH (excess - 1) (set_pending c o true p) (cm_ok _ _ C1)) as (n & p2 & H2 & R2).
  { by rewrite E1. }
  rewrite (bind_run _ _ _ _ _ H2). eexists _, p2. split; [done |].
  by eapply remarked_trans; [split |].
Qed.

Lemma trim_run max_free p :
  server_ok p ->
  exists r p', polardb_trim_free_connections_to_max_unlocked max_free p = Some (r, p') /\ quiet p p'.
Proof.
  intros S. unfold polardb_trim_free_connections_to_max_unlocked.
  rewrite (bind_run (read_list false _) _ p _ p eq_refl). cbn [the_list].
  destruct (trim_loop_run (length (cl_conns (sv_free (pl_srv p)))) 0 max_free p S)
    as (ds & p1 & H1 & Q1).
  rewrite (bind_run _ _ _ _ _ H1), (bind_run (read_list false _) _ p1 _ p1 eq_refl).
  cbn [the_list]. cbv zeta. assert (S1 := qt_ok _ _ Q1).
  set (conns := cl_conns (sv_free (pl_srv p1))).
  assert (Hkept : exists n p2, (if Z.of_nat (length conns) <=? max_free then retain_loop conns
                                else mret 0) p1 = Some (n, p2) /\ remarked p1 p2).
  { destruct (_ <=? max_free); [| exists 0, p1; split; [done | by apply remarked_refl]].
    apply retain_loop_run; [done |]. apply Forall_forall. intros c Hc.
    apply in_pool_known; [done | by left]. }
  destruct Hkept as (n & p2 & H2 & C2 & E2). rewrite (bind_run _ _ _ _ _ H2).
  match goal with |- context [defer_loop conns ?excess] =>
    destruct (defer_loop_run conns excess p2 (cm_ok _ _ C2)) as (m & p3 & H3 & C3 & E3) end.
  { rewrite E2. by apply Forall_forall. }
  rewrite (bind_run _ _ _ _ _ H3). eexists _, p3. split; [done |].
  eapply quiet_trans; [done |]. eapply quiet_trans; by apply calm_quiet.
Qed.

(** ** Status and the generic return *)

Lemma set_status_field_ok status p :
  server_ok p ->
  server_ok (p <| pl_srv := pl_srv p <| sv_status := status |> |>) /\
  claims (p <| pl_srv := pl_srv p <| sv_status := status |> |>) = claims p.
Proof.
  intros [[Lf Lu Hd I Rs Cf Cu Pn Pg] A]. split; [split |].
  - split_pool p. run. split; try done. by apply (reservations_ext _ _ _ _ Rs).
  - by split_pool p.
  - by split_pool p.
Qed.

(** A server that goes offline for good keeps a record for every reservation. *)
Lemma set_status_run status p :
  server_ok p ->
  exists ds p', set_status status p = Some (ds, p') /\ quiet p p' /\ sv_status (pl_srv p') = status /\
    (status = SERVER_OFFLINE_HARD ->
     cl_conns (sv_free (pl_srv p')) = [] /\ sv_reservations (pl_srv p') = ∅ /\
     ds ≡ₚ cl_conns (sv_free (pl_srv p))).
Proof.
  intros S. unfold set_status. destruct (set_status_field_ok status p S) as [S1 Ec].
  set (p1 := p <| pl_srv := pl_srv p <| sv_status := status |> |>) in *.
  rewrite (bind_run (with_server _) _ p () p1 eq_refl).
  assert (Q1 : quiet p p1) by (split; [done | done | by split_pool p..]).
  assert (Est : sv_status (pl_srv p1) = status) by (by split_pool p).
  assert (Ef : sv_free (pl_srv p1) = sv_free (pl_srv p)) by (by split_pool p).
  destruct (decide (status = SERVER_OFFLINE_HARD)) as [E|E].
  - rewrite (proj2 (beq_true _ _) E).
    destruct (detach_all_spec End_SERVER_OFFLINE p1 eq_refl S1)
      as (ds & p2 & H2 & Q2 & Ec2 & He & Hn & _ & Hp).
    exists ds, p2. split; [done |]. split; [by eapply quiet_trans |].
    split; [unfold core in Ec2; injection Ec2; congruence |]. intros _. by rewrite Ef in Hp.
  - rewrite (proj2 (beq_false _ _) E). exists [], p1. done.
Qed.

Lemma clear_snapshot_run c o p :
  server_ok p -> pl_heap p !! c = Some o ->
  exists p', with_conn (fun o => o <| pc_conn := pc_conn o <| cn_server_snapshot := None |> |>) c p =
      Some ((), p') /\ calm p p' /\ pl_srv p' = pl_srv p.
Proof.
  intros S Ho. set (v := pc_conn o <| cn_server_snapshot := None |>).
  exists (set_conn_value c o v p). split; [by apply (set_conn_value_run c o) |].
  split; [by apply set_conn_value_calm | by destruct p].
Qed.

(** A USED connection that is returned without a key: it is FREE now, or out of
    the pool for its caller. *)
Lemma push_generic_run c limits p :
  server_ok p -> known p c ->
  exists r p', push_generic c limits p = Some (r, p') /\ calm p p' /\
    match r with
    | Push_FREE => (c, no_match_key) ∈ free_slots p' /\ sv_status (pl_srv p) = SERVER_ONLINE
    | Push_DELETED => c ∉ cl_conns (sv_used (pl_srv p'))
    | Push_LOOSE => limits = None /\ ~ in_pool p' c
    end.
Proof.
  intros S Hk. unfold push_generic. destruct Hk as [o Ho].
  destruct (clear_snapshot_run c o p S Ho) as (p1 & H1 & C1 & E1).
  rewrite (bind_run _ _ _ _ _ H1). assert (S1 := cm_ok _ _ C1).
  assert (Hk1 : known p1 c) by (apply (cm_known _ _ C1); by exists o).
  rewrite (bind_run _ _ _ _ _ (find_spec true c p1 S1 Hk1)). cbn [the_list].
  destruct (index_of c (cl_conns (sv_used (pl_srv p1)))) as [i|] eqn:Hi.
  2: { exists Push_DELETED, p1. split; [done |]. split; [done |]. by apply index_of_None. }
  apply index_of_lookup in Hi.
  destruct (remove_used_calm End_EXPLICIT_REMOVE i c p1 S1 Hi) as (p2 & H2 & C2 & T).
  rewrite (bind_run _ _ _ _ _ H2). assert (S2 := cm_ok _ _ C2).
  assert (C : calm p p2) by (by eapply calm_trans).
  destruct (took_known _ _ _ _ T) as [[o2 Ho2] Hout].
  rewrite (bind_run (server sv_status) _ p2 _ p2 eq_refl).
  rewrite (bind_run _ _ _ _ _ (deref_run _ _ _ _ Ho2)).
  assert (Hdel : exists r p', Some (Push_DELETED, p2) = Some (r, p') /\ calm p p' /\
    match r with
    | Push_FREE => (c, no_match_key) ∈ free_slots p' /\ sv_status (pl_srv p) = SERVER_ONLINE
    | Push_DELETED => c ∉ cl_conns (sv_used (pl_srv p'))
    | Push_LOOSE => limits = None /\ ~ in_pool p' c
    end).
  { exists Push_DELETED, p2. split; [done |]. split; [done |]. unfold in_pool in Hout. tauto. }
  destruct limits as [lim|]; [| by exists Push_LOOSE, p2].
  destruct (_ <? cn_largest_query_length _); [done |].
  destruct (sv_status (pl_srv p2) == SERVER_ONLINE) eqn:Hon; cbn [andb]; [| done].
  destruct (cn_idle (pc_conn o2)); [| done].
  destruct (_ <? cn_num_backend_stmts _); [done |].
  destruct (add_calm false p2 c None S2 (ex_intro _ o2 Ho2) Hout) as (p3 & H3 & C3 & [P _] & _).
  rewrite (bind_run _ _ _ _ _ H3). exists Push_FREE, p3. split; [done |].
  split; [by eapply calm_trans |]. split.
  - unfold slots_of in P. cbn [the_list] in P. unfold free_slots. rewrite P.
    apply elem_of_app. right. by apply list_elem_of_singleton.
  - apply (proj1 (beq_true _ _)) in Hon. by rewrite <-(frame_status _ _ (cm_frame _ _ C)).
Qed.

Lemma remove_used_connection_run c p :
  server_ok p -> known p c ->
  exists b p', remove_used_connection c p = Some (b, p') /\ calm p p' /\
    c ∉ cl_conns (sv_used (pl_srv p')) /\
    cl_conns (sv_free (pl_srv p')) = cl_conns (sv_free (pl_srv p)).
Proof.
  intros S Hk. unfold remove_used_connection.
  rewrite (bind_run _ _ _ _ _ (find_spec true c p S Hk)). cbn [the_list].
  destruct (index_of c (cl_conns (sv_used (pl_srv p)))) as [i|] eqn:Hi.
  2: { exists false, p. split; [done |]. split; [by apply calm_refl |].
       split; [by apply index_of_None | done]. }
  apply index_of_lookup in Hi.
  destruct (remove_used_calm End_EXPLICIT_REMOVE i c p S Hi) as (p1 & H1 & C1 & T).
  rewrite (bind_run _ _ _ _ _ H1). exists true, p1. split; [done |]. split; [done |].
  assert (Hout := tk_out _ _ _ _ T). unfold in_pool in Hout. split; [tauto |].
  assert (E := tk_other _ _ _ _ T). apply (f_equal (fmap fst)) in E.
  by rewrite !slots_conns in E by (done || apply C1).
Qed.

Lemma remove_free_connection_run c p :
  server_ok p -> known p c ->
  exists b p', remove_free_connection c p = Some (b, p') /\ quiet p p' /\
    c ∉ cl_conns (sv_free (pl_srv p')).
Proof.
  intros S Hk. unfold remove_free_connection.
  rewrite (bind_run _ _ _ _ _ (find_spec false c p S Hk)). cbn [the_list].
  destruct (index_of c (cl_conns (sv_free (pl_srv p)))) as [i|] eqn:Hi.
  2: { exists false, p. split; [done |]. split; [by apply quiet_refl |]. by apply index_of_None. }
  apply index_of_lookup in Hi.
  destruct (remove_free_quiet End_EXPLICIT_REMOVE i c p S Hi) as (p1 & H1 & Q1 & T); [by left |].
  rewrite (bind_run _ _ _ _ _ H1). exists true, p1. split; [done |]. split; [done |].
  assert (Hout := tk_out _ _ _ _ T). unfold in_pool in Hout. tauto.
Qed.

Lemma used_key_run c p :
  server_ok p -> known p c -> exists key, used_connection_match_key c p = Some (key, p).
Proof.
  intros S Hk. unfold used_connection_match_key.
  rewrite (bind_run _ _ _ _ _ (ensure_run _ true _ (so_pool _ S))). by apply find_match_key_run.
Qed.

Lemma matching_count_run key p :
  server_ok p -> match_key_empty key = false ->
  exists n, matching_connection_count key p = Some (n, p) /\
    n = Z.of_nat (length (filter (fun s => s.2 = key) (free_slots p))).
Proof.
  intros S Hkey. unfold matching_connection_count.
  rewrite (bind_run _ _ _ _ _ (ensure_run _ false _ (so_pool _ S))).
  eexists. split; [done |]. cbn [the_list]. f_equal.
  set (m := cl_matching_by_key (sv_free (pl_srv p))).
  assert (I := pw_index _ _ (so_pool _ S)). fold m in I.
  assert (Hnd : NoDup (filter (fun s => s.2 = key) (free_slots p)).*1).
  { apply (sublist_NoDup _ (free_slots p).*1).
    - change (free_slots p) with (slots_of false p). rewrite slots_conns by done.
      apply (lo_nodup _ _ (pw_free _ _ (so_pool _ S))).
    - apply fmap_sublist, sublist_filter. }
  rewrite <-(length_fmap fst (filter _ _)). apply Permutation_length.
  assert (Hmem : forall c, c ∈ (filter (fun s => s.2 = key) (free_slots p)).*1 <->
                   keyed p None c key).
  { intros c. rewrite list_elem_of_fmap. split.
    - intros ([d k] & -> & [Hd Hin]%list_elem_of_filter). cbn in *. subst. by split.
    - intros [Hin _]. exists (c, key). split; [done |]. by apply list_elem_of_filter. }
  destruct (m !! key) as [b|] eqn:Hb; cbn.
  - destruct (io_bucket _ _ _ I _ _ Hb) as (_ & Hn & Hin).
    apply NoDup_Permutation; [done.. |]. intros c. by rewrite Hin, Hmem.
  - destruct (filter (fun s => s.2 = key) (free_slots p)).*1 as [|c l'] eqn:E; [done |].
    destruct (io_found _ _ _ I c key) as [b Hb']; [| done | congruence].
    apply Hmem. apply list_elem_of_here.
Qed.

(** The connections in the lists are objects, each in one place. *)
Lemma pool_size p : server_ok p ->
  (length (cl_conns (sv_free (pl_srv p))) + length (cl_conns (sv_used (pl_srv p))) <=
   size (pl_heap p))%nat.
Proof.
  intros S. assert (W := so_pool _ S). rewrite <-length_app, <-(size_dom (D := gset conn_id)).
  apply submseteq_length, NoDup_submseteq.
  - apply NoDup_app. split; [apply (lo_nodup _ _ (pw_free _ _ W)) |].
    split; [| apply (lo_nodup _ _ (pw_used _ _ W))]. intros c H H'. exact (pw_disjoint _ _ W c H H').
  - intros c Hc%elem_of_app. apply elem_of_elements, elem_of_dom.
    destruct (in_pool_known p c S Hc) as [o Ho]. by exists o.
Qed.

(** ** Deleting a connection *)

Lemma in_flight_delete m c : m !! c = Some false -> in_flight (delete c m) = in_flight m.
Proof.
  intros H. unfold in_flight. rewrite map_filter_delete. f_equal. apply delete_id.
  apply map_lookup_filter_None. right. intros b Hb. cbn. congruence.
Qed.

Lemma delete_object_wf c p :
  pool_ok p -> ~ in_pool p c -> pings p !! c = Some false ->
  pool_ok (p <| pl_heap := delete c (pl_heap p) |>).
Proof.
  intros [Lf Lu Hd I Rs Cf Cu Pn Pg] Hout Hp. unfold in_pool in Hout. split_pool p.
  run_in Lf. run_in Lu. run_in Hout. run_in Hp. run. split; run; try done.
  - apply (list_ok_heap heap); [done |]. intros d Hin.
    rewrite lookup_delete_ne; [done | intros ->; tauto].
  - apply (list_ok_heap heap); [done |]. intros d Hin.
    rewrite lookup_delete_ne; [done | intros ->; tauto].
  - intros d o [_ Ho]%lookup_delete_Some. by apply (Pn d).
  - etransitivity; [exact Pg |]. unfold pings. cbn [pl_heap]. rewrite fmap_delete. f_equal.
    symmetry. by apply (in_flight_delete (pc_ping_inflight <$> heap)).
Qed.

(** The same connections in both lists. *)
Definition same_conns (p p' : pool) : Prop :=
  sv_free (pl_srv p') = sv_free (pl_srv p) /\ sv_used (pl_srv p') = sv_used (pl_srv p).

(** An object in no list goes. *)
Lemma delete_run c p :
  server_ok p -> known p c -> ~ in_pool p c ->
  exists p', delete_connection c p = Some ((), p') /\ quiet p p' /\ records p' = records p /\
    pl_heap p' !! c = None /\ same_conns p p' /\
    forall d, known p' d <-> d <> c /\ known p d.
Proof.
  intros S Hk Hout. unfold delete_connection.
  destruct (finish_ping_run c p S Hk) as (b & p1 & H1 & C1 & Hp & Ef & Eu & Hback).
  rewrite (bind_run _ _ _ _ _ H1). set (p2 := p1 <| pl_heap := delete c (pl_heap p1) |>).
  assert (S1 := cm_ok _ _ C1). assert (Es : pl_srv p2 = pl_srv p1) by (by destruct p1).
  assert (Hout1 : ~ in_pool p1 c) by (unfold in_pool in *; by rewrite Ef, Eu).
  assert (Eh : pl_heap p2 = delete c (pl_heap p1)) by (by destruct p1).
  exists p2. split; [done |]. split_and!.
  - eapply quiet_trans; [by apply calm_quiet |]. split.
    + split; [by apply delete_object_wf; [apply S1 | |] | rewrite Es; apply S1].
    + unfold claims. by rewrite Es.
    + by destruct p1.
    + by rewrite Es.
    + by rewrite Es.
  - unfold records. rewrite Es. exact (cm_records _ _ C1).
  - rewrite Eh. apply lookup_delete_eq.
  - unfold same_conns. by rewrite Es.
  - intros d. unfold known. rewrite Eh. split.
    + intros [o [Hd Ho]%lookup_delete_Some]. split; [done | apply Hback; by exists o].
    + intros [Hd [o Ho]%(cm_known _ _ C1)]. exists o. by rewrite lookup_delete_ne.
Qed.

Lemma destroy_run c p :
  server_ok p -> known p c -> c ∉ cl_conns (sv_free (pl_srv p)) ->
  exists p', destroy_MyConn_from_pool c p = Some ((), p') /\ quiet p p' /\
    records p' = records p /\ pl_heap p' !! c = None.
Proof.
  intros S Hk Hf. unfold destroy_MyConn_from_pool.
  destruct (finish_ping_run c p S Hk) as (b & p1 & H1 & C1 & _ & Ef1 & _).
  rewrite (bind_run _ _ _ _ _ H1).
  destruct (remove_used_connection_run c p1 (cm_ok _ _ C1) (cm_known _ _ C1 _ Hk))
    as (b' & p2 & H2 & C2 & Hu & Ef2).
  rewrite (bind_run _ _ _ _ _ H2).
  assert (C : calm p p2) by (by eapply calm_trans).
  destruct (delete_run c p2 (cm_ok _ _ C) (cm_known _ _ C _ Hk)) as (p3 & H3 & Q3 & Er & Hc & _).
  { unfold in_pool. rewrite Ef2, Ef1. tauto. }
  exists p3. split; [done |]. split; [eapply quiet_trans; [by apply calm_quiet | done] |].
  split; [| done]. by rewrite Er, (cm_records _ _ C).
Qed.
