(* ===== verification/SelectedServer.v ===== *)
(** * A connection from the server a request selected

    [get_connection_from_selected_server]: reuse under the pool lock, then, with
    the hostgroup manager locked, a second look at everything that allows a new
    connection, the throttle of its hostgroup, and creation within the limit of
    the server. *)

From S2P Require Import Prelude Policy Startup Session Query Topology.
From S2P Require Import ServerList PoolConn Reader ReaderAcquire CapacityQueue ServerPool.
From S2P Require Import PoolSafety Reservations PoolOperations.
From Stdlib Require Import ZArith Ascii String List Bool Lia.
From stdpp Require Import base tactics list gmap strings.

Open Scope Z_scope.
Open Scope polar_scope.

(** ** The throttle of a hostgroup *)

(** The connections asked for in the current second. *)
Record creation_counter := mkCounter {
  ct_current_time_now : Z;            (** in seconds *)
  ct_new_connections_now : Z
}.

(** The limits: the attributes of the hostgroup, when configured, come before
    the worker's setting, an int. *)
Record throttle_limits := mkThrottleLimits {
  tl_configured : bool;
  tl_throttle_connections_per_sec : Z;
  tl_connections_per_sec_to_hostgroup : Z
}.

Definition connections_per_sec (tl : throttle_limits) : Z :=
  if tl_configured tl then tl_throttle_connections_per_sec tl
  else wrap32 (tl_connections_per_sec_to_hostgroup tl).

Definition should_throttle_connection_creation
    (new_connections_now throttle_connections_per_sec : Z) : bool :=
  throttle_connections_per_sec <? new_connections_now.

(** The second of a reading of the clock. *)
Definition second_of (now_us : Z) : Z := now_us / 1000 / 1000.

Definition pgsql_connection_creation_throttled_unlocked (tl : throttle_limits) (now_us : Z)
    (ct : creation_counter) : bool * creation_counter :=
  let curtime := second_of now_us in
  let ct := if ct_current_time_now ct <? curtime then mkCounter curtime 0 else ct in
  let ct := mkCounter (ct_current_time_now ct) (wrap32 (ct_new_connections_now ct + 1)) in
  (should_throttle_connection_creation (ct_new_connections_now ct) (connections_per_sec tl), ct).

(** ** Creation *)

(** What the code reads of the manager and the server outside the pool: the
    generation of the server list, the startup generation when there is a
    thread handler, and the server's weight and latencies. *)
Record creation_view := mkView {
  vw_server_list_generation : Z;
  vw_startup_config_generation : option Z;
  vw_weight : Z;
  vw_current_latency_us : Z;
  vw_max_latency_us : Z;
  vw_now_us : Z;
  vw_limits : throttle_limits;
  vw_counter : creation_counter
}.

Section Selected.
Context (pton4 : string -> option Z) (pton6 : string -> option (list Z)).
Context (cx : reader_context) (gs : get_settings) (vw : creation_view).

(** 0 leaves a generation unchecked. *)
Definition config_changed (expected_server_list_generation expected_startup_config_generation : Z)
  : bool :=
  (negb (expected_server_list_generation =? 0) &&
   negb (vw_server_list_generation vw =? expected_server_list_generation)) ||
  (negb (expected_startup_config_generation =? 0) &&
   match vw_startup_config_generation vw with
   | None => true
   | Some generation => negb (generation =? expected_startup_config_generation)
   end).

Definition selected_server_open (expected_hostgroup_id : Z) (s : PgSQL_SrvC) : bool :=
  (sv_status s == SERVER_ONLINE) && (sv_hid s =? expected_hostgroup_id) &&
  (0 <? vw_weight vw) &&
  pgsql_srv_latency_allowed cx (vw_current_latency_us vw) (vw_max_latency_us vw) &&
  (0 <? sv_max_connections s).

(** The unreserved connections that have to go for one connection more. *)
Definition evict_count_for_create (s : PgSQL_SrvC) : Z :=
  let max_connections := wrap32 (sv_max_connections s) in
  let total := wrap32 (sv_used_count s + sv_free_count s) in
  if max_connections <=? total then wrap32 (total - max_connections + 1) else 0.

Fixpoint delete_connections (conns : list conn_id) : PM () :=
  match conns with
  | [] => mret ()
  | c :: conns => delete_connection c;; delete_connections conns
  end.

(** The new connection, and whether the capacity of the server was in the way,
    with the connections to delete. *)
Definition create_connection (key : PgSQL_PoolMatchKey)
  : PM (option conn_id * bool * list conn_id) :=
  s ← server (fun s => s);
  if wrap32 (sv_max_connections s) <=? sv_used_count s then mret (None, true, [])
  else
    '(made, connections_to_delete) ← evict_unreserved_free_for_create
                                       (evict_count_for_create s) (evict_count_for_create s);
    if negb made then mret (None, true, connections_to_delete)
    else
      c ← pgsql_create_backend_connection_unlocked gs;
      added ← add_used_matching_connection c key;
      if added : bool then mret (Some c, false, connections_to_delete)
      else mret (None, false, connections_to_delete ++ [c]).

(** The block under the pool lock: a connection that came back meanwhile goes
    before a new one. *)
Definition reuse_or_create (sess : option pool_session) (key : PgSQL_PoolMatchKey)
    (mode : PgSQL_PoolGetMode) : PM (pool_get * list conn_id) :=
  '(reused, source) ← take_reusable_connection_unlocked pton4 pton6 gs sess key mode;
  match reused with
  | Some c => mret (mkPoolGet (Some c) source false false false, [])
  | None =>
      s ← server (fun s => s);
      '(created, creation_capacity_blocked, connections_to_delete) ← create_connection key;
      match created with
      | Some c => mret (mkPoolGet (Some c) Source_CREATED false false false, connections_to_delete)
      | None =>
          mret (mkPoolGet None Source_NONE
                  (creation_capacity_blocked ||
                   ((sv_free_count s =? 0) &&
                    (wrap32 (sv_max_connections s) <=? sv_used_count s))) false false,
                connections_to_delete)
      end
  end.

(** The part with the manager locked, and the counter of the hostgroup. *)
Definition create_on_selected_server (expected_hostgroup_id : Z) (key : PgSQL_PoolMatchKey)
    (sess : option pool_session) (mode : PgSQL_PoolGetMode)
    (expected_server_list_generation expected_startup_config_generation : Z)
  : PM (pool_get * creation_counter) :=
  if config_changed expected_server_list_generation expected_startup_config_generation
  then mret (mkPoolGet None Source_NONE false true false, vw_counter vw)
  else
    s ← server (fun s => s);
    if negb (selected_server_open expected_hostgroup_id s) then mret (no_get, vw_counter vw)
    else
      let '(throttled, counter) := pgsql_connection_creation_throttled_unlocked
                                     (vw_limits vw) (vw_now_us vw) (vw_counter vw) in
      if throttled : bool then mret (no_get, counter)
      else
        '(got, connections_to_delete) ← reuse_or_create sess key mode;
        delete_connections connections_to_delete;;
        mret (got, counter).

Definition get_connection_from_selected_server (expected_hostgroup_id : Z)
    (key : PgSQL_PoolMatchKey) (sess : option pool_session) (mode : PgSQL_PoolGetMode)
    (selected_max_connections : Z)
    (expected_server_list_generation expected_startup_config_generation : Z) (locked : bool)
  : PM (pool_get * creation_counter) :=
  existing ← (if md_exact_match mode || md_reset mode
              then take_existing_connection pton4 pton6 gs sess key mode
                     selected_max_connections locked
              else mret no_get);
  match pg_conn existing with
  | Some _ => mret (existing, vw_counter vw)
  | None =>
      if pg_pool_busy existing || negb (md_create mode) then mret (existing, vw_counter vw)
      else create_on_selected_server expected_hostgroup_id key sess mode
             expected_server_list_generation expected_startup_config_generation
  end.

End Selected.

(** ** The throttle lets at most its limit pass in a second *)

(** The outcome of a call and the second it was counted in, for each reading. *)
Fixpoint throttle_run (tl : throttle_limits) (nows : list Z) (ct : creation_counter)
  : list (Z * bool) :=
  match nows with
  | [] => []
  | now_us :: nows =>
      let '(throttled, ct) := pgsql_connection_creation_throttled_unlocked tl now_us ct in
      (ct_current_time_now ct, throttled) :: throttle_run tl nows ct
  end.

(** The calls that passed in [second]. *)
Definition passed (second : Z) (calls : list (Z * bool)) : nat :=
  length (filter (fun call => call = (second, false)) calls).

(** The calls counted in [second], and those counted before the run. *)
Definition counted (second : Z) (calls : list (Z * bool)) : nat :=
  length (filter (fun call => call.1 = second) calls).
Definition counted_before (second : Z) (ct : creation_counter) : Z :=
  if ct_current_time_now ct =? second then ct_new_connections_now ct else 0.

(** One call: it is counted in the later of the two seconds. *)
Lemma throttle_call tl now_us ct second :
  0 <= ct_new_connections_now ct < U32_MODULUS - 1 ->
  exists ct', pgsql_connection_creation_throttled_unlocked tl now_us ct =
      (connections_per_sec tl <? ct_new_connections_now ct', ct') /\
    ct_current_time_now ct <= ct_current_time_now ct' /\
    0 <= ct_new_connections_now ct' <= ct_new_connections_now ct + 1 /\
    (ct_current_time_now ct' <= second ->
       counted_before second ct =
       if ct_current_time_now ct' =? second then ct_new_connections_now ct' - 1 else 0).
Proof.
  intros H. unfold pgsql_connection_creation_throttled_unlocked. cbv zeta. eexists. split; [done |].
  unfold counted_before.
  destruct (Z.ltb_spec (ct_current_time_now ct) (second_of now_us));
    cbn [ct_current_time_now ct_new_connections_now];
    rewrite wrap32_id by (unfold is_u32, U32_MODULUS in *; lia);
    (split; [lia |]; split; [lia |]); intros Hle.
  - rewrite (proj2 (Z.eqb_neq _ second)) by lia. by destruct (_ =? second).
  - destruct (_ =? second); lia.
Qed.

Lemma throttle_seconds tl nows ct second :
  0 <= ct_new_connections_now ct ->
  ct_new_connections_now ct + Z.of_nat (length nows) < U32_MODULUS ->
  second < ct_current_time_now ct -> counted second (throttle_run tl nows ct) = 0%nat.
Proof.
  revert ct. induction nows as [|now_us nows IH]; intros ct H0 Hlen Hlt; [done |].
  cbn [throttle_run length] in *.
  destruct (throttle_call tl now_us ct second) as (ct' & -> & Hle & Hn & _); [lia |].
  unfold counted. rewrite filter_cons_False by (cbn; lia). apply IH; lia.
Qed.

Lemma throttle_passes tl nows ct second :
  0 <= ct_new_connections_now ct ->
  ct_new_connections_now ct + Z.of_nat (length nows) < U32_MODULUS ->
  let calls := throttle_run tl nows ct in
  Z.of_nat (passed second calls) =
  Z.min (Z.of_nat (counted second calls))
        (Z.max 0 (connections_per_sec tl - counted_before second ct)).
Proof.
  revert ct. induction nows as [|now_us nows IH]; intros ct H0 Hlen; [cbn; lia |].
  cbn [throttle_run length] in *. cbv zeta.
  destruct (throttle_call tl now_us ct second) as (ct' & -> & Hle & Hn & Hb); [lia |].
  specialize (IH ct' ltac:(lia) ltac:(lia)). cbv zeta in IH.
  assert (Hs := throttle_seconds tl nows ct' second ltac:(lia) ltac:(lia)).
  set (calls := throttle_run tl nows ct') in *. clearbody calls.
  unfold counted_before in IH at 1. unfold passed, counted in *. rewrite !filter_cons. cbn [fst].
  destruct (Z.eqb_spec (ct_current_time_now ct') second) as [<- | E].
  - rewrite Hb by lia.
    rewrite (decide_True (P := ct_current_time_now ct' = ct_current_time_now ct')) by done.
    destruct (Z.ltb_spec (connections_per_sec tl) (ct_new_connections_now ct')).
    + rewrite decide_False by congruence. cbn [length]. lia.
    + rewrite decide_True by done. cbn [length]. lia.
  - rewrite !decide_False by congruence.
    destruct (Z.lt_ge_cases second (ct_current_time_now ct')) as [Hlt | Hge]; [rewrite Hs in *; lia |].
    by rewrite Hb.
Qed.

(** Of the connections a hostgroup asks for in a second, the throttle lets
    as many pass as its limit allows, and delays no other. *)
Theorem throttle_admits_its_limit tl nows ct second :
  ct_current_time_now ct < second -> 0 <= ct_new_connections_now ct ->
  0 <= tl_throttle_connections_per_sec tl ->
  ct_new_connections_now ct + Z.of_nat (length nows) < U32_MODULUS ->
  let calls := throttle_run tl nows ct in
  Z.of_nat (passed second calls) =
  Z.min (Z.of_nat (counted second calls)) (connections_per_sec tl).
Proof.
  intros Hlt H0 Hl Hlen calls. unfold calls. rewrite throttle_passes by done.
  assert (Hb : counted_before second ct = 0).
  { unfold counted_before. by rewrite (proj2 (Z.eqb_neq _ _)) by lia. }
  rewrite Hb. assert (0 <= connections_per_sec tl); [| lia].
  unfold connections_per_sec. destruct (tl_configured tl); [done | apply wrap32_range].
Qed.

(** Three requests in second 7 and one in second 8, two allowed per second. *)
Lemma throttle_admits_its_limit_witness :
  let tl := mkThrottleLimits true 2 100 in
  let calls := throttle_run tl [7000001; 7100000; 7900000; 8000000] (mkCounter 6 5) in
  calls = [(7, false); (7, false); (7, true); (8, false)] /\
  Z.of_nat (passed 7 calls) = Z.min (Z.of_nat (counted 7 calls)) (connections_per_sec tl).
Proof.
  split; [reflexivity |]. by apply (throttle_admits_its_limit (mkThrottleLimits true 2 100)).
Defined.

(** ** Eviction takes what there is *)

(** The number of idle connections nobody reserved. *)
Definition unreserved_free (s : PgSQL_SrvC) : Z :=
  Z.of_nat (length (filter (fun c => polardb_connection_reserved_unlocked c s = false)
                      (cl_conns (sv_free s)))).

(** What an eviction takes out: each connection once, from FREE only. *)
Record taken_out (ds : list conn_id) (p p' : pool) : Prop := {
  to_used_conns : cl_conns (sv_used (pl_srv p')) = cl_conns (sv_used (pl_srv p));
  to_free : cl_conns (sv_free (pl_srv p)) ≡ₚ ds ++ cl_conns (sv_free (pl_srv p'))
}.

Lemma took_used c p p' :
  server_ok p -> server_ok p' -> took false c p p' ->
  cl_conns (sv_used (pl_srv p')) = cl_conns (sv_used (pl_srv p)).
Proof.
  intros S S' T.
  change (cl_conns (the_list true (pl_srv p')) = cl_conns (the_list true (pl_srv p))).
  rewrite <-!slots_conns by done. f_equal. exact (tk_other _ _ _ _ T).
Qed.

Lemma taken_out_cons c ds p p1 p' :
  server_ok p -> server_ok p1 -> took false c p p1 -> taken_out ds p1 p' -> taken_out (c :: ds) p p'.
Proof.
  intros S S1 T [Hu Hf]. split; [by rewrite Hu, (took_used c p p1) |].
  assert (Hp := took_conns _ _ _ _ S S1 T). cbn [the_list] in Hp. by rewrite Hp, Hf.
Qed.

Lemma taken_out_nodup ds p p' : server_ok p -> taken_out ds p p' -> NoDup ds.
Proof.
  intros S [_ H]. assert (N := lo_nodup _ _ (pw_free _ _ (so_pool _ S))).
  rewrite H in N. by apply NoDup_app in N as [? _].
Qed.

(** The loop passes over reserved connections only; when it stops short, those
    are all that is left. *)
Lemma evict_loop_taken fuel index remaining p ds left p' :
  server_ok p -> (length (cl_conns (sv_free (pl_srv p))) <= index + fuel)%nat ->
  Forall (is_reserved p) (take index (cl_conns (sv_free (pl_srv p)))) ->
  evict_loop fuel index remaining p = Some ((ds, left), p') ->
  taken_out ds p p' /\ (left <> 0%nat -> Forall (is_reserved p) (cl_conns (sv_free (pl_srv p')))).
Proof.
  revert index remaining p ds left. induction fuel as [|fuel IH];
    intros index remaining p ds left S Hlen Hpre; cbn [evict_loop].
  { rewrite take_ge in Hpre by lia. destruct remaining; intros [= <- <- <-]; by split. }
  destruct remaining as [|rest]; [by intros [= <- <- <-] |].
  rewrite (bind_run (read_list false _) _ p _ p eq_refl). cbn [the_list].
  destruct (cl_conns (sv_free (pl_srv p)) !! index) as [c|] eqn:Hc.
  2: { intros [= <- <- <-]. apply lookup_ge_None in Hc. rewrite take_ge in Hpre by lia. by split. }
  assert (Hlt := lookup_lt_Some _ _ _ Hc). rewrite (bind_run (server _) _ p _ p eq_refl).
  destruct (polardb_connection_reserved_unlocked c (pl_srv p)) eqn:Hr.
  { apply reserved_test in Hr. apply IH; [done | lia |].
    rewrite (take_S_r _ _ _ Hc). apply Forall_app. by rewrite Forall_singleton. }
  apply unreserved_test in Hr.
  destruct (remove_unreserved false End_CREATE_EVICT index c p S Hc Hr) as (p1 & H1 & C1 & T1).
  rewrite (bind_run _ _ _ _ _ H1). assert (S1 := cm_ok _ _ C1).
  assert (Hf := removed_free_list _ _ _ _ _ _ (so_pool _ S) Hc H1).
  assert (Hl1 := remove_index_fast_length _ _ _ Hc).
  destruct (evict_loop fuel index rest p1) as [[[ds' left'] p2]|] eqn:H2; [| unfold mbind, PM_bind; by rewrite H2].
  rewrite (bind_run _ _ _ _ _ H2). intros [= <- <- <-].
  assert (Hpre1 : Forall (is_reserved p1) (take index (cl_conns (sv_free (pl_srv p1))))).
  { rewrite Hf, (proj1 (remove_index_fast_parts _ _ _ Hc)).
    eapply Forall_impl; [exact Hpre |]. intros d. apply (calm_reserved p p1 d C1). }
  destruct (IH index rest p1 _ _ S1 ltac:(rewrite Hf; lia) Hpre1 H2) as [T Hleft].
  split; [by eapply taken_out_cons |]. intros Hn. eapply Forall_impl; [exact (Hleft Hn) |].
  intros d. apply (calm_reserved p p1 d C1).
Qed.

Lemma none_left p conns :
  Forall (is_reserved p) conns ->
  filter (fun c => polardb_connection_reserved_unlocked c (pl_srv p) = false) conns = [].
Proof.
  induction 1 as [|c conns H _ IH]; [done |]. rewrite filter_cons_False; [done |].
  rewrite unreserved_test. auto.
Qed.

(** Eviction of exactly [n] works out when [n] connections are unreserved, and
    does nothing otherwise. *)
Lemma evict_exactly n p :
  server_ok p -> 0 <= n ->
  exists ds p', evict_unreserved_free_for_create n n p =
      Some ((n <=? unreserved_free (pl_srv p), ds), p') /\
    cleared_room p p' ds /\ taken_out ds p p' /\
    if n <=? unreserved_free (pl_srv p) then Z.of_nat (length ds) = n else ds = [] /\ p' = p.
Proof.
  intros S Hn. destruct (evict_run n n p S) as (b & ds & p' & H & C).
  exists ds, p'. revert H C. unfold evict_unreserved_free_for_create.
  rewrite Z.ltb_irrefl, andb_diag.
  destruct (Z.eqb_spec n 0) as [-> | Hn0].
  { intros [= <- <- <-] C. rewrite (proj2 (Z.leb_le 0 _)) by (unfold unreserved_free; lia).
    by split_and!. }
  rewrite (bind_run (read_list false _) _ p _ p eq_refl), (bind_run (server _) _ p _ p eq_refl).
  cbn [the_list]. fold (unreserved_free (pl_srv p)).
  destruct (Z.ltb_spec (unreserved_free (pl_srv p)) n) as [Hlt | Hge].
  { intros [= <- <- <-] C. rewrite (proj2 (Z.leb_gt _ _)) by done. by split_and!. }
  rewrite Z.min_l, (proj2 (Z.leb_le _ _)) by lia.
  destruct (evict_loop_run (length (cl_conns (sv_free (pl_srv p)))) 0 (Z.to_nat n) p S)
    as (ds' & left & p2 & H2 & C2 & Hl & _).
  rewrite (bind_run _ _ _ _ _ H2). intros [= <- <- <-] C.
  destruct (evict_loop_taken _ 0 _ p ds' left p2 S (le_n _) ltac:(done) H2) as [T Hleft].
  assert (left = 0%nat) as ->; [| split_and!; [done.. | lia]].
  destruct left; [done |]. exfalso. specialize (Hleft ltac:(done)).
  assert (Hu : unreserved_free (pl_srv p) <= Z.of_nat (length ds')); [| lia].
  unfold unreserved_free. rewrite (to_free _ _ _ T), filter_app, length_app.
  assert (Hf := length_filter (fun c => polardb_connection_reserved_unlocked c (pl_srv p) = false) ds').
  rewrite (none_left p (cl_conns (sv_free (pl_srv p2)))) by done. cbn [length]. lia.
Qed.

(** ** Deleting what was evicted *)

Lemma delete_connections_run ds p :
  server_ok p -> NoDup ds -> Forall (fun d => known p d /\ ~ in_pool p d) ds ->
  exists p', delete_connections ds p = Some ((), p') /\ quiet p p' /\ records p' = records p /\
    same_conns p p' /\ forall d, known p' d <-> d ∉ ds /\ known p d.
Proof.
  revert p. induction ds as [|c ds IH]; intros p S N H.
  { exists p. split; [done |]. split; [by apply quiet_refl |]. split_and!; [done.. |].
    intros d. split; [| tauto]. split; [apply not_elem_of_nil | done]. }
  apply NoDup_cons in N as [Hc N]. apply Forall_cons in H as [[Hk Hout] H].
  cbn [delete_connections].
  destruct (delete_run c p S Hk Hout) as (p1 & H1 & Q1 & R1 & Hgone & [Ef Eu] & Hrest).
  rewrite (bind_run _ _ _ _ _ H1).
  destruct (IH p1 (qt_ok _ _ Q1) N) as (p2 & H2 & Q2 & R2 & [Ef2 Eu2] & Hrest2).
  { apply Forall_forall. intros d Hd. rewrite Forall_forall in H. destruct (H d Hd) as [Hdk Hdo].
    split; [apply Hrest; split; [congruence | done] |]. unfold in_pool. by rewrite Ef, Eu. }
  exists p2. split; [done |]. split; [by eapply quiet_trans |]. split; [congruence |].
  split; [split; congruence |]. intros d. rewrite Hrest2, Hrest, not_elem_of_cons. tauto.
Qed.

(** ** Creation within the limit *)

Section SelectedRuns.
Context (pton4 : string -> option Z) (pton6 : string -> option (list Z)).
Context (cx : reader_context) (gs : get_settings).

(** A server has room for one connection more: fewer than its limit are in use,
    and enough idle ones may go. *)
Definition has_room_for_one (s : PgSQL_SrvC) : bool :=
  (sv_used_count s <? wrap32 (sv_max_connections s)) &&
  (evict_count_for_create s <=? unreserved_free s).

(** A connection opened in the place of [ds]. *)
Record opened (ds : list conn_id) (p p' : pool) : Prop := {
  op_used : cl_conns (sv_used (pl_srv p')) = cl_conns (sv_used (pl_srv p)) ++ [(gt_new gs).1];
  op_free : cl_conns (sv_free (pl_srv p)) ≡ₚ ds ++ cl_conns (sv_free (pl_srv p'));
  op_count : Z.of_nat (length ds) = evict_count_for_create (pl_srv p);
  op_unreserved : Forall (fun d => ~ is_reserved p d) ds
}.

Lemma evict_count_nonneg s : 0 <= evict_count_for_create s.
Proof.
  unfold evict_count_for_create. destruct (_ <=? _); [apply wrap32_range | done].
Qed.

(** A new connection goes to USED. *)
Lemma open_run key p :
  server_ok p -> sv_status (pl_srv p) = SERVER_ONLINE -> pl_heap p !! (gt_new gs).1 = None ->
  exists p', (c ← pgsql_create_backend_connection_unlocked gs;
              added ← add_used_matching_connection c key; mret (c, added)) p =
      Some (((gt_new gs).1, true), p') /\ calm p p' /\
    cl_conns (sv_used (pl_srv p')) = cl_conns (sv_used (pl_srv p)) ++ [(gt_new gs).1] /\
    cl_conns (sv_free (pl_srv p')) = cl_conns (sv_free (pl_srv p)).
Proof.
  intros S Hon Hnew. destruct (create_run gs p S Hnew) as (p1 & H1 & C1 & Hk & Hout & Es & _).
  rewrite (bind_run _ _ _ _ _ H1). assert (S1 := cm_ok _ _ C1).
  destruct (add_calm true p1 _ (Some key) S1 Hk Hout) as (p2 & H2 & C2 & P & _).
  assert (Ha : add_used_matching_connection (gt_new gs).1 key p1 = Some (true, p2)).
  { unfold add_used_matching_connection.
    rewrite (bind_run (server sv_status) _ p1 _ p1 eq_refl), Es.
    destruct (status_test (sv_status (pl_srv p))) as [[_ ->] | []]; [| done].
    by rewrite (bind_run _ _ _ _ _ H2). }
  rewrite (bind_run _ _ _ _ _ Ha). exists p2. split; [done |].
  split; [by eapply calm_trans |].
  assert (Hu := put_conns _ _ _ _ _ S1 (cm_ok _ _ C2) P). cbn [the_list] in Hu.
  rewrite Es in Hu. split; [done |].
  change (cl_conns (the_list false (pl_srv p2)) = cl_conns (the_list false (pl_srv p))).
  rewrite <-Es, <-!slots_conns by (done || apply C2). f_equal. exact (proj2 P).
Qed.

Lemma create_connection_run key p :
  server_ok p -> sv_status (pl_srv p) = SERVER_ONLINE -> pl_heap p !! (gt_new gs).1 = None ->
  let room := has_room_for_one (pl_srv p) in
  exists ds p', create_connection gs key p =
      Some ((if room then Some (gt_new gs).1 else None, negb room, ds), p') /\ calm p p' /\
    if room then opened ds p p' else ds = [] /\ p' = p.
Proof.
  intros S Hon Hnew room. unfold create_connection, room, has_room_for_one.
  rewrite (bind_run (server _) _ p _ p eq_refl), (Z.leb_antisym _ (wrap32 _)).
  destruct (sv_used_count (pl_srv p) <? wrap32 (sv_max_connections (pl_srv p))); cbn [negb andb].
  2: { exists [], p. split_and!; [done | by apply calm_refl | done..]. }
  destruct (evict_exactly (evict_count_for_create (pl_srv p)) p S (evict_count_nonneg _))
    as (ds & p1 & H1 & C1 & T & Hds).
  rewrite (bind_run _ _ _ _ _ H1).
  destruct (evict_count_for_create (pl_srv p) <=? unreserved_free (pl_srv p)); cbn [negb].
  2: { destruct Hds as [-> ->]. exists [], p. split_and!; [done | by apply calm_refl | done..]. }
  assert (Ca := cr_calm _ _ _ C1).
  assert (Hnew1 : pl_heap p1 !! (gt_new gs).1 = None).
  { destruct (pl_heap p1 !! _) as [o|] eqn:Ho; [| done].
    destruct (cr_known _ _ _ C1 (gt_new gs).1) as [o' Ho']; [by exists o | congruence]. }
  assert (Hon1 : sv_status (pl_srv p1) = SERVER_ONLINE).
  { by rewrite (frame_status p p1 (cm_frame _ _ Ca)). }
  destruct (open_run key p1 (cm_ok _ _ Ca) Hon1 Hnew1) as (p2 & H2 & C2 & Hu & Hf).
  exists ds, p2. split.
  - revert H2. unfold mbind, PM_bind.
    destruct (pgsql_create_backend_connection_unlocked gs p1) as [[c p']|]; [| done].
    destruct (add_used_matching_connection c key p') as [[b p'']|]; [| done].
    by intros [= -> -> ->].
  - split; [by eapply calm_trans |]. split; [| | done |].
    + by rewrite Hu, (to_used_conns _ _ _ T).
    + by rewrite Hf, (to_free _ _ _ T).
    + eapply Forall_impl; [exact (cr_evicted _ _ _ C1) |]. naive_solver.
Qed.

(** What was evicted can be deleted: an object in no list, each one once. *)
Lemma opened_deletable ds p p' :
  server_ok p -> pl_heap p !! (gt_new gs).1 = None -> calm p p' -> opened ds p p' ->
  NoDup ds /\ Forall (fun d => known p' d /\ ~ in_pool p' d) ds.
Proof.
  intros S Hnew C O. assert (N := lo_nodup _ _ (pw_free _ _ (so_pool _ S))).
  rewrite (op_free _ _ _ O) in N. apply NoDup_app in N as (N & Hdis & _). split; [done |].
  apply Forall_forall. intros d Hd.
  assert (Hin : d ∈ cl_conns (sv_free (pl_srv p))) by (rewrite (op_free _ _ _ O); set_solver).
  assert (Hk : known p d) by (apply in_pool_known; [done | by left]).
  split; [by apply (cm_known _ _ C) |]. intros [Hf | Hu]; [by apply (Hdis d) |].
  rewrite (op_used _ _ _ O) in Hu. apply elem_of_app in Hu as [Hu | ->%list_elem_of_singleton].
  - exact (pw_disjoint _ _ (so_pool _ S) d Hin Hu).
  - by destruct (not_known _ _ Hnew).
Qed.

(** A search that finds nothing changes nothing. *)
Lemma remove_nothing u i reason p p' :
  server_ok p -> remove_unlocked u i reason p = Some (None, p') -> p' = p.
Proof.
  intros S. destruct (cl_conns (the_list u (pl_srv p)) !! i) as [c|] eqn:Hi.
  - destruct u; cbn [the_list] in Hi.
    + destruct (remove_used_spec reason i c p (so_pool _ S) Hi) as (p1 & -> & _). done.
    + destruct (remove_free_spec reason i c p (so_pool _ S) Hi) as (p1 & -> & _). done.
  - unfold remove_unlocked. rewrite (bind_run (read_list u _) _ p _ p eq_refl), Hi.
    by intros [= ->].
Qed.

Lemma removed_nothing u i reason p p' ds :
  server_ok p ->
  (c ← remove_unlocked u i reason; mret (c, @nil conn_id)) p = Some ((None, ds), p') -> p' = p.
Proof.
  intros S H. unfold mbind, PM_bind in H.
  destruct (remove_unlocked u i reason p) as [[c p1]|] eqn:E; [| done].
  injection H as -> _ ->. by eapply remove_nothing.
Qed.

Lemma get_random_nothing sess ff exact_only p ds p' :
  server_ok p ->
  get_random_MyConn_unlocked pton4 pton6 gs sess ff true exact_only p = Some ((None, ds), p') ->
  p' = p.
Proof.
  intros S. unfold get_random_MyConn_unlocked. fold (session_client sess).
  rewrite (bind_run (server _) _ p _ p eq_refl). cbv zeta. cbn [andb].
  destruct (_ =? 0)%nat; [by intros [= _ ->] |]. cbn [negb andb].
  destruct (negb ff && _); [| by intros [= _ ->]].
  destruct (session_client sess) as [[x client_conn]|]; [| by apply removed_nothing].
  rewrite (bind_run (gets _) _ p _ p eq_refl).
  destruct exact_only.
  { destruct (_ =? 3); [by apply removed_nothing | by intros [= _ ->]]. }
  destruct (_ =? 0); [by intros [= _ ->] |].
  destruct (_ =? 1); by apply removed_nothing.
Qed.

Lemma take_reusable_nothing sess key mode p source p' :
  server_ok p ->
  take_reusable_connection_unlocked pton4 pton6 gs sess key mode p = Some ((None, source), p') ->
  p' = p.
Proof.
  intros S. unfold take_reusable_connection_unlocked.
  assert (Hexact : exists r p1,
    (if md_exact_match mode then remove_matching_unlocked key else mret None) p = Some (r, p1) /\
    (r = None -> p1 = p)).
  { destruct (md_exact_match mode); [| by exists None, p].
    destruct (remove_matching_calm key p S) as (r & p1 & H & _ & Hr). exists r, p1.
    split; [done |]. intros ->. apply Hr. }
  destruct Hexact as (r & p1 & H & Hp); rewrite (bind_run _ _ _ _ _ H). destruct r as [c|].
  { unfold mbind, PM_bind. by destruct (add_unlocked true c None p1) as [[]|]. }
  rewrite (Hp eq_refl). destruct (md_reset mode); [| by intros [= _ ->]].
  unfold mbind, PM_bind.
  destruct (get_random_MyConn_unlocked _ _ _ _ _ _ _ p) as [[[r ds] p2]|] eqn:E; [| done].
  destruct r as [c|]; [by destruct (add_unlocked true c None p2) as [[]|] |].
  intros [= _ <-]. by eapply get_random_nothing.
Qed.

(** The block under the pool lock: a connection is reused, or opened when there
    is room, or the server is full. *)
Lemma reuse_or_create_run sess key mode p :
  server_ok p -> sv_status (pl_srv p) = SERVER_ONLINE -> pl_heap p !! (gt_new gs).1 = None ->
  exists got ds p', reuse_or_create pton4 pton6 gs sess key mode p = Some ((got, ds), p') /\
    quiet p p' /\ (session_client sess <> None -> calm p p') /\
    NoDup ds /\ Forall (fun d => known p' d /\ ~ in_pool p' d) ds /\
    match take_reusable_connection_unlocked pton4 pton6 gs sess key mode p with
    | None => False
    | Some ((Some c, source), p1) =>
        got = mkPoolGet (Some c) source false false false /\ ds = [] /\ p' = p1
    | Some ((None, _), _) =>
        if has_room_for_one (pl_srv p)
        then got = mkPoolGet (Some (gt_new gs).1) Source_CREATED false false false /\
             calm p p' /\ opened ds p p'
        else got = mkPoolGet None Source_NONE true false false /\ ds = [] /\ p' = p
    end.
Proof.
  intros S Hon Hnew. unfold reuse_or_create.
  destruct (take_reusable_run pton4 pton6 gs sess key mode p S Hnew) as (r & source & p1 & H1 & G).
  rewrite (bind_run _ _ _ _ _ H1), H1. destruct r as [c|].
  { eexists _, [], p1. split; [done |]. split; [apply G |]. split; [apply G |].
    split_and!; [apply NoDup_nil_2 | done..]. }
  rewrite (take_reusable_nothing _ _ _ _ _ _ S H1).
  rewrite (bind_run (server _) _ p _ p eq_refl).
  destruct (create_connection_run key p S Hon Hnew) as (ds & p2 & H2 & C2 & Hroom).
  rewrite (bind_run _ _ _ _ _ H2). destruct (has_room_for_one (pl_srv p)).
  - destruct (opened_deletable ds p p2 S Hnew C2 Hroom) as [N D].
    eexists _, ds, p2. split; [done |]. split; [by apply calm_quiet |]. by split_and!.
  - destruct Hroom as [-> ->]. eexists _, [], p. split; [done |].
    split; [by apply quiet_refl |]. split; [by intros _ |]. split_and!; [apply NoDup_nil_2 | done..].
Qed.

(** The limit of the server holds with the new connection. *)
Lemma opened_within_limit ds p p' :
  server_ok p -> has_room_for_one (pl_srv p) = true -> opened ds p p' ->
  Z.of_nat (size (pl_heap p)) < U32_MODULUS ->
  Z.of_nat (length (cl_conns (sv_free (pl_srv p'))) + length (cl_conns (sv_used (pl_srv p')))) <=
  wrap32 (sv_max_connections (pl_srv p)).
Proof.
  intros S [Hu%Z.ltb_lt _]%andb_prop [Eu Ef En _] Hsize.
  assert (W := so_pool _ S). assert (Hps := pool_size p S).
  rewrite Eu. apply Permutation_length in Ef. rewrite length_app in Ef.
  rewrite length_app. cbn [length].
  revert Hu En. unfold evict_count_for_create. rewrite (pw_free_count _ _ W), (pw_used_count _ _ W).
  assert (Hm := wrap32_range (sv_max_connections (pl_srv p))). unfold is_u32 in Hm.
  set (m := wrap32 (sv_max_connections (pl_srv p))) in *. clearbody m.
  rewrite (wrap32_id (_ + _)) by (unfold is_u32; lia).
  destruct (Z.leb_spec m (Z.of_nat (length (cl_conns (sv_used (pl_srv p)))) +
                          Z.of_nat (length (cl_conns (sv_free (pl_srv p)))))); [| lia].
  intros Hlt. rewrite wrap32_id by (unfold is_u32; lia). lia.
Qed.

Context (vw : creation_view).

Lemma open_online hid s : selected_server_open cx vw hid s = true -> sv_status s = SERVER_ONLINE.
Proof.
  unfold selected_server_open. intros H. repeat apply andb_prop in H as [H _].
  by apply bool_decide_eq_true in H.
Qed.

Lemma create_on_selected_run hid key sess mode list_generation startup_generation p :
  server_ok p -> pl_heap p !! (gt_new gs).1 = None ->
  exists r p', create_on_selected_server pton4 pton6 cx gs vw hid key sess mode
                 list_generation startup_generation p = Some (r, p') /\ quiet p p'.
Proof.
  intros S Hnew. unfold create_on_selected_server.
  assert (Hsame : forall r : pool_get * creation_counter,
            exists r' p', Some (r, p) = Some (r', p') /\ quiet p p').
  { intros r. exists r, p. split; [done | by apply quiet_refl]. }
  destruct (config_changed _ _ _); [apply Hsame |].
  rewrite (bind_run (server _) _ p _ p eq_refl).
  destruct (selected_server_open cx vw hid (pl_srv p)) eqn:Hopen; cbn [negb]; [| apply Hsame].
  destruct (pgsql_connection_creation_throttled_unlocked _ _ _) as [[] ct]; [apply Hsame |].
  destruct (reuse_or_create_run sess key mode p S (open_online _ _ Hopen) Hnew)
    as (got & ds & p1 & H1 & Q1 & _ & N & D & _).
  rewrite (bind_run _ _ _ _ _ H1).
  destruct (delete_connections_run ds p1 (qt_ok _ _ Q1) N D) as (p2 & H2 & Q2 & _).
  rewrite (bind_run _ _ _ _ _ H2). eexists _, p2. split; [done |]. by eapply quiet_trans.
Qed.

(** Past every check, and with nothing to reuse, room decides. *)
Lemma create_on_selected_exact hid key sess mode list_generation startup_generation ct source p p1 :
  server_ok p -> pl_heap p !! (gt_new gs).1 = None ->
  Z.of_nat (size (pl_heap p)) < U32_MODULUS - 1 ->
  config_changed vw list_generation startup_generation = false ->
  selected_server_open cx vw hid (pl_srv p) = true ->
  pgsql_connection_creation_throttled_unlocked (vw_limits vw) (vw_now_us vw) (vw_counter vw) =
    (false, ct) ->
  take_reusable_connection_unlocked pton4 pton6 gs sess key mode p = Some ((None, source), p1) ->
  exists got p', create_on_selected_server pton4 pton6 cx gs vw hid key sess mode
                   list_generation startup_generation p = Some ((got, ct), p') /\
    server_ok p' /\ records p' = records p /\
    if has_room_for_one (pl_srv p)
    then got = mkPoolGet (Some (gt_new gs).1) Source_CREATED false false false /\
         (exists ds, opened ds p p' /\ Forall (fun d => ~ known p' d) ds) /\
         Z.of_nat (length (cl_conns (sv_free (pl_srv p'))) +
                   length (cl_conns (sv_used (pl_srv p')))) <= wrap32 (sv_max_connections (pl_srv p))
    else got = mkPoolGet None Source_NONE true false false /\ p' = p.
Proof.
  intros S Hnew Hsize Hcfg Hopen Hthr Hreuse. unfold create_on_selected_server. rewrite Hcfg.
  rewrite (bind_run (server _) _ p _ p eq_refl), Hopen, Hthr. cbn [negb].
  destruct (reuse_or_create_run sess key mode p S (open_online _ _ Hopen) Hnew)
    as (got & ds & p2 & H2 & Q2 & _ & N & D & Hcase).
  rewrite (bind_run _ _ _ _ _ H2). rewrite Hreuse in Hcase.
  destruct (delete_connections_run ds p2 (qt_ok _ _ Q2) N D) as (p3 & H3 & Q3 & R3 & [Ef Eu] & K).
  rewrite (bind_run _ _ _ _ _ H3). exists got, p3. split; [done |]. split; [apply Q3 |].
  destruct (has_room_for_one (pl_srv p)) eqn:Hroom.
  - destruct Hcase as (-> & C & O). split; [by rewrite R3, (cm_records _ _ C) |].
    assert (O3 : opened ds p p3).
    { destruct O. split; [by rewrite Eu | by rewrite Ef | done..]. }
    split; [done |]. split; [exists ds; split; [done |] |].
    + apply Forall_forall. intros d Hd [Hn _]%K. done.
    + by eapply opened_within_limit; [.. | lia].
  - destruct Hcase as (-> & -> & ->). injection H3 as <-. done.
Qed.

End SelectedRuns.
