(* ===== verification/PoolTraces.v ===== *)
(** * Every operation of a server, in any order

    The operations of a server as one type, with what their callers guarantee.
    In every state they reach from an empty pool the pool is in order, no
    assertion fails, and a claim of a worker appears only for a request the
    worker registered. *)

From S2P Require Import Prelude Policy Startup Session Query Topology.
From S2P Require Import ServerList PoolConn Reader ReaderAcquire CapacityQueue ServerPool.
From S2P Require Import PoolSafety Reservations PoolOperations SelectedServer.
From Stdlib Require Import ZArith Ascii String List Bool Lia.
From stdpp Require Import base tactics list gmap strings relations.

Open Scope Z_scope.
Open Scope polar_scope.

Implicit Types l : list entry.

(** ** What an operation does to the claims *)

(** Nothing, or one more claim for the request of the wake, which left the
    queue. *)
Record served l (p p' : pool) (wake : option PolarDB_ReaderPoolReservationWake) : Prop := {
  sr_ok : server_ok p';
  sr_id : sv_id (pl_srv p') = sv_id (pl_srv p);
  sr_hid : sv_hid (pl_srv p') = sv_hid (pl_srv p);
  sr_case :
    match wake with
    | None => claims p' = claims p /\ pl_queue p' = pl_queue p
    | Some wk =>
        exists n r, (n, r) ∈ l /\ wk_worker_index wk = cr_worker_index r /\
          wk_token wk = cr_token r /\ wk_server wk = sv_id (pl_srv p) /\
          represents (pl_queue p') (erased l n) /\
          claims p' = <[cr_token r := cr_worker_index r]> (claims p)
    end
}.

Lemma served_quiet l p p' : quiet p p' -> served l p p' None.
Proof. intros []. by split. Qed.

Lemma served_calm l p p' : calm p p' -> served l p p' None.
Proof. intros C. by apply served_quiet, calm_quiet. Qed.

Lemma served_after_quiet l p p1 p' wake : quiet p p1 -> served l p1 p' wake -> served l p p' wake.
Proof.
  intros [S Ec Eq Ei Eh] [S' Ei' Eh' H]. split; try congruence.
  destruct wake as [wk|]; [| destruct H; split; congruence].
  destruct H as (n & r & Hn & Hw & Ht & Hs & R & Hc). exists n, r.
  split; [done |]. split; [done |]. split; [done |]. split; [congruence |]. split; congruence.
Qed.

Lemma served_stored cx c key ex l p p' wake : stored cx c key ex l p p' wake -> served l p p' wake.
Proof.
  intros [S Ec _ H]. unfold core in Ec. injection Ec as Ei Eh _ _ _ _ _.
  destruct (with_q_parts (pl_queue p') p) as (Es & _ & _). rewrite Es in Ei, Eh.
  split; try done. destruct (offer cx p key ex l) as [[r snapshot]|].
  - destruct H as (-> & (n & Hn & R) & Hc & _). by exists n, r.
  - by destruct H as (-> & Hq & Hc & _).
Qed.

Lemma served_effect cx l p p' wake : effect cx l p p' wake -> served l p p' wake.
Proof.
  intros [Q | c key ex p1 wake0 Q St]; [by apply served_quiet |].
  eapply served_after_quiet; [done | by eapply served_stored].
Qed.

(** ** Taking, for every worker and token *)

Lemma owned_request w t l :
  fifo_owned w t l.*2 = true <-> exists n r, (n, r) ∈ l /\ cr_worker_index r = w /\ cr_token r = t.
Proof.
  unfold fifo_owned. rewrite existsb_exists. split.
  - intros (r & Hr%list_elem_of_In & [E1%Z.eqb_eq E2%Z.eqb_eq]%andb_prop).
    apply list_elem_of_fmap in Hr as ([n r'] & -> & H). by exists n, r'.
  - intros (n & r & H & <- & <-). exists r. rewrite !Z.eqb_refl. split; [| done].
    apply list_elem_of_In, list_elem_of_fmap. by exists (n, r).
Qed.

Lemma claim_not_owned w t l p :
  tokens_free l p -> claims p !! t = Some w -> fifo_owned w t l.*2 = false.
Proof.
  intros F Hc. apply not_true_iff_false. intros (n & r & Hn & _ & <-)%owned_request.
  by rewrite (F _ _ Hn) in Hc.
Qed.

Lemma no_claim_case w t p :
  claims p !! t <> Some w ->
  (r ← sv_reservations (pl_srv p) !! t; if rv_worker_index r =? w then Some r else None) = None /\
  match sv_reservations (pl_srv p) !! t, sv_retired (pl_srv p) !! t with
  | None, Some r => (rt_worker_index r =? w) = false
  | _, _ => True
  end.
Proof.
  intros Hn. assert (H := proj2 (claims_lookup p t w)).
  destruct (sv_reservations (pl_srv p) !! t) as [r|] eqn:Hr; cbn [mbind option_bind].
  - split; [| done]. destruct (Z.eqb_spec (rv_worker_index r) w); [| done].
    destruct Hn. apply H. left. by exists r.
  - split; [done |]. destruct (sv_retired (pl_srv p) !! t) as [r|] eqn:Hrt; [| done].
    apply Z.eqb_neq. intros Hw. apply Hn, H. right. split; [done |]. by exists r.
Qed.

(** A worker with a claim gets the connection or the reason it went; a worker
    whose request waits is told so; nothing else changes anything. *)
Definition take_case (w t : Z) l (p p' : pool) (status : ReaderTakeStatus) : Prop :=
  if decide (claims p !! t = Some w) then
    status = take_outcome t (pl_srv p) /\
    server_ok p' /\ claims p' = delete t (claims p) /\ core p' = core p /\
    used_slots p' = used_slots p ++ take_slot t (pl_srv p)
  else status = (if fifo_owned w t l.*2 then Take_PENDING else Take_MISSING) /\ p' = p.

Lemma take_run w t l p :
  server_ok p -> represents (pl_queue p) l -> tokens_free l p ->
  exists status p', take_reader_pool_reservation w t p = Some (status, p') /\
    take_case w t l p p' status.
Proof.
  intros S R F. unfold take_case. destruct (decide (claims p !! t = Some w)) as [Hc|Hc].
  - destruct (take_claim_spec w t l p S R (claim_not_owned _ _ _ _ F Hc) Hc)
      as (p' & H & Hp). eexists _, p'. split; [exact H |]. by split.
  - destruct (no_claim_case w t p Hc) as [Hr Hrt]. unfold take_reader_pool_reservation.
    rewrite (bind_run _ _ _ _ _ (own_reservation_run w t p)), Hr.
    unfold take_without_reservation. rewrite (bind_run (gets _) _ p _ p eq_refl).
    rewrite (has_refines _ _ w t R).
    destruct (fifo_owned w t l.*2); [by exists Take_PENDING, p |].
    rewrite (bind_run (server _) _ p _ p eq_refl).
    exists Take_MISSING, p. split; [| done].
    destruct (sv_reservations (pl_srv p) !! t) as [r|] eqn:Hr'.
    + by rewrite (so_apart _ S _ _ Hr').
    + destruct (sv_retired (pl_srv p) !! t) as [r|]; [by rewrite Hrt | done].
Qed.

(** ** The operations *)

Inductive server_op :=
| Op_take_matching (key : PgSQL_PoolMatchKey)
| Op_take_existing (gs : get_settings) (sess : option pool_session) (key : PgSQL_PoolMatchKey)
    (mode : PgSQL_PoolGetMode) (selected_max_connections : Z) (locked : bool)
| Op_get_random (gs : get_settings) (sess : option pool_session) (ff only_pooled exact_only : bool)
| Op_create_selected (cx : reader_context) (gs : get_settings) (vw : creation_view) (hid : Z)
    (key : PgSQL_PoolMatchKey) (sess : option pool_session) (mode : PgSQL_PoolGetMode)
    (server_list_generation startup_config_generation : Z)
| Op_make_room (preferred : Z)
| Op_return (cx : reader_context) (c : conn_id) (key : PgSQL_PoolMatchKey) (excluded : Z)
| Op_reserve_used (cx : reader_context) (c : conn_id) (key : PgSQL_PoolMatchKey) (worker : Z)
| Op_add_matching (cx : reader_context) (c : conn_id) (key : PgSQL_PoolMatchKey)
| Op_add_used (c : conn_id) (key : PgSQL_PoolMatchKey)
| Op_remove_used (c : conn_id)
| Op_remove_free (c : conn_id)
| Op_push (c : conn_id) (limits : option pool_limits)
| Op_ping (c : conn_id) (max_last_time_used : Z)
| Op_finish_ping (c : conn_id)
| Op_trim (max_free : Z)
| Op_set_status (status : MySerStatus)
| Op_delete (c : conn_id)
| Op_destroy (c : conn_id).

Section Traces.
Context (pton4 : string -> option Z) (pton6 : string -> option (list Z)).

Definition quietly {A} (m : PM A) : PM (option PolarDB_ReaderPoolReservationWake) :=
  m;; mret None.

(** An operation and the wake its caller has to route. *)
Definition run_server_op (o : server_op) : PM (option PolarDB_ReaderPoolReservationWake) :=
  match o with
  | Op_take_matching key => quietly (take_matching_connection key)
  | Op_take_existing gs sess key mode max locked =>
      quietly (take_existing_connection pton4 pton6 gs sess key mode max locked)
  | Op_get_random gs sess ff only_pooled exact_only =>
      quietly (get_random_MyConn_unlocked pton4 pton6 gs sess ff only_pooled exact_only)
  | Op_create_selected cx gs vw hid key sess mode list_generation startup_generation =>
      quietly (create_on_selected_server pton4 pton6 cx gs vw hid key sess mode list_generation
                 startup_generation)
  | Op_make_room preferred =>
      quietly (polardb_make_room_for_classic_connection_unlocked preferred)
  | Op_return cx c key excluded => snd <$> return_matching_connection cx c key excluded
  | Op_reserve_used cx c key worker => snd <$> reserve_matching_used_connection cx c key worker
  | Op_add_matching cx c key => snd <$> add_matching_connection cx c key
  | Op_add_used c key => quietly (add_used_matching_connection c key)
  | Op_remove_used c => quietly (remove_used_connection c)
  | Op_remove_free c => quietly (remove_free_connection c)
  | Op_push c limits => quietly (push_generic c limits)
  | Op_ping c max_last_time_used => quietly (take_free_connection_for_ping c max_last_time_used)
  | Op_finish_ping c => quietly (polardb_finish_idle_ping c)
  | Op_trim max_free => quietly (polardb_trim_free_connections_to_max_unlocked max_free)
  | Op_set_status status => quietly (set_status status)
  | Op_delete c => quietly (delete_connection c)
  | Op_destroy c => quietly (destroy_MyConn_from_pool c)
  end.

(** What the callers guarantee: a connection they name exists, one they add is
    in no list, one they delete is not offered to others, operator new gives an
    unused address, and there are fewer than 2^32 connections. *)
Definition op_ready (o : server_op) (p : pool) : Prop :=
  match o with
  | Op_take_matching _ | Op_make_room _ | Op_trim _ | Op_set_status _ => True
  | Op_take_existing gs _ _ _ _ _ | Op_get_random gs _ _ _ _
  | Op_create_selected _ gs _ _ _ _ _ _ _ => pl_heap p !! (gt_new gs).1 = None
  | Op_return _ c _ _ | Op_reserve_used _ c _ _ | Op_remove_used c | Op_remove_free c
  | Op_push c _ | Op_finish_ping c => known p c
  | Op_add_matching _ c _ | Op_add_used c _ | Op_delete c => known p c /\ ~ in_pool p c
  | Op_ping c _ => known p c /\ Z.of_nat (size (pl_heap p)) < U32_MODULUS
  | Op_destroy c => known p c /\ c ∉ cl_conns (sv_free (pl_srv p))
  end.

Lemma quietly_served {A} (m : PM A) a l p p' :
  m p = Some (a, p') -> quiet p p' ->
  exists wake p'', quietly m p = Some (wake, p'') /\ served l p p'' wake.
Proof.
  intros H Q. unfold quietly. rewrite (bind_run _ _ _ _ _ H).
  exists None, p'. split; [done | by apply served_quiet].
Qed.

Lemma fmap_run {A B} (f : A -> B) (m : PM A) p a p' :
  m p = Some (a, p') -> (f <$> m) p = Some (f a, p').
Proof. intros H. unfold fmap, PM_fmap. by rewrite H. Qed.

Lemma return_served cx c key excluded l p :
  server_ok p -> known p c -> represents (pl_queue p) l -> tokens_free l p ->
  exists wake p', (snd <$> return_matching_connection cx c key excluded) p = Some (wake, p') /\
    served l p p' wake.
Proof.
  intros S Hk R F. destruct (return_spec cx c key excluded l p S Hk R F)
    as (status & wake & p' & H & E & _).
  rewrite (fmap_run _ _ _ _ _ H). exists wake, p'. split; [done | by eapply served_effect].
Qed.

Lemma reserve_used_served cx c key w l p :
  server_ok p -> known p c -> represents (pl_queue p) l -> tokens_free l p ->
  exists wake p', (snd <$> reserve_matching_used_connection cx c key w) p = Some (wake, p') /\
    served l p p' wake.
Proof.
  intros S Hk R F. destruct (reserve_used_spec cx c key w l p S Hk R F)
    as (status & wake & p' & H & S' & Hcase).
  rewrite (fmap_run _ _ _ _ _ H). exists wake, p'. split; [done |]. destruct status.
  - destruct Hcase as [-> ->]. by apply served_quiet, quiet_refl.
  - destruct Hcase as (-> & -> & _). by apply served_quiet, quiet_refl.
  - destruct Hcase as (r & snapshot & n & _ & Hn & -> & R' & Hc & Ei & Eh).
    split; [done | done | done |]. by exists n, r.
Qed.

Lemma add_matching_served cx c key l p :
  server_ok p -> known p c -> ~ in_pool p c -> represents (pl_queue p) l -> tokens_free l p ->
  exists wake p', (snd <$> add_matching_connection cx c key) p = Some (wake, p') /\
    served l p p' wake.
Proof.
  intros S [o Ho] Hout R F. unfold add_matching_connection.
  destruct (status_test (sv_status (pl_srv p))) as [[Hon E] | [Hon E]].
  - destruct (store_spec cx c key UINT32_MAX p o l S Ho Hout R F Hon) as (p' & wake & H & St).
    exists wake, p'. split; [| by eapply served_stored].
    apply (fmap_run snd _ p (true, wake)).
    rewrite (bind_run (server sv_status) _ p _ p eq_refl), E. done.
  - exists None, p. split; [| by apply served_quiet, quiet_refl].
    apply (fmap_run snd _ p (false, None)).
    by rewrite (bind_run (server sv_status) _ p _ p eq_refl), E.
Qed.

Lemma add_used_served c key l p :
  server_ok p -> known p c -> ~ in_pool p c ->
  exists wake p', quietly (add_used_matching_connection c key) p = Some (wake, p') /\
    served l p p' wake.
Proof.
  intros S Hk Hout.
  assert (H : exists b p', add_used_matching_connection c key p = Some (b, p') /\ quiet p p').
  { unfold add_used_matching_connection. rewrite (bind_run (server sv_status) _ p _ p eq_refl).
    destruct (status_test (sv_status (pl_srv p))) as [[Hon ->] | [Hon ->]].
    - destruct (add_calm true p c (Some key) S Hk Hout) as (p' & H & C & _).
      rewrite (bind_run _ _ _ _ _ H). exists true, p'. split; [done | by apply calm_quiet].
    - exists false, p. split; [done | by apply quiet_refl]. }
  destruct H as (b & p' & H & Q). by eapply quietly_served.
Qed.

(** Every operation runs, and at most one request of the queue is served. *)
Lemma op_served o l p :
  server_ok p -> represents (pl_queue p) l -> tokens_free l p -> op_ready o p ->
  exists wake p', run_server_op o p = Some (wake, p') /\ served l p p' wake.
Proof.
  intros S R F Hready.
  destruct o as [key|gs sess key mode max locked|gs sess ff po eo
    |cx gs vw hid key sess mode lg sg|preferred|cx c key ex|cx c key w
    |cx c key|c key|c|c|c limits|c t|c|max_free|status|c|c]; cbn [run_server_op op_ready] in *.
  - destruct (take_matching_run key p S) as (r & p' & H & C & _).
    by eapply quietly_served, calm_quiet.
  - destruct (take_existing_run pton4 pton6 gs sess key mode max locked p S Hready)
      as (r & p' & H & G). by eapply quietly_served, gv_quiet.
  - destruct (get_random_run pton4 pton6 gs sess ff po eo p S Hready) as (r & ds & p' & H & D).
    by eapply quietly_served, dr_quiet.
  - destruct (create_on_selected_run pton4 pton6 cx gs vw hid key sess mode lg sg p S Hready)
      as (r & p' & H & Q). by eapply quietly_served.
  - destruct (make_room_run preferred p S) as (b & ds & p' & H & C & _).
    by eapply quietly_served, calm_quiet, cr_calm.
  - by apply return_served.
  - by apply reserve_used_served.
  - destruct Hready. by apply add_matching_served.
  - destruct Hready. by apply add_used_served.
  - destruct (remove_used_connection_run c p S Hready) as (b & p' & H & C & _).
    by eapply quietly_served, calm_quiet.
  - destruct (remove_free_connection_run c p S Hready) as (b & p' & H & Q & _).
    by eapply quietly_served.
  - destruct (push_generic_run c limits p S Hready) as (r & p' & H & C & _).
    by eapply quietly_served, calm_quiet.
  - destruct Hready as [Hk Hsize]. destruct (ping_run c t p S Hk Hsize) as (r & p' & H & C & _).
    by eapply quietly_served, calm_quiet.
  - destruct (finish_ping_run c p S Hready) as (b & p' & H & C & _).
    by eapply quietly_served, calm_quiet.
  - destruct (trim_run max_free p S) as (r & p' & H & Q). by eapply quietly_served.
  - destruct (set_status_run status p S) as (ds & p' & H & Q & _). by eapply quietly_served.
  - destruct Hready as [Hk Hout]. destruct (delete_run c p S Hk Hout) as (p' & H & Q & _).
    by eapply quietly_served.
  - destruct Hready as [Hk Hf]. destruct (destroy_run c p S Hk Hf) as (p' & H & Q & _).
    by eapply quietly_served.
Qed.

End Traces.

(** ** A new server *)

Definition new_server (id hid max : Z) : PgSQL_SrvC :=
  mkSrvC id hid SERVER_ONLINE max empty_conn_list empty_conn_list 0 0 ∅ ∅ ∅ 0.

(** A connection object nothing was done with yet. *)
Definition new_conn (conn : PgSQL_Connection) : pool_conn := mkPoolConn conn 0 false false false 0 0.

Lemma new_server_ok (conns : gmap conn_id PgSQL_Connection) id hid max q :
  server_ok (mkPool (new_conn <$> conns) (new_server id hid max) q).
Proof.
  split; [| by intros t r H].
  assert (Hn : forall c k, ~ keyed (mkPool (new_conn <$> conns) (new_server id hid max) q) None c k).
  { intros c k [H _]. by apply elem_of_nil in H. }
  split; try done.
  - split; [done | apply NoDup_nil_2 | done].
  - split; [done | apply NoDup_nil_2 | done].
  - intros c H. by apply elem_of_nil in H.
  - split; [done | by intros c k H; apply Hn in H | done].
  - intros c o Ho Ht. cbn in Ho. rewrite lookup_fmap in Ho.
    by destruct (conns !! c); simplify_eq/=.
  - unfold pings. cbn. set (m := filter _ _). enough (m = ∅) as -> by done.
    apply map_empty. intros c. unfold m. apply map_lookup_filter_None. right.
    intros b Hb Ht. cbn in Ht. subst b. rewrite !lookup_fmap in Hb. by destruct (conns !! c).
Qed.
