(* ===== verification/ReaderWorker.v ===== *)
(** * Reservations and retention of a worker

    A worker (class PgSQL_Thread, lib/PgSQL_PolarDB_ReaderPool_Worker.cpp) asks
    for reader capacity on behalf of one waiting session at a time: it registers
    a request with a hostgroup, is woken through its queue of wakes when a
    returning connection was reserved for it, and takes or cancels the
    reservation.  Other threads route the wakes.  The state here has every
    worker, every server with its connections, and the request queue of every
    hostgroup. *)

From S2P Require Import Prelude Policy Startup Session Query Topology.
From S2P Require Import ServerList PoolConn Reader ReaderAcquire CapacityQueue ServerPool.
From Stdlib Require Import ZArith Ascii String List Bool Lia.
From stdpp Require Import base tactics list gmap strings.

Open Scope Z_scope.
Open Scope polar_scope.

(** ** Data *)

(** The wait of a session for reader capacity, and what it would reserve. *)
Record PolarDB_ReaderCapacityWaitState := mkCapacityWait {
  cw_active : bool;
  cw_last_status : PolarDB_ReaderStatus;
  cw_scope_hash : Z;
  cw_plan : PolarDB_Query_ReaderPlan;
  cw_wait_spec : PolarDB_WaitSpec;
  cw_server : option srv_id;
  cw_server_snapshot : option PolarDB_ServerListSnapshot;
  cw_profile_generation : Z;
  cw_pool_key : PolarDB_PoolKey
}.

#[global] Instance upd_cw_server_snapshot : Update cw_server_snapshot.
Proof. derive_update. Defined.

Record waiting_session := mkWaitingSession {
  ws_session_id : Z;                  (** thread_session_id *)
  ws_current_hostgroup : Z;
  ws_pool : pool_session;
  ws_wait : PolarDB_ReaderCapacityWaitState
}.

(** A connection a worker holds, cached or attached to a session. *)
Record held_connection := mkHeld {
  hc_conn : PgSQL_Connection;
  hc_reusable : bool;
  hc_in_transaction : bool;           (** IsActiveTransaction() *)
  hc_multiplex_disabled : bool        (** MultiplexDisabled() *)
}.

Record PolarDB_ReaderPoolWorkerReservationState := mkWorkerReservation {
  wr_token : Z;
  wr_session_id : Z;
  wr_scope_hash : Z;
  wr_hostgroup : option Z;
  wr_server : option srv_id;
  wr_server_snapshot : option PolarDB_ServerListSnapshot;
  wr_profile_generation : Z;
  wr_pool_key : PolarDB_PoolKey
}.

#[global] Instance upd_wr_server : Update wr_server.
Proof. derive_update. Defined.
#[global] Instance upd_wr_server_snapshot : Update wr_server_snapshot.
Proof. derive_update. Defined.

(** [clear_local] *)
Definition no_worker_reservation : PolarDB_ReaderPoolWorkerReservationState :=
  mkWorkerReservation 0 0 0 None None None 0 no_pool_key.

Definition wr_active (r : PolarDB_ReaderPoolWorkerReservationState) : bool :=
  negb (wr_token r =? 0) && (wr_hostgroup r != None).

Definition has_connection (r : PolarDB_ReaderPoolWorkerReservationState) : bool :=
  wr_active r && (wr_server r != None).

Record PolarDB_ReaderRetentionState := mkRetention {
  rn_scope_hash : Z;
  rn_hostgroup : option Z;
  rn_hostgroup_id : Z;
  rn_profile_generation : Z;
  rn_pool_key : PolarDB_PoolKey;
  rn_plan : PolarDB_Query_ReaderPlan;
  rn_wait_spec : PolarDB_WaitSpec
}.

Definition retention_active (r : PolarDB_ReaderRetentionState) : bool :=
  negb (rn_scope_hash r =? 0) && (rn_hostgroup r != None) &&
  negb (rn_profile_generation r =? 0) && negb (pool_key_empty (rn_pool_key r)).

Record wake_notification := mkNotification {
  wn_token : Z;
  wn_server : srv_id;
  wn_server_snapshot : PolarDB_ServerListSnapshot
}.

(** [th_cached] are the connections of the worker's cache, [th_attached] those of
    the backend stream of its sessions. *)
Record PgSQL_Thread := mkThread {
  th_worker_index : Z;
  th_reservation : PolarDB_ReaderPoolWorkerReservationState;
  th_retention : PolarDB_ReaderRetentionState;
  th_wait_scopes : list (Z * Z);      (** scope hash and count of waiters *)
  th_cached : list held_connection;
  th_attached : list (option held_connection);
  th_wakes : list wake_notification;
  th_wake_pending : bool;
  th_shutdown : bool
}.

#[global] Instance upd_th_reservation : Update th_reservation.
Proof. derive_update. Defined.
#[global] Instance upd_th_retention : Update th_retention.
Proof. derive_update. Defined.
#[global] Instance upd_th_wakes : Update th_wakes.
Proof. derive_update. Defined.
#[global] Instance upd_th_wake_pending : Update th_wake_pending.
Proof. derive_update. Defined.

(** The whole: servers with the connections whose parent they are, request
    queues of hostgroups, workers, the slots the threads handler has workers in,
    and the next token. *)
Record reader_system := mkReaderSystem {
  sy_servers : gmap srv_id (gmap conn_id pool_conn * PgSQL_SrvC);
  sy_queues : gmap Z capacity_queue;
  sy_threads : gmap Z PgSQL_Thread;
  sy_attached : gset Z;
  sy_handler_shutdown : bool;
  sy_next_token : Z
}.

#[global] Instance upd_sy_servers : Update sy_servers.
Proof. derive_update. Defined.
#[global] Instance upd_sy_queues : Update sy_queues.
Proof. derive_update. Defined.
#[global] Instance upd_sy_threads : Update sy_threads.
Proof. derive_update. Defined.
#[global] Instance upd_sy_attached : Update sy_attached.
Proof. derive_update. Defined.
#[global] Instance upd_sy_handler_shutdown : Update sy_handler_shutdown.
Proof. derive_update. Defined.
#[global] Instance upd_sy_next_token : Update sy_next_token.
Proof. derive_update. Defined.

(** ** State with assertions *)

Definition SM (A : Type) : Type := reader_system -> option (A * reader_system).

#[global] Instance SM_ret : MRet SM := fun A a y => Some (a, y).
#[global] Instance SM_bind : MBind SM := fun A B f m y =>
  match m y with
  | Some (a, y') => f a y'
  | None => None
  end.

#[global] Instance SM_fmap : FMap SM := fun A B f m y =>
  match m y with
  | Some (a, y') => Some (f a, y')
  | None => None
  end.

(** An operation of the pool of a server, on the server and the request queue of
    its hostgroup. *)
Definition on_server {A} (s : srv_id) (m : PM A) : SM A := fun y =>
  '(heap, srv) ← sy_servers y !! s;
  q ← sy_queues y !! sv_hid srv;
  '(a, p) ← m (mkPool heap srv q);
  Some (a, y <| sy_servers := <[s := (pl_heap p, pl_srv p)]> (sy_servers y) |>
             <| sy_queues := <[sv_hid srv := pl_queue p]> (sy_queues y) |>).

Definition on_queue {A} (hid : Z) (f : capacity_queue -> option (A * capacity_queue)) : SM A :=
  fun y =>
  q ← sy_queues y !! hid;
  '(a, q') ← f q;
  Some (a, y <| sy_queues := <[hid := q']> (sy_queues y) |>).

Definition thread_field {A} (w : Z) (f : PgSQL_Thread -> A) : SM A := fun y =>
  th ← sy_threads y !! w; Some (f th, y).

Definition with_thread (w : Z) (f : PgSQL_Thread -> PgSQL_Thread) : SM () := fun y =>
  th ← sy_threads y !! w; Some ((), y <| sy_threads := <[w := f th]> (sy_threads y) |>).

Definition system {A} (f : reader_system -> A) : SM A := fun y => Some (f y, y).

(** ** Matching a connection *)

Section Worker.
Context (cx : reader_context).

Definition can_serve (hid : Z) (server : srv_id) (plan : PolarDB_Query_ReaderPlan)
    (wait_spec : PolarDB_WaitSpec) : bool :=
  server_can_serve_request cx hid server plan wait_spec None (-1) != None.

Definition polardb_reader_connection_matches_requirements (conn : option held_connection)
    (active_connection : bool) (profile_generation : Z) (pool_key : PolarDB_PoolKey)
    (hostgroup_id : Z) (plan : PolarDB_Query_ReaderPlan) (wait_spec : PolarDB_WaitSpec) : bool :=
  match conn with
  | None => false
  | Some h =>
      let c := hc_conn h in
      match cn_parent c with
      | None => false
      | Some server =>
          negb ((profile_generation =? 0) || pool_key_empty pool_key || negb (hc_reusable h) ||
                hc_in_transaction h || hc_multiplex_disabled h || cn_xids_dirty c ||
                (negb active_connection && negb (cn_idle c)) ||
                negb (cn_profile_generation c =? profile_generation) ||
                negb (pool_key_eq (cn_pool_key c) pool_key)) &&
          can_serve hostgroup_id server plan wait_spec
      end
  end.

Definition polardb_reader_connection_matches_wait (conn : option held_connection)
    (sess : option waiting_session) (active_connection : bool) : bool :=
  match sess with
  | None => false
  | Some x =>
      let wait := ws_wait x in
      if (ws_current_hostgroup x <? 0) || negb (cw_active wait) ||
         (cw_profile_generation wait =? 0) || pool_key_empty (cw_pool_key wait)
      then false
      else
        polardb_reader_connection_matches_requirements conn active_connection
          (cw_profile_generation wait) (cw_pool_key wait) (wrap32 (ws_current_hostgroup x))
          (cw_plan wait) (cw_wait_spec wait)
  end.

(** ** Retention *)

Definition polardb_reader_wait_scope_active (scope_hash : Z) (th : PgSQL_Thread) : bool :=
  if scope_hash =? 0 then false
  else existsb (fun '(scope, count) => (scope =? scope_hash) && (0 <? count)) (th_wait_scopes th).

Definition polardb_reader_connection_matches_retention_requirements
    (conn : option held_connection) (active_connection : bool) (th : PgSQL_Thread) : bool :=
  let r := th_retention th in
  if negb (retention_active r) then false
  else polardb_reader_connection_matches_requirements conn active_connection
         (rn_profile_generation r) (rn_pool_key r) (rn_hostgroup_id r) (rn_plan r) (rn_wait_spec r).

Definition polardb_reader_matches_retention (conn : option held_connection) (th : PgSQL_Thread)
  : bool :=
  polardb_reader_wait_scope_active (rn_scope_hash (th_retention th)) th &&
  polardb_reader_connection_matches_retention_requirements conn false th.

Definition no_retention : PolarDB_ReaderRetentionState :=
  mkRetention 0 None 0 0 no_pool_key empty_reader_plan no_wait.

Definition polardb_reader_start_retention (scope_hash : Z) (hostgroup : option Z)
    (hostgroup_id profile_generation : Z) (pool_key : PolarDB_PoolKey)
    (plan : PolarDB_Query_ReaderPlan) (wait_spec : PolarDB_WaitSpec) (th : PgSQL_Thread)
  : PgSQL_Thread :=
  th <| th_retention := mkRetention scope_hash hostgroup hostgroup_id profile_generation pool_key
                          plan wait_spec |>.

(** [hostgroup]: of the server of the wait. *)
Definition polardb_reader_adopt_retention (sess : option waiting_session)
    (hostgroup : option Z) (th : PgSQL_Thread) : PgSQL_Thread :=
  match sess with
  | None => th
  | Some x =>
      let wait := ws_wait x in
      if retention_active (th_retention th) || negb (cw_active wait) ||
         (ws_current_hostgroup x <? 0) || (cw_server wait == None) || (hostgroup == None) ||
         (cw_profile_generation wait =? 0) || pool_key_empty (cw_pool_key wait)
      then th
      else polardb_reader_start_retention (cw_scope_hash wait) hostgroup
             (wrap32 (ws_current_hostgroup x)) (cw_profile_generation wait) (cw_pool_key wait)
             (cw_plan wait) (cw_wait_spec wait) th
  end.

Definition polardb_reader_clear_inactive_retention (th : PgSQL_Thread) : PgSQL_Thread :=
  if negb (retention_active (th_retention th)) ||
     polardb_reader_wait_scope_active (rn_scope_hash (th_retention th)) th
  then th
  else th <| th_retention := no_retention |>.

(** ** What the worker holds already *)

Definition ownership_of_reservation (x : waiting_session) (th : PgSQL_Thread) : bool :=
  let r := th_reservation th in
  let wait := ws_wait x in
  has_connection r && (wr_scope_hash r =? cw_scope_hash wait) &&
  (wr_profile_generation r =? cw_profile_generation wait) &&
  pool_key_eq (wr_pool_key r) (cw_pool_key wait) &&
  match wr_server r with
  | Some server =>
      (0 <=? ws_current_hostgroup x) &&
      can_serve (wrap32 (ws_current_hostgroup x)) server (cw_plan wait) (cw_wait_spec wait)
  | None => false
  end.

Definition polardb_reader_ownership (sess : option waiting_session) (th : PgSQL_Thread)
  : PolarDB_ReaderOwnership :=
  match sess with
  | None => Ownership_NONE
  | Some x =>
      if negb (cw_active (ws_wait x)) then Ownership_NONE
      else if ownership_of_reservation x th then Ownership_RESERVATION
      else if existsb (fun h => polardb_reader_connection_matches_wait (Some h) sess false)
                (th_cached th)
      then Ownership_LOCAL
      else if existsb (fun h => polardb_reader_connection_matches_wait h sess true)
                (th_attached th)
      then Ownership_ACTIVE
      else Ownership_NONE
  end.

(** ** Wakes *)

(** [write_ok]: the pipe took the byte, or was full. *)
Definition polardb_queue_reader_reservation_wake (n : wake_notification) (write_ok : bool)
    (th : PgSQL_Thread) : bool * PgSQL_Thread :=
  if th_shutdown th || (wn_token n =? 0) then (false, th)
  else if th_wake_pending th then (true, th <| th_wakes := th_wakes th ++ [n] |>)
  else if write_ok
  then (true, th <| th_wakes := th_wakes th ++ [n] |> <| th_wake_pending := true |>)
  else (false, th).

(** The threads handler: the worker must still be in its slot. *)
Definition handler_queue_wake (wake : PolarDB_ReaderPoolReservationWake) (write_ok : bool)
  : SM bool := fun y =>
  if sy_handler_shutdown y || negb (bool_decide (wk_worker_index wake ∈ sy_attached y))
  then Some (false, y)
  else
    match sy_threads y !! wk_worker_index wake with
    | None => Some (false, y)
    | Some th =>
        let '(queued, th') := polardb_queue_reader_reservation_wake
          (mkNotification (wk_token wake) (wk_server wake) (wk_snapshot wake)) write_ok th in
        Some (queued, y <| sy_threads := <[wk_worker_index wake := th']> (sy_threads y) |>)
    end.

(** One turn of the loop: the wake is queued, or its reservation is cancelled and
    the next wake is left. *)
Definition route_once (wake : PolarDB_ReaderPoolReservationWake) (write_ok : bool)
  : SM (option PolarDB_ReaderPoolReservationWake) :=
  queued ← handler_queue_wake wake write_ok;
  if queued : bool then mret None
  else
    snd <$> on_server (wk_server wake)
              (cancel_reader_pool_reservation cx (wk_worker_index wake) (wk_token wake)).

(** The loop; [writes] are the outcomes of the pipe writes.  What is left is a
    wake the fuel did not suffice for. *)
Fixpoint polardb_route_reader_reservation_wake (fuel : nat) (writes : nat -> bool)
    (wake : option PolarDB_ReaderPoolReservationWake)
  : SM (option PolarDB_ReaderPoolReservationWake) :=
  match fuel, wake with
  | _, None => mret None
  | O, Some _ => mret wake
  | S fuel, Some wk =>
      next ← route_once wk (writes fuel);
      polardb_route_reader_reservation_wake fuel writes next
  end.

(** ** Registering, cancelling and taking *)

(** The hostgroup of a server. *)
Definition myhgc (s : srv_id) : SM (option Z) :=
  system (fun y => (fun e => sv_hid (snd e)) <$> sy_servers y !! s).

(** [next_token.fetch_add]; zero is passed over. *)
Definition draw_token : SM Z := fun y =>
  let t := sy_next_token y in
  if t =? 0 then Some (1, y <| sy_next_token := 2 |>)
  else Some (t, y <| sy_next_token := wrap64 (t + 1) |>).

Definition may_register (w : Z) (sess : option waiting_session) (th : PgSQL_Thread) : bool :=
  match sess with
  | None => false
  | Some x =>
      let wait := ws_wait x in
      negb (wr_active (th_reservation th)) && negb (w =? UINT32_MAX) && cw_active wait &&
      (cw_last_status wait == READER_GROUP_BUSY) && (cw_server wait != None) &&
      (cw_server_snapshot wait != None) && negb (cw_profile_generation wait =? 0) &&
      negb (pool_key_empty (cw_pool_key wait))
  end.

(** The request itself, from the token on; the session's snapshot moves to the
    worker. *)
Definition register_request (w : Z) (x : waiting_session) (hostgroup : option Z)
  : SM waiting_session :=
  let wait := ws_wait x in
  token ← draw_token;
  match hostgroup with
  | None => mret x
  | Some hid =>
      registered ← on_queue hid (fun q => Some (register_reader_pool_capacity_request
        (mkRequest w token (cw_scope_hash wait)
           (pgsql_pool_match_key (cw_profile_generation wait) (cw_pool_key wait))
           (cw_plan wait) (cw_wait_spec wait)) q));
      if negb registered then mret x
      else
        with_thread w (fun th => th <| th_reservation :=
          mkWorkerReservation token (ws_session_id x) (cw_scope_hash wait) (Some hid) None
            (cw_server_snapshot wait) (cw_profile_generation wait) (cw_pool_key wait) |>);;
        mret (mkWaitingSession (ws_session_id x) (ws_current_hostgroup x) (ws_pool x)
                (wait <| cw_server_snapshot := None |>))
  end.

Definition polardb_register_reader_capacity_request (w : Z) (sess : option waiting_session)
  : SM (option waiting_session) :=
  th ← thread_field w id;
  if negb (may_register w sess th) then mret sess
  else
    match sess with
    | None => mret sess
    | Some x =>
        let ownership := polardb_reader_ownership sess th in
        hostgroup ← match cw_server (ws_wait x) with
                    | Some s => myhgc s
                    | None => mret None
                    end;
        (if (ownership == Ownership_LOCAL) || (ownership == Ownership_ACTIVE)
         then with_thread w (polardb_reader_adopt_retention sess hostgroup) else mret ());;
        if negb (polardb_reader_pool_capacity_request_should_register
                   (cw_last_status (ws_wait x)) ownership)
        then mret sess
        else Some <$> register_request w x hostgroup
    end.

Definition clear_local (w : Z) : SM () :=
  with_thread w (fun th => th <| th_reservation := no_worker_reservation |>).

(** [session_id] zero cancels for every session.  The wake left is for the
    caller to route. *)
Definition polardb_cancel_reader_reservation (w session_id : Z)
  : SM (option PolarDB_ReaderPoolReservationWake) :=
  th ← thread_field w id;
  let r := th_reservation th in
  if negb (wr_active r) || (negb (session_id =? 0) && negb (wr_session_id r =? session_id))
  then mret None
  else
    next ← match wr_server r, wr_hostgroup r with
           | Some s, _ => snd <$> on_server s (cancel_reader_pool_reservation cx
                                    (th_worker_index th) (wr_token r))
           | None, Some hid =>
               on_queue hid (cancel_reader_pool_capacity_request (th_worker_index th) (wr_token r));;
               mret None
           | None, None => mret None
           end;
    clear_local w;;
    mret next.

(** What a take did, for the caller. *)
Inductive taken := Taken_nothing | Taken_cancelled | Taken_waiting | Taken_lost | Taken_missing
| Taken_conn (c : conn_id).

(** [current]: the session may still be served under the key of the reservation
    by its server. *)
Definition polardb_take_reader_reservation (w : Z) (sess : option waiting_session)
    (current : bool) : SM (taken * option PolarDB_ReaderPoolReservationWake) :=
  th ← thread_field w id;
  let r := th_reservation th in
  match sess with
  | None => mret (Taken_nothing, None)
  | Some x =>
      if negb (has_connection r) || negb (wr_session_id r =? ws_session_id x)
      then mret (Taken_nothing, None)
      else if negb (cw_active (ws_wait x)) || negb current then
        next ← polardb_cancel_reader_reservation w (ws_session_id x);
        mret (Taken_cancelled, next)
      else
        match wr_server r with
        | None => mret (Taken_nothing, None)
        | Some s =>
            status ← on_server s (take_reader_pool_reservation (th_worker_index th) (wr_token r));
            match status with
            | Take_PENDING => mret (Taken_waiting, None)
            | Take_RETIRED _ => clear_local w;; mret (Taken_lost, None)
            | Take_MISSING => clear_local w;; mret (Taken_missing, None)
            | Take_ACQUIRED c =>
                hid ← myhgc s;
                with_thread w (polardb_reader_start_retention (wr_scope_hash r) (wr_hostgroup r)
                  (default UINT32_MAX hid) (wr_profile_generation r) (wr_pool_key r)
                  (cw_plan (ws_wait x)) (cw_wait_spec (ws_wait x)));;
                clear_local w;;
                mret (Taken_conn c, None)
            end
        end
  end.

(** ** Processing wakes *)

Definition exchange_wake_pending (w : Z) : SM bool :=
  pending ← thread_field w th_wake_pending;
  with_thread w (fun th => th <| th_wake_pending := false |>);;
  mret pending.

Definition swap_wakes (w : Z) : SM (list wake_notification) :=
  wakes ← thread_field w th_wakes;
  with_thread w (fun th => th <| th_wakes := [] |>);;
  mret wakes.

(** The wake of the current reservation fills it in; another one is cancelled.
    The verdict is [reservation_ready]. *)
Definition process_wake (w : Z) (n : wake_notification)
  : SM (bool * option PolarDB_ReaderPoolReservationWake) :=
  th ← thread_field w id;
  let r := th_reservation th in
  if wr_active r && (wr_token r =? wn_token n) then
    with_thread w (fun th => th <| th_reservation :=
      r <| wr_server := Some (wn_server n) |>
        <| wr_server_snapshot := Some (wn_server_snapshot n) |> |>);;
    mret (true, None)
  else
    '(_, next) ← on_server (wn_server n)
                   (cancel_reader_pool_reservation cx (th_worker_index th) (wn_token n));
    mret (false, next).

Fixpoint process_each (fuel : nat) (writes : nat -> bool) (w : Z)
    (wakes : list wake_notification) : SM bool :=
  match wakes with
  | [] => mret false
  | n :: wakes =>
      '(ready, next) ← process_wake w n;
      polardb_route_reader_reservation_wake fuel writes next;;
      rest ← process_each fuel writes w wakes;
      mret (ready || rest)
  end.

(** Nobody else runs between the steps here; [ReservationProtocol] has them one
    by one. *)
Definition polardb_process_reader_reservation_wakes (fuel : nat) (writes : nat -> bool) (w : Z)
  : SM bool :=
  pending ← exchange_wake_pending w;
  if negb pending then mret false
  else wakes ← swap_wakes w; process_each fuel writes w wakes.

(** The end of a worker, as far as its reservation goes. *)
Definition release_worker (fuel : nat) (writes : nat -> bool) (w : Z) : SM () :=
  polardb_process_reader_reservation_wakes fuel writes w;;
  next ← polardb_cancel_reader_reservation w 0;
  polardb_route_reader_reservation_wake fuel writes next;;
  with_thread w (fun th => th <| th_retention := no_retention |>).

(** ** Slots of the threads handler *)

Definition polardb_attach_worker (worker_index num_threads : Z) (th : PgSQL_Thread) : SM bool :=
  fun y =>
  if (num_threads <=? worker_index) || bool_decide (worker_index ∈ sy_attached y) ||
     sy_handler_shutdown y
  then Some (false, y)
  else Some (true, y <| sy_attached := {[worker_index]} ∪ sy_attached y |>
                     <| sy_threads := <[worker_index :=
                          mkThread worker_index (th_reservation th) (th_retention th)
                            (th_wait_scopes th) (th_cached th) (th_attached th) (th_wakes th)
                            (th_wake_pending th) (th_shutdown th)]> (sy_threads y) |>).

Definition polardb_detach_worker (worker_index : Z) : SM bool := fun y =>
  if bool_decide (worker_index ∈ sy_attached y)
  then Some (true, y <| sy_attached := sy_attached y ∖ {[worker_index]} |>)
  else Some (false, y).

(** ** Sharing a retained connection *)

Section Retained.
Context (limits : option pool_limits).

(** [reserve_retained_reader_connection], with the wake to route. *)
Definition reserve_retained_reader_connection (c : conn_id) (conn : PgSQL_Connection)
    (expected_match_key : PgSQL_PoolMatchKey) (returning_worker_index : Z)
  : SM (PolarDB_ReaderRemoteReservationResult * option PolarDB_ReaderPoolReservationWake) :=
  match cn_parent conn, limits with
  | Some server, Some lim =>
      if match_key_empty expected_match_key || (returning_worker_index =? UINT32_MAX) ||
         negb (cn_idle conn) ||
         (wrap32 (lm_query_length lim) <? cn_largest_query_length conn) ||
         (wrap32 (lm_stmts lim) <? cn_num_backend_stmts conn)
      then mret (Remote_CONNECTION_INVALID, None)
      else
        match connection_return_decision (rx_hgm cx) (rx_proxy_protocol cx) (rx_profile_off cx)
                limits (fun s => rs_facts (rx_live cx s)) (rx_home cx) conn with
        | (Return_RETURNABLE, key, conn') =>
            if key != expected_match_key then mret (Remote_CONNECTION_INVALID, None)
            else
              on_server server
                (with_conn (fun o => o <| pc_conn := conn' |>) c;;
                 reserve_matching_used_connection cx c key returning_worker_index)
        | _ => mret (Remote_CONNECTION_INVALID, None)
        end
  | _, _ => mret (Remote_CONNECTION_INVALID, None)
  end.

(** [None]: not attempted. *)
Definition polardb_reader_try_reserve_retained_connection (w : Z) (c : conn_id)
    (h : held_connection)
  : SM (option PolarDB_ReaderRemoteReservationResult * option PolarDB_ReaderPoolReservationWake) :=
  th ← thread_field w id;
  let r := th_retention th in
  if negb (retention_active r) || (w =? UINT32_MAX) ||
     negb (polardb_reader_connection_matches_retention_requirements (Some h) false th)
  then mret (None, None)
  else
    let key := pgsql_pool_match_key (rn_profile_generation r) (rn_pool_key r) in
    wanted ← match rn_hostgroup r with
             | Some hid => on_queue hid (fun q =>
                 Some (has_reader_pool_capacity_request_for_another_worker key w q, q))
             | None => mret false
             end;
    if negb wanted then mret (None, None)
    else
      '(result, wake) ← reserve_retained_reader_connection c (hc_conn h) key w;
      with_thread w polardb_reader_clear_inactive_retention;;
      mret (Some result, wake).

End Retained.

(** ** The key of a session's reservation *)

Definition reader_pool_reservation_match_key (pton4 : string -> option Z)
    (pton6 : string -> option (list Z)) (hostgroup_id : Z) (sess : pool_session)
    (wait_spec : PolarDB_WaitSpec) : option PgSQL_PoolMatchKey * pool_session :=
  let hg_config := get_polardb_hg_config (rx_hgm cx) hostgroup_id in
  if negb (hc_is_polardb_hostgroup hg_config) then (None, sess)
  else
    let profile := polardb_startup_profile_for_config hg_config (rx_proxy_protocol cx)
                     (rx_profile_off cx) in
    if has_wait wait_spec && negb (requests_rfq_lsn profile) then (None, sess)
    else
      let '(request, sess) := polardb_prepare_pool_request_for_session pton4 pton6 (rx_ids cx)
                                profile false (negb (wsp_target wait_spec =? 0)) sess in
      let key := polardb_core_pool_match_key_for_request request in
      ((if match_key_empty key then None else Some key), sess).

(** Whether the session may still take the reservation of the worker. *)
Definition reservation_current (pton4 : string -> option Z) (pton6 : string -> option (list Z))
    (hid : option Z) (x : waiting_session) (r : PolarDB_ReaderPoolWorkerReservationState)
  : bool :=
  match hid, wr_server r with
  | Some hostgroup_id, Some server =>
      negb (hostgroup_id =? UINT32_MAX) && (wrap32 (ws_current_hostgroup x) =? hostgroup_id) &&
      match fst (reader_pool_reservation_match_key pton4 pton6 hostgroup_id (ws_pool x)
                   (cw_wait_spec (ws_wait x))) with
      | Some key => key == pgsql_pool_match_key (wr_profile_generation r) (wr_pool_key r)
      | None => false
      end && can_serve hostgroup_id server (cw_plan (ws_wait x)) (cw_wait_spec (ws_wait x))
  | _, _ => false
  end.

End Worker.
