(* ===== verification/ReservationLedger.v ===== *)
(** * Who holds a reservation

    A ledger says for every live token which worker it belongs to and where it
    is: a request in the queue of a hostgroup, or a claim on a server held by a
    wake on its way, by a queued wake, or by the worker's reservation.  The
    servers, the queues, the wakes and the workers agree with the ledger, and an
    operation changes them the way it changes one entry. *)

From S2P Require Import Prelude Policy Startup Session Query Topology.
From S2P Require Import ServerList PoolConn Reader ReaderAcquire CapacityQueue ServerPool.
From S2P Require Import PoolSafety Reservations PoolOperations PoolTraces ReaderWorker.
From Stdlib Require Import ZArith Ascii String List Bool Lia.
From stdpp Require Import base tactics list gmap strings.

Open Scope Z_scope.
Open Scope polar_scope.

(** ** The ledger *)

Inductive place :=
| InQueue (hid : Z)
| InFlight (s : srv_id)
| InWakes (s : srv_id)
| InHand (s : srv_id).

Definition place_server (pl : place) : option srv_id :=
  match pl with
  | InQueue _ => None
  | InFlight s | InWakes s | InHand s => Some s
  end.

Notation ledger := (gmap Z (Z * place)).

Implicit Types (G : ledger) (servers : gmap srv_id (gmap conn_id pool_conn * PgSQL_SrvC)).
Implicit Types (queues : gmap Z capacity_queue) (threads : gmap Z PgSQL_Thread).
Implicit Types (l : list entry) (flight : list PolarDB_ReaderPoolReservationWake).

(** ** Servers and queues *)

(** The requests [l] of hostgroup [h] are those the ledger has in its queue. *)
Definition queued G (h : Z) l : Prop :=
  forall t w, (exists n r, (n, r) ∈ l /\ cr_token r = t /\ cr_worker_index r = w) <->
              G !! t = Some (w, InQueue h).

Record pools_ok servers queues G : Prop := {
  po_server s heap srv : servers !! s = Some (heap, srv) ->
    sv_id srv = s /\ is_Some (queues !! sv_hid srv) /\
    forall q, server_ok (mkPool heap srv q);
  po_queue h q : queues !! h = Some q -> exists l, represents q l /\ queued G h l;
  po_claim s heap srv t w : servers !! s = Some (heap, srv) ->
    claims_of srv !! t = Some w <-> exists pl, G !! t = Some (w, pl) /\ place_server pl = Some s;
  po_known t w pl s : G !! t = Some (w, pl) -> place_server pl = Some s -> is_Some (servers !! s)
}.

Lemma server_ok_queue p q : server_ok p -> server_ok (with_q q p).
Proof.
  intros [W A]. split; [by apply with_q_wf |]. intros t r.
  destruct (with_q_parts q p) as (-> & _). apply A.
Qed.

Lemma server_ok_any heap srv q q' : server_ok (mkPool heap srv q) -> server_ok (mkPool heap srv q').
Proof. intros S. exact (server_ok_queue _ q' S). Qed.

(** The view of a server that an operation on it has. *)
Record view servers queues G (s : srv_id) (p : pool) l : Prop := {
  vw_server : servers !! s = Some (pl_heap p, pl_srv p);
  vw_queue : queues !! sv_hid (pl_srv p) = Some (pl_queue p);
  vw_ok : server_ok p;
  vw_represents : represents (pl_queue p) l;
  vw_queued : queued G (sv_hid (pl_srv p)) l;
  vw_free : tokens_free l p
}.

Lemma claims_free servers queues G s heap srv t w h :
  pools_ok servers queues G -> servers !! s = Some (heap, srv) ->
  G !! t = Some (w, InQueue h) -> claims_of srv !! t = None.
Proof.
  intros P Hs Hg. destruct (claims_of srv !! t) as [w'|] eqn:Hc; [| done].
  apply (po_claim _ _ _ P _ _ _ _ _ Hs) in Hc as (pl & Hg' & Hpl). naive_solver.
Qed.

Lemma pools_view servers queues G s :
  pools_ok servers queues G -> is_Some (servers !! s) -> exists p l, view servers queues G s p l.
Proof.
  intros P [[heap srv] Hs]. destruct (po_server _ _ _ P _ _ _ Hs) as (Hid & [q Hq] & S).
  destruct (po_queue _ _ _ P _ _ Hq) as (l & R & Hl).
  exists (mkPool heap srv q), l. split; try done.
  intros n r Hn. assert (Hg : G !! cr_token r = Some (cr_worker_index r, InQueue (sv_hid srv))).
  { apply Hl. by exists n, r. }
  by eapply claims_free.
Qed.

(** The wake of an operation moved a request of a queue to the server. *)
Definition handed (s : srv_id) (wake : option PolarDB_ReaderPoolReservationWake) G G' : Prop :=
  match wake with
  | None => G' = G
  | Some wk =>
      wk_server wk = s /\ (exists h, G !! wk_token wk = Some (wk_worker_index wk, InQueue h)) /\
      G' = <[wk_token wk := (wk_worker_index wk, InFlight s)]> G
  end.

Definition put_back (s : srv_id) (p : pool) servers := <[s := (pl_heap p, pl_srv p)]> servers.
Definition put_queue (p : pool) queues := <[sv_hid (pl_srv p) := pl_queue p]> queues.

Section View.
Context (servers : gmap srv_id (gmap conn_id pool_conn * PgSQL_SrvC)) (queues : gmap Z capacity_queue).
Context (G : ledger) (s : srv_id) (p : pool) (l : list entry).
Context (P : pools_ok servers queues G) (V : view servers queues G s p l).

Lemma view_claims t w :
  claims p !! t = Some w <-> exists pl, G !! t = Some (w, pl) /\ place_server pl = Some s.
Proof. exact (po_claim _ _ _ P _ _ _ t w (vw_server _ _ _ _ _ _ V)). Qed.

Lemma view_queued t w :
  (exists n r, (n, r) ∈ l /\ cr_token r = t /\ cr_worker_index r = w) <->
  G !! t = Some (w, InQueue (sv_hid (pl_srv p))).
Proof. apply (vw_queued _ _ _ _ _ _ V). Qed.

Lemma view_id : sv_id (pl_srv p) = s.
Proof. by destruct (po_server _ _ _ P _ _ _ (vw_server _ _ _ _ _ _ V)). Qed.

(** The server changed to [p'], the ledger to [G']. *)
Lemma pools_update (p' : pool) G' l' :
  server_ok p' -> sv_id (pl_srv p') = s -> sv_hid (pl_srv p') = sv_hid (pl_srv p) ->
  represents (pl_queue p') l' -> queued G' (sv_hid (pl_srv p)) l' ->
  (forall h t w, h <> sv_hid (pl_srv p) ->
     G' !! t = Some (w, InQueue h) <-> G !! t = Some (w, InQueue h)) ->
  (forall t w, claims p' !! t = Some w <->
     exists pl, G' !! t = Some (w, pl) /\ place_server pl = Some s) ->
  (forall t w s', s' <> s ->
     (exists pl, G' !! t = Some (w, pl) /\ place_server pl = Some s') <->
     (exists pl, G !! t = Some (w, pl) /\ place_server pl = Some s')) ->
  pools_ok (put_back s p' servers) (put_queue p' queues) G'.
Proof.
  intros S' Hid Hh R' Hl' Hoq Hc Hoc. unfold put_back, put_queue. split.
  - intros s' heap srv [[<- [= <- <-]] | [Hne Hs]]%lookup_insert_Some.
    + split; [done |]. split; [rewrite lookup_insert_eq; by eexists |].
      intros q. apply (server_ok_any _ _ (pl_queue p')). by destruct p'.
    + destruct (po_server _ _ _ P _ _ _ Hs) as (? & [q Hq] & ?). split; [done |]. split; [| done].
      rewrite lookup_insert. case_decide; eauto.
  - intros h q [[<- <-] | [Hne Hq]]%lookup_insert_Some.
    + exists l'. split; [done |]. by rewrite Hh.
    + destruct (po_queue _ _ _ P _ _ Hq) as (k & R & Hk). exists k. split; [done |].
      intros t w. rewrite Hoq by congruence. apply Hk.
  - intros s' heap srv t w [[<- [= <- <-]] | [Hne Hs]]%lookup_insert_Some; [by apply Hc |].
    rewrite Hoc by done. apply (po_claim _ _ _ P _ _ _ t w Hs).
  - intros t w pl s' Hg Hpl. rewrite lookup_insert. case_decide; [eauto |].
    destruct (proj1 (Hoc t w s' ltac:(congruence))) as (pl' & Hg' & Hpl'); [by exists pl |].
    exact (po_known _ _ _ P _ _ _ _ Hg' Hpl').
Qed.

Lemma queued_erased n r :
  (n, r) ∈ l -> queued (delete (cr_token r) G) (sv_hid (pl_srv p)) (erased l n).
Proof.
  intros Hn t w. rewrite lookup_delete_Some, <-view_queued. split.
  - intros (m & e & [Hm Hmn]%erased_in & Ht & Hw). split; [| by exists m, e].
    intros <-. apply Hmn. cbn. symmetry.
    destruct (same_token _ _ (vw_represents _ _ _ _ _ _ V) _ _ _ _ Hn Hm); [congruence | done].
  - intros (Hne & m & e & Hm & Ht & Hw). exists m, e. split; [| done].
    apply erased_in. split; [done |]. cbn. intros ->. apply Hne. rewrite <-Ht. f_equal.
    exact (nodup_fst_eq _ _ _ _ (rp_nodup _ _ (vw_represents _ _ _ _ _ _ V)) Hn Hm).
Qed.

Lemma pools_served p' wake :
  served l p p' wake ->
  exists G', handed s wake G G' /\ pools_ok (put_back s p' servers) (put_queue p' queues) G'.
Proof.
  intros [S' Ei Eh H]. assert (Hid : sv_id (pl_srv p') = s) by (rewrite Ei; apply view_id).
  destruct wake as [wk|].
  - destruct H as (n & r & Hn & Hw & Ht & Hs & R' & Hc).
    assert (Hg : G !! wk_token wk = Some (wk_worker_index wk, InQueue (sv_hid (pl_srv p)))).
    { apply (vw_queued _ _ _ _ _ _ V). by exists n, r. }
    exists (<[wk_token wk := (wk_worker_index wk, InFlight s)]> G).
    split; [split; [by rewrite Hs; apply view_id |]; split; [by eexists | done] |].
    apply (pools_update p' _ (erased l n)); try done.
    + intros t w. rewrite Ht.
      transitivity (delete (cr_token r) G !! t = Some (w, InQueue (sv_hid (pl_srv p))));
        [apply (queued_erased n r Hn t w) |].
      rewrite lookup_delete_Some, lookup_insert_Some. naive_solver.
    + intros h t w Hne. rewrite lookup_insert_Some. naive_solver.
    + intros t w. rewrite Hc, <-Hw, <-Ht, !lookup_insert_Some. setoid_rewrite lookup_insert_Some.
      rewrite view_claims. naive_solver.
    + intros t w s' Hne. setoid_rewrite lookup_insert_Some. naive_solver.
  - destruct H as [Hc Hq]. exists G. split; [done |].
    apply (pools_update p' _ l); try done.
    + rewrite Hq. apply (vw_represents _ _ _ _ _ _ V).
    + apply (vw_queued _ _ _ _ _ _ V).
    + intros t w. rewrite Hc. apply view_claims.
Qed.

(** The claim of a token goes. *)
Lemma pools_dropped p' t w pl :
  server_ok p' -> core p' = core p -> claims p' = delete t (claims p) ->
  G !! t = Some (w, pl) -> place_server pl = Some s ->
  pools_ok (put_back s p' servers) (put_queue p' queues) (delete t G) /\
  view (put_back s p' servers) (put_queue p' queues) (delete t G) s p' l.
Proof.
  intros S' Ec Hc Hg Hpl. unfold core in Ec. injection Ec as Ei Eh _ _ _ Eq _.
  assert (Hl : queued (delete t G) (sv_hid (pl_srv p)) l).
  { intros t' w'. rewrite view_queued, lookup_delete_Some. naive_solver. }
  assert (R : represents (pl_queue p') l) by (rewrite Eq; apply (vw_represents _ _ _ _ _ _ V)).
  split.
  - apply (pools_update p' _ l); try done.
    + rewrite Ei. apply view_id.
    + intros h t' w' _. rewrite lookup_delete_Some. naive_solver.
    + intros t' w'. rewrite Hc, lookup_delete_Some, view_claims. setoid_rewrite lookup_delete_Some.
      naive_solver.
    + intros t' w' s' Hne. setoid_rewrite lookup_delete_Some. naive_solver.
  - unfold put_back, put_queue. split; try done.
    + apply lookup_insert_eq.
    + apply lookup_insert_eq.
    + by rewrite Eh.
    + intros n r Hn. rewrite Hc. apply lookup_delete_None. right.
      exact (vw_free _ _ _ _ _ _ V n r Hn).
Qed.

End View.

(** ** Cancelling and taking a claim *)

Section Claim.
Context (servers : gmap srv_id (gmap conn_id pool_conn * PgSQL_SrvC)) (queues : gmap Z capacity_queue).
Context (G : ledger) (s : srv_id) (p : pool) (l : list entry).
Context (P : pools_ok servers queues G) (V : view servers queues G s p l).
Context (t w : Z) (pl : place).
Context (Hg : G !! t = Some (w, pl)) (Hpl : place_server pl = Some s).

Lemma claimed : claims p !! t = Some w.
Proof. apply (view_claims servers queues G s p l P V). by exists pl. Qed.

Lemma claim_not_queued : fifo_owned w t l.*2 = false.
Proof. exact (claim_not_owned _ _ _ _ (vw_free _ _ _ _ _ _ V) claimed). Qed.

(** A cancellation by the holder of a claim never misses; it may serve the next
    request of the hostgroup. *)
Lemma pools_cancelled cx :
  exists st wake p', cancel_reader_pool_reservation cx w t p = Some ((st, wake), p') /\
    (st = Cancel_RETIRED_RECORD_CLEARED \/ st = Cancel_CONNECTION_RETURNED) /\
    exists G', handed s wake (delete t G) G' /\
      pools_ok (put_back s p' servers) (put_queue p' queues) G' /\
      sv_hid (pl_srv p') = sv_hid (pl_srv p).
Proof.
  destruct (cancel_spec cx w t l p (vw_ok _ _ _ _ _ _ V) (vw_represents _ _ _ _ _ _ V)
    (vw_free _ _ _ _ _ _ V)) as (st & wake & p' & H & Hcase).
  exists st, wake, p'. split; [done |]. unfold cancel_case in Hcase.
  rewrite claim_not_queued, decide_True in Hcase by apply claimed.
  destruct Hcase as (Hst & p1 & S1 & Ecl & Ec & E). split; [done |].
  destruct (pools_dropped _ _ _ _ _ _ P V p1 t w pl S1 Ec Ecl Hg Hpl) as [P1 V1].
  assert (Sv := served_effect _ _ _ _ _ E).
  destruct (pools_served _ _ _ _ _ _ P1 V1 p' wake Sv) as (G' & Hh & P').
  exists G'. split; [done |]. assert (Ehid := sr_hid _ _ _ _ Sv).
  assert (Ehid1 : sv_hid (pl_srv p1) = sv_hid (pl_srv p)) by (unfold core in Ec; by injection Ec).
  split; [| congruence]. unfold put_back, put_queue in *.
  rewrite Ehid in *. by rewrite !insert_insert_eq in P'.
Qed.

(** The holder of a claim has a reservation at the server, or the record that it
    was retired. *)
Lemma claim_record :
  (exists r, sv_reservations (pl_srv p) !! t = Some r /\ rv_worker_index r = w) \/
  (sv_reservations (pl_srv p) !! t = None /\
   exists r, sv_retired (pl_srv p) !! t = Some r /\ rt_worker_index r = w).
Proof. by apply claims_lookup, claimed. Qed.

(** A take by the holder of a claim gets the connection or the reason it went. *)
Lemma pools_taken :
  exists p', take_reader_pool_reservation w t p = Some (take_outcome t (pl_srv p), p') /\
    used_slots p' = used_slots p ++ take_slot t (pl_srv p) /\
    claims p' = delete t (claims p) /\
    pools_ok (put_back s p' servers) (put_queue p' queues) (delete t G) /\
    sv_hid (pl_srv p') = sv_hid (pl_srv p).
Proof.
  destruct (take_claim_spec w t l p (vw_ok _ _ _ _ _ _ V) (vw_represents _ _ _ _ _ _ V)
    claim_not_queued claimed) as (p' & H & S' & Ecl & Ec & Eu).
  exists p'. split; [done |].
  destruct (pools_dropped _ _ _ _ _ _ P V p' t w pl S' Ec Ecl Hg Hpl) as [P' _].
  split; [done |]. split; [done |]. split; [done | unfold core in Ec; by injection Ec].
Qed.

End Claim.

(** ** Wakes on their way *)

Definition wake_entry (wk : PolarDB_ReaderPoolReservationWake) : Z * Z * srv_id :=
  (wk_token wk, wk_worker_index wk, wk_server wk).

Record flight_ok flight G : Prop := {
  fo_nodup : NoDup (wk_token <$> flight);
  fo_entry t w s : (t, w, s) ∈ wake_entry <$> flight <-> G !! t = Some (w, InFlight s)
}.

(** The ledger differs in nothing the wakes on their way say. *)
Lemma flight_ext flight G G' :
  flight_ok flight G ->
  (forall t w s, G' !! t = Some (w, InFlight s) <-> G !! t = Some (w, InFlight s)) ->
  flight_ok flight G'.
Proof. intros [N H] E. split; [done |]. intros t w s. by rewrite H, E. Qed.

Lemma flight_push flight G wk h s :
  flight_ok flight G -> wk_server wk = s ->
  G !! wk_token wk = Some (wk_worker_index wk, InQueue h) ->
  flight_ok (flight ++ [wk]) (<[wk_token wk := (wk_worker_index wk, InFlight s)]> G).
Proof.
  intros [N H] <- Hg. split.
  - rewrite fmap_app. apply NoDup_app. split; [done |]. split; [| apply NoDup_singleton].
    intros t (wk' & -> & Hin)%list_elem_of_fmap Heq%list_elem_of_singleton.
    assert (Hg' : G !! wk_token wk' = Some (wk_worker_index wk', InFlight (wk_server wk'))).
    { apply H. apply list_elem_of_fmap. by exists wk'. }
    rewrite Heq in Hg'. congruence.
  - intros t w s. rewrite fmap_app, elem_of_app, H, lookup_insert_Some. cbn.
    rewrite list_elem_of_singleton. unfold wake_entry. split.
    + intros [Hf | [= -> -> ->]]; [| by left]. right. split; [congruence | done].
    + intros [[<- [= <- <-]] | [_ Hf]]; [by right | by left].
Qed.

Lemma flight_handed flight G G' s wake :
  flight_ok flight G -> handed s wake G G' -> flight_ok (flight ++ option_list wake) G'.
Proof.
  intros F H. destruct wake as [wk|]; cbn in *.
  - destruct H as (Hs & (h & Hg) & ->). by eapply flight_push.
  - subst. by rewrite app_nil_r.
Qed.

(** A wake leaves; its token goes elsewhere, or nowhere. *)
Lemma flight_remove f1 wk f2 G G' :
  flight_ok (f1 ++ wk :: f2) G ->
  (forall t w s, t <> wk_token wk ->
     G' !! t = Some (w, InFlight s) <-> G !! t = Some (w, InFlight s)) ->
  (forall w s, G' !! wk_token wk <> Some (w, InFlight s)) ->
  flight_ok (f1 ++ f2) G'.
Proof.
  intros [N H] E Hn. rewrite fmap_app, fmap_cons in N.
  assert (Hp : f1 ++ wk :: f2 ≡ₚ wk :: (f1 ++ f2)) by (by rewrite Permutation_middle).
  assert (N' : NoDup (wk_token wk :: (wk_token <$> (f1 ++ f2)))).
  { rewrite <-fmap_cons, <-Hp. by rewrite fmap_app, fmap_cons. }
  apply NoDup_cons in N' as [Hwk N']. split; [done |]. intros t w s.
  destruct (decide (t = wk_token wk)) as [->|Hne].
  - split; [| by intros ?%Hn]. intros (wk' & Heq & Hin)%list_elem_of_fmap.
    unfold wake_entry in Heq. destruct Hwk. apply list_elem_of_fmap. exists wk'. split; [congruence | done].
  - rewrite E by done. rewrite <-H, Hp, fmap_cons, elem_of_cons. unfold wake_entry at 2. naive_solver.
Qed.

(** ** Workers *)

Definition holds (th : PgSQL_Thread) (t : Z) (s : srv_id) : Prop :=
  wr_active (th_reservation th) = true /\ wr_token (th_reservation th) = t /\
  wr_server (th_reservation th) = Some s.

Definition waits (th : PgSQL_Thread) (t h : Z) : Prop :=
  wr_active (th_reservation th) = true /\ wr_token (th_reservation th) = t /\
  wr_server (th_reservation th) = None /\ wr_hostgroup (th_reservation th) = Some h.

Definition notification_entry (n : wake_notification) : Z * srv_id := (wn_token n, wn_server n).

Section Workers.
Context (lost : gset Z).

(** [wakes] are the wakes of the worker, queued or drained; [lost] are the tokens
    whose wake nobody would queue. *)
Record worker_ok (w : Z) (th : PgSQL_Thread) (wakes : list wake_notification) G : Prop := {
  wo_index : th_worker_index th = w;
  wo_nodup : NoDup (wn_token <$> wakes);
  wo_wake t s : (t, s) ∈ notification_entry <$> wakes <-> G !! t = Some (w, InWakes s);
  wo_hand t s : holds th t s <-> G !! t = Some (w, InHand s);
  wo_queue t h : G !! t = Some (w, InQueue h) -> waits th t h;
  wo_waiting t h : waits th t h -> t ∈ lost \/ exists pl, G !! t = Some (w, pl)
}.

Lemma worker_ext w th wakes G G' :
  worker_ok w th wakes G ->
  (forall t pl, G' !! t = Some (w, pl) <-> G !! t = Some (w, pl)) -> worker_ok w th wakes G'.
Proof.
  intros [Hi N Hw Hh Hq Hwt] E. split; try done.
  - intros t s. by rewrite Hw, E.
  - intros t s. by rewrite Hh, E.
  - intros t h. rewrite E. apply Hq.
  - intros t h [Hl | [pl Hpl]]%Hwt; [by left |]. right. exists pl. by apply E.
Qed.

(** A request of the worker became a claim on its way to it. *)
Lemma worker_served w th wakes G t h s :
  worker_ok w th wakes G -> G !! t = Some (w, InQueue h) ->
  worker_ok w th wakes (<[t := (w, InFlight s)]> G).
Proof.
  intros [Hi N Hw Hh Hq Hwt] Hg. split; try done.
  - intros t' s'. rewrite Hw, lookup_insert_Some. naive_solver.
  - intros t' s'. rewrite Hh, lookup_insert_Some. naive_solver.
  - intros t' h'. rewrite lookup_insert_Some. naive_solver.
  - intros t' h' [Hl | [pl Hpl]]%Hwt; [by left | right].
    destruct (decide (t' = t)) as [->|Hne].
    + exists (InFlight s). apply lookup_insert_eq.
    + exists pl. by rewrite lookup_insert_ne.
Qed.

(** A claim that is not in the worker's hand is gone, but for its wake. *)
Lemma worker_woken w th wakes G n :
  worker_ok w th wakes G -> G !! wn_token n = Some (w, InFlight (wn_server n)) ->
  worker_ok w th (wakes ++ [n]) (<[wn_token n := (w, InWakes (wn_server n))]> G).
Proof.
  intros [Hi N Hw Hh Hq Hwt] Hg. split; try done.
  - rewrite fmap_app. apply NoDup_app. split; [done |]. split; [| apply NoDup_singleton].
    intros t (n' & -> & Hin)%list_elem_of_fmap Heq%list_elem_of_singleton.
    assert (Hg' : G !! wn_token n' = Some (w, InWakes (wn_server n'))).
    { apply Hw. apply list_elem_of_fmap. by exists n'. }
    rewrite Heq in Hg'. congruence.
  - intros t s. rewrite fmap_app, elem_of_app, Hw, lookup_insert_Some. cbn.
    rewrite list_elem_of_singleton. unfold notification_entry. split.
    + intros [Hf | [= -> ->]]; [| by left]. right. split; [congruence | done].
    + intros [[<- [= <-]] | [_ Hf]]; [by right | by left].
  - intros t s. rewrite Hh, lookup_insert_Some. naive_solver.
  - intros t h. rewrite lookup_insert_Some. naive_solver.
  - intros t h [Hl | [pl Hpl]]%Hwt; [by left | right].
    destruct (decide (t = wn_token n)) as [->|Hne].
    + eexists. apply lookup_insert_eq.
    + exists pl. by rewrite lookup_insert_ne.
Qed.

Lemma notification_free w th n wakes G :
  worker_ok w th (n :: wakes) G ->
  G !! wn_token n = Some (w, InWakes (wn_server n)) /\
  (forall t s, (t, s) ∈ notification_entry <$> wakes <->
     t <> wn_token n /\ G !! t = Some (w, InWakes s)) /\ NoDup (wn_token <$> wakes).
Proof.
  intros O. assert (N := wo_nodup _ _ _ _ O). rewrite fmap_cons in N. apply NoDup_cons in N as [Hn N].
  split; [| split; [| done]].
  - apply (wo_wake _ _ _ _ O). rewrite fmap_cons. apply list_elem_of_here.
  - intros t s. rewrite <-(wo_wake _ _ _ _ O), fmap_cons, elem_of_cons. unfold notification_entry at 2.
    split.
    + intros H. split; [| by right]. intros ->.
      apply list_elem_of_fmap in H as (n' & [= Ht _] & Hin). apply Hn.
      apply list_elem_of_fmap. by exists n'.
    + naive_solver.
Qed.

(** A wake was handled: its claim is gone. *)
Lemma worker_wake_dropped w th n wakes G :
  worker_ok w th (n :: wakes) G ->
  (wr_active (th_reservation th) = true -> wr_token (th_reservation th) <> wn_token n) ->
  worker_ok w th wakes (delete (wn_token n) G).
Proof.
  intros O Hne. destruct (notification_free _ _ _ _ _ O) as (Hg & Hw & N).
  destruct O as [Hi _ _ Hh Hq Hwt]. split; try done.
  - intros t s. rewrite Hw, lookup_delete_Some. naive_solver.
  - intros t s. rewrite Hh, lookup_delete_Some. naive_solver.
  - intros t h. rewrite lookup_delete_Some. naive_solver.
  - intros t h Hwaits. destruct (Hwt _ _ Hwaits) as [Hl | [pl Hpl]]; [by left |].
    right. exists pl.
    apply lookup_delete_Some. split; [| done]. destruct Hwaits as (Ha & <- & _).
    by apply not_eq_sym, Hne.
Qed.

(** The wake of the reservation fills in its server. *)
Lemma worker_wake_taken w th n wakes G th' :
  worker_ok w th (n :: wakes) G -> th_worker_index th' = w ->
  wr_active (th_reservation th') = true -> wr_token (th_reservation th') = wn_token n ->
  wr_token (th_reservation th) = wn_token n -> wr_active (th_reservation th) = true ->
  wr_server (th_reservation th') = Some (wn_server n) ->
  worker_ok w th' wakes (<[wn_token n := (w, InHand (wn_server n))]> G).
Proof.
  intros O Hi' Ha Ht Ht0 Ha0 Hs. destruct (notification_free _ _ _ _ _ O) as (Hg & Hw & N).
  destruct O as [Hi _ _ Hh Hq Hwt]. split; try done.
  - intros t s. rewrite Hw, lookup_insert_Some. naive_solver.
  - intros t s. unfold holds. rewrite Ha, Ht, Hs, lookup_insert_Some. split.
    + intros (_ & <- & [= <-]). by left.
    + intros [[<- [= <-]] | [Hne Hf]]; [done |]. apply Hh in Hf as (_ & Hft & _). congruence.
  - intros t h. rewrite lookup_insert_Some. intros [[_ [=]] | [Hne Hf]].
    apply Hq in Hf as (_ & Hft & _). congruence.
  - intros t h (_ & _ & Hns & _). congruence.
Qed.

(** The worker has no reservation any more; the claim it had in hand is gone. *)
Lemma worker_cleared w th wakes G t th' :
  worker_ok w th wakes G -> th_worker_index th' = w ->
  th_reservation th' = no_worker_reservation ->
  wr_token (th_reservation th) = t ->
  (exists s, G !! t = Some (w, InHand s)) \/ (exists h, G !! t = Some (w, InQueue h)) ->
  worker_ok w th' wakes (delete t G).
Proof.
  intros [Hi N Hw Hh Hq Hwt] Hi' Hr Ht Hcase.
  assert (Hnot : forall t' s, ~ holds th' t' s) by (intros t' s [Ha _]; by rewrite Hr in Ha).
  split; try done.
  - intros t' s. rewrite Hw, lookup_delete_Some. naive_solver.
  - intros t' s. rewrite lookup_delete_Some. split; [by intros ?%Hnot |].
    intros [Hne Hf]. apply Hh in Hf as (_ & Hft & _). congruence.
  - intros t' h. rewrite lookup_delete_Some. intros [Hne Hf].
    apply Hq in Hf as (_ & Hft & _). congruence.
  - intros t' h [Ha _]. by rewrite Hr in Ha.
Qed.

(** The worker has no reservation any more; its claim is on its way and will be
    cancelled when it arrives. *)
Lemma worker_abandoned w th wakes G th' :
  worker_ok w th wakes G -> th_worker_index th' = w ->
  th_reservation th' = no_worker_reservation ->
  (forall s, G !! wr_token (th_reservation th) <> Some (w, InHand s)) ->
  (forall h, G !! wr_token (th_reservation th) <> Some (w, InQueue h)) ->
  worker_ok w th' wakes G.
Proof.
  intros [Hi N Hw Hh Hq Hwt] Hi' Hr Hnh Hnq.
  assert (Hnot : forall t' s, ~ holds th' t' s) by (intros t' s [Ha _]; by rewrite Hr in Ha).
  split; try done.
  - intros t' s. split; [by intros ?%Hnot |]. intros Hf. exfalso.
    assert (Hf' := Hf). apply Hh in Hf' as (_ & Hft & _). subst. by apply Hnh in Hf.
  - intros t' h Hf. exfalso. assert (Hf' := Hf). apply Hq in Hf' as (_ & Hft & _). subst.
    by apply Hnq in Hf.
  - intros t' h [Ha _]. by rewrite Hr in Ha.
Qed.

(** A worker without a reservation registered a request. *)
Lemma worker_registered w th wakes G t h th' :
  worker_ok w th wakes G -> th_worker_index th' = w -> G !! t = None ->
  wr_active (th_reservation th) = false -> waits th' t h ->
  worker_ok w th' wakes (<[t := (w, InQueue h)]> G).
Proof.
  intros [Hi N Hw Hh Hq Hwt] Hi' Hg Ha Hwaits.
  assert (Hno : forall t' s, G !! t' <> Some (w, InHand s)).
  { intros t' s (Ha' & _)%Hh. congruence. }
  split; try done.
  - intros t' s. rewrite Hw, lookup_insert_Some. naive_solver.
  - intros t' s. rewrite lookup_insert_Some. split.
    + intros (_ & _ & Hs). destruct Hwaits as (_ & _ & Hs' & _). congruence.
    + intros [[_ [=]] | [_ Hf]]. by apply Hno in Hf.
  - intros t' h'. rewrite lookup_insert_Some. intros [[<- [= <-]] | [_ Hf]]; [done |].
    apply Hq in Hf as (Ha' & _). congruence.
  - intros t' h' (_ & Ht' & _ & Hh'). destruct Hwaits as (_ & Ht & _ & Hh1).
    right. eexists.
    rewrite <-Ht', Ht. apply lookup_insert_eq.
Qed.

End Workers.

(** A wake of the worker is cancelled on its way: a worker that waits for it
    waits in vain. *)
Lemma worker_refused lost w th wakes G t s :
  worker_ok lost w th wakes G -> G !! t = Some (w, InFlight s) ->
  worker_ok ({[t]} ∪ lost) w th wakes (delete t G).
Proof.
  intros [Hi N Hw Hh Hq Hwt] Hg. split; try done.
  - intros t' s'. rewrite Hw, lookup_delete_Some. naive_solver.
  - intros t' s'. rewrite Hh, lookup_delete_Some. naive_solver.
  - intros t' h'. rewrite lookup_delete_Some. naive_solver.
  - intros t' h' [Hl | [pl Hpl]]%Hwt; [left; set_solver |].
    destruct (decide (t' = t)) as [->|Hne]; [left; set_solver | right].
    exists pl. by rewrite lookup_delete_ne.
Qed.

(** Only the index and the reservation of the worker matter. *)
Lemma worker_same lost w th th' wakes G :
  worker_ok lost w th wakes G -> th_worker_index th' = th_worker_index th ->
  th_reservation th' = th_reservation th -> worker_ok lost w th' wakes G.
Proof.
  intros [Hi N Hw Hh Hq Hwt] Ei Er. unfold holds, waits in *.
  split; unfold holds, waits; rewrite ?Ei, ?Er; done.
Qed.

Lemma worker_more_lost lost lost' w th wakes G :
  lost ⊆ lost' -> worker_ok lost w th wakes G -> worker_ok lost' w th wakes G.
Proof.
  intros Hl [Hi N Hw Hh Hq Hwt]. split; try done.
  intros t h [H | H]%Hwt; [left; set_solver | by right].
Qed.

(** Places that the servers and queues do not tell apart. *)
Lemma pools_ext servers queues G G' :
  pools_ok servers queues G ->
  (forall t w h, G' !! t = Some (w, InQueue h) <-> G !! t = Some (w, InQueue h)) ->
  (forall t w s, (exists pl, G' !! t = Some (w, pl) /\ place_server pl = Some s) <->
                 (exists pl, G !! t = Some (w, pl) /\ place_server pl = Some s)) ->
  pools_ok servers queues G'.
Proof.
  intros [Ps Pq Pc Pk] Eq Ec. split; [done | | |].
  - intros h q Hq. destruct (Pq h q Hq) as (l & R & Hl). exists l. split; [done |].
    intros t w. rewrite Eq. apply Hl.
  - intros s heap srv t w Hs. rewrite Ec. by eapply Pc.
  - intros t w pl s Hg Hpl. destruct (proj1 (Ec t w s)) as (pl' & Hg' & Hpl'); [by exists pl |].
    by eapply Pk.
Qed.

Lemma pools_moved servers queues G t w pl pl' :
  pools_ok servers queues G -> G !! t = Some (w, pl) -> place_server pl <> None ->
  place_server pl' = place_server pl -> pools_ok servers queues (<[t := (w, pl')]> G).
Proof.
  intros P Hg Hs Hpl. apply (pools_ext _ _ _ _ P).
  - intros t' w' h. rewrite lookup_insert_Some. split; [| naive_solver].
    intros [[<- [= <- ->]] | [_ ?]]; [| done]. by cbn in Hpl; rewrite <-Hpl in Hs.
  - intros t' w' s. setoid_rewrite lookup_insert_Some. split.
    + intros (pl0 & [[<- [= <- <-]] | [_ Hf]] & H0); [exists pl; split; [done | congruence] | by exists pl0].
    + intros (pl0 & Hf & H0). destruct (decide (t' = t)) as [->|Hne].
      * rewrite Hg in Hf. injection Hf as <- <-. exists pl'. split; [by left | congruence].
      * exists pl0. split; [by right | done].
Qed.

(** ** Requests *)

Section Queue.
Context (servers : gmap srv_id (gmap conn_id pool_conn * PgSQL_SrvC)) (queues : gmap Z capacity_queue).
Context (G : ledger) (h : Z) (q : capacity_queue) (l : list entry).
Context (P : pools_ok servers queues G).
Context (Hq : queues !! h = Some q) (R : represents q l) (Hl : queued G h l).

Lemma queue_owned w t : fifo_owned w t l.*2 = true <-> G !! t = Some (w, InQueue h).
Proof.
  rewrite owned_request, <-(Hl t w). split; intros (n & r & ?); exists n, r; naive_solver.
Qed.

(** Another queue of the hostgroup, another entry of the ledger; no claim
    changes. *)
Lemma pools_queue q' l' G' :
  represents q' l' -> queued G' h l' ->
  (forall h' t w, h' <> h -> G' !! t = Some (w, InQueue h') <-> G !! t = Some (w, InQueue h')) ->
  (forall t w s, (exists pl, G' !! t = Some (w, pl) /\ place_server pl = Some s) <->
                 (exists pl, G !! t = Some (w, pl) /\ place_server pl = Some s)) ->
  pools_ok servers (<[h := q']> queues) G'.
Proof.
  intros R' Hl' Eq Ec. destruct P as [Ps Pq Pc Pk]. split.
  - intros s heap srv Hs. destruct (Ps s heap srv Hs) as (? & [q0 Hq0] & ?).
    split; [done |]. split; [| done]. rewrite lookup_insert. case_decide; eauto.
  - intros h' q0 [[<- <-] | [Hne Hq0]]%lookup_insert_Some; [by exists l' |].
    destruct (Pq h' q0 Hq0) as (k & Rk & Hk). exists k. split; [done |].
    intros t w. rewrite Eq by congruence. apply Hk.
  - intros s heap srv t w Hs. rewrite Ec. by eapply Pc.
  - intros t w pl s Hg Hpl. destruct (proj1 (Ec t w s)) as (pl' & Hg' & Hpl'); [by exists pl |].
    by eapply Pk.
Qed.

Lemma pools_dequeued q' n r :
  (n, r) ∈ l -> represents q' (erased l n) ->
  pools_ok servers (<[h := q']> queues) (delete (cr_token r) G).
Proof.
  intros Hn R'. assert (Hg : G !! cr_token r = Some (cr_worker_index r, InQueue h)).
  { apply Hl. by exists n, r. }
  apply (pools_queue q' (erased l n)); [done | | |].
  - intros t w. rewrite lookup_delete_Some, <-(Hl t w). split.
    + intros (m & e & [Hm Hmn]%erased_in & Ht & Hw). split; [| by exists m, e].
      intros <-. apply Hmn. cbn. symmetry.
      destruct (same_token _ _ R _ _ _ _ Hn Hm); [congruence | done].
    + intros (Hne & m & e & Hm & Ht & Hw). exists m, e. split; [| done].
      apply erased_in. split; [done |]. cbn. intros ->. apply Hne. rewrite <-Ht. f_equal.
      exact (nodup_fst_eq _ _ _ _ (rp_nodup _ _ R) Hn Hm).
  - intros h' t w Hne. rewrite lookup_delete_Some. naive_solver.
  - intros t w s. setoid_rewrite lookup_delete_Some. split; [naive_solver |].
    intros (pl & Hf & Hpl). exists pl. split; [split; [| done] | done]. intros <-.
    rewrite Hg in Hf. by simplify_eq.
Qed.

Lemma pools_enqueued q' n r :
  G !! cr_token r = None -> represents q' (l ++ [(n, r)]) ->
  pools_ok servers (<[h := q']> queues) (<[cr_token r := (cr_worker_index r, InQueue h)]> G).
Proof.
  intros Hg R'. apply (pools_queue q' (l ++ [(n, r)])); [done | | |].
  - intros t w. rewrite lookup_insert_Some, <-(Hl t w). setoid_rewrite elem_of_app.
    setoid_rewrite list_elem_of_singleton. split.
    + intros (m & e & [Hm | [= -> ->]] & Ht & Hw); [right | left; by subst].
      split; [| by exists m, e]. intros <-.
      assert (H : G !! cr_token e = Some (cr_worker_index e, InQueue h)); [| congruence].
      apply Hl. by exists m, e.
    + intros [[<- [= <-]] | (Hne & m & e & Hm & Ht & Hw)]; [exists n, r; auto | exists m, e; auto].
  - intros h' t w Hne. rewrite lookup_insert_Some. naive_solver.
  - intros t w s. setoid_rewrite lookup_insert_Some. split.
    + intros (pl & [[_ [= _ <-]] | [_ Hf]] & Hpl); [done | by exists pl].
    + intros (pl & Hf & Hpl). exists pl. split; [right; split; [congruence | done] | done].
Qed.

End Queue.
