(* ===== verification/ReservationProtocol.v ===== *)
(** * Workers, servers and wakes in any interleaving

    The steps of workers and of other threads, each atomic under the lock it
    takes, over the state of [ReaderWorker]: operations of a server, routing a
    wake, registering, cancelling and taking, and the three parts of processing
    wakes.  In every state they reach every claim on a server has one holder, a
    worker that waits is queued or about to be woken, no assertion fails, and no
    take or cancellation of a holder misses. *)

From S2P Require Import Prelude Policy Startup Session Query Topology.
From S2P Require Import ServerList PoolConn Reader ReaderAcquire CapacityQueue ServerPool.
From S2P Require Import PoolSafety Reservations PoolOperations PoolTraces ReaderWorker.
From S2P Require Import ReservationLedger.
From Stdlib Require Import ZArith Ascii String List Bool Lia.
From stdpp Require Import base tactics list gmap strings relations.

Open Scope Z_scope.
Open Scope polar_scope.

(** ** State *)

(** The system, the wakes in local variables of threads that route them, the
    wakes a worker drained, the workers between the exchange of their flag and
    the swap of their queue, and the tokens whose wake could not be queued. *)
Record protocol := mkProtocol {
  px_system : reader_system;
  px_flight : list PolarDB_ReaderPoolReservationWake;
  px_draining : gmap Z (list wake_notification);
  px_swapping : gset Z;
  px_refused : gset Z
}.

Definition drained (x : protocol) (w : Z) : list wake_notification :=
  default [] (px_draining x !! w).

(** What a session, another thread or the end of the process may change of a
    worker: not its index, reservation and wakes. *)
Definition same_duty (th th' : PgSQL_Thread) : Prop :=
  th_worker_index th' = th_worker_index th /\ th_reservation th' = th_reservation th /\
  th_wakes th' = th_wakes th /\ th_wake_pending th' = th_wake_pending th.

Section Steps.
Context (pton4 : string -> option Z) (pton6 : string -> option (list Z)).

(** The caller of an operation on server [s] guarantees what it needs. *)
Definition ready_on (s : srv_id) (o : server_op) (y : reader_system) : Prop :=
  forall heap srv q, sy_servers y !! s = Some (heap, srv) ->
    sy_queues y !! sv_hid srv = Some q -> op_ready o (mkPool heap srv q).

(** The token counter does not wrap within a run, and UINT_MAX is no worker. *)
Definition may_draw (w : Z) (y : reader_system) : Prop :=
  sy_next_token y < 2 ^ 64 - 1 /\ is_u32 w.

(** The threads handler takes the wake. *)
Definition queues_wake (wk : PolarDB_ReaderPoolReservationWake) (write_ok : bool)
    (y : reader_system) : bool :=
  match handler_queue_wake wk write_ok y with
  | Some (queued, _) => queued
  | None => false
  end.

Inductive protocol_step : protocol -> protocol -> Prop :=
| step_operation x s o wake y' :
    is_Some (sy_servers (px_system x) !! s) -> ready_on s o (px_system x) ->
    on_server s (run_server_op pton4 pton6 o) (px_system x) = Some (wake, y') ->
    protocol_step x (mkProtocol y' (px_flight x ++ option_list wake) (px_draining x)
                       (px_swapping x) (px_refused x))
| step_route x cx f1 wk f2 write_ok next y' :
    px_flight x = f1 ++ wk :: f2 ->
    route_once cx wk write_ok (px_system x) = Some (next, y') ->
    protocol_step x (mkProtocol y' ((f1 ++ f2) ++ option_list next) (px_draining x)
                       (px_swapping x)
                       (if queues_wake wk write_ok (px_system x)
                        then px_refused x else {[wk_token wk]} ∪ px_refused x))
| step_register x cx w sess sess' y' :
    may_draw w (px_system x) ->
    polardb_register_reader_capacity_request cx w sess (px_system x) = Some (sess', y') ->
    protocol_step x (mkProtocol y' (px_flight x) (px_draining x) (px_swapping x)
                       (px_refused x))
| step_cancel x cx w session_id next y' :
    polardb_cancel_reader_reservation cx w session_id (px_system x) = Some (next, y') ->
    protocol_step x (mkProtocol y' (px_flight x ++ option_list next) (px_draining x)
                       (px_swapping x) (px_refused x))
| step_take x cx w sess current r next y' :
    polardb_take_reader_reservation cx w sess current (px_system x) = Some ((r, next), y') ->
    protocol_step x (mkProtocol y' (px_flight x ++ option_list next) (px_draining x)
                       (px_swapping x) (px_refused x))
| step_exchange x w pending y' :
    w ∉ px_swapping x -> drained x w = [] ->
    exchange_wake_pending w (px_system x) = Some (pending, y') ->
    protocol_step x (mkProtocol y' (px_flight x) (px_draining x)
                       (if pending : bool then {[w]} ∪ px_swapping x else px_swapping x)
                       (px_refused x))
| step_swap x w wakes y' :
    w ∈ px_swapping x -> swap_wakes w (px_system x) = Some (wakes, y') ->
    protocol_step x (mkProtocol y' (px_flight x) (<[w := drained x w ++ wakes]> (px_draining x))
                       (px_swapping x ∖ {[w]})
                       (px_refused x))
| step_process x cx w n wakes ready next y' :
    px_draining x !! w = Some (n :: wakes) ->
    process_wake cx w n (px_system x) = Some ((ready, next), y') ->
    protocol_step x (mkProtocol y' (px_flight x ++ option_list next)
                       (<[w := wakes]> (px_draining x)) (px_swapping x) (px_refused x))
| step_other x threads attached shutdown :
    (forall w, option_relation same_duty (fun _ => False) (fun _ => False)
                 (sy_threads (px_system x) !! w) (threads !! w)) ->
    protocol_step x
      (mkProtocol (mkReaderSystem (sy_servers (px_system x)) (sy_queues (px_system x)) threads
                     attached shutdown (sy_next_token (px_system x)))
         (px_flight x) (px_draining x) (px_swapping x)
                       (px_refused x)).

(** ** The state agrees with a ledger *)

(** What workers and wakes say. *)
Record duties (x : protocol) (G : ledger) : Prop := {
  du_flight : flight_ok (px_flight x) G;
  du_worker w th : sy_threads (px_system x) !! w = Some th ->
    worker_ok (px_refused x) w th (drained x w ++ th_wakes th) G;
  du_owner t w pl : G !! t = Some (w, pl) -> is_Some (sy_threads (px_system x) !! w);
  du_token t e : G !! t = Some e -> 0 < t < sy_next_token (px_system x);
  du_next : 0 < sy_next_token (px_system x);
  du_pending w th : sy_threads (px_system x) !! w = Some th -> th_wakes th <> [] ->
    th_wake_pending th = true \/ w ∈ px_swapping x;
  du_hostgroup w th h : sy_threads (px_system x) !! w = Some th ->
    wr_hostgroup (th_reservation th) = Some h -> is_Some (sy_queues (px_system x) !! h)
}.

Definition pools (x : protocol) (G : ledger) : Prop :=
  pools_ok (sy_servers (px_system x)) (sy_queues (px_system x)) G.

Definition agrees (x : protocol) (G : ledger) : Prop := pools x G /\ duties x G.

(** The system changed to [y], and [wake] is on its way. *)
Definition after (x : protocol) (y : reader_system)
    (wake : option PolarDB_ReaderPoolReservationWake) : protocol :=
  mkProtocol y (px_flight x ++ option_list wake) (px_draining x) (px_swapping x)
    (px_refused x).

(** ** Operations on a server *)

Definition with_pool (s : srv_id) (p : pool) (y : reader_system) : reader_system :=
  y <| sy_servers := put_back s p (sy_servers y) |>
    <| sy_queues := put_queue p (sy_queues y) |>.

Lemma with_pool_parts s p y :
  sy_servers (with_pool s p y) = put_back s p (sy_servers y) /\
  sy_queues (with_pool s p y) = put_queue p (sy_queues y) /\
  sy_threads (with_pool s p y) = sy_threads y /\
  sy_next_token (with_pool s p y) = sy_next_token y.
Proof. by destruct y. Qed.

Lemma on_server_run {A} s (m : PM A) y G p l a p' :
  view (sy_servers y) (sy_queues y) G s p l -> m p = Some (a, p') ->
  sv_hid (pl_srv p') = sv_hid (pl_srv p) -> on_server s m y = Some (a, with_pool s p' y).
Proof.
  intros V H Hh. unfold on_server. rewrite (vw_server _ _ _ _ _ _ V). cbn.
  rewrite (vw_queue _ _ _ _ _ _ V). cbn.
  replace (mkPool (pl_heap p) (pl_srv p) (pl_queue p)) with p by (by destruct p).
  rewrite H. cbn. unfold with_pool, put_back, put_queue. by rewrite Hh.
Qed.

Lemma sbind_run {A B} (m : SM A) (f : A -> SM B) y a y' :
  m y = Some (a, y') -> (m ≫= f) y = f a y'.
Proof. intros H. unfold mbind, SM_bind. by rewrite H. Qed.

Lemma sfmap_run {A B} (f : A -> B) (m : SM A) y a y' :
  m y = Some (a, y') -> (f <$> m) y = Some (f a, y').
Proof. intros H. unfold fmap, SM_fmap. by rewrite H. Qed.

Lemma duties_handed x y G s wake G' :
  duties x G -> handed s wake G G' -> sy_threads y = sy_threads (px_system x) ->
  sy_next_token y = sy_next_token (px_system x) ->
  (forall h, is_Some (sy_queues (px_system x) !! h) -> is_Some (sy_queues y !! h)) ->
  duties (after x y wake) G'.
Proof.
  intros [F W O T N Pd Hg0] H Et En Eq.
  assert (Hg : forall t e, G' !! t = Some e -> exists e', G !! t = Some e' /\ e'.1 = e.1).
  { destruct wake as [wk|]; cbn in H; [| subst; eauto]. destruct H as (_ & (h & Hg) & ->).
    intros t e [[<- <-] | [_ Hf]]%lookup_insert_Some; eauto. }
  split; cbn; rewrite ?Et, ?En; try done.
  - by apply (flight_handed _ G _ s wake).
  - intros w th Hth. change (worker_ok (px_refused x) w th (drained x w ++ th_wakes th) G').
    assert (Ow := W w th Hth). destruct wake as [wk|]; cbn in H; [| by subst].
    destruct H as (_ & (h & Hq) & ->). destruct (decide (wk_worker_index wk = w)) as [<-|Hne].
    + by eapply worker_served.
    + apply (worker_ext _ _ _ _ _ _ Ow). intros t pl. rewrite lookup_insert_Some. naive_solver.
  - intros t w pl Hf. destruct (Hg _ _ Hf) as ([w' pl'] & Hf' & E). cbn in E. subst. by eapply O.
  - intros t e Hf. destruct (Hg _ _ Hf) as (e' & Hf' & _). by eapply T.
  - intros w th h Hth Hh. apply Eq. by eapply Hg0.
Qed.

Lemma with_pool_duties x s p wake G G' :
  duties x G -> handed s wake G G' -> duties (after x (with_pool s p (px_system x)) wake) G'.
Proof.
  intros D H. destruct (with_pool_parts s p (px_system x)) as (_ & Eq & Et & En).
  eapply duties_handed; try done. intros h Hh. rewrite Eq. unfold put_queue.
  rewrite lookup_insert. case_decide; eauto.
Qed.

Lemma with_pool_pools x s p wake G :
  pools_ok (put_back s p (sy_servers (px_system x))) (put_queue p (sy_queues (px_system x))) G ->
  pools (after x (with_pool s p (px_system x)) wake) G.
Proof.
  intros H. unfold pools. cbn.
  by destruct (with_pool_parts s p (px_system x)) as (-> & -> & _).
Qed.

Lemma operation_agrees x G s o :
  agrees x G -> is_Some (sy_servers (px_system x) !! s) -> ready_on s o (px_system x) ->
  exists wake y' G', on_server s (run_server_op pton4 pton6 o) (px_system x) = Some (wake, y') /\
    agrees (after x y' wake) G'.
Proof.
  intros [P D] Hs Hready. destruct (pools_view _ _ _ _ P Hs) as (p & l & V).
  assert (Hr : op_ready o p).
  { assert (Hr := Hready _ _ _ (vw_server _ _ _ _ _ _ V) (vw_queue _ _ _ _ _ _ V)).
    by destruct p. }
  destruct (op_served pton4 pton6 o l p (vw_ok _ _ _ _ _ _ V) (vw_represents _ _ _ _ _ _ V)
    (vw_free _ _ _ _ _ _ V) Hr) as (wake & p' & H & Sv).
  destruct (pools_served _ _ _ _ _ _ P V p' wake Sv) as (G' & Hh & P').
  exists wake, (with_pool s p' (px_system x)), G'.
  split; [exact (on_server_run _ _ _ _ _ _ _ _ V H (sr_hid _ _ _ _ Sv)) |].
  split; [by apply with_pool_pools | by eapply with_pool_duties].
Qed.

(** ** Cancelling the claim of a holder *)

(** [x1] is [x] without the holder of the claim; the cancellation goes through
    and the next waiter is handed what comes free. *)
Lemma cancelled_agrees x x1 G cx s w t pl :
  pools x G -> G !! t = Some (w, pl) -> place_server pl = Some s ->
  duties x1 (delete t G) ->
  sy_servers (px_system x1) = sy_servers (px_system x) ->
  sy_queues (px_system x1) = sy_queues (px_system x) ->
  exists st next p' G',
    on_server s (cancel_reader_pool_reservation cx w t) (px_system x) =
      Some ((st, next), with_pool s p' (px_system x)) /\
    (st = Cancel_RETIRED_RECORD_CLEARED \/ st = Cancel_CONNECTION_RETURNED) /\
    agrees (after x1 (with_pool s p' (px_system x1)) next) G' /\
    handed s next (delete t G) G'.
Proof.
  intros P Hg Hpl D Es Eq.
  destruct (pools_view _ _ _ s P (po_known _ _ _ P _ _ _ _ Hg Hpl)) as (p & l & V).
  destruct (pools_cancelled _ _ _ _ _ _ P V t w pl Hg Hpl cx)
    as (st & next & p' & H & Hst & G' & Hh & P' & Ehid).
  exists st, next, p', G'. split; [exact (on_server_run _ _ _ _ _ _ _ _ V H Ehid) |].
  split; [done |]. split; [| done]. split; [| by eapply with_pool_duties].
  apply with_pool_pools. by rewrite Es, Eq.
Qed.

(** A thread's entries do not change when a token of another goes. *)
Lemma worker_other lost w w' th wakes G t pl :
  worker_ok lost w th wakes G -> G !! t = Some (w', pl) -> w' <> w ->
  worker_ok lost w th wakes (delete t G).
Proof.
  intros O Hg Hne. apply (worker_ext _ _ _ _ _ _ O). intros t' pl'.
  rewrite lookup_delete_Some. naive_solver.
Qed.

Lemma handler_queue_run wk write_ok y :
  exists queued y', handler_queue_wake wk write_ok y = Some (queued, y') /\
    if queued : bool
    then exists th, sy_threads y !! wk_worker_index wk = Some th /\ wk_token wk <> 0 /\
      y' = y <| sy_threads := <[wk_worker_index wk :=
        th <| th_wakes := th_wakes th ++
                 [mkNotification (wk_token wk) (wk_server wk) (wk_snapshot wk)] |>
           <| th_wake_pending := true |>]> (sy_threads y) |>
    else y' = y.
Proof.
  unfold handler_queue_wake. destruct (_ || _); [by exists false, y |].
  destruct (sy_threads y !! wk_worker_index wk) as [th|] eqn:Hth; [| by exists false, y].
  unfold polardb_queue_reader_reservation_wake.
  assert (Hsame : y = y <| sy_threads := <[wk_worker_index wk := th]> (sy_threads y) |>).
  { destruct y as [a b threads c d e]. cbn in Hth |- *. by rewrite insert_id. }
  destruct (th_shutdown th || _) eqn:Hs.
  { exists false, y. split; [| done]. by rewrite <-Hsame. }
  apply orb_false_iff in Hs as [_ Ht%Z.eqb_neq]. cbn in Ht.
  destruct (th_wake_pending th) eqn:Hp.
  { eexists true, _. split; [done |]. exists th. split; [done |]. split; [done |].
    do 3 f_equal. destruct th. cbn in *. by subst. }
  destruct write_ok.
  - eexists true, _. split; [done |]. by exists th.
  - exists false, y. split; [| done]. by rewrite <-Hsame.
Qed.

(** ** Routing a wake *)

Lemma flight_wake x G f1 wk f2 :
  duties x G -> px_flight x = f1 ++ wk :: f2 ->
  G !! wk_token wk = Some (wk_worker_index wk, InFlight (wk_server wk)).
Proof.
  intros D Hf. apply (fo_entry _ _ (du_flight _ _ D)). rewrite Hf, fmap_app, fmap_cons.
  apply elem_of_app. right. apply list_elem_of_here.
Qed.

(** The state after a turn of the routing loop. *)
Definition routed (x : protocol) (f : list PolarDB_ReaderPoolReservationWake) (refused : gset Z)
    (y : reader_system) : protocol :=
  mkProtocol y f (px_draining x) (px_swapping x) refused.

Lemma queued_agrees x G f1 wk f2 th y' :
  agrees x G -> px_flight x = f1 ++ wk :: f2 ->
  sy_threads (px_system x) !! wk_worker_index wk = Some th ->
  y' = px_system x <| sy_threads := <[wk_worker_index wk :=
        th <| th_wakes := th_wakes th ++
                 [mkNotification (wk_token wk) (wk_server wk) (wk_snapshot wk)] |>
           <| th_wake_pending := true |>]> (sy_threads (px_system x)) |> ->
  agrees (routed x (f1 ++ f2) (px_refused x) y')
    (<[wk_token wk := (wk_worker_index wk, InWakes (wk_server wk))]> G).
Proof.
  intros [P D] Hf Hth ->. assert (Hg := flight_wake _ _ _ _ _ D Hf).
  destruct D as [F W O T N Pd Hg0]. split.
  { unfold pools. cbn. simpl_upd. eapply pools_moved; [exact P | exact Hg | done | done]. }
  set (n := mkNotification (wk_token wk) (wk_server wk) (wk_snapshot wk)).
  split; cbn; simpl_upd.
  - rewrite Hf in F. apply (flight_remove f1 wk f2 G _ F).
    + intros t w s Hne. by rewrite lookup_insert_ne.
    + intros w s. rewrite lookup_insert_eq. congruence.
  - intros w th' [[<- <-] | [Hne Hth']]%lookup_insert_Some.
    + assert (Ow := W _ _ Hth). unfold drained in *. cbn.
      apply (worker_woken _ _ _ _ _ n) in Ow; [| done]. rewrite <-app_assoc in Ow.
      simpl_upd. apply (worker_same _ _ th); by simpl_upd.
    + apply (worker_ext _ _ _ _ _ _ (W _ _ Hth')). intros t pl. rewrite lookup_insert_Some.
      naive_solver.
  - intros t w pl [[<- [= <- <-]] | [_ Hf']]%lookup_insert_Some; rewrite lookup_insert;
      case_decide; eauto.
  - intros t e [[<- <-] | [_ Hf']]%lookup_insert_Some; by eapply T.
  - done.
  - intros w th' [[<- <-] | [Hne Hth']]%lookup_insert_Some; [intros _; left; by simpl_upd |].
    by apply Pd.
  - intros w th' h [[<- <-] | [Hne Hth']]%lookup_insert_Some; [simpl_upd |]; by eapply Hg0.
Qed.

Lemma refused_duties x G f1 wk f2 :
  duties x G -> px_flight x = f1 ++ wk :: f2 ->
  duties (routed x (f1 ++ f2) ({[wk_token wk]} ∪ px_refused x) (px_system x))
    (delete (wk_token wk) G).
Proof.
  intros D Hf. assert (Hg := flight_wake _ _ _ _ _ D Hf).
  destruct D as [F W O T N Pd Hg0]. split; cbn; try done.
  - rewrite Hf in F. apply (flight_remove f1 wk f2 G _ F).
    + intros t w s Hne. by rewrite lookup_delete_ne.
    + intros w s. by rewrite lookup_delete_eq.
  - intros w th Hth. assert (Ow := W _ _ Hth).
    destruct (decide (wk_worker_index wk = w)) as [<-|Hne].
    + by eapply worker_refused.
    + eapply worker_more_lost; [| by eapply worker_other]. set_solver.
  - intros t w pl [_ H]%lookup_delete_Some. by eapply O.
  - intros t e [_ H]%lookup_delete_Some. by eapply T.
Qed.

(** The workers may have new wakes, unless nobody attached them. *)
Definition routes_only (y y' : reader_system) : Prop :=
  sy_attached y' = sy_attached y /\ dom (sy_threads y') = dom (sy_threads y) /\
  forall w th, sy_threads y !! w = Some th ->
    exists th', sy_threads y' !! w = Some th' /\ th_reservation th' = th_reservation th /\
      (w ∉ sy_attached y -> th' = th).

Lemma routes_refl y : routes_only y y.
Proof. split_and!; [done.. |]. intros w th Hth. by exists th. Qed.

Lemma routes_trans y y1 y2 : routes_only y y1 -> routes_only y1 y2 -> routes_only y y2.
Proof.
  intros (A1 & D1 & T1) (A2 & D2 & T2). split_and!; [congruence.. |]. intros w th Hth.
  destruct (T1 w th Hth) as (th1 & Hth1 & R1 & E1).
  destruct (T2 w th1 Hth1) as (th2 & Hth2 & R2 & E2). exists th2.
  split; [done |]. split; [congruence |]. intros Hw. rewrite E2; [by apply E1 | by rewrite A1].
Qed.

Lemma routes_pool s p y : routes_only y (with_pool s p y).
Proof. destruct y. split_and!; [done.. |]. intros w th Hth. by exists th. Qed.

Lemma routes_queued wk write_ok y y' :
  handler_queue_wake wk write_ok y = Some (true, y') -> routes_only y y'.
Proof.
  destruct (handler_queue_run wk write_ok y) as (queued & y1 & H & Hq).
  intros H'. rewrite H in H'. simplify_eq.
  destruct Hq as (th & Hth & _ & ->).
  assert (Hatt : wk_worker_index wk ∈ sy_attached y).
  { revert H. unfold handler_queue_wake. case_bool_decide; [done |]. by rewrite orb_true_r. }
  split_and!; [by simpl_upd | simpl_upd; by rewrite dom_insert_lookup_L by eauto |].
  intros w th' Hth'. simpl_upd.
  destruct (decide (w = wk_worker_index wk)) as [->|Hne].
  - rewrite lookup_insert_eq. eexists. split; [done |].
    assert (th' = th) as -> by congruence. split; [by simpl_upd | done].
  - rewrite lookup_insert_ne by done. by exists th'.
Qed.

(** The requests in the queues of the hostgroups. *)
Definition is_request (e : Z * (Z * place)) : Prop :=
  match e.2.2 with
  | InQueue _ => True
  | _ => False
  end.

#[global] Instance is_request_dec e : Decision (is_request e).
Proof. unfold is_request. destruct e.2.2; apply _. Defined.

Definition num_requests (G : ledger) : nat := size (filter is_request G).

Lemma handed_requests s next t G G' :
  is_Some next -> handed s next (delete t G) G' -> (num_requests G' < num_requests G)%nat.
Proof.
  intros [wk ->] (_ & (h & Hg) & ->). apply lookup_delete_Some in Hg as [Hne Hg].
  unfold num_requests.
  assert (Hf : filter is_request G !! wk_token wk = Some (wk_worker_index wk, InQueue h))
    by (by apply map_lookup_filter_Some).
  enough (Hle : (size (filter is_request (<[wk_token wk := (wk_worker_index wk, InFlight s)]>
    (delete t G))) <= size (delete (wk_token wk) (filter is_request G)))%nat).
  { revert Hle. rewrite map_size_delete_Some by eauto.
    assert (size (filter is_request G) <> 0%nat); [| lia].
    apply map_size_ne_0_lookup. eauto. }
  apply map_subseteq_size, map_subseteq_spec. intros t' e.
  rewrite lookup_delete_Some, !map_lookup_filter_Some, lookup_insert_Some, lookup_delete_Some.
  intros [[[<- <-] | (Hne' & _ & He)] Hr]; [by destruct Hr |]. by split.
Qed.

Lemma route_agrees x G cx f1 wk f2 write_ok :
  agrees x G -> px_flight x = f1 ++ wk :: f2 ->
  exists next y' G', route_once cx wk write_ok (px_system x) = Some (next, y') /\
    agrees (routed x ((f1 ++ f2) ++ option_list next)
              (if queues_wake wk write_ok (px_system x)
               then px_refused x else {[wk_token wk]} ∪ px_refused x) y') G' /\
    routes_only (px_system x) y' /\ (is_Some next -> (num_requests G' < num_requests G)%nat).
Proof.
  intros A Hf. destruct (handler_queue_run wk write_ok (px_system x)) as (queued & y1 & H & Hq).
  unfold route_once, queues_wake. rewrite (sbind_run _ _ _ _ _ H), H. destruct queued.
  - destruct Hq as (th & Hth & _ & Hy). eexists None, y1, _. split; [done |]. cbn.
    rewrite app_nil_r. split; [by eapply queued_agrees |].
    split; [by eapply routes_queued | by intros [? ?]].
  - subst y1. destruct A as [P D]. assert (Hg := flight_wake _ _ _ _ _ D Hf).
    set (x1 := routed x (f1 ++ f2) ({[wk_token wk]} ∪ px_refused x) (px_system x)).
    destruct (cancelled_agrees x x1 G cx (wk_server wk) (wk_worker_index wk) (wk_token wk) _
      P Hg eq_refl) as (st & next & p' & G' & Hc & _ & A' & Hh);
      [by apply refused_duties | done | done |].
    rewrite (sfmap_run _ _ _ _ _ Hc). eexists next, _, G'. split; [done |]. split; [done |].
    split; [apply routes_pool | intros Hn; by eapply handed_requests].
Qed.

(** ** A worker's reservation *)

Lemma thread_run {A} w (f : PgSQL_Thread -> A) y th :
  sy_threads y !! w = Some th -> thread_field w f y = Some (f th, y).
Proof. intros H. unfold thread_field. by rewrite H. Qed.

Lemma with_thread_run w f y th :
  sy_threads y !! w = Some th ->
  with_thread w f y = Some ((), y <| sy_threads := <[w := f th]> (sy_threads y) |>).
Proof. intros H. unfold with_thread. by rewrite H. Qed.

(** One thread of [x] is another now. *)
Definition with_worker (x : protocol) (w : Z) (th : PgSQL_Thread) : protocol :=
  mkProtocol (px_system x <| sy_threads := <[w := th]> (sy_threads (px_system x)) |>)
    (px_flight x) (px_draining x) (px_swapping x) (px_refused x).

(** A thread in its new state, and the entry of one token. *)
Lemma duties_worker x G G' w th th' :
  duties x G -> sy_threads (px_system x) !! w = Some th ->
  th_wakes th' = th_wakes th -> th_wake_pending th' = th_wake_pending th ->
  (forall h, wr_hostgroup (th_reservation th') = Some h -> is_Some (sy_queues (px_system x) !! h)) ->
  worker_ok (px_refused x) w th' (drained x w ++ th_wakes th') G' ->
  flight_ok (px_flight x) G' ->
  (forall w' t pl, w' <> w -> G' !! t = Some (w', pl) <-> G !! t = Some (w', pl)) ->
  (forall t e, G' !! t = Some e -> 0 < t < sy_next_token (px_system x)) ->
  duties (with_worker x w th') G'.
Proof.
  intros [F W O T N Pd Hg0] Hth Hwk Hpd Hhg Ow F' E T'. split; cbn; simpl_upd; try done.
  - intros w' th0 [[<- <-] | [Hne Hth']]%lookup_insert_Some; [done |].
    apply (worker_ext _ _ _ _ _ _ (W _ _ Hth')). intros t pl. by apply E.
  - intros t w' pl Hf. rewrite lookup_insert. case_decide; [eauto |].
    eapply O. apply E; [done | exact Hf].
  - intros w' th0 [[<- <-] | [Hne Hth']]%lookup_insert_Some; [rewrite Hwk, Hpd; by apply Pd |].
    by apply Pd.
  - intros w' th0 h [[<- <-] | [Hne Hth']]%lookup_insert_Some; [auto | by eapply Hg0].
Qed.

(** The worker gave up the reservation that it had in hand. *)
Lemma cleared_duties x G w th th' pl :
  duties x G -> sy_threads (px_system x) !! w = Some th ->
  th_wakes th' = th_wakes th -> th_wake_pending th' = th_wake_pending th ->
  th_worker_index th' = w -> th_reservation th' = no_worker_reservation ->
  G !! wr_token (th_reservation th) = Some (w, pl) ->
  (exists s, pl = InHand s) \/ (exists h, pl = InQueue h) ->
  duties (with_worker x w th') (delete (wr_token (th_reservation th)) G).
Proof.
  intros D Hth Hwk Hpd Hi Hr Hg Hpl. eapply duties_worker; try done.
  - by rewrite Hr.
  - rewrite Hwk. eapply worker_cleared; [by apply (du_worker _ _ D) | done.. |].
    destruct Hpl as [[s ->] | [h ->]]; [left | right]; by eexists.
  - apply (flight_ext _ _ _ (du_flight _ _ D)). intros t w' s. rewrite lookup_delete_Some.
    split; [tauto |]. intros Hf. split; [| done]. intros <-.
    destruct Hpl as [[s' ->] | [h ->]]; congruence.
  - intros w' t pl' Hne. rewrite lookup_delete_Some. split; [tauto |]. intros Hf.
    split; [| done]. intros <-. congruence.
  - intros t e [_ Hf]%lookup_delete_Some. by eapply (du_token _ _ D).
Qed.

(** ** Cancelling and taking by the worker *)

Lemma after_same x : after x (px_system x) None = x.
Proof. destruct x. unfold after. cbn. by rewrite app_nil_r. Qed.

Lemma cleared_thread (th : PgSQL_Thread) :
  let th' := th <| th_reservation := no_worker_reservation |> in
  th_wakes th' = th_wakes th /\ th_wake_pending th' = th_wake_pending th /\
  th_worker_index th' = th_worker_index th /\ th_reservation th' = no_worker_reservation.
Proof. by destruct th. Qed.

Lemma with_pool_threads s p y threads :
  with_pool s p (y <| sy_threads := threads |>) = with_pool s p y <| sy_threads := threads |>.
Proof. by destruct y. Qed.

Lemma clear_local_run w y th :
  sy_threads y !! w = Some th ->
  clear_local w y =
  Some ((), y <| sy_threads := <[w := th <| th_reservation := no_worker_reservation |>]>
                                 (sy_threads y) |>).
Proof. intros H. by apply with_thread_run. Qed.

(** The worker in hand of a reservation gives it up. *)
Lemma cancel_hand x G cx w th s :
  agrees x G -> sy_threads (px_system x) !! w = Some th ->
  holds th (wr_token (th_reservation th)) s ->
  exists st next p' G',
    on_server s (cancel_reader_pool_reservation cx w (wr_token (th_reservation th)))
      (px_system x) = Some ((st, next), with_pool s p' (px_system x)) /\
    (st = Cancel_RETIRED_RECORD_CLEARED \/ st = Cancel_CONNECTION_RETURNED) /\
    agrees (after x (with_pool s p' (px_system x) <| sy_threads :=
      <[w := th <| th_reservation := no_worker_reservation |>]> (sy_threads (px_system x)) |>) next) G'.
Proof.
  intros [P D] Hth Hh. assert (Ow := du_worker _ _ D w th Hth).
  assert (Hg := proj1 (wo_hand _ _ _ _ _ Ow _ _) Hh).
  destruct (cleared_thread th) as (E1 & E2 & E3 & E4).
  set (th' := th <| th_reservation := no_worker_reservation |>) in *.
  destruct (cancelled_agrees x (with_worker x w th') G cx s w _ _ P Hg eq_refl)
    as (st & next & p' & G' & H & Hst & A & _).
  - eapply cleared_duties; try done; [by rewrite E3, (wo_index _ _ _ _ _ Ow) | by left; eexists].
  - cbn. by simpl_upd.
  - cbn. by simpl_upd.
  - exists st, next, p', G'. split; [done |]. split; [done |].
    cbn in A. by rewrite with_pool_threads in A.
Qed.

(** A request that waits is withdrawn; one that was served meanwhile is left for
    the wake on its way. *)
Lemma cancel_waiting x G w th hid :
  agrees x G -> sy_threads (px_system x) !! w = Some th ->
  waits th (wr_token (th_reservation th)) hid ->
  exists b y1 G', on_queue hid (cancel_reader_pool_capacity_request w (wr_token (th_reservation th)))
      (px_system x) = Some (b, y1) /\ sy_threads y1 = sy_threads (px_system x) /\
    sy_attached y1 = sy_attached (px_system x) /\
    agrees (after x (y1 <| sy_threads :=
      <[w := th <| th_reservation := no_worker_reservation |>]> (sy_threads (px_system x)) |>) None) G'.
Proof.
  intros [P D] Hth Hw. assert (Ow := du_worker _ _ D w th Hth).
  destruct (cleared_thread th) as (E1 & E2 & E3 & E4).
  set (th' := th <| th_reservation := no_worker_reservation |>) in *.
  destruct Hw as (Ha & _ & Hs & Hh). set (t := wr_token (th_reservation th)) in *.
  destruct (du_hostgroup _ _ D w th hid Hth Hh) as [q Hq].
  destruct (po_queue _ _ _ P hid q Hq) as (l & R & Hl).
  destruct (cancel_refines q l w t R) as (q' & Hrun & Hcase).
  assert (Hown := queue_owned G hid l Hl w t).
  set (y1 := px_system x <| sy_queues := <[hid := q']> (sy_queues (px_system x)) |>).
  assert (Et : sy_threads y1 = sy_threads (px_system x)) by (unfold y1; by simpl_upd).
  assert (Hq1 : forall y2, y2 = y1 <| sy_threads := <[w := th']> (sy_threads (px_system x)) |> ->
            sy_servers y2 = sy_servers (px_system x) /\
            sy_queues y2 = <[hid := q']> (sy_queues (px_system x)) /\
            sy_threads y2 = <[w := th']> (sy_threads (px_system x)) /\
            sy_next_token y2 = sy_next_token (px_system x)).
  { intros y2 ->. unfold y1. by simpl_upd. }
  set (y2 := y1 <| sy_threads := _ |>) in *. destruct (Hq1 y2 eq_refl) as (F1 & F2 & F3 & F4).
  assert (Hdu : forall G', duties (with_worker x w th') G' -> duties (after x y2 None) G').
  { intros G' [F W O T N Pd Hg0]. cbn in *. revert W O T N Pd Hg0. simpl_upd. intros W O T N Pd Hg0.
    split; cbn; rewrite ?F2, ?F3, ?F4; try done; [by rewrite app_nil_r |].
    intros w0 th0 h0 Hth0 Hh0. rewrite lookup_insert. case_decide; [eauto | by eapply Hg0]. }
  assert (Hpo : forall G', pools_ok (sy_servers (px_system x)) (<[hid := q']> (sy_queues (px_system x))) G' ->
            pools (after x y2 None) G').
  { intros G' H. unfold pools. cbn. by rewrite F1, F2. }
  assert (Hrun1 : on_queue hid (cancel_reader_pool_capacity_request w t) (px_system x) =
                  Some (fifo_owned w t l.*2, y1)).
  { unfold on_queue. rewrite Hq. cbn. by rewrite Hrun. }
  destruct (fifo_owned w t l.*2).
  - destruct Hcase as (n & r & Hn & Hrw & Hrt & R').
    assert (Hg : G !! t = Some (w, InQueue hid)) by (by apply Hown).
    exists true, y1, (delete t G). split; [done |]. split; [done |].
    split; [unfold y1; by simpl_upd |]. split.
    + apply Hpo. rewrite <-Hrt.
      eapply pools_dequeued; [exact P | exact R | exact Hl | exact Hn | exact R'].
    + apply Hdu. eapply cleared_duties; try done; [by rewrite E3, (wo_index _ _ _ _ _ Ow) |].
      right. by eexists.
  - subst q'. exists false, y1, G. split; [done |]. split; [done |].
    split; [unfold y1; by simpl_upd |]. split.
    + apply Hpo. by rewrite insert_id.
    + apply Hdu. eapply duties_worker; try done.
      * by rewrite E4.
      * rewrite E1. eapply worker_abandoned; try done; [by rewrite E3, (wo_index _ _ _ _ _ Ow) | |].
        -- intros s' Hg%(wo_hand _ _ _ _ _ Ow). destruct Hg as (_ & _ & Hs'). congruence.
        -- intros h' Hg. destruct (wo_queue _ _ _ _ _ Ow _ _ Hg) as (_ & _ & _ & Hh').
           assert (h' = hid) as -> by congruence. apply Hown in Hg. done.
      * apply (du_flight _ _ D).
      * apply (du_token _ _ D).
Qed.

Lemma active_hostgroup r : wr_active r = true -> exists h, wr_hostgroup r = Some h.
Proof.
  unfold wr_active. destruct (wr_hostgroup r); [eauto |]. by rewrite andb_false_r.
Qed.

(** The reservation of [w] was cancelled, or was not for the session. *)
Definition withdrawn (w session_id : Z) (th : PgSQL_Thread) (y y' : reader_system) : Prop :=
  sy_attached y' = sy_attached y /\
  exists th', sy_threads y' = <[w := th']> (sy_threads y) /\ th_wakes th' = th_wakes th /\
    (session_id = 0 \/ session_id = wr_session_id (th_reservation th) ->
     wr_active (th_reservation th') = false).

Lemma cancel_agrees x G cx w session_id th :
  agrees x G -> sy_threads (px_system x) !! w = Some th ->
  exists next y' G', polardb_cancel_reader_reservation cx w session_id (px_system x) =
      Some (next, y') /\ agrees (after x y' next) G' /\ withdrawn w session_id th (px_system x) y'.
Proof.
  intros A Hth. unfold polardb_cancel_reader_reservation.
  rewrite (sbind_run _ _ _ _ _ (thread_run w id _ _ Hth)). cbn [id].
  assert (Hi : th_worker_index th = w) by (eapply wo_index, (du_worker _ _ (proj2 A)), Hth).
  assert (Hsame : (session_id = 0 \/ session_id = wr_session_id (th_reservation th) ->
                   wr_active (th_reservation th) = false) ->
            exists next y' G', Some (None, px_system x) = Some (next, y') /\
              agrees (after x y' next) G' /\ withdrawn w session_id th (px_system x) y').
  { intros Hz. exists None, (px_system x), G. split; [done |]. rewrite after_same. split; [done |].
    split; [done |]. exists th. by rewrite insert_id. }
  destruct (wr_active (th_reservation th)) eqn:Ha; cbn [negb orb]; [| by apply Hsame].
  destruct (negb (session_id =? 0) && _) eqn:Hz.
  { apply Hsame. apply andb_prop in Hz as [Hz Hid]. apply negb_true_iff in Hz, Hid.
    intros [-> | ->]; [done | by rewrite Z.eqb_refl in Hid]. }
  destruct (cleared_thread th) as (E1 & E2 & E3 & E4).
  destruct (wr_server (th_reservation th)) as [s|] eqn:Hs.
  - destruct (cancel_hand x G cx w th s A Hth) as (st & next & p' & G' & H & _ & A'); [done |].
    rewrite Hi. rewrite (sbind_run _ _ _ _ _ (sfmap_run snd _ _ _ _ H)).
    assert (Et : sy_threads (with_pool s p' (px_system x)) = sy_threads (px_system x))
      by apply with_pool_parts.
    rewrite (sbind_run (clear_local w) _ _ _ _ (clear_local_run w _ th (eq_trans (f_equal (lookup w) Et) Hth))).
    eexists next, _, G'. split; [done |]. rewrite Et. split; [done |].
    split; [by destruct (px_system x) |]. eexists. simpl_upd. split; [done |]. split; [done |].
    by rewrite E4.
  - destruct (active_hostgroup _ Ha) as [hid Hh]. rewrite Hh.
    destruct (cancel_waiting x G w th hid A Hth) as (b & y1 & G' & H & Et & Ea & A'); [done |].
    rewrite Hi. rewrite (sbind_run (_ ≫= _) _ _ None y1).
    2: { by rewrite (sbind_run _ _ _ _ _ H). }
    rewrite (sbind_run (clear_local w) _ _ _ _ (clear_local_run w _ th (eq_trans (f_equal (lookup w) Et) Hth))).
    eexists None, _, G'. split; [done |]. rewrite Et. split; [done |].
    split; [by simpl_upd |]. eexists. simpl_upd. split; [done |]. split; [done |]. by rewrite E4.
Qed.

(** The server [s] hands the reserved connection of [t] over, in use from then on
    under the key of the reservation, or tells that it is offline or has retired
    the reservation; either way [t] is settled. *)
Definition handed_over (w t : Z) (s : srv_id) (y y' : reader_system) (r : taken) : Prop :=
  exists heap srv heap' srv', sy_servers y !! s = Some (heap, srv) /\
    sy_servers y' !! s = Some (heap', srv') /\ claims_of srv' !! t = None /\
    ((exists rv, sv_reservations srv !! t = Some rv /\ rv_worker_index rv = w /\
        sv_status srv = SERVER_ONLINE /\ r = Taken_conn (rv_conn rv) /\
        slots (sv_used srv') = slots (sv_used srv) ++ [(rv_conn rv, rv_match_key rv)]) \/
     (r = Taken_lost /\ slots (sv_used srv') = slots (sv_used srv) /\
      ((exists rv, sv_reservations srv !! t = Some rv /\ rv_worker_index rv = w /\
          sv_status srv <> SERVER_ONLINE) \/
       exists rt, sv_retired srv !! t = Some rt /\ rt_worker_index rt = w))).

(** What a session that asks worker [w], with thread [th], is told.  Without a
    reserved connection for it nothing happens; its own reservation is given up
    when it is outdated and settled with the server when it is current. *)
Definition answered (w : Z) (th : PgSQL_Thread) (sess : option waiting_session) (current : bool)
    (y y' : reader_system) (r : taken) : Prop :=
  match sess with
  | None => r = Taken_nothing /\ y' = y
  | Some x =>
      if has_connection (th_reservation th) &&
         (wr_session_id (th_reservation th) =? ws_session_id x)
      then
        (exists th', sy_threads y' !! w = Some th' /\ wr_active (th_reservation th') = false) /\
        if cw_active (ws_wait x) && current
        then exists s, wr_server (th_reservation th) = Some s /\
               handed_over w (wr_token (th_reservation th)) s y y' r
        else r = Taken_cancelled
      else r = Taken_nothing /\ y' = y
  end.

(** The worker takes what it has in hand: the connection, or the news that it is
    gone. *)
Lemma take_hand x G w th th' s :
  agrees x G -> sy_threads (px_system x) !! w = Some th ->
  holds th (wr_token (th_reservation th)) s ->
  th_wakes th' = th_wakes th -> th_wake_pending th' = th_wake_pending th ->
  th_worker_index th' = w -> th_reservation th' = no_worker_reservation ->
  exists st p', on_server s (take_reader_pool_reservation w (wr_token (th_reservation th)))
      (px_system x) = Some (st, with_pool s p' (px_system x)) /\
    (exists r, match st with
               | Take_ACQUIRED c => r = Taken_conn c
               | Take_RETIRED _ => r = Taken_lost
               | _ => False
               end /\
       forall y', sy_servers y' = put_back s p' (sy_servers (px_system x)) ->
         handed_over w (wr_token (th_reservation th)) s (px_system x) y' r) /\
    agrees (after x (with_pool s p' (px_system x) <| sy_threads :=
      <[w := th']> (sy_threads (px_system x)) |>) None) (delete (wr_token (th_reservation th)) G).
Proof.
  intros [P D] Hth Hh E1 E2 E3 E4. assert (Ow := du_worker _ _ D w th Hth).
  assert (Hg := proj1 (wo_hand _ _ _ _ _ Ow _ _) Hh). set (t := wr_token (th_reservation th)) in *.
  destruct (pools_view _ _ _ s P (po_known _ _ _ P _ _ _ _ Hg eq_refl)) as (p & l & V).
  destruct (pools_taken _ _ _ _ _ _ P V _ w _ Hg eq_refl) as (p' & H & Eu & Ecl & P' & Ehid).
  assert (Hrec := claim_record _ _ _ _ _ _ P V _ w _ Hg eq_refl).
  exists (take_outcome t (pl_srv p)), p'.
  split; [exact (on_server_run _ _ _ _ _ _ _ _ V H Ehid) |]. split.
  { assert (Hset : claims_of (pl_srv p') !! t = None).
    { change (claims p' !! t = None). rewrite Ecl. apply lookup_delete_eq. }
    unfold used_slots, take_slot in Eu. unfold take_outcome.
    assert (Hput : forall y' : reader_system, sy_servers y' = put_back s p' (sy_servers (px_system x)) ->
              sy_servers y' !! s = Some (pl_heap p', pl_srv p')).
    { intros y' ->. apply lookup_insert_eq. }
    destruct Hrec as [(rv & Hr & Hw) | (Hn & rt & Hr & Hw)].
    - rewrite Hr in Eu |- *. destruct (status_test (sv_status (pl_srv p))) as [[Hon _] | [Hon _]].
      + rewrite Hon in Eu |- *. cbn in Eu |- *. eexists. split; [done |]. intros y' Hy'.
        exists (pl_heap p), (pl_srv p), (pl_heap p'), (pl_srv p').
        split; [apply V |]. split; [by apply Hput |]. split; [done |]. left. by exists rv.
      + rewrite (proj2 (beq_false _ _) Hon) in Eu |- *. rewrite app_nil_r in Eu.
        eexists. split; [done |]. intros y' Hy'.
        exists (pl_heap p), (pl_srv p), (pl_heap p'), (pl_srv p').
        split; [apply V |]. split; [by apply Hput |]. split; [done |]. right.
        split; [done |]. split; [done |]. left. by exists rv.
    - rewrite Hn in Eu |- *. rewrite Hr. rewrite app_nil_r in Eu. eexists. split; [done |]. intros y' Hy'.
      exists (pl_heap p), (pl_srv p), (pl_heap p'), (pl_srv p').
      split; [apply V |]. split; [by apply Hput |]. split; [done |]. right.
      split; [done |]. split; [done |]. right. by exists rt. }
  rewrite <-with_pool_threads.
  assert (D' : duties (with_worker x w th') (delete t G)).
  { eapply cleared_duties; try done. left. by eexists. }
  split.
  - assert (H0 := with_pool_pools (with_worker x w th') s p' None (delete t G)).
    unfold pools in *. cbn in *. revert H0. simpl_upd. auto.
  - exact (with_pool_duties (with_worker x w th') s p' None _ _ D' eq_refl).
Qed.

(** The take itself, with what the worker does about its answer. *)
Lemma take_finish x G w th s plan spec :
  agrees x G -> sy_threads (px_system x) !! w = Some th ->
  holds th (wr_token (th_reservation th)) s ->
  exists r y' G',
    (status ← on_server s (take_reader_pool_reservation w (wr_token (th_reservation th)));
     match status with
     | Take_PENDING => mret (Taken_waiting, None)
     | Take_RETIRED _ => clear_local w;; mret (Taken_lost, None)
     | Take_MISSING => clear_local w;; mret (Taken_missing, None)
     | Take_ACQUIRED c =>
         hid ← myhgc s;
         with_thread w (polardb_reader_start_retention (wr_scope_hash (th_reservation th))
           (wr_hostgroup (th_reservation th)) (default UINT32_MAX hid)
           (wr_profile_generation (th_reservation th)) (wr_pool_key (th_reservation th)) plan spec);;
         clear_local w;;
         mret (Taken_conn c, None)
     end : SM (taken * option PolarDB_ReaderPoolReservationWake)) (px_system x) = Some ((r, None), y') /\
    (exists th', sy_threads y' !! w = Some th' /\ wr_active (th_reservation th') = false) /\
    handed_over w (wr_token (th_reservation th)) s (px_system x) y' r /\
    agrees (after x y' None) G'.
Proof.
  intros A Hth Hh.
  assert (Hi : th_worker_index th = w) by (eapply wo_index, (du_worker _ _ (proj2 A)), Hth).
  destruct (cleared_thread th) as (E1 & E2 & E3 & E4).
  destruct (take_hand x G w th (th <| th_reservation := no_worker_reservation |>) s A Hth Hh)
    as (st & p' & H & (r & Hr & Hset) & A'); [done | done | congruence | done |].
  rewrite (sbind_run _ _ _ _ _ H).
  destruct (with_pool_parts s p' (px_system x)) as (Es & _ & Et & _).
  assert (Et' : sy_threads (with_pool s p' (px_system x)) !! w = Some th) by congruence.
  destruct st as [| |reason|c]; [done | done | |]; subst r.
  - rewrite (sbind_run _ _ _ _ _ (clear_local_run w _ _ Et')).
    eexists Taken_lost, _, _. split; [done |]. rewrite Et. split; [| split; [| exact A']].
    + eexists. simpl_upd. split; [apply lookup_insert_eq | by rewrite E4].
    + apply Hset. by simpl_upd.
  - rewrite (sbind_run (myhgc s) _ _ _ _ eq_refl).
    match goal with |- context [with_thread w ?f] => set (g := f) end.
    rewrite (sbind_run _ _ _ _ _ (with_thread_run w g _ th Et')).
    set (y1 := _ <| sy_threads := _ |>).
    assert (Ht1 : sy_threads y1 !! w = Some (g th)) by (unfold y1; simpl_upd; apply lookup_insert_eq).
    rewrite (sbind_run _ _ _ _ _ (clear_local_run w _ _ Ht1)).
    destruct (cleared_thread (g th)) as (F1 & F2 & F3 & F4).
    assert (Eg : th_wakes (g th) = th_wakes th /\ th_wake_pending (g th) = th_wake_pending th /\
                 th_worker_index (g th) = th_worker_index th).
    { unfold g, polardb_reader_start_retention. by simpl_upd. }
    destruct Eg as (G1 & G2 & G3).
    destruct (take_hand x G w th (g th <| th_reservation := no_worker_reservation |>) s A Hth Hh)
      as (st' & p'' & H' & _ & A''); [congruence | congruence | congruence | done |].
    rewrite H in H'. injection H' as _ Hp.
    eexists (Taken_conn c), _, _. split; [done |]. split; [| split].
    + eexists. simpl_upd. split; [apply lookup_insert_eq | by rewrite F4].
    + apply Hset. unfold y1. by simpl_upd.
    + rewrite <-Hp in A''. unfold y1. simpl_upd.
      replace (_ <| sy_threads := <[w := g th <| th_reservation := _ |>]> _ |>) with
        (with_pool s p' (px_system x) <| sy_threads :=
           <[w := g th <| th_reservation := no_worker_reservation |>]> (sy_threads (px_system x)) |>);
        [exact A'' |].
      rewrite Et, insert_insert_eq. by destruct (with_pool s p' (px_system x)).
Qed.

Lemma take_agrees x G cx w sess current th :
  agrees x G -> sy_threads (px_system x) !! w = Some th ->
  exists r next y' G', polardb_take_reader_reservation cx w sess current (px_system x) =
      Some ((r, next), y') /\ answered w th sess current (px_system x) y' r /\
    agrees (after x y' next) G'.
Proof.
  intros A Hth. unfold polardb_take_reader_reservation.
  rewrite (sbind_run _ _ _ _ _ (thread_run w id _ _ Hth)). cbn [id].
  assert (Hi : th_worker_index th = w) by (eapply wo_index, (du_worker _ _ (proj2 A)), Hth).
  destruct sess as [sess|].
  2: { exists Taken_nothing, None, (px_system x), G. split; [done |]. by rewrite after_same. }
  unfold answered. rewrite <-negb_andb.
  destruct (has_connection (th_reservation th) && _) eqn:Hc; cbn [negb].
  2: { exists Taken_nothing, None, (px_system x), G. split; [done |]. by rewrite after_same. }
  apply andb_prop in Hc as [Hc Hid]. apply Z.eqb_eq in Hid. rewrite <-negb_andb.
  destruct (cw_active (ws_wait sess) && current); cbn [negb].
  2: { destruct (cancel_agrees x G cx w (ws_session_id sess) th A Hth)
         as (next & y' & G' & H & A' & _ & th' & Et & _ & Hoff).
       rewrite (sbind_run _ _ _ _ _ H). exists Taken_cancelled, next, y', G'. split; [done |].
       split; [| done]. split; [| done]. exists th'. split; [rewrite Et; apply lookup_insert_eq |].
       apply Hoff. by right. }
  apply andb_prop in Hc as [Ha Hsome].
  destruct (wr_server (th_reservation th)) as [s|] eqn:Hs; [| done]. rewrite Hi.
  assert (Hh : holds th (wr_token (th_reservation th)) s) by done.
  destruct (take_finish x G w th s (cw_plan (ws_wait sess)) (cw_wait_spec (ws_wait sess)) A Hth Hh)
    as (r & y' & G' & H & Hset & Hr & A').
  exists r, None, y', G'. split; [exact H |]. split; [| done]. split; [done |]. by exists s.
Qed.

(** ** Processing wakes *)

(** The first drained wake of [w] is taken up. *)
Definition popped (x : protocol) (w : Z) (wakes : list wake_notification) : protocol :=
  mkProtocol (px_system x) (px_flight x) (<[w := wakes]> (px_draining x)) (px_swapping x)
    (px_refused x).

Lemma drained_popped x w wakes w' :
  drained (popped x w wakes) w' = if decide (w' = w) then wakes else drained x w'.
Proof.
  unfold drained. cbn. rewrite lookup_insert. case_decide as E; case_decide as E'; try done; by subst.
Qed.

Lemma popped_duties x G w n wakes th :
  duties x G -> sy_threads (px_system x) !! w = Some th ->
  px_draining x !! w = Some (n :: wakes) ->
  (wr_active (th_reservation th) = true -> wr_token (th_reservation th) <> wn_token n) ->
  G !! wn_token n = Some (w, InWakes (wn_server n)) /\
  duties (popped x w wakes) (delete (wn_token n) G).
Proof.
  intros D Hth Hn Hne. assert (Ow := du_worker _ _ D w th Hth).
  assert (Ed : drained x w = n :: wakes) by (unfold drained; by rewrite Hn).
  rewrite Ed in Ow. destruct (notification_free _ _ _ _ _ _ Ow) as (Hg & _).
  split; [done |]. destruct D as [F W O T N Pd Hg0]. split; cbn; try done.
  - apply (flight_ext _ _ _ F). intros t w' s. rewrite lookup_delete_Some. naive_solver.
  - intros w' th' Hth'. change (worker_ok (px_refused x) w' th' (drained (popped x w wakes) w'
      ++ th_wakes th') (delete (wn_token n) G)). rewrite drained_popped.
    case_decide as E; [subst w' | by eapply worker_other; [apply W | |]].
    assert (th' = th) as -> by congruence. by apply worker_wake_dropped.
  - intros t w' pl [_ H]%lookup_delete_Some. by eapply O.
  - intros t e [_ H]%lookup_delete_Some. by eapply T.
Qed.

Lemma filled_agrees x G w n wakes th :
  agrees x G -> sy_threads (px_system x) !! w = Some th ->
  px_draining x !! w = Some (n :: wakes) ->
  wr_active (th_reservation th) = true -> wr_token (th_reservation th) = wn_token n ->
  agrees (popped (with_worker x w (th <| th_reservation :=
      th_reservation th <| wr_server := Some (wn_server n) |>
        <| wr_server_snapshot := Some (wn_server_snapshot n) |> |>)) w wakes)
    (<[wn_token n := (w, InHand (wn_server n))]> G).
Proof.
  intros [P D] Hth Hn Ha Ht. assert (Ow := du_worker _ _ D w th Hth).
  assert (Ed : drained x w = n :: wakes) by (unfold drained; by rewrite Hn).
  rewrite Ed in Ow. destruct (notification_free _ _ _ _ _ _ Ow) as (Hg & _).
  set (r := th_reservation th <| wr_server := _ |> <| wr_server_snapshot := _ |>).
  assert (Er : wr_active r = wr_active (th_reservation th) /\
               wr_token r = wr_token (th_reservation th) /\ wr_server r = Some (wn_server n) /\
               wr_hostgroup r = wr_hostgroup (th_reservation th)).
  { unfold r, wr_active. by simpl_upd. }
  destruct Er as (E1 & E2 & E3 & E4). clearbody r.
  split.
  { unfold pools. cbn. simpl_upd. eapply pools_moved; [exact P | exact Hg | done | done]. }
  destruct D as [F W O T N Pd Hg0]. split; cbn; simpl_upd; try done.
  - apply (flight_ext _ _ _ F). intros t w' s. rewrite lookup_insert_Some. naive_solver.
  - intros w' th' [[<- <-] | [Hne Hth']]%lookup_insert_Some.
    + unfold drained. cbn. rewrite lookup_insert_eq. simpl_upd. cbn.
      eapply worker_wake_taken; try done; simpl_upd; try congruence.
      apply (wo_index _ _ _ _ _ Ow).
    + unfold drained. cbn. rewrite lookup_insert_ne by done.
      apply (worker_ext _ _ _ _ _ _ (W _ _ Hth')). intros t pl. rewrite lookup_insert_Some.
      naive_solver.
  - intros t w' pl [[<- [= <- <-]] | [_ H]]%lookup_insert_Some; rewrite lookup_insert;
      case_decide; eauto.
  - intros t e [[<- <-] | [_ H]]%lookup_insert_Some; by eapply T.
  - intros w' th' [[<- <-] | [Hne Hth']]%lookup_insert_Some; [simpl_upd |]; by apply Pd.
  - intros w' th' h [[<- <-] | [Hne Hth']]%lookup_insert_Some; [simpl_upd; rewrite E4 |];
      by eapply Hg0.
Qed.

(** While [w] processes its wakes: a connection it has stays, and nobody queues
    wakes to it once it is detached. *)
Definition proceeds (w : Z) (y y' : reader_system) : Prop :=
  sy_attached y' = sy_attached y /\ dom (sy_threads y') = dom (sy_threads y) /\
  forall th, sy_threads y !! w = Some th ->
    exists th', sy_threads y' !! w = Some th' /\
      (has_connection (th_reservation th) = true -> has_connection (th_reservation th') = true) /\
      (w ∉ sy_attached y -> th_wakes th' = th_wakes th).

Lemma routes_proceeds w y y' : routes_only y y' -> proceeds w y y'.
Proof.
  intros (A & D & T). split_and!; [done.. |]. intros th Hth.
  destruct (T w th Hth) as (th' & Hth' & Hr & E). exists th'. split; [done |].
  split; [by rewrite Hr |]. intros Hw. by rewrite E.
Qed.

Lemma proceeds_refl w y : proceeds w y y.
Proof. apply routes_proceeds, routes_refl. Qed.

Lemma proceeds_trans w y y1 y2 : proceeds w y y1 -> proceeds w y1 y2 -> proceeds w y y2.
Proof.
  intros (A1 & D1 & T1) (A2 & D2 & T2). split_and!; [congruence.. |]. intros th Hth.
  destruct (T1 th Hth) as (th1 & Hth1 & C1 & W1). destruct (T2 th1 Hth1) as (th2 & Hth2 & C2 & W2).
  exists th2. split; [done |]. split; [auto |]. intros Hw. rewrite W2; [by apply W1 | by rewrite A1].
Qed.

Lemma proceeds_thread w f y th :
  sy_threads y !! w = Some th ->
  (has_connection (th_reservation th) = true -> has_connection (th_reservation (f th)) = true) ->
  th_wakes (f th) = th_wakes th ->
  proceeds w y (y <| sy_threads := <[w := f th]> (sy_threads y) |>).
Proof.
  intros Hth Hc Hw. split_and!; simpl_upd; [done | by rewrite dom_insert_lookup_L by eauto |].
  intros th0 Hth0. assert (th0 = th) as -> by congruence. exists (f th).
  by rewrite lookup_insert_eq.
Qed.

Lemma process_agrees x G cx w n wakes th :
  agrees x G -> sy_threads (px_system x) !! w = Some th ->
  px_draining x !! w = Some (n :: wakes) ->
  exists ready next y' G', process_wake cx w n (px_system x) = Some ((ready, next), y') /\
    agrees (after (popped x w wakes) y' next) G' /\ proceeds w (px_system x) y' /\
    (ready = true -> exists th', sy_threads y' !! w = Some th' /\
                       has_connection (th_reservation th') = true).
Proof.
  intros A Hth Hn. unfold process_wake.
  rewrite (sbind_run _ _ _ _ _ (thread_run w id _ _ Hth)). cbn [id].
  assert (Hi : th_worker_index th = w) by (eapply wo_index, (du_worker _ _ (proj2 A)), Hth).
  destruct (wr_active (th_reservation th) && (wr_token (th_reservation th) =? wn_token n)) eqn:E.
  - apply andb_prop in E as [Ha Ht%Z.eqb_eq].
    match goal with |- context [with_thread w ?f] => set (g := f) end.
    assert (Hg : has_connection (th_reservation (g th)) = true).
    { unfold g, has_connection, wr_active in *. simpl_upd. by rewrite Ha. }
    rewrite (sbind_run _ _ _ _ _ (with_thread_run w g _ th Hth)).
    eexists true, None, _, _. split; [done |].
    assert (A' := filled_agrees x G w n wakes th A Hth Hn Ha Ht).
    split; [unfold after, popped, with_worker in *; cbn in *; by rewrite app_nil_r |].
    split; [apply proceeds_thread; [done | done |]; unfold g; by simpl_upd |].
    intros _. exists (g th). simpl_upd. by rewrite lookup_insert_eq.
  - assert (Hne : wr_active (th_reservation th) = true ->
              wr_token (th_reservation th) <> wn_token n).
    { intros Ha Ht. rewrite Ha, (proj2 (Z.eqb_eq _ _) Ht) in E. done. }
    destruct A as [P D]. destruct (popped_duties x G w n wakes th D Hth Hn Hne) as [Hg D'].
    destruct (cancelled_agrees x (popped x w wakes) G cx (wn_server n) w (wn_token n) _ P Hg
      eq_refl D' eq_refl eq_refl) as (st & next & p' & G' & H & _ & A' & _).
    rewrite Hi, (sbind_run _ _ _ _ _ H). eexists false, next, _, G'.
    split; [done |]. split; [done |]. split; [by apply routes_proceeds, routes_pool | done].
Qed.

Lemma exchange_agrees x G w th :
  agrees x G -> sy_threads (px_system x) !! w = Some th ->
  let y' := px_system x <| sy_threads := <[w := th <| th_wake_pending := false |>]>
                                           (sy_threads (px_system x)) |> in
  exchange_wake_pending w (px_system x) = Some (th_wake_pending th, y') /\
  (w ∉ px_swapping x ->
   agrees (mkProtocol y' (px_flight x) (px_draining x)
             (if th_wake_pending th then {[w]} ∪ px_swapping x else px_swapping x)
             (px_refused x)) G).
Proof.
  intros [P D] Hth y'. split.
  { unfold exchange_wake_pending. rewrite (sbind_run _ _ _ _ _ (thread_run w _ _ _ Hth)).
    by rewrite (sbind_run _ _ _ _ _ (with_thread_run w _ _ th Hth)). }
  unfold y'. intros Hw. split; [unfold pools; cbn; by simpl_upd |].
  destruct D as [F W O T N Pd Hg0]. split; cbn; simpl_upd; try done.
  - intros w' th' [[<- <-] | [Hne Hth']]%lookup_insert_Some; [| by apply W].
    simpl_upd. apply (worker_same _ _ th); [by apply W | by simpl_upd | by simpl_upd].
  - intros t w' pl H. rewrite lookup_insert. case_decide; [eauto | by eapply O].
  - intros w' th' [[<- <-] | [Hne Hth']]%lookup_insert_Some; simpl_upd; intros Hwk.
    + right. destruct (Pd w th Hth Hwk) as [-> | ?]; [set_solver | done].
    + destruct (Pd w' th' Hth' Hwk) as [? | ?]; [by left | right].
      destruct (th_wake_pending th); set_solver.
  - intros w' th' h [[<- <-] | [Hne Hth']]%lookup_insert_Some; [simpl_upd |]; by eapply Hg0.
Qed.

Lemma swap_agrees x G w th :
  agrees x G -> sy_threads (px_system x) !! w = Some th ->
  let y' := px_system x <| sy_threads := <[w := th <| th_wakes := [] |>]>
                                           (sy_threads (px_system x)) |> in
  swap_wakes w (px_system x) = Some (th_wakes th, y') /\
  agrees (mkProtocol y' (px_flight x) (<[w := drained x w ++ th_wakes th]> (px_draining x))
            (px_swapping x ∖ {[w]}) (px_refused x)) G.
Proof.
  intros [P D] Hth y'. split.
  { unfold swap_wakes. rewrite (sbind_run _ _ _ _ _ (thread_run w _ _ _ Hth)).
    by rewrite (sbind_run _ _ _ _ _ (with_thread_run w _ _ th Hth)). }
  unfold y'. split; [unfold pools; cbn; by simpl_upd |].
  destruct D as [F W O T N Pd Hg0]. split; cbn; simpl_upd; try done.
  - intros w' th' [[<- <-] | [Hne Hth']]%lookup_insert_Some; unfold drained; cbn.
    + rewrite lookup_insert_eq. simpl_upd. cbn. rewrite app_nil_r.
      apply (worker_same _ _ th); [by apply W | by simpl_upd | by simpl_upd].
    + rewrite lookup_insert_ne by done. by apply W.
  - intros t w' pl H. rewrite lookup_insert. case_decide; [eauto | by eapply O].
  - intros w' th' [[<- <-] | [Hne Hth']]%lookup_insert_Some; simpl_upd; [done |].
    intros Hwk. destruct (Pd w' th' Hth' Hwk) as [? | ?]; [by left | right; set_solver].
  - intros w' th' h [[<- <-] | [Hne Hth']]%lookup_insert_Some; [simpl_upd |]; by eapply Hg0.
Qed.

(** ** Registering *)

Lemma routed_same x : routed x (px_flight x) (px_refused x) (px_system x) = x.
Proof. by destruct x. Qed.

Lemma draw_agrees x G :
  agrees x G -> sy_next_token (px_system x) < 2 ^ 64 - 1 ->
  let t := sy_next_token (px_system x) in
  let y' := px_system x <| sy_next_token := t + 1 |> in
  draw_token (px_system x) = Some (t, y') /\ G !! t = None /\
  agrees (routed x (px_flight x) (px_refused x) y') G.
Proof.
  intros [P D] Hlt t y'. assert (Hpos := du_next _ _ D). fold t in Hlt, Hpos.
  split; [| split].
  - unfold draw_token. fold t. rewrite (proj2 (Z.eqb_neq _ _)) by lia.
    unfold wrap64. rewrite Z.mod_small; [done |]. unfold U64_MODULUS. lia.
  - destruct (G !! t) as [e|] eqn:Hg; [| done]. apply (du_token _ _ D) in Hg. fold t in Hg. lia.
  - split; [unfold pools, routed, y'; cbn; by simpl_upd |].
    destruct D as [F W O T N Pd Hg0]. unfold y'. split; cbn; simpl_upd; try done; [| lia].
    intros t' e He. specialize (T _ _ He). fold t in T. lia.
Qed.

Lemma enqueued_agrees x G w th th' hid q q' l n r :
  agrees x G -> sy_threads (px_system x) !! w = Some th ->
  wr_active (th_reservation th) = false ->
  sy_queues (px_system x) !! hid = Some q -> represents q l -> queued G hid l ->
  represents q' (l ++ [(n, r)]) -> cr_worker_index r = w -> G !! cr_token r = None ->
  0 < cr_token r < sy_next_token (px_system x) ->
  th_worker_index th' = w -> th_wakes th' = th_wakes th ->
  th_wake_pending th' = th_wake_pending th -> waits th' (cr_token r) hid ->
  agrees (routed x (px_flight x) (px_refused x)
      (px_system x <| sy_queues := <[hid := q']> (sy_queues (px_system x)) |>
                   <| sy_threads := <[w := th']> (sy_threads (px_system x)) |>))
    (<[cr_token r := (w, InQueue hid)]> G).
Proof.
  intros [P D] Hth Ha Hq R Hl R' Hw Hg Ht Ei Ewk Epd Hwaits. set (t := cr_token r) in *.
  split.
  { unfold pools. cbn. simpl_upd. subst w. by eapply pools_enqueued. }
  assert (D' : duties (with_worker x w th') (<[t := (w, InQueue hid)]> G)).
  { eapply duties_worker; try done.
    - intros h Hh. destruct Hwaits as (_ & _ & _ & Hh'). replace h with hid by congruence. by eexists.
    - rewrite Ewk. eapply worker_registered; try done. by apply (du_worker _ _ D).
    - apply (flight_ext _ _ _ (du_flight _ _ D)). intros t' w' s. rewrite lookup_insert_Some.
      split; [intros [[_ [=]] | [_ ?]]; done |]. intros Hf. right. split; [congruence | done].
    - intros w' t' pl Hne. rewrite lookup_insert_Some.
      split; [intros [[_ [= ? _]] | [_ ?]]; [congruence | done] |].
      intros Hf. right. split; [congruence | done].
    - intros t' e [[<- _] | [_ Hf]]%lookup_insert_Some; [done | by eapply (du_token _ _ D)]. }
  destruct D' as [F W O T N Pd Hg0]. cbn in *. revert W O T N Pd Hg0. simpl_upd.
  intros W O T N Pd Hg0. split; cbn; simpl_upd; try done.
  intros w0 th0 h0 Hth0 Hh0. rewrite lookup_insert. case_decide; [eauto | by eapply Hg0].
Qed.

(** ** What others change *)

Lemma other_agrees x G threads attached shutdown :
  agrees x G ->
  (forall w, option_relation same_duty (fun _ => False) (fun _ => False)
               (sy_threads (px_system x) !! w) (threads !! w)) ->
  agrees (routed x (px_flight x) (px_refused x)
            (mkReaderSystem (sy_servers (px_system x)) (sy_queues (px_system x)) threads attached
               shutdown (sy_next_token (px_system x)))) G.
Proof.
  intros [P D] Hall. split; [done |]. destruct D as [F W O T N Pd Hg0].
  assert (Hold : forall w th', threads !! w = Some th' ->
            exists th, sy_threads (px_system x) !! w = Some th /\ same_duty th th').
  { intros w th' Hth'. specialize (Hall w). rewrite Hth' in Hall.
    destruct (sy_threads (px_system x) !! w) as [th|]; [by exists th | done]. }
  split; cbn; try done.
  - intros w th' (th & Hth & Hi & Hr & Hwk & _)%Hold. rewrite Hwk.
    apply (worker_same _ _ th); [by apply W | done | done].
  - intros t w pl Hg. destruct (O _ _ _ Hg) as [th Hth]. specialize (Hall w).
    rewrite Hth in Hall. destruct (threads !! w); [by eexists | done].
  - intros w th' (th & Hth & Hi & Hr & -> & ->)%Hold. by apply Pd.
  - intros w th' h (th & Hth & Hi & -> & _)%Hold. by eapply Hg0.
Qed.

(** [x] with another system. *)
Definition seeing (x : protocol) (y : reader_system) : protocol :=
  routed x (px_flight x) (px_refused x) y.

Lemma on_queue_run {A} hid (f : capacity_queue -> option (A * capacity_queue)) y q a q' :
  sy_queues y !! hid = Some q -> f q = Some (a, q') ->
  on_queue hid f y = Some (a, y <| sy_queues := <[hid := q']> (sy_queues y) |>).
Proof. intros Hq Hf. unfold on_queue. rewrite Hq. cbn. by rewrite Hf. Qed.

Lemma register_request_agrees x G w th sess hostgroup :
  agrees x G -> sy_threads (px_system x) !! w = Some th ->
  wr_active (th_reservation th) = false -> may_draw w (px_system x) ->
  (forall h, hostgroup = Some h -> is_Some (sy_queues (px_system x) !! h)) ->
  exists sess' y' G', register_request w sess hostgroup (px_system x) = Some (sess', y') /\
    agrees (seeing x y') G'.
Proof.
  intros A Hth Ha [Hlt Hu] Hhg. unfold register_request.
  destruct (draw_agrees x G A Hlt) as (Hdraw & Hg & A1).
  rewrite (sbind_run _ _ _ _ _ Hdraw). clear Hdraw.
  assert (Hpos := du_next _ _ (proj2 A)). set (t := sy_next_token (px_system x)) in *.
  set (y1 := px_system x <| sy_next_token := t + 1 |>) in *.
  assert (Hy1 : sy_threads y1 = sy_threads (px_system x) /\
                sy_queues y1 = sy_queues (px_system x) /\ sy_next_token y1 = t + 1).
  { unfold y1. by simpl_upd. }
  destruct Hy1 as (Et & Eq & En). clearbody y1.
  destruct hostgroup as [hid|]; [| by eexists _, y1, G].
  destruct (Hhg hid eq_refl) as [q Hq]. rewrite <-Eq in Hq.
  match goal with |- context [mkRequest ?a ?b ?c ?d ?e ?f] => set (r := mkRequest a b c d e f) end.
  destruct (po_queue _ _ _ (proj1 A1) hid q Hq) as (l & R & Hl).
  destruct (register_refines q l r R Hu) as (q' & Hrun & Hq').
  rewrite (sbind_run _ _ _ _ _ (on_queue_run hid _ _ _ _ _ Hq (f_equal Some Hrun))).
  destruct (fifo_admits r l.*2); cbn [negb].
  - assert (Hth1 : sy_threads (y1 <| sy_queues := <[hid := q']> (sy_queues y1) |>) !! w = Some th).
    { simpl_upd. by rewrite Et. }
    rewrite (sbind_run (with_thread w _) _ _ _ _ (with_thread_run w _ _ th Hth1)).
    eexists _, _, _. split; [done |]. simpl_upd.
    eapply (enqueued_agrees (seeing x y1) G w th _ hid q q' l (cq_next q) r); try done;
      cbn; simpl_upd; try congruence; try lia.
    + by rewrite (wo_index _ _ _ _ _ (du_worker _ _ (proj2 A) w th Hth)).
    + unfold waits. simpl_upd. cbn. unfold wr_active. cbn.
      rewrite (proj2 (Z.eqb_neq _ _)) by lia. done.
  - subst q'. eexists sess, _, G. split; [done |].
    replace (y1 <| sy_queues := _ |>) with y1; [done |].
    destruct y1. cbn in *. by rewrite insert_id.
Qed.

Lemma may_register_spec w sess th :
  may_register w sess th = true -> wr_active (th_reservation th) = false.
Proof.
  unfold may_register. destruct sess; [| done]. by destruct (wr_active _).
Qed.

(** A worker keeps or starts a retention. *)
Lemma retained_agrees x G w th (f : PgSQL_Thread -> PgSQL_Thread) :
  agrees x G -> sy_threads (px_system x) !! w = Some th -> same_duty th (f th) ->
  agrees (seeing x (px_system x <| sy_threads := <[w := f th]> (sy_threads (px_system x)) |>)) G.
Proof.
  intros A Hth Hs.
  assert (H := other_agrees x G (<[w := f th]> (sy_threads (px_system x)))
    (sy_attached (px_system x)) (sy_handler_shutdown (px_system x)) A).
  unfold seeing. replace (px_system x <| sy_threads := _ |>) with
    (mkReaderSystem (sy_servers (px_system x)) (sy_queues (px_system x))
       (<[w := f th]> (sy_threads (px_system x))) (sy_attached (px_system x))
       (sy_handler_shutdown (px_system x)) (sy_next_token (px_system x))) by (by destruct (px_system x)).
  apply H. intros w'. destruct (decide (w' = w)) as [->|Hne].
  - by rewrite Hth, lookup_insert_eq.
  - rewrite lookup_insert_ne by done. by destruct (_ !! w').
Qed.

Lemma adopt_same sess hid th : same_duty th (polardb_reader_adopt_retention sess hid th).
Proof.
  unfold polardb_reader_adopt_retention. destruct sess as [sess|]; [| done].
  destruct (_ || _); [done |]. unfold polardb_reader_start_retention, same_duty. by simpl_upd.
Qed.

Lemma register_agrees x G cx w sess th :
  agrees x G -> sy_threads (px_system x) !! w = Some th -> may_draw w (px_system x) ->
  exists sess' y' G',
    polardb_register_reader_capacity_request cx w sess (px_system x) = Some (sess', y') /\
    agrees (seeing x y') G'.
Proof.
  intros A Hth Hd. unfold polardb_register_reader_capacity_request.
  rewrite (sbind_run _ _ _ _ _ (thread_run w id _ _ Hth)). cbn [id].
  destruct (may_register w sess th) eqn:Hm; cbn [negb].
  2: { exists sess, (px_system x), G. split; [done |]. unfold seeing. by rewrite routed_same. }
  apply may_register_spec in Hm. destruct sess as [sess|].
  2: { exists None, (px_system x), G. split; [done |]. unfold seeing. by rewrite routed_same. }
  set (own := polardb_reader_ownership cx (Some sess) th).
  assert (Hmy : exists hostgroup, match cw_server (ws_wait sess) with
              | Some s => myhgc s | None => mret None end (px_system x) =
              Some (hostgroup, px_system x) /\
              forall h, hostgroup = Some h -> is_Some (sy_queues (px_system x) !! h)).
  { destruct (cw_server (ws_wait sess)) as [s|]; [| by exists None].
    eexists _. split; [done |]. cbn. intros h.
    destruct (sy_servers (px_system x) !! s) as [[heap srv]|] eqn:Hs; [| done]. intros [= <-].
    by destruct (po_server _ _ _ (proj1 A) _ _ _ Hs) as (_ & Hq & _). }
  destruct Hmy as (hostgroup & Hmy & Hhg). rewrite (sbind_run _ _ _ _ _ Hmy).
  assert (Hadopt : exists y1 th1, ((if (own == Ownership_LOCAL) || (own == Ownership_ACTIVE)
             then with_thread w (polardb_reader_adopt_retention (Some sess) hostgroup) else mret ())
             : SM ()) (px_system x) = Some ((), y1) /\ agrees (seeing x y1) G /\
             sy_threads y1 !! w = Some th1 /\ wr_active (th_reservation th1) = false /\
             sy_next_token y1 = sy_next_token (px_system x) /\ sy_queues y1 = sy_queues (px_system x)).
  { destruct (_ || _).
    - rewrite (with_thread_run w _ _ th Hth). eexists _, _. split; [done |].
      split; [apply (retained_agrees x G w th); [done | done | apply adopt_same] |].
      simpl_upd. split; [apply lookup_insert_eq |].
      by rewrite (proj1 (proj2 (adopt_same (Some sess) hostgroup th))).
    - exists (px_system x), th. unfold seeing. by rewrite routed_same. }
  destruct Hadopt as (y1 & th1 & Hadopt & A1 & Hth1 & Ha1 & En & Eq).
  rewrite (sbind_run _ _ _ _ _ Hadopt). destruct (negb _); [by exists (Some sess), y1, G |].
  destruct (register_request_agrees (seeing x y1) G w th1 sess hostgroup A1 Hth1 Ha1)
    as (sess' & y' & G' & H & A').
  - unfold may_draw. cbn. by rewrite En.
  - cbn. by rewrite Eq.
  - exists (Some sess'), y', G'. split; [exact (sfmap_run Some _ _ _ _ H) | exact A'].
Qed.

End Steps.
