(* ===== verification/ReservationSafety.v ===== *)
(** * Reservations of workers are safe in any interleaving

    Runs of [ReservationProtocol] from a state without reservations: what holds
    in every state they reach, that every step which may be taken succeeds, and
    that the loops of the code over wakes are runs which end. *)

From S2P Require Import Prelude Policy Startup Session Query Topology.
From S2P Require Import ServerList PoolConn Reader ReaderAcquire CapacityQueue ServerPool.
From S2P Require Import PoolSafety Reservations PoolOperations PoolTraces ReaderWorker.
From S2P Require Import ReservationLedger ReservationProtocol.
From Stdlib Require Import ZArith Ascii String List Bool Lia.
From stdpp Require Import base tactics list gmap strings relations.

Open Scope Z_scope.
Open Scope polar_scope.

(** ** States without reservations *)

Record fresh_system (y : reader_system) : Prop := {
  fs_server s heap srv : sy_servers y !! s = Some (heap, srv) ->
    sv_id srv = s /\ is_Some (sy_queues y !! sv_hid srv) /\
    (forall q, server_ok (mkPool heap srv q)) /\ claims_of srv = ∅;
  fs_queue h q : sy_queues y !! h = Some q -> q = empty_queue;
  fs_thread w th : sy_threads y !! w = Some th ->
    th_worker_index th = w /\ th_reservation th = no_worker_reservation /\ th_wakes th = [];
  fs_token : 0 < sy_next_token y
}.

Definition starting (y : reader_system) : protocol := mkProtocol y [] ∅ ∅ ∅.

Lemma fresh_agrees y : fresh_system y -> agrees (starting y) ∅.
Proof.
  intros [Fs Fq Ft Fn]. split.
  - split; cbn.
    + intros s heap srv Hs. by destruct (Fs _ _ _ Hs) as (? & ? & ? & _).
    + intros h q ->%Fq. exists []. split; [apply represents_empty |]. intros t w.
      split; [intros (n & r & Hn & _); by apply elem_of_nil in Hn | done].
    + intros s heap srv t w Hs. destruct (Fs _ _ _ Hs) as (_ & _ & _ & ->). naive_solver.
    + done.
  - split; cbn; try done.
    + split; [apply NoDup_nil_2 |]. intros t w s. split; [by intros ?%elem_of_nil | done].
    + intros w th Hth. destruct (Ft _ _ Hth) as (Hi & Hr & Hw). unfold drained. cbn.
      rewrite Hw. split; unfold holds, waits; rewrite ?Hr; cbn; try done.
      * apply NoDup_nil_2.
      * intros t s. split; [by intros ?%elem_of_nil | done].
      * intros t s. split; [by intros (? & _) | done].
      * by intros t h (? & _).
    + intros w th Hth. by destruct (Ft _ _ Hth) as (_ & _ & ->).
    + intros w th h Hth. by destruct (Ft _ _ Hth) as (_ & -> & _).
Qed.

(** ** Every claim has one holder *)

(** What the worker [w] of thread [th] holds: wakes that are drained or queued,
    and its reservation once the wake filled it in. *)
Definition worker_holds (x : protocol) (e : Z * PgSQL_Thread) : list (Z * Z * srv_id) :=
  let '(w, th) := e in
  ((fun n => (wn_token n, w, wn_server n)) <$> (drained x w ++ th_wakes th)) ++
  match wr_server (th_reservation th) with
  | Some s => if wr_active (th_reservation th) then [(wr_token (th_reservation th), w, s)] else []
  | None => []
  end.

(** Everything that holds a claim: token, worker and server. *)
Definition holders (x : protocol) : list (Z * Z * srv_id) :=
  (wake_entry <$> px_flight x) ++
  (map_to_list (sy_threads (px_system x)) ≫= worker_holds x).

Definition held_token (e : Z * Z * srv_id) : Z := e.1.1.

Section Holders.
Context (x : protocol) (G : ledger) (A : agrees x G).

Lemma worker_holds_spec w th t w' s :
  sy_threads (px_system x) !! w = Some th ->
  (t, w', s) ∈ worker_holds x (w, th) <->
  w' = w /\ (G !! t = Some (w, InWakes s) \/ G !! t = Some (w, InHand s)).
Proof.
  intros Hth. assert (O := du_worker _ _ (proj2 A) w th Hth).
  rewrite <-(wo_wake _ _ _ _ _ O), <-(wo_hand _ _ _ _ _ O).
  unfold worker_holds, holds. rewrite elem_of_app, !list_elem_of_fmap.
  assert (Hr : (t, w', s) ∈ match wr_server (th_reservation th) with
      | Some s => if wr_active (th_reservation th) then [(wr_token (th_reservation th), w, s)] else []
      | None => [] end <->
    w' = w /\ wr_active (th_reservation th) = true /\ wr_token (th_reservation th) = t /\
    wr_server (th_reservation th) = Some s).
  { destruct (wr_server _) as [s0|]; [destruct (wr_active _) |].
    - rewrite list_elem_of_singleton. naive_solver.
    - rewrite elem_of_nil. naive_solver.
    - rewrite elem_of_nil. naive_solver. }
  rewrite Hr. unfold notification_entry. naive_solver.
Qed.

Lemma holders_spec t w s :
  (t, w, s) ∈ holders x <-> exists pl, G !! t = Some (w, pl) /\ place_server pl = Some s.
Proof.
  unfold holders. rewrite elem_of_app, list_elem_of_bind, (fo_entry _ _ (du_flight _ _ (proj2 A))).
  split.
  - intros [Hf | ([w' th] & He & Hth%elem_of_map_to_list)]; [by exists (InFlight s) |].
    apply worker_holds_spec in He as [-> [H | H]]; [by eexists.. | done].
  - intros ([h | s' | s' | s'] & Hg & [= ->]); [by left | right ..];
      destruct (du_owner _ _ (proj2 A) _ _ _ Hg) as [th Hth]; exists (w, th);
      (split; [apply worker_holds_spec; auto | by apply elem_of_map_to_list]).
Qed.

Lemma tokens_nodup (l : list (Z * Z * srv_id)) :
  NoDup l -> (forall e, e ∈ l -> e ∈ holders x) -> NoDup (held_token <$> l).
Proof.
  intros N H. apply NoDup_fmap_2_strong; [| done]. intros [[t w] s] [[t' w'] s'] He He' Ht.
  cbn in Ht. subst t'. apply H, holders_spec in He as (pl & Hg & Hs).
  apply H, holders_spec in He' as (pl' & Hg' & Hs'). congruence.
Qed.

Lemma worker_holds_nodup w th :
  sy_threads (px_system x) !! w = Some th -> NoDup (worker_holds x (w, th)).
Proof.
  intros Hth. assert (O := du_worker _ _ (proj2 A) w th Hth). unfold worker_holds.
  apply NoDup_app. split; [| split].
  - apply (NoDup_fmap_1 held_token). rewrite <-list_fmap_compose. apply (wo_nodup _ _ _ _ _ O).
  - intros e (n & -> & Hn)%list_elem_of_fmap He.
    assert (Hw : G !! wn_token n = Some (w, InWakes (wn_server n))).
    { apply (wo_wake _ _ _ _ _ O). apply list_elem_of_fmap. by exists n. }
    destruct (wr_server _) as [s|] eqn:Hs; [| by apply elem_of_nil in He].
    destruct (wr_active _) eqn:Ha; [| by apply elem_of_nil in He].
    apply list_elem_of_singleton in He as [= Ht _].
    assert (Hh : G !! wn_token n = Some (w, InHand s)) by (by apply (wo_hand _ _ _ _ _ O)).
    congruence.
  - destruct (wr_server _); [destruct (wr_active _) |]; auto using NoDup_singleton, NoDup_nil_2.
Qed.

Lemma holders_nodup : NoDup (held_token <$> holders x).
Proof.
  apply tokens_nodup; [| done]. unfold holders. apply NoDup_app. split; [| split].
  - apply (NoDup_fmap_1 held_token). rewrite <-list_fmap_compose.
    apply (fo_nodup _ _ (du_flight _ _ (proj2 A))).
  - intros [[t w] s] Hf%(fo_entry _ _ (du_flight _ _ (proj2 A))).
    intros ([w' th] & He & Hth%elem_of_map_to_list)%list_elem_of_bind.
    apply worker_holds_spec in He as [-> [H | H]]; congruence.
  - apply NoDup_bind; [| | apply NoDup_map_to_list].
    + intros [w1 th1] [w2 th2] [[t w] s] H1%elem_of_map_to_list H2%elem_of_map_to_list E1 E2.
      apply worker_holds_spec in E1 as [-> _]; [| done].
      apply worker_holds_spec in E2 as [-> _]; [| done]. congruence.
    + intros [w th] Hth%elem_of_map_to_list. by apply worker_holds_nodup.
Qed.

End Holders.

Section Runs.
Context (pton4 : string -> option Z) (pton6 : string -> option (list Z)).

Notation step := (protocol_step pton4 pton6).

Lemma thread_known {A B} w (f : PgSQL_Thread -> A) (g : A -> SM B) y r :
  (thread_field w f ≫= g) y = Some r -> exists th, sy_threads y !! w = Some th.
Proof.
  unfold mbind, SM_bind, thread_field. destruct (sy_threads y !! w) as [th|]; [eauto | done].
Qed.

Lemma step_agrees x x' G : agrees x G -> step x x' -> exists G', agrees x' G'.
Proof.
  intros A H. destruct H as
    [x s o wake y' Hs Hr H | x cx f1 wk f2 write_ok next y' Hf H | x cx w sess sess' y' Hd H
    | x cx w id next y' H | x cx w sess current r next y' H | x w pending y' Hw Hdr H
    | x w wakes y' Hw H | x cx w n wakes ready next y' Hn H | x threads attached shutdown H].
  - destruct (operation_agrees pton4 pton6 x G s o A Hs Hr) as (wake' & y1 & G' & H' & A').
    rewrite H in H'. simplify_eq. by exists G'.
  - destruct (route_agrees x G cx f1 wk f2 write_ok A Hf) as (next' & y1 & G' & H' & A' & _).
    rewrite H in H'. simplify_eq. by exists G'.
  - destruct (thread_known _ _ _ _ _ H) as [th Hth].
    destruct (register_agrees x G cx w sess th A Hth Hd) as (sess1 & y1 & G' & H' & A').
    rewrite H in H'. simplify_eq. by exists G'.
  - destruct (thread_known _ _ _ _ _ H) as [th Hth].
    destruct (cancel_agrees x G cx w id th A Hth) as (next' & y1 & G' & H' & A' & _).
    rewrite H in H'. simplify_eq. by exists G'.
  - destruct (thread_known _ _ _ _ _ H) as [th Hth].
    destruct (take_agrees x G cx w sess current th A Hth) as (r' & next' & y1 & G' & H' & _ & A').
    rewrite H in H'. simplify_eq. by exists G'.
  - destruct (thread_known _ _ _ _ _ H) as [th Hth].
    destruct (exchange_agrees x G w th A Hth) as [H' A'].
    rewrite H in H'. simplify_eq. exists G. by apply A'.
  - destruct (thread_known _ _ _ _ _ H) as [th Hth].
    destruct (swap_agrees x G w th A Hth) as [H' A'].
    rewrite H in H'. simplify_eq. by exists G.
  - destruct (thread_known _ _ _ _ _ H) as [th Hth].
    destruct (process_agrees x G cx w n wakes th A Hth Hn) as (rd & next' & y1 & G' & H' & A' & _).
    rewrite H in H'. simplify_eq. by exists G'.
  - exists G. by apply other_agrees.
Qed.

(** The states of a run that starts with no reservation. *)
Definition reached (x : protocol) : Prop :=
  exists y, fresh_system y /\ rtc step (starting y) x.

Lemma reached_agrees x : reached x -> exists G, agrees x G.
Proof.
  intros (y & Hy & Hrun). assert (A := ex_intro (agrees (starting y)) ∅ (fresh_agrees y Hy)).
  revert A. induction Hrun as [|x1 x2 x3 Hs _ IH]; [done |].
  intros [G A]. apply IH. by apply (step_agrees x1 x2 G).
Qed.

Lemma reached_runs x x' : reached x -> rtc step x x' -> reached x'.
Proof. intros (y & Hy & H) H'. exists y. split; [done |]. by etrans. Qed.

(** ** The loops over wakes *)

Definition num_workers (x : protocol) : nat := size (sy_threads (px_system x)).

Lemma requests_bound x G : agrees x G -> (num_requests G <= num_workers x)%nat.
Proof.
  intros [_ D]. unfold num_requests, num_workers.
  transitivity (length ((fun e => e.2.1) <$> map_to_list (filter is_request G))).
  { rewrite length_fmap. by rewrite length_map_to_list. }
  assert (Hin : forall t w pl, (t, (w, pl)) ∈ map_to_list (filter is_request G) ->
            exists h th, G !! t = Some (w, InQueue h) /\ sy_threads (px_system x) !! w = Some th /\
              wr_token (th_reservation th) = t).
  { intros t w pl (Hg & Hq)%elem_of_map_to_list%map_lookup_filter_Some.
    destruct pl as [h | s | s | s]; try done. destruct (du_owner _ _ D _ _ _ Hg) as [th Hth].
    destruct (wo_queue _ _ _ _ _ (du_worker _ _ D w th Hth) _ _ Hg) as (_ & Ht & _). eauto. }
  rewrite <-(size_dom (D := gset Z)). apply submseteq_length, NoDup_submseteq.
  - apply NoDup_fmap_2_strong; [| apply NoDup_map_to_list].
    intros [t [w pl]] [t' [w' pl']] H1 H2 Hw. cbn in Hw. subst w'.
    assert (H1' := H1). assert (H2' := H2).
    apply elem_of_map_to_list, map_lookup_filter_Some in H1' as [E1 _].
    apply elem_of_map_to_list, map_lookup_filter_Some in H2' as [E2 _].
    apply Hin in H1 as (h1 & th1 & _ & T1 & <-). apply Hin in H2 as (h2 & th2 & _ & T2 & <-).
    assert (th1 = th2) as -> by congruence. congruence.
  - intros w ([t [w' pl]] & -> & H)%list_elem_of_fmap. apply Hin in H as (h & th & _ & Hth & _).
    cbn. by apply elem_of_elements, elem_of_dom.
Qed.

(** A part of a run that only routes wakes, or processes those of [w]. *)
Record goes (R : reader_system -> reader_system -> Prop) (x x' : protocol) : Prop := {
  go_run : rtc step x x';
  go_agrees : exists G, agrees x' G;
  go_swapping : px_swapping x' = px_swapping x;
  go_system : R (px_system x) (px_system x')
}.

Lemma goes_trans R x x1 x2 :
  Transitive R -> goes R x x1 -> goes R x1 x2 -> goes R x x2.
Proof.
  intros HR [R1 A1 S1 Y1] [R2 A2 S2 Y2]. split; [by etrans | done | congruence | by etrans].
Qed.

#[local] Instance routes_transitive : Transitive routes_only.
Proof. intros y y1 y2. apply routes_trans. Qed.
#[local] Instance proceeds_transitive w : Transitive (proceeds w).
Proof. intros y y1 y2. apply proceeds_trans. Qed.

Lemma route_loop cx writes fuel x G f1 next f2 :
  agrees x G -> px_flight x = f1 ++ option_list next ++ f2 -> (num_requests G < fuel)%nat ->
  exists x', polardb_route_reader_reservation_wake cx fuel writes next (px_system x) =
      Some (None, px_system x') /\
    goes routes_only x x' /\ px_flight x' = f1 ++ f2 /\ px_draining x' = px_draining x.
Proof.
  revert x G f1 next f2. induction fuel as [|fuel IH]; intros x G f1 next f2 A Hf Hlt; [lia |].
  destruct next as [wk|]; cbn [polardb_route_reader_reservation_wake].
  2: { exists x. split; [done |]. split; [| done].
       split; [done | by exists G | done | apply routes_refl]. }
  destruct (route_agrees x G cx f1 wk f2 (writes fuel) A Hf)
    as (next & y1 & G1 & H & A1 & Hy & Hn).
  assert (Hs := step_route pton4 pton6 x cx f1 wk f2 (writes fuel) next y1 Hf H).
  unfold routed in A1. set (x1 := mkProtocol y1 _ _ _ _) in *. rewrite (sbind_run _ _ _ _ _ H).
  assert (Hgo : goes routes_only x x1).
  { split; [by apply rtc_once | by exists G1 | done | done]. }
  destruct next as [wk'|].
  - assert (Hlt' : (num_requests G1 < fuel)%nat) by (specialize (Hn ltac:(by eexists)); lia).
    destruct (IH x1 G1 (f1 ++ f2) (Some wk') [] A1 ltac:(by rewrite app_nil_r) Hlt')
      as (x' & Hr & Hgo' & Hf' & Hd). rewrite app_nil_r in Hf'.
    exists x'. split; [exact Hr |]. split; [| done]. by eapply goes_trans; [apply _ | |].
  - exists x1. split; [by destruct fuel |]. split; [done |]. split; [| done]. cbn. by rewrite app_nil_r.
Qed.

(** The wake of a step is routed next. *)
Lemma route_next cx writes fuel x G f next :
  agrees x G -> px_flight x = f ++ option_list next -> (num_workers x < fuel)%nat ->
  exists x', polardb_route_reader_reservation_wake cx fuel writes next (px_system x) =
      Some (None, px_system x') /\
    goes routes_only x x' /\ px_flight x' = f /\ px_draining x' = px_draining x.
Proof.
  intros A Hf Hlt. destruct (route_loop cx writes fuel x G f next [] A) as (x' & H).
  - by rewrite app_nil_r.
  - pose proof (requests_bound x G A). lia.
  - rewrite app_nil_r in H. by exists x'.
Qed.

Lemma process_loop cx writes fuel w wakes x G th :
  agrees x G -> sy_threads (px_system x) !! w = Some th -> px_draining x !! w = Some wakes ->
  (num_workers x < fuel)%nat ->
  exists ready x', process_each cx fuel writes w wakes (px_system x) = Some (ready, px_system x') /\
    goes (proceeds w) x x' /\ px_flight x' = px_flight x /\ drained x' w = [] /\
    (ready = true -> exists th', sy_threads (px_system x') !! w = Some th' /\
                       has_connection (th_reservation th') = true).
Proof.
  revert x G th. induction wakes as [|n wakes IH]; intros x G th A Hth Hd Hlt.
  { exists false, x. split; [done |]. split; [| by unfold drained; rewrite Hd].
    split; [done | by exists G | done | apply proceeds_refl]. }
  destruct (process_agrees x G cx w n wakes th A Hth Hd)
    as (ready & next & y1 & G1 & H & A1 & Hy & Hready).
  assert (Hs := step_process pton4 pton6 x cx w n wakes ready next y1 Hd H).
  unfold after, popped in A1. cbn in A1. set (x1 := mkProtocol y1 _ _ _ _) in *.
  cbn [process_each]. rewrite (sbind_run _ _ _ _ _ H).
  assert (Hw : num_workers x1 = num_workers x).
  { unfold num_workers. cbn. rewrite <-!(size_dom (D := gset Z)).
    by rewrite (proj1 (proj2 Hy)). }
  destruct (route_next cx writes fuel x1 G1 (px_flight x) next A1 eq_refl)
    as (x2 & Hr & [R2 [G2 A2] S2 Y2] & Hf2 & Hd2); [lia |].
  rewrite (sbind_run _ _ _ _ _ Hr).
  assert (Y2' := routes_proceeds w _ _ Y2). assert (Y : proceeds w (px_system x) (px_system x2)).
  { etrans; [exact Hy | exact Y2']. }
  destruct (proj2 (proj2 Y) th Hth) as (th2 & Hth2 & _).
  destruct (IH x2 G2 th2 A2 Hth2) as (rest & x' & Hrest & Hgo & Hf & Hd' & Hrr).
  { rewrite Hd2. apply lookup_insert_eq. }
  { unfold num_workers. rewrite <-(size_dom (D := gset Z)), (proj1 (proj2 Y)), size_dom. done. }
  rewrite (sbind_run _ _ _ _ _ Hrest). exists (ready || rest), x'. split; [done |].
  split; [| split; [congruence | split; [done |]]].
  - eapply goes_trans; [apply _ | | exact Hgo].
    split; [eapply rtc_l; [exact Hs | exact R2] | by exists G2 | exact S2 | exact Y].
  - intros [Hrd | Hrt]%orb_true_iff; [| auto]. destruct (Hready Hrd) as (th1 & Hth1 & Hc1).
    destruct (proj2 (proj2 Y2') th1 Hth1) as (th3 & Hth3 & Hc3 & _).
    destruct (proj2 (proj2 (go_system _ _ _ Hgo)) th3 Hth3) as (th4 & Hth4 & Hc4 & _).
    exists th4. auto.
Qed.

(** A worker that nobody processes wakes for at the moment. *)
Definition at_rest (x : protocol) (w : Z) : Prop := drained x w = [] /\ w ∉ px_swapping x.

Lemma process_run cx writes fuel w x G th :
  agrees x G -> sy_threads (px_system x) !! w = Some th -> at_rest x w ->
  (num_workers x < fuel)%nat ->
  exists ready x', polardb_process_reader_reservation_wakes cx fuel writes w (px_system x) =
      Some (ready, px_system x') /\ rtc step x x' /\ (exists G', agrees x' G') /\
    px_flight x' = px_flight x /\ at_rest x' w /\
    sy_attached (px_system x') = sy_attached (px_system x) /\ num_workers x' = num_workers x /\
    exists th', sy_threads (px_system x') !! w = Some th' /\
      (w ∉ sy_attached (px_system x) -> th_wakes th' = []) /\
      (ready = true -> has_connection (th_reservation th') = true).
Proof.
  intros A Hth [Hd Hsw] Hlt. unfold polardb_process_reader_reservation_wakes.
  destruct (exchange_agrees x G w th A Hth) as [H1 A1]. specialize (A1 Hsw).
  rewrite (sbind_run _ _ _ _ _ H1). set (th1 := th <| th_wake_pending := false |>) in *.
  assert (S1 := step_exchange pton4 pton6 x w _ _ Hsw Hd H1).
  assert (Hn : forall f : PgSQL_Thread, size (<[w := f]> (sy_threads (px_system x))) = num_workers x).
  { intros f. unfold num_workers. by rewrite map_size_insert_Some by eauto. }
  destruct (th_wake_pending th) eqn:Hp; cbn [negb].
  2: { set (x1 := mkProtocol _ _ _ _ _) in A1, S1. exists false, x1. split; [done |].
       split; [by apply rtc_once |]. split; [by exists G |]. split; [done |]. split; [done |].
       unfold x1, num_workers. cbn. simpl_upd. split; [done |]. split; [by rewrite Hn |].
       exists th1. rewrite lookup_insert_eq. split; [done |]. split; [| done]. intros _.
       unfold th1. simpl_upd. destruct (th_wakes th) eqn:Hwk; [done |].
       destruct (du_pending _ _ (proj2 A) w th Hth) as [? | ?]; congruence. }
  set (x1 := mkProtocol _ _ _ _ _) in A1, S1.
  assert (Hth1 : sy_threads (px_system x1) !! w = Some th1).
  { unfold x1. cbn. simpl_upd. apply lookup_insert_eq. }
  destruct (swap_agrees x1 G w th1 A1 Hth1) as [H2 A2].
  assert (Hw1 : w ∈ px_swapping x1) by (unfold x1; set_solver).
  assert (S2 := step_swap pton4 pton6 x1 w _ _ Hw1 H2). set (x2 := mkProtocol _ _ _ _ _) in A2, S2.
  change (px_system x1) with (px_system x <| sy_threads := <[w := th1]> (sy_threads (px_system x)) |>)
    in H2. rewrite (sbind_run _ _ _ _ _ H2).
  assert (Hth2 : sy_threads (px_system x2) !! w = Some (th1 <| th_wakes := [] |>)).
  { unfold x2, x1. cbn. simpl_upd. apply lookup_insert_eq. }
  assert (Hn2 : num_workers x2 = num_workers x).
  { unfold x2, x1, num_workers. cbn. simpl_upd. rewrite insert_insert_eq. apply Hn. }
  destruct (process_loop cx writes fuel w (th_wakes th1) x2 G _ A2 Hth2)
    as (ready & x' & H3 & [R3 A3 W3 Y3] & Hf & Hd3 & Hrd).
  { unfold x2. cbn. rewrite lookup_insert_eq. unfold x1, drained in *. cbn. by rewrite Hd. }
  { by rewrite Hn2. }
  exists ready, x'. split; [exact H3 |].
  split; [eapply rtc_l; [exact S1 | eapply rtc_l; [exact S2 | exact R3]] |].
  split; [done |]. split; [rewrite Hf; done |]. destruct Y3 as (Ya & Yd & Yt).
  split; [split; [done | rewrite W3; unfold x2; set_solver] |].
  split; [rewrite Ya; unfold x2, x1; cbn; by simpl_upd |].
  split; [rewrite <-Hn2; unfold num_workers; by rewrite <-!(size_dom (D := gset Z)), Yd |].
  destruct (Yt _ Hth2) as (th' & Hth' & _ & Hwk). exists th'. split; [done |]. split.
  - intros Hatt. rewrite Hwk; [by simpl_upd | unfold x2, x1; cbn; by simpl_upd].
  - intros Hr. destruct (Hrd Hr) as (th'' & Hth'' & Hc). congruence.
Qed.

Lemma release_run cx writes fuel w x G th :
  agrees x G -> sy_threads (px_system x) !! w = Some th -> at_rest x w ->
  w ∉ sy_attached (px_system x) -> (num_workers x < fuel)%nat ->
  exists x', release_worker cx fuel writes w (px_system x) = Some ((), px_system x') /\
    rtc step x x' /\ (exists G', agrees x' G') /\ px_flight x' = px_flight x /\ drained x' w = [] /\
    exists th', sy_threads (px_system x') !! w = Some th' /\ th_wakes th' = [] /\
      wr_active (th_reservation th') = false.
Proof.
  intros A Hth Hrest Hatt Hlt. unfold release_worker.
  destruct (process_run cx writes fuel w x G th A Hth Hrest Hlt)
    as (ready & x1 & H1 & R1 & [G1 A1] & Hf1 & [Hd1 _] & Ha1 & Hn1 & th1 & Hth1 & Hwk1 & _).
  rewrite (sbind_run _ _ _ _ _ H1).
  destruct (cancel_agrees x1 G1 cx w 0 th1 A1 Hth1)
    as (next & y2 & G2 & H2 & A2 & Ea2 & th2 & Et2 & Hwk2 & Hact2).
  rewrite (sbind_run _ _ _ _ _ H2).
  assert (S2 := step_cancel pton4 pton6 x1 cx w 0 next y2 H2). unfold after in A2.
  set (x2 := mkProtocol y2 _ _ _ _) in *.
  destruct (route_next cx writes fuel x2 G2 (px_flight x1) next A2 eq_refl)
    as (x3 & H3 & [R3 [G3 A3] W3 Y3] & Hf3 & Hd3).
  { unfold num_workers in *. cbn. rewrite Et2, map_size_insert_Some by eauto. lia. }
  change (px_system x2) with y2 in H3. rewrite (sbind_run _ _ _ _ _ H3).
  destruct (proj2 (proj2 Y3) w th2) as (th3 & Hth3 & Hr3 & E3).
  { cbn. rewrite Et2. apply lookup_insert_eq. }
  rewrite E3 in * by (cbn; congruence).
  set (f := fun th : PgSQL_Thread => th <| th_retention := no_retention |>).
  assert (Hs : same_duty th2 (f th2)) by (unfold f, same_duty; by simpl_upd).
  assert (A4 := retained_agrees x3 G3 w th2 f A3 Hth3 Hs).
  rewrite (with_thread_run w f _ th2 Hth3).
  set (x4 := seeing x3 _) in A4. exists x4. split; [done |].
  assert (S4 : step x3 x4).
  { unfold x4, seeing, routed. destruct x3 as [y3 fl dr sw rf]. cbn in *.
    assert (Hy : y3 <| sy_threads := <[w := f th2]> (sy_threads y3) |> =
      mkReaderSystem (sy_servers y3) (sy_queues y3) (<[w := f th2]> (sy_threads y3))
        (sy_attached y3) (sy_handler_shutdown y3) (sy_next_token y3)) by (by destruct y3).
    rewrite Hy. apply (step_other pton4 pton6 (mkProtocol y3 fl dr sw rf)).
    intros w'. cbn. destruct (decide (w' = w)) as [->|Hne].
    - by rewrite Hth3, lookup_insert_eq.
    - rewrite lookup_insert_ne by done. by destruct (_ !! w'). }
  split; [etrans; [exact R1 | eapply rtc_l; [exact S2 |]; etrans; [exact R3 | by apply rtc_once]] |].
  split; [by exists G3 |]. split; [cbn; congruence |].
  split; [unfold drained; cbn; rewrite Hd3; exact Hd1 |].
  exists (f th2). unfold x4. cbn. simpl_upd. rewrite lookup_insert_eq. split; [done |].
  unfold f. simpl_upd. rewrite Hwk2. by split; [apply Hwk1 | apply Hact2; left].
Qed.

(** C10: However operations on servers, routed wakes, registrations, cancellations,
    takes and the processing of wakes interleave, every claim on a reserved
    connection of a server has exactly one holder: a wake on its way, a wake
    queued or drained by its worker, or the reservation of its worker.  Nothing
    else holds a claim and no token is held twice. *)
Theorem claims_have_one_holder x :
  reached x ->
  NoDup (held_token <$> holders x) /\
  forall s heap srv t w, sy_servers (px_system x) !! s = Some (heap, srv) ->
    claims_of srv !! t = Some w <-> (t, w, s) ∈ holders x.
Proof.
  intros (G & A)%reached_agrees. split; [by apply (holders_nodup x G) |].
  intros s heap srv t w Hs. rewrite (holders_spec x G A). by apply (po_claim _ _ _ (proj1 A) _ heap).
Qed.

(** C17: The pool of every server stays consistent in every reachable state: a
    connection is in one list, at the position it has in its object, the
    counters are the lengths, the buckets of the index hold exactly the idle
    connections of their key, and a reserved connection is idle in FREE and in
    no bucket, where no search by key finds it. *)
Theorem pools_stay_consistent x s heap srv q :
  reached x -> sy_servers (px_system x) !! s = Some (heap, srv) ->
  let p := mkPool heap srv q in
  NoDup (cl_conns (sv_free srv) ++ cl_conns (sv_used srv)) /\
  sv_free_count srv = Z.of_nat (length (cl_conns (sv_free srv))) /\
  sv_used_count srv = Z.of_nat (length (cl_conns (sv_used srv))) /\
  (forall u i c, cl_conns (the_list u srv) !! i = Some c ->
     exists o, heap !! c = Some o /\ pc_position o = Z.of_nat i) /\
  (forall k b, cl_matching_by_key (sv_free srv) !! k = Some b ->
     forall c, c ∈ b <-> (c, k) ∈ free_slots p) /\
  (forall t r, sv_reservations srv !! t = Some r ->
     rv_conn r ∈ cl_conns (sv_free srv) /\
     forall k b, cl_matching_by_key (sv_free srv) !! k = Some b -> rv_conn r ∉ b).
Proof.
  intros (G & A)%reached_agrees Hs p. destruct (po_server _ _ _ (proj1 A) s heap srv Hs)
    as (_ & _ & Sv). specialize (Sv q). destruct Sv as [W _]. fold p in W.
  assert (Hb : forall k b, cl_matching_by_key (sv_free srv) !! k = Some b ->
            forall c, c ∈ b <-> (c, k) ∈ free_slots p).
  { intros k b Hk c. destruct (io_bucket _ _ _ (pw_index _ _ W) k b Hk) as (_ & _ & H).
    rewrite H. unfold keyed. naive_solver. }
  split_and!.
  - apply NoDup_app. split; [apply (lo_nodup _ _ (pw_free _ _ W)) |].
    split; [| apply (lo_nodup _ _ (pw_used _ _ W))]. intros c H H'. exact (pw_disjoint _ _ W c H H').
  - apply (pw_free_count _ _ W).
  - apply (pw_used_count _ _ W).
  - intros [] i c; apply lo_position; [apply (pw_used _ _ W) | apply (pw_free _ _ W)].
  - exact Hb.
  - intros t r Hr. destruct (ro_token _ _ (pw_reservations _ _ W) t r Hr) as [_ Ht].
    destruct (ro_conn _ _ (pw_reservations _ _ W) _ _ Ht) as [_ [Hslot _]].
    split; [by eapply slots_conn; [apply (pw_free _ _ W) |] |]. intros k b Hk Hin.
    assert (Hk0 := proj1 (io_bucket _ _ _ (pw_index _ _ W) k b Hk)).
    apply (Hb k b Hk) in Hin.
    rewrite (slot_fun _ _ _ _ _ (pw_free _ _ W) Hin Hslot) in Hk0. done.
Qed.

(** ** Servers *)

(** The pool of a server in a reachable state, with the requests of its
    hostgroup in the order of their arrival. *)
Lemma reached_view x s heap srv q :
  reached x -> sy_servers (px_system x) !! s = Some (heap, srv) ->
  sy_queues (px_system x) !! sv_hid srv = Some q ->
  let p := mkPool heap srv q in
  server_ok p /\ exists l, represents q l /\ tokens_free l p.
Proof.
  intros (G & A)%reached_agrees Hs Hq p.
  destruct (pools_view _ _ _ s (proj1 A) ltac:(by eexists)) as (p' & l & V).
  assert (Hp := vw_server _ _ _ _ _ _ V). assert (Hq' := vw_queue _ _ _ _ _ _ V).
  assert (p' = p) as ->.
  { rewrite Hs in Hp. unfold p. destruct p' as [h' s' q']. cbn [pl_heap pl_srv pl_queue] in *.
    injection Hp as <- <-. rewrite Hq in Hq'. by injection Hq' as <-. }
  split; [apply (vw_ok _ _ _ _ _ _ V) |]. exists l.
  split; [apply (vw_represents _ _ _ _ _ _ V) | apply (vw_free _ _ _ _ _ _ V)].
Qed.

(** C18: A connection that comes back to an online server never fails to be
    stored: it is reserved for the oldest request of the hostgroup that it may
    serve, under no key, and the worker of that request is woken with its token;
    without such a request it is idle under its own key. *)
Theorem returned_connection_goes_to_the_oldest_request cx c key excluded x s heap srv q :
  reached x -> sy_servers (px_system x) !! s = Some (heap, srv) ->
  sy_queues (px_system x) !! sv_hid srv = Some q ->
  c ∈ cl_conns (sv_used srv) -> sv_status srv = SERVER_ONLINE ->
  let p := mkPool heap srv q in
  exists l wake p', represents q l /\
    return_matching_connection cx c key excluded p = Some ((Return_STORED, wake), p') /\
    match fifo_first cx (sv_hid srv) (Some (sv_id srv)) key excluded l.*2 with
    | Some (r, snapshot) =>
        wake = Some (mkWake (cr_worker_index r) (cr_token r) (sv_id srv) snapshot) /\
        (c, no_match_key) ∈ free_slots p' /\
        claims p' !! cr_token r = Some (cr_worker_index r)
    | None => wake = None /\ (c, key) ∈ free_slots p' /\ claims p' = claims p
    end.
Proof.
  intros Hx Hs Hq Hc Hon p. destruct (reached_view x s heap srv q Hx Hs Hq) as (S & l & R & F).
  fold p in S, F. assert (Hk : known p c) by (apply in_pool_known; [done | by right]).
  destruct (return_spec cx c key excluded l p S Hk R F) as (st & wake & p' & H & E & Hst).
  destruct st; [by destruct Hst as [_ ?] | by destruct Hst as [? _] | done |].
  destruct Hst as (_ & p1 & T & St). exists l, wake, p'. split; [done |]. split; [done |].
  assert (Hcase := sd_case _ _ _ _ _ _ _ _ St). unfold offer in Hcase.
  assert (Ec := tk_core _ _ _ _ T). unfold core in Ec. injection Ec as Ei Eh _ _ _ _ _.
  rewrite Ei, Eh in Hcase. cbn [pl_srv p] in Hcase.
  destruct (fifo_first _ _ _ _ _ _) as [[r snapshot]|].
  - destruct Hcase as (-> & _ & -> & ->). split; [done |].
    split; [apply elem_of_app; right; apply list_elem_of_here | apply lookup_insert_eq].
  - destruct Hcase as (-> & _ & _ & ->). split; [done |].
    split; [apply elem_of_app; right; apply list_elem_of_here |].
    by destruct (served_effect _ _ _ _ _ E) as [_ _ _ [Hcl _]].
Qed.

(** C20: A connection is opened only when the server has fewer connections, idle
    and in use, than its limit; room is made by deleting idle connections that
    nobody reserved, and no claim and no connection in use is touched. *)
Theorem creation_respects_the_limit gs preferred x s heap srv q :
  reached x -> sy_servers (px_system x) !! s = Some (heap, srv) ->
  sy_queues (px_system x) !! sv_hid srv = Some q ->
  heap !! (gt_new gs).1 = None -> Z.of_nat (size heap) < U32_MODULUS - 1 ->
  let p := mkPool heap srv q in
  exists r deleted p', create_with_room gs preferred p = Some ((r, deleted), p') /\
    records p' = records p /\
    Forall (fun d => d ∈ cl_conns (sv_free srv) /\ ~ is_reserved p d /\ ~ in_pool p' d) deleted /\
    forall c, r = Some c -> ~ in_pool p' c /\
      Z.of_nat (length (cl_conns (sv_free (pl_srv p'))) + length (cl_conns (sv_used (pl_srv p')))) <
      wrap32 (sv_max_connections srv).
Proof.
  intros Hx Hs Hq Hnew Hsize p. destruct (reached_view x s heap srv q Hx Hs Hq) as (S & l & R & F).
  fold p in S. destruct (create_with_room_run gs preferred p S Hnew)
    as (r & ds & p' & H & C & E & Hle0 & Hr).
  exists r, ds, p'. split; [done |]. split; [apply (cm_records _ _ C) |]. split.
  - eapply Forall_impl; [exact E |]. naive_solver.
  - intros c ->. destruct Hr as (_ & _ & Hout & [_ Hroom]). split; [done |].
    assert (Ef := cm_frame _ _ C). unfold frame in Ef. injection Ef as _ _ _ Em _.
    rewrite Em in Hroom. cbn [pl_srv p] in Hroom. assert (W := so_pool _ (cm_ok _ _ C)).
    assert (Hps := pool_size p' (cm_ok _ _ C)).
    assert (Hle : (size (pl_heap p') <= Datatypes.S (size heap))%nat).
    { rewrite <-(map_size_insert_None (gt_new gs).1 (gt_new gs).2 heap Hnew).
      apply dom_subseteq_size. intros d Hd. apply elem_of_dom in Hd as Hd'. rewrite dom_insert.
      destruct (Hle0 d Hd') as [-> | Hd0]; [set_solver |]. apply elem_of_dom in Hd0. set_solver. }
    unfold pool_total in Hroom.
    rewrite (pw_free_count _ _ W), (pw_used_count _ _ W) in Hroom. unfold wrap32 in Hroom at 1.
    rewrite Z.mod_small in Hroom by lia. lia.
Qed.

(** C11: A worker that waits for reader capacity is not forgotten: its request is
    in the queue of its hostgroup, or a connection is reserved for it and the
    wake is on its way, queued or drained, unless the wake of its token could
    not be queued (the worker was detached, shut down, or its pipe failed).  A
    worker with queued wakes has its flag set or is about to take them. *)
Theorem waiting_worker_is_not_forgotten x w th t h :
  reached x -> sy_threads (px_system x) !! w = Some th -> waits th t h ->
  (t ∈ px_refused x \/
   (exists q, sy_queues (px_system x) !! h = Some q /\
              has_reader_pool_capacity_request w t q = true) \/
   exists s, (t, w, s) ∈ wake_entry <$> px_flight x \/
             (t, s) ∈ notification_entry <$> (drained x w ++ th_wakes th)) /\
  (th_wakes th <> [] -> th_wake_pending th = true \/ w ∈ px_swapping x).
Proof.
  intros (G & A)%reached_agrees Hth Hw. split; [| by apply (du_pending _ _ (proj2 A))].
  assert (O := du_worker _ _ (proj2 A) w th Hth).
  destruct (wo_waiting _ _ _ _ _ O t h Hw) as [Hl | [pl Hpl]]; [by left | right].
  destruct pl as [h' | s | s | s].
  - left. destruct (wo_queue _ _ _ _ _ O _ _ Hpl) as (_ & _ & _ & Hh').
    destruct Hw as (_ & _ & _ & Hh). assert (h' = h) as -> by congruence.
    destruct (du_hostgroup _ _ (proj2 A) w th h Hth Hh) as [q Hq].
    destruct (po_queue _ _ _ (proj1 A) h q Hq) as (l & R & Hl). exists q. split; [done |].
    rewrite (has_refines q l w t R). by apply (queue_owned G h l Hl).
  - right. exists s. left. by apply (fo_entry _ _ (du_flight _ _ (proj2 A))).
  - right. exists s. right. by apply (wo_wake _ _ _ _ _ O).
  - destruct (proj2 (wo_hand _ _ _ _ _ O t s) Hpl) as (_ & _ & Hs), Hw as (_ & _ & Hs' & _).
    congruence.
Qed.

(** C12: A session that takes the reservation of its worker is always answered.
    Its current reservation is settled with the server: an online server hands
    out the very connection the reservation names, in use under the key of the
    reservation from then on, and otherwise the worker learns that the server is
    offline or has retired the reservation; the server keeps no claim of it and
    the worker no reservation.  An outdated one is given up, and a session
    without a reserved connection changes nothing.  Never has the worker to wait,
    nor does the server not know the reservation. *)
Theorem take_is_always_answered cx x w sess current th :
  reached x -> sy_threads (px_system x) !! w = Some th ->
  exists r next y', polardb_take_reader_reservation cx w sess current (px_system x) =
    Some ((r, next), y') /\ answered w th sess current (px_system x) y' r.
Proof.
  intros (G & A)%reached_agrees Hth.
  destruct (take_agrees x G cx w sess current th A Hth) as (r & next & y' & G' & H & Hr & _). eauto.
Qed.

(** C14: No assertion of the reservation code can fail: in every reachable state
    each operation on a server that its caller may do, the turn of the routing
    loop, registering, cancelling, and each part of processing wakes succeed. *)
Theorem reservation_steps_never_fail cx x :
  reached x ->
  (forall s o, is_Some (sy_servers (px_system x) !! s) -> ready_on s o (px_system x) ->
     is_Some (on_server s (run_server_op pton4 pton6 o) (px_system x))) /\
  (forall wk write_ok, wk ∈ px_flight x -> is_Some (route_once cx wk write_ok (px_system x))) /\
  forall w th, sy_threads (px_system x) !! w = Some th ->
    (forall sess, may_draw w (px_system x) ->
       is_Some (polardb_register_reader_capacity_request cx w sess (px_system x))) /\
    (forall id, is_Some (polardb_cancel_reader_reservation cx w id (px_system x))) /\
    (forall n wakes, px_draining x !! w = Some (n :: wakes) ->
       is_Some (process_wake cx w n (px_system x))).
Proof.
  intros (G & A)%reached_agrees. split_and!.
  - intros s o Hs Hr. destruct (operation_agrees pton4 pton6 x G s o A Hs Hr)
      as (wake & y' & G' & H & _). by eexists.
  - intros wk write_ok (f1 & f2 & Hf)%list_elem_of_split.
    destruct (route_agrees x G cx f1 wk f2 write_ok A Hf) as (next & y' & G' & H & _). by eexists.
  - intros w th Hth. split_and!.
    + intros sess Hd. destruct (register_agrees x G cx w sess th A Hth Hd)
        as (sess' & y' & G' & H & _). by eexists.
    + intros id. destruct (cancel_agrees x G cx w id th A Hth) as (next & y' & G' & H & _).
      by eexists.
    + intros n wakes Hn. destruct (process_agrees x G cx w n wakes th A Hth Hn)
        as (ready & next & y' & G' & H & _). by eexists.
Qed.

(** C15: The routing loop ends: with more turns than there are workers it routes
    the wake and every wake that its cancellations yield, as a run of single
    turns. *)
Theorem routing_loop_ends cx writes fuel x f1 wk f2 :
  reached x -> px_flight x = f1 ++ [wk] ++ f2 -> (num_workers x < fuel)%nat ->
  exists x', polardb_route_reader_reservation_wake cx fuel writes (Some wk) (px_system x) =
      Some (None, px_system x') /\ rtc step x x' /\ px_flight x' = f1 ++ f2.
Proof.
  intros (G & A)%reached_agrees Hf Hlt.
  destruct (route_loop cx writes fuel x G f1 (Some wk) f2 A Hf) as (x' & H & Hgo & Hf' & _).
  - pose proof (requests_bound x G A). lia.
  - exists x'. split_and!; [done | apply Hgo | done].
Qed.

(** C16: Processing its wakes is a run of the single steps, however the wakes it
    passes on are routed; afterwards no wake is drained, and when it reports a
    ready reservation the worker has the server of the reserved connection. *)
Theorem processing_wakes_is_a_run cx writes fuel x w th :
  reached x -> sy_threads (px_system x) !! w = Some th -> at_rest x w ->
  (num_workers x < fuel)%nat ->
  exists ready x', polardb_process_reader_reservation_wakes cx fuel writes w (px_system x) =
      Some (ready, px_system x') /\ rtc step x x' /\ px_flight x' = px_flight x /\ at_rest x' w /\
    exists th', sy_threads (px_system x') !! w = Some th' /\
      (ready = true -> has_connection (th_reservation th') = true).
Proof.
  intros (G & A)%reached_agrees Hth Hr Hlt.
  destruct (process_run cx writes fuel w x G th A Hth Hr Hlt)
    as (ready & x' & H & R & _ & Hf & Hr' & _ & _ & th' & Hth' & _ & Hc).
  exists ready, x'. split_and!; try done. eauto.
Qed.

(** C13: The end of a detached worker leaves nothing behind: it holds no claim
    any more and no request of it is in a queue.  What is still on its way to it
    cannot be queued and will be cancelled where it is routed. *)
Theorem ended_worker_leaves_nothing cx writes fuel x w th :
  reached x -> sy_threads (px_system x) !! w = Some th -> at_rest x w ->
  w ∉ sy_attached (px_system x) -> (num_workers x < fuel)%nat ->
  exists x', release_worker cx fuel writes w (px_system x) = Some ((), px_system x') /\
    rtc step x x' /\ px_flight x' = px_flight x /\
    (forall t s, (t, w, s) ∈ holders x' -> (t, w, s) ∈ wake_entry <$> px_flight x) /\
    forall h q t, sy_queues (px_system x') !! h = Some q ->
      has_reader_pool_capacity_request w t q = false.
Proof.
  intros (G & A)%reached_agrees Hth Hr Hatt Hlt.
  destruct (release_run cx writes fuel w x G th A Hth Hr Hatt Hlt)
    as (x' & H & R & [G' A'] & Hf & Hd & th' & Hth' & Hwk & Hact).
  exists x'. split_and!; try done.
  - intros t s (pl & Hg & Hs)%(holders_spec x' G' A').
    assert (O := du_worker _ _ (proj2 A') w th' Hth'). rewrite Hd, Hwk in O.
    destruct pl as [h | s' | s' | s']; cbn in Hs; simplify_eq.
    + rewrite <-Hf. by apply (fo_entry _ _ (du_flight _ _ (proj2 A'))).
    + by apply (wo_wake _ _ _ _ _ O), elem_of_nil in Hg.
    + apply (wo_hand _ _ _ _ _ O) in Hg as [Ha _]. congruence.
  - intros h q t Hq. destruct (po_queue _ _ _ (proj1 A') h q Hq) as (l & R' & Hl).
    rewrite (has_refines q l w t R'). apply not_true_iff_false.
    intros Hg%(queue_owned G' h l Hl).
    destruct (wo_queue _ _ _ _ _ (du_worker _ _ (proj2 A') w th' Hth') _ _ Hg) as [Ha _]. congruence.
Qed.

End Runs.

(** ** A run

    Two workers wait for the connection in use; it comes back, is reserved for
    the first, the wake is routed and processed, and the worker takes it. *)

Definition sample_pool_key : PolarDB_PoolKey := mkPoolKey 1 2 3.
Definition sample_match_key : PgSQL_PoolMatchKey := pgsql_pool_match_key 7 sample_pool_key.

Definition sample_waiting (id : Z) : waiting_session :=
  mkWaitingSession id 20 sample_pool_session
    (mkCapacityWait true READER_GROUP_BUSY 99 (cr_reader_plan (sample_wait_request 1 1 false)) no_wait
       (Some 2) (Some sample_reader_lists) 7 sample_pool_key).

Definition idle_worker (w : Z) : PgSQL_Thread :=
  mkThread w no_worker_reservation no_retention [] [] [] [] false false.

Definition sample_system : reader_system :=
  mkReaderSystem {[2 := (new_conn <$> {[5 := sample_connection]}, new_server 2 20 100)]}
    {[20 := empty_queue]} {[1 := idle_worker 1; 2 := idle_worker 2]} {[1; 2]} false 1.

Lemma sample_system_fresh : fresh_system sample_system.
Proof.
  split.
  - cbn. intros s heap srv [<- [= <- <-]]%lookup_singleton_Some. split; [done |].
    split; [by eexists |]. split; [intros q; apply new_server_ok | done].
  - cbn. by intros h q [_ <-]%lookup_singleton_Some.
  - cbn. intros w th [[<- <-] | [_ [<- <-]%lookup_singleton_Some]]%lookup_insert_Some; done.
  - done.
Qed.

(** The result of an operation that runs. *)
Definition result {A} (r : option (A * reader_system)) (y : reader_system) : reader_system :=
  default y (snd <$> r).
Definition outcome {A} (a : A) (r : option (A * reader_system)) : A := default a (fst <$> r).

Lemma outcome_result {A} (a : A) r y :
  bool_decide (is_Some r) = true -> r = Some (outcome a r, result r y).
Proof. intros [[? ?] ->]%bool_decide_eq_true. done. Qed.

Notation on_2 o := (on_server 2 (run_server_op sample_pton (fun _ => None) o)).

Definition sample_used : reader_system :=
  result (on_2 (Op_add_used 5 sample_match_key) sample_system) sample_system.
Definition sample_registered1 : reader_system :=
  result (polardb_register_reader_capacity_request sample_context 1 (Some (sample_waiting 31))
            sample_used) sample_used.
Definition sample_registered : reader_system :=
  result (polardb_register_reader_capacity_request sample_context 2 (Some (sample_waiting 32))
            sample_registered1) sample_registered1.
Definition sample_return :=
  on_2 (Op_return sample_context 5 sample_match_key UINT32_MAX) sample_registered.
Definition sample_returned : protocol :=
  mkProtocol (result sample_return sample_registered) (option_list (outcome None sample_return)) ∅ ∅ ∅.

Example sample_token : wk_token <$> px_flight sample_returned = [1].
Proof. vm_compute. reflexivity. Qed.

(** [ready_on] on a concrete system: the server is the one found there. *)
Ltac ready := intros heap srv q Hs Hq; vm_compute in Hs; injection Hs as <- <-; clear Hq.

Notation sample_step := (protocol_step sample_pton (fun _ => None)).

Lemma sample_used_step : sample_step (starting sample_system) (starting sample_used).
Proof.
  apply (step_operation _ _ (starting sample_system) 2 (Op_add_used 5 sample_match_key) None).
  - by eexists.
  - ready. split; [by eexists |]. intros [H | H]; by apply elem_of_nil in H.
  - vm_compute. reflexivity.
Qed.

Lemma sample_register_step w id y :
  bool_decide (is_Some (polardb_register_reader_capacity_request sample_context w
    (Some (sample_waiting id)) y)) = true -> may_draw w y ->
  sample_step (starting y) (starting (result (polardb_register_reader_capacity_request
    sample_context w (Some (sample_waiting id)) y) y)).
Proof.
  intros H Hd. eapply (step_register _ _ (starting y) sample_context w (Some (sample_waiting id)));
    [exact Hd | exact (outcome_result None _ y H)].
Qed.

Lemma sample_return_step : sample_step (starting sample_registered) sample_returned.
Proof.
  apply (step_operation _ _ (starting sample_registered) 2
           (Op_return sample_context 5 sample_match_key UINT32_MAX) (outcome None sample_return)).
  - by eexists.
  - ready. by eexists.
  - apply outcome_result. vm_compute. reflexivity.
Qed.

Lemma sample_returned_reached : reached sample_pton (fun _ => None) sample_returned.
Proof.
  exists sample_system. split; [apply sample_system_fresh |].
  eapply rtc_l; [apply sample_used_step |].
  eapply rtc_l; [apply (sample_register_step 1 31); [vm_compute; reflexivity | by split] |].
  eapply rtc_l; [apply (sample_register_step 2 32); [vm_compute; reflexivity | by split] |].
  apply rtc_once, sample_return_step.
Qed.

(** The wake is queued, and the worker drains it. *)
Definition sample_wake : PolarDB_ReaderPoolReservationWake :=
  default (mkWake 0 0 0 sample_reader_lists) (head (px_flight sample_returned)).
Definition sample_route := route_once sample_context sample_wake true (px_system sample_returned).
Definition sample_routed : protocol := starting (result sample_route (px_system sample_returned)).
Definition sample_exchange := exchange_wake_pending 1 (px_system sample_routed).
Definition sample_exchanged : protocol :=
  mkProtocol (result sample_exchange (px_system sample_routed)) [] ∅ {[1]} ∅.
Definition sample_swap := swap_wakes 1 (px_system sample_exchanged).
Definition sample_drained : protocol :=
  mkProtocol (result sample_swap (px_system sample_exchanged)) []
    {[1 := outcome [] sample_swap]} ∅ ∅.
Definition sample_notification : wake_notification :=
  mkNotification (wk_token sample_wake) (wk_server sample_wake) (wk_snapshot sample_wake).
Definition sample_process :=
  process_wake sample_context 1 sample_notification (px_system sample_drained).
Definition sample_ready : protocol :=
  mkProtocol (result sample_process (px_system sample_drained)) [] {[1 := []]} ∅ ∅.

Lemma step_eq x x' x'' : sample_step x x' -> x' = x'' -> sample_step x x''.
Proof. by intros H <-. Qed.

Lemma sample_routed_step : sample_step sample_returned sample_routed.
Proof.
  eapply step_eq.
  - apply (step_route _ _ sample_returned sample_context [] sample_wake [] true
      (outcome None sample_route)); [vm_compute; reflexivity |].
    apply (outcome_result _ _ (px_system sample_returned)). vm_compute. reflexivity.
  - vm_compute. reflexivity.
Qed.

Lemma sample_drained_run : rtc sample_step sample_routed sample_drained.
Proof.
  eapply rtc_l.
  - eapply step_eq.
    + apply (step_exchange _ _ sample_routed 1 (outcome false sample_exchange)); [done | done |].
      apply (outcome_result _ _ (px_system sample_routed)). vm_compute. reflexivity.
    + instantiate (1 := sample_exchanged). vm_compute. reflexivity.
  - apply rtc_once. eapply step_eq.
    + apply (step_swap _ _ sample_exchanged 1 (outcome [] sample_swap)); [set_solver |].
      apply (outcome_result _ _ (px_system sample_exchanged)). vm_compute. reflexivity.
    + vm_compute. reflexivity.
Qed.

Lemma sample_routed_reached : reached sample_pton (fun _ => None) sample_routed.
Proof.
  eapply reached_runs; [apply sample_returned_reached | apply rtc_once, sample_routed_step].
Qed.

Lemma sample_ready_reached : reached sample_pton (fun _ => None) sample_ready.
Proof.
  eapply reached_runs; [apply sample_routed_reached |].
  eapply rtc_r; [apply sample_drained_run |]. eapply step_eq.
  - apply (step_process _ _ sample_drained sample_context 1 sample_notification []
      (fst (outcome (false, None) sample_process)) (snd (outcome (false, None) sample_process)));
      [vm_compute; reflexivity |].
    rewrite <-surjective_pairing. apply (outcome_result _ _ (px_system sample_drained)). vm_compute. reflexivity.
  - vm_compute. reflexivity.
Qed.

(** The thread of a worker. *)
Definition thread_of (x : protocol) (w : Z) : PgSQL_Thread :=
  default (idle_worker w) (sy_threads (px_system x) !! w).

(** The worker got the connection. *)
Definition sample_take :=
  polardb_take_reader_reservation sample_context 1 (Some (sample_waiting 31)) true
    (px_system sample_ready).
Example sample_take_conn : fst <$> (fst <$> sample_take) = Some (Taken_conn 5).
Proof. vm_compute. reflexivity. Qed.

(** ** The theorems on the run *)

Lemma claims_have_one_holder_witness :
  holders sample_returned = [(1, 1, 2)] /\ NoDup (held_token <$> holders sample_returned).
Proof.
  split; [vm_compute; reflexivity |].
  apply (claims_have_one_holder sample_pton (fun _ => None) sample_returned sample_returned_reached).
Defined.

(** A server of a state. *)
Definition server_of (x : protocol) (s : srv_id) : gmap conn_id pool_conn * PgSQL_SrvC :=
  default (∅, new_server s 0 0) (sy_servers (px_system x) !! s).

Lemma pools_stay_consistent_witness :
  let srv := snd (server_of sample_ready 2) in
  cl_conns (sv_free srv) = [5] /\ sv_free_count srv = Z.of_nat (length (cl_conns (sv_free srv))).
Proof.
  split; [vm_compute; reflexivity |].
  destruct (pools_stay_consistent sample_pton (fun _ => None) sample_ready 2
    (fst (server_of sample_ready 2)) (snd (server_of sample_ready 2)) empty_queue
    sample_ready_reached ltac:(vm_compute; reflexivity)) as (_ & Hc & _).
  exact Hc.
Defined.

Lemma waiting_worker_is_not_forgotten_witness :
  let x := sample_returned in
  waits (thread_of x 2) 2 20 /\
  (2 ∈ px_refused x \/
   (exists q, sy_queues (px_system x) !! 20 = Some q /\
              has_reader_pool_capacity_request 2 2 q = true) \/
   exists s, (2, 2, s) ∈ wake_entry <$> px_flight x \/
             (2, s) ∈ notification_entry <$> (drained x 2 ++ th_wakes (thread_of x 2))).
Proof.
  assert (Hw : waits (thread_of sample_returned 2) 2 20) by (by vm_compute).
  split; [exact Hw |].
  exact (proj1 (waiting_worker_is_not_forgotten sample_pton (fun _ => None) sample_returned 2
    (thread_of sample_returned 2) 2 20 sample_returned_reached ltac:(vm_compute; reflexivity) Hw)).
Defined.

Lemma take_is_always_answered_witness :
  has_connection (th_reservation (thread_of sample_ready 1)) = true /\
  exists r next y', sample_take = Some ((r, next), y') /\
    answered 1 (thread_of sample_ready 1) (Some (sample_waiting 31)) true (px_system sample_ready)
      y' r.
Proof.
  split; [vm_compute; reflexivity |].
  exact (take_is_always_answered sample_pton (fun _ => None) sample_context sample_ready 1
    (Some (sample_waiting 31)) true (thread_of sample_ready 1) sample_ready_reached
    ltac:(vm_compute; reflexivity)).
Defined.

Lemma reservation_steps_never_fail_witness :
  is_Some (route_once sample_context sample_wake false (px_system sample_returned)).
Proof.
  assert (Hwk : sample_wake ∈ px_flight sample_returned) by (vm_compute; apply list_elem_of_here).
  exact (proj1 (proj2 (reservation_steps_never_fail sample_pton (fun _ => None) sample_context
    sample_returned sample_returned_reached)) sample_wake false Hwk).
Defined.

Lemma routing_loop_ends_witness :
  exists x', polardb_route_reader_reservation_wake sample_context 3 (fun _ => false)
      (Some sample_wake) (px_system sample_returned) = Some (None, px_system x') /\
    rtc sample_step sample_returned x' /\ px_flight x' = [].
Proof.
  apply (routing_loop_ends sample_pton (fun _ => None) sample_context (fun _ => false) 3
    sample_returned [] sample_wake [] sample_returned_reached);
    [vm_compute; reflexivity | vm_compute; lia].
Defined.

Lemma sample_routed_rest w : at_rest sample_routed w.
Proof. split; [done | apply not_elem_of_empty]. Qed.

Lemma processing_wakes_is_a_run_witness :
  exists ready x', polardb_process_reader_reservation_wakes sample_context 3 (fun _ => true) 1
      (px_system sample_routed) = Some (ready, px_system x') /\ rtc sample_step sample_routed x' /\
    px_flight x' = [] /\ at_rest x' 1 /\
    exists th', sy_threads (px_system x') !! 1 = Some th' /\
      (ready = true -> has_connection (th_reservation th') = true).
Proof.
  apply (processing_wakes_is_a_run sample_pton (fun _ => None) sample_context (fun _ => true) 3
    sample_routed 1 (thread_of sample_routed 1) sample_routed_reached
    ltac:(vm_compute; reflexivity) (sample_routed_rest 1)).
  vm_compute. lia.
Defined.

(** The first worker was detached. *)
Definition sample_detached : protocol :=
  starting (mkReaderSystem (sy_servers (px_system sample_routed)) (sy_queues (px_system sample_routed))
    (sy_threads (px_system sample_routed)) {[2]} false (sy_next_token (px_system sample_routed))).

Lemma sample_detached_reached : reached sample_pton (fun _ => None) sample_detached.
Proof.
  eapply reached_runs; [apply sample_routed_reached |]. apply rtc_once.
  apply (step_other _ _ sample_routed). intros w. by destruct (_ !! w).
Qed.

Lemma ended_worker_leaves_nothing_witness :
  exists x', release_worker sample_context 3 (fun _ => true) 1 (px_system sample_detached) =
      Some ((), px_system x') /\ rtc sample_step sample_detached x' /\ px_flight x' = [] /\
    (forall t s, (t, 1, s) ∈ holders x' -> (t, 1, s) ∈ wake_entry <$> px_flight sample_detached) /\
    forall h q t, sy_queues (px_system x') !! h = Some q ->
      has_reader_pool_capacity_request 1 t q = false.
Proof.
  apply (ended_worker_leaves_nothing sample_pton (fun _ => None) sample_context (fun _ => true) 3
    sample_detached 1 (thread_of sample_detached 1) sample_detached_reached
    ltac:(vm_compute; reflexivity)).
  - split; [done | apply not_elem_of_empty].
  - vm_compute. by intros [=].
  - vm_compute. lia.
Defined.

Lemma sample_registered_reached : reached sample_pton (fun _ => None) (starting sample_registered).
Proof.
  exists sample_system. split; [apply sample_system_fresh |].
  eapply rtc_l; [apply sample_used_step |].
  eapply rtc_l; [apply (sample_register_step 1 31); [vm_compute; reflexivity | by split] |].
  apply rtc_once, (sample_register_step 2 32); [vm_compute; reflexivity | by split].
Qed.

Lemma returned_connection_goes_to_the_oldest_request_witness :
  let '(heap, srv) := server_of (starting sample_registered) 2 in
  let q := default empty_queue (sy_queues sample_registered !! 20) in
  exists l wake p', represents q l /\
    return_matching_connection sample_context 5 sample_match_key UINT32_MAX (mkPool heap srv q) =
      Some ((Return_STORED, wake), p') /\
    match fifo_first sample_context (sv_hid srv) (Some (sv_id srv)) sample_match_key UINT32_MAX l.*2 with
    | Some (r, snapshot) =>
        wake = Some (mkWake (cr_worker_index r) (cr_token r) (sv_id srv) snapshot) /\
        (5, no_match_key) ∈ free_slots p' /\ claims p' !! cr_token r = Some (cr_worker_index r)
    | None => wake = None /\ (5, sample_match_key) ∈ free_slots p' /\
              claims p' = claims (mkPool heap srv q)
    end.
Proof.
  destruct (server_of (starting sample_registered) 2) as [heap srv] eqn:E.
  assert (Hq : sy_queues sample_registered !! sv_hid srv =
    Some (default empty_queue (sy_queues sample_registered !! 20))).
  { vm_compute in E. injection E as <- <-. vm_compute. reflexivity. }
  apply (returned_connection_goes_to_the_oldest_request sample_pton (fun _ => None) sample_context 5
    sample_match_key UINT32_MAX (starting sample_registered) 2 heap srv _ sample_registered_reached);
    [rewrite <-E; vm_compute; reflexivity | exact Hq | |];
    vm_compute in E; injection E as <- <-; [apply list_elem_of_here | reflexivity].
Defined.

Definition sample_settings : get_settings :=
  mkGetSettings false 10 None 0 false 1 sample_ids 3 false (9, new_conn sample_connection).

Lemma creation_respects_the_limit_witness :
  let '(heap, srv) := server_of sample_ready 2 in
  let p := mkPool heap srv (default empty_queue (sy_queues (px_system sample_ready) !! 20)) in
  exists r deleted p', create_with_room sample_settings 0 p = Some ((r, deleted), p') /\
    records p' = records p /\
    Forall (fun d => d ∈ cl_conns (sv_free srv) /\ ~ is_reserved p d /\ ~ in_pool p' d) deleted /\
    forall c, r = Some c -> ~ in_pool p' c /\
      Z.of_nat (length (cl_conns (sv_free (pl_srv p'))) + length (cl_conns (sv_used (pl_srv p')))) <
      wrap32 (sv_max_connections srv).
Proof.
  destruct (server_of sample_ready 2) as [heap srv] eqn:E.
  assert (Hq : sy_queues (px_system sample_ready) !! sv_hid srv =
    Some (default empty_queue (sy_queues (px_system sample_ready) !! 20))).
  { vm_compute in E. injection E as <- <-. vm_compute. reflexivity. }
  apply (creation_respects_the_limit sample_pton (fun _ => None) sample_settings 0 sample_ready 2
    heap srv _ sample_ready_reached);
    [rewrite <-E; vm_compute; reflexivity | exact Hq | |];
    vm_compute in E; injection E as <- <-; reflexivity.
Defined.

(** Without the context of a client the search gives out the connection at its
    random position, here one that is reserved, although only an exact match of
    the pool was asked for. *)
Example blind_search_takes_a_reserved_connection :
  let '(heap, srv) := server_of sample_ready 2 in
  let p := mkPool heap srv empty_queue in
  sv_token_by_connection srv !! 5 = Some 1 /\
  fst <$> get_random_MyConn_unlocked sample_pton (fun _ => None) sample_settings None false true true p =
    Some (Some 5, []).
Proof. by vm_compute. Qed.
