(* ===== verification/Wrap.v ===== *)
(** * The wait wrapper

    The SQL text of lib/PgSQL_PolarDB_Wrap.cpp and of the split-read builder in
    lib/PgSQL_PolarDB_Split.cpp: the injected SET statements, the rewritten
    simple-query packet and the one place where the wrapper is installed. *)

From S2P Require Import Prelude SqlScan Policy Config Session Query SessionState.
From Stdlib Require Import ZArith Ascii String List Bool Lia.
From Stdlib Require Import DecimalString DecimalFacts DecimalPos DecimalN.
From stdpp Require Import base tactics list gmap strings.

Open Scope string_scope.
Open Scope Z_scope.
Open Scope polar_scope.

(** ** Packets *)

Definition PGSQL_V3_MESSAGE_HEADER_SIZE : nat := 5.
Definition PGSQL_SIMPLE_QUERY_MESSAGE_OVERHEAD : nat := 6.

Definition NUL : ascii := ascii_of_nat 0.
Definition QUOTE : ascii := "'"%char.

Definition polardb_extract_simple_query_body (pkt : PtrSize_t) : option string :=
  match pkt with
  | None => None
  | Some (mkPacket _ bytes) =>
      if Nat.ltb (length bytes) (PGSQL_SIMPLE_QUERY_MESSAGE_OVERHEAD + 1) ||
         negb (Ascii.eqb (nth 0 bytes NUL) "Q")
      then None
      else Some (string_of_list_ascii
             (firstn (length bytes - PGSQL_SIMPLE_QUERY_MESSAGE_OVERHEAD)
                (skipn PGSQL_V3_MESSAGE_HEADER_SIZE bytes)))
  end.

Definition byte_at (n shift : Z) : ascii :=
  ascii_of_nat (Z.to_nat (Z.land (Z.shiftr n shift) 255)).

(** [htonl] of a 32-bit value, most significant byte first. *)
Definition htonl_bytes (n : Z) : list ascii :=
  [byte_at n 24; byte_at n 16; byte_at n 8; byte_at n 0].

(** The backend stream's [pgsql_real_query]. *)
Record PgSQL_Data_Stream := mkStream {
  st_pkt : PtrSize_t;
  st_query : option (list ascii)
}.

(** Type byte, 32-bit length without the type byte, statement, terminator. *)
Definition simple_query_bytes (query : string) : list ascii :=
  let len := wrap32 (Z.of_nat (String.length query +
                       PGSQL_SIMPLE_QUERY_MESSAGE_OVERHEAD - 1)) in
  "Q"%char :: (htonl_bytes len ++ (list_ascii_of_string query ++ [NUL]))%list.

(** The new packet is allocated at [ptr]. *)
Definition replace_simple_query_packet (ptr : Z) (query : string) : PgSQL_Data_Stream :=
  mkStream (Some (mkPacket ptr (simple_query_bytes query)))
    (Some (list_ascii_of_string query ++ [NUL])%list).

(** ** Statement text *)

(** [printf] with [%lu] or [%u]. *)
Definition decimal (n : Z) : string := NilZero.string_of_uint (N.to_uint (Z.to_N n)).

Fixpoint polardb_append_sql_literal (value : string) : string :=
  match value with
  | EmptyString => EmptyString
  | String c r =>
      if Ascii.eqb c QUOTE then String QUOTE (String QUOTE (polardb_append_sql_literal r))
      else String c (polardb_append_sql_literal r)
  end.

Definition append_polar_wait_set (type : PolarDB_WaitType) (tgt : Z) (out : string)
  : bool * string :=
  if (type != WaitType_LSN) || (tgt =? 0) then (false, out)
  else (true, out ++ "SET polar_xact_split_wait_lsn = '" ++ decimal tgt ++ "'; ").

Definition append_polar_timeout_set (timeout_ms : Z) (out : string) : string :=
  out ++ "SET polar_proxy_wait_timeout_ms = " ++ decimal timeout_ms ++ "; ".

Definition polardb_wait_mode_set_statement (mode : PolarDB_WaitMode) : string :=
  match mode with
  | WaitMode_STRICT => "SET polar_consistency_mode = 'strict'; "
  | WaitMode_BEST_EFFORT => "SET polar_consistency_mode = 'best_effort'; "
  end.

(** The statement count and the buffer; a count of 0 leaves the buffer as it was. *)
Definition append_wrapped_wait_query (orig_query : cstr) (wait_state : PolarDB_Query_WaitState)
    (mode_set out : string) : Z * string :=
  match orig_query with
  | None | Some EmptyString => (0, out)
  | Some orig =>
      let spec := wst_spec wait_state in
      if wsp_type spec == WaitType_NONE then (0, out)
      else if (wsp_type spec == WaitType_LSN) && (wsp_target spec =? 0) then (0, out)
      else
        let buf := append_polar_timeout_set (wsp_timeout_ms spec) (out ++ mode_set) in
        match append_polar_wait_set (wsp_type spec) (wsp_target spec) buf with
        | (false, _) => (0, out)
        | (true, buf) => (3, buf ++ orig)
        end
  end.

Definition build_wrapped_wait_query (orig_query : cstr) (wait_state : PolarDB_Query_WaitState)
    (mode_set : string) : Z * string :=
  append_wrapped_wait_query orig_query wait_state mode_set "".

Definition polardb_build_txn_split_wrapped_query (pkt : PtrSize_t) (wait_spec : PolarDB_WaitSpec)
    (txn_xids : string) (bypass_wait : bool) : Z * string :=
  if (txn_xids == EmptyString) || negb (has_wait wait_spec) then (0, "")
  else
    match polardb_extract_simple_query_body pkt with
    | None => (0, "")
    | Some orig =>
        let split_wait :=
          prepare_from_spec (mkWaitSpec (wsp_type wait_spec) (wsp_target wait_spec)
            (wsp_timeout_ms wait_spec) WaitMode_STRICT) in
        let wrapped :=
          "SET polar_xact_split_xids = '" ++ polardb_append_sql_literal txn_xids ++ "'; " in
        if bypass_wait then (1, wrapped ++ orig)
        else
          let '(n, wrapped) :=
            append_wrapped_wait_query (Some orig) split_wait
              (polardb_wait_mode_set_statement WaitMode_STRICT) wrapped in
          if n =? 0 then (0, "") else (1 + n, wrapped)
    end.

(** ** Installation *)

Inductive PolarDB_WrapFinalizeResult := Wrap_CONTINUE | Wrap_FAILED.

Definition polardb_wait_active (s : PgSQL_Session) : bool :=
  wst_wait_stage (qs_wait (ss_query s)) == WaitStage_WAITING.

Definition polardb_fail_wrap_and_disable_session_waits (s : PgSQL_Session)
  : PolarDB_WrapFinalizeResult * PgSQL_Session :=
  (Wrap_FAILED,
   s <| ss_wait_disabled := true |>
     <| ss_query := reset_wait (ss_query s <| qs_wrapped_query_buf := "" |>) |>).

(** The text of the query pointer without its trailing NUL. *)
Definition stream_query_text (bytes : list ascii) : string :=
  let n := length bytes in
  string_of_list_ascii
    (if Ascii.eqb (nth (n - 1) bytes "Q"%char) NUL then firstn (n - 1) bytes else bytes).

Definition capture_original_query (myds : PgSQL_Data_Stream) (s : PgSQL_Session)
  : PgSQL_Session :=
  if qs_original_query (ss_query s) == EmptyString
  then
    match st_query myds with
    | Some (c :: r) =>
        s <| ss_query := ss_query s <| qs_original_query := stream_query_text (c :: r) |> |>
    | _ => s
    end
  else s.

Definition polardb_install_wait_wrapper (ptr : Z) (conn_present : bool)
    (myds : option PgSQL_Data_Stream) (s : PgSQL_Session)
  : PolarDB_WrapFinalizeResult * PgSQL_Session * option PgSQL_Data_Stream :=
  if negb (polardb_wait_active s) then (Wrap_CONTINUE, s, myds)
  else if wst_wrapper_finalized (qs_wait (ss_query s)) then (Wrap_CONTINUE, s, myds)
  else
    match conn_present, myds with
    | true, Some stream =>
        let s := capture_original_query stream s in
        let original := qs_original_query (ss_query s) in
        if original == EmptyString
        then (polardb_fail_wrap_and_disable_session_waits s, myds)
        else
          let w := qs_wait (ss_query s) in
          let '(n, buf) :=
            build_wrapped_wait_query (Some original) w
              (polardb_wait_mode_set_statement (wsp_mode (wst_spec w))) in
          let s := s <| ss_query := ss_query s <| qs_wrapped_query_buf := buf |> |> in
          if n =? 0 then (polardb_fail_wrap_and_disable_session_waits s, myds)
          else if buf == EmptyString
          then (polardb_fail_wrap_and_disable_session_waits s, myds)
          else
            (Wrap_CONTINUE,
             s <| ss_query := ss_query s
                    <| qs_wait := mkWaitState (wst_spec w) (wst_wait_stage w) n
                         (wst_wait_started_at_us w) true (wst_timeout_error w)
                         (wst_fallback_writer_hg w) |>
                    <| qs_dispatch_wrapper_stmts := n |>
                    <| qs_dispatch_wrapper_kind := Wrapper_CONSISTENCY_WAIT |> |>
               <| ss_query_text := Some (original ++ String NUL EmptyString) |>,
             Some (replace_simple_query_packet ptr buf))
    | _, _ => (polardb_fail_wrap_and_disable_session_waits s, myds)
    end.

(** Whether a wait started, with the new state. *)
Definition polardb_finish_reader_wait_selection (wait_spec : PolarDB_WaitSpec)
    (target_reached : bool) (fallback_writer_hg now_us : Z) (s : PgSQL_Session)
  : bool * PgSQL_Session :=
  if negb (has_wait wait_spec) then (false, s <| ss_query := reset_wait (ss_query s) |>)
  else if target_reached
  then (false, s <| ss_query := mark_wait_satisfied (wsp_target wait_spec) (ss_query s) |>)
  else (true, s <| ss_query := begin_wait wait_spec now_us fallback_writer_hg (ss_query s) |>).

(** ** A reader of SET statements

    What the backend makes of the text: [SET name = value; ] with a quoted value
    in the standard-conforming syntax or a bare one. *)

Fixpoint unquote (p : string) : option (string * string) :=
  match p with
  | EmptyString => None
  | String c r =>
      if Ascii.eqb c QUOTE
      then match r with
           | String d r' =>
               if Ascii.eqb d QUOTE
               then match unquote r' with
                    | Some (v, rest) => Some (String QUOTE v, rest)
                    | None => None
                    end
               else Some (EmptyString, r)
           | EmptyString => Some (EmptyString, EmptyString)
           end
      else match unquote r with
           | Some (v, rest) => Some (String c v, rest)
           | None => None
           end
  end.

(** The text up to a character that starts the rest. *)
Fixpoint upto (stop : ascii) (p : string) : option (string * string) :=
  match p with
  | EmptyString => None
  | String c r =>
      if Ascii.eqb c stop then Some (EmptyString, p)
      else match upto stop r with
           | Some (v, rest) => Some (String c v, rest)
           | None => None
           end
  end.

Fixpoint expect (w p : string) : option string :=
  match w, p with
  | EmptyString, _ => Some p
  | String c w', String d p' => if Ascii.eqb c d then expect w' p' else None
  | String _ _, EmptyString => None
  end.

Definition read_value (p : string) : option (string * string) :=
  match p with
  | String c r => if Ascii.eqb c QUOTE then unquote r else upto ";" p
  | EmptyString => None
  end.

Definition read_set (p : string) : option ((string * string) * string) :=
  p ← expect "SET " p;
  '(name, p) ← upto " " p;
  p ← expect " = " p;
  '(value, p) ← read_value p;
  p ← expect "; " p;
  Some ((name, value), p).

Fixpoint read_sets (n : nat) (p : string) : option (list (string * string) * string) :=
  match n with
  | O => Some ([], p)
  | S n' =>
      '(a, p) ← read_set p;
      '(l, p) ← read_sets n' p;
      Some (a :: l, p)
  end.

(** ** Lemmas *)

#[local] Arguments Ascii.eqb : simpl never.
#[local] Arguments QUOTE : simpl never.
#[local] Arguments String.append : simpl nomatch.

Lemma unquote_literal v rest :
  (forall r, rest <> String QUOTE r) ->
  unquote (polardb_append_sql_literal v ++ String QUOTE rest) = Some (v, rest).
Proof.
  intros Hrest. induction v as [|c v IH]; cbn.
  - rewrite Ascii.eqb_refl. destruct rest as [|d r]; [done|]. destruct (Ascii.eqb d QUOTE) eqn:E; [|done].
    apply Ascii.eqb_eq in E as ->. by destruct (Hrest r).
  - destruct (Ascii.eqb c QUOTE) eqn:E; cbn.
    + apply Ascii.eqb_eq in E as ->. by rewrite Ascii.eqb_refl, IH.
    + by rewrite E, IH.
Qed.

Fixpoint no_char (c : ascii) (s : string) : bool :=
  match s with
  | EmptyString => true
  | String d r => negb (Ascii.eqb d c) && no_char c r
  end.

Lemma upto_app stop v rest :
  no_char stop v = true -> upto stop (v ++ String stop rest) = Some (v, String stop rest).
Proof.
  induction v as [|c v IH]; cbn; intros H.
  - by rewrite Ascii.eqb_refl.
  - bool_to_prop. by rewrite H, IH.
Qed.

Lemma no_quote_is_literal v : no_char QUOTE v = true -> polardb_append_sql_literal v = v.
Proof.
  induction v as [|c v IH]; cbn; intros H; [done|]. bool_to_prop. by rewrite H, IH.
Qed.

Lemma expect_app w p : expect w (w ++ p) = Some p.
Proof. induction w; cbn; [done|]. by rewrite Ascii.eqb_refl. Qed.

Lemma string_app_assoc (a b c : string) : (a ++ b) ++ c = a ++ b ++ c.
Proof. induction a; cbn; congruence. Qed.

Lemma string_app_nil (a : string) : a ++ "" = a.
Proof. induction a; cbn; congruence. Qed.

Lemma digits_only c u :
  (forall d, In d (list_ascii_of_string "0123456789") -> Ascii.eqb d c = false) ->
  no_char c (NilEmpty.string_of_uint u) = true.
Proof.
  intros H. induction u; cbn [NilEmpty.string_of_uint no_char]; [done|..];
    rewrite IHu; rewrite H; cbn; tauto.
Qed.

Lemma decimal_digits c n :
  (forall d, In d (list_ascii_of_string "0123456789") -> Ascii.eqb d c = false) ->
  no_char c (decimal n) = true /\ exists d r, decimal n = String d r /\ Ascii.eqb d c = false.
Proof.
  intros H. unfold decimal, NilZero.string_of_uint.
  pose proof (digits_only c (N.to_uint (Z.to_N n)) H) as Hd.
  destruct (N.to_uint (Z.to_N n)); (split; [by (try apply Hd; cbn [no_char]; rewrite H; cbn; tauto)|]);
    eexists _, _; (split; [reflexivity|]); apply H; cbn; tauto.
Qed.

Definition parse_decimal (s : string) : option Z :=
  match NilZero.uint_of_string s with
  | Some u => Some (Z.of_N (N.of_uint u))
  | None => None
  end.

Lemma parse_decimal_print n : 0 <= n -> parse_decimal (decimal n) = Some n.
Proof.
  intros Hn. unfold parse_decimal, decimal.
  rewrite NilZero.usu.
  - by rewrite DecimalN.Unsigned.of_to, Z2N.id.
  - destruct (Z.to_N n) as [|p]; [done|]. apply DecimalPos.Unsigned.to_uint_nonnil.
Qed.

(** The part of a SET statement in front of its value. *)
Lemma read_set_value name tail :
  no_char " " name = true ->
  read_set ("SET " ++ name ++ " = " ++ tail) =
  '(value, p) ← read_value tail; p ← expect "; " p; Some ((name, value), p).
Proof.
  intros H. unfold read_set. rewrite expect_app. cbn [mbind option_bind].
  change (" = " ++ tail) with (String " " ("= " ++ tail)).
  rewrite upto_app by done. cbn [mbind option_bind].
  change (String " " ("= " ++ tail)) with (" = " ++ tail). by rewrite expect_app.
Qed.

Lemma read_quoted_set name v rest :
  no_char " " name = true ->
  read_set ("SET " ++ name ++ " = '" ++ polardb_append_sql_literal v ++ "'; " ++ rest)
  = Some ((name, v), rest).
Proof.
  intros H. pose proof (read_set_value name
    (String QUOTE (polardb_append_sql_literal v ++ String QUOTE ("; " ++ rest))) H) as Hr.
  cbn [read_value] in Hr. rewrite Ascii.eqb_refl, unquote_literal in Hr by done.
  cbn [mbind option_bind] in Hr. rewrite expect_app in Hr. exact Hr.
Qed.

Lemma read_number_set name n rest :
  no_char " " name = true ->
  read_set ("SET " ++ name ++ " = " ++ decimal n ++ "; " ++ rest) = Some ((name, decimal n), rest).
Proof.
  intros H. rewrite read_set_value by done.
  destruct (decimal_digits ";" n) as [H1 _]; [intros d; cbn; intuition; by subst|].
  destruct (decimal_digits QUOTE n) as [_ (d&r&Hd&Hq)]; [intros d; cbn; intuition; by subst|].
  pose proof (upto_app ";" (decimal n) (" " ++ rest) H1) as Hu.
  change (String ";" (" " ++ rest)) with ("; " ++ rest) in Hu.
  replace (read_value (decimal n ++ "; " ++ rest)) with (upto ";" (decimal n ++ "; " ++ rest)).
  - rewrite Hu. cbn [mbind option_bind]. by rewrite expect_app.
  - rewrite Hd. cbn [String.append read_value]. by rewrite Hq.
Qed.

Lemma read_mode_set mode rest :
  read_set (polardb_wait_mode_set_statement mode ++ rest)
  = Some (("polar_consistency_mode",
           match mode with WaitMode_STRICT => "strict" | WaitMode_BEST_EFFORT => "best_effort" end),
          rest).
Proof. by destruct mode. Qed.

Lemma read_timeout_set ms rest :
  read_set ("SET polar_proxy_wait_timeout_ms = " ++ decimal ms ++ "; " ++ rest)
  = Some (("polar_proxy_wait_timeout_ms", decimal ms), rest).
Proof. apply (read_number_set "polar_proxy_wait_timeout_ms"). done. Qed.

Lemma read_wait_set tgt rest :
  read_set ("SET polar_xact_split_wait_lsn = '" ++ decimal tgt ++ "'; " ++ rest)
  = Some (("polar_xact_split_wait_lsn", decimal tgt), rest).
Proof.
  destruct (decimal_digits QUOTE tgt) as [Hq _]; [intros d; cbn; intuition; by subst|].
  rewrite <- (no_quote_is_literal _ Hq) at 1.
  apply (read_quoted_set "polar_xact_split_wait_lsn"). done.
Qed.

Lemma read_xids_set xids rest :
  read_set ("SET polar_xact_split_xids = '" ++ polardb_append_sql_literal xids ++ "'; " ++ rest)
  = Some (("polar_xact_split_xids", xids), rest).
Proof. apply (read_quoted_set "polar_xact_split_xids"). done. Qed.

Lemma read_sets_cons n a p q :
  read_set p = Some (a, q) ->
  read_sets (S n) p = '(l, r) ← read_sets n q; Some (a :: l, r).
Proof. intros H. cbn [read_sets]. by rewrite H. Qed.

(** The settings a wait asks for, in the order they are sent. *)
Definition wait_settings (w : PolarDB_WaitSpec) : list (string * string) :=
  [("polar_consistency_mode",
    match wsp_mode w with WaitMode_STRICT => "strict" | WaitMode_BEST_EFFORT => "best_effort" end);
   ("polar_proxy_wait_timeout_ms", decimal (wsp_timeout_ms w));
   ("polar_xact_split_wait_lsn", decimal (wsp_target w))].

Definition wrappable (w : PolarDB_WaitSpec) : bool :=
  (wsp_type w == WaitType_LSN) && negb (wsp_target w =? 0).

(** What the builder appends when it succeeds. *)
Lemma append_wrapped_spec orig w out :
  append_wrapped_wait_query orig w (polardb_wait_mode_set_statement (wsp_mode (wst_spec w))) out =
  match orig with
  | Some (String c r) =>
      if wrappable (wst_spec w)
      then (3, out ++ polardb_wait_mode_set_statement (wsp_mode (wst_spec w)) ++
               "SET polar_proxy_wait_timeout_ms = " ++ decimal (wsp_timeout_ms (wst_spec w)) ++
               "; " ++ "SET polar_xact_split_wait_lsn = '" ++ decimal (wsp_target (wst_spec w)) ++
               "'; " ++ String c r)
      else (0, out)
  | _ => (0, out)
  end.
Proof.
  unfold append_wrapped_wait_query, wrappable, append_polar_wait_set, append_polar_timeout_set.
  destruct orig as [[|c r]|]; [done| |done].
  destruct (wst_spec w) as [[] tgt ms m]; cbn [wsp_type wsp_target wsp_timeout_ms wsp_mode];
    [done|].
  change (WaitType_LSN == WaitType_NONE) with false.
  change (WaitType_LSN == WaitType_LSN) with true. cbn [andb orb negb].
  destruct (tgt =? 0); [done|]. cbn [negb]. by rewrite !string_app_assoc.
Qed.

Lemma wrapper_reads_back query w :
  let '(n, text) := build_wrapped_wait_query (Some query) w
                      (polardb_wait_mode_set_statement (wsp_mode (wst_spec w))) in
  (n = 0 <-> query = "" \/ wrappable (wst_spec w) = false) /\
  (n <> 0 -> read_sets (Z.to_nat n) text = Some (wait_settings (wst_spec w), query)).
Proof.
  unfold build_wrapped_wait_query. rewrite append_wrapped_spec.
  destruct query as [|c r]; [split; naive_solver|].
  destruct (wrappable (wst_spec w)) eqn:E; [|split; naive_solver].
  split; [naive_solver|]. intros _.
  change (Z.to_nat 3) with 3%nat. cbn [String.append].
  erewrite read_sets_cons by apply read_mode_set.
  erewrite read_sets_cons by apply read_timeout_set.
  erewrite read_sets_cons by apply read_wait_set. reflexivity.
Qed.

(** C36: The ordinary wait wrapper is transparent.  It is built exactly for a
    non-empty statement with a nonzero LSN target; the statement count it
    reports is the number of SET statements in front of the client's text;
    reading them back yields the consistency mode, the timeout and the wait
    target that were asked for, and what is left is the client's statement
    byte for byte. *)
Theorem wait_wrapper_transparent query w :
  let '(n, text) := build_wrapped_wait_query (Some query) w
                      (polardb_wait_mode_set_statement (wsp_mode (wst_spec w))) in
  (n = 0 <-> query = "" \/ wrappable (wst_spec w) = false) /\
  (n <> 0 -> read_sets (Z.to_nat n) text = Some (wait_settings (wst_spec w), query)) /\
  (0 <= wsp_target (wst_spec w) ->
   parse_decimal (decimal (wsp_target (wst_spec w))) = Some (wsp_target (wst_spec w))).
Proof.
  pose proof (wrapper_reads_back query w) as H. destruct (build_wrapped_wait_query _ _ _).
  destruct H as [? ?]. split; [done|]. split; [done|]. apply parse_decimal_print.
Qed.

Lemma extract_nonempty pkt q :
  polardb_extract_simple_query_body pkt = Some q -> exists c r, q = String c r.
Proof.
  unfold polardb_extract_simple_query_body, PGSQL_SIMPLE_QUERY_MESSAGE_OVERHEAD.
  destruct pkt as [[p bytes]|]; [|done]. do 7 (destruct bytes as [|? bytes]; [done|]).
  case_if; [done|]. intros [= <-]. cbn. eauto.
Qed.

Lemma split_wrapper_reads_back pkt spec xids bypass :
  let '(n, text) := polardb_build_txn_split_wrapped_query pkt spec xids bypass in
  (n = 0 <-> xids = "" \/ has_wait spec = false \/ polardb_extract_simple_query_body pkt = None \/
     (bypass = false /\ wrappable spec = false)) /\
  (n <> 0 -> exists query, polardb_extract_simple_query_body pkt = Some query /\
     read_sets (Z.to_nat n) text =
     Some (("polar_xact_split_xids", xids) ::
             (if bypass then []
              else wait_settings (mkWaitSpec (wsp_type spec) (wsp_target spec)
                                   (wsp_timeout_ms spec) WaitMode_STRICT)), query)).
Proof.
  unfold polardb_build_txn_split_wrapped_query.
  destruct (bool_decide_reflect (xids = "")) as [->|Hx]; [split; naive_solver|].
  destruct (has_wait spec) eqn:Hw; [|split; naive_solver].
  destruct (polardb_extract_simple_query_body pkt) as [q|] eqn:Hq; [|split; naive_solver].
  destruct (extract_nonempty _ _ Hq) as (c&r&->). cbn [negb orb].
  destruct bypass.
  - split; [naive_solver|]. intros _. eexists. split; [done|].
    change (Z.to_nat 1) with 1%nat. rewrite !string_app_assoc.
    erewrite read_sets_cons by apply read_xids_set. reflexivity.
  - set (w := prepare_from_spec _).
    change WaitMode_STRICT with (wsp_mode (wst_spec w)) at 1.
    rewrite (append_wrapped_spec (Some (String c r)) w).
    change (wrappable (wst_spec w)) with (wrappable spec).
    destruct (wrappable spec) eqn:E; cbn [Z.eqb Pos.eqb]; [|split; naive_solver].
    split; [naive_solver|]. intros _. eexists. split; [done|].
    change (Z.to_nat (1 + 3)) with 4%nat. rewrite !string_app_assoc.
    erewrite read_sets_cons by apply read_xids_set.
    erewrite read_sets_cons by apply read_mode_set.
    erewrite read_sets_cons by apply read_timeout_set.
    erewrite read_sets_cons by apply read_wait_set. reflexivity.
Qed.

(** The split-read wrapper is transparent and cannot be escaped.  Whatever
    the XID text holds (quotes included), the backend reads back exactly that
    text, then, unless the wait is bypassed, a strict wait on the target, and
    then the client's statement byte for byte; the reported count is the number
    of injected statements.  Nothing is built without XIDs, a wait and a
    simple-query packet. *)
Theorem split_wrapper_transparent pkt spec xids bypass :
  let '(n, text) := polardb_build_txn_split_wrapped_query pkt spec xids bypass in
  (n = 0 <-> xids = "" \/ has_wait spec = false \/ polardb_extract_simple_query_body pkt = None \/
     (bypass = false /\ wrappable spec = false)) /\
  (n <> 0 -> exists query, polardb_extract_simple_query_body pkt = Some query /\
     read_sets (Z.to_nat n) text =
     Some (("polar_xact_split_xids", xids) ::
             (if bypass then []
              else wait_settings (mkWaitSpec (wsp_type spec) (wsp_target spec)
                                   (wsp_timeout_ms spec) WaitMode_STRICT)), query)).
Proof. apply split_wrapper_reads_back. Qed.

(** [ntohl] of four bytes. *)
Definition ntohl_bytes (l : list ascii) : Z :=
  fold_left (fun acc c => acc * 256 + code c) l 0.

Lemma byte_at_code n k : 0 <= n -> 0 <= k -> code (byte_at n k) = n / 2 ^ k mod 256.
Proof.
  intros Hn Hk. unfold code, byte_at. rewrite Z.shiftr_div_pow2 by done.
  change 255 with (Z.ones 8). rewrite Z.land_ones by lia. change (2 ^ 8) with 256.
  assert (0 <= n / 2 ^ k mod 256 < 256) by (apply Z.mod_pos_bound; lia).
  rewrite nat_ascii_embedding by lia. by rewrite Z2Nat.id by lia.
Qed.

Lemma ntohl_htonl n : is_u32 n -> ntohl_bytes (htonl_bytes n) = n.
Proof.
  unfold is_u32, U32_MODULUS. intros Hn. cbn [ntohl_bytes htonl_bytes fold_left].
  rewrite !byte_at_code by lia. Z.to_euclidean_division_equations. lia.
Qed.

Lemma first_four n l : firstn 4 (htonl_bytes n ++ l)%list = htonl_bytes n.
Proof. reflexivity. Qed.

Lemma bytes_length s : length (list_ascii_of_string s) = String.length s.
Proof. induction s; cbn; auto. Qed.

(** The rewritten simple-query packet is well formed: the stream's own
    extraction finds the new statement in it, the declared length is the
    packet's length without the type byte, and the query pointer addresses the
    NUL-terminated statement. *)
Theorem rewritten_packet_wellformed ptr query :
  query <> "" -> Z.of_nat (String.length query) < U32_MODULUS - 5 ->
  let ds := replace_simple_query_packet ptr query in
  polardb_extract_simple_query_body (st_pkt ds) = Some query /\
  st_query ds = Some (list_ascii_of_string query ++ [NUL])%list /\
  exists bytes, st_pkt ds = Some (mkPacket ptr bytes) /\
    ntohl_bytes (firstn 4 (tl bytes)) = Z.of_nat (length bytes) - 1.
Proof.
  intros Hne Hlen.
  unfold replace_simple_query_packet, simple_query_bytes, PGSQL_SIMPLE_QUERY_MESSAGE_OVERHEAD.
  pose proof (bytes_length query) as Hl.
  split; [|split; [done|]].
  - unfold polardb_extract_simple_query_body, PGSQL_SIMPLE_QUERY_MESSAGE_OVERHEAD.
    cbn [st_pkt app htonl_bytes nth PGSQL_V3_MESSAGE_HEADER_SIZE skipn length].
    rewrite length_app, Hl. cbn [length].
    assert (String.length query <> 0%nat) by (by destruct query).
    replace (Nat.ltb _ _) with false by (symmetry; apply Nat.ltb_ge; lia).
    rewrite Ascii.eqb_refl. cbn [orb negb]. f_equal.
    replace (S (S (S (S (S (String.length query + 1))))) - 6)%nat
      with (length (list_ascii_of_string query) + 0)%nat by lia.
    rewrite skipn_O, firstn_app_2, firstn_O, app_nil_r. apply string_of_list_ascii_of_string.
  - eexists. split; [reflexivity|]. cbn [tl].
    rewrite first_four, ntohl_htonl by apply wrap32_range.
    rewrite wrap32_id by (unfold is_u32, U32_MODULUS in *; lia).
    cbn [length]. rewrite !length_app, Hl. cbn [length htonl_bytes]. lia.
Qed.

Lemma rewritten_packet_wellformed_witness :
  polardb_extract_simple_query_body
    (st_pkt (replace_simple_query_packet 4096 "SELECT 1")) = Some "SELECT 1".
Proof. apply (rewritten_packet_wellformed 4096 "SELECT 1"); [done|]. reflexivity. Defined.

Lemma read_sets_nonempty n text r : read_sets (S n) text = Some r -> text <> "".
Proof. intros H ->. by cbn in H. Qed.

(** The builder either declines or produces text that reads back. *)
Lemma installed_text query w :
  query <> "" ->
  let '(n, text) := build_wrapped_wait_query (Some query) w
                      (polardb_wait_mode_set_statement (wsp_mode (wst_spec w))) in
  n = 0 \/ (n <> 0 /\ text <> "" /\
           read_sets (Z.to_nat n) text = Some (wait_settings (wst_spec w), query)).
Proof.
  intros Hq. pose proof (wrapper_reads_back query w) as H.
  destruct (build_wrapped_wait_query _ _ _) as [n text].
  destruct (Z.eq_dec n 0); [auto|]. destruct H as (_&H). specialize (H ltac:(done)).
  right. split; [done|]. split; [|done].
  destruct (Z.to_nat n); [by destruct query|]. by eapply read_sets_nonempty.
Qed.

(** A read that needs a wait is never sent unwrapped.  When the installer
    lets the query continue, either no wait is active (or the wrapper is in
    place already) and nothing changed, or the outgoing packet is the client's
    statement behind exactly the SET statements of the active wait, and as many
    results are dropped as statements were injected.  When it fails, the packet
    is untouched, the wait is cleared and the session's later reads go to the
    writer. *)
Theorem install_never_sends_unwrapped ptr conn_present myds s :
  let '(res, s', myds') := polardb_install_wait_wrapper ptr conn_present myds s in
  match res with
  | Wrap_CONTINUE =>
      ((polardb_wait_active s = false \/ wst_wrapper_finalized (qs_wait (ss_query s)) = true) /\
       s' = s /\ myds' = myds) \/
      (exists text query, myds' = Some (replace_simple_query_packet ptr text) /\
         qs_original_query (ss_query s') = query /\ query <> "" /\
         qs_dispatch_wrapper_kind (ss_query s') = Wrapper_CONSISTENCY_WAIT /\
         wst_wrapper_finalized (qs_wait (ss_query s')) = true /\
         wst_spec (qs_wait (ss_query s')) = wst_spec (qs_wait (ss_query s)) /\
         read_sets (Z.to_nat (qs_dispatch_wrapper_stmts (ss_query s'))) text =
         Some (wait_settings (wst_spec (qs_wait (ss_query s))), query))
  | Wrap_FAILED =>
      ss_wait_disabled s' = true /\ polardb_wait_active s' = false /\ myds' = myds
  end.
Proof.
  unfold polardb_install_wait_wrapper.
  destruct (polardb_wait_active s) eqn:Ha; cbn [negb]; [|left; auto].
  destruct (wst_wrapper_finalized (qs_wait (ss_query s))) eqn:Hf; [left; auto|].
  assert (Hfail : forall s0, let '(res, s') := polardb_fail_wrap_and_disable_session_waits s0 in
    res = Wrap_FAILED /\ ss_wait_disabled s' = true /\ polardb_wait_active s' = false)
    by (intros [? ? [] ? ? ? ? ? ? ? ? ? ? ? ? ? ? ? ? ?]; done).
  destruct conn_present, myds as [ds|];
    try (destruct (Hfail s) as (?&?&?); cbn; auto; fail).
  assert (Hw : qs_wait (ss_query (capture_original_query ds s)) = qs_wait (ss_query s)).
  { unfold capture_original_query. case_if; [|done].
    destruct (st_query ds) as [[|]|], s as [? ? [] ? ? ? ? ? ? ? ? ? ? ? ? ? ? ? ? ?]; done. }
  set (s1 := capture_original_query ds s) in *. cbn zeta. rewrite Hw.
  destruct (bool_decide_reflect (qs_original_query (ss_query s1) = "")) as [|Hne];
    [destruct (Hfail s1) as (?&?&?); cbn; auto|].
  pose proof (installed_text (qs_original_query (ss_query s1)) (qs_wait (ss_query s)) Hne) as Ht.
  destruct (build_wrapped_wait_query _ _ _) as [n buf].
  destruct Ht as [->|(Hn&Hb&Hr)]; [destruct (Hfail (s1 <| ss_query :=
    ss_query s1 <| qs_wrapped_query_buf := buf |> |>)) as (?&?&?); cbn; auto|].
  rewrite (proj2 (Z.eqb_neq n 0)), (bool_decide_eq_false_2 _ Hb) by done.
  right. exists buf, (qs_original_query (ss_query s1)).
  destruct s1 as [? ? [] ? ? ? ? ? ? ? ? ? ? ? ? ? ? ? ? ?]; cbn in *. repeat split; auto; congruence.
Qed.
