(* ===== verification/Flow.v ===== *)
(** * The request path

    lib/PgSQL_PolarDB_Flow.cpp from the arrival of a statement to its dispatch:
    the request policy snapshot, the binding of the session positions to a
    writer scope, the observation of the statement, the routing snapshot
    ([polardb_collect]), the preparation of a transaction reader
    (lib/PgSQL_PolarDB_Split.cpp), [polardb_execute] and the composition
    [polardb_route_query]. *)

From S2P Require Import Prelude SqlScan Policy Startup Config Session Query.
From S2P Require Import SessionState Plan Topology ServerList Wrap.
From Stdlib Require Import ZArith Ascii String List Bool Lia.
From stdpp Require Import base tactics list gmap strings.

Open Scope Z_scope.
Open Scope polar_scope.

(** ** Worker state and rule output *)

(** The [pgsql_thread___polardb_*] variables of the worker and its topology
    cache. *)
Record PgSQL_Thread := mkThread {
  th_profile_off : bool;
  th_consistency_mode : Z;
  th_read_target : Z;
  th_action_read_fallback : Z;
  th_lsn_wait_timeout_ms : Z;
  th_action_lsn_timeout : Z;
  th_action_missing_lsn : Z;
  th_action_replica_loss : Z;
  th_action_replica_error : Z;
  th_max_reader_lsn_gap_bytes : Z;
  th_proxy_protocol : Z;
  th_proxy_identity_mode : Z;
  th_startup_config_generation : Z;
  th_is_active : bool;
  th_activation_generation : Z;
  th_snapshot : option (gmap Z PolarDB_HG_Config)
}.

(** What the query processor left for the matched rule. *)
Record Query_Processor_Output := mkQpo {
  qpo_replica_eligible : Z;
  qpo_destination_hostgroup : Z;
  qpo_force_primary_hint : bool
}.

(** The hostgroup argument is unsigned. *)
Definition get_thread_cached_polardb_hg_config (th : PgSQL_Thread)
    (m : PgSQL_HostGroups_Manager) (hostgroup_id : Z) : PolarDB_HG_Config :=
  polardb_config_from_snapshot m (th_snapshot th) (wrap32 hostgroup_id).

Definition find_thread_cached_polardb_hg_config (th : PgSQL_Thread) (hostgroup_id : Z)
  : option PolarDB_HG_Config :=
  s ← th_snapshot th; s !! wrap32 hostgroup_id.

(** ** Request policy *)

Definition polardb_effective_consistency_mode_for_session (th : PgSQL_Thread)
    (policy : PolarDB_HG_Policy) (s : PgSQL_Session) : Z :=
  if th_profile_off th then mode_to_int Mode_OFF
  else polardb_resolve_consistency_mode (cf_session_consistency_mode (ss_config s))
         (hp_consistency_mode policy) (th_consistency_mode th).

Definition polardb_snapshot_request_policy (th : PgSQL_Thread) (cfg : PolarDB_HG_Config)
    (s : PgSQL_Session) : PgSQL_Session :=
  if negb (hc_is_polardb_hostgroup cfg) then s
  else
    let profile_enabled := negb (th_profile_off th) in
    let mode_int := polardb_effective_consistency_mode_for_session th (hc_policy cfg) s in
    let mode := polardb_consistency_from_int mode_int in
    let s := s <| ss_query := ss_query s
      <| qs_profile_enabled := profile_enabled |>
      <| qs_effective_consistency_mode := mode_int |>
      <| qs_txn_split_enabled :=
           profile_enabled && polardb_consistency_mode_uses_lsn_wait mode &&
           hp_txn_split_enabled (hc_policy cfg) |> |> in
    if negb profile_enabled &&
       (ss_has_no_write_xids s || split_active (ss_split s) ||
        has_backend_evidence (ss_split s) || txn_reader_active (ss_reader s) ||
        failure_active (ss_failure s) || sf_non_read_committed (ss_safety s) ||
        sf_local_state_changed (ss_safety s))
    then polardb_teardown_transaction_reader_state (s <| ss_has_no_write_xids := false |>)
    else s.

(** ** Manual routing *)

Record PolarDB_ManualRoute := mkManual {
  mr_scope_hg : Z;
  mr_destination_hg : Z;
  mr_replica_eligible : Z
}.

Definition is_manual (r : PolarDB_ManualRoute) : bool :=
  (mr_replica_eligible r <? 0) && (0 <=? mr_destination_hg r).

Definition polardb_manual_route (qpo : option Query_Processor_Output) (s : PgSQL_Session)
  : PolarDB_ManualRoute :=
  let route :=
    mkManual (-1)
      match qpo with Some q => qpo_destination_hostgroup q | None => -1 end
      match qpo with Some q => qpo_replica_eligible q | None => -1 end in
  if is_manual route
  then mkManual (if 0 <=? ss_persistent_hg s then ss_current_hg s else mr_destination_hg route)
         (mr_destination_hg route) (mr_replica_eligible route)
  else route.

(** ** Query cache *)

Definition polardb_query_cache_is_disabled (th : PgSQL_Thread)
    (qpo : option Query_Processor_Output) (s : PgSQL_Session) : bool :=
  if th_profile_off th then false
  else if ss_client_rfq_lsn_requested s then true
  else
    match qpo with
    | None => false
    | Some q =>
        if negb (qpo_replica_eligible q =? 1) || negb (th_is_active th) then false
        else
          let route_hg :=
            if (0 <=? qpo_destination_hostgroup q) && (ss_persistent_hg s =? -1)
            then qpo_destination_hostgroup q else ss_current_hg s in
          if route_hg <? 0 then false
          else
            match find_thread_cached_polardb_hg_config th route_hg with
            | None => false
            | Some cfg =>
                let mode :=
                  polardb_consistency_from_int
                    (polardb_resolve_consistency_mode
                       (cf_session_consistency_mode (ss_config s))
                       (hp_consistency_mode (hc_policy cfg)) (th_consistency_mode th)) in
                if (polardb_read_target_from_int (th_read_target th) == ReadTarget_PRIMARY) ||
                   (mode == Mode_PRIMARY_ONLY)
                then true
                else
                  match mode with
                  | Mode_OFF | Mode_EVENTUAL => false
                  | Mode_GLOBAL_LSN | Mode_PRIMARY_ONLY => true
                  | Mode_SESSION_LSN =>
                      (0 <? target (ss_consistency s)) ||
                      sc_write_unknown (ss_consistency s) ||
                      sc_observed_unknown (ss_consistency s)
                  end
            end
    end.

(** ** Statement words *)

(** [std::string::find(w) != npos] *)
Fixpoint starts_with (l w : list ascii) : bool :=
  match w, l with
  | [], _ => true
  | b :: w', a :: l' => Ascii.eqb a b && starts_with l' w'
  | _ :: _, [] => false
  end.

Fixpoint contains (l w : list ascii) : bool :=
  starts_with l w || match l with [] => false | _ :: r => contains r w end.

Definition polardb_normalize_query_words (query : string) : list ascii :=
  normalize_chars (chars query).

Definition polardb_normalized_mentions_non_read_committed (n : list ascii) : bool :=
  contains n (chars "repeatableread") || contains n (chars "serializable").

Definition polardb_normalized_mentions_read_committed (n : list ascii) : bool :=
  contains n (chars "readcommitted").

Definition polardb_normalized_sets_session_isolation_default (n : list ascii) : bool :=
  contains n (chars "sessioncharacteristics") ||
  contains n (chars "defaulttransactionisolation").

Definition polardb_normalized_sets_proxysql_polardb_variable (n : list ascii) : bool :=
  starts_with n (chars "setproxysqlpolardb").

Definition polardb_query_mentions_non_read_committed (query : string) : bool :=
  polardb_normalized_mentions_non_read_committed (polardb_normalize_query_words query).

(** ** Writer scope of the session positions *)

Definition polardb_activate_session_for_request (th : PgSQL_Thread) (s : PgSQL_Session)
  : PgSQL_Session :=
  let worker_generation := th_activation_generation th in
  let own := cf_activation_generation (ss_config s) in
  let generation_known :=
    negb (own =? UNREGISTERED_ACTIVATION_GENERATION) &&
    negb (worker_generation =? UNREGISTERED_ACTIVATION_GENERATION) in
  let crossed_activation := negb generation_known || negb (own =? worker_generation) in
  if cf_is_polardb_enabled (ss_config s) && negb crossed_activation then s
  else
    let s := s <| ss_config := ss_config s <| cf_is_polardb_enabled := true |> |> in
    let s :=
      if crossed_activation
      then s <| ss_consistency := ss_consistency s <| sc_write_unknown := true |> |> else s in
    if negb (worker_generation =? UNREGISTERED_ACTIVATION_GENERATION)
    then s <| ss_config := ss_config s <| cf_activation_generation := worker_generation |> |>
    else s.

Definition polardb_note_worker_activation_generation (th : option PgSQL_Thread)
    (s : PgSQL_Session) : PgSQL_Session :=
  match th with
  | Some th =>
      if cf_activation_generation (ss_config s) =? UNREGISTERED_ACTIVATION_GENERATION
      then s <| ss_config := ss_config s
                  <| cf_activation_generation := th_activation_generation th |> |>
      else s
  | None => s
  end.

Definition polardb_rebind_session_lsn_scope (writer_scope : PolarDB_WriterScope)
    (s : PgSQL_Session) : PgSQL_Session :=
  if negb (scope_valid writer_scope) then s
  else
    let had_lsn_state := has_lsn_state (ss_consistency s) in
    let scope_attached := scope_valid (sc_writer_scope (ss_consistency s)) in
    let scope_mismatch :=
      scope_attached && negb (scope_matches (sc_writer_scope (ss_consistency s)) writer_scope) in
    let unscoped_state := negb scope_attached && had_lsn_state in
    let s :=
      if scope_mismatch || unscoped_state
      then
        let s := s <| ss_has_no_write_xids := false |> in
        let has_split_scope_state :=
          split_active (ss_split s) || has_backend_evidence (ss_split s) ||
          failure_active (ss_failure s) in
        let s :=
          if had_lsn_state
          then s <| ss_consistency := reset_lsn_state (ss_consistency s) |>
                 <| ss_degraded_warning_sent := false |>
          else s in
        if has_split_scope_state then polardb_teardown_transaction_reader_state s else s
      else s in
    s <| ss_consistency := ss_consistency s <| sc_writer_scope := writer_scope |> |>.

Definition polardb_apply_request_scope_to_session_lsn (s : PgSQL_Session) : PgSQL_Session :=
  let scope := qs_request_writer_scope (ss_query s) in
  if negb (scope_valid scope) || scope_matches (sc_writer_scope (ss_consistency s)) scope
  then s else polardb_rebind_session_lsn_scope scope s.

Definition polardb_request_scope_matches_current_writer (backend_is_polar_hg : bool)
    (writer_hg writer_epoch : Z) (s : PgSQL_Session) : bool :=
  backend_is_polar_hg && (0 <=? writer_hg) &&
  scope_matches (qs_request_writer_scope (ss_query s)) (mkScope writer_hg writer_epoch).

Definition polardb_capture_request_writer_scope (th : PgSQL_Thread) (scope_hg : Z)
    (cfg : PolarDB_HG_Config) (s : PgSQL_Session) : bool * PgSQL_Session :=
  let s := s <| ss_query := ss_query s <| qs_request_writer_scope := no_scope |> |> in
  if (scope_hg <? 0) || negb (hc_is_polardb_hostgroup cfg) || (hc_writer_hostgroup cfg <? 0) ||
     (negb (scope_hg =? hc_writer_hostgroup cfg) && negb (scope_hg =? hc_reader_hostgroup cfg))
  then (false, s)
  else
    let scope := mkScope (hc_writer_hostgroup cfg) (hc_writer_epoch cfg) in
    let s := s <| ss_query := ss_query s <| qs_request_writer_scope := scope |> |> in
    let s := polardb_snapshot_request_policy th cfg s in
    let s := polardb_rebind_session_lsn_scope scope s in
    (true, polardb_activate_session_for_request th s).

(** ** Observation *)

Definition polardb_request_scope (current_hg : Z) (cfg : PolarDB_HG_Config)
  : PolarDB_WriterScope :=
  mkScope (if hc_writer_hostgroup cfg <? 0 then current_hg else hc_writer_hostgroup cfg)
    (hc_writer_epoch cfg).

(** The SET statement part. *)
Definition observe_set_statement (query : string) (s : PgSQL_Session) : PgSQL_Session :=
  let normalized := polardb_normalize_query_words query in
  let proxysql_polardb_set := polardb_normalized_sets_proxysql_polardb_variable normalized in
  let mentions_non_rc := polardb_normalized_mentions_non_read_committed normalized in
  let mentions_rc := polardb_normalized_mentions_read_committed normalized in
  let s :=
    if polardb_normalized_sets_session_isolation_default normalized
    then s <| ss_config := ss_config s
                <| cf_default_read_committed := mentions_rc && negb mentions_non_rc |> |>
    else s in
  let s := if mentions_non_rc then polardb_note_txn_non_read_committed s else s in
  if ss_in_transaction s && negb proxysql_polardb_set
  then polardb_note_txn_local_state_change s else s.

Definition polardb_observe_route_inputs (th : PgSQL_Thread) (current_hg : Z)
    (cfg : PolarDB_HG_Config) (s : PgSQL_Session) : PgSQL_Session :=
  if negb (hc_is_polardb_hostgroup cfg) then s
  else
    let scope := polardb_request_scope current_hg cfg in
    let s := polardb_snapshot_request_policy th cfg s in
    let s :=
      if scope_valid scope
      then s <| ss_query := ss_query s <| qs_request_writer_scope := scope |> |> else s in
    let s :=
      if scope_valid (qs_request_writer_scope (ss_query s))
      then polardb_rebind_session_lsn_scope scope s else s in
    let s := polardb_activate_session_for_request th s in
    let track := qs_txn_split_enabled (ss_query s) && (0 <=? hc_reader_hostgroup cfg) in
    let s := s <| ss_query := ss_query s <| qs_backend_isolation_status_needed := track |> |> in
    match ss_query_text s with
    | None => s
    | Some query =>
        if negb track then s
        else
          let s :=
            if (ss_query_cmd s == PGSQL_QUERY_BEGIN) &&
               polardb_query_mentions_non_read_committed query
            then polardb_note_txn_non_read_committed s else s in
          if ss_query_cmd s != PGSQL_QUERY_SET then s else observe_set_statement query s
    end.

(** ** The routing snapshot *)

(** The C string at the query pointer ends at its first NUL. *)
Fixpoint c_string (p : string) : string :=
  match p with
  | EmptyString => EmptyString
  | String c r => if Ascii.eqb c NUL then EmptyString else String c (c_string r)
  end.

(** A default-initialised context; only [is_polar_hg] is ever set on one. *)
Definition default_route_ctx (is_polar_hg : bool) : PolarDB_Query_RouteCtx :=
  let d := POLARDB_DEFAULT_PROFILE_DEFINITION in
  mkRouteCtx no_scope empty_consistency split_reset POLARDB_DEFAULT_WAIT_TIMEOUT_MS (-1) 0
    (read_target_to_int (pd_read_target d)) (fallback_to_int (pd_read_fallback d))
    (lsn_timeout_to_int (pd_lsn_timeout d)) (missing_lsn_to_int (pd_missing_lsn d))
    (replica_loss_to_int (pd_replica_loss d)) (replica_error_to_int (pd_replica_error d)) (-1)
    is_polar_hg false false false false false false false true true false false (-1).

Definition polardb_collect (th : PgSQL_Thread) (current_hg qpo_replica_eligible : Z)
    (qpo_force_primary_hint : bool) (cfg : PolarDB_HG_Config) (s : PgSQL_Session)
  : PolarDB_Query_RouteCtx :=
  if negb (hc_is_polardb_hostgroup cfg) then default_route_ctx false
  else
    let policy := hc_policy cfg in
    let mode_int := qs_effective_consistency_mode (ss_query s) in
    let lsn_mode :=
      polardb_consistency_mode_uses_lsn_wait (polardb_consistency_mode_or_off mode_int) in
    let txn_split_enabled := qs_txn_split_enabled (ss_query s) in
    let txn_writer_hg := forced_writer_hg (ss_failure s) in
    let replica_eligible := qpo_replica_eligible =? 1 in
    let in_transaction := ss_in_transaction s in
    let may_use_reader :=
      lsn_mode && replica_eligible &&
      (th_read_target th =? read_target_to_int ReadTarget_REPLICA) &&
      negb qpo_force_primary_hint && (negb in_transaction || txn_split_enabled) in
    let is_top_level_select := ss_query_cmd s == PGSQL_QUERY_SELECT in
    let is_multi_statement :=
      match ss_query_text s with
      | Some q => may_use_reader && polardb_query_has_multiple_statements (Some (chars q))
      | None => false
      end in
    let '(safe_read, locking_read) :=
      match ss_query_text s with
      | Some q =>
          if negb may_use_reader then (false, false)
          else if in_transaction && txn_split_enabled
          then
            let safe := is_txn_split_safe_select is_top_level_select (Some (c_string q)) in
            (safe, is_top_level_select && negb safe)
          else if negb in_transaction && is_top_level_select
          then (false, is_locking_select_query (Some (c_string q)))
          else (false, false)
      | None => (false, false)
      end in
    mkRouteCtx (polardb_request_scope current_hg cfg) (ss_consistency s)
      (polardb_transaction_split_snapshot (ss_split s))
      (polardb_resolve_wait_timeout_ms (hp_lsn_wait_timeout_ms policy)
         (th_lsn_wait_timeout_ms th))
      (hc_reader_hostgroup cfg) mode_int (th_read_target th) (th_action_read_fallback th)
      (th_action_lsn_timeout th) (th_action_missing_lsn th) (th_action_replica_loss th)
      (th_action_replica_error th) (hp_max_lag_bytes policy)
      true replica_eligible is_multi_statement (ss_extended s) in_transaction
      txn_split_enabled safe_read locking_read (polardb_txn_wait_uses_read_committed s)
      (negb (sf_local_state_changed (ss_safety s))) qpo_force_primary_hint
      (0 <=? txn_writer_hg) txn_writer_hg.

Definition polardb_observe_and_collect (th : PgSQL_Thread) (current_hg qpo_replica_eligible : Z)
    (qpo_force_primary_hint : bool) (cfg : PolarDB_HG_Config) (s : PgSQL_Session)
  : PgSQL_Session * PolarDB_Query_RouteCtx :=
  if negb (hc_is_polardb_hostgroup cfg) then (s, default_route_ctx false)
  else
    let s := s <| ss_query := reset_reader_plan (ss_query s)
                    <| qs_request_writer_scope := no_scope |> |> in
    let s := polardb_reconcile_txn_wait_read_request_entry s in
    let s := polardb_observe_route_inputs th current_hg cfg s in
    if th_profile_off th
    then (s, default_route_ctx true)
    else (s, polardb_collect th current_hg qpo_replica_eligible qpo_force_primary_hint cfg s).

(** ** Theorems *)

Lemma scope_matches_eq a b :
  scope_matches a b = true <-> a = b /\ scope_valid a = true.
Proof.
  unfold scope_matches, scope_valid. destruct a as [h e], b as [h' e']. cbn. split.
  - intros H. bool_to_prop. subst. split; [done|]. by apply Z.leb_le.
  - intros [[= -> ->] H]. by rewrite H, !Z.eqb_refl.
Qed.

Lemma teardown_keeps_consistency s :
  ss_consistency (polardb_teardown_transaction_reader_state s) = ss_consistency s /\
  ss_query (polardb_teardown_transaction_reader_state s) =
    ss_query (polardb_release_txn_reader_backend s) /\
  ss_config (polardb_teardown_transaction_reader_state s) = ss_config s.
Proof.
  unfold polardb_teardown_transaction_reader_state, polardb_release_txn_reader_backend.
  destruct s as [? ? [] ? ? ? ? ? [bk ? pb sa wr ? ? ? ? ? ? ? ?] ? ? ? ? ? ? ? ? ? ? ?]; cbn.
  destruct bk; [|done]. unfold txn_reader_active. cbn. destruct sa, wr, pb; cbn; auto.
Qed.

(** What rebinding does to the positions. *)
Lemma rebind_consistency scope s :
  scope_valid scope = true ->
  ss_consistency (polardb_rebind_session_lsn_scope scope s) =
  (if scope_matches (sc_writer_scope (ss_consistency s)) scope then ss_consistency s
   else mkConsistency 0 0 false false scope).
Proof.
  intros Hv. unfold polardb_rebind_session_lsn_scope. rewrite Hv. cbn [negb].
  destruct (scope_matches (sc_writer_scope (ss_consistency s)) scope) eqn:Hm.
  - apply scope_matches_eq in Hm as [He Hsv]. rewrite Hsv. cbn.
    destruct s as [[] ? ? ? ? ? ? ? ? ? ? ? ? ? ? ? ? ? ? ?]; cbn in *. by subst.
  - destruct s as [[w o wu ou sc] ? ? ? ? ? ? ? ? ? ? ? ? ? ? ? ? ? ? ?]. cbn in *.
    destruct (has_lsn_state _) eqn:Hh.
    + destruct (scope_valid sc); cbn [negb andb orb]; simpl_upd; case_if; simpl_upd;
        rewrite ?(proj1 (teardown_keeps_consistency _)); reflexivity.
    + unfold has_lsn_state in Hh. cbn in Hh. bool_to_prop. subst.
      destruct (scope_valid sc); cbn; [|done].
      case_if; simpl_upd; rewrite ?(proj1 (teardown_keeps_consistency _)); reflexivity.
Qed.

(** The request fields that scope changes and reader teardown leave alone. *)
Definition same_request (q q' : PolarDB_QueryState) : Prop :=
  qs_request_writer_scope q' = qs_request_writer_scope q /\
  qs_effective_consistency_mode q' = qs_effective_consistency_mode q /\
  qs_profile_enabled q' = qs_profile_enabled q /\
  qs_txn_split_enabled q' = qs_txn_split_enabled q /\
  qs_keep_session_lsn q' = qs_keep_session_lsn q /\
  qs_wait q' = qs_wait q /\ qs_wait_bypass_target q' = qs_wait_bypass_target q.

Lemma same_request_refl q : same_request q q.
Proof. by repeat split. Qed.

Lemma release_keeps_request s :
  same_request (ss_query s) (ss_query (polardb_release_txn_reader_backend s)).
Proof.
  unfold polardb_release_txn_reader_backend.
  destruct s as [? ? [] ? ? ? ? ? [bk ? pb sa wr ? ? ? ? ? ? ? ?] ? ? ? ? ? ? ? ? ? ? ?]; cbn.
  destruct bk; [|apply same_request_refl]. unfold txn_reader_active. cbn.
  destruct sa, wr, pb; cbn; by repeat split.
Qed.

Lemma teardown_keeps_request s :
  same_request (ss_query s) (ss_query (polardb_teardown_transaction_reader_state s)).
Proof.
  destruct (teardown_keeps_consistency s) as (_&->&_). apply release_keeps_request.
Qed.

Lemma rebind_keeps_request scope s :
  same_request (ss_query s) (ss_query (polardb_rebind_session_lsn_scope scope s)) /\
  ss_config (polardb_rebind_session_lsn_scope scope s) = ss_config s.
Proof.
  unfold polardb_rebind_session_lsn_scope. case_if; [split; [apply same_request_refl|done]|].
  cbn zeta. simpl_upd. case_if; [|simpl_upd; split; [apply same_request_refl|done]].
  repeat (case_if; simpl_upd); try (split; [apply same_request_refl|done]);
    match goal with |- context [polardb_teardown_transaction_reader_state ?x] =>
      pose proof (teardown_keeps_request x) as Hq;
      pose proof (proj2 (proj2 (teardown_keeps_consistency x))) as Hc end;
    destruct s; cbn in *; auto.
Qed.

Lemma snapshot_policy_fields th cfg s :
  hc_is_polardb_hostgroup cfg = true ->
  let s' := polardb_snapshot_request_policy th cfg s in
  let mode := polardb_effective_consistency_mode_for_session th (hc_policy cfg) s in
  ss_consistency s' = ss_consistency s /\ ss_config s' = ss_config s /\
  qs_request_writer_scope (ss_query s') = qs_request_writer_scope (ss_query s) /\
  qs_profile_enabled (ss_query s') = negb (th_profile_off th) /\
  qs_effective_consistency_mode (ss_query s') = mode /\
  qs_txn_split_enabled (ss_query s') =
    negb (th_profile_off th) &&
    polardb_consistency_mode_uses_lsn_wait (polardb_consistency_from_int mode) &&
    hp_txn_split_enabled (hc_policy cfg).
Proof.
  intros Hp. cbn zeta. unfold polardb_snapshot_request_policy. rewrite Hp. cbn [negb].
  cbn zeta. case_if; [|simpl_upd; done].
  match goal with |- context [polardb_teardown_transaction_reader_state ?x] =>
    pose proof (teardown_keeps_request x) as (Hq1&Hq2&Hq3&Hq4&_);
    destruct (teardown_keeps_consistency x) as (Hc1&_&Hc2) end.
  rewrite Hc1, Hc2, Hq1, Hq2, Hq3, Hq4. simpl_upd. done.
Qed.

(** A session crosses an activation unless its own generation is known and is
    the worker's. *)
Definition crossed_activation (th : PgSQL_Thread) (s : PgSQL_Session) : bool :=
  negb (negb (cf_activation_generation (ss_config s) =? UNREGISTERED_ACTIVATION_GENERATION) &&
        negb (th_activation_generation th =? UNREGISTERED_ACTIVATION_GENERATION)) ||
  negb (cf_activation_generation (ss_config s) =? th_activation_generation th).

Lemma activate_fields th s :
  let s' := polardb_activate_session_for_request th s in
  ss_query s' = ss_query s /\ cf_is_polardb_enabled (ss_config s') = true /\
  ss_consistency s' =
    ss_consistency s <| sc_write_unknown :=
      crossed_activation th s || sc_write_unknown (ss_consistency s) |>.
Proof.
  cbn zeta. unfold polardb_activate_session_for_request. fold (crossed_activation th s).
  destruct s as [[? ? wu ? ?] ? ? ? [en ? ? ? ? ?] ? ? ? ? ? ? ? ? ? ? ? ? ? ? ?].
  destruct (crossed_activation th _) eqn:E; cbn; destruct en; cbn; repeat case_if; cbn; auto.
Qed.

Lemma observe_set_keeps q s :
  ss_consistency (observe_set_statement q s) = ss_consistency s /\
  ss_query (observe_set_statement q s) = ss_query s /\
  cf_is_polardb_enabled (ss_config (observe_set_statement q s)) =
    cf_is_polardb_enabled (ss_config s).
Proof.
  unfold observe_set_statement, polardb_note_txn_non_read_committed,
    polardb_note_txn_local_state_change. cbn zeta.
  destruct s as [? ? ? ? [] [] ? ? ? ? ? ? ? ? ? ? ? ? ? ?].
  repeat (case_if; cbn); auto.
Qed.

(** The state after the part of the observation that does not read the
    statement. *)
Lemma observe_fields th hg cfg s :
  hc_is_polardb_hostgroup cfg = true -> 0 <= hc_writer_hostgroup cfg ->
  let s' := polardb_observe_route_inputs th hg cfg s in
  let scope := mkScope (hc_writer_hostgroup cfg) (hc_writer_epoch cfg) in
  qs_request_writer_scope (ss_query s') = scope /\
  cf_is_polardb_enabled (ss_config s') = true /\
  qs_profile_enabled (ss_query s') = negb (th_profile_off th) /\
  qs_effective_consistency_mode (ss_query s') =
    polardb_effective_consistency_mode_for_session th (hc_policy cfg) s /\
  ss_consistency s' =
    (if scope_matches (sc_writer_scope (ss_consistency s)) scope then ss_consistency s
     else mkConsistency 0 0 false false scope)
    <| sc_write_unknown :=
         crossed_activation th s ||
         scope_matches (sc_writer_scope (ss_consistency s)) scope &&
         sc_write_unknown (ss_consistency s) |>.
Proof.
  intros Hp Hw. cbn zeta. unfold polardb_observe_route_inputs. rewrite Hp. cbn [negb].
  unfold polardb_request_scope. rewrite (proj2 (Z.ltb_ge _ _) Hw). cbn zeta.
  set (scope := mkScope _ _).
  assert (scope_valid scope = true) as Hsv by (unfold scope_valid; cbn; by apply Z.leb_le).
  rewrite Hsv.
  destruct (snapshot_policy_fields th cfg s Hp) as (Hc&Hcf&_&Hpe&Hm&_).
  set (s1 := polardb_snapshot_request_policy th cfg s) in *.
  set (s2 := s1 <| ss_query := _ |>).
  assert (ss_consistency s2 = ss_consistency s /\ ss_config s2 = ss_config s /\
    qs_request_writer_scope (ss_query s2) = scope /\
    qs_profile_enabled (ss_query s2) = negb (th_profile_off th) /\
    qs_effective_consistency_mode (ss_query s2) =
      polardb_effective_consistency_mode_for_session th (hc_policy cfg) s) as (H1&H2&H3&H4&H5)
    by (subst s2; simpl_upd; auto).
  clearbody s2. clear s1 Hc Hcf Hpe Hm. rewrite H3, Hsv.
  destruct (rebind_keeps_request scope s2) as [(R1&R2&R3&_) Rc].
  pose proof (rebind_consistency scope s2 Hsv) as Rs.
  set (s3 := polardb_rebind_session_lsn_scope scope s2) in *.
  destruct (activate_fields th s3) as (A1&A2&A3).
  assert (crossed_activation th s3 = crossed_activation th s) as Hcr
    by (unfold crossed_activation; by rewrite Rc, H2).
  set (s4 := polardb_activate_session_for_request th s3) in *.
  assert (Hfin : forall s5, ss_consistency s5 = ss_consistency s4 ->
    qs_request_writer_scope (ss_query s5) = qs_request_writer_scope (ss_query s4) ->
    qs_profile_enabled (ss_query s5) = qs_profile_enabled (ss_query s4) ->
    qs_effective_consistency_mode (ss_query s5) = qs_effective_consistency_mode (ss_query s4) ->
    cf_is_polardb_enabled (ss_config s5) = cf_is_polardb_enabled (ss_config s4) ->
    qs_request_writer_scope (ss_query s5) = scope /\
    cf_is_polardb_enabled (ss_config s5) = true /\
    qs_profile_enabled (ss_query s5) = negb (th_profile_off th) /\
    qs_effective_consistency_mode (ss_query s5) =
      polardb_effective_consistency_mode_for_session th (hc_policy cfg) s /\
    ss_consistency s5 =
      (if scope_matches (sc_writer_scope (ss_consistency s)) scope then ss_consistency s
       else mkConsistency 0 0 false false scope)
      <| sc_write_unknown :=
           crossed_activation th s ||
           scope_matches (sc_writer_scope (ss_consistency s)) scope &&
           sc_write_unknown (ss_consistency s) |>).
  { intros s5 -> -> -> -> ->. rewrite A1, A2, A3, Hcr, Rs, H1. split_and!; try congruence.
    by destruct (scope_matches (sc_writer_scope (ss_consistency s)) scope). }
  clearbody s4. clear - Hfin.
  destruct (ss_query_text _) as [q|]; repeat case_if; simpl_upd;
    try match goal with |- context [observe_set_statement ?q ?x] =>
      destruct (observe_set_keeps q x) as (O1&O2&O3); rewrite ?O1, ?O2, ?O3 end;
    apply Hfin; unfold polardb_note_txn_non_read_committed; simpl_upd; try done.
Qed.

Lemma reconcile_entry_keeps s :
  let s' := polardb_reconcile_txn_wait_read_request_entry s in
  ss_consistency s' = ss_consistency s /\ ss_config s' = ss_config s.
Proof.
  cbn zeta. unfold polardb_reconcile_txn_wait_read_request_entry,
    polardb_reconcile_txn_wait_read_end, polardb_release_txn_wait_read,
    polardb_release_txn_reader_backend.
  destruct s as [? ? [] ? ? ? ? ? [bk ? pb sa wr ? ? ? ? ? ? ? ?] ? ? ? ? ? ? ? ? ? ? ?]; cbn.
  destruct wr; [|done]. cbn. destruct bk; [|done]. unfold txn_reader_active. cbn.
  destruct sa, pb; cbn; auto.
Qed.

Lemma collect_session th hg el hint cfg s :
  hc_is_polardb_hostgroup cfg = true -> 0 <= hc_writer_hostgroup cfg ->
  rc_session (polardb_collect th hg el hint cfg s) = ss_consistency s /\
  rc_writer_scope (polardb_collect th hg el hint cfg s) =
    mkScope (hc_writer_hostgroup cfg) (hc_writer_epoch cfg) /\
  rc_effective_consistency_mode (polardb_collect th hg el hint cfg s) =
    qs_effective_consistency_mode (ss_query s) /\
  rc_in_transaction (polardb_collect th hg el hint cfg s) = ss_in_transaction s.
Proof.
  intros Hp Hw. unfold polardb_collect. rewrite Hp. cbn [negb].
  unfold polardb_request_scope. rewrite (proj2 (Z.ltb_ge _ _) Hw). cbn zeta.
  destruct (ss_query_text s); repeat case_if; done.
Qed.

Lemma collect_split th hg el hint cfg s :
  hc_is_polardb_hostgroup cfg = true ->
  rc_transaction_split (polardb_collect th hg el hint cfg s) = ss_split s.
Proof.
  intros Hp. unfold polardb_collect. rewrite Hp. cbn [negb].
  destruct (ss_query_text s); repeat case_if; by destruct (ss_split s).
Qed.

Lemma observe_and_collect_fields th hg el hint cfg s :
  hc_is_polardb_hostgroup cfg = true -> 0 <= hc_writer_hostgroup cfg ->
  th_profile_off th = false ->
  let '(s', ctx) := polardb_observe_and_collect th hg el hint cfg s in
  let scope := mkScope (hc_writer_hostgroup cfg) (hc_writer_epoch cfg) in
  rc_writer_scope ctx = scope /\ qs_request_writer_scope (ss_query s') = scope /\
  cf_is_polardb_enabled (ss_config s') = true /\
  qs_profile_enabled (ss_query s') = true /\
  rc_effective_consistency_mode ctx =
    polardb_effective_consistency_mode_for_session th (hc_policy cfg) s /\
  rc_session ctx = ss_consistency s' /\
  ss_consistency s' =
    (if scope_matches (sc_writer_scope (ss_consistency s)) scope then ss_consistency s
     else mkConsistency 0 0 false false scope)
    <| sc_write_unknown :=
         crossed_activation th s ||
         scope_matches (sc_writer_scope (ss_consistency s)) scope &&
         sc_write_unknown (ss_consistency s) |>.
Proof.
  intros Hp Hw Hoff. unfold polardb_observe_and_collect. rewrite Hp, Hoff. cbn [negb]. cbn zeta.
  set (s1 := s <| ss_query := _ |>).
  assert (ss_consistency s1 = ss_consistency s /\ ss_config s1 = ss_config s) as [H1 H2]
    by (subst s1; simpl_upd; auto).
  clearbody s1.
  destruct (reconcile_entry_keeps s1) as [H3 H4].
  set (s2 := polardb_reconcile_txn_wait_read_request_entry s1) in *.
  destruct (observe_fields th hg cfg s2 Hp Hw) as (O1&O2&O3&O4&O5).
  destruct (collect_session th hg el hint cfg (polardb_observe_route_inputs th hg cfg s2) Hp Hw)
    as (C1&C2&C3&_).
  assert (crossed_activation th s2 = crossed_activation th s) as Hcr
    by (unfold crossed_activation; by rewrite H4, H2).
  assert (polardb_effective_consistency_mode_for_session th (hc_policy cfg) s2 =
    polardb_effective_consistency_mode_for_session th (hc_policy cfg) s) as Hmo
    by (unfold polardb_effective_consistency_mode_for_session; by rewrite H4, H2).
  rewrite H3, H1, Hcr in O5. rewrite Hoff in O3. split_and!; auto; congruence.
Qed.

(** C31: A request only ever sees positions of its own writer timeline.  After
    observing the hostgroup's current writer and epoch, the routing snapshot
    carries exactly that scope, the request and the session are bound to it,
    and the session's positions are the ones it already had under that scope;
    positions of another writer or epoch are gone, never reused.  Unknown flags
    survive within the scope, and a session that lived through a topology
    activation it may have written under starts with its write position
    unknown. *)
Theorem collected_positions_belong_to_scope th hg el hint cfg s :
  hc_is_polardb_hostgroup cfg = true -> 0 <= hc_writer_hostgroup cfg ->
  th_profile_off th = false ->
  let '(s', ctx) := polardb_observe_and_collect th hg el hint cfg s in
  let scope := mkScope (hc_writer_hostgroup cfg) (hc_writer_epoch cfg) in
  let old := ss_consistency s in
  let new := rc_session ctx in
  rc_writer_scope ctx = scope /\ qs_request_writer_scope (ss_query s') = scope /\
  sc_writer_scope new = scope /\ ss_consistency s' = new /\
  (sc_writer_scope old = scope ->
     sc_write_lsn new = sc_write_lsn old /\ sc_observed_lsn new = sc_observed_lsn old /\
     sc_observed_unknown new = sc_observed_unknown old /\
     (sc_write_unknown old = true -> sc_write_unknown new = true)) /\
  (sc_writer_scope old <> scope -> sc_write_lsn new = 0 /\ sc_observed_lsn new = 0) /\
  (crossed_activation th s = true -> sc_write_unknown new = true).
Proof.
  intros Hp Hw Hoff. pose proof (observe_and_collect_fields th hg el hint cfg s Hp Hw Hoff) as H.
  destruct (polardb_observe_and_collect th hg el hint cfg s) as [s' ctx]. cbn zeta in *.
  destruct H as (F1&F2&_&_&_&F5&F6). set (scope := mkScope _ _) in *.
  assert (scope_valid scope = true) as Hsv by (unfold scope_valid; cbn; by apply Z.leb_le).
  split; [done|]. split; [done|]. rewrite F5, F6. simpl_upd.
  destruct (scope_matches (sc_writer_scope (ss_consistency s)) scope) eqn:Hm.
  - apply scope_matches_eq in Hm as [Heq _]. split_and!; try done.
    + intros _. split_and!; try done. intros ->. by rewrite orb_true_r.
    + by intros ->.
  - split_and!; try done; [|by intros ->].
    intros Heq. rewrite Heq in Hm. exfalso.
    by rewrite (proj2 (scope_matches_eq scope scope) (conj eq_refl Hsv)) in Hm.
Qed.

(** A worker on the session_fallback profile, and a session that wrote at 800
    under writer 10, epoch 3. *)
Definition sample_thread : PgSQL_Thread :=
  mkThread false (mode_to_int Mode_SESSION_LSN) (read_target_to_int ReadTarget_REPLICA)
    (fallback_to_int Fallback_PRIMARY) 1000 (lsn_timeout_to_int LsnTimeout_PRIMARY)
    (missing_lsn_to_int MissingLsn_PRIMARY)
    (replica_loss_to_int ReplicaLoss_REPLICA_THEN_PRIMARY)
    (replica_error_to_int ReplicaError_PRIMARY) 0 2 0 1 true 7
    (Some (<[10 := sample_hg_config]> {[20 := sample_hg_config]})).

Definition sample_live_config : PolarDB_HG_Config := sample_hg_config <| hc_writer_epoch := 3 |>.

Definition sample_writer_session : PgSQL_Session :=
  new_session <| ss_consistency := mkConsistency 800 750 false false (mkScope 10 3) |>
    <| ss_config := default_session_config <| cf_activation_generation := 7 |> |>
    <| ss_mybe := Some 10 |> <| ss_current_hg := 10 |>
    <| ss_query_text := Some "SELECT 1" |> <| ss_query_cmd := PGSQL_QUERY_SELECT |>.

Lemma collected_positions_belong_to_scope_witness :
  let '(s', ctx) :=
    polardb_observe_and_collect sample_thread 10 1 false sample_live_config
      sample_writer_session in
  rc_writer_scope ctx = mkScope 10 3 /\ sc_write_lsn (rc_session ctx) = 800.
Proof.
  pose proof (collected_positions_belong_to_scope sample_thread 10 1 false sample_live_config
    sample_writer_session eq_refl ltac:(vm_compute; congruence) eq_refl) as H.
  destruct (polardb_observe_and_collect _ _ _ _ _ _) as [s' ctx].
  destruct H as (H1&_&_&_&H2&_). split; [exact H1|]. by apply H2.
Defined.

(** The transaction knowledge is kept or dropped as a whole. *)
Definition split_kept (s s' : PgSQL_Session) : Prop :=
  ss_split s' = ss_split s \/ ss_split s' = split_reset.

Lemma split_kept_trans a b c : split_kept a b -> split_kept b c -> split_kept a c.
Proof. unfold split_kept. intros [H1|H1] [H2|H2]; rewrite H2; auto. Qed.

Lemma release_split s : ss_split (polardb_release_txn_reader_backend s) = ss_split s.
Proof.
  unfold polardb_release_txn_reader_backend.
  destruct s as [? ? [] ? ? ? ? ? [bk ? pb sa wr ? ? ? ? ? ? ? ?] ? ? ? ? ? ? ? ? ? ? ?]; cbn.
  destruct bk; [|done]. unfold txn_reader_active. cbn. destruct sa, wr, pb; done.
Qed.

Lemma teardown_split s : ss_split (polardb_teardown_transaction_reader_state s) = split_reset.
Proof. unfold polardb_teardown_transaction_reader_state. by simpl_upd. Qed.

Lemma snapshot_policy_split th cfg s : split_kept s (polardb_snapshot_request_policy th cfg s).
Proof.
  unfold polardb_snapshot_request_policy, split_kept. case_if; [auto|]. cbn zeta.
  case_if; [right; apply teardown_split|]. left. by simpl_upd.
Qed.

Lemma rebind_split scope s : split_kept s (polardb_rebind_session_lsn_scope scope s).
Proof.
  unfold polardb_rebind_session_lsn_scope, split_kept. case_if; [auto|]. cbn zeta. simpl_upd.
  case_if; [|by left; simpl_upd].
  repeat (case_if; simpl_upd); rewrite ?teardown_split; auto.
Qed.

Lemma activate_split th s : ss_split (polardb_activate_session_for_request th s) = ss_split s.
Proof.
  unfold polardb_activate_session_for_request. cbn zeta. case_if; [done|].
  case_if; case_if; by simpl_upd.
Qed.

Lemma observe_set_split q s : ss_split (observe_set_statement q s) = ss_split s.
Proof.
  unfold observe_set_statement, polardb_note_txn_non_read_committed,
    polardb_note_txn_local_state_change. cbn zeta. repeat case_if; by simpl_upd.
Qed.

Lemma observe_split th hg cfg s : split_kept s (polardb_observe_route_inputs th hg cfg s).
Proof.
  unfold polardb_observe_route_inputs. case_if; [by left|]. cbn zeta.
  pose proof (snapshot_policy_split th cfg s) as H1.
  set (s1 := polardb_snapshot_request_policy th cfg s) in *. clearbody s1.
  apply (split_kept_trans s s1); [done|].
  set (s2 := if scope_valid _ then s1 <| ss_query := _ |> else s1).
  assert (ss_split s2 = ss_split s1) as H2 by (subst s2; case_if; by simpl_upd).
  apply (split_kept_trans s1 s2); [by left|]. clearbody s2.
  set (s3 := if scope_valid (qs_request_writer_scope (ss_query s2)) then _ else s2).
  assert (split_kept s2 s3) as H3 by (subst s3; case_if; [apply rebind_split|by left]).
  apply (split_kept_trans s2 s3); [done|]. clearbody s3. left.
  destruct (ss_query_text _); repeat case_if; simpl_upd; rewrite ?observe_set_split;
    unfold polardb_note_txn_non_read_committed; simpl_upd; apply activate_split.
Qed.

Lemma reconcile_split s :
  ss_split (polardb_reconcile_txn_wait_read_request_entry s) = ss_split s.
Proof.
  unfold polardb_reconcile_txn_wait_read_request_entry, polardb_reconcile_txn_wait_read_end,
    polardb_release_txn_wait_read.
  repeat (case_if; try done); apply release_split.
Qed.

Lemma observe_and_collect_split th hg el hint cfg s :
  hc_is_polardb_hostgroup cfg = true -> th_profile_off th = false ->
  let '(s', ctx) := polardb_observe_and_collect th hg el hint cfg s in
  split_kept s s' /\ rc_transaction_split ctx = ss_split s' /\
  rc_is_polar_hg ctx = true /\ rc_reader_hg ctx = hc_reader_hostgroup cfg.
Proof.
  intros Hp Hoff. unfold polardb_observe_and_collect. rewrite Hp, Hoff. cbn [negb]. cbn zeta.
  rewrite collect_split by done. split_and!; try done.
  - eapply split_kept_trans; [|apply observe_split]. left. rewrite reconcile_split. by simpl_upd.
  - unfold polardb_collect. rewrite Hp. cbn [negb].
    destruct (ss_query_text _); repeat case_if; done.
  - unfold polardb_collect. rewrite Hp. cbn [negb].
    destruct (ss_query_text _); repeat case_if; done.
Qed.

(** Observing a request neither starts nor ends a transaction. *)
Definition same_tx (s s' : PgSQL_Session) : Prop := ss_in_transaction s' = ss_in_transaction s.

Lemma release_tx s : same_tx s (polardb_release_txn_reader_backend s).
Proof.
  unfold same_tx, polardb_release_txn_reader_backend.
  destruct s as [? ? [] ? ? ? ? ? [bk ? pb sa wr ? ? ? ? ? ? ? ?] ? ? ? ? ? ? ? ? ? ? ?]; cbn.
  destruct bk; [|done]. unfold txn_reader_active. cbn. destruct sa, wr, pb; done.
Qed.

Lemma teardown_tx s : same_tx s (polardb_teardown_transaction_reader_state s).
Proof.
  unfold polardb_teardown_transaction_reader_state, same_tx. simpl_upd. apply release_tx.
Qed.

Lemma snapshot_policy_tx th cfg s : same_tx s (polardb_snapshot_request_policy th cfg s).
Proof.
  unfold polardb_snapshot_request_policy, same_tx. case_if; [done|]. cbn zeta.
  case_if; [etrans; [apply teardown_tx|]|]; by simpl_upd.
Qed.

Lemma rebind_tx scope s : same_tx s (polardb_rebind_session_lsn_scope scope s).
Proof.
  unfold polardb_rebind_session_lsn_scope, same_tx. case_if; [done|]. cbn zeta. simpl_upd.
  case_if; [|by simpl_upd].
  repeat (case_if; simpl_upd); rewrite ?teardown_tx; by simpl_upd.
Qed.

Lemma activate_tx th s : same_tx s (polardb_activate_session_for_request th s).
Proof.
  unfold polardb_activate_session_for_request, same_tx. cbn zeta. case_if; [done|].
  case_if; case_if; by simpl_upd.
Qed.

Lemma observe_set_tx q s : same_tx s (observe_set_statement q s).
Proof.
  unfold observe_set_statement, polardb_note_txn_non_read_committed,
    polardb_note_txn_local_state_change, same_tx. cbn zeta. repeat case_if; by simpl_upd.
Qed.

Lemma observe_tx th hg cfg s : same_tx s (polardb_observe_route_inputs th hg cfg s).
Proof.
  unfold polardb_observe_route_inputs, same_tx. case_if; [done|]. cbn zeta.
  destruct (ss_query_text _); repeat case_if; simpl_upd; rewrite ?observe_set_tx;
    unfold polardb_note_txn_non_read_committed; simpl_upd; rewrite ?activate_tx;
    rewrite ?rebind_tx; simpl_upd; apply snapshot_policy_tx.
Qed.

Lemma reconcile_tx s : same_tx s (polardb_reconcile_txn_wait_read_request_entry s).
Proof.
  unfold polardb_reconcile_txn_wait_read_request_entry, polardb_reconcile_txn_wait_read_end,
    polardb_release_txn_wait_read, same_tx.
  repeat (case_if; try done); apply release_tx.
Qed.

Lemma observe_and_collect_tx th hg el hint cfg s :
  hc_is_polardb_hostgroup cfg = true -> 0 <= hc_writer_hostgroup cfg ->
  th_profile_off th = false ->
  rc_in_transaction (polardb_observe_and_collect th hg el hint cfg s).2 = ss_in_transaction s.
Proof.
  intros Hp Hw Hoff. unfold polardb_observe_and_collect. rewrite Hp, Hoff. cbn [negb snd]. cbn zeta.
  destruct (collect_session th hg el hint cfg (polardb_observe_route_inputs th hg cfg
    (polardb_reconcile_txn_wait_read_request_entry
       (s <| ss_query := reset_reader_plan (ss_query s) <| qs_request_writer_scope := no_scope |> |>)))
    Hp Hw) as (_&_&_&->).
  etrans; [apply observe_tx|]. etrans; [apply reconcile_tx|]. by simpl_upd.
Qed.

(** The hostgroup the cache check looks at. *)
Definition cache_route_hg (q : Query_Processor_Output) (s : PgSQL_Session) : Z :=
  if (0 <=? qpo_destination_hostgroup q) && (ss_persistent_hg s =? -1)
  then qpo_destination_hostgroup q else ss_current_hg s.

Lemma cache_kept_mode th q s cfg :
  polardb_query_cache_is_disabled th (Some q) s = false ->
  th_profile_off th = false -> th_is_active th = true -> qpo_replica_eligible q = 1 ->
  0 <= cache_route_hg q s ->
  find_thread_cached_polardb_hg_config th (cache_route_hg q s) = Some cfg ->
  let mode := polardb_consistency_from_int
                (polardb_effective_consistency_mode_for_session th (hc_policy cfg) s) in
  mode = Mode_OFF \/ mode = Mode_EVENTUAL \/
  (mode = Mode_SESSION_LSN /\ target (ss_consistency s) <= 0 /\
   sc_write_unknown (ss_consistency s) = false /\
   sc_observed_unknown (ss_consistency s) = false).
Proof.
  unfold polardb_query_cache_is_disabled, polardb_effective_consistency_mode_for_session.
  intros H Hoff Hact Hel Hhg Hcfg. fold (cache_route_hg q s) in H.
  rewrite Hoff, Hact, Hel, (proj2 (Z.ltb_ge _ _) Hhg), Hcfg in H. rewrite Hoff.
  destruct (ss_client_rfq_lsn_requested s); [done|]. cbn [negb orb Z.eqb Pos.eqb] in H.
  destruct (polardb_read_target_from_int _ == ReadTarget_PRIMARY); [done|]. cbn [orb] in H.
  cbn zeta. destruct (polardb_consistency_from_int _); try case_if_in H; auto; try discriminate.
  right; right. bool_to_prop. auto.
Qed.

(** C39: The query cache never short-cuts a wait.  When the cache stays enabled
    for an automatic PolarDB read outside a transaction, and the planner then
    observes and collects the same request, with any hint, it neither waits for
    a position nor splits a transaction; and in an LSN mode nothing has to be
    protected: the required position is 0, and a position is unknown only if this
    very observation finds that the session crossed a topology activation, which
    the cache check does not look at. *)
Theorem cache_never_hides_a_wait th q s cfg m gap hint :
  hgm_inv m -> 0 <= sc_write_lsn (ss_consistency s) -> 0 <= sc_observed_lsn (ss_consistency s) ->
  0 <= ts_primary_lsn (ss_split s) ->
  polardb_query_cache_is_disabled th (Some q) s = false ->
  th_profile_off th = false -> th_is_active th = true -> qpo_replica_eligible q = 1 ->
  0 <= cache_route_hg q s ->
  find_thread_cached_polardb_hg_config th (cache_route_hg q s) = Some cfg ->
  hc_is_polardb_hostgroup cfg = true -> 0 <= hc_writer_hostgroup cfg ->
  ss_in_transaction s = false ->
  let ctx := (polardb_observe_and_collect th (cache_route_hg q s) 1 hint cfg s).2 in
  pl_action (polardb_plan gap m ctx) <> REPLICA_WITH_WAIT /\
  pl_action (polardb_plan gap m ctx) <> REPLICA_TXN_SPLIT /\
  (polardb_consistency_mode_uses_lsn_wait (plan_mode ctx) = true ->
     required_lsn m ctx = 0 /\ session_unknown ctx = crossed_activation th s).
Proof.
  intros Hm Hw Ho Hpl Hc Hoff Hact Hel Hhg Hcfg Hp Hwhg Htx. cbn zeta.
  pose proof (observe_and_collect_fields th (cache_route_hg q s) 1 hint cfg s Hp Hwhg Hoff) as Hf.
  pose proof (observe_and_collect_split th (cache_route_hg q s) 1 hint cfg s Hp Hoff) as Hs.
  pose proof (observe_and_collect_tx th (cache_route_hg q s) 1 hint cfg s Hp Hwhg Hoff) as Hi.
  destruct (polardb_observe_and_collect _ _ _ _ _ _) as [s' ctx]. cbn zeta in Hf.
  cbn [snd] in *. destruct Hf as (_&_&_&_&Hmode&Hses&Hcons), Hs as (Hk&Hsp&_).
  assert (Hlsns : sc_write_lsn (rc_session ctx) <= sc_write_lsn (ss_consistency s) /\
    sc_observed_lsn (rc_session ctx) <= sc_observed_lsn (ss_consistency s) /\
    0 <= sc_write_lsn (rc_session ctx) /\ 0 <= sc_observed_lsn (rc_session ctx)).
  { rewrite Hses, Hcons. case_if; simpl_upd; cbn; lia. }
  assert (ctx_wf ctx) as Hwf.
  { split; [lia|lia|]. rewrite Hsp. by destruct Hk as [->| ->]. }
  pose proof (plan_policy gap m ctx Hwf Hm) as Hpol.
  assert (Hno : polardb_consistency_mode_uses_lsn_wait (plan_mode ctx) = true ->
    required_lsn m ctx = 0 /\ session_unknown ctx = crossed_activation th s).
  { unfold plan_mode. rewrite Hmode. intros Hlsn. case_if_in Hlsn; [|done].
    destruct (cache_kept_mode th q s cfg Hc Hoff Hact Hel Hhg Hcfg) as [E1|[E1|(E1&Ht&Hu1&Hu2)]];
      rewrite E1 in Hlsn; try done. split.
    - rewrite required_lsn_session by (unfold plan_mode; by rewrite Hmode, E, E1).
      rewrite target_is_max in *. lia.
    - unfold session_unknown. rewrite Hses, Hcons. case_if; simpl_upd; cbn;
        rewrite ?Hu1, ?Hu2, ?andb_false_r, ?orb_false_r; done. }
  split_and!; [| |done];
    intros Ha; destruct Hpol
    as [p ? Hx ? ?|p [Hx|Hx] ? ? ? ?|p ? Hx ? ?|p Hx ?|p ? ? ? Hx ? ?|p ? ? ? ? Hx ? ?
       |p [? Hl ? ? ?] ? Hr ? Hx ? ? ? ?|p ? ? ? ? ? ? Hx ? ?
       |p ? ? Hin ? ? ? ? ? ? ? ? ? ? ? Hx ? ? ? ? ?];
    try congruence. apply Hno in Hl as [? _]. lia.
Qed.

Definition sample_cached_session : PgSQL_Session :=
  sample_writer_session <| ss_consistency := mkConsistency 0 0 false false (mkScope 10 3) |>
    <| ss_client_rfq_lsn_requested := false |>.

Lemma cache_never_hides_a_wait_witness :
  let ctx := (polardb_observe_and_collect sample_thread 10 1 false sample_hg_config
                sample_cached_session).2 in
  pl_action (polardb_plan 0 sample_hgm ctx) <> REPLICA_WITH_WAIT /\
  pl_action (polardb_plan 0 sample_hgm ctx) = PASSTHROUGH /\
  plan_mode ctx = Mode_SESSION_LSN /\ session_unknown ctx = false.
Proof.
  cbn zeta. split; [|by vm_compute].
  apply (cache_never_hides_a_wait sample_thread (mkQpo 1 10 false) sample_cached_session
    sample_hg_config sample_hgm 0 false sample_hgm_inv);
    try reflexivity; vm_compute; congruence.
Defined.

(** The cache check does not see that the session crossed an activation: it
    leaves the cache enabled for a statement that the planner, which sees it,
    would send to the writer because the session's write position is unknown. *)
Example cache_ignores_crossed_activation :
  let s := sample_cached_session
    <| ss_config := default_session_config <| cf_activation_generation := 6 |> |> in
  let ctx := (polardb_observe_and_collect sample_thread 10 1 false sample_hg_config s).2 in
  crossed_activation sample_thread s = true /\
  polardb_query_cache_is_disabled sample_thread (Some (mkQpo 1 10 false)) s = false /\
  session_unknown ctx = true /\
  pl_action (polardb_plan 0 sample_hgm ctx) = FORCE_PRIMARY.
Proof. vm_compute. done. Qed.
