(* ===== verification/Result.v ===== *)
(** * The response path

    lib/PgSQL_PolarDB_Flow.cpp from a backend ReadyForQuery to the session
    positions and the client's ReadyForQuery, the deferred attribution of
    extended-protocol frames, and the end-of-request cleanup of
    lib/PgSQL_PolarDB_Wrap.cpp. *)

From S2P Require Import Prelude SqlScan Policy Startup Config Session Query.
From S2P Require Import SessionState Plan Topology ServerList Wrap Flow.
From Stdlib Require Import ZArith Ascii String List Bool Lia.
From stdpp Require Import base tactics list gmap strings.

Open Scope Z_scope.
Open Scope polar_scope.

(** ** Attribution of one ReadyForQuery *)

Definition polardb_query_command_can_preserve_session_lsn (command : pgsql_command) : bool :=
  match command with
  | PGSQL_QUERY_SELECT | PGSQL_QUERY_SHOW | PGSQL_QUERY_EXPLAIN | PGSQL_QUERY_BEGIN
  | PGSQL_QUERY_COMMIT | PGSQL_QUERY_ROLLBACK | PGSQL_QUERY_ABORT | PGSQL_QUERY_SAVEPOINT
  | PGSQL_QUERY_ROLLBACK_TO_SAVEPOINT | PGSQL_QUERY_RELEASE_SAVEPOINT | PGSQL_QUERY_SET
  | PGSQL_QUERY_RESET => true
  | _ => false
  end.

Record PolarDB_ResultProcessContext := mkResultCtx {
  rx_conn : rfq_connection;
  rx_query_digest_text : cstr;
  rx_lsn : Z;
  rx_is_write : bool;
  rx_query_can_preserve_session_lsn : bool;
  rx_backend_hg : Z;
  rx_backend_is_polar_hg : bool;
  rx_backend_writer_hg : Z;
  rx_backend_writer_epoch : Z;
  rx_lsn_consistency_mode : bool;
  rx_split_observation_enabled : bool
}.

Definition rx_from_writer (ctx : PolarDB_ResultProcessContext) : bool :=
  polardb_backend_is_writer_hostgroup (rx_backend_is_polar_hg ctx) (rx_backend_hg ctx)
    (rx_backend_writer_hg ctx).

(** The shared caches, the worker's pass cache and the session. *)
Record proxy := mkProxy {
  px_hgm : PgSQL_HostGroups_Manager;
  px_worker : option worker_pass;
  px_session : PgSQL_Session
}.

Definition with_session (p : proxy) (f : PgSQL_Session -> PgSQL_Session) : proxy :=
  mkProxy (px_hgm p) (px_worker p) (f (px_session p)).

Definition raise_observed (lsn : Z) (s : PgSQL_Session) : PgSQL_Session :=
  if sc_observed_lsn (ss_consistency s) <? lsn
  then s <| ss_consistency := ss_consistency s <| sc_observed_lsn := lsn |> |> else s.

Definition raise_write (lsn : Z) (s : PgSQL_Session) : PgSQL_Session :=
  if sc_write_lsn (ss_consistency s) <? lsn
  then s <| ss_consistency := ss_consistency s <| sc_write_lsn := lsn |> |> else s.

Definition clear_unknown (s : PgSQL_Session) : PgSQL_Session :=
  s <| ss_consistency := ss_consistency s <| sc_write_unknown := false |>
                           <| sc_observed_unknown := false |> |>
    <| ss_degraded_warning_sent := false |>.

(** The session part of an accepted position. *)
Definition apply_positioned (ctx : PolarDB_ResultProcessContext) (s : PgSQL_Session)
  : PgSQL_Session :=
  let from_writer := rx_from_writer ctx in
  let s := polardb_apply_request_scope_to_session_lsn s in
  if qs_keep_session_lsn (ss_query s) && from_writer && rx_query_can_preserve_session_lsn ctx
  then polardb_observe_transaction_split (Some (rx_conn ctx)) 0
         (rx_split_observation_enabled ctx) true s
  else
    let s := raise_observed (rx_lsn ctx) s in
    let s :=
      if from_writer
      then polardb_observe_transaction_split (Some (rx_conn ctx)) (rx_lsn ctx)
             (rx_split_observation_enabled ctx) from_writer (clear_unknown s)
      else s in
    if rx_is_write ctx then raise_write (rx_lsn ctx) s else s.

Definition polardb_process_positioned_rfq_lsn (now_us : Z) (ctx : PolarDB_ResultProcessContext)
    (p : proxy) : proxy * bool :=
  let '(m, w, accepted) :=
    match rq_srv (rx_conn ctx) with
    | Some srv =>
        if (0 <=? rx_backend_hg ctx) && rx_backend_is_polar_hg ctx
        then polardb_accept_rfq_server_lsn (px_hgm p) (Some srv) (wrap32 (rx_backend_hg ctx))
               (rx_lsn ctx) (qs_request_writer_scope (ss_query (px_session p)))
               (px_worker p) now_us
        else (px_hgm p, px_worker p, false)
    | None => (px_hgm p, px_worker p, false)
    end in
  if negb accepted then (mkProxy m w (px_session p), false)
  else (mkProxy m w (apply_positioned ctx (px_session p)), true).

Definition mark_write_unknown (s : PgSQL_Session) : PgSQL_Session :=
  s <| ss_consistency := ss_consistency s <| sc_write_unknown := true |> |>.

Definition mark_observed_unknown (s : PgSQL_Session) : PgSQL_Session :=
  s <| ss_consistency := ss_consistency s <| sc_observed_unknown := true |> |>.

Definition rx_scope_current (ctx : PolarDB_ResultProcessContext) (s : PgSQL_Session) : bool :=
  polardb_request_scope_matches_current_writer (rx_backend_is_polar_hg ctx)
    (rx_backend_writer_hg ctx) (rx_backend_writer_epoch ctx) s.

Definition rx_observe_split (ctx : PolarDB_ResultProcessContext) (s : PgSQL_Session)
  : PgSQL_Session :=
  polardb_observe_transaction_split (Some (rx_conn ctx)) 0 (rx_split_observation_enabled ctx)
    true s.

Definition polardb_process_zero_rfq_lsn (ctx : PolarDB_ResultProcessContext)
    (s : PgSQL_Session) : PgSQL_Session :=
  if negb (rx_scope_current ctx s) then s
  else
    let from_writer := rx_from_writer ctx in
    let s := polardb_apply_request_scope_to_session_lsn s in
    if qs_keep_session_lsn (ss_query s) && from_writer then rx_observe_split ctx s
    else
      let safe_without_wait_target :=
        negb (rx_is_write ctx) ||
        polardb_zero_lsn_payload_can_skip_wait_target (rx_query_digest_text ctx) in
      if rx_is_write ctx && negb safe_without_wait_target
      then
        if from_writer && rx_lsn_consistency_mode ctx
        then mark_write_unknown (rx_observe_split ctx s) else s
      else if from_writer then rx_observe_split ctx s else s.

Definition polardb_process_missing_rfq_lsn (ctx : PolarDB_ResultProcessContext)
    (s : PgSQL_Session) : PgSQL_Session :=
  if negb (rx_scope_current ctx s) then s
  else
    let from_writer := rx_from_writer ctx in
    let s := polardb_apply_request_scope_to_session_lsn s in
    if qs_keep_session_lsn (ss_query s) && from_writer then rx_observe_split ctx s
    else
      let s := if from_writer then rx_observe_split ctx s else s in
      if rx_is_write ctx && from_writer && rx_lsn_consistency_mode ctx then mark_write_unknown s
      else if negb (rx_is_write ctx) && rx_backend_is_polar_hg ctx && rx_lsn_consistency_mode ctx
      then mark_observed_unknown s else s.

(** The context is built from the connection and the worker's topology. *)
Definition result_context (th : PgSQL_Thread) (m : PgSQL_HostGroups_Manager)
    (conn : rfq_connection) (query_digest_text : cstr) (is_write can_preserve : bool)
    (s : PgSQL_Session) : PolarDB_ResultProcessContext :=
  let '(hg, polar, writer, epoch) :=
    match rq_hostgroup conn with
    | Some hid =>
        let cfg := get_thread_cached_polardb_hg_config th m hid in
        let polar := hc_is_polardb_hostgroup cfg in
        (hid, polar, (if polar then hc_writer_hostgroup cfg else -1),
         (if polar then hc_writer_epoch cfg else 0))
    | None => (-1, false, -1, 0)
    end in
  mkResultCtx conn query_digest_text (rq_lsn conn) is_write can_preserve hg polar writer epoch
    ((0 <=? qs_effective_consistency_mode (ss_query s)) &&
     polardb_consistency_mode_uses_lsn_wait
       (polardb_consistency_from_int (qs_effective_consistency_mode (ss_query s))))
    (qs_txn_split_enabled (ss_query s)).

Definition polardb_process_result_with_attribution (th : PgSQL_Thread) (now_us : Z)
    (conn : option rfq_connection) (query_digest_text : cstr)
    (is_write query_can_preserve_session_lsn : bool) (p : proxy) : proxy :=
  let s := px_session p in
  match conn with
  | None => p
  | Some conn =>
      if negb (cf_is_polardb_enabled (ss_config s)) then p
      else if negb (qs_profile_enabled (ss_query s)) then p
      else
        let ctx := result_context th (px_hgm p) conn query_digest_text is_write
                     query_can_preserve_session_lsn s in
        match polardb_rfq_lsn_payload_state (rq_payload_present conn) (rq_lsn conn) with
        | Payload_POSITIONED => fst (polardb_process_positioned_rfq_lsn now_us ctx p)
        | Payload_ZERO => with_session p (polardb_process_zero_rfq_lsn ctx)
        | Payload_MISSING => with_session p (polardb_process_missing_rfq_lsn ctx)
        end
  end.

Definition polardb_process_result (th : PgSQL_Thread) (now_us : Z)
    (conn : option rfq_connection) (query_digest_text : cstr) (query_cmd : pgsql_command)
    (p : proxy) : proxy :=
  polardb_process_result_with_attribution th now_us conn query_digest_text
    (should_advance_session_write_lsn_cmd query_digest_text query_cmd)
    (polardb_query_command_can_preserve_session_lsn query_cmd) p.

(** ** The client's ReadyForQuery *)

Inductive PolarDB_DeferredRfqPolicy := Deferred_NONE | Deferred_DETECT | Deferred_PREPARED.

#[global] Instance DeferredRfqPolicy_eq_dec : EqDecision PolarDB_DeferredRfqPolicy.
Proof. solve_decision. Defined.

(** [processing_statement]: the session status is PROCESSING_QUERY or
    PROCESSING_STMT_EXECUTE. *)
Definition polardb_capture_rfq_evidence (th : PgSQL_Thread) (m : PgSQL_HostGroups_Manager)
    (processing_statement : bool) (conn : option rfq_connection) (payload_present : bool)
    (lsn : Z) (s : PgSQL_Session) : PolarDB_RfqEvidence :=
  match conn with
  | None => empty_evidence
  | Some conn =>
      let '(scope, hg) :=
        match rq_hostgroup conn with
        | Some hid =>
            let cfg := get_thread_cached_polardb_hg_config th m hid in
            (if hc_is_polardb_hostgroup cfg
             then mkScope (hc_writer_hostgroup cfg) (hc_writer_epoch cfg) else no_scope, hid)
        | None => (no_scope, -1)
        end in
      let txn_lsn_is_hint :=
        Ascii.eqb (rq_status conn) "T" && rq_splittable conn &&
        polardb_rfq_is_prewrite_split_candidate (rq_status conn) (rq_xids conn) true
          (rq_wal_pending conn) in
      let no_write_xids_txn_ended :=
        ss_has_no_write_xids s && Ascii.eqb (rq_status conn) "I" in
      let processing_client_query := processing_statement || xr_pending (ss_ext s) in
      mkEvidence scope (if payload_present then lsn else 0) hg true payload_present
        (txn_lsn_is_hint ||
         (negb (rq_multi_statement conn) && negb (rq_result_error conn) &&
          processing_client_query && no_write_xids_txn_ended))
  end.

Definition publication_scope (deferred_publication : bool) (s : PgSQL_Session)
  : PolarDB_WriterScope :=
  let request := qs_request_writer_scope (ss_query s) in
  let deferred := ss_ext s in
  if deferred_publication
  then
    if negb (xr_scope_consistent deferred) || negb (scope_valid (xr_writer_scope deferred))
    then no_scope
    else if negb (scope_valid request) then xr_writer_scope deferred
    else if negb (scope_matches request (xr_writer_scope deferred)) then no_scope
    else request
  else request.

Definition select_evidence (th : PgSQL_Thread) (m : PgSQL_HostGroups_Manager)
    (processing_statement : bool) (conn : option rfq_connection)
    (backend_payload_present : bool) (backend_lsn : Z)
    (deferred_policy : PolarDB_DeferredRfqPolicy) (s : PgSQL_Session)
  : option PolarDB_RfqEvidence :=
  let retained := xr_rfq_evidence (ss_ext s) in
  if (deferred_policy == Deferred_PREPARED) && ev_valid retained then Some retained
  else
    match conn with
    | Some _ =>
        Some (polardb_capture_rfq_evidence th m processing_statement conn
                backend_payload_present backend_lsn s)
    | None =>
        if (deferred_policy != Deferred_NONE) && ev_valid retained then Some retained else None
    end.

(** Whether the response belongs to the published scope, and whether its
    backend is the writer. *)
Definition response_scope (th : PgSQL_Thread) (m : PgSQL_HostGroups_Manager)
    (evidence : option PolarDB_RfqEvidence) (scope : PolarDB_WriterScope) : bool * bool :=
  match evidence with
  | Some ev =>
      if ev_valid ev && (0 <=? ev_backend_hostgroup ev)
      then
        let cfg := get_thread_cached_polardb_hg_config th m (ev_backend_hostgroup ev) in
        let current := mkScope (hc_writer_hostgroup cfg) (hc_writer_epoch cfg) in
        let matches :=
          hc_is_polardb_hostgroup cfg && scope_matches (ev_writer_scope ev) current &&
          scope_matches scope current in
        (matches, matches && polardb_backend_is_writer_hostgroup true
                               (ev_backend_hostgroup ev) (hc_writer_hostgroup cfg))
      else (false, false)
  | None => (false, false)
  end.

Definition completed_wait_target (conn : option rfq_connection) (s : PgSQL_Session) : Z :=
  let w := qs_wait (ss_query s) in
  if wst_wrapper_finalized w && negb (wst_timeout_error w) &&
     (wsp_type (wst_spec w) == WaitType_LSN) && (0 <? wsp_target (wst_spec w)) &&
     negb (wst_wait_started_at_us w =? 0) &&
     match conn with Some c => rq_wrapper_set_succeeded c | None => false end
  then wsp_target (wst_spec w) else 0.

(** [None] when nothing is appended. *)
Definition polardb_prepare_client_ready_lsn (th : PgSQL_Thread) (m : PgSQL_HostGroups_Manager)
    (processing_statement : bool) (conn : option rfq_connection)
    (backend_payload_present : bool) (backend_lsn : Z)
    (deferred_policy : PolarDB_DeferredRfqPolicy) (s : PgSQL_Session)
  : option Z * PgSQL_Session :=
  let deferred := ss_ext s in
  let deferred_publication :=
    (deferred_policy == Deferred_DETECT) && xr_publication_pending deferred in
  let set_keep k := s <| ss_query := ss_query s <| qs_keep_session_lsn := k |> |> in
  if negb (qs_profile_enabled (ss_query s)) &&
     negb (deferred_publication && xr_profile_enabled deferred)
  then (None, set_keep false)
  else
    let scope := publication_scope deferred_publication s in
    let client_requested := ss_client_rfq_lsn_requested s in
    let evidence :=
      select_evidence th m processing_statement conn backend_payload_present backend_lsn
        deferred_policy s in
    let keep :=
      match evidence with Some ev => ev_keep_session_lsn_candidate ev | None => false end in
    if negb client_requested && negb keep then (None, s)
    else
      let '(response_scope_matches, response_from_writer) :=
        response_scope th m evidence scope in
      let session_scope_matches_request :=
        scope_valid scope && scope_matches (sc_writer_scope (ss_consistency s)) scope in
      let session_target :=
        if session_scope_matches_request then target (ss_consistency s) else 0 in
      let keep := keep && response_from_writer && session_scope_matches_request in
      let s' := set_keep keep in
      if negb client_requested then (None, s')
      else
        let completed := completed_wait_target conn s in
        let confirmed :=
          if response_scope_matches
          then Z.max completed (qs_wait_bypass_target (ss_query s)) else 0 in
        let confirmed :=
          if deferred_publication && response_scope_matches && xr_scope_consistent deferred &&
             scope_valid (xr_writer_scope deferred)
          then Z.max confirmed (xr_confirmed_read_target deferred) else confirmed in
        let payload :=
          match evidence with Some ev => ev_payload_present ev | None => backend_payload_present end in
        let lsn := match evidence with Some ev => ev_lsn ev | None => backend_lsn end in
        let d := polardb_client_rfq_decision client_requested payload lsn session_target keep
                   response_from_writer confirmed completed in
        if negb (crd_include_lsn d) then (None, s') else (Some (crd_lsn d), s').

(** ** Deferred extended-protocol frames *)

Definition polardb_retain_extended_rfq_publication (conn : option rfq_connection)
    (s : PgSQL_Session) : PgSQL_Session :=
  let d := ss_ext s in
  let q := ss_query s in
  let confirmed := Z.max (qs_wait_bypass_target q) (completed_wait_target conn s) in
  let '(scope, mode, profile, consistent) :=
    if negb (xr_pending d) && negb (xr_publication_pending d)
    then (qs_request_writer_scope q, qs_effective_consistency_mode q, qs_profile_enabled q,
          scope_valid (qs_request_writer_scope q))
    else
      let matches := scope_matches (xr_writer_scope d) (qs_request_writer_scope q) in
      ((if matches then xr_writer_scope d else no_scope),
       (if polardb_consistency_mode_uses_lsn_wait
             (polardb_consistency_from_int (qs_effective_consistency_mode q))
        then qs_effective_consistency_mode q else xr_effective_consistency_mode d),
       xr_profile_enabled d || qs_profile_enabled q,
       (if matches then xr_scope_consistent d else false)) in
  s <| ss_ext :=
    mkExtRfq scope (xr_rfq_evidence d)
      (if consistent then Z.max (xr_confirmed_read_target d) confirmed else 0)
      mode (xr_pending d) true (xr_saw_write d) (xr_can_preserve_session_lsn d)
      profile consistent |>.

Definition set_ext_evidence (ev : PolarDB_RfqEvidence) (d : PolarDB_ExtendedRfqState)
  : PolarDB_ExtendedRfqState :=
  mkExtRfq (xr_writer_scope d) ev (xr_confirmed_read_target d) (xr_effective_consistency_mode d)
    (xr_pending d) (xr_publication_pending d) (xr_saw_write d) (xr_can_preserve_session_lsn d)
    (xr_profile_enabled d) (xr_scope_consistent d).

Definition set_ext_attribution (pending saw_write can_preserve : bool)
    (d : PolarDB_ExtendedRfqState) : PolarDB_ExtendedRfqState :=
  mkExtRfq (xr_writer_scope d) (xr_rfq_evidence d) (xr_confirmed_read_target d)
    (xr_effective_consistency_mode d) pending (xr_publication_pending d) saw_write can_preserve
    (xr_profile_enabled d) (xr_scope_consistent d).

Definition clear_ext_publication (d : PolarDB_ExtendedRfqState) : PolarDB_ExtendedRfqState :=
  mkExtRfq (xr_writer_scope d) (xr_rfq_evidence d) (xr_confirmed_read_target d)
    (xr_effective_consistency_mode d) (xr_pending d) false (xr_saw_write d)
    (xr_can_preserve_session_lsn d) (xr_profile_enabled d) (xr_scope_consistent d).

Definition polardb_retain_extended_rfq_evidence (th : PgSQL_Thread)
    (m : PgSQL_HostGroups_Manager) (processing_statement : bool) (conn : option rfq_connection)
    (s : PgSQL_Session) : PgSQL_Session :=
  let ev :=
    match conn with
    | None => empty_evidence
    | Some c =>
        polardb_capture_rfq_evidence th m processing_statement conn (rq_payload_present c)
          (if rq_payload_present c then rq_lsn c else 0) s
    end in
  s <| ss_ext := set_ext_evidence ev (ss_ext s) |>.

Definition polardb_defer_extended_rfq_result (conn : option rfq_connection) (query_text : cstr)
    (query_cmd : pgsql_command) (s : PgSQL_Session) : PgSQL_Session :=
  let is_write := should_advance_session_write_lsn_cmd query_text query_cmd in
  let s := polardb_retain_extended_rfq_publication conn s in
  let d := ss_ext s in
  s <| ss_ext :=
    set_ext_attribution true (xr_saw_write d || is_write)
      (xr_can_preserve_session_lsn d &&
       polardb_query_command_can_preserve_session_lsn query_cmd) d |>.

Definition polardb_prepare_deferred_extended_rfq (s : PgSQL_Session) : bool * PgSQL_Session :=
  let d := ss_ext s in
  if negb (xr_pending d) && negb (xr_publication_pending d) then (false, s)
  else
    let q := reset_for_new_query (ss_query s) in
    let q := if xr_scope_consistent d
             then q <| qs_request_writer_scope := xr_writer_scope d |> else q in
    (xr_publication_pending d,
     s <| ss_query := q <| qs_effective_consistency_mode := xr_effective_consistency_mode d |>
            <| qs_profile_enabled := xr_profile_enabled d |>
            <| qs_wait_bypass_target := xr_confirmed_read_target d |> |>).

Definition polardb_complete_deferred_extended_rfq_publication (s : PgSQL_Session)
  : PgSQL_Session :=
  let d := clear_ext_publication (ss_ext s) in
  s <| ss_ext := if negb (xr_pending d) then empty_ext_rfq else d |>.

Definition polardb_process_deferred_extended_rfq (th : PgSQL_Thread) (now_us : Z)
    (conn : option rfq_connection) (p : proxy) : proxy :=
  let d := ss_ext (px_session p) in
  if negb (xr_pending d) then p
  else
    let p := polardb_process_result_with_attribution th now_us conn None (xr_saw_write d)
               (xr_can_preserve_session_lsn d) p in
    with_session p (fun s =>
      let s := if negb (xr_scope_consistent d) && xr_saw_write d
               then mark_write_unknown s else s in
      let d := set_ext_attribution false false true (ss_ext s) in
      s <| ss_ext := if negb (xr_publication_pending d) then empty_ext_rfq else d |>).

Definition polardb_abandon_deferred_extended_rfq (s : PgSQL_Session) : PgSQL_Session :=
  let s := if xr_pending (ss_ext s) && xr_saw_write (ss_ext s)
           then mark_write_unknown s else s in
  s <| ss_ext := empty_ext_rfq |>.

(** ** End of the wait and of the request *)

(** [conn] is the connection of the stream, [None] for a null stream. *)
Definition polardb_finish_wait (now_us : Z) (conn : option rfq_connection) (p : proxy) : proxy :=
  let s := px_session p in
  let w := qs_wait (ss_query s) in
  if wst_wait_started_at_us w =? 0 then p
  else
    let update_reader_lsn :=
      cf_is_polardb_enabled (ss_config s) && wst_wrapper_finalized w &&
      negb (wst_timeout_error w) && (wsp_type (wst_spec w) == WaitType_LSN) &&
      negb (wsp_target (wst_spec w) =? 0) &&
      match conn with Some c => rq_wrapper_set_succeeded c | None => false end in
    let '(m, worker) :=
      match conn with
      | Some c =>
          match rq_srv c, rq_hostgroup c with
          | Some srv, Some hid =>
              if update_reader_lsn
              then fst (polardb_accept_rfq_server_lsn (px_hgm p) (Some srv) hid
                          (wsp_target (wst_spec w)) (qs_request_writer_scope (ss_query s))
                          (px_worker p) now_us)
              else (px_hgm p, px_worker p)
          | _, _ => (px_hgm p, px_worker p)
          end
      | None => (px_hgm p, px_worker p)
      end in
    mkProxy m worker
      (s <| ss_query := ss_query s <| qs_wait :=
         mkWaitState (wst_spec w) (wst_wait_stage w) (wst_wrapper_stmts w) 0
           (wst_wrapper_finalized w) (wst_timeout_error w) (wst_fallback_writer_hg w) |> |>).

Definition polardb_account_wait_timeout (now_us : Z) (p : proxy) : proxy * bool :=
  let s := px_session p in
  if negb (polardb_wait_active s) then (p, false)
  else if wst_wait_started_at_us (qs_wait (ss_query s)) =? 0 then (p, false)
  else (polardb_finish_wait now_us None p, true).

(** What the handlers read of the extended-protocol frame. *)
Record ExtendedQueryFrame := mkFrame {
  xf_active : bool;
  xf_needs_backend_sync : bool;
  xf_waiting_for_client_sync_after_error : bool;
  xf_client_sync_received : bool;
  xf_frame_empty : bool;
  xf_phase_parse_or_describe : bool;
  xf_frontend_ready_sent : bool
}.

Definition polardb_extended_request_continues (f : ExtendedQueryFrame)
    (called_on_failure result_has_error : bool) : bool :=
  negb called_on_failure && negb result_has_error && xf_active f &&
  (negb (xf_client_sync_received f) || negb (xf_frame_empty f)) && xf_phase_parse_or_describe f.

Definition clear_resettable (s : PgSQL_Session) : PgSQL_Session :=
  s <| ss_wait_disabled := false |> <| ss_degraded_warning_sent := false |>.

Definition polardb_clear_staged_wait_state_for_reset (f : ExtendedQueryFrame)
    (reset_override : bool) (s : PgSQL_Session) : PgSQL_Session :=
  let s :=
    if negb (xf_active f) && (xr_pending (ss_ext s) || xr_publication_pending (ss_ext s))
    then polardb_abandon_deferred_extended_rfq s else s in
  let s := clear_resettable (s <| ss_query := reset_for_new_query (ss_query s) |>) in
  if reset_override
  then polardb_set_txn_split_warmup_mode (-1) (polardb_set_session_consistency_mode (-1) s)
  else s.

Definition polardb_clear_session_state_for_recycle (s : PgSQL_Session) : PgSQL_Session :=
  let s := s <| ss_has_no_write_xids := false |>
             <| ss_query := reset_for_new_query (ss_query s) |>
             <| ss_ext := empty_ext_rfq |> in
  let s := clear_resettable s <| ss_client_rfq_lsn_requested := false |> in
  polardb_teardown_transaction_reader_state s.

(** [stream_hg] identifies the backend stream of the request, as the reader
    backend is identified by its hostgroup. *)
Definition polardb_clear_request_state_for_query_end (f : ExtendedQueryFrame) (now_us : Z)
    (stream_hg : option Z) (conn : option rfq_connection) (called_on_failure : bool)
    (p : proxy) : proxy :=
  let p := with_session p (fun s =>
    let d := ss_ext s in
    let preserve :=
      called_on_failure && xr_publication_pending d &&
      xf_waiting_for_client_sync_after_error f in
    let s :=
      if called_on_failure && (xr_pending d || xr_publication_pending d) && negb preserve
      then polardb_abandon_deferred_extended_rfq s
      else if preserve
      then
        let s := if xr_pending d && xr_saw_write d then mark_write_unknown s else s in
        s <| ss_ext := set_ext_attribution false false true (ss_ext s) |>
      else s in
    let s := if called_on_failure then s <| ss_has_no_write_xids := false |> else s in
    let r := ss_reader s in
    let current_txn_wait_reader :=
      tr_wait_read_active r &&
      match tr_backend r with Some hg => bool_decide (Some hg = stream_hg) | None => false end in
    if tr_wait_read_active r && negb current_txn_wait_reader
    then polardb_reconcile_txn_wait_read_end s else s) in
  let p := polardb_finish_wait now_us (if called_on_failure then None else conn) p in
  let result_has_error :=
    match conn with Some c => rq_result_error c | None => false end in
  with_session p (fun s =>
    s <| ss_query :=
      if polardb_extended_request_continues f called_on_failure result_has_error
      then reset_between_extended_messages (ss_query s)
      else reset_for_new_query (ss_query s) |>).

Inductive session_status :=
| PROCESSING_QUERY | PROCESSING_STMT_PREPARE | PROCESSING_STMT_DESCRIBE
| PROCESSING_STMT_EXECUTE | PROCESSING_OTHER.

#[global] Instance session_status_eq_dec : EqDecision session_status.
Proof. solve_decision. Defined.

(** The PolarDB part of [RequestEnd] for a session that is not in fast-forward
    mode. *)
Definition request_end_result (th : PgSQL_Thread) (now_us : Z) (f : ExtendedQueryFrame)
    (status : session_status) (conn : rfq_connection) (query_text : cstr)
    (query_cmd : pgsql_command) (p : proxy) : proxy :=
  if negb (cf_is_polardb_enabled (ss_config (px_session p))) then p
  else if status == PROCESSING_QUERY
  then polardb_process_result th now_us (Some conn) query_text query_cmd p
  else
    let has_error := rq_result_error conn in
    let backend_rfq_pending := xf_active f && xf_needs_backend_sync f in
    let defer p :=
      if negb has_error && (status == PROCESSING_STMT_EXECUTE)
      then with_session p (polardb_defer_extended_rfq_result (Some conn) query_text query_cmd)
      else p in
    let p :=
      if xf_waiting_for_client_sync_after_error f then p
      else if xr_pending (ss_ext (px_session p)) && negb backend_rfq_pending
      then
        let p := defer p in
        let p := with_session p (fun s => snd (polardb_prepare_deferred_extended_rfq s)) in
        polardb_process_deferred_extended_rfq th now_us (Some conn) p
      else if backend_rfq_pending then defer p
      else polardb_process_result th now_us (Some conn) query_text query_cmd p in
    if xf_frontend_ready_sent f && xr_publication_pending (ss_ext (px_session p)) &&
       negb (xr_pending (ss_ext (px_session p)))
    then with_session p polardb_complete_deferred_extended_rfq_publication else p.

Definition RequestEnd (th : PgSQL_Thread) (now_us : Z) (f : ExtendedQueryFrame)
    (status : session_status) (stream_hg : option Z) (conn : option rfq_connection)
    (query_text : cstr) (query_cmd : pgsql_command) (called_on_failure : bool) (p : proxy)
  : proxy :=
  let p :=
    match conn with
    | Some c =>
        if called_on_failure then p
        else request_end_result th now_us f status c query_text query_cmd p
    | None => p
    end in
  polardb_clear_request_state_for_query_end f now_us stream_hg conn called_on_failure p.

(** ** Theorems *)

(** Positions of the same timeline only move forward. *)
Definition positions_le (c c' : PolarDB_SessionConsistency) : Prop :=
  sc_writer_scope c' = sc_writer_scope c /\ sc_write_lsn c <= sc_write_lsn c' /\
  sc_observed_lsn c <= sc_observed_lsn c'.

Lemma positions_le_refl c : positions_le c c.
Proof. repeat split; lia. Qed.

Lemma positions_le_trans a b c : positions_le a b -> positions_le b c -> positions_le a c.
Proof. intros (?&?&?) (?&?&?). repeat split; [congruence|lia|lia]. Qed.

Lemma observe_split_keeps conn lsn en prim s :
  let s' := polardb_observe_transaction_split conn lsn en prim s in
  ss_consistency s' = ss_consistency s /\ ss_config s' = ss_config s /\
  same_request (ss_query s) (ss_query s') /\ ss_ext s' = ss_ext s.
Proof.
  cbn zeta. unfold polardb_observe_transaction_split.
  destruct conn as [c|]; [|auto using same_request_refl].
  destruct prim; [|auto using same_request_refl]. cbn [negb]. cbn zeta.
  assert (Ht : forall x, ss_ext (polardb_teardown_transaction_reader_state x) = ss_ext x).
  { intros x. unfold polardb_teardown_transaction_reader_state,
      polardb_release_txn_reader_backend.
    destruct x as [? ? [] ? ? ? ? ? [bk ? pb sa wr ? ? ? ? ? ? ? ?] ? ? ? ? ? ? ? ? ? ? ?]; cbn.
    destruct bk; [|done]. unfold txn_reader_active. cbn. destruct sa, wr, pb; done. }
  repeat case_if;
    try (match goal with |- context [polardb_teardown_transaction_reader_state ?x] =>
      destruct (teardown_keeps_consistency x) as (H1&_&H2);
      pose proof (teardown_keeps_request x) as H3; rewrite H1, H2, Ht end);
    simpl_upd; auto using same_request_refl.
  all: split_and!; try done; destruct s; cbn in *; exact H3.
Qed.

(** The positions a response is applied to: those of the request's scope. *)
Definition scoped_positions (s : PgSQL_Session) : PolarDB_SessionConsistency :=
  let scope := qs_request_writer_scope (ss_query s) in
  if negb (scope_valid scope) || scope_matches (sc_writer_scope (ss_consistency s)) scope
  then ss_consistency s else mkConsistency 0 0 false false scope.

Lemma apply_scope_consistency s :
  ss_consistency (polardb_apply_request_scope_to_session_lsn s) = scoped_positions s.
Proof.
  unfold polardb_apply_request_scope_to_session_lsn, scoped_positions. cbn zeta.
  destruct (scope_valid _) eqn:Hv; [|done]. cbn [negb orb].
  destruct (scope_matches _ _) eqn:Hm; [done|]. by rewrite rebind_consistency, Hm.
Qed.

Lemma apply_scope_request s :
  same_request (ss_query s) (ss_query (polardb_apply_request_scope_to_session_lsn s)).
Proof.
  unfold polardb_apply_request_scope_to_session_lsn. cbn zeta.
  case_if; [apply same_request_refl|]. apply rebind_keeps_request.
Qed.

Lemma raise_observed_consistency lsn s :
  ss_consistency (raise_observed lsn s) =
  ss_consistency s <| sc_observed_lsn := Z.max (sc_observed_lsn (ss_consistency s)) lsn |>.
Proof.
  unfold raise_observed. destruct s as [[]]; cbn. case_if; bool_to_prop; cbn; f_equal; lia.
Qed.

Lemma raise_write_consistency lsn s :
  ss_consistency (raise_write lsn s) =
  ss_consistency s <| sc_write_lsn := Z.max (sc_write_lsn (ss_consistency s)) lsn |>.
Proof.
  unfold raise_write. destruct s as [[]]; cbn. case_if; bool_to_prop; cbn; f_equal; lia.
Qed.

Lemma clear_unknown_consistency s :
  ss_consistency (clear_unknown s) =
  ss_consistency s <| sc_write_unknown := false |> <| sc_observed_unknown := false |>.
Proof. unfold clear_unknown. by simpl_upd. Qed.

(** Functional behaviour of an accepted position on the session. *)
Lemma positioned_consistency ctx s :
  let c := scoped_positions s in
  ss_consistency (apply_positioned ctx s) =
  if qs_keep_session_lsn (ss_query s) && rx_from_writer ctx &&
     rx_query_can_preserve_session_lsn ctx
  then c
  else mkConsistency
         (if rx_is_write ctx then Z.max (sc_write_lsn c) (rx_lsn ctx) else sc_write_lsn c)
         (Z.max (sc_observed_lsn c) (rx_lsn ctx))
         (sc_write_unknown c && negb (rx_from_writer ctx))
         (sc_observed_unknown c && negb (rx_from_writer ctx)) (sc_writer_scope c).
Proof.
  cbn zeta. unfold apply_positioned. pose proof (apply_scope_consistency s) as Hc.
  pose proof (apply_scope_request s) as (_&_&_&_&Hk&_).
  set (s1 := polardb_apply_request_scope_to_session_lsn s) in *. clearbody s1. rewrite <- Hk.
  destruct (qs_keep_session_lsn (ss_query s1) && rx_from_writer ctx && _).
  { by rewrite (proj1 (observe_split_keeps _ _ _ _ _)). }
  rewrite <- Hc. destruct (rx_is_write ctx), (rx_from_writer ctx);
    rewrite ?raise_write_consistency, ?(proj1 (observe_split_keeps _ _ _ _ _)),
      ?clear_unknown_consistency, ?raise_observed_consistency;
    destruct (ss_consistency s1) as [? ? [] [] ?]; reflexivity.
Qed.

Lemma zero_consistency ctx s :
  rx_scope_current ctx s = true ->
  let c := scoped_positions s in
  let marks :=
    negb (qs_keep_session_lsn (ss_query s) && rx_from_writer ctx) && rx_is_write ctx &&
    negb (polardb_zero_lsn_payload_can_skip_wait_target (rx_query_digest_text ctx)) &&
    rx_from_writer ctx && rx_lsn_consistency_mode ctx in
  ss_consistency (polardb_process_zero_rfq_lsn ctx s) =
  c <| sc_write_unknown := marks || sc_write_unknown c |>.
Proof.
  intros Hcur. cbn zeta. unfold polardb_process_zero_rfq_lsn. rewrite Hcur. cbn [negb].
  pose proof (apply_scope_consistency s) as Hc. pose proof (apply_scope_request s) as (_&_&_&_&Hk&_).
  cbn zeta.
  set (s1 := polardb_apply_request_scope_to_session_lsn s) in *. clearbody s1.
  rewrite <- Hk, <- Hc. unfold mark_write_unknown, rx_observe_split.
  destruct (qs_keep_session_lsn (ss_query s1)), (rx_from_writer ctx), (rx_is_write ctx),
    (polardb_zero_lsn_payload_can_skip_wait_target _), (rx_lsn_consistency_mode ctx);
    cbn [andb orb negb]; simpl_upd; rewrite ?(proj1 (observe_split_keeps _ _ _ _ _));
    destruct (ss_consistency s1); done.
Qed.

Lemma missing_consistency ctx s :
  rx_scope_current ctx s = true ->
  let c := scoped_positions s in
  let live := negb (qs_keep_session_lsn (ss_query s) && rx_from_writer ctx) &&
              rx_lsn_consistency_mode ctx in
  ss_consistency (polardb_process_missing_rfq_lsn ctx s) =
  c <| sc_write_unknown :=
         live && rx_is_write ctx && rx_from_writer ctx || sc_write_unknown c |>
    <| sc_observed_unknown :=
         live && negb (rx_is_write ctx) && rx_backend_is_polar_hg ctx ||
         sc_observed_unknown c |>.
Proof.
  intros Hcur. cbn zeta. unfold polardb_process_missing_rfq_lsn. rewrite Hcur. cbn [negb].
  pose proof (apply_scope_consistency s) as Hc. pose proof (apply_scope_request s) as (_&_&_&_&Hk&_).
  cbn zeta.
  set (s1 := polardb_apply_request_scope_to_session_lsn s) in *. clearbody s1.
  rewrite <- Hk, <- Hc. unfold mark_write_unknown, mark_observed_unknown, rx_observe_split.
  destruct (qs_keep_session_lsn (ss_query s1)), (rx_from_writer ctx), (rx_is_write ctx),
    (rx_backend_is_polar_hg ctx), (rx_lsn_consistency_mode ctx);
    cbn [andb orb negb]; simpl_upd; rewrite ?(proj1 (observe_split_keeps _ _ _ _ _));
    destruct (ss_consistency s1); done.
Qed.

Lemma positioned_positions_le ctx s :
  positions_le (scoped_positions s) (ss_consistency (apply_positioned ctx s)).
Proof.
  rewrite positioned_consistency. case_if; [apply positions_le_refl|].
  destruct (rx_is_write ctx); repeat split; cbn; lia.
Qed.

Lemma zero_positions_le ctx s :
  let c' := ss_consistency (polardb_process_zero_rfq_lsn ctx s) in
  c' = ss_consistency s \/ positions_le (scoped_positions s) c'.
Proof.
  cbn zeta. destruct (rx_scope_current ctx s) eqn:E.
  - right. rewrite zero_consistency by done. repeat split; simpl_upd; first [done|lia].
  - left. unfold polardb_process_zero_rfq_lsn. by rewrite E.
Qed.

Lemma missing_positions_le ctx s :
  let c' := ss_consistency (polardb_process_missing_rfq_lsn ctx s) in
  c' = ss_consistency s \/ positions_le (scoped_positions s) c'.
Proof.
  cbn zeta. destruct (rx_scope_current ctx s) eqn:E.
  - right. rewrite missing_consistency by done. repeat split; simpl_upd; first [done|lia].
  - left. unfold polardb_process_missing_rfq_lsn. by rewrite E.
Qed.

Lemma process_result_positions th now conn text w cp p :
  let c' := ss_consistency (px_session
              (polardb_process_result_with_attribution th now conn text w cp p)) in
  c' = ss_consistency (px_session p) \/ positions_le (scoped_positions (px_session p)) c'.
Proof.
  cbn zeta. unfold polardb_process_result_with_attribution.
  destruct conn as [c|]; [|by left]. case_if; [by left|]. case_if; [by left|].
  destruct (polardb_rfq_lsn_payload_state _ _); cbn.
  - apply missing_positions_le.
  - apply zero_positions_le.
  - unfold polardb_process_positioned_rfq_lsn.
    match goal with |- context [let '(_, _) := ?t in _] => destruct t as [[? ?] acc] end.
    destruct acc; cbn; [right; apply positioned_positions_le|by left].
Qed.

(** C29: Session positions never move back on their timeline.  Whatever response
    arrives (a position, a zero payload, no payload, a stale or foreign one, a
    retained extended frame), the session's write and observed positions either
    keep their writer scope and do not decrease, or the session changes to the
    scope the request captured at dispatch. *)
Theorem session_positions_monotone th now conn text is_write can_preserve p :
  let p' := polardb_process_result_with_attribution th now conn text is_write can_preserve p in
  let c := ss_consistency (px_session p) in
  let c' := ss_consistency (px_session p') in
  let request := qs_request_writer_scope (ss_query (px_session p)) in
  positions_le c c' \/
  (scope_valid request = true /\ sc_writer_scope c <> request /\ sc_writer_scope c' = request).
Proof.
  cbn zeta. destruct (process_result_positions th now conn text is_write can_preserve p)
    as [->|H]; [left; apply positions_le_refl|].
  unfold scoped_positions in H.
  destruct (negb (scope_valid _) || _) eqn:E; [by left|right].
  bool_to_prop. split; [done|]. split; [|by destruct H as [-> _]].
  intros Heq. rewrite Heq in *.
  by rewrite (proj2 (scope_matches_eq _ _) (conj eq_refl H0)) in H1.
Qed.

(** The response comes from the current writer of the request's scope, and the
    worker's topology view is the published one. *)
Record writer_response (th : PgSQL_Thread) (p : proxy) (conn : rfq_connection) : Prop := {
  wr_enabled : cf_is_polardb_enabled (ss_config (px_session p)) = true;
  wr_profile : qs_profile_enabled (ss_query (px_session p)) = true;
  wr_active : hgm_polardb_active (px_hgm p) = true;
  wr_view : th_snapshot th = hgm_topology_snapshot (px_hgm p);
  wr_srv : rq_srv conn <> None;
  wr_backend :
    exists hid config r,
      rq_hostgroup conn = Some hid /\ is_u32 hid /\
      snapshot_config (px_hgm p) hid = Some config /\
      hc_is_polardb_hostgroup config = true /\ hc_writer_hostgroup config = hid /\
      repl_of (px_hgm p) hid = Some r /\
      qs_request_writer_scope (ss_query (px_session p)) = mkScope hid (rg_writer_epoch r)
}.

Lemma writer_response_config th p conn :
  writer_response th p conn ->
  exists hid r, rq_hostgroup conn = Some hid /\ is_u32 hid /\ 0 <= hid /\
    repl_of (px_hgm p) hid = Some r /\
    qs_request_writer_scope (ss_query (px_session p)) = mkScope hid (rg_writer_epoch r) /\
    (let cfg := get_thread_cached_polardb_hg_config th (px_hgm p) hid in
     hc_is_polardb_hostgroup cfg = true /\ hc_writer_hostgroup cfg = hid /\
     hc_writer_epoch cfg = rg_writer_epoch r) /\
    (exists config, snapshot_config (px_hgm p) hid = Some config /\
       hc_writer_hostgroup config = hid).
Proof.
  intros [_ _ Hact Hview _ (hid&config&r&Hh&Hu&Hs&Hp&Hw&Hr&Hq)].
  exists hid, r. split_and!; auto; try (unfold is_u32 in Hu; lia); [|by eauto].
  unfold get_thread_cached_polardb_hg_config, polardb_config_from_snapshot.
  unfold snapshot_config in Hs. rewrite Hact in Hs. cbn in Hs.
  rewrite Hview, wrap32_id by done.
  destruct (hgm_topology_snapshot (px_hgm p)) as [snap|]; [|done]. cbn in Hs.
  rewrite Hs, Hw, Hr. destruct config; cbn in *. auto.
Qed.

Lemma writer_response_context th p conn text w cp :
  writer_response th p conn ->
  let ctx := result_context th (px_hgm p) conn text w cp (px_session p) in
  rx_from_writer ctx = true /\ rx_scope_current ctx (px_session p) = true /\
  rx_backend_is_polar_hg ctx = true.
Proof.
  intros H. destruct (writer_response_config _ _ _ H) as (hid&r&Hh&Hu&Hn&_&Hq&(H1&H2&H3)&_).
  cbn zeta. unfold result_context. rewrite Hh. cbn zeta in *. rewrite H1, H2, H3.
  unfold rx_from_writer, rx_scope_current, polardb_request_scope_matches_current_writer,
    polardb_backend_is_writer_hostgroup. cbn. rewrite Hq.
  rewrite (proj2 (Z.leb_le 0 hid) Hn), Z.eqb_refl. split_and!; try done. cbn.
  apply scope_matches_eq. split; [done|]. unfold scope_valid. cbn. by apply Z.leb_le.
Qed.

Lemma writer_response_accepted th now p conn text w cp :
  writer_response th p conn -> rq_lsn conn <> 0 ->
  let ctx := result_context th (px_hgm p) conn text w cp (px_session p) in
  px_session (fst (polardb_process_positioned_rfq_lsn now ctx p)) =
  apply_positioned ctx (px_session p).
Proof.
  intros H Hl. cbn zeta.
  destruct (writer_response_config _ _ _ H) as (hid&r&Hh&Hu&Hn&Hr&Hq&(H1&H2&H3)&config&Hs&Hw).
  destruct (rq_srv conn) as [srv|] eqn:Hsrv; [|by destruct (wr_srv _ _ _ H)].
  unfold polardb_process_positioned_rfq_lsn.
  set (ctx := result_context _ _ _ _ _ _ _).
  assert (rx_conn ctx = conn /\ rx_backend_hg ctx = hid /\ rx_backend_is_polar_hg ctx = true /\
    rx_lsn ctx = rq_lsn conn) as (E1&E2&E3&E4)
    by (subst ctx; unfold result_context; rewrite Hh; cbn; auto).
  rewrite E1, E2, E3, E4, Hsrv, (proj2 (Z.leb_le 0 hid) Hn), wrap32_id by done. cbn [andb].
  assert (Hm : scope_matches (qs_request_writer_scope (ss_query (px_session p)))
    (mkScope hid (rg_writer_epoch r)) = true).
  { apply scope_matches_eq. rewrite Hq. split; [done|]. unfold scope_valid; cbn; by apply Z.leb_le. }
  unfold polardb_accept_rfq_server_lsn, rfq_precheck.
  rewrite (wr_active _ _ _ H), (proj2 (Z.eqb_neq _ 0) Hl), Hs. cbn [negb orb].
  assert (scope_valid (qs_request_writer_scope (ss_query (px_session p))) = true) as ->
    by (rewrite Hq; unfold scope_valid; cbn; by apply Z.leb_le).
  cbn [negb]. cbn [mbind option_bind]. rewrite Hw, Hr. cbn [mbind option_bind]. rewrite Hm.
  assert (forall t, px_session (fst (let '(m, w0, acc) :=
    (let '(m, ok) := rfq_commit (px_hgm p) srv config (rq_lsn conn)
       (qs_request_writer_scope (ss_query (px_session p))) now in (m, t, ok)) in
    if negb acc then (mkProxy m w0 (px_session p), false)
    else (mkProxy m w0 (apply_positioned ctx (px_session p)), true))) =
    apply_positioned ctx (px_session p)) as Hc.
  { intros t. unfold rfq_commit. rewrite Hw, Hr, Hm. done. }
  destruct (px_worker p) as [wk|]; [|apply Hc].
  destruct (polardb_track_server_lsn_update _ _ _ _ _) as [wk' []]; [apply Hc|done].
Qed.

Lemma completed_write_recorded th now conn text can_preserve p :
  let s := px_session p in
  let c' := ss_consistency (px_session
    (polardb_process_result_with_attribution th now (Some conn) text true can_preserve p)) in
  writer_response th p conn ->
  polardb_consistency_mode_uses_lsn_wait
    (polardb_consistency_from_int (qs_effective_consistency_mode (ss_query s))) = true ->
  0 <= qs_effective_consistency_mode (ss_query s) ->
  qs_keep_session_lsn (ss_query s) = false ->
  sc_writer_scope c' = qs_request_writer_scope (ss_query s) /\
  match polardb_rfq_lsn_payload_state (rq_payload_present conn) (rq_lsn conn) with
  | Payload_POSITIONED =>
      rq_lsn conn <= sc_write_lsn c' /\ rq_lsn conn <= sc_observed_lsn c' /\
      sc_write_unknown c' = false /\ sc_observed_unknown c' = false
  | Payload_ZERO =>
      polardb_zero_lsn_payload_can_skip_wait_target text = true \/ sc_write_unknown c' = true
  | Payload_MISSING => sc_write_unknown c' = true
  end.
Proof.
  cbn zeta. intros H Hlsn Hmode Hk.
  destruct (writer_response_context th p conn text true can_preserve H) as (Hfw&Hcur&Hpol).
  unfold polardb_process_result_with_attribution.
  rewrite (wr_enabled _ _ _ H), (wr_profile _ _ _ H). cbn [negb].
  set (ctx := result_context _ _ _ _ _ _ _) in *.
  assert (rx_is_write ctx = true /\ rx_lsn_consistency_mode ctx = true /\
    rx_query_digest_text ctx = text /\ rx_lsn ctx = rq_lsn conn) as (Hw&Hm&Htx&Hl).
  { subst ctx. unfold result_context. destruct (rq_hostgroup conn); cbn; rewrite Hlsn;
      rewrite (proj2 (Z.leb_le _ _) Hmode); done. }
  assert (Hsc : sc_writer_scope (scoped_positions (px_session p)) =
    qs_request_writer_scope (ss_query (px_session p))).
  { unfold scoped_positions. destruct (scope_valid _) eqn:Hv; cbn [negb orb].
    - destruct (scope_matches _ _) eqn:E; [|done]. by apply scope_matches_eq in E as [-> _].
    - exfalso. destruct (writer_response_config _ _ _ H) as (hid&r&_&_&Hn&_&Hq&_).
      rewrite Hq in Hv. unfold scope_valid in Hv. cbn in Hv. bool_to_prop. lia. }
  unfold polardb_rfq_lsn_payload_state. destruct (rq_payload_present conn); cbn [negb].
  2:{ cbn. rewrite missing_consistency by done. rewrite Hk, Hm, Hw, Hfw. cbn. simpl_upd. done. }
  destruct (rq_lsn conn =? 0) eqn:E0; bool_to_prop.
  - cbn -[polardb_zero_lsn_payload_can_skip_wait_target].
    rewrite zero_consistency by done. rewrite Hk, Hm, Hw, Hfw, Htx. cbn [andb orb negb].
    simpl_upd. split; [done|]. destruct (polardb_zero_lsn_payload_can_skip_wait_target text); auto.
  - pose proof (writer_response_accepted th now p conn text true can_preserve H E0) as Hac.
    cbn zeta in Hac. fold ctx in Hac. rewrite Hac. rewrite positioned_consistency, Hk, Hw, Hfw, Hl. cbn.
    rewrite !andb_false_r. split_and!; try done; lia.
Qed.

(** C27: No write is forgotten.  When a statement that may have written completes
    on the current writer of its scope in an LSN mode, and it is not the end of
    a transaction known to be read-only, then afterwards either the session's
    write position is at or beyond the reported position (under the request's
    scope, with the unknown flags cleared), or the write is flagged unknown, or
    the payload was zero for one of the session-state commands that cannot
    write. *)
Theorem completed_write_is_positioned_or_flagged th now conn text can_preserve p :
  let s := px_session p in
  let c' := ss_consistency (px_session
    (polardb_process_result_with_attribution th now (Some conn) text true can_preserve p)) in
  writer_response th p conn ->
  polardb_consistency_mode_uses_lsn_wait
    (polardb_consistency_from_int (qs_effective_consistency_mode (ss_query s))) = true ->
  0 <= qs_effective_consistency_mode (ss_query s) ->
  qs_keep_session_lsn (ss_query s) = false ->
  sc_writer_scope c' = qs_request_writer_scope (ss_query s) /\
  match polardb_rfq_lsn_payload_state (rq_payload_present conn) (rq_lsn conn) with
  | Payload_POSITIONED =>
      rq_lsn conn <= sc_write_lsn c' /\ rq_lsn conn <= sc_observed_lsn c' /\
      sc_write_unknown c' = false /\ sc_observed_unknown c' = false
  | Payload_ZERO =>
      polardb_zero_lsn_payload_can_skip_wait_target text = true \/ sc_write_unknown c' = true
  | Payload_MISSING => sc_write_unknown c' = true
  end.
Proof. apply completed_write_recorded. Qed.

(** A write that completed at 1000 on the sample writer. *)
Definition sample_rfq : rfq_connection :=
  mkRfqConn "I" (Some EmptyString) false false 1000 true (Some 10) (Some (10, 0%nat)) None None
    false false false false.

Definition sample_proxy : proxy :=
  let s := sample_writer_session
    <| ss_config := default_session_config <| cf_activation_generation := 7 |>
                      <| cf_is_polardb_enabled := true |> |>
    <| ss_query := empty_query <| qs_request_writer_scope := mkScope 10 3 |>
         <| qs_effective_consistency_mode := mode_to_int Mode_SESSION_LSN |>
         <| qs_profile_enabled := true |> |> in
  mkProxy sample_hgm None s.

Lemma sample_writer_response : writer_response sample_thread sample_proxy sample_rfq.
Proof.
  split; try reflexivity; [done|].
  exists 10, sample_hg_config, sample_repl. split_and!; try reflexivity;
    vm_compute; split; congruence.
Qed.

Lemma completed_write_is_positioned_or_flagged_witness :
  1000 <= sc_write_lsn (ss_consistency (px_session
    (polardb_process_result_with_attribution sample_thread 5 (Some sample_rfq)
       (Some "INSERT INTO t VALUES (1)"%string) true true sample_proxy))).
Proof.
  apply (completed_write_is_positioned_or_flagged sample_thread 5 sample_rfq
    (Some "INSERT INTO t VALUES (1)"%string) true sample_proxy sample_writer_response);
    first [reflexivity | vm_compute; congruence].
Defined.

Lemma client_decision_bounds lsn session keep from_writer confirmed completed :
  0 <= lsn ->
  let d := polardb_client_rfq_decision true true lsn session keep from_writer confirmed completed in
  crd_include_lsn d = true /\ 0 <= crd_lsn d /\
  (from_writer = true -> 0 < session -> session <= crd_lsn d) /\
  (0 < confirmed -> confirmed <= crd_lsn d) /\
  (from_writer = false -> confirmed <= 0 -> crd_lsn d = lsn).
Proof.
  intros Hl. cbn zeta. unfold polardb_client_rfq_decision. cbn [negb orb].
  destruct from_writer, keep; cbn [andb orb negb];
    repeat case_if; cbn; bool_to_prop; repeat split; intros; try lia; try discriminate.
Qed.

(** The position a simple-query client is told.  Preparing it never changes
    the session's positions.  It is sent only when the client asked for it and
    the backend reported one; a response of the request's own writer is raised
    to at least the session target, a read that completed or satisfied an LSN
    wait is raised to at least that target, and a response that does not belong
    to the request's scope is passed on exactly as the backend sent it. *)
Theorem client_ready_lsn_sound th m processing conn payload lsn s :
  0 <= lsn -> 0 <= qs_wait_bypass_target (ss_query s) ->
  let '(r, s') :=
    polardb_prepare_client_ready_lsn th m processing (Some conn) payload lsn Deferred_NONE s in
  let scope := qs_request_writer_scope (ss_query s) in
  let ev := polardb_capture_rfq_evidence th m processing (Some conn) payload lsn s in
  ss_consistency s' = ss_consistency s /\
  match r with
  | None => ss_client_rfq_lsn_requested s = false \/ payload = false \/
            qs_profile_enabled (ss_query s) = false
  | Some out =>
      ss_client_rfq_lsn_requested s = true /\ payload = true /\
      (snd (response_scope th m (Some ev) scope) = true ->
       scope_matches (sc_writer_scope (ss_consistency s)) scope = true ->
       0 < target (ss_consistency s) -> target (ss_consistency s) <= out) /\
      (fst (response_scope th m (Some ev) scope) = true ->
       completed_wait_target (Some conn) s <= out /\
       qs_wait_bypass_target (ss_query s) <= out) /\
      (fst (response_scope th m (Some ev) scope) = false -> out = lsn)
  end.
Proof.
  intros Hl Hb. unfold polardb_prepare_client_ready_lsn, publication_scope, select_evidence.
  change (Deferred_NONE == Deferred_DETECT) with false.
  change (Deferred_NONE == Deferred_PREPARED) with false. cbn [andb]. cbn zeta.
  destruct (qs_profile_enabled (ss_query s)) eqn:Hpe; cbn [negb andb]; [|simpl_upd; auto].
  set (ev := polardb_capture_rfq_evidence _ _ _ _ _ _ _).
  assert (ev_payload_present ev = payload /\ ev_lsn ev = if payload then lsn else 0) as [Ep El].
  { subst ev. unfold polardb_capture_rfq_evidence. by destruct (rq_hostgroup conn). }
  destruct (ss_client_rfq_lsn_requested s) eqn:Hrq; cbn [negb andb].
  2:{ case_if; [auto|]. destruct (response_scope _ _ _ _); simpl_upd; auto. }
  set (scope := qs_request_writer_scope (ss_query s)).
  assert (Hfs : snd (response_scope th m (Some ev) scope) = true ->
    fst (response_scope th m (Some ev) scope) = true).
  { unfold response_scope. case_if; [|done]. cbn [fst snd]. intros [H _]%andb_true_iff. exact H. }
  destruct (response_scope th m (Some ev) scope) as [rs rw]. cbn [fst snd] in *.
  rewrite Ep, El. destruct payload.
  2:{ unfold polardb_client_rfq_decision. cbn. simpl_upd. auto. }
  assert (0 <= completed_wait_target (Some conn) s) as Hc
    by (unfold completed_wait_target; case_if; bool_to_prop; lia).
  match goal with |- context [polardb_client_rfq_decision true true lsn ?t ?k rw ?c ?w] =>
    destruct (client_decision_bounds lsn t k rw c w Hl) as (D1&D0&D2&D3&D4);
    set (d := polardb_client_rfq_decision true true lsn t k rw c w) in * end.
  rewrite D1. cbn [negb]. simpl_upd. split; [done|]. split; [done|]. split; [done|]. split_and!.
  - intros Hrw Hm Ht. rewrite Hm, andb_true_r in D2.
    assert (scope_valid scope = true) as Hv
      by (apply scope_matches_eq in Hm as [He ?]; by rewrite <- He).
    rewrite Hv in D2. cbn in D2. auto.
  - intros Hrs. rewrite Hrs in D3. cbn beta iota in D3.
    lia.
  - intros Hrs. rewrite Hrs in D4. apply D4; [|lia]. destruct rw; [|done]. by rewrite Hfs in Hrs.
Qed.

Lemma client_ready_lsn_sound_witness :
  let s := px_session sample_proxy <| ss_client_rfq_lsn_requested := true |> in
  fst (polardb_prepare_client_ready_lsn sample_thread sample_hgm true (Some sample_rfq) true 700
         Deferred_NONE s) = Some 800 /\
  ss_consistency (snd (polardb_prepare_client_ready_lsn sample_thread sample_hgm true
    (Some sample_rfq) true 700 Deferred_NONE s)) = mkConsistency 800 750 false false (mkScope 10 3).
Proof.
  split; [vm_compute; reflexivity|].
  assert (0 <= qs_wait_bypass_target (ss_query (px_session sample_proxy
    <| ss_client_rfq_lsn_requested := true |>))) as Hb by (vm_compute; discriminate).
  pose proof (client_ready_lsn_sound sample_thread sample_hgm true sample_rfq true 700
    (px_session sample_proxy <| ss_client_rfq_lsn_requested := true |>) ltac:(lia) Hb) as H.
  destruct (polardb_prepare_client_ready_lsn _ _ _ _ _ _ _ _) as [r s'].
  destruct H as [H _]. exact H.
Defined.
