(* ===== verification/Dispatch.v ===== *)
(** * Dispatch

    The last stage of the request path: the temporary transaction readers of
    lib/PgSQL_PolarDB_Split.cpp, [polardb_execute] and the composition
    [polardb_route_query] of lib/PgSQL_PolarDB_Flow.cpp.  What the reader pool
    answers to one request is the [reader_env] argument. *)

From S2P Require Import Prelude SqlScan Policy Startup Config Session Query.
From S2P Require Import SessionState Plan Topology ServerList Wrap Flow Result.
From Stdlib Require Import ZArith Ascii String List Bool Lia.
From stdpp Require Import base tactics list gmap strings.

Open Scope Z_scope.
Open Scope polar_scope.

(** ** Temporary transaction readers *)

(** The connection on the reader stream. *)
Record reader_connection := mkReaderConn {
  rn_has_parent : bool;
  rn_reusable : bool;
  rn_connected : bool;
  rn_idle : bool;
  rn_payload_present : bool;
  rn_lsn : Z;
  rn_identity_mode : Z;
  rn_profile : PolarDB_StartupProfile;
  rn_profile_generation : Z;
  rn_settings_set : bool;
  rn_config_generation : Z
}.

Record reader_env := mkReaderEnv {
  re_backend_stream : bool;        (** find_or_create_backend gave a stream *)
  re_acquired : bool;              (** polardb_acquire_reader_connection *)
  re_wait_bypass_allowed : bool;
  re_warmup_can_help : bool;
  re_conn : reader_connection;     (** the retained or the acquired connection *)
  re_server_can_serve : bool;      (** polardb_reader_server_can_serve_request *)
  re_has_userinfo : bool
}.

Definition polardb_reused_txn_reader_can_bypass_wait (th : PgSQL_Thread)
    (m : PgSQL_HostGroups_Manager) (env : reader_env) (reader_hg : Z)
    (wait_spec : PolarDB_WaitSpec) (writer_scope : PolarDB_WriterScope) (s : PgSQL_Session)
  : bool :=
  let conn := re_conn env in
  if negb (rn_has_parent conn) || negb (rn_reusable conn) || negb (rn_connected conn) ||
     negb (rn_idle conn) ||
     negb (scope_matches (tr_rfq_writer_scope (ss_reader s)) writer_scope)
  then false
  else if (wsp_target wait_spec =? 0) || negb (rn_payload_present conn) then false
  else if (rn_lsn conn =? 0) || (rn_lsn conn <? wsp_target wait_spec) then false
  else
    let cfg := get_polardb_hg_config m (wrap32 reader_hg) in
    if negb (hc_is_polardb_hostgroup cfg) ||
       negb (hc_writer_hostgroup cfg =? ws_hg writer_scope) ||
       negb (hc_writer_epoch cfg =? ws_epoch writer_scope)
    then false
    else
      let identity_mode := th_proxy_identity_mode th in
      let protocol :=
        if 0 <=? hp_proxy_protocol (hc_policy cfg) then hp_proxy_protocol (hc_policy cfg)
        else th_proxy_protocol th in
      let current_profile := from_protocol (polardb_proxy_protocol_from_int protocol) in
      if negb (rn_identity_mode conn =? identity_mode) ||
         negb (polardb_startup_profile_matches_request_generation (rn_profile conn)
                 (rn_profile_generation conn) current_profile identity_mode) ||
         (rn_settings_set conn &&
          negb (rn_config_generation conn =? th_startup_config_generation th))
      then false
      else re_server_can_serve env.

(** The reader hostgroup a warmup is requested for, if one is. *)
Definition polardb_request_txn_split_warmup (env : reader_env) (reader_hg : Z)
    (s : PgSQL_Session) : option Z :=
  if reader_hg <? 0 then None
  else if bool_decide (tr_backend (ss_reader s) = Some reader_hg) &&
          tr_connected (ss_reader s) && rn_connected (re_conn env)
  then None
  else if negb (re_has_userinfo env) then None
  else Some reader_hg.

Definition warmup_on_demand (s : PgSQL_Session) : bool :=
  (polardb_effective_txn_split_warmup_mode s =? warmup_to_int Warmup_DEMAND) ||
  (polardb_effective_txn_split_warmup_mode s =? warmup_to_int Warmup_BOTH).

Definition demand_warmup (env : reader_env) (reader_hg : Z) (s : PgSQL_Session) : option Z :=
  if warmup_on_demand s then polardb_request_txn_split_warmup env reader_hg s else None.

(** Release a reader of another hostgroup and name the backend of this one. *)
Definition select_reader_backend (env : reader_env) (reader_hg : Z) (s : PgSQL_Session)
  : PgSQL_Session :=
  let s :=
    match tr_backend (ss_reader s) with
    | Some hg => if negb (hg =? reader_hg) then polardb_release_txn_reader_backend s else s
    | None => s
    end in
  match tr_backend (ss_reader s) with
  | Some _ => s
  | None =>
      if re_backend_stream env
      then s <| ss_reader := ss_reader s <| tr_backend := Some reader_hg |> |> else s
  end.

Definition attach_reader (s : PgSQL_Session) : PgSQL_Session :=
  s <| ss_reader := ss_reader s <| tr_rfq_writer_scope := no_scope |>
                      <| tr_connected := true |> |>.

Definition drop_reader_connection (s : PgSQL_Session) : PgSQL_Session :=
  s <| ss_reader := ss_reader s <| tr_connected := false |>
                      <| tr_rfq_writer_scope := no_scope |> |>.

Definition set_query (f : PolarDB_QueryState -> PolarDB_QueryState) (s : PgSQL_Session)
  : PgSQL_Session := s <| ss_query := f (ss_query s) |>.

(** Whether the read is installed, the caller's packet, the session and a
    requested warmup. *)
Definition polardb_prepare_txn_wait_read (th : PgSQL_Thread) (m : PgSQL_HostGroups_Manager)
    (env : reader_env) (now_us : Z) (plan : PolarDB_Query_RoutePlan)
    (ctx : PolarDB_Query_RouteCtx) (pkt : PtrSize_t) (s : PgSQL_Session)
  : bool * PtrSize_t * PgSQL_Session * option Z :=
  let reader_hg := pl_target_hg plan in
  let spec := pl_wait_spec plan in
  let needs_wait := has_wait spec in
  let orig := polardb_extract_simple_query_body pkt in
  if (reader_hg <? 0) || negb (rc_in_transaction ctx) then (false, pkt, s, None)
  else if needs_wait && match orig with None => true | Some _ => false end
  then (false, pkt, s, None)
  else
    let s := select_reader_backend env reader_hg s in
    match tr_backend (ss_reader s) with
    | None => (false, pkt, s, demand_warmup env reader_hg s)
    | Some _ =>
        if negb (re_backend_stream env) then (false, pkt, s, demand_warmup env reader_hg s)
        else if negb (tr_connected (ss_reader s)) && negb (re_acquired env)
        then (false, pkt, s, demand_warmup env reader_hg s)
        else
          let bypass_wait :=
            if negb (tr_connected (ss_reader s)) then needs_wait && re_wait_bypass_allowed env
            else needs_wait &&
                 polardb_reused_txn_reader_can_bypass_wait th m env reader_hg spec
                   (rc_writer_scope ctx) s in
          let s := if negb (tr_connected (ss_reader s)) then attach_reader s else s in
          if negb (rn_connected (re_conn env))
          then let s := drop_reader_connection s in
               (false, pkt, s, demand_warmup env reader_hg s)
          else
            let s :=
              if needs_wait && (wst_wait_stage (qs_wait (ss_query s)) != WaitStage_IDLE)
              then set_query reset_wait s else s in
            let s :=
              if needs_wait && bypass_wait
              then set_query (mark_wait_satisfied (wsp_target spec)) s
              else if needs_wait
              then set_query (fun q =>
                     begin_wait spec now_us (rd_fallback_writer_hg (pl_reader plan))
                       (q <| qs_reader_plan := pl_reader plan |>)
                       <| qs_original_query := match orig with Some o => o | None => "" end |>) s
              else s in
            (true, None, polardb_begin_txn_wait_read reader_hg (rc_writer_scope ctx) now_us s,
             None)
    end.

Definition polardb_prepare_txn_split_read (th : PgSQL_Thread) (m : PgSQL_HostGroups_Manager)
    (env : reader_env) (now_us : Z) (plan : PolarDB_Query_RoutePlan)
    (writer_scope : PolarDB_WriterScope) (pkt : PtrSize_t) (s : PgSQL_Session)
  : bool * PtrSize_t * PgSQL_Session * option Z :=
  let reader_hg := pl_target_hg plan in
  let spec := pl_wait_spec plan in
  if (reader_hg <? 0) || (pl_txn_xids plan == EmptyString) || negb (has_wait spec)
  then (false, pkt, s, None)
  else
    let s := select_reader_backend env reader_hg s in
    match tr_backend (ss_reader s) with
    | None => (false, pkt, s, demand_warmup env reader_hg s)
    | Some _ =>
        if negb (re_backend_stream env) then (false, pkt, s, demand_warmup env reader_hg s)
        else if negb (tr_connected (ss_reader s)) && negb (re_acquired env)
        then (false, pkt, s,
              if re_warmup_can_help env then demand_warmup env reader_hg s else None)
        else
          let bypass_wait :=
            if negb (tr_connected (ss_reader s)) then re_wait_bypass_allowed env
            else polardb_reused_txn_reader_can_bypass_wait th m env reader_hg spec
                   writer_scope s in
          let s := if negb (tr_connected (ss_reader s)) then attach_reader s else s in
          if rd_require_replica (pl_reader plan) && negb (re_server_can_serve env)
          then (false, pkt, polardb_release_txn_reader_backend s, None)
          else if negb (rn_connected (re_conn env))
          then (false, pkt, drop_reader_connection s, None)
          else
            let '(wrapper_stmts, wrapped_query) :=
              polardb_build_txn_split_wrapped_query pkt spec (pl_txn_xids plan) bypass_wait in
            if wrapper_stmts =? 0
            then (false, pkt, polardb_release_txn_reader_backend s, None)
            else
              let s := polardb_begin_txn_split_read reader_hg pkt wrapped_query spec
                         (pl_reader plan) writer_scope wrapper_stmts bypass_wait now_us s in
              let s := if bypass_wait
                       then set_query (mark_wait_satisfied (wsp_target spec)) s else s in
              (true, None, s, None)
    end.

(** ** Execute *)

Definition consistency_error_message (reason : RouteActionReason) : string :=
  match reason with
  | INVALID_POLICY =>
      "PolarDB global_lsn cannot use warning for a missing LSN or an LSN wait timeout"
  | READ_FALLBACK_ERROR => "PolarDB read routing requires a usable replica"
  | _ => "PolarDB cannot enforce the required LSN because the LSN target is unavailable"
  end.

(** [er_return_error] carries the reason of the error packet that was sent. *)
Record PolarDB_Query_ExecuteResult := mkExecuteResult {
  er_final_target_hg : Z;
  er_return_error : option RouteActionReason
}.

(** What one routed statement does outside the session. *)
Record dispatch := mkDispatch {
  di_result : PolarDB_Query_ExecuteResult;
  di_pkt : PtrSize_t;
  di_proxy : proxy;
  di_warmup : option Z
}.

Section Execute.

Context (th : PgSQL_Thread) (frame : ExtendedQueryFrame) (status : session_status)
  (env : reader_env) (now_us : Z).

(** The error packet, then [RequestEnd(NULL, true)]. *)
Definition polardb_return_consistency_error (p : proxy) : proxy :=
  RequestEnd th now_us frame status None None None PGSQL_QUERY_UNKNOWN true p.

Definition finish_declined_transaction_reader (plan : PolarDB_Query_RoutePlan)
    (ctx : PolarDB_Query_RouteCtx) (pkt : PtrSize_t) (warmup : option Z) (p : proxy) : dispatch :=
  if polardb_read_fallback_action_from_int (rd_read_fallback_action (pl_reader plan))
       == Fallback_ERROR
  then mkDispatch (mkExecuteResult (-1) (Some READ_FALLBACK_ERROR)) pkt
         (polardb_return_consistency_error p) warmup
  else mkDispatch (mkExecuteResult (ws_hg (rc_writer_scope ctx)) None) pkt p warmup.

Definition execute_wait_read (plan : PolarDB_Query_RoutePlan) (ctx : PolarDB_Query_RouteCtx)
    (pkt : PtrSize_t) (p : proxy) : dispatch :=
  let writer := mkDispatch (mkExecuteResult (ws_hg (rc_writer_scope ctx)) None) pkt p None in
  let no_body :=
    match pkt with
    | Some b => Nat.ltb (length (pk_bytes b)) (PGSQL_SIMPLE_QUERY_MESSAGE_OVERHEAD + 1)
    | None => true
    end in
  if negb (rc_is_extended_protocol ctx) && no_body then writer
  else
    let reader_config := get_thread_cached_polardb_hg_config th (px_hgm p) (rc_reader_hg ctx) in
    let profile :=
      if hc_is_polardb_hostgroup reader_config
      then polardb_startup_profile_for_config reader_config (th_proxy_protocol th)
             (th_profile_off th)
      else from_protocol Protocol_OFF in
    if rc_is_extended_protocol ctx && negb (requests_extended_wait profile) then writer
    else if ss_wait_disabled (px_session p) then writer
    else
      mkDispatch (mkExecuteResult (pl_target_hg plan) None) pkt
        (with_session p (set_query (fun q =>
           q <| qs_reader_plan := pl_reader plan |> <| qs_reader_wait_spec := pl_wait_spec plan |>)))
        None.

Definition polardb_execute (plan : PolarDB_Query_RoutePlan) (ctx : PolarDB_Query_RouteCtx)
    (pkt : PtrSize_t) (p : proxy) : dispatch :=
  let writer_hg := ws_hg (rc_writer_scope ctx) in
  let ownership_taking_action :=
    pl_txn_wait_read plan || (pl_action plan == REPLICA_TXN_SPLIT) in
  if rc_is_extended_protocol ctx && ownership_taking_action
  then mkDispatch (mkExecuteResult writer_hg None) pkt p None
  else
    let p := with_session p (set_query (fun q =>
               reset_wait q <| qs_reader_wait_spec := no_wait |>)) in
    if pl_action plan == RETURN_ERROR
    then mkDispatch (mkExecuteResult (-1) (Some (pl_action_reason plan))) pkt
           (polardb_return_consistency_error p) None
    else if pl_txn_wait_read plan
    then
      if ss_wait_disabled (px_session p)
      then finish_declined_transaction_reader plan ctx pkt None p
      else
        let '(ok, pkt, s, warmup) :=
          polardb_prepare_txn_wait_read th (px_hgm p) env now_us plan ctx pkt (px_session p) in
        let p := mkProxy (px_hgm p) (px_worker p) s in
        if ok then mkDispatch (mkExecuteResult (pl_target_hg plan) None) pkt p warmup
        else finish_declined_transaction_reader plan ctx pkt warmup p
    else
      match pl_action plan with
      | PASSTHROUGH =>
          mkDispatch (mkExecuteResult (pl_target_hg plan) None) pkt
            (with_session p (set_query (fun q => q <| qs_reader_plan := pl_reader plan |>))) None
      | FORCE_PRIMARY => mkDispatch (mkExecuteResult writer_hg None) pkt p None
      | REPLICA_TXN_SPLIT =>
          if ss_wait_disabled (px_session p)
          then finish_declined_transaction_reader plan ctx pkt None p
          else
            let '(ok, pkt, s, warmup) :=
              polardb_prepare_txn_split_read th (px_hgm p) env now_us plan (rc_writer_scope ctx)
                pkt (px_session p) in
            let p := mkProxy (px_hgm p) (px_worker p) s in
            if ok then mkDispatch (mkExecuteResult (pl_target_hg plan) None) pkt p warmup
            else finish_declined_transaction_reader plan ctx pkt warmup p
      | REPLICA_WITH_WAIT | RETURN_ERROR => execute_wait_read plan ctx pkt p
      end.

(** ** The route pipeline *)










End Execute.

(** ** Theorems *)

(** The wait is an LSN wait that covers [lsn]. *)
Definition covers (lsn : Z) (spec : PolarDB_WaitSpec) : Prop :=
  wsp_type spec = WaitType_LSN /\ lsn <= wsp_target spec.

(** The reader has replayed [lsn]: the pool said so of the connection it gave
    out, or the retained connection last reported that position or a later one. *)
Definition reader_has (env : reader_env) (lsn : Z) : Prop :=
  (re_acquired env = true /\ re_wait_bypass_allowed env = true) \/
  (rn_payload_present (re_conn env) = true /\ lsn <= rn_lsn (re_conn env)).

(** The wait [spec] of an ordinary read or a transaction reader wait is in force
    in the session: recorded for reader selection, running on the transaction's
    reader, or replaced by the position of that reader. *)
Definition read_enforced (env : reader_env) (spec : PolarDB_WaitSpec) (s : PgSQL_Session) : Prop :=
  qs_reader_wait_spec (ss_query s) = spec \/
  (tr_wait_read_active (ss_reader s) = true /\
   polardb_wait_active s = true /\ wst_spec (qs_wait (ss_query s)) = spec) \/
  (tr_wait_read_active (ss_reader s) = true /\
   qs_wait_bypass_target (ss_query s) = wsp_target spec /\ reader_has env (wsp_target spec)).

(** A split read is in force: the text for the transaction's reader sets the
    exported XIDs first, then waits for [spec] unless that reader has it. *)
Definition split_enforced (env : reader_env) (spec : PolarDB_WaitSpec) (xids : string)
    (s : PgSQL_Session) : Prop :=
  tr_split_active (ss_reader s) = true /\ tr_wait_spec (ss_reader s) = spec /\
  exists n query settings,
    read_sets n (tr_wrapped_query (ss_reader s)) =
      Some (("polar_xact_split_xids"%string, xids) :: settings, query) /\
    (settings = wait_settings (mkWaitSpec (wsp_type spec) (wsp_target spec) (wsp_timeout_ms spec)
                                 WaitMode_STRICT) \/
     settings = [] /\ reader_has env (wsp_target spec)).

Definition wait_enforced (env : reader_env) (plan : PolarDB_Query_RoutePlan) (s : PgSQL_Session)
  : Prop :=
  if pl_action plan == REPLICA_TXN_SPLIT
  then split_enforced env (pl_wait_spec plan) (pl_txn_xids plan) s
  else read_enforced env (pl_wait_spec plan) s.

(** What the session holds protects a read that must see [lsn]: a recorded or a
    running wait that covers it, or the position of the transaction's reader; or
    the read is a split read that carries the XIDs of the open transaction and
    whose wait, or whose reader, covers the transaction's own position. *)
Inductive read_protected (env : reader_env) (lsn : Z) (s : PgSQL_Session) : Prop :=
| by_recorded_wait :
    covers lsn (qs_reader_wait_spec (ss_query s)) ->
    read_protected env lsn s
| by_running_wait :
    tr_wait_read_active (ss_reader s) = true -> polardb_wait_active s = true ->
    covers lsn (wst_spec (qs_wait (ss_query s))) ->
    read_protected env lsn s
| by_reader_position :
    tr_wait_read_active (ss_reader s) = true ->
    lsn <= qs_wait_bypass_target (ss_query s) ->
    reader_has env (qs_wait_bypass_target (ss_query s)) ->
    read_protected env lsn s
| by_split :
    ts_xids (ss_split s) <> EmptyString ->
    covers (ts_primary_lsn (ss_split s)) (tr_wait_spec (ss_reader s)) ->
    split_enforced env (tr_wait_spec (ss_reader s)) (ts_xids (ss_split s)) s ->
    read_protected env lsn s.


Lemma protected_less env lsn lsn' s :
  lsn' <= lsn -> read_protected env lsn s -> read_protected env lsn' s.
Proof.
  unfold covers. intros Hle H.
  destruct H as [[]|?? []|?? H|]; [apply by_recorded_wait|apply by_running_wait
    |apply by_reader_position|by apply by_split]; unfold covers; try done; try (split; [done|]); lia.
Qed.


(** What reader preparation leaves alone. *)
Definition same_session (s s' : PgSQL_Session) : Prop :=
  ss_consistency s' = ss_consistency s /\
  ss_degraded_warning_sent s' = ss_degraded_warning_sent s /\
  ss_ext s' = ss_ext s /\
  qs_request_writer_scope (ss_query s') = qs_request_writer_scope (ss_query s).

(** The transaction's position and XIDs are what they were. *)
Definition same_split (s s' : PgSQL_Session) : Prop :=
  ts_xids (ss_split s') = ts_xids (ss_split s) /\
  ts_primary_lsn (ss_split s') = ts_primary_lsn (ss_split s).

Ltac scope_kept :=
  intros;
  match goal with
  | |- qs_request_writer_scope _ = qs_request_writer_scope ?q => destruct q; reflexivity
  end.

Lemma same_session_refl s : same_session s s.
Proof. done. Qed.

Lemma same_session_trans a b c : same_session a b -> same_session b c -> same_session a c.
Proof. unfold same_session. intros (->&->&->&->) (->&->&->&->). done. Qed.

Lemma set_query_same f s :
  qs_request_writer_scope (f (ss_query s)) = qs_request_writer_scope (ss_query s) ->
  same_session s (set_query f s).
Proof. unfold set_query, same_session. simpl_upd. done. Qed.

Lemma release_same s : same_session s (polardb_release_txn_reader_backend s).
Proof.
  unfold polardb_release_txn_reader_backend, same_session.
  destruct s as [? ? [] ? ? ? ? ? [bk ? pb sa wr ? ? ? ? ? ? ? ?] ? ? ? ? ? ? ? ? ? ? ?]; cbn.
  destruct bk; [|done]. unfold txn_reader_active. cbn. destruct sa, wr, pb; done.
Qed.

Lemma select_backend_same env hg s : same_session s (select_reader_backend env hg s).
Proof.
  unfold select_reader_backend. cbn zeta.
  set (s1 := match tr_backend (ss_reader s) with Some _ => _ | None => _ end).
  assert (same_session s s1) as H1
    by (subst s1; destruct (tr_backend _); [case_if; [apply release_same|done]|done]).
  eapply same_session_trans; [exact H1|]. clearbody s1.
  destruct (tr_backend _); [done|]. case_if; [|done]. unfold same_session. simpl_upd. done.
Qed.

Lemma select_backend_split env hg s : same_split s (select_reader_backend env hg s).
Proof.
  unfold select_reader_backend. cbn zeta.
  set (s1 := match tr_backend (ss_reader s) with Some _ => _ | None => _ end).
  assert (same_split s s1) as H1.
  { subst s1. unfold same_split. destruct (tr_backend _); [|done].
    case_if; [by rewrite release_split|done]. }
  clearbody s1. destruct (tr_backend (ss_reader s1)); [done|]. case_if; [|done].
  unfold same_split in *. by simpl_upd.
Qed.

Lemma attach_same s : same_session s (attach_reader s).
Proof. unfold attach_reader, same_session. simpl_upd. done. Qed.

Lemma drop_same s : same_session s (drop_reader_connection s).
Proof. unfold drop_reader_connection, same_session. simpl_upd. done. Qed.

Lemma begin_wait_read_same hg sc now s :
  let s' := polardb_begin_txn_wait_read hg sc now s in
  same_session s s' /\ ss_query s' = ss_query s /\ tr_wait_read_active (ss_reader s') = true.
Proof.
  cbn zeta. unfold polardb_begin_txn_wait_read, polardb_begin_txn_reader_read, same_session.
  simpl_upd. done.
Qed.

Lemma begin_split_read_facts hg pkt wq sp rp sc n by_ now s :
  let s' := polardb_begin_txn_split_read hg pkt wq sp rp sc n by_ now s in
  same_session s s' /\ tr_split_active (ss_reader s') = true /\
  tr_wrapped_query (ss_reader s') = wq /\ tr_wait_spec (ss_reader s') = sp /\ same_split s s'.
Proof.
  cbn zeta. unfold polardb_begin_txn_split_read, polardb_begin_txn_reader_read, same_session,
    same_split, begin_split_read.
  simpl_upd. done.
Qed.

#[export] Hint Resolve same_session_refl set_query_same release_same select_backend_same
  attach_same drop_same : polar.
#[export] Hint Extern 1 (qs_request_writer_scope _ = qs_request_writer_scope _) =>
  scope_kept : polar.

(** A retained reader replaces the wait only when it has the target. *)
Lemma reused_reader_has th m env hg spec scope s :
  polardb_reused_txn_reader_can_bypass_wait th m env hg spec scope s = true ->
  reader_has env (wsp_target spec).
Proof.
  unfold polardb_reused_txn_reader_can_bypass_wait. cbn zeta.
  case_if; [done|]. destruct ((_ =? 0) || negb (rn_payload_present _)) eqn:Hp; [done|].
  destruct ((_ =? 0) || (_ <? _)) eqn:Hl; [done|]. intros _. right.
  apply orb_false_iff in Hp as [_ Hp], Hl as [_ Hl].
  apply negb_false_iff in Hp. apply Z.ltb_ge in Hl. done.
Qed.

Lemma prepare_wait_read_spec th m env now plan ctx pkt s :
  let '(ok, _, s', _) := polardb_prepare_txn_wait_read th m env now plan ctx pkt s in
  same_session s s' /\
  (ok = true -> has_wait (pl_wait_spec plan) = true -> read_enforced env (pl_wait_spec plan) s').
Proof.
  unfold polardb_prepare_txn_wait_read. cbn zeta.
  case_if; [split; [auto with polar|done]|].
  destruct (has_wait (pl_wait_spec plan) && match _ with None => _ | Some _ => _ end);
    [split; [auto with polar|done]|].
  pose proof (select_backend_same env (pl_target_hg plan) s) as Hsel.
  set (s1 := select_reader_backend _ _ _) in *. clearbody s1.
  destruct (tr_backend (ss_reader s1)); [|split; [done|done]].
  case_if; [split; done|].
  destruct (negb (tr_connected (ss_reader s1)) && negb (re_acquired env)) eqn:Hacq; [split; done|].
  assert (same_session s (if negb (tr_connected (ss_reader s1)) then attach_reader s1 else s1))
    as Hat by (case_if; [eapply same_session_trans; [done|auto with polar]|done]).
  set (bypass := if negb (tr_connected _) then _ && re_wait_bypass_allowed env else _).
  assert (Hby : bypass = true -> reader_has env (wsp_target (pl_wait_spec plan))).
  { subst bypass. intros Hb. destruct (tr_connected (ss_reader s1)); cbn [negb andb] in *;
      apply andb_prop in Hb as [_ Hb]; [by eapply reused_reader_has|].
    left. by apply negb_false_iff in Hacq. }
  clearbody bypass.
  set (s2 := if negb (tr_connected (ss_reader s1)) then attach_reader s1 else s1) in *.
  clearbody s2. case_if; [split; [eapply same_session_trans; [done|auto with polar]|done]|].
  set (s3 := if has_wait (pl_wait_spec plan) && _ then set_query reset_wait s2 else s2).
  assert (same_session s s3) as H3
    by (subst s3; case_if; [eapply same_session_trans; [done|auto with polar]|done]).
  clearbody s3.
  match goal with |- context [polardb_begin_txn_wait_read _ _ _ ?x] => set (s4 := x) end.
  assert (same_session s s4) as H4
    by (subst s4; repeat case_if; first [exact H3|
          eapply same_session_trans; [exact H3|auto with polar]]).
  destruct (begin_wait_read_same (pl_target_hg plan) (rc_writer_scope ctx) now s4) as (Hb&Hq&Ha).
  split; [by eapply same_session_trans|]. intros _ Hw. unfold read_enforced, polardb_wait_active.
  rewrite Ha, Hq. subst s4. rewrite Hw. cbn [andb]. destruct bypass; unfold set_query; simpl_upd.
  - right; right. unfold mark_wait_satisfied. simpl_upd. auto.
  - right; left. unfold begin_wait. simpl_upd. cbn. split_and!; [done..|].
    by destruct (pl_wait_spec plan).
Qed.

Lemma prepare_split_read_spec th m env now plan scope pkt s :
  let '(ok, _, s', _) := polardb_prepare_txn_split_read th m env now plan scope pkt s in
  same_session s s' /\
  (ok = true -> same_split s s' /\ split_enforced env (pl_wait_spec plan) (pl_txn_xids plan) s').
Proof.
  unfold polardb_prepare_txn_split_read. cbn zeta.
  destruct ((pl_target_hg plan <? 0) || _ || _); [split; [auto with polar|done]|].
  pose proof (select_backend_same env (pl_target_hg plan) s) as Hsel.
  pose proof (select_backend_split env (pl_target_hg plan) s) as Ksel.
  set (s1 := select_reader_backend _ _ _) in *. clearbody s1.
  destruct (tr_backend (ss_reader s1)); [|split; [done|done]].
  case_if; [split; done|].
  destruct (negb (tr_connected (ss_reader s1)) && _) eqn:Hacq; [split; done|].
  set (bypass := if negb (tr_connected _) then re_wait_bypass_allowed env else _).
  assert (Hby : bypass = true -> reader_has env (wsp_target (pl_wait_spec plan))).
  { subst bypass. intros Hb. destruct (tr_connected (ss_reader s1)); cbn [negb andb] in *;
      [by eapply reused_reader_has|]. left. by apply negb_false_iff in Hacq. }
  clearbody bypass.
  set (s2 := if negb (tr_connected (ss_reader s1)) then attach_reader s1 else s1).
  assert (same_session s s2 /\ same_split s s2) as [H2 K2].
  { subst s2. case_if; [|done]. split; [eapply same_session_trans; [done|auto with polar]|].
    unfold attach_reader, same_split in *. by simpl_upd. }
  clearbody s2. case_if; [split; [eapply same_session_trans; [done|auto with polar]|done]|].
  case_if; [split; [eapply same_session_trans; [done|auto with polar]|done]|].
  pose proof (split_wrapper_reads_back pkt (pl_wait_spec plan) (pl_txn_xids plan) bypass) as Hr.
  destruct (polardb_build_txn_split_wrapped_query _ _ _ _) as [n wq]. destruct Hr as [_ Hr].
  destruct (n =? 0) eqn:En; [split; [eapply same_session_trans; [done|auto with polar]|done]|].
  bool_to_prop. destruct (Hr En) as (query&_&Hread).
  match goal with |- context [polardb_begin_txn_split_read ?a ?b ?c ?d ?e ?f ?g ?h ?i s2] =>
    destruct (begin_split_read_facts a b c d e f g h i s2) as (F1&F2&F3&F4&F5);
    set (s3 := polardb_begin_txn_split_read a b c d e f g h i s2) in * end.
  clearbody s3. split.
  - eapply same_session_trans; [exact H2|]. eapply same_session_trans; [exact F1|].
    case_if; auto with polar.
  - intros _. unfold same_split, split_enforced in *. destruct K2, F5.
    destruct bypass; unfold set_query; simpl_upd; rewrite F3;
      (split; [split; congruence|]; split; [done|]; split; [done|]; do 3 eexists;
       split; [exact Hread|]); auto.
Qed.

(** Only a plan that keeps its reader asks for a transaction reader wait. *)
Definition txn_wait_consistent (plan : PolarDB_Query_RoutePlan) : Prop :=
  pl_txn_wait_read plan = true ->
  pl_action plan = PASSTHROUGH \/ pl_action plan = REPLICA_WITH_WAIT.






Lemma execute_cases th frame status env now plan ctx pkt p :
  let d := polardb_execute th frame status env now plan ctx pkt p in
  let s' := px_session (di_proxy d) in
  er_return_error (di_result d) = None ->
  same_session (px_session p) s' /\
  (txn_wait_consistent plan ->
   er_final_target_hg (di_result d) = ws_hg (rc_writer_scope ctx) \/
   er_final_target_hg (di_result d) = pl_target_hg plan /\
     pl_action plan <> RETURN_ERROR /\ pl_action plan <> FORCE_PRIMARY /\
     (has_wait (pl_wait_spec plan) = true -> pl_action plan <> PASSTHROUGH ->
      ss_wait_disabled (px_session p) = false /\ wait_enforced env plan s' /\
      (pl_action plan = REPLICA_TXN_SPLIT -> same_split (px_session p) s'))).
Proof.
  cbn zeta. unfold polardb_execute. cbn zeta.
  case_if; [intros _; split; [apply same_session_refl|by left]|].
  set (p1 := with_session p _).
  assert (same_session (px_session p) (px_session p1) /\
    ss_wait_disabled (px_session p1) = ss_wait_disabled (px_session p) /\
    ss_split (px_session p1) = ss_split (px_session p)) as (H1&Hd&Hsp)
    by (split; [apply set_query_same; scope_kept|subst p1; cbn; unfold set_query; by simpl_upd]).
  clearbody p1. rewrite <- Hd. unfold wait_enforced. case_if; [done|]. bool_to_prop.
  assert (Hdecl : forall pkt' w p', same_session (px_session p) (px_session p') ->
    let d := finish_declined_transaction_reader th frame status now plan ctx pkt' w p' in
    er_return_error (di_result d) = None ->
    same_session (px_session p) (px_session (di_proxy d)) /\
    er_final_target_hg (di_result d) = ws_hg (rc_writer_scope ctx)).
  { intros pkt' w p' Hs. cbn zeta. unfold finish_declined_transaction_reader.
    case_if; [done|]. intros _. by split. }
  destruct (pl_txn_wait_read plan) eqn:Htxn.
  { destruct (ss_wait_disabled (px_session p1)) eqn:Hwd;
      [intros He; destruct (Hdecl pkt None p1 H1 He); auto|].
    pose proof (prepare_wait_read_spec th (px_hgm p1) env now plan ctx pkt (px_session p1)) as Hp.
    destruct (polardb_prepare_txn_wait_read _ _ _ _ _ _ _ _) as [[[ok pkt'] s'] wu].
    destruct Hp as [Hs Hw]. pose proof (same_session_trans _ _ _ H1 Hs) as Hs'.
    destruct ok; [|intros He; destruct (Hdecl pkt' wu (mkProxy (px_hgm p1) (px_worker p1) s') Hs' He);
                   auto].
    intros _. cbn. split; [done|]. intros Htw. right. split; [done|].
    destruct (Htw Htxn) as [Ha|Ha]; rewrite Ha; (split; [done|]; split; [done|]); [done|].
    intros ? _. split_and!; [done|by apply Hw|done]. }
  destruct (pl_action plan) eqn:Ha; try done.
  - intros _. cbn. split; [eapply same_session_trans; [done|auto with polar]|]. intros _. right.
    by split_and!.
  - unfold execute_wait_read. cbn zeta. clear E.
    destruct (negb (rc_is_extended_protocol ctx) && _); [intros _; split; [exact H1|by left]|].
    destruct (rc_is_extended_protocol ctx && _); [intros _; split; [exact H1|by left]|].
    destruct (ss_wait_disabled (px_session p1)) eqn:Hwd; [intros _; split; [exact H1|by left]|].
    intros _. cbn. split; [eapply same_session_trans; [done|auto with polar]|]. intros _. right.
    split_and!; try done. intros _ _. split_and!; [done| |done].
    left. unfold set_query. by simpl_upd.
  - intros _. cbn. split; [done|by left].
  - destruct (ss_wait_disabled (px_session p1)) eqn:Hwd;
      [intros He; destruct (Hdecl pkt None p1 H1 He); auto|].
    pose proof (prepare_split_read_spec th (px_hgm p1) env now plan (rc_writer_scope ctx) pkt
      (px_session p1)) as Hp.
    destruct (polardb_prepare_txn_split_read _ _ _ _ _ _ _ _) as [[[ok pkt'] s'] wu].
    destruct Hp as [Hs Hw]. pose proof (same_session_trans _ _ _ H1 Hs) as Hs'.
    destruct ok; [|intros He; destruct (Hdecl pkt' wu (mkProxy (px_hgm p1) (px_worker p1) s') Hs' He);
                   auto].
    intros _. cbn. split; [done|]. intros _. right. split_and!; [done..|]. intros _ _.
    destruct (Hw eq_refl) as [Hk Hw']. split_and!; [done|by case_decide|]. intros _.
    unfold same_split in *. by rewrite <- Hsp.
Qed.






(** A pool that has nothing to offer, and a session on the writer that wrote at
    800. *)
Definition idle_env : reader_env :=
  mkReaderEnv false false false false
    (mkReaderConn false false false false false 0 0 (from_protocol Protocol_OFF) 0 false 0)
    false false.

Definition idle_frame : ExtendedQueryFrame := mkFrame false false false false true false false.

Definition sample_packet : PtrSize_t := st_pkt (replace_simple_query_packet 4096 "SELECT 1").




(** Once a wrapper could not be built, the session's protected reads stay on
    the writer: with waits disabled, no plan that carries a wait is dispatched
    to its reader, whether it is an ordinary wait read, a transaction reader
    wait or a split read. *)
Theorem disabled_waits_stay_on_writer th frame status env now plan ctx pkt p :
  let d := polardb_execute th frame status env now plan ctx pkt p in
  ss_wait_disabled (px_session p) = true ->
  has_wait (pl_wait_spec plan) = true ->
  pl_action plan = REPLICA_WITH_WAIT \/ pl_action plan = REPLICA_TXN_SPLIT ->
  (pl_txn_wait_read plan = true -> pl_action plan = REPLICA_WITH_WAIT) ->
  er_return_error (di_result d) = None ->
  er_final_target_hg (di_result d) = ws_hg (rc_writer_scope ctx).
Proof.
  cbn zeta. intros Hd Hw Ha Htx He.
  destruct (execute_cases th frame status env now plan ctx pkt p He) as [_ [?|(_&_&_&H)]];
    [by intros ?; right; apply Htx|done|].
  destruct H as [H _]; [done|destruct Ha; congruence|congruence].
Qed.

Lemma disabled_waits_stay_on_writer_witness :
  let plan := polardb_plan 0 sample_hgm (sample_ctx Mode_SESSION_LSN false) in
  let p := with_session sample_proxy (fun s => s <| ss_wait_disabled := true |>) in
  er_final_target_hg (di_result (polardb_execute sample_thread idle_frame PROCESSING_QUERY
    idle_env 5 plan (sample_ctx Mode_SESSION_LSN false) sample_packet p)) = 10.
Proof.
  apply (disabled_waits_stay_on_writer sample_thread idle_frame PROCESSING_QUERY idle_env 5
    (polardb_plan 0 sample_hgm (sample_ctx Mode_SESSION_LSN false))
    (sample_ctx Mode_SESSION_LSN false) sample_packet
    (with_session sample_proxy (fun s => s <| ss_wait_disabled := true |>)));
    vm_compute; auto.
Defined.

(** What the end of a failed request leaves of the session's positions. *)
Definition positions_survive (c c' : PolarDB_SessionConsistency) : Prop :=
  sc_writer_scope c' = sc_writer_scope c /\ sc_write_lsn c' = sc_write_lsn c /\
  sc_observed_lsn c' = sc_observed_lsn c /\
  (sc_write_unknown c = true -> sc_write_unknown c' = true) /\
  sc_observed_unknown c' = sc_observed_unknown c.

Lemma positions_survive_refl c : positions_survive c c.
Proof. by split_and!. Qed.

Lemma positions_survive_trans a b c :
  positions_survive a b -> positions_survive b c -> positions_survive a c.
Proof.
  unfold positions_survive. intros (->&->&->&H1&->) (->&->&->&H2&->). split_and!; auto.
Qed.

Lemma survive_eq s s' :
  ss_consistency s' = ss_consistency s ->
  positions_survive (ss_consistency s) (ss_consistency s').
Proof. intros ->. apply positions_survive_refl. Qed.

Lemma mark_unknown_survive s :
  positions_survive (ss_consistency s) (ss_consistency (mark_write_unknown s)).
Proof. unfold mark_write_unknown. simpl_upd. destruct (ss_consistency s). by split_and!. Qed.

Lemma abandon_survive s :
  positions_survive (ss_consistency s)
    (ss_consistency (polardb_abandon_deferred_extended_rfq s)).
Proof.
  unfold polardb_abandon_deferred_extended_rfq. cbn zeta. simpl_upd.
  case_if; [apply mark_unknown_survive|apply positions_survive_refl].
Qed.

Lemma reconcile_end_survive s :
  ss_consistency (polardb_reconcile_txn_wait_read_end s) = ss_consistency s.
Proof.
  unfold polardb_reconcile_txn_wait_read_end, polardb_release_txn_wait_read.
  repeat (case_if; try done); apply release_same.
Qed.

Lemma reset_query_empty q : reset_for_new_query q = empty_query.
Proof. by destruct q. Qed.

Lemma return_error_effect th frame status now p :
  let p' := polardb_return_consistency_error th frame status now p in
  ss_query (px_session p') = empty_query /\
  positions_survive (ss_consistency (px_session p)) (ss_consistency (px_session p')).
Proof.
  cbn zeta. unfold polardb_return_consistency_error, RequestEnd,
    polardb_clear_request_state_for_query_end. cbn zeta.
  set (p1 := with_session p _).
  assert (positions_survive (ss_consistency (px_session p)) (ss_consistency (px_session p1))) as H1.
  { subst p1. cbn.
    match goal with
    | |- context [if ?b then polardb_abandon_deferred_extended_rfq ?s else ?e] =>
        set (s1 := if b then polardb_abandon_deferred_extended_rfq s else e)
    end.
    assert (positions_survive (ss_consistency (px_session p)) (ss_consistency s1)) as H1.
    { subst s1. case_if; [apply abandon_survive|]. case_if; [|apply positions_survive_refl].
      simpl_upd. case_if; [apply mark_unknown_survive|apply positions_survive_refl]. }
    eapply positions_survive_trans; [exact H1|]. clearbody s1. apply survive_eq.
    case_if; [rewrite reconcile_end_survive|]; by simpl_upd. }
  clearbody p1.
  assert (ss_consistency (px_session (polardb_finish_wait now None p1)) =
          ss_consistency (px_session p1)) as H2.
  { unfold polardb_finish_wait. cbn zeta. case_if; [done|]. cbn. by simpl_upd. }
  unfold polardb_extended_request_continues. cbn. simpl_upd. rewrite H2.
  split; [apply reset_query_empty|exact H1].
Qed.

(** An error of the execution is [polardb_return_consistency_error] on a session
    that reader preparation may have touched. *)
Definition ends_in_error th frame status now (p : proxy) (d : dispatch) : Prop :=
  er_final_target_hg (di_result d) = -1 /\
  exists p0, same_session (px_session p) (px_session p0) /\
    di_proxy d = polardb_return_consistency_error th frame status now p0.

Lemma declined_error th frame status now plan ctx pkt w p p0 :
  same_session (px_session p0) (px_session p) ->
  let d := finish_declined_transaction_reader th frame status now plan ctx pkt w p in
  er_return_error (di_result d) <> None -> ends_in_error th frame status now p0 d.
Proof.
  cbn zeta. unfold finish_declined_transaction_reader. case_if; [|done]. intros Hs _.
  split; [done|]. by exists p.
Qed.

Lemma execute_error th frame status env now plan ctx pkt p :
  let d := polardb_execute th frame status env now plan ctx pkt p in
  er_return_error (di_result d) <> None -> ends_in_error th frame status now p d.
Proof.
  cbn zeta. unfold polardb_execute. cbn zeta. case_if; [done|].
  set (p1 := with_session p _).
  assert (same_session (px_session p) (px_session p1)) as H1
    by (apply set_query_same; scope_kept).
  clearbody p1. case_if; [intros _; split; [done|by exists p1]|].
  destruct (pl_txn_wait_read plan).
  { case_if; [by apply declined_error|].
    pose proof (prepare_wait_read_spec th (px_hgm p1) env now plan ctx pkt (px_session p1)) as Hp.
    destruct (polardb_prepare_txn_wait_read _ _ _ _ _ _ _ _) as [[[ok pkt'] s'] wu].
    destruct Hp as [Hs _]. destruct ok; [done|].
    apply declined_error. by eapply same_session_trans. }
  destruct (pl_action plan); try done.
  { unfold execute_wait_read. cbn zeta. by repeat case_if. }
  case_if; [by apply declined_error|].
  pose proof (prepare_split_read_spec th (px_hgm p1) env now plan (rc_writer_scope ctx) pkt
    (px_session p1)) as Hp.
  destruct (polardb_prepare_txn_split_read _ _ _ _ _ _ _ _) as [[[ok pkt'] s'] wu].
  destruct Hp as [Hs _]. destruct ok; [done|].
  apply declined_error. by eapply same_session_trans.
Qed.

(** C38: A consistency error ends the request.  Whenever executing a plan
    reports an error to the client - an error plan, or a transaction reader
    that is declined while falling back to the writer is forbidden - no target
    hostgroup is chosen, nothing of the request's wait, reader plan, writer
    scope or wrapper survives, and the session keeps its positions, their
    writer scope and every mark that a write position is unknown. *)
Theorem consistency_error_ends_request th frame status env now plan ctx pkt p :
  let d := polardb_execute th frame status env now plan ctx pkt p in
  er_return_error (di_result d) <> None ->
  er_final_target_hg (di_result d) = -1 /\
  ss_query (px_session (di_proxy d)) = empty_query /\
  positions_survive (ss_consistency (px_session p)) (ss_consistency (px_session (di_proxy d))).
Proof.
  cbn zeta. intros He.
  destruct (execute_error th frame status env now plan ctx pkt p He) as (Ht&p0&(Hc&_)&Hp).
  rewrite Hp, <- Hc. split; [done|]. apply return_error_effect.
Qed.

Definition sample_error_plan : PolarDB_Query_RoutePlan :=
  polardb_plan 0 sample_hgm (sample_ctx Mode_SESSION_LSN false)
    <| pl_action := RETURN_ERROR |> <| pl_action_reason := INVALID_POLICY |>.

Lemma consistency_error_ends_request_witness :
  exists d,
    er_return_error (di_result d) = Some INVALID_POLICY /\
    ss_query (px_session (di_proxy d)) = empty_query.
Proof.
  exists (polardb_execute sample_thread idle_frame PROCESSING_QUERY idle_env 5
            sample_error_plan (sample_ctx Mode_SESSION_LSN false) sample_packet sample_proxy).
  split; [vm_compute; reflexivity|].
  apply (consistency_error_ends_request sample_thread idle_frame PROCESSING_QUERY idle_env 5
    sample_error_plan (sample_ctx Mode_SESSION_LSN false) sample_packet sample_proxy).
  vm_compute. discriminate.
Defined.
