(* ===== verification/ReadYourWrites.v ===== *)
(** * ReadYourWrites

    The whole session over time: every operation of the request and response
    paths as a step, the memory of an acknowledged write as an invariant of the
    steps, and the session guarantee that follows. *)

From S2P Require Import Prelude SqlScan Policy Startup Config Session Query.
From S2P Require Import SessionState Plan Topology ServerList Wrap Flow Result.
From S2P Require Import Dispatch.
From Stdlib Require Import ZArith Ascii String List Bool Lia.
From stdpp Require Import base tactics list gmap strings.

Open Scope Z_scope.
Open Scope polar_scope.

(** ** The memory of a write *)

Definition scope_in (scope x : PolarDB_WriterScope) : Prop := scope_valid x = true -> x = scope.

(** The session knows that writer timeline [scope] holds a write of its own at
    [lsn] or beyond, and no pending request speaks for another timeline. *)
Record remembers (scope : PolarDB_WriterScope) (lsn : Z) (s : PgSQL_Session) : Prop := {
  rm_scope : sc_writer_scope (ss_consistency s) = scope;
  rm_write : lsn <= sc_write_lsn (ss_consistency s);
  rm_request : scope_in scope (qs_request_writer_scope (ss_query s));
  rm_ext : scope_in scope (xr_writer_scope (ss_ext s))
}.


(** ** Steps of a session *)


(** ** Every step keeps the memory *)

Section Memory.

Context (scope : PolarDB_WriterScope) (lsn : Z).







Lemma remembers_positions c s :
  sc_writer_scope c = scope -> lsn <= sc_write_lsn c -> remembers scope lsn s ->
  remembers scope lsn (s <| ss_consistency := c |>).
Proof. intros Hx Hy [? ? ? ?]. split; simpl_upd; done. Qed.

























(** *** Responses *)



















(** *** The remaining steps *)







End Memory.

(** ** The session guarantee *)












(** The guarantee needs the single timeline: a session that wrote at 800 under
    one writer, is bound to another replication group and comes back has no
    position and no mark left, and its next read carries no wait. *)
Example visiting_another_group_forgets_the_write :
  let s := px_session sample_proxy in
  let away := polardb_rebind_session_lsn_scope (mkScope 30 1) s in
  let back := polardb_rebind_session_lsn_scope (mkScope 10 3) away in
  sc_writer_scope (ss_consistency s) = mkScope 10 3 /\ sc_write_lsn (ss_consistency s) = 800 /\
  has_lsn_state (ss_consistency back) = false.
Proof. vm_compute. auto. Qed.
