(* ===== verification/Failure.v ===== *)
(** * Reader failures: what is captured and what the policy decides

    The first half of lib/PgSQL_PolarDB_Failure.cpp: the snapshot of a failed
    backend request, its classification, the recovery the configured actions
    select, and what is left of the writer side of a transaction. *)

From S2P Require Import Prelude SqlScan Policy Startup Config Session Query.
From S2P Require Import SessionState Plan Topology ServerList Wrap Flow Result.
From Stdlib Require Import ZArith Ascii String List Bool Lia.
From stdpp Require Import base tactics list gmap strings.

Open Scope Z_scope.
Open Scope polar_scope.

(** ** Enumerations *)

Inductive PolarDB_FailureAction :=
| FailureAction_PASSTHROUGH | FailureAction_RETRY | FailureAction_FORWARD
| FailureAction_TERMINATE.

#[global] Instance FailureAction_eq_dec : EqDecision PolarDB_FailureAction.
Proof. solve_decision. Defined.

Inductive PolarDB_ReaderAction :=
| ReaderAction_RETRY | ReaderAction_RETURN_ERROR | ReaderAction_DISCONNECT_CLIENT.

#[global] Instance ReaderAction_eq_dec : EqDecision PolarDB_ReaderAction.
Proof. solve_decision. Defined.

Inductive PolarDB_ReaderFailureKind :=
| CONNECTION_LOST | WAIT_TIMEOUT | REUSABLE_ERROR | QUERY_CANCELED.

#[global] Instance ReaderFailureKind_eq_dec : EqDecision PolarDB_ReaderFailureKind.
Proof. solve_decision. Defined.

Inductive PolarDB_RetryTarget := RetryTarget_WRITER | RetryTarget_OTHER_READER.

#[global] Instance RetryTarget_eq_dec : EqDecision PolarDB_RetryTarget.
Proof. solve_decision. Defined.

Inductive PolarDB_WriterState := WriterState_LIVE | WriterState_NOT_STARTED | WriterState_LOST.

#[global] Instance WriterState_eq_dec : EqDecision PolarDB_WriterState.
Proof. solve_decision. Defined.

Inductive PolarDB_ReaderRequestKind :=
| RequestKind_NONE | RequestKind_ORDINARY | RequestKind_WAIT | RequestKind_SPLIT.

#[global] Instance ReaderRequestKind_eq_dec : EqDecision PolarDB_ReaderRequestKind.
Proof. solve_decision. Defined.

Definition POLARDB_READER_RETRY_LIMIT : Z := 1.

(** The positions of the enumerators of PGSQL_ERROR_CODES. *)
Definition ERRCODE_CONNECTION_FAILURE : Z := 14.
Definition ERRCODE_QUERY_CANCELED : Z := 192.

(** ** Connections and streams *)

Inductive PGTransactionStatusType :=
| PQTRANS_IDLE | PQTRANS_ACTIVE | PQTRANS_INTRANS | PQTRANS_INERROR | PQTRANS_UNKNOWN.

#[global] Instance PGTransactionStatusType_eq_dec : EqDecision PGTransactionStatusType.
Proof. solve_decision. Defined.

Inductive PG_ASYNC_ST := ASYNC_IDLE | ASYNC_QUERY_END | ASYNC_QUERY_TIMEOUT | ASYNC_OTHER.

#[global] Instance PG_ASYNC_ST_eq_dec : EqDecision PG_ASYNC_ST.
Proof. solve_decision. Defined.

(** [conn->parent]: the hostgroup the server belongs to, when it is attached
    to one, its address and its port. *)
Record conn_parent := mkParent { pa_hid : option Z; pa_address : cstr; pa_port : Z }.

(** What failure handling reads of a backend connection.
    [vc_transfer_started] is a query result some of which was already sent. *)
Record backend_conn := mkBackendConn {
  vc_connected : bool;
  vc_error_present : bool;
  vc_error_code : Z;
  vc_error_message : string;
  vc_txn_status : PGTransactionStatusType;
  vc_unknown_txn : bool;
  vc_pipeline : bool;
  vc_multiplex_disabled : bool;
  vc_reusable : bool;
  vc_async : PG_ASYNC_ST;
  vc_transfer_started : bool;
  vc_wrapper_set_failed : bool;
  vc_consuming_wrapper_set : bool;
  vc_consistency_wait : bool;
  vc_parent : option conn_parent
}.

#[global] Instance upd_vc_unknown_txn : Update vc_unknown_txn.
Proof. derive_update. Defined.
#[global] Instance upd_vc_reusable : Update vc_reusable.
Proof. derive_update. Defined.
#[global] Instance upd_vc_async : Update vc_async.
Proof. derive_update. Defined.
#[global] Instance upd_vc_transfer_started : Update vc_transfer_started.
Proof. derive_update. Defined.

Definition is_connection_in_reusable_state (conn : backend_conn) : bool :=
  negb ((vc_txn_status conn == PQTRANS_UNKNOWN) || (vc_txn_status conn == PQTRANS_ACTIVE)).

(** In pipeline mode the session's own transaction tracking decides. *)
Definition IsKnownActiveTransaction (in_transaction : bool) (conn : backend_conn) : bool :=
  (vc_txn_status conn == PQTRANS_INTRANS) || (vc_txn_status conn == PQTRANS_INERROR) ||
  (vc_pipeline conn && in_transaction).

Definition IsActiveTransaction (in_transaction : bool) (conn : backend_conn) : bool :=
  IsKnownActiveTransaction in_transaction conn ||
  (vc_error_present conn && vc_unknown_txn conn).

Definition compute_unknown_transaction_status (conn : backend_conn) : backend_conn :=
  if negb (vc_error_present conn) then conn <| vc_unknown_txn := false |>
  else if negb (vc_connected conn) then conn <| vc_unknown_txn := true |>
  else match vc_txn_status conn with
       | PQTRANS_INTRANS | PQTRANS_INERROR | PQTRANS_ACTIVE => conn <| vc_unknown_txn := true |>
       | _ => conn
       end.

Definition async_free_result (conn : backend_conn) : backend_conn :=
  compute_unknown_transaction_status conn
    <| vc_async := ASYNC_IDLE |> <| vc_transfer_started := false |>.

Definition polardb_failed_connection_is_reusable (conn : backend_conn) : bool :=
  vc_connected conn && vc_error_present conn && is_connection_in_reusable_state conn.

Definition polardb_failed_connection_is_poolable (in_transaction : bool) (conn : backend_conn)
  : bool :=
  vc_reusable conn && polardb_failed_connection_is_reusable conn &&
  negb (IsActiveTransaction in_transaction conn) && negb (vc_multiplex_disabled conn) &&
  negb (vc_pipeline conn).

(** The server stream of one backend of the session. *)
Record backend_stream := mkBackendStream {
  bs_conn : option backend_conn;
  bs_query : PgSQL_Data_Stream;
  bs_query_retries : Z;
  bs_connect_retries : Z;
  bs_max_connect_time : Z;
  bs_wait_until : Z;
  bs_killed_at : Z;
  bs_kill_type : Z;
  bs_cancel_query : bool
}.

#[global] Instance upd_bs_conn : Update bs_conn.
Proof. derive_update. Defined.
#[global] Instance upd_bs_query : Update bs_query.
Proof. derive_update. Defined.
#[global] Instance upd_bs_query_retries : Update bs_query_retries.
Proof. derive_update. Defined.
#[global] Instance upd_bs_connect_retries : Update bs_connect_retries.
Proof. derive_update. Defined.
#[global] Instance upd_bs_max_connect_time : Update bs_max_connect_time.
Proof. derive_update. Defined.
#[global] Instance upd_bs_wait_until : Update bs_wait_until.
Proof. derive_update. Defined.
#[global] Instance upd_bs_killed_at : Update bs_killed_at.
Proof. derive_update. Defined.
#[global] Instance upd_bs_kill_type : Update bs_kill_type.
Proof. derive_update. Defined.
#[global] Instance upd_bs_cancel_query : Update bs_cancel_query.
Proof. derive_update. Defined.

Definition no_query : PgSQL_Data_Stream := mkStream None None.
Definition new_stream : backend_stream := mkBackendStream None no_query 0 0 0 0 0 0 false.

(** [mybes]: the backends of a session, each known by its hostgroup. *)
Notation backends := (gmap Z backend_stream).

(** ** The captured outcome *)

(** A backend, and its stream, is named by the hostgroup it is stored under. *)
Record PolarDB_RequestOutcome := mkOutcome {
  oc_result_started : bool;
  oc_reusable : bool;
  oc_can_return_to_pool : bool;
  oc_connected : bool;
  oc_timeout_error : bool;
  oc_timeout_already_accounted : bool;
  oc_wrapper_set_failure : bool;
  oc_wrapper_is_consistency_wait : bool;
  oc_backend_hg : Z;
  oc_backend_address : string;
  oc_backend_port : Z;
  oc_backend_error_code : Z;
  oc_error_message : string;
  oc_backend : option Z;
  oc_backend_myds : option Z
}.

Definition empty_outcome : PolarDB_RequestOutcome :=
  mkOutcome false false false false false false false false (-1) "" 0 (-1) "" None None.

Definition polardb_truncate_error_message (message : string) : string :=
  if Nat.leb (String.length message) 512 then message else substring 0 512 message.

Definition polardb_request_has_wait_timeout_evidence (structured_timeout : bool) : bool :=
  structured_timeout.

Definition polardb_capture_request_outcome (streams : backends) (s : PgSQL_Session)
    (backend : option Z) : PolarDB_RequestOutcome :=
  match backend with
  | None => empty_outcome
  | Some be =>
      match streams !! be with
      | None => mkOutcome false false false false false false false false be "" 0 (-1) ""
                  (Some be) None
      | Some myds =>
          match bs_conn myds with
          | None => mkOutcome false false false false false false false false be "" 0 (-1) ""
                      (Some be) (Some be)
          | Some conn =>
              let w := qs_wait (ss_query s) in
              let r := ss_reader s in
              let timeout_error :=
                polardb_request_has_wait_timeout_evidence (wst_timeout_error w) in
              let set_failure := vc_wrapper_set_failed conn || vc_consuming_wrapper_set conn in
              let split_timeout :=
                set_failure && tr_split_active r && bool_decide (Some be = tr_backend r) &&
                tr_wait_timeout_error r in
              let '(hg, address, port) :=
                match vc_parent conn with
                | None => (be, EmptyString, 0)
                | Some pa =>
                    (match pa_hid pa with Some hid => hid | None => be end,
                     match pa_address pa with Some a => a | None => EmptyString end, pa_port pa)
                end in
              mkOutcome (vc_transfer_started conn)
                (polardb_failed_connection_is_reusable conn)
                (polardb_failed_connection_is_poolable (ss_in_transaction s) conn)
                (vc_connected conn)
                (timeout_error || split_timeout)
                ((timeout_error && (wst_wait_started_at_us w =? 0)) || split_timeout)
                set_failure (vc_consistency_wait conn) hg address port (vc_error_code conn)
                (polardb_truncate_error_message (vc_error_message conn)) (Some be) (Some be)
          end
      end
  end.

(** ** The failure record *)

Record PolarDB_ReaderFailure := mkReaderFailure {
  rf_request_kind : PolarDB_ReaderRequestKind;
  rf_extended_query : bool;
  rf_wait_was_bypassed : bool;
  rf_timeout : bool;
  rf_reusable : bool;
  rf_result_started : bool;
  rf_connected : bool;
  rf_has_backend_error : bool;
  rf_timeout_already_accounted : bool;
  rf_wrapper_set_failure : bool;
  rf_wrapper_is_consistency_wait : bool;
  rf_can_return_to_pool : bool;
  rf_reader_hg : Z;
  rf_reader_address : string;
  rf_reader_port : Z;
  rf_fallback_writer_hg : Z;
  rf_reader_backend : option Z;
  rf_failed_myds : option Z;
  rf_retry_pkt : PtrSize_t;
  rf_reader_plan : PolarDB_Query_ReaderPlan;
  rf_wait_spec : PolarDB_WaitSpec;
  rf_writer_scope : PolarDB_WriterScope;
  rf_txn_xids : string;
  rf_retry_query : string;
  rf_backend_error_code : Z;
  rf_backend_error_message : string
}.

#[global] Instance upd_rf_request_kind : Update rf_request_kind.
Proof. derive_update. Defined.
#[global] Instance upd_rf_extended_query : Update rf_extended_query.
Proof. derive_update. Defined.
#[global] Instance upd_rf_wait_was_bypassed : Update rf_wait_was_bypassed.
Proof. derive_update. Defined.
#[global] Instance upd_rf_fallback_writer_hg : Update rf_fallback_writer_hg.
Proof. derive_update. Defined.
#[global] Instance upd_rf_reader_backend : Update rf_reader_backend.
Proof. derive_update. Defined.
#[global] Instance upd_rf_failed_myds : Update rf_failed_myds.
Proof. derive_update. Defined.
#[global] Instance upd_rf_retry_pkt : Update rf_retry_pkt.
Proof. derive_update. Defined.
#[global] Instance upd_rf_reader_plan : Update rf_reader_plan.
Proof. derive_update. Defined.
#[global] Instance upd_rf_wait_spec : Update rf_wait_spec.
Proof. derive_update. Defined.
#[global] Instance upd_rf_writer_scope : Update rf_writer_scope.
Proof. derive_update. Defined.
#[global] Instance upd_rf_txn_xids : Update rf_txn_xids.
Proof. derive_update. Defined.
#[global] Instance upd_rf_retry_query : Update rf_retry_query.
Proof. derive_update. Defined.

Definition is_ordinary (f : PolarDB_ReaderFailure) : bool :=
  rf_request_kind f == RequestKind_ORDINARY.
Definition is_wait (f : PolarDB_ReaderFailure) : bool := rf_request_kind f == RequestKind_WAIT.
Definition is_split (f : PolarDB_ReaderFailure) : bool := rf_request_kind f == RequestKind_SPLIT.

Definition polardb_failure_from_outcome (o : PolarDB_RequestOutcome) : PolarDB_ReaderFailure :=
  mkReaderFailure RequestKind_NONE false false (oc_timeout_error o) (oc_reusable o)
    (oc_result_started o) (oc_connected o) (oc_error_message o != EmptyString)
    (oc_timeout_already_accounted o) (oc_wrapper_set_failure o)
    (oc_wrapper_is_consistency_wait o) (oc_can_return_to_pool o) (oc_backend_hg o)
    (oc_backend_address o) (oc_backend_port o) (-1) (oc_backend o) (oc_backend_myds o) None
    empty_reader_plan no_wait no_scope "" ""
    (if 0 <=? oc_backend_error_code o then oc_backend_error_code o
     else ERRCODE_CONNECTION_FAILURE) (oc_error_message o).

(** Takes the client packet of a split read out of the session. *)
Definition polardb_take_reader_failure (o : PolarDB_RequestOutcome) (s : PgSQL_Session)
  : PolarDB_ReaderFailure * PgSQL_Session :=
  let failure := polardb_failure_from_outcome o in
  let r := ss_reader s in
  if tr_split_active r && bool_decide (rf_reader_backend failure = tr_backend r)
  then
    (failure <| rf_request_kind := RequestKind_SPLIT |>
             <| rf_retry_pkt := tr_original_pkt r |>
             <| rf_reader_plan := qs_reader_plan (ss_query s) |>
             <| rf_wait_spec := tr_wait_spec r |>
             <| rf_writer_scope := tr_writer_scope r |>
             <| rf_txn_xids := ts_xids (ss_split s) |>,
     s <| ss_reader := r <| tr_original_pkt := None |> |>)
  else (failure, s).

(** ** Classification and policy *)

Definition polardb_reader_failure_kind_for (failure : PolarDB_ReaderFailure)
  : PolarDB_ReaderFailureKind :=
  if rf_timeout failure then WAIT_TIMEOUT
  else if rf_backend_error_code failure =? ERRCODE_QUERY_CANCELED then QUERY_CANCELED
  else if negb (rf_reusable failure) then CONNECTION_LOST
  else REUSABLE_ERROR.

Record PolarDB_ReaderFailureDecision := mkDecision {
  dn_kind : PolarDB_ReaderFailureKind;
  dn_action : PolarDB_ReaderAction;
  dn_retry_target : PolarDB_RetryTarget;
  dn_reader_failure_route : PolarDB_ReaderFailureRoute;
  dn_allow_writer_retry : bool
}.

#[global] Instance ReaderFailureDecision_eq_dec : EqDecision PolarDB_ReaderFailureDecision.
Proof. solve_decision. Defined.

#[global] Instance upd_dn_action : Update dn_action.
Proof. derive_update. Defined.
#[global] Instance upd_dn_retry_target : Update dn_retry_target.
Proof. derive_update. Defined.
#[global] Instance upd_dn_reader_failure_route : Update dn_reader_failure_route.
Proof. derive_update. Defined.
#[global] Instance upd_dn_allow_writer_retry : Update dn_allow_writer_retry.
Proof. derive_update. Defined.

Definition decide_connection_lost (failure : PolarDB_ReaderFailure)
    (reader_retry_attempts : Z) (d : PolarDB_ReaderFailureDecision)
  : PolarDB_ReaderFailureDecision :=
  let action :=
    polardb_replica_loss_action_from_int (rd_replica_loss_action (rf_reader_plan failure)) in
  let d :=
    match action with
    | ReplicaLoss_REPLICA_THEN_PRIMARY | ReplicaLoss_PRIMARY =>
        d <| dn_action := ReaderAction_RETRY |>
    | ReplicaLoss_REPLICA_THEN_ERROR =>
        d <| dn_action := ReaderAction_RETRY |> <| dn_allow_writer_retry := false |>
    | ReplicaLoss_ERROR => d <| dn_action := ReaderAction_RETURN_ERROR |>
    | ReplicaLoss_DISCONNECT => d <| dn_action := ReaderAction_DISCONNECT_CLIENT |>
    end in
  if ((action == ReplicaLoss_REPLICA_THEN_PRIMARY) ||
      (action == ReplicaLoss_REPLICA_THEN_ERROR)) &&
     (rf_request_kind failure != RequestKind_NONE) && negb (rf_wait_was_bypassed failure) &&
     (reader_retry_attempts <? POLARDB_READER_RETRY_LIMIT)
  then d <| dn_retry_target := RetryTarget_OTHER_READER |>
         <| dn_reader_failure_route := FailureRoute_SKIP_READER |>
  else if action == ReplicaLoss_REPLICA_THEN_ERROR
  then d <| dn_action := ReaderAction_RETURN_ERROR |>
  else d.

Definition decide_by_kind (failure : PolarDB_ReaderFailure) (reader_retry_attempts : Z)
    (d : PolarDB_ReaderFailureDecision) : PolarDB_ReaderFailureDecision :=
  match dn_kind d with
  | CONNECTION_LOST => decide_connection_lost failure reader_retry_attempts d
  | WAIT_TIMEOUT =>
      match polardb_lsn_wait_timeout_action_from_int
              (rd_lsn_wait_timeout_action (rf_reader_plan failure)) with
      | LsnTimeout_PRIMARY => d <| dn_action := ReaderAction_RETRY |>
      | LsnTimeout_DISCONNECT => d <| dn_action := ReaderAction_DISCONNECT_CLIENT |>
      | LsnTimeout_WARNING | LsnTimeout_ERROR => d <| dn_action := ReaderAction_RETURN_ERROR |>
      end
  | REUSABLE_ERROR =>
      match polardb_replica_error_action_from_int
              (rd_replica_error_action (rf_reader_plan failure)) with
      | ReplicaError_PRIMARY => d <| dn_action := ReaderAction_RETRY |>
      | ReplicaError_ERROR => d <| dn_action := ReaderAction_RETURN_ERROR |>
      | ReplicaError_DISCONNECT => d <| dn_action := ReaderAction_DISCONNECT_CLIENT |>
      end
  | QUERY_CANCELED =>
      d <| dn_action := ReaderAction_RETURN_ERROR |> <| dn_allow_writer_retry := false |>
  end.

Definition polardb_reader_failure_decision (failure : PolarDB_ReaderFailure)
    (reader_retry_attempts : Z) : PolarDB_ReaderFailureDecision :=
  let d :=
    decide_by_kind failure reader_retry_attempts
      (mkDecision (polardb_reader_failure_kind_for failure) ReaderAction_RETURN_ERROR
         RetryTarget_WRITER FailureRoute_NONE true) in
  let d :=
    if negb (dn_allow_writer_retry d) && (dn_action d == ReaderAction_RETRY) &&
       (dn_retry_target d == RetryTarget_WRITER)
    then d <| dn_action := ReaderAction_RETURN_ERROR |> else d in
  if (dn_reader_failure_route d == FailureRoute_NONE) &&
     (dn_action d != ReaderAction_DISCONNECT_CLIENT) && dn_allow_writer_retry d
  then d <| dn_retry_target := RetryTarget_WRITER |>
         <| dn_reader_failure_route := FailureRoute_FORCE_WRITER |>
  else d.

(** ** The writer side *)

Definition polardb_writer_scope_is_current (m : PgSQL_HostGroups_Manager)
    (scope : PolarDB_WriterScope) : bool :=
  if negb (scope_valid scope) then false
  else
    let config := get_polardb_hg_config m (ws_hg scope) in
    hc_is_polardb_hostgroup config && (hc_writer_hostgroup config =? ws_hg scope) &&
    (hc_writer_epoch config =? ws_epoch scope).

Definition polardb_reader_matches_writer_scope (m : PgSQL_HostGroups_Manager)
    (reader_hostgroup : Z) (scope : PolarDB_WriterScope) : bool :=
  if (reader_hostgroup <? 0) || negb (scope_valid scope) then false
  else
    let config := get_polardb_hg_config m reader_hostgroup in
    hc_is_polardb_hostgroup config && (hc_reader_hostgroup config =? reader_hostgroup) &&
    (hc_writer_hostgroup config =? ws_hg scope) && (hc_writer_epoch config =? ws_epoch scope).

Definition polardb_writer_hostgroup_or_current (m : PgSQL_HostGroups_Manager)
    (s : PgSQL_Session) : Z :=
  if ss_current_hg s <? 0 then -1
  else
    let mapped := get_writer_hostgroup_for_reader m (ss_current_hg s) in
    if 0 <=? mapped then mapped else ss_current_hg s.

Definition polardb_find_open_transaction_backend (streams : backends) (in_transaction : bool)
    (expected_writer_hg : Z) (exclude_reader : option Z) : option Z :=
  if expected_writer_hg <? 0 then None
  else
    match streams !! expected_writer_hg with
    | None => None
    | Some myds =>
        if bool_decide (Some expected_writer_hg = exclude_reader) then None
        else
          match bs_conn myds with
          | Some conn =>
              if vc_connected conn && IsKnownActiveTransaction in_transaction conn
              then Some expected_writer_hg else None
          | None => None
          end
    end.

(** State, writer hostgroup and writer backend. *)
Definition polardb_resolve_writer_state (m : PgSQL_HostGroups_Manager) (streams : backends)
    (s : PgSQL_Session) (failure : PolarDB_ReaderFailure)
  : PolarDB_WriterState * Z * option Z :=
  let lost := (WriterState_LOST, -1, None) in
  let writer_hg := ws_hg (rf_writer_scope failure) in
  if negb (scope_valid (rf_writer_scope failure)) then lost
  else
    let config := get_polardb_hg_config m writer_hg in
    if negb (hc_is_polardb_hostgroup config) ||
       negb (hc_writer_hostgroup config =? writer_hg) ||
       negb (hc_writer_epoch config =? ws_epoch (rf_writer_scope failure))
    then lost
    else
      match polardb_find_open_transaction_backend streams (ss_in_transaction s) writer_hg
              (rf_reader_backend failure) with
      | Some backend => (WriterState_LIVE, writer_hg, Some backend)
      | None =>
          if (ts_xids (ss_split s) != EmptyString) || negb (ss_persistent_hg s =? -1)
          then lost
          else if ss_in_transaction s
          then if (writer_hg <? 0) || (writer_hg =? rf_reader_hg failure) then lost
               else (WriterState_NOT_STARTED, writer_hg, None)
          else lost
      end.

Definition polardb_apply_reader_failure_route_state (route : PolarDB_ReaderFailureRoute)
    (writer_hg : Z) (failure : PolarDB_ReaderFailure) (s : PgSQL_Session) : PgSQL_Session :=
  match route with
  | FailureRoute_NONE => s
  | FailureRoute_FORCE_WRITER => s <| ss_failure := set_force_writer writer_hg |>
  | FailureRoute_SKIP_READER =>
      if (0 <=? rf_reader_hg failure) && (rf_reader_address failure != EmptyString) &&
         (0 <=? rf_reader_port failure)
      then s <| ss_failure := set_reader_skip (rf_reader_hg failure) (rf_reader_address failure)
                                (rf_reader_port failure) |>
      else s <| ss_failure := mkFailure FailureRoute_SKIP_READER (-1) (-1) "" (-1) |>
  end.
