(* ===== verification/Redispatch.v ===== *)
(** * Reader failures: release, redispatch and the failure stage

    The second half of lib/PgSQL_PolarDB_Failure.cpp, with the release of the
    temporary reader of lib/PgSQL_PolarDB_Split.cpp: packets and connections
    change hands between the streams of a session, the failure record and the
    client, and every hand-over is explicit. *)

From S2P Require Import Prelude SqlScan Policy Startup Config Session Query.
From S2P Require Import SessionState Plan Topology ServerList Wrap Flow Result.
From S2P Require Import Failure.
From Stdlib Require Import ZArith Ascii String List Bool Lia.
From stdpp Require Import base tactics list gmap strings.

Open Scope Z_scope.
Open Scope polar_scope.

(** ** State *)

(** The backend ownership of an extended-protocol frame. *)
Record ExtendedQueryFrameState := mkFrameState {
  fo_hostgroup : Z;
  fo_backend_hostgroup : Z;
  fo_backend_route_pending : bool;
  fo_backend_sync_sent : bool;
  fo_frontend_ready_sent : bool
}.

#[global] Instance upd_fo_backend_sync_sent : Update fo_backend_sync_sent.
Proof. derive_update. Defined.

Definition frame_complete : ExtendedQueryFrameState := mkFrameState (-1) (-1) false false false.

Definition frame_active (f : ExtendedQueryFrameState) : bool :=
  negb (fo_backend_hostgroup f =? -1).

Definition needs_backend_sync (f : ExtendedQueryFrameState) : bool :=
  (0 <=? fo_backend_hostgroup f) && negb (fo_backend_sync_sent f).

(** A connection that left the session, and whether a pool got it. *)
Record connection_release := mkRelease {
  cr_stream : Z; cr_conn : backend_conn; cr_returned : bool
}.

Inductive client_message :=
| Msg_Error (code : Z) (message : string)
| Msg_ReadyForQuery (status : ascii).

(** The session, its streams, [CurrentQuery.QueryPointer], the prepared
    statement number of the current Execute, the frame, the stack of states to
    come back to, every block freed, every connection given up, what was written
    to the client, and whether every [assert] held. *)
Record retry_world := mkRetryWorld {
  rw_session : PgSQL_Session;
  rw_streams : backends;
  rw_query_ptr : option Z;
  rw_stmt_backend_id : Z;
  rw_frame : ExtendedQueryFrameState;
  rw_previous_status : list session_status;
  rw_freed : list packet;
  rw_released : list connection_release;
  rw_client : list client_message;
  rw_asserts : bool
}.

#[global] Instance upd_rw_session : Update rw_session.
Proof. derive_update. Defined.
#[global] Instance upd_rw_streams : Update rw_streams.
Proof. derive_update. Defined.
#[global] Instance upd_rw_query_ptr : Update rw_query_ptr.
Proof. derive_update. Defined.
#[global] Instance upd_rw_stmt_backend_id : Update rw_stmt_backend_id.
Proof. derive_update. Defined.
#[global] Instance upd_rw_frame : Update rw_frame.
Proof. derive_update. Defined.
#[global] Instance upd_rw_previous_status : Update rw_previous_status.
Proof. derive_update. Defined.
#[global] Instance upd_rw_freed : Update rw_freed.
Proof. derive_update. Defined.
#[global] Instance upd_rw_released : Update rw_released.
Proof. derive_update. Defined.
#[global] Instance upd_rw_client : Update rw_client.
Proof. derive_update. Defined.
#[global] Instance upd_rw_asserts : Update rw_asserts.
Proof. derive_update. Defined.

(** What one run of the failure stage reads of its surroundings: the topology,
    the session status, the clocks, the connect timeout, the allocator's answer,
    the reader pool's answer (hostgroup, plan, wait, excluded address and port
    to a connection and whether its wait may be bypassed), the command parser,
    and the extended-protocol phase with the answer of
    [extended_local_result_sends_ready(true)]. *)
Record retry_env := mkRetryEnv {
  en_hgm : PgSQL_HostGroups_Manager;
  en_status : session_status;
  en_now_us : Z;
  en_curtime : Z;
  en_connect_timeout_server_max : Z;
  en_l_alloc : option Z;
  en_acquire : Z -> PolarDB_Query_ReaderPlan -> PolarDB_WaitSpec -> string -> Z ->
               option (backend_conn * bool);
  en_command_type : list ascii -> pgsql_command;
  en_phase_idle : bool;
  en_local_ready : bool
}.

Definition set_session (f : PgSQL_Session -> PgSQL_Session) (w : retry_world) : retry_world :=
  w <| rw_session := f (rw_session w) |>.

Definition set_request (f : PolarDB_QueryState -> PolarDB_QueryState) (w : retry_world)
  : retry_world :=
  set_session (fun s => s <| ss_query := f (ss_query s) |>) w.

Definition stream_at (hg : Z) (w : retry_world) : option backend_stream := rw_streams w !! hg.

Definition on_stream (hg : Z) (f : backend_stream -> backend_stream) (w : retry_world)
  : retry_world :=
  w <| rw_streams := alter f hg (rw_streams w) |>.

Definition conn_at (hg : Z) (w : retry_world) : option backend_conn :=
  match stream_at hg w with Some st => bs_conn st | None => None end.

Definition packet_at (hg : Z) (w : retry_world) : PtrSize_t :=
  match stream_at hg w with Some st => st_pkt (bs_query st) | None => None end.

(** ** Packets *)

Definition l_free (pkt : PtrSize_t) (w : retry_world) : retry_world :=
  match pkt with
  | Some p => w <| rw_freed := p :: rw_freed w |>
  | None => w
  end.

Definition pkt_size (p : packet) : Z := Z.of_nat (length (pk_bytes p)).

Definition polardb_packet_contains_pointer (pkt : PtrSize_t) (pointer : option Z) : bool :=
  match pkt, pointer with
  | Some p, Some value =>
      if pkt_size p =? 0 then false
      else
        let fin := wrap64 (pk_ptr p + pkt_size p) in
        (pk_ptr p <=? fin) && (pk_ptr p <=? value) && (value <? fin)
  | _, _ => false
  end.

(** [pgsql_real_query]: [reset], [end], [release_packet] and [take_packet]. *)
Definition reset_real_query (hg : Z) (w : retry_world) : retry_world :=
  on_stream hg (fun st => st <| bs_query := no_query |>) w.

Definition free_pgsql_real_query (hg : Z) (w : retry_world) : retry_world :=
  reset_real_query hg (l_free (packet_at hg w) w).

Definition release_packet (hg : Z) (w : retry_world) : PtrSize_t * retry_world :=
  (packet_at hg w, reset_real_query hg w).

Definition real_query_empty (q : PgSQL_Data_Stream) : bool :=
  match st_pkt q, st_query q with None, None => true | _, _ => false end.

Definition take_packet (hg : Z) (pkt : PtrSize_t) (w : retry_world) : retry_world :=
  match stream_at hg w with
  | None => w
  | Some st =>
      let fits :=
        match pkt with
        | Some p => Nat.leb PGSQL_V3_MESSAGE_HEADER_SIZE (length (pk_bytes p))
        | None => false
        end in
      on_stream hg (fun st => st <| bs_query :=
          mkStream pkt (option_map (fun p => skipn PGSQL_V3_MESSAGE_HEADER_SIZE (pk_bytes p)) pkt)
        |>)
        (w <| rw_asserts := rw_asserts w && real_query_empty (bs_query st) && fits |>)
  end.

Definition polardb_free_retry_pkt_if_owned (failure : PolarDB_ReaderFailure) (w : retry_world)
  : PolarDB_ReaderFailure * retry_world :=
  match rf_retry_pkt failure with
  | None => (failure, w)
  | Some _ =>
      let w :=
        if polardb_packet_contains_pointer (rf_retry_pkt failure) (rw_query_ptr w)
        then set_session (fun s => s <| ss_query_text := None |>
                                     <| ss_query_cmd := PGSQL_QUERY___NONE |>)
               (w <| rw_query_ptr := None |>)
        else w in
      (failure <| rf_retry_pkt := None |>, l_free (rf_retry_pkt failure) w)
  end.

(** The block comes from [l_alloc], whose answer is [alloc]. *)
Definition polardb_build_simple_query_packet (alloc : option Z) (sql : string) : PtrSize_t :=
  if (sql == EmptyString) ||
     (UINT32_MAX - Z.of_nat PGSQL_SIMPLE_QUERY_MESSAGE_OVERHEAD <? Z.of_nat (String.length sql))
  then None
  else match alloc with
       | None => None
       | Some ptr => Some (mkPacket ptr (simple_query_bytes sql))
       end.

Section Stage.
Context (en : retry_env).

(** ** Restarting the dispatch *)

Definition set_previous_status_mode3 (allow_execute : bool) (w : retry_world) : retry_world :=
  let push := w <| rw_previous_status := en_status en :: rw_previous_status w |> in
  match en_status en with
  | PROCESSING_QUERY | PROCESSING_STMT_PREPARE | PROCESSING_STMT_DESCRIBE => push
  | PROCESSING_STMT_EXECUTE =>
      if allow_execute then push else w <| rw_asserts := false |>
  | PROCESSING_OTHER => w <| rw_asserts := false |>
  end.

Definition polardb_restart_query_dispatch_from_packet (pkt : PtrSize_t) (w : retry_world)
  : retry_world :=
  match pkt with
  | None => w
  | Some p =>
      let text := skipn PGSQL_V3_MESSAGE_HEADER_SIZE (pk_bytes p) in
      let w := w <| rw_query_ptr := Some (pk_ptr p + Z.of_nat PGSQL_V3_MESSAGE_HEADER_SIZE) |> in
      let w := set_session (fun s =>
        s <| ss_query_text := Some (string_of_list_ascii text) |>
          <| ss_query_cmd := en_command_type en text |>) w in
      set_previous_status_mode3 false w
  end.

Definition polardb_prepare_extended_retry (w : retry_world) : retry_world :=
  set_previous_status_mode3 true (w <| rw_stmt_backend_id := 0 |>).

Definition transfer_extended_frame_backend (hostgroup : Z) (w : retry_world) : retry_world :=
  if negb (frame_active (rw_frame w)) then w
  else w <| rw_frame := mkFrameState hostgroup hostgroup false false false |>.

Definition abandon_stream (st : backend_stream) : backend_stream :=
  st <| bs_query_retries := 0 |> <| bs_connect_retries := 0 |> <| bs_max_connect_time := 0 |>
     <| bs_wait_until := 0 |> <| bs_killed_at := 0 |> <| bs_kill_type := 0 |>
     <| bs_cancel_query := false |>.

Definition retry_stream (query_retries connect_retries : Z) (st : backend_stream)
  : backend_stream :=
  let target_ready :=
    match bs_conn st with Some conn => vc_async conn == ASYNC_IDLE | None => false end in
  st <| bs_query_retries := query_retries |> <| bs_connect_retries := connect_retries |>
     <| bs_wait_until := 0 |> <| bs_killed_at := 0 |> <| bs_kill_type := 0 |>
     <| bs_cancel_query := false |>
     <| bs_max_connect_time :=
          if negb target_ready && (0 <? en_connect_timeout_server_max en)
          then wrap64 (en_curtime en + wrap64 (en_connect_timeout_server_max en * 1000)) else 0 |>.

Definition polardb_prepare_retry_backend (source_myds target_myds : option Z) (w : retry_world)
  : retry_world :=
  let source := match source_myds with Some hg => stream_at hg w | None => None end in
  let query_retries := match source with Some st => bs_query_retries st | None => 0 end in
  let connect_retries := match source with Some st => bs_connect_retries st | None => 0 end in
  let w :=
    match source_myds with
    | Some hg => if negb (bool_decide (source_myds = target_myds))
                 then on_stream hg abandon_stream w else w
    | None => w
    end in
  match target_myds with
  | None => w
  | Some hg => on_stream hg (retry_stream query_retries connect_retries) w
  end.

(** Success, the failure record without the packet, and the new state. *)
Definition polardb_move_retry_packet_to_writer (source_myds writer_backend : option Z)
    (writer_hg : Z) (retry_pkt : PtrSize_t) (extended_query : bool) (w : retry_world)
  : bool * PtrSize_t * retry_world :=
  match writer_backend, retry_pkt with
  | Some be, Some _ =>
      match stream_at be w with
      | None => (false, retry_pkt, w)
      | Some _ =>
          let w := polardb_prepare_retry_backend source_myds (Some be) w in
          let w := set_session (fun s => s <| ss_current_hg := writer_hg |>
                                           <| ss_mybe := Some be |>) w in
          let w := take_packet be retry_pkt (free_pgsql_real_query be w) in
          (true, None,
           if extended_query
           then polardb_prepare_extended_retry (transfer_extended_frame_backend writer_hg w)
           else polardb_restart_query_dispatch_from_packet (packet_at be w) w)
      end
  | _, _ => (false, retry_pkt, w)
  end.

(** ** Giving up a reader *)

Definition polardb_clear_reader_request (hg : Z) (w : retry_world)
  : option backend_conn * retry_world :=
  let w := on_stream hg (fun st => st <| bs_max_connect_time := 0 |>) w in
  let w := free_pgsql_real_query hg w in
  let w := on_stream hg (fun st => st <| bs_conn := option_map async_free_result (bs_conn st) |>) w in
  (conn_at hg w, w).

Definition polardb_return_or_destroy_backend_stream (hg : Z) (return_to_pool : bool)
    (w : retry_world) : retry_world :=
  match conn_at hg w with
  | None => w
  | Some conn =>
      on_stream hg (fun st => st <| bs_conn := None |>)
        (w <| rw_released := mkRelease hg conn return_to_pool :: rw_released w |>)
  end.

Definition set_idle (hg : Z) (w : retry_world) : retry_world :=
  on_stream hg (fun st => st <| bs_conn :=
    option_map (fun c => c <| vc_async := ASYNC_IDLE |>) (bs_conn st) |>) w.

(** A finished query result is dropped; other running states are left alone. *)
Definition polardb_try_normalize_split_cleanup_connection (conn : backend_conn) : backend_conn :=
  match vc_async conn with
  | ASYNC_QUERY_END => async_free_result conn
  | _ => conn
  end.

Definition reset_txn_reader_request (w : retry_world) : retry_world :=
  let r := ss_reader (rw_session w) in
  let w :=
    match tr_backend r with
    | Some be => if tr_wait_read_active r then free_pgsql_real_query be w
                 else reset_real_query be w
    | None => w
    end in
  set_session polardb_reset_txn_reader_request (l_free (tr_original_pkt r) w).

Definition release_txn_reader_backend (want_reuse : bool) (w : retry_world) : retry_world :=
  let r := ss_reader (rw_session w) in
  match tr_backend r with
  | None => w
  | Some be =>
      let w :=
        if txn_reader_active r ||
           match tr_primary_backend r with Some _ => true | None => false end
        then reset_txn_reader_request w else w in
      let w := on_stream be (fun st => st <| bs_max_connect_time := 0 |>
                                          <| bs_query := no_query |>) w in
      let w :=
        match conn_at be w with
        | None => w
        | Some conn =>
            let was_non_idle := negb (vc_async conn == ASYNC_IDLE) in
            let conn :=
              if want_reuse && was_non_idle
              then polardb_try_normalize_split_cleanup_connection conn else conn in
            let reusable :=
              want_reuse && vc_reusable conn && (vc_async conn == ASYNC_IDLE) &&
              negb (IsActiveTransaction (ss_in_transaction (rw_session w)) conn) in
            polardb_return_or_destroy_backend_stream be reusable
              (on_stream be (fun st => st <| bs_conn := Some conn |>) w)
        end in
      set_session (fun s => s <| ss_reader := clear_backend (ss_reader s) |>) w
  end.

Definition release_txn_wait_read (want_reuse : bool) (w : retry_world) : retry_world :=
  let r := ss_reader (rw_session w) in
  if negb (tr_wait_read_active r) &&
     match tr_primary_backend r with Some _ => false | None => true end
  then w else release_txn_reader_backend want_reuse w.

(** A failed read positions nothing. *)
Definition polardb_end_split_after_reader_failure (w : retry_world) : retry_world :=
  let r := ss_reader (rw_session w) in
  if negb (tr_split_active r) && negb (tr_wait_read_active r) then w
  else
    set_session (fun s => s <| ss_split := fail_split_read (ss_split s) |>)
      (reset_txn_reader_request
         (set_session (fun s => s <| ss_reader := ss_reader s
            <| tr_rfq_writer_scope := no_scope |> |>) w)).

Definition polardb_record_reader_failure (failure : PolarDB_ReaderFailure) (w : retry_world)
  : retry_world :=
  if rf_reusable failure then w
  else match rf_reader_backend failure with
       | None => w
       | Some be => on_stream be (fun st => st <| bs_conn :=
           option_map (fun c => c <| vc_reusable := false |>) (bs_conn st) |>) w
       end.

Definition polardb_release_reader_backend (reader_backend : option Z) (want_reuse : bool)
    (w : retry_world) : retry_world :=
  match reader_backend with
  | None => w
  | Some be =>
      if bool_decide (reader_backend = tr_backend (ss_reader (rw_session w)))
      then release_txn_reader_backend want_reuse w
      else
        match stream_at be w with
        | None => w
        | Some _ =>
            let '(conn, w) := polardb_clear_reader_request be w in
            match conn with
            | None => w
            | Some conn =>
                if want_reuse && polardb_failed_connection_is_poolable
                                   (ss_in_transaction (rw_session w)) conn
                then polardb_return_or_destroy_backend_stream be true (set_idle be w)
                else polardb_return_or_destroy_backend_stream be false w
            end
        end
  end.

Definition unused_reader_is_reusable (in_transaction : bool) (conn : backend_conn) : bool :=
  vc_reusable conn && vc_connected conn && negb (vc_error_present conn) &&
  (vc_async conn == ASYNC_IDLE) && is_connection_in_reusable_state conn &&
  negb (IsActiveTransaction in_transaction conn) && negb (vc_multiplex_disabled conn) &&
  negb (vc_pipeline conn).

Definition polardb_release_unused_reader_backend (be : Z) (w : retry_world) : retry_world :=
  match stream_at be w with
  | None => w
  | Some _ =>
      let '(conn, w) := polardb_clear_reader_request be w in
      match conn with
      | None => w
      | Some conn =>
          polardb_return_or_destroy_backend_stream be
            (unused_reader_is_reusable (ss_in_transaction (rw_session w)) conn) w
      end
  end.

Definition polardb_release_reader_stream (failed_myds : option Z) (can_return_to_pool : bool)
    (w : retry_world) : retry_world :=
  match failed_myds with
  | None => w
  | Some hg =>
      let '(conn, w) := polardb_clear_reader_request hg w in
      match conn with
      | None => w
      | Some _ =>
          if can_return_to_pool
          then polardb_return_or_destroy_backend_stream hg true (set_idle hg w)
          else polardb_return_or_destroy_backend_stream hg false w
      end
  end.

Definition polardb_forward_reader_error (failure : PolarDB_ReaderFailure) (rfq : ascii)
    (w : retry_world) : retry_world :=
  let '(code, message) :=
    if rf_has_backend_error failure
    then (rf_backend_error_code failure, rf_backend_error_message failure)
    else (ERRCODE_CONNECTION_FAILURE, "PolarDB reader replica connection failed") in
  let extended_cycle := negb (en_phase_idle en) || frame_active (rw_frame w) in
  let w :=
    if extended_cycle && needs_backend_sync (rw_frame w)
    then w <| rw_frame := rw_frame w <| fo_backend_sync_sent := true |> |> else w in
  let send_ready := if extended_cycle then en_local_ready en else true in
  let w := w <| rw_client := (rw_client w ++ [Msg_Error code message])%list |> in
  if send_ready
  then
    let w := w <| rw_client := (rw_client w ++ [Msg_ReadyForQuery rfq])%list |> in
    if extended_cycle then w <| rw_frame := frame_complete |> else w
  else w.

(** ** Transaction split reads *)

(** [backend->hostgroup_id] is the key the backend is stored under. *)
Definition polardb_try_redispatch_to_writer (failure : PolarDB_ReaderFailure) (writer_hg : Z)
    (writer_backend : option Z) (w : retry_world)
  : bool * PolarDB_ReaderFailure * retry_world :=
  match writer_backend, rf_retry_pkt failure with
  | Some be, Some _ =>
      match conn_at be w with
      | None => (false, failure, w)
      | Some writer_conn =>
          if rf_result_started failure || negb (vc_connected writer_conn) ||
             negb (IsKnownActiveTransaction (ss_in_transaction (rw_session w)) writer_conn) ||
             negb (vc_async writer_conn == ASYNC_IDLE) ||
             negb (writer_hg =? ws_hg (rf_writer_scope failure)) ||
             negb (be =? writer_hg) ||
             negb (polardb_writer_scope_is_current (en_hgm en) (rf_writer_scope failure))
          then (false, failure, w)
          else
            let reader_myds := rf_failed_myds failure in
            let w := polardb_release_reader_backend (rf_reader_backend failure)
                       (rf_reusable failure) w in
            let failure := failure <| rf_reader_backend := None |> in
            let '(moved, pkt, w) :=
              polardb_move_retry_packet_to_writer reader_myds writer_backend writer_hg
                (rf_retry_pkt failure) false w in
            (moved, failure <| rf_retry_pkt := pkt |>, w)
      end
  | _, _ => (false, failure, w)
  end.

Definition find_or_create_backend (hg : Z) (w : retry_world) : retry_world :=
  match stream_at hg w with
  | Some _ => w
  | None => w <| rw_streams := <[hg := new_stream]> (rw_streams w) |>
  end.

Definition attach_connection (hg : Z) (conn : backend_conn) (w : retry_world) : retry_world :=
  on_stream hg (fun st => st <| bs_conn := Some conn |>) w.

(** Installs the wrapper text of a split read on the reader's stream. *)
Definition begin_txn_split_read (hg : Z) (retry_pkt : PtrSize_t) (wrapped_query : string)
    (wait_spec : PolarDB_WaitSpec) (plan : PolarDB_Query_ReaderPlan)
    (scope : PolarDB_WriterScope) (wrapper_stmts : Z) (w : retry_world) : retry_world :=
  let w := free_pgsql_real_query hg w in
  let w := on_stream hg (fun st => st <| bs_query :=
             mkStream None (Some (list_ascii_of_string wrapped_query)) |>) w in
  set_session (polardb_begin_txn_split_read hg retry_pkt wrapped_query wait_spec plan scope
                 wrapper_stmts false (en_now_us en)) w.

(** The failed endpoint is known. *)
Definition endpoint_known (failure : PolarDB_ReaderFailure) : bool :=
  (0 <=? rf_reader_hg failure) && (rf_reader_address failure != EmptyString) &&
  (0 <=? rf_reader_port failure).

Definition count_reader_retry (q : PolarDB_QueryState) : PolarDB_QueryState :=
  q <| qs_reader_retry_attempts := (qs_reader_retry_attempts q + 1) mod 256 |>.

Definition polardb_try_redispatch_to_other_reader (failure : PolarDB_ReaderFailure)
    (w : retry_world) : bool * PolarDB_ReaderFailure * retry_world :=
  let pkt := rf_retry_pkt failure in
  if negb (is_split failure) || match pkt with Some _ => false | None => true end ||
     rf_result_started failure || negb (endpoint_known failure) ||
     negb (has_wait (rf_wait_spec failure)) || (rf_txn_xids failure == EmptyString)
  then (false, failure, w)
  else
    let '(wrapper_stmts, wrapped_query) :=
      polardb_build_txn_split_wrapped_query pkt (rf_wait_spec failure) (rf_txn_xids failure)
        false in
    if wrapper_stmts =? 0 then (false, failure, w)
    else
      let old_reader_myds := rf_reader_backend failure in
      let w := polardb_release_reader_backend (rf_reader_backend failure)
                 (rf_reusable failure) w in
      let failure := failure <| rf_reader_backend := None |> in
      let hg := rf_reader_hg failure in
      let w := find_or_create_backend hg w in
      match conn_at hg w with
      | Some _ => (false, failure, w)
      | None =>
          match en_acquire en hg (rf_reader_plan failure) (rf_wait_spec failure)
                  (rf_reader_address failure) (rf_reader_port failure) with
          | None => (false, failure, w)
          | Some (conn, _) =>
              let w := attach_connection hg conn w in
              if negb (vc_connected conn)
              then (false, failure, polardb_return_or_destroy_backend_stream hg false w)
              else if negb (polardb_reader_matches_writer_scope (en_hgm en) hg
                              (rf_writer_scope failure))
              then (false, failure, polardb_release_unused_reader_backend hg w)
              else
                let w := polardb_prepare_retry_backend old_reader_myds (Some hg) w in
                let w := set_session (fun s => s <| ss_current_hg := hg |>) w in
                let w := begin_txn_split_read hg pkt wrapped_query (rf_wait_spec failure)
                           (rf_reader_plan failure) (rf_writer_scope failure) wrapper_stmts w in
                let w := set_request count_reader_retry w in
                (true, failure <| rf_retry_pkt := None |>,
                 polardb_restart_query_dispatch_from_packet
                   (tr_original_pkt (ss_reader (rw_session w))) w)
          end
      end.

Definition polardb_forward_error_and_keep_writer (failure : PolarDB_ReaderFailure)
    (w : retry_world) : PolarDB_FailureAction * PolarDB_ReaderFailure * retry_world :=
  let w := polardb_release_reader_backend (rf_reader_backend failure) (rf_reusable failure) w in
  let w := polardb_forward_reader_error failure "T" w in
  let '(failure, w) := polardb_free_retry_pkt_if_owned failure w in
  (FailureAction_FORWARD, failure, w).

Definition polardb_terminate_session_after_reader_failure (failure : PolarDB_ReaderFailure)
    (w : retry_world) : PolarDB_FailureAction * PolarDB_ReaderFailure * retry_world :=
  let w := polardb_release_reader_backend (rf_reader_backend failure) false w in
  let '(failure, w) := polardb_free_retry_pkt_if_owned failure w in
  (FailureAction_TERMINATE, failure, w).

(** ** Ordinary and wait-wrapped reads *)

Definition pkt_present (pkt : PtrSize_t) : bool :=
  match pkt with Some p => 0 <? pkt_size p | None => false end.

Definition polardb_prepare_reader_retry_packet (failure : PolarDB_ReaderFailure) (w : retry_world)
  : bool * PolarDB_ReaderFailure * retry_world :=
  if pkt_present (rf_retry_pkt failure) then (true, failure, w)
  else if is_wait failure
  then
    let pkt := polardb_build_simple_query_packet (en_l_alloc en) (rf_retry_query failure) in
    (pkt_present pkt, failure <| rf_retry_pkt := pkt |>, w)
  else
    match is_ordinary failure, rf_failed_myds failure with
    | true, Some hg =>
        match packet_at hg w with
        | Some p => (0 <? pkt_size p, failure <| rf_retry_pkt := Some p |>, reset_real_query hg w)
        | None => (false, failure, w)
        end
    | _, _ => (false, failure, w)
    end.

(** The guards of [polardb_try_redispatch_reader_read_to_other_reader]. *)
Definition reader_read_can_move (failure : PolarDB_ReaderFailure) (wait_read_active : bool)
  : bool :=
  (is_wait failure || is_ordinary failure) && negb (is_split failure) &&
  negb wait_read_active && negb (rf_wait_was_bypassed failure) &&
  negb (rf_result_started failure) && endpoint_known failure &&
  negb (is_wait failure &&
        ((negb (rf_extended_query failure) && (rf_retry_query failure == EmptyString)) ||
         negb (has_wait (rf_wait_spec failure)))).

(** The wait of the moved read: selected again, or dropped. *)
Definition select_retry_wait (failure : PolarDB_ReaderFailure) (wait_bypass_allowed : bool)
    (s : PgSQL_Session) : PgSQL_Session :=
  if is_wait failure
  then
    let '(wait_activated, s) :=
      polardb_finish_reader_wait_selection (rf_wait_spec failure) wait_bypass_allowed
        (rf_fallback_writer_hg failure) (en_now_us en) s in
    if wait_activated && negb (rf_extended_query failure) &&
       (qs_original_query (ss_query s) == EmptyString)
    then s <| ss_query := ss_query s <| qs_original_query := rf_retry_query failure |> |>
    else s
  else s <| ss_query := reset_wait (ss_query s) |>.

Definition polardb_try_redispatch_reader_read_to_other_reader (failure : PolarDB_ReaderFailure)
    (w : retry_world) : bool * PolarDB_ReaderFailure * retry_world :=
  if negb (reader_read_can_move failure (tr_wait_read_active (ss_reader (rw_session w))))
  then (false, failure, w)
  else
    let '(prepared, failure, w) := polardb_prepare_reader_retry_packet failure w in
    if negb prepared then (false, failure, w)
    else
      let failed_myds := rf_failed_myds failure in
      let w := polardb_release_reader_stream failed_myds (rf_can_return_to_pool failure) w in
      let failure := failure <| rf_failed_myds := None |> in
      let hg := rf_reader_hg failure in
      let w := find_or_create_backend hg w in
      match conn_at hg w with
      | Some _ => (false, failure, w)
      | None =>
          match en_acquire en hg (rf_reader_plan failure)
                  (if is_wait failure then rf_wait_spec failure else no_wait)
                  (rf_reader_address failure) (rf_reader_port failure) with
          | None => (false, failure, w)
          | Some (conn, wait_bypass_allowed) =>
              let w := attach_connection hg conn w in
              if negb (vc_connected conn)
              then (false, failure, polardb_return_or_destroy_backend_stream hg false w)
              else
                let w := take_packet hg (rf_retry_pkt failure) (free_pgsql_real_query hg w) in
                let w := polardb_prepare_retry_backend failed_myds (Some hg) w in
                let w := set_session (fun s =>
                  select_retry_wait failure wait_bypass_allowed
                    (s <| ss_current_hg := hg |> <| ss_mybe := Some hg |>
                       <| ss_query := ss_query s <| qs_reader_plan := rf_reader_plan failure |> |>))
                  w in
                let w := set_request count_reader_retry w in
                (true, failure <| rf_retry_pkt := None |>,
                 if rf_extended_query failure
                 then polardb_prepare_extended_retry (transfer_extended_frame_backend hg w)
                 else polardb_restart_query_dispatch_from_packet (packet_at hg w) w)
          end
      end.

Definition polardb_capture_wait_read_failure (failure : PolarDB_ReaderFailure) (w : retry_world)
  : PolarDB_ReaderFailure * retry_world :=
  let q := ss_query (rw_session w) in
  let extended := en_status en != PROCESSING_QUERY in
  let spec :=
    if has_wait (wst_spec (qs_wait q)) then wst_spec (qs_wait q)
    else if extended then qs_reader_wait_spec q else no_wait in
  let failure :=
    failure <| rf_extended_query := extended |> <| rf_reader_plan := qs_reader_plan q |>
            <| rf_wait_spec := spec |>
            <| rf_fallback_writer_hg :=
                 if 0 <=? wst_fallback_writer_hg (qs_wait q) then wst_fallback_writer_hg (qs_wait q)
                 else rd_fallback_writer_hg (qs_reader_plan q) |>
            <| rf_retry_query := qs_original_query q |> in
  let present :=
    match rf_failed_myds failure with
    | Some hg => match packet_at hg w with Some _ => true | None => false end
    | None => false
    end in
  let packet_ready :=
    polardb_extended_wait_retry_packet_ready extended (has_wait spec) present in
  let '(failure, w) :=
    match rf_failed_myds failure with
    | Some hg =>
        if packet_ready
        then (failure <| rf_retry_pkt := packet_at hg w |>, reset_real_query hg w)
        else (failure, w)
    | None => (failure, w)
    end in
  let finalized_simple_wait :=
    negb extended && polardb_wait_active (rw_session w) &&
    rf_wrapper_is_consistency_wait failure && wst_wrapper_finalized (qs_wait q) &&
    (rf_retry_query failure != EmptyString) in
  (if packet_ready || finalized_simple_wait
   then failure <| rf_request_kind := RequestKind_WAIT |> else failure, w).

Definition polardb_capture_ordinary_reader_failure (failure : PolarDB_ReaderFailure)
    (s : PgSQL_Session) : PolarDB_ReaderFailure :=
  let plan := qs_reader_plan (ss_query s) in
  let query_status := en_status en != PROCESSING_OTHER in
  let automatic_replica :=
    query_status && negb (tr_wait_read_active (ss_reader s)) &&
    (0 <=? rd_fallback_writer_hg plan) &&
    (rd_read_target plan =? read_target_to_int ReadTarget_REPLICA) &&
    (rd_consistency_mode plan != Mode_OFF) && (0 <=? rf_reader_hg failure) &&
    negb (rf_reader_hg failure =? rd_fallback_writer_hg plan) in
  if negb automatic_replica then failure
  else
    failure <| rf_request_kind := RequestKind_ORDINARY |>
            <| rf_extended_query := en_status en != PROCESSING_QUERY |>
            <| rf_wait_was_bypassed := negb (qs_wait_bypass_target (ss_query s) =? 0) |>
            <| rf_reader_plan := plan |>
            <| rf_fallback_writer_hg := rd_fallback_writer_hg plan |>.

(** [polardb_finish_wait(nullptr)]: no connection, so no cache is advanced. *)
Definition finish_wait_without_reader (w : retry_world) : retry_world :=
  set_session (fun s => px_session
    (polardb_finish_wait (en_now_us en) None (mkProxy (en_hgm en) None s))) w.

(** The local closures of [polardb_handle_failed_reader_read]; [txn_wait_read]
    and [request_myds] are fixed when they are created. *)
Definition finish_retry_packet (request_myds : option Z) (request_end_follows : bool)
    (failure : PolarDB_ReaderFailure) (w : retry_world)
  : PolarDB_ReaderFailure * retry_world :=
  match request_myds with
  | Some hg =>
      if request_end_follows &&
         polardb_packet_contains_pointer (rf_retry_pkt failure) (rw_query_ptr w)
      then (failure <| rf_retry_pkt := None |>,
            take_packet hg (rf_retry_pkt failure) (free_pgsql_real_query hg w))
      else polardb_free_retry_pkt_if_owned failure w
  | None => polardb_free_retry_pkt_if_owned failure w
  end.

Definition preserve_ordinary_request_packet (failure : PolarDB_ReaderFailure) (w : retry_world)
  : PolarDB_ReaderFailure * retry_world :=
  match is_ordinary failure, rf_retry_pkt failure, rf_failed_myds failure with
  | true, None, Some hg =>
      match packet_at hg w with
      | Some p => (failure <| rf_retry_pkt := Some p |>, reset_real_query hg w)
      | None => (failure, w)
      end
  | _, _, _ => (failure, w)
  end.

Definition release_failed_reader (txn_wait_read want_reuse : bool)
    (failure : PolarDB_ReaderFailure) (w : retry_world)
  : PolarDB_ReaderFailure * retry_world :=
  match rf_failed_myds failure with
  | None => (failure, w)
  | Some _ =>
      let '(failure, w) :=
        if txn_wait_read then (failure, release_txn_wait_read want_reuse w)
        else
          let '(failure, w) := preserve_ordinary_request_packet failure w in
          (failure, polardb_release_reader_stream (rf_failed_myds failure) want_reuse w) in
      (failure <| rf_failed_myds := None |>, w)
  end.

Definition finish_txn_wait_with_error (request_myds : option Z) (failure : PolarDB_ReaderFailure)
    (w : retry_world) : PolarDB_FailureAction * PolarDB_ReaderFailure * retry_world :=
  let '(failure, w) := release_failed_reader true false failure w in
  let '(failure, w) := finish_retry_packet request_myds (negb (rf_result_started failure))
                         failure w in
  if rf_result_started failure then (FailureAction_TERMINATE, failure, w)
  else (FailureAction_FORWARD, failure, polardb_forward_reader_error failure "T" w).

Definition finish_ordinary_with_error (request_myds : option Z) (failure : PolarDB_ReaderFailure)
    (w : retry_world) : PolarDB_FailureAction * PolarDB_ReaderFailure * retry_world :=
  if rf_result_started failure
  then
    let '(failure, w) := release_failed_reader false false failure w in
    let '(failure, w) := finish_retry_packet request_myds false failure w in
    (FailureAction_TERMINATE, failure, w)
  else if rf_reusable failure && match rf_failed_myds failure with Some _ => true | None => false end
  then
    let '(failure, w) := finish_retry_packet request_myds true failure w in
    (FailureAction_PASSTHROUGH, failure, w)
  else
    let '(failure, w) := release_failed_reader false false failure w in
    let '(failure, w) := finish_retry_packet request_myds true failure w in
    (FailureAction_FORWARD, failure, polardb_forward_reader_error failure "I" w).

Definition finish_with_error (txn_wait_read : bool) (request_myds : option Z)
    (failure : PolarDB_ReaderFailure) (w : retry_world)
  : PolarDB_FailureAction * PolarDB_ReaderFailure * retry_world :=
  if txn_wait_read then finish_txn_wait_with_error request_myds failure w
  else finish_ordinary_with_error request_myds failure w.

(** The primary retry at the end of [polardb_handle_failed_reader_read]. *)
Definition retry_on_primary (txn_wait_read : bool) (request_myds : option Z)
    (failure : PolarDB_ReaderFailure) (w : retry_world)
  : PolarDB_FailureAction * PolarDB_ReaderFailure * retry_world :=
  let writer_hg := rf_fallback_writer_hg failure in
  if rf_result_started failure || (writer_hg <? 0)
  then finish_with_error txn_wait_read request_myds failure w
  else
    let w := find_or_create_backend writer_hg w in
    if bool_decide (Some writer_hg = rf_failed_myds failure)
    then finish_with_error txn_wait_read request_myds failure w
    else
      let busy :=
        match conn_at writer_hg w with
        | Some conn => negb (vc_async conn == ASYNC_IDLE)
        | None => false
        end in
      if busy then finish_with_error txn_wait_read request_myds failure w
      else
        let '(prepared, failure, w) := polardb_prepare_reader_retry_packet failure w in
        if negb prepared then finish_with_error txn_wait_read request_myds failure w
        else
          let '(failure, w) :=
            release_failed_reader txn_wait_read (rf_can_return_to_pool failure) failure w in
          let w := set_request clear_reader_route w in
          let '(moved, pkt, w) :=
            polardb_move_retry_packet_to_writer request_myds (Some writer_hg) writer_hg
              (rf_retry_pkt failure) (rf_extended_query failure) w in
          let failure := failure <| rf_retry_pkt := pkt |> in
          if negb moved then finish_with_error txn_wait_read request_myds failure w
          else (FailureAction_RETRY, failure, w).

(** No wrapped packet and no active wait survive the failure. *)
Definition drop_failed_wait (failure : PolarDB_ReaderFailure) (w : retry_world) : retry_world :=
  let w :=
    match rf_failed_myds failure with
    | Some hg =>
        let w := on_stream hg (fun st => st <| bs_query_retries := 0 |>) w in
        if is_wait failure then free_pgsql_real_query hg w else w
    | None => w
    end in
  if is_wait failure
  then set_request (fun q => reset_dispatch_wrapper (reset_wait q) <| qs_wrapped_query_buf := "" |>)
         (finish_wait_without_reader w)
  else w.

Definition polardb_handle_failed_reader_read (failure : PolarDB_ReaderFailure)
    (decision : PolarDB_ReaderFailureDecision) (w : retry_world)
  : PolarDB_FailureAction * PolarDB_ReaderFailure * retry_world :=
  if negb (is_wait failure) && negb (is_ordinary failure)
  then (FailureAction_PASSTHROUGH, failure, w)
  else
    let w := drop_failed_wait failure w in
    let r := ss_reader (rw_session w) in
    let request_myds := rf_failed_myds failure in
    let txn_wait_read :=
      tr_wait_read_active r &&
      match request_myds with Some hg => bool_decide (Some hg = tr_backend r) | None => false end in
    match dn_action decision with
    | ReaderAction_DISCONNECT_CLIENT =>
        let '(failure, w) := release_failed_reader txn_wait_read false failure w in
        let '(failure, w) := polardb_free_retry_pkt_if_owned failure w in
        (FailureAction_TERMINATE, failure, w)
    | ReaderAction_RETURN_ERROR => finish_with_error txn_wait_read request_myds failure w
    | ReaderAction_RETRY =>
        if dn_retry_target decision != RetryTarget_WRITER
        then
          let '(moved, failure, w) :=
            if txn_wait_read then (false, failure, w)
            else polardb_try_redispatch_reader_read_to_other_reader failure w in
          if moved then (FailureAction_RETRY, failure, w)
          else if negb (dn_allow_writer_retry decision)
          then finish_with_error txn_wait_read request_myds failure w
          else retry_on_primary txn_wait_read request_myds failure w
        else retry_on_primary txn_wait_read request_myds failure w
    end.

(** ** The failure stage *)

(** A failed transaction wait read that was not captured as one: its query text
    is copied from the stream. *)
Definition adopt_txn_wait_failure (failure : PolarDB_ReaderFailure) (w : retry_world)
  : PolarDB_ReaderFailure :=
  let s := rw_session w in
  let text :=
    match rf_failed_myds failure with
    | Some hg => match stream_at hg w with
                 | Some st => match st_query (bs_query st) with
                              | Some (c :: r) => stream_query_text (c :: r)
                              | _ => EmptyString
                              end
                 | None => EmptyString
                 end
    | None => EmptyString
    end in
  let failure :=
    if rf_retry_query failure == EmptyString then failure <| rf_retry_query := text |> else failure in
  let failure := failure <| rf_request_kind := RequestKind_WAIT |> in
  if rf_fallback_writer_hg failure <? 0
  then failure <| rf_fallback_writer_hg :=
         if 0 <=? fl_writer_hg (ss_failure s) then fl_writer_hg (ss_failure s)
         else polardb_writer_hostgroup_or_current (en_hgm en) s |>
  else failure.

Definition handle_split_failure (failure : PolarDB_ReaderFailure) (w : retry_world)
  : PolarDB_FailureAction * PolarDB_ReaderFailure * retry_world :=
  let '(writer_state, writer_hg, writer_backend) :=
    polardb_resolve_writer_state (en_hgm en) (rw_streams w) (rw_session w) failure in
  let w := polardb_end_split_after_reader_failure (polardb_record_reader_failure failure w) in
  if writer_state == WriterState_LOST
  then polardb_terminate_session_after_reader_failure failure w
  else
    let decision :=
      polardb_reader_failure_decision failure
        (qs_reader_retry_attempts (ss_query (rw_session w))) in
    let route r hg failure :=
      set_session (polardb_apply_reader_failure_route_state r hg failure) in
    if dn_action decision == ReaderAction_DISCONNECT_CLIENT
    then polardb_terminate_session_after_reader_failure failure w
    else
      let decline failure w :=
        let w := if dn_allow_writer_retry decision
                 then route FailureRoute_FORCE_WRITER writer_hg failure w else w in
        polardb_forward_error_and_keep_writer failure w in
      if (dn_action decision == ReaderAction_RETRY) && negb (rf_result_started failure)
      then
        let '(moved, failure, w) :=
          if dn_retry_target decision == RetryTarget_OTHER_READER
          then polardb_try_redispatch_to_other_reader failure w
          else (false, failure, w) in
        if moved
        then (FailureAction_RETRY, failure, route FailureRoute_SKIP_READER writer_hg failure w)
        else
          let '(moved, failure, w) :=
            if dn_allow_writer_retry decision && (writer_state == WriterState_LIVE)
            then polardb_try_redispatch_to_writer failure writer_hg writer_backend w
            else (false, failure, w) in
          if moved
          then (FailureAction_RETRY, failure, route FailureRoute_FORCE_WRITER writer_hg failure w)
          else decline failure w
      else decline failure w.

Definition polardb_handle_reader_failure (outcome : PolarDB_RequestOutcome) (w : retry_world)
  : PolarDB_FailureAction * PolarDB_ReaderFailure * retry_world :=
  let '(failure, s) := polardb_take_reader_failure outcome (rw_session w) in
  let w := set_session (fun _ => s) w in
  if is_split failure then handle_split_failure failure w
  else
    let '(failure, w) := polardb_capture_wait_read_failure failure w in
    let r := ss_reader (rw_session w) in
    let txn_wait_reader_failed :=
      tr_wait_read_active r &&
      match tr_backend r with
      | Some be => bool_decide (Some be = oc_backend_myds outcome)
      | None => false
      end in
    let failure :=
      if txn_wait_reader_failed && negb (is_wait failure)
      then adopt_txn_wait_failure failure w else failure in
    let failure :=
      if negb (is_wait failure)
      then polardb_capture_ordinary_reader_failure failure (rw_session w) else failure in
    if is_wait failure || is_ordinary failure
    then
      polardb_handle_failed_reader_read failure
        (polardb_reader_failure_decision failure
           (qs_reader_retry_attempts (ss_query (rw_session w)))) w
    else
      let w :=
        if polardb_wait_active (rw_session w) &&
           (rf_wrapper_set_failure failure || rf_timeout failure || negb (rf_reusable failure)) &&
           negb (wst_wait_started_at_us (qs_wait (ss_query (rw_session w))) =? 0)
        then set_request reset_wait (finish_wait_without_reader w) else w in
      (FailureAction_PASSTHROUGH, failure, w).

(** ** Redirects before a reader was used *)

Definition polardb_redirect_to_writer (writer_hg : Z) (w : retry_world) : bool * retry_world :=
  if writer_hg <? 0 then (false, w)
  else
    let source_myds := ss_mybe (rw_session w) in
    let w := set_request clear_reader_route w in
    let w := set_session (fun s => s <| ss_current_hg := writer_hg |>
                                     <| ss_mybe := Some writer_hg |>)
               (find_or_create_backend writer_hg w) in
    let w := polardb_prepare_retry_backend source_myds (Some writer_hg) w in
    match source_myds with
    | Some src =>
        match stream_at src w with
        | Some st =>
            if negb (src =? writer_hg) &&
               match st_query (bs_query st) with Some _ => true | None => false end
            then
              let w := free_pgsql_real_query writer_hg w in
              let w := on_stream writer_hg (fun t => t <| bs_query := bs_query st |>) w in
              (true, reset_real_query src w)
            else (true, w)
        | None => (true, w)
        end
    | None => (true, w)
    end.

Definition polardb_redirect_wait_retry_to_writer (retry_conn : bool) (w : retry_world)
  : bool * retry_world :=
  let q := ss_query (rw_session w) in
  if negb retry_conn || (qs_wait_bypass_target q =? 0) then (retry_conn, w)
  else
    match polardb_replica_loss_action_from_int (rd_replica_loss_action (qs_reader_plan q)) with
    | ReplicaLoss_PRIMARY | ReplicaLoss_REPLICA_THEN_PRIMARY =>
        polardb_redirect_to_writer (rd_fallback_writer_hg (qs_reader_plan q)) w
    | _ => (false, w)
    end.

End Stage.


(** ** Samples

    Writer hostgroup 10 and reader hostgroup 20; the reader's connection is lost
    while its request waits for a position or runs a split read. *)

Definition sample_lost_conn : backend_conn :=
  mkBackendConn false true ERRCODE_CONNECTION_FAILURE "server closed the connection"
    PQTRANS_UNKNOWN false false false true ASYNC_OTHER false false false true
    (Some (mkParent (Some 20) (Some "r1") 5432)).

Definition sample_idle_conn (status : PGTransactionStatusType) (hg : Z) : backend_conn :=
  mkBackendConn true false 0 "" status false false false true ASYNC_IDLE false false false true
    (Some (mkParent (Some hg) (Some "r2") 5432)).

Definition sample_request_pkt : packet := mkPacket 4096 (simple_query_bytes "SELECT 1").

Definition sample_stream (conn : backend_conn) (pkt : PtrSize_t) : backend_stream :=
  mkBackendStream (Some conn)
    (mkStream pkt (option_map (fun p => skipn PGSQL_V3_MESSAGE_HEADER_SIZE (pk_bytes p)) pkt))
    0 0 0 0 0 0 false.

Definition sample_replica_plan : PolarDB_Query_ReaderPlan :=
  mkReaderPlan 0 (-1) 10 (missing_lsn_to_int MissingLsn_PRIMARY)
    (lsn_timeout_to_int LsnTimeout_PRIMARY) (read_target_to_int ReadTarget_REPLICA)
    (fallback_to_int Fallback_PRIMARY) (replica_loss_to_int ReplicaLoss_REPLICA_THEN_PRIMARY)
    (replica_error_to_int ReplicaError_PRIMARY) Mode_SESSION_LSN true true.

Definition sample_spec : PolarDB_WaitSpec := mkWaitSpec WaitType_LSN 800 500 WaitMode_STRICT.

Definition sample_wait_query : PolarDB_QueryState :=
  empty_query <| qs_reader_plan := sample_replica_plan |> <| qs_original_query := "SELECT 1" |>
    <| qs_wait := mkWaitState sample_spec WaitStage_WAITING 1 5 true false 10 |>.

(** A wait read of the simple protocol failed on the reader. *)
Definition sample_wait_world : retry_world :=
  mkRetryWorld
    (new_session <| ss_mybe := Some 20 |> <| ss_current_hg := 20 |>
                 <| ss_query := sample_wait_query |>)
    {[20 := sample_stream sample_lost_conn (Some sample_request_pkt)]} (Some 4101) 0
    frame_complete [] [] [] [] true.

Definition sample_split_query : PolarDB_QueryState :=
  empty_query <| qs_reader_plan := sample_replica_plan |>.

(** The read of a transaction split failed on the reader. *)
Definition sample_failed_split : retry_world :=
  mkRetryWorld
    (polardb_begin_txn_split_read 20 (Some sample_request_pkt) "" sample_spec sample_replica_plan
       (mkScope 10 3) 1 false 5
       (new_session <| ss_mybe := Some 10 |> <| ss_current_hg := 20 |>
          <| ss_in_transaction := true |> <| ss_split := sample_splittable |>))
    (<[10 := sample_stream (sample_idle_conn PQTRANS_INTRANS 10) None]>
       {[20 := sample_stream sample_lost_conn None]}) (Some 4101) 0
    frame_complete [] [] [] [] true.

Definition sample_env (reader : option (backend_conn * bool)) : retry_env :=
  mkRetryEnv sample_hgm PROCESSING_QUERY 7 7 10000 (Some 8192) (fun _ _ _ _ _ => reader)
    (fun _ => PGSQL_QUERY_SELECT) true true.

Definition sample_reader : option (backend_conn * bool) :=
  Some (sample_idle_conn PQTRANS_IDLE 20, false).

Definition sample_outcome (w : retry_world) : PolarDB_RequestOutcome :=
  polardb_capture_request_outcome (rw_streams w) (rw_session w) (ss_mybe (rw_session w)).
