(* ===== verification/Ledger.v ===== *)
(** * Ownership of packets in the failure stage

    Every block the failure stage handles has one owner at a time: a stream, the
    saved packet of a split read, or the failure record; freeing takes it from
    its owner.  [blocks p w] counts where a block is, and each operation is shown
    to keep the count. *)

From S2P Require Import Prelude SqlScan Policy Startup Config Session Query.
From S2P Require Import SessionState Plan Topology ServerList Wrap Flow Result.
From S2P Require Import Failure Redispatch.
From Stdlib Require Import ZArith Ascii String List Bool Lia.
From stdpp Require Import base tactics list gmap strings.

Open Scope Z_scope.
Open Scope polar_scope.

#[global] Instance packet_eq_dec : EqDecision packet.
Proof. solve_decision. Defined.

(** ** Counting blocks *)

Definition hits (p : packet) (o : PtrSize_t) : nat :=
  if bool_decide (o = Some p) then 1%nat else 0%nat.

Definition stream_hits (p : packet) (st : backend_stream) : nat := hits p (st_pkt (bs_query st)).

Definition streams_hits (p : packet) (m : backends) : nat :=
  map_fold (fun _ st n => (stream_hits p st + n)%nat) 0%nat m.

Definition original_pkt (w : retry_world) : PtrSize_t := tr_original_pkt (ss_reader (rw_session w)).

(** The places that own the block. *)
Definition owners (p : packet) (w : retry_world) : nat :=
  (hits p (original_pkt w) + streams_hits p (rw_streams w))%nat.

(** Owners and frees. *)
Definition blocks (p : packet) (w : retry_world) : nat :=
  (owners p w + count_occ packet_eq_dec (rw_freed w) p)%nat.

Section Ledger.
Context (p : packet).

Lemma hits_none : hits p None = 0%nat.
Proof. reflexivity. Qed.

Lemma streams_hits_delete m hg st :
  m !! hg = Some st ->
  streams_hits p m = (stream_hits p st + streams_hits p (delete hg m))%nat.
Proof.
  intros H. unfold streams_hits.
  rewrite (map_fold_delete_L _ _ hg st m); [done| |done]. intros. lia.
Qed.

Lemma streams_hits_insert m hg st :
  m !! hg = None -> streams_hits p (<[hg := st]> m) = (stream_hits p st + streams_hits p m)%nat.
Proof.
  intros H. unfold streams_hits. rewrite (map_fold_insert_L _ _ hg st m); [done| |done]. intros. lia.
Qed.

Lemma streams_hits_alter m hg f st :
  m !! hg = Some st ->
  (streams_hits p (alter f hg m) + stream_hits p st =
   streams_hits p m + stream_hits p (f st))%nat.
Proof.
  intros H. rewrite (streams_hits_delete m hg st H).
  rewrite (streams_hits_delete (alter f hg m) hg (f st)) by (rewrite lookup_alter_eq, H; done).
  rewrite delete_alter_eq. lia.
Qed.

(** *** Streams *)

Lemma on_stream_missing hg f w : stream_at hg w = None -> on_stream hg f w = w.
Proof.
  unfold stream_at, on_stream. intros H. destruct w; cbn in *. unfold update. cbn.
  f_equal. apply map_eq. intros i. destruct (decide (i = hg)) as [->|].
  - by rewrite lookup_alter_eq, H.
  - by rewrite lookup_alter_ne.
Qed.

Lemma blocks_on_stream hg f w st :
  stream_at hg w = Some st ->
  (blocks p (on_stream hg f w) + stream_hits p st = blocks p w + stream_hits p (f st))%nat.
Proof.
  unfold stream_at, blocks, owners, on_stream, original_pkt. intros H. simpl_upd.
  pose proof (streams_hits_alter _ hg f st H). lia.
Qed.

Lemma blocks_neutral hg f w :
  (forall st, st_pkt (bs_query (f st)) = st_pkt (bs_query st)) ->
  blocks p (on_stream hg f w) = blocks p w.
Proof.
  intros Hf. destruct (stream_at hg w) as [st|] eqn:E; [|by rewrite on_stream_missing].
  pose proof (blocks_on_stream hg f w st E) as H. unfold stream_hits in H.
  rewrite Hf in H. lia.
Qed.

End Ledger.

Definition has (i : Z) (w : retry_world) : Prop := is_Some (stream_at i w).

(** *** Packets *)

Section Packets.
Context (p : packet).

Lemma blocks_reset hg w : (blocks p (reset_real_query hg w) + hits p (packet_at hg w) = blocks p w)%nat.
Proof.
  unfold reset_real_query, packet_at. destruct (stream_at hg w) as [st|] eqn:E.
  - pose proof (blocks_on_stream p hg (fun st => st <| bs_query := no_query |>) w st E) as H.
    unfold stream_hits in H. revert H. simpl_upd. cbn [no_query st_pkt]. rewrite hits_none. lia.
  - rewrite on_stream_missing by done. rewrite hits_none. lia.
Qed.

Lemma blocks_l_free o w : blocks p (l_free o w) = (blocks p w + hits p o)%nat.
Proof.
  unfold l_free. destruct o as [q|]; [|rewrite hits_none; lia].
  unfold hits at 1. unfold blocks, owners, original_pkt. simpl_upd. cbn [count_occ].
  destruct (packet_eq_dec q p) as [->|Hne].
  - rewrite bool_decide_true by done. lia.
  - rewrite bool_decide_false by congruence. lia.
Qed.

Lemma l_free_packet_at o hg w : packet_at hg (l_free o w) = packet_at hg w.
Proof. destruct o; [|done]. unfold packet_at, stream_at, l_free. by simpl_upd. Qed.

Lemma blocks_free_real_query hg w : blocks p (free_pgsql_real_query hg w) = blocks p w.
Proof.
  unfold free_pgsql_real_query.
  pose proof (blocks_reset hg (l_free (packet_at hg w) w)) as H.
  rewrite l_free_packet_at, blocks_l_free in H. lia.
Qed.

Lemma stream_at_on_stream hg i f w :
  stream_at i (on_stream hg f w) = if decide (i = hg) then f <$> stream_at i w else stream_at i w.
Proof.
  unfold stream_at, on_stream. simpl_upd. case_decide as Hd; [subst i|].
  - by rewrite lookup_alter_eq.
  - by rewrite lookup_alter_ne.
Qed.

Lemma packet_at_reset hg w : packet_at hg (reset_real_query hg w) = None.
Proof.
  unfold packet_at, reset_real_query. rewrite stream_at_on_stream, decide_True by done.
  destruct (stream_at hg w); cbn; [|done]. by simpl_upd.
Qed.

Lemma packet_at_free hg w : packet_at hg (free_pgsql_real_query hg w) = None.
Proof. apply packet_at_reset. Qed.

Lemma packet_at_neutral i hg f w :
  (forall st, st_pkt (bs_query (f st)) = st_pkt (bs_query st)) ->
  packet_at i (on_stream hg f w) = packet_at i w.
Proof.
  intros Hf. unfold packet_at. rewrite stream_at_on_stream. case_decide; [|done].
  destruct (stream_at i w); cbn; [apply Hf|done].
Qed.

Lemma blocks_take hg o w :
  packet_at hg w = None -> has hg w ->
  blocks p (take_packet hg o w) = (blocks p w + hits p o)%nat.
Proof.
  intros Hp [st Hst]. unfold take_packet. rewrite Hst.
  match goal with |- blocks p (on_stream hg ?f ?w0) = _ =>
    pose proof (blocks_on_stream p hg f w0 st) as H end.
  unfold packet_at in Hp. rewrite Hst in Hp. unfold stream_hits in H. revert H. cbv beta.
  simpl_upd. rewrite Hp, hits_none. cbn [st_pkt]. intros H.
  rewrite <- (H Hst). lia.
Qed.

Lemma blocks_session f w :
  tr_original_pkt (ss_reader (f (rw_session w))) = tr_original_pkt (ss_reader (rw_session w)) ->
  blocks p (set_session f w) = blocks p w.
Proof.
  intros H. unfold set_session, blocks, owners, original_pkt. simpl_upd.
  by rewrite H.
Qed.

End Packets.

(** ** Streams stay *)

Create HintDb has.

Lemma has_on_stream i hg f w : has i w -> has i (on_stream hg f w).
Proof. unfold has. rewrite stream_at_on_stream. case_decide; [|done]. by rewrite fmap_is_Some. Qed.

Lemma has_l_free i o w : has i w -> has i (l_free o w).
Proof. destruct o; [|done]. unfold has, stream_at, l_free. by simpl_upd. Qed.

Lemma has_session i f w : has i w -> has i (set_session f w).
Proof. unfold has, stream_at, set_session. by simpl_upd. Qed.

Lemma has_fields i (w w' : retry_world) : rw_streams w' = rw_streams w -> has i w -> has i w'.
Proof. unfold has, stream_at. by intros ->. Qed.

#[export] Hint Resolve has_on_stream has_l_free has_session : has.
#[export] Hint Extern 5 (has _ (update _ _ _)) =>
  eapply has_fields; [by simpl_upd|] : has.

Lemma has_free i hg w : has i w -> has i (free_pgsql_real_query hg w).
Proof. unfold free_pgsql_real_query, reset_real_query. eauto with has. Qed.

Lemma has_prepare_retry en i src tgt w : has i w -> has i (polardb_prepare_retry_backend en src tgt w).
Proof.
  unfold polardb_prepare_retry_backend. intros. destruct src, tgt; try case_if; eauto with has.
Qed.

Lemma has_give_up i hg b w : has i w -> has i (polardb_return_or_destroy_backend_stream hg b w).
Proof.
  unfold polardb_return_or_destroy_backend_stream. intros.
  destruct (conn_at hg w); eauto with has.
Qed.

#[export] Hint Resolve has_free has_prepare_retry has_give_up : has.

Lemma has_clear i hg w : has i w -> has i (snd (polardb_clear_reader_request hg w)).
Proof. unfold polardb_clear_reader_request. cbn [snd]. eauto 6 with has. Qed.

Lemma has_release_stream i o b w : has i w -> has i (polardb_release_reader_stream o b w).
Proof.
  unfold polardb_release_reader_stream. intros H. destruct o as [hg|]; [|done].
  pose proof (has_clear i hg w H) as Hc.
  destruct (polardb_clear_reader_request hg w) as [[c|] w']; [|done]. cbn [snd] in Hc.
  unfold set_idle. case_if; eauto with has.
Qed.

Lemma has_reset_request i w : has i w -> has i (reset_txn_reader_request w).
Proof.
  unfold reset_txn_reader_request, reset_real_query. intros.
  destruct (tr_backend _); try case_if; eauto 6 with has.
Qed.

#[export] Hint Resolve has_release_stream has_reset_request : has.

Lemma has_release_txn i b w : has i w -> has i (release_txn_reader_backend b w).
Proof.
  unfold release_txn_reader_backend. intros.
  destruct (tr_backend (ss_reader (rw_session w))) as [be|]; [|done].
  match goal with |- context [if ?c then reset_txn_reader_request w else w] => destruct c end;
    (destruct (conn_at be _); eauto 7 with has).
Qed.

Lemma has_release_wait i b w : has i w -> has i (release_txn_wait_read b w).
Proof.
  intros. unfold release_txn_wait_read.
  match goal with |- context [if ?c then w else _] => destruct c end; [done|].
  by apply has_release_txn.
Qed.

Lemma has_release_reader i o b w : has i w -> has i (polardb_release_reader_backend o b w).
Proof.
  unfold polardb_release_reader_backend. intros H. destruct o as [be|]; [|done].
  case_if; [by apply has_release_txn|]. destruct (stream_at be w); [|done].
  pose proof (has_clear i be w H) as Hc.
  destruct (polardb_clear_reader_request be w) as [[c|] w']; [|done]. cbn [snd] in Hc.
  unfold set_idle. case_if; eauto with has.
Qed.

Lemma has_find_or_create i hg w : has i w -> has i (find_or_create_backend hg w).
Proof.
  unfold find_or_create_backend, has, stream_at. intros H.
  destruct (rw_streams w !! hg) eqn:E; [done|]. simpl_upd.
  destruct (decide (i = hg)) as [->|]; [by rewrite lookup_insert_eq|by rewrite lookup_insert_ne].
Qed.

Lemma has_created hg w : has hg (find_or_create_backend hg w).
Proof.
  unfold find_or_create_backend, has, stream_at.
  destruct (rw_streams w !! hg) eqn:E; [by rewrite E|]. simpl_upd. by rewrite lookup_insert_eq.
Qed.

#[export] Hint Resolve has_release_wait has_release_reader has_find_or_create has_created : has.

(** ** Operations keep the count *)

(** The reader of a split read borrows its query text. *)
Definition borrows (w : retry_world) : Prop :=
  forall be, tr_wait_read_active (ss_reader (rw_session w)) = false ->
    tr_backend (ss_reader (rw_session w)) = Some be -> packet_at be w = None.

Definition ledger (p : packet) (f : PolarDB_ReaderFailure) (w : retry_world) : nat :=
  (hits p (rf_retry_pkt f) + blocks p w)%nat.

Ltac stream_neutral := let st := fresh in intros st; destruct st; reflexivity.

Ltac keep_blocks :=
  repeat first
    [ rewrite blocks_free_real_query
    | rewrite blocks_neutral by stream_neutral
    | rewrite blocks_session by (by simpl_upd)
    | progress simpl_upd ].

(** *** The session part of an operation *)

Lemma session_on_stream hg f w : rw_session (on_stream hg f w) = rw_session w.
Proof. unfold on_stream. by simpl_upd. Qed.

Lemma session_l_free o w : rw_session (l_free o w) = rw_session w.
Proof. destruct o; [|done]. unfold l_free. by simpl_upd. Qed.

Lemma session_set f w : rw_session (set_session f w) = f (rw_session w).
Proof. unfold set_session. by simpl_upd. Qed.

Lemma session_free hg w : rw_session (free_pgsql_real_query hg w) = rw_session w.
Proof.
  unfold free_pgsql_real_query, reset_real_query. by rewrite session_on_stream, session_l_free.
Qed.

Lemma session_give_up hg b w :
  rw_session (polardb_return_or_destroy_backend_stream hg b w) = rw_session w.
Proof.
  unfold polardb_return_or_destroy_backend_stream. destruct (conn_at hg w); [|done].
  rewrite session_on_stream. by simpl_upd.
Qed.

Lemma session_clear hg w : rw_session (snd (polardb_clear_reader_request hg w)) = rw_session w.
Proof.
  unfold polardb_clear_reader_request. cbn [snd].
  by rewrite session_on_stream, session_free, session_on_stream.
Qed.

Lemma session_reset_request w :
  rw_session (reset_txn_reader_request w) = polardb_reset_txn_reader_request (rw_session w).
Proof.
  unfold reset_txn_reader_request. rewrite session_set, session_l_free.
  destruct (tr_backend (ss_reader (rw_session w))); [|done].
  case_if; [by rewrite session_free|]. unfold reset_real_query. by rewrite session_on_stream.
Qed.

(** The model of the split component already says what the session becomes. *)
Lemma session_release_txn b w :
  rw_session (release_txn_reader_backend b w) = polardb_release_txn_reader_backend (rw_session w).
Proof.
  unfold release_txn_reader_backend, polardb_release_txn_reader_backend.
  destruct (tr_backend (ss_reader (rw_session w))) as [be|]; [|done]. rewrite session_set.
  match goal with |- context [if ?c then reset_txn_reader_request w else w] =>
    set (w1 := if c then reset_txn_reader_request w else w);
    assert (rw_session w1 =
      if c then polardb_reset_txn_reader_request (rw_session w) else rw_session w) as <-
      by (subst w1; destruct c; [apply session_reset_request|done]) end.
  destruct (conn_at be _); rewrite ?session_give_up, !session_on_stream; done.
Qed.

Lemma session_release_wait b w :
  rw_session (release_txn_wait_read b w) = polardb_release_txn_wait_read (rw_session w).
Proof.
  unfold release_txn_wait_read, polardb_release_txn_wait_read.
  match goal with |- context [if ?c then w else _] => destruct c end; [done|].
  apply session_release_txn.
Qed.

Lemma session_release_stream o b w :
  rw_session (polardb_release_reader_stream o b w) = rw_session w.
Proof.
  unfold polardb_release_reader_stream. destruct o as [hg|]; [|done].
  pose proof (session_clear hg w) as H.
  destruct (polardb_clear_reader_request hg w) as [[c|] w']; [|done]. cbn [snd] in H.
  unfold set_idle. case_if; rewrite session_give_up, ?session_on_stream; exact H.
Qed.

Lemma session_release_unused hg w :
  rw_session (polardb_release_unused_reader_backend hg w) = rw_session w.
Proof.
  unfold polardb_release_unused_reader_backend. destruct (stream_at hg w); [|done].
  pose proof (session_clear hg w) as H.
  destruct (polardb_clear_reader_request hg w) as [[c|] w']; [|done].
  by rewrite session_give_up.
Qed.

Lemma session_release_reader o b w :
  rw_session (polardb_release_reader_backend o b w) = rw_session w \/
  rw_session (polardb_release_reader_backend o b w) =
    polardb_release_txn_reader_backend (rw_session w).
Proof.
  unfold polardb_release_reader_backend. destruct o as [be|]; [|auto].
  case_if; [right; apply session_release_txn|left]. destruct (stream_at be w); [|done].
  pose proof (session_clear be w) as H.
  destruct (polardb_clear_reader_request be w) as [[c|] w']; [|done]. cbn [snd] in H.
  unfold set_idle. case_if; rewrite session_give_up, ?session_on_stream; exact H.
Qed.

Lemma session_prepare_retry en src tgt w :
  rw_session (polardb_prepare_retry_backend en src tgt w) = rw_session w.
Proof.
  unfold polardb_prepare_retry_backend.
  destruct src, tgt; try case_if; by rewrite ?session_on_stream.
Qed.

Lemma session_find_or_create hg w : rw_session (find_or_create_backend hg w) = rw_session w.
Proof. unfold find_or_create_backend. destruct (stream_at hg w); [done|]. by simpl_upd. Qed.

Lemma session_forward en f rfq w :
  rw_session (polardb_forward_reader_error en f rfq w) = rw_session w.
Proof.
  unfold polardb_forward_reader_error. destruct (if rf_has_backend_error f then _ else _).
  repeat case_if; by simpl_upd.
Qed.

Lemma session_record f w : rw_session (polardb_record_reader_failure f w) = rw_session w.
Proof.
  unfold polardb_record_reader_failure. case_if; [done|].
  destruct (rf_reader_backend f); [apply session_on_stream|done].
Qed.

(** *** The saved packet of a split read *)

Lemma original_on_stream hg f w : original_pkt (on_stream hg f w) = original_pkt w.
Proof. unfold original_pkt, on_stream. by simpl_upd. Qed.

Lemma original_l_free o w : original_pkt (l_free o w) = original_pkt w.
Proof. destruct o; [|done]. unfold original_pkt, l_free. by simpl_upd. Qed.

Lemma original_session f w :
  tr_original_pkt (ss_reader (f (rw_session w))) = tr_original_pkt (ss_reader (rw_session w)) ->
  original_pkt (set_session f w) = original_pkt w.
Proof. intros H. unfold original_pkt, set_session. simpl_upd. exact H. Qed.

Lemma original_reset s :
  tr_original_pkt (ss_reader (polardb_reset_txn_reader_request s)) = None.
Proof. unfold polardb_reset_txn_reader_request. by destruct (tr_primary_backend _); simpl_upd. Qed.

Lemma original_reset_request w : original_pkt (reset_txn_reader_request w) = None.
Proof.
  unfold reset_txn_reader_request, original_pkt, set_session. simpl_upd. apply original_reset.
Qed.

Lemma original_free hg w : original_pkt (free_pgsql_real_query hg w) = original_pkt w.
Proof. unfold free_pgsql_real_query, reset_real_query. by rewrite original_on_stream, original_l_free. Qed.

Lemma original_give_up hg b w :
  original_pkt (polardb_return_or_destroy_backend_stream hg b w) = original_pkt w.
Proof.
  unfold polardb_return_or_destroy_backend_stream. destruct (conn_at hg w); [|done].
  rewrite original_on_stream. unfold original_pkt. by simpl_upd.
Qed.

Lemma original_clear hg w : original_pkt (snd (polardb_clear_reader_request hg w)) = original_pkt w.
Proof.
  unfold polardb_clear_reader_request. cbn [snd].
  by rewrite original_on_stream, original_free, original_on_stream.
Qed.

Lemma original_release_txn b w :
  original_pkt w = None -> original_pkt (release_txn_reader_backend b w) = None.
Proof.
  intros H. unfold release_txn_reader_backend.
  destruct (tr_backend (ss_reader (rw_session w))) as [be|] eqn:E; [|done].
  rewrite original_session by (unfold clear_backend; by simpl_upd).
  match goal with |- context [if ?c then reset_txn_reader_request w else w] =>
    set (w1 := if c then reset_txn_reader_request w else w);
    assert (original_pkt w1 = None) as H1
      by (subst w1; destruct c; [apply original_reset_request|done]) end.
  destruct (conn_at be _); rewrite ?original_give_up, ?original_on_stream; exact H1.
Qed.

Lemma original_release_reader o b w :
  original_pkt w = None -> original_pkt (polardb_release_reader_backend o b w) = None.
Proof.
  intros H. unfold polardb_release_reader_backend. destruct o as [be|]; [|done].
  case_if; [by apply original_release_txn|]. destruct (stream_at be w); [|done].
  pose proof (original_clear be w) as Hc. rewrite H in Hc.
  destruct (polardb_clear_reader_request be w) as [[c|] w']; [|done]. cbn [snd] in Hc.
  unfold set_idle. case_if; rewrite original_give_up, ?original_on_stream; exact Hc.
Qed.

Lemma original_prepare_retry en src tgt w :
  original_pkt (polardb_prepare_retry_backend en src tgt w) = original_pkt w.
Proof.
  unfold polardb_prepare_retry_backend.
  destruct src, tgt; try case_if; by rewrite ?original_on_stream.
Qed.

Lemma original_find_or_create hg w : original_pkt (find_or_create_backend hg w) = original_pkt w.
Proof.
  unfold find_or_create_backend. destruct (stream_at hg w); [done|].
  unfold original_pkt. by simpl_upd.
Qed.

Section Operations.
Context (en : retry_env) (p : packet).

Lemma blocks_previous_status b w : blocks p (set_previous_status_mode3 en b w) = blocks p w.
Proof. unfold set_previous_status_mode3. destruct (en_status en), b; by keep_blocks. Qed.

Lemma blocks_restart pkt w :
  blocks p (polardb_restart_query_dispatch_from_packet en pkt w) = blocks p w.
Proof.
  unfold polardb_restart_query_dispatch_from_packet. destruct pkt; [|done].
  rewrite blocks_previous_status. by keep_blocks.
Qed.

Lemma blocks_extended_retry hg w :
  blocks p (polardb_prepare_extended_retry en (transfer_extended_frame_backend hg w)) =
  blocks p w.
Proof.
  unfold polardb_prepare_extended_retry, transfer_extended_frame_backend.
  rewrite blocks_previous_status. case_if; by keep_blocks.
Qed.

Lemma blocks_prepare_retry src tgt w :
  blocks p (polardb_prepare_retry_backend en src tgt w) = blocks p w.
Proof.
  unfold polardb_prepare_retry_backend.
  destruct src, tgt; try case_if; keep_blocks; done.
Qed.

Lemma blocks_clear hg w : blocks p (snd (polardb_clear_reader_request hg w)) = blocks p w.
Proof. unfold polardb_clear_reader_request. cbn [snd]. by keep_blocks. Qed.

Lemma blocks_give_up hg b w :
  blocks p (polardb_return_or_destroy_backend_stream hg b w) = blocks p w.
Proof.
  unfold polardb_return_or_destroy_backend_stream. destruct (conn_at hg w); [|done].
  by keep_blocks.
Qed.

Lemma blocks_release_stream o b w :
  blocks p (polardb_release_reader_stream o b w) = blocks p w.
Proof.
  unfold polardb_release_reader_stream. destruct o as [hg|]; [|done].
  pose proof (blocks_clear hg w) as H.
  destruct (polardb_clear_reader_request hg w) as [[c|] w']; [|done]. cbn [snd] in H.
  unfold set_idle. case_if; rewrite blocks_give_up; by keep_blocks.
Qed.

Lemma blocks_release_unused hg w :
  blocks p (polardb_release_unused_reader_backend hg w) = blocks p w.
Proof.
  unfold polardb_release_unused_reader_backend. destruct (stream_at hg w); [|done].
  pose proof (blocks_clear hg w) as H.
  destruct (polardb_clear_reader_request hg w) as [[c|] w']; [|done].
  by rewrite blocks_give_up.
Qed.

Lemma blocks_forward f rfq w : blocks p (polardb_forward_reader_error en f rfq w) = blocks p w.
Proof.
  unfold polardb_forward_reader_error. destruct (if rf_has_backend_error f then _ else _).
  repeat case_if; by keep_blocks.
Qed.

Lemma blocks_record f w : blocks p (polardb_record_reader_failure f w) = blocks p w.
Proof.
  unfold polardb_record_reader_failure. case_if; [done|].
  destruct (rf_reader_backend f); by keep_blocks.
Qed.

Lemma blocks_session_reset w :
  (blocks p (set_session polardb_reset_txn_reader_request w) + hits p (original_pkt w) =
   blocks p w)%nat.
Proof.
  unfold set_session, blocks, owners, original_pkt. simpl_upd.
  rewrite original_reset, hits_none. lia.
Qed.

Lemma blocks_reset_request w : borrows w -> blocks p (reset_txn_reader_request w) = blocks p w.
Proof.
  intros Hb. unfold reset_txn_reader_request. fold (original_pkt w).
  set (w1 := match tr_backend _ with Some _ => _ | None => _ end).
  assert (blocks p w1 = blocks p w /\ original_pkt w1 = original_pkt w) as [H1 H2].
  { subst w1. destruct (tr_backend (ss_reader (rw_session w))) as [be|] eqn:E; [|done].
    case_if.
    - rewrite blocks_free_real_query. split; [done|].
      unfold free_pgsql_real_query, reset_real_query. rewrite original_on_stream.
      unfold original_pkt, l_free. destruct (packet_at be w); by simpl_upd.
    - pose proof (blocks_reset p be w) as H. rewrite (Hb be) in H by done.
      rewrite hits_none in H. split; [lia|apply original_on_stream]. }
  pose proof (blocks_session_reset (l_free (original_pkt w) w1)) as H.
  assert (original_pkt (l_free (original_pkt w) w1) = original_pkt w) as Ho.
  { by rewrite original_l_free. }
  rewrite Ho, blocks_l_free, H1 in H. lia.
Qed.

Lemma packet_at_session hg f w : packet_at hg (set_session f w) = packet_at hg w.
Proof. unfold packet_at, stream_at, set_session. by simpl_upd. Qed.

Lemma packet_at_reset_request be w :
  tr_backend (ss_reader (rw_session w)) = Some be ->
  packet_at be (reset_txn_reader_request w) = None.
Proof.
  intros E. unfold reset_txn_reader_request. rewrite packet_at_session, l_free_packet_at, E.
  case_if; [apply packet_at_free|apply packet_at_reset].
Qed.

Lemma blocks_drop_query hg f w :
  packet_at hg w = None -> (forall st, st_pkt (bs_query (f st)) = None) ->
  blocks p (on_stream hg f w) = blocks p w.
Proof.
  intros Hp Hf. destruct (stream_at hg w) as [st|] eqn:E; [|by rewrite on_stream_missing].
  pose proof (blocks_on_stream p hg f w st E) as H. unfold stream_hits in H.
  unfold packet_at in Hp. rewrite E in Hp. rewrite Hp, Hf in H. lia.
Qed.

Lemma blocks_release_txn b w :
  borrows w -> blocks p (release_txn_reader_backend b w) = blocks p w.
Proof.
  intros Hb. unfold release_txn_reader_backend.
  destruct (tr_backend (ss_reader (rw_session w))) as [be|] eqn:E; [|done].
  set (w1 := if txn_reader_active _ || _ then _ else _).
  assert (blocks p w1 = blocks p w /\ packet_at be w1 = None) as [<- H2].
  { subst w1. unfold txn_reader_active.
    match goal with |- context [if ?c then reset_txn_reader_request w else w] =>
      destruct c eqn:Ec end.
    - split; [by apply blocks_reset_request|by apply packet_at_reset_request].
    - bool_to_prop. split; [done|by apply (Hb be)]. }
  rewrite blocks_session by (unfold clear_backend; by simpl_upd).
  destruct (conn_at be _); [rewrite blocks_give_up, blocks_neutral by stream_neutral|];
    (rewrite blocks_drop_query; [done|done|intros st; by destruct st]).
Qed.

Lemma blocks_release_wait b w : borrows w -> blocks p (release_txn_wait_read b w) = blocks p w.
Proof.
  intros Hb. unfold release_txn_wait_read.
  match goal with |- context [if ?c then w else _] => destruct c end;
    [done|by apply blocks_release_txn].
Qed.

Lemma blocks_release_reader o b w :
  o = None \/ borrows w -> blocks p (polardb_release_reader_backend o b w) = blocks p w.
Proof.
  intros Hb. unfold polardb_release_reader_backend. destruct o as [be|]; [|done].
  destruct Hb as [[=]|Hb].
  case_if; [by apply blocks_release_txn|]. destruct (stream_at be w); [|done].
  pose proof (blocks_clear be w) as H.
  destruct (polardb_clear_reader_request be w) as [[c|] w']; [|done]. cbn [snd] in H.
  unfold set_idle. case_if; rewrite blocks_give_up; by keep_blocks.
Qed.

Lemma blocks_end_split w :
  borrows w -> blocks p (polardb_end_split_after_reader_failure w) = blocks p w.
Proof.
  intros Hb. unfold polardb_end_split_after_reader_failure. case_if; [done|].
  rewrite blocks_session by (by simpl_upd). rewrite blocks_reset_request.
  - by keep_blocks.
  - intros be. unfold borrows in Hb. rewrite packet_at_session.
    unfold set_session. simpl_upd. apply Hb.
Qed.

Lemma ledger_free_retry f w :
  let '(f', w') := polardb_free_retry_pkt_if_owned f w in
  rf_retry_pkt f' = None /\ ledger p f' w' = ledger p f w.
Proof.
  unfold polardb_free_retry_pkt_if_owned, ledger.
  destruct (rf_retry_pkt f) as [q|] eqn:E; [|by rewrite E].
  simpl_upd. split; [done|]. rewrite blocks_l_free, hits_none. case_if; keep_blocks; lia.
Qed.

Lemma blocks_move_retry src be hg pkt ext w :
  let '(moved, pkt', w') := polardb_move_retry_packet_to_writer en src be hg pkt ext w in
  (if moved then pkt' = None /\ blocks p w' = (blocks p w + hits p pkt)%nat
   else pkt' = pkt /\ w' = w).
Proof.
  unfold polardb_move_retry_packet_to_writer. destruct be as [be|]; [|done].
  destruct pkt as [q|]; [|done]. destruct (stream_at be w) eqn:E; [|done].
  split; [done|]. case_if; rewrite ?blocks_extended_retry, ?blocks_restart;
    (rewrite blocks_take; [|apply packet_at_free|];
     [keep_blocks; by rewrite blocks_prepare_retry|]);
    (assert (has be w) by (unfold has; by rewrite E);
     eauto 6 with has).
Qed.

Lemma blocks_find_or_create hg w : blocks p (find_or_create_backend hg w) = blocks p w.
Proof.
  unfold find_or_create_backend. destruct (stream_at hg w) eqn:E; [done|].
  unfold blocks, owners, original_pkt, stream_at in *. simpl_upd.
  rewrite streams_hits_insert by done. cbn [new_stream]. unfold stream_hits.
  cbn [new_stream bs_query no_query st_pkt]. rewrite hits_none. lia.
Qed.

Lemma blocks_begin_split hg pkt q spec plan scope n w :
  original_pkt w = None ->
  blocks p (begin_txn_split_read en hg pkt q spec plan scope n w) = (blocks p w + hits p pkt)%nat.
Proof.
  intros Ho. unfold begin_txn_split_read.
  set (w1 := on_stream hg _ _).
  assert (blocks p w1 = blocks p w /\ original_pkt w1 = None) as [<- H2].
  { subst w1. rewrite original_on_stream, original_free. split; [|done].
    rewrite blocks_drop_query; [by keep_blocks|apply packet_at_free|intros st; by destruct st]. }
  unfold set_session, blocks, owners, original_pkt in *. simpl_upd.
  unfold polardb_begin_txn_split_read, polardb_begin_txn_reader_read. simpl_upd.
  rewrite H2, hits_none. lia.
Qed.

(** The failed reader, if still held, can be given up. *)
Definition releasable (f : PolarDB_ReaderFailure) (w : retry_world) : Prop :=
  rf_reader_backend f = None \/ borrows w.

Lemma ledger_to_writer f hg be w :
  releasable f w ->
  let '(moved, f', w') := polardb_try_redispatch_to_writer en f hg be w in
  ledger p f' w' = ledger p f w /\ (moved = true -> rf_retry_pkt f' = None) /\
  (moved = false -> releasable f' w').
Proof.
  intros Hb. unfold polardb_try_redispatch_to_writer.
  destruct be as [be|]; [|done]. destruct (rf_retry_pkt f) as [q|] eqn:E; [|done].
  destruct (conn_at be w); [|done].
  case_if; [done|]. simpl_upd. rewrite E.
  set (w1 := polardb_release_reader_backend _ _ w).
  pose proof (blocks_move_retry (rf_failed_myds f) (Some be) hg (Some q) false w1) as H.
  destruct (polardb_move_retry_packet_to_writer _ _ _ _ _ _ _) as [[moved pkt] w2].
  assert (blocks p w1 = blocks p w) as Hw by (subst w1; by apply blocks_release_reader).
  unfold ledger, releasable. simpl_upd. rewrite E. destruct moved; destruct H as [-> H].
  - split; [|done]. rewrite hits_none. lia.
  - subst w2. split; [lia|]. split; [done|by left].
Qed.

Lemma ledger_to_other_reader f w :
  releasable f w -> original_pkt w = None ->
  let '(moved, f', w') := polardb_try_redispatch_to_other_reader en f w in
  ledger p f' w' = ledger p f w /\ (moved = true -> rf_retry_pkt f' = None) /\
  (moved = false -> releasable f' w').
Proof.
  intros Hb Ho. unfold polardb_try_redispatch_to_other_reader.
  match goal with |- context [if ?c then _ else _] => destruct c; [done|] end.
  destruct (polardb_build_txn_split_wrapped_query _ _ _ _) as [n text].
  case_if; [done|]. set (w1 := polardb_release_reader_backend _ _ w).
  assert (blocks p w1 = blocks p w) as Hw by (subst w1; by apply blocks_release_reader).
  assert (original_pkt w1 = None) as Ho1 by (subst w1; by apply original_release_reader).
  clearbody w1. simpl_upd.
  unfold ledger, releasable. destruct (conn_at _ _).
  { simpl_upd. rewrite blocks_find_or_create. split_and!; [lia|done|by left]. }
  destruct (en_acquire en _ _ _ _ _) as [[conn bypass]|].
  2:{ simpl_upd. rewrite blocks_find_or_create. split_and!; [lia|done|by left]. }
  unfold attach_connection. repeat case_if; simpl_upd.
  - rewrite blocks_give_up. keep_blocks. rewrite blocks_find_or_create. split_and!; [lia|done|by left].
  - rewrite blocks_release_unused. keep_blocks. rewrite blocks_find_or_create. split_and!; [lia|done|by left].
  - split; [|done]. unfold set_request. rewrite hits_none, blocks_restart.
    rewrite blocks_session by (by simpl_upd). rewrite blocks_begin_split.
    + keep_blocks. rewrite blocks_prepare_retry. keep_blocks. rewrite blocks_find_or_create. lia.
    + rewrite original_session by (by simpl_upd).
      by rewrite original_prepare_retry, original_on_stream, original_find_or_create.
Qed.

Lemma ledger_forward f w :
  releasable f w ->
  let '(_, f', w') := polardb_forward_error_and_keep_writer en f w in
  rf_retry_pkt f' = None /\ ledger p f' w' = ledger p f w.
Proof.
  intros Hb. unfold polardb_forward_error_and_keep_writer.
  match goal with |- context [polardb_free_retry_pkt_if_owned f ?w1] =>
    pose proof (ledger_free_retry f w1) as H; revert H end.
  destruct (polardb_free_retry_pkt_if_owned _ _) as [f' w']. intros [? ->]. split; [done|].
  unfold ledger. by rewrite blocks_forward, blocks_release_reader.
Qed.

Lemma ledger_terminate f w :
  releasable f w ->
  let '(_, f', w') := polardb_terminate_session_after_reader_failure f w in
  rf_retry_pkt f' = None /\ ledger p f' w' = ledger p f w.
Proof.
  intros Hb. unfold polardb_terminate_session_after_reader_failure.
  match goal with |- context [polardb_free_retry_pkt_if_owned f ?w1] =>
    pose proof (ledger_free_retry f w1) as H; revert H end.
  destruct (polardb_free_retry_pkt_if_owned _ _) as [f' w']. intros [? ->]. split; [done|].
  unfold ledger. by rewrite blocks_release_reader.
Qed.

Lemma backend_reset s :
  tr_backend (ss_reader (polardb_reset_txn_reader_request s)) = tr_backend (ss_reader s).
Proof. unfold polardb_reset_txn_reader_request. by destruct (tr_primary_backend _); simpl_upd. Qed.

Lemma backend_reset_request w :
  tr_backend (ss_reader (rw_session (reset_txn_reader_request w))) =
  tr_backend (ss_reader (rw_session w)).
Proof.
  by rewrite session_reset_request, backend_reset.
Qed.

Lemma borrows_end_split w : borrows w -> borrows (polardb_end_split_after_reader_failure w).
Proof.
  intros Hb. unfold polardb_end_split_after_reader_failure. case_if; [done|].
  intros be _. rewrite packet_at_session. unfold set_session at 1. simpl_upd.
  rewrite backend_reset_request. apply packet_at_reset_request.
Qed.

Lemma borrows_record f w : borrows w -> borrows (polardb_record_reader_failure f w).
Proof.
  intros Hb. unfold polardb_record_reader_failure. case_if; [done|].
  destruct (rf_reader_backend f); [|done]. intros be. rewrite packet_at_neutral by stream_neutral.
  unfold on_stream. simpl_upd. apply Hb.
Qed.

Lemma original_end_split w :
  original_pkt w = None -> original_pkt (polardb_end_split_after_reader_failure w) = None.
Proof.
  intros H. unfold polardb_end_split_after_reader_failure. case_if; [done|].
  rewrite original_session by (by simpl_upd). apply original_reset_request.
Qed.

Lemma original_record f w : original_pkt (polardb_record_reader_failure f w) = original_pkt w.
Proof.
  unfold polardb_record_reader_failure. case_if; [done|].
  destruct (rf_reader_backend f); [apply original_on_stream|done].
Qed.

Lemma ledger_route r hg f w :
  ledger p f (set_session (polardb_apply_reader_failure_route_state r hg f) w) = ledger p f w.
Proof.
  unfold ledger. rewrite blocks_session; [done|].
  unfold polardb_apply_reader_failure_route_state. destruct r; [done| |]; try case_if; by simpl_upd.
Qed.

Lemma releasable_route r hg f w :
  releasable f w ->
  releasable f (set_session (polardb_apply_reader_failure_route_state r hg f) w).
Proof.
  intros [?|Hw]; [by left|right]. intros be. rewrite packet_at_session, session_set.
  unfold polardb_apply_reader_failure_route_state. destruct r; try case_if; simpl_upd; apply Hw.
Qed.

Lemma ledger_decline (allow : bool) hg f w :
  releasable f w ->
  let '(_, f', w') := polardb_forward_error_and_keep_writer en f
    (if allow then set_session
       (polardb_apply_reader_failure_route_state FailureRoute_FORCE_WRITER hg f) w else w) in
  rf_retry_pkt f' = None /\ ledger p f' w' = ledger p f w.
Proof.
  intros Hr. destruct allow; [|exact (ledger_forward f w Hr)].
  pose proof (ledger_forward f _ (releasable_route FailureRoute_FORCE_WRITER hg f w Hr)) as H.
  rewrite ledger_route in H. exact H.
Qed.

Lemma ledger_split f w :
  borrows w -> original_pkt w = None ->
  let '(_, f', w') := handle_split_failure en f w in
  rf_retry_pkt f' = None /\ ledger p f' w' = ledger p f w.
Proof.
  intros Hb Ho. unfold handle_split_failure.
  destruct (polardb_resolve_writer_state _ _ _ _) as [[st hg] be].
  set (w1 := polardb_end_split_after_reader_failure _).
  assert (blocks p w1 = blocks p w /\ borrows w1 /\ original_pkt w1 = None) as (H1&H2&H3).
  { subst w1. rewrite blocks_end_split, blocks_record by (by apply borrows_record).
    split; [done|]. split; [by apply borrows_end_split, borrows_record|].
    apply original_end_split. by rewrite original_record. }
  clearbody w1. set (d := polardb_reader_failure_decision _ _). clearbody d. cbv zeta.
  assert (ledger p f w1 = ledger p f w) as <- by (unfold ledger; lia).
  case_if; [apply ledger_terminate; by right|].
  case_if; [apply ledger_terminate; by right|].
  case_if; [|apply ledger_decline; by right].
  assert (let '(moved, f', w') := if dn_retry_target d == RetryTarget_OTHER_READER
            then polardb_try_redispatch_to_other_reader en f w1 else (false, f, w1) in
          ledger p f' w' = ledger p f w1 /\ (moved = true -> rf_retry_pkt f' = None) /\
          (moved = false -> releasable f' w')) as Hreader.
  { case_if; [apply ledger_to_other_reader; [by right|done]|]. split_and!; [done|done|by right]. }
  destruct (if dn_retry_target d == _ then _ else _) as [[[] f2] w2];
    destruct Hreader as (L2&M2&R2).
  { rewrite ledger_route. auto. }
  specialize (R2 eq_refl).
  assert (let '(moved, f', w') := if dn_allow_writer_retry d && (st == WriterState_LIVE)
            then polardb_try_redispatch_to_writer en f2 hg be w2 else (false, f2, w2) in
          ledger p f' w' = ledger p f2 w2 /\ (moved = true -> rf_retry_pkt f' = None) /\
          (moved = false -> releasable f' w')) as Hwriter
    by (case_if; [by apply ledger_to_writer|done]).
  destruct (if _ && _ then _ else _) as [[[] f3] w3]; destruct Hwriter as (L3&M3&R3).
  { rewrite ledger_route, L3. auto. }
  rewrite <- L2, <- L3. apply ledger_decline. auto.
Qed.

(** *** Reader reads *)

(** A wait-wrapped read is active on the temporary reader. *)
Definition txn_wait (w : retry_world) : Prop :=
  tr_wait_read_active (ss_reader (rw_session w)) = true.

Lemma txn_wait_borrows w : txn_wait w -> borrows w.
Proof. unfold txn_wait. intros H be Hf. congruence. Qed.

Lemma ledger_preserve f w :
  let '(f', w') := preserve_ordinary_request_packet f w in
  ledger p f' w' = ledger p f w /\ rf_failed_myds f' = rf_failed_myds f.
Proof.
  unfold preserve_ordinary_request_packet, ledger.
  destruct (is_ordinary f); [|done]. destruct (rf_retry_pkt f) eqn:E; [by rewrite E|].
  destruct (rf_failed_myds f) as [hg|] eqn:Em; [|by rewrite E].
  destruct (packet_at hg w) as [q|] eqn:Eq; [|by rewrite E].
  simpl_upd. pose proof (blocks_reset p hg w) as H. rewrite Eq in H. rewrite hits_none.
  split; [lia|done].
Qed.

Lemma ledger_release_failed txn b f w :
  (txn = true -> rf_failed_myds f <> None -> txn_wait w) ->
  let '(f', w') := release_failed_reader txn b f w in
  ledger p f' w' = ledger p f w.
Proof.
  intros Ht. unfold release_failed_reader. destruct (rf_failed_myds f) as [hg|]; [|done].
  destruct txn.
  - unfold ledger. simpl_upd. by rewrite blocks_release_wait by (by apply txn_wait_borrows, Ht).
  - pose proof (ledger_preserve f w) as H. revert H.
    destruct (preserve_ordinary_request_packet f w) as [f' w']. intros [<- _].
    unfold ledger. simpl_upd. by rewrite blocks_release_stream.
Qed.

Lemma ledger_finish_retry req b f w :
  (forall hg, req = Some hg -> has hg w) ->
  let '(f', w') := finish_retry_packet req b f w in
  rf_retry_pkt f' = None /\ ledger p f' w' = ledger p f w.
Proof.
  intros Hh. unfold finish_retry_packet. destruct req as [hg|]; [|apply ledger_free_retry].
  case_if; [|apply ledger_free_retry]. unfold ledger. simpl_upd. split; [done|].
  rewrite blocks_take, blocks_free_real_query, hits_none; [lia|apply packet_at_free|].
  apply has_free. by apply Hh.
Qed.

Lemma has_preserve i f w : has i w -> has i (snd (preserve_ordinary_request_packet f w)).
Proof.
  unfold preserve_ordinary_request_packet, reset_real_query. intros.
  repeat case_match; cbn [snd]; eauto with has.
Qed.

Lemma has_release_failed i txn b f w : has i w -> has i (snd (release_failed_reader txn b f w)).
Proof.
  intros H. unfold release_failed_reader. destruct (rf_failed_myds f); [|done].
  destruct txn; cbn [snd]; [auto with has|].
  pose proof (has_preserve i f w H) as Hp.
  destruct (preserve_ordinary_request_packet f w) as [f' w']. cbn [snd] in *. auto with has.
Qed.

Lemma ledger_finish_with_error txn req f w :
  (txn = true -> rf_failed_myds f <> None -> txn_wait w) -> (forall hg, req = Some hg -> has hg w) ->
  let '(_, f', w') := finish_with_error en txn req f w in
  rf_retry_pkt f' = None /\ ledger p f' w' = ledger p f w.
Proof.
  intros Ht Hh. unfold finish_with_error, finish_txn_wait_with_error, finish_ordinary_with_error.
  assert (forall b0, let '(f', w') :=
    (let '(f1, w1) := release_failed_reader txn false f w in finish_retry_packet req b0 f1 w1) in
    rf_retry_pkt f' = None /\ ledger p f' w' = ledger p f w) as Hrel.
  { intros b0. pose proof (ledger_release_failed txn false f w Ht) as H1.
    assert (forall hg, req = Some hg -> has hg (snd (release_failed_reader txn false f w))) as H2
      by (intros; by apply has_release_failed, Hh).
    destruct (release_failed_reader txn false f w) as [f1 w1]. cbn [snd] in H2.
    pose proof (ledger_finish_retry req b0 f1 w1 H2) as H3.
    destruct (finish_retry_packet req b0 f1 w1) as [f2 w2]. by rewrite <- H1. }
  assert (forall f0 rfq w0, ledger p f0 (polardb_forward_reader_error en f0 rfq w0) =
    ledger p f0 w0) as Hfwd by (intros; unfold ledger; by rewrite blocks_forward).
  destruct txn; [|destruct (rf_result_started f) eqn:Es;
                  [|destruct (rf_reusable f && _)]].
  - specialize (Hrel (negb (rf_result_started f))).
    destruct (release_failed_reader true false f w) as [f1 w1] eqn:Er.
    assert (rf_result_started f1 = rf_result_started f) as ->.
    { unfold release_failed_reader in Er. destruct (rf_failed_myds f); [|congruence].
      injection Er as <- _. by simpl_upd. }
    destruct (finish_retry_packet _ _ _ _) as [f2 w2] eqn:Ef. case_if; [done|by rewrite Hfwd].
  - specialize (Hrel false). destruct (release_failed_reader _ _ _ _) as [f1 w1].
    by destruct (finish_retry_packet _ _ _ _).
  - pose proof (ledger_finish_retry req true f w Hh) as H.
    by destruct (finish_retry_packet _ _ _ _).
  - specialize (Hrel true). destruct (release_failed_reader _ _ _ _) as [f1 w1].
    destruct (finish_retry_packet _ _ _ _). by rewrite Hfwd.
Qed.

End Operations.
