(* ===== verification/LedgerStage.v ===== *)
(** * The failure stage keeps its packets

    A run of the failure stage hands the packets of a session over without
    losing or doubling one: the accounting of [Ledger] carried through the reads
    that are retried on another reader or on the primary, up to the whole stage. *)

From S2P Require Import Prelude SqlScan Policy Startup Config Session Query.
From S2P Require Import SessionState Plan Topology ServerList Wrap Flow Result.
From S2P Require Import Failure Redispatch Ledger.
From Stdlib Require Import ZArith Ascii String List Bool Lia.
From stdpp Require Import base tactics list gmap strings.

Open Scope Z_scope.
Open Scope polar_scope.

Section Reads.
Context (en : retry_env).

(** The record owns no packet, or one worth sending; so does its stream. *)
Definition sized (f : PolarDB_ReaderFailure) (w : retry_world) : Prop :=
  (rf_retry_pkt f = None \/ pkt_present (rf_retry_pkt f) = true) /\
  forall hg, rf_failed_myds f = Some hg ->
    packet_at hg w = None \/ pkt_present (packet_at hg w) = true.

(** The packet rebuilt from the saved text of a wait read. *)
Definition rebuilt (f : PolarDB_ReaderFailure) : PtrSize_t :=
  polardb_build_simple_query_packet (en_l_alloc en) (rf_retry_query f).

(** What only the packet and the stream of a record may change. *)
Definition same_request (f f' : PolarDB_ReaderFailure) : Prop :=
  rf_request_kind f' = rf_request_kind f /\ rf_retry_query f' = rf_retry_query f /\
  rf_result_started f' = rf_result_started f /\
  rf_fallback_writer_hg f' = rf_fallback_writer_hg f.

(** Between the two states at most the rebuilt packet is new, and then [K]. *)
Definition grown (K : Prop) (f : PolarDB_ReaderFailure) (w : retry_world)
    (f' : PolarDB_ReaderFailure) (w' : retry_world) : Prop :=
  exists b, (forall p, ledger p f' w' = (ledger p f w + hits p b)%nat) /\
    (b = None \/
     (b = rebuilt f /\ is_wait f = true /\ pkt_present (rf_retry_pkt f) = false /\ K)).

Definition packed (f : PolarDB_ReaderFailure) : Prop := pkt_present (rf_retry_pkt f) = true.

Lemma grown_refl K f w : grown K f w f w.
Proof. exists None. split; [intros p; rewrite hits_none; lia|auto]. Qed.

Lemma grown_mono (K K' : Prop) f w f' w' : (K -> K') -> grown K f w f' w' -> grown K' f w f' w'.
Proof. intros HK (b&Hl&Hb). exists b. split; [done|]. intuition auto. Qed.

Lemma rebuilt_present f q : rebuilt f = Some q -> 0 < pkt_size q.
Proof.
  unfold rebuilt, polardb_build_simple_query_packet. case_if; [done|].
  destruct (en_l_alloc en); [|done]. intros [= <-]. unfold pkt_size, simple_query_bytes.
  cbn [pk_bytes length]. lia.
Qed.

Lemma packet_at_reset_any i hg w :
  packet_at i (reset_real_query hg w) = if decide (i = hg) then None else packet_at i w.
Proof.
  case_decide as Hd; [subst i; apply packet_at_reset|].
  unfold packet_at, reset_real_query. by rewrite stream_at_on_stream, decide_False.
Qed.

Lemma sized_reset f hg w : sized f w -> sized f (reset_real_query hg w).
Proof.
  intros [H1 H2]. split; [done|]. intros i Hi. rewrite packet_at_reset_any.
  case_decide; [by left|by apply H2].
Qed.

Lemma ledger_prepare f w :
  sized f w ->
  let '(ok, f', w') := polardb_prepare_reader_retry_packet en f w in
  grown (packed f') f w f' w' /\ same_request f f' /\ rf_failed_myds f' = rf_failed_myds f /\
  sized f' w' /\ (forall i, has i w -> has i w') /\ rw_session w' = rw_session w.
Proof.
  intros Hsz. destruct (Hsz) as [Hs Hst]. unfold polardb_prepare_reader_retry_packet.
  destruct (pkt_present (rf_retry_pkt f)) eqn:Ep.
  { split; [apply grown_refl|]. by split_and!. }
  destruct Hs as [Hs|Hs]; [|congruence]. destruct (is_wait f) eqn:Ew.
  - fold (rebuilt f).
    assert (rebuilt f = None \/ pkt_present (rebuilt f) = true) as Hb.
    { destruct (rebuilt f) as [q|] eqn:Eb; [right|by left].
      cbn. apply Z.ltb_lt. by apply (rebuilt_present f). }
    split.
    + exists (rebuilt f). unfold ledger, packed. simpl_upd. rewrite Hs.
      split; [intros p; rewrite hits_none; lia|]. destruct Hb; auto.
    + unfold same_request, sized. simpl_upd. by split_and!.
  - destruct (is_ordinary f), (rf_failed_myds f) as [hg|] eqn:Em;
      try (split; [apply grown_refl|]; by split_and!).
    destruct (packet_at hg w) as [q|] eqn:Eq; [|split; [apply grown_refl|]; by split_and!].
    split; [|unfold same_request; simpl_upd; split_and!; try done].
    + exists None. unfold ledger. simpl_upd. rewrite Hs. split; [|by left].
      intros p. rewrite !hits_none. pose proof (blocks_reset p hg w) as H. rewrite Eq in H. lia.
    + apply sized_reset. unfold sized. simpl_upd. rewrite Em. split; [|exact Hst].
      right. destruct (Hst hg eq_refl) as [Hn|Hn]; [congruence|by rewrite Eq in Hn].
    + intros i Hi. unfold reset_real_query. auto with has.
    + unfold reset_real_query. by rewrite session_on_stream.
Qed.

Lemma select_retry_original f b s :
  tr_original_pkt (ss_reader (select_retry_wait en f b s)) = tr_original_pkt (ss_reader s).
Proof.
  unfold select_retry_wait, polardb_finish_reader_wait_selection.
  repeat (case_if; simpl_upd; try done).
Qed.

Lemma ledger_reader_read f w :
  sized f w ->
  let '(moved, f', w') := polardb_try_redispatch_reader_read_to_other_reader en f w in
  grown (moved = false -> packed f') f w f' w' /\ (moved = true -> rf_retry_pkt f' = None) /\
  (moved = false -> same_request f f' /\ sized f' w' /\ (forall i, has i w -> has i w') /\
                    rw_session w' = rw_session w).
Proof.
  intros Hs. unfold polardb_try_redispatch_reader_read_to_other_reader.
  case_if; [split; [apply grown_refl|by split_and!]|].
  pose proof (ledger_prepare f w Hs) as H. revert H.
  destruct (polardb_prepare_reader_retry_packet en f w) as [[ok f1] w1].
  intros (G&Hsame&_&Hs1&Hh&Hse). destruct ok; cbn [negb];
    [|split; [by apply (grown_mono (packed f1))|by split_and!]].
  set (w2 := find_or_create_backend _ _).
  assert ((forall p, blocks p w2 = blocks p w1) /\ (forall i, has i w1 -> has i w2) /\
          rw_session w2 = rw_session w1 /\ has (rf_reader_hg f1) w2) as (B2&Hh2&Hse2&Hhr).
  { subst w2. simpl_upd. rewrite session_find_or_create, session_release_stream.
    split_and!; auto with has. intros p. by rewrite blocks_find_or_create, blocks_release_stream. }
  assert (forall w3, (forall p, blocks p w3 = blocks p w2) -> (forall i, has i w2 -> has i w3) ->
    rw_session w3 = rw_session w2 ->
    let f3 := f1 <| rf_failed_myds := None |> in
    grown (false = false -> packed f3) f w f3 w3 /\ (false = true -> rf_retry_pkt f3 = None) /\
    (false = false -> same_request f f3 /\ sized f3 w3 /\ (forall i, has i w -> has i w3) /\
                      rw_session w3 = rw_session w)) as Hdecline.
  { intros w3 B3 Hh3 Hse3 f3. subst f3. unfold grown, ledger, same_request, sized, packed in *.
    simpl_upd. rewrite Hse3, Hse2, Hse. split_and!; [|done|intros _].
    { destruct G as (b&L&?). exists b. split; [intros p; by rewrite B3, B2|intuition auto]. }
    split_and!; try done; [apply Hsame..|apply Hs1|auto]. }
  destruct (conn_at _ w2); [by apply Hdecline|].
  destruct (en_acquire en _ _ _ _ _) as [[conn bypass]|]; [|by apply Hdecline].
  unfold attach_connection. case_if.
  { apply Hdecline; [intros p; rewrite blocks_give_up; by keep_blocks|auto with has|].
    by rewrite session_give_up, session_on_stream. }
  split; [|by simpl_upd]. destruct G as (b&G&Hb). exists b.
  split; [|destruct Hb as [?|(?&?&?&?)]; [by left|right; by split_and!]].
  intros p. specialize (G p). unfold ledger, set_request in *. simpl_upd. rewrite hits_none.
  match goal with |- (0 + blocks p (if _ then _ (_ _ ?w6) else _))%nat = _ => set (w5 := w6) end.
  assert (blocks p w5 = (blocks p w1 + hits p (rf_retry_pkt f1))%nat) as H5.
  { subst w5. rewrite blocks_session by (by simpl_upd).
    rewrite blocks_session by (rewrite select_retry_original; by simpl_upd).
    rewrite blocks_prepare_retry, blocks_take; [keep_blocks; by rewrite B2|apply packet_at_free|].
    auto with has. }
  case_if; rewrite ?blocks_extended_retry, ?blocks_restart; lia.
Qed.

Lemma packet_at_find_or_create i hg w : packet_at i (find_or_create_backend hg w) = packet_at i w.
Proof.
  unfold find_or_create_backend. destruct (stream_at hg w) eqn:E; [done|].
  unfold packet_at, stream_at in *. simpl_upd. destruct (decide (i = hg)) as [->|].
  - by rewrite lookup_insert_eq, E.
  - by rewrite lookup_insert_ne.
Qed.

Lemma finish_grown K f w f1 w1 txn req :
  grown K f w f1 w1 ->
  (txn = true -> rf_failed_myds f1 <> None -> txn_wait w1) ->
  (forall hg, req = Some hg -> has hg w1) ->
  let '(_, f', w') := finish_with_error en txn req f1 w1 in
  rf_retry_pkt f' = None /\ grown K f w f' w'.
Proof.
  intros (b&Hl&Hb) Ht Hh.
  assert (forall p, let '(_, f', w') := finish_with_error en txn req f1 w1 in
    rf_retry_pkt f' = None /\ ledger p f' w' = ledger p f1 w1) as H
    by (intros; by apply ledger_finish_with_error).
  revert H. destruct (finish_with_error en txn req f1 w1) as [[a f'] w']. intros H.
  split; [apply (H (mkPacket 0 []))|]. exists b. split; [|done]. intros p. rewrite <- Hl. apply H.
Qed.

Lemma release_failed_none txn b f w :
  rf_failed_myds (fst (release_failed_reader txn b f w)) = None.
Proof.
  unfold release_failed_reader. destruct (rf_failed_myds f) eqn:E; [|done].
  destruct txn; cbn [fst]; [by simpl_upd|].
  destruct (preserve_ordinary_request_packet f w). cbn [fst]. by simpl_upd.
Qed.

Lemma primary_tail K txn req f w f2 w2 hg :
  grown K f w f2 w2 -> (txn = true -> rf_failed_myds f2 <> None -> txn_wait w2) ->
  (forall hg, req = Some hg -> has hg w2) -> forall b0,
  let '(_, f', w') :=
    let '(f3, w3) := release_failed_reader txn b0 f2 w2 in
    let w3 := set_request clear_reader_route w3 in
    let '(moved, pkt, w4) :=
      polardb_move_retry_packet_to_writer en req (Some hg) hg (rf_retry_pkt f3)
        (rf_extended_query f3) w3 in
    let f4 := f3 <| rf_retry_pkt := pkt |> in
    if negb moved then finish_with_error en txn req f4 w4 else (FailureAction_RETRY, f4, w4) in
  rf_retry_pkt f' = None /\ grown K f w f' w'.
Proof.
  intros (b&L&Hb) Ht Hh b0.
  assert (forall p, let '(f', w') := release_failed_reader txn b0 f2 w2 in
    ledger p f' w' = ledger p f2 w2) as Hl by (intros; by apply ledger_release_failed).
  pose proof (release_failed_none txn b0 f2 w2) as Hn.
  assert (forall hg, req = Some hg -> has hg (snd (release_failed_reader txn b0 f2 w2))) as Hh3
    by (intros; by apply has_release_failed, Hh).
  destruct (release_failed_reader txn b0 f2 w2) as [f3 w3]. cbn [fst snd] in *. cbv zeta.
  pose proof (fun p => blocks_move_retry en p req (Some hg) hg (rf_retry_pkt f3) (rf_extended_query f3)
    (set_request clear_reader_route w3)) as Hm. revert Hm.
  destruct (polardb_move_retry_packet_to_writer _ _ _ _ _ _ _) as [[moved pkt] w4].
  assert (forall p, blocks p (set_request clear_reader_route w3) = blocks p w3) as Hr
    by (intros; unfold set_request; by rewrite blocks_session by (by simpl_upd)).
  destruct moved; intros Hm; cbn [negb].
  - simpl_upd. split; [apply (Hm (mkPacket 0 []))|]. exists b. split; [|done]. intros p.
    destruct (Hm p) as [-> Hm']. specialize (L p). specialize (Hl p). rewrite Hr in Hm'.
    unfold ledger in *. simpl_upd. rewrite hits_none. lia.
  - destruct (Hm (mkPacket 0 [])) as [-> ->]. apply finish_grown; [|by simpl_upd; rewrite Hn|].
    + exists b. split; [|done]. intros p. specialize (L p). specialize (Hl p).
      unfold ledger in *. simpl_upd. rewrite Hr. lia.
    + intros i Hi. apply has_session. by apply Hh3.
Qed.

Lemma ledger_primary txn req f w :
  sized f w -> (txn = true -> rf_failed_myds f <> None -> txn_wait w) ->
  (forall hg, req = Some hg -> has hg w) ->
  let '(_, f', w') := retry_on_primary en txn req f w in
  rf_retry_pkt f' = None /\ grown True f w f' w'.
Proof.
  intros Hs Ht Hh. unfold retry_on_primary.
  case_if; [apply finish_grown; [apply grown_refl|done|done]|].
  set (w1 := find_or_create_backend _ w).
  assert (forall p, blocks p w1 = blocks p w) as B1 by (intros; apply blocks_find_or_create).
  assert (txn = true -> rf_failed_myds f <> None -> txn_wait w1) as T1
    by (unfold txn_wait, w1; by rewrite session_find_or_create).
  assert (forall hg, req = Some hg -> has hg w1) as H1 by (intros; subst w1; auto with has).
  assert (grown True f w f w1) as G1
    by (exists None; split; [intros p; unfold ledger; rewrite B1, hits_none; lia|by left]).
  case_if; [by apply finish_grown|]. case_if; [by apply finish_grown|].
  assert (sized f w1) as Hs1.
  { destruct Hs as [? Hs]. split; [done|]. intros hg Hf. subst w1.
    rewrite packet_at_find_or_create. by apply Hs. }
  pose proof (ledger_prepare f w1 Hs1) as H. revert H.
  destruct (polardb_prepare_reader_retry_packet en f w1) as [[ok f2] w2].
  intros (G2&_&Hm&_&Hh2&S2).
  assert (grown True f w f2 w2) as G.
  { destruct G2 as (b&L&Hb). exists b. split; [|intuition auto].
    intros p. specialize (L p). unfold ledger in *. by rewrite B1 in L. }
  assert (txn = true -> rf_failed_myds f2 <> None -> txn_wait w2) as T2
    by (unfold txn_wait in *; by rewrite Hm, S2).
  assert (forall hg, req = Some hg -> has hg w2) as H2 by auto.
  destruct ok; cbn [negb]; [|by apply finish_grown]. by apply primary_tail.
Qed.

Lemma reader_finish_wait now conn px :
  ss_reader (px_session (polardb_finish_wait now conn px)) = ss_reader (px_session px).
Proof.
  unfold polardb_finish_wait. case_if; [done|].
  destruct (match conn with Some _ => _ | None => _ end). cbn [px_session]. by simpl_upd.
Qed.

Lemma reader_drop_wait f w :
  ss_reader (rw_session (drop_failed_wait en f w)) = ss_reader (rw_session w).
Proof.
  unfold drop_failed_wait, finish_wait_without_reader, set_request.
  destruct (rf_failed_myds f); case_if; simpl_upd; rewrite ?session_set; simpl_upd;
    rewrite ?reader_finish_wait; cbn [px_session];
    by rewrite ?session_free, ?session_on_stream.
Qed.

Lemma blocks_drop_wait p f w : blocks p (drop_failed_wait en f w) = blocks p w.
Proof.
  unfold drop_failed_wait, finish_wait_without_reader, set_request.
  assert (forall s, tr_original_pkt (ss_reader (px_session (polardb_finish_wait (en_now_us en)
    None (mkProxy (en_hgm en) None s)))) = tr_original_pkt (ss_reader s)) as Hf
    by (intros; by rewrite reader_finish_wait).
  destruct (rf_failed_myds f); case_if; keep_blocks; try done;
    rewrite blocks_session by apply Hf; by keep_blocks.
Qed.

Lemma has_drop_wait i f w : has i w -> has i (drop_failed_wait en f w).
Proof.
  intros. unfold drop_failed_wait, finish_wait_without_reader, set_request.
  destruct (rf_failed_myds f); case_if; eauto 7 with has.
Qed.

Lemma sized_drop_wait f w : sized f w -> sized f (drop_failed_wait en f w).
Proof.
  intros [H1 H2]. split; [done|]. intros hg Hf. specialize (H2 hg Hf).
  unfold drop_failed_wait, finish_wait_without_reader, set_request. rewrite Hf.
  case_if; rewrite ?packet_at_session.
  - left. apply packet_at_free.
  - by rewrite packet_at_neutral by stream_neutral.
Qed.

(** What the stage needs of a request that is not a split read. *)
Record read_ok (f : PolarDB_ReaderFailure) (w : retry_world) : Prop := {
  ro_sized : sized f w;
  ro_stream : forall hg, rf_failed_myds f = Some hg -> has hg w
}.

(** At most the rebuilt packet is new. *)
Definition grew (f : PolarDB_ReaderFailure) (w : retry_world)
    (f' : PolarDB_ReaderFailure) (w' : retry_world) : Prop :=
  exists b, (forall p, ledger p f' w' = (ledger p f w + hits p b)%nat) /\
    (b = None \/ b = rebuilt f).

Lemma grown_grew K f w f' w' : grown K f w f' w' -> grew f w f' w'.
Proof. intros (b&L&Hb). exists b. split; [done|]. intuition auto. Qed.

Lemma grown_trans f w f1 w1 f' w' :
  grown (packed f1) f w f1 w1 -> same_request f f1 -> grown True f1 w1 f' w' -> grew f w f' w'.
Proof.
  intros (b1&L1&H1) (_&Hq&_) (b2&L2&H2).
  destruct H1 as [->|(->&_&_&Hp)].
  - exists b2. split; [intros p; by rewrite L2, L1, hits_none, Nat.add_0_r|].
    destruct H2 as [->|(->&_)]; [by left|right]. unfold rebuilt. by rewrite Hq.
  - destruct H2 as [->|(_&_&Hn&_)]; [|unfold packed in Hp; congruence].
    exists (rebuilt f). split; [|by right]. intros p. rewrite L2, L1, hits_none. lia.
Qed.

(** A run of the stage: the record ends without a packet. *)
Definition settles (f : PolarDB_ReaderFailure) (w : retry_world)
    (r : PolarDB_FailureAction * PolarDB_ReaderFailure * retry_world) : Prop :=
  let '(_, f', w') := r in rf_retry_pkt f' = None /\ grew f w f' w'.

Lemma settles_from f w w1 r :
  (forall p, blocks p w1 = blocks p w) -> settles f w1 r -> settles f w r.
Proof.
  intros B. destruct r as [[a f'] w']. intros (Hp&b&L&Hb). split; [done|].
  exists b. split; [|done]. intros p. rewrite L. unfold ledger. by rewrite B.
Qed.

Lemma finish_settles K f w f1 w1 txn req :
  grown K f w f1 w1 ->
  (txn = true -> rf_failed_myds f1 <> None -> txn_wait w1) ->
  (forall hg, req = Some hg -> has hg w1) ->
  settles f w (finish_with_error en txn req f1 w1).
Proof.
  intros G T H. pose proof (finish_grown K f w f1 w1 _ _ G T H) as Hf. revert Hf. unfold settles.
  destruct (finish_with_error _ _ _ _ _) as [[a f'] w']. intros [? ?].
  split; [done|]. by eapply grown_grew.
Qed.

Lemma primary_settles txn req f w f1 w1 :
  grown (packed f1) f w f1 w1 -> same_request f f1 -> sized f1 w1 ->
  (txn = true -> rf_failed_myds f1 <> None -> txn_wait w1) ->
  (forall hg, req = Some hg -> has hg w1) ->
  settles f w (retry_on_primary en txn req f1 w1).
Proof.
  intros G Hsame Hs T H. pose proof (ledger_primary txn req f1 w1 Hs T H) as Hp. revert Hp.
  unfold settles. destruct (retry_on_primary _ _ _ _ _) as [[a f'] w']. intros [? ?].
  split; [done|]. by eapply grown_trans.
Qed.

Lemma disconnect_settles txn f w :
  (txn = true -> rf_failed_myds f <> None -> txn_wait w) ->
  settles f w
    (let '(f1, w1) := release_failed_reader txn false f w in
     let '(f2, w2) := polardb_free_retry_pkt_if_owned f1 w1 in (FailureAction_TERMINATE, f2, w2)).
Proof.
  intros T. pose proof (fun p => ledger_release_failed p txn false f w T) as H1. revert H1.
  destruct (release_failed_reader txn false f w) as [f1 w1]. intros H1.
  pose proof (fun p => ledger_free_retry p f1 w1) as H2. revert H2. unfold settles.
  destruct (polardb_free_retry_pkt_if_owned f1 w1) as [f2 w2]. intros H2.
  split; [apply (H2 (mkPacket 0 []))|]. exists None. split; [|by left].
  intros p. rewrite hits_none. destruct (H2 p) as [_ ->]. rewrite H1. lia.
Qed.

Lemma retry_settles f w txn d :
  sized f w -> (txn = true -> txn_wait w) ->
  (forall hg, rf_failed_myds f = Some hg -> has hg w) ->
  settles f w
    (let '(moved, f1, w1) :=
       if txn then (false, f, w)
       else polardb_try_redispatch_reader_read_to_other_reader en f w in
     if moved then (FailureAction_RETRY, f1, w1)
     else if negb (dn_allow_writer_retry d)
     then finish_with_error en txn (rf_failed_myds f) f1 w1
     else retry_on_primary en txn (rf_failed_myds f) f1 w1).
Proof.
  intros Hs T Hh.
  assert (let '(moved, f1, w2) := if txn then (false, f, w)
            else polardb_try_redispatch_reader_read_to_other_reader en f w in
    grown (moved = false -> packed f1) f w f1 w2 /\ (moved = true -> rf_retry_pkt f1 = None) /\
    (moved = false -> same_request f f1 /\ sized f1 w2 /\ (forall i, has i w -> has i w2) /\
                      rw_session w2 = rw_session w)) as Hr.
  { destruct txn; [|by apply ledger_reader_read]. split; [apply grown_refl|by split_and!]. }
  destruct (if txn then _ else _) as [[[] f1] w2]; destruct Hr as (G&Hm&Hk).
  { split; [auto|by eapply grown_grew]. }
  destruct (Hk eq_refl) as (Hsame&Hs2&Hh2&Se2).
  assert (grown (packed f1) f w f1 w2) as G1 by (revert G; apply grown_mono; auto).
  assert (txn = true -> rf_failed_myds f1 <> None -> txn_wait w2) as T2
    by (intros Ht _; unfold txn_wait; rewrite Se2; by apply T).
  assert (forall hg, rf_failed_myds f = Some hg -> has hg w2) as Hh3 by auto.
  case_if; [by eapply finish_settles|by apply primary_settles].
Qed.

Lemma handle_read_settles f d w :
  read_ok f w -> is_wait f || is_ordinary f = true ->
  settles f w (polardb_handle_failed_reader_read en f d w).
Proof.
  intros [Hs Hh] Hk. unfold polardb_handle_failed_reader_read. rewrite <- negb_orb, Hk. cbn [negb].
  set (w1 := drop_failed_wait en f w). apply settles_from with w1.
  { intros p. apply blocks_drop_wait. }
  assert (sized f w1) as Hs1 by by apply sized_drop_wait.
  assert (forall hg, rf_failed_myds f = Some hg -> has hg w1) as Hh1
    by (intros; by apply has_drop_wait, Hh).
  set (txn := tr_wait_read_active _ && _).
  assert (txn = true -> txn_wait w1) as T by (intros Ht%andb_true_iff; apply Ht).
  clearbody txn w1. destruct (dn_action d).
  - case_if; [by apply retry_settles|]. eapply primary_settles; auto; [apply grown_refl|by split_and!].
  - apply (finish_settles True); auto. apply grown_refl.
  - apply disconnect_settles. auto.
Qed.

(** *** The stage *)

(** A session between requests of the stage: no stream holds an empty packet,
    and the stream of a split reader holds none, its text being the wrapper. *)
Record stage_ok (w : retry_world) : Prop := {
  so_packets : forall hg, packet_at hg w = None \/ pkt_present (packet_at hg w) = true;
  so_borrows : borrows w
}.

Lemma outcome_stream m s be hg :
  oc_backend_myds (polardb_capture_request_outcome m s be) = Some hg -> is_Some (m !! hg).
Proof.
  unfold polardb_capture_request_outcome. destruct be as [be|]; [|done].
  destruct (m !! be) as [st|] eqn:E; [|done]. destruct (bs_conn st) as [c|].
  - destruct (vc_parent c); cbn [oc_backend_myds]; intros [= <-]; by rewrite E.
  - cbn. intros [= <-]. by rewrite E.
Qed.

Lemma take_failure oc w :
  let '(f, s) := polardb_take_reader_failure oc (rw_session w) in
  let w' := set_session (fun _ => s) w in
  (forall p, ledger p f w' = blocks p w) /\ rf_failed_myds f = oc_backend_myds oc /\
  (is_split f = true -> original_pkt w' = None /\
     tr_backend (ss_reader s) = tr_backend (ss_reader (rw_session w)) /\
     tr_wait_read_active (ss_reader s) = tr_wait_read_active (ss_reader (rw_session w))) /\
  (is_split f = false -> rf_retry_pkt f = None /\ w' = w).
Proof.
  unfold polardb_take_reader_failure. cbn [rf_reader_backend polardb_failure_from_outcome].
  match goal with |- context [if ?c then _ else _] => destruct c end; cbv zeta.
  - unfold original_pkt, is_split, ledger, blocks, owners, set_session, original_pkt.
    simpl_upd. split_and!; try done. intros p. rewrite hits_none. lia.
  - assert (set_session (fun _ => rw_session w) w = w) as ->
      by (destruct w; reflexivity).
    unfold ledger, is_split. by split_and!.
Qed.

Lemma capture_wait f w :
  stage_ok w -> rf_retry_pkt f = None ->
  let '(f', w') := polardb_capture_wait_read_failure en f w in
  (forall p, ledger p f' w' = blocks p w) /\ rf_failed_myds f' = rf_failed_myds f /\
  (forall hg, has hg w -> has hg w') /\ sized f' w' /\
  rw_session w' = rw_session w /\ (rf_retry_pkt f' = None \/ is_wait f' = true).
Proof.
  intros [Hp _] Hn. unfold polardb_capture_wait_read_failure. simpl_upd.
  assert (forall hg, packet_at hg w = None \/ pkt_present (packet_at hg w) = true) as Hp' by done.
  set (spec := if has_wait _ then _ else _). clearbody spec.
  set (ext := en_status en != PROCESSING_QUERY). clearbody ext.
  set (writer := if 0 <=? _ then _ else _). clearbody writer.
  destruct (rf_failed_myds f) as [hg|] eqn:Em.
  - match goal with |- context [if polardb_extended_wait_retry_packet_ready ?a ?b ?c then _ else _]
      => destruct (polardb_extended_wait_retry_packet_ready a b c) end; cbn [orb].
    + unfold ledger, is_wait, sized, reset_real_query. simpl_upd. split_and!; auto with has.
      * intros p. pose proof (blocks_reset p hg w) as H. unfold reset_real_query in H. lia.
      * intros i Hi. fold (reset_real_query hg w). rewrite packet_at_reset_any. case_decide; auto.
      * by rewrite session_on_stream.
    + unfold ledger, is_wait, sized. case_if; simpl_upd; rewrite ?Hn, ?Em; split_and!; auto.
  - unfold ledger, is_wait, sized. case_if; simpl_upd; rewrite ?Hn, ?Em; split_and!; auto.
Qed.

Lemma blocks_finish_reset p w :
  blocks p (set_request reset_wait (finish_wait_without_reader en w)) = blocks p w.
Proof.
  unfold set_request, finish_wait_without_reader.
  rewrite !blocks_session; [done|..]; [|by simpl_upd]. intros. by rewrite reader_finish_wait.
Qed.

Lemma sized_fields f f' w :
  rf_retry_pkt f' = rf_retry_pkt f -> rf_failed_myds f' = rf_failed_myds f ->
  sized f w -> sized f' w.
Proof. unfold sized. by intros -> ->. Qed.

(** The record of a request that is not a split read. *)
Definition classify_read (oc : PolarDB_RequestOutcome) (f : PolarDB_ReaderFailure)
    (w : retry_world) : PolarDB_ReaderFailure :=
  let r := ss_reader (rw_session w) in
  let failure :=
    if tr_wait_read_active r &&
       match tr_backend r with
       | Some be => bool_decide (Some be = oc_backend_myds oc)
       | None => false
       end && negb (is_wait f)
    then adopt_txn_wait_failure en f w else f in
  if negb (is_wait failure)
  then polardb_capture_ordinary_reader_failure en failure (rw_session w) else failure.

Lemma classify_pkt oc f w :
  rf_retry_pkt (classify_read oc f w) = rf_retry_pkt f /\
  rf_failed_myds (classify_read oc f w) = rf_failed_myds f.
Proof.
  unfold classify_read, adopt_txn_wait_failure, polardb_capture_ordinary_reader_failure.
  cbv zeta. repeat case_match; simpl_upd; done.
Qed.

Lemma classify_wait oc f w : is_wait f = true -> classify_read oc f w = f.
Proof. intros H. unfold classify_read. by rewrite H, andb_false_r, H. Qed.

(** At most one block is new: the packet rebuilt by the allocator. *)
Definition conserves (w : retry_world)
    (r : PolarDB_FailureAction * PolarDB_ReaderFailure * retry_world) : Prop :=
  let '(_, f', w') := r in
  rf_retry_pkt f' = None /\
  exists b, (forall p, blocks p w' = (blocks p w + hits p b)%nat) /\
    (b = None \/ exists text, b = polardb_build_simple_query_packet (en_l_alloc en) text).

Lemma settles_conserves f w w0 r :
  (forall p, ledger p f w = blocks p w0) -> settles f w r -> conserves w0 r.
Proof.
  intros L0. destruct r as [[a f'] w']. intros (Hp&b&L&Hb). split; [done|]. exists b.
  split; [|destruct Hb as [?| ->]; [by left|right; by eexists]].
  intros p. specialize (L p). unfold ledger in L at 1. rewrite Hp, hits_none, L0 in L. exact L.
Qed.

Lemma split_conserves f w w0 :
  borrows w -> original_pkt w = None -> (forall p, ledger p f w = blocks p w0) ->
  conserves w0 (handle_split_failure en f w).
Proof.
  intros Hb Ho L0. pose proof (fun p => ledger_split en p f w Hb Ho) as H. revert H.
  destruct (handle_split_failure en f w) as [[a f'] w']. intros H.
  split; [apply (H (mkPacket 0 []))|]. exists None. split; [|by left]. intros p.
  destruct (H p) as [Hn L]. rewrite L0 in L. unfold ledger in L. rewrite Hn in L.
  rewrite hits_none in *. lia.
Qed.

Lemma stage_conserves w be :
  stage_ok w ->
  conserves w (polardb_handle_reader_failure en
    (polardb_capture_request_outcome (rw_streams w) (rw_session w) be) w).
Proof.
  intros Hok. unfold polardb_handle_reader_failure. set (oc := polardb_capture_request_outcome _ _ _).
  pose proof (take_failure oc w) as T. revert T.
  destruct (polardb_take_reader_failure oc (rw_session w)) as [f s]. cbv zeta.
  intros (L&Hm&Hs&Hn). destruct (is_split f).
  { destruct (Hs eq_refl) as (Ho&Eb&Ea). apply split_conserves; [|done|done].
    intros i. rewrite packet_at_session, session_set, Eb, Ea. apply (so_borrows w Hok). }
  destruct (Hn eq_refl) as [Hp ->]. clear Hs Hn L.
  pose proof (capture_wait f w Hok Hp) as C. revert C.
  destruct (polardb_capture_wait_read_failure en f w) as [f1 w1]. intros (L&Hm1&Hh&Hsz&Hse&Hk).
  match goal with |- context [is_wait (if negb (is_wait ?x) then ?y else ?z)] =>
    change (if negb (is_wait x) then y else z) with (classify_read oc f1 w1) end.
  destruct (classify_pkt oc f1 w1) as [Ep Em].
  destruct (is_wait (classify_read oc f1 w1) || _) eqn:Ek.
  - apply settles_conserves with (classify_read oc f1 w1) w1.
    + intros p. unfold ledger in *. by rewrite Ep.
    + apply handle_read_settles; [|done]. split; [by apply (sized_fields f1)|].
      intros hg Hg. apply Hh. unfold has, stream_at. apply (outcome_stream _ (rw_session w) be).
      fold oc. congruence.
  - assert (rf_retry_pkt f1 = None) as Hn.
    { destruct Hk as [|Hw]; [done|]. rewrite classify_wait, Hw in Ek by done. done. }
    unfold conserves. rewrite Ep, Hn. split; [done|]. exists None. split; [|by left].
    intros p. rewrite hits_none. specialize (L p). unfold ledger in L. rewrite Hn, hits_none in L.
    case_if; rewrite ?blocks_finish_reset; lia.
Qed.

End Reads.
