(* ===== verification/RetrySafety.v ===== *)
(** * What the failure stage promises

    The decision is the table of the configured actions; the client is written
    to only when the error is forwarded; a retried read keeps the consistency
    target and the transaction it had; a statement is retried at most twice; and
    every packet ends with one owner. *)

From S2P Require Import Prelude SqlScan Policy Startup Config Session Query.
From S2P Require Import SessionState Plan Topology ServerList Wrap Flow Result.
From S2P Require Import Failure Redispatch Ledger LedgerStage.
From Stdlib Require Import ZArith Ascii String List Bool Lia.
From stdpp Require Import base tactics list gmap strings.

Open Scope Z_scope.
Open Scope polar_scope.

(** ** The decision table *)

(** What a failure leads to: the error, with the writer forced for the rest of
    the transaction or not; the end of the session; the primary; or another
    reader, with the primary behind it or not. *)
Inductive recovery :=
| Recover_ERROR (force_writer : bool)
| Recover_DISCONNECT
| Recover_PRIMARY
| Recover_READER (then_primary : bool).

Definition recovery_for (kind : PolarDB_ReaderFailureKind) (plan : PolarDB_Query_ReaderPlan)
    (reader_left : bool) : recovery :=
  match kind with
  | QUERY_CANCELED => Recover_ERROR false
  | WAIT_TIMEOUT =>
      match polardb_lsn_wait_timeout_action_from_int (rd_lsn_wait_timeout_action plan) with
      | LsnTimeout_PRIMARY => Recover_PRIMARY
      | LsnTimeout_DISCONNECT => Recover_DISCONNECT
      | LsnTimeout_WARNING | LsnTimeout_ERROR => Recover_ERROR true
      end
  | REUSABLE_ERROR =>
      match polardb_replica_error_action_from_int (rd_replica_error_action plan) with
      | ReplicaError_PRIMARY => Recover_PRIMARY
      | ReplicaError_ERROR => Recover_ERROR true
      | ReplicaError_DISCONNECT => Recover_DISCONNECT
      end
  | CONNECTION_LOST =>
      match polardb_replica_loss_action_from_int (rd_replica_loss_action plan) with
      | ReplicaLoss_PRIMARY => Recover_PRIMARY
      | ReplicaLoss_REPLICA_THEN_PRIMARY =>
          if reader_left then Recover_READER true else Recover_PRIMARY
      | ReplicaLoss_REPLICA_THEN_ERROR =>
          if reader_left then Recover_READER false else Recover_ERROR false
      | ReplicaLoss_ERROR => Recover_ERROR true
      | ReplicaLoss_DISCONNECT => Recover_DISCONNECT
      end
  end.

(** Another reader may still be tried. *)
Definition reader_left (f : PolarDB_ReaderFailure) (attempts : Z) : bool :=
  (rf_request_kind f != RequestKind_NONE) && negb (rf_wait_was_bypassed f) &&
  (attempts <? POLARDB_READER_RETRY_LIMIT).

Definition decision_of (kind : PolarDB_ReaderFailureKind) (r : recovery)
  : PolarDB_ReaderFailureDecision :=
  match r with
  | Recover_ERROR b =>
      mkDecision kind ReaderAction_RETURN_ERROR RetryTarget_WRITER
        (if b then FailureRoute_FORCE_WRITER else FailureRoute_NONE) b
  | Recover_DISCONNECT =>
      mkDecision kind ReaderAction_DISCONNECT_CLIENT RetryTarget_WRITER FailureRoute_NONE true
  | Recover_PRIMARY =>
      mkDecision kind ReaderAction_RETRY RetryTarget_WRITER FailureRoute_FORCE_WRITER true
  | Recover_READER b =>
      mkDecision kind ReaderAction_RETRY RetryTarget_OTHER_READER FailureRoute_SKIP_READER b
  end.

Lemma decision_table (f : PolarDB_ReaderFailure) (attempts : Z) :
  let kind := polardb_reader_failure_kind_for f in
  polardb_reader_failure_decision f attempts =
  decision_of kind (recovery_for kind (rf_reader_plan f) (reader_left f attempts)).
Proof.
  cbv zeta. unfold polardb_reader_failure_decision, decide_by_kind, reader_left. cbn [dn_kind].
  destruct (polardb_reader_failure_kind_for f); cbn [recovery_for].
  - unfold decide_connection_lost.
    destruct (rf_request_kind f != RequestKind_NONE), (negb (rf_wait_was_bypassed f)),
      (attempts <? POLARDB_READER_RETRY_LIMIT);
      by destruct (polardb_replica_loss_action_from_int _).
  - destruct (polardb_lsn_wait_timeout_action_from_int _); reflexivity.
  - destruct (polardb_replica_error_action_from_int _); reflexivity.
  - reflexivity.
Qed.

(** The recovery of every reader failure is the table of the configured
    actions: a timed-out wait, an error on a reusable connection and a lost
    connection each follow their own setting, a canceled query is only ever
    forwarded, and another reader is tried first only while the statement has
    not used its one reader retry and its wait was not bypassed. *)
Theorem decision_follows_table (f : PolarDB_ReaderFailure) (attempts : Z) :
  let kind := polardb_reader_failure_kind_for f in
  polardb_reader_failure_decision f attempts =
  decision_of kind (recovery_for kind (rf_reader_plan f) (reader_left f attempts)).
Proof. exact (decision_table f attempts). Qed.

(** ** Nothing is written before the error *)

Create Rewrite HintDb client.

Section Quiet.
Context (en : retry_env).

Lemma client_on_stream hg f w : rw_client (on_stream hg f w) = rw_client w.
Proof. unfold on_stream. by simpl_upd. Qed.

Lemma client_set_session f w : rw_client (set_session f w) = rw_client w.
Proof. unfold set_session. by simpl_upd. Qed.

Lemma client_set_request f w : rw_client (set_request f w) = rw_client w.
Proof. apply client_set_session. Qed.

Lemma client_l_free o w : rw_client (l_free o w) = rw_client w.
Proof. destruct o; [|done]. unfold l_free. by simpl_upd. Qed.

Lemma client_reset hg w : rw_client (reset_real_query hg w) = rw_client w.
Proof. apply client_on_stream. Qed.

Lemma client_free hg w : rw_client (free_pgsql_real_query hg w) = rw_client w.
Proof. unfold free_pgsql_real_query. by rewrite client_reset, client_l_free. Qed.

Lemma client_take hg o w : rw_client (take_packet hg o w) = rw_client w.
Proof.
  unfold take_packet. destruct (stream_at hg w); [|done]. rewrite client_on_stream. by simpl_upd.
Qed.

Lemma client_give_up hg b w :
  rw_client (polardb_return_or_destroy_backend_stream hg b w) = rw_client w.
Proof.
  unfold polardb_return_or_destroy_backend_stream. destruct (conn_at hg w); [|done].
  rewrite client_on_stream. by simpl_upd.
Qed.

Lemma client_clear hg w : rw_client (snd (polardb_clear_reader_request hg w)) = rw_client w.
Proof.
  unfold polardb_clear_reader_request. cbn [snd]. by rewrite client_on_stream, client_free,
    client_on_stream.
Qed.

Lemma client_reset_request w : rw_client (reset_txn_reader_request w) = rw_client w.
Proof.
  unfold reset_txn_reader_request. rewrite client_set_session, client_l_free.
  destruct (tr_backend _); [|done]. by case_if; rewrite ?client_free, ?client_reset.
Qed.

Lemma client_release_txn b w : rw_client (release_txn_reader_backend b w) = rw_client w.
Proof.
  unfold release_txn_reader_backend. destruct (tr_backend _); [|done].
  rewrite client_set_session.
  destruct (conn_at _ _); rewrite ?client_give_up, !client_on_stream;
    case_match; by rewrite ?client_reset_request.
Qed.

Lemma client_release_wait b w : rw_client (release_txn_wait_read b w) = rw_client w.
Proof. unfold release_txn_wait_read. case_match; [done|]. apply client_release_txn. Qed.

Lemma client_release_stream o b w : rw_client (polardb_release_reader_stream o b w) = rw_client w.
Proof.
  unfold polardb_release_reader_stream. destruct o as [hg|]; [|done].
  pose proof (client_clear hg w) as H.
  destruct (polardb_clear_reader_request hg w) as [[c|] w']; [|done]. cbn [snd] in H.
  unfold set_idle. case_if; by rewrite client_give_up, ?client_on_stream.
Qed.

Lemma client_release_unused hg w :
  rw_client (polardb_release_unused_reader_backend hg w) = rw_client w.
Proof.
  unfold polardb_release_unused_reader_backend. destruct (stream_at hg w); [|done].
  pose proof (client_clear hg w) as H.
  destruct (polardb_clear_reader_request hg w) as [[c|] w']; [|done]. by rewrite client_give_up.
Qed.

Lemma client_release_reader o b w :
  rw_client (polardb_release_reader_backend o b w) = rw_client w.
Proof.
  unfold polardb_release_reader_backend. destruct o as [be|]; [|done].
  case_if; [apply client_release_txn|]. destruct (stream_at be w); [|done].
  pose proof (client_clear be w) as H.
  destruct (polardb_clear_reader_request be w) as [[c|] w']; [|done]. cbn [snd] in H.
  unfold set_idle. case_if; by rewrite client_give_up, ?client_on_stream.
Qed.

Lemma client_prepare_retry src tgt w :
  rw_client (polardb_prepare_retry_backend en src tgt w) = rw_client w.
Proof.
  unfold polardb_prepare_retry_backend. destruct src, tgt; try case_if;
    by rewrite ?client_on_stream.
Qed.

Lemma client_find_or_create hg w : rw_client (find_or_create_backend hg w) = rw_client w.
Proof. unfold find_or_create_backend. destruct (stream_at hg w); [done|]. by simpl_upd. Qed.

Lemma client_record f w : rw_client (polardb_record_reader_failure f w) = rw_client w.
Proof.
  unfold polardb_record_reader_failure. case_if; [done|].
  destruct (rf_reader_backend f); [apply client_on_stream|done].
Qed.

Lemma client_end_split w : rw_client (polardb_end_split_after_reader_failure w) = rw_client w.
Proof.
  unfold polardb_end_split_after_reader_failure. case_if; [done|].
  by rewrite client_set_session, client_reset_request, client_set_session.
Qed.

Lemma client_previous_status b w : rw_client (set_previous_status_mode3 en b w) = rw_client w.
Proof. unfold set_previous_status_mode3. destruct (en_status en); try case_if; by simpl_upd. Qed.

Lemma client_restart o w :
  rw_client (polardb_restart_query_dispatch_from_packet en o w) = rw_client w.
Proof.
  unfold polardb_restart_query_dispatch_from_packet. destruct o; [|done].
  rewrite client_previous_status, client_set_session. by simpl_upd.
Qed.

Lemma client_extended hg w :
  rw_client (polardb_prepare_extended_retry en (transfer_extended_frame_backend hg w)) =
  rw_client w.
Proof.
  unfold polardb_prepare_extended_retry, transfer_extended_frame_backend.
  rewrite client_previous_status. case_if; by simpl_upd.
Qed.

Lemma client_drop_wait f w : rw_client (drop_failed_wait en f w) = rw_client w.
Proof.
  unfold drop_failed_wait, finish_wait_without_reader.
  destruct (rf_failed_myds f); case_if;
    by rewrite ?client_set_request, ?client_set_session, ?client_free, ?client_on_stream.
Qed.

Lemma client_begin_split hg o q spec plan scope n w :
  rw_client (begin_txn_split_read en hg o q spec plan scope n w) = rw_client w.
Proof. unfold begin_txn_split_read. by rewrite client_set_session, client_on_stream, client_free. Qed.

End Quiet.

#[export] Hint Rewrite client_on_stream client_set_session client_set_request client_l_free
  client_reset client_free client_take client_give_up client_clear client_reset_request
  client_release_txn client_release_wait client_release_stream client_release_unused
  client_release_reader client_prepare_retry client_find_or_create client_record client_end_split
  client_previous_status client_restart client_extended client_drop_wait client_begin_split
  : client.

(** The error a record carries. *)
Definition error_of (f : PolarDB_ReaderFailure) : client_message :=
  if rf_has_backend_error f then Msg_Error (rf_backend_error_code f) (rf_backend_error_message f)
  else Msg_Error ERRCODE_CONNECTION_FAILURE "PolarDB reader replica connection failed".

(** Nothing is written, and the record keeps its error. *)
Definition kept (f : PolarDB_ReaderFailure) (w : retry_world)
    (f' : PolarDB_ReaderFailure) (w' : retry_world) : Prop :=
  rw_client w' = rw_client w /\ error_of f' = error_of f /\
  rf_result_started f' = rf_result_started f.

(** What an action leaves with the client. *)
Definition answered (f : PolarDB_ReaderFailure) (w : retry_world)
    (r : PolarDB_FailureAction * PolarDB_ReaderFailure * retry_world) : Prop :=
  let '(a, _, w') := r in
  match a with
  | FailureAction_FORWARD =>
      exists ready, rw_client w' = rw_client w ++ error_of f :: ready /\
        (ready = [] \/ ready = [Msg_ReadyForQuery "T"] \/ ready = [Msg_ReadyForQuery "I"])
  | FailureAction_RETRY => rw_client w' = rw_client w /\ rf_result_started f = false
  | _ => rw_client w' = rw_client w
  end.

Ltac same_error := unfold error_of; autorewrite with client; by simpl_upd.

Section Answers.
Context (en : retry_env).

Lemma kept_refl f w : kept f w f w.
Proof. by split_and!. Qed.

Lemma kept_answered f w f1 w1 r : kept f w f1 w1 -> answered f1 w1 r -> answered f w r.
Proof.
  intros (Hc&He&Hs). destruct r as [[[] f'] w']; cbn; rewrite ?Hc, ?He, ?Hs; done.
Qed.

Lemma kept_trans f w f1 w1 f2 w2 : kept f w f1 w1 -> kept f1 w1 f2 w2 -> kept f w f2 w2.
Proof. intros (?&?&?) (?&?&?). split_and!; congruence. Qed.

Lemma kept_free_retry f w :
  let '(f', w') := polardb_free_retry_pkt_if_owned f w in kept f w f' w'.
Proof.
  unfold polardb_free_retry_pkt_if_owned, kept, error_of. destruct (rf_retry_pkt f); [|done].
  simpl_upd. split_and!; try done. case_if; autorewrite with client; by simpl_upd.
Qed.

Lemma client_move src be hg o ext w :
  rw_client (snd (polardb_move_retry_packet_to_writer en src be hg o ext w)) = rw_client w.
Proof.
  unfold polardb_move_retry_packet_to_writer. destruct be as [be|]; [|done].
  destruct o; [|done]. destruct (stream_at be w); [|done]. cbn [snd].
  case_if; by autorewrite with client.
Qed.

Lemma kept_preserve f w :
  let '(f', w') := preserve_ordinary_request_packet f w in kept f w f' w'.
Proof.
  unfold preserve_ordinary_request_packet, kept, error_of.
  destruct (is_ordinary f), (rf_retry_pkt f), (rf_failed_myds f) as [hg|]; try done.
  destruct (packet_at hg w); [|done]. autorewrite with client. by simpl_upd.
Qed.

Lemma kept_release_failed txn b f w :
  let '(f', w') := release_failed_reader txn b f w in kept f w f' w'.
Proof.
  unfold release_failed_reader. destruct (rf_failed_myds f) as [hg|] eqn:E; [|apply kept_refl].
  destruct txn.
  - unfold kept, error_of. autorewrite with client. by simpl_upd.
  - pose proof (kept_preserve f w) as H. destruct (preserve_ordinary_request_packet f w) as [f1 w1].
    revert H. unfold kept, error_of. autorewrite with client. by simpl_upd.
Qed.

Lemma kept_finish_retry req b f w :
  let '(f', w') := finish_retry_packet req b f w in kept f w f' w'.
Proof.
  unfold finish_retry_packet. destruct req; [|apply kept_free_retry].
  case_if; [|apply kept_free_retry]. unfold kept, error_of. autorewrite with client. by simpl_upd.
Qed.

Lemma client_forward f rfq w :
  rfq = "T"%char \/ rfq = "I"%char ->
  answered f w (FailureAction_FORWARD, f, polardb_forward_reader_error en f rfq w).
Proof.
  intros Hr. unfold answered, polardb_forward_reader_error, error_of.
  assert (forall (m : client_message) (b : bool) (c : bool) (w0 : retry_world),
    rw_client w0 = rw_client w ->
    exists ready, rw_client
      (let w1 := w0 <| rw_client := (rw_client w0 ++ [m])%list |> in
       if b then let w2 := w1 <| rw_client := (rw_client w1 ++ [Msg_ReadyForQuery rfq])%list |> in
                 if c then w2 <| rw_frame := frame_complete |> else w2
       else w1) = (rw_client w ++ m :: ready)%list /\
      (ready = [] \/ ready = [Msg_ReadyForQuery "T"] \/ ready = [Msg_ReadyForQuery "I"]))
    as Hsend.
  { intros m b c w0 Hw. cbv zeta. destruct b.
    - exists [Msg_ReadyForQuery rfq]. split; [|destruct Hr as [-> | ->]; auto].
      destruct c; simpl_upd; by rewrite Hw, <- app_assoc.
    - exists []. split; [|auto]. simpl_upd. by rewrite Hw. }
  destruct (rf_has_backend_error f); apply Hsend; case_if; by simpl_upd.
Qed.

Lemma kept_give_up txn req b0 b f w :
  let '(f1, w1) := release_failed_reader txn b f w in
  let '(f2, w2) := finish_retry_packet req b0 f1 w1 in kept f w f2 w2.
Proof.
  pose proof (kept_release_failed txn b f w) as H1.
  destruct (release_failed_reader txn b f w) as [f1 w1].
  pose proof (kept_finish_retry req b0 f1 w1) as H2.
  destruct (finish_retry_packet req b0 f1 w1). by eapply kept_trans.
Qed.

Lemma kept_forward f w f1 w1 rfq :
  kept f w f1 w1 -> rfq = "T"%char \/ rfq = "I"%char ->
  answered f w (FailureAction_FORWARD, f1, polardb_forward_reader_error en f1 rfq w1).
Proof. intros K Hr. eapply kept_answered; [exact K|]. by apply client_forward. Qed.

Lemma answered_finish txn req f w : answered f w (finish_with_error en txn req f w).
Proof.
  unfold finish_with_error, finish_txn_wait_with_error, finish_ordinary_with_error.
  destruct txn; [|destruct (rf_result_started f); [|destruct (rf_reusable f && _)]].
  - pose proof (kept_give_up true req) as H. specialize (H (negb (rf_result_started
      (fst (release_failed_reader true false f w)))) false f w).
    destruct (release_failed_reader true false f w) as [f1 w1]. cbn [fst] in H.
    destruct (finish_retry_packet req _ f1 w1) as [f2 w2].
    case_if; [apply H|apply kept_forward; auto].
  - pose proof (kept_give_up false req false false f w) as H.
    destruct (release_failed_reader _ _ _ _) as [f1 w1].
    destruct (finish_retry_packet _ _ _ _). apply H.
  - pose proof (kept_finish_retry req true f w) as H. destruct (finish_retry_packet _ _ _ _).
    apply H.
  - pose proof (kept_give_up false req true false f w) as H.
    destruct (release_failed_reader _ _ _ _) as [f1 w1].
    destruct (finish_retry_packet _ _ _ _). apply kept_forward; auto.
Qed.

Lemma kept_prepare f w :
  let '(_, f', w') := polardb_prepare_reader_retry_packet en f w in kept f w f' w'.
Proof.
  unfold polardb_prepare_reader_retry_packet, kept, error_of.
  destruct (pkt_present _); [done|]. destruct (is_wait f); [by simpl_upd|].
  destruct (is_ordinary f), (rf_failed_myds f) as [hg|]; try done.
  destruct (packet_at hg w); [|done]. autorewrite with client. by simpl_upd.
Qed.

Lemma kept_reader_read f w :
  let '(moved, f', w') := polardb_try_redispatch_reader_read_to_other_reader en f w in
  kept f w f' w' /\ (moved = true -> rf_result_started f = false).
Proof.
  unfold polardb_try_redispatch_reader_read_to_other_reader.
  destruct (reader_read_can_move f _) eqn:Ec; cbn [negb]; [|split; [apply kept_refl|done]].
  assert (rf_result_started f = false) as Hs.
  { unfold reader_read_can_move in Ec. destruct (rf_result_started f); [|done].
    by rewrite !andb_false_r in Ec. }
  pose proof (kept_prepare f w) as K. revert K.
  destruct (polardb_prepare_reader_retry_packet en f w) as [[ok f1] w1]. intros (Kc&Ke&Ks).
  destruct ok; cbn [negb]; [|by split_and!]. cbv zeta.
  assert (forall f2 w2, rw_client w2 = rw_client w1 -> error_of f2 = error_of f1 ->
    rf_result_started f2 = rf_result_started f1 -> kept f w f2 w2) as K
    by (intros; split_and!; congruence).
  clear Kc Ke Ks. destruct (conn_at _ _); [split; [|done]; apply K; same_error|].
  destruct (en_acquire en _ _ _ _ _) as [[conn bypass]|];
    [|split; [|done]; apply K; same_error].
  unfold attach_connection. case_if; [split; [|done]; apply K; same_error|].
  split; [|done]. apply K; [|same_error..]. case_if; same_error.
Qed.

Lemma answered_primary txn req f w : answered f w (retry_on_primary en txn req f w).
Proof.
  unfold retry_on_primary. destruct (rf_result_started f) eqn:Es; cbn [orb];
    [apply answered_finish|]. case_if; [apply answered_finish|].
  set (hg := rf_fallback_writer_hg f). set (w1 := find_or_create_backend hg w).
  assert (kept f w f w1) as K1
    by (unfold kept, w1; by rewrite client_find_or_create).
  case_if; [eapply kept_answered, answered_finish; exact K1|].
  case_if; [eapply kept_answered, answered_finish; exact K1|].
  pose proof (kept_prepare f w1) as K2. revert K2.
  destruct (polardb_prepare_reader_retry_packet en f w1) as [[ok f2] w2]. intros K2.
  pose proof (kept_trans _ _ _ _ _ _ K1 K2) as K. clear K1 K2.
  destruct ok; cbn [negb]; [|eapply kept_answered, answered_finish; exact K].
  pose proof (kept_release_failed txn (rf_can_return_to_pool f2) f2 w2) as K3. revert K3.
  destruct (release_failed_reader _ _ f2 w2) as [f3 w3]. intros K3.
  pose proof (kept_trans _ _ _ _ _ _ K K3) as (Kc&Ke&Ks). clear K K3.
  set (w4 := set_request clear_reader_route w3).
  pose proof (client_move req (Some hg) hg (rf_retry_pkt f3) (rf_extended_query f3) w4) as Hm.
  destruct (polardb_move_retry_packet_to_writer _ _ _ _ _ _ _) as [[moved pkt] w5].
  cbn [snd] in Hm. subst w4. rewrite client_set_request in Hm.
  assert (kept f w (f3 <| rf_retry_pkt := pkt |>) w5) as K.
  { unfold kept, error_of in *. simpl_upd. split_and!; congruence. }
  destruct moved; cbn [negb]; [|eapply kept_answered, answered_finish; exact K].
  split; [apply K|done].
Qed.

Lemma answered_handle_read f d w : answered f w (polardb_handle_failed_reader_read en f d w).
Proof.
  unfold polardb_handle_failed_reader_read. case_if; [done|].
  set (w1 := drop_failed_wait en f w).
  assert (kept f w f w1) as K1 by (unfold kept, w1; by rewrite client_drop_wait).
  clearbody w1. set (txn := tr_wait_read_active _ && _). clearbody txn.
  eapply kept_answered; [exact K1|]. destruct (dn_action d).
  - case_if; [|apply answered_primary].
    pose proof (kept_reader_read f w1) as K.
    destruct txn.
    { case_if; [apply answered_finish|apply answered_primary]. }
    destruct (polardb_try_redispatch_reader_read_to_other_reader en f w1) as [[[] f2] w2].
    + split; [apply K|by apply K].
    + destruct K as [K _]. eapply kept_answered; [exact K|].
      case_if; [apply answered_finish|apply answered_primary].
  - apply answered_finish.
  - pose proof (kept_release_failed txn false f w1) as H1.
    destruct (release_failed_reader txn false f w1) as [f2 w2].
    pose proof (kept_free_retry f2 w2) as H2.
    destruct (polardb_free_retry_pkt_if_owned f2 w2).
    by destruct (kept_trans _ _ _ _ _ _ H1 H2).
Qed.

Lemma answered_to_reader f w :
  let '(moved, f', w') := polardb_try_redispatch_to_other_reader en f w in kept f w f' w'.
Proof.
  unfold polardb_try_redispatch_to_other_reader.
  match goal with |- context [if ?c then _ else _] => destruct c; [apply kept_refl|] end.
  destruct (polardb_build_txn_split_wrapped_query _ _ _ _). case_if; [apply kept_refl|].
  assert (forall f2 w2, rw_client w2 = rw_client w -> error_of f2 = error_of f ->
    rf_result_started f2 = rf_result_started f -> kept f w f2 w2) as K by done.
  destruct (conn_at _ _); [apply K; same_error|].
  destruct (en_acquire en _ _ _ _ _) as [[conn bypass]|]; [|apply K; same_error].
  unfold attach_connection. repeat case_if; apply K; same_error.
Qed.

Lemma answered_to_writer f hg be w :
  let '(moved, f', w') := polardb_try_redispatch_to_writer en f hg be w in kept f w f' w'.
Proof.
  unfold polardb_try_redispatch_to_writer.
  destruct be as [be|]; [|apply kept_refl]. destruct (rf_retry_pkt f) eqn:Ep; [|apply kept_refl].
  destruct (conn_at be w); [|apply kept_refl]. case_if; [apply kept_refl|]. cbv zeta.
  match goal with |- context [polardb_move_retry_packet_to_writer en ?a ?b ?c ?d ?e ?w0] =>
    pose proof (client_move a b c d e w0) as H;
    destruct (polardb_move_retry_packet_to_writer en a b c d e w0) as [[moved pkt] w1] end.
  cbn [snd] in H. rewrite client_release_reader in H.
  unfold kept. rewrite H. split_and!; same_error.
Qed.

Lemma answered_decline f w :
  answered f w (polardb_forward_error_and_keep_writer en f w).
Proof.
  unfold polardb_forward_error_and_keep_writer.
  pose proof (client_forward f "T" (polardb_release_reader_backend (rf_reader_backend f)
    (rf_reusable f) w) (or_introl eq_refl)) as H. cbn [answered] in H.
  pose proof (kept_free_retry f (polardb_forward_reader_error en f "T"
    (polardb_release_reader_backend (rf_reader_backend f) (rf_reusable f) w))) as K.
  destruct (polardb_free_retry_pkt_if_owned _ _) as [f' w']. destruct K as (K&_&_).
  cbn [answered]. rewrite K. by rewrite client_release_reader in H.
Qed.

Lemma answered_terminate f w :
  answered f w (polardb_terminate_session_after_reader_failure f w).
Proof.
  unfold polardb_terminate_session_after_reader_failure.
  pose proof (kept_free_retry f (polardb_release_reader_backend (rf_reader_backend f) false w)) as K.
  destruct (polardb_free_retry_pkt_if_owned _ _) as [f' w']. destruct K as (K&_&_).
  cbn [answered]. by rewrite K, client_release_reader.
Qed.

Lemma answered_split f w : answered f w (handle_split_failure en f w).
Proof.
  unfold handle_split_failure.
  destruct (polardb_resolve_writer_state _ _ _ _) as [[st hg] be].
  set (w1 := polardb_end_split_after_reader_failure _).
  assert (kept f w f w1) as K1 by (unfold kept, w1; by autorewrite with client).
  eapply kept_answered; [exact K1|]. clear K1. clearbody w1.
  set (d := polardb_reader_failure_decision _ _). clearbody d. cbv zeta.
  case_if; [apply answered_terminate|]. case_if; [apply answered_terminate|].
  assert (forall f0 w0, answered f0 w0 (polardb_forward_error_and_keep_writer en f0
    (if dn_allow_writer_retry d then set_session (polardb_apply_reader_failure_route_state
       FailureRoute_FORCE_WRITER hg f0) w0 else w0))) as Hdecline.
  { intros. eapply kept_answered; [|apply answered_decline]. unfold kept.
    split_and!; [case_if|..]; by autorewrite with client. }
  case_if; [|apply Hdecline].
  assert (rf_result_started f = false) as Hs.
  { destruct (rf_result_started f); [|done]. by rewrite andb_false_r in *. }
  assert (let '(moved, f2, w2) := if dn_retry_target d == RetryTarget_OTHER_READER
            then polardb_try_redispatch_to_other_reader en f w1 else (false, f, w1) in
          kept f w1 f2 w2) as K by (case_if; [apply answered_to_reader|apply kept_refl]).
  destruct (if dn_retry_target d == _ then _ else _) as [[[] f2] w2].
  { split; [|done]. rewrite client_set_session. apply K. }
  eapply kept_answered; [exact K|]. destruct K as (_&_&Hs2).
  assert (let '(moved, f3, w3) := if dn_allow_writer_retry d && (st == WriterState_LIVE)
            then polardb_try_redispatch_to_writer en f2 hg be w2 else (false, f2, w2) in
          kept f2 w2 f3 w3) as K by (case_if; [apply answered_to_writer|apply kept_refl]).
  destruct (if _ && _ then _ else _) as [[[] f3] w3].
  { split; [|congruence]. rewrite client_set_session. apply K. }
  eapply kept_answered; [exact K|]. apply Hdecline.
Qed.

Lemma kept_capture f w :
  let '(f', w') := polardb_capture_wait_read_failure en f w in kept f w f' w'.
Proof.
  unfold polardb_capture_wait_read_failure. cbv zeta. simpl_upd.
  assert (forall (b : bool) f0, error_of (if b then f0 <| rf_request_kind := RequestKind_WAIT |>
    else f0) = error_of f0 /\ rf_result_started (if b then f0 <| rf_request_kind :=
    RequestKind_WAIT |> else f0) = rf_result_started f0) as Hk
    by (intros [] ?; split; same_error).
  destruct (rf_failed_myds f) as [hg|]; [destruct (polardb_extended_wait_retry_packet_ready _ _ _)|];
    unfold kept; rewrite !(proj1 (Hk _ _)), !(proj2 (Hk _ _)); split_and!; same_error.
Qed.

Lemma kept_classify oc f w :
  error_of (classify_read en oc f w) = error_of f /\
  rf_result_started (classify_read en oc f w) = rf_result_started f.
Proof.
  assert (forall g, error_of (adopt_txn_wait_failure en g w) = error_of g /\
    rf_result_started (adopt_txn_wait_failure en g w) = rf_result_started g) as Ha.
  { intros g. unfold adopt_txn_wait_failure.
    set (text := match rf_failed_myds g with Some _ => _ | None => _ end). clearbody text.
    cbv zeta. split; repeat case_if; same_error. }
  assert (forall g s, error_of (polardb_capture_ordinary_reader_failure en g s) = error_of g /\
    rf_result_started (polardb_capture_ordinary_reader_failure en g s) = rf_result_started g) as Ho.
  { intros g s. unfold polardb_capture_ordinary_reader_failure. cbv zeta.
    split; case_if; same_error. }
  unfold classify_read. cbv zeta.
  split; repeat case_if; rewrite ?(proj1 (Ho _ _)), ?(proj2 (Ho _ _)), ?(proj1 (Ha _)),
    ?(proj2 (Ha _)); done.
Qed.
End Answers.

(** C37: The stage writes to the client exactly when it forwards the error: the
    error of the captured outcome, then at most one ReadyForQuery; a request that
    is retried, passed on or terminated has sent nothing, and a request some of
    whose result was already sent is never retried. *)
Theorem client_sees_only_forwarded_errors (en : retry_env) (oc : PolarDB_RequestOutcome)
    (w : retry_world) :
  let '(a, _, w') := polardb_handle_reader_failure en oc w in
  match a with
  | FailureAction_FORWARD =>
      exists ready,
        rw_client w' = rw_client w ++ error_of (polardb_failure_from_outcome oc) :: ready /\
        (ready = [] \/ ready = [Msg_ReadyForQuery "T"] \/ ready = [Msg_ReadyForQuery "I"])
  | FailureAction_RETRY => rw_client w' = rw_client w /\ oc_result_started oc = false
  | _ => rw_client w' = rw_client w
  end.
Proof.
  change (answered (polardb_failure_from_outcome oc) w (polardb_handle_reader_failure en oc w)).
  unfold polardb_handle_reader_failure.
  assert (let '(f, s) := polardb_take_reader_failure oc (rw_session w) in
    kept (polardb_failure_from_outcome oc) w f (set_session (fun _ => s) w)) as K.
  { unfold polardb_take_reader_failure.
    match goal with |- context [if ?c then _ else _] => destruct c end;
      unfold kept; split_and!; same_error. }
  destruct (polardb_take_reader_failure oc (rw_session w)) as [f s].
  eapply kept_answered; [exact K|]. clear K. set (w0 := set_session _ w). clearbody w0.
  destruct (is_split f); [apply answered_split|].
  pose proof (kept_capture en f w0) as K.
  destruct (polardb_capture_wait_read_failure en f w0) as [f1 w1]. cbv zeta.
  eapply kept_answered; [exact K|]. clear K.
  match goal with |- context [is_wait (if negb (is_wait ?x) then ?y else ?z)] =>
    change (if negb (is_wait x) then y else z) with (classify_read en oc f1 w1) end.
  destruct (kept_classify en oc f1 w1) as [He Hs].
  eapply kept_answered; [split; [reflexivity|split; [exact He|exact Hs]]|].
  case_if; [apply answered_handle_read|]. cbn [answered].
  case_if; [|done]. unfold finish_wait_without_reader. by autorewrite with client.
Qed.

(** C8: The stage neither loses nor frees twice a packet: whatever the failure,
    the record keeps none, every block of the session is afterwards with one
    owner or freed once, exactly as often as before, and only the block the
    allocator gave for a rebuilt packet is new. *)
Theorem packets_change_hands_once (en : retry_env) (w : retry_world) (be : option Z) :
  stage_ok w ->
  let '(_, f', w') := polardb_handle_reader_failure en
    (polardb_capture_request_outcome (rw_streams w) (rw_session w) be) w in
  rf_retry_pkt f' = None /\
  forall p,
    (Some (pk_ptr p) <> en_l_alloc en -> blocks p w' = blocks p w) /\
    (blocks p w <= blocks p w' <= blocks p w + 1)%nat.
Proof.
  intros Hok. pose proof (stage_conserves en w be Hok) as H. revert H. unfold conserves.
  destruct (polardb_handle_reader_failure _ _ _) as [[a f'] w']. intros (Hn&b&L&Hb).
  split; [done|]. intros p. rewrite L. unfold hits. split; [|case_bool_decide; lia].
  intros Hp. rewrite bool_decide_false; [lia|]. destruct Hb as [->|[text ->]]; [done|].
  unfold polardb_build_simple_query_packet. case_if; [done|].
  destruct (en_l_alloc en) as [ptr|]; [|done]. intros [= <-]. by apply Hp.
Qed.

(** ** Witnesses *)

Lemma sample_stage_ok : stage_ok sample_wait_world.
Proof.
  split; [|intros be _; by vm_compute]. intros hg. unfold packet_at, stream_at.
  cbn [sample_wait_world rw_streams]. destruct (decide (hg = 20)) as [->|Hne].
  - right. by vm_compute.
  - left. by rewrite lookup_singleton_ne.
Qed.

Lemma packets_change_hands_once_witness :
  blocks sample_request_pkt (snd (polardb_handle_reader_failure (sample_env sample_reader)
    (polardb_capture_request_outcome (rw_streams sample_wait_world)
       (rw_session sample_wait_world) (Some 20)) sample_wait_world)) =
  blocks sample_request_pkt sample_wait_world.
Proof.
  pose proof (packets_change_hands_once (sample_env sample_reader) sample_wait_world (Some 20)
    sample_stage_ok) as H.
  destruct (polardb_handle_reader_failure _ _ _) as [[a f] w'].
  destruct H as [_ H]. cbn [snd]. apply H. intros E. discriminate E.
Defined.

(** ** A freed query text

    A transaction wait read whose wait was bypassed keeps the client packet on the
    reader's stream; releasing the reader frees it while [CurrentQuery] still
    points into it, also when the error is forwarded and the request ends
    normally. *)

Definition sample_canceled_conn : backend_conn :=
  mkBackendConn true true ERRCODE_QUERY_CANCELED "canceling statement" PQTRANS_INTRANS false false
    false true ASYNC_OTHER false false false false (Some (mkParent (Some 20) (Some "r1") 5432)).

Definition sample_bypassed_read : retry_world :=
  mkRetryWorld
    (polardb_begin_txn_wait_read 20 (mkScope 10 3) 5
       (new_session <| ss_mybe := Some 10 |> <| ss_current_hg := 20 |>
          <| ss_in_transaction := true |>
          <| ss_query := empty_query <| qs_wait_bypass_target := 800 |> |>))
    {[20 := sample_stream sample_canceled_conn (Some sample_request_pkt)]} (Some 4101) 0
    frame_complete [] [] [] [] true.

Example bypassed_wait_read_leaves_freed_text :
  let '(a, _, w') := polardb_handle_reader_failure (sample_env None)
    (sample_outcome sample_bypassed_read) sample_bypassed_read in
  a = FailureAction_FORWARD /\
  rw_freed w' = [sample_request_pkt] /\
  polardb_packet_contains_pointer (Some sample_request_pkt) (rw_query_ptr w') = true.
Proof. vm_compute. split; [reflexivity|split; reflexivity]. Qed.

(** ** A wrapped packet resent

    A server that goes offline between the installation of the wrapper and the
    dispatch fails the query before the connection knows of the wrapper, so the
    wait read is handled as an ordinary one: the wrapped packet itself is moved and
    the session forgets the wait. *)

Definition sample_wrapped_pkt : packet :=
  mkPacket 4096 (simple_query_bytes "SET polar_xact_split_wait_lsn = '800'; SELECT 1").

Definition sample_offline_read : retry_world :=
  mkRetryWorld
    (new_session <| ss_mybe := Some 20 |> <| ss_current_hg := 20 |>
                 <| ss_query := sample_wait_query <| qs_dispatch_wrapper_stmts := 1 |> |>)
    {[20 := sample_stream (sample_idle_conn PQTRANS_IDLE 20 ) (Some sample_wrapped_pkt)]} None 0
    frame_complete [] [] [] [] true.

Definition sample_unsent (w : retry_world) : retry_world :=
  on_stream 20 (fun st => st <| bs_conn :=
    option_map (fun c => mkBackendConn (vc_connected c) false 0 "" PQTRANS_IDLE false false false
      true ASYNC_IDLE false false false false (vc_parent c)) (bs_conn st) |>) w.

Example offline_wait_read_resends_wrapper :
  let w := sample_unsent sample_offline_read in
  polardb_wait_active (rw_session w) = true /\
  let '(a, _, w') := polardb_handle_reader_failure (sample_env sample_reader)
    (sample_outcome w) w in
  a = FailureAction_RETRY /\
  packet_at 20 w' = Some sample_wrapped_pkt /\
  polardb_wait_active (rw_session w') = false /\
  qs_dispatch_wrapper_stmts (ss_query (rw_session w')) = 1.
Proof. vm_compute. repeat split. Qed.
