(* ===== verification/RetryRoute.v ===== *)
(** * Where a retried read lands

    What the session of a retried read looks like: which backend it was moved to,
    which wait it carries, and how many retries are left. *)

From S2P Require Import Prelude SqlScan Policy Startup Config Session Query.
From S2P Require Import SessionState Plan Topology ServerList Wrap Flow Result.
From S2P Require Import Failure Redispatch Ledger LedgerStage RetrySafety.
From Stdlib Require Import ZArith Ascii String List Bool Lia.
From stdpp Require Import base tactics list gmap strings.

Open Scope Z_scope.
Open Scope polar_scope.

(** What routing reads of a session: all but the text of the query. *)
Definition route (s : PgSQL_Session)
  : PolarDB_TxnReaderState * PolarDB_QueryState * option Z * Z :=
  (ss_reader s, ss_query s, ss_mybe s, ss_current_hg s).

Section Routes.
Context (en : retry_env).

Lemma session_previous_status b w :
  rw_session (set_previous_status_mode3 en b w) = rw_session w.
Proof. unfold set_previous_status_mode3. destruct (en_status en); try case_if; by simpl_upd. Qed.

Lemma route_restart o w :
  route (rw_session (polardb_restart_query_dispatch_from_packet en o w)) = route (rw_session w).
Proof.
  unfold polardb_restart_query_dispatch_from_packet, route. destruct o; [|done].
  rewrite session_previous_status, session_set. by simpl_upd.
Qed.

Lemma route_extended hg w :
  rw_session (polardb_prepare_extended_retry en (transfer_extended_frame_backend hg w)) =
  rw_session w.
Proof.
  unfold polardb_prepare_extended_retry, transfer_extended_frame_backend.
  rewrite session_previous_status. case_if; by simpl_upd.
Qed.

Lemma session_take hg o w : rw_session (take_packet hg o w) = rw_session w.
Proof.
  unfold take_packet. destruct (stream_at hg w); [|done]. rewrite session_on_stream. by simpl_upd.
Qed.

Lemma has_take i hg o w : has i w -> has i (take_packet hg o w).
Proof.
  unfold take_packet. destruct (stream_at hg w); [|done]. intros. apply has_on_stream.
  apply (has_fields i w); [by simpl_upd|done].
Qed.

Lemma streams_previous_status b w :
  rw_streams (set_previous_status_mode3 en b w) = rw_streams w.
Proof. unfold set_previous_status_mode3. destruct (en_status en); try case_if; by simpl_upd. Qed.

Lemma has_restart i o w : has i w -> has i (polardb_restart_query_dispatch_from_packet en o w).
Proof.
  unfold polardb_restart_query_dispatch_from_packet. destruct o; [|done].
  apply has_fields. rewrite streams_previous_status. unfold set_session. by simpl_upd.
Qed.

Lemma has_extended i hg w :
  has i w ->
  has i (polardb_prepare_extended_retry en (transfer_extended_frame_backend hg w)).
Proof.
  apply has_fields. unfold polardb_prepare_extended_retry, transfer_extended_frame_backend.
  rewrite streams_previous_status. case_if; by simpl_upd.
Qed.

(** *** The packet on its way to the new reader *)

Lemma packet_take hg o w : has hg w -> packet_at hg (take_packet hg o w) = o.
Proof.
  unfold has, take_packet. destruct (stream_at hg w) as [st|] eqn:E; [|done]. intros _.
  unfold packet_at. rewrite stream_at_on_stream, decide_True by done.
  replace (stream_at hg _) with (stream_at hg w) by (unfold stream_at; by simpl_upd).
  rewrite E. cbn. by simpl_upd.
Qed.

Lemma packet_prepare_retry i src tgt w :
  packet_at i (polardb_prepare_retry_backend en src tgt w) = packet_at i w.
Proof.
  unfold polardb_prepare_retry_backend. cbv zeta.
  assert (forall q c hg x, packet_at i (on_stream hg (retry_stream en q c) x) = packet_at i x) as H1.
  { intros. apply packet_at_neutral. intros []. unfold retry_stream. by simpl_upd. }
  assert (forall hg x, packet_at i (on_stream hg abandon_stream x) = packet_at i x) as H2.
  { intros. apply packet_at_neutral. intros []. unfold abandon_stream. by simpl_upd. }
  destruct src, tgt; rewrite ?H1; try case_if; by rewrite ?H2.
Qed.

Lemma packet_restart i o w :
  packet_at i (polardb_restart_query_dispatch_from_packet en o w) = packet_at i w.
Proof.
  unfold polardb_restart_query_dispatch_from_packet. destruct o; [|done].
  unfold packet_at, stream_at. rewrite streams_previous_status. unfold set_session. by simpl_upd.
Qed.

Lemma packet_extended i hg w :
  packet_at i (polardb_prepare_extended_retry en (transfer_extended_frame_backend hg w)) =
  packet_at i w.
Proof.
  unfold polardb_prepare_extended_retry, transfer_extended_frame_backend, packet_at, stream_at.
  rewrite streams_previous_status. case_if; by simpl_upd.
Qed.

(** A read without a wait is moved with the packet its stream held. *)
Definition same_packet (f : PolarDB_ReaderFailure) (w w' : retry_world) : Prop :=
  exists hg b, rf_failed_myds f = Some hg /\ packet_at hg w = Some b /\
    packet_at (rf_reader_hg f) w' = Some b.

Lemma move_route src be hg o ext w :
  let '(moved, _, w') := polardb_move_retry_packet_to_writer en src (Some be) hg o ext w in
  moved = true ->
  route (rw_session w') = (ss_reader (rw_session w), ss_query (rw_session w), Some be, hg) /\
  has be w'.
Proof.
  unfold polardb_move_retry_packet_to_writer. destruct o as [q|]; [|done].
  destruct (stream_at be w) eqn:E; [|done]. intros _.
  assert (has be w) as Hbe by (unfold has; by rewrite E).
  set (w1 := take_packet _ _ _).
  assert (route (rw_session w1) = (ss_reader (rw_session w), ss_query (rw_session w),
    Some be, hg) /\ has be w1) as [<- H1].
  { subst w1. rewrite session_take, session_free, session_set, session_prepare_retry.
    unfold route. simpl_upd. split; [done|]. apply has_take. auto with has. }
  clearbody w1. case_if; [rewrite route_extended|rewrite route_restart];
    (split; [done|]); [by apply has_extended|by apply has_restart].
Qed.

(** The session after the failed reader of a read was given up. *)
Definition after_release (txn : bool) (f : PolarDB_ReaderFailure) (s : PgSQL_Session)
  : PgSQL_Session :=
  match rf_failed_myds f with
  | Some _ => if txn then polardb_release_txn_wait_read s else s
  | None => s
  end.

Lemma session_preserve f w :
  rw_session (snd (preserve_ordinary_request_packet f w)) = rw_session w.
Proof.
  unfold preserve_ordinary_request_packet.
  destruct (is_ordinary f), (rf_retry_pkt f), (rf_failed_myds f) as [hg|]; try done.
  destruct (packet_at hg w); [|done]. apply session_on_stream.
Qed.

Lemma session_release_failed txn b f w :
  rw_session (snd (release_failed_reader txn b f w)) = after_release txn f (rw_session w).
Proof.
  unfold release_failed_reader, after_release. destruct (rf_failed_myds f) as [hg|]; [|done].
  destruct txn; [apply session_release_wait|].
  pose proof (session_preserve f w) as H. destruct (preserve_ordinary_request_packet f w) as [f1 w1].
  cbn [snd] in *. by rewrite session_release_stream.
Qed.

(** What the retry packet is prepared from. *)
Lemma prepare_shape f w :
  let '(ok, f', w') := polardb_prepare_reader_retry_packet en f w in
  rw_session w' = rw_session w /\ (forall i, has i w -> has i w') /\
  (exists o, f' = f <| rf_retry_pkt := o |>) /\
  (ok = true -> is_wait f = false -> pkt_present (rf_retry_pkt f) = false ->
   exists hg b, rf_failed_myds f = Some hg /\ packet_at hg w = Some b /\
     rf_retry_pkt f' = Some b).
Proof.
  unfold polardb_prepare_reader_retry_packet.
  assert (exists o, f = f <| rf_retry_pkt := o |>) as Hf
    by (exists (rf_retry_pkt f); by destruct f).
  destruct (pkt_present (rf_retry_pkt f)); [by split_and!|].
  destruct (is_wait f); [split_and!; eauto; done|].
  destruct (is_ordinary f), (rf_failed_myds f) as [hg|]; try by split_and!.
  destruct (packet_at hg w) eqn:E; [|by split_and!].
  unfold reset_real_query. rewrite session_on_stream. split_and!; eauto with has.
  intros _ _ _. exists hg. simpl_upd. eauto.
Qed.

(** The request of a read moved to another reader: its wait again, dropped when
    the new reader already has the target. *)
Definition moved_query (f : PolarDB_ReaderFailure) (bypass : bool) (q : PolarDB_QueryState)
  : PolarDB_QueryState :=
  if negb (is_wait f) || negb (has_wait (rf_wait_spec f)) then reset_wait q
  else if bypass then mark_wait_satisfied (wsp_target (rf_wait_spec f)) q
  else
    let q := begin_wait (rf_wait_spec f) (en_now_us en) (rf_fallback_writer_hg f) q in
    if negb (rf_extended_query f) && (qs_original_query q == EmptyString)
    then q <| qs_original_query := rf_retry_query f |> else q.

Lemma select_route f b s :
  route (select_retry_wait en f b s) =
  (ss_reader s, moved_query f b (ss_query s), ss_mybe s, ss_current_hg s).
Proof.
  unfold select_retry_wait, polardb_finish_reader_wait_selection, moved_query, route.
  destruct (is_wait f); cbn [negb orb]; [|by simpl_upd].
  destruct (has_wait (rf_wait_spec f)); cbn [negb]; [|cbn [andb]; by simpl_upd].
  destruct b; [cbn [andb]; by simpl_upd|]. cbn [andb]. simpl_upd. case_if; by simpl_upd.
Qed.

Lemma route_count s :
  route (s <| ss_query := count_reader_retry (ss_query s) |>) =
  (ss_reader s, count_reader_retry (ss_query s), ss_mybe s, ss_current_hg s).
Proof. unfold route. by simpl_upd. Qed.

Lemma reader_read_shape f w :
  let '(moved, _, w') := polardb_try_redispatch_reader_read_to_other_reader en f w in
  moved = true ->
  reader_read_can_move f (tr_wait_read_active (ss_reader (rw_session w))) = true /\
  (is_wait f = false -> pkt_present (rf_retry_pkt f) = false -> same_packet f w w') /\
  has (rf_reader_hg f) w' /\
  exists conn bypass,
    en_acquire en (rf_reader_hg f) (rf_reader_plan f)
      (if is_wait f then rf_wait_spec f else no_wait) (rf_reader_address f) (rf_reader_port f)
      = Some (conn, bypass) /\
    route (rw_session w') =
      (ss_reader (rw_session w),
       count_reader_retry (moved_query f bypass
         (ss_query (rw_session w) <| qs_reader_plan := rf_reader_plan f |>)),
       Some (rf_reader_hg f), rf_reader_hg f).
Proof.
  unfold polardb_try_redispatch_reader_read_to_other_reader.
  destruct (reader_read_can_move f _) eqn:Ec; cbn [negb]; [|done].
  pose proof (prepare_shape f w) as P. revert P.
  destruct (polardb_prepare_reader_retry_packet en f w) as [[ok f1] w1].
  intros (Hse&Hh&[o ->]&Hok). destruct ok; cbn [negb]; [|done]. specialize (Hok eq_refl).
  simpl_upd. set (w2 := find_or_create_backend _ _).
  assert (rw_session w2 = rw_session w /\ has (rf_reader_hg f) w2) as [Hse2 Hh2].
  { subst w2. rewrite session_find_or_create, session_release_stream. split; [done|].
    apply has_created. }
  clearbody w2. destruct (conn_at _ w2); [done|].
  change (is_wait (f <| rf_retry_pkt := o |> <| rf_failed_myds := None |>)) with
    (rf_request_kind (f <| rf_retry_pkt := o |> <| rf_failed_myds := None |>) == RequestKind_WAIT).
  simpl_upd. change (rf_request_kind f == RequestKind_WAIT) with (is_wait f).
  destruct (en_acquire en _ _ _ _ _) as [[conn bypass]|] eqn:Ea; [|done].
  case_if; [done|]. intros _. split; [done|].
  match goal with |- context [set_request count_reader_retry ?x] =>
    set (w5 := set_request count_reader_retry x) end.
  assert (packet_at (rf_reader_hg f) w5 = o) as Hpk5.
  { subst w5. unfold set_request. rewrite !packet_at_session, packet_prepare_retry.
    apply packet_take. unfold attach_connection. auto with has. }
  assert (has (rf_reader_hg f) w5 /\ route (rw_session w5) =
    (ss_reader (rw_session w),
     count_reader_retry (moved_query f bypass
       (ss_query (rw_session w) <| qs_reader_plan := rf_reader_plan f |>)),
     Some (rf_reader_hg f), rf_reader_hg f)) as [Hw5 Hr5].
  { subst w5. unfold attach_connection, set_request. split.
    - do 2 apply has_session. apply has_prepare_retry, has_take. auto with has.
    - rewrite !session_set, session_prepare_retry, session_take, session_free, session_on_stream.
      rewrite route_count. match goal with |- context [select_retry_wait en f bypass ?s0] =>
        pose proof (select_route f bypass s0) as H end.
      unfold route in H. injection H as -> -> -> ->. simpl_upd. by rewrite Hse2. }
  clearbody w5.
  assert (forall w6, has (rf_reader_hg f) w6 ->
    packet_at (rf_reader_hg f) w6 = packet_at (rf_reader_hg f) w5 ->
    route (rw_session w6) = route (rw_session w5) ->
    (is_wait f = false -> pkt_present (rf_retry_pkt f) = false -> same_packet f w w6) /\
    has (rf_reader_hg f) w6 /\ exists conn0 bypass0,
      Some (conn, bypass) = Some (conn0, bypass0) /\ route (rw_session w6) =
      (ss_reader (rw_session w),
       count_reader_retry (moved_query f bypass0
         (ss_query (rw_session w) <| qs_reader_plan := rf_reader_plan f |>)),
       Some (rf_reader_hg f), rf_reader_hg f)) as Hend.
  { intros w6 H6 K6 R6. split; [|split; [done|]; exists conn, bypass; by rewrite R6].
    intros Hw Ho. destruct (Hok Hw Ho) as (hg&b&?&?&Hb). exists hg, b. revert Hb. simpl_upd.
    rewrite K6, Hpk5. auto. }
  apply Hend; case_if; [by apply has_extended|by apply has_restart
    |by rewrite packet_extended|by rewrite packet_restart|by rewrite route_extended|apply route_restart].
Qed.

Lemma finish_not_retried txn req f w (P : retry_world -> Prop) :
  let '(a, _, w') := finish_with_error en txn req f w in a = FailureAction_RETRY -> P w'.
Proof.
  unfold finish_with_error, finish_txn_wait_with_error, finish_ordinary_with_error.
  repeat case_match; simplify_eq; done.
Qed.

(** Closes a branch that ends by reporting the error. *)
Ltac no_retry :=
  match goal with |- context [finish_with_error en ?t ?r ?f ?w] =>
    let F := fresh in
    pose proof (finish_not_retried t r f w (fun _ => False)) as F;
    destruct (finish_with_error en t r f w) as [[? ?] ?];
    let Ha := fresh in intros Ha; by destruct (F Ha)
  end.

Lemma primary_shape txn req f w :
  let '(a, _, w') := retry_on_primary en txn req f w in
  a = FailureAction_RETRY ->
  0 <= rf_fallback_writer_hg f /\ has (rf_fallback_writer_hg f) w' /\
  let s := after_release txn f (rw_session w) in
  route (rw_session w') =
    (ss_reader s, clear_reader_route (ss_query s), Some (rf_fallback_writer_hg f),
     rf_fallback_writer_hg f).
Proof.
  unfold retry_on_primary.
  destruct (rf_result_started f || _) eqn:Eg; [apply finish_not_retried|].
  apply orb_false_elim in Eg as [_ Hhg]. apply Z.ltb_ge in Hhg.
  set (hg := rf_fallback_writer_hg f) in *. set (w1 := find_or_create_backend hg w).
  case_if; [apply finish_not_retried|]. case_if; [apply finish_not_retried|].
  pose proof (prepare_shape f w1) as P. revert P.
  destruct (polardb_prepare_reader_retry_packet en f w1) as [[ok f2] w2].
  intros (Hse&_&[o ->]&_). destruct ok; cbn [negb]; [|apply finish_not_retried].
  pose proof (session_release_failed txn (rf_can_return_to_pool (f <| rf_retry_pkt := o |>))
    (f <| rf_retry_pkt := o |>) w2) as Hr. revert Hr.
  destruct (release_failed_reader _ _ (f <| rf_retry_pkt := o |>) w2) as [f3 w3]. cbn [snd].
  rewrite Hse. subst w1. rewrite session_find_or_create. intros Hr.
  pose proof (move_route req hg hg (rf_retry_pkt f3) (rf_extended_query f3)
    (set_request clear_reader_route w3)) as Hm. revert Hm.
  destruct (polardb_move_retry_packet_to_writer _ _ _ _ _ _ _) as [[moved pkt] w5].
  destruct moved; cbn [negb]; [|intros _; apply finish_not_retried]. intros Hm _.
  destruct (Hm eq_refl) as [Hroute Hhas]. split_and!; [done|done|].
  rewrite Hroute. unfold set_request. rewrite session_set. simpl_upd.
  rewrite Hr. unfold after_release. by simpl_upd.
Qed.

Lemma reader_read_declined f w :
  let '(moved, f', w') := polardb_try_redispatch_reader_read_to_other_reader en f w in
  moved = false ->
  rw_session w' = rw_session w /\ rf_fallback_writer_hg f' = rf_fallback_writer_hg f.
Proof.
  unfold polardb_try_redispatch_reader_read_to_other_reader. case_if; [done|].
  pose proof (prepare_shape f w) as P. revert P.
  destruct (polardb_prepare_reader_retry_packet en f w) as [[ok f1] w1].
  intros (Hse&_&[o ->]&_). destruct ok; cbn [negb]; [|intros _; split; [done|by simpl_upd]].
  simpl_upd. destruct (conn_at _ _).
  { rewrite session_find_or_create, session_release_stream. intros _. split; [done|by simpl_upd]. }
  destruct (en_acquire en _ _ _ _ _) as [[conn bypass]|].
  2:{ rewrite session_find_or_create, session_release_stream. intros _.
      split; [done|by simpl_upd]. }
  case_if; [|done]. unfold attach_connection.
  rewrite session_give_up, session_on_stream, session_find_or_create, session_release_stream.
  intros _. split; [done|by simpl_upd].
Qed.

Lemma request_drop_wait f w :
  let q := ss_query (rw_session w) in
  let q' := ss_query (rw_session (drop_failed_wait en f w)) in
  qs_reader_retry_attempts q' = qs_reader_retry_attempts q /\
  qs_reader_plan q' = qs_reader_plan q.
Proof.
  cbv zeta. unfold drop_failed_wait, finish_wait_without_reader, set_request.
  assert (forall s, qs_reader_retry_attempts (ss_query (px_session (polardb_finish_wait
      (en_now_us en) None (mkProxy (en_hgm en) None s)))) = qs_reader_retry_attempts (ss_query s) /\
    qs_reader_plan (ss_query (px_session (polardb_finish_wait
      (en_now_us en) None (mkProxy (en_hgm en) None s)))) = qs_reader_plan (ss_query s)) as Hf.
  { intros s. unfold polardb_finish_wait. cbn [px_session]. case_if; [done|].
    cbn [px_session]. by simpl_upd. }
  destruct (rf_failed_myds f), (is_wait f); rewrite ?session_set; simpl_upd;
    unfold reset_dispatch_wrapper, reset_wait; simpl_upd;
    rewrite ?(proj1 (Hf _)), ?(proj2 (Hf _)), ?session_free, ?session_on_stream; done.
Qed.

(** The failed stream is that of a transaction wait read. *)
Definition is_txn_wait (f : PolarDB_ReaderFailure) (s : PgSQL_Session) : bool :=
  tr_wait_read_active (ss_reader s) &&
  match rf_failed_myds f with Some hg => bool_decide (Some hg = tr_backend (ss_reader s))
                         | None => false end.

(** A retried read is on its primary, with no route or wait left, ... *)
Definition on_primary (f : PolarDB_ReaderFailure) (s : PgSQL_Session) (w' : retry_world) : Prop :=
  let hg := rf_fallback_writer_hg f in
  0 <= hg /\ has hg w' /\
  exists s1, ss_reader s1 = ss_reader s /\
    qs_reader_retry_attempts (ss_query s1) = qs_reader_retry_attempts (ss_query s) /\
    let s2 := after_release (is_txn_wait f s) f s1 in
    route (rw_session w') =
      (ss_reader s2, clear_reader_route (ss_query s2), Some hg, hg).

(** ... or on another reader of the same hostgroup, with its wait again. *)
Definition on_reader (f : PolarDB_ReaderFailure) (w : retry_world) (w' : retry_world) : Prop :=
  let hg := rf_reader_hg f in
  reader_read_can_move f (tr_wait_read_active (ss_reader (rw_session w))) = true /\
  (is_wait f = false -> pkt_present (rf_retry_pkt f) = false -> same_packet f w w') /\
  has hg w' /\
  exists conn bypass q,
    en_acquire en hg (rf_reader_plan f) (if is_wait f then rf_wait_spec f else no_wait)
      (rf_reader_address f) (rf_reader_port f) = Some (conn, bypass) /\
    qs_reader_retry_attempts q = qs_reader_retry_attempts (ss_query (rw_session w)) /\
    route (rw_session w') =
      (ss_reader (rw_session w),
       count_reader_retry (moved_query f bypass (q <| qs_reader_plan := rf_reader_plan f |>)),
       Some hg, hg).

Lemma packet_drop_wait f w :
  is_wait f = false -> forall hg, packet_at hg (drop_failed_wait en f w) = packet_at hg w.
Proof.
  intros Hw hg. unfold drop_failed_wait. rewrite Hw. destruct (rf_failed_myds f); [|done].
  apply packet_at_neutral. by intros [].
Qed.

Lemma handle_read_shape f d w :
  let '(a, _, w') := polardb_handle_failed_reader_read en f d w in
  a = FailureAction_RETRY ->
  (is_wait f || is_ordinary f = true) /\
  (on_primary f (rw_session w) w' \/
   (dn_retry_target d = RetryTarget_OTHER_READER /\ on_reader f w w')).
Proof.
  unfold polardb_handle_failed_reader_read. rewrite <- negb_orb.
  destruct (is_wait f || is_ordinary f); cbn [negb]; [|done].
  destruct (request_drop_wait f w) as [Hq _].
  pose proof (packet_drop_wait f w) as Hpk.
  pose proof (reader_drop_wait en f w) as Hrd. set (w1 := drop_failed_wait en f w) in *.
  clearbody w1. rewrite Hrd. change (tr_wait_read_active _ && _) with (is_txn_wait f (rw_session w)).
  set (txn := is_txn_wait f (rw_session w)).
  assert (forall f1 w2, rw_session w2 = rw_session w1 ->
    rf_fallback_writer_hg f1 = rf_fallback_writer_hg f ->
    (txn = true -> f1 = f) ->
    let '(a, _, w') := retry_on_primary en txn (rf_failed_myds f) f1 w2 in
    a = FailureAction_RETRY -> on_primary f (rw_session w) w') as Hp.
  { intros f1 w2 Hse Hfb Ht. pose proof (primary_shape txn (rf_failed_myds f) f1 w2) as P. revert P.
    destruct (retry_on_primary _ _ _ _ _) as [[a f'] w']. intros P Ha.
    destruct (P Ha) as (P1&P2&P3). rewrite Hse, Hfb in *. split_and!; [done|done|].
    exists (rw_session w1). split_and!; [by rewrite Hrd|done|]. cbv zeta. fold txn.
    rewrite P3. unfold after_release. destruct txn; [by rewrite Ht|].
    by destruct (rf_failed_myds f), (rf_failed_myds f1). }
  destruct (dn_action d).
  - destruct (dn_retry_target d) eqn:Et.
    { pose proof (Hp f w1 eq_refl eq_refl (fun _ => eq_refl)) as P. change (_ != _) with false.
      destruct (retry_on_primary _ _ _ _ _) as [[a f'] w']. auto. }
    change (_ != _) with true. cbv iota. destruct txn eqn:Etxn.
    { case_if.
      - no_retry.
      - pose proof (Hp f w1 eq_refl eq_refl (fun _ => eq_refl)) as P.
        destruct (retry_on_primary _ _ _ _ _) as [[a f'] w']. auto. }
    pose proof (reader_read_shape f w1) as R. pose proof (reader_read_declined f w1) as D.
    destruct (polardb_try_redispatch_reader_read_to_other_reader en f w1) as [[[] f2] w2].
    + intros _. split; [done|]. right. split; [done|].
      destruct (R eq_refl) as (R1&R2&R3&conn&bypass&R4&R5). rewrite Hrd in R1, R5.
      split; [done|]. split.
      { intros Hw Ho. destruct (R2 Hw Ho) as (hg&b&?&?&?). exists hg, b. by rewrite <- Hpk. }
      split; [done|]. exists conn, bypass, (ss_query (rw_session w1)). by split_and!.
    + destruct (D eq_refl) as [D1 D2]. case_if.
      * no_retry.
      * pose proof (Hp f2 w2 D1 D2) as P.
        destruct (retry_on_primary _ _ _ _ _) as [[a f'] w']. intros Ha. split; [done|].
        left. by apply P.
  - no_retry.
  - destruct (release_failed_reader _ _ _ _). by destruct (polardb_free_retry_pkt_if_owned _ _).
Qed.

(** *** Reads at the stage *)

(** The record of a failed read, as the stage classifies it. *)
Definition read_failure (oc : PolarDB_RequestOutcome) (w : retry_world) : PolarDB_ReaderFailure :=
  let '(f, w1) := polardb_capture_wait_read_failure en (polardb_failure_from_outcome oc) w in
  classify_read en oc f w1.

(** The wait the failed request still needs. *)
Definition required_wait (s : PgSQL_Session) : PolarDB_WaitSpec :=
  let q := ss_query s in
  if has_wait (wst_spec (qs_wait q)) then wst_spec (qs_wait q)
  else if en_status en != PROCESSING_QUERY then qs_reader_wait_spec q else no_wait.

(** The writers a read may be retried on. *)
Definition primaries (s : PgSQL_Session) : list Z :=
  [wst_fallback_writer_hg (qs_wait (ss_query s)); rd_fallback_writer_hg (qs_reader_plan (ss_query s));
   fl_writer_hg (ss_failure s); polardb_writer_hostgroup_or_current (en_hgm en) s].

Lemma capture_session f w :
  rw_session (snd (polardb_capture_wait_read_failure en f w)) = rw_session w.
Proof.
  unfold polardb_capture_wait_read_failure. cbv zeta. simpl_upd.
  destruct (rf_failed_myds f); [|done].
  destruct (polardb_extended_wait_retry_packet_ready _ _ _); cbn [snd]; [|done].
  apply session_on_stream.
Qed.

Lemma capture_fields f w :
  let '(f', w') := polardb_capture_wait_read_failure en f w in
  let q := ss_query (rw_session w) in
  rf_reader_hg f' = rf_reader_hg f /\ rf_reader_address f' = rf_reader_address f /\
  rf_reader_port f' = rf_reader_port f /\ rf_failed_myds f' = rf_failed_myds f /\
  rf_reader_plan f' = qs_reader_plan q /\ rf_wait_spec f' = required_wait (rw_session w) /\
  rf_extended_query f' = (en_status en != PROCESSING_QUERY) /\
  In (rf_fallback_writer_hg f') (primaries (rw_session w)).
Proof.
  unfold polardb_capture_wait_read_failure, required_wait, primaries. cbv zeta.
  set (spec := if has_wait _ then _ else _). set (ext := en_status en != _).
  set (fb := if 0 <=? _ then _ else _).
  assert (In fb (primaries (rw_session w))) as Hfb by (subst fb; cbn; case_if; auto).
  clearbody spec ext fb. simpl_upd. destruct (rf_failed_myds f) as [hg|] eqn:Em.
  - match goal with |- context [polardb_extended_wait_retry_packet_ready ?a ?b ?c] =>
      destruct (polardb_extended_wait_retry_packet_ready a b c) end; cbn [orb]; try case_if;
      simpl_upd; by split_and!.
  - case_if; simpl_upd; by split_and!.
Qed.
Lemma adopt_fields f w :
  let g := adopt_txn_wait_failure en f w in
  rf_reader_hg g = rf_reader_hg f /\ rf_reader_address g = rf_reader_address f /\
  rf_reader_port g = rf_reader_port f /\ rf_failed_myds g = rf_failed_myds f /\
  rf_reader_plan g = rf_reader_plan f /\ rf_wait_spec g = rf_wait_spec f /\
  rf_extended_query g = rf_extended_query f /\ is_wait g = true /\
  (In (rf_fallback_writer_hg f) (primaries (rw_session w)) ->
   In (rf_fallback_writer_hg g) (primaries (rw_session w))).
Proof.
  unfold adopt_txn_wait_failure, is_wait, primaries. cbv zeta.
  set (text := match rf_failed_myds f with Some _ => _ | None => _ end). clearbody text.
  repeat case_if; simpl_upd; split_and!; try done; intros; cbn; auto.
Qed.

Lemma ordinary_fields f s :
  rf_extended_query f = (en_status en != PROCESSING_QUERY) ->
  rf_reader_plan f = qs_reader_plan (ss_query s) ->
  let g := polardb_capture_ordinary_reader_failure en f s in
  rf_reader_hg g = rf_reader_hg f /\ rf_reader_address g = rf_reader_address f /\
  rf_reader_port g = rf_reader_port f /\ rf_failed_myds g = rf_failed_myds f /\
  rf_reader_plan g = rf_reader_plan f /\ rf_wait_spec g = rf_wait_spec f /\
  rf_extended_query g = rf_extended_query f /\
  (In (rf_fallback_writer_hg f) (primaries s) -> In (rf_fallback_writer_hg g) (primaries s)).
Proof.
  intros He Hp. unfold polardb_capture_ordinary_reader_failure, primaries. cbv zeta.
  case_if; simpl_upd; [by split_and!|]. rewrite He, Hp. split_and!; try done. cbn. auto.
Qed.

(** What the classified record says of the request. *)
Lemma read_failure_fields oc w :
  let f := read_failure oc w in
  rf_reader_hg f = oc_backend_hg oc /\ rf_reader_address f = oc_backend_address oc /\
  rf_reader_port f = oc_backend_port oc /\ rf_failed_myds f = oc_backend_myds oc /\
  rf_reader_plan f = qs_reader_plan (ss_query (rw_session w)) /\
  rf_wait_spec f = required_wait (rw_session w) /\
  rf_extended_query f = (en_status en != PROCESSING_QUERY) /\
  In (rf_fallback_writer_hg f) (primaries (rw_session w)).
Proof.
  cbv zeta. unfold read_failure.
  pose proof (capture_fields (polardb_failure_from_outcome oc) w) as C.
  pose proof (capture_session (polardb_failure_from_outcome oc) w) as Hs.
  destruct (polardb_capture_wait_read_failure _ _ _) as [f w1]. cbn [snd] in Hs. cbv zeta in C.
  destruct C as (C1&C2&C3&C4&C5&C6&C7&C8). cbn in C1, C2, C3, C4.
  unfold classify_read. cbv zeta. rewrite Hs.
  destruct (adopt_fields f w1) as (A1&A2&A3&A4&A5&A6&A7&A8&A9). rewrite Hs in A9.
  destruct (ordinary_fields f (rw_session w) C7 C5) as (O1&O2&O3&O4&O5&O6&O7&O8).
  match goal with |- context [if ?c then adopt_txn_wait_failure en f w1 else f] => destruct c end.
  - rewrite A8. cbn [negb]. split_and!; try congruence. auto.
  - destruct (is_wait f); cbn [negb]; split_and!; try congruence; auto.
Qed.

(** A needed wait that was not captured: its request has no packet to move, or
    never sent its wrapper. *)
Lemma read_failure_unready oc w :
  tr_wait_read_active (ss_reader (rw_session w)) = false ->
  is_wait (read_failure oc w) = false -> has_wait (required_wait (rw_session w)) = true ->
  snd (polardb_capture_wait_read_failure en (polardb_failure_from_outcome oc) w) = w /\
  rf_retry_pkt (read_failure oc w) = None /\
  if en_status en != PROCESSING_QUERY
  then forall hg, oc_backend_myds oc = Some hg -> packet_at hg w = None
  else polardb_wait_active (rw_session w) && oc_wrapper_is_consistency_wait oc &&
       wst_wrapper_finalized (qs_wait (ss_query (rw_session w))) &&
       (qs_original_query (ss_query (rw_session w)) != EmptyString) = false.
Proof.
  intros Ha Hk Hw. unfold read_failure in *.
  destruct (polardb_capture_wait_read_failure en (polardb_failure_from_outcome oc) w) as [f w1]
    eqn:Ec.
  destruct (classify_pkt en oc f w1) as [-> _]. cbn [snd].
  assert (is_wait f = false) as Hf.
  { destruct (is_wait f) eqn:E; [|done]. by rewrite classify_wait, E in Hk. }
  revert Ec Hf. unfold polardb_capture_wait_read_failure. cbv zeta. simpl_upd.
  repeat match goal with |- context [if has_wait ?a then ?b else ?c] =>
    change (if has_wait a then b else c) with (required_wait (rw_session w)) end.
  rewrite Hw. cbn [rf_failed_myds polardb_failure_from_outcome].
  set (spec := required_wait (rw_session w)). clearbody spec.
  set (fb := if 0 <=? _ then _ else _). clearbody fb.
  unfold polardb_extended_wait_retry_packet_ready. rewrite andb_true_r.
  destruct (en_status en != PROCESSING_QUERY); cbn [negb andb orb].
  - destruct (oc_backend_myds oc) as [hg|]; [destruct (packet_at hg w) eqn:Ep|];
      cbn [andb orb]; intros [= <- <-]; [unfold is_wait; by simpl_upd|..]; intros _;
      simpl_upd; split_and!; try done. by intros ? [= <-].
  - replace (match oc_backend_myds oc with Some _ => _ | None => _ end) with
      (polardb_failure_from_outcome oc <| rf_extended_query := false |> <| rf_reader_plan :=
        qs_reader_plan (ss_query (rw_session w)) |> <| rf_wait_spec := spec |>
        <| rf_fallback_writer_hg := fb |>
        <| rf_retry_query := qs_original_query (ss_query (rw_session w)) |>, w)
      by by destruct (oc_backend_myds oc).
    simpl_upd. cbn [rf_wrapper_is_consistency_wait polardb_failure_from_outcome].
    match goal with |- context [if ?c then _ <| rf_request_kind := _ |> else _] =>
      destruct c eqn:Efin end; intros [= <- <-]; [unfold is_wait; by simpl_upd|]. intros _.
    by simpl_upd.
Qed.

(** The failed backend does not run a split read. *)
Definition not_split (oc : PolarDB_RequestOutcome) (s : PgSQL_Session) : Prop :=
  tr_split_active (ss_reader s) && bool_decide (oc_backend oc = tr_backend (ss_reader s)) = false.

Definition captured (oc : PolarDB_RequestOutcome) (w : retry_world) : retry_world :=
  snd (polardb_capture_wait_read_failure en (polardb_failure_from_outcome oc) w).

Lemma handle_not_split oc w :
  not_split oc (rw_session w) ->
  polardb_handle_reader_failure en oc w =
  let f := read_failure oc w in
  let w1 := captured oc w in
  if is_wait f || is_ordinary f
  then polardb_handle_failed_reader_read en f
         (polardb_reader_failure_decision f
            (qs_reader_retry_attempts (ss_query (rw_session w)))) w1
  else
    (FailureAction_PASSTHROUGH, f,
     if polardb_wait_active (rw_session w) &&
        (rf_wrapper_set_failure f || rf_timeout f || negb (rf_reusable f)) &&
        negb (wst_wait_started_at_us (qs_wait (ss_query (rw_session w))) =? 0)
     then set_request reset_wait (finish_wait_without_reader en w1) else w1).
Proof.
  unfold not_split, polardb_handle_reader_failure, polardb_take_reader_failure.
  cbn [rf_reader_backend polardb_failure_from_outcome]. intros ->.
  assert (set_session (fun _ => rw_session w) w = w) as -> by (destruct w; reflexivity).
  unfold captured, read_failure. cbv zeta.
  pose proof (capture_session (polardb_failure_from_outcome oc) w) as Hs. revert Hs.
  change (is_split (polardb_failure_from_outcome oc)) with false. cbv iota.
  destruct (polardb_capture_wait_read_failure _ _ _) as [f w1]. cbn [snd]. intros <-.
  reflexivity.
Qed.

Lemma stage_read_shape oc w :
  not_split oc (rw_session w) ->
  let '(a, _, w') := polardb_handle_reader_failure en oc w in
  a = FailureAction_RETRY ->
  let f := read_failure oc w in
  is_wait f || is_ordinary f = true /\
  (on_primary f (rw_session w) w' \/
   (dn_retry_target (polardb_reader_failure_decision f
      (qs_reader_retry_attempts (ss_query (rw_session w)))) = RetryTarget_OTHER_READER /\
    on_reader f (captured oc w) w')).
Proof.
  intros Hn. rewrite handle_not_split by done. cbv zeta.
  destruct (is_wait (read_failure oc w) || is_ordinary (read_failure oc w)) eqn:Ek; [|done].
  match goal with |- context [polardb_handle_failed_reader_read en ?f ?d ?w1] =>
    pose proof (handle_read_shape f d w1) as H; revert H end.
  destruct (polardb_handle_failed_reader_read _ _ _ _) as [[a f'] w']. intros H Ha.
  destruct (H Ha) as [_ H2]. split; [done|]. unfold captured in H2 at 1.
  by rewrite capture_session in H2.
Qed.

(** A simple query failed before its connection took note of the wrapper, so the
    stage does not see a wait read in it. *)
Definition wait_unsent (oc : PolarDB_RequestOutcome) (s : PgSQL_Session) : bool :=
  (en_status en == PROCESSING_QUERY) &&
  negb (polardb_wait_active s && oc_wrapper_is_consistency_wait oc &&
        wst_wrapper_finalized (qs_wait (ss_query s)) &&
        (qs_original_query (ss_query s) != EmptyString)).

Lemma moved_query_wait f b q :
  is_wait f = true -> has_wait (rf_wait_spec f) = true ->
  let q' := count_reader_retry (moved_query f b q) in
  if b then qs_wait_bypass_target q' = wsp_target (rf_wait_spec f)
  else wst_wait_stage (qs_wait q') = WaitStage_WAITING /\ wst_spec (qs_wait q') = rf_wait_spec f.
Proof.
  intros Hk Hw. unfold moved_query, count_reader_retry. rewrite Hk, Hw. cbn [negb orb].
  destruct b; cbv zeta; [unfold mark_wait_satisfied; by simpl_upd|].
  unfold begin_wait. case_if; by simpl_upd.
Qed.

Lemma moved_query_plan f b q : qs_reader_plan (count_reader_retry (moved_query f b q)) = qs_reader_plan q.
Proof.
  unfold moved_query, count_reader_retry, mark_wait_satisfied, reset_wait, begin_wait.
  repeat case_if; by simpl_upd.
Qed.
End Routes.

(** C6: A retried read keeps its consistency target.  Either it is on one of the
    writers its route names, with no reader plan and no wait left, or it is on
    another reader of the hostgroup that failed, under the same plan.  There the
    reader pool was asked for the wait the request needed, and that wait is
    active again with the same target unless the pool vouched that the new
    reader has it; only a simple query that failed before its connection took
    note of the wrapper is moved without a wait of the session, with the very
    packet the failed stream was about to send. *)
Theorem retried_read_keeps_target (en : retry_env) (oc : PolarDB_RequestOutcome)
    (w : retry_world) :
  not_split oc (rw_session w) ->
  let '(a, _, w') := polardb_handle_reader_failure en oc w in
  a = FailureAction_RETRY ->
  let s := rw_session w in
  let s' := rw_session w' in
  let q' := ss_query s' in
  ss_mybe s' = Some (ss_current_hg s') /\
  ((In (ss_current_hg s') (primaries en s) /\ 0 <= ss_current_hg s' /\
    qs_reader_plan q' = empty_reader_plan /\ qs_wait q' = idle_wait) \/
   (ss_current_hg s' = oc_backend_hg oc /\ qs_reader_plan q' = qs_reader_plan (ss_query s) /\
    (has_wait (required_wait en s) = true ->
     (exists conn vouched,
       en_acquire en (oc_backend_hg oc) (qs_reader_plan (ss_query s)) (required_wait en s)
         (oc_backend_address oc) (oc_backend_port oc) = Some (conn, vouched) /\
       if vouched then qs_wait_bypass_target q' = wsp_target (required_wait en s)
       else polardb_wait_active s' = true /\ wst_spec (qs_wait q') = required_wait en s) \/
     (wait_unsent en oc s = true /\
      exists hg b, oc_backend_myds oc = Some hg /\ packet_at hg w = Some b /\
        packet_at (oc_backend_hg oc) w' = Some b)))).
Proof.
  intros Hn. pose proof (stage_read_shape en oc w Hn) as H. revert H.
  destruct (polardb_handle_reader_failure en oc w) as [[a f'] w']. intros H Ha.
  destruct (H Ha) as [_ Hcase]. clear H. cbv zeta.
  destruct (read_failure_fields en oc w) as (F1&F2&F3&F4&F5&F6&F7&F8).
  set (f := read_failure en oc w) in *.
  destruct Hcase as [(P1&_&s1&_&_&Hr)|[_ (Hm&Hp&_&conn&b&q&Ha'&_&Hr)]];
    unfold route in Hr; cbv zeta in Hr; injection Hr as Hreader Hq -> ->; (split; [done|]).
  - left. rewrite Hq. unfold clear_reader_route, reset_wait, reset_reader_plan. simpl_upd.
    by split_and!.
  - right. rewrite F1. split; [done|]. rewrite Hq, moved_query_plan. simpl_upd. rewrite F5.
    split; [done|]. intros Hw. destruct (is_wait f) eqn:Ek.
    + left. exists conn, b. rewrite <- F1, <- F2, <- F3, <- F5, <- F6. split; [done|].
      pose proof (moved_query_wait en f b (q <| qs_reader_plan := rf_reader_plan f |>) Ek) as M.
      rewrite F6 in M. specialize (M Hw). cbv zeta in M. rewrite F5 in *. destruct b; [by rewrite F6|].
      destruct M as [M1 M2]. rewrite F6. split; [|done].
      unfold polardb_wait_active. by rewrite Hq, M1.
    + right.
      assert (tr_wait_read_active (ss_reader (rw_session w)) = false) as Hact.
      { unfold captured in Hm. rewrite capture_session in Hm. unfold reader_read_can_move in Hm.
        destruct (tr_wait_read_active _); [|done]. by rewrite !andb_false_r in Hm. }
      destruct (read_failure_unready en oc w Hact Ek Hw) as (Hc&Hpk&Hu).
      destruct (Hp eq_refl) as (hg&pkt&Hh&Hpkt&Hmoved); [by unfold f; rewrite Hpk|].
      unfold captured in Hpkt. rewrite Hc in Hpkt. rewrite <- F1.
      assert (oc_backend_myds oc = Some hg) as Hmy by congruence.
      unfold wait_unsent. destruct (en_status en != PROCESSING_QUERY) eqn:Ees.
      * specialize (Hu hg Hmy). congruence.
      * rewrite Hu. split; [by destruct (en_status en)|]. by exists hg, pkt.
Qed.

(** In the case of the packet the session has forgotten the wait, and the packet
    still holds the wrapper. *)
Example unsent_wait_moves_with_its_wrapper :
  let w := sample_unsent sample_offline_read in
  wait_unsent (sample_env sample_reader) (sample_outcome w) (rw_session w) = true /\
  let '(_, _, w') := polardb_handle_reader_failure (sample_env sample_reader) (sample_outcome w) w in
  packet_at 20 w' = Some sample_wrapped_pkt /\ polardb_wait_active (rw_session w') = false.
Proof. vm_compute. auto. Qed.

(** ** Witness *)

Lemma sample_not_split : not_split (sample_outcome sample_wait_world) (rw_session sample_wait_world).
Proof. by vm_compute. Qed.

Lemma retried_read_keeps_target_witness :
  fst (fst (polardb_handle_reader_failure (sample_env sample_reader)
    (sample_outcome sample_wait_world) sample_wait_world)) = FailureAction_RETRY /\
  ss_mybe (rw_session (snd (polardb_handle_reader_failure (sample_env sample_reader)
    (sample_outcome sample_wait_world) sample_wait_world))) =
  Some (ss_current_hg (rw_session (snd (polardb_handle_reader_failure (sample_env sample_reader)
    (sample_outcome sample_wait_world) sample_wait_world)))).
Proof.
  assert (fst (fst (polardb_handle_reader_failure (sample_env sample_reader)
    (sample_outcome sample_wait_world) sample_wait_world)) = FailureAction_RETRY) as Hr
    by (vm_compute; reflexivity).
  split; [exact Hr|].
  pose proof (retried_read_keeps_target (sample_env sample_reader)
    (sample_outcome sample_wait_world) sample_wait_world sample_not_split) as H.
  destruct (polardb_handle_reader_failure _ _ _) as [[a f] w']. apply H. exact Hr.
Defined.
