(* ===== verification/RetrySplit.v ===== *)
(** * Retrying a split read inside its transaction

    Where the read of a transaction split lands, and how many retries one
    statement can have. *)

From S2P Require Import Prelude SqlScan Policy Startup Config Session Query.
From S2P Require Import SessionState Plan Topology ServerList Wrap Flow Result.
From S2P Require Import Failure Redispatch Ledger LedgerStage RetrySafety RetryRoute.
From Stdlib Require Import ZArith Ascii String List Bool Lia.
From stdpp Require Import base tactics list gmap strings.

Open Scope Z_scope.
Open Scope polar_scope.

(** The session once a reader was released. *)
Definition released_from (s s1 : PgSQL_Session) : Prop :=
  s1 = s \/ s1 = polardb_release_txn_reader_backend s.

(** On the writer of the transaction. *)
Definition on_writer (en : retry_env) (f : PolarDB_ReaderFailure) (hg : Z)
    (w w' : retry_world) : Prop :=
  hg = ws_hg (rf_writer_scope f) /\
  polardb_writer_scope_is_current (en_hgm en) (rf_writer_scope f) = true /\
  (exists conn, conn_at hg w = Some conn /\ vc_connected conn = true /\
     IsKnownActiveTransaction (ss_in_transaction (rw_session w)) conn = true /\
     vc_async conn = ASYNC_IDLE) /\
  has hg w' /\
  exists s1, released_from (rw_session w) s1 /\
    route (rw_session w') = (ss_reader s1, ss_query s1, Some hg, hg).

(** On another reader, with the wrapper rebuilt for the same wait. *)
Definition on_split_reader (en : retry_env) (f : PolarDB_ReaderFailure) (w w' : retry_world)
  : Prop :=
  let hg := rf_reader_hg f in
  let r' := ss_reader (rw_session w') in
  let '(stmts, text) := polardb_build_txn_split_wrapped_query (rf_retry_pkt f) (rf_wait_spec f)
                          (rf_txn_xids f) false in
  stmts <> 0 /\ has hg w' /\
  polardb_reader_matches_writer_scope (en_hgm en) hg (rf_writer_scope f) = true /\
  (exists conn b, en_acquire en hg (rf_reader_plan f) (rf_wait_spec f) (rf_reader_address f)
     (rf_reader_port f) = Some (conn, b) /\ vc_connected conn = true) /\
  ss_mybe (rw_session w') = Some hg /\ ss_current_hg (rw_session w') = hg /\
  tr_backend r' = Some hg /\ tr_split_active r' = true /\ tr_wrapped_query r' = text /\
  tr_wait_spec r' = rf_wait_spec f /\ tr_writer_scope r' = rf_writer_scope f /\
  exists s1, released_from (rw_session w) s1 /\
    tr_wait_read_active r' = tr_wait_read_active (ss_reader s1) /\
    ss_query (rw_session w') =
      count_reader_retry (ss_query s1 <| qs_reader_plan := rf_reader_plan f |>
        <| qs_dispatch_wrapper_stmts := stmts |>
        <| qs_dispatch_wrapper_kind := Wrapper_TXN_SPLIT_WAIT |>).

Section Split.
Context (en : retry_env).

Lemma to_writer_shape f hg be w :
  let '(moved, _, w') := polardb_try_redispatch_to_writer en f hg be w in
  moved = true -> on_writer en f hg w w'.
Proof.
  unfold polardb_try_redispatch_to_writer. destruct be as [be|]; [|done].
  destruct (rf_retry_pkt f) eqn:Ep; [|done]. destruct (conn_at be w) as [conn|] eqn:Ec; [|done].
  match goal with |- context [if ?c then _ else _] => destruct c eqn:Eg; [done|] end.
  repeat (apply orb_false_elim in Eg as [Eg ?]).
  repeat match goal with H : negb _ = false |- _ => apply negb_false_iff in H end.
  assert (be = hg) as -> by (by apply Z.eqb_eq).
  assert (hg = ws_hg (rf_writer_scope f)) as Hhg by (by apply Z.eqb_eq).
  cbv zeta. set (w1 := polardb_release_reader_backend _ _ w).
  match goal with |- context [polardb_move_retry_packet_to_writer en ?a ?b ?c ?d ?e ?w0] =>
    pose proof (move_route en a hg c d e w0) as Hmv;
    destruct (polardb_move_retry_packet_to_writer en a b c d e w0) as [[moved pkt] w2] end.
  intros Hm. destruct (Hmv Hm) as [Hr Hh]. unfold on_writer. split_and!; try done.
  - exists conn. split_and!; try done. by apply bool_decide_eq_true in H2.
  - exists (rw_session w1). split; [|done]. apply session_release_reader.
Qed.

Lemma query_begin_split hg o q spec plan scope n b now s :
  let s' := polardb_begin_txn_split_read hg o q spec plan scope n b now s in
  ss_query s' = ss_query s <| qs_reader_plan := plan |> <| qs_dispatch_wrapper_stmts := n |>
                  <| qs_dispatch_wrapper_kind := Wrapper_TXN_SPLIT_WAIT |> /\
  ss_current_hg s' = ss_current_hg s /\ ss_mybe s' = Some hg /\
  tr_backend (ss_reader s') = Some hg /\ tr_split_active (ss_reader s') = true /\
  tr_wrapped_query (ss_reader s') = q /\ tr_wait_spec (ss_reader s') = spec /\
  tr_writer_scope (ss_reader s') = scope /\
  tr_wait_read_active (ss_reader s') = tr_wait_read_active (ss_reader s).
Proof.
  unfold polardb_begin_txn_split_read, polardb_begin_txn_reader_read. cbv zeta. simpl_upd.
  by split_and!.
Qed.

Lemma has_begin_split i hg o q spec plan scope n w :
  has i w -> has i (begin_txn_split_read en hg o q spec plan scope n w).
Proof. intros. unfold begin_txn_split_read. auto with has. Qed.

Lemma to_reader_shape f w :
  let '(moved, _, w') := polardb_try_redispatch_to_other_reader en f w in
  moved = true -> on_split_reader en f w w'.
Proof.
  unfold polardb_try_redispatch_to_other_reader, on_split_reader. cbv zeta.
  match goal with |- context [if ?c then _ else _] => destruct c; [done|] end.
  destruct (polardb_build_txn_split_wrapped_query _ _ _ _) as [n text].
  destruct (n =? 0) eqn:En; [done|]. apply Z.eqb_neq in En. simpl_upd.
  set (w1 := polardb_release_reader_backend _ _ w).
  pose proof (session_release_reader (rf_reader_backend f) (rf_reusable f) w) as Hs1.
  fold w1 in Hs1. clearbody w1. set (w2 := find_or_create_backend _ w1).
  assert (rw_session w2 = rw_session w1 /\ has (rf_reader_hg f) w2) as [Hs2 Hh2]
    by (subst w2; rewrite session_find_or_create; split; [done|apply has_created]).
  clearbody w2. destruct (conn_at _ w2); [done|].
  destruct (en_acquire en _ _ _ _ _) as [[conn b]|] eqn:Ea; [|done].
  destruct (vc_connected conn) eqn:Ecn; cbn [negb]; [|done].
  destruct (polardb_reader_matches_writer_scope _ _ _) eqn:Em; cbn [negb]; [|done]. intros _.
  match goal with |- context [begin_txn_split_read en ?a ?b0 ?c ?d ?e ?g ?h ?w0] =>
    set (w3 := w0); set (w4 := begin_txn_split_read en a b0 c d e g h w3) end.
  assert (has (rf_reader_hg f) w4) as Hh4.
  { subst w4 w3. apply has_begin_split. unfold attach_connection. auto with has. }
  assert (rw_session w3 = rw_session w1 <| ss_current_hg := rf_reader_hg f |>) as Hs3.
  { subst w3. unfold attach_connection. rewrite session_set, session_prepare_retry,
      session_on_stream. by rewrite Hs2. }
  assert (rw_session w4 = polardb_begin_txn_split_read (rf_reader_hg f) (rf_retry_pkt f) text
    (rf_wait_spec f) (rf_reader_plan f) (rf_writer_scope f) n false (en_now_us en)
    (rw_session w3)) as Hs4.
  { subst w4. unfold begin_txn_split_read. by rewrite session_set, session_on_stream,
      session_free. }
  clearbody w3 w4. set (w5 := set_request count_reader_retry w4).
  set (w6 := polardb_restart_query_dispatch_from_packet _ _ w5).
  assert (has (rf_reader_hg f) w6) as Hh6 by (subst w6 w5; by apply has_restart, has_session).
  assert (route (rw_session w6) = route (rw_session w5)) as Hr by apply route_restart.
  assert (rw_session w5 = rw_session w4 <| ss_query :=
    count_reader_retry (ss_query (rw_session w4)) |>) as Hs5
    by (subst w5; unfold set_request; by rewrite session_set).
  clearbody w5 w6. unfold route in Hr. injection Hr as -> -> -> ->. rewrite Hs5. simpl_upd.
  pose proof (query_begin_split (rf_reader_hg f) (rf_retry_pkt f) text (rf_wait_spec f)
    (rf_reader_plan f) (rf_writer_scope f) n false (en_now_us en) (rw_session w3)) as B.
  cbv zeta in B. rewrite <- Hs4 in B. destruct B as (->&->&->&->&->&->&->&->&->).
  rewrite Hs3. simpl_upd. do 2 (split; [done|]). split; [done|].
  split; [by exists conn, b|]. do 7 (split; [done|]).
  exists (rw_session w1). by split_and!.
Qed.

Lemma released_trans s s1 s2 : released_from s s1 -> released_from s1 s2 -> released_from s s2.
Proof.
  assert (polardb_release_txn_reader_backend (polardb_release_txn_reader_backend s) =
    polardb_release_txn_reader_backend s) as Hd.
  { unfold polardb_release_txn_reader_backend at 1.
    destruct (tr_backend (ss_reader (polardb_release_txn_reader_backend s))) eqn:E; [|done].
    exfalso. revert E. unfold polardb_release_txn_reader_backend.
    destruct (tr_backend (ss_reader s)) eqn:E2; [|congruence].
    unfold clear_backend. by simpl_upd. }
  unfold released_from. intros [-> | ->] [-> | ->]; auto.
Qed.

Lemma to_reader_declined f w :
  let '(moved, f', w') := polardb_try_redispatch_to_other_reader en f w in
  moved = false ->
  released_from (rw_session w) (rw_session w') /\ rf_writer_scope f' = rf_writer_scope f.
Proof.
  unfold polardb_try_redispatch_to_other_reader.
  match goal with |- context [if ?c then _ else _] => destruct c; [intros _; split; [by left|done]|] end.
  destruct (polardb_build_txn_split_wrapped_query _ _ _ _) as [n text].
  destruct (n =? 0); [intros _; split; [by left|done]|]. cbv zeta. simpl_upd.
  set (w1 := polardb_release_reader_backend _ _ w).
  assert (released_from (rw_session w) (rw_session w1)) as H1 by apply session_release_reader.
  clearbody w1. unfold attach_connection.
  destruct (conn_at _ _); [rewrite session_find_or_create; by simpl_upd|].
  destruct (en_acquire en _ _ _ _ _) as [[conn b]|];
    [|rewrite session_find_or_create; by simpl_upd].
  case_if; [rewrite session_give_up, session_on_stream, session_find_or_create; by simpl_upd|].
  case_if; [|done].
  rewrite session_release_unused, session_on_stream, session_find_or_create. by simpl_upd.
Qed.

Lemma route_route r hg f w :
  route (rw_session (set_session (polardb_apply_reader_failure_route_state r hg f) w)) =
  route (rw_session w).
Proof.
  rewrite session_set. unfold polardb_apply_reader_failure_route_state, route.
  destruct r; try case_if; by simpl_upd.
Qed.

Lemma on_split_reader_route f w w' g :
  (forall s, route (g s) = route s) -> on_split_reader en f w w' ->
  on_split_reader en f w (set_session g w').
Proof.
  intros Hg. unfold on_split_reader. destruct (polardb_build_txn_split_wrapped_query _ _ _ _).
  rewrite session_set. specialize (Hg (rw_session w')). unfold route in Hg.
  injection Hg as -> -> -> ->. intros (?&?&H). split; [done|]. split; [by apply has_session|done].
Qed.

(** The state the redispatch starts from. *)
Definition ended (f : PolarDB_ReaderFailure) (w : retry_world) : retry_world :=
  polardb_end_split_after_reader_failure (polardb_record_reader_failure f w).

(** On the live writer of the scope. *)
Definition on_live_writer (f : PolarDB_ReaderFailure) (w w' : retry_world) : Prop :=
  let hg := ws_hg (rf_writer_scope f) in
  polardb_writer_scope_is_current (en_hgm en) (rf_writer_scope f) = true /\
  (exists conn, conn_at hg w = Some conn /\ vc_connected conn = true /\
     IsKnownActiveTransaction (ss_in_transaction (rw_session w)) conn = true) /\
  has hg w' /\
  exists s1, released_from (rw_session (ended f w)) s1 /\
    route (rw_session w') = (ss_reader s1, ss_query s1, Some hg, hg).

Lemma resolve_live f w hg be :
  polardb_resolve_writer_state (en_hgm en) (rw_streams w) (rw_session w) f =
    (WriterState_LIVE, hg, be) ->
  hg = ws_hg (rf_writer_scope f) /\
  exists conn, conn_at hg w = Some conn /\ vc_connected conn = true /\
    IsKnownActiveTransaction (ss_in_transaction (rw_session w)) conn = true.
Proof.
  unfold polardb_resolve_writer_state, polardb_find_open_transaction_backend.
  case_if; [done|]. cbv zeta. case_if; [done|].
  case_if; [repeat case_if; done|].
  unfold conn_at, stream_at.
  destruct (rw_streams w !! ws_hg (rf_writer_scope f)) as [st|] eqn:Est;
    [|repeat case_if; done].
  destruct (bool_decide _); [repeat case_if; done|].
  destruct (bs_conn st) as [conn|] eqn:Ec; [|repeat case_if; done].
  destruct (vc_connected conn && _) eqn:Ev; [|repeat case_if; done].
  intros [= <- <-]. split; [done|]. rewrite Est, Ec. exists conn.
  by apply andb_true_iff in Ev.
Qed.

Lemma terminate_not_retried f w (P : retry_world -> Prop) :
  let '(a, _, w') := polardb_terminate_session_after_reader_failure f w in
  a = FailureAction_RETRY -> P w'.
Proof.
  unfold polardb_terminate_session_after_reader_failure.
  by destruct (polardb_free_retry_pkt_if_owned _ _).
Qed.

Lemma forward_not_retried f w (P : retry_world -> Prop) :
  let '(a, _, w') := polardb_forward_error_and_keep_writer en f w in
  a = FailureAction_RETRY -> P w'.
Proof.
  unfold polardb_forward_error_and_keep_writer.
  by destruct (polardb_free_retry_pkt_if_owned _ _).
Qed.

Lemma split_shape f w :
  let '(a, _, w') := handle_split_failure en f w in
  a = FailureAction_RETRY ->
  on_live_writer f w w' \/
  (dn_retry_target (polardb_reader_failure_decision f
     (qs_reader_retry_attempts (ss_query (rw_session (ended f w))))) = RetryTarget_OTHER_READER /\
   on_split_reader en f (ended f w) w').
Proof.
  unfold handle_split_failure.
  destruct (polardb_resolve_writer_state _ _ _ _) as [[st hg] be] eqn:Er.
  fold (ended f w). set (w1 := ended f w). set (d := polardb_reader_failure_decision f _).
  case_if; [apply terminate_not_retried|]. case_if; [apply terminate_not_retried|].
  case_if; [|apply forward_not_retried].
  set (r1 := if dn_retry_target d == RetryTarget_OTHER_READER then _ else _).
  assert (let '(moved, f1, w2) := r1 in
    if moved then dn_retry_target d = RetryTarget_OTHER_READER /\ on_split_reader en f w1 w2
    else released_from (rw_session w1) (rw_session w2) /\ rf_writer_scope f1 = rf_writer_scope f)
    as H1.
  { subst r1. destruct (dn_retry_target d == RetryTarget_OTHER_READER) eqn:Et; [|split; [by left|done]].
    pose proof (to_reader_shape f w1) as S. pose proof (to_reader_declined f w1) as D.
    destruct (polardb_try_redispatch_to_other_reader en f w1) as [[[] f1] w2]; [|by apply D].
    split; [by apply bool_decide_eq_true in Et|by apply S]. }
  clearbody r1. destruct r1 as [[[] f1] w2].
  { intros _. destruct H1. right. split; [done|]. apply on_split_reader_route; [|done].
    intros s0. pose proof (route_route FailureRoute_SKIP_READER hg f1
      (set_session (fun _ => s0) w2)) as R. by rewrite !session_set in R. }
  destruct H1 as [Hrel Hsc].
  destruct (dn_allow_writer_retry d && (st == WriterState_LIVE)) eqn:Ew;
    [|apply forward_not_retried].
  pose proof (to_writer_shape f1 hg be w2) as W.
  destruct (polardb_try_redispatch_to_writer en f1 hg be w2) as [[[] f2] w3];
    [|apply forward_not_retried].
  intros _. left. destruct (W eq_refl) as (W1&W2&_&W4&s1&W5&W6). rewrite Hsc in *.
  apply andb_true_iff in Ew as [_ Ew]. apply bool_decide_eq_true in Ew. subst st.
  apply resolve_live in Er as [-> Hconn]. unfold on_live_writer. split_and!; [done|done| |].
  - by apply has_session.
  - exists s1. split; [by eapply released_trans|]. by rewrite route_route.
Qed.

(** A session whose temporary reader runs nothing. *)
Definition reader_idle (r : PolarDB_TxnReaderState) : Prop :=
  tr_split_active r = false /\ tr_wait_read_active r = false /\ tr_primary_backend r = None.

Lemma reset_idle s :
  reader_idle (ss_reader (polardb_reset_txn_reader_request s)) /\
  ss_query (polardb_reset_txn_reader_request s) =
    reset_dispatch_wrapper (reset_reader_plan (ss_query s)).
Proof.
  unfold polardb_reset_txn_reader_request. set (s1 := match _ with Some _ => _ | None => s end).
  assert (ss_query s1 = ss_query s) as <-
    by (subst s1; destruct (tr_primary_backend (ss_reader s)); by simpl_upd).
  clearbody s1. simpl_upd. by split_and!.
Qed.

Lemma released_idle s s1 :
  reader_idle (ss_reader s) -> released_from s s1 ->
  reader_idle (ss_reader s1) /\ ss_query s1 = ss_query s.
Proof.
  intros (H1&H2&H3) [-> | ->]; [done|]. unfold polardb_release_txn_reader_backend.
  destruct (tr_backend (ss_reader s)); [|done]. unfold txn_reader_active. rewrite H1, H2, H3.
  cbn [orb]. unfold reader_idle, clear_backend. simpl_upd. by split_and!.
Qed.

Lemma ended_session f w :
  tr_split_active (ss_reader (rw_session w)) = true ->
  reader_idle (ss_reader (rw_session (ended f w))) /\
  ss_query (rw_session (ended f w)) =
    reset_dispatch_wrapper (reset_reader_plan (ss_query (rw_session w))).
Proof.
  intros Ha. unfold ended, polardb_end_split_after_reader_failure. rewrite session_record, Ha.
  cbn [negb andb]. rewrite session_set, session_reset_request, session_set, session_record.
  simpl_upd. match goal with |- context [polardb_reset_txn_reader_request ?s0] =>
    destruct (reset_idle s0) as [R1 R2] end.
  rewrite R2. by simpl_upd.
Qed.

(** The failed backend runs the split read. *)
Definition runs_split (oc : PolarDB_RequestOutcome) (s : PgSQL_Session) : Prop :=
  tr_split_active (ss_reader s) = true /\ oc_backend oc = tr_backend (ss_reader s).

Definition split_failure (oc : PolarDB_RequestOutcome) (s : PgSQL_Session)
  : PolarDB_ReaderFailure := fst (polardb_take_reader_failure oc s).

(** The world once the packet of the split read is with the record. *)
Definition taken (w : retry_world) : retry_world :=
  set_session (fun s => s <| ss_reader := ss_reader s <| tr_original_pkt := None |> |>) w.

Lemma take_split oc s :
  runs_split oc s ->
  let '(f, s') := polardb_take_reader_failure oc s in
  f = split_failure oc s /\ is_split f = true /\
  s' = s <| ss_reader := ss_reader s <| tr_original_pkt := None |> |> /\
  rf_retry_pkt f = tr_original_pkt (ss_reader s) /\
  rf_reader_plan f = qs_reader_plan (ss_query s) /\
  rf_wait_spec f = tr_wait_spec (ss_reader s) /\
  rf_writer_scope f = tr_writer_scope (ss_reader s) /\ rf_txn_xids f = ts_xids (ss_split s) /\
  rf_reader_hg f = oc_backend_hg oc /\ rf_reader_address f = oc_backend_address oc /\
  rf_reader_port f = oc_backend_port oc.
Proof.
  intros [Ha Hb]. unfold split_failure, polardb_take_reader_failure, is_split.
  cbn [rf_reader_backend polardb_failure_from_outcome].
  rewrite Ha, Hb, bool_decide_true by done. cbn [andb fst]. simpl_upd. by split_and!.
Qed.

Lemma handle_split oc w :
  runs_split oc (rw_session w) ->
  polardb_handle_reader_failure en oc w =
  handle_split_failure en (split_failure oc (rw_session w)) (taken w).
Proof.
  intros H. pose proof (take_split oc (rw_session w) H) as T. revert T.
  unfold polardb_handle_reader_failure.
  destruct (polardb_take_reader_failure oc (rw_session w)) as [f s].
  intros (->&->&->&_). unfold taken. reflexivity.
Qed.

End Split.

(** C7: A retried split read stays inside its transaction: it is on the writer of
    the scope it was started under, which is still current and holds the open
    transaction on a live connection; or on another reader of that scope, as the
    split read of a wrapper rebuilt for the same wait and transaction ids. *)
Theorem split_retry_stays_in_transaction (en : retry_env) (oc : PolarDB_RequestOutcome)
    (w : retry_world) :
  runs_split oc (rw_session w) ->
  let '(a, _, w') := polardb_handle_reader_failure en oc w in
  a = FailureAction_RETRY ->
  let s := rw_session w in
  let r := ss_reader s in
  let s' := rw_session w' in
  let r' := ss_reader s' in
  let scope := tr_writer_scope r in
  ss_mybe s' = Some (ss_current_hg s') /\
  ((ss_current_hg s' = ws_hg scope /\ tr_split_active r' = false /\
    polardb_writer_scope_is_current (en_hgm en) scope = true /\
    exists conn, conn_at (ws_hg scope) w = Some conn /\ vc_connected conn = true /\
      IsKnownActiveTransaction (ss_in_transaction s) conn = true) \/
   (ss_current_hg s' = oc_backend_hg oc /\ tr_split_active r' = true /\
    tr_backend r' = ss_mybe s' /\
    polardb_reader_matches_writer_scope (en_hgm en) (oc_backend_hg oc) scope = true /\
    tr_writer_scope r' = scope /\ tr_wait_spec r' = tr_wait_spec r /\
    let wrapper := polardb_build_txn_split_wrapped_query (tr_original_pkt r) (tr_wait_spec r)
                     (ts_xids (ss_split s)) false in
    fst wrapper <> 0 /\ tr_wrapped_query r' = snd wrapper)).
Proof.
  intros Hrun. pose proof (take_split oc (rw_session w) Hrun) as T. revert T.
  rewrite handle_split by done.
  destruct (polardb_take_reader_failure oc (rw_session w)) as [f s0].
  intros (->&_&_&T1&T2&T3&T4&T5&T6&_&_).
  pose proof (split_shape en (split_failure oc (rw_session w)) (taken w)) as S. revert S.
  destruct (handle_split_failure _ _ _) as [[a f'] w']. intros S Ha. cbv zeta.
  destruct Hrun as [Hact Hbe].
  assert (tr_split_active (ss_reader (rw_session (taken w))) = true) as Hact'
    by (unfold taken; rewrite session_set; by simpl_upd).
  destruct (S Ha) as [(L1&(conn&L2)&_&s1&L3&L4)|[_ L]].
  - rewrite T4 in *. destruct (ended_session (split_failure oc (rw_session w)) (taken w) Hact')
      as [I1 I2].
    destruct (released_idle _ _ I1 L3) as [(J1&_&_) _].
    unfold route in L4. injection L4 as -> _ -> ->. split; [done|]. left. split_and!; try done.
    exists conn. revert L2. unfold taken, conn_at, stream_at, set_session. by simpl_upd.
  - unfold on_split_reader in L. rewrite T1, T3, T4, T5, T6 in L.
    destruct (polardb_build_txn_split_wrapped_query _ _ _ _) as [n text].
    destruct L as (L1&_&L3&_&->&->&->&->&->&->&->&_). cbn [fst snd]. split; [done|]. right.
    by split_and!.
Qed.

(** ** Witness *)

Lemma sample_runs_split :
  runs_split (sample_outcome sample_failed_split) (rw_session sample_failed_split).
Proof. split; by vm_compute. Qed.

Lemma split_retry_stays_in_transaction_witness :
  fst (fst (polardb_handle_reader_failure (sample_env sample_reader)
    (sample_outcome sample_failed_split) sample_failed_split)) = FailureAction_RETRY /\
  ss_mybe (rw_session (snd (polardb_handle_reader_failure (sample_env sample_reader)
    (sample_outcome sample_failed_split) sample_failed_split))) =
  Some (ss_current_hg (rw_session (snd (polardb_handle_reader_failure (sample_env sample_reader)
    (sample_outcome sample_failed_split) sample_failed_split)))).
Proof.
  assert (fst (fst (polardb_handle_reader_failure (sample_env sample_reader)
    (sample_outcome sample_failed_split) sample_failed_split)) = FailureAction_RETRY) as Hr
    by (vm_compute; reflexivity).
  split; [exact Hr|].
  pose proof (split_retry_stays_in_transaction (sample_env sample_reader)
    (sample_outcome sample_failed_split) sample_failed_split sample_runs_split) as H.
  destruct (polardb_handle_reader_failure _ _ _) as [[a f] w']. apply H. exact Hr.
Defined.
