(* ===== verification/RetryBound.v ===== *)
(** * How often one statement is retried

    A retry on a writer leaves nothing the failure stage could act on again; a
    retry on a reader uses up the one the statement has.  So a statement is
    retried at most twice, whatever fails. *)

From S2P Require Import Prelude SqlScan Policy Startup Config Session Query.
From S2P Require Import SessionState Plan Topology ServerList Wrap Flow Result.
From S2P Require Import Failure Redispatch Ledger LedgerStage RetrySafety RetryRoute RetrySplit.
From Stdlib Require Import ZArith Ascii String List Bool Lia.
From stdpp Require Import base tactics list gmap strings.

Open Scope Z_scope.
Open Scope polar_scope.

(** Nothing of the reader route is left. *)
Record settled (s : PgSQL_Session) : Prop := {
  st_reader : txn_reader_active (ss_reader s) = false;
  st_spec : has_wait (wst_spec (qs_wait (ss_query s))) = false;
  st_route_spec : has_wait (qs_reader_wait_spec (ss_query s)) = false;
  st_wait : polardb_wait_active s = false;
  st_plan : rd_fallback_writer_hg (qs_reader_plan (ss_query s)) < 0
}.

(** A session whose current backend failed: a temporary reader in use is that
    backend, and a split read has no wait of its own. *)
Record failing (w : retry_world) : Prop := {
  fg_backend : exists be, ss_mybe (rw_session w) = Some be /\ has be w;
  fg_reader : txn_reader_active (ss_reader (rw_session w)) = true ->
    tr_backend (ss_reader (rw_session w)) = ss_mybe (rw_session w);
  fg_split : tr_split_active (ss_reader (rw_session w)) = true ->
    has_wait (wst_spec (qs_wait (ss_query (rw_session w)))) = false /\
    polardb_wait_active (rw_session w) = false;
  fg_attempts : 0 <= qs_reader_retry_attempts (ss_query (rw_session w))
}.

Definition outcome_of (w : retry_world) : PolarDB_RequestOutcome :=
  polardb_capture_request_outcome (rw_streams w) (rw_session w) (ss_mybe (rw_session w)).

Lemma outcome_backend w :
  failing w ->
  oc_backend (outcome_of w) = ss_mybe (rw_session w) /\
  oc_backend_myds (outcome_of w) = ss_mybe (rw_session w).
Proof.
  intros [(be&Hb&st&Hs) _ _ _]. unfold outcome_of, polardb_capture_request_outcome.
  rewrite Hb. unfold stream_at in Hs. rewrite Hs.
  destruct (bs_conn st) as [conn|]; [|done]. by destruct (vc_parent conn).
Qed.

Section Bound.
Context (en : retry_env).

Lemma capture_not_wait f w :
  has_wait (required_wait en (rw_session w)) = false ->
  polardb_wait_active (rw_session w) = false ->
  rf_request_kind (fst (polardb_capture_wait_read_failure en f w)) = rf_request_kind f /\
  snd (polardb_capture_wait_read_failure en f w) = w.
Proof.
  intros Hw Ha. unfold polardb_capture_wait_read_failure. cbv zeta. simpl_upd.
  repeat match goal with |- context [if has_wait ?a then ?b else ?c] =>
    change (if has_wait a then b else c) with (required_wait en (rw_session w)) end.
  rewrite Hw. unfold polardb_extended_wait_retry_packet_ready. rewrite andb_false_r. cbn [andb].
  destruct (rf_failed_myds f); rewrite Ha, andb_false_r; cbn [orb andb fst snd]; by simpl_upd.
Qed.

Lemma settled_passthrough oc w :
  settled (rw_session w) ->
  let '(a, _, _) := polardb_handle_reader_failure en oc w in a = FailureAction_PASSTHROUGH.
Proof.
  intros [H1 H2 H3 H4 H5]. unfold txn_reader_active in H1.
  apply orb_false_elim in H1 as [Hsp Hwr].
  rewrite handle_not_split by (unfold not_split; by rewrite Hsp). cbv zeta.
  assert (is_wait (read_failure en oc w) = false /\ is_ordinary (read_failure en oc w) = false)
    as [-> ->]; [|done].
  unfold read_failure.
  assert (has_wait (required_wait en (rw_session w)) = false) as Hreq
    by (unfold required_wait; rewrite H2; by case_if).
  destruct (capture_not_wait (polardb_failure_from_outcome oc) w Hreq H4) as [Hk Hw].
  destruct (polardb_capture_wait_read_failure _ _ _) as [f w1]. cbn [fst snd] in Hk, Hw. subst w1.
  unfold classify_read. rewrite Hwr. cbn [andb]. cbv zeta.
  assert (is_wait f = false) as -> by (unfold is_wait; by rewrite Hk). cbn [negb].
  unfold polardb_capture_ordinary_reader_failure. cbv zeta.
  assert ((0 <=? rd_fallback_writer_hg (qs_reader_plan (ss_query (rw_session w)))) = false) as ->
    by (apply Z.leb_gt; lia).
  rewrite andb_false_r. cbn [andb negb]. unfold is_wait, is_ordinary. by rewrite Hk.
Qed.

Lemma other_reader_attempts f n :
  dn_retry_target (polardb_reader_failure_decision f n) = RetryTarget_OTHER_READER -> n < 1.
Proof.
  pose proof (decision_table f n) as H. cbv zeta in H. rewrite H.
  unfold recovery_for, reader_left, POLARDB_READER_RETRY_LIMIT.
  destruct (n <? 1) eqn:E; [by apply Z.ltb_lt in E|]. rewrite andb_false_r.
  repeat case_match; done.
Qed.

(** A retry: the statement has nothing left to retry, or spent its reader retry. *)
Definition progressed (s s' : PgSQL_Session) : Prop :=
  settled s' \/
  (qs_reader_retry_attempts (ss_query s) = 0 /\ qs_reader_retry_attempts (ss_query s') = 1).

Lemma on_primary_settled f w w' :
  failing w -> tr_split_active (ss_reader (rw_session w)) = false ->
  rf_failed_myds f = ss_mybe (rw_session w) ->
  on_primary f (rw_session w) w' -> failing w' /\ settled (rw_session w').
Proof.
  intros [(be&Hbe&_) Hr _ Hn] Hs Hm (P1&P2&s1&Er&Ea&P3). cbv zeta in P3.
  set (s2 := after_release _ f s1) in P3.
  assert (txn_reader_active (ss_reader s2) = false /\
    qs_reader_retry_attempts (ss_query s2) = qs_reader_retry_attempts (ss_query s1)) as [A1 A2].
  { subst s2. unfold after_release, is_txn_wait. rewrite Hm, Hbe. unfold txn_reader_active in *.
    destruct (tr_wait_read_active (ss_reader (rw_session w))) eqn:Ew; cbn [andb].
    - assert (tr_backend (ss_reader s1) = Some be) as Eb
        by (rewrite Er, Hr by (by rewrite Hs); exact Hbe).
      rewrite bool_decide_true by (by rewrite <- Er). unfold polardb_release_txn_wait_read.
      rewrite Er, Ew. cbn [negb andb]. unfold polardb_release_txn_reader_backend.
      rewrite Eb, Er. unfold txn_reader_active. rewrite Hs, Ew. cbn [orb].
      destruct (reset_idle s1) as [(R1&R2&_) R3]. unfold clear_backend. simpl_upd.
      rewrite R1, R2, R3. split; [done|].
      unfold reset_dispatch_wrapper, reset_reader_plan. by simpl_upd.
    - by rewrite Er, Hs, Ew. }
  clearbody s2. unfold route in P3. injection P3 as E1 E2 E3 E4.
  assert (tr_split_active (ss_reader s2) = false) as A3
    by (unfold txn_reader_active in A1; by apply orb_false_elim in A1 as [? _]).
  split; split; rewrite ?E1, ?E2, ?E3; try done.
  - by exists (rf_fallback_writer_hg f).
  - by rewrite A1.
  - by rewrite A3.
  - unfold clear_reader_route, reset_wait, reset_reader_plan. simpl_upd. rewrite A2, Ea. exact Hn.
  - unfold clear_reader_route, reset_wait, reset_reader_plan. by simpl_upd.
  - unfold clear_reader_route, reset_wait, reset_reader_plan. by simpl_upd.
  - unfold polardb_wait_active. rewrite E2. unfold clear_reader_route, reset_wait. by simpl_upd.
  - unfold clear_reader_route, reset_wait, reset_reader_plan. by simpl_upd.
Qed.
Lemma count_attempts q :
  qs_reader_retry_attempts (count_reader_retry q) = (qs_reader_retry_attempts q + 1) mod 256.
Proof. unfold count_reader_retry. by simpl_upd. Qed.

Lemma moved_attempts f b q :
  qs_reader_retry_attempts (moved_query en f b q) = qs_reader_retry_attempts q.
Proof.
  unfold moved_query, mark_wait_satisfied, reset_wait, begin_wait. repeat case_if; by simpl_upd.
Qed.

Lemma on_reader_progress f w w' :
  0 <= qs_reader_retry_attempts (ss_query (rw_session w)) < 1 ->
  tr_split_active (ss_reader (rw_session w)) = false -> on_reader en f w w' ->
  failing w' /\ progressed (rw_session w) (rw_session w').
Proof.
  intros Hn Hs (R1&_&R3&conn&b&q&_&Eq&Hr). unfold route in Hr. injection Hr as E1 E2 E3 E4.
  assert (txn_reader_active (ss_reader (rw_session w)) = false) as Ha.
  { unfold txn_reader_active. rewrite Hs. unfold reader_read_can_move in R1.
    destruct (tr_wait_read_active _); [by rewrite !andb_false_r in R1|done]. }
  assert (qs_reader_retry_attempts (ss_query (rw_session w')) = 1) as H1.
  { rewrite E2, count_attempts, moved_attempts. simpl_upd. rewrite Eq.
    replace (qs_reader_retry_attempts (ss_query (rw_session w))) with 0 by lia. reflexivity. }
  split; [split; rewrite ?E1, ?E3|right; lia].
  - by exists (rf_reader_hg f).
  - by rewrite Ha.
  - by rewrite Hs.
  - lia.
Qed.

Lemma split_progress f w w' :
  failing w -> tr_split_active (ss_reader (rw_session w)) = true ->
  (on_live_writer en f w w' \/
   (dn_retry_target (polardb_reader_failure_decision f
      (qs_reader_retry_attempts (ss_query (rw_session (ended f w))))) = RetryTarget_OTHER_READER /\
    on_split_reader en f (ended f w) w')) ->
  failing w' /\ progressed (rw_session w) (rw_session w').
Proof.
  intros [_ _ Hf Hn] Hs H. destruct (Hf Hs) as [Hspec Hact].
  destruct (ended_session f w Hs) as [I1 I2].
  assert (forall s1, released_from (rw_session (ended f w)) s1 ->
    reader_idle (ss_reader s1) /\
    ss_query s1 = reset_dispatch_wrapper (reset_reader_plan (ss_query (rw_session w)))) as Hrel
    by (intros s1 R; rewrite <- I2; by apply released_idle).
  assert (qs_reader_retry_attempts (ss_query (rw_session (ended f w))) =
    qs_reader_retry_attempts (ss_query (rw_session w))) as Hatt.
  { rewrite I2. unfold reset_dispatch_wrapper, reset_reader_plan. by simpl_upd. }
  unfold polardb_wait_active in Hact.
  destruct H as [(_&_&L3&s1&L4&Hr)|[Ht L]].
  - destruct (Hrel s1 L4) as [(J1&J2&_) J3]. unfold route in Hr. injection Hr as E1 E2 E3 E4.
    rewrite J3 in E2. unfold reset_dispatch_wrapper, reset_reader_plan in E2.
    split; [|left]; split; unfold txn_reader_active, polardb_wait_active;
      rewrite ?E1, ?E2, ?E3, ?J1, ?J2; simpl_upd; try done.
    by eexists.
  - apply other_reader_attempts in Ht. rewrite Hatt in Ht. unfold on_split_reader in L.
    destruct (polardb_build_txn_split_wrapped_query _ _ _ _) as [n text].
    destruct L as (_&L2&_&_&L5&L6&L7&L8&_&_&_&s1&L9&_&E2). destruct (Hrel s1 L9) as [_ J3].
    assert (qs_reader_retry_attempts (ss_query (rw_session w')) = 1) as H1.
    { rewrite E2, count_attempts. simpl_upd. rewrite J3.
      unfold reset_dispatch_wrapper, reset_reader_plan. simpl_upd.
      replace (qs_reader_retry_attempts (ss_query (rw_session w))) with 0 by lia. reflexivity. }
    split; [|right; lia]. split; [by rewrite L5; eexists|by rewrite L5|intros _|lia].
    unfold polardb_wait_active. rewrite E2. unfold count_reader_retry. simpl_upd. rewrite J3.
    unfold reset_dispatch_wrapper, reset_reader_plan. by simpl_upd.
Qed.

Lemma retry_progress w :
  failing w ->
  let '(a, _, w') := polardb_handle_reader_failure en (outcome_of w) w in
  a = FailureAction_RETRY -> failing w' /\ progressed (rw_session w) (rw_session w').
Proof.
  intros Hf. destruct (outcome_backend w Hf) as [Hb Hm].
  destruct (tr_split_active (ss_reader (rw_session w))) eqn:Es.
  - assert (runs_split (outcome_of w) (rw_session w)) as Hrun.
    { split; [done|]. rewrite Hb. symmetry. apply (fg_reader w Hf).
      unfold txn_reader_active. by rewrite Es. }
    rewrite handle_split by done. set (f := split_failure _ _).
    pose proof (split_shape en f (taken w)) as S.
    destruct (handle_split_failure _ _ _) as [[a f'] w']. intros Ha.
    assert (failing (taken w)) as Hf'.
    { destruct Hf as [(be&F1&Hh) F2 F3 F4]. unfold taken.
      split; rewrite ?session_set; simpl_upd; try done. exists be. auto with has. }
    destruct (split_progress f (taken w) w' Hf') as [P1 P2].
    + unfold taken. rewrite session_set. by simpl_upd.
    + by apply S.
    + split; [done|]. revert P2. unfold progressed, taken. rewrite session_set. by simpl_upd.
  - pose proof (stage_read_shape en (outcome_of w) w) as S. unfold not_split in S.
    rewrite Es in S. specialize (S eq_refl).
    destruct (read_failure_fields en (outcome_of w) w) as (_&_&_&F4&_). revert S F4.
    set (f := read_failure _ _ _). intros S F4.
    destruct (polardb_handle_reader_failure _ _ _) as [[a f'] w']. intros Ha.
    destruct (S Ha) as [_ [P|[Ht R]]].
    + rewrite Hm in F4. destruct (on_primary_settled f w w' Hf Es F4 P). split; [done|by left].
    + apply other_reader_attempts in Ht. pose proof (fg_attempts w Hf) as Hn.
      assert (rw_session (captured en (outcome_of w) w) = rw_session w) as Hs
        by apply capture_session.
      destruct (on_reader_progress f (captured en (outcome_of w) w) w'); rewrite ?Hs in *; try done.
Qed.
End Bound.

(** From a retry to the next failure of the statement: the dispatch sends the
    request and finalizes its wrapper, but gives up no backend and starts no new
    wait or route. *)
Record resumes (w w' : retry_world) : Prop := {
  rs_mybe : ss_mybe (rw_session w') = ss_mybe (rw_session w);
  rs_streams : forall hg, has hg w -> has hg w';
  rs_backend : tr_backend (ss_reader (rw_session w')) = tr_backend (ss_reader (rw_session w));
  rs_split : tr_split_active (ss_reader (rw_session w')) =
             tr_split_active (ss_reader (rw_session w));
  rs_wait_read : tr_wait_read_active (ss_reader (rw_session w')) =
                 tr_wait_read_active (ss_reader (rw_session w));
  rs_spec : wst_spec (qs_wait (ss_query (rw_session w'))) =
            wst_spec (qs_wait (ss_query (rw_session w)));
  rs_active : polardb_wait_active (rw_session w') = polardb_wait_active (rw_session w);
  rs_route_spec : qs_reader_wait_spec (ss_query (rw_session w')) =
                  qs_reader_wait_spec (ss_query (rw_session w));
  rs_plan : qs_reader_plan (ss_query (rw_session w')) = qs_reader_plan (ss_query (rw_session w));
  rs_attempts : qs_reader_retry_attempts (ss_query (rw_session w')) =
                qs_reader_retry_attempts (ss_query (rw_session w))
}.

(** [n] failures of one statement in a row, each of them retried; the topology,
    the pool and the clocks may differ at every failure. *)
Inductive retries : nat -> retry_world -> retry_world -> Prop :=
| retries_none w : retries 0 w w
| retries_once n en w f w1 w2 w3 :
    polardb_handle_reader_failure en (outcome_of w) w = (FailureAction_RETRY, f, w1) ->
    resumes w1 w2 -> retries n w2 w3 -> retries (S n) w w3.

Lemma resumes_failing w w' : resumes w w' -> failing w -> failing w'.
Proof.
  intros [] [(be&F1&Fh) F2 F3 F4]. unfold txn_reader_active in *. split; unfold txn_reader_active;
    rewrite ?rs_mybe0, ?rs_backend0, ?rs_split0, ?rs_wait_read0, ?rs_spec0, ?rs_active0,
      ?rs_attempts0; eauto.
Qed.

Lemma resumes_settled w w' : resumes w w' -> settled (rw_session w) -> settled (rw_session w').
Proof.
  intros [] [F1 F2 F3 F4 F5]. unfold txn_reader_active in *. split; unfold txn_reader_active;
    by rewrite ?rs_split0, ?rs_wait_read0, ?rs_spec0, ?rs_active0, ?rs_route_spec0, ?rs_plan0.
Qed.

Lemma settled_not_retried n w w' : settled (rw_session w) -> retries n w w' -> n = 0%nat.
Proof.
  intros Hs Hr. destruct Hr as [|n en w f w1 w2 w3 H _ _]; [done|].
  pose proof (settled_passthrough en (outcome_of w) w Hs) as P. by rewrite H in P.
Qed.

Lemma spent_retried_once n w w' :
  failing w -> qs_reader_retry_attempts (ss_query (rw_session w)) = 1 ->
  retries n w w' -> (n <= 1)%nat.
Proof.
  intros Hf Hn Hr. destruct Hr as [|n en w f w1 w2 w3 H Hres Hr]; [lia|].
  pose proof (retry_progress en w Hf) as P. rewrite H in P.
  destruct (P eq_refl) as [_ [Hs|[? _]]]; [|lia].
  rewrite (settled_not_retried n w2 w3); [lia|by eapply resumes_settled|done].
Qed.

(** C9: A statement is retried at most twice, whatever fails and whatever the pool
    answers: after two retries the failure stage passes every failure on.  (A
    first retry uses up the one retry on a reader or settles the request on a
    writer: [retry_progress], [spent_retried_once], [settled_not_retried].) *)
Theorem at_most_two_retries (n : nat) (w w' : retry_world) :
  failing w -> retries n w w' -> (n <= 2)%nat.
Proof.
  intros Hf Hr. destruct Hr as [|n en w f w1 w2 w3 H Hres Hr]; [lia|].
  pose proof (retry_progress en w Hf) as P. rewrite H in P.
  destruct (P eq_refl) as [Hf1 [Hs|[_ H1]]].
  - rewrite (settled_not_retried n w2 w3); [lia|by eapply resumes_settled|done].
  - enough (n <= 1)%nat by lia. apply (spent_retried_once n w2 w3); [|..|done].
    + by apply (resumes_failing w1).
    + by rewrite (rs_attempts w1 w2 Hres).
Qed.

(** ** Witness

    The wait read fails on the reader, is retried on another one, fails there
    with its wrapper sent, and is retried on the writer. *)

Definition sample_retried : retry_world :=
  snd (polardb_handle_reader_failure (sample_env sample_reader) (outcome_of sample_wait_world)
         sample_wait_world).

Definition sample_lost_again : retry_world :=
  on_stream 20 (fun st => st <| bs_conn := Some sample_lost_conn |>)
    (set_request (fun q => q <| qs_wait := mkWaitState sample_spec WaitStage_WAITING 1 7 true
                                             false 10 |>) sample_retried).

Definition sample_on_writer : retry_world :=
  snd (polardb_handle_reader_failure (sample_env None) (outcome_of sample_lost_again)
         sample_lost_again).

Lemma sample_failing : failing sample_wait_world.
Proof. split; try by vm_compute. exists 20. split; [done|]. by eexists. Qed.

Lemma sample_resumes : resumes sample_retried sample_lost_again.
Proof.
  split; try (by vm_compute). intros hg H. unfold sample_lost_again, set_request.
  auto with has.
Qed.

Lemma resumes_refl w : resumes w w.
Proof. by split. Qed.

Lemma handled_once e w :
  fst (fst (polardb_handle_reader_failure e (outcome_of w) w)) = FailureAction_RETRY ->
  polardb_handle_reader_failure e (outcome_of w) w =
  (FailureAction_RETRY, snd (fst (polardb_handle_reader_failure e (outcome_of w) w)),
   snd (polardb_handle_reader_failure e (outcome_of w) w)).
Proof. destruct (polardb_handle_reader_failure _ _ _) as [[a f] w']. cbn. by intros ->. Qed.

Lemma sample_first_retry :
  fst (fst (polardb_handle_reader_failure (sample_env sample_reader)
    (outcome_of sample_wait_world) sample_wait_world)) = FailureAction_RETRY.
Proof. by vm_compute. Qed.

Lemma sample_second_retry :
  fst (fst (polardb_handle_reader_failure (sample_env None)
    (outcome_of sample_lost_again) sample_lost_again)) = FailureAction_RETRY.
Proof. by vm_compute. Qed.

Lemma sample_retries : retries 2 sample_wait_world sample_on_writer.
Proof.
  refine (retries_once 1 (sample_env sample_reader) sample_wait_world _ sample_retried
            sample_lost_again _ (handled_once _ _ sample_first_retry) sample_resumes _).
  refine (retries_once 0 (sample_env None) sample_lost_again _ sample_on_writer
            sample_on_writer _ (handled_once _ _ sample_second_retry) (resumes_refl _) _).
  apply retries_none.
Qed.

Lemma at_most_two_retries_witness : (2 <= 2)%nat /\ settled (rw_session sample_on_writer).
Proof.
  split; [exact (at_most_two_retries 2 sample_wait_world sample_on_writer sample_failing
                   sample_retries)|].
  split; by vm_compute.
Defined.
