(* ===== verification/QueryResult.v ===== *)
(** * The result buffer of a backend connection

    [PgSQL_Query_Result] collects the messages of one result in a fixed buffer
    and a list of blocks before the session hands them to the client
    (lib/PgSQL_Protocol.cpp).  A libpq result is the record [pg_result]; what
    libpq answers about it are its fields.  The theorems show that the bytes the
    client gets are the messages, correctly framed and in order but for an error
    packet built late, wherever the buffer was flushed and however often output
    was handed over. *)

From S2P Require Import Prelude SqlScan Policy Config Session Query SessionState Wrap Failure.
From Stdlib Require Import ZArith Ascii String List Bool Lia.
From stdpp Require Import base tactics list gmap strings.

Open Scope string_scope.
Open Scope Z_scope.
Open Scope polar_scope.

(** ** libpq results *)

Inductive ExecStatusType :=
| PGRES_EMPTY_QUERY | PGRES_COMMAND_OK | PGRES_TUPLES_OK | PGRES_COPY_OUT | PGRES_COPY_IN
| PGRES_BAD_RESPONSE | PGRES_NONFATAL_ERROR | PGRES_FATAL_ERROR | PGRES_COPY_BOTH
| PGRES_SINGLE_TUPLE | PGRES_PIPELINE_SYNC | PGRES_PIPELINE_ABORTED.

#[global] Instance ExecStatusType_eq_dec : EqDecision ExecStatusType.
Proof. solve_decision. Defined.

Record pg_column := mkColumn {
  pc_name : string;
  pc_table : Z;
  pc_tablecol : Z;
  pc_type : Z;
  pc_size : Z;
  pc_mod : Z;
  pc_format : Z
}.

(** [pr_fields] are the error fields by their code, [pr_rows] the values of each
    row ([None] for a null), [pr_tag] and [pr_cmd_tuples] the command tag and its
    row count. *)
Record pg_result := mkResult {
  pr_status : ExecStatusType;
  pr_fields : list (ascii * string);
  pr_columns : list pg_column;
  pr_rows : list (list (option string));
  pr_tag : string;
  pr_cmd_tuples : string;
  pr_binary : bool;
  pr_params : list Z
}.

Fixpoint field_of (fields : list (ascii * string)) (c : ascii) : cstr :=
  match fields with
  | [] => None
  | (d, v) :: rest => if Ascii.eqb d c then Some v else field_of rest c
  end.

Definition PQresultErrorField (result : pg_result) (c : ascii) : cstr :=
  field_of (pr_fields result) c.

(** ** Bytes of messages *)

Definition be16 (n : Z) : list ascii := [byte_at n 8; byte_at n 0].
Definition be32 (n : Z) : list ascii := htonl_bytes n.
Definition be64 (n : Z) : list ascii := (be32 (Z.shiftr n 32) ++ be32 n)%list.
Definition put_string (s : string) : list ascii := (list_ascii_of_string s ++ [NUL])%list.
Definition strlen (s : string) : Z := Z.of_nat (String.length s).

Definition sum_with {A} (f : A -> Z) (l : list A) : Z :=
  fold_left (fun n x => wrap32 (n + f x)) l 0.

Definition column_bytes (c : pg_column) : list ascii :=
  (put_string (pc_name c) ++ be32 (pc_table c) ++ be16 (pc_tablecol c) ++ be32 (pc_type c) ++
   be16 (pc_size c) ++ be32 (pc_mod c) ++ be16 (pc_format c))%list.

(** ** The buffer *)

Definition PGSQL_RESULTSET_BUFLEN : Z := 16384.

Definition PGSQL_QUERY_RESULT_NO_DATA : Z := 0.
Definition PGSQL_QUERY_RESULT_TUPLE : Z := 1.
Definition PGSQL_QUERY_RESULT_COMMAND : Z := 2.
Definition PGSQL_QUERY_RESULT_READY : Z := 4.
Definition PGSQL_QUERY_RESULT_ERROR : Z := 8.
Definition PGSQL_QUERY_RESULT_EMPTY : Z := 16.
Definition PGSQL_QUERY_RESULT_COPY_OUT : Z := 32.
Definition PGSQL_QUERY_RESULT_NOTICE : Z := 64.

Definition result_final : Z :=
  Z.lor PGSQL_QUERY_RESULT_COMMAND (Z.lor PGSQL_QUERY_RESULT_EMPTY PGSQL_QUERY_RESULT_ERROR).

(** A block of [PSarrayOUT]; [ob_owner] is the allocation behind borrowed bytes. *)
Record out_block := mkBlock { ob_bytes : list ascii; ob_owner : option Z }.

Record PgSQL_Query_Result := mkQueryResult {
  qr_PSarrayOUT : list out_block;
  qr_resultset_size : Z;
  qr_num_rows : Z;
  qr_pkt_count : Z;
  qr_affected_rows : Z;
  qr_num_fields : Z;
  qr_buffer_used : Z;
  qr_buffer : list ascii;
  qr_proto : bool;
  qr_transfer_started : bool;
  qr_result_packet_type : Z
}.

#[global] Instance upd_qr_PSarrayOUT : Update qr_PSarrayOUT.
Proof. derive_update. Defined.
#[global] Instance upd_qr_resultset_size : Update qr_resultset_size.
Proof. derive_update. Defined.
#[global] Instance upd_qr_num_rows : Update qr_num_rows.
Proof. derive_update. Defined.
#[global] Instance upd_qr_pkt_count : Update qr_pkt_count.
Proof. derive_update. Defined.
#[global] Instance upd_qr_affected_rows : Update qr_affected_rows.
Proof. derive_update. Defined.
#[global] Instance upd_qr_num_fields : Update qr_num_fields.
Proof. derive_update. Defined.
#[global] Instance upd_qr_buffer_used : Update qr_buffer_used.
Proof. derive_update. Defined.
#[global] Instance upd_qr_buffer : Update qr_buffer.
Proof. derive_update. Defined.
#[global] Instance upd_qr_transfer_started : Update qr_transfer_started.
Proof. derive_update. Defined.
#[global] Instance upd_qr_result_packet_type : Update qr_result_packet_type.
Proof. derive_update. Defined.

(** The object a connection creates. *)
Definition new_query_result : PgSQL_Query_Result :=
  mkQueryResult [] 0 0 0 UINT64_MAX 0 0 [] false false PGSQL_QUERY_RESULT_NO_DATA.

Definition buffer_available_capacity (qr : PgSQL_Query_Result) : Z :=
  wrap32 (PGSQL_RESULTSET_BUFLEN - qr_buffer_used qr).

(** The bytes of the buffer become a block and the buffer starts empty. *)
Definition buffer_to_PSarrayOut (qr : PgSQL_Query_Result) : PgSQL_Query_Result :=
  if qr_buffer_used qr =? 0 then qr
  else qr <| qr_PSarrayOUT := (qr_PSarrayOUT qr ++
                [mkBlock (firstn (Z.to_nat (qr_buffer_used qr)) (qr_buffer qr)) None])%list |>
          <| qr_buffer := [] |> <| qr_buffer_used := 0 |>.

(** Whether [size] bytes were reserved in the buffer. *)
Definition buffer_reserve_space (size : Z) (qr : PgSQL_Query_Result)
  : bool * PgSQL_Query_Result :=
  if size <=? buffer_available_capacity qr
  then (true, qr <| qr_buffer_used := wrap32 (qr_buffer_used qr + size) |>)
  else
    let qr := buffer_to_PSarrayOut qr in
    if size <=? buffer_available_capacity qr
    then (true, qr <| qr_buffer_used := wrap32 (qr_buffer_used qr + size) |>)
    else (false, qr).

Definition bump_size (size : Z) (qr : PgSQL_Query_Result) : PgSQL_Query_Result :=
  qr <| qr_resultset_size := wrap64 (qr_resultset_size qr + size) |>.

Definition bump_packets (n : Z) (qr : PgSQL_Query_Result) : PgSQL_Query_Result :=
  qr <| qr_pkt_count := wrap64 (qr_pkt_count qr + n) |>.

Definition bump_rows (n : Z) (qr : PgSQL_Query_Result) : PgSQL_Query_Result :=
  qr <| qr_num_rows := wrap64 (qr_num_rows qr + n) |>.

Definition mark (flag : Z) (qr : PgSQL_Query_Result) : PgSQL_Query_Result :=
  qr <| qr_result_packet_type := Z.lor (qr_result_packet_type qr) flag |>.

(** The steps every copy function shares: reserve [size] bytes, write the
    message there or in a block of its own, account for it. *)
Definition copy_message (size : Z) (bytes : list ascii) (qr : PgSQL_Query_Result)
  : PgSQL_Query_Result :=
  let '(reserved, qr) := buffer_reserve_space size qr in
  let qr :=
    if reserved then qr <| qr_buffer := (qr_buffer qr ++ bytes)%list |>
    else qr <| qr_PSarrayOUT :=
           (qr_PSarrayOUT qr ++ [mkBlock (firstn (Z.to_nat size) bytes) None])%list |> in
  bump_packets 1 (bump_size size qr).

(** ** The copy functions *)

Definition row_description_size (cols : list pg_column) : Z :=
  wrap32 (7 + sum_with (fun c => strlen (pc_name c) + 19) cols).

Definition row_description_bytes (cols : list pg_column) : list ascii :=
  ("T"%char :: be32 (row_description_size cols - 1) ++ be16 (Z.of_nat (length cols)) ++
   concat (map column_bytes cols))%list.

Definition copy_row_description_to_PgSQL_Query_Result (result : pg_result)
    (qr : PgSQL_Query_Result) : PgSQL_Query_Result :=
  let cols := pr_columns result in
  copy_message (row_description_size cols) (row_description_bytes cols) qr
    <| qr_num_fields := Z.of_nat (length cols) |>.

(** The first [num_fields] values; libpq answers null for a column it has not. *)
Definition row_values (num_fields : Z) (row : list (option string)) : list (option string) :=
  map (fun j => nth j row None) (seq 0 (Z.to_nat num_fields)).

Definition PQgetlength (v : option string) : Z :=
  match v with None => 0 | Some s => strlen s end.

Definition value_bytes (v : option string) : list ascii :=
  match v with
  | None => be32 (-1)
  | Some s => (be32 (strlen s) ++ list_ascii_of_string s)%list
  end.

Definition row_size (num_fields : Z) (row : list (option string)) : Z :=
  wrap32 (7 + sum_with (fun v => PQgetlength v + 4) (row_values num_fields row)).

Definition row_bytes (num_fields : Z) (row : list (option string)) : list ascii :=
  ("D"%char :: be32 (row_size num_fields row - 1) ++ be16 num_fields ++
   concat (map value_bytes (row_values num_fields row)))%list.

Definition copy_row_to_PgSQL_Query_Result (result : pg_result) (qr : PgSQL_Query_Result)
  : PgSQL_Query_Result :=
  let n := qr_num_fields qr in
  bump_rows (Z.of_nat (length (pr_rows result)))
    (fold_left (fun qr row => copy_message (row_size n row) (row_bytes n row) qr)
       (pr_rows result) qr).

Fixpoint decimal_prefix (acc : Z) (s : string) : Z :=
  match s with
  | EmptyString => acc
  | String c r =>
      if in_range 48 57 (code c)
      then decimal_prefix (Z.min UINT64_MAX (acc * 10 + (code c - 48))) r else acc
  end.

Definition copy_command_completion_to_PgSQL_Query_Result (result : pg_result)
    (extract_affected_rows : bool) (qr : PgSQL_Query_Result) : PgSQL_Query_Result :=
  let size := wrap32 (strlen (pr_tag result) + 6) in
  let qr :=
    copy_message size ("C"%char :: be32 (size - 1) ++ put_string (pr_tag result))%list qr in
  if extract_affected_rows && (pr_cmd_tuples result != EmptyString)
  then qr <| qr_affected_rows := decimal_prefix 0 (pr_cmd_tuples result) |> else qr.

(** The fields in the order both error and notice packets carry them. *)
Definition diag_fields : list ascii := list_ascii_of_string "SVCMDHPpqWstcdnFLR".

Definition error_field_size (v : cstr) : Z :=
  match v with None => 0 | Some s => strlen s + 2 end.

Definition error_field_bytes (c : ascii) (v : cstr) : list ascii :=
  match v with None => [] | Some s => c :: put_string s end.

Definition error_notice_size (result : pg_result) : Z :=
  wrap32 (6 + sum_with (fun c => error_field_size (PQresultErrorField result c)) diag_fields).

Definition error_notice_bytes (is_error : bool) (result : pg_result) : list ascii :=
  ((if is_error then "E" else "N")%char :: be32 (error_notice_size result - 1) ++
   concat (map (fun c => error_field_bytes c (PQresultErrorField result c)) diag_fields) ++
   [NUL])%list.

Definition copy_error_notice_to_PgSQL_Query_Result (result : pg_result) (is_error : bool)
    (qr : PgSQL_Query_Result) : PgSQL_Query_Result :=
  copy_message (error_notice_size result) (error_notice_bytes is_error result) qr.

(** Type byte and a length that counts only itself. *)
Definition copy_empty_message (c : ascii) (qr : PgSQL_Query_Result) : PgSQL_Query_Result :=
  copy_message 5 (c :: be32 4) qr.

Definition copy_empty_query_response_to_PgSQL_Query_Result := copy_empty_message "I".
Definition copy_out_response_end_to_PgSQL_Query_Result := copy_empty_message "c".
Definition copy_no_data_to_PgSQL_Query_Result := copy_empty_message "n".
Definition copy_parse_completion_to_PgSQL_Query_Result := copy_empty_message "1".

Definition transaction_state_char (st : PGTransactionStatusType) : ascii :=
  match st with PQTRANS_INTRANS => "T" | PQTRANS_INERROR => "E" | _ => "I" end%char.

(** [lsn] is the position appended for a client that asked for it. *)
Definition copy_ready_status_to_PgSQL_Query_Result (st : PGTransactionStatusType)
    (lsn : option Z) (qr : PgSQL_Query_Result) : PgSQL_Query_Result :=
  match lsn with
  | None => copy_message 6 ("Z"%char :: be32 5 ++ [transaction_state_char st])%list qr
  | Some l => copy_message 14 ("Z"%char :: be32 13 ++ transaction_state_char st :: be64 l)%list qr
  end.

(** A raw message libpq did not parse: its type and all its bytes. *)
Record PSresult := mkPSresult { ps_id : ascii; ps_data : list ascii }.

Definition copy_buffer_to_PgSQL_Query_Result (ps : PSresult) (qr : PgSQL_Query_Result)
  : PgSQL_Query_Result :=
  let qr := copy_message (wrap32 (Z.of_nat (length (ps_data ps)))) (ps_data ps) qr in
  if Ascii.eqb (ps_id ps) "D" then bump_rows 1 qr else qr.

Definition copy_out_response_size (cols : list pg_column) : Z :=
  wrap32 (8 + Z.of_nat (length cols) * 2).

Definition copy_out_response_bytes (result : pg_result) : list ascii :=
  ("H"%char :: be32 (copy_out_response_size (pr_columns result) - 1) ++
   [ascii_of_nat (if pr_binary result then 1 else 0)] ++
   be16 (Z.of_nat (length (pr_columns result))) ++
   concat (map (fun c => be16 (pc_format c)) (pr_columns result)))%list.

Definition copy_out_response_start_to_PgSQL_Query_Result (result : pg_result)
    (qr : PgSQL_Query_Result) : PgSQL_Query_Result :=
  copy_message (copy_out_response_size (pr_columns result)) (copy_out_response_bytes result) qr
    <| qr_num_fields := Z.of_nat (length (pr_columns result)) |>.

Definition copy_out_row_to_PgSQL_Query_Result (data : list ascii) (qr : PgSQL_Query_Result)
  : PgSQL_Query_Result :=
  let size := wrap32 (5 + Z.of_nat (length data)) in
  bump_rows 1 (copy_message size ("d"%char :: be32 (size - 1) ++ data)%list qr).

Definition describe_params_size (params : list Z) : Z :=
  wrap32 (7 + Z.of_nat (length params) * 4).

Definition describe_params_bytes (params : list Z) : list ascii :=
  ("t"%char :: be32 (describe_params_size params - 1) ++ be16 (Z.of_nat (length params)) ++
   concat (map be32 params))%list.

Definition describe_columns_size (cols : list pg_column) : Z :=
  match cols with [] => 5 | _ => row_description_size cols end.

Definition describe_columns_bytes (cols : list pg_column) : list ascii :=
  match cols with [] => "n"%char :: be32 4 | _ => row_description_bytes cols end.

(** Both messages of a Describe answer are written as one block. *)
Definition copy_describe_completion_to_PgSQL_Query_Result (result : pg_result)
    (stmt_type : ascii) (qr : PgSQL_Query_Result) : PgSQL_Query_Result :=
  let with_params := Ascii.eqb stmt_type "S" in
  let params_size := if with_params then describe_params_size (pr_params result) else 0 in
  let params := if with_params then describe_params_bytes (pr_params result) else [] in
  copy_message (wrap32 (params_size + describe_columns_size (pr_columns result)))
    (params ++ describe_columns_bytes (pr_columns result))%list qr.

(** ** The operations of a result *)

Definition reset (qr : PgSQL_Query_Result) : PgSQL_Query_Result :=
  mkQueryResult (qr_PSarrayOUT qr) 0 0 0 UINT64_MAX 0 (qr_buffer_used qr) (qr_buffer qr)
    (qr_proto qr) (qr_transfer_started qr) PGSQL_QUERY_RESULT_NO_DATA.

Definition clear (qr : PgSQL_Query_Result) : PgSQL_Query_Result :=
  reset (qr <| qr_PSarrayOUT := [] |> <| qr_buffer := [] |> <| qr_buffer_used := 0 |>).

(** A result without a protocol belongs to a mirror session. *)
Definition init (proto processing_multi_statement : bool) (qr : PgSQL_Query_Result)
  : PgSQL_Query_Result :=
  clear (mkQueryResult (qr_PSarrayOUT qr) (qr_resultset_size qr) (qr_num_rows qr)
    (qr_pkt_count qr) (qr_affected_rows qr) (qr_num_fields qr) (qr_buffer_used qr)
    (qr_buffer qr) proto
    (if processing_multi_statement then qr_transfer_started qr else false)
    (qr_result_packet_type qr)).

Definition add_row_description (result : pg_result) (qr : PgSQL_Query_Result) :=
  mark PGSQL_QUERY_RESULT_TUPLE (copy_row_description_to_PgSQL_Query_Result result qr).

Definition add_row (result : pg_result) (qr : PgSQL_Query_Result) :=
  copy_row_to_PgSQL_Query_Result result qr.

Definition add_raw_row (ps : PSresult) (qr : PgSQL_Query_Result) :=
  mark PGSQL_QUERY_RESULT_TUPLE (copy_buffer_to_PgSQL_Query_Result ps qr).

(** A run of [frames] rows detached from libpq, whose allocation is [owner]. *)
Definition add_row_run_borrowed (owner : Z) (data : list ascii) (frames : Z)
    (qr : PgSQL_Query_Result) : PgSQL_Query_Result :=
  let qr := buffer_to_PSarrayOut qr in
  let qr := qr <| qr_PSarrayOUT := (qr_PSarrayOUT qr ++ [mkBlock data (Some owner)])%list |> in
  mark PGSQL_QUERY_RESULT_TUPLE
    (bump_rows frames (bump_packets frames (bump_size (Z.of_nat (length data)) qr))).

Definition add_copy_out_response_start (result : pg_result) (qr : PgSQL_Query_Result) :=
  mark PGSQL_QUERY_RESULT_COPY_OUT (copy_out_response_start_to_PgSQL_Query_Result result qr).

Definition add_copy_out_row (data : list ascii) (qr : PgSQL_Query_Result) :=
  bump_rows 1 (mark PGSQL_QUERY_RESULT_COPY_OUT (copy_out_row_to_PgSQL_Query_Result data qr)).

Definition add_copy_out_response_end (qr : PgSQL_Query_Result) :=
  mark PGSQL_QUERY_RESULT_COPY_OUT (copy_out_response_end_to_PgSQL_Query_Result qr).

Definition add_notice (result : pg_result) (qr : PgSQL_Query_Result) :=
  mark PGSQL_QUERY_RESULT_NOTICE (copy_error_notice_to_PgSQL_Query_Result result false qr).

(** [add_error] of a result.  The packet of an error without a result is built
    elsewhere and added whole. *)
Definition add_error (result : pg_result) (qr : PgSQL_Query_Result) :=
  mark PGSQL_QUERY_RESULT_ERROR (copy_error_notice_to_PgSQL_Query_Result result true qr).

Definition add_error_packet (bytes : list ascii) (qr : PgSQL_Query_Result) :=
  mark PGSQL_QUERY_RESULT_ERROR
    (bump_size (Z.of_nat (length bytes))
       (qr <| qr_PSarrayOUT := (qr_PSarrayOUT qr ++ [mkBlock bytes None])%list |>)).

Definition add_empty_query_response (qr : PgSQL_Query_Result) :=
  mark PGSQL_QUERY_RESULT_EMPTY (copy_empty_query_response_to_PgSQL_Query_Result qr).

Definition add_ready_status (st : PGTransactionStatusType) (lsn : option Z)
    (qr : PgSQL_Query_Result) :=
  mark PGSQL_QUERY_RESULT_READY
    (buffer_to_PSarrayOut (copy_ready_status_to_PgSQL_Query_Result st lsn qr)).

Definition add_command_completion (result : pg_result) (extract_affected_rows : bool)
    (qr : PgSQL_Query_Result) :=
  mark PGSQL_QUERY_RESULT_COMMAND
    (copy_command_completion_to_PgSQL_Query_Result result extract_affected_rows qr).

Definition add_no_data (qr : PgSQL_Query_Result) := copy_no_data_to_PgSQL_Query_Result qr.

Definition add_parse_completion (qr : PgSQL_Query_Result) :=
  mark PGSQL_QUERY_RESULT_COMMAND (copy_parse_completion_to_PgSQL_Query_Result qr).

Definition add_describe_completion (result : pg_result) (stmt_type : ascii)
    (qr : PgSQL_Query_Result) :=
  mark PGSQL_QUERY_RESULT_COMMAND
    (copy_describe_completion_to_PgSQL_Query_Result result stmt_type qr).

Definition has_flag (flags : Z) (qr : PgSQL_Query_Result) : bool :=
  negb (Z.land (qr_result_packet_type qr) flags =? 0).

(** Whether the result is complete, the blocks handed to the client and the
    result after it. *)
Definition get_resultset (qr : PgSQL_Query_Result)
  : bool * list out_block * PgSQL_Query_Result :=
  let qr := qr <| qr_transfer_started := true |> in
  let complete := has_flag PGSQL_QUERY_RESULT_READY qr in
  let qr := if complete then qr else buffer_to_PSarrayOut qr in
  let '(blocks, qr) :=
    if qr_proto qr then (qr_PSarrayOUT qr, qr <| qr_PSarrayOUT := [] |>) else ([], qr) in
  (complete, blocks, if complete then reset qr else qr).

(** ** Framing

    A protocol message is a type byte, a 32-bit length that counts itself and
    the body, and the body. *)

Definition frame : Type := ascii * list ascii.

Definition frame_bytes (f : frame) : list ascii :=
  (f.1 :: be32 (4 + Z.of_nat (length f.2)) ++ f.2)%list.

Fixpoint parse_frames_fuel (fuel : nat) (l : list ascii) : option (list frame) :=
  match l, fuel with
  | [], _ => Some []
  | t :: a :: b :: c :: d :: rest, S fuel =>
      let n := ntohl_bytes [a; b; c; d] in
      if (n <? 4) || (Z.of_nat (length rest) <? n - 4) then None
      else
        let k := Z.to_nat (n - 4) in
        more ← parse_frames_fuel fuel (skipn k rest);
        Some ((t, firstn k rest) :: more)
  | _, _ => None
  end.

Definition parse_frames (l : list ascii) : option (list frame) :=
  parse_frames_fuel (length l) l.

Definition frame_ok (f : frame) : Prop := Z.of_nat (length f.2) < U32_MODULUS - 5.

Definition frames_bytes (fs : list frame) : list ascii := concat (map frame_bytes fs).

Lemma parse_frame_app f fuel rest :
  frame_ok f ->
  parse_frames_fuel (S fuel) (frame_bytes f ++ rest) =
    (more ← parse_frames_fuel fuel rest; Some (f :: more)).
Proof.
  destruct f as [t body]; unfold frame_ok, frame_bytes; cbn [fst snd]; intros Hok.
  cbn [app be32 htonl_bytes parse_frames_fuel].
  change [byte_at ?n 24; byte_at ?n 16; byte_at ?n 8; byte_at ?n 0] with (htonl_bytes n).
  rewrite ntohl_htonl by (unfold is_u32, U32_MODULUS in *; lia).
  rewrite length_app.
  rewrite !(proj2 (Z.ltb_ge _ _)) by lia.
  cbn [orb]. replace (Z.to_nat (4 + Z.of_nat (length body) - 4)) with (length body) by lia.
  by rewrite drop_app_length, take_app_length.
Qed.

Lemma parse_frames_more fs : forall fuel,
  Forall frame_ok fs -> (length (frames_bytes fs) <= fuel)%nat ->
  parse_frames_fuel fuel (frames_bytes fs) = Some fs.
Proof.
  induction fs as [|f fs IH]; intros fuel Hok Hlen; cbn [frames_bytes map concat] in *.
  - by destruct fuel.
  - inversion Hok as [|? ? Hf Hfs]; subst. rewrite length_app in Hlen.
    destruct fuel as [|fuel]; [destruct f; cbn in Hlen; lia|].
    rewrite parse_frame_app by done. fold (frames_bytes fs) in *.
    rewrite IH; [done|done|]. destruct f; cbn in Hlen; lia.
Qed.

Lemma parse_frames_bytes fs : Forall frame_ok fs -> parse_frames (frames_bytes fs) = Some fs.
Proof. intros H. by apply parse_frames_more. Qed.

Lemma code_range c : 0 <= code c < 256.
Proof. unfold code. pose proof (nat_ascii_bounded c). lia. Qed.

Lemma code_inj c d : code c = code d -> c = d.
Proof.
  unfold code. intros H%Nat2Z.inj. rewrite <- (ascii_nat_embedding c), H.
  apply ascii_nat_embedding.
Qed.

Lemma htonl_ntohl a b c d : htonl_bytes (ntohl_bytes [a; b; c; d]) = [a; b; c; d].
Proof.
  pose proof (code_range a); pose proof (code_range b);
    pose proof (code_range c); pose proof (code_range d).
  unfold htonl_bytes. set (n := ntohl_bytes _).
  assert (n = ((code a * 256 + code b) * 256 + code c) * 256 + code d) as En by reflexivity.
  repeat f_equal; apply code_inj; rewrite byte_at_code by lia; rewrite En; clear n En;
    Z.to_euclidean_division_equations; lia.
Qed.

Lemma parse_frames_exact : forall fuel l fs,
  parse_frames_fuel fuel l = Some fs -> frames_bytes fs = l.
Proof.
  induction fuel as [|fuel IH]; intros l fs H.
  { destruct l as [|t [|a [|b [|c [|d l]]]]]; by simplify_eq/=. }
  destruct l as [|t [|a [|b [|c [|d l]]]]]; cbn [parse_frames_fuel] in H; simplify_eq; [done|].
  case_if_in H; [done|]. bool_to_prop.
  set (k := Z.to_nat (ntohl_bytes [a; b; c; d] - 4)) in *.
  destruct (parse_frames_fuel fuel (drop k l)) as [more|] eqn:E; simplify_eq/=.
  apply IH in E. unfold frames_bytes in *; cbn [map concat]. rewrite E.
  unfold frame_bytes; cbn [fst snd]. rewrite length_take_le by lia.
  replace (4 + Z.of_nat k) with (ntohl_bytes [a; b; c; d]) by lia.
  unfold be32. rewrite htonl_ntohl. cbn [app]. by rewrite take_drop.
Qed.

(** ** Messages and what they are on the wire *)

Inductive client_message :=
| Row_description (result : pg_result)
| Rows (result : pg_result)
| Raw_row (ps : PSresult)
| Row_run (owner : Z) (data : list ascii) (frames : Z)
| Copy_start (result : pg_result)
| Copy_row (data : list ascii)
| Copy_end
| Notice (result : pg_result)
| Error (result : pg_result)
| Error_packet (bytes : list ascii)
| Empty_query
| Ready (st : PGTransactionStatusType) (lsn : option Z)
| Command (result : pg_result) (extract_affected_rows : bool)
| No_data
| Parse_complete
| Describe (result : pg_result) (stmt_type : ascii).

Definition add_message (m : client_message) : PgSQL_Query_Result -> PgSQL_Query_Result :=
  match m with
  | Row_description r => add_row_description r
  | Rows r => add_row r
  | Raw_row ps => add_raw_row ps
  | Row_run owner data frames => add_row_run_borrowed owner data frames
  | Copy_start r => add_copy_out_response_start r
  | Copy_row data => add_copy_out_row data
  | Copy_end => add_copy_out_response_end
  | Notice r => add_notice r
  | Error r => add_error r
  | Error_packet bytes => add_error_packet bytes
  | Empty_query => add_empty_query_response
  | Ready st lsn => add_ready_status st lsn
  | Command r extract => add_command_completion r extract
  | No_data => add_no_data
  | Parse_complete => add_parse_completion
  | Describe r t => add_describe_completion r t
  end.

Definition raw_frames (bytes : list ascii) : list frame :=
  match parse_frames bytes with Some fs => fs | None => [] end.

Definition diag_body (r : pg_result) : list ascii :=
  (concat (map (fun c => error_field_bytes c (PQresultErrorField r c)) diag_fields) ++ [NUL])%list.

Definition columns_body (cols : list pg_column) : list ascii :=
  (be16 (Z.of_nat (length cols)) ++ concat (map column_bytes cols))%list.

Definition columns_frame (cols : list pg_column) : frame :=
  match cols with [] => ("n"%char, []) | _ => ("T"%char, columns_body cols) end.

Definition row_body (num_fields : Z) (row : list (option string)) : list ascii :=
  (be16 num_fields ++ concat (map value_bytes (row_values num_fields row)))%list.

(** The frames of a message; rows have as many values as the description said. *)
Definition message_frames (num_fields : Z) (m : client_message) : list frame :=
  match m with
  | Row_description r => [("T"%char, columns_body (pr_columns r))]
  | Rows r => map (fun row => ("D"%char, row_body num_fields row)) (pr_rows r)
  | Raw_row ps => raw_frames (ps_data ps)
  | Row_run _ data _ => raw_frames data
  | Copy_start r =>
      [("H"%char, [ascii_of_nat (if pr_binary r then 1 else 0)] ++
         be16 (Z.of_nat (length (pr_columns r))) ++
         concat (map (fun c => be16 (pc_format c)) (pr_columns r)))%list]
  | Copy_row data => [("d"%char, data)]
  | Copy_end => [("c"%char, [])]
  | Notice r => [("N"%char, diag_body r)]
  | Error r => [("E"%char, diag_body r)]
  | Error_packet bytes => raw_frames bytes
  | Empty_query => [("I"%char, [])]
  | Ready st None => [("Z"%char, [transaction_state_char st])]
  | Ready st (Some lsn) => [("Z"%char, transaction_state_char st :: be64 lsn)]
  | Command r _ => [("C"%char, put_string (pr_tag r))]
  | No_data => [("n"%char, [])]
  | Parse_complete => [("1"%char, [])]
  | Describe r t =>
      ((if Ascii.eqb t "S"
        then [("t"%char, (be16 (Z.of_nat (length (pr_params r))) ++
                 concat (map be32 (pr_params r)))%list)] else []) ++
       [columns_frame (pr_columns r)])%list
  end.

(** What the backend sent raw is well framed, and no message reaches 4 GiB. *)
Definition raw_bytes_ok (m : client_message) : Prop :=
  match m with
  | Raw_row (mkPSresult _ bytes) | Row_run _ bytes _ | Error_packet bytes =>
      exists fs, parse_frames bytes = Some fs
  | _ => True
  end.

Definition message_fits (qr : PgSQL_Query_Result) (m : client_message) : Prop :=
  raw_bytes_ok m /\
  Z.of_nat (length (frames_bytes (message_frames (qr_num_fields qr) m))) < U32_MODULUS.

(** Every byte still held, in order. *)
Definition blocks_bytes (l : list out_block) : list ascii := concat (map ob_bytes l).
#[global] Arguments blocks_bytes : simpl never.

Definition wire (qr : PgSQL_Query_Result) : list ascii :=
  (blocks_bytes (qr_PSarrayOUT qr) ++ qr_buffer qr)%list.

Definition buffer_ok (qr : PgSQL_Query_Result) : Prop :=
  qr_buffer_used qr = Z.of_nat (length (qr_buffer qr)) /\
  qr_buffer_used qr <= PGSQL_RESULTSET_BUFLEN.

(** ** Lemmas: the buffer *)

Lemma wrap32_small x : 0 <= x < U32_MODULUS -> wrap32 x = x.
Proof. intros. by apply wrap32_id. Qed.

Lemma blocks_bytes_app a b : blocks_bytes (a ++ b) = (blocks_bytes a ++ blocks_bytes b)%list.
Proof. unfold blocks_bytes. by rewrite map_app, concat_app. Qed.

Lemma buffer_flush_wire qr :
  buffer_ok qr -> buffer_ok (buffer_to_PSarrayOut qr) /\
    wire (buffer_to_PSarrayOut qr) = wire qr /\
    qr_buffer_used (buffer_to_PSarrayOut qr) = 0 /\
    qr_buffer (buffer_to_PSarrayOut qr) = [].
Proof.
  destruct qr as [out sz rows pk aff nf used buf pr ts ty].
  unfold buffer_ok, buffer_to_PSarrayOut, wire; cbn; intros [Hu Hle].
  case_if; bool_to_prop.
  - assert (buf = []) as -> by (destruct buf; [done|cbn in *; lia]). cbn. done.
  - cbn. rewrite blocks_bytes_app. unfold blocks_bytes; cbn.
    rewrite !app_nil_r, take_ge by lia. unfold PGSQL_RESULTSET_BUFLEN. done.
Qed.

Lemma buffer_flush_rest qr :
  qr_num_fields (buffer_to_PSarrayOut qr) = qr_num_fields qr /\
  qr_result_packet_type (buffer_to_PSarrayOut qr) = qr_result_packet_type qr /\
  qr_proto (buffer_to_PSarrayOut qr) = qr_proto qr /\
  qr_transfer_started (buffer_to_PSarrayOut qr) = qr_transfer_started qr /\
  qr_resultset_size (buffer_to_PSarrayOut qr) = qr_resultset_size qr /\
  qr_num_rows (buffer_to_PSarrayOut qr) = qr_num_rows qr.
Proof. unfold buffer_to_PSarrayOut. by destruct qr; cbn; case_if. Qed.

Lemma capacity_exact qr :
  buffer_ok qr -> buffer_available_capacity qr = PGSQL_RESULTSET_BUFLEN - qr_buffer_used qr.
Proof.
  intros [Hu Hle]. unfold buffer_available_capacity. apply wrap32_small.
  unfold PGSQL_RESULTSET_BUFLEN, U32_MODULUS in *. lia.
Qed.

Lemma reserve_here size bytes qr :
  buffer_ok qr -> size = Z.of_nat (length bytes) ->
  (size <=? buffer_available_capacity qr) = true ->
  let qr' := qr <| qr_buffer_used := wrap32 (qr_buffer_used qr + size) |> in
  buffer_ok (qr' <| qr_buffer := (qr_buffer qr' ++ bytes)%list |>) /\
  wire (qr' <| qr_buffer := (qr_buffer qr' ++ bytes)%list |>) = (wire qr ++ bytes)%list.
Proof.
  intros Hok Hs Hc. rewrite capacity_exact in Hc by done. bool_to_prop. destruct Hok as [Hu Hle].
  assert (wrap32 (qr_buffer_used qr + size) = qr_buffer_used qr + size) as ->.
  { apply wrap32_small. unfold PGSQL_RESULTSET_BUFLEN, U32_MODULUS in *. lia. }
  destruct qr; cbn in *. unfold buffer_ok, wire; cbn. rewrite length_app, app_assoc.
  split; [split; lia|done].
Qed.

(** A message of the announced size is appended to the bytes held. *)
Lemma copy_message_wire size bytes qr :
  buffer_ok qr -> size = Z.of_nat (length bytes) -> size < U32_MODULUS ->
  buffer_ok (copy_message size bytes qr) /\
  wire (copy_message size bytes qr) = (wire qr ++ bytes)%list.
Proof.
  intros Hok Hs Hlt.
  assert (Hacc : forall q, buffer_ok (bump_packets 1 (bump_size size q)) <-> buffer_ok q)
    by (by intros []).
  assert (Hw : forall q, wire (bump_packets 1 (bump_size size q)) = wire q) by (by intros []).
  unfold copy_message, buffer_reserve_space.
  destruct (size <=? buffer_available_capacity qr) eqn:E1; [|].
  { rewrite Hacc, Hw. by apply reserve_here. }
  pose proof (buffer_flush_wire qr Hok) as (Hok' & Hwire & Hu & Hb).
  destruct (size <=? buffer_available_capacity (buffer_to_PSarrayOut qr)) eqn:E2.
  - rewrite Hacc, Hw, <- Hwire. by apply reserve_here.
  - rewrite Hacc, Hw, <- Hwire. revert Hok' Hu Hb. generalize (buffer_to_PSarrayOut qr) as q.
    intros [] Hok' Hu Hb; cbn in *. subst. unfold buffer_ok, wire; cbn.
    split; [done|]. rewrite blocks_bytes_app. unfold blocks_bytes; cbn.
    rewrite !app_nil_r, take_ge by lia. done.
Qed.

Lemma copy_message_rest size bytes qr :
  let q := copy_message size bytes qr in
  qr_num_fields q = qr_num_fields qr /\ qr_proto q = qr_proto qr /\
  qr_result_packet_type q = qr_result_packet_type qr /\
  qr_transfer_started q = qr_transfer_started qr /\ qr_num_rows q = qr_num_rows qr /\
  qr_resultset_size q = wrap64 (qr_resultset_size qr + size).
Proof.
  cbn zeta. unfold copy_message, buffer_reserve_space.
  pose proof (buffer_flush_rest qr) as (F1 & F2 & F3 & F4 & F5 & F6).
  case_if; [by destruct qr|]. revert F1 F2 F3 F4 F5 F6.
  generalize (buffer_to_PSarrayOut qr) as q; intros q F1 F2 F3 F4 F5 F6.
  case_if; destruct q; cbn in *; by rewrite F1, F2, F3, F4, F5, F6.
Qed.

(** ** Lemmas: announced sizes *)

Definition sum_of {A} (f : A -> Z) (l : list A) : Z := fold_right (fun x n => f x + n) 0 l.

Lemma sum_of_cons {A} (f : A -> Z) x l : sum_of f (x :: l) = f x + sum_of f l.
Proof. done. Qed.

Lemma wrap32_plus a b : wrap32 (a + wrap32 b) = wrap32 (a + b).
Proof. unfold wrap32. apply Zplus_mod_idemp_r. Qed.

Lemma sum_with_sum {A} (f : A -> Z) l : sum_with f l = wrap32 (sum_of f l).
Proof.
  unfold sum_with. assert (forall n, fold_left (fun n x => wrap32 (n + f x)) l (wrap32 n) =
                                     wrap32 (n + sum_of f l)) as H.
  { induction l as [|x l IH]; intros n; cbn; [by rewrite Z.add_0_r|].
    assert (wrap32 (wrap32 n + f x) = wrap32 (n + f x)) as ->
      by (unfold wrap32; apply Zplus_mod_idemp_l).
    rewrite IH. f_equal. unfold sum_of. lia. }
  apply (H 0).
Qed.

Lemma sum_length {A} (g : A -> list ascii) (f : A -> Z) l :
  (forall x, Z.of_nat (length (g x)) = f x) ->
  Z.of_nat (length (concat (map g l))) = sum_of f l.
Proof.
  intros H. induction l as [|x l IH]; [done|]. cbn [map concat].
  rewrite length_app, Nat2Z.inj_add, H, IH. by rewrite sum_of_cons.
Qed.

Lemma list_ascii_length s : Z.of_nat (length (list_ascii_of_string s)) = strlen s.
Proof. unfold strlen. by rewrite bytes_length. Qed.

Lemma put_string_length s : Z.of_nat (length (put_string s)) = strlen s + 1.
Proof. unfold put_string. rewrite length_app, Nat2Z.inj_add, list_ascii_length. done. Qed.

Lemma column_length c : Z.of_nat (length (column_bytes c)) = strlen (pc_name c) + 19.
Proof.
  unfold column_bytes. rewrite !length_app, !Nat2Z.inj_add, put_string_length. cbn. lia.
Qed.

Lemma value_length v : Z.of_nat (length (value_bytes v)) = PQgetlength v + 4.
Proof.
  destruct v; cbn [value_bytes PQgetlength]; [|done].
  rewrite length_app, Nat2Z.inj_add, list_ascii_length. cbn. lia.
Qed.

Lemma error_field_length c v : Z.of_nat (length (error_field_bytes c v)) = error_field_size v.
Proof.
  destruct v; cbn [error_field_bytes error_field_size length]; [|done].
  rewrite Nat2Z.inj_succ, put_string_length. lia.
Qed.

Lemma frame_length t body :
  Z.of_nat (length (frame_bytes (t, body))) = 5 + Z.of_nat (length body).
Proof. unfold frame_bytes; cbn [fst snd length]. rewrite length_app. cbn. lia. Qed.

(** A message written with the size it was announced with is a frame. *)
Lemma sized_frame t body size :
  size = wrap32 (5 + Z.of_nat (length body)) ->
  5 + Z.of_nat (length body) < U32_MODULUS ->
  (t :: be32 (size - 1) ++ body)%list = frame_bytes (t, body) /\
  size = Z.of_nat (length (frame_bytes (t, body))) /\ size < U32_MODULUS.
Proof.
  intros -> Hlt. rewrite wrap32_small by lia. rewrite frame_length.
  split; [|done]. unfold frame_bytes; cbn [fst snd]. do 2 f_equal. f_equal. lia.
Qed.

Lemma frames_bytes_cons f fs : frames_bytes (f :: fs) = (frame_bytes f ++ frames_bytes fs)%list.
Proof. done. Qed.

Lemma frames_bytes_one f : frames_bytes [f] = frame_bytes f.
Proof. unfold frames_bytes; cbn [map concat]. apply app_nil_r. Qed.

Lemma frames_bytes_app a b : frames_bytes (a ++ b) = (frames_bytes a ++ frames_bytes b)%list.
Proof. unfold frames_bytes. by rewrite map_app, concat_app. Qed.

Lemma frames_fit fs :
  Z.of_nat (length (frames_bytes fs)) < U32_MODULUS -> Forall frame_ok fs.
Proof.
  induction fs as [|[t body] fs IH]; intros H; constructor.
  - rewrite frames_bytes_cons, length_app, Nat2Z.inj_add, frame_length in H.
    unfold frame_ok; cbn [snd]. lia.
  - apply IH. rewrite frames_bytes_cons, length_app in H. lia.
Qed.

Lemma copy_frame t body size qr :
  buffer_ok qr -> size = wrap32 (5 + Z.of_nat (length body)) ->
  Z.of_nat (length (frames_bytes [(t, body)])) < U32_MODULUS ->
  buffer_ok (copy_message size (t :: be32 (size - 1) ++ body) qr) /\
  wire (copy_message size (t :: be32 (size - 1) ++ body) qr) =
    (wire qr ++ frames_bytes [(t, body)])%list.
Proof.
  intros Hok Hs Hlt. rewrite frames_bytes_one in *. rewrite frame_length in Hlt.
  destruct (sized_frame t body size Hs Hlt) as (-> & E & ?).
  by apply copy_message_wire.
Qed.

(** ** Lemmas: each message *)

(** Whole messages only: in a byte string, and in the blocks and the buffer. *)
Definition framed (bytes : list ascii) : Prop :=
  exists fs, Forall frame_ok fs /\ bytes = frames_bytes fs.

Definition aligned (qr : PgSQL_Query_Result) : Prop :=
  framed (blocks_bytes (qr_PSarrayOUT qr)) /\ framed (qr_buffer qr).

Lemma framed_nil : framed [].
Proof. by exists []. Qed.

Lemma framed_app a b : framed a -> framed b -> framed (a ++ b)%list.
Proof.
  intros (fa & Ha & ->) (fb & Hb & ->). exists (fa ++ fb)%list.
  by rewrite Forall_app, frames_bytes_app.
Qed.

Lemma framed_frames fs : Z.of_nat (length (frames_bytes fs)) < U32_MODULUS ->
  framed (frames_bytes fs).
Proof. intros H. exists fs. by split; [apply frames_fit|]. Qed.

Lemma blocks_bytes_one b : blocks_bytes [b] = ob_bytes b.
Proof. unfold blocks_bytes; cbn [map concat]. apply app_nil_r. Qed.

Lemma aligned_flush qr : buffer_ok qr -> aligned qr -> aligned (buffer_to_PSarrayOut qr).
Proof.
  intros [Hu _] [Hb Hf]. unfold buffer_to_PSarrayOut. case_if; [by split|].
  destruct qr; cbn in *. split; [|apply framed_nil]. cbn.
  rewrite blocks_bytes_app, blocks_bytes_one. cbn. rewrite take_ge by lia. by apply framed_app.
Qed.

Lemma aligned_copy size bytes qr :
  buffer_ok qr -> size = Z.of_nat (length bytes) -> aligned qr -> framed bytes ->
  aligned (copy_message size bytes qr).
Proof.
  intros Hok Hs Ha Hf.
  assert (Hacc : forall q, aligned (bump_packets 1 (bump_size size q)) <-> aligned q)
    by (by intros []).
  unfold copy_message, buffer_reserve_space.
  destruct (size <=? buffer_available_capacity qr); [rewrite Hacc|].
  { destruct Ha as [? ?], qr; cbn in *. split; [done|]. by apply framed_app. }
  pose proof (aligned_flush qr Hok Ha) as Ha'. revert Ha'.
  generalize (buffer_to_PSarrayOut qr) as q. intros q [Hb Hq].
  destruct (size <=? buffer_available_capacity q); rewrite Hacc.
  - destruct q; cbn in *. split; [done|]. by apply framed_app.
  - destruct q; cbn in *. split; [|done]. cbn.
    rewrite blocks_bytes_app, blocks_bytes_one. cbn. rewrite take_ge by lia. by apply framed_app.
Qed.

Definition appends (f : PgSQL_Query_Result -> PgSQL_Query_Result) (bytes : list ascii)
    (qr : PgSQL_Query_Result) : Prop :=
  buffer_ok (f qr) /\ wire (f qr) = (wire qr ++ bytes)%list /\ qr_proto (f qr) = qr_proto qr /\
  (aligned qr -> framed bytes -> aligned (f qr)).

Lemma proto_copy size bytes qr : qr_proto (copy_message size bytes qr) = qr_proto qr.
Proof. apply (copy_message_rest size bytes qr). Qed.

Lemma appends_frame t body size qr :
  buffer_ok qr -> size = wrap32 (5 + Z.of_nat (length body)) ->
  Z.of_nat (length (frames_bytes [(t, body)])) < U32_MODULUS ->
  appends (copy_message size (t :: be32 (size - 1) ++ body)) (frames_bytes [(t, body)]) qr.
Proof.
  intros H1 H2 H3. pose proof (copy_frame t body size qr H1 H2 H3) as [? ?].
  split; [done|]. split; [done|]. split; [apply proto_copy|]. intros Ha Hf.
  pose proof H3 as H4. rewrite frames_bytes_one, frame_length in H4.
  destruct (sized_frame t body size H2 H4) as (-> & E & _).
  apply aligned_copy; [done..|]. by rewrite frames_bytes_one in Hf.
Qed.

(** Counters and flags do not move bytes. *)
Definition keeps_bytes (g : PgSQL_Query_Result -> PgSQL_Query_Result) : Prop :=
  forall q, qr_buffer_used (g q) = qr_buffer_used q /\ wire (g q) = wire q /\
    qr_buffer (g q) = qr_buffer q /\ qr_proto (g q) = qr_proto q /\
    qr_PSarrayOUT (g q) = qr_PSarrayOUT q.

Lemma keeps_mark flag : keeps_bytes (mark flag).
Proof. by intros []. Qed.
Lemma keeps_size n : keeps_bytes (bump_size n).
Proof. by intros []. Qed.
Lemma keeps_packets n : keeps_bytes (bump_packets n).
Proof. by intros []. Qed.
Lemma keeps_rows n : keeps_bytes (bump_rows n).
Proof. by intros []. Qed.
Lemma keeps_fields n : keeps_bytes (fun q => q <| qr_num_fields := n |>).
Proof. by intros []. Qed.
Lemma keeps_affected n : keeps_bytes (fun q => q <| qr_affected_rows := n |>).
Proof. by intros []. Qed.

Lemma appends_then g f bytes qr :
  keeps_bytes g -> appends f bytes qr -> appends (fun q => g (f q)) bytes qr.
Proof.
  intros Hg (Hok & Hw & Hp & Ha). destruct (Hg (f qr)) as (E1 & E2 & E3 & E4 & E5).
  unfold appends, aligned, buffer_ok in *. by rewrite E1, E2, E3, E4, E5.
Qed.

Lemma appends_flush f bytes qr :
  appends f bytes qr -> appends (fun q => buffer_to_PSarrayOut (f q)) bytes qr.
Proof.
  intros (Hok & Hw & Hp & Ha). pose proof (buffer_flush_wire _ Hok) as (? & E & _).
  pose proof (buffer_flush_rest (f qr)) as (_ & _ & Ep & _).
  unfold appends. rewrite E, Ep. split_and!; try done. intros. apply aligned_flush; auto.
Qed.

Create HintDb bytes.
#[local] Hint Resolve keeps_mark keeps_size keeps_packets keeps_rows keeps_fields keeps_affected
  : bytes.

(** The outermost step of a message leaves the bytes alone. *)
Ltac counter_step g := refine (appends_then g _ _ _ _ _); [by auto with bytes|].

Lemma columns_size cols :
  row_description_size cols = wrap32 (5 + Z.of_nat (length (columns_body cols))).
Proof.
  unfold row_description_size, columns_body. rewrite sum_with_sum, wrap32_plus, length_app.
  rewrite Nat2Z.inj_add, (sum_length _ _ _ column_length). cbn [length be16]. f_equal. lia.
Qed.

Lemma rows_size n row :
  row_size n row = wrap32 (5 + Z.of_nat (length (row_body n row))).
Proof.
  unfold row_size, row_body. rewrite sum_with_sum, wrap32_plus, length_app.
  rewrite Nat2Z.inj_add, (sum_length _ _ _ value_length). cbn [length be16]. f_equal. lia.
Qed.

Lemma sum_concat {A} (g : A -> list ascii) (f : A -> Z) l :
  (forall x, Z.of_nat (length (g x)) = f x) ->
  wrap32 (6 + sum_with f l) = wrap32 (5 + Z.of_nat (length (concat (map g l) ++ [NUL]))).
Proof.
  intros H. rewrite sum_with_sum, wrap32_plus, length_app, Nat2Z.inj_add.
  rewrite (sum_length _ _ _ H). cbn [length]. f_equal. lia.
Qed.

Lemma diag_size r : error_notice_size r = wrap32 (5 + Z.of_nat (length (diag_body r))).
Proof. apply sum_concat. intros c. apply error_field_length. Qed.

Lemma raw_frames_bytes bytes :
  (exists fs, parse_frames bytes = Some fs) -> frames_bytes (raw_frames bytes) = bytes.
Proof.
  intros [fs E]. unfold raw_frames. rewrite E. by apply (parse_frames_exact (length bytes)).
Qed.

Lemma row_frame_fits n row rest :
  Z.of_nat (length (frames_bytes (("D"%char, row_body n row) :: rest))) < U32_MODULUS ->
  Z.of_nat (length (frames_bytes [("D"%char, row_body n row)])) < U32_MODULUS /\
  Z.of_nat (length (frames_bytes rest)) < U32_MODULUS.
Proof.
  rewrite frames_bytes_one, frames_bytes_cons, length_app, Nat2Z.inj_add. lia.
Qed.

Lemma rows_appended n rows : forall qr,
  buffer_ok qr ->
  let frames := map (fun row => ("D"%char, row_body n row)) rows in
  Z.of_nat (length (frames_bytes frames)) < U32_MODULUS ->
  appends (fun qr => fold_left (fun qr row => copy_message (row_size n row) (row_bytes n row) qr)
             rows qr) (frames_bytes frames) qr.
Proof.
  induction rows as [|row rows IH]; intros qr Hok frames Hlt.
  { unfold appends; cbn. by rewrite app_nil_r. }
  apply row_frame_fits in Hlt as [H1 H2].
  pose proof (appends_frame "D" (row_body n row) (row_size n row) qr Hok (rows_size n row) H1)
    as (Hok1 & Hw1 & Hp1 & Ha1).
  specialize (IH (copy_message (row_size n row) (row_bytes n row) qr) Hok1 H2)
    as (Hok2 & Hw2 & Hp2 & Ha2).
  unfold appends; cbn [fold_left]. split; [exact Hok2|].
  split; [|split; [rewrite Hp2; exact Hp1|]].
  2: { intros Ha _. apply Ha2; [apply Ha1; [done|]|]; by apply framed_frames. }
  rewrite Hw2. change (row_bytes n row) with
    ("D"%char :: be32 (row_size n row - 1) ++ row_body n row)%list. rewrite Hw1.
  unfold frames. cbn [map]. rewrite <- app_assoc, frames_bytes_one, frames_bytes_cons. done.
Qed.

Lemma appends_block f bytes owner qr :
  appends f [] qr -> qr_buffer (f qr) = [] ->
  appends (fun q => f q <| qr_PSarrayOUT := (qr_PSarrayOUT (f q) ++ [mkBlock bytes owner])%list |>)
    bytes qr.
Proof.
  unfold appends. generalize (f qr) as q. intros [] (Hok & Hw & Hp & Ha) Hb.
  revert Hok Hw Hp Ha Hb. unfold buffer_ok, aligned, wire; cbn. intros Hok Hw Hp Ha ->.
  split; [done|]. rewrite !app_nil_r in Hw.
  rewrite app_nil_r, blocks_bytes_app, blocks_bytes_one, Hw. cbn. split_and!; try done.
  intros Hq Hf. rewrite <- Hw. destruct (Ha Hq framed_nil). by split; [apply framed_app|].
Qed.

Lemma appends_same f bytes bytes' qr :
  appends f bytes qr -> bytes = bytes' -> appends f bytes' qr.
Proof. by intros ? <-. Qed.

Lemma appends_message size bytes qr :
  buffer_ok qr -> size = Z.of_nat (length bytes) -> size < U32_MODULUS ->
  appends (copy_message size bytes) bytes qr.
Proof.
  intros. split; [by apply copy_message_wire|]. split; [by apply copy_message_wire|].
  split; [apply proto_copy|]. intros. by apply aligned_copy.
Qed.

(** Short messages have their size written out. *)
Lemma appends_fixed t body qr size len :
  buffer_ok qr -> size = 5 + Z.of_nat (length body) -> len = size - 1 -> size < 100 ->
  appends (copy_message size (t :: be32 len ++ body)) (frames_bytes [(t, body)]) qr.
Proof.
  intros Hok -> -> Hlt.
  apply appends_frame; [done| |rewrite frames_bytes_one, frame_length; unfold U32_MODULUS; lia].
  rewrite wrap32_small; [done|]. unfold U32_MODULUS. lia.
Qed.

Lemma raw_length bytes qr :
  (exists fs, parse_frames bytes = Some fs) ->
  Z.of_nat (length (frames_bytes (raw_frames bytes))) < U32_MODULUS -> buffer_ok qr ->
  appends (copy_message (wrap32 (Z.of_nat (length bytes))) bytes)
    (frames_bytes (raw_frames bytes)) qr.
Proof.
  intros Hp Hlt Hok. rewrite raw_frames_bytes in * by done.
  rewrite wrap32_small by (unfold U32_MODULUS in *; lia). by apply appends_message.
Qed.

Lemma params_size params :
  describe_params_size params =
    wrap32 (5 + Z.of_nat (length (be16 (Z.of_nat (length params)) ++ concat (map be32 params)))).
Proof.
  unfold describe_params_size. rewrite length_app, Nat2Z.inj_add.
  rewrite (sum_length be32 (fun _ => 4)) by done.
  assert (sum_of (fun _ : Z => 4) params = 4 * Z.of_nat (length params)) as ->.
  { induction params; cbn [sum_of fold_right length]; [done|]. unfold sum_of in *. lia. }
  cbn [length be16]. f_equal. lia.
Qed.

Lemma copy_start_size cols binary :
  copy_out_response_size cols =
    wrap32 (5 + Z.of_nat (length ([ascii_of_nat (if binary : bool then 1 else 0)] ++
      be16 (Z.of_nat (length cols)) ++ concat (map (fun c => be16 (pc_format c)) cols)))).
Proof.
  unfold copy_out_response_size. rewrite !length_app, !Nat2Z.inj_add.
  rewrite (sum_length _ (fun _ => 2)) by done.
  assert (sum_of (fun _ : pg_column => 2) cols = 2 * Z.of_nat (length cols)) as ->.
  { induction cols; cbn [sum_of fold_right length]; [done|]. unfold sum_of in *. lia. }
  cbn [length be16]. f_equal. lia.
Qed.

Lemma params_frame params :
  5 + Z.of_nat (length (be16 (Z.of_nat (length params)) ++ concat (map be32 params))) <
    U32_MODULUS ->
  let f := ("t"%char, (be16 (Z.of_nat (length params)) ++ concat (map be32 params))%list) in
  describe_params_bytes params = frame_bytes f /\
  describe_params_size params = Z.of_nat (length (frame_bytes f)).
Proof.
  intros H. destruct (sized_frame "t" _ _ (params_size params) H) as (E1 & E2 & _).
  split; [exact E1|exact E2].
Qed.

Lemma describe_columns_frame cols :
  Z.of_nat (length (frame_bytes (columns_frame cols))) < U32_MODULUS ->
  describe_columns_bytes cols = frame_bytes (columns_frame cols) /\
  describe_columns_size cols = Z.of_nat (length (frame_bytes (columns_frame cols))).
Proof.
  intros H. unfold columns_frame, describe_columns_bytes, describe_columns_size in *.
  destruct cols as [|c cols]; [done|]. rewrite frame_length in H.
  destruct (sized_frame "T" _ _ (columns_size (c :: cols)) H) as (E1 & E2 & _).
  split; [exact E1|exact E2].
Qed.

Lemma appends_describe r t qr :
  buffer_ok qr -> message_fits qr (Describe r t) ->
  appends (copy_describe_completion_to_PgSQL_Query_Result r t)
    (frames_bytes (message_frames (qr_num_fields qr) (Describe r t))) qr.
Proof.
  intros Hok (_ & Hlt). cbn [message_frames] in *.
  unfold copy_describe_completion_to_PgSQL_Query_Result.
  rewrite frames_bytes_app in *. rewrite (frames_bytes_one (columns_frame _)) in *.
  rewrite length_app, Nat2Z.inj_add in Hlt.
  destruct (describe_columns_frame (pr_columns r)) as [-> ->]; [lia|].
  destruct (Ascii.eqb t "S").
  - rewrite frames_bytes_one in *. rewrite frame_length in Hlt.
    destruct (params_frame (pr_params r)) as [-> ->]; [lia|].
    rewrite <- Nat2Z.inj_add, <- length_app.
    apply appends_message; [done| |]; rewrite wrap32_small; rewrite ?length_app, ?Nat2Z.inj_add;
      try done; rewrite ?frame_length in *; lia.
  - change (frames_bytes []) with (@nil ascii) in *. cbn [app length] in *.
    apply appends_message; [done| |]; rewrite wrap32_small; lia.
Qed.

Lemma appends_nothing qr : buffer_ok qr -> appends (fun q => q) [] qr.
Proof. intros H. unfold appends. by rewrite app_nil_r. Qed.

Lemma appends_ready st lsn qr :
  buffer_ok qr ->
  appends (copy_ready_status_to_PgSQL_Query_Result st lsn)
    (frames_bytes (message_frames (qr_num_fields qr) (Ready st lsn))) qr.
Proof.
  intros Hok. unfold copy_ready_status_to_PgSQL_Query_Result; cbn [message_frames].
  destruct lsn as [l|]; by apply appends_fixed.
Qed.

Lemma appends_diag (is_error : bool) r qr :
  buffer_ok qr ->
  let frame := (if is_error then "E"%char else "N"%char, diag_body r) in
  Z.of_nat (length (frames_bytes [frame])) < U32_MODULUS ->
  appends (copy_error_notice_to_PgSQL_Query_Result r is_error) (frames_bytes [frame]) qr.
Proof.
  intros Hok frame Hlt.
  exact (appends_frame _ (diag_body r) (error_notice_size r) qr Hok (diag_size r) Hlt).
Qed.

Lemma appends_empty t qr :
  buffer_ok qr -> appends (copy_empty_message t) (frames_bytes [(t, [])]) qr.
Proof. intros Hok. by apply (appends_fixed t [] qr 5 4 Hok). Qed.

(** An error packet built without a result goes to the blocks, before whatever
    is still in the buffer. *)
Definition goes_to_blocks (m : client_message) : bool :=
  match m with Error_packet _ => true | _ => false end.

(** Adding any other message appends its frames. *)
Lemma add_message_appends m qr :
  buffer_ok qr -> message_fits qr m -> goes_to_blocks m = false ->
  appends (add_message m) (frames_bytes (message_frames (qr_num_fields qr) m)) qr.
Proof.
  intros Hok Hfits Hgo. pose proof Hfits as (Hraw & Hlt).
  destruct m as [r|r|[id bytes]|owner data n|r|data| |r|r|bytes| |st lsn|r extract| | |r t];
    cbn [add_message raw_bytes_ok goes_to_blocks] in *.
  - counter_step (mark PGSQL_QUERY_RESULT_TUPLE).
    counter_step (fun q => q <| qr_num_fields := Z.of_nat (length (pr_columns r)) |>).
    exact (appends_frame _ _ _ _ Hok (columns_size _) Hlt).
  - counter_step (bump_rows (Z.of_nat (length (pr_rows r)))). by apply rows_appended.
  - counter_step (mark PGSQL_QUERY_RESULT_TUPLE).
    unfold copy_buffer_to_PgSQL_Query_Result; cbn [ps_id ps_data] in *.
    destruct (Ascii.eqb id "D"); [counter_step (bump_rows 1)|]; by apply raw_length.
  - counter_step (mark PGSQL_QUERY_RESULT_TUPLE). counter_step (bump_rows n).
    counter_step (bump_packets n). counter_step (bump_size (Z.of_nat (length data))).
    cbn [message_frames]. rewrite raw_frames_bytes by done.
    apply (appends_block buffer_to_PSarrayOut); [|by apply buffer_flush_wire].
    by apply (appends_flush (fun q => q)), appends_nothing.
  - counter_step (mark PGSQL_QUERY_RESULT_COPY_OUT).
    counter_step (fun q => q <| qr_num_fields := Z.of_nat (length (pr_columns r)) |>).
    exact (appends_frame _ _ _ _ Hok (copy_start_size _ (pr_binary r)) Hlt).
  - counter_step (bump_rows 1). counter_step (mark PGSQL_QUERY_RESULT_COPY_OUT).
    counter_step (bump_rows 1). exact (appends_frame _ _ _ _ Hok eq_refl Hlt).
  - counter_step (mark PGSQL_QUERY_RESULT_COPY_OUT). exact (appends_empty "c" qr Hok).
  - counter_step (mark PGSQL_QUERY_RESULT_NOTICE). exact (appends_diag _ r qr Hok Hlt).
  - counter_step (mark PGSQL_QUERY_RESULT_ERROR). exact (appends_diag _ r qr Hok Hlt).
  - done.
  - counter_step (mark PGSQL_QUERY_RESULT_EMPTY). exact (appends_empty "I" qr Hok).
  - counter_step (mark PGSQL_QUERY_RESULT_READY).
    apply (appends_flush (copy_ready_status_to_PgSQL_Query_Result st lsn)).
    by apply appends_ready.
  - counter_step (mark PGSQL_QUERY_RESULT_COMMAND).
    unfold copy_command_completion_to_PgSQL_Query_Result. cbv zeta.
    destruct (extract && _);
      [counter_step (fun q => q <| qr_affected_rows := decimal_prefix 0 (pr_cmd_tuples r) |>)|];
      (apply appends_frame; [done| |done]); rewrite put_string_length; f_equal; lia.
  - exact (appends_empty "n" qr Hok).
  - counter_step (mark PGSQL_QUERY_RESULT_COMMAND). exact (appends_empty "1" qr Hok).
  - counter_step (mark PGSQL_QUERY_RESULT_COMMAND). by apply appends_describe.
Qed.

(** ** Theorems: what the client gets *)

Inductive buffer_op := Put (m : client_message) | Hand_over.

(** The messages still in the buffer. *)
Definition held_frames (qr : PgSQL_Query_Result) : list frame := raw_frames (qr_buffer qr).

(** Where a message lands in the sequence of all messages put: at its end, or,
    for an error packet built without a result, before the messages still in
    the buffer. *)
Definition place (qr : PgSQL_Query_Result) (m : client_message) (log : list frame) : list frame :=
  let k := if goes_to_blocks m then (length log - length (held_frames qr))%nat else length log in
  (take k log ++ message_frames (qr_num_fields qr) m ++ drop k log)%list.

(** The result, the blocks handed over, the frames in the order the client gets
    them and in the order they were put. *)
Definition buffer_state : Type := PgSQL_Query_Result * list out_block * list frame * list frame.

Definition buffer_step (st : buffer_state) (op : buffer_op) : buffer_state :=
  let '(qr, out, log, puts) := st in
  match op with
  | Put m => (add_message m qr, out, place qr m log,
              (puts ++ message_frames (qr_num_fields qr) m)%list)
  | Hand_over =>
      let '(_, blocks, qr) := get_resultset qr in (qr, (out ++ blocks)%list, log, puts)
  end.

Definition result_of (st : buffer_state) : PgSQL_Query_Result := st.1.1.1.

(** What holds of each message as it is put. *)
Fixpoint each_put (P : PgSQL_Query_Result -> client_message -> Prop) (qr : PgSQL_Query_Result)
    (ops : list buffer_op) : Prop :=
  match ops with
  | [] => True
  | Put m :: ops => P qr m /\ each_put P (add_message m qr) ops
  | Hand_over :: ops => each_put P (snd (get_resultset qr)) ops
  end.

Definition ops_fit : PgSQL_Query_Result -> list buffer_op -> Prop := each_put message_fits.

(** Error packets without a result come only while the buffer is empty. *)
Definition never_late : PgSQL_Query_Result -> list buffer_op -> Prop :=
  each_put (fun qr m => goes_to_blocks m = true -> qr_buffer_used qr = 0).

Definition fresh_result : PgSQL_Query_Result := init true false new_query_result.
Definition fresh_state : buffer_state := (fresh_result, [], [], []).

Definition buffer_inv (st : buffer_state) : Prop :=
  let '(qr, out, log, puts) := st in
  buffer_ok qr /\ qr_proto qr = true /\ log ≡ₚ puts /\
  exists o p b, Forall frame_ok o /\ Forall frame_ok p /\ Forall frame_ok b /\
    blocks_bytes out = frames_bytes o /\ blocks_bytes (qr_PSarrayOUT qr) = frames_bytes p /\
    qr_buffer qr = frames_bytes b /\ log = (o ++ p ++ b)%list.

Lemma frames_bytes_inj a b :
  Forall frame_ok a -> Forall frame_ok b -> frames_bytes a = frames_bytes b -> a = b.
Proof.
  intros Ha Hb E. apply parse_frames_bytes in Ha, Hb. rewrite E in Ha. congruence.
Qed.

Lemma wire_inv qr out log puts :
  buffer_inv (qr, out, log, puts) ->
  Forall frame_ok log /\ (blocks_bytes out ++ wire qr)%list = frames_bytes log.
Proof.
  intros (_ & _ & _ & o & p & b & Ho & Hp & Hb & Eo & Ep & Eb & ->). rewrite !Forall_app.
  split; [done|]. unfold wire. by rewrite Eo, Ep, Eb, !frames_bytes_app.
Qed.

Lemma raw_frames_ok fs : Forall frame_ok fs -> raw_frames (frames_bytes fs) = fs.
Proof. intros H. unfold raw_frames. by rewrite parse_frames_bytes. Qed.

Lemma take_drop_middle {A} (a b c : list A) :
  (take (length (a ++ b)%list - length b) (a ++ b) ++ c ++
   drop (length (a ++ b)%list - length b) (a ++ b))%list = (a ++ c ++ b)%list.
Proof.
  rewrite length_app. replace (length a + length b - length b)%nat with (length a) by lia.
  by rewrite take_app_length, drop_app_length.
Qed.

Lemma place_perm qr m log : place qr m log ≡ₚ (log ++ message_frames (qr_num_fields qr) m)%list.
Proof.
  unfold place. cbv zeta. generalize (message_frames (qr_num_fields qr) m) as fs.
  generalize (if goes_to_blocks m then (length log - length (held_frames qr))%nat
              else length log) as k. intros k fs.
  transitivity ((take k log ++ drop k log) ++ fs)%list; [|by rewrite take_drop].
  rewrite <- app_assoc. apply Permutation_app_head, Permutation_app_comm.
Qed.

Lemma put_inv qr out log puts m :
  buffer_inv (qr, out, log, puts) -> message_fits qr m ->
  buffer_inv (buffer_step (qr, out, log, puts) (Put m)).
Proof.
  intros (Hok & Hpr & Hperm & o & p & b & Ho & Hp & Hb & Eo & Ep & Eb & ->) Hfit.
  pose proof (frames_fit _ (proj2 Hfit)) as Hm. cbn [buffer_step]. unfold buffer_inv.
  rewrite place_perm, Hperm. destruct (goes_to_blocks m) eqn:Eg.
  - destruct m as [| | | | | | | | |bytes| | | | | |]; try done. clear Eg.
    unfold place, held_frames. rewrite Eb, raw_frames_ok by done. cbn [goes_to_blocks].
    rewrite (app_assoc o p b), take_drop_middle. destruct Hfit as [Hraw _]. cbn [raw_bytes_ok] in Hraw.
    cbn [message_frames] in *. set (fs := raw_frames bytes) in *.
    assert (Ef : bytes = frames_bytes fs) by (subst fs; by rewrite raw_frames_bytes).
    unfold add_message, add_error_packet. split_and!; try (by destruct qr).
    exists o, (p ++ fs)%list, b. rewrite Forall_app. split_and!; try (by destruct qr).
    + destruct qr; cbn in *. by rewrite blocks_bytes_app, blocks_bytes_one, Ep, frames_bytes_app, Ef.
    + by rewrite <- !app_assoc.
  - destruct (add_message_appends m qr Hok Hfit Eg) as (Hok' & Hw & Hpr' & Ha).
    destruct Ha as [(p' & Hp' & Ep') (b' & Hb' & Eb')].
    { split; [by exists p|by exists b]. }
    { by exists (message_frames (qr_num_fields qr) m). }
    split_and!; [done|by rewrite Hpr'|done|]. exists o, p', b'. split_and!; try done.
    unfold place. rewrite Eg, firstn_all, drop_all, app_nil_r, <- !app_assoc. f_equal.
    apply frames_bytes_inj; [by rewrite !Forall_app..|]. rewrite !frames_bytes_app.
    rewrite <- Ep, <- Eb, <- Ep', <- Eb'. unfold wire in Hw. by rewrite Hw, <- app_assoc.
Qed.

(** Handing over takes the blocks; the buffer stays as it is or is flushed first. *)
Lemma hand_over_bytes qr :
  buffer_ok qr -> qr_proto qr = true ->
  let '(_, blocks, q) := get_resultset qr in
  buffer_ok q /\ qr_proto q = true /\ qr_PSarrayOUT q = [] /\
  (blocks_bytes blocks = blocks_bytes (qr_PSarrayOUT qr) /\ qr_buffer q = qr_buffer qr \/
   blocks_bytes blocks = (blocks_bytes (qr_PSarrayOUT qr) ++ qr_buffer qr)%list /\
   qr_buffer q = []).
Proof.
  intros Hok Hp. unfold get_resultset.
  set (q0 := qr <| qr_transfer_started := true |>).
  assert (buffer_ok q0 /\ wire q0 = wire qr /\ qr_proto q0 = true /\
    qr_PSarrayOUT q0 = qr_PSarrayOUT qr /\ qr_buffer q0 = qr_buffer qr)
    as (Hok0 & Hw & Hp0 & <- & <-) by (by destruct qr).
  destruct (has_flag PGSQL_QUERY_RESULT_READY q0).
  - rewrite Hp0. destruct q0; cbn in *. split_and!; try done. by left.
  - pose proof (buffer_flush_wire q0 Hok0) as (Hok1 & Hw1 & _ & Hb).
    pose proof (buffer_flush_rest q0) as (_ & _ & -> & _). rewrite Hp0.
    unfold wire in Hw1. rewrite Hb, app_nil_r in Hw1. revert Hok1 Hw1 Hb.
    pose proof (buffer_flush_rest q0) as (_ & _ & Hpr & _). revert Hpr. rewrite Hp0.
    generalize (buffer_to_PSarrayOut q0) as q. intros [] ? ? ? ?; cbn in *.
    split_and!; try done. by right.
Qed.

Lemma hand_over_inv qr out log puts :
  buffer_inv (qr, out, log, puts) -> buffer_inv (buffer_step (qr, out, log, puts) Hand_over).
Proof.
  intros (Hok & Hpr & Hperm & o & p & b & Ho & Hp & Hb & Eo & Ep & Eb & ->).
  cbn [buffer_step]. pose proof (hand_over_bytes qr Hok Hpr) as H.
  destruct (get_resultset qr) as [[c blocks] q]. destruct H as (Hok' & Hpr' & Hq & Hc).
  split_and!; [done..|]. rewrite blocks_bytes_app, Eo, Hq.
  destruct Hc as [[-> ->]|[-> ->]]; rewrite ?Ep, ?Eb.
  - exists (o ++ p)%list, [], b. rewrite frames_bytes_app, Forall_app, <- app_assoc.
    split_and!; done.
  - exists (o ++ p ++ b)%list, [], []. rewrite !frames_bytes_app, !Forall_app, app_nil_r.
    split_and!; done.
Qed.

Lemma buffer_run_inv ops : forall st,
  buffer_inv st -> ops_fit (result_of st) ops -> buffer_inv (fold_left buffer_step ops st).
Proof.
  induction ops as [|op ops IH]; intros [[[qr out] log] puts] Hinv Hfit; [done|].
  cbn [fold_left]. unfold ops_fit, result_of in *. destruct op as [m|]; cbn [each_put fst] in Hfit.
  - destruct Hfit as [Hm Hfit]. apply IH; [by apply put_inv|done].
  - apply IH; [by apply hand_over_inv|]. cbn [buffer_step].
    by destruct (get_resultset qr) as [[c blocks] q].
Qed.

Lemma never_late_in_order ops : forall st,
  buffer_inv st -> ops_fit (result_of st) ops -> never_late (result_of st) ops ->
  st.1.2 = st.2 ->
  (fold_left buffer_step ops st).1.2 = (fold_left buffer_step ops st).2.
Proof.
  induction ops as [|op ops IH]; intros [[[qr out] log] puts] Hinv Hfit Hn E; [done|].
  cbn [fold_left]. unfold ops_fit, never_late, result_of in *. cbn [fst snd] in E. subst puts.
  destruct op as [m|]; cbn [each_put fst] in Hfit, Hn.
  - destruct Hfit as [Hm Hfit], Hn as [Hl Hn]. apply IH; [by apply put_inv|done|done|].
    cbn [buffer_step fst snd]. unfold place. destruct (goes_to_blocks m) eqn:Eg.
    + unfold held_frames. destruct Hinv as ((Hu & _) & _). rewrite Hl in Hu by done.
      destruct (qr_buffer qr); [|done]. cbn [raw_frames parse_frames parse_frames_fuel length].
      by rewrite Nat.sub_0_r, firstn_all, drop_all, app_nil_r.
    + by rewrite firstn_all, drop_all, app_nil_r.
  - apply IH; [by apply hand_over_inv|..]; cbn [buffer_step];
      by destruct (get_resultset qr) as [[c blocks] q].
Qed.

(** C33: Whatever well framed messages are put into a result and however often
    output is handed over in between, the bytes handed over followed by the
    bytes still held parse as exactly those messages, each whole and once.  They
    come in the order they were put, except that an error packet built without a
    result comes before the messages still in the buffer when it is put; if no
    such packet meets a filled buffer, the order is exactly that of the puts. *)
Theorem output_is_messages (ops : list buffer_op) :
  ops_fit fresh_result ops ->
  let '(qr, out, log, puts) := fold_left buffer_step ops fresh_state in
  parse_frames (blocks_bytes out ++ wire qr) = Some log /\ log ≡ₚ puts /\
  (never_late fresh_result ops -> log = puts).
Proof.
  intros Hfit.
  assert (H0 : buffer_inv fresh_state).
  { unfold fresh_state, buffer_inv. split; [by split; vm_compute|]. split; [done|].
    split; [done|]. by exists [], [], []. }
  pose proof (buffer_run_inv ops _ H0 Hfit) as H.
  pose proof (never_late_in_order ops _ H0 Hfit) as Hn.
  destruct (fold_left _ _ _) as [[[qr out] log] puts]. pose proof (wire_inv _ _ _ _ H) as [Hf ->].
  destruct H as (_ & _ & Hp & _). split; [by apply parse_frames_bytes|]. split; [done|].
  intros Hl. by apply Hn.
Qed.

Definition sample_row_result : pg_result :=
  mkResult PGRES_SINGLE_TUPLE [] [mkColumn "v" 0 0 25 (-1) (-1) 0] [[Some "ab"]; [None]]
    "SELECT 2" "" false [].

(** A large raw row, so that the buffer does not hold it. *)
Definition sample_raw_row (n : nat) : PSresult :=
  mkPSresult "D" (frame_bytes ("D"%char, (be16 1 ++ value_bytes (Some (string_of_list_ascii
    (repeat "x"%char n))))%list)).

Definition sample_ops : list buffer_op :=
  [Put (Row_description sample_row_result); Put (Rows sample_row_result); Hand_over;
   Put (Raw_row (sample_raw_row 20)); Put (Error_packet (frame_bytes ("E"%char, [NUL])));
   Put (Command sample_row_result false); Put (Ready PQTRANS_IDLE (Some 4096)); Hand_over].

Lemma output_is_messages_witness :
  let '(qr, out, log, puts) := fold_left buffer_step sample_ops fresh_state in
  (map fst log = ["T"; "D"; "D"; "E"; "D"; "C"; "Z"]%char /\
   map fst puts = ["T"; "D"; "D"; "D"; "E"; "C"; "Z"]%char) /\
  parse_frames (blocks_bytes out ++ wire qr) = Some log.
Proof.
  assert (ops_fit fresh_result sample_ops) as Hfit.
  { unfold sample_ops, ops_fit, each_put, message_fits, raw_bytes_ok, U32_MODULUS.
    repeat split; try (vm_compute; reflexivity); eexists; vm_compute; reflexivity. }
  pose proof (output_is_messages sample_ops Hfit) as H. revert H.
  destruct (fold_left buffer_step sample_ops fresh_state) as [[[qr out] log] puts] eqn:E.
  intros H. split; [|exact (proj1 H)].
  assert (log = (fold_left buffer_step sample_ops fresh_state).1.2) as -> by (by rewrite E).
  assert (puts = (fold_left buffer_step sample_ops fresh_state).2) as -> by (by rewrite E).
  split; vm_compute; reflexivity.
Defined.

(** An error built without a result overtakes the messages still in the buffer:
    the client reads the error before the rows that came first. *)
Example late_error_overtakes_rows :
  let qr := add_message (Rows sample_row_result)
              (add_message (Row_description sample_row_result) fresh_result) in
  let err := frame_bytes ("E"%char, [NUL]) in
  option_map (map fst) (parse_frames (wire (add_message (Error_packet err) qr))) =
    Some ["E"; "T"; "D"; "D"]%char.
Proof. vm_compute. reflexivity. Qed.

(** Each row of a COPY is counted twice. *)
Example copy_row_counts_twice :
  qr_num_rows (add_message (Copy_row ["x"%char]) fresh_result) = 2.
Proof. reflexivity. Qed.
