(* ===== verification/WrapState.v ===== *)
(** * Wrapper results still to consume

    The per-query state of a backend connection that sent wrapper SETs in front
    of the user's statement (include/PgSQL_Connection.h): what the dispatch
    announced, the countdown of wrapper results, and its reset when the
    connection leaves the session.  [wrap_step] is the machine of all operations
    and [wrap_wf] its invariant. *)

From S2P Require Import Prelude SqlScan Policy Config Session Query.
From Stdlib Require Import ZArith Ascii String List Bool Lia.
From stdpp Require Import base tactics list gmap strings.

Open Scope string_scope.
Open Scope Z_scope.
Open Scope polar_scope.

(** ** The dispatch snapshot *)

Record PolarDB_Query_DispatchState := mkDispatchState {
  ds_wrapper_stmts : Z;
  ds_wrapper_kind : PolarDB_Query_WrapperKind;
  ds_txn_split_xids_reset : bool
}.

Definition dispatch_reset : PolarDB_Query_DispatchState := mkDispatchState 0 Wrapper_NONE false.

Definition dispatch_active (d : PolarDB_Query_DispatchState) : bool :=
  negb (ds_wrapper_stmts d =? 0) || (ds_wrapper_kind d != Wrapper_NONE) ||
  ds_txn_split_xids_reset d.

(** ** The countdown *)

Inductive PolarDB_ExtendedWaitNoticeOwner := Owner_QUERY_RESULT | Owner_SESSION_QUEUE.

#[global] Instance NoticeOwner_eq_dec : EqDecision PolarDB_ExtendedWaitNoticeOwner.
Proof. solve_decision. Defined.

Record PolarDB_Query_WrapState := mkWrapState {
  wr_was_wrapped : bool;
  wr_stmt_failed : bool;
  wr_stmt_succeeded : bool;
  wr_stmt_total : Z;
  wr_stmt_pending : Z;
  wr_wrapper_kind : PolarDB_Query_WrapperKind;
  wr_txn_split_xids_reset_pending : bool;
  wr_extended_wait_notice_owner : PolarDB_ExtendedWaitNoticeOwner
}.

#[global] Instance upd_wr_stmt_succeeded : Update wr_stmt_succeeded.
Proof. derive_update. Defined.
#[global] Instance upd_wr_stmt_pending : Update wr_stmt_pending.
Proof. derive_update. Defined.
#[global] Instance upd_wr_stmt_failed : Update wr_stmt_failed.
Proof. derive_update. Defined.
#[global] Instance upd_wr_txn_split_xids_reset_pending : Update wr_txn_split_xids_reset_pending.
Proof. derive_update. Defined.
#[global] Instance upd_wr_extended_wait_notice_owner : Update wr_extended_wait_notice_owner.
Proof. derive_update. Defined.

Definition wrap_clear : PolarDB_Query_WrapState :=
  mkWrapState false false false 0 0 Wrapper_NONE false Owner_QUERY_RESULT.

Definition consuming_wrapper_set (w : PolarDB_Query_WrapState) : bool := 0 <? wr_stmt_pending w.

Definition consuming_txn_split_xids_reset (w : PolarDB_Query_WrapState) : bool :=
  wr_txn_split_xids_reset_pending w && (wr_stmt_pending w =? wr_stmt_total w).

Definition wrapper_set_failed (w : PolarDB_Query_WrapState) : bool := wr_stmt_failed w.
Definition wrapper_set_succeeded (w : PolarDB_Query_WrapState) : bool := wr_stmt_succeeded w.

Definition is_extended_wait (w : PolarDB_Query_WrapState) : bool :=
  wr_wrapper_kind w == Wrapper_EXTENDED_WAIT.
Definition is_consistency_wait (w : PolarDB_Query_WrapState) : bool :=
  (wr_wrapper_kind w == Wrapper_CONSISTENCY_WAIT) || (wr_wrapper_kind w == Wrapper_EXTENDED_WAIT).
Definition is_txn_split_wait (w : PolarDB_Query_WrapState) : bool :=
  wr_wrapper_kind w == Wrapper_TXN_SPLIT_WAIT.
Definition is_txn_split_xids_reset (w : PolarDB_Query_WrapState) : bool :=
  wr_wrapper_kind w == Wrapper_TXN_SPLIT_XIDS_RESET.
Definition is_polar_wait_wrapper (w : PolarDB_Query_WrapState) : bool :=
  is_consistency_wait w || is_txn_split_wait w.

Definition wait_notice_uses_session_queue (w : PolarDB_Query_WrapState) : bool :=
  consuming_wrapper_set w ||
  (is_extended_wait w && (wr_extended_wait_notice_owner w == Owner_SESSION_QUEUE)).

Definition wrap_begin (n : Z) (kind : PolarDB_Query_WrapperKind) (txn_xids_reset : bool)
  : PolarDB_Query_WrapState :=
  mkWrapState (0 <? n) false false n n (if 0 <? n then kind else Wrapper_NONE)
    ((0 <? n) && txn_xids_reset) Owner_QUERY_RESULT.

Definition begin_extended_wait (owner : PolarDB_ExtendedWaitNoticeOwner)
  : PolarDB_Query_WrapState :=
  mkWrapState true false false 0 0 Wrapper_EXTENDED_WAIT false owner.

Definition observe_extended_wait_completion (succeeded : bool) (w : PolarDB_Query_WrapState)
  : PolarDB_Query_WrapState :=
  if negb (is_extended_wait w) then w
  else (if succeeded then w <| wr_stmt_succeeded := true |> else w)
         <| wr_extended_wait_notice_owner := Owner_QUERY_RESULT |>.

Definition mark_wrapper_set_failed (w : PolarDB_Query_WrapState) : PolarDB_Query_WrapState :=
  w <| wr_stmt_failed := true |> <| wr_stmt_succeeded := false |> <| wr_stmt_pending := 0 |>
    <| wr_txn_split_xids_reset_pending := false |>.

(** [None] where the code asserts. *)
Definition consume_successful_wrapper_set (w : PolarDB_Query_WrapState)
  : option PolarDB_Query_WrapState :=
  if negb (0 <? wr_stmt_pending w) then None
  else
    let w := w <| wr_stmt_pending := wr_stmt_pending w - 1 |> in
    Some (if wr_stmt_pending w =? 0 then w <| wr_stmt_succeeded := true |> else w).

Definition wrap_active (w : PolarDB_Query_WrapState) : bool :=
  wr_was_wrapped w || wr_stmt_failed w || wr_stmt_succeeded w ||
  negb (wr_stmt_total w =? 0) || negb (wr_stmt_pending w =? 0) ||
  (wr_wrapper_kind w != Wrapper_NONE) || wr_txn_split_xids_reset_pending w.

Definition polardb_clear_request_state_for_release
    (d : PolarDB_Query_DispatchState) (w : PolarDB_Query_WrapState)
  : PolarDB_Query_DispatchState * PolarDB_Query_WrapState :=
  if negb (dispatch_active d) && negb (wrap_active w) then (d, w)
  else (dispatch_reset, wrap_clear).

(** ** The machine *)

(** The result of a consumed wrapper SET, with the reset flag the handler drops
    after the first one. *)
Definition consume_wrapper_result (w : PolarDB_Query_WrapState)
  : option (bool * PolarDB_Query_WrapState) :=
  let consumed_xids_reset := consuming_txn_split_xids_reset w in
  w ← consume_successful_wrapper_set w;
  Some (consumed_xids_reset,
        if consumed_xids_reset then w <| wr_txn_split_xids_reset_pending := false |> else w).

(** Error handling marks a failure while wrapper results are being consumed, or
    for a split read whose wait timed out. *)
Inductive wrap_step : PolarDB_Query_WrapState -> PolarDB_Query_WrapState -> Prop :=
| step_begin w n kind reset :
    0 < n < U32_MODULUS -> kind <> Wrapper_NONE -> kind <> Wrapper_EXTENDED_WAIT ->
    wrap_step w (wrap_begin n kind reset)
| step_begin_extended w owner : wrap_step w (begin_extended_wait owner)
| step_observe w ok : wrap_step w (observe_extended_wait_completion ok w)
| step_failed w :
    wr_was_wrapped w = true -> consuming_wrapper_set w || is_txn_split_wait w = true ->
    wrap_step w (mark_wrapper_set_failed w)
| step_consume w c w' : consume_wrapper_result w = Some (c, w') -> wrap_step w w'
| step_clear w : wrap_step w wrap_clear.

(** The five shapes: not wrapped, consuming SETs, at the user's result, failed,
    and an extended wait.  The reset flag stands only for the first SET. *)
Inductive wrap_wf : PolarDB_Query_WrapState -> Prop :=
| wf_plain : wrap_wf wrap_clear
| wf_sets n p kind reset :
    0 < p <= n -> n < U32_MODULUS -> kind <> Wrapper_NONE -> kind <> Wrapper_EXTENDED_WAIT ->
    (reset = true -> p = n) ->
    wrap_wf (mkWrapState true false false n p kind reset Owner_QUERY_RESULT)
| wf_user n kind :
    0 < n < U32_MODULUS -> kind <> Wrapper_NONE -> kind <> Wrapper_EXTENDED_WAIT ->
    wrap_wf (mkWrapState true false true n 0 kind false Owner_QUERY_RESULT)
| wf_failed n kind :
    0 < n < U32_MODULUS -> kind <> Wrapper_NONE -> kind <> Wrapper_EXTENDED_WAIT ->
    wrap_wf (mkWrapState true true false n 0 kind false Owner_QUERY_RESULT)
| wf_extended ok owner :
    wrap_wf (mkWrapState true false ok 0 0 Wrapper_EXTENDED_WAIT false owner).

Create HintDb wrap.
#[export] Hint Constructors wrap_wf : wrap.

(** ** Theorems *)

Lemma consume_result_cases w c w' :
  consume_wrapper_result w = Some (c, w') ->
  0 < wr_stmt_pending w /\ c = consuming_txn_split_xids_reset w /\
  w' = mkWrapState (wr_was_wrapped w) (wr_stmt_failed w)
         (if wr_stmt_pending w =? 1 then true else wr_stmt_succeeded w) (wr_stmt_total w)
         (wr_stmt_pending w - 1) (wr_wrapper_kind w)
         (if c then false else wr_txn_split_xids_reset_pending w)
         (wr_extended_wait_notice_owner w).
Proof.
  unfold consume_wrapper_result, consume_successful_wrapper_set.
  destruct (0 <? wr_stmt_pending w) eqn:E; cbn [negb]; [|done].
  intros H. cbn [mbind option_bind] in H. injection H as Hc <-. bool_to_prop.
  split; [done|]. split; [done|]. rewrite <- Hc.
  destruct w as [a b s t p k r o]; cbn in *.
  destruct (consuming_txn_split_xids_reset _); cbn;
    destruct (Z.eqb_spec (p - 1) 0), (Z.eqb_spec p 1); try lia; cbn; done.
Qed.

Lemma begin_wf n kind reset :
  0 < n < U32_MODULUS -> kind <> Wrapper_NONE -> kind <> Wrapper_EXTENDED_WAIT ->
  wrap_wf (wrap_begin n kind reset).
Proof.
  intros Hn Hk He. unfold wrap_begin. rewrite (proj2 (Z.ltb_lt 0 n)) by lia.
  apply wf_sets; [lia|lia|done..].
Qed.

Lemma observe_wait_wf ok w : wrap_wf w -> wrap_wf (observe_extended_wait_completion ok w).
Proof.
  intros Hw. unfold observe_extended_wait_completion.
  destruct (is_extended_wait w) eqn:E; cbn [negb]; [|done]. unfold is_extended_wait in E.
  destruct Hw; cbn in E; bool_to_prop; try done. destruct ok; apply wf_extended.
Qed.

Lemma failed_wf w :
  wrap_wf w -> wr_was_wrapped w = true ->
  consuming_wrapper_set w || is_txn_split_wait w = true -> wrap_wf (mark_wrapper_set_failed w).
Proof. intros Hw. destruct Hw; cbn; intros; try done; apply wf_failed; lia || done. Qed.

Lemma consume_wf w c w' :
  wrap_wf w -> consume_wrapper_result w = Some (c, w') -> wrap_wf w'.
Proof.
  intros Hw H. apply consume_result_cases in H as (Hp & -> & ->).
  destruct Hw as [|n p kind reset Hpn Hn Hk He Hr|n kind Hn Hk He|n kind Hn Hk He|ok owner];
    cbn in *; try lia.
  unfold consuming_txn_split_xids_reset; cbn.
  assert ((if reset && (p =? n) then false else reset) = false) as ->.
  { destruct reset; [|done]. by rewrite (Hr eq_refl), Z.eqb_refl. }
  destruct (Z.eqb_spec p 1) as [->|]; [apply wf_user; lia || done|].
  apply wf_sets; lia || done.
Qed.

(** Every operation keeps one of the five shapes. *)
Lemma wrap_step_wf w w' : wrap_wf w -> wrap_step w w' -> wrap_wf w'.
Proof.
  intros Hwf Hs. destruct Hs; eauto using begin_wf, observe_wait_wf, failed_wf, consume_wf, wf_extended,
    wf_plain.
Qed.

(** C34: In every state a connection can reach, at most the announced number of
    wrapper results is left, a wrapper cannot both have failed and succeeded,
    results stop being consumed once it failed, and releasing the connection
    leaves nothing of the request on it. *)
Theorem reachable_wrap_state_typed (w : PolarDB_Query_WrapState) :
  steps wrap_step wrap_clear w ->
  wrap_wf w /\ 0 <= wr_stmt_pending w <= wr_stmt_total w /\
  (wrapper_set_failed w = true ->
     wrapper_set_succeeded w = false /\ consuming_wrapper_set w = false) /\
  (wrapper_set_succeeded w = true -> consuming_wrapper_set w = false) /\
  (forall d, polardb_clear_request_state_for_release d w = (dispatch_reset, wrap_clear)).
Proof.
  intros Hs. assert (wrap_wf w) as Hw
    by (apply (steps_invariant _ wrap_wf wrap_step_wf _ _ Hs), wf_plain).
  split; [done|]. assert (Hclean : forall d, dispatch_active d = false -> d = dispatch_reset).
  { intros [n k r]; unfold dispatch_active; cbn; intros H. bool_to_prop. by subst. }
  destruct Hw; cbn; (split; [lia|]); (split; [done|]);
    (split; [try done; intros; by apply Z.ltb_ge; lia|]); intros d;
    unfold polardb_clear_request_state_for_release;
    destruct (dispatch_active d) eqn:E; try done.
  by rewrite (Hclean d E).
Qed.

Definition sample_counting : PolarDB_Query_WrapState :=
  mkWrapState true false false 4 3 Wrapper_TXN_SPLIT_WAIT false Owner_QUERY_RESULT.

Lemma reachable_wrap_state_typed_witness :
  steps wrap_step wrap_clear sample_counting /\
  polardb_clear_request_state_for_release dispatch_reset sample_counting =
    (dispatch_reset, wrap_clear).
Proof.
  assert (steps wrap_step wrap_clear sample_counting) as Hs.
  { eapply steps_next; [eapply steps_next; [apply steps_refl|]|].
    - apply (step_begin _ 4 Wrapper_TXN_SPLIT_WAIT true); [by vm_compute|done..].
    - by apply (step_consume _ true). }
  split; [exact Hs|]. apply (reachable_wrap_state_typed sample_counting Hs).
Defined.
