(* ===== verification/Notices.v ===== *)
(** * Notices kept for the client

    The warnings that lib/PgSQL_PolarDB_Notices.cpp rescues from discarded
    wrapper results or generates itself: their NoticeResponse packet, the queue
    of the session that owns them until they are sent, and the handler that
    decides who forwards a wait timeout.  Memory is explicit: every packet is
    queued, at the client or freed, never two of them. *)

From S2P Require Import Prelude SqlScan Policy Config Session Query SessionState Wrap Failure.
From S2P Require Import Result QueryResult WrapState.
From Stdlib Require Import ZArith Ascii String List Bool Lia Permutation.
From Stdlib Require Import DecimalString DecimalZ.
From stdpp Require Import base tactics list gmap strings.

Open Scope string_scope.
Open Scope Z_scope.
Open Scope polar_scope.

(** ** The packet *)

Record PolarDB_NoticeField := mkField { nf_code : ascii; nf_value : cstr }.

Definition polardb_notice_response_packet_size (fields : list PolarDB_NoticeField) : Z :=
  fold_left (fun size f =>
      match nf_value f with None => size | Some v => wrap32 (size + (strlen v + 2)) end)
    fields 6.

Definition write_field (f : PolarDB_NoticeField) : list ascii :=
  error_field_bytes (nf_code f) (nf_value f).

(** The count returned and the bytes written from the start of the buffer. *)
Definition polardb_write_notice_response_packet (pkt_present : bool) (capacity : Z)
    (fields : list PolarDB_NoticeField) : Z * list ascii :=
  let size := polardb_notice_response_packet_size fields in
  if negb pkt_present || (capacity <? size) then (0, [])
  else (size, ("N"%char :: htonl_bytes (wrap32 (size - 1)) ++
                 concat (map write_field fields) ++ [NUL])%list).

Definition notice_fields (severity sqlstate primary detail severity_nonlocalized : cstr)
  : list PolarDB_NoticeField :=
  [mkField "S" severity; mkField "V" severity_nonlocalized; mkField "C" sqlstate;
   mkField "M" primary; mkField "D" detail].

(** The fields taken from a backend notice. *)
Definition result_notice_fields (result : pg_result) : list PolarDB_NoticeField :=
  map (fun c => mkField c (PQresultErrorField result c)) diag_fields.

(** ** The queue *)

(** What [PSarrayOUT] of the client and the allocator hold of notices. *)
Record notice_queue := mkNotices {
  nq_pending : option (list packet);
  nq_out : list packet;
  nq_freed : list packet
}.

#[global] Instance upd_nq_pending : Update nq_pending.
Proof. derive_update. Defined.
#[global] Instance upd_nq_freed : Update nq_freed.
Proof. derive_update. Defined.

Definition no_notices : notice_queue := mkNotices None [] [].

Definition pending_list (q : notice_queue) : list packet := default [] (nq_pending q).

(** [PolarDB_NoticeQueueState::clear]: packets leave from the end. *)
Definition queue_clear (free_buffers : bool) (q : notice_queue) : notice_queue :=
  match nq_pending q with
  | None => q
  | Some l => mkNotices None (nq_out q)
                (if free_buffers then (nq_freed q ++ rev l)%list else nq_freed q)
  end.

(** [PolarDB_NoticeQueueState::add]: a null or empty packet is not taken. *)
Definition queue_add (pkt : PtrSize_t) (q : notice_queue) : notice_queue :=
  match pkt with
  | None => q
  | Some p =>
      if Nat.eqb (length (pk_bytes p)) 0 then q
      else q <| nq_pending := Some (pending_list q ++ [p])%list |>
  end.

Definition discard_pending_notices (q : notice_queue) : notice_queue := queue_clear true q.
Definition forget_transferred_notices (q : notice_queue) : notice_queue := queue_clear false q.

Definition polardb_flush_pending_notices_to_client (client_present : bool) (q : notice_queue)
  : notice_queue :=
  if Nat.eqb (length (pending_list q)) 0 || negb client_present then q
  else
    forget_transferred_notices
      (mkNotices (nq_pending q)
         (nq_out q ++ filter (fun p => length (pk_bytes p) <> 0%nat) (pending_list q))%list
         (nq_freed q)).

(** [ptr] is the block the allocator answers. *)
Definition polardb_enqueue_notice_packet (ptr : Z) (fields : list PolarDB_NoticeField)
    (q : notice_queue) : Z * notice_queue :=
  let size := polardb_notice_response_packet_size fields in
  let '(written, bytes) := polardb_write_notice_response_packet true size fields in
  if written =? 0 then (0, q <| nq_freed := (nq_freed q ++ [mkPacket ptr bytes])%list |>)
  else (written, queue_add (Some (mkPacket ptr bytes)) q).

Definition polardb_enqueue_result_notice (ptr : Z) (result : option pg_result)
    (q : notice_queue) : Z * notice_queue :=
  match result with
  | None => (0, q)
  | Some r => polardb_enqueue_notice_packet ptr (result_notice_fields r) q
  end.

Definition signed_decimal (n : Z) : string := NilZero.string_of_int (Z.to_int n).

(** [snprintf] into 192 bytes. *)
Definition degraded_detail (reason : cstr) (reader_hg writer_hg : Z) : string :=
  let s := "reason=" ++ default "unknown" reason ++ " reader_hg=" ++ signed_decimal reader_hg ++
           " writer_hg=" ++ signed_decimal writer_hg in
  substring 0 191 s.

Definition polardb_enqueue_degraded_rfq_notice (ptr : Z) (reason : cstr)
    (reader_hg writer_hg : Z) (q : notice_queue) : notice_queue :=
  snd (polardb_enqueue_notice_packet ptr
    (notice_fields (Some "WARNING") (Some "01000")
       (Some "PolarDB reader route has no enforceable LSN wait target; read may be stale")
       (Some (degraded_detail reason reader_hg writer_hg)) None) q).

(** The overload that reads a plan. *)
Definition polardb_enqueue_degraded_plan_notice (ptr : Z) (plan : PolarDB_Query_RoutePlan)
    (writer_scope : PolarDB_WriterScope) (q : notice_queue) : notice_queue :=
  polardb_enqueue_degraded_rfq_notice ptr
    (Some (polardb_route_action_reason_name (pl_action_reason plan))) (pl_target_hg plan)
    (ws_hg writer_scope) q.

(** ** The wait-timeout handler *)

Definition POLARDB_LSN_WAIT_TIMEOUT_DETAIL : string := "polar_proxy_lsn_wait_timeout".
Definition POLARDB_LSN_WAIT_TIMEOUT_SOURCE_FUNCTION : string := "polar_proxy_wait_for_lsn".

Definition polardb_is_lsn_wait_timeout_result (result : option pg_result) : bool :=
  match result with
  | None => false
  | Some r =>
      match PQresultErrorField r "D", PQresultErrorField r "R" with
      | Some detail, Some source =>
          (detail == POLARDB_LSN_WAIT_TIMEOUT_DETAIL) &&
          (source == POLARDB_LSN_WAIT_TIMEOUT_SOURCE_FUNCTION)
      | _, _ => false
      end
  end.

Definition polardb_txn_split_read_active (s : PgSQL_Session) : bool :=
  tr_split_active (ss_reader s).

Definition polardb_record_txn_split_wait_latency (s : PgSQL_Session) : PgSQL_Session :=
  if tr_wait_start_us (ss_reader s) =? 0 then s
  else s <| ss_reader := ss_reader s <| tr_wait_start_us := 0 |> |>.

Definition polardb_account_txn_split_wait_timeout (s : PgSQL_Session) : bool * PgSQL_Session :=
  if negb (tr_split_active (ss_reader s)) || (tr_wait_start_us (ss_reader s) =? 0)
  then (false, s)
  else (true, polardb_record_txn_split_wait_latency
          (s <| ss_reader := ss_reader s <| tr_wait_timeout_error := true |> |>)).

(** Who handled a notice: whether the session queue owns it, whether a timeout
    was counted, the session and its queue. *)
Record notice_outcome := mkNoticeOutcome {
  no_owned : bool;
  no_counted : bool;
  no_proxy : proxy;
  no_queue : notice_queue
}.

(** [session_present] is false for a connection detached from its stream. *)
Definition polardb_handle_lsn_wait_timeout_notice (ptr now_us : Z) (session_present : bool)
    (wrap : PolarDB_Query_WrapState) (has_query_result : bool) (result : pg_result)
    (p : proxy) (q : notice_queue) : notice_outcome :=
  let ignored := mkNoticeOutcome false false p q in
  if negb (polardb_is_lsn_wait_timeout_result (Some result)) then ignored
  else if negb session_present then ignored
  else
    let s := px_session p in
    let wait_active := polardb_wait_active s || polardb_txn_split_read_active s in
    if negb wait_active || negb (is_polar_wait_wrapper wrap) then ignored
    else
      let '(counted, p) :=
        if polardb_txn_split_read_active s
        then let '(c, s) := polardb_account_txn_split_wait_timeout s in
             (c, with_session p (fun _ => s))
        else let '(p, c) := polardb_account_wait_timeout now_us p in (c, p) in
      if negb (wait_notice_uses_session_queue wrap || negb has_query_result)
      then mkNoticeOutcome false counted p q
      else
        let '(bytes_recv, q) := polardb_enqueue_result_notice ptr (Some result) q in
        mkNoticeOutcome (negb (bytes_recv =? 0)) counted p q.

(** ** A reader of NoticeResponse *)

(** A value up to its terminator, and the rest. *)
Fixpoint read_cstring (l : list ascii) : option (string * list ascii) :=
  match l with
  | [] => None
  | c :: r =>
      if Ascii.eqb c NUL then Some (EmptyString, r)
      else '(v, rest) ← read_cstring r; Some (String c v, rest)
  end.

Fixpoint read_fields (fuel : nat) (l : list ascii) : option (list (ascii * string)) :=
  match fuel, l with
  | S fuel, c :: r =>
      if Ascii.eqb c NUL then match r with [] => Some [] | _ => None end
      else '(v, rest) ← read_cstring r;
           more ← read_fields fuel rest;
           Some ((c, v) :: more)
  | _, _ => None
  end.

(** One NoticeResponse message and nothing else. *)
Definition parse_notice (l : list ascii) : option (list (ascii * string)) :=
  match parse_frames l with
  | Some [(c, body)] => if Ascii.eqb c "N" then read_fields (length body) body else None
  | _ => None
  end.

Definition present_fields (fields : list PolarDB_NoticeField) : list (ascii * string) :=
  concat (map (fun f => match nf_value f with None => [] | Some v => [(nf_code f, v)] end) fields).

Definition field_size (f : PolarDB_NoticeField) : Z := error_field_size (nf_value f).

(** C strings have no terminator inside, codes are not NUL and the packet stays
    below 4 GiB. *)
Definition fields_fit (fields : list PolarDB_NoticeField) : Prop :=
  Forall (fun f => nf_code f <> NUL /\
            match nf_value f with None => True | Some v => no_char NUL v = true end) fields /\
  6 + sum_of field_size fields < U32_MODULUS.

(** ** Lemmas: the packet *)

Lemma strlen_nonneg s : 0 <= strlen s.
Proof. unfold strlen. lia. Qed.

Lemma field_size_nonneg f : 0 <= field_size f.
Proof.
  unfold field_size, error_field_size. destruct (nf_value f) as [v|]; [|lia].
  pose proof (strlen_nonneg v). lia.
Qed.

Lemma sizes_nonneg fields : 0 <= sum_of field_size fields.
Proof.
  induction fields as [|f l IH]; [done|]. rewrite sum_of_cons.
  pose proof (field_size_nonneg f). lia.
Qed.

Lemma packet_size_total fields : forall n,
  0 <= n -> n + sum_of field_size fields < U32_MODULUS ->
  fold_left (fun size f =>
      match nf_value f with None => size | Some v => wrap32 (size + (strlen v + 2)) end)
    fields n = n + sum_of field_size fields.
Proof.
  induction fields as [|f l IH]; intros n Hn Hlt; cbn [fold_left].
  { unfold sum_of; cbn. lia. }
  rewrite sum_of_cons in *. pose proof (sizes_nonneg l).
  pose proof (field_size_nonneg f) as Hf. revert Hlt Hf.
  unfold field_size at 1 3 4, error_field_size. destruct (nf_value f) as [v|]; intros Hlt Hf.
  - rewrite wrap32_small by lia. rewrite IH by lia. lia.
  - rewrite IH by lia. lia.
Qed.

Lemma read_cstring_app v rest :
  no_char NUL v = true ->
  read_cstring (list_ascii_of_string v ++ NUL :: rest) = Some (v, rest).
Proof.
  induction v as [|c v IH]; cbn; intros H; [done|]. bool_to_prop.
  destruct (Ascii.eqb c NUL); [done|]. by rewrite IH.
Qed.

Lemma read_fields_written fields : forall fuel,
  Forall (fun f => nf_code f <> NUL /\
            match nf_value f with None => True | Some v => no_char NUL v = true end) fields ->
  (length (concat (map write_field fields) ++ [NUL]) <= fuel)%nat ->
  read_fields fuel (concat (map write_field fields) ++ [NUL]) = Some (present_fields fields).
Proof.
  induction fields as [|f l IH]; intros fuel Hok Hlen.
  { destruct fuel; [cbn in Hlen; lia|]. done. }
  inversion Hok as [|? ? [Hc Hv] Hl]; subst. unfold present_fields. cbn [map concat] in *.
  fold (present_fields l). unfold write_field at 1 in Hlen. unfold write_field at 1.
  destruct (nf_value f) as [v|]; cbn [error_field_bytes] in *.
  2: { by apply IH. }
  rewrite <- app_assoc. cbn [app]. unfold put_string in *. rewrite <- app_assoc. cbn [app].
  rewrite <- app_assoc in Hlen. cbn [app] in Hlen.
  rewrite <- app_assoc in Hlen. cbn [app length] in Hlen.
  destruct fuel as [|fuel]; [lia|]. cbn [read_fields].
  apply Ascii.eqb_neq in Hc. rewrite Hc.
  rewrite read_cstring_app by done. cbn [mbind option_bind].
  rewrite IH; [done|done|]. rewrite length_app in Hlen. cbn [length] in Hlen. lia.
Qed.

Lemma notice_body_length fields :
  Z.of_nat (length (concat (map write_field fields) ++ [NUL])) = 1 + sum_of field_size fields.
Proof.
  rewrite length_app, Nat2Z.inj_add, (sum_length _ field_size); [cbn; lia|].
  intros f. apply error_field_length.
Qed.

Lemma written_notice fields :
  fields_fit fields ->
  let size := polardb_notice_response_packet_size fields in
  let body := (concat (map write_field fields) ++ [NUL])%list in
  polardb_write_notice_response_packet true size fields = (size, frame_bytes ("N"%char, body)) /\
  size = Z.of_nat (length (frame_bytes ("N"%char, body))) /\ 6 <= size < U32_MODULUS.
Proof.
  intros [Hf Hlt]. pose proof (sizes_nonneg fields).
  assert (polardb_notice_response_packet_size fields = 6 + sum_of field_size fields) as E
    by (apply packet_size_total; lia).
  pose proof (notice_body_length fields) as Hb. cbn zeta.
  assert (polardb_notice_response_packet_size fields =
    wrap32 (5 + Z.of_nat (length (concat (map write_field fields) ++ [NUL])))) as Es
    by (rewrite E, Hb, wrap32_small; lia).
  destruct (sized_frame "N" _ _ Es) as (Hbytes & Hlen & _); [lia|].
  split; [|split; [exact Hlen|lia]].
  unfold polardb_write_notice_response_packet. rewrite Z.ltb_irrefl. cbn [negb orb].
  rewrite <- Hbytes. rewrite (wrap32_small (_ - 1)) by lia. done.
Qed.

Lemma parse_written fields :
  fields_fit fields ->
  parse_notice (frame_bytes ("N"%char, (concat (map write_field fields) ++ [NUL])%list)) =
    Some (present_fields fields).
Proof.
  intros Hfit. pose proof (written_notice fields Hfit) as (_ & Hlen & Hsize).
  destruct Hfit as [Hf _]. unfold parse_notice. rewrite <- (frames_bytes_one (_, _)).
  rewrite parse_frames_bytes.
  - cbn. by apply read_fields_written.
  - constructor; [|done]. rewrite frame_length in Hlen. unfold frame_ok; cbn [snd]. lia.
Qed.

(** The packet of a notice is exactly as large as its buffer, carries its own
    length, and reads back as the fields that are present, in their order. *)
Theorem notice_packet_roundtrip (fields : list PolarDB_NoticeField) :
  fields_fit fields ->
  let size := polardb_notice_response_packet_size fields in
  let '(written, bytes) := polardb_write_notice_response_packet true size fields in
  written = size /\ Z.of_nat (length bytes) = size /\
  parse_notice bytes = Some (present_fields fields).
Proof.
  intros Hfit. cbn zeta. pose proof (written_notice fields Hfit) as (-> & Hlen & _).
  split; [done|]. split; [by rewrite <- Hlen|]. by apply parse_written.
Qed.

Definition sample_notice : pg_result :=
  mkResult PGRES_NONFATAL_ERROR
    [("S"%char, "WARNING"); ("C"%char, "01000"); ("M"%char, "wait timed out");
     ("D"%char, POLARDB_LSN_WAIT_TIMEOUT_DETAIL);
     ("R"%char, POLARDB_LSN_WAIT_TIMEOUT_SOURCE_FUNCTION)] [] [] "" "" false [].

Lemma sample_notice_fits : fields_fit (result_notice_fields sample_notice).
Proof.
  unfold fields_fit. split; [|vm_compute; reflexivity].
  repeat constructor; vm_compute; congruence.
Qed.

Lemma notice_packet_roundtrip_witness :
  let fields := result_notice_fields sample_notice in
  let '(written, bytes) :=
    polardb_write_notice_response_packet true (polardb_notice_response_packet_size fields) fields in
  length (present_fields fields) = 5%nat /\ parse_notice bytes = Some (present_fields fields).
Proof.
  pose proof (notice_packet_roundtrip (result_notice_fields sample_notice) sample_notice_fits) as H.
  cbn zeta in *. destruct (polardb_write_notice_response_packet _ _ _) as [written bytes].
  split; [vm_compute; reflexivity|]. apply H.
Defined.

(** ** Theorems: the queued packet and the generic one *)

Lemma result_body r :
  concat (map write_field (result_notice_fields r)) =
    concat (map (fun c => error_field_bytes c (PQresultErrorField r c)) diag_fields).
Proof. unfold result_notice_fields. by rewrite map_map. Qed.

(** A rescued notice is byte for byte the message the generic path would
    have put into the client's result, so who forwards it is invisible. *)
Theorem rescued_notice_is_generic (r : pg_result) :
  fields_fit (result_notice_fields r) ->
  let fields := result_notice_fields r in
  snd (polardb_write_notice_response_packet true (polardb_notice_response_packet_size fields)
         fields) = error_notice_bytes false r.
Proof.
  intros Hfit fields. destruct (written_notice fields Hfit) as (-> & Hlen & Hsize).
  rewrite frame_length in Hlen. subst fields. rewrite result_body in *. fold (diag_body r) in *.
  cbn [snd]. symmetry. apply (sized_frame "N" (diag_body r) _ (diag_size r)). lia.
Qed.

Lemma rescued_notice_is_generic_witness :
  snd (polardb_write_notice_response_packet true
         (polardb_notice_response_packet_size (result_notice_fields sample_notice))
         (result_notice_fields sample_notice)) = error_notice_bytes false sample_notice.
Proof. apply rescued_notice_is_generic, sample_notice_fits. Defined.

(** ** The life of notices *)

Inductive notice_event :=
| Rescued (ptr : Z) (r : pg_result)
| Degraded (ptr : Z) (reason : cstr) (reader_hg writer_hg : Z)
| Flush (client_present : bool)
| Discard.

Definition notice_step (q : notice_queue) (e : notice_event) : notice_queue :=
  match e with
  | Rescued ptr r => snd (polardb_enqueue_result_notice ptr (Some r) q)
  | Degraded ptr reason reader writer =>
      polardb_enqueue_degraded_rfq_notice ptr reason reader writer q
  | Flush client => polardb_flush_pending_notices_to_client client q
  | Discard => discard_pending_notices q
  end.

Definition event_fields (e : notice_event) : option (Z * list PolarDB_NoticeField) :=
  match e with
  | Rescued ptr r => Some (ptr, result_notice_fields r)
  | Degraded ptr reason reader writer =>
      Some (ptr, notice_fields (Some "WARNING") (Some "01000")
        (Some "PolarDB reader route has no enforceable LSN wait target; read may be stale")
        (Some (degraded_detail reason reader writer)) None)
  | _ => None
  end.

(** The specification: notices are kept in order, sent at a flush, dropped by a
    discard, and nothing else happens to them. *)
Record notice_log := mkLog {
  lg_pending : list (list (ascii * string));
  lg_sent : list (list (ascii * string))
}.

Definition log_step (l : notice_log) (e : notice_event) : notice_log :=
  match e with
  | Flush true => mkLog [] (lg_sent l ++ lg_pending l)
  | Flush false => l
  | Discard => mkLog [] (lg_sent l)
  | _ => match event_fields e with
         | Some (_, fields) => mkLog (lg_pending l ++ [present_fields fields]) (lg_sent l)
         | None => l
         end
  end.

Definition block_of (e : notice_event) : list Z :=
  match event_fields e with Some (ptr, _) => [ptr] | None => [] end.

Definition event_fits (e : notice_event) : Prop :=
  match event_fields e with Some (_, fields) => fields_fit fields | None => True end.

Definition shows (p : packet) (fields : list (ascii * string)) : Prop :=
  parse_notice (pk_bytes p) = Some fields /\ length (pk_bytes p) <> 0%nat.

(** Every packet is somewhere, in one place, and shows what was captured. *)
Record notices_refine (blocks : list Z) (q : notice_queue) (l : notice_log) : Prop := {
  nr_pending : Forall2 shows (pending_list q) (lg_pending l);
  nr_sent : Forall2 shows (nq_out q) (lg_sent l);
  nr_blocks : Permutation (map pk_ptr (pending_list q ++ nq_out q ++ nq_freed q)) blocks
}.

Lemma enqueue_exact ptr fields q :
  fields_fit fields ->
  exists bytes,
    polardb_enqueue_notice_packet ptr fields q =
      (polardb_notice_response_packet_size fields,
       q <| nq_pending := Some (pending_list q ++ [mkPacket ptr bytes])%list |>) /\
    shows (mkPacket ptr bytes) (present_fields fields).
Proof.
  intros Hfit. destruct (written_notice fields Hfit) as (Hw & Hlen & Hsize).
  eexists. unfold polardb_enqueue_notice_packet. rewrite Hw.
  rewrite (proj2 (Z.eqb_neq _ _)) by lia. split; [reflexivity|].
  split; [by apply parse_written|]. cbn [pk_bytes]. cbn. lia.
Qed.

Lemma refine_enqueue blocks q l ptr bytes fields :
  notices_refine blocks q l -> shows (mkPacket ptr bytes) fields ->
  notices_refine (blocks ++ [ptr])
    (q <| nq_pending := Some (pending_list q ++ [mkPacket ptr bytes])%list |>)
    (mkLog (lg_pending l ++ [fields]) (lg_sent l)).
Proof.
  intros [Hp Hs Hb] Hshow. destruct q as [pend out freed]; cbn in *. constructor; cbn.
  - apply Forall2_app; [done|]. constructor; [done|constructor].
  - done.
  - rewrite <- Hb. rewrite <- app_assoc, !map_app. cbn [map pk_ptr app].
    rewrite <- Permutation_middle. rewrite <- Permutation_cons_append. done.
Qed.

Lemma all_nonempty l fs :
  Forall2 shows l fs -> filter (fun p => length (pk_bytes p) <> 0%nat) l = l.
Proof.
  intros H. induction H as [|p f l fs [_ Hp] H IH]; [done|].
  by rewrite filter_cons_True, IH.
Qed.

Lemma refine_flush blocks q l client :
  notices_refine blocks q l ->
  notices_refine blocks (polardb_flush_pending_notices_to_client client q)
    (log_step l (Flush client)).
Proof.
  intros [Hp Hs Hb]. unfold polardb_flush_pending_notices_to_client.
  rewrite (all_nonempty _ _ Hp). destruct q as [pend out freed], l as [lp ls]; cbn in *.
  destruct (Nat.eqb_spec (length (default [] pend)) 0) as [E|E]; cbn [orb].
  - apply nil_length_inv in E. unfold pending_list in *; cbn in *. rewrite E in *.
    apply Forall2_nil_inv_l in Hp as ->.
    destruct client; constructor; cbn; rewrite ?app_nil_r, ?E; done.
  - destruct client; cbn [negb]; [|done]. unfold forget_transferred_notices, queue_clear; cbn.
    destruct pend as [pl|]; [|done]. constructor; cbn; [done| |].
    + by apply Forall2_app.
    + rewrite <- Hb. rewrite !map_app, !app_assoc. apply Permutation_app_tail.
      apply Permutation_app_comm.
Qed.

Lemma refine_discard blocks q l :
  notices_refine blocks q l ->
  notices_refine blocks (discard_pending_notices q) (log_step l Discard).
Proof.
  intros [Hp Hs Hb]. unfold discard_pending_notices, queue_clear.
  destruct q as [[pl|] out freed], l as [lp ls]; unfold pending_list in *; cbn in *;
    constructor; cbn; try done.
  rewrite <- Hb. rewrite !map_app, !map_rev, <- Permutation_rev.
  rewrite app_assoc. apply Permutation_app_comm.
Qed.

Lemma refine_step blocks q l e :
  notices_refine blocks q l -> event_fits e ->
  notices_refine (blocks ++ block_of e) (notice_step q e) (log_step l e).
Proof.
  intros Hr Hfit. destruct e as [ptr r|ptr reason reader writer|client|];
    unfold event_fits, block_of in *; cbn [event_fields] in *.
  - destruct (enqueue_exact ptr _ q Hfit) as (bytes & E & Hshow).
    cbn [notice_step polardb_enqueue_result_notice]. rewrite E. by apply refine_enqueue.
  - destruct (enqueue_exact ptr _ q Hfit) as (bytes & E & Hshow).
    cbn [notice_step]. unfold polardb_enqueue_degraded_rfq_notice. rewrite E.
    by apply refine_enqueue.
  - rewrite app_nil_r. by apply refine_flush.
  - rewrite app_nil_r. by apply refine_discard.
Qed.

Lemma refine_run es : forall blocks q l,
  notices_refine blocks q l -> Forall event_fits es ->
  notices_refine (blocks ++ concat (map block_of es)) (fold_left notice_step es q)
    (fold_left log_step es l).
Proof.
  induction es as [|e es IH]; intros blocks q l Hr Hfit; cbn [fold_left map concat].
  { by rewrite app_nil_r. }
  inversion Hfit; subst. rewrite app_assoc. apply IH; [|done]. by apply refine_step.
Qed.

(** C35: Through any history of captures, flushes and discards the notice queue
    does what its specification says: the client has been sent exactly the
    notices captured and not discarded, in order and intact, and every packet
    that was allocated is queued, at the client or freed, in one place only. *)
Theorem notices_refine_log (es : list notice_event) :
  Forall event_fits es -> NoDup (concat (map block_of es)) ->
  let q := fold_left notice_step es no_notices in
  let l := fold_left log_step es (mkLog [] []) in
  Forall2 shows (nq_out q) (lg_sent l) /\ Forall2 shows (pending_list q) (lg_pending l) /\
  Permutation (map pk_ptr (pending_list q ++ nq_out q ++ nq_freed q))
    (concat (map block_of es)) /\
  NoDup (map pk_ptr (pending_list q ++ nq_out q ++ nq_freed q)).
Proof.
  intros Hfit Hnd q l.
  assert (notices_refine [] no_notices (mkLog [] [])) as H0 by (constructor; constructor).
  destruct (refine_run es _ _ _ H0 Hfit) as [Hp Hs Hb]. cbn [app] in Hb.
  split; [done|]. split; [done|]. split; [done|]. fold q in Hb. by rewrite Hb.
Qed.

Definition sample_notice_events : list notice_event :=
  [Rescued 1 sample_notice; Degraded 2 (Some "reader_rfq_unavailable") 20 10; Flush true;
   Degraded 3 None 20 (-1); Discard].

Lemma notices_refine_log_witness :
  let q := fold_left notice_step sample_notice_events no_notices in
  length (nq_out q) = 2%nat /\ length (nq_freed q) = 1%nat /\
  Permutation (map pk_ptr (pending_list q ++ nq_out q ++ nq_freed q)) [1; 2; 3].
Proof.
  assert (Forall event_fits sample_notice_events) as Hfit.
  { repeat constructor; vm_compute; congruence. }
  assert (NoDup (concat (map block_of sample_notice_events))) as Hnd.
  { cbn. repeat (constructor; [set_solver|]). constructor. }
  pose proof (notices_refine_log sample_notice_events Hfit Hnd) as (_ & _ & Hb & _).
  split; [vm_compute; reflexivity|]. split; [vm_compute; reflexivity|]. exact Hb.
Defined.
