(* ===== verification/Consume.v ===== *)
(** * One simple query on a backend connection

    From the dispatch of a query to its last result (lib/PgSQL_Connection.cpp):
    the snapshot of the wrapper, the reset of split XIDs, the result loop that
    drops wrapper results, its errors and notices, and the hand-over of output to
    the client (lib/PgSQL_Session.cpp).  What libpq reports is a list of events.
    A failed assertion of the code is [None]. *)

From S2P Require Import Prelude SqlScan Policy Config Session Query SessionState Wrap Failure.
From S2P Require Import Flow Result QueryResult WrapState Notices.
From Stdlib Require Import ZArith Ascii String List Bool Lia.
From stdpp Require Import base tactics list gmap strings.

Open Scope string_scope.
Open Scope Z_scope.
Open Scope polar_scope.

(** ** Errors of a connection *)

Inductive PGSQL_ERROR_SEVERITY :=
| ERRSEVERITY_UNKNOWN_SEVERITY | ERRSEVERITY_FATAL | ERRSEVERITY_PANIC | ERRSEVERITY_ERROR
| ERRSEVERITY_WARNING | ERRSEVERITY_NOTICE | ERRSEVERITY_DEBUG | ERRSEVERITY_INFO
| ERRSEVERITY_LOG.

#[global] Instance SEVERITY_eq_dec : EqDecision PGSQL_ERROR_SEVERITY.
Proof. solve_decision. Defined.

Definition identify_error_severity (severity : string) : PGSQL_ERROR_SEVERITY :=
  if strcaseeq severity "PANIC" then ERRSEVERITY_PANIC
  else if strcaseeq severity "FATAL" then ERRSEVERITY_FATAL
  else if strcaseeq severity "ERROR" then ERRSEVERITY_ERROR
  else if strcaseeq severity "WARNING" then ERRSEVERITY_WARNING
  else if strcaseeq severity "NOTICE" then ERRSEVERITY_NOTICE
  else if strcaseeq severity "DEBUG" then ERRSEVERITY_DEBUG
  else if strcaseeq severity "LOG" then ERRSEVERITY_LOG
  else if strcaseeq severity "INFO" then ERRSEVERITY_INFO
  else ERRSEVERITY_UNKNOWN_SEVERITY.

Record PgSQL_ErrorInfo := mkErrorInfo {
  ei_severity : PGSQL_ERROR_SEVERITY;
  ei_sqlstate : string;
  ei_message : string
}.

Definition reset_error_info : PgSQL_ErrorInfo := mkErrorInfo ERRSEVERITY_UNKNOWN_SEVERITY "" "".

Definition severity_is_error (s : PGSQL_ERROR_SEVERITY) : bool :=
  (s == ERRSEVERITY_FATAL) || (s == ERRSEVERITY_ERROR) || (s == ERRSEVERITY_PANIC).

(** ** The connection *)

Inductive result_source := From_none | From_libpq | From_raw_row | From_row_run.

#[global] Instance result_source_eq_dec : EqDecision result_source.
Proof. solve_decision. Defined.

Inductive query_status := At_start | At_results | At_statement_end | At_end.

#[global] Instance query_status_eq_dec : EqDecision query_status.
Proof. solve_decision. Defined.

(** [qc_result_type] is where the last fetch found its data; [qc_ps_result] and
    [qc_row_run_bytes] are what that fetch left. *)
Record query_conn := mkQueryConn {
  qc_dispatch : PolarDB_Query_DispatchState;
  qc_wrap : PolarDB_Query_WrapState;
  qc_xids_dirty : bool;
  qc_reset_consumed : bool;
  qc_reset_query_buf : string;
  qc_reusable : bool;
  qc_multi : bool;
  qc_error : PgSQL_ErrorInfo;
  qc_result : option PgSQL_Query_Result;
  qc_reuse : option PgSQL_Query_Result;
  qc_pgsql_result : option pg_result;
  qc_result_type : result_source;
  qc_ps_result : option PSresult;
  qc_row_run_bytes : Z;
  qc_new_result : bool;
  qc_is_copy_out : bool;
  qc_exit_pipeline : bool;
  qc_status : query_status;
  qc_query : string
}.

#[global] Instance upd_qc_dispatch : Update qc_dispatch.
Proof. derive_update. Defined.
#[global] Instance upd_qc_wrap : Update qc_wrap.
Proof. derive_update. Defined.
#[global] Instance upd_qc_xids_dirty : Update qc_xids_dirty.
Proof. derive_update. Defined.
#[global] Instance upd_qc_reset_consumed : Update qc_reset_consumed.
Proof. derive_update. Defined.
#[global] Instance upd_qc_reset_query_buf : Update qc_reset_query_buf.
Proof. derive_update. Defined.
#[global] Instance upd_qc_reusable : Update qc_reusable.
Proof. derive_update. Defined.
#[global] Instance upd_qc_multi : Update qc_multi.
Proof. derive_update. Defined.
#[global] Instance upd_qc_error : Update qc_error.
Proof. derive_update. Defined.
#[global] Instance upd_qc_result : Update qc_result.
Proof. derive_update. Defined.
#[global] Instance upd_qc_reuse : Update qc_reuse.
Proof. derive_update. Defined.
#[global] Instance upd_qc_pgsql_result : Update qc_pgsql_result.
Proof. derive_update. Defined.
#[global] Instance upd_qc_result_type : Update qc_result_type.
Proof. derive_update. Defined.
#[global] Instance upd_qc_ps_result : Update qc_ps_result.
Proof. derive_update. Defined.
#[global] Instance upd_qc_row_run_bytes : Update qc_row_run_bytes.
Proof. derive_update. Defined.
#[global] Instance upd_qc_new_result : Update qc_new_result.
Proof. derive_update. Defined.
#[global] Instance upd_qc_is_copy_out : Update qc_is_copy_out.
Proof. derive_update. Defined.
#[global] Instance upd_qc_exit_pipeline : Update qc_exit_pipeline.
Proof. derive_update. Defined.
#[global] Instance upd_qc_status : Update qc_status.
Proof. derive_update. Defined.
#[global] Instance upd_qc_query : Update qc_query.
Proof. derive_update. Defined.

Definition is_error_present (c : query_conn) : bool := severity_is_error (ei_severity (qc_error c)).

(** The connection, its session, the session's notices, the client's output and
    the wait timeouts counted. *)
Record query_world := mkQueryWorld {
  qw_conn : query_conn;
  qw_proxy : proxy;
  qw_notices : notice_queue;
  qw_out : list (list ascii);
  qw_counted : Z
}.

#[global] Instance upd_qw_conn : Update qw_conn.
Proof. derive_update. Defined.
#[global] Instance upd_qw_proxy : Update qw_proxy.
Proof. derive_update. Defined.
#[global] Instance upd_qw_notices : Update qw_notices.
Proof. derive_update. Defined.
#[global] Instance upd_qw_out : Update qw_out.
Proof. derive_update. Defined.
#[global] Instance upd_qw_counted : Update qw_counted.
Proof. derive_update. Defined.

(** What the environment answers: libpq's own error, the text of an SQLSTATE as
    the error tables of lib/PgSQL_Error_Helper.cpp print it, whether the query was
    sent, the transaction status and payload of ReadyForQuery, a kill of the
    stream, the settings, the clock and the allocator. *)
Record query_env := mkQueryEnv {
  qe_libpq_error : PgSQL_ErrorInfo;
  qe_code_text : string -> string;
  qe_send_ok : bool;
  qe_single_row_ok : bool;
  qe_txn_status : PGTransactionStatusType;
  qe_rfq : rfq_connection;
  qe_killed : option Z;
  qe_fast_forward : bool;
  qe_threshold_resultset_size : Z;
  qe_thread : PgSQL_Thread;
  qe_now_us : Z;
  qe_alloc : Z
}.

(** Events of libpq.  [Ev_result] carries the COPY data at hand and how libpq
    ended it: 0 for no more now, -1 at the end, -2 for an error. *)
Inductive libpq_event :=
| Ev_busy
| Ev_input_error
| Ev_result (r : option pg_result) (copy : list (list ascii)) (copy_end : Z)
| Ev_raw_row (ps : PSresult)
| Ev_row_run (owner : Z) (rows : list PSresult).

Section Query.
Context (env : query_env).

Definition on_conn (f : query_conn -> query_conn) (w : query_world) : query_world :=
  w <| qw_conn := f (qw_conn w) |>.

(** Applies to the result under construction. *)
Definition on_result (f : PgSQL_Query_Result -> PgSQL_Query_Result) (c : query_conn) : query_conn :=
  match qc_result c with
  | Some qr => c <| qc_result := Some (f qr) |>
  | None => c
  end.

Definition set_error_from_PQerrorMessage (c : query_conn) : query_conn :=
  c <| qc_error := qe_libpq_error env |>.

Definition fill_error_info (r : pg_result) : PgSQL_ErrorInfo :=
  mkErrorInfo (identify_error_severity (default "" (PQresultErrorField r "S")))
    (default "00000" (PQresultErrorField r "C")) (default "" (PQresultErrorField r "M")).

Definition set_error_from_result (r : pg_result) (c : query_conn) : query_conn :=
  match PQresultErrorField r "C" with
  | Some _ => c <| qc_error := fill_error_info r |>
  | None => set_error_from_PQerrorMessage c
  end.

(** ** Dispatch *)

Definition POLARDB_TXN_SPLIT_RESET_WRAPPER_SET_COUNT : Z := 1.
Definition split_xids_reset_prefix : string := "SET polar_xact_split_xids = ''; ".

Definition reset_dirty_xids (stmt : string) (c : query_conn) : query_conn * string :=
  let buf := split_xids_reset_prefix ++ stmt in
  let d := qc_dispatch c in
  (c <| qc_reset_query_buf := buf |>
     <| qc_dispatch :=
          mkDispatchState
            (wrap32 (ds_wrapper_stmts d + POLARDB_TXN_SPLIT_RESET_WRAPPER_SET_COUNT))
            (if ds_wrapper_kind d == Wrapper_NONE then Wrapper_TXN_SPLIT_XIDS_RESET
             else ds_wrapper_kind d) true |>, buf).

(** The [ASYNC_IDLE] case of [async_query] for a simple query. *)
Definition async_query_idle (stmt : string) (w : query_world) : query_world :=
  let q := ss_query (px_session (qw_proxy w)) in
  let take := 0 <? qs_dispatch_wrapper_stmts q in
  let d :=
    if take
    then mkDispatchState (qs_dispatch_wrapper_stmts q) (qs_dispatch_wrapper_kind q) false
    else dispatch_reset in
  let p :=
    if take
    then with_session (qw_proxy w) (fun s =>
           s <| ss_query := reset_dispatch_wrapper (ss_query s) |>)
    else qw_proxy w in
  let c := qw_conn w <| qc_dispatch := d |> in
  let '(c, text) :=
    if qc_xids_dirty c && (ds_wrapper_kind d != Wrapper_TXN_SPLIT_WAIT)
    then reset_dirty_xids stmt c
    else (c <| qc_reset_query_buf := "" |>, stmt) in
  w <| qw_proxy := p |> <| qw_conn := c <| qc_query := text |> <| qc_status := At_start |> |>.

Definition query_start (c : query_conn) : query_conn :=
  let d := qc_dispatch c in
  let c := c <| qc_error := reset_error_info |> <| qc_multi := false |>
             <| qc_wrap :=
                  if 0 <? ds_wrapper_stmts d
                  then wrap_begin (ds_wrapper_stmts d) (ds_wrapper_kind d)
                         (ds_txn_split_xids_reset d)
                  else wrap_clear |>
             <| qc_dispatch := dispatch_reset |> in
  if qe_send_ok env then c else set_error_from_PQerrorMessage c.

Definition set_single_row_mode (c : query_conn) : bool * query_conn :=
  if qe_single_row_ok env then (true, c) else (false, set_error_from_PQerrorMessage c).

Definition init_query_result (c : query_conn) : query_conn :=
  let '(qr, c) :=
    match qc_reuse c with
    | Some qr => (qr, c <| qc_reuse := None |>)
    | None => (new_query_result, c)
    end in
  c <| qc_result := Some (init true (qc_multi c) qr) |> <| qc_new_result := true |>.

Definition use_result_start (c : query_conn) : query_conn :=
  init_query_result (c <| qc_error := reset_error_info |>) <| qc_status := At_results |>.

(** Sending the query, up to the first fetch of a result. *)
Definition send_query (c : query_conn) : query_conn :=
  let c := query_start c in
  if is_error_present c then c <| qc_status := At_end |>
  else
    let '(ok, c) := set_single_row_mode c in
    if ok then use_result_start c else c <| qc_status := At_end |>.

(** ** Notices and wrapper errors *)

Definition notice_handler_cb (r : pg_result) (w : query_world) : query_world :=
  let c := qw_conn w in
  let has_result := match qc_result c with Some _ => true | None => false end in
  let o := polardb_handle_lsn_wait_timeout_notice (qe_alloc env) (qe_now_us env) true
             (qc_wrap c) has_result r (qw_proxy w) (qw_notices w) in
  let w := w <| qw_proxy := no_proxy o |> <| qw_notices := no_queue o |>
             <| qw_counted := qw_counted w + (if no_counted o then 1 else 0) |> in
  if no_owned o then w else on_conn (on_result (add_notice r)) w.

Definition mark_failed (w : query_world) : query_world :=
  on_conn (fun c => c <| qc_wrap := mark_wrapper_set_failed (qc_wrap c) |>) w.

Definition count_timeout (counted : bool) (p : proxy) (w : query_world) : query_world :=
  w <| qw_proxy := p |> <| qw_counted := qw_counted w + (if counted then 1 else 0) |>.

Definition polardb_handle_wrapper_set_error (r : pg_result) (w : query_world) : query_world :=
  let wrap := qc_wrap (qw_conn w) in
  if negb (wr_was_wrapped wrap) then w
  else
    let s := px_session (qw_proxy w) in
    let wait_active := polardb_wait_active s in
    let txn_split_wait := is_txn_split_wait wrap in
    let is_lsn_timeout :=
      (wait_active || txn_split_wait) && polardb_is_lsn_wait_timeout_result (Some r) in
    let txn_split_lsn_timeout := txn_split_wait && is_lsn_timeout in
    let a := polardb_wrapper_error_accounting (wr_was_wrapped wrap) wait_active is_lsn_timeout
               (consuming_wrapper_set wrap) in
    if negb wait_active
    then
      let w :=
        if txn_split_lsn_timeout
        then let '(counted, s) := polardb_account_txn_split_wait_timeout s in
             count_timeout counted (with_session (qw_proxy w) (fun _ => s)) w
        else w in
      if txn_split_lsn_timeout || wea_mark_wrapper_failed a then mark_failed w else w
    else
      let w :=
        if wea_mark_timeout_error a
        then w <| qw_proxy := with_session (qw_proxy w) (fun s =>
               let wt := qs_wait (ss_query s) in
               s <| ss_query := ss_query s <| qs_wait :=
                 mkWaitState (wst_spec wt) (wst_wait_stage wt) (wst_wrapper_stmts wt)
                   (wst_wait_started_at_us wt) (wst_wrapper_finalized wt) true
                   (wst_fallback_writer_hg wt) |> |>) |>
        else w in
      let w :=
        if wea_account_wait_timeout a
        then let '(p, counted) := polardb_account_wait_timeout (qe_now_us env) (qw_proxy w) in
             count_timeout counted p w
        else w in
      if wea_mark_wrapper_failed a then mark_failed w else w.

(** ** Fetching *)

Definition polardb_can_detach_row_run (c : query_conn) : bool :=
  qe_fast_forward env && negb (qc_is_copy_out c) && negb (qc_new_result c) &&
  match qc_result c with Some _ => true | None => false end &&
  negb (qc_multi c) && negb (consuming_wrapper_set (qc_wrap c)).

Definition run_bytes (rows : list PSresult) : list ascii := concat (map ps_data rows).

(** [polardb_try_add_row_run] when libpq hands over a run. *)
Definition add_row_run (owner : Z) (rows : list PSresult) (c : query_conn) : query_conn :=
  on_result (add_row_run_borrowed owner (run_bytes rows) (Z.of_nat (length rows))) c
    <| qc_row_run_bytes := Z.of_nat (length (run_bytes rows)) |>
    <| qc_result_type := From_row_run |>.

(** Whether data is at hand. *)
Definition fetch_result_cont (ev : libpq_event) (c : query_conn) : bool * query_conn :=
  match qc_pgsql_result c with
  | Some _ => (true, c)
  | None =>
      match ev with
      | Ev_busy => (false, c)
      | Ev_input_error =>
          (true, if is_error_present c then c else set_error_from_PQerrorMessage c)
      | Ev_result r _ _ => (true, c <| qc_result_type := From_libpq |> <| qc_pgsql_result := r |>)
      | Ev_raw_row ps =>
          (true, c <| qc_result_type := From_raw_row |> <| qc_ps_result := Some ps |>)
      | Ev_row_run owner rows => (true, add_row_run owner rows c)
      end
  end.

(** ** One result *)

Inductive loop_next := Next_fetch | Next_statement_end | Next_restart | Next_tail | Next_end.

Definition is_set_success (st : ExecStatusType) : bool :=
  (st == PGRES_COMMAND_OK) || (st == PGRES_EMPTY_QUERY).

Definition is_set_error (st : ExecStatusType) : bool :=
  (st == PGRES_FATAL_ERROR) || (st == PGRES_NONFATAL_ERROR) || (st == PGRES_BAD_RESPONSE).

(** The result becomes the one the next [init_query_result] reuses. *)
Definition recycle_result (c : query_conn) : query_conn :=
  match qc_result c with
  | Some qr => c <| qc_reuse := Some qr |> <| qc_result := None |>
  | None => c
  end.

(** A wrapper SET that succeeded. *)
Definition consume_set (c : query_conn) : option query_conn :=
  '(consumed_xids_reset, wrap) ← consume_wrapper_result (qc_wrap c);
  let c := c <| qc_wrap := wrap |> in
  let c := if consumed_xids_reset : bool then c <| qc_reset_consumed := true |> else c in
  Some (recycle_result c).

(** A wrapper SET that failed, before the common error path. *)
Definition failed_set (r : pg_result) (w : query_world) : query_world :=
  let w :=
    if consuming_txn_split_xids_reset (qc_wrap (qw_conn w))
    then on_conn (fun c => c <| qc_reusable := false |> <| qc_reset_consumed := false |>) w
    else w in
  polardb_handle_wrapper_set_error r w.

Definition result_complete (c : query_conn) : bool :=
  match qc_result c with Some qr => has_flag result_final qr | None => false end.

(** [handle_copy_out]; pauses only split the data. *)
Definition handle_copy_out (r : pg_result) (copy : list (list ascii)) (copy_end : Z)
    (c : query_conn) : query_conn :=
  let c :=
    if qc_new_result c
    then on_result (add_copy_out_response_start r) c <| qc_new_result := false |>
           <| qc_is_copy_out := true |>
    else c in
  let c := fold_left (fun c data => on_result (add_copy_out_row data) c) copy c in
  if copy_end =? -1
  then on_result add_copy_out_response_end c <| qc_is_copy_out := false |>
  else if copy_end <? 0
  then (if is_error_present c then c else set_error_from_PQerrorMessage c)
         <| qc_is_copy_out := false |>
  else c.

(** The error branch of the result switch. *)
Definition error_result (r : pg_result) (w : query_world) : option query_world :=
  let c := qw_conn w in
  if is_error_present c && (ei_severity (qc_error c) == ERRSEVERITY_FATAL) then Some w
  else
    let w := on_conn (set_error_from_result r) w in
    if negb (is_error_present (qw_conn w)) then None
    else
      let w := polardb_handle_wrapper_set_error r w in
      let severity := ei_severity (qc_error (qw_conn w)) in
      Some (if (severity == ERRSEVERITY_ERROR) || (severity == ERRSEVERITY_WARNING) ||
               (severity == ERRSEVERITY_NOTICE)
            then on_conn (on_result (add_error r)) w else w).

Definition tuples_result (r : pg_result) (c : query_conn) : query_conn :=
  let c :=
    if qc_new_result c
    then on_result (add_row_description r) c <| qc_new_result := false |> else c in
  on_result (match pr_rows r with [] => add_command_completion r false | _ => add_row r end) c.

Definition switch_result (r : pg_result) (copy : list (list ascii)) (copy_end : Z)
    (w : query_world) : option (query_world * loop_next) :=
  match pr_status r with
  | PGRES_COMMAND_OK => Some (on_conn (on_result (add_command_completion r true)) w, Next_fetch)
  | PGRES_EMPTY_QUERY => Some (on_conn (on_result add_empty_query_response) w, Next_fetch)
  | PGRES_TUPLES_OK | PGRES_SINGLE_TUPLE => Some (on_conn (tuples_result r) w, Next_fetch)
  | PGRES_COPY_OUT => Some (on_conn (handle_copy_out r copy copy_end) w, Next_fetch)
  | PGRES_COPY_IN | PGRES_COPY_BOTH =>
      Some (on_conn (fun c => c <| qc_error :=
              mkErrorInfo ERRSEVERITY_FATAL "P0001" "Unable to process 'COPY' command" |>) w,
            Next_end)
  | PGRES_PIPELINE_SYNC => Some (on_conn (fun c => c <| qc_exit_pipeline := true |>) w, Next_fetch)
  | PGRES_PIPELINE_ABORTED => Some (w, Next_fetch)
  | PGRES_BAD_RESPONSE | PGRES_NONFATAL_ERROR | PGRES_FATAL_ERROR =>
      w ← error_result r w; Some (w, Next_fetch)
  end.

(** A result of libpq: wrapper results first, then the client's. *)
Definition libpq_result (r : pg_result) (copy : list (list ascii)) (copy_end : Z)
    (w : query_world) : option (query_world * loop_next) :=
  let consuming := consuming_wrapper_set (qc_wrap (qw_conn w)) in
  if consuming && is_set_success (pr_status r)
  then c ← consume_set (qw_conn w); Some (w <| qw_conn := c |>, Next_restart)
  else
    let w := if consuming && is_set_error (pr_status r) then failed_set r w else w in
    if result_complete (qw_conn w)
    then Some (on_conn (fun c => on_result buffer_to_PSarrayOut (c <| qc_pgsql_result := Some r |>))
                 w, Next_statement_end)
    else switch_result r copy copy_end w.

(** One pass of the loop over what [fetch_result_cont] left. *)
Definition use_result (copy : list (list ascii)) (copy_end : Z) (w : query_world)
  : option (query_world * loop_next) :=
  let c := qw_conn w in
  match qc_result_type c with
  | From_libpq =>
      match qc_pgsql_result c with
      | Some r =>
          libpq_result r copy copy_end (on_conn (fun c => c <| qc_pgsql_result := None |>) w)
      | None => Some (w, Next_tail)
      end
  | From_raw_row =>
      match qc_ps_result c with
      | Some ps =>
          if Ascii.eqb (ps_id ps) "D"
          then Some (on_conn (on_result (add_raw_row ps)) w, Next_fetch) else None
      | None => None
      end
  | From_row_run =>
      if qc_row_run_bytes c =? 0 then None
      else Some (on_conn (fun c => c <| qc_row_run_bytes := 0 |>) w, Next_fetch)
  | From_none => None
  end.

(** ** The end of the results *)

Definition error_packet (code msg : string) : list ascii :=
  frame_bytes ("E"%char, ("S"%char :: put_string "ERROR" ++ "V"%char :: put_string "ERROR" ++
    "C"%char :: put_string code ++ "M"%char :: put_string msg ++ [NUL])%list).

(** [add_error] without a result. *)
Definition missing_result_error (c : query_conn) : option (list ascii) :=
  match qe_killed env with
  | Some kill_type =>
      Some (if kill_type =? 0
            then error_packet "57014" "Query execution was interrupted, query_timeout exceeded"
            else error_packet "08006" "Query execution was interrupted")
  | None =>
      if is_error_present c
      then Some (error_packet (qe_code_text env (ei_sqlstate (qc_error c)))
                   (ei_message (qc_error c)))
      else None
  end.

(** The connection as the response path reads it. *)
Definition rfq_view (c : query_conn) : rfq_connection :=
  let q := qe_rfq env in
  mkRfqConn (rq_status q) (rq_xids q) (rq_splittable q) (rq_wal_pending q) (rq_lsn q)
    (rq_payload_present q) (rq_hostgroup q) (rq_srv q) (rq_default_isolation q)
    (rq_current_isolation q) (rq_in_transaction q)
    (match qc_result c with Some qr => has_flag PGSQL_QUERY_RESULT_ERROR qr | None => false end)
    (qc_multi c) (wrapper_set_succeeded (qc_wrap c)).

Definition ready_status (w : query_world) : query_world :=
  let view := rfq_view (qw_conn w) in
  let s := px_session (qw_proxy w) in
  let s := if qs_backend_isolation_status_needed (ss_query s)
           then polardb_apply_backend_isolation_status (Some view) s else s in
  let '(lsn, s) :=
    polardb_prepare_client_ready_lsn (qe_thread env) (px_hgm (qw_proxy w)) true (Some view)
      (rq_payload_present view) (if rq_payload_present view then rq_lsn view else 0)
      Deferred_NONE s in
  on_conn (fun c => on_result (add_ready_status (qe_txn_status env) lsn) c)
    (w <| qw_proxy := with_session (qw_proxy w) (fun _ => s) |>).

Definition results_tail (w : query_world) : option query_world :=
  let c := qw_conn w in
  match qc_result c with
  | None => None
  | Some qr =>
      let w :=
        if negb (qc_exit_pipeline c) && negb (has_flag result_final qr)
        then
          if negb (is_error_present c) then None
          else e ← missing_result_error c; Some (on_conn (on_result (add_error_packet e)) w)
        else Some w in
      w ← w; Some (ready_status w)
  end.

(** ** The session *)

(** What a flush sends. *)
Definition flush_notices (w : query_world) : query_world :=
  let q := polardb_flush_pending_notices_to_client true (qw_notices w) in
  let sent := skipn (length (nq_out (qw_notices w))) (nq_out q) in
  w <| qw_out := (qw_out w ++ map pk_bytes sent)%list |>
    <| qw_notices := q |>.

Definition hand_over (w : query_world) : query_world :=
  match qc_result (qw_conn w) with
  | None => w
  | Some qr =>
      let '(_, blocks, qr) := get_resultset qr in
      on_conn (fun c => c <| qc_result := Some qr |>)
        (w <| qw_out := (qw_out w ++ map ob_bytes blocks)%list |>)
  end.

Definition ready_packet : list ascii := frame_bytes ("Z"%char, ["I"%char]).

Definition PgSQL_Result_to_PgSQL_wire (w : query_world) : option query_world :=
  let c := qw_conn w in
  let empty :=
    e ← missing_result_error c;
    Some (w <| qw_out := (qw_out w ++ [(e ++ ready_packet)%list])%list |>) in
  match qc_result c with
  | Some qr =>
      if qr_result_packet_type qr =? PGSQL_QUERY_RESULT_NO_DATA then empty
      else Some (hand_over (flush_notices w))
  | None => empty
  end.

(** Results 1 and 3 of [async_query]: output beyond the threshold is forwarded
    while the query runs. *)
Definition stream_output (w : query_world) : query_world :=
  match qc_result (qw_conn w) with
  | Some qr =>
      if qe_threshold_resultset_size env <? qr_resultset_size qr
      then hand_over (if qr_transfer_started qr then w else flush_notices w)
      else w
  | None => w
  end.

(** Result 2: one statement of several is complete. *)
Definition statement_end (w : query_world) : option query_world :=
  w ← PgSQL_Result_to_PgSQL_wire (on_conn (fun c => c <| qc_multi := true |>) w);
  Some (on_conn (fun c => use_result_start (recycle_result c)) w).

(** After one pass of the loop. *)
Definition after_pass (next : loop_next) (w : query_world) : option query_world :=
  match next with
  | Next_fetch => Some w
  | Next_restart => Some (on_conn use_result_start w)
  | Next_statement_end => Some (on_conn (fun c => c <| qc_status := At_statement_end |>) w)
  | Next_tail => w ← results_tail w; Some (on_conn (fun c => c <| qc_status := At_end |>) w)
  | Next_end => Some (on_conn (fun c => c <| qc_status := At_end |>) w)
  end.

(** One event: its notices, the fetch, one pass. *)
Definition one_event (notices : list pg_result) (ev : libpq_event) (w : query_world)
  : option query_world :=
  if qc_status (qw_conn w) != At_results then Some w
  else
    let w := fold_left (fun w r => notice_handler_cb r w) notices w in
    let '(copy, copy_end) :=
      match ev with Ev_result _ copy copy_end => (copy, copy_end) | _ => ([], 0) end in
    let '(ready, c) := fetch_result_cont ev (qw_conn w) in
    let w := w <| qw_conn := c |> in
    if negb ready then Some w
    else '(w, next) ← use_result copy copy_end w; after_pass next w.

(** The end of a statement: its result goes out, and the result that ended it is
    the first of the next one. *)
Definition next_statement (copy : list (list ascii)) (copy_end : Z) (w : query_world)
  : option query_world :=
  if qc_status (qw_conn w) != At_statement_end then Some w
  else
    w ← statement_end w;
    '(w, next) ← use_result copy copy_end w;
    after_pass next w.

(** Rows at hand in libpq: one run when they can be detached, else row by row. *)
Inductive query_op :=
| Op_event (notices : list pg_result) (ev : libpq_event)
| Op_rows (owner : Z) (rows : list PSresult)
| Op_stream.

Definition deliver (notices : list pg_result) (ev : libpq_event) (w : query_world)
  : option query_world :=
  let '(copy, copy_end) :=
    match ev with Ev_result _ copy copy_end => (copy, copy_end) | _ => ([], 0) end in
  w ← one_event notices ev w;
  next_statement copy copy_end w.

Definition query_step (w : query_world) (op : query_op) : option query_world :=
  match op with
  | Op_event notices ev => deliver notices ev w
  | Op_rows owner rows =>
      if polardb_can_detach_row_run (qw_conn w) && negb (Nat.eqb (length (run_bytes rows)) 0)
      then deliver [] (Ev_row_run owner rows) w
      else fold_left (fun w ps => w ← w; deliver [] (Ev_raw_row ps) w) rows (Some w)
  | Op_stream => Some (if qc_status (qw_conn w) == At_results then stream_output w else w)
  end.

Fixpoint run_query (ops : list query_op) (w : query_world) : option query_world :=
  match ops with
  | [] => Some w
  | op :: ops => w ← query_step w op; run_query ops w
  end.

(** From the dispatch on; the answer is whether the query succeeded. *)
Definition async_query (stmt : string) (ops : list query_op) (w : query_world)
  : option query_world :=
  run_query ops (on_conn send_query (async_query_idle stmt w)).

Definition query_result_code (c : query_conn) : Z := if is_error_present c then -1 else 0.

(** [async_free_result]: split XIDs are clean only after a whole query that
    cleared or used them succeeded. *)
Definition free_query_result (c : query_conn) : query_conn :=
  let c :=
    if qc_xids_dirty c && is_txn_split_wait (qc_wrap c) && wrapper_set_succeeded (qc_wrap c) &&
       negb (is_error_present c)
    then c <| qc_xids_dirty := false |> else c in
  let c :=
    if qc_reset_consumed c
    then (if negb (is_error_present c) then c <| qc_xids_dirty := false |> else c)
           <| qc_reset_consumed := false |>
    else c in
  recycle_result (c <| qc_reset_query_buf := "" |> <| qc_pgsql_result := None |>
    <| qc_new_result := false |>).

End Query.

(** ** Samples *)

(** A connection after a completed query. *)
Definition sample_query_conn (dirty : bool) : query_conn :=
  mkQueryConn dispatch_reset wrap_clear dirty false "" true false reset_error_info None
    (Some new_query_result) None From_libpq None 0 false false false At_end "".

Definition sample_query_env : query_env :=
  mkQueryEnv (mkErrorInfo ERRSEVERITY_FATAL "57P01" "server closed the connection unexpectedly")
    (fun code => code) true true PQTRANS_IDLE sample_rfq None true 4194304 sample_thread 90 4096.

Definition sample_wait_text : string :=
  (build_wrapped_wait_query (Some "SELECT 1")
     (prepare_from_spec (mkWaitSpec WaitType_LSN 800 500 WaitMode_STRICT))
     (polardb_wait_mode_set_statement WaitMode_STRICT)).2.

(** A read whose wrapper was installed: three SETs and a wait. *)
Definition sample_query_world (dirty : bool) : query_world :=
  let q := begin_wait (mkWaitSpec WaitType_LSN 800 500 WaitMode_STRICT) 5 10
             (ss_query (px_session sample_proxy)) in
  mkQueryWorld (sample_query_conn dirty)
    (with_session sample_proxy (fun s => s <| ss_query :=
       q <| qs_dispatch_wrapper_stmts := 3 |>
         <| qs_dispatch_wrapper_kind := Wrapper_CONSISTENCY_WAIT |> |>))
    no_notices [] 0.

Definition set_done : query_op :=
  Op_event [] (Ev_result (Some (mkResult PGRES_COMMAND_OK [] [] [] "SET" "" false [])) [] 0).
Definition rows_done : query_op :=
  Op_event [] (Ev_result (Some (mkResult PGRES_TUPLES_OK [] [mkColumn "v" 0 0 25 (-1) (-1) 0] []
    "SELECT 1" "" false [])) [] 0).
Definition one_row : query_op :=
  Op_event [] (Ev_result (Some (mkResult PGRES_SINGLE_TUPLE [] [mkColumn "v" 0 0 25 (-1) (-1) 0]
    [[Some "1"]] "" "" false [])) [] 0).
Definition no_more : query_op := Op_event [] (Ev_result None [] 0).
