(* ===== verification/ConsumeSafety.v ===== *)
(** * What a query keeps

    Invariants of a query from dispatch to its last result: a wait timeout is
    counted once, split XIDs stay marked until a whole query cleared them, and
    the results skipped are the SETs in front of the client's statement.  The
    lemma [run_query_inv] reduces an invariant to the operations that touch the
    wrapper state or the session. *)

From S2P Require Import Prelude SqlScan Policy Config Session Query SessionState Wrap Failure.
From S2P Require Import Flow Result QueryResult WrapState Notices Consume.
From Stdlib Require Import ZArith Ascii String List Bool Lia.
From stdpp Require Import base tactics list gmap strings.

Open Scope string_scope.
Open Scope Z_scope.
Open Scope polar_scope.

(** ** Invariants of a query *)

(** Nothing that decides about wrappers changed. *)
Record same_control (w w' : query_world) : Prop := {
  sc_wrap : qc_wrap (qw_conn w') = qc_wrap (qw_conn w);
  sc_dirty : qc_xids_dirty (qw_conn w') = qc_xids_dirty (qw_conn w);
  sc_reset : qc_reset_consumed (qw_conn w') = qc_reset_consumed (qw_conn w);
  sc_query : qc_query (qw_conn w') = qc_query (qw_conn w);
  sc_proxy : qw_proxy w' = qw_proxy w;
  sc_counted : qw_counted w' = qw_counted w
}.

Definition same_conn_control (c c' : query_conn) : Prop :=
  qc_wrap c' = qc_wrap c /\ qc_xids_dirty c' = qc_xids_dirty c /\
  qc_reset_consumed c' = qc_reset_consumed c /\ qc_query c' = qc_query c.

Lemma same_on_conn f w : same_conn_control (qw_conn w) (f (qw_conn w)) ->
  same_control w (on_conn f w).
Proof. destruct w; cbn. intros (? & ? & ? & ?). by constructor. Qed.

Lemma same_set_conn c w : same_conn_control (qw_conn w) c -> same_control w (w <| qw_conn := c |>).
Proof. apply (same_on_conn (fun _ => c)). Qed.

Lemma same_on_result f c : same_conn_control c (on_result f c).
Proof. unfold on_result. destruct (qc_result c); [|done]. by destruct c. Qed.

Lemma same_conn_trans a b c :
  same_conn_control a b -> same_conn_control b c -> same_conn_control a c.
Proof.
  intros (? & ? & ? & ?) (? & ? & ? & ?). unfold same_conn_control. repeat split; congruence.
Qed.

(** Fields that decide nothing. *)
Ltac strip_update :=
  match goal with
  | |- same_conn_control ?c (update _ _ ?d) => apply (same_conn_trans c d); [|by destruct d]
  end.

Create HintDb control.
#[export] Hint Resolve same_on_conn same_set_conn same_on_result : control.

Section Invariant.
Context (env : query_env) (P : query_world -> Prop).
Hypothesis P_same : forall w w', same_control w w' -> P w -> P w'.
Hypothesis P_notice : forall r w, P w -> P (notice_handler_cb env r w).
Hypothesis P_error : forall r w, P w -> P (polardb_handle_wrapper_set_error env r w).
Hypothesis P_reset_failed : forall w,
  consuming_txn_split_xids_reset (qc_wrap (qw_conn w)) = true -> P w ->
  P (on_conn (fun c => c <| qc_reusable := false |> <| qc_reset_consumed := false |>) w).
Hypothesis P_consume : forall w c,
  consume_set (qw_conn w) = Some c -> P w -> P (w <| qw_conn := c |>).
Hypothesis P_ready : forall w, P w -> P (ready_status env w).

Lemma inv_on_conn f w : same_conn_control (qw_conn w) (f (qw_conn w)) -> P w -> P (on_conn f w).
Proof. intros H. apply P_same. by apply same_on_conn. Qed.

Lemma inv_set_conn c w : same_conn_control (qw_conn w) c -> P w -> P (w <| qw_conn := c |>).
Proof. apply (inv_on_conn (fun _ => c)). Qed.

Lemma inv_on_result f w : P w -> P (on_conn (on_result f) w).
Proof. apply inv_on_conn, same_on_result. Qed.

Lemma same_use_result_start c : same_conn_control c (use_result_start c).
Proof. unfold use_result_start, init_query_result. destruct c as [? ? ? ? ? ? ? ? ? []]; done. Qed.

Lemma same_recycle c : same_conn_control c (recycle_result c).
Proof. unfold recycle_result. destruct (qc_result c); [|done]. by destruct c. Qed.

Lemma same_PQerror c : same_conn_control c (set_error_from_PQerrorMessage env c).
Proof. by destruct c. Qed.

Lemma same_copy_rows copy c :
  same_conn_control c (fold_left (fun c data => on_result (add_copy_out_row data) c) copy c).
Proof.
  revert c. induction copy as [|d copy IH]; intros c; cbn; [done|].
  eapply same_conn_trans; [apply same_on_result|apply IH].
Qed.

Lemma same_copy_end copy_end c :
  same_conn_control c
    (if copy_end =? -1
     then on_result add_copy_out_response_end c <| qc_is_copy_out := false |>
     else if copy_end <? 0
     then (if is_error_present c then c else set_error_from_PQerrorMessage env c)
            <| qc_is_copy_out := false |>
     else c).
Proof.
  case_if; [|case_if; [|done]]; strip_update.
  - apply same_on_result.
  - case_if; [done|apply same_PQerror].
Qed.

Lemma same_handle_copy_out r copy copy_end c :
  same_conn_control c (handle_copy_out env r copy copy_end c).
Proof.
  unfold handle_copy_out. eapply same_conn_trans; [|apply same_copy_end].
  eapply same_conn_trans; [|apply same_copy_rows]. case_if; [|done].
  repeat strip_update. apply same_on_result.
Qed.

Lemma same_tuples r c : same_conn_control c (tuples_result r c).
Proof.
  unfold tuples_result. eapply same_conn_trans; [|apply same_on_result]. case_if; [|done].
  repeat strip_update. apply same_on_result.
Qed.

Lemma same_error_from_result r c : same_conn_control c (set_error_from_result env r c).
Proof.
  unfold set_error_from_result. destruct (PQresultErrorField r "C");
    [by destruct c|apply same_PQerror].
Qed.

Lemma inv_error_result r w w' : P w -> error_result env r w = Some w' -> P w'.
Proof.
  intros Hw. unfold error_result. case_if; [by intros [= <-]|]. case_if; [done|].
  intros [= <-]. assert (P (polardb_handle_wrapper_set_error env r
    (on_conn (set_error_from_result env r) w))) as H
    by (apply P_error, inv_on_conn; [apply same_error_from_result|done]).
  case_if; [by apply inv_on_result|done].
Qed.

Lemma inv_switch r copy copy_end w w' next :
  P w -> switch_result env r copy copy_end w = Some (w', next) -> P w'.
Proof.
  intros Hw. unfold switch_result.
  destruct (pr_status r);
    try (destruct (error_result env r w) as [w1|] eqn:E; cbn; [|done]; intros [= <- _];
         by apply (inv_error_result r w));
    intros [= <- _]; try done; try (by apply inv_on_result);
    apply inv_on_conn; try done; try apply same_tuples; try apply same_handle_copy_out;
    by destruct (qw_conn w).
Qed.

Lemma inv_failed_set r w : P w -> P (failed_set env r w).
Proof. intros Hw. unfold failed_set. apply P_error. case_if; [by apply P_reset_failed|done]. Qed.

Lemma inv_libpq_result r copy copy_end w w' next :
  P w -> libpq_result env r copy copy_end w = Some (w', next) -> P w'.
Proof.
  intros Hw. unfold libpq_result. case_if.
  { destruct (consume_set (qw_conn w)) as [c|] eqn:E'; cbn; [|done]. intros [= <- _]. eauto. }
  set (w1 := if _ : bool then failed_set env r w else w).
  assert (P w1) as Hw1 by (subst w1; case_if; [by apply inv_failed_set|done]).
  clearbody w1. case_if; [|by apply inv_switch]. intros [= <- _]. apply inv_on_conn; [|done].
  eapply same_conn_trans; [|apply same_on_result]. by destruct (qw_conn w1).
Qed.

Lemma inv_use_result copy copy_end w w' next :
  P w -> use_result env copy copy_end w = Some (w', next) -> P w'.
Proof.
  intros Hw. unfold use_result. destruct (qc_result_type (qw_conn w)).
  - done.
  - destruct (qc_pgsql_result (qw_conn w)); [|by intros [= <- _]].
    apply inv_libpq_result, inv_on_conn; [by destruct (qw_conn w)|done].
  - destruct (qc_ps_result (qw_conn w)) as [ps|]; [|done]. case_if; [|done].
    intros [= <- _]. by apply inv_on_result.
  - case_if; [done|]. intros [= <- _]. apply inv_on_conn; [by destruct (qw_conn w)|done].
Qed.

Lemma inv_tail w w' : P w -> results_tail env w = Some w' -> P w'.
Proof.
  intros Hw. unfold results_tail. destruct (qc_result (qw_conn w)) as [qr|]; [|done].
  case_if; [|cbn; intros [= <-]; by apply P_ready]. case_if; [done|].
  destruct (missing_result_error env (qw_conn w)); cbn; [|done]. intros [= <-].
  by apply P_ready, inv_on_result.
Qed.

Lemma inv_after next w w' : P w -> after_pass env next w = Some w' -> P w'.
Proof.
  intros Hw. destruct next; cbn [after_pass].
  - by intros [= <-].
  - intros [= <-]. apply inv_on_conn; [by destruct (qw_conn w)|done].
  - intros [= <-]. apply inv_on_conn; [apply same_use_result_start|done].
  - destruct (results_tail env w) as [w1|] eqn:E; cbn; [|done]. intros [= <-].
    apply inv_on_conn; [by destruct (qw_conn w1)|]. by apply (inv_tail w).
  - intros [= <-]. apply inv_on_conn; [by destruct (qw_conn w)|done].
Qed.

Lemma inv_flush w : P w -> P (flush_notices w).
Proof. apply P_same. by destruct w. Qed.

Lemma inv_hand_over w : P w -> P (hand_over w).
Proof.
  intros Hw. unfold hand_over. destruct (qc_result (qw_conn w)) as [qr|]; [|done].
  destruct (get_resultset qr) as [[c blocks] q]. apply inv_on_conn; [by destruct w, qw_conn|].
  revert Hw. apply P_same. by destruct w.
Qed.

Lemma inv_wire w w' : P w -> PgSQL_Result_to_PgSQL_wire env w = Some w' -> P w'.
Proof.
  intros Hw. unfold PgSQL_Result_to_PgSQL_wire.
  assert (forall w', (e ← missing_result_error env (qw_conn w);
    Some (w <| qw_out := (qw_out w ++ [(e ++ ready_packet)%list])%list |>)) = Some w' ->
    P w') as He.
  { intros w''. destruct (missing_result_error env (qw_conn w)); cbn; [|done]. intros [= <-].
    revert Hw. apply P_same. by destruct w. }
  destruct (qc_result (qw_conn w)); [|apply He]. case_if; [apply He|].
  intros [= <-]. by apply inv_hand_over, inv_flush.
Qed.

Lemma inv_stream w : P w -> P (stream_output env w).
Proof.
  intros Hw. unfold stream_output. destruct (qc_result (qw_conn w)); [|done]. case_if; [|done].
  apply inv_hand_over. case_if; [done|by apply inv_flush].
Qed.

Lemma inv_notices notices : forall w,
  P w -> P (fold_left (fun w r => notice_handler_cb env r w) notices w).
Proof. induction notices as [|r l IH]; intros w Hw; cbn; [done|]. by apply IH, P_notice. Qed.

Lemma same_fetch ev c : same_conn_control c (fetch_result_cont env ev c).2.
Proof.
  unfold fetch_result_cont. destruct (qc_pgsql_result c); [done|]. destruct ev; cbn [snd].
  - done.
  - case_if; [done|apply same_PQerror].
  - by destruct c.
  - by destruct c.
  - unfold add_row_run. repeat strip_update. apply same_on_result.
Qed.

Lemma inv_deliver notices ev w w' : P w -> deliver env notices ev w = Some w' -> P w'.
Proof.
  intros Hw. unfold deliver. set (ce := match ev with Ev_result _ c e => (c, e) | _ => ([], 0) end).
  destruct ce as [copy copy_end] eqn:Ece.
  destruct (one_event env notices ev w) as [w1|] eqn:E1; cbn; [|done].
  assert (P w1) as Hw1.
  { revert E1. unfold one_event. case_if; [by intros [= <-]|]. fold ce. rewrite Ece.
    set (w0 := fold_left _ notices w). assert (P w0) as Hw0 by by apply inv_notices.
    pose proof (same_fetch ev (qw_conn w0)) as Hf. clearbody w0.
    destruct (fetch_result_cont env ev (qw_conn w0)) as [ready c]. cbn [snd] in Hf.
    apply inv_set_conn in Hf; [|done]. case_if; [by intros [= <-]|].
    destruct (use_result env copy copy_end _) as [[w2 next]|] eqn:E2; cbn; [|done].
    apply inv_after. by apply (inv_use_result copy copy_end _ w2 next Hf). }
  unfold next_statement. case_if; [by intros [= <-]|]. unfold statement_end.
  destruct (PgSQL_Result_to_PgSQL_wire env _) as [w2|] eqn:E2; cbn; [|done].
  assert (P w2) as Hw2.
  { revert E2. apply inv_wire, inv_on_conn; [by destruct (qw_conn w1)|done]. }
  destruct (use_result env copy copy_end _) as [[w3 next]|] eqn:E3; cbn; [|done].
  apply inv_after. eapply inv_use_result, E3. apply inv_on_conn; [|done].
  eapply same_conn_trans; [apply same_recycle|apply same_use_result_start].
Qed.

Lemma inv_rows rows : forall w w',
  match w with Some w => P w | None => True end ->
  fold_left (fun w ps => w ← w; deliver env [] (Ev_raw_row ps) w) rows w = Some w' -> P w'.
Proof.
  induction rows as [|ps rows IH]; intros w w' Hw; cbn [fold_left]; [intros ->; exact Hw|].
  apply IH. destruct w as [w|]; cbn [mbind option_bind]; [|exact I].
  destruct (deliver env [] (Ev_raw_row ps) w) as [w1|] eqn:E; [|exact I].
  by apply (inv_deliver [] (Ev_raw_row ps) w).
Qed.

(** An invariant of the operations above is an invariant of a query. *)
Lemma run_query_inv ops : forall w w', P w -> run_query env ops w = Some w' -> P w'.
Proof.
  induction ops as [|op ops IH]; intros w w' Hw; cbn [run_query]; [by intros [= <-]|].
  destruct (query_step env w op) as [w1|] eqn:E; cbn; [|done]. apply IH.
  destruct op as [notices ev|owner rows|]; cbn [query_step] in E.
  - by apply (inv_deliver notices ev w).
  - case_if_in E; [by apply (inv_deliver [] (Ev_row_run owner rows) w)|].
    by apply (inv_rows rows (Some w)).
  - injection E as <-. case_if; [by apply inv_stream|done].
Qed.

End Invariant.

(** ** The wait timers *)

(** Waits started and not yet accounted. *)
Definition open_waits (s : PgSQL_Session) : Z :=
  (if wst_wait_started_at_us (qs_wait (ss_query s)) =? 0 then 0 else 1) +
  (if tr_wait_start_us (ss_reader s) =? 0 then 0 else 1).

Definition wait_timers (s : PgSQL_Session) : Z * Z :=
  (wst_wait_started_at_us (qs_wait (ss_query s)), tr_wait_start_us (ss_reader s)).

Lemma timers_open s s' : wait_timers s' = wait_timers s -> open_waits s' = open_waits s.
Proof. unfold wait_timers, open_waits. by intros [= -> ->]. Qed.

Lemma open_waits_nonneg s : 0 <= open_waits s.
Proof. unfold open_waits. do 2 case_match; lia. Qed.

Lemma isolation_timers conn s :
  wait_timers (polardb_apply_backend_isolation_status conn s) = wait_timers s.
Proof.
  unfold polardb_apply_backend_isolation_status. destruct conn as [c|]; [|done].
  assert (forall s, wait_timers (polardb_note_txn_non_read_committed s) = wait_timers s) as Hn.
  { intros s0. unfold polardb_note_txn_non_read_committed. by destruct s0. }
  assert (forall s0, wait_timers
    match rq_current_isolation c with
    | None | Some EmptyString => s0
    | Some v => if rq_in_transaction c && negb (polardb_value_is_read_committed (Some v))
                then polardb_note_txn_non_read_committed s0 else s0
    end = wait_timers s0) as Hc.
  { intros s0. destruct (rq_current_isolation c) as [[|]|]; try done. by case_if. }
  rewrite Hc. destruct (rq_default_isolation c) as [[|]|]; try done;
    unfold wait_timers; by simpl_upd.
Qed.

Lemma ready_lsn_timers th m processing conn payload lsn policy s :
  wait_timers (polardb_prepare_client_ready_lsn th m processing conn payload lsn policy s).2 =
    wait_timers s.
Proof.
  assert (forall k, wait_timers (s <| ss_query := ss_query s <| qs_keep_session_lsn := k |> |>) =
                    wait_timers s) as Hk
    by (intros k; unfold wait_timers; by simpl_upd).
  unfold polardb_prepare_client_ready_lsn. cbv zeta.
  case_if; [apply Hk|]. case_if; [done|].
  destruct (response_scope _ _ _ _) as [a b]. case_if; [apply Hk|].
  repeat case_match; apply Hk.
Qed.

Lemma account_wait_opens now p p' counted :
  polardb_account_wait_timeout now p = (p', counted) ->
  open_waits (px_session p') + (if counted then 1 else 0) = open_waits (px_session p).
Proof.
  unfold polardb_account_wait_timeout. case_if; [intros [= <- <-]; lia|].
  case_if; [intros [= <- <-]; lia|]. intros [= <- <-]. unfold polardb_finish_wait. rewrite E0.
  unfold open_waits. cbn [px_session]. simpl_upd. rewrite E0. cbn. destruct (_ =? 0); lia.
Qed.

Lemma account_split_opens s s' counted :
  polardb_account_txn_split_wait_timeout s = (counted, s') ->
  open_waits s' + (if counted then 1 else 0) = open_waits s.
Proof.
  unfold polardb_account_txn_split_wait_timeout. destruct (negb _ || _) eqn:E.
  - intros [= <- <-]. lia.
  - intros [= <- <-]. apply orb_false_elim in E as [_ E].
    unfold polardb_record_txn_split_wait_latency, open_waits. simpl_upd. rewrite E.
    simpl_upd. cbn. destruct (_ =? 0); lia.
Qed.

(** Timeouts counted and waits still open. *)
Definition wait_sum (w : query_world) : Z :=
  qw_counted w + open_waits (px_session (qw_proxy w)).

Lemma notice_sum env r w : wait_sum (notice_handler_cb env r w) = wait_sum w.
Proof.
  unfold notice_handler_cb.
  set (o := polardb_handle_lsn_wait_timeout_notice _ _ _ _ _ _ _ _).
  assert ((if no_counted o then 1 else 0) + open_waits (px_session (no_proxy o)) =
          open_waits (px_session (qw_proxy w))) as Ho.
  { subst o. unfold polardb_handle_lsn_wait_timeout_notice. do 3 (case_if; [done|]).
    set (acc := if polardb_txn_split_read_active _ then _ else _).
    assert ((if acc.1 then 1 else 0) + open_waits (px_session acc.2) =
            open_waits (px_session (qw_proxy w))) as Ha.
    { subst acc. case_if.
      - destruct (polardb_account_txn_split_wait_timeout _) as [c s] eqn:Ea. cbn.
        apply account_split_opens in Ea. lia.
      - destruct (polardb_account_wait_timeout _ _) as [p c] eqn:Ea. cbn.
        apply account_wait_opens in Ea. lia. }
    destruct acc as [counted p]. cbn in Ha.
    destruct (negb (wait_notice_uses_session_queue _ || _)); [exact Ha|].
    destruct (polardb_enqueue_result_notice _ _ _). exact Ha. }
  clearbody o. unfold wait_sum.
  destruct (no_owned o); unfold on_conn; cbn; simpl_upd; lia.
Qed.

Lemma mark_failed_sum w : wait_sum (mark_failed w) = wait_sum w.
Proof. unfold wait_sum, mark_failed, on_conn. by simpl_upd. Qed.

Lemma count_timeout_sum (counted : bool) p w :
  (if counted then 1 else 0) + open_waits (px_session p) =
    open_waits (px_session (qw_proxy w)) ->
  wait_sum (count_timeout counted p w) = wait_sum w.
Proof. unfold wait_sum, count_timeout. simpl_upd. lia. Qed.

Lemma error_sum env r w : wait_sum (polardb_handle_wrapper_set_error env r w) = wait_sum w.
Proof.
  unfold polardb_handle_wrapper_set_error. case_if; [done|]. cbv zeta.
  set (a := polardb_wrapper_error_accounting _ _ _ _). clearbody a.
  set (split := _ && (_ && polardb_is_lsn_wait_timeout_result _)). clearbody split.
  case_if.
  - set (w1 := if split then _ else w).
    assert (wait_sum w1 = wait_sum w) as H1.
    { subst w1. destruct split; [|done].
      destruct (polardb_account_txn_split_wait_timeout _) as [c s] eqn:Ea.
      apply account_split_opens in Ea. apply count_timeout_sum. cbn. lia. }
    clearbody w1. case_if; [rewrite mark_failed_sum|]; exact H1.
  - set (w1 := if wea_mark_timeout_error a then _ else w).
    assert (wait_sum w1 = wait_sum w) as H1.
    { subst w1. case_if; [|done]. unfold wait_sum, open_waits. simpl_upd. cbn. by simpl_upd. }
    clearbody w1.
    set (w2 := if wea_account_wait_timeout a then _ else w1).
    assert (wait_sum w2 = wait_sum w) as H2.
    { subst w2. case_if; [|done].
      destruct (polardb_account_wait_timeout _ _) as [p c] eqn:Ea.
      apply account_wait_opens in Ea. rewrite <- H1. apply count_timeout_sum. lia. }
    clearbody w2. case_if; [rewrite mark_failed_sum|]; exact H2.
Qed.

Lemma ready_sum env w : wait_sum (ready_status env w) = wait_sum w.
Proof.
  unfold ready_status. set (view := rfq_view env (qw_conn w)).
  set (s := if qs_backend_isolation_status_needed _ then _ else _).
  assert (wait_timers s = wait_timers (px_session (qw_proxy w))) as Hs
    by (subst s; case_if; [apply isolation_timers|done]).
  clearbody s. pose proof (ready_lsn_timers (qe_thread env) (px_hgm (qw_proxy w)) true (Some view)
    (rq_payload_present view) (if rq_payload_present view then rq_lsn view else 0)
    Deferred_NONE s) as Hr.
  destruct (polardb_prepare_client_ready_lsn _ _ _ _ _ _ _ s) as [lsn s2]. cbn in Hr.
  unfold wait_sum, on_conn. simpl_upd. cbn.
  rewrite (timers_open (px_session (qw_proxy w)) s2); congruence.
Qed.

Lemma conn_sum f w : wait_sum (on_conn f w) = wait_sum w.
Proof. unfold wait_sum, on_conn. by simpl_upd. Qed.

Lemma dispatch_sum stmt w : wait_sum (async_query_idle stmt w) = wait_sum w.
Proof.
  unfold async_query_idle. cbv zeta. destruct (if _ && _ then _ else _) as [c text].
  unfold wait_sum. simpl_upd. f_equal. destruct (0 <? _); [|done].
  apply timers_open. unfold with_session, wait_timers, reset_dispatch_wrapper. cbn [px_session].
  by simpl_upd.
Qed.

(** A wait is counted as timed out at most once.  However often the backend
    reports the timeout of a query, in notices and in errors, before and after
    its wrapper results, each timeout counted closes a wait that was open: a
    request that started one wait adds at most one. *)
Theorem wait_timeout_counted_once env stmt ops w w' :
  async_query env stmt ops w = Some w' ->
  qw_counted w' + open_waits (px_session (qw_proxy w')) =
    qw_counted w + open_waits (px_session (qw_proxy w)) /\
  qw_counted w' - qw_counted w <= open_waits (px_session (qw_proxy w)).
Proof.
  intros H. assert (wait_sum w' = wait_sum w) as Hs.
  { apply (run_query_inv env (fun v => wait_sum v = wait_sum w)) in H; [done|..].
    - intros v v' Hc <-. unfold wait_sum. by rewrite (sc_proxy _ _ Hc), (sc_counted _ _ Hc).
    - intros r v <-. apply notice_sum.
    - intros r v <-. apply error_sum.
    - intros v _ <-. apply conn_sum.
    - intros v c _ <-. unfold wait_sum. by simpl_upd.
    - intros v <-. apply ready_sum.
    - by rewrite conn_sum, dispatch_sum. }
  pose proof (open_waits_nonneg (px_session (qw_proxy w'))). unfold wait_sum in Hs. lia.
Qed.

(** Two notices report the same wait. *)
Definition sample_timed_out : list query_op :=
  [set_done; set_done; set_done; Op_event [sample_notice; sample_notice] Ev_busy; one_row;
   rows_done; no_more].

Lemma wait_timeout_counted_once_witness :
  exists w', async_query sample_query_env sample_wait_text sample_timed_out
               (sample_query_world false) = Some w' /\
    qw_counted w' = 1 /\ open_waits (px_session (qw_proxy w')) = 0 /\
    qw_counted w' - qw_counted (sample_query_world false) <= 1.
Proof.
  destruct (async_query sample_query_env sample_wait_text sample_timed_out
              (sample_query_world false)) as [w'|] eqn:E; [|by vm_compute in E].
  exists w'. split; [done|].
  pose proof (wait_timeout_counted_once _ _ _ _ _ E) as [_ Hle].
  assert (qw_counted w' = 1 /\ open_waits (px_session (qw_proxy w')) = 0) as [? ?].
  { vm_compute in E. injection E as <-. by vm_compute. }
  split; [done|]. split; [done|]. exact Hle.
Defined.

(** ** Split XIDs *)

(** The first SET of the text sent clears the split XIDs exactly where its result
    is expected. *)
Record xids_inv (stmt : string) (dirty : bool) (w : query_world) : Prop := {
  xi_dirty : qc_xids_dirty (qw_conn w) = dirty;
  xi_text : wr_txn_split_xids_reset_pending (qc_wrap (qw_conn w)) = true \/
            qc_reset_consumed (qw_conn w) = true ->
            qc_query (qw_conn w) = split_xids_reset_prefix ++ stmt
}.

Lemma xids_same_conn stmt dirty w w' :
  qc_xids_dirty (qw_conn w') = qc_xids_dirty (qw_conn w) ->
  qc_reset_consumed (qw_conn w') = qc_reset_consumed (qw_conn w) ->
  qc_query (qw_conn w') = qc_query (qw_conn w) ->
  (wr_txn_split_xids_reset_pending (qc_wrap (qw_conn w')) = true ->
   wr_txn_split_xids_reset_pending (qc_wrap (qw_conn w)) = true) ->
  xids_inv stmt dirty w -> xids_inv stmt dirty w'.
Proof.
  intros Hd Hr Hq Hp [H1 H2]. constructor; [congruence|]. rewrite Hr, Hq. naive_solver.
Qed.

Lemma notice_conn env r w :
  qw_conn (notice_handler_cb env r w) = qw_conn w \/
  qw_conn (notice_handler_cb env r w) = on_result (add_notice r) (qw_conn w).
Proof. unfold notice_handler_cb. cbv zeta. destruct (no_owned _); [left|right];
  unfold on_conn; by simpl_upd. Qed.

(** What the error handler leaves of the connection. *)
Lemma error_conn env r w :
  qw_conn (polardb_handle_wrapper_set_error env r w) = qw_conn w \/
  qw_conn (polardb_handle_wrapper_set_error env r w) =
    qw_conn w <| qc_wrap := mark_wrapper_set_failed (qc_wrap (qw_conn w)) |>.
Proof.
  unfold polardb_handle_wrapper_set_error. cbv zeta. destruct (negb _); [by left|].
  assert (forall b w1, qw_conn w1 = qw_conn w ->
    qw_conn (if b : bool then mark_failed w1 else w1) = qw_conn w \/
    qw_conn (if b then mark_failed w1 else w1) =
      qw_conn w <| qc_wrap := mark_wrapper_set_failed (qc_wrap (qw_conn w)) |>) as Hm.
  { intros [|] w1 E; [right|by left]. unfold mark_failed, on_conn. simpl_upd. by rewrite E. }
  destruct (negb (polardb_wait_active _)); apply Hm.
  - destruct (_ && (_ && _)); [|done]. destruct (polardb_account_txn_split_wait_timeout _).
    unfold count_timeout. by simpl_upd.
  - destruct (wea_account_wait_timeout _); [destruct (polardb_account_wait_timeout _ _)|];
      unfold count_timeout; destruct (wea_mark_timeout_error _); by simpl_upd.
Qed.

Lemma error_xids env stmt dirty r w :
  xids_inv stmt dirty w -> xids_inv stmt dirty (polardb_handle_wrapper_set_error env r w).
Proof.
  destruct (error_conn env r w) as [E|E]; apply xids_same_conn; rewrite E; try done;
    unfold mark_wrapper_set_failed; by simpl_upd.
Qed.

Lemma consume_xids stmt dirty w c :
  consume_set (qw_conn w) = Some c -> xids_inv stmt dirty w ->
  xids_inv stmt dirty (w <| qw_conn := c |>).
Proof.
  unfold consume_set. destruct (consume_wrapper_result _) as [[reset wrap]|] eqn:E; cbn; [|done].
  intros [= <-] [Hd Ht]. apply consume_result_cases in E as (Hp & Hr & ->).
  set (c := qw_conn w) in *.
  assert (consuming_txn_split_xids_reset (qc_wrap c) = true ->
          wr_txn_split_xids_reset_pending (qc_wrap c) = true) as Hc
    by (unfold consuming_txn_split_xids_reset; intros H; by bool_to_prop).
  set (c1 := if reset then _ else _).
  destruct (same_recycle c1) as (Hw & Hx & Hs & Hq).
  constructor; simpl_upd; rewrite ?Hw, ?Hx, ?Hs, ?Hq; subst c1; destruct reset; simpl_upd;
    try done.
  intros _. apply Ht. left. by apply Hc.
Qed.

Lemma same_send env c : same_conn_control (query_start env c) (send_query env c).
Proof.
  unfold send_query, set_single_row_mode. destruct (is_error_present _);
    [by destruct (query_start env c)|].
  destruct (qe_single_row_ok env); [apply same_use_result_start|].
  by destruct (query_start env c).
Qed.

(** What the dispatch announced becomes the countdown. *)
Lemma query_start_wrap env c :
  qc_query (query_start env c) = qc_query c /\
  qc_xids_dirty (query_start env c) = qc_xids_dirty c /\
  qc_reset_consumed (query_start env c) = qc_reset_consumed c /\
  qc_wrap (query_start env c) =
    (if 0 <? ds_wrapper_stmts (qc_dispatch c)
     then wrap_begin (ds_wrapper_stmts (qc_dispatch c)) (ds_wrapper_kind (qc_dispatch c))
            (ds_txn_split_xids_reset (qc_dispatch c))
     else wrap_clear).
Proof.
  unfold query_start. cbv zeta. destruct (qe_send_ok env);
    unfold set_error_from_PQerrorMessage; by simpl_upd.
Qed.

Lemma dispatch_xids env stmt w :
  qc_reset_consumed (qw_conn w) = false ->
  xids_inv stmt (qc_xids_dirty (qw_conn w)) (on_conn (send_query env) (async_query_idle stmt w)).
Proof.
  intros Hr. set (w0 := async_query_idle stmt w).
  assert (qc_xids_dirty (qw_conn w0) = qc_xids_dirty (qw_conn w) /\
          qc_reset_consumed (qw_conn w0) = false /\
          (ds_txn_split_xids_reset (qc_dispatch (qw_conn w0)) = true ->
           qc_query (qw_conn w0) = split_xids_reset_prefix ++ stmt)) as (Hd & Hc & Ht).
  { subst w0. unfold async_query_idle, reset_dirty_xids. cbv zeta.
    destruct (_ && _); simpl_upd; [done|]. by destruct (0 <? _); simpl_upd. }
  clearbody w0. rewrite <- Hd. destruct w0 as [c p q o n]; cbn in *.
  destruct (same_send env c) as (Hw & Hx & Hs & Hq).
  destruct (query_start_wrap env c) as (H3 & H1 & H2 & H4).
  constructor; unfold on_conn; simpl_upd; cbn [qw_conn]; [congruence|].
  rewrite Hw, Hs, Hq, H2, H3, H4. intros [H|H]; [|congruence]. apply Ht. revert H.
  unfold wrap_begin. by destruct (0 <? _).
Qed.

(** The mark after a query, in one condition. *)
Lemma freed_dirty c :
  qc_xids_dirty (free_query_result c) =
    qc_xids_dirty c &&
    (is_error_present c ||
     negb ((is_txn_split_wait (qc_wrap c) && wrapper_set_succeeded (qc_wrap c)) ||
           qc_reset_consumed c)).
Proof.
  unfold free_query_result. rewrite (proj1 (proj2 (same_recycle _))). simpl_upd.
  destruct (qc_xids_dirty c) eqn:Ed, (is_txn_split_wait (qc_wrap c)),
    (wrapper_set_succeeded (qc_wrap c)), (is_error_present c) eqn:Ee; cbn [andb orb negb];
    simpl_upd; destruct (qc_reset_consumed c); unfold is_error_present in *; simpl_upd;
    rewrite ?Ee, ?Ed; cbn [negb]; simpl_upd; by rewrite ?Ed.
Qed.

(** C32: A connection marked as holding the XIDs of a transaction split loses the
    mark only after a query that ended without an error and that either replaced
    the XIDs itself, all its SETs done, or was sent with the reset in front and
    had the reset's result consumed.  A query that fails, or whose reset failed,
    leaves the mark for the next one.  (The reset of a whole connection clears
    the mark as well; it is no part of a query.) *)
Theorem dirty_xids_cleared_only_by_success env stmt ops w w' :
  async_query env stmt ops w = Some w' ->
  qc_reset_consumed (qw_conn w) = false ->
  qc_xids_dirty (qw_conn w) = true ->
  let c := qw_conn w' in
  qc_xids_dirty (free_query_result c) = false ->
  query_result_code c = 0 /\
  ((is_txn_split_wait (qc_wrap c) = true /\ wrapper_set_succeeded (qc_wrap c) = true) \/
   (qc_query c = split_xids_reset_prefix ++ stmt /\ qc_reset_consumed c = true)).
Proof.
  intros H Hr Hd c. assert (xids_inv stmt true w') as [Hdirty Htext].
  { revert H. apply run_query_inv.
    - intros v v' Hc. apply xids_same_conn;
        rewrite ?(sc_wrap _ _ Hc), ?(sc_dirty _ _ Hc), ?(sc_reset _ _ Hc), ?(sc_query _ _ Hc); done.
    - intros r v. destruct (notice_conn env r v) as [E|E]; [by apply xids_same_conn; rewrite E|].
      destruct (same_on_result (add_notice r) (qw_conn v)) as (?&?&?&?).
      apply xids_same_conn; rewrite E; congruence.
    - intros r v. apply error_xids.
    - intros v _ [H1 H2]. constructor; unfold on_conn; simpl_upd; naive_solver.
    - intros v c0. apply consume_xids.
    - intros v. unfold ready_status. destruct (polardb_prepare_client_ready_lsn _ _ _ _ _ _ _ _).
      destruct (same_on_result (add_ready_status (qe_txn_status env) o) (qw_conn v)) as (?&?&?&?).
      apply xids_same_conn; unfold on_conn; simpl_upd; congruence.
    - rewrite <- Hd. by apply dispatch_xids. }
  fold c in Hdirty, Htext. rewrite freed_dirty, Hdirty. unfold query_result_code.
  cbn [andb]. intros H'. destruct (is_error_present c); [done|]. split; [done|].
  cbn [orb] in H'. apply negb_false_iff, orb_true_iff in H' as [H'|H'].
  - left. by apply andb_prop in H'.
  - right. split; [|done]. apply Htext. by right.
Qed.

Definition sample_dirty_run : list query_op :=
  [set_done; set_done; set_done; set_done; one_row; rows_done; no_more].

Lemma dirty_xids_cleared_only_by_success_witness :
  exists w', async_query sample_query_env sample_wait_text sample_dirty_run
               (sample_query_world true) = Some w' /\
    qc_xids_dirty (free_query_result (qw_conn w')) = false /\
    ((is_txn_split_wait (qc_wrap (qw_conn w')) = true /\
      wrapper_set_succeeded (qc_wrap (qw_conn w')) = true) \/
     (qc_query (qw_conn w') = split_xids_reset_prefix ++ sample_wait_text /\
      qc_reset_consumed (qw_conn w') = true)).
Proof.
  destruct (async_query sample_query_env sample_wait_text sample_dirty_run
              (sample_query_world true)) as [w'|] eqn:E; [|by vm_compute in E].
  exists w'. split; [done|].
  assert (qc_xids_dirty (free_query_result (qw_conn w')) = false) as Hc.
  { vm_compute in E. injection E as <-. by vm_compute. }
  split; [exact Hc|].
  exact (proj2 (dirty_xids_cleared_only_by_success _ _ _ _ _ E eq_refl eq_refl Hc)).
Defined.

(** ** The results skipped *)

Lemma reset_prefix_reads n text sets user :
  read_sets n text = Some (sets, user) ->
  read_sets (S n) (split_xids_reset_prefix ++ text) =
    Some (("polar_xact_split_xids", "") :: sets, user).
Proof.
  intros H. rewrite (read_sets_cons n ("polar_xact_split_xids", "") _ text);
    [by rewrite H|apply (read_xids_set "")].
Qed.

(** C23: The results a connection skips are exactly the SETs in front of the
    client's statement in the text it sends.  Reading the text as the backend
    does yields the announced settings, after the reset of the split XIDs when
    the connection is marked and the query does not replace them, and what is
    left is the client's statement. *)
Theorem skip_count_matches_text env stmt w sets user :
  let q := ss_query (px_session (qw_proxy w)) in
  let n := qs_dispatch_wrapper_stmts q in
  0 <= n < U32_MODULUS - 1 ->
  read_sets (Z.to_nat n) stmt = Some (sets, user) ->
  let c := send_query env (qw_conn (async_query_idle stmt w)) in
  let reset := qc_xids_dirty (qw_conn w) &&
               negb ((0 <? n) && (qs_dispatch_wrapper_kind q == Wrapper_TXN_SPLIT_WAIT)) in
  read_sets (Z.to_nat (wr_stmt_pending (qc_wrap c))) (qc_query c) =
    Some ((if reset then [("polar_xact_split_xids", "")] else []) ++ sets, user)%list /\
  wr_txn_split_xids_reset_pending (qc_wrap c) = reset.
Proof.
  cbv zeta. set (q := ss_query (px_session (qw_proxy w))).
  set (n := qs_dispatch_wrapper_stmts q). intros Hn Hread.
  set (c0 := qw_conn (async_query_idle stmt w)).
  set (reset := qc_xids_dirty (qw_conn w) && _).
  assert (ds_wrapper_stmts (qc_dispatch c0) = n + (if reset then 1 else 0) /\
          ds_txn_split_xids_reset (qc_dispatch c0) = reset /\
          qc_query c0 = (if reset then split_xids_reset_prefix ++ stmt else stmt))
    as (H1 & H2 & H3).
  { subst c0 reset. unfold async_query_idle, reset_dirty_xids. cbv zeta. fold q. fold n.
    destruct (Z.ltb_spec 0 n).
    - simpl_upd. cbn [ds_wrapper_kind ds_wrapper_stmts andb].
      destruct (qc_xids_dirty (qw_conn w) && _); simpl_upd; cbn [ds_wrapper_stmts];
        [|split; [lia|done]].
      unfold POLARDB_TXN_SPLIT_RESET_WRAPPER_SET_COUNT. split; [|done].
      apply wrap32_id. unfold is_u32. lia.
    - assert (n = 0) as -> by lia. simpl_upd. rewrite andb_true_r.
      change (ds_wrapper_kind dispatch_reset != Wrapper_TXN_SPLIT_WAIT) with true.
      rewrite andb_true_r. by destruct (qc_xids_dirty (qw_conn w)); simpl_upd. }
  destruct (same_send env c0) as (Hw & _ & _ & Hq). rewrite Hw, Hq.
  destruct (query_start_wrap env c0) as (-> & _ & _ & ->). rewrite H1, H2, H3. clearbody reset.
  destruct (Z.ltb_spec 0 (n + if reset then 1 else 0)) as [Hp|Hp]; cbn [wrap_begin wr_stmt_pending].
  - unfold wrap_begin. rewrite (proj2 (Z.ltb_lt _ _)) by done. cbn. split; [|done].
    destruct reset; [|by rewrite Z.add_0_r].
    replace (Z.to_nat (n + 1)) with (S (Z.to_nat n)) by lia. by apply reset_prefix_reads.
  - destruct reset; [lia|]. assert (n = 0) as Hz by lia. rewrite Hz in Hread. done.
Qed.

Lemma skip_count_matches_text_witness :
  let c := send_query sample_query_env
             (qw_conn (async_query_idle sample_wait_text (sample_query_world true))) in
  wr_stmt_pending (qc_wrap c) = 4 /\
  exists sets, (read_sets (Z.to_nat (wr_stmt_pending (qc_wrap c))) (qc_query c) =
                  Some (sets, "SELECT 1")).
Proof.
  assert (read_sets 3 sample_wait_text =
    Some (wait_settings (mkWaitSpec WaitType_LSN 800 500 WaitMode_STRICT), "SELECT 1")) as Hr
    by (by vm_compute).
  split; [by vm_compute|]. eexists.
  refine (proj1 (skip_count_matches_text sample_query_env sample_wait_text
    (sample_query_world true) _ _ _ Hr)). by vm_compute.
Defined.

(** ** A backend lost among its rows

    The fetch that fails leaves the source of the fetch before it. *)

Definition sample_lost_run (rows : query_op) : list query_op :=
  [set_done; set_done; set_done; one_row; rows; Op_event [] Ev_input_error].

(** After a run of rows the size of the run is 0 and the assertion fails. *)
Example lost_backend_after_row_run_aborts :
  async_query sample_query_env sample_wait_text
    (sample_lost_run (Op_rows 5 [sample_raw_row 3])) (sample_query_world false) = None.
Proof. vm_compute. reflexivity. Qed.

(** After a row the row is added again. *)
Example lost_backend_after_row_repeats_it :
  let kinds ops :=
    w ← async_query sample_query_env sample_wait_text ops (sample_query_world false);
    qr ← qc_result (qw_conn w); map fst <$> parse_frames (wire qr) in
  let row := Op_event [] (Ev_raw_row (sample_raw_row 3)) in
  kinds [set_done; set_done; set_done; one_row; row] = Some ["T"; "D"; "D"]%char /\
  kinds (sample_lost_run row) = Some ["T"; "D"; "D"; "D"]%char.
Proof. vm_compute. split; reflexivity. Qed.
