(* ===== verification/Transparent.v ===== *)
(** * Wrapper SETs do not show

    A query sent behind wrapper SETs runs, from the first result after them on,
    as the query sent alone: the same results, errors and assertions, and the
    same bytes to the client but for the notices rescued from the SETs and the
    LSN of the final ReadyForQuery.  The proof is a simulation between the
    wrapped run and the plain one. *)

From S2P Require Import Prelude SqlScan Policy Config Session Query SessionState Wrap Failure.
From S2P Require Import Flow Result QueryResult WrapState Notices Consume ConsumeSafety.
From Stdlib Require Import ZArith Ascii String List Bool Lia.
From stdpp Require Import base tactics list gmap strings.

Open Scope string_scope.
Open Scope Z_scope.
Open Scope polar_scope.

(** ** Related connections *)

(** A connection without what concerns wrappers. *)
Definition data_view (c : query_conn) : query_conn :=
  mkQueryConn dispatch_reset wrap_clear false false "" true (qc_multi c) (qc_error c)
    (qc_result c) (qc_reuse c) (qc_pgsql_result c) (qc_result_type c) (qc_ps_result c)
    (qc_row_run_bytes c) (qc_new_result c) (qc_is_copy_out c) (qc_exit_pipeline c)
    (qc_status c) "".

Definition same_data (c d : query_conn) : Prop := data_view c = data_view d.

#[global] Instance same_data_equiv : Equivalence same_data.
Proof. unfold same_data. split; repeat intro; congruence. Qed.

(** An operation that looks at the data only. *)
Definition blind (f : query_conn -> query_conn) : Prop :=
  forall c d, same_data c d -> same_data (f c) (f d).

Ltac split_data H :=
  match type of H with
  | same_data ?c ?d => destruct c, d; unfold same_data, data_view in H; cbn in H;
                       injection H; intros; subst; clear H
  end.

Lemma same_data_fields c d :
  same_data c d ->
  qc_error c = qc_error d /\ qc_result c = qc_result d /\ qc_pgsql_result c = qc_pgsql_result d /\
  qc_result_type c = qc_result_type d /\ qc_ps_result c = qc_ps_result d /\
  qc_row_run_bytes c = qc_row_run_bytes d /\ qc_new_result c = qc_new_result d /\
  qc_is_copy_out c = qc_is_copy_out d /\ qc_exit_pipeline c = qc_exit_pipeline d /\
  qc_status c = qc_status d /\ qc_multi c = qc_multi d.
Proof. intros H. split_data H. repeat split. Qed.

Create HintDb blind.

Lemma blind_error e : blind (fun c => c <| qc_error := e |>).
Proof. intros c d H. by split_data H. Qed.

Lemma blind_pgsql r : blind (fun c => c <| qc_pgsql_result := r |>).
Proof. intros c d H. by split_data H. Qed.

Lemma blind_status s : blind (fun c => c <| qc_status := s |>).
Proof. intros c d H. by split_data H. Qed.

Lemma blind_multi b : blind (fun c => c <| qc_multi := b |>).
Proof. intros c d H. by split_data H. Qed.

Lemma blind_exit b : blind (fun c => c <| qc_exit_pipeline := b |>).
Proof. intros c d H. by split_data H. Qed.

Lemma blind_new b : blind (fun c => c <| qc_new_result := b |>).
Proof. intros c d H. by split_data H. Qed.

Lemma blind_copy b : blind (fun c => c <| qc_is_copy_out := b |>).
Proof. intros c d H. by split_data H. Qed.

Lemma blind_run_bytes n : blind (fun c => c <| qc_row_run_bytes := n |>).
Proof. intros c d H. by split_data H. Qed.

Lemma blind_result_type t : blind (fun c => c <| qc_result_type := t |>).
Proof. intros c d H. by split_data H. Qed.

Lemma blind_ps p : blind (fun c => c <| qc_ps_result := p |>).
Proof. intros c d H. by split_data H. Qed.

Lemma blind_on_result f : blind (on_result f).
Proof.
  intros c d H. unfold on_result.
  pose proof (same_data_fields c d H) as (_ & E & _). rewrite E.
  destruct (qc_result d); [by split_data H|done].
Qed.

Lemma blind_use_result_start : blind use_result_start.
Proof.
  intros c d H. split_data H. unfold use_result_start, init_query_result. cbn.
  by destruct qc_reuse0.
Qed.

Lemma blind_recycle : blind recycle_result.
Proof. intros c d H. split_data H. unfold recycle_result. cbn. by destruct qc_result0. Qed.

Lemma blind_compose f g : blind f -> blind g -> blind (fun c => f (g c)).
Proof. intros Hf Hg c d H. by apply Hf, Hg. Qed.

#[export] Hint Resolve blind_error blind_pgsql blind_status blind_multi blind_exit blind_new
  blind_copy blind_run_bytes blind_result_type blind_ps blind_on_result blind_use_result_start
  blind_recycle : blind.

Section Simulation.
Context (env : query_env).

Lemma blind_PQerror : blind (set_error_from_PQerrorMessage env).
Proof. apply blind_error. Qed.

Lemma blind_error_from_result r : blind (set_error_from_result env r).
Proof.
  unfold set_error_from_result. destruct (PQresultErrorField r "C"); [apply blind_error|].
  apply blind_PQerror.
Qed.

Lemma same_error_present c d : same_data c d -> is_error_present c = is_error_present d.
Proof.
  intros H. unfold is_error_present. by rewrite (proj1 (same_data_fields c d H)).
Qed.

Lemma blind_copy_rows copy :
  blind (fun c => fold_left (fun c data => on_result (add_copy_out_row data) c) copy c).
Proof.
  induction copy as [|x copy IH]; intros c d H; cbn; [done|]. by apply IH, blind_on_result.
Qed.

Lemma blind_keep_error :
  blind (fun c => if is_error_present c then c else set_error_from_PQerrorMessage env c).
Proof.
  intros c d H. rewrite (same_error_present c d H). case_if; [done|by apply blind_PQerror].
Qed.

Lemma blind_handle_copy_out r copy copy_end : blind (handle_copy_out env r copy copy_end).
Proof.
  intros c d H. unfold handle_copy_out.
  assert (qc_new_result c = qc_new_result d) as -> by apply (same_data_fields c d H).
  set (c1 := if qc_new_result d then _ else c). set (d1 := if qc_new_result d then _ else d).
  assert (same_data c1 d1) as H1.
  { subst c1 d1. case_if; [|done]. by apply blind_copy, blind_new, blind_on_result. }
  clearbody c1 d1. apply (blind_copy_rows copy) in H1. cbv beta zeta in *.
  case_if; [by apply blind_copy, blind_on_result|]. case_if; [|done].
  by apply blind_copy, blind_keep_error.
Qed.

Lemma blind_tuples r : blind (tuples_result r).
Proof.
  intros c d H. unfold tuples_result.
  assert (qc_new_result c = qc_new_result d) as -> by apply (same_data_fields c d H).
  apply blind_on_result. case_if; [|done]. by apply blind_new, blind_on_result.
Qed.

Lemma fetch_same ev c d :
  same_data c d ->
  (fetch_result_cont env ev c).1 = (fetch_result_cont env ev d).1 /\
  same_data (fetch_result_cont env ev c).2 (fetch_result_cont env ev d).2.
Proof.
  intros H. unfold fetch_result_cont.
  assert (qc_pgsql_result c = qc_pgsql_result d) as -> by apply (same_data_fields c d H).
  destruct (qc_pgsql_result d); [done|]. destruct ev; cbn; (split; [done|]).
  - done.
  - by apply blind_keep_error.
  - by apply blind_pgsql, blind_result_type.
  - by apply blind_ps, blind_result_type.
  - by apply blind_result_type, blind_run_bytes, blind_on_result.
Qed.

(** ** Related worlds *)

(** What the queue has for the client. *)
Definition pending_bytes (q : notice_queue) : list (list ascii) :=
  map pk_bytes (filter (fun p => length (pk_bytes p) <> 0%nat) (pending_list q)).

(** The client sees the notices [N] once, at the first flush, and otherwise the
    same bytes. *)
Definition same_output (N : list (list ascii)) (w d : query_world) : Prop :=
  pending_bytes (qw_notices d) = [] /\
  ((pending_bytes (qw_notices w) = N /\ qw_out w = qw_out d) \/
   (pending_bytes (qw_notices w) = [] /\
    exists before after, qw_out d = (before ++ after)%list /\
      qw_out w = (before ++ N ++ after)%list)).

(** Fetching has a result to fill. *)
Definition result_ready (c : query_conn) : Prop :=
  qc_status c = At_results -> qc_result c <> None.

(** Both runs are past their wrapper SETs. *)
Record related (N : list (list ascii)) (w d : query_world) : Prop := {
  re_conn : same_data (qw_conn w) (qw_conn d);
  re_wrap : wait_notice_uses_session_queue (qc_wrap (qw_conn w)) = false;
  re_plain : wait_notice_uses_session_queue (qc_wrap (qw_conn d)) = false;
  re_result : result_ready (qw_conn d);
  re_output : same_output N w d
}.

(** Both runs ended; ReadyForQuery may carry another LSN. *)
Record both_ended (N : list (list ascii)) (w d : query_world) : Prop := {
  be_error : qc_error (qw_conn w) = qc_error (qw_conn d);
  be_status : qc_status (qw_conn w) = At_end /\ qc_status (qw_conn d) = At_end;
  be_result : exists qr lsn lsn',
    qc_result (qw_conn w) = Some (add_ready_status (qe_txn_status env) lsn qr) /\
    qc_result (qw_conn d) = Some (add_ready_status (qe_txn_status env) lsn' qr);
  be_output : same_output N w d
}.

Definition same_to_client (N : list (list ascii)) (w d : query_world) : Prop :=
  related N w d \/ both_ended N w d.

Definition next_related (N : list (list ascii)) (p q : query_world * loop_next) : Prop :=
  related N p.1 q.1 /\ p.2 = q.2 /\
  (p.2 <> Next_statement_end \/ qc_result (qw_conn q.1) <> None).

Lemma queue_not_consuming w :
  wait_notice_uses_session_queue w = false -> consuming_wrapper_set w = false.
Proof. unfold wait_notice_uses_session_queue. by destruct (consuming_wrapper_set w). Qed.

Lemma output_append N out w d w' d' :
  qw_notices w' = qw_notices w -> qw_notices d' = qw_notices d ->
  qw_out w' = (qw_out w ++ out)%list -> qw_out d' = (qw_out d ++ out)%list ->
  same_output N w d -> same_output N w' d'.
Proof.
  unfold same_output. intros -> -> -> ->. intros [Hd [[Hw E]|[Hw (a & b & E1 & E2)]]];
    (split; [done|]).
  - left. by rewrite E.
  - right. split; [done|]. exists a, (b ++ out)%list. rewrite E1, E2. by rewrite <- !app_assoc.
Qed.

Lemma output_keep N w d w' d' :
  qw_notices w' = qw_notices w -> qw_notices d' = qw_notices d ->
  qw_out w' = qw_out w -> qw_out d' = qw_out d -> same_output N w d -> same_output N w' d'.
Proof. intros. apply (output_append N [] w d); rewrite ?app_nil_r; done. Qed.

Lemma flush_spec w :
  pending_bytes (qw_notices (flush_notices w)) = [] /\
  qw_out (flush_notices w) = (qw_out w ++ pending_bytes (qw_notices w))%list /\
  qw_conn (flush_notices w) = qw_conn w.
Proof.
  unfold flush_notices. destruct (qw_notices w) as [pend out freed] eqn:E. simpl_upd.
  unfold polardb_flush_pending_notices_to_client, pending_bytes, pending_list. cbn [nq_pending].
  destruct (Nat.eqb_spec (length (default [] pend)) 0) as [El|El]; cbn [orb negb].
  - apply nil_length_inv in El. cbn. rewrite El, skipn_all. done.
  - destruct pend as [l|]; [|done]. cbn. by rewrite drop_app_length.
Qed.

Lemma flush_output N w d : same_output N w d -> same_output N (flush_notices w) (flush_notices d).
Proof.
  destruct (flush_spec w) as (Hw & Ow & _), (flush_spec d) as (Hd & Od & _).
  unfold same_output. rewrite Hw, Hd, Ow, Od. intros [Ed [[Ew Eo]|[Ew (a & b & E1 & E2)]]];
    rewrite Ed, Ew, ?app_nil_r; (split; [done|]); right; (split; [done|]).
  - exists (qw_out d), []. by rewrite !app_nil_r, Eo.
  - by exists a, b.
Qed.

(** ** The simulation *)

Lemma ready_on_result f c : result_ready c -> result_ready (on_result f c).
Proof. unfold result_ready, on_result. intros H. destruct (qc_result c) eqn:E; simpl_upd;
  [done|by rewrite E]. Qed.

Lemma related_set_conn N w d c c' :
  same_data c c' -> qc_wrap c = qc_wrap (qw_conn w) -> qc_wrap c' = qc_wrap (qw_conn d) ->
  result_ready c' -> related N w d -> related N (w <| qw_conn := c |>) (d <| qw_conn := c' |>).
Proof.
  intros Hc Hw Hd Hr [Rc Rw Rp _ Ro]. constructor; simpl_upd; rewrite ?Hw, ?Hd; try done.
Qed.

Lemma related_on_conn N f w d :
  blind f -> (forall c, same_conn_control c (f c)) -> (result_ready (f (qw_conn d))) ->
  related N w d -> related N (on_conn f w) (on_conn f d).
Proof.
  intros Hb Hs Hr H. unfold on_conn. apply related_set_conn; try done.
  - apply Hb, H.
  - apply Hs.
  - apply Hs.
Qed.

Lemma related_on_result N f w d :
  related N w d -> related N (on_conn (on_result f) w) (on_conn (on_result f) d).
Proof.
  intros H. apply related_on_conn; [auto with blind|apply same_on_result| |done].
  apply ready_on_result, (re_result _ _ _ H).
Qed.

(** Outside wrapper results a notice goes to the result, whatever it reports. *)
Lemma plain_notice r w :
  wait_notice_uses_session_queue (qc_wrap (qw_conn w)) = false -> qc_result (qw_conn w) <> None ->
  qw_conn (notice_handler_cb env r w) = on_result (add_notice r) (qw_conn w) /\
  qw_notices (notice_handler_cb env r w) = qw_notices w /\
  qw_out (notice_handler_cb env r w) = qw_out w.
Proof.
  intros Hq Hr. unfold notice_handler_cb. cbv zeta.
  set (o := polardb_handle_lsn_wait_timeout_notice _ _ _ _ _ _ _ _).
  assert (no_owned o = false /\ no_queue o = qw_notices w) as [Ho Hn].
  { subst o. unfold polardb_handle_lsn_wait_timeout_notice.
    destruct (qc_result (qw_conn w)); [|done]. rewrite Hq.
    do 2 (destruct (negb _); [done|]). destruct (negb _ || _); [done|].
    destruct (polardb_txn_split_read_active _);
      [by destruct (polardb_account_txn_split_wait_timeout _)
      |by destruct (polardb_account_wait_timeout _ _)]. }
  rewrite Ho. unfold on_conn. by simpl_upd.
Qed.

Lemma related_frame N w d w' d' :
  same_data (qw_conn w') (qw_conn d') ->
  wait_notice_uses_session_queue (qc_wrap (qw_conn w')) = false ->
  wait_notice_uses_session_queue (qc_wrap (qw_conn d')) = false ->
  result_ready (qw_conn d') ->
  qw_notices w' = qw_notices w -> qw_notices d' = qw_notices d ->
  qw_out w' = qw_out w -> qw_out d' = qw_out d ->
  related N w d -> related N w' d'.
Proof. intros ? ? ? ? ? ? ? ? [? ? ? ? ?]. constructor; try done. by apply (output_keep N w d). Qed.

Lemma related_notice N r w d :
  qc_result (qw_conn d) <> None -> related N w d ->
  related N (notice_handler_cb env r w) (notice_handler_cb env r d).
Proof.
  intros Hr H. pose proof H as [Rc Rw Rp Rr Ro].
  assert (qc_result (qw_conn w) <> None) as Hrw
    by by rewrite (proj1 (proj2 (same_data_fields _ _ Rc))).
  destruct (plain_notice r w Rw Hrw) as (E1 & E2 & E3).
  destruct (plain_notice r d Rp Hr) as (F1 & F2 & F3).
  destruct (same_on_result (add_notice r) (qw_conn w)) as (Hw & _).
  destruct (same_on_result (add_notice r) (qw_conn d)) as (Hd & _).
  apply (related_frame N w d); rewrite ?E1, ?F1, ?Hw, ?Hd; try done.
  - by apply blind_on_result.
  - by apply ready_on_result.
Qed.

Lemma notice_result r w :
  qc_result (qw_conn w) <> None -> qc_result (qw_conn (notice_handler_cb env r w)) <> None.
Proof.
  destruct (notice_conn env r w) as [->| ->]; [done|]. unfold on_result.
  destruct (qc_result (qw_conn w)) eqn:E; by simpl_upd.
Qed.

Lemma related_notices N notices : forall w d,
  qc_result (qw_conn d) <> None -> related N w d ->
  related N (fold_left (fun w r => notice_handler_cb env r w) notices w)
    (fold_left (fun w r => notice_handler_cb env r w) notices d) /\
  qc_result (qw_conn (fold_left (fun w r => notice_handler_cb env r w) notices d)) <> None.
Proof.
  induction notices as [|r l IH]; intros w d Hr H; cbn; [done|].
  apply IH; [by apply notice_result|by apply related_notice].
Qed.

Lemma failed_not_queued w :
  wait_notice_uses_session_queue w = false ->
  wait_notice_uses_session_queue (mark_wrapper_set_failed w) = false.
Proof.
  unfold wait_notice_uses_session_queue, consuming_wrapper_set, is_extended_wait,
    mark_wrapper_set_failed. simpl_upd. cbn. by destruct (0 <? wr_stmt_pending w).
Qed.

(** What the error handler leaves alone. *)
Lemma error_frame r w :
  qw_notices (polardb_handle_wrapper_set_error env r w) = qw_notices w /\
  qw_out (polardb_handle_wrapper_set_error env r w) = qw_out w.
Proof.
  unfold polardb_handle_wrapper_set_error. cbv zeta. destruct (negb _); [done|].
  assert (forall b w1, qw_notices w1 = qw_notices w -> qw_out w1 = qw_out w ->
    qw_notices (if b : bool then mark_failed w1 else w1) = qw_notices w /\
    qw_out (if b then mark_failed w1 else w1) = qw_out w) as Hm.
  { intros [|] w1; [|done]. unfold mark_failed, on_conn. by simpl_upd. }
  destruct (negb (polardb_wait_active _)); apply Hm.
  1,2: destruct (_ && (_ && _)); [|done]; destruct (polardb_account_txn_split_wait_timeout _);
    unfold count_timeout; by simpl_upd.
  all: destruct (wea_account_wait_timeout _); [destruct (polardb_account_wait_timeout _ _)|];
      unfold count_timeout; destruct (wea_mark_timeout_error _); by simpl_upd.
Qed.

Lemma error_data r w :
  same_data (qw_conn (polardb_handle_wrapper_set_error env r w)) (qw_conn w) /\
  (wait_notice_uses_session_queue (qc_wrap (qw_conn w)) = false ->
   wait_notice_uses_session_queue
     (qc_wrap (qw_conn (polardb_handle_wrapper_set_error env r w))) = false).
Proof.
  destruct (error_conn env r w) as [->| ->]; [done|]. split; [by destruct (qw_conn w)|].
  simpl_upd. apply failed_not_queued.
Qed.

Lemma ready_same c d : same_data c d -> result_ready d -> result_ready c.
Proof.
  intros H. pose proof (same_data_fields _ _ H) as (_ & E & _ & _ & _ & _ & _ & _ & _ & Es & _).
  unfold result_ready. by rewrite E, Es.
Qed.

Lemma related_error N r w d :
  related N w d ->
  related N (polardb_handle_wrapper_set_error env r w) (polardb_handle_wrapper_set_error env r d).
Proof.
  intros H. destruct (error_data r w) as [Dw Qw], (error_data r d) as [Dd Qd].
  destruct (error_frame r w) as [N1 O1], (error_frame r d) as [N2 O2].
  apply (related_frame N w d); try done.
  - by rewrite Dw, Dd, (re_conn _ _ _ H).
  - apply Qw, H.
  - apply Qd, H.
  - apply (ready_same _ (qw_conn d) Dd), (re_result _ _ _ H).
Qed.

Lemma related_bind {A B C D} (R : A -> B -> Prop) (S : C -> D -> Prop) x y f g :
  option_Forall2 R x y -> (forall a b, R a b -> option_Forall2 S (f a) (g b)) ->
  option_Forall2 S (x ≫= f) (y ≫= g).
Proof. intros [a b Hab|] H; cbn; [by apply H|constructor]. Qed.

(** The same output of a pass on both sides. *)
Definition pass_related (N : list (list ascii)) := option_Forall2 (next_related N).

Lemma pass_some N w d next :
  next <> Next_statement_end -> related N w d ->
  pass_related N (Some (w, next)) (Some (d, next)).
Proof. intros Hn H. constructor. repeat split; try apply H. by left. Qed.

Lemma related_error_result N r w d :
  related N w d -> option_Forall2 (related N) (error_result env r w) (error_result env r d).
Proof.
  intros H. unfold error_result.
  pose proof (same_data_fields _ _ (re_conn _ _ _ H)) as (Ee & _).
  rewrite (same_error_present _ _ (re_conn _ _ _ H)), Ee. case_if; [by constructor|].
  assert (related N (on_conn (set_error_from_result env r) w)
            (on_conn (set_error_from_result env r) d)) as H1.
  { apply related_on_conn; [apply blind_error_from_result|apply same_error_from_result| |done].
    unfold result_ready, set_error_from_result, set_error_from_PQerrorMessage.
    destruct (PQresultErrorField r "C"); simpl_upd; apply (re_result _ _ _ H). }
  rewrite (same_error_present _ _ (re_conn _ _ _ H1)). case_if; [constructor|].
  apply (related_error N r) in H1. constructor.
  pose proof (same_data_fields _ _ (re_conn _ _ _ H1)) as (Ee1 & _). rewrite Ee1.
  case_if; [by apply related_on_result|done].
Qed.

Lemma ready_keep f c :
  qc_status (f c) = qc_status c -> qc_result (f c) = qc_result c ->
  result_ready c -> result_ready (f c).
Proof. unfold result_ready. by intros -> ->. Qed.

Lemma ready_tuples r c : result_ready c -> result_ready (tuples_result r c).
Proof.
  intros H. unfold tuples_result. apply ready_on_result. case_if; [|done].
  apply (ready_keep (fun c => c <| qc_new_result := false |>)); [by simpl_upd..|].
  by apply ready_on_result.
Qed.

Lemma ready_copy_rows copy : forall c,
  result_ready c ->
  result_ready (fold_left (fun c data => on_result (add_copy_out_row data) c) copy c).
Proof.
  induction copy as [|x copy IH]; intros c H; cbn; [done|]. by apply IH, ready_on_result.
Qed.

Lemma ready_copy_flag b c : result_ready c -> result_ready (c <| qc_is_copy_out := b |>).
Proof. apply (ready_keep (fun c => c <| qc_is_copy_out := b |>)); by simpl_upd. Qed.

Lemma ready_handle_copy_out r copy copy_end c :
  result_ready c -> result_ready (handle_copy_out env r copy copy_end c).
Proof.
  intros H. unfold handle_copy_out. set (c1 := if qc_new_result c then _ else c).
  assert (result_ready c1) as H1.
  { subst c1. case_if; [|done]. apply ready_copy_flag.
    apply (ready_keep (fun c => c <| qc_new_result := false |>)); [by simpl_upd..|].
    by apply ready_on_result. }
  clearbody c1. apply (ready_copy_rows copy) in H1. cbv zeta.
  case_if; [by apply ready_copy_flag, ready_on_result|]. case_if; [|done].
  apply ready_copy_flag. case_if; [done|]. unfold set_error_from_PQerrorMessage.
  revert H1. apply (ready_keep (fun c => c <| qc_error := _ |>)); by simpl_upd.
Qed.

Lemma related_switch N r copy copy_end w d :
  related N w d ->
  pass_related N (switch_result env r copy copy_end w) (switch_result env r copy copy_end d).
Proof.
  intros H. pose proof (re_result _ _ _ H) as Hr. unfold switch_result.
  assert (pass_related N (w ← error_result env r w; Some (w, Next_fetch))
            (d ← error_result env r d; Some (d, Next_fetch))) as He.
  { apply (related_bind (related N)); [by apply related_error_result|].
    intros a b Hab. by apply pass_some. }
  destruct (pr_status r); try exact He; (apply pass_some; [done|]); try exact H;
    try (by apply related_on_result); apply related_on_conn; try exact H;
    try (by apply ready_tuples); try (by apply ready_handle_copy_out);
    auto with blind; try apply blind_tuples; try apply same_tuples;
    try apply blind_handle_copy_out; try (intros c; apply same_handle_copy_out);
    try (intros c; by destruct c); unfold result_ready; by simpl_upd.
Qed.

Lemma related_complete N w d :
  related N w d -> result_complete (qw_conn w) = result_complete (qw_conn d).
Proof.
  intros H. unfold result_complete.
  by rewrite (proj1 (proj2 (same_data_fields _ _ (re_conn _ _ _ H)))).
Qed.

(** The client's part of a result. *)
Lemma related_body N r copy copy_end w d :
  related N w d -> qc_result (qw_conn d) <> None ->
  let body w :=
    if result_complete (qw_conn w)
    then Some (on_conn (fun c => on_result buffer_to_PSarrayOut (c <| qc_pgsql_result := Some r |>))
                 w, Next_statement_end)
    else switch_result env r copy copy_end w in
  pass_related N (body w) (body d).
Proof.
  intros H Hr. cbv beta zeta. rewrite (related_complete _ _ _ H).
  destruct (result_complete (qw_conn d)) eqn:E; [|by apply related_switch].
  constructor. split; cbn [fst snd]; [|split; [done|right]].
  - apply (related_on_conn N (fun c => on_result buffer_to_PSarrayOut
      (c <| qc_pgsql_result := Some r |>)));
      [by apply (blind_compose _ (fun c => c <| qc_pgsql_result := Some r |>)); auto with blind| |
       |done].
    + intros c. eapply same_conn_trans; [|apply same_on_result]. by destruct c.
    + apply ready_on_result. unfold result_ready. by simpl_upd.
  - unfold on_conn, on_result. simpl_upd. by destruct (qc_result (qw_conn d)); simpl_upd.
Qed.

Lemma related_libpq N r copy copy_end w d :
  related N w d -> qc_result (qw_conn d) <> None ->
  pass_related N (libpq_result env r copy copy_end w) (libpq_result env r copy copy_end d).
Proof.
  intros H Hr. unfold libpq_result.
  rewrite (queue_not_consuming _ (re_wrap _ _ _ H)), (queue_not_consuming _ (re_plain _ _ _ H)).
  by apply related_body.
Qed.

Lemma related_use_result N copy copy_end w d :
  related N w d -> qc_result (qw_conn d) <> None ->
  pass_related N (use_result env copy copy_end w) (use_result env copy copy_end d).
Proof.
  intros H Hr. unfold use_result.
  pose proof (same_data_fields _ _ (re_conn _ _ _ H)) as (_&_&E1&E2&E3&E4&_).
  rewrite E1, E2, E3, E4. destruct (qc_result_type (qw_conn d)).
  - constructor.
  - destruct (qc_pgsql_result (qw_conn d)); [|by apply pass_some].
    apply related_libpq; [|unfold on_conn; by simpl_upd].
    apply related_on_conn; [auto with blind|intros c; by destruct c| |done].
    unfold result_ready. by simpl_upd.
  - destruct (qc_ps_result (qw_conn d)) as [ps|]; [|constructor]. case_if; [|constructor].
    apply pass_some; [done|]. by apply related_on_result.
  - case_if; [constructor|]. apply pass_some; [done|].
    apply related_on_conn; [auto with blind|intros c; by destruct c| |done].
    unfold result_ready. by simpl_upd.
Qed.

Lemma ready_status_spec w qr :
  qc_result (qw_conn w) = Some qr ->
  exists lsn, qc_result (qw_conn (ready_status env w)) =
                Some (add_ready_status (qe_txn_status env) lsn qr) /\
    qc_error (qw_conn (ready_status env w)) = qc_error (qw_conn w) /\
    qw_notices (ready_status env w) = qw_notices w /\ qw_out (ready_status env w) = qw_out w.
Proof.
  intros E. unfold ready_status. cbv zeta.
  destruct (polardb_prepare_client_ready_lsn _ _ _ _ _ _ _ _) as [lsn s]. exists lsn.
  unfold on_conn, on_result. simpl_upd. rewrite E. by simpl_upd.
Qed.

Definition end_of_query (w : query_world) : query_world :=
  on_conn (fun c => c <| qc_status := At_end |>) (ready_status env w).

Lemma related_ended N w d :
  related N w d -> qc_result (qw_conn d) <> None ->
  both_ended N (end_of_query w) (end_of_query d).
Proof.
  intros H Hr. destruct (qc_result (qw_conn d)) as [qr|] eqn:Ed; [|done].
  pose proof (same_data_fields _ _ (re_conn _ _ _ H)) as (Ee & Er & _).
  rewrite Ed in Er.
  destruct (ready_status_spec w qr Er) as (l1 & R1 & E1 & N1 & O1).
  destruct (ready_status_spec d qr Ed) as (l2 & R2 & E2 & N2 & O2).
  unfold end_of_query, on_conn. constructor; simpl_upd.
  - congruence.
  - done.
  - by exists qr, l1, l2.
  - pose proof (re_output _ _ _ H) as Ho. revert Ho. apply output_keep; by simpl_upd.
Qed.

Lemma missing_same c d : same_data c d -> missing_result_error env c = missing_result_error env d.
Proof.
  intros H. unfold missing_result_error. rewrite (same_error_present _ _ H).
  by rewrite (proj1 (same_data_fields _ _ H)).
Qed.

Lemma related_tail N w d :
  related N w d ->
  option_Forall2 (same_to_client N) (after_pass env Next_tail w) (after_pass env Next_tail d).
Proof.
  intros H. cbn [after_pass]. unfold results_tail.
  pose proof (same_data_fields _ _ (re_conn _ _ _ H)) as (Ee & Er & _&_&_&_&_&_& Ex & _).
  rewrite Er, Ex, (same_error_present _ _ (re_conn _ _ _ H)), (missing_same _ _ (re_conn _ _ _ H)).
  destruct (qc_result (qw_conn d)) as [qr|] eqn:Ed; [|constructor].
  assert (forall w d, related N w d -> qc_result (qw_conn d) <> None ->
    option_Forall2 (same_to_client N)
      (Some (end_of_query w)) (Some (end_of_query d))) as Hend.
  { intros w1 d1 H1 Hr. constructor. right. by apply related_ended. }
  case_if; [|apply Hend; [done|congruence]]. case_if; [constructor|].
  destruct (missing_result_error env (qw_conn d)) as [e|]; [|constructor].
  apply (Hend _ _ (related_on_result N (add_error_packet e) w d H)).
  unfold on_conn, on_result. rewrite Ed. by simpl_upd.
Qed.

Lemma related_after N next w d :
  related N w d ->
  option_Forall2 (same_to_client N) (after_pass env next w) (after_pass env next d).
Proof.
  intros H. destruct next; [| | |by apply related_tail|]; cbn [after_pass]; constructor; left.
  - done.
  - apply related_on_conn; [auto with blind|intros c; by destruct c| |done].
    unfold result_ready. by simpl_upd.
  - apply related_on_conn; [auto with blind|intros c; apply same_use_result_start| |done].
    intros _. unfold use_result_start, init_query_result. simpl_upd.
    destruct (qc_reuse (qw_conn d)); by simpl_upd.
  - apply related_on_conn; [auto with blind|intros c; by destruct c| |done].
    unfold result_ready. by simpl_upd.
Qed.

Lemma related_flush N w d : related N w d -> related N (flush_notices w) (flush_notices d).
Proof.
  intros [Rc Rw Rp Rr Ro]. destruct (flush_spec w) as (_ & _ & Ew), (flush_spec d) as (_ & _ & Ed).
  constructor; rewrite ?Ew, ?Ed; try done. by apply flush_output.
Qed.

Lemma related_hand_over N w d : related N w d -> related N (hand_over w) (hand_over d).
Proof.
  intros [Rc Rw Rp Rr Ro]. unfold hand_over.
  rewrite (proj1 (proj2 (same_data_fields _ _ Rc))).
  destruct (qc_result (qw_conn d)) as [qr|]; [|done].
  destruct (get_resultset qr) as [[n blocks] qr']. constructor; unfold on_conn; simpl_upd.
  - by split_data Rc.
  - done.
  - done.
  - unfold result_ready. by simpl_upd.
  - revert Ro. apply (output_append N (map ob_bytes blocks)); by simpl_upd.
Qed.

Lemma related_wire N w d :
  related N w d ->
  option_Forall2 (related N) (PgSQL_Result_to_PgSQL_wire env w) (PgSQL_Result_to_PgSQL_wire env d).
Proof.
  intros H. unfold PgSQL_Result_to_PgSQL_wire.
  assert (option_Forall2 (related N)
    (e ← missing_result_error env (qw_conn w);
     Some (w <| qw_out := (qw_out w ++ [(e ++ ready_packet)%list])%list |>))
    (e ← missing_result_error env (qw_conn d);
     Some (d <| qw_out := (qw_out d ++ [(e ++ ready_packet)%list])%list |>))) as He.
  { rewrite (missing_same _ _ (re_conn _ _ _ H)).
    destruct (missing_result_error env (qw_conn d)) as [e|]; constructor.
    destruct H as [Rc Rw Rp Rr Ro]. constructor; simpl_upd; try done.
    revert Ro. apply (output_append N [(e ++ ready_packet)%list]); by simpl_upd. }
  rewrite (proj1 (proj2 (same_data_fields _ _ (re_conn _ _ _ H)))).
  destruct (qc_result (qw_conn d)); [|exact He]. case_if; [exact He|].
  constructor. by apply related_hand_over, related_flush.
Qed.

Lemma related_stream N w d : related N w d -> related N (stream_output env w) (stream_output env d).
Proof.
  intros H. unfold stream_output. rewrite (proj1 (proj2 (same_data_fields _ _ (re_conn _ _ _ H)))).
  destruct (qc_result (qw_conn d)); [|done]. case_if; [|done].
  apply related_hand_over. case_if; [done|by apply related_flush].
Qed.

Lemma start_has_result c : qc_result (use_result_start c) <> None.
Proof.
  unfold use_result_start, init_query_result. simpl_upd. destruct (qc_reuse c); by simpl_upd.
Qed.

Lemma related_statement_end N w d :
  related N w d ->
  option_Forall2 (fun w d => related N w d /\ qc_result (qw_conn d) <> None)
    (statement_end env w) (statement_end env d).
Proof.
  intros H. unfold statement_end. apply (related_bind (related N)).
  - apply related_wire, related_on_conn; [auto with blind|intros c; by destruct c| |done].
    apply (ready_keep (fun c => c <| qc_multi := true |>)); [by simpl_upd..|].
    apply (re_result _ _ _ H).
  - intros a b Hab. constructor. split.
    + apply (related_on_conn N (fun c => use_result_start (recycle_result c))); [| | |done].
      * apply blind_compose; auto with blind.
      * intros c. eapply same_conn_trans; [apply same_recycle|apply same_use_result_start].
      * intros _. apply start_has_result.
    + unfold on_conn. simpl_upd. apply start_has_result.
Qed.

Lemma pass_then_after N x y :
  pass_related N x y ->
  option_Forall2 (same_to_client N)
    ('(w, next) ← x; after_pass env next w) ('(w, next) ← y; after_pass env next w).
Proof.
  intros H. apply (related_bind (next_related N)); [exact H|].
  intros [w1 n1] [d1 n2] (Hr & Hn & _). cbn in *. subst. by apply related_after.
Qed.

Lemma seen_status N w d :
  same_to_client N w d -> qc_status (qw_conn w) = qc_status (qw_conn d).
Proof.
  intros [H|H].
  - by apply (same_data_fields _ _ (re_conn _ _ _ H)).
  - destruct (be_status _ _ _ H). congruence.
Qed.

(** Once ended, an event changes nothing. *)
Lemma seen_running N w d :
  same_to_client N w d -> qc_status (qw_conn d) <> At_end -> related N w d.
Proof. intros [H|H] Hs; [done|]. destruct (be_status _ _ _ H). congruence. Qed.

Lemma seen_one_event N notices ev w d :
  same_to_client N w d ->
  option_Forall2 (same_to_client N) (one_event env notices ev w) (one_event env notices ev d).
Proof.
  intros H. unfold one_event. rewrite (seen_status _ _ _ H).
  destruct (decide (qc_status (qw_conn d) = At_results)) as [E|E].
  2: { assert ((qc_status (qw_conn d) != At_results) = true) as ->
         by (destruct (qc_status (qw_conn d)); done). by constructor. }
  assert ((qc_status (qw_conn d) != At_results) = false) as -> by by rewrite E.
  assert (related N w d) as R by (apply (seen_running _ _ _ H); by rewrite E).
  destruct (related_notices N notices w d (re_result _ _ _ R E) R) as [Hn Hr].
  set (w1 := fold_left _ notices w) in *. set (d1 := fold_left _ notices d) in *.
  clearbody w1 d1.
  destruct (match ev with Ev_result _ copy copy_end => (copy, copy_end) | _ => ([], 0) end)
    as [copy copy_end].
  pose proof (fetch_same ev _ _ (re_conn _ _ _ Hn)) as [Hb Hc].
  pose proof (same_fetch env ev (qw_conn w1)) as (Wc & _).
  pose proof (same_fetch env ev (qw_conn d1)) as (Wd & _).
  assert (qc_result (fetch_result_cont env ev (qw_conn d1)).2 <> None) as Hres.
  { unfold fetch_result_cont. destruct (qc_pgsql_result (qw_conn d1)); [done|].
    destruct ev; cbn [snd]; try done; unfold add_row_run, on_result, set_error_from_PQerrorMessage;
      try case_if; simpl_upd; try done. destruct (qc_result (qw_conn d1)); by simpl_upd. }
  destruct (fetch_result_cont env ev (qw_conn w1)) as [b1 c1].
  destruct (fetch_result_cont env ev (qw_conn d1)) as [b2 c2]. cbn [fst snd] in *. subst b2.
  assert (related N (w1 <| qw_conn := c1 |>) (d1 <| qw_conn := c2 |>)) as Hset
    by (apply related_set_conn; try done; by intros _).
  case_if; [constructor; by left|].
  apply pass_then_after, related_use_result; [done|]. by simpl_upd.
Qed.

Lemma seen_next_statement N copy copy_end w d :
  same_to_client N w d ->
  option_Forall2 (same_to_client N) (next_statement env copy copy_end w)
    (next_statement env copy copy_end d).
Proof.
  intros H. unfold next_statement. rewrite (seen_status _ _ _ H).
  destruct (decide (qc_status (qw_conn d) = At_statement_end)) as [E|E].
  2: { assert ((qc_status (qw_conn d) != At_statement_end) = true) as ->
         by (destruct (qc_status (qw_conn d)); done). by constructor. }
  assert ((qc_status (qw_conn d) != At_statement_end) = false) as -> by by rewrite E.
  assert (related N w d) as R by (apply (seen_running _ _ _ H); by rewrite E).
  apply (related_bind (fun w d => related N w d /\ qc_result (qw_conn d) <> None));
    [by apply related_statement_end|].
  intros a b [Hab Hr]. by apply pass_then_after, related_use_result.
Qed.

Lemma seen_deliver N notices ev w d :
  same_to_client N w d ->
  option_Forall2 (same_to_client N) (deliver env notices ev w) (deliver env notices ev d).
Proof.
  intros H. unfold deliver.
  destruct (match ev with Ev_result _ copy copy_end => (copy, copy_end) | _ => ([], 0) end).
  apply (related_bind (same_to_client N)); [by apply seen_one_event|].
  intros a b. apply seen_next_statement.
Qed.

Lemma seen_rows N rows : forall x y,
  option_Forall2 (same_to_client N) x y ->
  option_Forall2 (same_to_client N)
    (fold_left (fun w ps => w ← w; deliver env [] (Ev_raw_row ps) w) rows x)
    (fold_left (fun w ps => w ← w; deliver env [] (Ev_raw_row ps) w) rows y).
Proof.
  induction rows as [|ps rows IH]; intros x y H; cbn [fold_left]; [done|]. apply IH.
  apply (related_bind (same_to_client N)); [done|]. intros a b. apply seen_deliver.
Qed.

(** Once ended, rows change nothing either. *)
Lemma ended_deliver notices ev w :
  qc_status (qw_conn w) = At_end -> deliver env notices ev w = Some w.
Proof.
  intros E. unfold deliver, one_event, next_statement. rewrite E.
  change (At_end != At_results) with true. cbn [mbind option_bind].
  destruct (match ev with Ev_result _ copy copy_end => (copy, copy_end) | _ => ([], 0) end).
  cbn [mbind option_bind]. by rewrite E.
Qed.

Lemma ended_rows rows w :
  qc_status (qw_conn w) = At_end ->
  fold_left (fun w ps => w ← w; deliver env [] (Ev_raw_row ps) w) rows (Some w) = Some w.
Proof.
  intros E. induction rows as [|ps rows IH]; cbn [fold_left]; [done|].
  cbn [mbind option_bind]. by rewrite ended_deliver.
Qed.

Lemma ended_step op w : qc_status (qw_conn w) = At_end -> query_step env w op = Some w.
Proof.
  intros E. destruct op; cbn [query_step].
  - by apply ended_deliver.
  - case_if; [by apply ended_deliver|by apply ended_rows].
  - by rewrite E.
Qed.

Lemma related_detach N w d :
  related N w d ->
  polardb_can_detach_row_run env (qw_conn w) = polardb_can_detach_row_run env (qw_conn d).
Proof.
  intros H. unfold polardb_can_detach_row_run.
  rewrite (queue_not_consuming _ (re_wrap _ _ _ H)), (queue_not_consuming _ (re_plain _ _ _ H)).
  pose proof (same_data_fields _ _ (re_conn _ _ _ H)) as (_&Er&_&_&_&_&En&Ec&_&_&Em).
  by rewrite Er, En, Ec, Em.
Qed.

Lemma seen_step N op w d :
  same_to_client N w d ->
  option_Forall2 (same_to_client N) (query_step env w op) (query_step env d op).
Proof.
  intros H. destruct H as [H|H].
  2: { destruct (be_status _ _ _ H). rewrite !ended_step by done. constructor. by right. }
  destruct op as [notices ev|owner rows|]; cbn [query_step].
  - apply seen_deliver. by left.
  - rewrite (related_detach _ _ _ H). case_if; [apply seen_deliver; by left|].
    apply seen_rows. constructor. by left.
  - rewrite (seen_status N w d (or_introl H)). constructor.
    case_if; left; [by apply related_stream|done].
Qed.

(** Worlds related stay related through any events. *)
Lemma seen_run N ops : forall w d,
  same_to_client N w d ->
  option_Forall2 (same_to_client N) (run_query env ops w) (run_query env ops d).
Proof.
  induction ops as [|op ops IH]; intros w d H; cbn [run_query]; [by constructor|].
  apply (related_bind (same_to_client N)); [by apply seen_step|]. intros a b. apply IH.
Qed.

(** ** The wrapper results *)

(** The result of a SET that succeeded. *)
Definition set_succeeded (op : query_op) : bool :=
  match op with
  | Op_event _ (Ev_result (Some r) _ _) => is_set_success (pr_status r)
  | _ => false
  end.

(** No notice of the SET reports a wait timeout. *)
Definition quiet (op : query_op) : bool :=
  match op with
  | Op_event notices _ =>
      forallb (fun r => negb (polardb_is_lsn_wait_timeout_result (Some r))) notices
  | _ => true
  end.

(** Before the first result for the client. *)
Record at_first_result (c : query_conn) : Prop := {
  fr_status : qc_status c = At_results;
  fr_error : qc_error c = reset_error_info;
  fr_result : qc_result c = Some fresh_result;
  fr_reuse : qc_reuse c = None;
  fr_pgsql : qc_pgsql_result c = None;
  fr_type : qc_result_type c = From_libpq;
  fr_new : qc_new_result c = true;
  fr_multi : qc_multi c = false
}.

(** [k] wrapper results are left. *)
Record sets_left (k : Z) (w : PolarDB_Query_WrapState) : Prop := {
  sl_pending : wr_stmt_pending w = k;
  sl_wrapped : 0 < k -> wr_was_wrapped w = true;
  sl_owner : wr_extended_wait_notice_owner w = Owner_QUERY_RESULT
}.

Lemma init_fresh qr : init true false qr = fresh_result.
Proof. by destruct qr. Qed.

Lemma notices_conn notices : forall w qr,
  qc_result (qw_conn w) = Some qr ->
  let w' := fold_left (fun w r => notice_handler_cb env r w) notices w in
  (exists qr', qw_conn w' = qw_conn w <| qc_result := Some qr' |>) /\ qw_out w' = qw_out w.
Proof.
  induction notices as [|r l IH]; intros w qr E; cbn.
  - split; [|done]. exists qr. destruct w as [[]]. cbn in *. by subst.
  - assert (exists qr', qw_conn (notice_handler_cb env r w) = qw_conn w <| qc_result := Some qr' |>)
      as [q' Eq].
    { destruct (notice_conn env r w) as [->| ->].
      - exists qr. destruct w as [[]]. cbn in *. by subst.
      - eexists. unfold on_result. rewrite E. reflexivity. }
    destruct (IH (notice_handler_cb env r w) q') as [[q2 E2] O2]; [rewrite Eq; by simpl_upd|].
    split.
    + exists q2. cbv zeta in *. rewrite E2, Eq. by destruct (qw_conn w).
    + cbv zeta in *. rewrite O2. unfold notice_handler_cb. cbv zeta.
      destruct (no_owned _); unfold on_conn; by simpl_upd.
Qed.

(** A result recycled and started anew is the first result again. *)
Lemma restart_same b qr wrap c :
  at_first_result c ->
  let c1 := c <| qc_result := Some qr |> <| qc_result_type := From_libpq |>
              <| qc_pgsql_result := None |> <| qc_wrap := wrap |> in
  let c2 := use_result_start
              (recycle_result (if b : bool then c1 <| qc_reset_consumed := true |> else c1)) in
  same_data c2 c /\ qc_wrap c2 = wrap /\ qc_status c2 = At_results.
Proof.
  intros [Fs Fe Fr Fu Fp Ft Fn Fm]. destruct c. cbn in *. subst.
  destruct b; cbn; unfold use_result_start, init_query_result, same_data; cbn;
    by rewrite init_fresh.
Qed.

Lemma consume_left k w :
  sets_left k w -> 0 < k ->
  exists reset w', consume_wrapper_result w = Some (reset, w') /\ sets_left (k - 1) w'.
Proof.
  intros [Sp Sw So] Hk. destruct (consume_wrapper_result w) as [[reset w']|] eqn:E.
  - exists reset, w'. split; [done|]. apply consume_result_cases in E as (_ & _ & ->).
    constructor; cbn; [by rewrite Sp|intros; apply Sw; lia|done].
  - unfold consume_wrapper_result, consume_successful_wrapper_set in E. rewrite Sp in E.
    by rewrite (proj2 (Z.ltb_lt 0 k) Hk) in E.
Qed.

(** One SET consumed: the connection is as before, with one result less. *)
Lemma set_consumed k notices r copy copy_end w :
  at_first_result (qw_conn w) -> sets_left k (qc_wrap (qw_conn w)) -> 0 < k ->
  is_set_success (pr_status r) = true ->
  exists w', deliver env notices (Ev_result (Some r) copy copy_end) w = Some w' /\
    same_data (qw_conn w') (qw_conn w) /\ sets_left (k - 1) (qc_wrap (qw_conn w')) /\
    qw_out w' = qw_out w /\
    qw_notices w' = qw_notices (fold_left (fun w r => notice_handler_cb env r w) notices w).
Proof.
  intros Hf Hs Hk Hset. destruct (consume_left k _ Hs Hk) as (reset & wrap & Ew & Hs').
  destruct (notices_conn notices w _ (fr_result _ Hf)) as [[qr Ec] Eo]. cbv zeta in *.
  unfold deliver, one_event. rewrite (fr_status _ Hf).
  change (At_results != At_results) with false. cbv iota.
  set (w1 := fold_left _ notices w) in *. clearbody w1.
  assert (fetch_result_cont env (Ev_result (Some r) copy copy_end) (qw_conn w1) =
          (true, qw_conn w1 <| qc_result_type := From_libpq |> <| qc_pgsql_result := Some r |>))
    as -> by (unfold fetch_result_cont; rewrite Ec; simpl_upd; by rewrite (fr_pgsql _ Hf)).
  rewrite Ec. cbn [negb]. unfold use_result, libpq_result, on_conn. simpl_upd.
  unfold consuming_wrapper_set. rewrite (sl_pending _ _ Hs), (proj2 (Z.ltb_lt 0 k) Hk), Hset.
  cbn [andb]. unfold consume_set. simpl_upd. rewrite Ew. cbn [mbind option_bind after_pass].
  destruct (restart_same reset qr wrap _ Hf) as (Hd & Hw & Hst).
  eexists. split.
  { unfold next_statement, on_conn. simpl_upd. rewrite Hst. reflexivity. }
  simpl_upd. rewrite Hw. done.
Qed.

Lemma first_same c d : same_data c d -> at_first_result d -> at_first_result c.
Proof.
  intros H [Fs Fe Fr Fu Fp Ft Fn Fm]. split_data H. cbn in *. subst. by constructor.
Qed.

Lemma quiet_notices notices : forall w,
  forallb (fun r => negb (polardb_is_lsn_wait_timeout_result (Some r))) notices = true ->
  qw_notices (fold_left (fun w r => notice_handler_cb env r w) notices w) = qw_notices w.
Proof.
  induction notices as [|r l IH]; intros w; cbn [fold_left forallb]; [done|].
  intros [Hr Hl]%andb_prop.
  rewrite IH by done. unfold notice_handler_cb, polardb_handle_lsn_wait_timeout_notice.
  rewrite Hr. cbn [no_owned no_queue no_proxy no_counted]. unfold on_conn. by simpl_upd.
Qed.

Lemma sets_run ops sets : forall k w,
  forallb set_succeeded sets = true -> Z.of_nat (length sets) <= k ->
  at_first_result (qw_conn w) -> sets_left k (qc_wrap (qw_conn w)) ->
  exists w', run_query env (sets ++ ops) w = run_query env ops w' /\
    same_data (qw_conn w') (qw_conn w) /\
    sets_left (k - Z.of_nat (length sets)) (qc_wrap (qw_conn w')) /\ qw_out w' = qw_out w /\
    (forallb quiet sets = true -> qw_notices w' = qw_notices w).
Proof.
  induction sets as [|op sets IH]; intros k w Hsets Hlen Hf Hk.
  { exists w. cbn. by rewrite Z.sub_0_r. }
  cbn [forallb] in Hsets. apply andb_prop in Hsets as [Hop Hsets]. cbn [length] in Hlen.
  destruct op as [notices [| |[r|] copy copy_end| |]|owner rows|]; try done.
  destruct (set_consumed k notices r copy copy_end w Hf Hk) as (w1 & E1 & D1 & S1 & O1 & N1);
    [lia|done|].
  destruct (IH (k - 1) w1 Hsets) as (w2 & E2 & D2 & S2 & O2 & N2);
    [lia|by apply (first_same _ (qw_conn w))|done|].
  exists w2. cbn [app run_query query_step]. rewrite E1. cbn [mbind option_bind].
  split; [exact E2|]. split; [by rewrite D2|]. split.
  { cbn [length]. by replace (k - Z.of_nat (S (length sets))) with (k - 1 - Z.of_nat (length sets))
      by lia. }
  split; [congruence|]. cbn [forallb quiet]. intros [Hq Hqs]%andb_prop.
  rewrite N2, N1 by done. by apply quiet_notices.
Qed.

(** ** The start *)

(** A connection at rest, its session with no notice to flush. *)
Record at_rest (w : query_world) : Prop := {
  ar_type : qc_result_type (qw_conn w) = From_libpq;
  ar_pgsql : qc_pgsql_result (qw_conn w) = None;
  ar_notices : pending_list (qw_notices w) = []
}.

(** The same request with no wrapper, on a connection with nothing to reset. *)
Definition plain_request (w : query_world) : query_world :=
  w <| qw_proxy := with_session (qw_proxy w) (fun s =>
         s <| ss_query := reset_dispatch_wrapper (ss_query s) |>) |>
    <| qw_conn := qw_conn w <| qc_xids_dirty := false |> |>.

Definition started (text : string) (w : query_world) : query_world :=
  on_conn (send_query env) (async_query_idle text w).

Lemma dispatch_data text w :
  same_data (qw_conn (async_query_idle text w)) (qw_conn w <| qc_status := At_start |>) /\
  qw_out (async_query_idle text w) = qw_out w /\
  qw_notices (async_query_idle text w) = qw_notices w.
Proof.
  unfold async_query_idle, reset_dirty_xids. cbv zeta.
  destruct (_ && _); simpl_upd; (split; [by destruct (qw_conn w)|done]).
Qed.

Lemma send_data c :
  qe_send_ok env = true -> qe_single_row_ok env = true ->
  qc_result_type c = From_libpq -> qc_pgsql_result c = None ->
  at_first_result (send_query env c) /\
  sets_left (wr_stmt_pending (qc_wrap (send_query env c))) (qc_wrap (send_query env c)) /\
  (forall d, same_data c d -> same_data (send_query env c) (send_query env d)).
Proof.
  intros Hs Hr Ht Hp. unfold send_query, set_single_row_mode, query_start. rewrite Hs, Hr.
  assert (forall c, is_error_present (c <| qc_error := reset_error_info |> <| qc_multi := false |>
    <| qc_wrap := if 0 <? ds_wrapper_stmts (qc_dispatch c)
         then wrap_begin (ds_wrapper_stmts (qc_dispatch c)) (ds_wrapper_kind (qc_dispatch c))
                (ds_txn_split_xids_reset (qc_dispatch c)) else wrap_clear |>
    <| qc_dispatch := dispatch_reset |>) = false) as E by (intros c0; by destruct c0).
  split; [|split].
  - rewrite E. destruct c as [? ? ? ? ? ? ? ? ? reuse]. cbn in *. subst.
    unfold use_result_start, init_query_result. cbn.
    destruct reuse; cbn; constructor; cbn; rewrite ?init_fresh; done.
  - rewrite E. destruct c as [? ? ? ? ? ? ? ? ? reuse]. cbn in *. subst.
    unfold use_result_start, init_query_result. cbn. destruct reuse; cbn; unfold wrap_begin;
      destruct (0 <? ds_wrapper_stmts _) eqn:En; cbn; rewrite ?En; by constructor.
  - intros d H. rewrite !E. apply blind_use_result_start. by split_data H.
Qed.
End Simulation.

Section Start.
Context (env : query_env).

Lemma started_first text w :
  qe_send_ok env = true -> qe_single_row_ok env = true -> at_rest w ->
  at_first_result (qw_conn (started env text w)) /\
  sets_left (wr_stmt_pending (qc_wrap (qw_conn (started env text w))))
    (qc_wrap (qw_conn (started env text w))) /\
  qw_out (started env text w) = qw_out w /\ qw_notices (started env text w) = qw_notices w.
Proof.
  intros Hs Hr [Ht Hp _]. destruct (dispatch_data text w) as (Hd & Ho & Hn).
  unfold started, on_conn. simpl_upd. rewrite Ho, Hn.
  pose proof (same_data_fields _ _ Hd) as (_&_&Ep&Et&_). revert Ep Et. simpl_upd. intros Ep Et.
  destruct (send_data env (qw_conn (async_query_idle text w)) Hs Hr) as (H1 & H2 & _);
    [congruence..|]. done.
Qed.

Lemma started_plain text stmt w :
  qe_send_ok env = true -> qe_single_row_ok env = true -> at_rest w ->
  same_data (qw_conn (started env text w)) (qw_conn (started env stmt (plain_request w))) /\
  qc_wrap (qw_conn (started env stmt (plain_request w))) = wrap_clear /\
  qw_out (started env stmt (plain_request w)) = qw_out w /\
  qw_notices (started env stmt (plain_request w)) = qw_notices w.
Proof.
  intros Hs Hr [Ht Hp _]. destruct (dispatch_data text w) as (Hd & _ & _).
  destruct (dispatch_data stmt (plain_request w)) as (Hd' & Ho' & Hn').
  unfold started, on_conn. simpl_upd. rewrite Ho', Hn'. unfold plain_request at 3 4. simpl_upd.
  pose proof (same_data_fields _ _ Hd) as (_&_&Ep&Et&_). revert Ep Et. simpl_upd. intros Ep Et.
  destruct (send_data env (qw_conn (async_query_idle text w)) Hs Hr) as (_ & _ & H3);
    [congruence..|]. split; [|split; [|done]].
  - apply H3. rewrite Hd, Hd'. unfold plain_request. simpl_upd. by destruct (qw_conn w).
  - destruct (same_send env (qw_conn (async_query_idle stmt (plain_request w)))) as (-> & _).
    destruct (query_start_wrap env (qw_conn (async_query_idle stmt (plain_request w))))
      as (_ & _ & _ & ->). unfold async_query_idle, plain_request. cbv zeta. simpl_upd.
    unfold with_session, reset_dispatch_wrapper. cbn [px_session]. simpl_upd.
    change (0 <? 0) with false. cbv iota. simpl_upd. cbn [andb]. by simpl_upd.
Qed.

Lemma sets_over w : sets_left 0 w -> wait_notice_uses_session_queue w = false.
Proof.
  intros [Sp _ So]. unfold wait_notice_uses_session_queue, consuming_wrapper_set.
  rewrite Sp, So. by destruct (is_extended_wait w).
Qed.

Lemma nothing_pending q : pending_list q = [] -> pending_bytes q = [].
Proof. intros H. unfold pending_bytes. by rewrite H. Qed.

(** Both runs once the SETs are consumed, [k] of them short of the count. *)
Lemma sets_consumed text stmt w sets ops :
  qe_send_ok env = true -> qe_single_row_ok env = true -> at_rest w ->
  let n := wr_stmt_pending (qc_wrap (qw_conn (started env text w))) in
  Z.of_nat (length sets) <= n -> forallb set_succeeded sets = true ->
  exists w' N, async_query env text (sets ++ ops) w = run_query env ops w' /\
    same_data (qw_conn w') (qw_conn (started env stmt (plain_request w))) /\
    at_first_result (qw_conn w') /\
    sets_left (n - Z.of_nat (length sets)) (qc_wrap (qw_conn w')) /\
    same_output N w' (started env stmt (plain_request w)) /\
    (forallb quiet sets = true -> N = []).
Proof.
  intros Hs Hr Hw n Hlen Hsets. destruct (started_first text w Hs Hr Hw) as (Hf & Hk & Ho & Hn).
  destruct (started_plain text stmt w Hs Hr Hw) as (Hd & _ & Ho' & Hn').
  destruct (sets_run env ops sets n _ Hsets Hlen Hf Hk) as (w' & E & D & S & O & Q).
  exists w', (pending_bytes (qw_notices w')). split; [exact E|]. split; [by rewrite D|].
  split; [by apply (first_same _ (qw_conn (started env text w)))|]. split; [done|].
  assert (pending_bytes (qw_notices w) = []) as Hnone by apply nothing_pending, Hw.
  split.
  - split; [by rewrite Hn'|]. left. split; [done|]. congruence.
  - intros Hq. by rewrite Q, Hn.
Qed.

End Start.

(** C21: The wrapper SETs of a query do not show.  On a connection at rest, when
    the results of all SETs in front of the statement succeed, whatever comes
    after them (rows, runs of rows, COPY, errors, notices, further statements, a
    lost connection) is treated as it is for the statement sent alone: the same
    assertions hold, the query ends with the same error and result, and the
    client gets the same bytes, except that the wait-timeout notices rescued
    from the SETs come in front of its output and the final ReadyForQuery may
    carry another LSN.  Without such notices the bytes are the same. *)
Theorem wrapper_sets_are_invisible env text stmt w sets ops :
  qe_send_ok env = true -> qe_single_row_ok env = true -> at_rest w ->
  wr_stmt_pending (qc_wrap (qw_conn (started env text w))) = Z.of_nat (length sets) ->
  forallb set_succeeded sets = true ->
  exists N,
    option_Forall2 (same_to_client env N)
      (async_query env text (sets ++ ops) w) (async_query env stmt ops (plain_request w)) /\
    (forallb quiet sets = true -> N = []).
Proof.
  intros Hs Hr Hw Hn Hsets.
  destruct (sets_consumed env text stmt w sets ops Hs Hr Hw) as (w' & N & E & D & F & S & O & Q);
    [by rewrite Hn|done|]. rewrite Hn, Z.sub_diag in S.
  exists N. split; [|done]. rewrite E. unfold async_query. apply seen_run. left.
  destruct (started_plain env text stmt w Hs Hr Hw) as (_ & Hp & _).
  constructor; [done|by apply sets_over| |intros _|done].
  - unfold started in Hp. by rewrite Hp.
  - destruct (same_data_fields _ _ D) as (_ & Er & _). unfold started in Er. rewrite <- Er.
    by rewrite (fr_result _ F).
Qed.

Lemma sample_at_rest : at_rest (sample_query_world false).
Proof. by constructor. Qed.

Lemma wrapper_sets_are_invisible_witness :
  let wrapped := async_query sample_query_env sample_wait_text
    [set_done; set_done; set_done; one_row; rows_done; no_more] (sample_query_world false) in
  let plain := async_query sample_query_env "SELECT 1" [one_row; rows_done; no_more]
    (plain_request (sample_query_world false)) in
  option_Forall2 (same_to_client sample_query_env []) wrapped plain /\
  (w ← wrapped; qr ← qc_result (qw_conn w); map fst <$> parse_frames (wire qr)) =
    Some ["T"; "D"; "C"; "Z"]%char.
Proof.
  destruct (wrapper_sets_are_invisible sample_query_env sample_wait_text "SELECT 1"
    (sample_query_world false) [set_done; set_done; set_done] [one_row; rows_done; no_more])
    as (N & H & HN); [done|done|exact sample_at_rest|by vm_compute|done|].
  rewrite (HN eq_refl) in H. split; [exact H|]. vm_compute. reflexivity.
Defined.

(** ** A SET that fails *)

(** The handler ends the consumption of wrapper results. *)
Lemma error_marks env r w :
  wr_was_wrapped (qc_wrap (qw_conn w)) = true ->
  consuming_wrapper_set (qc_wrap (qw_conn w)) = true ->
  qw_conn (polardb_handle_wrapper_set_error env r w) =
    qw_conn w <| qc_wrap := mark_wrapper_set_failed (qc_wrap (qw_conn w)) |>.
Proof.
  intros Hw Hc. unfold polardb_handle_wrapper_set_error. cbv zeta. rewrite Hw, Hc. cbn [negb].
  assert (forall w1, qw_conn w1 = qw_conn w -> qw_conn (mark_failed w1) =
    qw_conn w <| qc_wrap := mark_wrapper_set_failed (qc_wrap (qw_conn w)) |>) as Hm.
  { intros w1 E. unfold mark_failed, on_conn. simpl_upd. by rewrite E. }
  unfold polardb_wrapper_error_accounting. cbn [negb wea_mark_wrapper_failed].
  rewrite orb_true_r. destruct (negb (polardb_wait_active _)); apply Hm.
  - destruct (_ && (_ && _)); [|done]. destruct (polardb_account_txn_split_wait_timeout _).
    unfold count_timeout. by simpl_upd.
  - destruct (wea_account_wait_timeout _); [destruct (polardb_account_wait_timeout _ _)|];
      unfold count_timeout; destruct (wea_mark_timeout_error _); by simpl_upd.
Qed.

Lemma failed_set_related env N r w d k :
  same_data (qw_conn w) (qw_conn d) -> sets_left k (qc_wrap (qw_conn w)) -> 0 < k ->
  wait_notice_uses_session_queue (qc_wrap (qw_conn d)) = false -> result_ready (qw_conn d) ->
  same_output N w d -> related N (failed_set env r w) d.
Proof.
  intros Hd [Sp Sw So] Hk Hp Hr Ho. unfold failed_set.
  set (w1 := if consuming_txn_split_xids_reset _ then _ else w).
  assert (same_data (qw_conn w1) (qw_conn w) /\ qc_wrap (qw_conn w1) = qc_wrap (qw_conn w) /\
          qw_notices w1 = qw_notices w /\ qw_out w1 = qw_out w) as (D1 & W1 & N1 & O1).
  { subst w1. destruct (consuming_txn_split_xids_reset _); [|done]. unfold on_conn. simpl_upd.
    repeat split. }
  clearbody w1. destruct (error_frame env r w1) as [N2 O2].
  assert (consuming_wrapper_set (qc_wrap (qw_conn w1)) = true) as Hc.
  { unfold consuming_wrapper_set. rewrite W1, Sp. by apply Z.ltb_lt. }
  assert (wr_was_wrapped (qc_wrap (qw_conn w1)) = true) as Hw by (rewrite W1; by apply Sw).
  constructor; rewrite ?(error_marks env r w1 Hw Hc); try done.
  - rewrite <- Hd, <- D1. by destruct (qw_conn w1).
  - simpl_upd. unfold wait_notice_uses_session_queue, consuming_wrapper_set, is_extended_wait,
      mark_wrapper_set_failed. simpl_upd. rewrite W1, So. cbn. by rewrite andb_false_r.
  - revert Ho. apply output_keep; congruence.
Qed.

Lemma set_error_not_success st : is_set_error st = true -> is_set_success st = false.
Proof. by destruct st. Qed.

(** The event of a failing SET, next to the same event for the statement alone. *)
Lemma failed_set_event env N r copy copy_end w d k :
  is_set_error (pr_status r) = true ->
  at_first_result (qw_conn w) -> same_data (qw_conn w) (qw_conn d) ->
  sets_left k (qc_wrap (qw_conn w)) -> 0 < k ->
  wait_notice_uses_session_queue (qc_wrap (qw_conn d)) = false -> same_output N w d ->
  option_Forall2 (same_to_client env N) (deliver env [] (Ev_result (Some r) copy copy_end) w)
    (deliver env [] (Ev_result (Some r) copy copy_end) d).
Proof.
  intros He Hf Hd Hs Hk Hp Ho.
  assert (at_first_result (qw_conn d)) as Hfd by (by apply (first_same _ (qw_conn w))).
  unfold deliver. apply (related_bind (same_to_client env N));
    [|intros a b; apply seen_next_statement].
  unfold one_event. rewrite (fr_status _ Hf), (fr_status _ Hfd).
  change (At_results != At_results) with false. cbv iota. cbn [fold_left].
  set (f := fun c => c <| qc_result_type := From_libpq |> <| qc_pgsql_result := Some r |>).
  assert (forall c, at_first_result c ->
    fetch_result_cont env (Ev_result (Some r) copy copy_end) c = (true, f c)) as Hfetch
    by (intros c Hc; unfold fetch_result_cont; by rewrite (fr_pgsql _ Hc)).
  rewrite !Hfetch by done. cbn [negb]. apply pass_then_after.
  unfold use_result, f, on_conn. simpl_upd. unfold libpq_result. simpl_upd.
  assert (consuming_wrapper_set (qc_wrap (qw_conn w)) = true) as ->.
  { unfold consuming_wrapper_set. rewrite (sl_pending _ _ Hs). by apply Z.ltb_lt. }
  rewrite (queue_not_consuming _ Hp), He, (set_error_not_success _ He). cbn [andb].
  apply (related_body env N r copy copy_end).
  - apply (failed_set_related env N r _ _ k); simpl_upd; try done.
    + by apply blind_pgsql, blind_result_type.
    + intros _. simpl_upd. by rewrite (fr_result _ Hfd).
  - simpl_upd. by rewrite (fr_result _ Hfd).
Qed.

(** C22: A SET that fails is reported as the failure of the statement, once.  When
    some SETs succeeded and the next one fails, no further result is taken for a
    wrapper result, and the run goes on as for the statement sent alone whose
    first result is that error: the client gets the same bytes, but for notices
    rescued before. *)
Theorem failed_set_fails_the_statement env text stmt w sets r copy copy_end ops :
  qe_send_ok env = true -> qe_single_row_ok env = true -> at_rest w ->
  Z.of_nat (length sets) < wr_stmt_pending (qc_wrap (qw_conn (started env text w))) ->
  forallb set_succeeded sets = true -> is_set_error (pr_status r) = true ->
  let failed := Op_event [] (Ev_result (Some r) copy copy_end) :: ops in
  exists N,
    option_Forall2 (same_to_client env N)
      (async_query env text (sets ++ failed) w) (async_query env stmt failed (plain_request w)) /\
    (forallb quiet sets = true -> N = []).
Proof.
  intros Hs Hr Hw Hn Hsets He failed.
  destruct (sets_consumed env text stmt w sets failed Hs Hr Hw)
    as (w' & N & E & D & F & S & O & Q); [lia|done|].
  exists N. split; [|done]. rewrite E. unfold async_query, failed. cbn [run_query query_step].
  destruct (started_plain env text stmt w Hs Hr Hw) as (_ & Hp & _).
  apply (related_bind (same_to_client env N)); [|intros a b; apply seen_run].
  eapply (failed_set_event env N r copy copy_end w' (started env stmt (plain_request w)));
    [done|done|done|exact S|lia|by rewrite Hp|done].
Qed.

Definition sample_set_error : pg_result :=
  mkResult PGRES_FATAL_ERROR
    [("S"%char, "ERROR"); ("C"%char, "42704"); ("M"%char, "unrecognized configuration parameter")]
    [] [] "" "" false [].

Lemma failed_set_fails_the_statement_witness :
  let failed := [Op_event [] (Ev_result (Some sample_set_error) [] 0); no_more] in
  let wrapped := async_query sample_query_env sample_wait_text ([set_done] ++ failed)
                   (sample_query_world false) in
  let plain := async_query sample_query_env "SELECT 1" failed
                 (plain_request (sample_query_world false)) in
  option_Forall2 (same_to_client sample_query_env []) wrapped plain /\
  (w ← wrapped; qr ← qc_result (qw_conn w); map fst <$> parse_frames (wire qr)) =
    Some ["E"; "Z"]%char.
Proof.
  destruct (failed_set_fails_the_statement sample_query_env sample_wait_text "SELECT 1"
    (sample_query_world false) [set_done] sample_set_error [] 0 [no_more])
    as (N & H & HN); [done|done|exact sample_at_rest|by vm_compute|done|done|].
  rewrite (HN eq_refl) in H. split; [exact H|]. vm_compute. reflexivity.
Defined.
